(* ===== verification/_CoqProject ===== *)
-Q . S2P
Prelude.v
Cmem.v
MqttBuffer.v
MqttCodec.v
MqttPack.v
MqttDataPoint.v
MqttSend.v
MqttRecv.v
RingBuffer.v
NetUtils.v
Cstr.v
AtClient.v
AtSetup.v
KString.v
Printf.v
Kprintf.v
Kservice.v
Heap.v
Klist.v
Kernel.v
Object.v
Timer.v
Sched.v
Thread.v
Boot.v
Tick.v
Ipc.v
Mutex.v
Event.v
Mailbox.v
MsgQueue.v
MemPool.v
System.v
EdpKit.v
EdpPacket.v
EdpDemo.v
Device.v
Serial.v
LwMqtt.v
LwRequests.v
LwClient.v
LwPublish.v
Voice.v
Gsm.v
GsmFrames.v
Connect.v
