(* ===== verification/Prelude.v ===== *)
(** * A verification development of the ESP32 AT-component and MQTT SDK

    The repository (src/rt-thread-3.0.3/) is RT-Thread 3.0.3 with an AT client
    for ESP32 modules and the MQTT client of the OneNET platform.  This library
    models the code that carries the program's own logic, from the MQTT packets
    down to the lists of the kernel, and proves it correct.

    ** How the parts interact

    An application builds MQTT packets in a packet buffer and sends them through
    a write callback; what arrives is read by a read callback, cut into packets
    and dispatched to handlers, which answer and call the application.  The
    network is an ESP32 behind a serial line: the AT client sends commands and a
    parser thread collects the lines of the responses, with characters coming
    from a ring buffer that an interrupt fills.  Caller and parser synchronise
    with semaphores and mutexes of the kernel, which keep threads in waiting
    lists; timers, driven by the tick, end waits and sleeps; the scheduler runs
    the first ready thread of the highest priority.  Memory comes from the small
    memory heap, messages are printed by the kernel's own printf.

    ** The files

    - [Prelude]: wrapping of machine words, the state monad [M] in which [None]
      is undefined behaviour, its weakest preconditions [wp] (total: a proof of
      [wp] shows that the computation is defined and ends), arrays as lists, bits.
    - [Cmem]: a C memory of blocks, and its assertions.
    - [MqttBuffer], [MqttCodec], [MqttPack], [MqttDataPoint], [MqttSend],
      [MqttRecv]: components/net/Protocol/mqtt (mqtt.c, mqtt_buffer.c).
    - [EdpKit], [EdpPacket], [EdpDemo]: components/net/Protocol/edp (EdpKit.c, and
      the receiving function of EdpDemo.c), the second protocol of the platform.
    - [RingBuffer]: components/drivers/src/ringbuffer.c.
    - [NetUtils]: components/net/Utils/utils.c (the CRC).
    - [Device]: src/device.c, and what a driver promises to it; [Serial]:
      components/drivers/serial/serial.c, which keeps the promise.
    - [LwMqtt], [LwRequests], [LwClient], [LwPublish]: the MQTT client that the
      application connects with, components/net/lwip-2.0.2/src/apps/mqtt/mqtt.c, and
      the functions of APP_OneNet.c that connect and subscribe.
    - [Cstr], [AtClient], [AtSetup]: components/net/at (at_client.c, at_utils.c).
    - [Voice], [Gsm], [GsmFrames], [Connect]: bsp/stm32f10x/applications: the
      announcement of payments (AppVoice.c), the frames of the payment server and what
      they do (gsm_comm.c), and the sequences of AT commands that connect the module
      (gsm_comm.c, APP_BLE.c), which run on the AT client of [AtClient].
    - [KString], [Kprintf], [Kservice]: src/kservice.c; [Printf]: what a format means
      in the C standard, on its syntax, for [Kprintf] to be compared with.
    - [Heap]: src/mem.c.
    - [Klist]: the lists of include/rtservice.h; [Kernel]: the structures of
      include/rtdef.h and the state of the kernel; [Object]: src/object.c;
      [Timer]: src/timer.c and src/clock.c; [Sched]: src/scheduler.c; [Thread]:
      src/thread.c; [Boot]: the start of the kernel; [Tick]: rt_tick_increase;
      src/ipc.c is [Ipc] (waiting lists and semaphores), [Mutex], [Event],
      [Mailbox] and [MsgQueue]; src/mempool.c is [MemPool]; [System] composes
      threads, ticks and IPC objects.

    A definition has the name of the C function it models; parts of a function
    (a loop, a branch) have names of their own and say where they come from.
    Structures are records, pointers are block and offset in the MQTT files,
    offsets from the start of the pool in [Heap], and names of objects in the
    kernel files, where the fields of an object are in a finite map and the list
    nodes are named by the structure that they are embedded in.

    ** The invariant of the kernel

    [Thread.kinv_at k L A] relates a state [k] of the kernel to an abstract state
    [A]: the time, the timers that run with their due times (in Z, without the
    wrap of the tick), the ready threads of every priority and the threads that
    wait in the list of every IPC object.  [L] are the sequences that the linked
    lists represent.  Every operation of threads, timers and IPC objects is a
    lemma that takes [kinv_at] to [kinv_at] of the new abstract state; the
    properties are read off the abstract states.  [Boot] shows that the
    initialisation functions establish it.

    ** What the theorems show

    - Kernel: the lists are sequences ([Klist.lists_refine_sequences]); timers
      stay ordered ([Timer.rt_timer_start_ordered]), and those that are due, late
      ones included, fire at the next check, exactly once
      ([Timer.rt_timer_check_fires]); a tick ends
      and keeps the invariant ([Tick.rt_tick_increase_safe]); a sleep ends at its
      tick ([Tick.rt_thread_sleep_wakes]); yields are a round robin
      ([Tick.rt_thread_yield_round_robin]);
      semaphores, mutexes, events, mailboxes and message queues refine a counter,
      an owner with a depth, a set of bits and bounded queues, memory pools a
      stack of free blocks, each with the threads that wait ([Ipc.semaphore_refines] and so on): every operation is
      defined, has the result and the new state of the specification, and leaves
      everything else as it was; in every reachable state of a system of threads
      that use them, with ticks in between, the invariant holds, the next
      operation is defined and mutexes exclude each other's owners ([System];
      without memory pools, whose count of waiting threads a timeout spoils).
    - Heap: the regions that are held never overlap, in every reachable state;
      allocation is first fit on the list of blocks, freeing gives back one
      region, resizing keeps the others, and every operation ends.
    - Kernel service: the word-wise memory functions compute the byte-wise ones
      for every alignment and overlap; printf writes the text that the C standard
      gives for the format ([Printf.text_of]), without "%o", a precision of 0 and the
      flag "0" with a precision, and never more than the buffer takes.
    - AT client: a complete answer ends up line by line in the response object;
      the parser is memory-safe for every input; in every interleaving of the steps
      of the caller with lines of the parser the shared response is consistent up to
      the answers that were completed between a timeout and its detaching, which are
      counted ([AtClient.exec_handshake]); initialisation leaks nothing; the waiting
      loop ends.
    - Devices: a program that opens, reads and closes a serial device in interrupt
      mode sees a bounded queue of the characters that arrive, whatever arrives
      before and during its reads ([Serial.serial_sessions_refine]).
    - Ring buffer: for every sequence of operations a bounded queue; an overflow of
      rt_ringbuffer_put_force, which breaks the queue, is part of the statement.
    - MQTT: packets have the bytes of the MQTT 3.1.1 standard; receiving is
      memory-safe for every input; a published message reaches the application
      once; encodings can be read back; the UTF-8 check accepts exactly UTF-8.
    - MQTT client of the application: the queue of requests is a table with the times
      that they have left ([LwRequests.requests_refine]); CONNECT, SUBSCRIBE and
      PUBLISH packets have the bytes of the standard; every message has the effect of
      its kind; taking a message is memory-safe exactly when neither its topic length
      wraps nor a callback that it needs is null
      ([LwClient.mqtt_message_received_safe]); the result of connecting is given for
      every answer of the server that is not a PUBLISH ([LwClient.onenet_connects]); the
      timer gives up a server that is silent ([LwPublish]).
    - Application: in every state that bytes of the payment server, polls and
      announcements lead to, in any number and order, the receiver, the poll and the
      handlers stay inside their buffers, the poll when the queue of announcements has
      a free place ([GsmFrames.server_input_safe]; a poll is one step, and
      [GsmFrames.restart_race] shows what the interrupt can do in it); a payment frame is queued and acknowledged with a
      PUBLISH packet; the announcement of an amount is the numeral of its yuan, digit by
      digit with the units ([Voice]); from every station, commands that the module
      accepts lead to the connection, refused ones to a new start ([Connect]).
    - EDP: the bytes that one call of Recv_Thread_Func receives are cut into exactly
      their complete packets ([EdpDemo.edp_stream]); packets can be taken apart again; taking apart is memory-safe for every
      packet, with the exception of the functions that take a 32-bit length.

    ** Fuel and bounds

    Loops of the code that are not structural take fuel.  The theorems say that
    the result is defined with a given amount: the size of the map of list nodes
    for walks along a list, the number of timers for the timer check, the number
    of headers for the heap, the length of the input for parsers.  Integers are
    in Z, with the wrap of their width written out ([u8], [u16], [u32], [s32]);
    pointers and int have 32 bits, char is unsigned, as on the ARM of the board.

    ** Not modelled

    Context switches, stacks, interrupt masking (each operation that runs with
    interrupts disabled is one step) and hooks; soft timers, signals and modules,
    which the configuration leaves out; the busy-wait delays of utils.c; the code
    that only passes data on: the drivers of the hardware, the socket layer over the AT client
    and the rest of the application (starting the threads, the registration over HTTP,
    the functions of gsm_comm.c that nothing calls); at_server.c and at_cli.c; the
    EDP packets with cJSON objects or encryption; the
    shell (finsh) and the code of other projects in the tree (lwIP, uIP, libjpeg,
    libpng, zlib, Lua, FatFs, JFFS2, UFFS, CMSIS, the STM32 library, cJSON).
    rt_memheap and the slab allocator are not configured. *)

From stdpp Require Export base tactics option list numbers gmap.
#[export] Set Default Proof Using "Type".

Open Scope Z_scope.

(** ** Machine integers

    The target is a 32-bit ARM: [int], [long], [size_t] and pointers have 32
    bits, and plain [char] is unsigned.  Integers are [Z]; a value of an
    unsigned w-bit type is kept in [0, 2^w) by the wrapping functions below,
    written out where the C code can wrap. *)

Definition u8 (z : Z) : Z := z mod 2 ^ 8.
Definition u16 (z : Z) : Z := z mod 2 ^ 16.
Definition u32 (z : Z) : Z := z mod 2 ^ 32.

(** Conversion to a signed 32-bit [int]. *)
Definition s32 (z : Z) : Z := (z + 2 ^ 31) mod 2 ^ 32 - 2 ^ 31.

(** Conversion to a signed 16-bit [short]. *)
Definition s16 (z : Z) : Z := (z + 2 ^ 15) mod 2 ^ 16 - 2 ^ 15.

Create HintDb word discriminated.
Create Rewrite HintDb word.
Create Rewrite HintDb zlen.

Lemma u8_small z : 0 <= z < 256 -> u8 z = z.
Proof. intros; by apply Z.mod_small. Qed.

Lemma u16_small z : 0 <= z < 65536 -> u16 z = z.
Proof. intros; by apply Z.mod_small. Qed.

Lemma u32_small z : 0 <= z < 2 ^ 32 -> u32 z = z.
Proof. intros; by apply Z.mod_small. Qed.

Lemma u8_range z : 0 <= u8 z < 256.
Proof. by apply Z.mod_pos_bound. Qed.

Lemma u16_range z : 0 <= u16 z < 65536.
Proof. by apply Z.mod_pos_bound. Qed.

Lemma u32_range z : 0 <= u32 z < 2 ^ 32.
Proof. by apply Z.mod_pos_bound. Qed.

Lemma s32_small z : - 2 ^ 31 <= z < 2 ^ 31 -> s32 z = z.
Proof. intros; unfold s32; rewrite Z.mod_small; lia. Qed.

#[export] Hint Resolve u8_range u16_range u32_range : word.
#[export] Hint Rewrite u8_small u16_small u32_small s32_small using lia : word.

(** ** Undefined behaviour and state

    [M S A] is a computation over a state [S] that returns an [A] or is
    undefined: [None] is C's undefined behaviour (an access outside every
    live block, a read of an indeterminate pointer, a null dereference). *)

Definition M (S A : Type) : Type := S -> option (A * S).

#[export] Instance M_ret S : MRet (M S) := fun A a s => Some (a, s).
#[export] Instance M_bind S : MBind (M S) := fun A B f m s =>
  match m s with
  | Some (a, s') => f a s'
  | None => None
  end.
#[export] Instance M_fmap S : FMap (M S) := fun A B f m s =>
  match m s with
  | Some (a, s') => Some (f a, s')
  | None => None
  end.

(** The computation that is undefined in every state. *)
Definition ub {S A} : M S A := fun _ => None.

Definition get {S} : M S S := fun s => Some (s, s).
Definition put {S} (s : S) : M S unit := fun _ => Some (tt, s).

(** Lift an option: [None] is undefined behaviour. *)
Definition of_opt {S A} (o : option A) : M S A := fun s =>
  match o with Some a => Some (a, s) | None => None end.

(** ** Total-correctness weakest preconditions

    [wp m s Q]: from [s] the computation is defined and its result and final
    state satisfy [Q].  Proving a [wp] therefore proves the absence of
    undefined behaviour as well as the postcondition. *)

Definition wp {S A} (m : M S A) (s : S) (Q : A -> S -> Prop) : Prop :=
  match m s with Some (a, s') => Q a s' | None => False end.

Section wp.
Context {S : Type}.

Lemma wp_ret {A} (a : A) (s : S) Q : Q a s -> wp (mret a) s Q.
Proof. done. Qed.

Lemma wp_bind {A B} (m : M S A) (f : A -> M S B) s Q :
  wp m s (fun a s' => wp (f a) s' Q) -> wp (m ≫= f) s Q.
Proof. unfold wp, mbind, M_bind. by destruct (m s) as [[a s']|]. Qed.

Lemma wp_fmap {A B} (g : A -> B) (m : M S A) s Q :
  wp m s (fun a s' => Q (g a) s') -> wp (g <$> m) s Q.
Proof. unfold wp, fmap, M_fmap. by destruct (m s) as [[a s']|]. Qed.

Lemma wp_mono {A} (m : M S A) s (P Q : A -> S -> Prop) :
  wp m s P -> (forall a s', P a s' -> Q a s') -> wp m s Q.
Proof. unfold wp. destruct (m s) as [[a s']|]; eauto. Qed.

Lemma wp_of_opt {A} (o : option A) a (s : S) Q :
  o = Some a -> Q a s -> wp (of_opt o) s Q.
Proof. by intros ->. Qed.

Lemma wp_run {A} (m : M S A) s a s' (Q : A -> S -> Prop) :
  m s = Some (a, s') -> Q a s' -> wp m s Q.
Proof. unfold wp. by intros ->. Qed.

Lemma wp_elim {A} (m : M S A) s Q :
  wp m s Q -> exists a s', m s = Some (a, s') /\ Q a s'.
Proof. unfold wp. destruct (m s) as [[a s']|]; naive_solver. Qed.

Lemma wp_conj {A} (m : M S A) s P Q :
  wp m s P -> wp m s Q -> wp m s (fun a s' => P a s' /\ Q a s').
Proof. unfold wp. destruct (m s) as [[a s']|]; naive_solver. Qed.
End wp.

(** ** Monad laws, used to normalise programs before stepping them *)

Lemma bind_ret_l {S A B} (a : A) (f : A -> M S B) s : (mret a ≫= f) s = f a s.
Proof. done. Qed.

Lemma bind_assoc {S A B C} (m : M S A) (f : A -> M S B) (g : B -> M S C) s :
  ((m ≫= f) ≫= g) s = (m ≫= (fun a => f a ≫= g)) s.
Proof. unfold mbind, M_bind. by destruct (m s) as [[a s']|]. Qed.

(** Open every bind, or close every return, at the head of the program; they
    do not unfold the operations themselves. *)
Ltac wp_bind :=
  repeat match goal with |- wp (mbind _ _) _ _ => apply wp_bind; cbv beta end.
Ltac wp_ret :=
  repeat match goal with |- wp (mret _) _ _ => apply wp_ret; cbv beta end.
Ltac wp_pure := repeat (progress (wp_bind; wp_ret)).

(** The same, reducing the tests that became constants on the way. *)
Ltac wp_step := repeat (progress (wp_pure; cbn [negb andb orb])).

(** ** Lists indexed by [Z] *)

Definition Zlen {A} (l : list A) : Z := Z.of_nat (length l).

Lemma Zlen_app {A} (l k : list A) : Zlen (l ++ k) = Zlen l + Zlen k.
Proof. unfold Zlen. rewrite length_app. lia. Qed.

Lemma Zlen_cons {A} (x : A) l : Zlen (x :: l) = 1 + Zlen l.
Proof. unfold Zlen. simpl. lia. Qed.

Lemma Zlen_nil {A} : Zlen (@nil A) = 0.
Proof. done. Qed.

Lemma Zlen_nonneg {A} (l : list A) : 0 <= Zlen l.
Proof. unfold Zlen. lia. Qed.

Lemma Zlen_map {A B} (f : A -> B) l : Zlen (map f l) = Zlen l.
Proof. unfold Zlen. by rewrite length_map. Qed.

#[export] Hint Rewrite @Zlen_app @Zlen_cons @Zlen_nil @Zlen_map : zlen.
#[export] Hint Resolve Zlen_nonneg : word.

(** Computes lengths everywhere. *)
Ltac zlen :=
  rewrite ?Zlen_app, ?Zlen_cons, ?Zlen_map in *; change (@Zlen Z []) with 0 in *.

(** ** Arrays as lists

    An access outside the list is undefined behaviour. *)

Definition read_at {A} (d : list A) (i n : Z) : option (list A) :=
  if (0 <=? i) && (0 <=? n) && (i + n <=? Zlen d)
  then Some (take (Z.to_nat n) (drop (Z.to_nat i) d)) else None.

Definition write_at {A} (d : list A) (i : Z) (l : list A) : option (list A) :=
  if (0 <=? i) && (i + Zlen l <=? Zlen d)
  then Some (take (Z.to_nat i) d ++ l ++ drop (Z.to_nat (i + Zlen l)) d) else None.

Definition get_at {A} (d : list A) (i : Z) : option A :=
  if 0 <=? i then d !! Z.to_nat i else None.

Definition set_at {A} (d : list A) (i : Z) (x : A) : option (list A) := write_at d i [x].

Lemma read_at_mid {A} (a b c : list A) i n : i = Zlen a -> n = Zlen b ->
  read_at (a ++ b ++ c) i n = Some b.
Proof.
  intros -> ->. unfold read_at. rewrite !Zlen_app.
  pose proof (Zlen_nonneg a). pose proof (Zlen_nonneg b). pose proof (Zlen_nonneg c).
  destruct (Z.leb_spec 0 (Zlen a)), (Z.leb_spec 0 (Zlen b)),
    (Z.leb_spec (Zlen a + Zlen b) (Zlen a + (Zlen b + Zlen c))); try lia. simpl.
  unfold Zlen. rewrite !Nat2Z.id, drop_app_length, take_app_length. done.
Qed.

Lemma write_at_mid {A} (a b c l : list A) i : i = Zlen a -> Zlen l = Zlen b ->
  write_at (a ++ b ++ c) i l = Some (a ++ l ++ c).
Proof.
  intros -> Hl. unfold write_at. rewrite !Zlen_app.
  pose proof (Zlen_nonneg a). pose proof (Zlen_nonneg b). pose proof (Zlen_nonneg c).
  destruct (Z.leb_spec 0 (Zlen a)), (Z.leb_spec (Zlen a + Zlen l) (Zlen a + (Zlen b + Zlen c))); try lia.
  simpl. rewrite (assoc_L (++) a b c). do 2 f_equal.
  - unfold Zlen. by rewrite Nat2Z.id, <-(assoc_L (++)), take_app_length.
  - f_equal. apply drop_app_length'. unfold Zlen in *. rewrite length_app. lia.
Qed.

Lemma read_at_0 {A} (b c : list A) n : n = Zlen b -> read_at (b ++ c) 0 n = Some b.
Proof. intros ->. by apply (read_at_mid [] b c). Qed.

Lemma read_at_end {A} (a b : list A) i n : i = Zlen a -> n = Zlen b -> read_at (a ++ b) i n = Some b.
Proof. intros -> ->. rewrite <-(app_nil_r b) at 1. by apply (read_at_mid a b []). Qed.

Lemma write_at_0 {A} (b c l : list A) : Zlen l = Zlen b -> write_at (b ++ c) 0 l = Some (l ++ c).
Proof. intros. by apply (write_at_mid [] b c l). Qed.

Lemma write_at_end {A} (a b l : list A) i : i = Zlen a -> Zlen l = Zlen b ->
  write_at (a ++ b) i l = Some (a ++ l).
Proof.
  intros -> Hl. rewrite <-(app_nil_r b). rewrite (write_at_mid a b [] l) by done.
  by rewrite app_nil_r.
Qed.

Lemma get_at_mid {A} (a c : list A) x i : i = Zlen a -> get_at (a ++ x :: c) i = Some x.
Proof.
  intros ->. unfold get_at. destruct (Z.leb_spec 0 (Zlen a)); [|pose proof (Zlen_nonneg a); lia].
  unfold Zlen. rewrite Nat2Z.id. by apply list_lookup_middle.
Qed.

Lemma set_at_mid {A} (a c : list A) x y i : i = Zlen a -> set_at (a ++ x :: c) i y = Some (a ++ y :: c).
Proof. intros ->. by apply (write_at_mid a [x] c [y]). Qed.

(** Inside the array the accesses succeed and keep the length. *)
Lemma read_at_Some {A} (d : list A) i n : 0 <= i -> 0 <= n -> i + n <= Zlen d ->
  exists l, read_at d i n = Some l /\ Zlen l = n.
Proof.
  intros Hi Hn Hd. unfold read_at.
  destruct (Z.leb_spec 0 i), (Z.leb_spec 0 n), (Z.leb_spec (i + n) (Zlen d)); try lia.
  eexists. split; [reflexivity|]. unfold Zlen in *. rewrite length_take, length_drop. lia.
Qed.

Lemma write_at_Some {A} (d l : list A) i : 0 <= i -> i + Zlen l <= Zlen d ->
  exists d', write_at d i l = Some d' /\ Zlen d' = Zlen d.
Proof.
  intros Hi Hd. unfold write_at.
  destruct (Z.leb_spec 0 i), (Z.leb_spec (i + Zlen l) (Zlen d)); try lia.
  eexists. split; [reflexivity|]. unfold Zlen in *. rewrite !length_app, length_take, length_drop. lia.
Qed.

Lemma set_at_Some {A} (d : list A) i x : 0 <= i < Zlen d ->
  exists d', set_at d i x = Some d' /\ Zlen d' = Zlen d.
Proof. intros. apply write_at_Some; [lia|]. change (Zlen [x]) with 1. lia. Qed.

Lemma set_at_insert {A} (d : list A) i x : 0 <= i < Zlen d -> set_at d i x = Some (<[Z.to_nat i := x]> d).
Proof.
  intros Hi. unfold set_at, write_at. change (Zlen [x]) with 1. rewrite (proj2 (Z.leb_le _ _)), (proj2 (Z.leb_le _ _)) by lia. cbn [andb].
  unfold Zlen in Hi. f_equal. rewrite insert_take_drop by lia. by replace (Z.to_nat (i + 1)) with (Datatypes.S (Z.to_nat i)) by lia.
Qed.

Lemma take_Zlen {A} (a b : list A) : take (Z.to_nat (Zlen a)) (a ++ b) = a.
Proof. unfold Zlen. by rewrite Nat2Z.id, take_app_length. Qed.

Lemma drop_Zlen {A} (a b : list A) : drop (Z.to_nat (Zlen a)) (a ++ b) = b.
Proof. unfold Zlen. by rewrite Nat2Z.id, drop_app_length. Qed.

(** A list cut after [n] elements. *)
Lemma cut {A} (l : list A) n : 0 <= n <= Zlen l ->
  exists l1 l2, l = l1 ++ l2 /\ Zlen l1 = n /\ Zlen l2 = Zlen l - n.
Proof.
  intros Hn. exists (take (Z.to_nat n) l), (drop (Z.to_nat n) l). unfold Zlen in *.
  rewrite take_drop, length_take, length_drop. split_and!; [done|lia|lia].
Qed.

(** The longer of two prefixes extends the other. *)
Lemma app_eq_longer {A} (a b c d : list A) : a ++ b = c ++ d -> Zlen c <= Zlen a ->
  exists e, a = c ++ e /\ d = e ++ b.
Proof.
  intros Heq Hl. apply app_eq_inv in Heq as [(k & -> & ->)|(k & -> & ->)]; [by exists k|].
  exists []. destruct k as [|x k]; [split; [by rewrite !app_nil_r|done]|].
  unfold Zlen in Hl. rewrite length_app in Hl. simpl in Hl. lia.
Qed.

Lemma Zlen_pos {A} (l : list A) : 0 < Zlen l -> exists x l', l = x :: l'.
Proof. destruct l as [|x l']; [done|]. by exists x, l'. Qed.

(** ** Bytes and bits *)

(** A boolean property of the first [n] numbers is decided by checking them. *)
Lemma range_forall (n : nat) (P : Z -> bool) :
  forallb P (map Z.of_nat (seq 0 n)) = true -> forall v, 0 <= v < Z.of_nat n -> P v = true.
Proof.
  intros Hall v Hv. rewrite forallb_forall in Hall. apply Hall.
  apply in_map_iff. exists (Z.to_nat v). split; [lia|]. apply in_seq. lia.
Qed.

(** A boolean property of bytes is decided by checking the 256 of them. *)
Lemma byte_forall (P : Z -> bool) :
  forallb P (map Z.of_nat (seq 0 256)) = true -> forall b, 0 <= b < 256 -> P b = true.
Proof. apply (range_forall 256). Qed.

Lemma byte_forall_prop (P : Z -> bool) b : 0 <= b < 256 ->
  forallb P (map Z.of_nat (seq 0 256)) = true -> P b = true.
Proof. intros. by apply byte_forall. Qed.

(** A high part and [k] low bits: no bit in common. *)
Lemma land_shiftl_low a b k : 0 <= k -> 0 <= b < 2 ^ k -> Z.land (Z.shiftl a k) b = 0.
Proof.
  intros Hk Hb. apply Z.bits_inj'. intros n Hn. rewrite Z.land_spec, Z.bits_0.
  destruct (Z.lt_ge_cases n k) as [Hlt|Hge].
  - by rewrite Z.shiftl_spec_low.
  - replace b with (b mod 2 ^ k) by (by apply Z.mod_small).
    rewrite (Z.mod_pow2_bits_high b k n) by lia. apply andb_false_r.
Qed.

Lemma lor_shiftl_add a b k : 0 <= k -> 0 <= b < 2 ^ k ->
  Z.lor (Z.shiftl a k) b = a * 2 ^ k + b.
Proof.
  intros Hk Hb. rewrite <-Z.shiftl_mul_pow2 by done. symmetry. apply Z.add_nocarry_lor.
  by apply land_shiftl_low.
Qed.

Lemma lxor_shiftl_lor a b k : 0 <= k -> 0 <= b < 2 ^ k ->
  Z.lxor (Z.shiftl a k) b = Z.lor (Z.shiftl a k) b.
Proof. intros. by apply Z.lxor_lor, land_shiftl_low. Qed.

Lemma lxor_byte a b : 0 <= a < 256 -> 0 <= b < 256 -> 0 <= Z.lxor a b < 256.
Proof.
  intros Ha Hb. assert (0 <= Z.lxor a b) by (apply Z.lxor_nonneg; lia). split; [done|].
  destruct (Z.eqb_spec (Z.lxor a b) 0) as [->|]; [done|].
  apply (Z.log2_lt_pow2 _ 8); [lia|]. pose proof (Z.log2_lxor a b ltac:(lia) ltac:(lia)).
  assert (forall c, 0 <= c < 256 -> Z.log2 c < 8) as Hlog.
  { intros c Hc. destruct (Z.eqb_spec c 0) as [->|]; [done|]. apply Z.log2_lt_pow2; lia. }
  pose proof (Hlog a Ha). pose proof (Hlog b Hb). lia.
Qed.

Lemma land_7f b : Z.land b 0x7f = b mod 128.
Proof. by apply (Z.land_ones b 7). Qed.

Lemma land_80 b : 0 <= b < 256 -> Z.land b 0x80 = if b <? 128 then 0 else 128.
Proof.
  intros Hb. apply Z.eqb_eq.
  by apply (byte_forall (fun b => Z.land b 0x80 =? (if b <? 128 then 0 else 128))).
Qed.

Lemma lor_80 b : 0 <= b < 128 -> Z.lor b 128 = b + 128.
Proof.
  intros Hb. rewrite Z.lor_comm. change 128 with (Z.shiftl 1 7) at 1.
  rewrite lor_shiftl_add; lia.
Qed.

Lemma shiftr_8 v : Z.shiftr v 8 = v / 256.
Proof. by apply Z.shiftr_div_pow2. Qed.

(** Big-endian 16 bits. *)
Definition be16 (v : Z) : list Z := [u8 (Z.shiftr v 8); u8 v].

Lemma be16_join v : 0 <= v < 65536 -> Z.lor (Z.shiftl (u8 (Z.shiftr v 8)) 8) (u8 v) = v.
Proof.
  intros Hv. rewrite lor_shiftl_add by (lia || apply u8_range).
  unfold u8. rewrite shiftr_8. change (2 ^ 8) with 256.
  rewrite (Z.mod_small (v / 256)); Z.div_mod_to_equations; lia.
Qed.
