(* ===== verification/Cmem.v ===== *)
(** * The memory the C code runs on

    A block-structured memory of byte-sized values.  A pointer is null or a
    block and an offset; a block is live or not; every access is checked
    against the bounds of a live block, and an access outside one is
    undefined behaviour ([None]).  [malloc] can fail: an oracle in the state
    decides which requests do.  Pointers stored in memory are four fragments,
    so that copying part of a pointer (as [MqttBuffer_AllocExtent] does)
    leaves an indeterminate value behind.

    [owns om m L] is the assertion language of the proofs: [L] lists cells
    (a start address and the contents from there on) that are live, hold
    those contents and do not overlap.  It is closed under permutation and
    under dropping cells, so one specification frames everything else. *)

From S2P Require Import Prelude.
From stdpp Require Import list_tactics.

Open Scope Z_scope.

Inductive ptr := Null | Ptr (b : nat) (o : Z).

Inductive memval := Undef | Byte (z : Z) | Frag (p : ptr) (i : nat).

#[export] Instance ptr_eq_dec : EqDecision ptr.
Proof. solve_decision. Defined.
#[export] Instance memval_eq_dec : EqDecision memval.
Proof. solve_decision. Defined.

(** [m_oom n] says that the [n]-th request for memory fails. *)
Record mem := Mem {
  m_blocks : gmap nat (list memval);
  m_next : nat;
  m_oom : nat -> bool;
}.

Definition padd (p : ptr) (i : Z) : ptr :=
  match p with Null => Null | Ptr b o => Ptr b (o + i) end.

(** The non-null branch of a null test on a pointer. *)
Lemma match_ptr_ne {A} (p : ptr) (a b : A) : p <> Null ->
  match p with Null => a | Ptr _ _ => b end = b.
Proof. by destruct p. Qed.

Definition mem_get (m : mem) (p : ptr) : option memval :=
  match p with
  | Null => None
  | Ptr b o => d ← m_blocks m !! b; if 0 <=? o then d !! Z.to_nat o else None
  end.

Definition mem_set (m : mem) (p : ptr) (v : memval) : option mem :=
  match p with
  | Null => None
  | Ptr b o =>
      d ← m_blocks m !! b;
      if (0 <=? o) && (o <? Zlen d)
      then Some (Mem (<[b := <[Z.to_nat o := v]> d]> (m_blocks m)) (m_next m) (m_oom m))
      else None
  end.

Fixpoint mem_read (m : mem) (p : ptr) (n : nat) : option (list memval) :=
  match n with
  | O => Some []
  | S n => x ← mem_get m p; l ← mem_read m (padd p 1) n; Some (x :: l)
  end.

Fixpoint mem_write (m : mem) (p : ptr) (l : list memval) : option mem :=
  match l with
  | [] => Some m
  | x :: l => m' ← mem_set m p x; mem_write m' (padd p 1) l
  end.

(** A new block with contents [d]. *)
Definition mem_new (m : mem) (d : list memval) : ptr * mem :=
  (Ptr (m_next m) 0,
   Mem (<[m_next m := d]> (m_blocks m)) (S (m_next m)) (m_oom m)).

(** Normalises the lengths of concrete lists. *)
Ltac zlen :=
  rewrite ?Zlen_app, ?Zlen_cons, ?Zlen_map in *;
  change (@Zlen Z []) with 0 in *; change (@Zlen memval []) with 0 in *.

(** ** Representation of integers and pointers *)

Definition le32 (v : Z) : list Z :=
  [v mod 256; (v / 2 ^ 8) mod 256; (v / 2 ^ 16) mod 256; (v / 2 ^ 24) mod 256].

Definition bytes (l : list Z) : list memval := map Byte l.

Definition memval_byte (v : memval) : option Z :=
  match v with Byte z => Some z | _ => None end.

Definition unbytes (l : list memval) : option (list Z) := mapM memval_byte l.

Definition enc_u32 (v : Z) : list memval := bytes (le32 v).

Definition dec_u32 (l : list memval) : option Z :=
  match unbytes l with
  | Some [a; b; c; d] => Some (a + b * 2 ^ 8 + c * 2 ^ 16 + d * 2 ^ 24)
  | _ => None
  end.

Definition enc_ptr (p : ptr) : list memval :=
  match p with
  | Null => bytes [0; 0; 0; 0]
  | _ => [Frag p 0; Frag p 1; Frag p 2; Frag p 3]
  end.

Definition dec_ptr (l : list memval) : option ptr :=
  match l with
  | [Byte 0; Byte 0; Byte 0; Byte 0] => Some Null
  | [Frag p 0; Frag p1 1; Frag p2 2; Frag p3 3] =>
      if decide (p1 = p /\ p2 = p /\ p3 = p) then Some p else None
  | _ => None
  end.

Lemma length_enc_u32 v : length (enc_u32 v) = 4%nat.
Proof. done. Qed.

Lemma length_enc_ptr p : length (enc_ptr p) = 4%nat.
Proof. by destruct p. Qed.

Lemma unbytes_bytes l : unbytes (bytes l) = Some l.
Proof. induction l as [|x l IH]; [done|]. unfold unbytes in *; simpl in *. by rewrite IH. Qed.

Lemma le32_sum v : 0 <= v < 2 ^ 32 ->
  v mod 256 + (v / 2 ^ 8) mod 256 * 2 ^ 8 + (v / 2 ^ 16) mod 256 * 2 ^ 16
    + (v / 2 ^ 24) mod 256 * 2 ^ 24 = v.
Proof.
  intros Hv. change (2 ^ 16) with (2 ^ 8 * 2 ^ 8). change (2 ^ 24) with (2 ^ 8 * 2 ^ 8 * 2 ^ 8).
  rewrite <-!Z.div_div by lia. change (2 ^ 8) with 256 in *.
  rewrite (Z.mod_small (v / 256 / 256 / 256)).
  - pose proof (Z.div_mod v 256). pose proof (Z.div_mod (v / 256) 256).
    pose proof (Z.div_mod (v / 256 / 256) 256). lia.
  - split; [repeat apply Z.div_pos; lia|].
    repeat (apply Z.div_lt_upper_bound; [lia|]). lia.
Qed.

Lemma dec_enc_u32 v : 0 <= v < 2 ^ 32 -> dec_u32 (enc_u32 v) = Some v.
Proof.
  intros Hv. unfold dec_u32, enc_u32. rewrite unbytes_bytes. simpl.
  f_equal. by apply le32_sum.
Qed.

Lemma dec_enc_ptr p : dec_ptr (enc_ptr p) = Some p.
Proof. destruct p; simpl; [done|]. by rewrite decide_True. Qed.

#[global] Arguments enc_ptr : simpl never.
#[global] Arguments enc_u32 : simpl never.

(** ** The operations of the C code, in the monad *)

Definition readn (p : ptr) (n : Z) : M mem (list memval) := fun m =>
  match mem_read m p (Z.to_nat n) with Some l => Some (l, m) | None => None end.

Definition writen (p : ptr) (l : list memval) : M mem unit := fun m =>
  match mem_write m p l with Some m' => Some (tt, m') | None => None end.

Definition load_byte (p : ptr) : M mem Z :=
  l ← readn p 1; l ← of_opt (unbytes l); of_opt (head l).
Definition store_byte (p : ptr) (v : Z) : M mem unit := writen p [Byte v].
Definition load_u32 (p : ptr) : M mem Z := l ← readn p 4; of_opt (dec_u32 l).
Definition store_u32 (p : ptr) (v : Z) : M mem unit := writen p (enc_u32 v).
Definition load_ptr (p : ptr) : M mem ptr := l ← readn p 4; of_opt (dec_ptr l).
Definition store_ptr (p q : ptr) : M mem unit := writen p (enc_ptr q).

(** [memmove], and [memcpy] for the non-overlapping copies of the code. *)
Definition memmove (dst src : ptr) (n : Z) : M mem unit := l ← readn src n; writen dst l.
Definition memcpy (dst src : ptr) (n : Z) : M mem unit := memmove dst src n.

Definition memset (p : ptr) (v n : Z) : M mem unit := writen p (replicate (Z.to_nat n) (Byte v)).

Definition malloc (n : Z) : M mem ptr := fun m =>
  if m_oom m (m_next m)
  then Some (Null, Mem (m_blocks m) (S (m_next m)) (m_oom m))
  else Some (mem_new m (replicate (Z.to_nat n) Undef)).

(** [free] of null is a no-op, of the start of a live block releases it, and
    of anything else is undefined. *)
Definition free (p : ptr) : M mem unit := fun m =>
  match p with
  | Null => Some (tt, m)
  | Ptr b o =>
      if decide (o = 0 /\ is_Some (m_blocks m !! b))
      then Some (tt, Mem (delete b (m_blocks m)) (m_next m) (m_oom m))
      else None
  end.

(** A local array of a function: its storage always exists, with
    indeterminate contents, and is gone when the function returns. *)
Definition with_local {A} (n : Z) (f : ptr -> M mem A) : M mem A :=
  p ← (fun m => Some (mem_new m (replicate (Z.to_nat n) Undef)));
  r ← f p;
  _ ← free p;
  mret r.

(** A string literal of the source: static storage, with its terminator. *)
Definition literal (l : list Z) : M mem ptr := fun m => Some (mem_new m (bytes l ++ [Byte 0])).

(** ** C strings *)

Fixpoint cstr_scan (l : list memval) : option (list Z) :=
  match l with
  | Byte z :: l => if z =? 0 then Some [] else s ← cstr_scan l; Some (z :: s)
  | _ => None
  end.

(** The string at [p]: the bytes up to the terminator; undefined when the
    block ends first. *)
Definition cstr (m : mem) (p : ptr) : option (list Z) :=
  match p with
  | Null => None
  | Ptr b o => d ← m_blocks m !! b; if 0 <=? o then cstr_scan (drop (Z.to_nat o) d) else None
  end.

Definition getstr (p : ptr) : M mem (list Z) := fun m =>
  match cstr m p with Some s => Some (s, m) | None => None end.

Definition strlen (p : ptr) : M mem Z := s ← getstr p; mret (Zlen s).

(** ** Ownership of cells *)

(** [Cell p d], written [p ↦ d]: the addresses from [p] on hold [d].
    [Blk b n]: block [b] is live, has [n] bytes and may be freed. *)
Inductive cell := Cell (p : ptr) (d : list memval) | Blk (b n : nat).

Notation "p ↦ d" := (Cell p d) (at level 20, d at level 20).

Fixpoint cell_flat (p : ptr) (d : list memval) : list (ptr * memval) :=
  match d with [] => [] | x :: d => (p, x) :: cell_flat (padd p 1) d end.

Definition flat (L : list cell) : list (ptr * memval) :=
  L ≫= (fun c => match c with p ↦ d => cell_flat p d | Blk _ _ => [] end).

Definition blks (L : list cell) : list (nat * nat) :=
  L ≫= (fun c => match c with _ ↦ _ => [] | Blk b n => [(b, n)] end).

(** Every live block was handed out by the allocator. *)
Definition mem_wf (m : mem) : Prop :=
  forall b d, m_blocks m !! b = Some d -> (b < m_next m)%nat.

Record owns (om : nat -> bool) (m : mem) (L : list cell) : Prop := Owns {
  owns_wf : mem_wf m;
  owns_oom : m_oom m = om;
  owns_nodup : NoDup (flat L).*1;
  owns_get : forall p x, (p, x) ∈ flat L -> mem_get m p = Some x;
  owns_blk_nodup : NoDup (blks L).*1;
  owns_blk : forall b n, (b, n) ∈ blks L -> length <$> m_blocks m !! b = Some n;
}.

Lemma padd_0 p : padd p 0 = p.
Proof. destruct p; simpl; [done|]. f_equal; lia. Qed.

Lemma padd_padd p i j : padd (padd p i) j = padd p (i + j).
Proof. destruct p; simpl; [done|]. f_equal; lia. Qed.

Lemma cell_flat_app p d1 d2 :
  cell_flat p (d1 ++ d2) = cell_flat p d1 ++ cell_flat (padd p (Zlen d1)) d2.
Proof.
  revert p. induction d1 as [|x d1 IH]; intros p; simpl.
  - by rewrite Zlen_nil, padd_0.
  - rewrite IH, padd_padd, Zlen_cons. done.
Qed.

Lemma flat_app L1 L2 : flat (L1 ++ L2) = flat L1 ++ flat L2.
Proof. apply bind_app. Qed.

Lemma blks_app L1 L2 : blks (L1 ++ L2) = blks L1 ++ blks L2.
Proof. apply bind_app. Qed.

#[export] Instance flat_perm : Proper ((≡ₚ) ==> (≡ₚ)) flat.
Proof. intros L1 L2 HL. unfold flat. by rewrite HL. Qed.

#[export] Instance blks_perm : Proper ((≡ₚ) ==> (≡ₚ)) blks.
Proof. intros L1 L2 HL. unfold blks. by rewrite HL. Qed.

(** The assertion depends on the cells only up to order. *)
#[export] Instance owns_perm om m : Proper ((≡ₚ) ==> iff) (owns om m).
Proof.
  assert (forall L1 L2, L1 ≡ₚ L2 -> owns om m L1 -> owns om m L2) as Himp.
  { intros L1 L2 HL [Hwf Hom Hnd Hget Hbn Hb]. split; [done|done| | | |].
    - by rewrite <-HL.
    - intros p x Hp. apply Hget. by rewrite HL.
    - by rewrite <-HL.
    - intros b n Hn. apply Hb. by rewrite HL. }
  intros L1 L2 HL. split; apply Himp; done.
Qed.

Lemma owns_app_drop om m L1 L2 : owns om m (L1 ++ L2) -> owns om m L2.
Proof.
  intros [Hwf Hom Hnd Hget Hbn Hb]. split; [done|done| | | |].
  - rewrite flat_app, fmap_app, NoDup_app in Hnd. apply Hnd.
  - intros p x Hp. apply Hget. rewrite flat_app, elem_of_app. by right.
  - rewrite blks_app, fmap_app, NoDup_app in Hbn. apply Hbn.
  - intros b n Hn. apply Hb. rewrite blks_app, elem_of_app. by right.
Qed.

Lemma owns_drop om m c L : owns om m (c :: L) -> owns om m L.
Proof. apply (owns_app_drop om m [c] L). Qed.

Lemma owns_sub om m L1 L2 : L2 ⊆+ L1 -> owns om m L1 -> owns om m L2.
Proof.
  intros [L3 HL]%submseteq_Permutation Ho. rewrite HL, Permutation_app_comm in Ho.
  by eapply owns_app_drop.
Qed.

Lemma owns_split om m p d1 d2 L :
  owns om m (p ↦ (d1 ++ d2) :: L) <-> owns om m (p ↦ d1 :: padd p (Zlen d1) ↦ d2 :: L).
Proof.
  assert (flat (p ↦ (d1 ++ d2) :: L) = flat (p ↦ d1 :: padd p (Zlen d1) ↦ d2 :: L)) as Heq.
  { unfold flat. simpl. rewrite cell_flat_app. by rewrite (assoc_L (++)). }
  split; intros [Hwf Hom Hnd Hget]; split; try done; (rewrite Heq || rewrite <-Heq); done.
Qed.

Lemma owns_nil_cell om m p L : owns om m L -> owns om m (p ↦ [] :: L).
Proof. intros [Hwf Hom Hnd Hget]. by split. Qed.

Lemma owns_null_cell om m p d L : owns om m (p ↦ d :: L) -> owns om m (p ↦ d :: Null ↦ [] :: L).
Proof. intros Ho. rewrite Permutation_swap. by apply owns_nil_cell. Qed.

(** Reading an owned cell. *)
Lemma mem_read_flat m p d :
  (forall q x, (q, x) ∈ cell_flat p d -> mem_get m q = Some x) ->
  mem_read m p (length d) = Some d.
Proof.
  revert p. induction d as [|x d IH]; intros p Hget; [done|]. simpl.
  rewrite (Hget p x) by (simpl; left). simpl.
  rewrite IH; [done|]. intros q y Hq. apply Hget. simpl. by right.
Qed.

Lemma owns_read om m p d L : owns om m (p ↦ d :: L) -> mem_read m p (length d) = Some d.
Proof.
  intros [_ _ _ Hget _ _]. apply mem_read_flat. intros q x Hq. apply Hget.
  unfold flat. simpl. rewrite elem_of_app. by left.
Qed.

Lemma mem_get_set m p x y : mem_get m p = Some x ->
  exists m', mem_set m p y = Some m' /\ m_next m' = m_next m /\ m_oom m' = m_oom m /\
    (forall b, length <$> m_blocks m' !! b = length <$> m_blocks m !! b) /\
    mem_get m' p = Some y /\ forall q, q <> p -> mem_get m' q = mem_get m q.
Proof.
  destruct p as [|b o]; [done|]. simpl.
  destruct (m_blocks m !! b) as [d|] eqn:Hb; [|done]. simpl.
  destruct (Z.leb_spec 0 o) as [Ho|]; [|done]. intros Hx.
  pose proof (lookup_lt_Some _ _ _ Hx) as Hlt.
  assert ((o <? Zlen d) = true) as Hltb by (apply Z.ltb_lt; unfold Zlen; lia).
  rewrite Hltb. simpl. eexists. split; [done|]. simpl.
  split; [done|]. split; [done|]. split.
  { intros b'. destruct (decide (b' = b)) as [->|Hne].
    - rewrite lookup_insert_eq, Hb. simpl. by rewrite length_insert.
    - by rewrite lookup_insert_ne. }
  split.
  - rewrite lookup_insert_eq. simpl. by apply list_lookup_insert_eq.
  - intros [|b' o'] Hne; [done|]. simpl. destruct (decide (b' = b)) as [->|Hbb].
    + rewrite lookup_insert_eq, Hb. simpl. destruct (Z.leb_spec 0 o'); [|done].
      apply list_lookup_insert_ne. intros Heq. apply Hne. f_equal. lia.
    + by rewrite lookup_insert_ne.
Qed.

Lemma owns_set om m p x y L : owns om m (p ↦ [x] :: L) ->
  exists m', mem_set m p y = Some m' /\ owns om m' (p ↦ [y] :: L).
Proof.
  intros [Hwf Hom Hnd Hget Hbn Hb].
  destruct (mem_get_set m p x y) as (m' & Hset & Hnext & Hom' & Hlen & Hsame & Hother).
  { apply Hget. unfold flat. simpl. left. }
  exists m'. split; [done|]. split; [|congruence|done| |done|].
  - intros b d Hd. specialize (Hlen b). rewrite Hd in Hlen. simpl in Hlen.
    destruct (m_blocks m !! b) eqn:Hmb; [|done]. rewrite Hnext. by eapply Hwf.
  - intros q z Hq. unfold flat in *. simpl in *.
    apply NoDup_cons in Hnd as [Hnp _]. apply elem_of_cons in Hq as [Hq|Hq].
    + by simplify_eq.
    + rewrite Hother; [apply Hget; by right|]. intros ->. apply Hnp.
      apply list_elem_of_fmap. by exists (p, z).
  - intros b n Hn. rewrite Hlen. by apply Hb.
Qed.

Lemma owns_write om m p d d' L : owns om m (p ↦ d :: L) -> length d' = length d ->
  exists m', mem_write m p d' = Some m' /\ owns om m' (p ↦ d' :: L).
Proof.
  revert m p d L. induction d' as [|y d' IH]; intros m p [|x d] L Ho Hlen; try done.
  { by exists m. }
  change (x :: d) with ([x] ++ d) in Ho. rewrite owns_split in Ho.
  apply (owns_set _ _ _ _ y) in Ho as (m1 & Hset & Ho). simpl. rewrite Hset. simpl.
  rewrite Permutation_swap in Ho. apply IH in Ho as (m' & Hw & Ho); [|simpl in *; lia].
  exists m'. split; [done|]. change (y :: d') with ([y] ++ d'). rewrite owns_split.
  by rewrite Permutation_swap.
Qed.

(** A sub-range of an owned cell. *)
Lemma owns_cut om m p d i n L : owns om m (p ↦ d :: L) -> 0 <= i -> 0 <= n -> i + n <= Zlen d ->
  owns om m (padd p i ↦ (take (Z.to_nat n) (drop (Z.to_nat i) d)) ::
             p ↦ (take (Z.to_nat i) d) ::
             padd p (i + n) ↦ (drop (Z.to_nat (i + n)) d) :: L).
Proof.
  intros Ho Hi Hn Hlen. unfold Zlen in *.
  assert (d = take (Z.to_nat i) d ++ take (Z.to_nat n) (drop (Z.to_nat i) d)
                ++ drop (Z.to_nat (i + n)) d) as Hd.
  { rewrite Z2Nat.inj_add by done. rewrite <-drop_drop. by rewrite !take_drop. }
  rewrite Hd in Ho. rewrite owns_split in Ho. rewrite Permutation_swap in Ho.
  rewrite owns_split in Ho. unfold Zlen in Ho.
  rewrite !length_take, length_drop in Ho.
  rewrite padd_padd in Ho.
  replace (Z.of_nat (Z.to_nat i `min` length d)) with i in Ho by lia.
  replace (i + Z.of_nat (Z.to_nat n `min` (length d - Z.to_nat i))) with (i + n) in Ho by lia.
  eapply owns_perm; [|exact Ho]. solve_Permutation.
Qed.

(** Overwriting the range [i, i + |l|) of a cell. *)
Definition splice (d : list memval) (i : Z) (l : list memval) : list memval :=
  take (Z.to_nat i) d ++ l ++ drop (Z.to_nat i + length l) d.

Lemma length_splice d i l : 0 <= i -> i + Zlen l <= Zlen d ->
  length (splice d i l) = length d.
Proof.
  unfold Zlen, splice. intros. rewrite !length_app, length_take, length_drop. lia.
Qed.

Lemma owns_write_at om m p d i l L : owns om m (p ↦ d :: L) -> 0 <= i -> i + Zlen l <= Zlen d ->
  exists m', mem_write m (padd p i) l = Some m' /\ owns om m' (p ↦ (splice d i l) :: L).
Proof.
  intros Ho Hi Hlen. pose proof (Zlen_nonneg l) as Hl0.
  apply (owns_cut _ _ _ _ i (Zlen l)) in Ho; [|lia..].
  eapply (owns_write _ _ _ _ l) in Ho as (m' & Hw & Ho).
  2: { unfold Zlen in *. rewrite length_take, length_drop. lia. }
  exists m'. split; [done|]. unfold splice.
  rewrite owns_split, Permutation_swap, owns_split, padd_padd.
  replace (Zlen (take (Z.to_nat i) d)) with i by (unfold Zlen in *; rewrite length_take; lia).
  replace (Z.to_nat i + length l)%nat with (Z.to_nat (i + Zlen l)) by (unfold Zlen; lia).
  eapply owns_perm; [|exact Ho]. solve_Permutation.
Qed.

Lemma owns_read_at om m p d i n L : owns om m (p ↦ d :: L) -> 0 <= i -> 0 <= n -> i + n <= Zlen d ->
  mem_read m (padd p i) (Z.to_nat n) = Some (take (Z.to_nat n) (drop (Z.to_nat i) d)).
Proof.
  intros Ho Hi Hn Hlen. apply (owns_cut _ _ _ _ i n) in Ho; [|done..].
  apply owns_read in Ho. rewrite length_take, length_drop in Ho. unfold Zlen in *.
  by replace (Z.to_nat n `min` (length d - Z.to_nat i))%nat with (Z.to_nat n) in Ho by lia.
Qed.

(** ** Allocation and release *)

Lemma cell_flat_elem p d q x : (q, x) ∈ cell_flat p d ->
  exists i, q = padd p i /\ 0 <= i < Zlen d /\ d !! Z.to_nat i = Some x.
Proof.
  revert p. induction d as [|y d IH]; intros p Hq; simpl in Hq.
  { by apply not_elem_of_nil in Hq. }
  rewrite Zlen_cons. pose proof (Zlen_nonneg d). apply elem_of_cons in Hq as [Hq|Hq].
  - simplify_eq. exists 0. rewrite padd_0. split_and!; [done|lia..|done].
  - apply IH in Hq as (i & -> & Hi & Hd). exists (1 + i). rewrite padd_padd.
    split_and!; [done|lia..|]. by replace (Z.to_nat (1 + i)) with (S (Z.to_nat i)) by lia.
Qed.

Lemma elem_cell_flat p d i x : 0 <= i -> d !! Z.to_nat i = Some x ->
  (padd p i, x) ∈ cell_flat p d.
Proof.
  revert p i. induction d as [|y d IH]; intros p i Hi Hd; [done|]. simpl.
  destruct (decide (i = 0)) as [->|Hne].
  - simpl in Hd. simplify_eq. rewrite padd_0. left.
  - right. replace (padd p i) with (padd (padd p 1) (i - 1)) by (rewrite padd_padd; f_equal; lia).
    apply IH; [lia|]. replace (Z.to_nat i) with (S (Z.to_nat (i - 1))) in Hd by lia. done.
Qed.

Lemma cell_flat_nodup b o d : NoDup (cell_flat (Ptr b o) d).*1.
Proof.
  revert o. induction d as [|x d IH]; intros o; simpl; constructor; [|apply IH].
  intros ([q y] & Hqe & Hq)%list_elem_of_fmap. simpl in Hqe. subst q.
  apply cell_flat_elem in Hq as (i & Heq & Hi & _). simpl in Heq. injection Heq. lia.
Qed.

(** Owned addresses and owned blocks are live, so the next block is fresh. *)
Lemma owns_addr_live om m L b o x : owns om m L -> (Ptr b o, x) ∈ flat L -> b <> m_next m.
Proof.
  intros Ho Hq. apply (owns_get _ _ _ Ho) in Hq. simpl in Hq.
  destruct (m_blocks m !! b) as [d|] eqn:Hd; [|done]. apply (owns_wf _ _ _ Ho) in Hd. lia.
Qed.

Lemma owns_blk_live om m L b n : owns om m L -> (b, n) ∈ blks L -> b <> m_next m.
Proof.
  intros Ho Hq. apply (owns_blk _ _ _ Ho) in Hq.
  destruct (m_blocks m !! b) as [d|] eqn:Hd; [|done]. apply (owns_wf _ _ _ Ho) in Hd. lia.
Qed.

Lemma owns_new om m d L : owns om m L ->
  owns om (mem_new m d).2 (Ptr (m_next m) 0 ↦ d :: Blk (m_next m) (length d) :: L).
Proof.
  intros Ho. pose proof Ho as [Hwf Hom' Hnd Hget Hbn Hb]. split; simpl.
  - intros b d' Hd. simpl in *. apply lookup_insert_Some in Hd as [[<- _]|[_ Hd]]; [lia|].
    apply Hwf in Hd. lia.
  - done.
  - unfold flat in *. simpl. rewrite fmap_app. apply NoDup_app.
    split_and!; [apply cell_flat_nodup| |done].
    intros q ([q1 x1] & -> & Hq1)%list_elem_of_fmap ([q2 x2] & Heq & Hq2)%list_elem_of_fmap.
    simpl in *. subst q2. apply cell_flat_elem in Hq1 as (i & -> & _).
    by eapply owns_addr_live in Hq2.
  - intros q x Hq. unfold flat in Hq. simpl in Hq. apply elem_of_app in Hq as [Hq|Hq].
    + apply cell_flat_elem in Hq as (i & -> & Hi & Hd). simpl. rewrite lookup_insert_eq, Z.add_0_l. simpl.
      destruct (Z.leb_spec 0 i); [done|lia].
    + pose proof (Hget _ _ Hq) as Hv. destruct q as [|b o]; [done|]. simpl in *.
      rewrite lookup_insert_ne; [done|]. intros <-. by eapply owns_addr_live in Hq.
  - constructor; [|done]. intros ([b k] & Heq & Hk)%list_elem_of_fmap. simpl in Heq. subst b.
    by eapply owns_blk_live in Hk.
  - intros b k Hk. unfold blks in Hk. simpl in Hk. apply elem_of_cons in Hk as [Hk|Hk].
    + simplify_eq. by rewrite lookup_insert_eq.
    + rewrite lookup_insert_ne; [by apply Hb|]. intros <-. by eapply owns_blk_live in Hk.
Qed.

Lemma owns_free om m b d L : owns om m (Ptr b 0 ↦ d :: Blk b (length d) :: L) ->
  owns om (Mem (delete b (m_blocks m)) (m_next m) (m_oom m)) L.
Proof.
  intros [Hwf Hom Hnd Hget Hbn Hb]. unfold flat, blks in *. simpl in *.
  rewrite fmap_app in Hnd. apply NoDup_app in Hnd as (Hnd1 & Hdisj & Hnd2).
  apply NoDup_cons in Hbn as [Hnb Hbn].
  assert (length <$> m_blocks m !! b = Some (length d)) as Hbd by (apply Hb; left).
  assert (forall b' o x, (Ptr b' o, x) ∈ flat L -> b' <> b) as Hne.
  { intros b' o x Hq ->. pose proof Hq as Hq'. unfold flat in Hq'.
    specialize (Hget (Ptr b o) x). rewrite elem_of_app in Hget. specialize (Hget (or_intror Hq')).
    simpl in Hget. destruct (m_blocks m !! b) as [d'|]; [|done]. simpl in *.
    destruct (Z.leb_spec 0 o); [|done]. apply lookup_lt_Some in Hget. simplify_eq.
    destruct (lookup_lt_is_Some_2 d (Z.to_nat o)) as [y Hy]; [lia|].
    apply (Hdisj (Ptr b o)).
    - apply list_elem_of_fmap. exists (Ptr b o, y). split; [done|].
      apply (elem_cell_flat (Ptr b 0) d o y); done.
    - apply list_elem_of_fmap. by exists (Ptr b o, x). }
  split; simpl; [|done|done| |done|].
  - intros b' d' Hd. simpl in *. apply lookup_delete_Some in Hd as [_ Hd]. by eapply Hwf.
  - intros [|b' o] x Hq; specialize (Hget _ x (proj2 (elem_of_app _ _ _) (or_intror Hq)));
      [done|]. simpl. rewrite lookup_delete_ne; [done|]. intros <-. by apply Hne in Hq.
  - intros b' n Hn. rewrite lookup_delete_ne; [apply Hb; by right|]. intros <-. apply Hnb.
    apply list_elem_of_fmap. by exists (b, n).
Qed.

(** ** Weakest-precondition rules of the memory operations

    Each rule takes the cell it works on out of the owned list by a
    permutation, so that a proof names the cell and leaves the rest of the
    list as the frame. *)

Section rules.
Context (om : nat -> bool).
Implicit Types (m : mem) (L : list cell).

Lemma wp_writen m L p d i l L0 q (Q : unit -> mem -> Prop) :
  owns om m L -> L ≡ₚ p ↦ d :: L0 -> q = padd p i -> 0 <= i -> i + Zlen l <= Zlen d ->
  (forall m', owns om m' (p ↦ (splice d i l) :: L0) -> Q tt m') ->
  wp (writen q l) m Q.
Proof.
  intros Ho HL -> Hi Hlen HQ. rewrite HL in Ho.
  eapply (owns_write_at _ _ _ _ i l) in Ho as (m' & Hw & Ho); [|done..].
  unfold wp, writen. rewrite Hw. by apply HQ.
Qed.

Lemma wp_readn m L p d i n L0 q (Q : list memval -> mem -> Prop) :
  owns om m L -> L ≡ₚ p ↦ d :: L0 -> q = padd p i -> 0 <= i -> 0 <= n -> i + n <= Zlen d ->
  Q (take (Z.to_nat n) (drop (Z.to_nat i) d)) m ->
  wp (readn q n) m Q.
Proof.
  intros Ho HL -> Hi Hn Hlen HQ. rewrite HL in Ho.
  eapply (owns_read_at _ _ _ _ i n) in Ho; [|done..]. unfold wp, readn. by rewrite Ho.
Qed.

Lemma wp_store_byte m L p d i v L0 q (Q : unit -> mem -> Prop) :
  owns om m L -> L ≡ₚ p ↦ d :: L0 -> q = padd p i -> 0 <= i < Zlen d ->
  (forall m', owns om m' (p ↦ (splice d i [Byte v]) :: L0) -> Q tt m') ->
  wp (store_byte q v) m Q.
Proof.
  intros Ho HL Hq Hi HQ. eapply wp_writen; [exact Ho|exact HL|exact Hq|lia| |exact HQ].
  unfold Zlen at 1. simpl. lia.
Qed.

Lemma wp_load_byte m L p d i v L0 q (Q : Z -> mem -> Prop) :
  owns om m L -> L ≡ₚ p ↦ d :: L0 -> q = padd p i -> 0 <= i ->
  d !! Z.to_nat i = Some (Byte v) -> Q v m -> wp (load_byte q) m Q.
Proof.
  intros Ho HL Hq Hi Hd HQ. pose proof (lookup_lt_Some _ _ _ Hd) as Hlt.
  unfold load_byte. apply wp_bind. eapply wp_readn; [done..|unfold Zlen; lia|].
  change (Z.to_nat 1) with 1%nat. rewrite (drop_S _ _ _ Hd). done.
Qed.

Lemma wp_load_u32 m L p v L0 (Q : Z -> mem -> Prop) :
  owns om m L -> L ≡ₚ p ↦ enc_u32 v :: L0 -> 0 <= v < 2 ^ 32 -> Q v m ->
  wp (load_u32 p) m Q.
Proof.
  intros Ho HL Hv HQ. unfold load_u32. apply wp_bind.
  eapply (wp_readn _ _ _ _ 0); [exact Ho|exact HL|by rewrite padd_0|done|done|done|].
  change (wp (of_opt (dec_u32 (enc_u32 v))) m Q). by eapply wp_of_opt; [apply dec_enc_u32|].
Qed.

Lemma wp_load_ptr m L p v L0 (Q : ptr -> mem -> Prop) :
  owns om m L -> L ≡ₚ p ↦ enc_ptr v :: L0 -> Q v m -> wp (load_ptr p) m Q.
Proof.
  intros Ho HL HQ. unfold load_ptr. apply wp_bind.
  eapply (wp_readn _ _ _ _ 0);
    [exact Ho|exact HL|by rewrite padd_0|done|done|by unfold Zlen; rewrite length_enc_ptr|].
  change (drop (Z.to_nat 0) (enc_ptr v)) with (enc_ptr v).
  rewrite take_ge by (by rewrite length_enc_ptr).
  by eapply wp_of_opt; [apply dec_enc_ptr|].
Qed.

Lemma splice_all d l : length l = length d -> splice d 0 l = l.
Proof.
  intros Hl. unfold splice. change (Z.to_nat 0) with 0%nat.
  rewrite drop_ge by lia. by rewrite app_nil_r.
Qed.

Lemma wp_write_cell m L p d l L0 (Q : unit -> mem -> Prop) :
  owns om m L -> L ≡ₚ p ↦ d :: L0 -> length l = length d ->
  (forall m', owns om m' (p ↦ l :: L0) -> Q tt m') ->
  wp (writen p l) m Q.
Proof.
  intros Ho HL Hlen HQ. eapply (wp_writen _ _ _ _ 0);
    [exact Ho|exact HL|by rewrite padd_0|done|unfold Zlen; lia|].
  intros m' Ho'. apply HQ. by rewrite splice_all in Ho'.
Qed.

Lemma wp_malloc m L n (Q : ptr -> mem -> Prop) :
  owns om m L ->
  (forall m', owns om m' L -> om (m_next m) = true -> Q Null m') ->
  (forall b m', owns om m' (Ptr b 0 ↦ (replicate (Z.to_nat n) Undef) ::
                            Blk b (Z.to_nat n) :: L) -> Q (Ptr b 0) m') ->
  wp (malloc n) m Q.
Proof.
  intros Ho Hfail Hok. unfold wp, malloc. destruct (m_oom m (m_next m)) eqn:Hom.
  - apply Hfail; [|by rewrite <-(owns_oom _ _ _ Ho)].
    destruct Ho as [Hwf ? ? Hget ? ?]. split; try done.
    intros b d Hb. simpl. apply Hwf in Hb. lia.
  - apply Hok. eapply (owns_new _ _ (replicate (Z.to_nat n) Undef)) in Ho.
    by rewrite length_replicate in Ho.
Qed.

Lemma wp_literal m L s (Q : ptr -> mem -> Prop) :
  owns om m L ->
  (forall b m', owns om m' (Ptr b 0 ↦ (bytes s ++ [Byte 0]) :: L) -> Q (Ptr b 0) m') ->
  wp (literal s) m Q.
Proof.
  intros Ho Hok. unfold wp, literal. apply Hok.
  eapply (owns_new _ _ (bytes s ++ [Byte 0])) in Ho. rewrite Permutation_swap in Ho.
  by eapply owns_drop.
Qed.

Lemma wp_free m L b d L0 (Q : unit -> mem -> Prop) :
  owns om m L -> L ≡ₚ Ptr b 0 ↦ d :: Blk b (length d) :: L0 ->
  (forall m', owns om m' L0 -> Q tt m') -> wp (free (Ptr b 0)) m Q.
Proof.
  intros Ho HL HQ. rewrite HL in Ho. unfold wp, free. rewrite decide_True.
  - by apply HQ; eapply owns_free.
  - split; [done|]. pose proof (owns_blk _ _ _ Ho b (length d)) as Hb.
    destruct (m_blocks m !! b); [done|]. by discriminate Hb; left.
Qed.

Lemma wp_free_null m (Q : unit -> mem -> Prop) : Q tt m -> wp (free Null) m Q.
Proof. done. Qed.
End rules.

Lemma owns_not_null om m L p x d L0 : owns om m L -> L ≡ₚ p ↦ (x :: d) :: L0 -> p <> Null.
Proof.
  intros Ho HL ->. rewrite HL in Ho. apply owns_read in Ho. done.
Qed.

(** ** Finding a cell in an owned list *)

Lemma perm_find_cons {A} (x c : A) L L0 : L ≡ₚ c :: L0 -> x :: L ≡ₚ c :: x :: L0.
Proof. intros ->. apply Permutation_swap. Qed.

Lemma perm_find_app_l {A} (c : A) L1 L2 L0 : L1 ≡ₚ c :: L0 -> L1 ++ L2 ≡ₚ c :: (L0 ++ L2).
Proof. by intros ->. Qed.

Lemma perm_find_app_r {A} (c : A) L1 L2 L0 : L2 ≡ₚ c :: L0 -> L1 ++ L2 ≡ₚ c :: (L1 ++ L0).
Proof. intros ->. by rewrite Permutation_middle. Qed.

(** Proves [L ≡ₚ c :: ?L0] by searching [L] for [c]. *)
Ltac perm_find :=
  cbn [app];
  lazymatch goal with
  | |- _ :: _ ≡ₚ _ =>
      first [ exact (Permutation_refl _) | eapply perm_find_cons; perm_find ]
  | |- _ ++ _ ≡ₚ _ =>
      first [ eapply perm_find_app_l; perm_find | eapply perm_find_app_r; perm_find ]
  end.

Lemma perm_find_2 {A} (c1 c2 : A) L L1 L0 :
  L ≡ₚ c1 :: L1 -> L1 ≡ₚ c2 :: L0 -> L ≡ₚ c1 :: c2 :: L0.
Proof. by intros -> ->. Qed.

(** The same for two cells at once. *)
Ltac perm_find2 := eapply perm_find_2; [perm_find|perm_find].

(** ** The empty memory, where the examples start *)

Definition mem_empty (om : nat -> bool) : mem := Mem ∅ 0 om.
Definition never_oom : nat -> bool := fun _ => false.

Lemma owns_empty om : owns om (mem_empty om) [].
Proof.
  split; simpl; try done; try constructor.
  - intros q x Hq. by apply not_elem_of_nil in Hq.
  - intros q x Hq. by apply not_elem_of_nil in Hq.
Qed.

(** A memory that holds one block with the given contents. *)
Definition mem_one (om : nat -> bool) (d : list memval) : mem := (mem_new (mem_empty om) d).2.

Lemma owns_one om d : owns om (mem_one om d) [Ptr 0 0 ↦ d].
Proof.
  pose proof (owns_new om (mem_empty om) d [] (owns_empty om)) as Ho.
  rewrite Permutation_swap in Ho. by apply owns_drop in Ho.
Qed.

(** ** Successive writes to one cell *)

Section splice.
Implicit Types (d l : list memval).

Lemma splice_nat d k l : 0 <= k -> splice d k l =
  take (Z.to_nat k) d ++ l ++ drop (Z.to_nat k + length l) d.
Proof. done. Qed.

(** Two adjacent writes are one. *)
Lemma splice_app d k l1 l2 : 0 <= k -> k + Zlen l1 <= Zlen d ->
  splice (splice d k l1) (k + Zlen l1) l2 = splice d k (l1 ++ l2).
Proof.
  intros Hk Hl. unfold splice, Zlen in *.
  assert (length (take (Z.to_nat k) d) = Z.to_nat k) as Ht by (rewrite length_take; lia).
  replace (Z.to_nat (k + Z.of_nat (length l1))) with (Z.to_nat k + length l1)%nat by lia.
  rewrite (app_assoc (take _ d)).
  rewrite take_app_length' by (rewrite length_app; lia).
  rewrite drop_app_ge by (rewrite length_app; lia).
  rewrite drop_drop, length_app, Ht, length_app, <-!(assoc_L (++)).
  do 3 f_equal. f_equal. lia.
Qed.

(** A write over a previous one of the same length. *)
Lemma splice_over d k l1 l2 : 0 <= k -> k + Zlen l1 <= Zlen d -> length l2 = length l1 ->
  splice (splice d k l1) k l2 = splice d k l2.
Proof.
  intros Hk Hl Hlen. unfold splice, Zlen in *.
  assert (length (take (Z.to_nat k) d) = Z.to_nat k) as Ht by (rewrite length_take; lia).
  rewrite take_app_length' by lia. do 2 f_equal.
  rewrite app_assoc, drop_app_length' by (rewrite length_app; lia). by rewrite Hlen.
Qed.

(** Rewriting, and possibly extending, the end of a write. *)
Lemma splice_tail d k l1 l2 l3 : 0 <= k -> k + Zlen l1 + Zlen l3 <= Zlen d ->
  Zlen l2 <= Zlen l3 -> splice (splice d k (l1 ++ l2)) (k + Zlen l1) l3 = splice d k (l1 ++ l3).
Proof.
  intros Hk Hl Hle. pose proof (Zlen_nonneg l1). pose proof (Zlen_nonneg l2).
  rewrite <-(take_drop (length l2) l3). set (l3a := take _ l3). set (l3b := drop _ l3).
  assert (Zlen l3a = Zlen l2) as Ha by (unfold l3a, Zlen in *; rewrite length_take; lia).
  assert (Zlen l3a + Zlen l3b = Zlen l3) as Hab
    by (unfold l3a, l3b, Zlen in *; rewrite length_take, length_drop; lia).
  assert (Zlen (splice d k l1) = Zlen d) as Hs
    by (unfold Zlen at 1; rewrite length_splice; [done|lia|lia]).
  assert (Zlen (splice (splice d k l1) (k + Zlen l1) l2) = Zlen d) as Hs2
    by (unfold Zlen at 1; rewrite length_splice; [done|lia|lia]).
  rewrite <-(splice_app d k l1 l2), <-(splice_app _ _ l3a l3b) by lia.
  rewrite splice_over by (unfold Zlen in *; lia).
  by rewrite splice_app, splice_app by (zlen; lia).
Qed.

(** Writing what is already there. *)
Lemma splice_same d k x : 0 <= k -> d !! Z.to_nat k = Some x -> splice d k [x] = d.
Proof.
  intros Hk Hx. unfold splice. simpl. rewrite Nat.add_1_r.
  by rewrite <-(drop_S _ _ _ Hx), take_drop.
Qed.

Lemma take_splice d k l : 0 <= k -> k + Zlen l <= Zlen d ->
  take (Z.to_nat (k + Zlen l)) (splice d k l) = take (Z.to_nat k) d ++ l.
Proof.
  intros Hk Hl. unfold splice, Zlen in *. rewrite app_assoc.
  rewrite take_app_length'; [done|]. rewrite length_app, length_take. lia.
Qed.

Lemma drop_splice d k l : 0 <= k -> k <= Zlen d ->
  drop (Z.to_nat k) (splice d k l) = l ++ drop (Z.to_nat k + length l) d.
Proof.
  intros Hk Hl. unfold splice, Zlen in *. rewrite drop_app_length'; [done|].
  rewrite length_take. lia.
Qed.

Lemma Zlen_splice d k l : 0 <= k -> k + Zlen l <= Zlen d -> Zlen (splice d k l) = Zlen d.
Proof. intros. unfold Zlen at 1. by rewrite length_splice. Qed.
End splice.

Lemma lookup_map {A B} (f : A -> B) (l : list A) j : map f l !! j = f <$> l !! j.
Proof. revert j. induction l as [|x l IH]; intros [|j]; simpl; [done..|apply IH]. Qed.

(** [has_bytes d k l]: from index [k] on, the contents [d] start with the bytes [l]. *)
Definition has_bytes (d : list memval) (k : Z) (l : list Z) : Prop :=
  exists post, drop (Z.to_nat k) d = bytes l ++ post.

Lemma has_bytes_lookup d k l j b : 0 <= k -> has_bytes d k l -> l !! j = Some b ->
  d !! Z.to_nat (k + Z.of_nat j) = Some (Byte b).
Proof.
  intros Hk [post Hd] Hj. replace (Z.to_nat (k + Z.of_nat j)) with (Z.to_nat k + j)%nat by lia.
  rewrite <-lookup_drop, Hd. unfold bytes. rewrite lookup_app_l.
  - by rewrite lookup_map, Hj.
  - rewrite length_map. by eapply lookup_lt_Some.
Qed.

Lemma has_bytes_cons d k b l : 0 <= k -> has_bytes d k (b :: l) ->
  d !! Z.to_nat k = Some (Byte b) /\ has_bytes d (k + 1) l.
Proof.
  intros Hk Hd. split.
  - rewrite <-(Z.add_0_r k). by apply (has_bytes_lookup d k (b :: l) 0).
  - destruct Hd as [post Hd]. exists post.
    replace (Z.to_nat (k + 1)) with (Z.to_nat k + 1)%nat by lia.
    rewrite <-drop_drop, Hd. done.
Qed.

Lemma has_bytes_app d k l1 l2 : 0 <= k -> has_bytes d k (l1 ++ l2) ->
  has_bytes d k l1 /\ has_bytes d (k + Zlen l1) l2.
Proof.
  intros Hk [post Hd]. unfold bytes in Hd. rewrite map_app, <-app_assoc in Hd. split.
  - by eexists.
  - exists post. unfold Zlen. replace (Z.to_nat (k + Z.of_nat (length l1)))
      with (Z.to_nat k + length l1)%nat by lia.
    rewrite <-drop_drop, Hd, drop_app_length'; [done|]. symmetry. apply length_map.
Qed.

Lemma has_bytes_len d k l : 0 <= k <= Zlen d -> has_bytes d k l -> k + Zlen l <= Zlen d.
Proof.
  intros Hk [post Hd]. apply (f_equal length) in Hd. unfold bytes, Zlen in *.
  rewrite length_drop, length_app, length_map in Hd. lia.
Qed.

Lemma has_bytes_splice d k l : 0 <= k <= Zlen d -> has_bytes (splice d k (bytes l)) k l.
Proof. intros Hk. eexists. apply drop_splice; lia. Qed.

Lemma bytes_app l1 l2 : bytes (l1 ++ l2) = bytes l1 ++ bytes l2.
Proof. apply map_app. Qed.

Lemma Zlen_bytes l : Zlen (bytes l) = Zlen l.
Proof. apply Zlen_map. Qed.

(** Reading byte [j] of a run of bytes. *)
Lemma wp_load_at om m L p d k l j b L0 q (Q : Z -> mem -> Prop) :
  owns om m L -> L ≡ₚ p ↦ d :: L0 -> 0 <= k -> has_bytes d k l -> 0 <= j ->
  l !! Z.to_nat j = Some b -> q = padd p (k + j) -> Q b m -> wp (load_byte q) m Q.
Proof.
  intros Ho HL Hk Hb Hj Hl -> HQ.
  eapply (wp_load_byte _ _ _ p d (k + j)); [exact Ho|exact HL|done|lia| |exact HQ].
  rewrite <-(Z2Nat.id j Hj). rewrite Z2Nat.inj_add, Nat2Z.id by lia.
  rewrite <-Z2Nat.inj_add by lia.
  pose proof (has_bytes_lookup d k l (Z.to_nat j) b Hk Hb Hl) as H. by rewrite Z2Nat.id in H.
Qed.

Lemma lookup_Z {A} (l : list A) j : 0 <= j < Zlen l -> exists b, l !! Z.to_nat j = Some b.
Proof. intros Hj. apply lookup_lt_is_Some_2. unfold Zlen in Hj. lia. Qed.

(** ** C strings in owned cells *)

(** [cstring d k s]: from index [k] on, [d] holds the string [s] and its
    terminator. *)
Definition cstring (d : list memval) (k : Z) (s : list Z) : Prop :=
  has_bytes d k (s ++ [0]) /\ Forall (fun c => 0 < c < 256) s.

Lemma cstr_scan_get blk o l : Forall (fun c => 0 < c < 256) l ->
  (forall j, (j <= length l)%nat -> blk !! (o + j)%nat = Byte <$> (l ++ [0]) !! j) ->
  cstr_scan (drop o blk) = Some l.
Proof.
  revert o. induction l as [|c l IH]; intros o Hl Hget.
  - pose proof (Hget 0%nat ltac:(simpl; lia)) as H0. rewrite Nat.add_0_r in H0.
    by rewrite (drop_S _ _ _ H0).
  - pose proof (Hget 0%nat ltac:(simpl; lia)) as H0. rewrite Nat.add_0_r in H0.
    rewrite (drop_S _ _ _ H0). simpl. apply Forall_cons in Hl as [Hc Hl].
    destruct (Z.eqb_spec c 0); [lia|]. rewrite IH; [done|done|].
    intros j Hj. specialize (Hget (S j) ltac:(simpl; lia)).
    by replace (S o + j)%nat with (o + S j)%nat by lia.
Qed.

Lemma owns_cstr om m L p d k s L0 : owns om m L -> L ≡ₚ p ↦ d :: L0 -> 0 <= k ->
  cstring d k s -> cstr m (padd p k) = Some s.
Proof.
  intros Ho HL Hk [Hb Hs]. rewrite HL in Ho.
  assert (forall j b, (s ++ [0]) !! j = Some b ->
            mem_get m (padd p (k + Z.of_nat j)) = Some (Byte b)) as Hget.
  { intros j b Hj. apply (owns_get _ _ _ Ho). unfold flat. simpl. apply elem_of_app. left.
    apply elem_cell_flat; [lia|]. by eapply has_bytes_lookup. }
  destruct (lookup_lt_is_Some_2 (s ++ [0]) 0) as [b0 Hb0]; [rewrite length_app; simpl; lia|].
  pose proof (Hget 0%nat _ Hb0) as H0. destruct p as [|pb po]; [done|]. simpl in *.
  destruct (m_blocks m !! pb) as [blk|]; [|done]. simpl in *. rewrite Z.add_0_r in H0.
  destruct (Z.leb_spec 0 (po + k)); [|done]. apply cstr_scan_get; [done|].
  intros j Hj. destruct (lookup_lt_is_Some_2 (s ++ [0]) j) as [b Hjb];
    [rewrite length_app; simpl; lia|]. rewrite Hjb. simpl.
  pose proof (Hget j b Hjb) as Hg. destruct (Z.leb_spec 0 (po + (k + Z.of_nat j))); [|lia].
  rewrite <-Hg. f_equal. lia.
Qed.

Lemma wp_getstr om m L p d k s L0 q (Q : list Z -> mem -> Prop) :
  owns om m L -> L ≡ₚ p ↦ d :: L0 -> 0 <= k -> cstring d k s -> q = padd p k ->
  Q s m -> wp (getstr q) m Q.
Proof.
  intros Ho HL Hk Hs -> HQ. eapply wp_run; [|exact HQ]. unfold getstr.
  by erewrite owns_cstr.
Qed.

Lemma wp_strlen om m L p d k s L0 q (Q : Z -> mem -> Prop) :
  owns om m L -> L ≡ₚ p ↦ d :: L0 -> 0 <= k -> cstring d k s -> q = padd p k ->
  Q (Zlen s) m -> wp (strlen q) m Q.
Proof. intros. unfold strlen. wp_bind. eapply wp_getstr; [done..|]. by wp_ret. Qed.

(** The string that a run of bytes holds: what precedes the first zero. *)
Fixpoint until0 (l : list Z) : list Z :=
  match l with [] => [] | c :: l => if c =? 0 then [] else c :: until0 l end.

Lemma until0_split l : exists post, l ++ [0] = until0 l ++ 0 :: post.
Proof.
  induction l as [|c l [post IH]]; simpl; [by exists []|].
  destruct (Z.eqb_spec c 0) as [->|]; [by eexists|]. exists post. by rewrite IH.
Qed.

Lemma until0_cstring d k l : Forall (fun c => 0 <= c < 256) l -> has_bytes d k (l ++ [0]) ->
  cstring d k (until0 l).
Proof.
  intros Hl [post Hd]. split.
  - destruct (until0_split l) as [p2 Hp]. rewrite Hp in Hd. exists (bytes p2 ++ post).
    rewrite Hd. unfold bytes. rewrite !map_app, <-!app_assoc. done.
  - clear Hd. induction Hl as [|c l Hc Hl IH]; simpl; [done|].
    destruct (Z.eqb_spec c 0); [done|]. constructor; [lia|done].
Qed.

Lemma until0_nonzero l : Forall (fun c => 0 < c < 256) l -> until0 l = l.
Proof.
  induction 1 as [|c l Hc _ IH]; simpl; [done|]. destruct (Z.eqb_spec c 0); [lia|]. by rewrite IH.
Qed.

Lemma splice_bytes l k x : splice (bytes l) k (bytes x) =
  bytes (take (Z.to_nat k) l ++ x ++ drop (Z.to_nat k + length x) l).
Proof.
  unfold splice, bytes. rewrite !map_app, length_map. f_equal; [|f_equal].
  - apply firstn_map.
  - apply skipn_map.
Qed.

(** The literals of the source are strings. *)
Lemma cstring_literal s : Forall (fun c => 0 < c < 256) s -> cstring (bytes s ++ [Byte 0]) 0 s.
Proof. intros Hs. split; [|done]. exists []. by rewrite app_nil_r, bytes_app. Qed.

Lemma has_bytes_take d k l n : has_bytes d k l -> n = Zlen l ->
  take (Z.to_nat n) (drop (Z.to_nat k) d) = bytes l.
Proof.
  intros [post ->] ->. apply take_app_length'. unfold bytes, Zlen. rewrite length_map. lia.
Qed.

(** Copying between two cells. *)
Lemma wp_memcpy_at om m L p d i src s j n L0 q1 q2 (Q : unit -> mem -> Prop) :
  owns om m L -> L ≡ₚ p ↦ d :: src ↦ s :: L0 -> 0 <= i -> 0 <= j -> 0 <= n ->
  j + n <= Zlen s -> i + n <= Zlen d -> q1 = padd p i -> q2 = padd src j ->
  (forall m', owns om m' (p ↦ (splice d i (take (Z.to_nat n) (drop (Z.to_nat j) s))) ::
                          src ↦ s :: L0) -> Q tt m') ->
  wp (memcpy q1 q2 n) m Q.
Proof.
  intros Ho HL Hi Hj Hn Hs Hd -> -> HQ. unfold memcpy, memmove. wp_bind.
  eapply (wp_readn _ _ _ src s j n); [exact Ho| |done|done|done|lia|].
  { rewrite HL. apply Permutation_swap. }
  eapply (wp_writen _ _ _ p d i); [exact Ho|exact HL|done|done| |exact HQ].
  unfold Zlen in *. rewrite length_take, length_drop. lia.
Qed.

(** Moving within a cell; the ranges may overlap. *)
Lemma wp_memmove_in om m L p d i j n L0 q1 q2 (Q : unit -> mem -> Prop) :
  owns om m L -> L ≡ₚ p ↦ d :: L0 -> 0 <= i -> 0 <= j -> 0 <= n ->
  j + n <= Zlen d -> i + n <= Zlen d -> q1 = padd p i -> q2 = padd p j ->
  (forall m', owns om m' (p ↦ (splice d i (take (Z.to_nat n) (drop (Z.to_nat j) d))) :: L0) ->
     Q tt m') ->
  wp (memmove q1 q2 n) m Q.
Proof.
  intros Ho HL Hi Hj Hn Hs Hd -> -> HQ. unfold memmove. wp_bind.
  eapply (wp_readn _ _ _ p d j n); [exact Ho|exact HL|done|done|done|lia|].
  eapply (wp_writen _ _ _ p d i); [exact Ho|exact HL|done|done| |exact HQ].
  unfold Zlen in *. rewrite length_take, length_drop. lia.
Qed.

(** A memory with two blocks. *)
Definition mem_two (om : nat -> bool) (d1 d2 : list memval) : mem := (mem_new (mem_one om d1) d2).2.

Lemma owns_two om d1 d2 : owns om (mem_two om d1 d2) [Ptr 0 0 ↦ d1; Ptr 1 0 ↦ d2].
Proof.
  pose proof (owns_new om (mem_one om d1) d2 _ (owns_one om d1)) as Ho.
  eapply owns_sub; [|exact Ho]. simpl. solve_submseteq.
Qed.
