(* ===== verification/MqttBuffer.v ===== *)
(** * The packet buffer of the MQTT client (components/net/Protocol/mqtt/mqtt_buffer.c)

    A packet is built as a linked list of extents; extents are carved out of
    chunks of at least 1024 bytes, and an array of chunk pointers remembers
    what has to be freed.  [struct MqttBuffer] is a record passed and
    returned by value (the code only ever reaches it through one pointer);
    the extents, the chunks and the array live in the memory of [Cmem]. *)

From S2P Require Import Prelude Cmem.
From stdpp Require Import list_tactics.

Open Scope Z_scope.

(** ** Data *)

Definition sizeof_MqttExtent : Z := 12.
Definition sizeof_ptr : Z := 4.
Definition MQTT_DEFAULT_ALIGNMENT : Z := 4.
Definition MQTT_MIN_EXTENT_SIZE : Z := 1024.

(** Error codes of enum MqttError. *)
Definition MQTTERR_NOERROR : Z := 0.
Definition MQTTERR_OUTOFMEMORY : Z := -1.
Definition MQTTERR_ENDOFFILE : Z := -2.
Definition MQTTERR_IO : Z := -3.
Definition MQTTERR_ILLEGAL_PKT : Z := -4.
Definition MQTTERR_ILLEGAL_CHARACTER : Z := -5.
Definition MQTTERR_NOT_UTF8 : Z := -6.
Definition MQTTERR_INVALID_PARAMETER : Z := -7.
Definition MQTTERR_PKT_TOO_LARGE : Z := -8.
Definition MQTTERR_BUF_OVERFLOW : Z := -9.
Definition MQTTERR_EMPTY_CALLBACK : Z := -10.
Definition MQTTERR_INTERNAL : Z := -11.
Definition MQTTERR_NOT_IN_SUBOBJECT : Z := -12.
Definition MQTTERR_INCOMPLETE_SUBOBJECT : Z := -13.
Definition MQTTERR_FAILED_SEND_RESPONSE : Z := -14.

Record MqttBuffer := mk_MqttBuffer {
  first_ext : ptr;
  last_ext : ptr;
  available_bytes : Z;
  allocations : ptr;
  first_available : ptr;
  alloc_count : Z;
  alloc_max_count : Z;
  buffered_bytes : Z;
}.

(** Fields of a [struct MqttExtent] in memory. *)
Definition get_len (e : ptr) : M mem Z := load_u32 e.
Definition get_payload (e : ptr) : M mem ptr := load_ptr (padd e 4).
Definition get_next (e : ptr) : M mem ptr := load_ptr (padd e 8).
Definition set_len (e : ptr) (v : Z) : M mem unit := store_u32 e v.
Definition set_payload (e p : ptr) : M mem unit := store_ptr (padd e 4) p.
Definition set_next (e p : ptr) : M mem unit := store_ptr (padd e 8) p.

(** ** Operations *)

Definition MqttBuffer_Init : MqttBuffer := mk_MqttBuffer Null Null 0 Null Null 0 0 0.

(** The loop of MqttBuffer_Reset that frees the chunks [i .. i + n - 1]. *)
Fixpoint MqttBuffer_free_chunks (a : ptr) (i : Z) (n : nat) : M mem unit :=
  match n with
  | O => mret tt
  | S n =>
      c ← load_ptr (padd a (sizeof_ptr * i));
      _ ← free c;
      MqttBuffer_free_chunks a (i + 1) n
  end.

Definition MqttBuffer_Reset (buf : MqttBuffer) : M mem MqttBuffer :=
  _ ← MqttBuffer_free_chunks (allocations buf) 0 (Z.to_nat (alloc_count buf));
  _ ← free (allocations buf);
  mret MqttBuffer_Init.

Definition MqttBuffer_Destroy (buf : MqttBuffer) : M mem unit :=
  _ ← MqttBuffer_Reset buf; mret tt.

(** The array of chunk pointers is enlarged when it is full; [None] is the
    early return on a failed allocation. *)
Definition MqttBuffer_grow (buf : MqttBuffer) : M mem (option MqttBuffer) :=
  if alloc_count buf =? alloc_max_count buf then
    let max_count := u32 (alloc_max_count buf * 2 + 1) in
    tmp ← malloc (u32 (max_count * sizeof_ptr));
    match tmp with
    | Null => mret None
    | _ =>
        _ ← memset tmp 0 (u32 (max_count * sizeof_ptr));
        _ ← memcpy tmp (allocations buf) (alloc_max_count buf);
        _ ← free (allocations buf);
        mret (Some (mk_MqttBuffer (first_ext buf) (last_ext buf) (available_bytes buf) tmp
                      (first_available buf) (alloc_count buf) max_count (buffered_bytes buf)))
    end
  else mret (Some buf).

(** A new chunk of at least [aligned_bytes] bytes becomes the free space. *)
Definition MqttBuffer_new_chunk (buf : MqttBuffer) (aligned_bytes : Z)
    : M mem (bool * MqttBuffer) :=
  grown ← MqttBuffer_grow buf;
  match grown with
  | None => mret (false, buf)
  | Some buf =>
      let alloc_bytes :=
        if aligned_bytes <? MQTT_MIN_EXTENT_SIZE then MQTT_MIN_EXTENT_SIZE else aligned_bytes in
      chunk ← malloc alloc_bytes;
      match chunk with
      | Null => mret (false, buf)
      | _ =>
          let count := u32 (alloc_count buf + 1) in
          _ ← store_ptr (padd (allocations buf) (sizeof_ptr * (count - 1))) chunk;
          mret (true, mk_MqttBuffer (first_ext buf) (last_ext buf) alloc_bytes
                        (allocations buf) chunk count (alloc_max_count buf)
                        (buffered_bytes buf))
      end
  end.

Definition MqttBuffer_aligned (bytes : Z) : Z :=
  let aligned := u32 (bytes + sizeof_MqttExtent) in
  u32 (aligned + (MQTT_DEFAULT_ALIGNMENT - aligned mod MQTT_DEFAULT_ALIGNMENT)
                   mod MQTT_DEFAULT_ALIGNMENT).

Definition MqttBuffer_AllocExtent (buf : MqttBuffer) (bytes : Z) : M mem (ptr * MqttBuffer) :=
  let aligned_bytes := MqttBuffer_aligned bytes in
  '(ok, buf) ← (if available_bytes buf <? aligned_bytes
                then MqttBuffer_new_chunk buf aligned_bytes
                else mret (true, buf));
  if negb ok then mret (Null, buf) else
  let ext := first_available buf in
  _ ← set_len ext bytes;
  _ ← set_payload ext (padd (first_available buf) sizeof_MqttExtent);
  _ ← set_next ext Null;
  mret (ext, mk_MqttBuffer (first_ext buf) (last_ext buf)
               (u32 (available_bytes buf - aligned_bytes)) (allocations buf)
               (padd (first_available buf) aligned_bytes) (alloc_count buf)
               (alloc_max_count buf) (buffered_bytes buf)).

Definition MqttBuffer_AppendExtent (buf : MqttBuffer) (ext : ptr) : M mem MqttBuffer :=
  _ ← set_next ext Null;
  _ ← (if decide (last_ext buf = Null) then mret tt else set_next (last_ext buf) ext);
  len ← get_len ext;
  mret (mk_MqttBuffer (if decide (last_ext buf = Null) then ext else first_ext buf) ext
          (available_bytes buf) (allocations buf) (first_available buf) (alloc_count buf)
          (alloc_max_count buf) (u32 (buffered_bytes buf + len))).

Definition MqttBuffer_Append (buf : MqttBuffer) (payload : ptr) (size : Z) (own : bool)
    : M mem (Z * MqttBuffer) :=
  let bytes := if own then size else sizeof_MqttExtent in
  '(ext, buf) ← MqttBuffer_AllocExtent buf bytes;
  match ext with
  | Null => mret (MQTTERR_OUTOFMEMORY, buf)
  | _ =>
      _ ← (if own then
             _ ← set_payload ext (padd ext sizeof_MqttExtent);
             pay ← get_payload ext;
             memcpy pay payload size
           else
             _ ← set_payload ext payload;
             set_len ext size);
      buf ← MqttBuffer_AppendExtent buf ext;
      mret (MQTTERR_NOERROR, buf)
  end.

(** ** What a buffer owns *)

Definition hdr_cells (e : ptr) (len : Z) (pay nx : ptr) : list cell :=
  [e ↦ enc_u32 len; padd e 4 ↦ enc_ptr pay; padd e 8 ↦ enc_ptr nx].

(** The payload room of an extent: [bytes] rounded up to the alignment. *)
Definition ext_cap (bytes : Z) : Z := bytes + (4 - bytes mod 4) mod 4.

Lemma ext_cap_bounds bytes : bytes <= ext_cap bytes <= bytes + 3.
Proof. unfold ext_cap. Z.div_mod_to_equations. lia. Qed.

Lemma MqttBuffer_aligned_cap bytes : 0 <= bytes -> bytes + 16 < 2 ^ 32 ->
  MqttBuffer_aligned bytes = sizeof_MqttExtent + ext_cap bytes.
Proof.
  intros H0 H1. unfold MqttBuffer_aligned, ext_cap, sizeof_MqttExtent, MQTT_DEFAULT_ALIGNMENT.
  rewrite (u32_small (bytes + 12)) by lia. rewrite u32_small; Z.div_mod_to_equations; lia.
Qed.

(** The array of chunk pointers and its block. *)
Definition arr_cells (buf : MqttBuffer) (a : list memval) : list cell :=
  match allocations buf with
  | Null => []
  | Ptr b o => [Ptr b o ↦ a; Blk b (length a)]
  end.

Record buf_ok (buf : MqttBuffer) (d a : list memval) : Prop := {
  bo_avail : Zlen d = available_bytes buf;
  bo_avail_lt : available_bytes buf < 2 ^ 32;
  bo_arr : Zlen a = sizeof_ptr * alloc_max_count buf;
  bo_arr_null : allocations buf = Null -> alloc_max_count buf = 0;
  bo_arr_start : match allocations buf with Null => True | Ptr _ o => o = 0 end;
  bo_count : 0 <= alloc_count buf <= alloc_max_count buf;
  bo_max : alloc_max_count buf <= 2 * alloc_count buf + 1;
}.

(** The buffer owns its free space and its array, next to the cells [L]. *)
Definition buf_own (om : nat -> bool) (m : mem) (buf : MqttBuffer) (L : list cell) : Prop :=
  exists d a, buf_ok buf d a /\ owns om m (first_available buf ↦ d :: arr_cells buf a ++ L).

#[export] Instance buf_own_perm om m buf : Proper ((≡ₚ) ==> iff) (buf_own om m buf).
Proof.
  intros L1 L2 HL. unfold buf_own.
  split; intros (d & a & Hok & Ho); exists d, a; (split; [done|]); [by rewrite <-HL|by rewrite HL].
Qed.

Lemma buf_own_owns om m buf L : buf_own om m buf L -> owns om m L.
Proof. intros (d & a & _ & Ho). apply owns_drop in Ho. by apply owns_app_drop in Ho. Qed.

(** Memory operations inside [L] keep the buffer's own cells. *)
Lemma buf_own_sub om m buf L1 L2 : L2 ⊆+ L1 -> buf_own om m buf L1 -> buf_own om m buf L2.
Proof.
  intros HL (d & a & Hok & Ho). exists d, a. split; [done|].
  eapply owns_sub; [|exact Ho]. by apply submseteq_skip, submseteq_app.
Qed.

(** The fields that describe the chain of extents, and how far the chunk
    bookkeeping may have moved. *)
Definition same_chain (buf' buf : MqttBuffer) : Prop :=
  first_ext buf' = first_ext buf /\ last_ext buf' = last_ext buf /\
  buffered_bytes buf' = buffered_bytes buf /\
  alloc_count buf <= alloc_count buf' <= alloc_count buf + 1.

Lemma same_chain_refl buf' buf :
  first_ext buf' = first_ext buf -> last_ext buf' = last_ext buf ->
  buffered_bytes buf' = buffered_bytes buf -> alloc_count buf' = alloc_count buf ->
  same_chain buf' buf.
Proof. intros. split_and!; try done; lia. Qed.

(** The allocator was asked for memory and refused. *)
Definition oom_seen (om : nat -> bool) : Prop := exists n, om n = true.

Lemma list_split_at {A} (d : list A) (n : Z) : 0 <= n <= Zlen d ->
  exists d1 d2, d = d1 ++ d2 /\ Zlen d1 = n /\ Zlen d2 = Zlen d - n.
Proof.
  unfold Zlen. intros Hn. exists (take (Z.to_nat n) d), (drop (Z.to_nat n) d).
  rewrite take_drop, length_take, length_drop. split_and!; [done|lia..].
Qed.

Section alloc.
Context (om : nat -> bool).

Lemma buf_own_init m L : owns om m L -> buf_own om m MqttBuffer_Init L.
Proof.
  intros Ho. exists [], []. split; [by split|]. by apply owns_nil_cell.
Qed.

(** The bytes that are copied out of the old array when it is enlarged. *)
Lemma arr_read buf m d a L :
  buf_ok buf d a -> owns om m (first_available buf ↦ d :: arr_cells buf a ++ L) ->
  exists l, length l = Z.to_nat (alloc_max_count buf) /\
    mem_read m (allocations buf) (Z.to_nat (alloc_max_count buf)) = Some l.
Proof.
  intros [Hav Hlt Ha Hnull Hst Hcnt Hmax] Ho. unfold arr_cells, sizeof_ptr in *.
  destruct (allocations buf) as [|ab ao] eqn:Hal.
  { rewrite Hnull by done. by exists []. }
  exists (take (Z.to_nat (alloc_max_count buf)) a). unfold Zlen in *.
  split; [rewrite length_take; lia|]. rewrite <-(padd_0 (Ptr ab ao)).
  eapply (owns_read_at om m (Ptr ab ao) a 0 (alloc_max_count buf)); [|unfold Zlen; lia..].
  eapply owns_perm; [|exact Ho]. apply Permutation_swap.
Qed.

Lemma wp_grow buf m d a L (Q : option MqttBuffer -> mem -> Prop) :
  buf_ok buf d a -> owns om m (first_available buf ↦ d :: arr_cells buf a ++ L) ->
  alloc_count buf < 2 ^ 20 ->
  (forall m', owns om m' (first_available buf ↦ d :: arr_cells buf a ++ L) ->
              oom_seen om -> Q None m') ->
  (forall m' buf' a', buf_ok buf' d a' -> alloc_count buf' < alloc_max_count buf' ->
     first_available buf' = first_available buf -> alloc_count buf' = alloc_count buf ->
     same_chain buf' buf ->
     owns om m' (first_available buf' ↦ d :: arr_cells buf' a' ++ L) -> Q (Some buf') m') ->
  wp (MqttBuffer_grow buf) m Q.
Proof.
  intros Hok Ho Hc Hfail HQ. unfold MqttBuffer_grow.
  pose proof Hok as [Hav Hlt Ha Hnull Hst Hcnt Hmax]. unfold sizeof_ptr in *.
  destruct (Z.eqb_spec (alloc_count buf) (alloc_max_count buf)) as [Heq|Hne].
  2: { wp_ret. eapply HQ; [done|lia|done|done| |done]. by apply same_chain_refl. }
  rewrite !u32_small by (rewrite ?u32_small; lia).
  wp_bind. eapply wp_malloc; [exact Ho| |].
  { intros m' Ho' Hom. wp_ret. apply Hfail; [done|by eexists]. }
  intros b m1 Ho1. wp_bind. unfold memset.
  eapply wp_write_cell; [exact Ho1|perm_find|by rewrite !length_replicate|].
  clear m Ho m1 Ho1. intros m Ho. wp_bind.
  set (n := Z.to_nat ((alloc_max_count buf * 2 + 1) * 4)) in *.
  destruct (arr_read buf m d a (Ptr b 0 ↦ replicate n (Byte 0) :: Blk b n :: L))
    as (l & Hl & Hread); [done|eapply owns_perm; [|exact Ho]; solve_Permutation|].
  unfold memcpy, memmove. wp_bind. eapply wp_run; [unfold readn; by rewrite Hread|].
  eapply (wp_writen _ _ _ _ _ 0); [exact Ho|perm_find|by rewrite padd_0|done| |].
  { unfold Zlen. rewrite Hl, length_replicate. lia. }
  clear Ho Hread. intros m' Ho. wp_bind.
  set (a' := splice (replicate n (Byte 0)) 0 l) in *.
  assert (length a' = n) as Ha'.
  { unfold a'. rewrite length_splice; [apply length_replicate|done|].
    unfold Zlen. rewrite Hl, length_replicate. lia. }
  assert (Zlen a' = 4 * (alloc_max_count buf * 2 + 1)) as HaZ by (unfold Zlen; lia).
  assert (forall m2, owns om m2 (Ptr b 0 ↦ a' :: Blk b (length a') ::
            first_available buf ↦ d :: L) ->
          Q (Some (mk_MqttBuffer (first_ext buf) (last_ext buf) (available_bytes buf) (Ptr b 0)
              (first_available buf) (alloc_count buf) (alloc_max_count buf * 2 + 1)
              (buffered_bytes buf))) m2) as Hfin.
  { intros m2 Ho2. eapply (HQ _ _ a'); simpl; [|lia|done|done| |].
    - split; simpl; try done; unfold sizeof_ptr; lia.
    - by apply same_chain_refl.
    - eapply owns_perm; [|exact Ho2]. simpl. solve_Permutation. }
  unfold arr_cells in Ho. destruct (allocations buf) as [|ab ao] eqn:Hal.
  - apply wp_free_null, wp_ret. apply Hfin. rewrite Ha'.
    eapply owns_perm; [|exact Ho]. simpl. solve_Permutation.
  - subst ao. eapply wp_free; [exact Ho| |].
    { instantiate (1 := Ptr b 0 ↦ a' :: Blk b n :: first_available buf ↦ d :: L).
      simpl. solve_Permutation. }
    intros m2 Ho2. wp_ret. apply Hfin. by rewrite Ha'.
Qed.

Lemma wp_new_chunk buf m aligned L (Q : bool * MqttBuffer -> mem -> Prop) :
  buf_own om m buf L -> alloc_count buf < 2 ^ 20 -> 0 <= aligned < 2 ^ 32 ->
  (forall m' buf', buf_own om m' buf' L -> same_chain buf' buf -> oom_seen om ->
                   Q (false, buf') m') ->
  (forall m' buf' d a, buf_ok buf' d a -> aligned <= Zlen d -> same_chain buf' buf ->
     owns om m' (first_available buf' ↦ d :: arr_cells buf' a ++ L) -> Q (true, buf') m') ->
  wp (MqttBuffer_new_chunk buf aligned) m Q.
Proof.
  intros (d & a & Hok & Ho) Hc Hal Hfail HQ. unfold MqttBuffer_new_chunk. wp_bind.
  eapply wp_grow; [exact Hok|exact Ho|done| |].
  { intros m' Ho' Hs. wp_ret. apply Hfail; [by exists d, a|by apply same_chain_refl|done]. }
  clear m Ho Hok. intros m buf1 a1 Hok Hlt Hfa Hcnt Hsame Ho.
  set (n := if aligned <? MQTT_MIN_EXTENT_SIZE then MQTT_MIN_EXTENT_SIZE else aligned).
  assert (aligned <= n < 2 ^ 32) as Hn.
  { unfold n, MQTT_MIN_EXTENT_SIZE. destruct (Z.ltb_spec aligned 1024); lia. }
  wp_bind. eapply wp_malloc; [exact Ho| |].
  { intros m' Ho' Hom. wp_ret. apply Hfail; [by exists d, a1|done|by eexists]. }
  clear m Ho. intros b m Ho. pose proof Hok as [Hav Hav2 Ha Hnull Hst Hcount Hmax].
  unfold sizeof_ptr in *. rewrite u32_small by lia.
  replace (alloc_count buf1 + 1 - 1) with (alloc_count buf1) by lia.
  wp_bind. unfold arr_cells in *. destruct (allocations buf1) as [|ab ao] eqn:Hab.
  { rewrite Hnull in Hlt by done. lia. }
  subst ao. eapply (wp_writen _ _ _ (Ptr ab 0) a1 (4 * alloc_count buf1)).
  { exact Ho. } { perm_find. } { done. } { lia. }
  { unfold Zlen at 1. rewrite length_enc_ptr. lia. }
  clear m Ho. intros m Ho. wp_ret.
  eapply (HQ _ _ (replicate (Z.to_nat n) Undef)
           (splice a1 (4 * alloc_count buf1) (enc_ptr (Ptr b 0)))).
  - split; simpl; unfold sizeof_ptr; try done; try lia;
      unfold Zlen in *; rewrite ?length_replicate, ?length_splice; unfold Zlen;
      rewrite ?length_enc_ptr; try lia; simpl; lia.
  - unfold Zlen. rewrite length_replicate. lia.
  - unfold same_chain in *. simpl. destruct Hsame as (-> & -> & -> & ?).
    split_and!; try done; lia.
  - simpl. unfold arr_cells. simpl. rewrite length_splice;
      [|lia|unfold Zlen at 1; rewrite length_enc_ptr; lia].
    eapply owns_sub; [|exact Ho]. solve_submseteq.
Qed.

(** Writing the header of a fresh extent at the start of a free cell. *)
Lemma wp_write_hdr {B} (r : B) m L e d bytes L0 (Q : B -> mem -> Prop) :
  owns om m L -> L ≡ₚ e ↦ d :: L0 -> 0 <= bytes -> 12 + ext_cap bytes <= Zlen d ->
  (forall m' d1 d2, Zlen d1 = ext_cap bytes -> Zlen d2 = Zlen d - 12 - ext_cap bytes ->
     owns om m' (hdr_cells e bytes (padd e 12) Null ++
                 [padd e 12 ↦ d1; padd e (12 + ext_cap bytes) ↦ d2] ++ L0) -> Q r m') ->
  wp (_ ← set_len e bytes; _ ← set_payload e (padd e sizeof_MqttExtent);
      _ ← set_next e Null; mret r) m Q.
Proof.
  intros Ho HL H0 Hd HQ. rewrite HL in Ho. pose proof (ext_cap_bounds bytes) as Hcap.
  destruct (list_split_at d 4) as (d1 & dr & -> & H1 & H1'); [lia|].
  destruct (list_split_at dr 4) as (d2 & dr' & -> & H2 & H2'); [lia|].
  destruct (list_split_at dr' 4) as (d3 & dr & -> & H3 & H3'); [lia|].
  destruct (list_split_at dr (ext_cap bytes)) as (d4 & d5 & -> & H4 & H4'); [lia|].
  do 4 (rewrite owns_split in Ho; rewrite Permutation_swap in Ho).
  rewrite !padd_padd, H1, H2, H3, H4 in Ho. unfold Zlen in H1, H2, H3.
  wp_bind. eapply wp_write_cell; [exact Ho|perm_find|simpl; lia|].
  clear m Ho. intros m Ho. wp_bind.
  eapply wp_write_cell; [exact Ho|perm_find|rewrite length_enc_ptr; lia|].
  clear m Ho. intros m Ho. wp_bind.
  eapply wp_write_cell; [exact Ho|perm_find|rewrite length_enc_ptr; lia|].
  clear m Ho. intros m Ho. wp_ret.
  apply (HQ _ d4 d5); [done|lia|]. eapply owns_perm; [|exact Ho]. unfold hdr_cells. simpl.
  replace (4 + (4 + (4 + ext_cap bytes))) with (12 + ext_cap bytes) by lia.
  change (4 + (4 + 4)) with 12. solve_Permutation.
Qed.

(** The extent that an allocation returns: a header over [bytes] bytes of
    room, owned separately from everything the buffer had before. *)
Lemma wp_AllocExtent buf m bytes L (Q : ptr * MqttBuffer -> mem -> Prop) :
  buf_own om m buf L -> alloc_count buf < 2 ^ 20 -> 0 <= bytes -> bytes + 16 < 2 ^ 32 ->
  (forall m' buf', buf_own om m' buf' L -> same_chain buf' buf -> oom_seen om ->
                   Q (Null, buf') m') ->
  (forall e m' buf' d, e <> Null -> Zlen d = ext_cap bytes -> same_chain buf' buf ->
     buf_own om m' buf' (hdr_cells e bytes (padd e 12) Null ++ padd e 12 ↦ d :: L) ->
     Q (e, buf') m') ->
  wp (MqttBuffer_AllocExtent buf bytes) m Q.
Proof.
  intros Hown Hc Hb0 Hb1 Hfail HQ. unfold MqttBuffer_AllocExtent.
  rewrite MqttBuffer_aligned_cap by lia. pose proof (ext_cap_bounds bytes) as Hcap.
  unfold sizeof_MqttExtent. set (al := 12 + ext_cap bytes).
  wp_bind. eapply (wp_mono _ _ (fun r m' =>
    (r.1 = false /\ buf_own om m' r.2 L /\ same_chain r.2 buf /\ oom_seen om) \/
    (r.1 = true /\ exists d a, buf_ok r.2 d a /\ al <= Zlen d /\ same_chain r.2 buf /\
       owns om m' (first_available r.2 ↦ d :: arr_cells r.2 a ++ L)))).
  { destruct (Z.ltb_spec (available_bytes buf) al).
    - eapply wp_new_chunk; [exact Hown|done|lia| |].
      + intros m' buf' ???. by left.
      + intros m' buf' d a ????. right. split; [done|]. by exists d, a.
    - destruct Hown as (d & a & Hok & Ho). wp_ret. right. split; [done|].
      exists d, a. split_and!; [done| |by apply same_chain_refl|done].
      rewrite (bo_avail _ _ _ Hok). lia. }
  clear m Hown. intros [ok buf1] m [(Hf & Hown & Hsame & Hs)|(Hf & d & a & Hok & Hd & Hsame & Ho)];
    simpl in *; subst ok; simpl.
  { wp_ret. by apply Hfail. }
  eapply wp_write_hdr; [exact Ho|perm_find|done|lia|].
  clear m Ho. intros m d1 d2 H1 H2 Ho. apply (HQ _ _ _ d1); [|done|done|].
  - eapply (owns_not_null _ _ _ (first_available buf1));
      [exact Ho|unfold hdr_cells, enc_u32, le32; simpl; perm_find].
  - destruct Hok as [Hav Hav2 ?????].
    exists d2, a. split; [split; simpl; try done|]; try (rewrite u32_small; lia).
    eapply owns_perm; [|exact Ho]. simpl.
    change (arr_cells (mk_MqttBuffer _ _ _ (allocations buf1) _ _ _ _) a)
      with (arr_cells buf1 a). unfold hdr_cells, al. simpl. solve_Permutation.
Qed.
End alloc.

(** ** The chain of extents *)

Record xt := Xt { x_addr : ptr; x_len : Z; x_pay : ptr; x_data : list memval }.

Definition head_ptr (xs : list xt) (nx : ptr) : ptr :=
  match xs with [] => nx | x :: _ => x_addr x end.

Fixpoint last_ptr (xs : list xt) : ptr :=
  match xs with [] => Null | [x] => x_addr x | _ :: xs => last_ptr xs end.

Definition xt_cells (x : xt) (nx : ptr) : list cell :=
  hdr_cells (x_addr x) (x_len x) (x_pay x) nx ++ [x_pay x ↦ x_data x].

(** The cells of a chain whose last extent points to [nx]. *)
Fixpoint chain_cells (xs : list xt) (nx : ptr) : list cell :=
  match xs with
  | [] => []
  | x :: xs => xt_cells x (head_ptr xs nx) ++ chain_cells xs nx
  end.

(** The bytes an extent contributes to the packet, and a chain's bytes. *)
Definition xt_bytes (x : xt) : list memval := take (Z.to_nat (x_len x)) (x_data x).
Definition chain_bytes (xs : list xt) : list memval := xs ≫= xt_bytes.

Definition xt_ok (x : xt) : Prop :=
  x_addr x <> Null /\ 0 <= x_len x <= Zlen (x_data x) /\ x_len x < 2 ^ 32.

(** [brep om m buf xs L]: the buffer holds the chain [xs]; [L] is framed. *)
Record brep (om : nat -> bool) (m : mem) (buf : MqttBuffer) (xs : list xt) (L : list cell)
    : Prop := {
  br_first : first_ext buf = head_ptr xs Null;
  br_last : last_ext buf = last_ptr xs;
  br_ok : Forall xt_ok xs;
  br_own : buf_own om m buf (chain_cells xs Null ++ L);
}.

Lemma head_ptr_app xs ys nx : head_ptr (xs ++ ys) nx = head_ptr xs (head_ptr ys nx).
Proof. by destruct xs. Qed.

Lemma chain_cells_app xs ys nx :
  chain_cells (xs ++ ys) nx = chain_cells xs (head_ptr ys nx) ++ chain_cells ys nx.
Proof.
  induction xs as [|x xs IH]; [done|]. simpl. rewrite IH, head_ptr_app.
  by rewrite <-?(assoc_L (++)).
Qed.

Lemma chain_bytes_app xs ys : chain_bytes (xs ++ ys) = chain_bytes xs ++ chain_bytes ys.
Proof. apply bind_app. Qed.

Lemma last_ptr_snoc xs x : last_ptr (xs ++ [x]) = x_addr x.
Proof. induction xs as [|y [|z xs] IH]; done. Qed.

Lemma last_ptr_null xs : Forall xt_ok xs -> last_ptr xs = Null -> xs = [].
Proof.
  destruct xs as [|x xs _] using rev_ind; [done|]. rewrite last_ptr_snoc.
  intros (_ & (Hx & _)%Forall_singleton)%Forall_app. done.
Qed.

Section chain.
Context (om : nat -> bool).

Lemma brep_init m L : owns om m L -> brep om m MqttBuffer_Init [] L.
Proof. intros Ho. by split; [..|constructor|apply buf_own_init]. Qed.

Lemma brep_frame m buf xs L1 L2 : L2 ⊆+ L1 -> brep om m buf xs L1 -> brep om m buf xs L2.
Proof.
  intros HL [? ? ? Hown]. split; try done. eapply buf_own_sub; [|exact Hown].
  by apply submseteq_app.
Qed.

Lemma brep_perm m buf xs L1 L2 : L1 ≡ₚ L2 -> brep om m buf xs L1 -> brep om m buf xs L2.
Proof. intros HL. apply brep_frame. by rewrite HL. Qed.

(** A step on a list owned by the buffer keeps the buffer's own part: the
    rules of [Cmem] apply to [buf_own] through this lemma. *)
Lemma buf_own_open m buf L : buf_own om m buf L ->
  exists R, owns om m (L ++ R) /\
    forall m' L', owns om m' (L' ++ R) -> buf_own om m' buf L'.
Proof.
  intros (d & a & Hok & Ho). exists (first_available buf ↦ d :: arr_cells buf a). split.
  - eapply owns_perm; [|exact Ho]. rewrite Permutation_app_comm. done.
  - intros m' L' Ho'. exists d, a. split; [done|]. eapply owns_perm; [|exact Ho'].
    rewrite (Permutation_app_comm L'). done.
Qed.

(** Moving between buffers that share the chunk bookkeeping. *)
Lemma buf_own_fields m buf buf' L :
  available_bytes buf' = available_bytes buf -> allocations buf' = allocations buf ->
  first_available buf' = first_available buf -> alloc_count buf' = alloc_count buf ->
  alloc_max_count buf' = alloc_max_count buf ->
  buf_own om m buf L -> buf_own om m buf' L.
Proof.
  intros H1 H2 H3 H4 H5 (d & a & [] & Ho). exists d, a. split.
  - split; rewrite ?H1, ?H2, ?H4, ?H5; done.
  - unfold arr_cells in *. by rewrite H2, H3.
Qed.

Lemma wp_set_next m L e p q L0 (Q : unit -> mem -> Prop) :
  owns om m L -> L ≡ₚ padd e 8 ↦ enc_ptr q :: L0 ->
  (forall m', owns om m' (padd e 8 ↦ enc_ptr p :: L0) -> Q tt m') ->
  wp (set_next e p) m Q.
Proof.
  intros Ho HL HQ. eapply wp_write_cell; [exact Ho|exact HL| |exact HQ].
  by rewrite !length_enc_ptr.
Qed.

(** Appending an extent appends its bytes to the packet. *)
Lemma wp_AppendExtent buf m xs x nx L (Q : MqttBuffer -> mem -> Prop) :
  first_ext buf = head_ptr xs Null -> last_ext buf = last_ptr xs ->
  Forall xt_ok xs -> xt_ok x ->
  buf_own om m buf (chain_cells xs Null ++ xt_cells x nx ++ L) ->
  (forall m' buf', brep om m' buf' (xs ++ [x]) L ->
     alloc_count buf' = alloc_count buf ->
     buffered_bytes buf' = u32 (buffered_bytes buf + x_len x) -> Q buf' m') ->
  wp (MqttBuffer_AppendExtent buf (x_addr x)) m Q.
Proof.
  intros Hfst Hlst Hxs Hx Hown HQ. unfold MqttBuffer_AppendExtent.
  apply buf_own_open in Hown as (R & Ho & Hclose). unfold xt_cells, hdr_cells in Ho.
  rewrite <-!(assoc_L (++)) in Ho.
  wp_bind. eapply wp_set_next; [exact Ho|perm_find|]. clear m Ho. intros m Ho.
  wp_bind. eapply (wp_mono _ _ (fun _ m' =>
    owns om m' (chain_cells (xs ++ [x]) Null ++ L ++ R))).
  - case_decide as Hl; rewrite Hlst in Hl.
    + apply last_ptr_null in Hl as ->; [|done]. wp_ret.
      eapply owns_perm; [|exact Ho]. simpl. solve_Permutation.
    + destruct xs as [|z xs _] using rev_ind; [done|].
      rewrite Hlst, last_ptr_snoc. rewrite chain_cells_app in Ho. simpl in Ho.
      unfold xt_cells, hdr_cells in Ho. rewrite <-!(assoc_L (++)) in Ho.
      eapply (wp_set_next _ _ (x_addr z)); [exact Ho| |].
      { apply perm_find_cons. apply perm_find_app_r. perm_find. }
      intros m' Ho'. rewrite !chain_cells_app. simpl. unfold xt_cells, hdr_cells.
      eapply owns_perm; [|exact Ho']. simpl. solve_Permutation.
  - clear m Ho. intros _ m Ho. wp_bind.
    destruct Hx as (Hx1 & Hx2 & Hx3). unfold get_len.
    rewrite chain_cells_app in Ho. simpl in Ho.
    eapply wp_load_u32; [exact Ho|unfold xt_cells, hdr_cells; perm_find|lia|].
    wp_ret. apply HQ; [|done|done]. split; simpl.
    + rewrite Hlst, Hfst. case_decide as Hl.
      * by apply last_ptr_null in Hl as ->.
      * by destruct xs.
    + by rewrite last_ptr_snoc.
    + apply Forall_app. split; [done|]. by apply Forall_singleton.
    + eapply (buf_own_fields _ buf); [done..|]. apply Hclose.
      rewrite chain_cells_app. simpl. eapply owns_perm; [|exact Ho]. solve_Permutation.
Qed.
End chain.

(** ** One-chunk buffers, and giving the memory back

    The response buffers of the receiver hold one small packet: one array of
    one slot and one chunk.  For them [MqttBuffer_Destroy] returns exactly
    the memory that was taken. *)

Section one_chunk.
Context (om : nat -> bool).

Definition one_buf (a c : nat) (used : Z) : MqttBuffer :=
  mk_MqttBuffer Null Null (MQTT_MIN_EXTENT_SIZE - used) (Ptr a 0) (Ptr c used) 1 1 0.

Definition arr1_cells (a c : nat) : list cell := [Ptr a 0 ↦ enc_ptr (Ptr c 0); Blk a 4].

Lemma wp_Destroy_one buf m a c x1 x2 x3 d tl L (Q : unit -> mem -> Prop) :
  allocations buf = Ptr a 0 -> alloc_count buf = 1 ->
  length x1 = 4%nat -> length x2 = 4%nat -> length x3 = 4%nat ->
  (length d + length tl = 1012)%nat ->
  owns om m (arr1_cells a c ++ [Ptr c 0 ↦ x1; Ptr c 4 ↦ x2; Ptr c 8 ↦ x3; Ptr c 12 ↦ d;
               Ptr c (12 + Zlen d) ↦ tl; Blk c 1024] ++ L) ->
  (forall m', owns om m' L -> Q tt m') -> wp (MqttBuffer_Destroy buf) m Q.
Proof.
  intros Ha Hc H1 H2 H3 Hlen Ho HQ. unfold MqttBuffer_Destroy, MqttBuffer_Reset.
  rewrite Ha, Hc. change (Z.to_nat 1) with 1%nat. simpl.
  wp_bind. unfold arr1_cells in Ho.
  eapply wp_load_ptr; [exact Ho|change (padd (Ptr a 0) _) with (Ptr a 0); simpl; perm_find|].
  wp_bind. eapply (wp_free _ _ _ _ (x1 ++ x2 ++ x3 ++ d ++ tl)
    (Ptr a 0 ↦ enc_ptr (Ptr c 0) :: Blk a 4 :: L)); [|reflexivity|].
  { rewrite !length_app. replace (length x1 + _)%nat with 1024%nat by lia.
    do 4 (rewrite owns_split, Permutation_swap). simpl padd. unfold Zlen in *.
    rewrite H1, H2, H3. eapply owns_perm; [|exact Ho]. simpl.
    change (0 + Z.of_nat 4) with 4. change (4 + Z.of_nat 4) with 8.
    change (8 + Z.of_nat 4) with 12. solve_Permutation. }
  clear m Ho. intros m Ho. wp_ret. wp_bind.
  eapply wp_free; [exact Ho|rewrite length_enc_ptr; reflexivity|].
  clear m Ho. intros m Ho. wp_ret. by apply HQ.
Qed.

(** The first allocation of an empty buffer. *)
Lemma wp_alloc_init m L bytes (Q : ptr * MqttBuffer -> mem -> Prop) :
  owns om m L -> 0 <= bytes <= 1000 ->
  (forall m' buf', same_chain buf' MqttBuffer_Init -> oom_seen om ->
     wp (MqttBuffer_Destroy buf') m' (fun _ m'' => owns om m'' L) -> Q (Null, buf') m') ->
  (forall a c m' d tl, Zlen d = ext_cap bytes -> Zlen tl = 1012 - ext_cap bytes ->
     owns om m' (arr1_cells a c ++ hdr_cells (Ptr c 0) bytes (Ptr c 12) Null ++
       [Ptr c 12 ↦ d; Ptr c (12 + ext_cap bytes) ↦ tl; Blk c 1024] ++ L) ->
     Q (Ptr c 0, one_buf a c (12 + ext_cap bytes)) m') ->
  wp (MqttBuffer_AllocExtent MqttBuffer_Init bytes) m Q.
Proof.
  intros Ho Hb Hfail HQ. unfold MqttBuffer_AllocExtent.
  rewrite MqttBuffer_aligned_cap by lia. pose proof (ext_cap_bounds bytes) as Hcap.
  unfold sizeof_MqttExtent. simpl available_bytes.
  destruct (Z.ltb_spec 0 (12 + ext_cap bytes)); [|lia].
  unfold MqttBuffer_new_chunk, MqttBuffer_grow. simpl.
  destruct (Z.ltb_spec (12 + ext_cap bytes) MQTT_MIN_EXTENT_SIZE);
    [|unfold MQTT_MIN_EXTENT_SIZE in *; lia].
  change (u32 (u32 (0 * 2 + 1) * sizeof_ptr)) with 4. change (u32 (0 * 2 + 1)) with 1.
  wp_bind. eapply wp_malloc; [exact Ho| |].
  { intros m' Ho' Hom. wp_ret. apply Hfail; [done|by eexists|].
    unfold MqttBuffer_Destroy, MqttBuffer_Reset. simpl. wp_bind. by wp_ret. }
  clear m Ho. intros a m Ho. wp_bind.
  eapply wp_write_cell; [exact Ho|perm_find|by rewrite !length_replicate|].
  clear m Ho. intros m Ho. wp_bind. wp_ret.
  eapply (wp_writen _ _ _ _ _ 0 []); [exact Ho|perm_find|done|done|done|].
  clear m Ho. intros m Ho.
  change (splice _ 0 []) with (replicate 4 (Byte 0)) in Ho.
  change (Z.to_nat 4) with 4%nat in Ho.
  wp_bind. apply wp_free_null. wp_pure. simpl.
  eapply wp_malloc; [exact Ho| |].
  { intros m' Ho' Hom. wp_ret. apply Hfail; [done|by eexists|].
    unfold MqttBuffer_Destroy, MqttBuffer_Reset. simpl. wp_bind. wp_ret.
    wp_bind. eapply (wp_free _ _ _ _ (replicate 4 (Byte 0)) L); [exact Ho'|reflexivity|]. intros m2 Ho2.
    by wp_ret. }
  clear m Ho. intros c m Ho. change (u32 (0 + 1)) with 1. wp_bind.
  eapply (wp_write_cell _ _ _ (Ptr a 0)); [exact Ho|perm_find|done|].
  clear m Ho. intros m Ho. wp_ret. simpl.
  eapply (wp_write_hdr _ _ _ _ (Ptr c 0)); [exact Ho|perm_find|lia| |].
  { unfold Zlen. rewrite length_replicate. unfold MQTT_MIN_EXTENT_SIZE in *. lia. }
  clear m Ho. intros m d tl H1 H2 Ho. unfold MQTT_MIN_EXTENT_SIZE in *.
  unfold Zlen at 2 in H2. rewrite length_replicate in H2.
  rewrite (u32_small (_ - _)), Z.add_0_l by lia. apply (HQ a c m d tl); [lia|lia|].
  eapply owns_perm; [|exact Ho]. unfold hdr_cells, arr1_cells. simpl. solve_Permutation.
Qed.
End one_chunk.

(** ** Appending a block of bytes *)

Lemma take_splice_0 d l : take (length l) (splice d 0 l) = l.
Proof. unfold splice. rewrite take_0. simpl. by rewrite take_app_length. Qed.

Section append.
Context (om : nat -> bool).

Lemma wp_set_payload m L e p q L0 (Q : unit -> mem -> Prop) :
  owns om m L -> L ≡ₚ padd e 4 ↦ enc_ptr q :: L0 ->
  (forall m', owns om m' (padd e 4 ↦ enc_ptr p :: L0) -> Q tt m') ->
  wp (set_payload e p) m Q.
Proof.
  intros Ho HL HQ. eapply wp_write_cell; [exact Ho|exact HL| |exact HQ].
  by rewrite !length_enc_ptr.
Qed.

Lemma wp_set_len m L e v w L0 (Q : unit -> mem -> Prop) :
  owns om m L -> L ≡ₚ e ↦ enc_u32 w :: L0 ->
  (forall m', owns om m' (e ↦ enc_u32 v :: L0) -> Q tt m') ->
  wp (set_len e v) m Q.
Proof. intros Ho HL HQ. eapply wp_write_cell; [exact Ho|exact HL|done|exact HQ]. Qed.

Lemma wp_memcpy m L dst d src s n L0 (Q : unit -> mem -> Prop) :
  owns om m L -> L ≡ₚ dst ↦ d :: src ↦ s :: L0 -> 0 <= n -> n <= Zlen s -> n <= Zlen d ->
  (forall m', owns om m' (dst ↦ (splice d 0 (take (Z.to_nat n) s)) :: src ↦ s :: L0) ->
     Q tt m') ->
  wp (memcpy dst src n) m Q.
Proof.
  intros Ho HL H0 Hs Hd HQ. unfold memcpy, memmove. wp_bind.
  eapply (wp_readn _ _ _ src s 0 n); [exact Ho| |by rewrite padd_0|done|done|lia|].
  { rewrite HL. apply Permutation_swap. }
  rewrite drop_0. eapply (wp_writen _ _ _ dst d 0);
    [exact Ho|exact HL|by rewrite padd_0|done| |exact HQ].
  unfold Zlen in *. rewrite length_take. lia.
Qed.

Lemma wp_Append buf m xs payload src size (own : bool) L (Q : Z * MqttBuffer -> mem -> Prop) :
  brep om m buf xs (payload ↦ src :: L) -> alloc_count buf < 2 ^ 20 ->
  0 <= size <= Zlen src -> size + 16 < 2 ^ 32 ->
  (forall m' buf', brep om m' buf' xs (payload ↦ src :: L) -> oom_seen om ->
     buffered_bytes buf' = buffered_bytes buf -> Q (MQTTERR_OUTOFMEMORY, buf') m') ->
  (forall m' buf' x, xt_bytes x = take (Z.to_nat size) src -> x_len x = size ->
     brep om m' buf' (xs ++ [x]) (if own then payload ↦ src :: L else L) ->
     alloc_count buf' <= alloc_count buf + 1 ->
     buffered_bytes buf' = u32 (buffered_bytes buf + size) ->
     Q (MQTTERR_NOERROR, buf') m') ->
  wp (MqttBuffer_Append buf payload size own) m Q.
Proof.
  intros [Hf Hl Hxs Hown] Hc Hs Hs2 Hfail HQ. unfold MqttBuffer_Append. wp_bind.
  eapply wp_AllocExtent; [exact Hown|done|destruct own; unfold sizeof_MqttExtent; lia
    |destruct own; unfold sizeof_MqttExtent; lia| |].
  { intros m' buf' Ho' (? & ? & ? & ?) Hom. wp_ret. apply Hfail; [|done..]. split; congruence. }
  clear m Hown. intros e m buf1 d He Hd Hsame Hown.
  rewrite match_ptr_ne by done. apply buf_own_open in Hown as (R & Ho & Hclose).
  wp_bind. eapply (wp_mono _ _ (fun _ m' => exists x, x_addr x = e /\
    xt_bytes x = take (Z.to_nat size) src /\ x_len x = size /\ xt_ok x /\
    owns om m' (xt_cells x Null ++ chain_cells xs Null ++
                (if own then payload ↦ src :: L else L) ++ R))).
  - unfold hdr_cells in Ho. simpl in Ho. pose proof (ext_cap_bounds size).
    destruct own; wp_bind.
    + eapply wp_set_payload; [exact Ho|perm_find|]. clear m Ho. intros m Ho. wp_bind.
      eapply wp_load_ptr; [exact Ho|perm_find|]. unfold sizeof_MqttExtent in *.
      eapply (wp_memcpy _ _ _ d _ src); [exact Ho|perm_find2|lia|lia|lia|].
      clear m Ho. intros m Ho.
      exists (Xt e size (padd e 12) (splice d 0 (take (Z.to_nat size) src))).
      split; [done|]. split; [|split; [done|split]].
      * unfold xt_bytes. simpl. rewrite <-(length_take_le src (Z.to_nat size)) at 1
          by (unfold Zlen in *; lia). apply take_splice_0.
      * split; [done|]. simpl. unfold Zlen in *. rewrite length_splice; [lia|done|].
        unfold Zlen. rewrite length_take. lia.
      * unfold xt_cells, hdr_cells. simpl. eapply owns_perm; [|exact Ho]. solve_Permutation.
    + eapply wp_set_payload; [exact Ho|perm_find|]. clear m Ho. intros m Ho.
      eapply wp_set_len; [exact Ho|perm_find|]. clear m Ho. intros m Ho.
      exists (Xt e size payload src).
      split; [done|]. split; [done|split; [done|split]].
      * split; [done|]. simpl. lia.
      * unfold xt_cells, hdr_cells. simpl. eapply owns_sub; [|exact Ho]. solve_submseteq.
  - clear m Ho. intros _ m (x & <- & Hb & Hlen & Hok & Ho). wp_bind.
    destruct Hsame as (Hf1 & Hl1 & Hb1 & Hc1).
    eapply (wp_AppendExtent _ _ _ xs x); [congruence|congruence|done|done| |].
    { apply Hclose. eapply owns_perm; [|exact Ho].
      instantiate (1 := if own then payload ↦ src :: L else L).
      instantiate (1 := Null). solve_Permutation. }
    clear m Ho. intros m buf2 Hbr Hc2 Hb2. wp_ret.
    apply (HQ _ _ x); [done|done|done|lia|congruence].
Qed.
End append.

(** ** Properties *)

(** An allocation either fails because [malloc] failed, with the
    chain untouched, or returns an extent whose header records the requested
    length, whose payload has at least that many bytes, and which overlaps
    nothing that was owned before. *)
Theorem AllocExtent_fresh om m buf bytes L :
  buf_own om m buf L -> alloc_count buf < 2 ^ 20 -> 0 <= bytes -> bytes + 16 < 2 ^ 32 ->
  wp (MqttBuffer_AllocExtent buf bytes) m (fun r m' =>
    same_chain r.2 buf /\
    ((r.1 = Null /\ oom_seen om /\ buf_own om m' r.2 L) \/
     (r.1 <> Null /\ exists d, bytes <= Zlen d /\
        buf_own om m' r.2 (hdr_cells r.1 bytes (padd r.1 12) Null ++ padd r.1 12 ↦ d :: L)))).
Proof.
  intros Hown Hc H0 H1. pose proof (ext_cap_bounds bytes).
  eapply wp_AllocExtent; [exact Hown|done..| |]; simpl.
  - intros m' buf' ???. split; [done|]. by left.
  - intros e m' buf' d ????. split; [done|]. right. split; [done|]. exists d. split; [lia|done].
Qed.

Lemma AllocExtent_fresh_witness :
  wp (MqttBuffer_AllocExtent MqttBuffer_Init 5) (mem_empty never_oom) (fun r m' =>
    same_chain r.2 MqttBuffer_Init /\
    ((r.1 = Null /\ oom_seen never_oom /\ buf_own never_oom m' r.2 []) \/
     (r.1 <> Null /\ exists d, 5 <= Zlen d /\
        buf_own never_oom m' r.2
          (hdr_cells r.1 5 (padd r.1 12) Null ++ padd r.1 12 ↦ d :: [])))).
Proof.
  apply (AllocExtent_fresh never_oom (mem_empty never_oom) MqttBuffer_Init 5 []).
  - apply buf_own_init, owns_empty.
  - done.
  - done.
  - done.
Defined.

(** Appending [size] bytes makes the packet longer by exactly those
    bytes, copied when the buffer owns them and referenced when it does not,
    and adds [size] to the byte count; on a failed allocation the packet is
    unchanged. *)
Theorem Append_bytes om m buf xs payload src size own L :
  brep om m buf xs (payload ↦ src :: L) -> alloc_count buf < 2 ^ 20 ->
  0 <= size <= Zlen src -> size + 16 < 2 ^ 32 ->
  wp (MqttBuffer_Append buf payload size own) m (fun r m' =>
    (r.1 = MQTTERR_OUTOFMEMORY /\ oom_seen om /\ brep om m' r.2 xs (payload ↦ src :: L)) \/
    (r.1 = MQTTERR_NOERROR /\ buffered_bytes r.2 = u32 (buffered_bytes buf + size) /\
     exists ys, brep om m' r.2 ys (if own then payload ↦ src :: L else L) /\
       chain_bytes ys = chain_bytes xs ++ take (Z.to_nat size) src)).
Proof.
  intros Hbr Hc Hs Hs2. eapply wp_Append; [exact Hbr|done..| |]; simpl.
  - intros m' buf' ???. by left.
  - intros m' buf' x Hx Hl Hbr' Hc' Hb'. right. split; [done|]. split; [done|].
    exists (xs ++ [x]). split; [done|]. rewrite chain_bytes_app. f_equal.
    unfold chain_bytes. simpl. by rewrite Hx, app_nil_r.
Qed.

Lemma Append_bytes_witness :
  wp (MqttBuffer_Append MqttBuffer_Init (Ptr 0 0) 2 true) (mem_one never_oom (bytes [7; 8; 9]))
    (fun r m' =>
    (r.1 = MQTTERR_OUTOFMEMORY /\ oom_seen never_oom /\
       brep never_oom m' r.2 [] [Ptr 0 0 ↦ bytes [7; 8; 9]]) \/
    (r.1 = MQTTERR_NOERROR /\ buffered_bytes r.2 = u32 (0 + 2) /\
     exists ys, brep never_oom m' r.2 ys [Ptr 0 0 ↦ bytes [7; 8; 9]] /\
       chain_bytes ys = chain_bytes [] ++ take (Z.to_nat 2) (bytes [7; 8; 9]))).
Proof.
  apply (Append_bytes never_oom (mem_one never_oom (bytes [7; 8; 9])) MqttBuffer_Init []
           (Ptr 0 0) (bytes [7; 8; 9]) 2 true []).
  - apply brep_init, owns_one.
  - done.
  - done.
  - done.
Defined.

(** A buffer holding one chunk gives its memory back without touching
    anything else: allocating an extent of up to 1000 bytes in an empty buffer
    and destroying the buffer is always defined, whether or not the
    allocations succeed, and keeps every other cell. *)
Theorem Destroy_one_chunk om m bytes L : owns om m L -> 0 <= bytes <= 1000 ->
  wp ('(_, buf) ← MqttBuffer_AllocExtent MqttBuffer_Init bytes; MqttBuffer_Destroy buf) m
     (fun _ m' => owns om m' L).
Proof.
  intros Ho Hb. pose proof (ext_cap_bounds bytes). wp_bind.
  eapply wp_alloc_init; [exact Ho|done|by intros|].
  intros a c m' d tl Hd Htl Ho'. eapply (wp_Destroy_one _ _ _ a c (enc_u32 bytes)
    (enc_ptr (Ptr c 12)) (enc_ptr Null) d tl L); try done.
  - unfold Zlen in *. lia.
  - rewrite Hd. exact Ho'.
Qed.

Lemma Destroy_one_chunk_witness :
  wp ('(_, buf) ← MqttBuffer_AllocExtent MqttBuffer_Init 4; MqttBuffer_Destroy buf)
     (mem_empty never_oom) (fun _ m' => owns never_oom m' []).
Proof.
  apply (Destroy_one_chunk never_oom (mem_empty never_oom) 4 []).
  - apply owns_empty.
  - done.
Defined.

(** Growing the pointer array copies [alloc_max_count] bytes instead of
    that many pointers, so a buffer that took two chunks cannot be destroyed:
    the first slot no longer holds a pointer and freeing it is undefined. *)
Theorem Destroy_two_chunks_undefined :
  ('(e1, buf) ← MqttBuffer_AllocExtent MqttBuffer_Init 1000;
   '(e2, buf) ← MqttBuffer_AllocExtent buf 1000;
   mret (e1, e2, alloc_count buf)) (mem_empty never_oom) ≫= (fun r => Some r.1)
    = Some (Ptr 1 0, Ptr 3 0, 2) /\
  ('(_, buf) ← MqttBuffer_AllocExtent MqttBuffer_Init 1000;
   '(_, buf) ← MqttBuffer_AllocExtent buf 1000;
   MqttBuffer_Destroy buf) (mem_empty never_oom) = None.
Proof. split; vm_compute; reflexivity. Qed.
