(* ===== verification/MqttCodec.v ===== *)
(** * Byte-level encoding of MQTT packets (components/net/Protocol/mqtt/mqtt.c)

    Big-endian integers, the variable-length "remaining length" field, the
    UTF-8 and client-identifier checks and the length-prefixed strings.  Each
    function of the source is a computation on memory; next to it is a pure
    function on byte lists, and a lemma that the computation on memory
    returns what the pure function says. *)

From S2P Require Import Prelude Cmem MqttBuffer.
From stdpp Require Import list_tactics.

Open Scope Z_scope.

(** ** Integers in the packet *)

Definition Mqtt_RB16 (v : ptr) : M mem Z :=
  b0 ← load_byte v;
  b1 ← load_byte (padd v 1);
  mret (Z.lor (Z.shiftl b0 8) b1).

Definition Mqtt_RB64 (v : ptr) : M mem Z :=
  b0 ← load_byte v; b1 ← load_byte (padd v 1); b2 ← load_byte (padd v 2);
  b3 ← load_byte (padd v 3); b4 ← load_byte (padd v 4); b5 ← load_byte (padd v 5);
  b6 ← load_byte (padd v 6); b7 ← load_byte (padd v 7);
  mret (Z.lor (Z.shiftl b0 56) (Z.lor (Z.shiftl b1 48) (Z.lor (Z.shiftl b2 40)
       (Z.lor (Z.shiftl b3 32) (Z.lor (Z.shiftl b4 24) (Z.lor (Z.shiftl b5 16)
       (Z.lor (Z.shiftl b6 8) b7))))))).

Definition Mqtt_WB8 (v : Z) (out : ptr) : M mem unit := store_byte out (u8 v).

Definition Mqtt_WB16 (v : Z) (out : ptr) : M mem unit :=
  _ ← store_byte out (u8 (Z.shiftr v 8));
  store_byte (padd out 1) (u8 v).

Definition Mqtt_WB32 (v : Z) (out : ptr) : M mem unit :=
  _ ← store_byte out (u8 (Z.shiftr v 24));
  _ ← store_byte (padd out 1) (u8 (Z.shiftr v 16));
  _ ← store_byte (padd out 2) (u8 (Z.shiftr v 8));
  store_byte (padd out 3) (u8 v).

(** ** The remaining-length field *)

(** The loop of Mqtt_ReadLength with [n] bytes of the stream left; returns the
    result code and [*len]. *)
Fixpoint Mqtt_ReadLength_loop (n : nat) (stream : ptr) (i len multiplier : Z)
    : M mem (Z * Z) :=
  match n with
  | O => mret (-1, len)
  | S n =>
      b ← load_byte (padd stream i);
      let len := u32 (len + Z.land b 0x7f * multiplier) in
      if Z.land b 0x80 =? 0 then mret (i + 1, len)
      else
        let multiplier := u32 (multiplier * 128) in
        if 128 * 128 * 128 <=? multiplier then mret (-2, len)
        else Mqtt_ReadLength_loop n stream (i + 1) len multiplier
  end.

Definition Mqtt_ReadLength (stream : ptr) (size : Z) : M mem (Z * Z) :=
  Mqtt_ReadLength_loop (Z.to_nat size) stream 0 0 1.

Fixpoint Mqtt_DumpLength_loop (n : nat) (i len : Z) (buf : ptr) : M mem Z :=
  match n with
  | O => mret (-1)
  | S n =>
      _ ← store_byte buf (len mod 128);
      let len := len / 128 in
      if 0 <? len then
        b ← load_byte buf;
        _ ← store_byte buf (Z.lor b 128);
        Mqtt_DumpLength_loop n (i + 1) len (padd buf 1)
      else mret i
  end.

Definition Mqtt_DumpLength (len : Z) (buf : ptr) : M mem Z :=
  Mqtt_DumpLength_loop 4 1 len buf.

Definition Mqtt_AppendLength (buf : MqttBuffer) (len : Z) : M mem Z :=
  let fix_head := first_ext buf in
  pay ← get_payload fix_head;
  '(r, pkt_len) ← Mqtt_ReadLength (padd pay 1) 4;
  if r <? 0 then mret MQTTERR_INVALID_PARAMETER else
  let pkt_len := u32 (pkt_len + len) in
  pay ← get_payload fix_head;
  r ← Mqtt_DumpLength pkt_len (padd pay 1);
  let flen := u32 (r + 1) in
  _ ← set_len fix_head flen;
  if flen <? 2 then mret MQTTERR_PKT_TOO_LARGE else mret MQTTERR_NOERROR.

Definition Mqtt_EraseLength (buf : MqttBuffer) (len : Z) : M mem (Z * MqttBuffer) :=
  let fix_head := first_ext buf in
  pay ← get_payload fix_head;
  '(r, pkt_len) ← Mqtt_ReadLength (padd pay 1) 4;
  if r <? 0 then mret (MQTTERR_INVALID_PARAMETER, buf) else
  if pkt_len <? len then mret (MQTTERR_INTERNAL, buf) else
  let pkt_len := u32 (pkt_len - len) in
  let buf := mk_MqttBuffer (first_ext buf) (last_ext buf) (available_bytes buf)
               (allocations buf) (first_available buf) (alloc_count buf) (alloc_max_count buf)
               (u32 (buffered_bytes buf - len)) in
  pay ← get_payload fix_head;
  r ← Mqtt_DumpLength pkt_len (padd pay 1);
  _ ← set_len fix_head (u32 (r + 1));
  mret (MQTTERR_NOERROR, buf).

(** [*buf] is threaded: the new cursor is the result. *)
Definition Mqtt_PktWriteString (buf str : ptr) (len : Z) : M mem ptr :=
  _ ← Mqtt_WB16 len buf;
  _ ← memcpy (padd buf 2) str len;
  mret (padd buf (2 + len)).

(** ** Checks on strings *)

(** [isalnum] of the C library, in the "C" locale. *)
Definition isalnum (c : Z) : bool :=
  ((48 <=? c) && (c <=? 57)) || ((65 <=? c) && (c <=? 90)) || ((97 <=? c) && (c <=? 122)).

(** The number of bytes from [p] to the end of its block: more iterations of a
    loop that reads one byte further each time are undefined anyway. *)
Definition room (m : mem) (p : ptr) : nat :=
  match p with
  | Null => 0
  | Ptr b o => match m_blocks m !! b with Some d => length d - Z.to_nat o | None => 0 end
  end.

Fixpoint Mqtt_CheckClentIdentifier_loop (n : nat) (id : ptr) (len : Z) : M mem Z :=
  match n with
  | O => ub
  | S n =>
      c ← load_byte (padd id len);
      if c =? 0 then mret len
      else if negb (isalnum c) then mret (-1)
      else Mqtt_CheckClentIdentifier_loop n id (len + 1)
  end.

Definition Mqtt_CheckClentIdentifier (id : ptr) : M mem Z :=
  m ← get; Mqtt_CheckClentIdentifier_loop (room m id) id 0.

Definition Mqtt_TrailingBytesForUTF8 : list Z :=
  replicate 192 0 ++ replicate 32 1 ++ replicate 16 2 ++ replicate 8 3 ++
  replicate 4 4 ++ replicate 4 5.

Definition trailing (b : Z) : Z := default 0 (Mqtt_TrailingBytesForUTF8 !! Z.to_nat b).

Definition cont_byte (bv : Z) : bool := negb ((bv <? 0x80) || (0xBF <? bv)).

(** [case 2] of the switch of Mqtt_IsLegalUtf8, on the second byte. *)
Definition second_byte (first bv : Z) : bool :=
  cont_byte bv &&
  (if first =? 0xE0 then negb (bv <? 0xA0)
   else if first =? 0xED then negb (0x9F <? bv)
   else if first =? 0xF0 then negb (bv <? 0x90)
   else if first =? 0xF4 then negb (0x8F <? bv)
   else true).

(** [case 1]: the first byte. *)
Definition first_byte (first : Z) : bool :=
  negb (((0x80 <=? first) && (first <? 0xC2)) || (0xF4 <? first)).

Definition Mqtt_IsLegalUtf8 (first : ptr) (len : Z) : M mem Z :=
  if (len <? 1) || (4 <? len) then mret MQTTERR_NOT_UTF8 else
  ok4 ← (if len =? 4 then cont_byte <$> load_byte (padd first 3) else mret true);
  if negb ok4 then mret MQTTERR_NOT_UTF8 else
  ok3 ← (if 3 <=? len then cont_byte <$> load_byte (padd first 2) else mret true);
  if negb ok3 then mret MQTTERR_NOT_UTF8 else
  ok2 ← (if 2 <=? len then
           bv ← load_byte (padd first 1);
           if negb (cont_byte bv) then mret false else
           a ← load_byte first; mret (second_byte a bv)
         else mret true);
  if negb ok2 then mret MQTTERR_NOT_UTF8 else
  a ← load_byte first;
  if negb (first_byte a) then mret MQTTERR_NOT_UTF8 else mret MQTTERR_NOERROR.

Fixpoint Mqtt_CheckUtf8_loop (n : nat) (str : ptr) (i len : Z) : M mem Z :=
  match n with
  | O => mret i
  | S n =>
      if i <? len then
        b ← load_byte (padd str i);
        let utf8_char_len := trailing b + 1 in
        if len <? i + utf8_char_len then mret MQTTERR_NOT_UTF8 else
        ret ← Mqtt_IsLegalUtf8 str utf8_char_len;
        if negb (ret =? MQTTERR_NOERROR) then mret ret else
        let i := i + utf8_char_len in
        c ← load_byte (padd str i);
        if c =? 0 then mret i else Mqtt_CheckUtf8_loop n str i len
      else mret i
  end.

(** Every iteration advances by at least one byte, so [len] of them suffice. *)
Definition Mqtt_CheckUtf8 (str : ptr) (len : Z) : M mem Z :=
  Mqtt_CheckUtf8_loop (Z.to_nat len) str 0 len.

Definition Mqtt_HasIllegalCharacter (str : ptr) (len : Z) : Z := 0.

(** ** The remaining length as a function on bytes *)

Fixpoint read_length (l : list Z) (i len multiplier : Z) : Z * Z :=
  match l with
  | [] => (-1, len)
  | b :: l =>
      let len := u32 (len + Z.land b 0x7f * multiplier) in
      if Z.land b 0x80 =? 0 then (i + 1, len)
      else
        let multiplier := u32 (multiplier * 128) in
        if 128 * 128 * 128 <=? multiplier then (-2, len)
        else read_length l (i + 1) len multiplier
  end.

(** The encoding of the MQTT standard (section 2.2.3): seven bits per byte,
    the top bit set on every byte but the last; [n] bounds the length. *)
Fixpoint enc_length (n : nat) (len : Z) : list Z :=
  match n with
  | O => []
  | S n => if 0 <? len / 128 then len mod 128 + 128 :: enc_length n (len / 128)
           else [len mod 128]
  end.

Definition is_byte (b : Z) : Prop := 0 <= b < 256.

Lemma enc_length_bytes n len : 0 <= len -> Forall is_byte (enc_length n len).
Proof.
  revert len. induction n as [|n IH]; intros len Hlen; simpl; [constructor|].
  pose proof (Z.mod_pos_bound len 128 ltac:(lia)).
  destruct (0 <? len / 128); constructor; unfold is_byte; try lia.
  - apply IH, Z.div_pos; lia.
  - constructor.
Qed.

Lemma read_length_last b l i len mult : 0 <= b < 128 -> 0 <= len + b * mult < 2 ^ 32 ->
  read_length (b :: l) i len mult = (i + 1, len + b * mult).
Proof.
  intros Hb Hr. simpl. rewrite land_7f, land_80, (Z.mod_small b), u32_small by lia.
  by destruct (Z.ltb_spec b 128); [|lia].
Qed.

Lemma read_length_more b l i len mult : 0 <= b < 128 -> 0 <= mult -> mult * 128 < 128 ^ 3 ->
  0 <= len + b * mult < 2 ^ 32 ->
  read_length (b + 128 :: l) i len mult = read_length l (i + 1) (len + b * mult) (mult * 128).
Proof.
  intros Hb Hm0 Hm Hr. simpl. rewrite land_7f, land_80 by lia.
  destruct (Z.ltb_spec (b + 128) 128); [lia|]. simpl.
  rewrite (u32_small (mult * 128)) by lia.
  destruct (Z.leb_spec (128 * 128 * 128) (mult * 128)); [lia|].
  replace ((b + 128) mod 128) with b; [by rewrite u32_small|].
  rewrite <-(Z.mul_1_l 128) at 1. rewrite Z_mod_plus_full. by rewrite Z.mod_small.
Qed.

Lemma read_length_over b l i len mult : 0 <= b < 128 -> mult * 128 = 128 ^ 3 ->
  (read_length (b + 128 :: l) i len mult).1 = -2.
Proof.
  intros Hb Hm. simpl. rewrite land_80 by lia.
  destruct (Z.ltb_spec (b + 128) 128); [lia|]. simpl. rewrite Hm. done.
Qed.

(** Case analysis on the number of bytes of an encoded length. *)
Lemma enc_length_cases len : 0 <= len < 128 ^ 4 -> exists a b c d,
  0 <= a < 128 /\ 0 <= b < 128 /\ 0 <= c < 128 /\ 0 <= d < 128 /\
  len = a + b * 128 + c * 128 ^ 2 + d * 128 ^ 3 /\
  enc_length 4 len =
    if 0 <? d then [a + 128; b + 128; c + 128; d]
    else if 0 <? c then [a + 128; b + 128; c]
    else if 0 <? b then [a + 128; b] else [a].
Proof.
  intros Hlen. exists (len mod 128), (len / 128 mod 128), (len / 128 / 128 mod 128),
    (len / 128 / 128 / 128).
  pose proof (Z.div_mod len 128 ltac:(lia)). pose proof (Z.div_mod (len / 128) 128 ltac:(lia)).
  pose proof (Z.div_mod (len / 128 / 128) 128 ltac:(lia)).
  pose proof (Z.mod_pos_bound len 128 ltac:(lia)).
  pose proof (Z.mod_pos_bound (len / 128) 128 ltac:(lia)).
  pose proof (Z.mod_pos_bound (len / 128 / 128) 128 ltac:(lia)).
  change (128 ^ 4) with 268435456 in *. change (128 ^ 3) with 2097152.
  change (128 ^ 2) with 16384.
  assert (len / 128 / 128 / 128 / 128 = 0) by (apply Z.div_small; lia).
  split_and!; try lia.
  simpl. repeat (match goal with |- context [0 <? ?x] => destruct (Z.ltb_spec 0 x) end; simpl;
    try lia; try done); repeat f_equal; try lia.
  all: rewrite Z.mod_small by lia; lia.
Qed.

Lemma enc_length_bounds len : 0 <= len < 128 ^ 4 -> 1 <= Zlen (enc_length 4 len) <= 4.
Proof.
  intros (a & b & c & d & _ & _ & _ & _ & _ & ->)%enc_length_cases.
  repeat case_match; unfold Zlen; simpl; lia.
Qed.

(** Reading back an encoded length below 128 cubed. *)
Lemma read_enc_length len l : 0 <= len < 128 ^ 3 ->
  read_length (enc_length 4 len ++ l) 0 0 1 = (Zlen (enc_length 4 len), len).
Proof.
  intros Hlen. destruct (enc_length_cases len) as (a & b & c & d & Ha & Hb & Hc & Hd & Heq & ->);
    [lia|]. assert (d = 0) as -> by lia. change (0 <? 0) with false. cbv iota.
  destruct (Z.ltb_spec 0 c); [|destruct (Z.ltb_spec 0 b)];
    cbn [app]; rewrite ?read_length_more, read_length_last by lia;
    unfold Zlen; simpl length; f_equal; lia.
Qed.

(** Four-byte lengths are written but not read back. *)
Lemma read_enc_length_over len l : 128 ^ 3 <= len < 128 ^ 4 ->
  (read_length (enc_length 4 len ++ l) 0 0 1).1 = -2.
Proof.
  intros Hlen. destruct (enc_length_cases len) as (a & b & c & d & Ha & Hb & Hc & Hd & Heq & ->);
    [lia|]. destruct (Z.ltb_spec 0 d); [|lia].
  cbn [app]. rewrite !read_length_more by lia. apply read_length_over; lia.
Qed.

(** ** The computations on memory compute the functions on bytes *)

Section rules.
Context (om : nat -> bool).
Implicit Types (m : mem) (L : list cell).

Lemma wp_RB16 m L p d k hi lo l L0 q (Q : Z -> mem -> Prop) :
  owns om m L -> L ≡ₚ p ↦ d :: L0 -> 0 <= k -> has_bytes d k (hi :: lo :: l) ->
  q = padd p k -> Q (Z.lor (Z.shiftl hi 8) lo) m -> wp (Mqtt_RB16 q) m Q.
Proof.
  intros Ho HL Hk Hb -> HQ. unfold Mqtt_RB16. wp_bind.
  eapply (wp_load_at _ _ _ p d k _ 0); [done..|by rewrite Z.add_0_r|]. wp_bind.
  eapply (wp_load_at _ _ _ p d k _ 1); [done..|by rewrite padd_padd|]. by wp_ret.
Qed.

Lemma wp_WB16 m L p d k v L0 q (Q : unit -> mem -> Prop) :
  owns om m L -> L ≡ₚ p ↦ d :: L0 -> 0 <= k -> k + 2 <= Zlen d -> q = padd p k ->
  (forall m', owns om m' (p ↦ (splice d k (bytes (be16 v))) :: L0) -> Q tt m') ->
  wp (Mqtt_WB16 v q) m Q.
Proof.
  intros Ho HL Hk Hd -> HQ. unfold Mqtt_WB16. wp_bind.
  eapply wp_store_byte; [exact Ho|exact HL|done|lia|]. clear m Ho. intros m Ho.
  eapply wp_store_byte; [exact Ho|reflexivity|by rewrite padd_padd| |].
  { rewrite Zlen_splice by (zlen; lia). lia. }
  clear m Ho. intros m Ho. apply HQ.
  change (k + 1) with (k + Zlen [Byte (u8 (Z.shiftr v 8))]) in Ho.
  by rewrite splice_app in Ho by (zlen; lia).
Qed.

Lemma wp_WB32 m L p d k v L0 q (Q : unit -> mem -> Prop) :
  owns om m L -> L ≡ₚ p ↦ d :: L0 -> 0 <= k -> k + 4 <= Zlen d -> q = padd p k ->
  (forall m', owns om m' (p ↦ (splice d k (bytes
     [u8 (Z.shiftr v 24); u8 (Z.shiftr v 16); u8 (Z.shiftr v 8); u8 v])) :: L0) -> Q tt m') ->
  wp (Mqtt_WB32 v q) m Q.
Proof.
  intros Ho HL Hk Hd -> HQ. unfold Mqtt_WB32. wp_bind.
  eapply wp_store_byte; [exact Ho|exact HL|done|lia|]. clear m Ho. intros m Ho. wp_bind.
  eapply wp_store_byte; [exact Ho|reflexivity|by rewrite padd_padd| |].
  { rewrite Zlen_splice by (zlen; lia). lia. }
  clear m Ho. intros m Ho. wp_bind.
  change (k + 1) with (k + Zlen [Byte (u8 (Z.shiftr v 24))]) in Ho.
  rewrite splice_app in Ho by (zlen; lia).
  eapply wp_store_byte; [exact Ho|reflexivity|by rewrite padd_padd| |].
  { rewrite Zlen_splice by (cbn [app]; zlen; lia). lia. }
  clear m Ho. intros m Ho. cbn [app] in Ho.
  change (k + 2) with (k + Zlen [Byte (u8 (Z.shiftr v 24)); Byte (u8 (Z.shiftr v 16))]) in Ho.
  rewrite splice_app in Ho by (zlen; lia).
  eapply wp_store_byte; [exact Ho|reflexivity|by rewrite padd_padd| |].
  { rewrite Zlen_splice by (cbn [app]; zlen; lia). lia. }
  clear m Ho. intros m Ho. cbn [app] in Ho. apply HQ.
  change (k + 3) with (k + Zlen [Byte (u8 (Z.shiftr v 24)); Byte (u8 (Z.shiftr v 16));
    Byte (u8 (Z.shiftr v 8))]) in Ho.
  by rewrite splice_app in Ho by (zlen; lia).
Qed.

Lemma wp_ReadLength_loop l n m L p d k i len mult L0 (Q : Z * Z -> mem -> Prop) :
  owns om m L -> L ≡ₚ p ↦ d :: L0 -> 0 <= k -> 0 <= i -> has_bytes d (k + i) l ->
  (length l <= n)%nat -> length l = n \/ (read_length l i len mult).1 <> -1 ->
  Q (read_length l i len mult) m ->
  wp (Mqtt_ReadLength_loop n (padd p k) i len mult) m Q.
Proof.
  intros Ho HL Hk. revert n i len mult.
  induction l as [|b l IH]; intros n i len mult Hi Hb Hn Hend HQ.
  - destruct Hend as [<-|Hend]; [by apply wp_ret|done].
  - destruct n as [|n]; simpl in Hn; [lia|]. simpl. wp_bind.
    eapply (wp_load_at _ _ _ p d (k + i) (b :: l) 0); [done..|lia|done|done|done| |].
    { by rewrite padd_padd, Z.add_0_r. }
    simpl in HQ, Hend. destruct (Z.land b 0x80 =? 0); [by apply wp_ret|].
    destruct (_ <=? _); [by apply wp_ret|].
    apply has_bytes_cons in Hb as [_ Hb]; [|lia].
    apply IH; [lia|by rewrite Z.add_assoc|lia| |done].
    destruct Hend as [Hend|Hend]; [left; lia|by right].
Qed.

Lemma wp_ReadLength l m L p d k size L0 q (Q : Z * Z -> mem -> Prop) :
  owns om m L -> L ≡ₚ p ↦ d :: L0 -> 0 <= k -> has_bytes d k l ->
  Zlen l <= size -> Zlen l = size \/ (read_length l 0 0 1).1 <> -1 ->
  q = padd p k -> Q (read_length l 0 0 1) m -> wp (Mqtt_ReadLength q size) m Q.
Proof.
  unfold Zlen. intros Ho HL Hk Hb Hs Hend -> HQ.
  eapply wp_ReadLength_loop; [done..|by rewrite Z.add_0_r|lia| |done].
  destruct Hend as [Hend|?]; [left; lia|by right].
Qed.

(** What Mqtt_DumpLength_loop returns. *)
Definition dump_result (n : nat) (i len : Z) : Z :=
  if len <? 128 ^ Z.of_nat n then i - 1 + Zlen (enc_length n len) else -1.

Lemma wp_DumpLength_loop n m p d k i len L0 (Q : Z -> mem -> Prop) :
  owns om m (p ↦ d :: L0) -> 0 <= k -> k + Z.of_nat n <= Zlen d -> 0 <= len ->
  0 < len \/ (0 < n)%nat ->
  (forall m', owns om m' (p ↦ (splice d k (bytes (enc_length n len))) :: L0) ->
     Q (dump_result n i len) m') ->
  wp (Mqtt_DumpLength_loop n i len (padd p k)) m Q.
Proof.
  revert m d k i len. induction n as [|n IH]; intros m d k i len Ho Hk Hd Hlen Hpos HQ; simpl.
  { wp_ret. unfold dump_result in HQ. simpl in HQ. change (128 ^ Z.of_nat 0) with 1 in HQ.
    destruct (Z.ltb_spec len 1); [lia|].
    apply HQ. unfold splice. simpl. by rewrite Nat.add_0_r, take_drop. }
  wp_bind. eapply wp_store_byte; [exact Ho|reflexivity|done|lia|].
  clear m Ho. intros m Ho. unfold dump_result in *. cbn [enc_length] in HQ.
  assert (128 ^ Z.of_nat (S n) = 128 * 128 ^ Z.of_nat n) as Hpow
    by (rewrite Nat2Z.inj_succ, Z.pow_succ_r; lia).
  assert (0 < 128 ^ Z.of_nat n) as Hpow0 by lia. rewrite Hpow in HQ.
  pose proof (Z.div_mod len 128 ltac:(lia)). pose proof (Z.mod_pos_bound len 128 ltac:(lia)).
  destruct (Z.ltb_spec 0 (len / 128)) as [Hq|Hq].
  2: { wp_ret. assert (len < 128) by lia.
       destruct (Z.ltb_spec len (128 * 128 ^ Z.of_nat n)); [|nia].
       rewrite Zlen_cons, Zlen_nil in HQ. replace i with (i - 1 + (1 + 0)) by lia. by apply HQ. }
  assert (length [Byte (len mod 128)] = 1%nat) by done.
  wp_bind. eapply (wp_load_at _ _ _ p _ k [len mod 128] 0);
    [exact Ho|reflexivity|done|apply (has_bytes_splice d k [len mod 128]); lia|done|done
    |by rewrite Z.add_0_r|].
  wp_bind. eapply wp_store_byte; [exact Ho|reflexivity|done| |].
  { rewrite Zlen_splice by (zlen; lia). lia. }
  clear m Ho. intros m Ho. rewrite lor_80 in Ho by done.
  rewrite splice_over in Ho by (zlen; done || lia).
  rewrite padd_padd. eapply IH; [exact Ho|lia| |lia|by left|].
  { rewrite Zlen_splice by (zlen; lia). lia. }
  clear m Ho. intros m Ho.
  change (k + 1) with (k + Zlen [Byte (len mod 128 + 128)]) in Ho.
  rewrite splice_app in Ho by (zlen; lia). apply HQ in Ho.
  rewrite Zlen_cons in Ho.
  destruct (Z.ltb_spec (len / 128) (128 ^ Z.of_nat n)),
    (Z.ltb_spec len (128 * 128 ^ Z.of_nat n)); try nia; [|done].
  replace (i + 1 - 1 + _) with (i - 1 + (1 + Zlen (enc_length n (len / 128)))) by lia. done.
Qed.

Lemma wp_DumpLength m L p d k len L0 q (Q : Z -> mem -> Prop) :
  owns om m L -> L ≡ₚ p ↦ d :: L0 -> 0 <= k -> k + 4 <= Zlen d -> 0 <= len -> q = padd p k ->
  (forall m', owns om m' (p ↦ (splice d k (bytes (enc_length 4 len))) :: L0) ->
     Q (if len <? 128 ^ 4 then Zlen (enc_length 4 len) else -1) m') ->
  wp (Mqtt_DumpLength len q) m Q.
Proof.
  intros Ho HL Hk Hd Hlen -> HQ. rewrite HL in Ho. unfold Mqtt_DumpLength.
  eapply wp_DumpLength_loop; [exact Ho|done|lia|done|right; lia|].
  intros m' Ho'. unfold dump_result. apply HQ in Ho'. done.
Qed.
End rules.

Section strings.
Context (om : nat -> bool).
Implicit Types (m : mem) (L : list cell).

(** A string is written as its length on 16 bits and its bytes. *)
Definition enc_string (s : list Z) : list Z := be16 (Zlen s) ++ s.

Lemma Zlen_enc_string s : Zlen (enc_string s) = 2 + Zlen s.
Proof. unfold enc_string. rewrite Zlen_app. done. Qed.

Lemma wp_PktWriteString m L p d k src ds j s n L0 q1 q2 (Q : ptr -> mem -> Prop) :
  owns om m L -> L ≡ₚ p ↦ d :: src ↦ ds :: L0 -> 0 <= k -> 0 <= j -> has_bytes ds j s ->
  j <= Zlen ds -> k + 2 + Zlen s <= Zlen d -> n = Zlen s ->
  q1 = padd p k -> q2 = padd src j ->
  (forall m', owns om m' (p ↦ (splice d k (bytes (enc_string s))) :: src ↦ ds :: L0) ->
     Q (padd p (k + Zlen (enc_string s))) m') ->
  wp (Mqtt_PktWriteString q1 q2 n) m Q.
Proof.
  intros Ho HL Hk Hj Hs Hjd Hd -> -> -> HQ. unfold Mqtt_PktWriteString. wp_bind.
  eapply (wp_WB16 _ _ _ p d k);
    [exact Ho|exact HL|done|pose proof (Zlen_nonneg s); lia|done|].
  clear m Ho. intros m Ho. pose proof (Zlen_nonneg s).
  assert (Zlen (bytes (be16 (Zlen s))) = 2) as H2 by done.
  assert (Zlen (splice d k (bytes (be16 (Zlen s)))) = Zlen d) as Hl
    by (rewrite Zlen_splice; lia).
  pose proof (has_bytes_len ds j s ltac:(lia) Hs). wp_bind.
  eapply (wp_memcpy_at _ _ _ p _ (k + 2) src ds j);
    [exact Ho|reflexivity|lia|done|done|lia|lia|by rewrite padd_padd|done|].
  clear m Ho. intros m Ho. wp_ret. rewrite padd_padd.
  rewrite (has_bytes_take ds j s _ Hs eq_refl), <-H2, splice_app, <-bytes_app in Ho by lia.
  apply HQ in Ho. by rewrite Zlen_enc_string in Ho.
Qed.

(** ** The client identifier *)

Definition client_id_ok (s : list Z) : bool := forallb isalnum s.

Lemma wp_CheckClentIdentifier_loop n m L p d k s i L0 (Q : Z -> mem -> Prop) :
  owns om m L -> L ≡ₚ p ↦ d :: L0 -> 0 <= k -> cstring d (k + i) s -> 0 <= i ->
  (length s < n)%nat ->
  Q (if client_id_ok s then i + Zlen s else -1) m ->
  wp (Mqtt_CheckClentIdentifier_loop n (padd p k) i) m Q.
Proof.
  intros Ho HL Hk. revert n i. induction s as [|c s IH]; intros n i [Hb Hs] Hi Hn HQ;
    (destruct n as [|n]; simpl in Hn; [lia|]); simpl; wp_bind;
    (eapply (wp_load_at _ _ _ p d (k + i) _ 0); [exact Ho|exact HL|lia|exact Hb|done|done
      |by rewrite padd_padd, Z.add_0_r|]).
  - wp_ret. simpl in HQ. by rewrite Zlen_nil, Z.add_0_r in HQ.
  - apply Forall_cons in Hs as [Hc Hs]. destruct (Z.eqb_spec c 0); [lia|].
    unfold client_id_ok in *. simpl in HQ. destruct (isalnum c); simpl in *; [|by wp_ret].
    apply has_bytes_cons in Hb as [_ Hb]; [|lia].
    apply IH; [split; [by rewrite Z.add_assoc|done]|lia|lia|].
    rewrite Zlen_cons in HQ. by rewrite Z.add_assoc in HQ.
Qed.

(** The block of an owned cell is at least as long as the cell. *)
Lemma room_cell m L p d k L0 : owns om m L -> L ≡ₚ p ↦ d :: L0 -> 0 <= k < Zlen d ->
  Zlen d - k <= Z.of_nat (room m (padd p k)).
Proof.
  intros Ho HL Hk. rewrite HL in Ho.
  destruct (lookup_Z d (Zlen d - 1)) as [x Hx]; [lia|].
  destruct (lookup_Z d 0) as [x0 Hx0]; [lia|].
  assert (forall i x, 0 <= i -> d !! Z.to_nat i = Some x -> mem_get m (padd p i) = Some x) as Hg.
  { intros i y Hi Hy. apply (owns_get _ _ _ Ho). unfold flat. simpl. apply elem_of_app. left.
    by apply elem_cell_flat. }
  apply Hg in Hx; [|lia]. apply Hg in Hx0; [|lia].
  destruct p as [|b o]; [done|]. unfold room. simpl in *.
  destruct (m_blocks m !! b) as [blk|]; [|done]. simpl in *.
  destruct (Z.leb_spec 0 (o + 0)); [|done].
  destruct (Z.leb_spec 0 (o + (Zlen d - 1))); [|done].
  apply lookup_lt_Some in Hx. lia.
Qed.

Lemma wp_CheckClentIdentifier m L p d k s L0 q (Q : Z -> mem -> Prop) :
  owns om m L -> L ≡ₚ p ↦ d :: L0 -> 0 <= k <= Zlen d -> cstring d k s -> q = padd p k ->
  Q (if client_id_ok s then Zlen s else -1) m -> wp (Mqtt_CheckClentIdentifier q) m Q.
Proof.
  intros Ho HL Hk Hs -> HQ. unfold Mqtt_CheckClentIdentifier. wp_bind.
  eapply wp_run; [done|]. pose proof (has_bytes_len d k _ Hk (proj1 Hs)) as Hlen.
  rewrite Zlen_app, Zlen_cons, Zlen_nil in Hlen. pose proof (Zlen_nonneg s).
  pose proof (room_cell m L p d k L0 Ho HL ltac:(lia)) as Hroom.
  eapply wp_CheckClentIdentifier_loop; [exact Ho|exact HL|lia|by rewrite Z.add_0_r|done| |done].
  unfold Zlen in *. lia.
Qed.
End strings.

(** ** UTF-8 *)

(** Mqtt_IsLegalUtf8 as a predicate on the bytes of one character. *)
Definition legal_utf8 (l : list Z) : bool :=
  match l with
  | [a] => first_byte a
  | [a; b] => second_byte a b && first_byte a
  | [a; b; c] => cont_byte c && second_byte a b && first_byte a
  | [a; b; c; d] => cont_byte d && cont_byte c && second_byte a b && first_byte a
  | _ => false
  end.

(** Mqtt_CheckUtf8 on the bytes [s] of the string and the one after it. *)
Fixpoint check_utf8 (n : nat) (s : list Z) (i len : Z) : Z :=
  match n with
  | O => i
  | S n =>
      if i <? len then
        let w := trailing (default 0 (s !! Z.to_nat i)) + 1 in
        if len <? i + w then MQTTERR_NOT_UTF8
        else if negb (legal_utf8 (take (Z.to_nat w) s)) then MQTTERR_NOT_UTF8
        else if default 0 (s !! Z.to_nat (i + w)) =? 0 then i + w
        else check_utf8 n s (i + w) len
      else i
  end.

(** The encoding of a Unicode scalar value (RFC 3629). *)
Definition utf8_encode (cp : Z) : list Z :=
  if cp <? 0x80 then [cp]
  else if cp <? 0x800 then [0xC0 + cp / 64; 0x80 + cp mod 64]
  else if cp <? 0x10000 then
    [0xE0 + cp / 64 / 64; 0x80 + (cp / 64) mod 64; 0x80 + cp mod 64]
  else [0xF0 + cp / 64 / 64 / 64; 0x80 + (cp / 64 / 64) mod 64; 0x80 + (cp / 64) mod 64;
        0x80 + cp mod 64].

Definition scalar_value (cp : Z) : Prop :=
  0 <= cp < 0xD800 \/ 0xDFFF < cp <= 0x10FFFF.

Lemma trailing_spec b : 0 <= b < 256 ->
  trailing b = if b <? 0xC0 then 0 else if b <? 0xE0 then 1 else if b <? 0xF0 then 2
               else if b <? 0xF8 then 3 else if b <? 0xFC then 4 else 5.
Proof.
  intros Hb. apply Z.eqb_eq. revert b Hb. apply (byte_forall (fun b =>
    trailing b =? if b <? 0xC0 then 0 else if b <? 0xE0 then 1 else if b <? 0xF0 then 2
               else if b <? 0xF8 then 3 else if b <? 0xFC then 4 else 5)). by vm_compute.
Qed.

Lemma trailing_range b : 0 <= trailing b <= 5.
Proof.
  unfold trailing. destruct (_ !! _) as [z|] eqn:Hz; simpl; [|lia].
  assert (Forall (fun z => 0 <= z <= 5) Mqtt_TrailingBytesForUTF8) as Hall.
  { unfold Mqtt_TrailingBytesForUTF8. repeat apply Forall_app_2; apply Forall_replicate; lia. }
  exact (Forall_lookup_1 _ _ _ _ Hall Hz).
Qed.

Lemma cont_byte_spec b : cont_byte b = true <-> 0x80 <= b <= 0xBF.
Proof. unfold cont_byte. destruct (Z.ltb_spec b 0x80), (Z.ltb_spec 0xBF b); simpl; split; lia. Qed.

Lemma first_byte_spec b : first_byte b = true <-> b < 0x80 \/ 0xC2 <= b <= 0xF4.
Proof.
  unfold first_byte.
  destruct (Z.leb_spec 0x80 b), (Z.ltb_spec b 0xC2), (Z.ltb_spec 0xF4 b); simpl; split; lia.
Qed.

Lemma second_byte_spec a b : second_byte a b = true <->
  0x80 <= b <= 0xBF /\ (a = 0xE0 -> 0xA0 <= b) /\ (a = 0xED -> b <= 0x9F) /\
  (a = 0xF0 -> 0x90 <= b) /\ (a = 0xF4 -> b <= 0x8F).
Proof.
  unfold second_byte. rewrite andb_true_iff, cont_byte_spec.
  repeat match goal with |- context [?x =? ?y] => destruct (Z.eqb_spec x y) end;
  repeat match goal with |- context [?x <? ?y] => destruct (Z.ltb_spec x y) end;
  simpl; split; intros; destruct_and?; split_and?; lia.
Qed.

(** The code point that a legal byte sequence encodes. *)
Definition utf8_decode (l : list Z) : Z :=
  match l with
  | [a] => a
  | [a; b] => (a - 0xC0) * 64 + (b - 0x80)
  | [a; b; c] => ((a - 0xE0) * 64 + (b - 0x80)) * 64 + (c - 0x80)
  | [a; b; c; d] =>
      (((a - 0xF0) * 64 + (b - 0x80)) * 64 + (c - 0x80)) * 64 + (d - 0x80)
  | _ => 0
  end.

Lemma split_64 q r : 0 <= r < 64 -> (q * 64 + r) / 64 = q /\ (q * 64 + r) mod 64 = r.
Proof. intros. split; Z.div_mod_to_equations; lia. Qed.

Lemma legal_utf8_complete l : Forall is_byte l -> Zlen l = trailing (default 0 (head l)) + 1 ->
  legal_utf8 l = true -> scalar_value (utf8_decode l) /\ utf8_encode (utf8_decode l) = l.
Proof.
  intros Hl. destruct l as [|a l]; [done|]. apply Forall_cons in Hl as [Ha Hl].
  unfold is_byte in *. simpl default. rewrite trailing_spec by done. unfold scalar_value, Zlen.
  destruct l as [|b [|c [|d [|e l]]]]; [..|done]; simpl length; simpl legal_utf8;
    rewrite ?andb_true_iff, ?cont_byte_spec, ?second_byte_spec, ?first_byte_spec;
    intros Hlen Hlegal; destruct_and?;
    repeat match type of Hlen with context [a <? ?y] =>
      destruct (Z.ltb_spec a y); try lia end; unfold utf8_decode, utf8_encode.
  - destruct (Z.ltb_spec a 0x80); [|lia]. split; [lia|done].
  - destruct (split_64 (a - 0xC0) (b - 0x80)) as [-> ->]; [lia|].
    destruct (Z.ltb_spec ((a - 192) * 64 + (b - 128)) 0x80); [lia|].
    destruct (Z.ltb_spec ((a - 192) * 64 + (b - 128)) 0x800); [|lia].
    split; [lia|]. repeat f_equal; lia.
  - set (q := (a - 0xE0) * 64 + (b - 0x80)).
    destruct (split_64 q (c - 0x80)) as [-> ->]; [lia|].
    destruct (split_64 (a - 0xE0) (b - 0x80)) as [Hq1 Hq2]; [lia|]. fold q in Hq1, Hq2.
    rewrite Hq1, Hq2. unfold q in *.
    repeat match goal with |- context [?x <? ?y] => destruct (Z.ltb_spec x y); try lia end.
    split; [lia|]. repeat f_equal; lia.
  - set (q := (a - 0xF0) * 64 + (b - 0x80)). set (r := q * 64 + (c - 0x80)).
    destruct (split_64 r (d - 0x80)) as [-> ->]; [lia|].
    destruct (split_64 q (c - 0x80)) as [Hr1 Hr2]; [lia|]. fold r in Hr1, Hr2.
    destruct (split_64 (a - 0xF0) (b - 0x80)) as [Hq1 Hq2]; [lia|]. fold q in Hq1, Hq2.
    rewrite Hr1, Hr2, Hq1, Hq2. unfold r, q in *.
    repeat match goal with |- context [?x <? ?y] => destruct (Z.ltb_spec x y); try lia end.
    split; [lia|]. repeat f_equal; lia.
Qed.

Lemma legal_utf8_sound cp : scalar_value cp ->
  Forall is_byte (utf8_encode cp) /\
  Zlen (utf8_encode cp) = trailing (default 0 (head (utf8_encode cp))) + 1 /\
  legal_utf8 (utf8_encode cp) = true.
Proof.
  unfold scalar_value. intros Hcp.
  pose proof (Z.div_mod cp 64 ltac:(lia)). pose proof (Z.mod_pos_bound cp 64 ltac:(lia)).
  pose proof (Z.div_mod (cp / 64) 64 ltac:(lia)).
  pose proof (Z.mod_pos_bound (cp / 64) 64 ltac:(lia)).
  pose proof (Z.div_mod (cp / 64 / 64) 64 ltac:(lia)).
  pose proof (Z.mod_pos_bound (cp / 64 / 64) 64 ltac:(lia)).
  unfold utf8_encode. destruct (Z.ltb_spec cp 0x80); [|destruct (Z.ltb_spec cp 0x800);
    [|destruct (Z.ltb_spec cp 0x10000)]]; (split;
    [repeat constructor; unfold is_byte; lia|]); simpl head; simpl default;
    (rewrite trailing_spec by lia); (split;
    [repeat match goal with |- context [?x <? ?y] => destruct (Z.ltb_spec x y); try lia end;
     done|]); simpl legal_utf8;
    rewrite ?andb_true_iff, ?cont_byte_spec, ?second_byte_spec, ?first_byte_spec;
    split_and?; lia.
Qed.

Section utf8.
Context (om : nat -> bool).
Implicit Types (m : mem) (L : list cell).

Lemma wp_IsLegalUtf8 m L p d k l L0 q len (Q : Z -> mem -> Prop) :
  owns om m L -> L ≡ₚ p ↦ d :: L0 -> 0 <= k -> has_bytes d k l -> q = padd p k ->
  len = Zlen l -> Q (if legal_utf8 l then MQTTERR_NOERROR else MQTTERR_NOT_UTF8) m ->
  wp (Mqtt_IsLegalUtf8 q len) m Q.
Proof.
  intros Ho HL Hk Hb -> -> HQ.
  assert (forall j b (Q' : Z -> mem -> Prop), 0 <= j -> l !! Z.to_nat j = Some b -> Q' b m ->
            wp (load_byte (padd (padd p k) j)) m Q') as Hld.
  { intros j b Q' Hj Hl HQ'. rewrite padd_padd. by eapply (wp_load_at _ _ _ p d k l j). }
  assert (forall b (Q' : Z -> mem -> Prop), l !! 0%nat = Some b -> Q' b m ->
            wp (load_byte (padd p k)) m Q') as Hld0.
  { intros b Q' Hl HQ'. rewrite <-(padd_0 (padd p k)). by eapply (Hld 0). }
  clear Ho HL Hb. unfold Mqtt_IsLegalUtf8, Zlen.
  destruct l as [|a [|b [|c [|e [|f l]]]]]; simpl length in *; try by wp_step.
  - simpl. wp_step. eapply Hld0; [done|]. simpl in HQ.
    destruct (first_byte a); simpl; by wp_step.
  - simpl. wp_step. eapply (Hld 1); [done..|]. simpl in HQ. unfold second_byte in *.
    destruct (cont_byte b); simpl in *; [|by wp_step]. wp_step. eapply Hld0; [done|]. wp_step.
    match goal with |- context [negb ?x] => destruct x end; simpl in *; [|by wp_step]; wp_step. eapply Hld0; [done|]. destruct (first_byte a); simpl in *; by wp_step.
  - simpl. wp_step. apply wp_fmap. eapply (Hld 2); [done..|]. simpl in HQ.
    destruct (cont_byte c); simpl in *; [|by wp_step]; wp_step. eapply (Hld 1); [done..|]. unfold second_byte in *.
    destruct (cont_byte b); simpl in *; [|by wp_step]. wp_step. eapply Hld0; [done|]. wp_step.
    match goal with |- context [negb ?x] => destruct x end; simpl in *; [|by wp_step]; wp_step. eapply Hld0; [done|]. destruct (first_byte a); simpl in *; by wp_step.
  - simpl. wp_step. apply wp_fmap. eapply (Hld 3); [done..|]. simpl in HQ.
    destruct (cont_byte e); simpl in *; [|by wp_step]; wp_step. apply wp_fmap. eapply (Hld 2); [done..|].
    destruct (cont_byte c); simpl in *; [|by wp_step]; wp_step. eapply (Hld 1); [done..|]. unfold second_byte in *.
    destruct (cont_byte b); simpl in *; [|by wp_step]. wp_step. eapply Hld0; [done|]. wp_step.
    match goal with |- context [negb ?x] => destruct x end; simpl in *; [|by wp_step]; wp_step. eapply Hld0; [done|]. destruct (first_byte a); simpl in *; by wp_step.
  - change (S (S (S (S (S (length l)))))) with (5 + length l)%nat in *.
    destruct (Z.ltb_spec 4 (Z.of_nat (5 + length l))); [|lia].
    destruct (Z.of_nat (5 + length l) <? 1); by wp_step.
Qed.

Lemma wp_CheckUtf8_loop n m L p d k s i len L0 (Q : Z -> mem -> Prop) :
  owns om m L -> L ≡ₚ p ↦ d :: L0 -> 0 <= k -> has_bytes d k s -> Zlen s = len + 1 -> 0 <= i ->
  Q (check_utf8 n s i len) m -> wp (Mqtt_CheckUtf8_loop n (padd p k) i len) m Q.
Proof.
  intros Ho HL Hk Hb Hs. revert i. induction n as [|n IH]; intros i Hi HQ; [by wp_ret|].
  simpl in *. destruct (Z.ltb_spec i len); [|by wp_ret].
  destruct (lookup_Z s i) as [b Hib]; [lia|]. rewrite Hib in HQ. simpl in HQ.
  wp_bind. eapply (wp_load_at _ _ _ p d k s i); [done..|by rewrite padd_padd|].
  pose proof (trailing_range b).
  destruct (Z.ltb_spec len (i + (trailing b + 1))); [by wp_ret|]. wp_bind.
  set (w := trailing b + 1) in *.
  eapply (wp_IsLegalUtf8 _ _ p d k (take (Z.to_nat w) s)); [done..| |done| |].
  { rewrite <-(take_drop (Z.to_nat w) s) in Hb. by apply has_bytes_app in Hb as [Hb _]. }
  { unfold Zlen in *. rewrite length_take. lia. }
  destruct (legal_utf8 _); simpl in *; [|by wp_ret].
  destruct (lookup_Z s (i + w)) as [c Hic]; [lia|]. rewrite Hic in HQ. simpl in HQ.
  wp_bind. eapply (wp_load_at _ _ _ p d k s (i + w)); [done..|lia|done|by rewrite padd_padd|].
  destruct (c =? 0); [by wp_ret|]. apply IH; [lia|done].
Qed.

Lemma wp_CheckUtf8 m L p d k s len L0 q (Q : Z -> mem -> Prop) :
  owns om m L -> L ≡ₚ p ↦ d :: L0 -> 0 <= k -> has_bytes d k s -> Zlen s = len + 1 ->
  q = padd p k -> Q (check_utf8 (Z.to_nat len) s 0 len) m -> wp (Mqtt_CheckUtf8 q len) m Q.
Proof. intros ????? -> ?. by eapply wp_CheckUtf8_loop. Qed.
End utf8.

(** A printable or control ASCII string passes the check. *)
Definition ascii_string (s : list Z) : Prop := Forall (fun c => 0 < c < 128) s.

Lemma check_utf8_ascii_from n s i : ascii_string s -> 0 <= i <= Zlen s -> Zlen s <= i + Z.of_nat n ->
  check_utf8 n (s ++ [0]) i (Zlen s) = Zlen s.
Proof.
  intros Hs. revert i. induction n as [|n IH]; intros i Hi Hn; simpl; [lia|].
  destruct (Z.ltb_spec i (Zlen s)); [|lia].
  assert (forall j c, (s ++ [0]) !! Z.to_nat j = Some c -> 0 <= c < 128) as Hall.
  { intros j c Hj. apply lookup_app_Some in Hj as [Hj|[_ Hj]].
    - by pose proof (Forall_lookup_1 _ _ _ _ Hs Hj) as H'; simpl in H'; lia.
    - apply list_lookup_singleton_Some in Hj as [_ <-]. lia. }
  assert (Zlen (s ++ [0]) = Zlen s + 1) as Hl by (by rewrite Zlen_app).
  destruct (lookup_Z (s ++ [0]) i) as [c Hc]; [lia|]. rewrite Hc. simpl.
  assert (0 <= c < 128) by (by eapply Hall). rewrite trailing_spec by lia.
  destruct (Z.ltb_spec c 0xC0); [|lia]. change (0 + 1) with 1.
  destruct (Z.ltb_spec (Zlen s) (i + 1)); [lia|].
  destruct (lookup_Z (s ++ [0]) 0) as [a Ha]; [lia|].
  assert (legal_utf8 (take (Z.to_nat 1) (s ++ [0])) = true) as ->.
  { change (Z.to_nat 1) with 1%nat. rewrite (take_S_r _ 0 a) by done. simpl.
    apply first_byte_spec. left. by apply (Hall 0). }
  simpl. destruct (_ =? 0) eqn:Hz; [|apply IH; lia].
  destruct (decide (i + 1 = Zlen s)) as [|Hne]; [lia|].
  destruct (lookup_Z s (i + 1)) as [e He]; [lia|].
  rewrite (lookup_app_l_Some _ _ _ _ He) in Hz. simpl in Hz.
  pose proof (Forall_lookup_1 _ _ _ _ Hs He) as H'. simpl in H'. lia.
Qed.

Lemma check_utf8_ascii s : ascii_string s ->
  check_utf8 (Z.to_nat (Zlen s)) (s ++ [0]) 0 (Zlen s) = Zlen s.
Proof. intros Hs. pose proof (Zlen_nonneg s). apply check_utf8_ascii_from; [done|lia|lia]. Qed.

(** The check either refuses the string or stops at a character boundary
    within it: its result is never positive beyond the length. *)
Lemma check_utf8_range n s i len : 0 <= i <= len ->
  check_utf8 n s i len = MQTTERR_NOT_UTF8 \/ i <= check_utf8 n s i len <= len.
Proof.
  revert i. induction n as [|n IH]; intros i Hi; simpl; [right; lia|].
  destruct (Z.ltb_spec i len); [|right; lia].
  pose proof (trailing_range (default 0 (s !! Z.to_nat i))).
  set (w := trailing _ + 1) in *. destruct (Z.ltb_spec len (i + w)); [by left|].
  destruct (negb _); [by left|]. destruct (_ =? 0); [right; lia|].
  destruct (IH (i + w) ltac:(lia)) as [->|]; [by left|right; lia].
Qed.

(** ** Properties *)

(** A remaining length below 128 cubed that Mqtt_DumpLength writes is read
    back by Mqtt_ReadLength: the same value, and as many bytes consumed as
    were written, all within the four bytes the field may take. *)
Theorem Length_roundtrip om m p d len L :
  owns om m (p ↦ d :: L) -> 4 <= Zlen d -> 0 <= len < 128 ^ 3 ->
  wp (n ← Mqtt_DumpLength len p; r ← Mqtt_ReadLength p n; mret (n, r)) m (fun r m' =>
    1 <= r.1 <= 4 /\ r.2 = (r.1, len) /\
    owns om m' (p ↦ (splice d 0 (bytes (enc_length 4 len))) :: L)).
Proof.
  intros Ho Hd Hlen. pose proof (enc_length_bounds len ltac:(lia)). wp_bind.
  eapply (wp_DumpLength _ _ _ p d 0); [exact Ho|done|done|lia|lia|by rewrite padd_0|].
  clear m Ho. intros m Ho. destruct (Z.ltb_spec len (128 ^ 4)); [|lia].
  pose proof (read_enc_length len [] Hlen) as Hr. rewrite app_nil_r in Hr. wp_bind.
  eapply (wp_ReadLength _ (enc_length 4 len) _ _ p _ 0);
    [exact Ho|reflexivity|done|apply has_bytes_splice; lia|lia|by left|by rewrite padd_0|].
  rewrite Hr. wp_ret. split_and!; done || apply H.
Qed.

Lemma Length_roundtrip_witness :
  wp (n ← Mqtt_DumpLength 321 (Ptr 0 0); r ← Mqtt_ReadLength (Ptr 0 0) n; mret (n, r))
     (mem_one never_oom (replicate 4 Undef)) (fun r m' =>
    1 <= r.1 <= 4 /\ r.2 = (r.1, 321) /\
    owns never_oom m' [Ptr 0 0 ↦ (splice (replicate 4 Undef) 0 (bytes (enc_length 4 321)))]).
Proof.
  apply (Length_roundtrip never_oom _ (Ptr 0 0) (replicate 4 Undef) 321 []).
  - apply owns_one.
  - done.
  - done.
Defined.

(** A length from 128 cubed on is written on four bytes, but reading those
    four bytes back reports an error: packets of 2 MB or more that the sender
    packs are illegal packets for the receiver of the same code. *)
Theorem Length_four_bytes om m p d len L :
  owns om m (p ↦ d :: L) -> 4 <= Zlen d -> 128 ^ 3 <= len < 128 ^ 4 ->
  wp (n ← Mqtt_DumpLength len p; r ← Mqtt_ReadLength p n; mret (n, r.1)) m (fun r _ =>
    r = (4, -2)).
Proof.
  intros Ho Hd Hlen. wp_bind.
  eapply (wp_DumpLength _ _ _ p d 0); [exact Ho|done|done|lia|lia|by rewrite padd_0|].
  clear m Ho. intros m Ho. destruct (Z.ltb_spec len (128 ^ 4)); [|lia].
  pose proof (read_enc_length_over len [] Hlen) as Hr. rewrite app_nil_r in Hr. wp_bind.
  eapply (wp_ReadLength _ (enc_length 4 len) _ _ p _ 0);
    [exact Ho|reflexivity|done|apply has_bytes_splice; lia|lia|by left|by rewrite padd_0|].
  wp_ret. rewrite Hr. f_equal.
  destruct (enc_length_cases len) as (a & b & c & e & Ha & Hb & Hc & He & Heq & ->); [lia|].
  destruct (Z.ltb_spec 0 e); [done|lia].
Qed.

Lemma Length_four_bytes_witness :
  wp (n ← Mqtt_DumpLength 2097152 (Ptr 0 0); r ← Mqtt_ReadLength (Ptr 0 0) n; mret (n, r.1))
     (mem_one never_oom (replicate 4 Undef)) (fun r _ => r = (4, -2)).
Proof.
  apply (Length_four_bytes never_oom _ (Ptr 0 0) (replicate 4 Undef) 2097152 []).
  - apply owns_one.
  - done.
  - done.
Defined.

(** On a byte sequence whose length is the one its first byte announces,
    Mqtt_IsLegalUtf8 accepts exactly the encodings of Unicode scalar values:
    no overlong form, no surrogate, nothing beyond U+10FFFF. *)
Theorem IsLegalUtf8_scalar om m p d l L :
  owns om m (p ↦ d :: L) -> has_bytes d 0 l -> Forall is_byte l ->
  Zlen l = trailing (default 0 (head l)) + 1 ->
  wp (Mqtt_IsLegalUtf8 p (Zlen l)) m (fun r m' => m' = m /\
    (r = MQTTERR_NOERROR <-> exists cp, scalar_value cp /\ l = utf8_encode cp)).
Proof.
  intros Ho Hb Hl Hlen. eapply (wp_IsLegalUtf8 _ _ _ p d 0 l);
    [exact Ho|done|done|done|by rewrite padd_0|done|]. split; [done|].
  pose proof (legal_utf8_complete l Hl Hlen) as Hc.
  destruct (legal_utf8 l) eqn:Heq; split; [intros _|done|done|].
  - destruct Hc as [Hs He]; [done|]. by exists (utf8_decode l).
  - intros (cp & Hs & ->). destruct (legal_utf8_sound cp Hs) as (_ & _ & Htrue). congruence.
Qed.

Lemma IsLegalUtf8_scalar_witness :
  wp (Mqtt_IsLegalUtf8 (Ptr 0 0) (Zlen [0xE2; 0x82; 0xAC]))
     (mem_one never_oom (bytes [0xE2; 0x82; 0xAC])) (fun r m' =>
    m' = mem_one never_oom (bytes [0xE2; 0x82; 0xAC]) /\
    (r = MQTTERR_NOERROR <->
       exists cp, scalar_value cp /\ [0xE2; 0x82; 0xAC] = utf8_encode cp)).
Proof.
  apply (IsLegalUtf8_scalar never_oom (mem_one never_oom (bytes [0xE2; 0x82; 0xAC])) (Ptr 0 0)
           (bytes [0xE2; 0x82; 0xAC]) [0xE2; 0x82; 0xAC] []).
  - apply owns_one.
  - exists []. done.
  - repeat constructor; unfold is_byte; lia.
  - done.
Defined.

(** Mqtt_CheckUtf8 accepts every non-empty ASCII string and changes nothing;
    topics and user names made of ASCII are therefore never refused. *)
Theorem CheckUtf8_ascii om m p d s L :
  owns om m (p ↦ d :: L) -> has_bytes d 0 (s ++ [0]) -> ascii_string s ->
  wp (Mqtt_CheckUtf8 p (Zlen s)) m (fun r m' => r = Zlen s /\ m' = m).
Proof.
  intros Ho Hb Hs. eapply (wp_CheckUtf8 _ _ _ p d 0 (s ++ [0]));
    [exact Ho|done|done|done|by rewrite Zlen_app|by rewrite padd_0|].
  by rewrite check_utf8_ascii.
Qed.

Lemma CheckUtf8_ascii_witness :
  wp (Mqtt_CheckUtf8 (Ptr 0 0) (Zlen [36; 100; 112])) (mem_one never_oom (bytes [36; 100; 112; 0]))
    (fun r m' => r = Zlen [36; 100; 112] /\ m' = mem_one never_oom (bytes [36; 100; 112; 0])).
Proof.
  apply (CheckUtf8_ascii never_oom (mem_one never_oom (bytes [36; 100; 112; 0])) (Ptr 0 0)
           (bytes [36; 100; 112; 0]) [36; 100; 112] []).
  - apply owns_one.
  - exists []. done.
  - repeat constructor; lia.
Defined.

(** Beyond ASCII the check is wrong both ways, because every iteration
    tests the first character of the string: the well-formed string "a" U+00E9
    is refused, and the ill-formed U+00E9 C3 41 is accepted. *)
Theorem CheckUtf8_tests_first_character :
  (exists cp, scalar_value cp /\ utf8_encode cp = [0xC3; 0xA9]) /\
  (Mqtt_CheckUtf8 (Ptr 0 0) 3 (mem_one never_oom (bytes [0x61; 0xC3; 0xA9; 0]))
     ≫= (fun r => Some r.1)) = Some MQTTERR_NOT_UTF8 /\
  legal_utf8 [0xC3; 0x41] = false /\
  (Mqtt_CheckUtf8 (Ptr 0 0) 4 (mem_one never_oom (bytes [0xC3; 0xA9; 0xC3; 0x41; 0]))
     ≫= (fun r => Some r.1)) = Some 4.
Proof.
  split; [|by vm_compute]. exists 0xE9. split; [unfold scalar_value; lia|done].
Qed.
