(* ===== verification/MqttPack.v ===== *)
(** * Building MQTT packets (components/net/Protocol/mqtt/mqtt.c, lines 901 to 1475)

    Every [Mqtt_Pack*] function of the source takes the buffer and returns an
    error code; here it returns the code and the new buffer.  A packet is
    described by the bytes of its extents: the theorems say that a successful
    call appends exactly the bytes that the MQTT standard prescribes, and
    that a failing one leaves the packet as it was. *)

From S2P Require Import Prelude Cmem MqttBuffer MqttCodec.
From stdpp Require Import list_tactics.

Open Scope Z_scope.

(** ** Constants: enum MqttPacketType, MqttQosLevel, MqttConnectFlag *)

Definition MQTT_PKT_CONNECT : Z := 1.
Definition MQTT_PKT_CONNACK : Z := 2.
Definition MQTT_PKT_PUBLISH : Z := 3.
Definition MQTT_PKT_PUBACK : Z := 4.
Definition MQTT_PKT_PUBREC : Z := 5.
Definition MQTT_PKT_PUBREL : Z := 6.
Definition MQTT_PKT_PUBCOMP : Z := 7.
Definition MQTT_PKT_SUBSCRIBE : Z := 8.
Definition MQTT_PKT_SUBACK : Z := 9.
Definition MQTT_PKT_UNSUBSCRIBE : Z := 10.
Definition MQTT_PKT_UNSUBACK : Z := 11.
Definition MQTT_PKT_PINGREQ : Z := 12.
Definition MQTT_PKT_PINGRESP : Z := 13.
Definition MQTT_PKT_DISCONNECT : Z := 14.

Definition MQTT_QOS_LEVEL0 : Z := 0.
Definition MQTT_QOS_LEVEL1 : Z := 1.
Definition MQTT_QOS_LEVEL2 : Z := 2.

Definition MQTT_CONNECT_CLEAN_SESSION : Z := 0x02.
Definition MQTT_CONNECT_WILL_FLAG : Z := 0x04.
Definition MQTT_CONNECT_WILL_QOS0 : Z := 0x00.
Definition MQTT_CONNECT_WILL_QOS1 : Z := 0x08.
Definition MQTT_CONNECT_WILL_QOS2 : Z := 0x10.
Definition MQTT_CONNECT_WILL_RETAIN : Z := 0x20.
Definition MQTT_CONNECT_PASSORD : Z := 0x40.
Definition MQTT_CONNECT_USER_NAME : Z := 0x80.

(** [e->payload[i] = v] and [e->payload[i] |= v]. *)
Definition put_payload (e : ptr) (i v : Z) : M mem unit :=
  pay ← get_payload e; store_byte (padd pay i) (u8 v).

Definition or_payload (e : ptr) (i v : Z) : M mem unit :=
  pay ← get_payload e; b ← load_byte (padd pay i); store_byte (padd pay i) (u8 (Z.lor b v)).

Definition is_null (p : ptr) : bool := match p with Null => true | Ptr _ _ => false end.

Lemma is_null_ne p : p <> Null -> is_null p = false.
Proof. by destruct p. Qed.

(** ** Acknowledgements *)

(** The body shared by the four acknowledgement packets once their extent is
    there: [head], length 2, packet identifier. *)
Definition Mqtt_fill_ack (buf : MqttBuffer) (ext : ptr) (head pkt_id : Z)
    : M mem (Z * MqttBuffer) :=
  _ ← put_payload ext 0 head;
  _ ← put_payload ext 1 2;
  pay ← get_payload ext;
  _ ← Mqtt_WB16 pkt_id (padd pay 2);
  buf ← MqttBuffer_AppendExtent buf ext;
  mret (MQTTERR_NOERROR, buf).

Definition Mqtt_PackPubAckPkt (buf : MqttBuffer) (pkt_id : Z) : M mem (Z * MqttBuffer) :=
  if pkt_id =? 0 then mret (MQTTERR_INVALID_PARAMETER, buf) else
  '(ext, buf) ← MqttBuffer_AllocExtent buf 4;
  if is_null ext then mret (MQTTERR_OUTOFMEMORY, buf) else
  Mqtt_fill_ack buf ext (Z.shiftl MQTT_PKT_PUBACK 4) pkt_id.

Definition Mqtt_PackPubRecPkt (buf : MqttBuffer) (pkt_id : Z) : M mem (Z * MqttBuffer) :=
  if pkt_id =? 0 then mret (MQTTERR_INVALID_PARAMETER, buf) else
  '(ext, buf) ← MqttBuffer_AllocExtent buf 4;
  if is_null ext then mret (MQTTERR_OUTOFMEMORY, buf) else
  Mqtt_fill_ack buf ext (Z.shiftl MQTT_PKT_PUBREC 4) pkt_id.

(** The extent is used without a test for null. *)
Definition Mqtt_PackPubRelPkt (buf : MqttBuffer) (pkt_id : Z) : M mem (Z * MqttBuffer) :=
  if pkt_id =? 0 then mret (MQTTERR_INVALID_PARAMETER, buf) else
  '(ext, buf) ← MqttBuffer_AllocExtent buf 4;
  Mqtt_fill_ack buf ext (Z.lor (Z.shiftl MQTT_PKT_PUBREL 4) 0x02) pkt_id.

Definition Mqtt_PackPubCompPkt (buf : MqttBuffer) (pkt_id : Z) : M mem (Z * MqttBuffer) :=
  if pkt_id =? 0 then mret (MQTTERR_INVALID_PARAMETER, buf) else
  '(ext, buf) ← MqttBuffer_AllocExtent buf 4;
  if is_null ext then mret (MQTTERR_OUTOFMEMORY, buf) else
  Mqtt_fill_ack buf ext (Z.shiftl MQTT_PKT_PUBCOMP 4) pkt_id.

Definition Mqtt_PackPingReqPkt (buf : MqttBuffer) : M mem (Z * MqttBuffer) :=
  '(ext, buf) ← MqttBuffer_AllocExtent buf 2;
  if is_null ext then mret (MQTTERR_OUTOFMEMORY, buf) else
  _ ← put_payload ext 0 (Z.shiftl MQTT_PKT_PINGREQ 4);
  _ ← put_payload ext 1 0;
  buf ← MqttBuffer_AppendExtent buf ext;
  mret (MQTTERR_NOERROR, buf).

Definition Mqtt_PackDisconnectPkt (buf : MqttBuffer) : M mem (Z * MqttBuffer) :=
  '(ext, buf) ← MqttBuffer_AllocExtent buf 2;
  if is_null ext then mret (MQTTERR_OUTOFMEMORY, buf) else
  _ ← put_payload ext 0 (Z.shiftl MQTT_PKT_DISCONNECT 4);
  _ ← put_payload ext 1 0;
  buf ← MqttBuffer_AppendExtent buf ext;
  mret (MQTTERR_NOERROR, buf).

(** ** Publish *)

(** The loop that measures the topic; [None] is the return on a wildcard. *)
Fixpoint Mqtt_topic_scan (n : nat) (topic : ptr) (topic_len : Z) : M mem (option Z) :=
  match n with
  | O => ub
  | S n =>
      c ← load_byte (padd topic topic_len);
      if c =? 0 then mret (Some topic_len)
      else if (c =? 35) || (c =? 43) then mret None
      else Mqtt_topic_scan n topic (topic_len + 1)
  end.

Definition Mqtt_PackPublishPkt (buf : MqttBuffer) (pkt_id : Z) (topic payload : ptr)
    (size qos : Z) (retain own : bool) : M mem (Z * MqttBuffer) :=
  if pkt_id =? 0 then mret (MQTTERR_INVALID_PARAMETER, buf) else
  m ← get;
  scanned ← Mqtt_topic_scan (room m topic) topic 0;
  match scanned with
  | None => mret (MQTTERR_INVALID_PARAMETER, buf)
  | Some topic_len =>
      r ← Mqtt_CheckUtf8 topic topic_len;
      if negb (u32 r =? topic_len) then mret (MQTTERR_NOT_UTF8, buf) else
      '(fix_head, buf) ← MqttBuffer_AllocExtent buf 5;
      if is_null fix_head then mret (MQTTERR_OUTOFMEMORY, buf) else
      _ ← put_payload fix_head 0 (Z.shiftl MQTT_PKT_PUBLISH 4);
      _ ← (if retain then or_payload fix_head 0 0x01 else mret tt);
      let total_len := u32 (topic_len + size + 2) in
      if negb ((qos =? MQTT_QOS_LEVEL0) || (qos =? MQTT_QOS_LEVEL1) || (qos =? MQTT_QOS_LEVEL2))
      then mret (MQTTERR_INVALID_PARAMETER, buf) else
      _ ← (if negb (qos =? MQTT_QOS_LEVEL0)
           then or_payload fix_head 0 (if qos =? MQTT_QOS_LEVEL1 then 0x02 else 0x04)
           else mret tt);
      let total_len := if qos =? MQTT_QOS_LEVEL0 then total_len else u32 (total_len + 2) in
      pay ← get_payload fix_head;
      ret ← Mqtt_DumpLength total_len (padd pay 1);
      if ret <? 0 then mret (MQTTERR_PKT_TOO_LARGE, buf) else
      _ ← set_len fix_head (u32 (ret + 1));
      '(variable_head, buf) ← MqttBuffer_AllocExtent buf (u32 (total_len - size));
      if is_null variable_head then mret (MQTTERR_OUTOFMEMORY, buf) else
      cursor ← get_payload variable_head;
      cursor ← Mqtt_PktWriteString cursor topic (u16 topic_len);
      _ ← (if negb (qos =? MQTT_QOS_LEVEL0) then Mqtt_WB16 pkt_id cursor else mret tt);
      buf ← MqttBuffer_AppendExtent buf fix_head;
      buf ← MqttBuffer_AppendExtent buf variable_head;
      '(_, buf) ← (if negb (size =? 0) then MqttBuffer_Append buf payload size own
                   else mret (MQTTERR_NOERROR, buf));
      mret (MQTTERR_NOERROR, buf)
  end.

(** The first extent's payload is read before it is tested. *)
Definition Mqtt_SetPktDup (buf : MqttBuffer) : M mem Z :=
  let fix_head := first_ext buf in
  pay ← get_payload fix_head;
  b ← load_byte pay;
  if is_null fix_head || negb (Z.shiftr b 4 =? MQTT_PKT_PUBLISH)
  then mret MQTTERR_INVALID_PARAMETER else
  _ ← or_payload fix_head 0 0x08;
  mret MQTTERR_NOERROR.

(** ** Connect *)

(** Flags of the connect packet: everything the source collects in [flags]
    before the lengths are known; [None] is an unknown QoS. *)
Definition Mqtt_connect_flags (clean_session will_topic : bool) (qos : Z) (will_retain : bool)
    : option Z :=
  let flags := if clean_session then MQTT_CONNECT_CLEAN_SESSION else 0 in
  let flags := if will_topic then Z.lor flags MQTT_CONNECT_WILL_FLAG else flags in
  match (if qos =? MQTT_QOS_LEVEL0 then Some (Z.lor flags MQTT_CONNECT_WILL_QOS0)
         else if qos =? MQTT_QOS_LEVEL1
         then Some (Z.lor flags (Z.lor MQTT_CONNECT_WILL_FLAG MQTT_CONNECT_WILL_QOS1))
         else if qos =? MQTT_QOS_LEVEL2
         then Some (Z.lor flags (Z.lor MQTT_CONNECT_WILL_FLAG MQTT_CONNECT_WILL_QOS2))
         else None) with
  | None => None
  | Some flags =>
      Some (if will_retain
            then Z.lor flags (Z.lor MQTT_CONNECT_WILL_FLAG MQTT_CONNECT_WILL_RETAIN) else flags)
  end.

(** A bit of [flags]. *)
Definition flag_set (flags mask : Z) : bool := negb (Z.land flags mask =? 0).

(** The part of the source after the checks: fixed header, variable header
    and the strings of the payload. *)
Definition Mqtt_connect_write (buf : MqttBuffer) (fix_head variable_head payload : ptr)
    (total_len keep_alive flags : Z) (id : ptr) (id_len : Z) (will_topic : ptr) (wt_len : Z)
    (will_msg : ptr) (msg_len : Z) (user : ptr) (user_len : Z) (password : ptr) (pswd_len : Z)
    : M mem (Z * MqttBuffer) :=
  _ ← put_payload fix_head 0 (Z.shiftl MQTT_PKT_CONNECT 4);
  pay ← get_payload fix_head;
  ret ← Mqtt_DumpLength total_len (padd pay 1);
  if ret <? 0 then mret (MQTTERR_PKT_TOO_LARGE, buf) else
  _ ← set_len fix_head (u32 (ret + 1));
  _ ← put_payload variable_head 0 0; _ ← put_payload variable_head 1 4;
  _ ← put_payload variable_head 2 77; _ ← put_payload variable_head 3 81;
  _ ← put_payload variable_head 4 84; _ ← put_payload variable_head 5 84;
  _ ← put_payload variable_head 6 4; _ ← put_payload variable_head 7 flags;
  pay ← get_payload variable_head;
  _ ← Mqtt_WB16 keep_alive (padd pay 8);
  cursor ← get_payload payload;
  cursor ← Mqtt_PktWriteString cursor id id_len;
  cursor ← (if flag_set flags MQTT_CONNECT_WILL_FLAG then
              will_msg' ← (if is_null will_msg then literal [] else mret will_msg);
              let msg_len := if is_null will_msg then 0 else msg_len in
              cursor ← Mqtt_PktWriteString cursor will_topic wt_len;
              Mqtt_PktWriteString cursor will_msg' msg_len
            else mret cursor);
  cursor ← (if flag_set flags MQTT_CONNECT_USER_NAME
            then Mqtt_PktWriteString cursor user user_len else mret cursor);
  _ ← (if flag_set flags MQTT_CONNECT_PASSORD
       then Mqtt_PktWriteString cursor password pswd_len else mret cursor);
  buf ← MqttBuffer_AppendExtent buf fix_head;
  buf ← MqttBuffer_AppendExtent buf variable_head;
  buf ← MqttBuffer_AppendExtent buf payload;
  mret (MQTTERR_NOERROR, buf).

Definition Mqtt_PackConnectPkt (buf : MqttBuffer) (keep_alive : Z) (id : ptr)
    (clean_session : bool) (will_topic will_msg : ptr) (msg_len qos : Z) (will_retain : bool)
    (user password : ptr) (pswd_len : Z) : M mem (Z * MqttBuffer) :=
  '(fix_head, buf) ← MqttBuffer_AllocExtent buf 5;
  if is_null fix_head then mret (MQTTERR_OUTOFMEMORY, buf) else
  '(variable_head, buf) ← MqttBuffer_AllocExtent buf 10;
  if is_null variable_head then mret (MQTTERR_OUTOFMEMORY, buf) else
  let total_len := 10 in
  r ← Mqtt_CheckClentIdentifier id;
  let id_len := u16 r in
  if id_len <? 0 then mret (MQTTERR_ILLEGAL_CHARACTER, buf) else
  let total_len := u32 (total_len + (id_len + 2)) in
  if negb (is_null will_msg) && is_null will_topic then mret (MQTTERR_INVALID_PARAMETER, buf) else
  wt_len ← (if is_null will_topic then mret 0 else u16 <$> strlen will_topic);
  r ← (if is_null will_topic then mret wt_len else Mqtt_CheckUtf8 will_topic wt_len);
  if negb (r =? wt_len) then mret (MQTTERR_NOT_UTF8, buf) else
  match Mqtt_connect_flags clean_session (negb (is_null will_topic)) qos will_retain with
  | None => mret (MQTTERR_INVALID_PARAMETER, buf)
  | Some flags =>
      let total_len := if flag_set flags MQTT_CONNECT_WILL_FLAG
                       then u32 (total_len + (4 + wt_len + msg_len)) else total_len in
      if is_null user && negb (is_null password) then mret (MQTTERR_INVALID_PARAMETER, buf) else
      if is_null user || is_null password then mret (MQTTERR_INVALID_PARAMETER, buf) else
      let flags := Z.lor flags MQTT_CONNECT_USER_NAME in
      n ← strlen user;
      let user_len := u16 n in
      ret ← Mqtt_CheckUtf8 user user_len;
      if negb (user_len =? ret) then mret (MQTTERR_NOT_UTF8, buf) else
      let total_len := u32 (total_len + (user_len + 2)) in
      let flags := Z.lor flags MQTT_CONNECT_PASSORD in
      let total_len := u32 (total_len + (pswd_len + 2)) in
      '(payload, buf) ← MqttBuffer_AllocExtent buf (u32 (total_len - 10));
      Mqtt_connect_write buf fix_head variable_head payload total_len keep_alive flags
        id id_len will_topic wt_len will_msg msg_len user user_len password pswd_len
  end.

(** ** Subscribe and unsubscribe *)

(** The loop that checks the topics [i .. i + n - 1]: error code and total
    length. *)
Fixpoint Mqtt_check_topics (n : nat) (topics : ptr) (i topic_total_len : Z) : M mem (Z * Z) :=
  match n with
  | O => mret (MQTTERR_NOERROR, topic_total_len)
  | S n =>
      topic ← load_ptr (padd topics (sizeof_ptr * i));
      if is_null topic then mret (MQTTERR_INVALID_PARAMETER, topic_total_len) else
      topic_len ← strlen topic;
      r ← Mqtt_CheckUtf8 topic topic_len;
      if negb (u32 r =? topic_len) then mret (MQTTERR_NOT_UTF8, topic_total_len) else
      Mqtt_check_topics n topics (i + 1) (u32 (topic_total_len + topic_len))
  end.

(** The loop that writes the topics; [qos] is written after each of them in a
    subscribe packet. *)
Fixpoint Mqtt_write_topics (n : nat) (topics : ptr) (i : Z) (qos : option Z) (cursor : ptr)
    : M mem unit :=
  match n with
  | O => mret tt
  | S n =>
      topic ← load_ptr (padd topics (sizeof_ptr * i));
      topic_len ← strlen topic;
      cursor ← Mqtt_PktWriteString cursor topic (u16 topic_len);
      cursor ← match qos with
               | Some q => _ ← Mqtt_WB8 q cursor; mret (padd cursor 1)
               | None => mret cursor
               end;
      Mqtt_write_topics n topics (i + 1) qos cursor
  end.

Definition Mqtt_PackSubscribePkt (buf : MqttBuffer) (pkt_id qos : Z) (topics : ptr)
    (topics_len : Z) : M mem (Z * MqttBuffer) :=
  if pkt_id =? 0 then mret (MQTTERR_INVALID_PARAMETER, buf) else
  '(err, topic_total_len) ← Mqtt_check_topics (Z.to_nat topics_len) topics 0 0;
  if negb (err =? MQTTERR_NOERROR) then mret (err, buf) else
  '(fixed_head, buf) ← MqttBuffer_AllocExtent buf 5;
  if is_null fixed_head then mret (MQTTERR_OUTOFMEMORY, buf) else
  _ ← put_payload fixed_head 0 (Z.lor (Z.shiftl MQTT_PKT_SUBSCRIBE 4) 0x00);
  let remaining_len := u32 (2 + 2 * topics_len + topic_total_len + topics_len) in
  '(ext, buf) ← MqttBuffer_AllocExtent buf remaining_len;
  if is_null ext then mret (MQTTERR_OUTOFMEMORY, buf) else
  pay ← get_payload fixed_head;
  ret ← Mqtt_DumpLength remaining_len (padd pay 1);
  if ret <? 0 then mret (MQTTERR_PKT_TOO_LARGE, buf) else
  _ ← set_len fixed_head (u32 (ret + 1));
  cursor ← get_payload ext;
  _ ← Mqtt_WB16 pkt_id cursor;
  _ ← Mqtt_write_topics (Z.to_nat topics_len) topics 0 (Some (u8 qos)) (padd cursor 2);
  buf ← MqttBuffer_AppendExtent buf fixed_head;
  buf ← MqttBuffer_AppendExtent buf ext;
  mret (MQTTERR_NOERROR, buf).

(** The first byte of the first extent, for the type tests: [None] without a
    first extent. *)
Definition first_byte_of (buf : MqttBuffer) : M mem (option Z) :=
  if is_null (first_ext buf) then mret None
  else pay ← get_payload (first_ext buf); Some <$> load_byte pay.

Definition Mqtt_AppendSubscribeTopic (buf : MqttBuffer) (topic : ptr) (qos : Z)
    : M mem (Z * MqttBuffer) :=
  let fixed_head := first_ext buf in
  let sub_type := Z.lor (Z.shiftl MQTT_PKT_SUBSCRIBE 4) 0x02 in
  b ← first_byte_of buf;
  if negb (bool_decide (b = Some sub_type)) || is_null topic
  then mret (MQTTERR_INVALID_PARAMETER, buf) else
  topic_len ← strlen topic;
  '(ext, buf) ← MqttBuffer_AllocExtent buf (u32 (topic_len + 3));
  if is_null ext then mret (MQTTERR_OUTOFMEMORY, buf) else
  cursor ← get_payload ext;
  cursor ← Mqtt_PktWriteString cursor topic (u16 topic_len);
  _ ← store_byte cursor (u8 qos);
  pay ← get_payload fixed_head;
  '(r, remaining_len) ← Mqtt_ReadLength (padd pay 1) 4;
  if r <? 0 then mret (MQTTERR_INVALID_PARAMETER, buf) else
  let remaining_len := u32 (remaining_len + (topic_len + 3)) in
  ret ← Mqtt_DumpLength remaining_len (padd pay 1);
  if ret <? 0 then mret (MQTTERR_PKT_TOO_LARGE, buf) else
  _ ← set_len fixed_head (u32 (ret + 1));
  buf ← MqttBuffer_AppendExtent buf ext;
  mret (MQTTERR_NOERROR, buf).

Definition Mqtt_PackUnsubscribePkt (buf : MqttBuffer) (pkt_id : Z) (topics : ptr)
    (topics_len : Z) : M mem (Z * MqttBuffer) :=
  if pkt_id =? 0 then mret (MQTTERR_INVALID_PARAMETER, buf) else
  '(err, topic_total_len) ← Mqtt_check_topics (Z.to_nat topics_len) topics 0 0;
  if negb (err =? MQTTERR_NOERROR) then mret (err, buf) else
  let remaining_len := u32 (2 + 2 * topics_len + topic_total_len) in
  '(fixed_head, buf) ← MqttBuffer_AllocExtent buf 5;
  if is_null fixed_head then mret (MQTTERR_OUTOFMEMORY, buf) else
  _ ← put_payload fixed_head 0 (Z.lor (Z.shiftl MQTT_PKT_UNSUBSCRIBE 4) 0x00);
  pay ← get_payload fixed_head;
  ret ← Mqtt_DumpLength remaining_len (padd pay 1);
  if ret <? 0 then mret (MQTTERR_PKT_TOO_LARGE, buf) else
  _ ← set_len fixed_head (u32 (ret + 1));
  '(ext, buf) ← MqttBuffer_AllocExtent buf remaining_len;
  if is_null ext then mret (MQTTERR_OUTOFMEMORY, buf) else
  cursor ← get_payload ext;
  _ ← Mqtt_WB16 pkt_id cursor;
  _ ← Mqtt_write_topics (Z.to_nat topics_len) topics 0 None (padd cursor 2);
  buf ← MqttBuffer_AppendExtent buf fixed_head;
  buf ← MqttBuffer_AppendExtent buf ext;
  mret (MQTTERR_NOERROR, buf).

Definition Mqtt_AppendUnsubscribeTopic (buf : MqttBuffer) (topic : ptr)
    : M mem (Z * MqttBuffer) :=
  let fixed_head := first_ext buf in
  let unsub_type := Z.lor (Z.shiftl MQTT_PKT_UNSUBSCRIBE 4) 0x02 in
  b ← first_byte_of buf;
  if negb (bool_decide (b = Some unsub_type)) || is_null topic
  then mret (MQTTERR_INVALID_PARAMETER, buf) else
  topic_len ← strlen topic;
  '(ext, buf) ← MqttBuffer_AllocExtent buf (u32 (topic_len + 2));
  if is_null ext then mret (MQTTERR_OUTOFMEMORY, buf) else
  cursor ← get_payload ext;
  _ ← Mqtt_PktWriteString cursor topic (u16 topic_len);
  pay ← get_payload fixed_head;
  '(r, remaining_len) ← Mqtt_ReadLength (padd pay 1) 4;
  if r <? 0 then mret (MQTTERR_INVALID_PARAMETER, buf) else
  let remaining_len := u32 (remaining_len + (topic_len + 2)) in
  ret ← Mqtt_DumpLength remaining_len (padd pay 1);
  if ret <? 0 then mret (MQTTERR_PKT_TOO_LARGE, buf) else
  _ ← set_len fixed_head (u32 (ret + 1));
  buf ← MqttBuffer_AppendExtent buf ext;
  mret (MQTTERR_NOERROR, buf).

(** ** The reply to a command *)

Definition CMD_TOPIC_PREFIX_LEN : Z := 5.
Definition RESP_CMD_TOPIC_PREFIX : list Z := [36; 99; 114; 115; 112; 47].

Definition Mqtt_PackCmdRetPkt (buf : MqttBuffer) (pkt_id : Z) (cmdid ret : ptr)
    (ret_len qos : Z) (own : bool) : M mem (Z * MqttBuffer) :=
  n ← strlen cmdid;
  let cmdid_size := n + 1 in
  '(ext, buf) ← MqttBuffer_AllocExtent buf (u32 (cmdid_size + CMD_TOPIC_PREFIX_LEN));
  if is_null ext then mret (MQTTERR_OUTOFMEMORY, buf) else
  pay ← get_payload ext;
  prefix ← literal RESP_CMD_TOPIC_PREFIX;
  _ ← memcpy pay prefix (Zlen RESP_CMD_TOPIC_PREFIX);
  _ ← memcpy (padd pay (Zlen RESP_CMD_TOPIC_PREFIX)) cmdid cmdid_size;
  if qos =? MQTT_QOS_LEVEL1
  then Mqtt_PackPublishPkt buf pkt_id pay ret ret_len MQTT_QOS_LEVEL1 false own
  else Mqtt_PackPublishPkt buf pkt_id pay ret ret_len MQTT_QOS_LEVEL0 false own.

(** ** Proof rules *)

Section rules.
Context (om : nat -> bool).
Implicit Types (m : mem) (L : list cell).

Lemma wp_get_payload m L e p L0 (Q : ptr -> mem -> Prop) :
  owns om m L -> L ≡ₚ padd e 4 ↦ enc_ptr p :: L0 -> Q p m -> wp (get_payload e) m Q.
Proof. apply wp_load_ptr. Qed.

Lemma wp_put_payload m L e p d i v L0 (Q : unit -> mem -> Prop) :
  owns om m L -> L ≡ₚ padd e 4 ↦ enc_ptr p :: p ↦ d :: L0 -> 0 <= i < Zlen d ->
  (forall m', owns om m' (padd e 4 ↦ enc_ptr p :: p ↦ (splice d i [Byte (u8 v)]) :: L0) ->
     Q tt m') ->
  wp (put_payload e i v) m Q.
Proof.
  intros Ho HL Hi HQ. unfold put_payload. wp_bind.
  eapply wp_get_payload; [exact Ho|exact HL|].
  eapply (wp_store_byte _ _ _ p d i); [exact Ho| |done|done|].
  { rewrite HL. apply Permutation_swap. }
  intros m' Ho'. apply HQ. by rewrite Permutation_swap in Ho'.
Qed.

Lemma wp_or_payload m L e p d i v b L0 (Q : unit -> mem -> Prop) :
  owns om m L -> L ≡ₚ padd e 4 ↦ enc_ptr p :: p ↦ d :: L0 -> 0 <= i ->
  d !! Z.to_nat i = Some (Byte b) ->
  (forall m', owns om m' (padd e 4 ↦ enc_ptr p ::
                          p ↦ (splice d i [Byte (u8 (Z.lor b v))]) :: L0) -> Q tt m') ->
  wp (or_payload e i v) m Q.
Proof.
  intros Ho HL Hi Hb HQ. unfold or_payload. wp_bind.
  eapply wp_get_payload; [exact Ho|exact HL|]. wp_bind.
  assert (L ≡ₚ p ↦ d :: padd e 4 ↦ enc_ptr p :: L0) as HL'
    by (rewrite HL; apply Permutation_swap).
  eapply (wp_load_byte _ _ _ p d i); [exact Ho|exact HL'|done|done|done|].
  eapply (wp_store_byte _ _ _ p d i); [exact Ho|exact HL'|done| |].
  { apply lookup_lt_Some in Hb. unfold Zlen. lia. }
  intros m' Ho'. apply HQ. by rewrite Permutation_swap in Ho'.
Qed.

(** Appending an extent whose header and payload are pending cells. *)
Lemma wp_append_pending buf m xs e len p d nx L (Q : MqttBuffer -> mem -> Prop) :
  first_ext buf = head_ptr xs Null -> last_ext buf = last_ptr xs -> Forall xt_ok xs ->
  e <> Null -> 0 <= len <= Zlen d -> len < 2 ^ 32 ->
  buf_own om m buf (hdr_cells e len p nx ++ p ↦ d :: chain_cells xs Null ++ L) ->
  (forall m' buf', brep om m' buf' (xs ++ [Xt e len p d]) L ->
     alloc_count buf' = alloc_count buf ->
     buffered_bytes buf' = u32 (buffered_bytes buf + len) -> Q buf' m') ->
  wp (MqttBuffer_AppendExtent buf e) m Q.
Proof.
  intros Hf Hl Hxs He Hd Hlen Hown HQ.
  eapply (wp_AppendExtent _ buf _ xs (Xt e len p d)); [done|done|done|by split| |exact HQ].
  eapply buf_own_perm; [|exact Hown]. unfold xt_cells. simpl. solve_Permutation.
Qed.
End rules.

(** The bytes of an acknowledgement. *)
Definition ack_packet (head pkt_id : Z) : list Z := head :: 2 :: be16 pkt_id.

Section acks.
Context (om : nat -> bool).

Lemma wp_fill_ack buf m xs e d head pkt_id L (Q : Z * MqttBuffer -> mem -> Prop) :
  first_ext buf = head_ptr xs Null -> last_ext buf = last_ptr xs -> Forall xt_ok xs ->
  e <> Null -> Zlen d = 4 -> 0 <= head < 256 ->
  buf_own om m buf (hdr_cells e 4 (padd e 12) Null ++ padd e 12 ↦ d :: chain_cells xs Null ++ L) ->
  (forall m' buf' x, brep om m' buf' (xs ++ [x]) L ->
     xt_bytes x = bytes (ack_packet head pkt_id) ->
     alloc_count buf' = alloc_count buf ->
     buffered_bytes buf' = u32 (buffered_bytes buf + 4) -> Q (MQTTERR_NOERROR, buf') m') ->
  wp (Mqtt_fill_ack buf e head pkt_id) m Q.
Proof.
  intros Hf Hl Hxs He Hd Hh Hown HQ. unfold Mqtt_fill_ack.
  apply buf_own_open in Hown as (R & Ho & Hclose). unfold hdr_cells in Ho.
  destruct d as [|d0 [|d1 [|d2 [|d3 [|]]]]]; try (unfold Zlen in Hd; simpl in Hd; lia).
  wp_bind. eapply wp_put_payload; [exact Ho|perm_find2|done|]. clear m Ho. intros m Ho.
  wp_bind. eapply wp_put_payload; [exact Ho|reflexivity|done|]. clear m Ho. intros m Ho.
  wp_bind. eapply wp_get_payload; [exact Ho|perm_find|].
  wp_bind. eapply (wp_WB16 _ _ _ (padd e 12) _ 2); [exact Ho|perm_find|done|done|done|].
  clear m Ho. intros m Ho. wp_bind.
  eapply (wp_append_pending _ _ _ xs e 4 (padd e 12) (bytes (ack_packet head pkt_id)) Null L);
    [done..|lia| |].
  - apply Hclose. rewrite <-(u8_small head Hh). eapply owns_perm; [|exact Ho].
    unfold hdr_cells. simpl. solve_Permutation.
  - clear m Ho. intros m buf' Hbr Hc Hb. wp_ret. by eapply HQ.
Qed.

(** The extent of an acknowledgement, and its contents. *)
Lemma wp_pack_ack buf m xs head pkt_id L (Q : Z * MqttBuffer -> mem -> Prop) :
  brep om m buf xs L -> alloc_count buf < 2 ^ 20 -> 0 <= head < 256 ->
  (forall m' buf', brep om m' buf' xs L -> oom_seen om -> Q (MQTTERR_OUTOFMEMORY, buf') m') ->
  (forall m' buf' x, brep om m' buf' (xs ++ [x]) L ->
     xt_bytes x = bytes (ack_packet head pkt_id) ->
     buffered_bytes buf' = u32 (buffered_bytes buf + 4) -> Q (MQTTERR_NOERROR, buf') m') ->
  wp ('(ext, buf) ← MqttBuffer_AllocExtent buf 4;
      if is_null ext then mret (MQTTERR_OUTOFMEMORY, buf) else
      Mqtt_fill_ack buf ext head pkt_id) m Q.
Proof.
  intros [Hf Hl Hxs Hown] Hc Hh Hfail HQ. wp_bind.
  eapply wp_AllocExtent; [exact Hown|done|done|done| |].
  { intros m' buf' Hown' (? & ? & ? & ?) Hom. wp_ret. apply Hfail; [|done]. split; congruence. }
  clear m Hown. intros e m buf1 d He Hd (Hf1 & Hl1 & Hb1 & Hc1) Hown.
  rewrite is_null_ne by done.
  eapply (wp_fill_ack _ _ xs); [congruence|congruence|done|done|done|done|exact Hown|].
  intros m' buf' x Hbr Hx Hc' Hb'. apply (HQ _ _ x); [done..|congruence].
Qed.
End acks.

Lemma xt_bytes_splice e n p d l : n = Zlen l -> Zlen l <= Zlen d ->
  xt_bytes (Xt e n p (splice d 0 l)) = l.
Proof.
  intros -> Hl. unfold xt_bytes. cbn [x_len x_data].
  rewrite <-(Z.add_0_l (Zlen l)), take_splice by lia. by rewrite take_0.
Qed.

Lemma u32_add_l a b : u32 (u32 a + b) = u32 (a + b).
Proof. unfold u32. apply Zplus_mod_idemp_l. Qed.

(** ** Publish *)

(** The publish packet of the standard, section 3.3. *)
Definition publish_head (retain : bool) (qos : Z) : Z := 48 + (if retain then 1 else 0) + 2 * qos.

Definition publish_len (qos : Z) (topic : list Z) (size : Z) : Z :=
  Zlen topic + size + 2 + (if qos =? 0 then 0 else 2).

Definition publish_var (pkt_id qos : Z) (topic : list Z) : list Z :=
  enc_string topic ++ (if qos =? 0 then [] else be16 pkt_id).

Definition publish_header (retain : bool) (pkt_id qos : Z) (topic : list Z) (size : Z) : list Z :=
  publish_head retain qos :: enc_length 4 (publish_len qos topic size) ++
  publish_var pkt_id qos topic.

(** A topic name without the wildcards of subscriptions. *)
Definition topic_name (s : list Z) : bool := forallb (fun c => negb ((c =? 35) || (c =? 43))) s.

Section publish.
Context (om : nat -> bool).

Lemma wp_topic_scan_loop n m L p d k s i L0 (Q : option Z -> mem -> Prop) :
  owns om m L -> L ≡ₚ p ↦ d :: L0 -> 0 <= k -> cstring d (k + i) s -> 0 <= i ->
  (length s < n)%nat ->
  Q (if topic_name s then Some (i + Zlen s) else None) m ->
  wp (Mqtt_topic_scan n (padd p k) i) m Q.
Proof.
  intros Ho HL Hk. revert n i. induction s as [|c s IH]; intros n i [Hb Hs] Hi Hn HQ;
    (destruct n as [|n]; simpl in Hn; [lia|]); simpl; wp_bind;
    (eapply (wp_load_at _ _ _ p d (k + i) _ 0); [exact Ho|exact HL|lia|exact Hb|done|done
      |by rewrite padd_padd, Z.add_0_r|]).
  - wp_ret. simpl in HQ. by rewrite Zlen_nil, Z.add_0_r in HQ.
  - apply Forall_cons in Hs as [Hc Hs]. destruct (Z.eqb_spec c 0); [lia|].
    unfold topic_name in *. simpl in HQ. destruct ((c =? 35) || (c =? 43)); simpl in *; [by wp_ret|].
    apply has_bytes_cons in Hb as [_ Hb]; [|lia].
    apply IH; [split; [by rewrite Z.add_assoc|done]|lia|lia|].
    rewrite Zlen_cons in HQ. by rewrite Z.add_assoc in HQ.
Qed.

Lemma wp_topic_scan m L p d k s L0 q (Q : option Z -> mem -> Prop) :
  owns om m L -> L ≡ₚ p ↦ d :: L0 -> 0 <= k <= Zlen d -> cstring d k s -> q = padd p k ->
  Q (if topic_name s then Some (Zlen s) else None) m ->
  wp (Mqtt_topic_scan (room m q) q 0) m Q.
Proof.
  intros Ho HL Hk Hs -> HQ.
  pose proof (has_bytes_len d k _ ltac:(lia) (proj1 Hs)) as Hlen.
  zlen. pose proof (Zlen_nonneg s).
  pose proof (room_cell om m L p d k L0 Ho HL ltac:(lia)) as Hroom.
  eapply wp_topic_scan_loop; [exact Ho|exact HL|lia|by rewrite Z.add_0_r|done| |done].
  unfold Zlen in *. lia.
Qed.

(** [payload[0] |= v] under a condition. *)
Lemma wp_or_if (c : bool) m L e p d v b L0 (Q : unit -> mem -> Prop) :
  owns om m L -> L ≡ₚ padd e 4 ↦ enc_ptr p :: p ↦ (splice d 0 [Byte b]) :: L0 ->
  1 <= Zlen d ->
  (forall m', owns om m' (padd e 4 ↦ enc_ptr p ::
     p ↦ (splice d 0 [Byte (if c then u8 (Z.lor b v) else b)]) :: L0) -> Q tt m') ->
  wp (if c then or_payload e 0 v else mret tt) m Q.
Proof.
  intros Ho HL Hd HQ. destruct c; [|wp_ret; apply HQ; by rewrite HL in Ho].
  eapply wp_or_payload; [exact Ho|exact HL|done| |].
  - apply (has_bytes_lookup _ 0 [b] 0 b); [done|apply (has_bytes_splice d 0 [b]); lia|done].
  - intros m' Ho'. apply HQ. rewrite splice_over in Ho'; [done|done| |done].
    change (Zlen [Byte b]) with 1. lia.
Qed.

(** The remaining length goes behind the first byte of the fixed header, and
    the extent's length is set to what was written. *)
Lemma wp_fixed_header_len {B} m L e d h w total (abort : M mem B) (k : M mem B) L0 Q :
  owns om m L ->
  L ≡ₚ e ↦ enc_u32 w :: padd e 4 ↦ enc_ptr (padd e 12) ::
       padd e 12 ↦ (splice d 0 [Byte h]) :: L0 ->
  5 <= Zlen d -> 0 <= total < 128 ^ 4 ->
  (forall m', owns om m' (e ↦ enc_u32 (1 + Zlen (enc_length 4 total)) ::
     padd e 4 ↦ enc_ptr (padd e 12) ::
     padd e 12 ↦ (splice d 0 (bytes (h :: enc_length 4 total))) :: L0) -> wp k m' Q) ->
  wp (pay ← get_payload e;
      ret ← Mqtt_DumpLength total (padd pay 1);
      if ret <? 0 then abort else _ ← set_len e (u32 (ret + 1)); k) m Q.
Proof.
  intros Ho HL Hd Ht HQ. rewrite HL in Ho. pose proof (enc_length_bounds total Ht). wp_bind.
  eapply wp_get_payload; [exact Ho|perm_find|]. wp_bind.
  assert (Zlen (splice d 0 [Byte h]) = Zlen d) as Hl
    by (apply Zlen_splice; zlen; lia).
  eapply (wp_DumpLength _ _ _ (padd e 12) _ 1); [exact Ho|perm_find|done|lia|lia|done|].
  clear m Ho. intros m Ho. destruct (Z.ltb_spec total (128 ^ 4)); [|lia].
  destruct (Z.ltb_spec (Zlen (enc_length 4 total)) 0); [lia|]. wp_bind.
  change 1 with (0 + Zlen [Byte h]) in Ho at 1.
  rewrite splice_app in Ho by (zlen; lia).
  eapply wp_set_len; [exact Ho|perm_find|]. clear m Ho. intros m Ho. apply HQ.
  rewrite u32_small, Z.add_comm in Ho by lia. eapply owns_perm; [|exact Ho]. solve_Permutation.
Qed.

Lemma Zlen_publish_var pkt_id qos topic :
  Zlen (publish_var pkt_id qos topic) = 2 + Zlen topic + (if qos =? 0 then 0 else 2).
Proof.
  unfold publish_var. rewrite Zlen_app, Zlen_enc_string. by destruct (qos =? 0).
Qed.

(** The variable header: the topic, and the packet identifier above QoS 0. *)
Lemma wp_publish_var {B} m L p d tp td topic pkt_id qos (k : M mem B) L0 Q :
  owns om m L -> L ≡ₚ p ↦ d :: tp ↦ td :: L0 -> has_bytes td 0 topic -> Zlen topic < 65536 ->
  Zlen (publish_var pkt_id qos topic) <= Zlen d ->
  (forall m', owns om m' (p ↦ (splice d 0 (bytes (publish_var pkt_id qos topic))) ::
                          tp ↦ td :: L0) -> wp k m' Q) ->
  wp (cursor ← Mqtt_PktWriteString p tp (u16 (Zlen topic));
      _ ← (if negb (qos =? MQTT_QOS_LEVEL0) then Mqtt_WB16 pkt_id cursor else mret tt); k) m Q.
Proof.
  intros Ho HL Ht Htl Hd HQ. rewrite Zlen_publish_var in Hd. pose proof (Zlen_nonneg topic).
  pose proof (Zlen_nonneg td). rewrite u16_small by lia. wp_bind.
  eapply (wp_PktWriteString _ _ _ p d 0 tp td 0 topic);
    [exact Ho|exact HL|done|done|done|done|destruct (qos =? 0); lia|done
    |by rewrite padd_0|by rewrite padd_0|].
  clear m Ho. intros m Ho. rewrite Z.add_0_l. wp_bind. unfold publish_var in HQ.
  change (qos =? MQTT_QOS_LEVEL0) with (qos =? 0). destruct (qos =? 0); cbn [negb].
  { wp_ret. rewrite app_nil_r in HQ. by apply HQ. }
  assert (Zlen (splice d 0 (bytes (enc_string topic))) = Zlen d) as Hl
    by (apply Zlen_splice; rewrite ?Zlen_bytes, ?Zlen_enc_string; lia).
  eapply (wp_WB16 _ _ _ p _ (Zlen (enc_string topic)));
    [exact Ho|perm_find|apply Zlen_nonneg|rewrite Zlen_enc_string; lia|done|].
  clear m Ho. intros m Ho. apply HQ.
  rewrite <-(Zlen_bytes (enc_string topic)), <-(Z.add_0_l (Zlen (bytes _))) in Ho.
  by rewrite splice_app, <-bytes_app in Ho by (rewrite ?Zlen_bytes, ?Zlen_enc_string; lia).
Qed.

(** A pending extent: allocated and filled, not yet in the chain. *)
Definition pending (e : ptr) (len : Z) (d : list memval) : list cell :=
  hdr_cells e len (padd e 12) Null ++ [padd e 12 ↦ d].

(** Two pending extents are appended. *)
Lemma wp_append_pair {B : Type} buf m xs e1 b1 d1 e2 b2 d2 L (k : MqttBuffer -> M mem B) Q :
  first_ext buf = head_ptr xs Null -> last_ext buf = last_ptr xs -> Forall xt_ok xs ->
  e1 <> Null -> e2 <> Null -> Zlen b1 <= Zlen d1 -> Zlen b2 <= Zlen d2 ->
  Zlen b1 < 2 ^ 32 -> Zlen b2 < 2 ^ 32 ->
  buf_own om m buf (pending e1 (Zlen b1) (splice d1 0 b1) ++ pending e2 (Zlen b2) (splice d2 0 b2)
                    ++ chain_cells xs Null ++ L) ->
  (forall m' buf' x1 x2, brep om m' buf' (xs ++ [x1; x2]) L ->
     xt_bytes x1 = b1 -> xt_bytes x2 = b2 -> x_data x1 = splice d1 0 b1 ->
     alloc_count buf' = alloc_count buf ->
     buffered_bytes buf' = u32 (buffered_bytes buf + (Zlen b1 + Zlen b2)) -> wp (k buf') m' Q) ->
  wp (buf ← MqttBuffer_AppendExtent buf e1; buf ← MqttBuffer_AppendExtent buf e2; k buf) m Q.
Proof.
  intros Hf Hl Hxs He1 He2 Hb1 Hb2 Hb1' Hb2' Hown HQ.
  pose proof (Zlen_nonneg b1). pose proof (Zlen_nonneg b2).
  assert (Zlen (splice d1 0 b1) = Zlen d1) as Hs1 by (apply Zlen_splice; lia).
  assert (Zlen (splice d2 0 b2) = Zlen d2) as Hs2 by (apply Zlen_splice; lia).
  wp_bind. eapply (wp_append_pending om buf m xs e1 (Zlen b1) (padd e1 12) (splice d1 0 b1) Null
    (pending e2 (Zlen b2) (splice d2 0 b2) ++ L)); [done..|lia|lia| |].
  { eapply buf_own_perm; [|exact Hown]. unfold pending. simpl. solve_Permutation. }
  clear m Hown. intros m buf1 [Hf1 Hl1 Hxs1 Hown] Hc1 Hn1. wp_bind.
  eapply (wp_append_pending om buf1 m _ e2 (Zlen b2) (padd e2 12) (splice d2 0 b2) Null L);
    [done..|lia|lia| |].
  { eapply buf_own_perm; [|exact Hown]. unfold pending. simpl. solve_Permutation. }
  clear m Hown. intros m buf2 Hbr Hc2 Hn2. rewrite <-(assoc_L (++)) in Hbr. simpl in Hbr.
  apply (HQ _ _ _ _ Hbr); [by apply xt_bytes_splice|by apply xt_bytes_splice|done|congruence|].
  by rewrite Hn2, Hn1, u32_add_l, Z.add_assoc.
Qed.

(** Two pending extents are appended, and a block of bytes after them. *)
Lemma wp_append_two buf m xs e1 b1 d1 e2 b2 d2 pp pd size (own : bool) L
    (Q : Z * MqttBuffer -> mem -> Prop) :
  first_ext buf = head_ptr xs Null -> last_ext buf = last_ptr xs -> Forall xt_ok xs ->
  e1 <> Null -> e2 <> Null -> Zlen b1 <= Zlen d1 -> Zlen b2 <= Zlen d2 ->
  Zlen b1 < 2 ^ 32 -> Zlen b2 < 2 ^ 32 -> 0 <= size <= Zlen pd -> size + 16 < 2 ^ 32 ->
  alloc_count buf < 2 ^ 20 ->
  buf_own om m buf (pending e1 (Zlen b1) (splice d1 0 b1) ++ pending e2 (Zlen b2) (splice d2 0 b2)
                    ++ chain_cells xs Null ++ pp ↦ pd :: L) ->
  (forall m' buf' ys pl, brep om m' buf' (xs ++ ys) (if own then pp ↦ pd :: L else L) ->
     chain_bytes ys = b1 ++ b2 ++ pl ->
     pl = take (Z.to_nat size) pd \/ (pl = [] /\ oom_seen om) ->
     buffered_bytes buf' = u32 (buffered_bytes buf + Zlen (chain_bytes ys)) ->
     (size = 0 -> exists x1 x2, ys = [x1; x2] /\ xt_bytes x1 = b1) ->
     Q (MQTTERR_NOERROR, buf') m') ->
  wp (buf ← MqttBuffer_AppendExtent buf e1;
      buf ← MqttBuffer_AppendExtent buf e2;
      '(_, buf) ← (if negb (size =? 0) then MqttBuffer_Append buf pp size own
                   else mret (MQTTERR_NOERROR, buf));
      mret (MQTTERR_NOERROR, buf)) m Q.
Proof.
  intros Hf Hl Hxs He1 He2 Hb1 Hb2 Hb1' Hb2' Hs Hs' Hc Hown HQ.
  eapply (wp_append_pair buf m xs e1 b1 d1 e2 b2 d2 (pp ↦ pd :: L)); [done..|].
  clear m Hown. intros m buf2 x1 x2 Hbr Hx1 Hx2 _ Hc2 Hn2. wp_bind.
  assert (chain_bytes [x1; x2] = b1 ++ b2 ++ []) as Hch.
  { change (chain_bytes [x1; x2]) with (xt_bytes x1 ++ xt_bytes x2 ++ []). congruence. }
  assert (forall m' buf', brep om m' buf' (xs ++ [x1; x2]) (pp ↦ pd :: L) ->
    buffered_bytes buf' = buffered_bytes buf2 -> [] = take (Z.to_nat size) pd \/ oom_seen om ->
    Q (MQTTERR_NOERROR, buf') m') as Hshort.
  { intros m' buf' Hbr' Hn' Hpl. apply (HQ _ _ [x1; x2] []); [|done|destruct Hpl; [by left|by right]| |by exists x1, x2].
    - destruct own; [done|]. eapply brep_frame; [|exact Hbr']. solve_submseteq.
    - by rewrite Hn', Hn2, Hch, app_nil_r, Zlen_app. }
  destruct (Z.eqb_spec size 0) as [->|Hs0]; cbn [negb].
  - wp_ret. apply Hshort; [done|done|by left].
  - eapply wp_Append; [exact Hbr|lia|done|done| |].
    + intros m' buf' Hbr' Hoom Hn3. wp_ret. apply Hshort; [done|done|by right].
    + intros m' buf' x3 Hx3 Hlen3 Hbr' Hc3 Hn3. wp_ret. rewrite <-(assoc_L (++)) in Hbr'.
      assert (chain_bytes [x1; x2; x3] = b1 ++ b2 ++ take (Z.to_nat size) pd) as Hch3.
      { change (xt_bytes x1 ++ xt_bytes x2 ++ xt_bytes x3 ++ [] = b1 ++ b2 ++ take (Z.to_nat size) pd).
        by rewrite app_nil_r, Hx1, Hx2, Hx3. }
      apply (HQ _ _ [x1; x2; x3] (take (Z.to_nat size) pd)); [done|done|by left| |done].
      rewrite Hn3, Hn2, u32_add_l, Hch3, !Zlen_app. f_equal.
      unfold Zlen at 5. rewrite length_take. unfold Zlen in *. lia.
Qed.

Lemma publish_head_or (retain : bool) qos : 0 <= qos <= 2 ->
  (if negb (qos =? MQTT_QOS_LEVEL0)
   then u8 (Z.lor (if retain then u8 (Z.lor 48 1) else 48)
                  (if qos =? MQTT_QOS_LEVEL1 then 2 else 4))
   else if retain then u8 (Z.lor 48 1) else 48) = publish_head retain qos.
Proof.
  intros Hq. assert (qos = 0 \/ qos = 1 \/ qos = 2) as [-> | [-> | -> ]] by lia; by destruct retain.
Qed.

Lemma publish_len_u32 qos topic size : 0 <= size -> publish_len qos topic size < 128 ^ 4 ->
  (if qos =? MQTT_QOS_LEVEL0 then u32 (Zlen topic + size + 2)
   else u32 (u32 (Zlen topic + size + 2) + 2)) = publish_len qos topic size.
Proof.
  unfold publish_len. intros Hs Hl. pose proof (Zlen_nonneg topic).
  change (qos =? MQTT_QOS_LEVEL0) with (qos =? 0).
  destruct (qos =? 0); rewrite !u32_small by (rewrite ?u32_small; lia); lia.
Qed.

(** The reads that come first, on a buffer that owns the topic. *)
Lemma wp_publish_checks {B : Type} buf m xs tp td topic L (k : option Z -> M mem B) (h : Z -> M mem B) Q :
  brep om m buf xs (tp ↦ td :: L) -> cstring td 0 topic -> ascii_string topic ->
  topic_name topic = true -> Zlen topic < 2 ^ 32 -> k (Some (Zlen topic)) =
    (r ← Mqtt_CheckUtf8 tp (Zlen topic); h r) ->
  wp (h (Zlen topic)) m Q ->
  wp (m ← get; scanned ← Mqtt_topic_scan (room m tp) tp 0; k scanned) m Q.
Proof.
  intros [_ _ _ Hown] Ht Ha Hn Hl Hk HQ.
  apply buf_own_open in Hown as (R & Ho & _). rewrite <-(assoc_L (++)) in Ho. cbn [app] in Ho.
  wp_bind. eapply wp_run; [done|]. cbv beta. wp_bind.
  eapply (wp_topic_scan _ _ tp td 0);
    [exact Ho|perm_find|pose proof (Zlen_nonneg td); lia|done|by rewrite padd_0|].
  rewrite Hn, Hk. wp_bind.
  eapply (wp_CheckUtf8 _ _ _ tp td 0 (topic ++ [0]));
    [exact Ho|perm_find|done|apply Ht|by zlen|by rewrite padd_0|].
  by rewrite check_utf8_ascii.
Qed.

(** The second half: the variable header and the payload. *)
Lemma wp_publish_tail buf0 buf m xs e1 b1 d1 pkt_id tp td topic pp pd size qos (own : bool) L
    (Q : Z * MqttBuffer -> mem -> Prop) :
  first_ext buf0 = head_ptr xs Null -> last_ext buf0 = last_ptr xs -> Forall xt_ok xs ->
  e1 <> Null -> Zlen b1 <= Zlen d1 -> Zlen b1 < 2 ^ 32 -> alloc_count buf < 2 ^ 20 - 2 ->
  has_bytes td 0 topic -> 0 <= size <= Zlen pd -> size + 16 < 2 ^ 32 ->
  Zlen topic < 65536 -> publish_len qos topic size - size = Zlen (publish_var pkt_id qos topic) ->
  same_chain buf buf0 ->
  buf_own om m buf (pending e1 (Zlen b1) (splice d1 0 b1) ++
                    chain_cells xs Null ++ tp ↦ td :: pp ↦ pd :: L) ->
  (forall m' buf', brep om m' buf' xs (tp ↦ td :: pp ↦ pd :: L) -> oom_seen om ->
     Q (MQTTERR_OUTOFMEMORY, buf') m') ->
  (forall m' buf' ys pl,
     brep om m' buf' (xs ++ ys) (if own then pp ↦ pd :: tp ↦ td :: L else tp ↦ td :: L) ->
     chain_bytes ys = b1 ++ bytes (publish_var pkt_id qos topic) ++ pl ->
     pl = take (Z.to_nat size) pd \/ (pl = [] /\ oom_seen om) ->
     buffered_bytes buf' = u32 (buffered_bytes buf0 + Zlen (chain_bytes ys)) ->
     (size = 0 -> exists x1 x2, ys = [x1; x2] /\ xt_bytes x1 = b1) ->
     Q (MQTTERR_NOERROR, buf') m') ->
  wp ('(variable_head, buf) ← MqttBuffer_AllocExtent buf (u32 (publish_len qos topic size - size));
      if is_null variable_head then mret (MQTTERR_OUTOFMEMORY, buf) else
      cursor ← get_payload variable_head;
      cursor ← Mqtt_PktWriteString cursor tp (u16 (Zlen topic));
      _ ← (if negb (qos =? MQTT_QOS_LEVEL0) then Mqtt_WB16 pkt_id cursor else mret tt);
      buf ← MqttBuffer_AppendExtent buf e1;
      buf ← MqttBuffer_AppendExtent buf variable_head;
      '(_, buf) ← (if negb (size =? 0) then MqttBuffer_Append buf pp size own
                   else mret (MQTTERR_NOERROR, buf));
      mret (MQTTERR_NOERROR, buf)) m Q.
Proof.
  intros Hf0 Hl0 Hxs He1 Hb1 Hb1' Hc Ht Hs Hs' Htl Hvl (Hf & Hl & Hnb & Hcc) Hown Hfail HQ.
  set (b2 := bytes (publish_var pkt_id qos topic)) in *.
  assert (Zlen b2 = Zlen (publish_var pkt_id qos topic)) as Hb2 by apply Zlen_bytes.
  pose proof (Zlen_nonneg topic). pose proof (Zlen_publish_var pkt_id qos topic) as Hpv.
  assert (Zlen b2 < 2 ^ 20) by (destruct (qos =? 0); lia). pose proof (Zlen_nonneg b2).
  rewrite Hvl, <-Hb2, (u32_small (Zlen b2)) by lia. wp_bind.
  pose proof (ext_cap_bounds (Zlen b2)).
  eapply wp_AllocExtent; [exact Hown|lia|lia|lia| |].
  { intros m' buf' Hown' (? & ? & ? & ?) Hom. wp_ret. apply Hfail; [|done].
    split; [congruence..|done|]. eapply buf_own_sub; [|exact Hown']. unfold pending. simpl.
    solve_submseteq. }
  clear m Hown. intros e2 m buf2 d2 He2 Hd2 (Hf2 & Hl2 & Hnb2 & Hc2) Hown.
  rewrite is_null_ne by done.
  apply buf_own_open in Hown as (R & Ho & Hclose). unfold hdr_cells in Ho. wp_bind.
  eapply wp_get_payload; [exact Ho|perm_find|].
  eapply (wp_publish_var _ _ (padd e2 12) d2 tp td topic pkt_id qos _ _ _ Ho);
    [cbn [app]; perm_find2|done|done|lia|].
  clear m Ho. intros m Ho.
  eapply (wp_append_two _ _ xs e1 b1 d1 e2 b2 d2 pp pd size own (tp ↦ td :: L));
    [congruence|congruence|done|done|done|done|lia|lia|lia|lia|lia|lia| |].
  - apply Hclose. eapply owns_perm; [|exact Ho]. unfold pending, hdr_cells. simpl.
    solve_Permutation.
  - intros m' buf' ys pl Hbr' Hys Hpl Hn' Hz. eapply HQ; [exact Hbr'|exact Hys|done|congruence|done].
Qed.

Lemma wp_PackPublishPkt buf m xs pkt_id tp td topic pp pd size qos (retain own : bool) L
    (Q : Z * MqttBuffer -> mem -> Prop) :
  brep om m buf xs (tp ↦ td :: pp ↦ pd :: L) -> alloc_count buf < 2 ^ 20 - 3 -> pkt_id <> 0 ->
  cstring td 0 topic -> ascii_string topic -> topic_name topic = true -> Zlen topic < 65536 ->
  0 <= size <= Zlen pd -> publish_len qos topic size < 128 ^ 4 -> 0 <= qos <= 2 ->
  (forall m' buf', brep om m' buf' xs (tp ↦ td :: pp ↦ pd :: L) -> oom_seen om ->
     Q (MQTTERR_OUTOFMEMORY, buf') m') ->
  (forall m' buf' ys pl,
     brep om m' buf' (xs ++ ys) (if own then pp ↦ pd :: tp ↦ td :: L else tp ↦ td :: L) ->
     chain_bytes ys = bytes (publish_header retain pkt_id qos topic size) ++ pl ->
     pl = take (Z.to_nat size) pd \/ (pl = [] /\ oom_seen om) ->
     buffered_bytes buf' = u32 (buffered_bytes buf + Zlen (chain_bytes ys)) ->
     (size = 0 -> exists x1 x2, ys = [x1; x2] /\ xt_bytes x1 =
        bytes (publish_head retain qos :: enc_length 4 (publish_len qos topic size))) ->
     Q (MQTTERR_NOERROR, buf') m') ->
  wp (Mqtt_PackPublishPkt buf pkt_id tp pp size qos retain own) m Q.
Proof.
  intros Hbr Hc Hid Ht Ha Hn Htl Hs Hpl Hq Hfail HQ. unfold Mqtt_PackPublishPkt.
  pose proof (Zlen_nonneg topic). pose proof Hpl as Hpl'. unfold publish_len in Hpl'.
  destruct (Z.eqb_spec pkt_id 0); [done|].
  eapply wp_publish_checks; [exact Hbr|done..|lia|reflexivity|]. cbv beta.
  rewrite (u32_small (Zlen topic)), Z.eqb_refl by lia. cbn [negb]. wp_bind.
  destruct Hbr as [Hf Hl Hxs Hown].
  eapply wp_AllocExtent; [exact Hown|lia|done|done| |].
  { intros m' buf' Hown' (? & ? & ? & ?) Hom. wp_ret. apply Hfail; [|done]. split; congruence. }
  clear m Hown. intros e1 m buf1 d1 He1 Hd1 (Hf1 & Hl1 & Hb1 & Hc1) Hown.
  change (ext_cap 5) with 8 in Hd1. rewrite is_null_ne by done.
  apply buf_own_open in Hown as (R & Ho & Hclose). unfold hdr_cells in Ho. wp_bind.
  eapply wp_put_payload; [exact Ho|perm_find2|lia|]. clear m Ho. intros m Ho. wp_bind.
  eapply (wp_or_if retain); [exact Ho|reflexivity|lia|]. clear m Ho. intros m Ho.
  destruct ((qos =? MQTT_QOS_LEVEL0) || _ || _) eqn:Hqq;
    [|unfold MQTT_QOS_LEVEL0, MQTT_QOS_LEVEL1, MQTT_QOS_LEVEL2 in Hqq; lia].
  cbn [negb]. clear Hqq. wp_bind.
  eapply (wp_or_if (negb (qos =? MQTT_QOS_LEVEL0))); [exact Ho|reflexivity|lia|].
  clear m Ho. intros m Ho. change (u8 (Z.shiftl MQTT_PKT_PUBLISH 4)) with 48 in Ho.
  rewrite publish_head_or in Ho by done. rewrite publish_len_u32 by (done || lia).
  eapply wp_fixed_header_len; [exact Ho|cbn [app];
    eapply perm_find_2; [perm_find|reflexivity]|lia|split; [|done]|].
  { unfold publish_len. destruct (qos =? 0); lia. }
  clear m Ho. intros m Ho. cbn [app] in Ho.
  set (h := publish_head retain qos) in *.
  set (b1 := bytes (h :: enc_length 4 (publish_len qos topic size))) in *.
  assert (0 <= publish_len qos topic size < 128 ^ 4) as Hpr
    by (unfold publish_len in *; destruct (qos =? 0); lia).
  pose proof (enc_length_bounds _ Hpr) as Hel.
  assert (Zlen b1 = 1 + Zlen (enc_length 4 (publish_len qos topic size))) as Hb1l
    by (unfold b1; by rewrite Zlen_bytes, Zlen_cons).
  eapply (wp_publish_tail buf buf1 m xs e1 b1 d1 pkt_id tp td topic pp pd size qos own L);
    [done|done|done|done|lia|lia|lia|by eapply has_bytes_app, Ht|done| |done| | | | |].
  - destruct (qos =? 0); lia.
  - unfold publish_len in *. rewrite Zlen_publish_var. destruct (qos =? 0); lia.
  - unfold same_chain. split_and!; done || lia.
  - apply Hclose. eapply owns_perm; [|exact Ho]. rewrite Hb1l. unfold pending, hdr_cells.
    simpl. solve_Permutation.
  - exact Hfail.
  - intros m' buf' ys pl Hbr' Hys. apply HQ; [done|]. rewrite Hys. unfold b1, publish_header.
    by rewrite app_comm_cons, bytes_app, <-(assoc_L (++)).
Qed.
End publish.

(** ** Subscribe and unsubscribe *)

(** A topic filter and where it is stored. *)
Record topic_at := Topic { t_ptr : ptr; t_data : list memval; t_text : list Z }.

Definition topic_ok (t : topic_at) : Prop :=
  t_ptr t <> Null /\ cstring (t_data t) 0 (t_text t) /\ ascii_string (t_text t) /\
  Zlen (t_text t) < 65536.

Definition topic_cells (ts : list topic_at) : list cell := map (fun t => t_ptr t ↦ t_data t) ts.

(** The array of pointers that is passed to the functions. *)
Definition topic_array (ts : list topic_at) : list memval := ts ≫= (fun t => enc_ptr (t_ptr t)).

(** A topic filter as it is written: with the requested QoS in a subscribe
    packet, without in an unsubscribe packet. *)
Definition enc_filter (qos : option Z) (s : list Z) : list Z :=
  enc_string s ++ match qos with Some q => [q] | None => [] end.

Definition enc_filters (qos : option Z) (ts : list topic_at) : list Z :=
  ts ≫= (fun t => enc_filter qos (t_text t)).

Definition topics_total (ts : list topic_at) : Z := Zlen (ts ≫= t_text).

Lemma Zlen_enc_filters qos ts : Zlen (enc_filters qos ts) =
  topics_total ts + (2 + match qos with Some _ => 1 | None => 0 end) * Zlen ts.
Proof.
  unfold topics_total. induction ts as [|t ts IH]; [by destruct qos|].
  change (enc_filters qos (t :: ts)) with (enc_filter qos (t_text t) ++ enc_filters qos ts).
  change ((t :: ts) ≫= t_text) with (t_text t ++ (ts ≫= t_text)).
  rewrite Zlen_app, IH. unfold enc_filter.
  rewrite !Zlen_app, Zlen_enc_string, Zlen_cons. destruct qos; zlen; lia.
Qed.

Section topics.
Context (om : nat -> bool).

Lemma length_topic_array ts : length (topic_array ts) = (4 * length ts)%nat.
Proof.
  induction ts as [|t ts IH]; [done|].
  change (topic_array (t :: ts)) with (enc_ptr (t_ptr t) ++ topic_array ts).
  rewrite length_app, length_enc_ptr, IH. simpl. lia.
Qed.

(** Element [i] of the array. *)
Lemma wp_load_topic m L ap ts1 t ts2 L0 i (Q : ptr -> mem -> Prop) :
  owns om m L -> L ≡ₚ ap ↦ topic_array (ts1 ++ t :: ts2) :: L0 -> i = Zlen ts1 ->
  Q (t_ptr t) m -> wp (load_ptr (padd ap (sizeof_ptr * i))) m Q.
Proof.
  intros Ho HL -> HQ. rewrite HL in Ho. unfold topic_array in Ho. rewrite bind_app in Ho.
  rewrite owns_split in Ho. simpl in Ho. rewrite Permutation_swap, owns_split in Ho.
  eapply wp_load_ptr; [exact Ho| |exact HQ].
  replace (sizeof_ptr * Zlen ts1) with (Zlen (topic_array ts1)); [reflexivity|].
  unfold Zlen, sizeof_ptr. rewrite length_topic_array. lia.
Qed.

Lemma topic_cells_find (ts1 ts2 : list topic_at) t L0 :
  topic_cells (ts1 ++ t :: ts2) ++ L0 ≡ₚ
    t_ptr t ↦ t_data t :: (topic_cells ts1 ++ topic_cells ts2 ++ L0).
Proof. unfold topic_cells. rewrite map_app. simpl. solve_Permutation. Qed.

Lemma wp_check_topics ts2 ts1 m L ap total L0 (Q : Z * Z -> mem -> Prop) :
  owns om m L -> L ≡ₚ ap ↦ topic_array (ts1 ++ ts2) :: topic_cells (ts1 ++ ts2) ++ L0 ->
  Forall topic_ok ts2 -> 0 <= total -> total + topics_total ts2 < 2 ^ 32 ->
  Q (MQTTERR_NOERROR, total + topics_total ts2) m ->
  wp (Mqtt_check_topics (length ts2) ap (Zlen ts1) total) m Q.
Proof.
  intros Ho. revert ts1 total. induction ts2 as [|t ts2 IH]; intros ts1 total HL Hok Ht Hb HQ.
  { simpl. wp_ret. unfold topics_total in HQ. simpl in HQ. by rewrite Z.add_0_r in HQ. }
  simpl. apply Forall_cons in Hok as [(Hn & Hs & Ha & Hl) Hok].
  assert (topics_total (t :: ts2) = Zlen (t_text t) + topics_total ts2) as Htt
    by (unfold topics_total; simpl; apply Zlen_app).
  pose proof (Zlen_nonneg (t_text t)). pose proof (Zlen_nonneg (ts2 ≫= t_text)).
  unfold topics_total in Htt, Hb, HQ, IH. rewrite Htt in Hb, HQ.
  assert (exists L1, L ≡ₚ t_ptr t ↦ t_data t :: L1) as [L1 HL1].
  { eexists. rewrite HL, topic_cells_find. apply Permutation_swap. }
  wp_bind. eapply wp_load_topic; [exact Ho|exact HL|done|].
  rewrite is_null_ne by done. wp_bind.
  eapply (wp_strlen _ _ _ (t_ptr t) (t_data t) 0 (t_text t));
    [exact Ho|exact HL1|done|done|by rewrite padd_0|]. wp_bind.
  eapply (wp_CheckUtf8 _ _ _ (t_ptr t) (t_data t) 0 (t_text t ++ [0]));
    [exact Ho|exact HL1|done|apply Hs|by zlen|by rewrite padd_0|].
  rewrite check_utf8_ascii, (u32_small (Zlen _)), Z.eqb_refl by (done || lia). cbn [negb].
  rewrite (u32_small (total + _)) by lia.
  replace (Zlen ts1 + 1) with (Zlen (ts1 ++ [t])) by (by zlen).
  apply IH; rewrite <-?(assoc_L (++)); [done|done|lia|lia|]. by rewrite <-Z.add_assoc.
Qed.

Lemma wp_write_topics ts2 ts1 m L ap p d k qos L0 (Q : unit -> mem -> Prop) :
  owns om m L -> L ≡ₚ p ↦ d :: ap ↦ topic_array (ts1 ++ ts2) :: topic_cells (ts1 ++ ts2) ++ L0 ->
  Forall topic_ok ts2 -> 0 <= k -> k + Zlen (enc_filters qos ts2) <= Zlen d ->
  (match qos with Some q => 0 <= q < 256 | None => True end) ->
  (forall m', owns om m' (p ↦ (splice d k (bytes (enc_filters qos ts2))) ::
     ap ↦ topic_array (ts1 ++ ts2) :: topic_cells (ts1 ++ ts2) ++ L0) -> Q tt m') ->
  wp (Mqtt_write_topics (length ts2) ap (Zlen ts1) qos (padd p k)) m Q.
Proof.
  revert ts1 m L d k. induction ts2 as [|t ts2 IH]; intros ts1 m L d k Ho HL Hok Hk Hd Hq HQ.
  { simpl. wp_ret. apply HQ. rewrite HL in Ho. simpl.
    unfold splice. simpl. by rewrite Nat.add_0_r, take_drop. }
  simpl. apply Forall_cons in Hok as [(Hn & Hs & Ha & Hl) Hok].
  change (enc_filters qos (t :: ts2)) with (enc_filter qos (t_text t) ++ enc_filters qos ts2) in *.
  rewrite Zlen_app in Hd. pose proof (Zlen_nonneg (t_text t)). pose proof (Zlen_nonneg (t_data t)).
  pose proof (Zlen_nonneg (enc_filters qos ts2)).
  assert (Zlen (enc_filter qos (t_text t)) =
    2 + Zlen (t_text t) + match qos with Some _ => 1 | None => 0 end) as Hfl.
  { unfold enc_filter. rewrite Zlen_app, Zlen_enc_string. by destruct qos. }
  assert (L ≡ₚ p ↦ d :: t_ptr t ↦ t_data t :: ap ↦ topic_array (ts1 ++ t :: ts2) ::
    topic_cells ts1 ++ topic_cells ts2 ++ L0) as HL1.
  { rewrite HL, topic_cells_find. constructor. apply Permutation_swap. }
  wp_bind. eapply wp_load_topic; [exact Ho| |done|]; [rewrite HL; apply Permutation_swap|].
  wp_bind. eapply (wp_strlen _ _ _ (t_ptr t) (t_data t) 0 (t_text t));
    [exact Ho|rewrite HL1; apply Permutation_swap|done|done|by rewrite padd_0|].
  rewrite u16_small by lia. wp_bind.
  eapply (wp_PktWriteString _ _ _ p d k (t_ptr t) (t_data t) 0 (t_text t));
    [exact Ho|exact HL1|done|done|by eapply has_bytes_app, Hs|done
    |destruct qos; lia|done|done|by rewrite padd_0|].
  clear m Ho. intros m Ho. wp_bind.
  eapply (wp_mono _ _ (fun c m' => c = padd p (k + Zlen (enc_filter qos (t_text t))) /\
    owns om m' (p ↦ (splice d k (bytes (enc_filter qos (t_text t)))) :: t_ptr t ↦ t_data t ::
      ap ↦ topic_array (ts1 ++ t :: ts2) :: topic_cells ts1 ++ topic_cells ts2 ++ L0))).
  - destruct qos as [q|]; unfold enc_filter in *.
    + rewrite bytes_app, <-splice_app by (rewrite ?Zlen_bytes, ?Zlen_enc_string; lia).
      unfold Mqtt_WB8. rewrite u8_small by done. wp_bind.
      assert (Zlen (splice d k (bytes (enc_string (t_text t)))) = Zlen d) as Hsl
        by (apply Zlen_splice; rewrite ?Zlen_bytes, ?Zlen_enc_string; lia).
      eapply wp_store_byte; [exact Ho|perm_find|done|rewrite Zlen_enc_string in *; lia|].
      clear m Ho. intros m Ho. wp_ret. split; [by rewrite padd_padd, Zlen_app, Z.add_assoc|].
      by rewrite Zlen_bytes.
    + wp_ret. by rewrite app_nil_r.
  - clear m Ho. intros c m [-> Ho].
    replace (Zlen ts1 + 1) with (Zlen (ts1 ++ [t])) by (by zlen).
    assert (Zlen (splice d k (bytes (enc_filter qos (t_text t)))) = Zlen d) as Hsl
      by (apply Zlen_splice; rewrite ?Zlen_bytes; destruct qos; lia).
    eapply (IH _ m _ (splice d k (bytes (enc_filter qos (t_text t)))));
      [exact Ho| |done|destruct qos; lia|lia|done|]; rewrite <-?(assoc_L (++)).
    { cbn [app]. constructor. rewrite topic_cells_find. apply Permutation_swap. }
    intros m' Ho'. apply HQ. cbn [app] in Ho'.
    rewrite <-(Zlen_bytes (enc_filter _ _)), splice_app, <-bytes_app in Ho'
      by (rewrite ?Zlen_bytes; destruct qos; lia). done.
Qed.
End topics.

(** The packets of the standard, sections 3.8 and 3.10, with the first byte
    that the source writes. *)
Definition filters_len (qos : option Z) (ts : list topic_at) : Z := 2 + Zlen (enc_filters qos ts).

Definition filters_packet (head pkt_id : Z) (qos : option Z) (ts : list topic_at) : list Z :=
  (head :: enc_length 4 (filters_len qos ts)) ++ be16 pkt_id ++ enc_filters qos ts.

Section subscribe.
Context (om : nat -> bool).

(** The variable header and the topics, and the two appends. *)
Lemma wp_filters_tail buf m xs e1 b1 d1 e2 d2 pkt_id qos ts ap L (Q : Z * MqttBuffer -> mem -> Prop) :
  first_ext buf = head_ptr xs Null -> last_ext buf = last_ptr xs -> Forall xt_ok xs ->
  e1 <> Null -> e2 <> Null -> Zlen b1 <= Zlen d1 -> Zlen b1 < 2 ^ 32 ->
  filters_len qos ts <= Zlen d2 -> filters_len qos ts < 2 ^ 32 -> Forall topic_ok ts ->
  (match qos with Some q => 0 <= q < 256 | None => True end) ->
  buf_own om m buf (pending e1 (Zlen b1) (splice d1 0 b1) ++ pending e2 (filters_len qos ts) d2
                    ++ chain_cells xs Null ++ ap ↦ topic_array ts :: topic_cells ts ++ L) ->
  (forall m' buf' x1 x2,
     brep om m' buf' (xs ++ [x1; x2]) (ap ↦ topic_array ts :: topic_cells ts ++ L) ->
     xt_bytes x1 = b1 -> xt_bytes x2 = bytes (be16 pkt_id ++ enc_filters qos ts) ->
     x_data x1 = splice d1 0 b1 ->
     buffered_bytes buf' = u32 (buffered_bytes buf + (Zlen b1 + filters_len qos ts)) ->
     Q (MQTTERR_NOERROR, buf') m') ->
  wp (cursor ← get_payload e2;
      _ ← Mqtt_WB16 pkt_id cursor;
      _ ← Mqtt_write_topics (length ts) ap 0 qos (padd cursor 2);
      buf ← MqttBuffer_AppendExtent buf e1;
      buf ← MqttBuffer_AppendExtent buf e2;
      mret (MQTTERR_NOERROR, buf)) m Q.
Proof.
  intros Hf Hl Hxs He1 He2 Hb1 Hb1' Hd2 Hfl Hok Hq Hown HQ.
  set (b2 := bytes (be16 pkt_id ++ enc_filters qos ts)) in *.
  assert (Zlen b2 = filters_len qos ts) as Hb2 by (unfold b2; by rewrite Zlen_bytes, Zlen_app).
  pose proof Hd2 as Hd2'. unfold filters_len in Hd2'. pose proof (Zlen_nonneg (enc_filters qos ts)).
  apply buf_own_open in Hown as (R & Ho & Hclose). unfold pending, hdr_cells in Ho. wp_bind.
  eapply wp_get_payload; [exact Ho|perm_find|]. wp_bind.
  eapply (wp_WB16 _ _ _ (padd e2 12) d2 0);
    [exact Ho|perm_find|done|lia|by rewrite padd_0|]. clear m Ho. intros m Ho. wp_bind.
  assert (Zlen (splice d2 0 (bytes (be16 pkt_id))) = Zlen d2) as Hs2
    by (apply Zlen_splice; [done|change (Zlen (bytes (be16 pkt_id))) with 2; lia]).
  eapply (wp_write_topics _ ts [] m _ ap (padd e2 12) (splice d2 0 (bytes (be16 pkt_id))) 2 _
    (pending e1 (Zlen b1) (splice d1 0 b1) ++ hdr_cells e2 (filters_len qos ts) (padd e2 12) Null
     ++ chain_cells xs Null ++ L ++ R));
    [exact Ho|unfold pending, hdr_cells; simpl; solve_Permutation|done|done|lia|done|].
  clear m Ho. intros m Ho. cbn [app] in Ho.
  change 2 with (0 + Zlen (bytes (be16 pkt_id))) in Ho.
  rewrite splice_app, <-bytes_app in Ho by (change (Zlen (bytes (be16 pkt_id))) with 2; lia).
  fold b2 in Ho.
  eapply (wp_append_pair om buf m xs e1 b1 d1 e2 b2 d2 (ap ↦ topic_array ts :: topic_cells ts ++ L));
    [done..|lia|lia|lia| |].
  - apply Hclose. eapply owns_perm; [|exact Ho]. unfold pending, hdr_cells. rewrite Hb2. simpl.
    solve_Permutation.
  - intros m' buf' x1 x2 Hbr Hx1 Hx2 Hxd _ Hn. wp_ret.
    eapply HQ; [exact Hbr|done|done|done|by rewrite Hn, Hb2].
Qed.

Lemma filters_len_sum qos ts : filters_len qos ts =
  2 + (2 + match qos with Some _ => 1 | None => 0 end) * Zlen ts + topics_total ts.
Proof. unfold filters_len. rewrite Zlen_enc_filters. lia. Qed.

(** The topics are checked on a buffer that owns them. *)
Lemma wp_buf_check_topics buf m xs ap ts L (Q : Z * Z -> mem -> Prop) :
  brep om m buf xs (ap ↦ topic_array ts :: topic_cells ts ++ L) -> Forall topic_ok ts ->
  topics_total ts < 2 ^ 32 -> Q (MQTTERR_NOERROR, topics_total ts) m ->
  wp (Mqtt_check_topics (length ts) ap 0 0) m Q.
Proof.
  intros [_ _ _ Hown] Hok Htt HQ. apply buf_own_open in Hown as (R & Ho & _).
  eapply (wp_check_topics om ts [] m _ ap 0 (chain_cells xs Null ++ L ++ R));
    [exact Ho|simpl; solve_Permutation|done..].
Qed.

(** The extent of the fixed header and its first byte. *)
Lemma wp_alloc_head buf m xs head L (k : ptr -> MqttBuffer -> M mem (Z * MqttBuffer)) Q :
  brep om m buf xs L -> alloc_count buf < 2 ^ 20 ->
  (forall m' buf', brep om m' buf' xs L -> oom_seen om -> Q (MQTTERR_OUTOFMEMORY, buf') m') ->
  (forall e m' buf1 d, e <> Null -> Zlen d = 8 -> same_chain buf1 buf ->
     buf_own om m' buf1 (pending e 5 (splice d 0 [Byte (u8 head)]) ++ chain_cells xs Null ++ L) ->
     wp (k e buf1) m' Q) ->
  wp ('(e, buf) ← MqttBuffer_AllocExtent buf 5;
      if is_null e then mret (MQTTERR_OUTOFMEMORY, buf) else
      _ ← put_payload e 0 head; k e buf) m Q.
Proof.
  intros [Hf Hl Hxs Hown] Hc Hfail HQ. wp_bind.
  eapply wp_AllocExtent; [exact Hown|lia|done|done| |].
  { intros m' buf' Hown' (? & ? & ? & ?) Hom. wp_ret. apply Hfail; [|done]. split; congruence. }
  clear m Hown. intros e m buf1 d He Hd Hsame Hown. rewrite is_null_ne by done.
  apply buf_own_open in Hown as (R & Ho & Hclose). unfold hdr_cells in Ho. wp_bind.
  eapply wp_put_payload; [exact Ho|perm_find2|rewrite Hd; done|]. clear m Ho. intros m Ho.
  eapply HQ; [done|exact Hd|done|]. apply Hclose. eapply owns_perm; [|exact Ho].
  unfold pending, hdr_cells. simpl. solve_Permutation.
Qed.

(** Giving up a pending extent: the chain is as it was. *)
Lemma brep_abandon buf0 buf m xs e n d L :
  first_ext buf = head_ptr xs Null -> last_ext buf = last_ptr xs -> Forall xt_ok xs ->
  same_chain buf0 buf -> buf_own om m buf0 (pending e n d ++ chain_cells xs Null ++ L) ->
  brep om m buf0 xs L.
Proof.
  intros Hf Hl Hxs (? & ? & _) Hown. split; [congruence..|done|].
  eapply buf_own_sub; [|exact Hown]. unfold pending. simpl. solve_submseteq.
Qed.

Lemma wp_PackSubscribePkt buf m xs pkt_id qos ap ts L (Q : Z * MqttBuffer -> mem -> Prop) :
  brep om m buf xs (ap ↦ topic_array ts :: topic_cells ts ++ L) -> alloc_count buf < 2 ^ 20 - 3 ->
  pkt_id <> 0 -> Forall topic_ok ts -> 0 <= qos < 256 -> filters_len (Some qos) ts < 128 ^ 4 ->
  (forall m' buf', brep om m' buf' xs (ap ↦ topic_array ts :: topic_cells ts ++ L) ->
     oom_seen om -> Q (MQTTERR_OUTOFMEMORY, buf') m') ->
  (forall m' buf' x1 x2 d1,
     brep om m' buf' (xs ++ [x1; x2]) (ap ↦ topic_array ts :: topic_cells ts ++ L) ->
     xt_bytes x1 = bytes (128 :: enc_length 4 (filters_len (Some qos) ts)) ->
     xt_bytes x2 = bytes (be16 pkt_id ++ enc_filters (Some qos) ts) ->
     x_data x1 = splice d1 0 (bytes (128 :: enc_length 4 (filters_len (Some qos) ts))) ->
     buffered_bytes buf' = u32 (buffered_bytes buf +
       (1 + Zlen (enc_length 4 (filters_len (Some qos) ts)) + filters_len (Some qos) ts)) ->
     Q (MQTTERR_NOERROR, buf') m') ->
  wp (Mqtt_PackSubscribePkt buf pkt_id qos ap (Zlen ts)) m Q.
Proof.
  intros Hbr Hc Hid Hok Hq Hfl Hfail HQ. unfold Mqtt_PackSubscribePkt.
  destruct (Z.eqb_spec pkt_id 0); [done|].
  replace (Z.to_nat (Zlen ts)) with (length ts) by (unfold Zlen; lia).
  pose proof (filters_len_sum (Some qos) ts) as Hsum. cbn match in Hsum.
  pose proof (Zlen_nonneg ts). pose proof (Zlen_nonneg (ts ≫= t_text)) as Htt.
  change (Zlen (ts ≫= t_text)) with (topics_total ts) in Htt. set (fl := filters_len (Some qos) ts) in *.
  wp_bind. eapply wp_buf_check_topics; [exact Hbr|done|lia|]. cbn [negb Z.eqb].
  change (MQTTERR_NOERROR =? MQTTERR_NOERROR) with true. cbn [negb].
  replace (u32 (2 + 2 * Zlen ts + topics_total ts + Zlen ts)) with fl
    by (rewrite u32_small; lia).
  pose proof Hbr as [Hf Hl Hxs _].
  eapply wp_alloc_head; [exact Hbr|lia|exact Hfail|].
  clear m Hbr. intros e1 m buf1 d1 He1 Hd1 (Hf1 & Hl1 & Hb1 & Hc1) Hown.
  change (u8 (Z.lor (Z.shiftl MQTT_PKT_SUBSCRIBE 4) 0)) with 128 in Hown. wp_bind.
  eapply wp_AllocExtent; [exact Hown|lia|lia|lia| |].
  { intros m' buf' Hown' Hsame Hom. wp_ret. apply Hfail; [|done].
    eapply (brep_abandon buf' buf1); [congruence..|done|done|exact Hown']. }
  clear m Hown. intros e2 m buf2 d2 He2 Hd2 (Hf2 & Hl2 & Hb2 & Hc2) Hown.
  rewrite is_null_ne by done. pose proof (ext_cap_bounds fl).
  apply buf_own_open in Hown as (R & Ho & Hclose). unfold pending, hdr_cells in Ho.
  eapply (wp_fixed_header_len om m _ e1 d1 128 5 fl _ _
    (padd e1 8 ↦ enc_ptr Null :: hdr_cells e2 fl (padd e2 12) Null ++ padd e2 12 ↦ d2 ::
     chain_cells xs Null ++ ap ↦ topic_array ts :: topic_cells ts ++ L ++ R));
    [exact Ho|unfold hdr_cells; simpl; solve_Permutation|lia|lia|].
  clear m Ho. intros m Ho. pose proof (enc_length_bounds fl ltac:(lia)).
  eapply (wp_filters_tail buf2 m xs e1 (bytes (128 :: enc_length 4 fl)) d1 e2 d2 pkt_id (Some (u8 qos)) ts ap L);
    rewrite ?u8_small by done; [congruence|congruence|done..| | | | |done|done| |]; fold fl;
    rewrite ?Zlen_bytes, ?Zlen_cons; [lia..| |].
  - apply Hclose. eapply owns_perm; [|exact Ho]. unfold pending, hdr_cells.
    simpl. solve_Permutation.
  - intros m' buf' x1 x2 Hbr Hx1 Hx2 Hxd Hn.
    eapply HQ; [exact Hbr|done|done|exact Hxd|]. by rewrite Hn, Hb2, Hb1.
Qed.

Lemma wp_PackUnsubscribePkt buf m xs pkt_id ap ts L (Q : Z * MqttBuffer -> mem -> Prop) :
  brep om m buf xs (ap ↦ topic_array ts :: topic_cells ts ++ L) -> alloc_count buf < 2 ^ 20 - 3 ->
  pkt_id <> 0 -> Forall topic_ok ts -> filters_len None ts < 128 ^ 4 ->
  (forall m' buf', brep om m' buf' xs (ap ↦ topic_array ts :: topic_cells ts ++ L) ->
     oom_seen om -> Q (MQTTERR_OUTOFMEMORY, buf') m') ->
  (forall m' buf' x1 x2 d1,
     brep om m' buf' (xs ++ [x1; x2]) (ap ↦ topic_array ts :: topic_cells ts ++ L) ->
     xt_bytes x1 = bytes (160 :: enc_length 4 (filters_len None ts)) ->
     xt_bytes x2 = bytes (be16 pkt_id ++ enc_filters None ts) ->
     x_data x1 = splice d1 0 (bytes (160 :: enc_length 4 (filters_len None ts))) ->
     buffered_bytes buf' = u32 (buffered_bytes buf +
       (1 + Zlen (enc_length 4 (filters_len None ts)) + filters_len None ts)) ->
     Q (MQTTERR_NOERROR, buf') m') ->
  wp (Mqtt_PackUnsubscribePkt buf pkt_id ap (Zlen ts)) m Q.
Proof.
  intros Hbr Hc Hid Hok Hfl Hfail HQ. unfold Mqtt_PackUnsubscribePkt.
  destruct (Z.eqb_spec pkt_id 0); [done|].
  replace (Z.to_nat (Zlen ts)) with (length ts) by (unfold Zlen; lia).
  pose proof (filters_len_sum None ts) as Hsum. cbn match in Hsum.
  pose proof (Zlen_nonneg ts). pose proof (Zlen_nonneg (ts ≫= t_text)) as Htt.
  change (Zlen (ts ≫= t_text)) with (topics_total ts) in Htt. set (fl := filters_len None ts) in *.
  wp_bind. eapply wp_buf_check_topics; [exact Hbr|done|lia|].
  change (MQTTERR_NOERROR =? MQTTERR_NOERROR) with true. cbn [negb].
  replace (u32 (2 + 2 * Zlen ts + topics_total ts)) with fl by (rewrite u32_small; lia).
  pose proof Hbr as [Hf Hl Hxs _].
  eapply wp_alloc_head; [exact Hbr|lia|exact Hfail|].
  clear m Hbr. intros e1 m buf1 d1 He1 Hd1 Hsame1 Hown. pose proof Hsame1 as (Hf1 & Hl1 & Hb1 & Hc1).
  change (u8 (Z.lor (Z.shiftl MQTT_PKT_UNSUBSCRIBE 4) 0)) with 160 in Hown.
  apply buf_own_open in Hown as (R & Ho & Hclose). unfold pending, hdr_cells in Ho.
  eapply (wp_fixed_header_len om m _ e1 d1 160 5 fl _ _
    (padd e1 8 ↦ enc_ptr Null :: chain_cells xs Null ++ ap ↦ topic_array ts ::
     topic_cells ts ++ L ++ R)); [exact Ho|simpl; solve_Permutation|lia|lia|].
  clear m Ho. intros m Ho. pose proof (enc_length_bounds fl ltac:(lia)).
  set (b1 := bytes (160 :: enc_length 4 fl)) in *.
  assert (Zlen b1 = 1 + Zlen (enc_length 4 fl)) as Hb1l by (unfold b1; by rewrite Zlen_bytes, Zlen_cons).
  assert (buf_own om m buf1 (pending e1 (Zlen b1) (splice d1 0 b1) ++ chain_cells xs Null ++
    ap ↦ topic_array ts :: topic_cells ts ++ L)) as Hown.
  { apply Hclose. eapply owns_perm; [|exact Ho]. rewrite Hb1l. unfold pending, hdr_cells. simpl.
    solve_Permutation. }
  clear R Ho Hclose. wp_bind. eapply wp_AllocExtent; [exact Hown|lia|lia|lia| |].
  { intros m' buf' Hown' Hsame Hom. wp_ret. apply Hfail; [|done].
    eapply (brep_abandon buf' buf1); [congruence..|done|done|exact Hown']. }
  clear m Hown. intros e2 m buf2 d2 He2 Hd2 (Hf2 & Hl2 & Hb2 & Hc2) Hown.
  rewrite is_null_ne by done. pose proof (ext_cap_bounds fl).
  eapply (wp_filters_tail buf2 m xs e1 b1 d1 e2 d2 pkt_id None ts ap L);
    [congruence|congruence|done..|lia|lia|fold fl; lia|fold fl; lia|done|done| |].
  - eapply buf_own_perm; [|exact Hown]. unfold pending. simpl. solve_Permutation.
  - intros m' buf' x1 x2 Hbr Hx1 Hx2 Hxd Hn.
    eapply HQ; [exact Hbr|done|done|exact Hxd|]. by rewrite Hn, Hb2, Hb1, Hb1l.
Qed.
End subscribe.

(** ** Properties *)

(** C38: a successful Mqtt_PackPublishPkt appends the publish packet of the
    standard: first byte with the QoS and retain flags, remaining length,
    topic with its length, packet identifier above QoS 0, payload.  It
    reports OUTOFMEMORY only if an allocation failed, and then leaves the
    chain as it was; the one other outcome is the packet without its payload,
    when the last allocation failed. *)
Theorem PackPublish_bytes om m buf xs pkt_id tp td topic pp pd size qos retain own L :
  brep om m buf xs (tp ↦ td :: pp ↦ pd :: L) -> alloc_count buf < 2 ^ 20 - 3 -> pkt_id <> 0 ->
  cstring td 0 topic -> ascii_string topic -> topic_name topic = true -> Zlen topic < 65536 ->
  0 <= size <= Zlen pd -> publish_len qos topic size < 128 ^ 4 -> 0 <= qos <= 2 ->
  wp (Mqtt_PackPublishPkt buf pkt_id tp pp size qos retain own) m (fun r m' =>
    (r.1 = MQTTERR_OUTOFMEMORY /\ oom_seen om /\ brep om m' r.2 xs (tp ↦ td :: pp ↦ pd :: L)) \/
    (r.1 = MQTTERR_NOERROR /\ exists ys pl,
       brep om m' r.2 (xs ++ ys) (if own then pp ↦ pd :: tp ↦ td :: L else tp ↦ td :: L) /\
       chain_bytes ys = bytes (publish_header retain pkt_id qos topic size) ++ pl /\
       (pl = take (Z.to_nat size) pd \/ (pl = [] /\ oom_seen om)) /\
       buffered_bytes r.2 = u32 (buffered_bytes buf + Zlen (chain_bytes ys)))).
Proof.
  intros Hbr Hc Hid Ht Ha Hn Hl Hs Hpl Hq.
  eapply wp_PackPublishPkt; [exact Hbr|done..| |].
  - intros m' buf' Hbr' Hoom. by left.
  - intros m' buf' ys pl Hbr' Hys Hpl' Hn' _. right. split; [done|]. by exists ys, pl.
Qed.

Lemma PackPublish_bytes_witness :
  wp (Mqtt_PackPublishPkt MqttBuffer_Init 7 (Ptr 0 0) (Ptr 1 0) 2 1 false true)
     (mem_two never_oom (bytes [97; 0]) (bytes [1; 2])) (fun r m' =>
    (r.1 = MQTTERR_OUTOFMEMORY /\ oom_seen never_oom /\
       brep never_oom m' r.2 [] [Ptr 0 0 ↦ bytes [97; 0]; Ptr 1 0 ↦ bytes [1; 2]]) \/
    (r.1 = MQTTERR_NOERROR /\ exists ys pl,
       brep never_oom m' r.2 ([] ++ ys) [Ptr 1 0 ↦ bytes [1; 2]; Ptr 0 0 ↦ bytes [97; 0]] /\
       chain_bytes ys = bytes (publish_header false 7 1 [97] 2) ++ pl /\
       (pl = take (Z.to_nat 2) (bytes [1; 2]) \/ (pl = [] /\ oom_seen never_oom)) /\
       buffered_bytes r.2 = u32 (0 + Zlen (chain_bytes ys)))).
Proof.
  apply (PackPublish_bytes never_oom _ MqttBuffer_Init [] 7 (Ptr 0 0) (bytes [97; 0]) [97]
           (Ptr 1 0) (bytes [1; 2]) 2 1 false true []).
  - apply brep_init, owns_two.
  - done.
  - done.
  - split; [by exists []|]. repeat constructor; lia.
  - repeat constructor; lia.
  - done.
  - done.
  - done.
  - done.
  - done.
Defined.

(** The result of the last MqttBuffer_Append is ignored: when the chunk for
    the payload cannot be allocated, the packet is reported as packed but its
    payload is missing, although its remaining length announces it. *)
Theorem PackPublish_lost_payload :
  let om n := Nat.leb 4 n in
  let m := mem_two om (bytes [97; 0]) (replicate 1100 (Byte 5)) in
  ('(r, buf) ← Mqtt_PackPublishPkt MqttBuffer_Init 7 (Ptr 0 0) (Ptr 1 0) 1100 0 false true;
   n1 ← get_len (first_ext buf);
   pay ← get_payload (first_ext buf);
   len ← Mqtt_ReadLength (padd pay 1) (n1 - 1);
   mret (r, len, buffered_bytes buf)) m ≫= (fun r => Some r.1)
  = Some (MQTTERR_NOERROR, (2, 1103), 6).
Proof. vm_compute. reflexivity. Qed.

(** The acknowledgements of a publish (PUBACK, PUBREC, PUBCOMP) append
    exactly four bytes: packet type, length 2, packet identifier; and report
    OUTOFMEMORY, with the chain unchanged, only if the allocation failed. *)
Theorem PackAck_bytes om m buf xs pkt_id L :
  brep om m buf xs L -> alloc_count buf < 2 ^ 20 -> pkt_id <> 0 ->
  Forall (fun '(pack, head) => wp (pack buf pkt_id) m (fun r m' =>
      (r.1 = MQTTERR_OUTOFMEMORY /\ oom_seen om /\ brep om m' r.2 xs L) \/
      (r.1 = MQTTERR_NOERROR /\ exists x, brep om m' r.2 (xs ++ [x]) L /\
         xt_bytes x = bytes (ack_packet head pkt_id) /\
         buffered_bytes r.2 = u32 (buffered_bytes buf + 4))))
    [(Mqtt_PackPubAckPkt, 0x40); (Mqtt_PackPubRecPkt, 0x50); (Mqtt_PackPubCompPkt, 0x70)].
Proof.
  intros Hbr Hc Hid. repeat constructor;
    (unfold Mqtt_PackPubAckPkt, Mqtt_PackPubRecPkt, Mqtt_PackPubCompPkt;
     destruct (Z.eqb_spec pkt_id 0); [done|]; eapply wp_pack_ack; [exact Hbr|done|done| |];
     [intros m' buf' Hbr' Hoom; by left
     |intros m' buf' x Hbr' Hx Hn; right; split; [done|by exists x]]).
Qed.

Lemma PackAck_bytes_witness :
  Forall (fun '(pack, head) => wp (pack MqttBuffer_Init 7) (mem_empty never_oom) (fun r m' =>
      (r.1 = MQTTERR_OUTOFMEMORY /\ oom_seen never_oom /\ brep never_oom m' r.2 [] []) \/
      (r.1 = MQTTERR_NOERROR /\ exists x, brep never_oom m' r.2 ([] ++ [x]) [] /\
         xt_bytes x = bytes (ack_packet head 7) /\
         buffered_bytes r.2 = u32 (0 + 4))))
    [(Mqtt_PackPubAckPkt, 0x40); (Mqtt_PackPubRecPkt, 0x50); (Mqtt_PackPubCompPkt, 0x70)].
Proof.
  apply (PackAck_bytes never_oom (mem_empty never_oom) MqttBuffer_Init [] 7 []).
  - apply brep_init, owns_empty.
  - done.
  - done.
Defined.

(** Mqtt_PackPubRelPkt does not test the extent it allocates: without
    memory, where its three siblings report OUTOFMEMORY, it writes through a
    null pointer; with memory it packs the four bytes of a PUBREL. *)
Theorem PackPubRel_unchecked :
  let none := mem_empty (fun _ => true) in
  Mqtt_PackPubRelPkt MqttBuffer_Init 7 none = None /\
  Forall (fun pack => (pack MqttBuffer_Init 7 none ≫= (fun r => Some r.1.1))
                      = Some MQTTERR_OUTOFMEMORY)
    [Mqtt_PackPubAckPkt; Mqtt_PackPubRecPkt; Mqtt_PackPubCompPkt] /\
  ('(r, buf) ← Mqtt_PackPubRelPkt MqttBuffer_Init 0x1234;
   pay ← get_payload (first_ext buf); l ← readn pay 4; mret (r, l)) (mem_empty never_oom)
     ≫= (fun r => Some r.1) = Some (MQTTERR_NOERROR, bytes [0x62; 2; 0x12; 0x34]).
Proof. split; [by vm_compute|]. split; [repeat constructor|]; by vm_compute. Qed.

(** A successful Mqtt_PackSubscribePkt appends a packet with the right
    remaining length, the packet identifier, and every topic filter in order
    with its length and the requested QoS; the first byte is 0x80. *)
Theorem PackSubscribe_bytes om m buf xs pkt_id qos ap ts L :
  brep om m buf xs (ap ↦ topic_array ts :: topic_cells ts ++ L) -> alloc_count buf < 2 ^ 20 - 3 ->
  pkt_id <> 0 -> Forall topic_ok ts -> 0 <= qos < 256 -> filters_len (Some qos) ts < 128 ^ 4 ->
  wp (Mqtt_PackSubscribePkt buf pkt_id qos ap (Zlen ts)) m (fun r m' =>
    (r.1 = MQTTERR_OUTOFMEMORY /\ oom_seen om /\
       brep om m' r.2 xs (ap ↦ topic_array ts :: topic_cells ts ++ L)) \/
    (r.1 = MQTTERR_NOERROR /\ exists ys,
       brep om m' r.2 (xs ++ ys) (ap ↦ topic_array ts :: topic_cells ts ++ L) /\
       chain_bytes ys = bytes (filters_packet 0x80 pkt_id (Some qos) ts))).
Proof.
  intros Hbr Hc Hid Hok Hq Hfl. eapply wp_PackSubscribePkt; [exact Hbr|done..| |].
  - intros m' buf' Hbr' Hoom. by left.
  - intros m' buf' x1 x2 d1 Hbr' Hx1 Hx2 Hxd Hn. right. split; [done|].
    exists [x1; x2]. split; [done|]. unfold filters_packet. rewrite bytes_app, <-Hx1, <-Hx2.
    unfold chain_bytes. simpl. by rewrite app_nil_r.
Qed.

Lemma PackSubscribe_bytes_witness :
  wp (Mqtt_PackSubscribePkt MqttBuffer_Init 7 1 (Ptr 1 0)
        (Zlen [Topic (Ptr 0 0) (bytes [97; 0]) [97]]))
     (mem_two never_oom (bytes [97; 0]) (topic_array [Topic (Ptr 0 0) (bytes [97; 0]) [97]]))
     (fun r m' =>
    (r.1 = MQTTERR_OUTOFMEMORY /\ oom_seen never_oom /\
       brep never_oom m' r.2 [] (Ptr 1 0 ↦ topic_array [Topic (Ptr 0 0) (bytes [97; 0]) [97]] ::
         topic_cells [Topic (Ptr 0 0) (bytes [97; 0]) [97]] ++ [])) \/
    (r.1 = MQTTERR_NOERROR /\ exists ys,
       brep never_oom m' r.2 ([] ++ ys) (Ptr 1 0 ↦ topic_array [Topic (Ptr 0 0) (bytes [97; 0]) [97]] ::
         topic_cells [Topic (Ptr 0 0) (bytes [97; 0]) [97]] ++ []) /\
       chain_bytes ys = bytes (filters_packet 0x80 7 (Some 1)
                                 [Topic (Ptr 0 0) (bytes [97; 0]) [97]]))).
Proof.
  apply (PackSubscribe_bytes never_oom _ MqttBuffer_Init [] 7 1 (Ptr 1 0)
           [Topic (Ptr 0 0) (bytes [97; 0]) [97]] []).
  - apply brep_init. eapply owns_perm; [|apply owns_two]. simpl. constructor.
  - done.
  - done.
  - constructor; [|done]. split; [done|]. split; [split; [by exists []|]|split].
    + repeat constructor; lia.
    + repeat constructor; lia.
    + done.
  - done.
  - done.
Defined.

(** The same for Mqtt_PackUnsubscribePkt, without the QoS bytes and with
    the first byte 0xA0. *)
Theorem PackUnsubscribe_bytes om m buf xs pkt_id ap ts L :
  brep om m buf xs (ap ↦ topic_array ts :: topic_cells ts ++ L) -> alloc_count buf < 2 ^ 20 - 3 ->
  pkt_id <> 0 -> Forall topic_ok ts -> filters_len None ts < 128 ^ 4 ->
  wp (Mqtt_PackUnsubscribePkt buf pkt_id ap (Zlen ts)) m (fun r m' =>
    (r.1 = MQTTERR_OUTOFMEMORY /\ oom_seen om /\
       brep om m' r.2 xs (ap ↦ topic_array ts :: topic_cells ts ++ L)) \/
    (r.1 = MQTTERR_NOERROR /\ exists ys,
       brep om m' r.2 (xs ++ ys) (ap ↦ topic_array ts :: topic_cells ts ++ L) /\
       chain_bytes ys = bytes (filters_packet 0xA0 pkt_id None ts))).
Proof.
  intros Hbr Hc Hid Hok Hfl. eapply wp_PackUnsubscribePkt; [exact Hbr|done..| |].
  - intros m' buf' Hbr' Hoom. by left.
  - intros m' buf' x1 x2 d1 Hbr' Hx1 Hx2 Hxd Hn. right. split; [done|].
    exists [x1; x2]. split; [done|]. unfold filters_packet. rewrite bytes_app, <-Hx1, <-Hx2.
    unfold chain_bytes. simpl. by rewrite app_nil_r.
Qed.

Lemma PackUnsubscribe_bytes_witness :
  wp (Mqtt_PackUnsubscribePkt MqttBuffer_Init 7 (Ptr 1 0)
        (Zlen [Topic (Ptr 0 0) (bytes [97; 0]) [97]]))
     (mem_two never_oom (bytes [97; 0]) (topic_array [Topic (Ptr 0 0) (bytes [97; 0]) [97]]))
     (fun r m' =>
    (r.1 = MQTTERR_OUTOFMEMORY /\ oom_seen never_oom /\
       brep never_oom m' r.2 [] (Ptr 1 0 ↦ topic_array [Topic (Ptr 0 0) (bytes [97; 0]) [97]] ::
         topic_cells [Topic (Ptr 0 0) (bytes [97; 0]) [97]] ++ [])) \/
    (r.1 = MQTTERR_NOERROR /\ exists ys,
       brep never_oom m' r.2 ([] ++ ys) (Ptr 1 0 ↦ topic_array [Topic (Ptr 0 0) (bytes [97; 0]) [97]] ::
         topic_cells [Topic (Ptr 0 0) (bytes [97; 0]) [97]] ++ []) /\
       chain_bytes ys = bytes (filters_packet 0xA0 7 None
                                 [Topic (Ptr 0 0) (bytes [97; 0]) [97]]))).
Proof.
  apply (PackUnsubscribe_bytes never_oom _ MqttBuffer_Init [] 7 (Ptr 1 0)
           [Topic (Ptr 0 0) (bytes [97; 0]) [97]] []).
  - apply brep_init. eapply owns_perm; [|apply owns_two]. simpl. constructor.
  - done.
  - done.
  - constructor; [|done]. split; [done|]. split; [split; [by exists []|]|split].
    + repeat constructor; lia.
    + repeat constructor; lia.
    + done.
  - done.
Defined.

(** Mqtt_AppendSubscribeTopic tests for the first byte 0x82, which
    Mqtt_PackSubscribePkt never writes: adding a topic to a packet that the
    packer made is always refused as an invalid parameter. *)
Theorem AppendSubscribeTopic_refused om m pkt_id qos ap ts topic L :
  owns om m (ap ↦ topic_array ts :: topic_cells ts ++ L) -> pkt_id <> 0 -> Forall topic_ok ts ->
  0 <= qos < 256 -> filters_len (Some qos) ts < 128 ^ 4 ->
  wp ('(_, buf) ← Mqtt_PackSubscribePkt MqttBuffer_Init pkt_id qos ap (Zlen ts);
      '(r, _) ← Mqtt_AppendSubscribeTopic buf topic qos; mret r) m
     (fun r _ => r = MQTTERR_INVALID_PARAMETER).
Proof.
  intros Ho Hid Hok Hq Hfl. wp_bind.
  eapply (wp_PackSubscribePkt om MqttBuffer_Init m []); [by apply brep_init|done..| |].
  - intros m' buf' [Hf _ _ _] _. wp_bind. unfold Mqtt_AppendSubscribeTopic, first_byte_of.
    rewrite Hf. simpl. wp_pure. by wp_pure.
  - intros m' buf' x1 x2 d1 [Hf _ Hok' Hown] Hx1 _ Hxd _. wp_bind.
    unfold Mqtt_AppendSubscribeTopic, first_byte_of. rewrite Hf. cbn [app head_ptr].
    apply Forall_cons in Hok' as [[Hne [Hxl _]] _].
    rewrite (is_null_ne (x_addr x1)) by done. apply buf_own_open in Hown as (R & Ho' & _).
    cbn [chain_cells app xt_cells hdr_cells] in Ho'. wp_bind.
    unfold xt_cells, hdr_cells in Ho'. wp_bind.
    eapply wp_get_payload; [exact Ho'|perm_find|]. apply wp_fmap.
    eapply (wp_load_byte _ _ _ (x_pay x1) (x_data x1) 0 128);
      [exact Ho'|perm_find|by rewrite padd_0|done|by rewrite Hxd|].
    case_bool_decide; [done|]. by wp_pure.
Qed.

Lemma AppendSubscribeTopic_refused_witness :
  wp ('(_, buf) ← Mqtt_PackSubscribePkt MqttBuffer_Init 7 1 (Ptr 1 0)
                    (Zlen [Topic (Ptr 0 0) (bytes [97; 0]) [97]]);
      '(r, _) ← Mqtt_AppendSubscribeTopic buf (Ptr 0 0) 1; mret r)
     (mem_two never_oom (bytes [97; 0]) (topic_array [Topic (Ptr 0 0) (bytes [97; 0]) [97]]))
     (fun r _ => r = MQTTERR_INVALID_PARAMETER).
Proof.
  apply (AppendSubscribeTopic_refused never_oom _ 7 1 (Ptr 1 0)
           [Topic (Ptr 0 0) (bytes [97; 0]) [97]] (Ptr 0 0) []).
  - eapply owns_perm; [|apply owns_two]. simpl. constructor.
  - done.
  - constructor; [|done]. split; [done|]. split; [split; [by exists []|]|split].
    + repeat constructor; lia.
    + repeat constructor; lia.
    + done.
  - done.
  - done.
Defined.
