(* ===== verification/MqttDataPoint.v ===== *)
(** * Data points of the OneNET extension (components/net/Protocol/mqtt/mqtt.c,
    lines 309 to 362 and 1477 to 2021)

    Data points travel as JSON text in a publish packet to a system topic.
    The functions append extents with fragments of that text to a packet
    under construction; a hidden four-byte record behind the first payload
    byte counts the nesting depth. *)

From S2P Require Import Prelude Cmem MqttBuffer MqttCodec MqttPack.
From stdpp Require Import list_tactics.

Open Scope Z_scope.

Definition FORMAT_TIME_STRING_SIZE : Z := 23.
Definition MAX_INTBUF_SIZE : Z := 12.
Definition MAX_DBLBUF_SIZE : Z := 320.
Definition MQTT_DPTYPE_TRIPLE : Z := 2.
Definition MQTT_DPTYPE_BINARY : Z := 4.

(** [struct DataPointPktInfo]: two [int16_t], little-endian in memory. *)
Definition sizeof_DataPointPktInfo : Z := 4.
Definition DATA_POINT_PKT_TAG : Z := s16 0xc19c.

Definition load_s16 (p : ptr) : M mem Z :=
  a ← load_byte p; b ← load_byte (padd p 1); mret (s16 (a + 256 * b)).
Definition store_s16 (p : ptr) (v : Z) : M mem unit := writen p (bytes [v mod 256; (v / 256) mod 256]).

Definition get_tag (info : ptr) : M mem Z := load_s16 info.
Definition get_subobj_depth (info : ptr) : M mem Z := load_s16 (padd info 2).
Definition set_subobj_depth (info : ptr) (v : Z) : M mem unit := store_s16 (padd info 2) v.

(** The chain of tests and dereferences; null when one of them fails. *)
Definition Mqtt_GetDataPointPktInfo (buf : MqttBuffer) : M mem ptr :=
  let fix_head := first_ext buf in
  if is_null fix_head then mret Null else
  pay ← get_payload fix_head;
  b ← load_byte pay;
  if negb (Z.shiftr b 4 =? MQTT_PKT_PUBLISH) then mret Null else
  next ← get_next fix_head;
  if is_null next then mret Null else
  first_payload ← get_next next;
  if is_null first_payload then mret Null else
  pay ← get_payload first_payload;
  b ← load_byte pay;
  if negb (b =? MQTT_DPTYPE_TRIPLE) then mret Null else
  len ← get_len first_payload;
  if negb (len =? 2 + sizeof_DataPointPktInfo) then mret Null else
  let info := padd pay 2 in
  tag ← get_tag info;
  if negb (tag =? DATA_POINT_PKT_TAG) then mret Null else mret info.

(** ** Text *)

(** [*(cursor++) = c] for every character of [l]. *)
Definition emit (cursor : ptr) (l : list Z) : M mem ptr :=
  _ ← writen cursor (bytes l); mret (padd cursor (Zlen l)).

(** [memcpy(cursor, src, n); cursor += n]. *)
Definition emit_copy (cursor src : ptr) (n : Z) : M mem ptr :=
  _ ← memcpy cursor src n; mret (padd cursor n).

(** Decimal digits, at least [width] of them: printf's "%0<width>d" for a
    number that is not negative. *)
Fixpoint digits (fuel : nat) (width : nat) (v : Z) : list Z :=
  match fuel with
  | O => []
  | S fuel =>
      if (v =? 0) && (Nat.eqb width 0) then []
      else digits fuel (pred width) (v / 10) ++ [48 + v mod 10]
  end.

Definition dec (width : nat) (v : Z) : list Z := digits 20 (Nat.max 1 width) v.

(** printf's "%d". *)
Definition dec_int (v : Z) : list Z := if v <? 0 then 45 :: dec 1 (- v) else dec 1 v.

(** gmtime's calendar: the days since 1970-01-01 as year, month and day of the
    proleptic Gregorian calendar. *)
Definition civil (days : Z) : Z * Z * Z :=
  let z := days + 719468 in
  let era := z / 146097 in
  let doe := z - era * 146097 in
  let yoe := (doe - doe / 1460 + doe / 36524 - doe / 146096) / 365 in
  let doy := doe - (365 * yoe + yoe / 4 - yoe / 100) in
  let mp := (5 * doy + 2) / 153 in
  let d := doy - (153 * mp + 2) / 5 + 1 in
  let mth := if mp <? 10 then mp + 3 else mp - 9 in
  (yoe + era * 400 + (if mth <=? 2 then 1 else 0), mth, d).

(** strftime's "%Y-%m-%d %H:%M:%S" of gmtime(tt). *)
Definition strftime_utc (tt : Z) : list Z :=
  let '(y, mo, d) := civil (tt / 86400) in
  let s := tt mod 86400 in
  dec 1 y ++ [45] ++ dec 2 mo ++ [45] ++ dec 2 d ++ [32] ++
  dec 2 (s / 3600) ++ [58] ++ dec 2 (s / 60 mod 60) ++ [58] ++ dec 2 (s mod 60).

Section datapoints.
(** The conversion to [time_t], whose width is the C library's choice, and
    the text that snprintf makes of a double with "%lf". *)
Context (to_time_t : Z -> Z) {double : Type} (snprintf_lf : double -> list Z).

Definition Mqtt_FormatTime (ts : Z) (out : ptr) : M mem Z :=
  let millisecond := Z.rem ts 1000 in
  let tt := Z.quot (to_time_t ts) 1000 in
  let text := strftime_utc tt in
  if 24 <=? Zlen text then mret 0 else
  _ ← writen out (bytes (text ++ [0]));
  _ ← writen (padd out 19) (bytes ([46] ++ dec 3 millisecond ++ [0]));
  mret FORMAT_TIME_STRING_SIZE.

(** ** Start *)

Definition Mqtt_PackDataPointStart (buf : MqttBuffer) (pkt_id qos : Z) (retain topic : bool)
    : M mem (Z * MqttBuffer) :=
  if negb (is_null (first_ext buf)) then mret (MQTTERR_INVALID_PARAMETER, buf) else
  name ← literal (if topic then [36; 100; 112] else [36; 99; 114; 115; 112]);
  '(err, buf) ← Mqtt_PackPublishPkt buf pkt_id name Null 0 qos retain false;
  if negb (err =? MQTTERR_NOERROR) then mret (err, buf) else
  mret (MQTTERR_NOERROR, buf).

(** ** Values *)

Definition Mqtt_AppendDP (buf : MqttBuffer) (dsid : ptr) (ts : Z) (value : ptr)
    (value_len : Z) (str : bool) : M mem (Z * MqttBuffer) :=
  info ← Mqtt_GetDataPointPktInfo buf;
  if is_null info then mret (MQTTERR_INVALID_PARAMETER, buf) else
  if is_null dsid then mret (MQTTERR_INVALID_PARAMETER, buf) else
  dsid_len ← strlen dsid;
  if dsid_len =? 0 then mret (MQTTERR_INVALID_PARAMETER, buf) else
  r ← Mqtt_CheckUtf8 dsid dsid_len;
  if negb (u32 r =? dsid_len) then mret (MQTTERR_NOT_UTF8, buf) else
  if negb (Mqtt_HasIllegalCharacter dsid dsid_len =? 0)
  then mret (MQTTERR_ILLEGAL_CHARACTER, buf) else
  let value_len := if is_null value then 4 else value_len in
  let total_len := u32 (dsid_len + 9 + (if 0 <? ts then FORMAT_TIME_STRING_SIZE else 0)
                        + value_len + (if str then 2 else 0)) in
  '(ext, buf) ← MqttBuffer_AllocExtent buf total_len;
  if is_null ext then mret (MQTTERR_OUTOFMEMORY, buf) else
  cursor ← get_payload ext;
  cursor ← emit cursor [34];
  cursor ← emit_copy cursor dsid dsid_len;
  cursor ← emit cursor [34; 58; 123; 34];
  '(failed, cursor) ← (if 0 <? ts then
                         r ← Mqtt_FormatTime ts cursor;
                         mret (r =? 0, padd cursor FORMAT_TIME_STRING_SIZE)
                       else mret (false, cursor));
  if failed : bool then mret (MQTTERR_INTERNAL, buf) else
  cursor ← emit cursor [34; 58];
  cursor ← (if str then emit cursor [34] else mret cursor);
  cursor ← (if is_null value then emit cursor [110; 117; 108; 108]
            else emit_copy cursor value value_len);
  cursor ← (if str then emit cursor [34] else mret cursor);
  _ ← emit cursor [125; 44];
  len ← get_len ext;
  err ← Mqtt_AppendLength buf len;
  if negb (err =? MQTTERR_NOERROR) then mret (err, buf) else
  buf ← MqttBuffer_AppendExtent buf ext;
  mret (MQTTERR_NOERROR, buf).

Definition Mqtt_AppendDPNull (buf : MqttBuffer) (dsid : ptr) : M mem (Z * MqttBuffer) :=
  Mqtt_AppendDP buf dsid 0 Null 0 false.

(** snprintf into a local buffer of [n] bytes: the text is cut to fit, the
    result is the length of the whole text. *)
Definition snprintf_into (p : ptr) (n : Z) (text : list Z) : M mem Z :=
  _ ← writen p (bytes (take (Z.to_nat (n - 1)) text ++ [0])); mret (Zlen text).

Definition Mqtt_AppendDPInt (buf : MqttBuffer) (dsid : ptr) (ts value : Z)
    : M mem (Z * MqttBuffer) :=
  with_local MAX_INTBUF_SIZE (fun intbuf =>
    bytes ← snprintf_into intbuf MAX_INTBUF_SIZE (dec_int value);
    Mqtt_AppendDP buf dsid ts intbuf bytes false).

Definition Mqtt_AppendDPDouble (buf : MqttBuffer) (dsid : ptr) (ts : Z) (value : double)
    : M mem (Z * MqttBuffer) :=
  with_local MAX_DBLBUF_SIZE (fun dblbuf =>
    bytes ← snprintf_into dblbuf MAX_DBLBUF_SIZE (snprintf_lf value);
    Mqtt_AppendDP buf dsid ts dblbuf bytes false).

Definition Mqtt_AppendDPString (buf : MqttBuffer) (dsid : ptr) (ts : Z) (value : ptr)
    : M mem (Z * MqttBuffer) :=
  value ← (if is_null value then literal [] else mret value);
  bytes ← strlen value;
  r ← Mqtt_CheckUtf8 value bytes;
  if negb (u32 r =? bytes) then mret (MQTTERR_NOT_UTF8, buf) else
  if negb (Mqtt_HasIllegalCharacter value bytes =? 0)
  then mret (MQTTERR_ILLEGAL_CHARACTER, buf) else
  Mqtt_AppendDP buf dsid ts value bytes true.

(** ** Nested objects *)

Definition Mqtt_AppendDPSubvalue (buf : MqttBuffer) (name value : ptr) (value_len : Z)
    (str : bool) : M mem (Z * MqttBuffer) :=
  info ← Mqtt_GetDataPointPktInfo buf;
  if is_null info then mret (MQTTERR_INVALID_PARAMETER, buf) else
  depth ← get_subobj_depth info;
  if depth <=? 0 then mret (MQTTERR_NOT_IN_SUBOBJECT, buf) else
  let total_len := u32 (value_len + 2 + (if str then 2 else 0)) in
  name_len ← strlen name;
  r ← Mqtt_CheckUtf8 name name_len;
  if negb (u32 r =? name_len) then mret (MQTTERR_NOT_UTF8, buf) else
  if negb (Mqtt_HasIllegalCharacter name name_len =? 0)
  then mret (MQTTERR_ILLEGAL_CHARACTER, buf) else
  let total_len := u32 (total_len + (name_len + 2)) in
  '(ext, buf) ← MqttBuffer_AllocExtent buf total_len;
  if is_null ext then mret (MQTTERR_OUTOFMEMORY, buf) else
  cursor ← get_payload ext;
  cursor ← emit cursor [34];
  cursor ← emit_copy cursor name name_len;
  cursor ← emit cursor [34; 58];
  cursor ← (if str then emit cursor [34] else mret cursor);
  cursor ← emit_copy cursor value value_len;
  cursor ← (if str then emit cursor [34] else mret cursor);
  _ ← emit cursor [44];
  len ← get_len ext;
  err ← Mqtt_AppendLength buf len;
  if negb (err =? MQTTERR_NOERROR) then mret (err, buf) else
  buf ← MqttBuffer_AppendExtent buf ext;
  mret (MQTTERR_NOERROR, buf).

Definition Mqtt_AppendDPSubvalueInt (buf : MqttBuffer) (name : ptr) (value : Z)
    : M mem (Z * MqttBuffer) :=
  with_local MAX_INTBUF_SIZE (fun intbuf =>
    bytes ← snprintf_into intbuf MAX_INTBUF_SIZE (dec_int value);
    Mqtt_AppendDPSubvalue buf name intbuf bytes false).

Definition Mqtt_AppendDPSubvalueDouble (buf : MqttBuffer) (name : ptr) (value : double)
    : M mem (Z * MqttBuffer) :=
  with_local MAX_DBLBUF_SIZE (fun dblbuf =>
    bytes ← snprintf_into dblbuf MAX_DBLBUF_SIZE (snprintf_lf value);
    Mqtt_AppendDPSubvalue buf name dblbuf bytes false).

Definition Mqtt_AppendDPSubvalueString (buf : MqttBuffer) (name value : ptr)
    : M mem (Z * MqttBuffer) :=
  value ← (if is_null value then literal [] else mret value);
  value_len ← strlen value;
  r ← Mqtt_CheckUtf8 value value_len;
  if negb (u32 r =? value_len) then mret (MQTTERR_NOT_UTF8, buf) else
  if negb (Mqtt_HasIllegalCharacter value value_len =? 0)
  then mret (MQTTERR_ILLEGAL_CHARACTER, buf) else
  Mqtt_AppendDPSubvalue buf name value value_len true.

Definition Mqtt_AppendDPStartSubobject (buf : MqttBuffer) (name : ptr)
    : M mem (Z * MqttBuffer) :=
  name ← (if is_null name then literal [] else mret name);
  name_len ← strlen name;
  r ← Mqtt_CheckUtf8 name name_len;
  if negb (u32 r =? name_len) then mret (MQTTERR_NOT_UTF8, buf) else
  if negb (Mqtt_HasIllegalCharacter name name_len =? 0)
  then mret (MQTTERR_ILLEGAL_CHARACTER, buf) else
  info ← Mqtt_GetDataPointPktInfo buf;
  if is_null info then mret (MQTTERR_INVALID_PARAMETER, buf) else
  depth ← get_subobj_depth info;
  _ ← set_subobj_depth info (s16 (depth + 1));
  '(ext, buf) ← MqttBuffer_AllocExtent buf (u32 (name_len + 4));
  if is_null ext then mret (MQTTERR_OUTOFMEMORY, buf) else
  cursor ← get_payload ext;
  cursor ← emit cursor [34];
  cursor ← emit_copy cursor name name_len;
  _ ← emit cursor [34; 58; 123];
  len ← get_len ext;
  err ← Mqtt_AppendLength buf len;
  if negb (err =? MQTTERR_NOERROR) then mret (err, buf) else
  buf ← MqttBuffer_AppendExtent buf ext;
  mret (MQTTERR_NOERROR, buf).

Definition Mqtt_AppendDPFinishSubobject (buf : MqttBuffer) : M mem (Z * MqttBuffer) :=
  info ← Mqtt_GetDataPointPktInfo buf;
  if is_null info then mret (MQTTERR_INVALID_PARAMETER, buf) else
  depth ← get_subobj_depth info;
  let depth := s16 (depth - 1) in
  _ ← set_subobj_depth info depth;
  if depth <? 0 then mret (MQTTERR_NOT_IN_SUBOBJECT, buf) else
  pay ← get_payload (last_ext buf);
  last_len ← get_len (last_ext buf);
  let last := padd pay (u32 (last_len - 1)) in
  c ← load_byte last;
  '(ext, buf) ←
    (if c =? 123 then
       '(ext, buf) ← MqttBuffer_AllocExtent buf 2;
       if is_null ext then mret (ext, buf) else
       _ ← put_payload ext 0 125; _ ← put_payload ext 1 44; mret (ext, buf)
     else
       _ ← store_byte last 125;
       '(ext, buf) ← MqttBuffer_AllocExtent buf 1;
       if is_null ext then mret (ext, buf) else
       _ ← put_payload ext 0 44; mret (ext, buf));
  if is_null ext then mret (MQTTERR_OUTOFMEMORY, buf) else
  len ← get_len ext;
  err ← Mqtt_AppendLength buf len;
  if negb (err =? MQTTERR_NOERROR) then mret (err, buf) else
  buf ← MqttBuffer_AppendExtent buf ext;
  mret (MQTTERR_NOERROR, buf).

Definition Mqtt_AppendDPStartObject (buf : MqttBuffer) (dsid : ptr) (ts : Z)
    : M mem (Z * MqttBuffer) :=
  with_local (FORMAT_TIME_STRING_SIZE + 1) (fun strtime =>
    '(err, buf) ← Mqtt_AppendDPStartSubobject buf dsid;
    if negb (err =? MQTTERR_NOERROR) then mret (err, buf) else
    failed ← (if 0 <? ts then
                r ← Mqtt_FormatTime ts strtime;
                if r =? 0 then mret true else
                _ ← store_byte (padd strtime FORMAT_TIME_STRING_SIZE) 0; mret false
              else _ ← store_byte strtime 0; mret false);
    if failed : bool then mret (MQTTERR_INTERNAL, buf) else
    Mqtt_AppendDPStartSubobject buf strtime).

Definition Mqtt_AppendDPFinishObject (buf : MqttBuffer) : M mem (Z * MqttBuffer) :=
  '(err, buf) ← Mqtt_AppendDPFinishSubobject buf;
  if negb (err =? MQTTERR_NOERROR) then mret (err, buf) else
  Mqtt_AppendDPFinishSubobject buf.

(** ** Finish *)

Definition Mqtt_PackDataPointFinish (buf : MqttBuffer) : M mem (Z * MqttBuffer) :=
  info ← Mqtt_GetDataPointPktInfo buf;
  if is_null info then mret (MQTTERR_INVALID_PARAMETER, buf) else
  depth ← get_subobj_depth info;
  if 0 <? depth then mret (MQTTERR_INCOMPLETE_SUBOBJECT, buf) else
  next ← get_next (first_ext buf);
  first_payload ← get_next next;
  _ ← set_len first_payload 2;
  '(err, buf) ← Mqtt_EraseLength buf sizeof_DataPointPktInfo;
  if negb (err =? MQTTERR_NOERROR) then mret (err, buf) else
  if negb (bool_decide (last_ext buf = first_payload)) then
    pay ← get_payload (last_ext buf);
    len ← get_len (last_ext buf);
    _ ← store_byte (padd pay (u32 (len - 1))) 125;
    mret (MQTTERR_NOERROR, buf)
  else
    '(end_ext, buf) ← MqttBuffer_AllocExtent buf 1;
    if is_null end_ext then mret (MQTTERR_OUTOFMEMORY, buf) else
    _ ← put_payload end_ext 0 125;
    buf ← MqttBuffer_AppendExtent buf end_ext;
    len ← get_len end_ext;
    err ← Mqtt_AppendLength buf len;
    if negb (err =? MQTTERR_NOERROR) then mret (err, buf) else
    mret (MQTTERR_NOERROR, buf).

(** ** Binary data *)

(** The header text: data stream, then time and description. *)
Definition Mqtt_binary_header (cursor dsid : ptr) (dsid_len header_len : Z) (pack_time : bool)
    (time : Z) (desc : ptr) (desc_len size : Z) : M mem unit :=
  _ ← store_byte cursor MQTT_DPTYPE_BINARY;
  _ ← Mqtt_WB16 (u16 (header_len - 7)) (padd cursor 1);
  cursor ← emit_copy (padd cursor 3) dsid dsid_len;
  cursor ← (if pack_time then
              cursor ← emit cursor [44];
              if 0 <? time then
                _ ← Mqtt_FormatTime time cursor; mret (padd cursor FORMAT_TIME_STRING_SIZE)
              else mret cursor
            else mret cursor);
  cursor ← (if is_null desc then mret cursor
            else cursor ← emit cursor [44]; emit_copy cursor desc desc_len);
  Mqtt_WB32 size cursor.

Definition Mqtt_PackDataPointByBinary (buf : MqttBuffer) (pkt_id : Z) (dsid desc : ptr)
    (time : Z) (bin : ptr) (size qos : Z) (retain own save : bool) : M mem (Z * MqttBuffer) :=
  if negb (is_null (first_ext buf)) || is_null dsid || is_null bin || (size =? 0)
  then mret (MQTTERR_INVALID_PARAMETER, buf) else
  name ← literal (if save then [36; 83; 65; 86; 69; 68; 65; 84; 65]
                  else [36; 80; 65; 83; 83; 68; 65; 84; 65]);
  '(err, buf) ← Mqtt_PackPublishPkt buf pkt_id name Null 0 qos retain false;
  if negb (err =? MQTTERR_NOERROR) then mret (err, buf) else
  dsid_len ← strlen dsid;
  let header_len := dsid_len + 2 + 1 in
  r ← Mqtt_CheckUtf8 dsid dsid_len;
  if negb (u32 r =? dsid_len) then mret (MQTTERR_NOT_UTF8, buf) else
  desc_len ← (if is_null desc then mret 0 else strlen desc);
  let header_len := if is_null desc then header_len else header_len + (desc_len + 1) in
  r ← (if is_null desc then mret desc_len else Mqtt_CheckUtf8 desc desc_len);
  if negb (u32 r =? desc_len) then mret (MQTTERR_NOT_UTF8, buf) else
  let pack_time := negb (is_null desc) || (0 <? time) in
  let header_len := if 0 <? time then header_len + (FORMAT_TIME_STRING_SIZE + 1)
                    else if pack_time then header_len + 1 else header_len in
  let header_len := u32 (header_len + 4) in
  '(header_ext, buf) ← MqttBuffer_AllocExtent buf header_len;
  if is_null header_ext then mret (MQTTERR_OUTOFMEMORY, buf) else
  cursor ← get_payload header_ext;
  _ ← Mqtt_binary_header cursor dsid dsid_len header_len pack_time time desc desc_len size;
  '(binary_ext, buf) ← MqttBuffer_AllocExtent buf (if own then size else 0);
  if is_null binary_ext then mret (MQTTERR_OUTOFMEMORY, buf) else
  _ ← (if own then pay ← get_payload binary_ext; memcpy pay bin size
       else _ ← set_payload binary_ext bin; set_len binary_ext size);
  err ← Mqtt_AppendLength buf (u32 (header_len + size));
  if negb (err =? MQTTERR_NOERROR) then mret (err, buf) else
  buf ← MqttBuffer_AppendExtent buf header_ext;
  buf ← MqttBuffer_AppendExtent buf binary_ext;
  mret (MQTTERR_NOERROR, buf).
End datapoints.

(** ** Rules *)

Section rules.
Context (om : nat -> bool).

(** The first two extents of a packet, and what the tests on them see. *)
Lemma wp_GetDataPointPktInfo_two buf m x1 x2 L b (Q : ptr -> mem -> Prop) :
  brep om m buf [x1; x2] L -> x_data x1 !! 0%nat = Some (Byte b) -> Q Null m ->
  wp (Mqtt_GetDataPointPktInfo buf) m Q.
Proof.
  intros [Hf _ Hok Hown] Hb HQ. unfold Mqtt_GetDataPointPktInfo. rewrite Hf.
  apply Forall_cons in Hok as [[Hn1 _] [[Hn2 _] _]%Forall_cons]. cbn [head_ptr].
  rewrite (is_null_ne (x_addr x1)) by done.
  apply buf_own_open in Hown as (R & Ho & _). cbn [chain_cells app] in Ho.
  unfold xt_cells, hdr_cells in Ho. wp_bind.
  eapply wp_get_payload; [exact Ho|perm_find|]. wp_bind.
  eapply (wp_load_byte _ _ _ (x_pay x1) (x_data x1) 0 b);
    [exact Ho|perm_find|by rewrite padd_0|done|done|].
  destruct (negb _); [by wp_ret|]. wp_bind. unfold get_next.
  eapply wp_load_ptr; [exact Ho|perm_find|]. cbn [head_ptr].
  rewrite (is_null_ne (x_addr x2)) by done. wp_bind.
  eapply wp_load_ptr; [exact Ho|perm_find|]. cbn [head_ptr is_null]. by wp_ret.
Qed.

Lemma wp_GetDataPointPktInfo_empty buf m L (Q : ptr -> mem -> Prop) :
  brep om m buf [] L -> Q Null m -> wp (Mqtt_GetDataPointPktInfo buf) m Q.
Proof.
  intros [Hf _ _ _] HQ. unfold Mqtt_GetDataPointPktInfo. rewrite Hf. simpl. by wp_ret.
Qed.
End rules.

(** ** The width of a time stamp *)

(** The parts of a date; the bounds need not be tight, only of the right
    number of digits. *)
Lemma civil_bounds days : 0 <= days < 49711 ->
  let '(y, mo, d) := civil days in 1900 <= y < 2200 /\ 0 <= mo < 60 /\ 0 <= d < 60.
Proof.
  intros Hd. unfold civil. cbv zeta.
  set (z := days + 719468). set (era := z / 146097). set (doe := z - era * 146097).
  assert (0 <= doe < 146097) as Hdoe by (unfold doe, era; Z.div_mod_to_equations; lia).
  assert (4 <= era <= 5) as Hera by (unfold era, z; Z.div_mod_to_equations; lia).
  set (yoe := (doe - doe / 1460 + doe / 36524 - doe / 146096) / 365).
  assert (0 <= yoe < 400) as Hyoe by (unfold yoe; Z.div_mod_to_equations; lia).
  set (doy := doe - (365 * yoe + yoe / 4 - yoe / 100)).
  assert (-10 <= doy < 400) as Hdoy by (unfold doy, yoe; Z.div_mod_to_equations; lia).
  set (mp := (5 * doy + 2) / 153).
  assert (-1 <= mp < 20) as Hmp by (unfold mp; Z.div_mod_to_equations; lia).
  assert (0 <= doy - (153 * mp + 2) / 5 <= 40) as Hday by (unfold mp; Z.div_mod_to_equations; lia).
  assert (1968 <= yoe + era * 400 < 2110) as Hy
    by (unfold yoe, doe, era, z in *; Z.div_mod_to_equations; lia).
  split_and!; repeat case_match; lia.
Qed.

Lemma dec_year_width y : 1900 <= y < 2200 -> Zlen (dec 1 y) = 4.
Proof.
  intros Hy. apply Z.eqb_eq. replace y with (1900 + (y - 1900)) by lia.
  by apply (range_forall 300 (fun v => Zlen (dec 1 (1900 + v)) =? 4)); [|lia].
Qed.

Lemma dec2_width v : 0 <= v < 60 -> Zlen (dec 2 v) = 2.
Proof.
  intros Hv. apply Z.eqb_eq. revert v Hv.
  by apply (range_forall 60 (fun v => Zlen (dec 2 v) =? 2)).
Qed.

Lemma dec3_width v : 0 <= v < 1000 -> Zlen (dec 3 v) = 3.
Proof.
  intros Hv. apply Z.eqb_eq. revert v Hv.
  by apply (range_forall (Z.to_nat 1000) (fun v => Zlen (dec 3 v) =? 3)).
Qed.

(** From 1970 to 2106 the text has the 19 characters the source counts on. *)
Lemma strftime_width tt : 0 <= tt < 2 ^ 32 -> Zlen (strftime_utc tt) = 19.
Proof.
  intros Ht. unfold strftime_utc.
  pose proof (civil_bounds (tt / 86400) ltac:(Z.div_mod_to_equations; lia)) as Hd.
  destruct (civil (tt / 86400)) as [[y mo] d]. destruct Hd as (Hy & Hmo & Hd). zlen.
  rewrite (dec_year_width y), (dec2_width mo), (dec2_width d) by done.
  rewrite !(dec2_width (_ mod _)) by (Z.div_mod_to_equations; lia).
  rewrite (dec2_width (_ / _)) by (Z.div_mod_to_equations; lia). lia.
Qed.

(** ** Properties *)

(** For a time between 1970 and 2106 Mqtt_FormatTime writes the
    23 characters of "YYYY-MM-DD HH:MM:SS.mmm" and a terminator: 24 bytes,
    one more than the length it returns, so its target needs 24. *)
Theorem FormatTime_writes om to_time_t m p d ts L :
  owns om m (p ↦ d :: L) -> 24 <= Zlen d -> 0 <= ts -> 0 <= Z.quot (to_time_t ts) 1000 < 2 ^ 32 ->
  wp (Mqtt_FormatTime to_time_t ts p) m (fun r m' => r = FORMAT_TIME_STRING_SIZE /\
    let text := strftime_utc (Z.quot (to_time_t ts) 1000) ++ [46] ++ dec 3 (ts mod 1000) in
    Zlen text = 23 /\ owns om m' (p ↦ (splice d 0 (bytes (text ++ [0]))) :: L)).
Proof.
  intros Ho Hd Hts Htt. unfold Mqtt_FormatTime. set (tt := Z.quot (to_time_t ts) 1000) in *.
  pose proof (strftime_width tt Htt) as Hw.
  rewrite Z.rem_mod_nonneg by lia. pose proof (Z.mod_pos_bound ts 1000 ltac:(lia)) as Hms.
  pose proof (dec3_width _ Hms) as Hw3.
  destruct (Z.leb_spec 24 (Zlen (strftime_utc tt))); [lia|]. wp_bind.
  eapply (wp_writen _ _ _ p d 0); [exact Ho|reflexivity|by rewrite padd_0|done
    |rewrite Zlen_bytes; zlen; lia|].
  clear m Ho. intros m Ho. wp_bind.
  eapply (wp_writen _ _ _ p _ 19); [exact Ho|reflexivity|done|done| |].
  { rewrite Zlen_splice by (rewrite ?Zlen_bytes; zlen; lia). rewrite Zlen_bytes. zlen. lia. }
  clear m Ho. intros m Ho. wp_ret. split; [done|]. split; [zlen; lia|].
  set (sec := strftime_utc tt) in *. replace 19 with (0 + Zlen (bytes sec)) in Ho
    by (rewrite Zlen_bytes; lia).
  rewrite bytes_app, splice_tail, <-bytes_app in Ho by (rewrite ?Zlen_bytes; zlen; lia).
  by rewrite <-!(assoc_L (++)).
Qed.

Lemma FormatTime_writes_witness :
  wp (Mqtt_FormatTime (fun ts => ts) 1525003200123 (Ptr 0 0))
     (mem_one never_oom (replicate 24 Undef)) (fun r m' => r = FORMAT_TIME_STRING_SIZE /\
    let text := strftime_utc (Z.quot 1525003200123 1000) ++ [46] ++ dec 3 (1525003200123 mod 1000) in
    Zlen text = 23 /\
    owns never_oom m' [Ptr 0 0 ↦ (splice (replicate 24 Undef) 0 (bytes (text ++ [0])))]).
Proof.
  apply (FormatTime_writes never_oom (fun ts => ts) _ (Ptr 0 0) (replicate 24 Undef) 1525003200123 []).
  - apply owns_one.
  - done.
  - done.
  - split; [done|]. reflexivity.
Defined.

(** Mqtt_PackDataPointStart packs no payload (the extent with the nesting
    record is commented out), so the tests of Mqtt_GetDataPointPktInfo never
    succeed after it: every attempt to append a data point to the packet it
    starts is refused as an invalid parameter. *)
Theorem AppendDP_refused om to_time_t m pkt_id qos retain topic dsid ts value value_len str L :
  owns om m L -> pkt_id <> 0 -> 0 <= qos <= 2 ->
  wp ('(_, buf) ← Mqtt_PackDataPointStart MqttBuffer_Init pkt_id qos retain topic;
      '(r, _) ← Mqtt_AppendDP to_time_t buf dsid ts value value_len str; mret r) m
     (fun r _ => r = MQTTERR_INVALID_PARAMETER).
Proof.
  intros Ho Hid Hq. unfold Mqtt_PackDataPointStart. cbn [first_ext MqttBuffer_Init is_null negb].
  wp_bind. eapply wp_literal; [exact Ho|]. clear m Ho. intros b m Ho. wp_bind.
  set (name := if topic then _ else _) in *.
  assert (Zlen name < 6 /\ topic_name name = true /\ ascii_string name) as (Hl & Hn & Ha)
    by (destruct topic; split_and!; try done; repeat constructor; lia).
  assert (cstring (bytes name ++ [Byte 0]) 0 name) as Hs.
  { apply cstring_literal. eapply Forall_impl; [exact Ha|]. simpl. lia. }
  eapply (wp_PackPublishPkt om MqttBuffer_Init m [] pkt_id (Ptr b 0) (bytes name ++ [Byte 0]) name
            Null [] 0 qos retain false L);
    [apply brep_init; by apply owns_null_cell|done|done|done|done|done|lia|done| |done| |].
  - unfold publish_len. destruct (qos =? 0); lia.
  - intros m' buf' Hbr _. cbn [Z.eqb]. change (MQTTERR_OUTOFMEMORY =? MQTTERR_NOERROR) with false.
    cbn [negb]. wp_pure. unfold Mqtt_AppendDP. wp_bind.
    eapply wp_GetDataPointPktInfo_empty; [exact Hbr|]. cbn [is_null]. by wp_pure.
  - intros m' buf' ys pl Hbr Hys Hpl _ Hz. change (MQTTERR_NOERROR =? MQTTERR_NOERROR) with true.
    cbn [negb]. wp_pure. unfold Mqtt_AppendDP. wp_bind.
    destruct Hz as (x1 & x2 & -> & Hx1); [done|].
    eapply wp_GetDataPointPktInfo_two; [exact Hbr| |cbn [is_null]; by wp_pure].
    unfold xt_bytes in Hx1.
    apply (f_equal (fun l => l !! 0%nat)) in Hx1. simpl in Hx1.
    apply lookup_take_Some in Hx1 as [Hx1 _]. exact Hx1.
Qed.

Lemma AppendDP_refused_witness :
  wp ('(_, buf) ← Mqtt_PackDataPointStart MqttBuffer_Init 7 1 false true;
      '(r, _) ← Mqtt_AppendDP (fun ts => ts) buf (Ptr 0 0) 0 Null 0 false; mret r)
     (mem_one never_oom (bytes [116; 0])) (fun r _ => r = MQTTERR_INVALID_PARAMETER).
Proof.
  apply (AppendDP_refused never_oom (fun ts => ts) _ 7 1 false true (Ptr 0 0) 0 Null 0 false
           [Ptr 0 0 ↦ bytes [116; 0]]).
  - apply owns_one.
  - done.
  - done.
Defined.

(** Mqtt_AppendLength adjusts the length of the fixed header's extent but
    not the byte count of the buffer: when the remaining length grows from one
    byte to two, the packet of Mqtt_PackDataPointByBinary is one byte longer
    than [buffered_bytes], which is what a complete transmission is compared
    with. *)
Theorem PackDataPointByBinary_miscounts :
  let m := mem_two never_oom (bytes [116; 0]) (replicate 130 (Byte 5)) in
  ('(r, buf) ← Mqtt_PackDataPointByBinary (fun ts => ts) MqttBuffer_Init 7 (Ptr 0 0) Null 0
                 (Ptr 1 0) 130 1 false true false;
   let e1 := first_ext buf in
   e2 ← get_next e1; e3 ← get_next e2; e4 ← get_next e3; e5 ← get_next e4;
   n1 ← get_len e1; n2 ← get_len e2; n3 ← get_len e3; n4 ← get_len e4;
   mret (r, is_null e5, buffered_bytes buf, n1 + n2 + n3 + n4)) m ≫= (fun r => Some r.1)
  = Some (MQTTERR_NOERROR, true, 153, 154).
Proof. vm_compute. reflexivity. Qed.
