(* ===== verification/MqttSend.v ===== *)
(** * Callbacks and transmission (Mqtt_SendPkt of mqtt.c, lines 845 to 897)

    A callback of the client's context is an [event] with what it can observe
    (the strings and bytes its arguments point to), and its return value is a
    function of the history and the event: the theorems hold for every such
    function.  The state is the memory and the list of events so far.

    [Mqtt_SendPkt] is proved for chains of any length: sending from offset 0
    hands the bytes of the chain, in order and in one call, to the write
    callback.  With the packing theorems this gives the bytes on the wire.
    Offsets inside an extent are sent wrongly. *)

From S2P Require Import Prelude Cmem MqttBuffer MqttCodec MqttPack.

Open Scope Z_scope.

(** Calls out of the module.  [EvWritev] carries the bytes that the vector
    gathers; the command identifier is [None] when its argument does not
    point to a string. *)
Inductive event :=
  | EvWritev (data : list memval)
  | EvPingResp
  | EvConnAck (flags ret_code : Z)
  | EvPublish (pkt_id : Z) (topic : list Z) (payload : list memval) (dup qos : Z)
  | EvPubAck (pkt_id : Z)
  | EvPubRec (pkt_id : Z)
  | EvPubRel (pkt_id : Z)
  | EvPubComp (pkt_id : Z)
  | EvSubAck (pkt_id : Z) (codes : list memval)
  | EvUnsubAck (pkt_id : Z)
  | EvCmd (pkt_id : Z) (cmdid : option (list Z)) (timestamp : Z) (desc : list Z)
          (cmdarg : list memval) (dup qos : Z).

Record world := World { w_mem : mem; w_io : list event }.

(** A computation on memory, run in the world. *)
Definition lift {A} (c : M mem A) : M world A := fun w =>
  match c (w_mem w) with Some (a, m) => Some (a, World m (w_io w)) | None => None end.


Definition sizeof_iovec : Z := 8.

(** ** Sending *)

(** The loop that skips [offset] bytes of the chain. *)
Fixpoint Mqtt_skip_extents (fuel : nat) (cursor : ptr) (bytes offset : Z) : M mem (ptr * Z) :=
  match fuel with
  | O => ub
  | S fuel =>
      if is_null cursor || negb (bytes <? offset) then mret (cursor, bytes) else
      len ← get_len cursor;
      next ← get_next cursor;
      Mqtt_skip_extents fuel next (u32 (bytes + len)) offset
  end.

Fixpoint Mqtt_count_extents (fuel : nat) (cursor : ptr) (ext_count : Z) : M mem Z :=
  match fuel with
  | O => ub
  | S fuel =>
      if is_null cursor then mret ext_count else
      next ← get_next cursor;
      Mqtt_count_extents fuel next (ext_count + 1)
  end.

(** The loop that fills the vector from entry [i] on. *)
Fixpoint Mqtt_fill_iov (fuel : nat) (iov cursor : ptr) (i : Z) : M mem unit :=
  match fuel with
  | O => ub
  | S fuel =>
      if is_null cursor then mret tt else
      pay ← get_payload cursor;
      _ ← store_ptr (padd iov (sizeof_iovec * i)) pay;
      len ← get_len cursor;
      _ ← store_u32 (padd iov (sizeof_iovec * i + 4)) len;
      next ← get_next cursor;
      Mqtt_fill_iov fuel iov next (i + 1)
  end.

(** What a call of writev transmits: the ranges of the vector, in order. *)
Fixpoint iov_gather (n : nat) (iov : ptr) (i : Z) : M mem (list memval) :=
  match n with
  | O => mret []
  | S n =>
      base ← load_ptr (padd iov (sizeof_iovec * i));
      len ← load_u32 (padd iov (sizeof_iovec * i + 4));
      l ← readn base len;
      ls ← iov_gather n iov (i + 1);
      mret (l ++ ls)
  end.

Section context.
(** The result of a callback after a history of events. *)
Context (callback : list event -> event -> Z).
(** A bound on the length of the chains that are sent. *)
Context (fuel : nat).

Definition call (e : event) : M world Z := fun w =>
  Some (callback (w_io w) e, World (w_mem w) (w_io w ++ [e])).

Definition Mqtt_SendPkt (buf : MqttBuffer) (offset : Z) : M world Z :=
  if buffered_bytes buf <=? offset then mret 0 else
  '(first_ext, bytes) ← lift (Mqtt_skip_extents fuel (first_ext buf) 0 offset);
  ext_count ← lift (Mqtt_count_extents fuel first_ext 0);
  if ext_count =? 0 then mret 0 else
  iov ← lift (malloc (u32 (sizeof_iovec * ext_count)));
  if is_null iov then mret MQTTERR_OUTOFMEMORY else
  pay ← lift (get_payload first_ext);
  _ ← lift (store_ptr iov (padd pay (offset - bytes)));
  len ← lift (get_len first_ext);
  _ ← lift (store_u32 (padd iov 4) (u32 (len - (offset - bytes))));
  next ← lift (get_next first_ext);
  _ ← lift (Mqtt_fill_iov fuel iov next 1);
  data ← lift (iov_gather (Z.to_nat ext_count) iov 0);
  i ← call (EvWritev data);
  _ ← lift (free iov);
  mret i.
End context.

(** ** Rules *)

Lemma wp_lift {A} (c : M mem A) w (Q : A -> world -> Prop) :
  wp c (w_mem w) (fun a m => Q a (World m (w_io w))) -> wp (lift c) w Q.
Proof. unfold wp, lift. by destruct (c (w_mem w)) as [[a m]|]. Qed.

Lemma wp_call cb e w (Q : Z -> world -> Prop) :
  Q (cb (w_io w) e) (World (w_mem w) (w_io w ++ [e])) -> wp (call cb e) w Q.
Proof. done. Qed.

(** Opens binds, enters lifted computations. *)
Ltac wp_lift := wp_bind; apply wp_lift; cbn [w_mem w_io].

(** The vector of a chain. *)
Definition iov_entry (x : xt) : list memval := enc_ptr (x_pay x) ++ enc_u32 (x_len x).
Definition iov_of (xs : list xt) : list memval := xs ≫= iov_entry.

Lemma Zlen_enc_ptr p : Zlen (enc_ptr p) = 4.
Proof. unfold Zlen. by rewrite length_enc_ptr. Qed.

Lemma Zlen_iov_entry x : Zlen (iov_entry x) = 8.
Proof. unfold iov_entry, Zlen. by rewrite length_app, length_enc_ptr. Qed.

Lemma Zlen_iov_of xs : Zlen (iov_of xs) = 8 * Zlen xs.
Proof.
  induction xs as [|x xs IH]; [done|]. change (iov_of (x :: xs)) with (iov_entry x ++ iov_of xs).
  rewrite Zlen_app, Zlen_cons, IH, Zlen_iov_entry. lia.
Qed.

Lemma splice_nil d k : splice d k [] = d.
Proof. unfold splice. simpl. rewrite Nat.add_0_r. apply take_drop. Qed.

(** The two writes of an entry, and an entry followed by the rest. *)
Lemma splice_entry d i x : 0 <= i -> 8 * i + 8 <= Zlen d ->
  splice (splice d (8 * i) (enc_ptr (x_pay x))) (8 * i + 4) (enc_u32 (x_len x)) =
  splice d (8 * i) (iov_entry x).
Proof.
  intros Hi Hd. rewrite <-(Zlen_enc_ptr (x_pay x)) at 1. rewrite splice_app by (rewrite ?Zlen_enc_ptr; lia). done.
Qed.

Lemma splice_entries d i x xs : 0 <= i -> 8 * i + 8 <= Zlen d ->
  splice (splice d (8 * i) (iov_entry x)) (8 * (i + 1)) (iov_of xs) =
  splice d (8 * i) (iov_of (x :: xs)).
Proof.
  intros Hi Hd. replace (8 * (i + 1)) with (8 * i + Zlen (iov_entry x)) by (rewrite Zlen_iov_entry; lia).
  rewrite splice_app by (rewrite ?Zlen_iov_entry; lia). done.
Qed.

Section send.
Context (om : nat -> bool).

(** The cells of the first extent of a chain. *)
Lemma chain_hd x xs nx R : chain_cells (x :: xs) nx ++ R ≡ₚ
  x_addr x ↦ enc_u32 (x_len x) :: padd (x_addr x) 4 ↦ enc_ptr (x_pay x) ::
  padd (x_addr x) 8 ↦ enc_ptr (head_ptr xs nx) :: x_pay x ↦ x_data x ::
  (chain_cells xs nx ++ R).
Proof. done. Qed.

Lemma chain_front m x xs nx R :
  owns om m (x_addr x ↦ enc_u32 (x_len x) :: padd (x_addr x) 4 ↦ enc_ptr (x_pay x) ::
    padd (x_addr x) 8 ↦ enc_ptr (head_ptr xs nx) :: x_pay x ↦ x_data x ::
    (chain_cells xs nx ++ R)) ->
  owns om m (chain_cells xs nx ++ xt_cells x (head_ptr xs nx) ++ R).
Proof. intros Ho. eapply owns_perm; [|exact Ho]. unfold xt_cells, hdr_cells. simpl. solve_Permutation. Qed.

Lemma wp_count_extents fuel m xs R k (Q : Z -> mem -> Prop) :
  owns om m (chain_cells xs Null ++ R) -> Forall xt_ok xs -> (length xs < fuel)%nat ->
  Q (k + Zlen xs) m -> wp (Mqtt_count_extents fuel (head_ptr xs Null) k) m Q.
Proof.
  revert fuel k R. induction xs as [|x xs IH]; intros [|fuel] k R Ho Hok Hf HQ; [simpl in Hf; lia| |
    simpl in Hf; lia|].
  - simpl. wp_ret. by rewrite Zlen_nil, Z.add_0_r in HQ.
  - apply Forall_cons in Hok as [(Hx & _) Hok]. rewrite chain_hd in Ho. rewrite Zlen_cons in HQ.
    cbn [head_ptr Mqtt_count_extents]. destruct (x_addr x) as [|b o] eqn:Hax; [done|]. cbn [is_null].
    wp_bind. eapply wp_load_ptr; [exact Ho|perm_find|].
    eapply (IH fuel (k + 1) (xt_cells x (head_ptr xs Null) ++ R)); [|done|simpl in Hf; lia|by rewrite <-Z.add_assoc].
    apply chain_front. by rewrite Hax.
Qed.

Lemma chain_back m x xs nx R :
  owns om m (chain_cells xs nx ++ xt_cells x (head_ptr xs nx) ++ R) ->
  owns om m (chain_cells (x :: xs) nx ++ R).
Proof. intros Ho. eapply owns_perm; [|exact Ho]. simpl. solve_Permutation. Qed.

(** Filling the vector behind its first [i] entries. *)
Lemma wp_fill_iov fuel m xs R p d i (Q : unit -> mem -> Prop) :
  owns om m (p ↦ d :: chain_cells xs Null ++ R) -> Forall xt_ok xs -> (length xs < fuel)%nat ->
  0 <= i -> 8 * (i + Zlen xs) <= Zlen d ->
  (forall m', owns om m' (p ↦ splice d (8 * i) (iov_of xs) :: chain_cells xs Null ++ R) -> Q tt m') ->
  wp (Mqtt_fill_iov fuel p (head_ptr xs Null) i) m Q.
Proof.
  revert fuel m d i R. induction xs as [|x xs IH];
    intros [|fuel] m d i R Ho Hok Hf Hi Hd HQ; [simpl in Hf; lia| |simpl in Hf; lia|].
  - simpl. wp_ret. apply HQ. by rewrite splice_nil.
  - apply Forall_cons in Hok as [(Hx & Hlen) Hok]. rewrite Zlen_cons in Hd.
    cbn [head_ptr Mqtt_fill_iov]. destruct (x_addr x) as [|b o] eqn:Hax; [done|]. cbn [is_null].
    rewrite <-Hax. pose proof (Zlen_nonneg xs). unfold sizeof_iovec.
    assert (p ↦ d :: chain_cells (x :: xs) Null ++ R ≡ₚ
      p ↦ d :: padd (x_addr x) 4 ↦ enc_ptr (x_pay x) :: x_addr x ↦ enc_u32 (x_len x) ::
      padd (x_addr x) 8 ↦ enc_ptr (head_ptr xs Null) :: x_pay x ↦ x_data x ::
      chain_cells xs Null ++ R) as HP by (rewrite chain_hd; solve_Permutation).
    rewrite HP in Ho. wp_bind. eapply wp_load_ptr; [exact Ho|perm_find|].
    wp_bind. eapply (wp_writen _ _ _ p d (8 * i)); [exact Ho|reflexivity|done|lia|rewrite Zlen_enc_ptr; lia|].
    clear m Ho. intros m Ho. wp_bind. eapply wp_load_u32; [exact Ho|perm_find|lia|].
    wp_bind. eapply (wp_writen _ _ _ p _ (8 * i + 4)); [exact Ho|reflexivity|done|lia| |].
    { change (Zlen (enc_u32 _)) with 4. rewrite Zlen_splice; rewrite ?Zlen_enc_ptr; lia. }
    clear m Ho. intros m Ho. wp_bind. eapply wp_load_ptr; [exact Ho|perm_find|].
    rewrite splice_entry in Ho by lia.
    eapply (IH fuel m _ (i + 1) (xt_cells x (head_ptr xs Null) ++ R)); [|done|simpl in Hf; lia|lia| |].
    + eapply owns_perm; [|exact Ho].
      unfold xt_cells, hdr_cells. simpl. solve_Permutation.
    + rewrite Zlen_splice by (rewrite ?Zlen_iov_entry; lia). lia.
    + intros m' Ho'. rewrite splice_entries in Ho' by lia. apply HQ.
      eapply owns_perm; [|exact Ho']. simpl. solve_Permutation.
Qed.

(** Loads from the middle of a cell. *)
Lemma wp_load_ptr_in m L p d i v rest L0 q (Q : ptr -> mem -> Prop) :
  owns om m L -> L ≡ₚ p ↦ d :: L0 -> q = padd p i -> 0 <= i ->
  drop (Z.to_nat i) d = enc_ptr v ++ rest -> Q v m -> wp (load_ptr q) m Q.
Proof.
  intros Ho HL Hq Hi Hd HQ. unfold load_ptr. wp_bind. pose proof (f_equal length Hd) as Hl.
  rewrite length_drop, length_app, length_enc_ptr in Hl.
  eapply (wp_readn _ _ _ p d i 4); [exact Ho|exact HL|exact Hq|done|done|unfold Zlen; lia|].
  rewrite Hd. change (Z.to_nat 4) with 4%nat. rewrite take_app_length' by (by rewrite length_enc_ptr).
  by eapply wp_of_opt; [apply dec_enc_ptr|].
Qed.

Lemma wp_load_u32_in m L p d i v rest L0 q (Q : Z -> mem -> Prop) :
  owns om m L -> L ≡ₚ p ↦ d :: L0 -> q = padd p i -> 0 <= i -> 0 <= v < 2 ^ 32 ->
  drop (Z.to_nat i) d = enc_u32 v ++ rest -> Q v m -> wp (load_u32 q) m Q.
Proof.
  intros Ho HL Hq Hi Hv Hd HQ. unfold load_u32. wp_bind. pose proof (f_equal length Hd) as Hl.
  rewrite length_drop, length_app in Hl. change (length (enc_u32 v)) with 4%nat in Hl.
  eapply (wp_readn _ _ _ p d i 4); [exact Ho|exact HL|exact Hq|done|done|unfold Zlen; lia|].
  rewrite Hd. change (Z.to_nat 4) with 4%nat. rewrite take_app_length' by done.
  by eapply wp_of_opt; [apply dec_enc_u32|].
Qed.

(** What the vector of a chain gathers. *)
Lemma wp_iov_gather m xs R p d i rest (Q : list memval -> mem -> Prop) :
  owns om m (p ↦ d :: chain_cells xs Null ++ R) -> Forall xt_ok xs -> 0 <= i ->
  drop (Z.to_nat (8 * i)) d = iov_of xs ++ rest ->
  Q (chain_bytes xs) m -> wp (iov_gather (length xs) p i) m Q.
Proof.
  revert i R Q. induction xs as [|x xs IH]; intros i R Q Ho Hok Hi Hd HQ; [done|].
  apply Forall_cons in Hok as [(_ & Hlen & Hlt) Hok].
  change (iov_of (x :: xs)) with (iov_entry x ++ iov_of xs) in Hd. unfold iov_entry in Hd.
  rewrite <-!(assoc_L (++)) in Hd. cbn [length iov_gather]. unfold sizeof_iovec. wp_bind.
  eapply (wp_load_ptr_in _ _ p d (8 * i)); [exact Ho|reflexivity|done|lia|exact Hd|].
  assert (drop (Z.to_nat (8 * i + 4)) d = enc_u32 (x_len x) ++ iov_of xs ++ rest) as Hd4.
  { replace (Z.to_nat (8 * i + 4)) with (Z.to_nat (8 * i) + 4)%nat by lia.
    rewrite <-drop_drop, Hd. apply drop_app_length'. by rewrite length_enc_ptr. }
  wp_bind. eapply (wp_load_u32_in _ _ p d (8 * i + 4)); [exact Ho|reflexivity|done|lia|by split; [apply Hlen|]|exact Hd4|].
  assert (p ↦ d :: chain_cells (x :: xs) Null ++ R ≡ₚ p ↦ d :: x_pay x ↦ x_data x ::
    x_addr x ↦ enc_u32 (x_len x) :: padd (x_addr x) 4 ↦ enc_ptr (x_pay x) ::
    padd (x_addr x) 8 ↦ enc_ptr (head_ptr xs Null) ::
    chain_cells xs Null ++ R) as HP by (rewrite chain_hd; solve_Permutation).
  wp_bind. eapply (wp_readn _ _ _ (x_pay x) (x_data x) 0);
    [exact Ho|rewrite HP; perm_find|by rewrite padd_0|lia|lia|lia|].
  wp_bind. eapply (IH (i + 1) (xt_cells x (head_ptr xs Null) ++ R)); [|done|lia| |].
  - eapply owns_perm; [|exact Ho]. simpl. solve_Permutation.
  - replace (Z.to_nat (8 * (i + 1))) with (Z.to_nat (8 * i + 4) + 4)%nat by lia.
    by rewrite <-drop_drop, Hd4.
  - wp_ret. exact HQ.
Qed.
End send.

(** The two stores of the first entry and the loop over the others leave the
    vector of the chain, whatever was in the block. *)
Lemma splice_vector d x xs : Zlen d = 8 * Zlen (x :: xs) ->
  splice (splice (splice d 0 (enc_ptr (x_pay x))) 4 (enc_u32 (x_len x))) (8 * 1) (iov_of xs) =
  iov_of (x :: xs).
Proof.
  rewrite Zlen_cons. pose proof (Zlen_nonneg xs). intros Hd.
  pose proof (splice_entry d 0 x) as He. change (8 * 0 + 4) with 4 in He.
  change (8 * 0) with 0 in He. rewrite He by lia.
  pose proof (splice_entries d 0 x xs) as Hs. change (8 * (0 + 1)) with (8 * 1) in Hs.
  change (8 * 0) with 0 in Hs. rewrite Hs by lia. apply splice_all.
  pose proof (Zlen_iov_of (x :: xs)) as Hl. rewrite Zlen_cons in Hl. unfold Zlen in *. lia.
Qed.

Section transmit.
Context (om : nat -> bool) (cb : list event -> event -> Z).

(** Filling the allocated vector, then [k]. *)
Lemma wp_fill_vector {A} fuel m io x xs b n d R (k : M world A) (Q : A -> world -> Prop) :
  owns om m (Ptr b 0 ↦ d :: Blk b n :: chain_cells (x :: xs) Null ++ R) ->
  Zlen d = 8 * Zlen (x :: xs) -> Forall xt_ok (x :: xs) -> (length xs < fuel)%nat ->
  (forall m', owns om m' (Ptr b 0 ↦ iov_of (x :: xs) :: chain_cells (x :: xs) Null ++ Blk b n :: R) ->
     wp k (World m' io) Q) ->
  wp (pay ← lift (get_payload (x_addr x));
      _ ← lift (store_ptr (Ptr b 0) (padd pay (0 - 0)));
      len ← lift (get_len (x_addr x));
      _ ← lift (store_u32 (padd (Ptr b 0) 4) (u32 (len - (0 - 0))));
      next ← lift (get_next (x_addr x));
      _ ← lift (Mqtt_fill_iov fuel (Ptr b 0) next 1);
      k) (World m io) Q.
Proof.
  intros Ho Hd Hok Hf HQ. pose proof Hok as [(Hx & Hlen & Hlt) Hoks]%Forall_cons.
  pose proof (Zlen_nonneg xs). pose proof (splice_vector d x xs Hd) as Hvec. rewrite Zlen_cons in Hd.
  change (0 - 0) with 0.
  assert (forall d', Ptr b 0 ↦ d' :: Blk b n :: chain_cells (x :: xs) Null ++ R ≡ₚ
    Ptr b 0 ↦ d' :: x_addr x ↦ enc_u32 (x_len x) :: padd (x_addr x) 4 ↦ enc_ptr (x_pay x) ::
    padd (x_addr x) 8 ↦ enc_ptr (head_ptr xs Null) :: x_pay x ↦ x_data x :: Blk b n ::
    chain_cells xs Null ++ R) as HP by (intros; rewrite chain_hd; solve_Permutation).
  rewrite HP in Ho. wp_lift. eapply wp_load_ptr; [exact Ho|perm_find|]. rewrite padd_0. wp_lift.
  eapply (wp_writen _ _ _ (Ptr b 0) d 0);
    [exact Ho|reflexivity|done|done|rewrite Zlen_enc_ptr; lia|].
  clear m Ho. intros m Ho. wp_lift. eapply wp_load_u32; [exact Ho|perm_find|by split; [apply Hlen|]|].
  rewrite Z.sub_0_r, u32_small by (split; [apply Hlen|done]). wp_lift.
  assert (Zlen (splice d 0 (enc_ptr (x_pay x))) = Zlen d) as Hs1
    by (apply Zlen_splice; rewrite ?Zlen_enc_ptr; lia).
  assert (Zlen (splice (splice d 0 (enc_ptr (x_pay x))) 4 (enc_u32 (x_len x))) = Zlen d) as Hs2
    by (rewrite <-Hs1; apply Zlen_splice; change (Zlen (enc_u32 (x_len x))) with 4; lia).
  eapply (wp_writen _ _ _ (Ptr b 0) _ 4);
    [exact Ho|reflexivity|done|done|change (Zlen (enc_u32 _)) with 4; lia|].
  clear m Ho. intros m Ho. wp_lift. eapply wp_load_ptr; [exact Ho|perm_find|]. wp_lift.
  eapply (wp_fill_iov _ _ _ _ (xt_cells x (head_ptr xs Null) ++ Blk b n :: R) (Ptr b 0) _ 1);
    [eapply owns_perm; [|exact Ho]; unfold xt_cells, hdr_cells; simpl; solve_Permutation
    |exact Hoks|done|lia|lia|].
  clear m Ho. intros m Ho. rewrite Hvec in Ho. apply HQ.
  eapply owns_perm; [|exact Ho]. simpl. solve_Permutation.
Qed.

(** Gathering, the call, and giving the vector back. *)
Lemma wp_writev m io xs b R (Q : Z -> world -> Prop) :
  owns om m (Ptr b 0 ↦ iov_of xs :: chain_cells xs Null ++ Blk b (Z.to_nat (8 * Zlen xs)) :: R) ->
  Forall xt_ok xs ->
  (forall m', owns om m' (chain_cells xs Null ++ R) ->
     Q (cb io (EvWritev (chain_bytes xs))) (World m' (io ++ [EvWritev (chain_bytes xs)]))) ->
  wp (data ← lift (iov_gather (Z.to_nat (Zlen xs)) (Ptr b 0) 0);
      i ← call cb (EvWritev data);
      _ ← lift (free (Ptr b 0));
      mret i) (World m io) Q.
Proof.
  intros Ho Hok HQ. wp_lift. unfold Zlen at 1. rewrite Nat2Z.id.
  eapply (wp_iov_gather _ _ _ _ _ (iov_of xs) 0 []);
    [exact Ho|done|done|by rewrite app_nil_r|].
  wp_bind. apply wp_call. wp_lift.
  eapply (wp_free _ _ _ b (iov_of xs) (chain_cells xs Null ++ R)); [exact Ho| |].
  - replace (Z.to_nat (8 * Zlen xs)) with (length (iov_of xs))
      by (pose proof (Zlen_iov_of xs); unfold Zlen in *; lia). solve_Permutation.
  - intros m' Ho'. wp_ret. by apply HQ.
Qed.

Lemma wp_SendPkt fuel m io buf xs L (Q : Z -> world -> Prop) :
  brep om m buf xs L -> 0 < buffered_bytes buf -> xs <> [] -> (length xs < fuel)%nat ->
  8 * Zlen xs < 2 ^ 32 ->
  (forall m', brep om m' buf xs L -> oom_seen om -> Q MQTTERR_OUTOFMEMORY (World m' io)) ->
  (forall m', brep om m' buf xs L -> Q (cb io (EvWritev (chain_bytes xs)))
     (World m' (io ++ [EvWritev (chain_bytes xs)]))) ->
  wp (Mqtt_SendPkt cb fuel buf 0) (World m io) Q.
Proof.
  intros [Hfst Hlst Hok Hown] Hb Hne Hf Hsz Hfail HQ.
  apply buf_own_open in Hown as (R & Ho & Hclose). rewrite <-(assoc_L (++)) in Ho.
  destruct xs as [|x xs]; [done|]. destruct fuel as [|fuel]; [lia|].
  pose proof (Zlen_nonneg xs). unfold Mqtt_SendPkt.
  destruct (Z.leb_spec (buffered_bytes buf) 0); [lia|]. rewrite Hfst. wp_lift.
  cbn [Mqtt_skip_extents]. change (0 <? 0) with false. rewrite orb_true_r. wp_ret. wp_lift.
  eapply wp_count_extents; [exact Ho|done|done|]. rewrite Z.add_0_l.
  destruct (Z.eqb_spec (Zlen (x :: xs)) 0) as [Hz|_]; [rewrite Zlen_cons in Hz; lia|]. wp_lift.
  rewrite u32_small by (unfold sizeof_iovec; rewrite Zlen_cons in *; lia). unfold sizeof_iovec.
  eapply wp_malloc; [exact Ho| |].
  - intros m' Ho' Hom. cbn [is_null]. wp_ret. apply Hfail; [|by eexists]. split; [done..|].
    apply Hclose. by rewrite <-(assoc_L (++)).
  - clear m Ho. intros b m Ho. cbn [is_null head_ptr].
    eapply wp_fill_vector; [exact Ho| |exact Hok|simpl in Hf; lia|].
    { unfold Zlen at 1. rewrite length_replicate, Zlen_cons. lia. }
    clear m Ho. intros m Ho. eapply wp_writev; [exact Ho|exact Hok|].
    intros m' Ho'. apply HQ. split; [done..|]. apply Hclose. by rewrite <-(assoc_L (++)).
Qed.
End transmit.

(** ** Properties *)

(** Transmitting a packet of any number of extents from its beginning is
    memory-safe, leaves the buffer unchanged, gives the vector back, and calls
    the write callback exactly once, with exactly the bytes of the chain in
    order; its result is returned.  The one other outcome is that there was no
    memory for the vector: then nothing is written. *)
Theorem SendPkt_bytes om cb fuel m io buf xs L :
  brep om m buf xs L -> 0 < buffered_bytes buf -> xs <> [] -> (length xs < fuel)%nat ->
  8 * Zlen xs < 2 ^ 32 ->
  wp (Mqtt_SendPkt cb fuel buf 0) (World m io) (fun r w' =>
    brep om (w_mem w') buf xs L /\
    ((r = MQTTERR_OUTOFMEMORY /\ oom_seen om /\ w_io w' = io) \/
     (r = cb io (EvWritev (chain_bytes xs)) /\ w_io w' = io ++ [EvWritev (chain_bytes xs)]))).
Proof.
  intros Hbr Hb Hne Hf Hsz. eapply wp_SendPkt; [exact Hbr|done..| |].
  - intros m' Hbr' Hoom. split; [done|by left].
  - intros m' Hbr'. split; [done|by right].
Qed.

(** A packet of three bytes in one extent. *)
Definition three_bytes : M mem (Z * MqttBuffer) := MqttBuffer_Append MqttBuffer_Init (Ptr 0 0) 3 true.

Lemma three_bytes_brep :
  wp three_bytes (mem_one never_oom (bytes [7; 8; 9])) (fun r m => exists xs,
    brep never_oom m r.2 xs [Ptr 0 0 ↦ bytes [7; 8; 9]] /\ length xs = 1%nat /\
    chain_bytes xs = bytes [7; 8; 9] /\ buffered_bytes r.2 = 3).
Proof.
  eapply wp_Append; [apply brep_init, owns_one|done..| |].
  - intros m' buf' _ [n Hn]. done.
  - intros m' buf' x Hx Hl Hbr _ Hb. exists [x]. split_and!; [exact Hbr|done| |exact Hb].
    unfold chain_bytes. simpl. by rewrite Hx.
Qed.

Lemma SendPkt_bytes_witness :
  wp ('(_, buf) ← lift three_bytes; Mqtt_SendPkt (fun _ _ => 3) 2 buf 0)
     (World (mem_one never_oom (bytes [7; 8; 9])) []) (fun r w' =>
    r = 3 /\ w_io w' = [EvWritev (bytes [7; 8; 9])]).
Proof.
  wp_lift. eapply wp_mono; [exact three_bytes_brep|].
  intros [e buf] m (xs & Hbr & Hlen & Hbytes & Hsz). cbn [snd] in *.
  eapply wp_mono.
  - apply (SendPkt_bytes never_oom (fun _ _ => 3) 2 m [] buf xs [Ptr 0 0 ↦ bytes [7; 8; 9]]).
    + exact Hbr.
    + by rewrite Hsz.
    + by intros ->.
    + rewrite Hlen. lia.
    + unfold Zlen. by rewrite Hlen.
  - intros r w' [_ [(_ & [n Hn] & _)|[-> ->]]]; [done|]. by rewrite Hbytes.
Defined.

(** Resuming a transmission inside an extent sends wrong bytes: the loop
    that skips sent extents also skips the one the offset points into, and the
    remainder is taken in front of the next one.  With two PUBACK packets in
    the buffer and two bytes sent, the identifier 7 that comes next is not
    sent: the two bytes before the second packet are (the end of the extent's
    header). *)
Theorem SendPkt_inside_extent :
  let two := '(_, buf) ← Mqtt_PackPubAckPkt MqttBuffer_Init 7; Mqtt_PackPubAckPkt buf 9 in
  let sent offset := option_map (fun x => w_io x.2)
    (('(_, buf) ← lift two; Mqtt_SendPkt (fun _ _ => 0) 4 buf offset) (World (mem_empty never_oom) [])) in
  sent 0 = Some [EvWritev (bytes [0x40; 2; 0; 7; 0x40; 2; 0; 9])] /\
  sent 2 = Some [EvWritev (bytes [0; 0; 0x40; 2; 0; 9])].
Proof. split; vm_compute; reflexivity. Qed.
