(* ===== verification/MqttRecv.v ===== *)
(** * Receiving and dispatching (components/net/Protocol/mqtt/mqtt.c, lines
    364 to 843)

    The context of the client is three pointers into the receive buffer and
    the callbacks of [MqttSend.event].  The handlers are composed as the code
    composes them: [Mqtt_RecvPkt] reads into the buffer, [Mqtt_recv_loop] cuts
    it into packets, [Mqtt_Dispatch] selects the handler by the first byte. *)

From S2P Require Import Prelude Cmem MqttBuffer MqttCodec MqttPack MqttSend.
From stdpp Require Import list_tactics.

Open Scope Z_scope.

(** The pointers of [struct MqttContext]; the callbacks are parameters. *)
Record MqttContext := mk_MqttContext { ctx_bgn : ptr; ctx_end : ptr; ctx_pos : ptr }.

(** Pointer difference within a block. *)
Definition pdiff (p q : ptr) : Z :=
  match p, q with Ptr _ o1, Ptr _ o2 => o1 - o2 | _, _ => 0 end.

Definition CMD_TOPIC_PREFIX : list Z := [36; 99; 114; 101; 113].

Definition Mqtt_InitContext (buf_size : Z) : M mem (Z * MqttContext) :=
  bgn ← malloc buf_size;
  if is_null bgn then mret (MQTTERR_OUTOFMEMORY, mk_MqttContext Null Null Null) else
  mret (MQTTERR_NOERROR, mk_MqttContext bgn (padd bgn buf_size) bgn).

Definition Mqtt_DestroyContext (ctx : MqttContext) : M mem MqttContext :=
  _ ← free (ctx_bgn ctx); mret (mk_MqttContext Null Null Null).

Section context.
(** The result of a callback after a history of events, and a bound on the
    length of the chains that are sent. *)
Context (callback : list event -> event -> Z) (fuel : nat).

(** ** Handlers *)

Definition Mqtt_HandlePingResp (flags : Z) (pkt : ptr) (size : Z) : M world Z :=
  if negb (flags =? 0) || negb (size =? 0) then mret MQTTERR_ILLEGAL_PKT else
  call callback EvPingResp.

Definition Mqtt_HandleConnAck (flags : Z) (pkt : ptr) (size : Z) : M world Z :=
  if negb (flags =? 0) || negb (size =? 2) then mret MQTTERR_ILLEGAL_PKT else
  ack_flags ← lift (load_byte pkt);
  ret_code ← lift (load_byte (padd pkt 1));
  if (flag_set ack_flags 0x01 && negb (ret_code =? 0)) || (5 <? ret_code)
  then mret MQTTERR_ILLEGAL_PKT else
  call callback (EvConnAck ack_flags ret_code).

(** Sending a response that was packed into an empty buffer: the common end
    of the handlers that reply. *)
Definition Mqtt_respond (err : Z) (response : MqttBuffer) : M world Z :=
  if negb (err =? MQTTERR_NOERROR) then mret err else
  sent ← Mqtt_SendPkt callback fuel response 0;
  if negb (u32 sent =? buffered_bytes response) then mret MQTTERR_FAILED_SEND_RESPONSE
  else mret err.

(** The topic, payload and packet identifier of a publish packet; [None] is
    a return of MQTTERR_ILLEGAL_PKT. *)
Definition Mqtt_publish_fields (qos dup : Z) (pkt : ptr) (size topic_len : Z)
    : M mem (option (ptr * ptr * Z * Z)) :=
  if qos =? MQTT_QOS_LEVEL0 then
    if negb (dup =? 0) then mret None else
    _ ← memmove pkt (padd pkt 2) topic_len;
    mret (Some (pkt, padd pkt (2 + topic_len), size - 2 - topic_len, 0))
  else if (qos =? MQTT_QOS_LEVEL1) || (qos =? MQTT_QOS_LEVEL2) then
    if size <? topic_len + 4 then mret None else
    pkt_id ← Mqtt_RB16 (padd pkt (topic_len + 2));
    if pkt_id =? 0 then mret None else
    mret (Some (padd pkt 2, padd pkt (4 + topic_len), size - 4 - topic_len, pkt_id))
  else mret None.

(** [topic == strstr(topic, prefix)]: the first occurrence is at the start. *)
Definition starts_with (prefix s : list Z) : bool := bool_decide (take (length prefix) s = prefix).

(** The call of the command or publish callback. *)
Definition Mqtt_publish_callback (topic payload : ptr) (payload_len pkt_id dup qos : Z)
    : M world Z :=
  c ← lift (load_byte topic);
  s ← lift (getstr topic);
  if c =? 36 then
    if starts_with CMD_TOPIC_PREFIX s then
      m ← lift get;
      data ← lift (readn payload payload_len);
      call callback (EvCmd pkt_id (cstr m (padd topic (CMD_TOPIC_PREFIX_LEN + 1))) 0 [] data dup qos)
    else mret MQTTERR_NOERROR
  else
    data ← lift (readn payload payload_len);
    call callback (EvPublish pkt_id s data dup qos).

(** The reply to a publish packet. *)
Definition Mqtt_publish_reply (err qos pkt_id : Z) : M world Z :=
  '(err, response) ←
    (if qos =? MQTT_QOS_LEVEL2 then lift (Mqtt_PackPubRecPkt MqttBuffer_Init pkt_id)
     else if qos =? MQTT_QOS_LEVEL1 then lift (Mqtt_PackPubAckPkt MqttBuffer_Init pkt_id)
     else mret (err, MqttBuffer_Init));
  err ← (if (err =? MQTTERR_NOERROR) && negb (qos =? MQTT_QOS_LEVEL0) then
           Mqtt_respond err response
         else if negb (qos =? MQTT_QOS_LEVEL0) then mret MQTTERR_FAILED_SEND_RESPONSE
         else mret err);
  _ ← lift (MqttBuffer_Destroy response);
  mret err.

Definition Mqtt_HandlePublish (flags : Z) (pkt : ptr) (size : Z) : M world Z :=
  let dup := Z.land flags 0x08 in
  let qos := Z.shiftr (Z.land flags 0x06) 1 in
  let retain := Z.land flags 0x01 in
  if size <? 2 then mret MQTTERR_ILLEGAL_PKT else
  if negb (retain =? 0) then mret MQTTERR_ILLEGAL_PKT else
  topic_len ← lift (Mqtt_RB16 pkt);
  if size <? 2 + topic_len then mret MQTTERR_ILLEGAL_PKT else
  fields ← lift (Mqtt_publish_fields qos dup pkt size topic_len);
  match fields with
  | None => mret MQTTERR_ILLEGAL_PKT
  | Some (topic, payload, payload_len, pkt_id) =>
      _ ← lift (store_byte (padd topic topic_len) 0);
      r ← lift (Mqtt_CheckUtf8 topic topic_len);
      if negb (r =? topic_len) then mret MQTTERR_ILLEGAL_PKT else
      m ← lift get;
      scanned ← lift (Mqtt_topic_scan (room m topic) topic 0);
      if negb (bool_decide (is_Some scanned)) then mret MQTTERR_ILLEGAL_PKT else
      err ← Mqtt_publish_callback topic payload payload_len pkt_id dup qos;
      if 0 <=? err then Mqtt_publish_reply err qos pkt_id else mret err
  end.

(** The identifier of the packets that carry nothing else; [None] is a
    return of MQTTERR_ILLEGAL_PKT. *)
Definition Mqtt_only_id (want flags : Z) (pkt : ptr) (size : Z) : M mem (option Z) :=
  if negb (flags =? want) || negb (size =? 2) then mret None else
  pkt_id ← Mqtt_RB16 pkt;
  if pkt_id =? 0 then mret None else mret (Some pkt_id).

Definition Mqtt_HandlePubAck (flags : Z) (pkt : ptr) (size : Z) : M world Z :=
  id ← lift (Mqtt_only_id 0 flags pkt size);
  match id with None => mret MQTTERR_ILLEGAL_PKT | Some pkt_id => call callback (EvPubAck pkt_id) end.

Definition Mqtt_HandlePubRec (flags : Z) (pkt : ptr) (size : Z) : M world Z :=
  id ← lift (Mqtt_only_id 0 flags pkt size);
  match id with
  | None => mret MQTTERR_ILLEGAL_PKT
  | Some pkt_id =>
      err ← call callback (EvPubRec pkt_id);
      if 0 <=? err then
        '(err, response) ← lift (Mqtt_PackPubRelPkt MqttBuffer_Init pkt_id);
        err ← Mqtt_respond err response;
        _ ← lift (MqttBuffer_Destroy response);
        mret err
      else mret err
  end.

Definition Mqtt_HandlePubRel (flags : Z) (pkt : ptr) (size : Z) : M world Z :=
  id ← lift (Mqtt_only_id 2 flags pkt size);
  match id with
  | None => mret MQTTERR_ILLEGAL_PKT
  | Some pkt_id =>
      err ← call callback (EvPubRel pkt_id);
      if 0 <=? err then
        '(err, response) ← lift (Mqtt_PackPubCompPkt MqttBuffer_Init pkt_id);
        err ← Mqtt_respond err response;
        _ ← lift (MqttBuffer_Destroy response);
        mret err
      else mret err
  end.

Definition Mqtt_HandlePubComp (flags : Z) (pkt : ptr) (size : Z) : M world Z :=
  id ← lift (Mqtt_only_id 0 flags pkt size);
  match id with None => mret MQTTERR_ILLEGAL_PKT | Some pkt_id => call callback (EvPubComp pkt_id) end.

(** The loop over the return codes: does one have a reserved bit set? *)
Fixpoint Mqtt_codes_illegal (n : nat) (code : ptr) : M mem bool :=
  match n with
  | O => mret false
  | S n =>
      c ← load_byte code;
      if flag_set c 0x7C then mret true else Mqtt_codes_illegal n (padd code 1)
  end.

Definition Mqtt_HandleSubAck (flags : Z) (pkt : ptr) (size : Z) : M world Z :=
  if negb (flags =? 0) || (size <? 2) then mret MQTTERR_ILLEGAL_PKT else
  pkt_id ← lift (Mqtt_RB16 pkt);
  if pkt_id =? 0 then mret MQTTERR_ILLEGAL_PKT else
  illegal ← lift (Mqtt_codes_illegal (Z.to_nat (size - 2)) (padd pkt 2));
  if illegal : bool then mret MQTTERR_ILLEGAL_PKT else
  codes ← lift (readn (padd pkt 2) (size - 2));
  call callback (EvSubAck pkt_id codes).

Definition Mqtt_HandleUnsubAck (flags : Z) (pkt : ptr) (size : Z) : M world Z :=
  id ← lift (Mqtt_only_id 0 flags pkt size);
  match id with None => mret MQTTERR_ILLEGAL_PKT | Some pkt_id => call callback (EvUnsubAck pkt_id) end.

Definition Mqtt_Dispatch (fh : Z) (pkt : ptr) (size : Z) : M world Z :=
  let flags := Z.land fh 0x0F in
  let type := Z.shiftr fh 4 in
  if type =? MQTT_PKT_PINGRESP then Mqtt_HandlePingResp flags pkt size
  else if type =? MQTT_PKT_CONNACK then Mqtt_HandleConnAck flags pkt size
  else if type =? MQTT_PKT_PUBLISH then Mqtt_HandlePublish flags pkt size
  else if type =? MQTT_PKT_PUBACK then Mqtt_HandlePubAck flags pkt size
  else if type =? MQTT_PKT_PUBREC then Mqtt_HandlePubRec flags pkt size
  else if type =? MQTT_PKT_PUBREL then Mqtt_HandlePubRel flags pkt size
  else if type =? MQTT_PKT_PUBCOMP then Mqtt_HandlePubComp flags pkt size
  else if type =? MQTT_PKT_SUBACK then Mqtt_HandleSubAck flags pkt size
  else if type =? MQTT_PKT_UNSUBACK then Mqtt_HandleUnsubAck flags pkt size
  else mret MQTTERR_ILLEGAL_PKT.

(** ** Receiving *)

(** The loop over the packets in the buffer: an error to return, or the
    cursor where it stopped.  Every packet takes at least two bytes, so one
    iteration per byte, and one to stop, are enough. *)
Fixpoint Mqtt_recv_loop (n : nat) (ctx : MqttContext) (cursor : ptr) : M world (Z + ptr) :=
  match n with
  | O => ub
  | S n =>
      let avail := pdiff (ctx_pos ctx) cursor in
      if avail <? 2 then mret (inr cursor) else
      '(bytes, remaining_len) ← lift (Mqtt_ReadLength (padd cursor 1) (avail - 1));
      if bytes =? -1 then mret (inr cursor) else
      if bytes =? -2 then mret (inl MQTTERR_ILLEGAL_PKT) else
      if avail <? remaining_len + bytes + 1 then mret (inr cursor) else
      fh ← lift (load_byte cursor);
      errcode ← Mqtt_Dispatch fh (padd cursor (bytes + 1)) remaining_len;
      if errcode <? 0 then mret (inl errcode) else
      Mqtt_recv_loop n ctx (padd cursor (bytes + 1 + remaining_len))
  end.

(** [rd] is what the read callback returns: its result and the bytes it
    stored at [ctx->pos]. *)
Definition Mqtt_RecvPkt (ctx : MqttContext) (rd : Z * list Z) : M world (Z * MqttContext) :=
  let '(bytes, data) := rd in
  _ ← lift (writen (ctx_pos ctx) (Cmem.bytes data));
  if bytes =? 0 then mret (MQTTERR_ENDOFFILE, mk_MqttContext (ctx_bgn ctx) (ctx_end ctx) (ctx_bgn ctx))
  else if bytes <? 0 then mret (MQTTERR_IO, ctx) else
  let ctx := mk_MqttContext (ctx_bgn ctx) (ctx_end ctx) (padd (ctx_pos ctx) bytes) in
  if 0 <? pdiff (ctx_pos ctx) (ctx_end ctx) then mret (MQTTERR_BUF_OVERFLOW, ctx) else
  r ← Mqtt_recv_loop (S (Z.to_nat (pdiff (ctx_pos ctx) (ctx_bgn ctx)))) ctx (ctx_bgn ctx);
  match r with
  | inl errcode => mret (errcode, ctx)
  | inr cursor =>
      let movebytes := pdiff cursor (ctx_bgn ctx) in
      if 0 <? movebytes then
        _ ← lift (memmove (ctx_bgn ctx) cursor movebytes);
        mret (MQTTERR_NOERROR,
              mk_MqttContext (ctx_bgn ctx) (ctx_end ctx) (padd (ctx_pos ctx) (- movebytes)))
      else mret (MQTTERR_NOERROR, ctx)
  end.
End context.

(** ** Rules *)

Section respond.
Context (om : nat -> bool).

(** The cells of a response: array, extent and chunk. *)
Definition response_cells (a c : nat) (data tl : list memval) : list cell :=
  arr1_cells a c ++ hdr_cells (Ptr c 0) 4 (Ptr c 12) Null ++
  [Ptr c 12 ↦ data; Ptr c 16 ↦ tl; Blk c 1024].

Definition response_buf (a c : nat) : MqttBuffer :=
  mk_MqttBuffer (Ptr c 0) (Ptr c 0) (MQTT_MIN_EXTENT_SIZE - 16) (Ptr a 0) (Ptr c 16) 1 1 4.

Lemma wp_fill_response m a c d tl head pkt_id L (Q : Z * MqttBuffer -> mem -> Prop) :
  owns om m (response_cells a c d tl ++ L) -> Zlen d = 4 -> 0 <= head < 256 ->
  (forall m', owns om m' (response_cells a c (bytes (ack_packet head pkt_id)) tl ++ L) ->
     Q (MQTTERR_NOERROR, response_buf a c) m') ->
  wp (Mqtt_fill_ack (one_buf a c 16) (Ptr c 0) head pkt_id) m Q.
Proof.
  intros Ho Hd Hh HQ. unfold Mqtt_fill_ack, response_cells, hdr_cells in *. simpl in Ho.
  destruct d as [|d0 [|d1 [|d2 [|d3 [|]]]]]; try (unfold Zlen in Hd; simpl in Hd; lia).
  wp_bind. eapply wp_put_payload; [exact Ho|perm_find2|done|]. clear m Ho. intros m Ho.
  wp_bind. eapply wp_put_payload; [exact Ho|reflexivity|done|]. clear m Ho. intros m Ho.
  wp_bind. eapply wp_get_payload; [exact Ho|perm_find|].
  wp_bind. eapply (wp_WB16 _ _ _ (Ptr c 12) _ 2); [exact Ho|perm_find|done|done|done|].
  clear m Ho. intros m Ho. wp_bind. unfold MqttBuffer_AppendExtent. cbn [last_ext one_buf].
  rewrite !decide_True by done.
  wp_bind. eapply wp_set_next; [exact Ho|simpl; perm_find|]. clear m Ho. intros m Ho.
  wp_pure. eapply wp_load_u32; [exact Ho|perm_find|done|].
  wp_pure. unfold response_buf, one_buf in *. cbn. apply HQ.
  rewrite <-(u8_small head Hh). eapply owns_perm; [|exact Ho]. simpl. solve_Permutation.
Qed.

(** ** Packing, sending and destroying a response *)

Lemma wp_pack_response m head pkt_id L (Q : Z * MqttBuffer -> mem -> Prop) :
  owns om m L -> 0 <= head < 256 ->
  (forall m' buf', oom_seen om -> wp (MqttBuffer_Destroy buf') m' (fun _ m'' => owns om m'' L) ->
     Q (MQTTERR_OUTOFMEMORY, buf') m') ->
  (forall a c m' tl, Zlen tl = 1008 ->
     owns om m' (response_cells a c (bytes (ack_packet head pkt_id)) tl ++ L) ->
     Q (MQTTERR_NOERROR, response_buf a c) m') ->
  wp ('(ext, buf) ← MqttBuffer_AllocExtent MqttBuffer_Init 4;
      if is_null ext then mret (MQTTERR_OUTOFMEMORY, buf) else
      Mqtt_fill_ack buf ext head pkt_id) m Q.
Proof.
  intros Ho Hh Hfail HQ. wp_bind. eapply wp_alloc_init; [exact Ho|done| |].
  - intros m' buf' _ Hoom Hd. cbn [is_null]. wp_ret. by apply Hfail.
  - intros a c m' d tl Hd Htl Ho'. change (ext_cap 4) with 4 in *. cbn [is_null].
    change (12 + 4) with 16 in *.
    eapply (wp_fill_response _ a c d tl _ _ L); [|done|done|].
    + eapply owns_perm; [|exact Ho']. unfold response_cells. by rewrite <-!(assoc_L (++)).
    + intros m2 Ho2. apply (HQ a c m2 tl); [lia|exact Ho2].
Qed.

Lemma wp_destroy_response m a c data tl L (Q : unit -> mem -> Prop) :
  owns om m (response_cells a c data tl ++ L) -> Zlen data = 4 -> Zlen tl = 1008 ->
  (forall m', owns om m' L -> Q tt m') -> wp (MqttBuffer_Destroy (response_buf a c)) m Q.
Proof.
  intros Ho Hd Htl HQ. eapply (wp_Destroy_one _ _ _ a c (enc_u32 4) (enc_ptr (Ptr c 12))
    (enc_ptr Null) data tl L); try done.
  - unfold Zlen in *. lia.
  - rewrite Hd. eapply owns_perm; [|exact Ho]. unfold response_cells.
    by rewrite <-!(assoc_L (++)).
Qed.

Context (cb : list event -> event -> Z) (fuel : nat).
Hypothesis fuel_ok : (2 <= fuel)%nat.

(** Sending a response hands its four bytes to writev, or fails for want of
    memory for the vector. *)
Lemma wp_SendPkt_response w a c data tl L (Q : Z -> world -> Prop) :
  owns om (w_mem w) (response_cells a c data tl ++ L) -> Zlen data = 4 ->
  (forall m', owns om m' (response_cells a c data tl ++ L) -> oom_seen om ->
     Q MQTTERR_OUTOFMEMORY (World m' (w_io w))) ->
  (forall m', owns om m' (response_cells a c data tl ++ L) ->
     Q (cb (w_io w) (EvWritev data)) (World m' (w_io w ++ [EvWritev data]))) ->
  wp (Mqtt_SendPkt cb fuel (response_buf a c) 0) w Q.
Proof using fuel_ok.
  destruct fuel as [|[|f]]; [lia..|]. destruct w as [m io]. cbn [w_mem w_io].
  intros Ho Hd Hfail HQ. unfold Mqtt_SendPkt. cbn [buffered_bytes response_buf first_ext].
  change (4 <=? 0) with false. cbv iota. unfold response_cells, hdr_cells in Ho. simpl in Ho.
  wp_lift. simpl. wp_ret. wp_lift. simpl. wp_bind. unfold get_next.
  eapply wp_load_ptr; [exact Ho|simpl; perm_find|]. simpl. wp_ret.
  change (0 + 1 =? 0) with false. cbv iota. wp_lift.
  change (u32 (sizeof_iovec * (0 + 1))) with 8.
  eapply wp_malloc; [exact Ho| |].
  { intros m' Ho' Hom. simpl. wp_ret. apply Hfail; [|by eexists].
    eapply owns_perm; [|exact Ho']. simpl. solve_Permutation. }
  clear m Ho. intros b m Ho. cbn [is_null].
  change (replicate (Z.to_nat 8) Undef) with (replicate 4 Undef ++ replicate 4 Undef) in Ho.
  rewrite owns_split in Ho. simpl in Ho. change (Z.to_nat 8) with 8%nat in Ho.
  wp_lift. eapply wp_get_payload; [exact Ho|simpl; perm_find|]. change (0 - 0) with 0.
  rewrite padd_0. wp_lift.
  eapply wp_write_cell; [exact Ho|perm_find|done|]. clear m Ho. intros m Ho. wp_lift.
  eapply wp_load_u32; [exact Ho|perm_find|done|]. change (u32 (4 - 0)) with 4. wp_lift.
  eapply wp_write_cell; [exact Ho|simpl; perm_find|done|]. clear m Ho. intros m Ho. wp_lift.
  eapply wp_load_ptr; [exact Ho|simpl; perm_find|]. wp_lift. simpl. wp_ret. wp_lift.
  change (Z.to_nat (0 + 1)) with 1%nat. simpl. wp_bind.
  eapply wp_load_ptr; [exact Ho|simpl; perm_find|]. wp_bind.
  eapply wp_load_u32; [exact Ho|simpl; perm_find|done|]. wp_bind.
  eapply (wp_readn _ _ _ (Ptr c 12) data 0 4); [exact Ho|perm_find|done|done|done|lia|].
  rewrite take_ge by (unfold Zlen in Hd; change (Z.to_nat 0) with 0%nat; rewrite drop_0; lia).
  change (Z.to_nat 0) with 0%nat. rewrite drop_0. wp_pure. rewrite app_nil_r.
  apply wp_call. cbn [w_mem w_io]. wp_lift.
  eapply (wp_free _ _ _ b (enc_ptr (Ptr c 12) ++ enc_u32 4) (response_cells a c data tl ++ L));
    [|reflexivity|].
  { rewrite length_app, length_enc_ptr. change (4 + length (enc_u32 4))%nat with 8%nat.
    rewrite owns_split. eapply owns_perm; [|exact Ho]. unfold response_cells, hdr_cells. simpl.
    change (Zlen (enc_ptr (Ptr c 12))) with 4. solve_Permutation. }
  clear m Ho. intros m Ho. wp_ret. by apply HQ.
Qed.

(** The outcome of a reply: nothing was sent and the result is an error,
    which only happens when memory ran out, or the reply was handed to
    writev once and the result tells whether all of it was taken. *)
Definition reply_spec (data : list memval) (io : list event) (r : Z) (io' : list event) : Prop :=
  (oom_seen om /\ io' = io /\ r < 0) \/
  (io' = io ++ [EvWritev data] /\
   r = if u32 (cb io (EvWritev data)) =? 4 then MQTTERR_NOERROR else MQTTERR_FAILED_SEND_RESPONSE).

Lemma wp_respond_destroy m io a c data tl L (Q : Z -> world -> Prop) :
  owns om m (response_cells a c data tl ++ L) -> Zlen data = 4 -> Zlen tl = 1008 ->
  (forall m' r io', owns om m' L -> reply_spec data io r io' -> Q r (World m' io')) ->
  wp (err ← Mqtt_respond cb fuel MQTTERR_NOERROR (response_buf a c);
      _ ← lift (MqttBuffer_Destroy (response_buf a c)); mret err) (World m io) Q.
Proof using fuel_ok.
  intros Ho Hd Htl HQ. wp_bind. unfold Mqtt_respond.
  change (MQTTERR_NOERROR =? MQTTERR_NOERROR) with true. cbn [negb]. wp_bind.
  eapply wp_SendPkt_response; [exact Ho|done| |]; cbn [w_io buffered_bytes response_buf].
  - intros m' Ho' Hoom. change (u32 MQTTERR_OUTOFMEMORY =? 4) with false. cbn [negb]. wp_ret.
    wp_lift. eapply wp_destroy_response; [exact Ho'|done|done|].
    intros m2 Ho2. wp_ret. apply HQ; [done|]. by left.
  - intros m' Ho'. destruct (u32 _ =? 4) eqn:Hr; cbn [negb]; wp_ret; wp_lift;
      (eapply wp_destroy_response; [exact Ho'|done|done|]);
      intros m2 Ho2; wp_ret; (apply HQ; [done|]); right; by rewrite Hr.
Qed.
End respond.

(** ** Delivering a publish packet *)

(** The callback that a topic selects; none for the other system topics. *)
Definition publish_event (cmdid : option (list Z)) (topic : list Z) (payload : list memval)
    (pkt_id dup qos : Z) : option event :=
  if default 0 (head topic) =? 36 then
    if starts_with CMD_TOPIC_PREFIX topic
    then Some (EvCmd pkt_id cmdid 0 [] payload dup qos) else None
  else Some (EvPublish pkt_id topic payload dup qos).

Section deliver.
Context (om : nat -> bool) (cb : list event -> event -> Z) (fuel : nat).
Hypothesis fuel_ok : (2 <= fuel)%nat.

(** The acknowledgement of a publish packet, by its QoS. *)
Definition publish_ack (qos pkt_id : Z) : list memval :=
  bytes (ack_packet (if qos =? 2 then 0x50 else 0x40) pkt_id).

Definition publish_reply_spec (err qos pkt_id : Z) (io : list event) (r : Z) (io' : list event)
    : Prop :=
  if qos =? 0 then r = err /\ io' = io
  else reply_spec om cb (publish_ack qos pkt_id) io r io'.

Lemma wp_publish_reply m io err qos pkt_id L (Q : Z -> world -> Prop) :
  owns om m L -> 0 <= qos <= 2 -> (qos = 0 \/ pkt_id <> 0) ->
  (forall m' r io', owns om m' L -> publish_reply_spec err qos pkt_id io r io' ->
     Q r (World m' io')) ->
  wp (Mqtt_publish_reply cb fuel err qos pkt_id) (World m io) Q.
Proof using fuel_ok.
  intros Ho Hq Hid HQ. unfold Mqtt_publish_reply, publish_reply_spec, publish_ack in *.
  unfold MQTT_QOS_LEVEL0, MQTT_QOS_LEVEL1, MQTT_QOS_LEVEL2.
  destruct (Z.eqb_spec qos 0) as [->|Hq0].
  { cbn [Z.eqb negb andb]. change (0 =? 2) with false. change (0 =? 1) with false. cbv iota.
    wp_pure. rewrite andb_false_r. wp_pure. unfold MqttBuffer_Destroy, MqttBuffer_Reset.
    apply wp_lift. simpl. wp_pure. apply wp_free_null. wp_pure. by apply HQ. }
  destruct Hid as [|Hid]; [done|]. assert (qos = 1 \/ qos = 2) as Hq12 by lia.
  assert (forall head, 0 <= head < 256 -> (if qos =? 2 then 0x50 else 0x40) = head ->
    wp ('(err, response) ← lift ('(ext, buf) ← MqttBuffer_AllocExtent MqttBuffer_Init 4;
          if is_null ext then mret (MQTTERR_OUTOFMEMORY, buf) else Mqtt_fill_ack buf ext head pkt_id);
        err ← (if (err =? MQTTERR_NOERROR) && negb false then Mqtt_respond cb fuel err response
               else if negb false then mret MQTTERR_FAILED_SEND_RESPONSE else mret err);
        _ ← lift (MqttBuffer_Destroy response); mret err) (World m io) Q) as Hgo.
  { intros head Hh Hhd. rewrite Hhd in HQ. wp_lift. eapply wp_pack_response; [exact Ho|done| |].
    - intros m' buf' Hoom Hd. change (MQTTERR_OUTOFMEMORY =? MQTTERR_NOERROR) with false.
      cbn [andb negb]. wp_pure. apply wp_lift. cbn [w_mem w_io]. eapply wp_mono; [exact Hd|].
      intros [] m2 Ho2. wp_pure. apply HQ; [done|]. by left.
    - intros a c m' tl Htl Ho'. change (MQTTERR_NOERROR =? MQTTERR_NOERROR) with true.
      cbn [andb negb]. eapply wp_respond_destroy; [exact fuel_ok|exact Ho'|done|done|].
      intros m2 r io' Ho2 Hr. by apply HQ. }
  destruct Hq12 as [-> | ->]; simpl; unfold Mqtt_PackPubRecPkt, Mqtt_PackPubAckPkt;
    (destruct (Z.eqb_spec pkt_id 0); [done|]); apply Hgo; done.
Qed.

(** From the checks on the topic to the reply. *)
Lemma wp_publish_deliver m io p l kt t kp pl pkt_id dup qos L (Q : Z -> world -> Prop) :
  owns om m (p ↦ bytes l :: L) -> Forall is_byte l -> 0 <= kt <= Zlen l -> 0 <= kp ->
  has_bytes (bytes l) kt (t ++ [0]) -> Forall is_byte t -> has_bytes (bytes l) kp pl ->
  kp <= Zlen l -> 0 <= qos <= 2 -> (qos = 0 \/ pkt_id <> 0) ->
  (forall r, (check_utf8 (Z.to_nat (Zlen t)) (t ++ [0]) 0 (Zlen t) <> Zlen t \/
              topic_name (until0 t) = false) -> r = MQTTERR_ILLEGAL_PKT -> Q r (World m io)) ->
  (check_utf8 (Z.to_nat (Zlen t)) (t ++ [0]) 0 (Zlen t) = Zlen t ->
   topic_name (until0 t) = true ->
   forall cmdid, ((6 <= length (until0 t))%nat -> cmdid = Some (drop 6 (until0 t))) ->
     match publish_event cmdid (until0 t) (bytes pl) pkt_id dup qos with
     | None => forall m' r io', owns om m' (p ↦ bytes l :: L) ->
                 publish_reply_spec 0 qos pkt_id io r io' -> Q r (World m' io')
     | Some e => forall m' r io', owns om m' (p ↦ bytes l :: L) ->
         (if 0 <=? cb io e then publish_reply_spec (cb io e) qos pkt_id (io ++ [e]) r io'
          else r = cb io e /\ io' = io ++ [e]) -> Q r (World m' io')
     end) ->
  wp (r ← lift (Mqtt_CheckUtf8 (padd p kt) (Zlen t));
      if negb (r =? Zlen t) then mret MQTTERR_ILLEGAL_PKT else
      m ← lift get;
      scanned ← lift (Mqtt_topic_scan (room m (padd p kt)) (padd p kt) 0);
      if negb (bool_decide (is_Some scanned)) then mret MQTTERR_ILLEGAL_PKT else
      err ← Mqtt_publish_callback cb (padd p kt) (padd p kp) (Zlen pl) pkt_id dup qos;
      if 0 <=? err then Mqtt_publish_reply cb fuel err qos pkt_id else mret err) (World m io) Q.
Proof using fuel_ok.
  intros Ho Hl Hkt Hkp Ht Htb Hpl Hkp' Hq Hid Hbad Hgood.
  pose proof (Zlen_bytes l) as Hzl.
  assert (cstring (bytes l) kt (until0 t)) as Hs by (by apply until0_cstring).
  wp_lift. eapply (wp_CheckUtf8 _ _ _ p (bytes l) kt (t ++ [0]));
    [exact Ho|reflexivity|lia|done|by zlen|done|].
  destruct (Z.eqb_spec (check_utf8 (Z.to_nat (Zlen t)) (t ++ [0]) 0 (Zlen t)) (Zlen t)) as [Hu|Hu];
    cbn [negb]; [|wp_ret; by apply Hbad; [left|]].
  wp_lift. eapply wp_run; [done|]. wp_lift.
  eapply (wp_topic_scan _ _ _ p (bytes l) kt (until0 t));
    [exact Ho|reflexivity|lia|done|done|].
  destruct (topic_name (until0 t)) eqn:Htn; cycle 1.
  { rewrite bool_decide_eq_false_2 by (by intros [? ?]). cbn [negb]. wp_ret.
    by apply Hbad; [right|]. }
  rewrite bool_decide_eq_true_2 by done. cbn [negb]. specialize (Hgood Hu eq_refl).
  unfold Mqtt_publish_callback. wp_bind.
  assert (exists c, (until0 t ++ [0]) !! 0%nat = Some c /\
    (c =? 36) = (default 0 (head (until0 t)) =? 36)) as (c & Hc & Hc36)
    by (destruct (until0 t); by eexists).
  wp_lift. eapply (wp_load_at _ _ _ p (bytes l) kt (until0 t ++ [0]) 0);
    [exact Ho|reflexivity|lia|apply Hs|done|exact Hc|by rewrite Z.add_0_r|].
  wp_lift. eapply (wp_getstr _ _ _ p (bytes l) kt); [exact Ho|reflexivity|lia|done|done|].
  assert (forall (k : list memval -> M world Z) Q', wp (k (bytes pl)) (World m io) Q' ->
    wp (data ← lift (readn (padd p kp) (Zlen pl)); k data) (World m io) Q') as Hread.
  { intros k Q' Hk. wp_lift. pose proof (has_bytes_len (bytes l) kp pl ltac:(lia) Hpl).
    eapply (wp_readn _ _ _ p (bytes l) kp); [exact Ho|reflexivity|done|lia|apply Zlen_nonneg|lia|].
    by rewrite (has_bytes_take _ _ _ _ Hpl). }
  assert (forall e, (forall m' r io', owns om m' (p ↦ bytes l :: L) ->
      (if 0 <=? cb io e then publish_reply_spec (cb io e) qos pkt_id (io ++ [e]) r io'
       else r = cb io e /\ io' = io ++ [e]) -> Q r (World m' io')) ->
    wp (call cb e) (World m io) (fun err w' =>
      wp (if 0 <=? err then Mqtt_publish_reply cb fuel err qos pkt_id else mret err) w' Q)) as Hcall.
  { intros e HQ. apply wp_call. cbn [w_mem w_io]. destruct (0 <=? cb io e).
    - eapply wp_publish_reply; [exact Ho|done|done|exact HQ].
    - wp_ret. by apply HQ. }
  unfold publish_event in Hgood. rewrite Hc36.
  destruct (default 0 (head (until0 t)) =? 36).
  - destruct (starts_with CMD_TOPIC_PREFIX (until0 t)) eqn:Hcmd.
    + wp_lift. eapply wp_run; [done|]. apply Hread. apply Hcall.
      apply (Hgood (cstr m (padd (padd p kt) (CMD_TOPIC_PREFIX_LEN + 1)))).
      intros H6. rewrite padd_padd. eapply owns_cstr; [exact Ho|reflexivity
        |unfold CMD_TOPIC_PREFIX_LEN; lia|]. destruct Hs as [Hs1 Hs2]. split.
      * rewrite <-(take_drop 6 (until0 t)), <-(assoc_L (++)) in Hs1.
        apply has_bytes_app in Hs1 as [_ Hs1]; [|lia].
        assert (Zlen (take 6 (until0 t)) = 6) as H6' by (unfold Zlen; rewrite length_take; lia).
        by rewrite H6' in Hs1.
      * by apply Forall_drop.
    + wp_ret. change (0 <=? MQTTERR_NOERROR) with true. cbv iota.
      eapply wp_publish_reply; [exact Ho|done|done|]. by apply (Hgood (Some (drop 6 (until0 t)))).
  - apply Hread. apply Hcall. by apply (Hgood (Some (drop 6 (until0 t)))).
Qed.
End deliver.

(** ** The publish handler *)

Lemma be16_split hi lo : is_byte hi -> is_byte lo ->
  be16 (Z.lor (Z.shiftl hi 8) lo) = [hi; lo] /\ 0 <= Z.lor (Z.shiftl hi 8) lo < 65536.
Proof.
  unfold is_byte, be16. intros Hh Hl. rewrite lor_shiftl_add by lia. change (2 ^ 8) with 256.
  rewrite shiftr_8. unfold u8. change (2 ^ 8) with 256.
  split; [|lia]. rewrite Z.div_add_l, (Z.div_small lo), Z.add_0_r by lia.
  rewrite (Z.mod_small hi) by lia. rewrite Z.add_comm, Z_mod_plus_full, Z.mod_small by lia. done.
Qed.

Lemma publish_flags flags : 0 <= flags < 16 ->
  0 <= Z.shiftr (Z.land flags 6) 1 <= 3 /\ (Z.land flags 1 = 0 \/ Z.land flags 1 = 1).
Proof.
  intros Hf. assert (((0 <=? Z.shiftr (Z.land flags 6) 1) && (Z.shiftr (Z.land flags 6) 1 <=? 3) &&
    ((Z.land flags 1 =? 0) || (Z.land flags 1 =? 1))) = true) as H; [|lia].
  revert flags Hf. by apply (range_forall 16 (fun flags =>
    (0 <=? Z.shiftr (Z.land flags 6) 1) && (Z.shiftr (Z.land flags 6) 1 <=? 3) &&
    ((Z.land flags 1 =? 0) || (Z.land flags 1 =? 1)))).
Qed.

Lemma is_byte_be16 v : Forall is_byte (be16 v).
Proof. repeat constructor; apply u8_range. Qed.

(** A publish packet without its fixed header. *)
Definition publish_body (qos pkt_id : Z) (t pl : list Z) : list Z :=
  be16 (Zlen t) ++ t ++ (if qos =? 0 then [] else be16 pkt_id) ++ pl.

Section publish.
Context (om : nat -> bool).

Lemma wp_publish_fields0 m p t pl L (Q : option (ptr * ptr * Z * Z) -> mem -> Prop) :
  let l := publish_body 0 0 t pl in
  owns om m (p ↦ bytes l :: L) ->
  (forall m', owns om m' (p ↦ bytes (t ++ drop (length t) l) :: L) ->
     Q (Some (p, padd p (2 + Zlen t), Zlen pl, 0)) m') ->
  wp (Mqtt_publish_fields 0 0 p (Zlen l) (Zlen t)) m Q.
Proof.
  intros l Ho HQ. unfold Mqtt_publish_fields. cbn [negb Z.eqb MQTT_QOS_LEVEL0].
  change (0 =? MQTT_QOS_LEVEL0) with true. change (0 =? 0) with true. cbn [negb]. wp_bind.
  assert (Zlen l = 2 + Zlen t + Zlen pl) as Hlen
    by (unfold l, publish_body; rewrite !Zlen_app; change (Zlen (be16 (Zlen t))) with 2;
        change (Zlen (if 0 =? 0 then [] else be16 0)) with 0; lia).
  pose proof (Zlen_bytes l). pose proof (Zlen_nonneg t). pose proof (Zlen_nonneg pl).
  eapply (wp_memmove_in _ _ _ p (bytes l) 0 2); [exact Ho|reflexivity|done|done|lia|lia|lia
    |by rewrite padd_0|done|].
  assert (has_bytes (bytes l) 2 t) as Ht.
  { exists (bytes pl). unfold l, publish_body. rewrite !bytes_app. done. }
  clear m Ho. intros m Ho. wp_ret. rewrite (has_bytes_take _ _ _ _ Ht), splice_bytes in Ho by done.
  replace (Zlen l - 2 - Zlen t) with (Zlen pl) by lia. by apply HQ.
Qed.

Lemma wp_publish_fields12 m p t pl qos pkt_id dup L (Q : option (ptr * ptr * Z * Z) -> mem -> Prop) :
  let l := publish_body qos pkt_id t pl in
  owns om m (p ↦ bytes l :: L) -> qos = 1 \/ qos = 2 -> 0 < pkt_id < 65536 ->
  Q (Some (padd p 2, padd p (4 + Zlen t), Zlen pl, pkt_id)) m ->
  wp (Mqtt_publish_fields qos dup p (Zlen l) (Zlen t)) m Q.
Proof.
  intros l Ho Hq Hid HQ. unfold Mqtt_publish_fields.
  assert ((qos =? 0) = false) as Hq0 by lia.
  assert (Zlen l = 4 + Zlen t + Zlen pl) as Hlen.
  { unfold l, publish_body. rewrite Hq0, !Zlen_app. change (Zlen (be16 _)) with 2. lia. }
  pose proof (Zlen_nonneg t). pose proof (Zlen_nonneg pl).
  replace (qos =? MQTT_QOS_LEVEL0) with false. cbv iota.
  replace ((qos =? MQTT_QOS_LEVEL1) || (qos =? MQTT_QOS_LEVEL2)) with true
    by (unfold MQTT_QOS_LEVEL1, MQTT_QOS_LEVEL2; lia).
  destruct (Z.ltb_spec (Zlen l) (Zlen t + 4)); [lia|]. wp_bind.
  assert (has_bytes (bytes l) (Zlen t + 2) (be16 pkt_id)) as Hb.
  { exists (bytes pl). unfold l, publish_body. rewrite Hq0, (assoc_L (++)), bytes_app.
    rewrite drop_app_length'; [by rewrite bytes_app|]. unfold bytes, Zlen.
    rewrite length_map, length_app. change (length (be16 _)) with 2%nat. lia. }
  eapply (wp_RB16 _ _ _ p (bytes l) (Zlen t + 2)); [exact Ho|reflexivity|lia|exact Hb|done|].
  rewrite be16_join by lia. destruct (Z.eqb_spec pkt_id 0); [lia|]. wp_ret.
  replace (Zlen l - 4 - Zlen t) with (Zlen pl) by lia. done.
Qed.
Context (cb : list event -> event -> Z) (fuel : nat).
Hypothesis fuel_ok : (2 <= fuel)%nat.

(** What happens to a well-formed packet: [l'] is the packet after the
    topic was given its terminator. *)
Definition publish_outcome (p : ptr) (len : Z) (io : list event) (t pl : list Z)
    (pkt_id dup qos : Z) (L : list cell) (Q : Z -> world -> Prop) : Prop :=
  (forall m' l', Zlen l' = len -> Forall is_byte l' -> owns om m' (p ↦ bytes l' :: L) ->
     check_utf8 (Z.to_nat (Zlen t)) (t ++ [0]) 0 (Zlen t) <> Zlen t \/
     topic_name (until0 t) = false -> Q MQTTERR_ILLEGAL_PKT (World m' io)) /\
  (check_utf8 (Z.to_nat (Zlen t)) (t ++ [0]) 0 (Zlen t) = Zlen t ->
   topic_name (until0 t) = true ->
   forall cmdid, ((6 <= length (until0 t))%nat -> cmdid = Some (drop 6 (until0 t))) ->
     match publish_event cmdid (until0 t) (bytes pl) pkt_id dup qos with
     | None => forall m' l' r io', Zlen l' = len -> Forall is_byte l' ->
                 owns om m' (p ↦ bytes l' :: L) ->
                 publish_reply_spec om cb 0 qos pkt_id io r io' -> Q r (World m' io')
     | Some e => forall m' l' r io', Zlen l' = len -> Forall is_byte l' ->
                 owns om m' (p ↦ bytes l' :: L) ->
         (if 0 <=? cb io e then publish_reply_spec om cb (cb io e) qos pkt_id (io ++ [e]) r io'
          else r = cb io e /\ io' = io ++ [e]) -> Q r (World m' io')
     end).

Lemma publish_outcome_deliver m io p l len kt tq t kp pl pkt_id dup qos L Q :
  owns om m (p ↦ bytes l :: L) -> Forall is_byte l -> 0 <= kt <= Zlen l -> 0 <= kp ->
  has_bytes (bytes l) kt (t ++ [0]) -> Forall is_byte t -> has_bytes (bytes l) kp pl ->
  kp <= Zlen l -> 0 <= qos <= 2 -> (qos = 0 \/ pkt_id <> 0) -> len = Zlen l -> tq = padd p kt ->
  publish_outcome p len io t pl pkt_id dup qos L Q ->
  wp (r ← lift (Mqtt_CheckUtf8 tq (Zlen t));
      if negb (r =? Zlen t) then mret MQTTERR_ILLEGAL_PKT else
      m ← lift get;
      scanned ← lift (Mqtt_topic_scan (room m tq) tq 0);
      if negb (bool_decide (is_Some scanned)) then mret MQTTERR_ILLEGAL_PKT else
      err ← Mqtt_publish_callback cb tq (padd p kp) (Zlen pl) pkt_id dup qos;
      if 0 <=? err then Mqtt_publish_reply cb fuel err qos pkt_id else mret err) (World m io) Q.
Proof using fuel_ok.
  intros Ho Hl Hkt Hkp Ht Htb Hpl Hkp' Hq Hid -> -> [Hbad Hgood].
  eapply wp_publish_deliver; [exact fuel_ok|exact Ho|done..| |].
  - intros r Hr ->. by eapply Hbad.
  - intros Hu Htn cmdid Hc. specialize (Hgood Hu Htn cmdid Hc).
    destruct (publish_event _ _ _ _ _ _); intros m' r io' Ho'; by apply (Hgood m' l).
Qed.


(** The terminator is written behind the topic. *)
Lemma has_bytes_drop l k x : drop (Z.to_nat k) l = x -> has_bytes (bytes l) k x.
Proof. intros <-. exists []. rewrite app_nil_r. unfold bytes. apply skipn_map. Qed.

Lemma wp_HandlePublish_body m io p flags t pl qos pkt_id L (Q : Z -> world -> Prop) :
  let l := publish_body qos pkt_id t pl in
  owns om m (p ↦ bytes l :: L) -> Forall is_byte t -> Forall is_byte pl -> Zlen t < 65536 ->
  Z.land flags 1 = 0 -> Z.shiftr (Z.land flags 6) 1 = qos -> 0 <= qos <= 2 ->
  (if qos =? 0 then pkt_id = 0 /\ Z.land flags 8 = 0 else 0 < pkt_id < 65536) ->
  publish_outcome p (Zlen l) io t pl pkt_id (Z.land flags 8) qos L Q ->
  wp (Mqtt_HandlePublish cb fuel flags p (Zlen l)) (World m io) Q.
Proof using fuel_ok.
  intros l Ho Ht Hpl Htl Hret Hqos Hq Hid HQ. unfold Mqtt_HandlePublish.
  pose proof (Zlen_nonneg t). pose proof (Zlen_nonneg pl). rewrite Hret, Hqos. clear Hqos.
  assert (exists r, l = be16 (Zlen t) ++ t ++ r) as [r Hr] by (by eexists).
  assert (2 + Zlen t <= Zlen l) as Hll
    by (rewrite Hr, !Zlen_app; change (Zlen (be16 _)) with 2; pose proof (Zlen_nonneg r); lia).
  destruct (Z.ltb_spec (Zlen l) 2); [lia|]. change (negb (0 =? 0)) with false. cbv iota.
  wp_lift. eapply (wp_RB16 _ _ _ p (bytes l) 0 (u8 (Z.shiftr (Zlen t) 8)) (u8 (Zlen t)) (t ++ r));
    [exact Ho|reflexivity|done|apply has_bytes_drop; by rewrite Hr|by rewrite padd_0|].
  rewrite be16_join by lia. destruct (Z.ltb_spec (Zlen l) (2 + Zlen t)); [lia|]. wp_lift.
  assert (Forall is_byte l) as Hlb.
  { unfold l, publish_body. repeat apply Forall_app_2; try done; [apply is_byte_be16|].
    destruct (qos =? 0); [constructor|apply is_byte_be16]. }
  destruct (Z.eqb_spec qos 0) as [Hq0|Hq0].
  - destruct Hid as [-> Hd]. rewrite Hd in *. subst qos.
    eapply (wp_publish_fields0 m p t pl L); [exact Ho|]. clear m Ho. intros m Ho.
    fold l in Ho. set (l1 := t ++ drop (length t) l) in *.
    assert (Zlen l1 = Zlen l) as Hl1
      by (unfold l1, Zlen in *; rewrite length_app, length_drop; lia).
    wp_lift. eapply wp_store_byte; [exact Ho|reflexivity|done|rewrite Zlen_bytes; lia|].
    clear m Ho. intros m Ho. change [Byte 0] with (bytes [0]) in Ho. rewrite splice_bytes in Ho.
    set (l2 := take _ l1 ++ _) in *.
    assert (l2 = t ++ 0 :: drop 1 (drop (length t) l)) as Hl2.
    { unfold l2, l1, Zlen. rewrite Nat2Z.id, take_app_length. f_equal. simpl. f_equal.
      rewrite drop_app_ge by lia. f_equal. lia. }
    assert (Zlen l2 = Zlen l) as Hl2z.
    { rewrite Hl2. unfold Zlen in *. rewrite length_app, length_cons, !length_drop. lia. }
    eapply (publish_outcome_deliver m io p l2 (Zlen l) 0 p t (2 + Zlen t) pl);
      [exact Ho| |lia|lia| |done| |lia|lia|by left|done|by rewrite padd_0|exact HQ].
    + rewrite Hl2. apply Forall_app_2; [done|]. constructor; [unfold is_byte; lia|].
      by repeat apply Forall_drop.
    + rewrite Hl2. exists (bytes (drop 1 (drop (length t) l))).
      change (drop (Z.to_nat 0) (bytes _)) with (bytes (t ++ 0 :: drop 1 (drop (length t) l))).
      by rewrite !bytes_app, <-(assoc_L (++)).
    + apply has_bytes_drop. rewrite Hl2. unfold Zlen.
      rewrite drop_app_ge by lia. replace (Z.to_nat _ - length t)%nat with 2%nat by lia.
      simpl. rewrite drop_drop, drop_drop. unfold l, publish_body. simpl.
      replace (length t + 2)%nat with (S (S (length t))) by lia. simpl. by rewrite drop_app_length.
  - assert (l = (be16 (Zlen t) ++ t) ++ u8 (Z.shiftr pkt_id 8) :: u8 pkt_id :: pl) as Hl.
    { unfold l, publish_body. destruct (Z.eqb_spec qos 0); [done|]. by rewrite <-(assoc_L (++)). }
    assert (Zlen l = 4 + Zlen t + Zlen pl) as Hlz.
    { rewrite Hl, !Zlen_app, !Zlen_cons. change (Zlen (be16 (Zlen t))) with 2. lia. }
    eapply (wp_publish_fields12 m p t pl qos pkt_id _ L); [exact Ho|lia|done|].
    wp_lift. rewrite padd_padd.
    eapply wp_store_byte; [exact Ho|reflexivity|done|rewrite Zlen_bytes; lia|].
    clear m Ho. intros m Ho. change [Byte 0] with (bytes [0]) in Ho. rewrite splice_bytes in Ho.
    set (l2 := take _ l ++ _) in *.
    assert (length (be16 (Zlen t) ++ t) = Z.to_nat (2 + Zlen t)) as Hlen.
    { rewrite length_app. unfold Zlen. simpl. lia. }
    assert (l2 = be16 (Zlen t) ++ t ++ 0 :: u8 pkt_id :: pl) as Hl2.
    { unfold l2. rewrite Hl, <-Hlen, take_app_length, drop_app_ge by (simpl; lia).
      simpl length. replace (_ + 1 - _)%nat with 1%nat by lia. by rewrite <-(assoc_L (++)). }
    assert (Zlen l2 = Zlen l) as Hl2z.
    { rewrite Hl2, Hl, !Zlen_app, !Zlen_cons. lia. }
    assert (Zlen l2 = 4 + Zlen t + Zlen pl) as Hl2z'.
    { rewrite Hl2, !Zlen_app, !Zlen_cons. change (Zlen (be16 (Zlen t))) with 2. lia. }
    eapply (publish_outcome_deliver m io p l2 (Zlen l) 2 (padd p 2) t (4 + Zlen t) pl);
      [exact Ho| |lia|lia| |done| |lia|lia|right; lia|done|done|exact HQ].
    + rewrite Hl2. repeat apply Forall_app_2; try done; [apply is_byte_be16|].
      constructor; [unfold is_byte; lia|]. constructor; [apply u8_range|done].
    + exists (bytes (u8 pkt_id :: pl)). rewrite Hl2.
      change (drop (Z.to_nat 2) (bytes _)) with (bytes (t ++ 0 :: u8 pkt_id :: pl)).
      by rewrite !bytes_app, <-(assoc_L (++)).
    + apply has_bytes_drop. rewrite Hl2, (assoc_L (++)). rewrite drop_app_ge by lia.
      replace (Z.to_nat _ - _)%nat with 2%nat by lia. done.
Qed.

(** What is known of any run: the packet keeps its place and length, and
    events are only added. *)
Definition safe_after (p : ptr) (len : Z) (io : list event) (L : list cell) (w : world) : Prop :=
  (exists l', Zlen l' = len /\ Forall is_byte l' /\ owns om (w_mem w) (p ↦ bytes l' :: L)) /\
  exists es, w_io w = io ++ es.

Lemma safe_here m io p l L : owns om m (p ↦ bytes l :: L) -> Forall is_byte l ->
  safe_after p (Zlen l) io L (World m io).
Proof. intros Ho Hl. split; [by exists l|]. exists []. by rewrite app_nil_r. Qed.

Lemma reply_spec_extends data io r io' : reply_spec om cb data io r io' -> exists es, io' = io ++ es.
Proof.
  intros [(_ & -> & _)|[-> _]]; [exists []; by rewrite app_nil_r|by eexists].
Qed.

Lemma publish_reply_extends err qos pkt_id io r io' :
  publish_reply_spec om cb err qos pkt_id io r io' -> exists es, io' = io ++ es.
Proof.
  unfold publish_reply_spec. destruct (qos =? 0); [|apply reply_spec_extends].
  intros [_ ->]. exists []. by rewrite app_nil_r.
Qed.

Lemma publish_outcome_safe p len io t pl pkt_id dup qos L (Q : Z -> world -> Prop) :
  (forall r w, safe_after p len io L w -> Q r w) -> publish_outcome p len io t pl pkt_id dup qos L Q.
Proof.
  intros HQ. split.
  - intros m' l' Hl Hb Ho _. apply HQ. rewrite <-Hl. by apply safe_here.
  - intros _ _ cmdid _. destruct (publish_event _ _ _ _ _ _) as [e|].
    + intros m' l' r io' Hl Hb Ho Hr. apply HQ. split; [by exists l'|]. cbn [w_io].
      destruct (0 <=? cb io e).
      * apply publish_reply_extends in Hr as [es ->]. eexists. by rewrite <-(assoc_L (++)).
      * destruct Hr as [_ ->]. by eexists.
    + intros m' l' r io' Hl Hb Ho Hr. apply HQ. split; [by exists l'|].
      by apply publish_reply_extends in Hr.
Qed.

Lemma wp_HandlePublish_fields m io p flags hi lo l L (Q : Z -> world -> Prop) :
  let tl := Z.lor (Z.shiftl hi 8) lo in let pkt := hi :: lo :: l in
  owns om m (p ↦ bytes pkt :: L) -> Z.land flags 1 = 0 -> tl <= Zlen l ->
  (forall Q', Q' None m ->
     wp (Mqtt_publish_fields (Z.shiftr (Z.land flags 6) 1) (Z.land flags 8) p (Zlen pkt) tl) m Q') ->
  Q MQTTERR_ILLEGAL_PKT (World m io) -> wp (Mqtt_HandlePublish cb fuel flags p (Zlen pkt)) (World m io) Q.
Proof using fuel_ok.
  intros tl pkt Ho Hret Hl Hf HQ. unfold Mqtt_HandlePublish. rewrite Hret.
  assert (Zlen pkt = 2 + Zlen l) as Hz by (unfold pkt; rewrite !Zlen_cons; lia).
  destruct (Z.ltb_spec (Zlen pkt) 2); [pose proof (Zlen_nonneg l); lia|].
  change (negb (0 =? 0)) with false. cbv iota. wp_lift.
  eapply (wp_RB16 _ _ _ p (bytes pkt) 0 hi lo l);
    [exact Ho|reflexivity|done|by apply has_bytes_drop|by rewrite padd_0|]. fold tl.
  destruct (Z.ltb_spec (Zlen pkt) (2 + tl)); [lia|]. wp_lift. apply Hf. by wp_ret.
Qed.

(** The handler is safe on every packet. *)
Lemma wp_HandlePublish_safe m io p flags l L (Q : Z -> world -> Prop) :
  owns om m (p ↦ bytes l :: L) -> Forall is_byte l -> 0 <= flags < 16 ->
  (forall r w, safe_after p (Zlen l) io L w -> Q r w) ->
  wp (Mqtt_HandlePublish cb fuel flags p (Zlen l)) (World m io) Q.
Proof using fuel_ok.
  intros Ho Hl Hf HQ. pose proof (safe_here m io p l L Ho Hl) as Hsafe.
  destruct (publish_flags flags Hf) as [Hq Hret].
  destruct l as [|hi [|lo l]]; try (unfold Mqtt_HandlePublish; simpl; wp_ret; by apply HQ).
  apply Forall_cons in Hl as [Hhi [Hlo Hl]%Forall_cons].
  destruct (be16_split hi lo Hhi Hlo) as [Hbe Htl]. set (tl := Z.lor _ lo) in *.
  set (pkt := hi :: lo :: l) in *.
  assert (Zlen pkt = 2 + Zlen l) as Hz by (unfold pkt; rewrite !Zlen_cons; lia).
  pose proof (Zlen_nonneg l). destruct Hret as [Hret|Hret]; cycle 1.
  { unfold Mqtt_HandlePublish. rewrite Hret.
    destruct (Z.ltb_spec (Zlen pkt) 2); wp_ret; by apply HQ. }
  destruct (decide (tl <= Zlen l)) as [Hle|Hle]; cycle 1.
  { unfold Mqtt_HandlePublish. rewrite Hret. destruct (Z.ltb_spec (Zlen pkt) 2); [lia|].
    change (negb (0 =? 0)) with false. cbv iota. wp_lift.
    eapply (wp_RB16 _ _ _ p (bytes pkt) 0 hi lo l);
      [exact Ho|reflexivity|done|by apply has_bytes_drop|by rewrite padd_0|]. fold tl.
    destruct (Z.ltb_spec (Zlen pkt) (2 + tl)); [|lia]. wp_ret. by apply HQ. }
  set (t := take (Z.to_nat tl) l). set (rest := drop (Z.to_nat tl) l).
  assert (Zlen t = tl) as Ht by (unfold t, Zlen in *; rewrite length_take; lia).
  assert (Zlen rest = Zlen l - tl) as Hrest by (unfold rest, Zlen in *; rewrite length_drop; lia).
  assert (pkt = be16 (Zlen t) ++ t ++ rest) as Hpkt.
  { rewrite Ht, Hbe. unfold t, rest. by rewrite take_drop. }
  assert (Forall is_byte t) as Htb by (by apply Forall_take).
  assert (Forall is_byte rest) as Hrb by (by apply Forall_drop).
  set (qos := Z.shiftr (Z.land flags 6) 1) in *.
  assert (forall pl pkt_id, pkt = publish_body qos pkt_id t pl -> Forall is_byte pl -> qos <= 2 ->
    (if qos =? 0 then pkt_id = 0 /\ Z.land flags 8 = 0 else 0 < pkt_id < 65536) ->
    wp (Mqtt_HandlePublish cb fuel flags p (Zlen pkt)) (World m io) Q) as Hbody.
  { intros pl pkt_id Heq Hpl Hq2 Hid. rewrite Heq in Ho, HQ |- *.
    eapply (wp_HandlePublish_body m io p flags t pl qos pkt_id L);
      [exact Ho|done|done|lia|done|done|lia|done|]. by apply publish_outcome_safe. }
  assert ((forall Q', Q' None m -> wp (Mqtt_publish_fields qos (Z.land flags 8) p (Zlen pkt) tl) m Q') ->
    wp (Mqtt_HandlePublish cb fuel flags p (Zlen pkt)) (World m io) Q) as Hill.
  { intros Hfl. eapply wp_HandlePublish_fields; [exact Ho|done|done|exact Hfl|by apply HQ]. }
  unfold Mqtt_publish_fields, MQTT_QOS_LEVEL0, MQTT_QOS_LEVEL1, MQTT_QOS_LEVEL2 in Hill.
  destruct (Z.eqb_spec qos 0) as [Hq0|Hq0].
  { destruct (Z.eqb_spec (Z.land flags 8) 0) as [Hd|Hd].
    - eapply (Hbody rest 0); [by rewrite Hpkt, Hq0|done|lia|done].
    - apply Hill. intros Q' HQ'. cbn [negb]. by wp_ret. }
  destruct (decide (qos = 3)) as [Hq3|Hq3].
  { apply Hill. intros Q' HQ'. rewrite Hq3. simpl. by wp_ret. }
  destruct ((qos =? 1) || (qos =? 2)) eqn:Hq12; [|lia].
  destruct (Z.ltb_spec (Zlen pkt) (tl + 4)).
  { apply Hill. intros Q' HQ'. by wp_ret. }
  destruct rest as [|b1 [|b2 pl]] eqn:Hre; try (unfold Zlen in *; simpl in *; lia).
  apply Forall_cons in Hrb as [Hb1 [Hb2 Hpl]%Forall_cons].
  destruct (be16_split b1 b2 Hb1 Hb2) as [Hb12 Hidr]. set (id := Z.lor _ b2) in *.
  destruct (decide (id = 0)) as [Hid0|Hid0]; cycle 1.
  { eapply (Hbody pl id); [|done|lia|lia]. unfold publish_body.
    rewrite (proj2 (Z.eqb_neq _ _) Hq0), Hb12. done. }
  apply Hill. intros Q' HQ'. wp_bind.
  eapply (wp_RB16 _ _ _ p (bytes pkt) (tl + 2) b1 b2 pl); [exact Ho|reflexivity|lia| |done|].
  - apply has_bytes_drop. rewrite Hpkt, (assoc_L (++)).
    apply drop_app_length'. rewrite length_app. unfold Zlen in *. simpl length. lia.
  - fold id. rewrite Hid0. by wp_ret.
Qed.
End publish.

(** ** The other handlers *)

(** The identifier in the two bytes of an acknowledgement, if it is legal. *)
Definition only_id (want flags : Z) (l : list Z) : option Z :=
  match l with
  | [hi; lo] =>
      let id := Z.lor (Z.shiftl hi 8) lo in
      if (flags =? want) && negb (id =? 0) then Some id else None
  | _ => None
  end.

Lemma Zlen_two (l : list Z) : Zlen l = 2 -> exists a b, l = [a; b].
Proof.
  unfold Zlen. destruct l as [|a [|b [|c l]]]; simpl; intros; try lia. by exists a, b.
Qed.

Section handlers.
Context (om : nat -> bool).

Lemma wp_only_id m p l want flags L (Q : option Z -> mem -> Prop) :
  owns om m (p ↦ bytes l :: L) -> Q (only_id want flags l) m ->
  wp (Mqtt_only_id want flags p (Zlen l)) m Q.
Proof.
  intros Ho HQ. unfold Mqtt_only_id.
  destruct (Z.eqb_spec (Zlen l) 2) as [Hl|Hl]; cycle 1.
  { rewrite orb_true_r. wp_ret. destruct l as [|a [|b [|c l]]]; try done. }
  destruct (Zlen_two l Hl) as (hi & lo & ->). cbn [only_id] in HQ.
  destruct (flags =? want); cbn [negb orb andb] in *; [|by wp_ret].
  wp_bind. eapply (wp_RB16 _ _ _ p (bytes [hi; lo]) 0 hi lo []);
    [exact Ho|reflexivity|done|by apply has_bytes_drop|by rewrite padd_0|].
  destruct (_ =? 0); by wp_ret.
Qed.

Lemma wp_codes_illegal n m p l k L (Q : bool -> mem -> Prop) :
  owns om m (p ↦ bytes l :: L) -> 0 <= k -> Z.of_nat n + k = Zlen l ->
  Q (existsb (fun c => flag_set c 0x7C) (drop (Z.to_nat k) l)) m ->
  wp (Mqtt_codes_illegal n (padd p k)) m Q.
Proof.
  intros Ho. revert k. induction n as [|n IH]; intros k Hk Hn HQ; simpl.
  - wp_ret. rewrite drop_ge in HQ by (unfold Zlen in Hn; lia). done.
  - destruct (lookup_Z l k) as [c Hc]; [lia|]. wp_bind.
    assert (has_bytes (bytes l) k (c :: drop (S (Z.to_nat k)) l)) as Hb
      by (apply has_bytes_drop; by apply drop_S).
    eapply (wp_load_at _ _ _ p (bytes l) k _ 0); [exact Ho|reflexivity|done|exact Hb|done|done
      |by rewrite Z.add_0_r|].
    rewrite (drop_S _ _ _ Hc) in HQ. simpl in HQ. destruct (flag_set c 0x7C); [by wp_ret|].
    rewrite padd_padd. apply IH; [lia|lia|].
    by replace (Z.to_nat (k + 1)) with (S (Z.to_nat k)) by lia.
Qed.

(** The PUBREL of the client: its allocation is not tested, so memory must
    not run out. *)
Lemma wp_PackPubRel_response m pkt_id L (Q : Z * MqttBuffer -> mem -> Prop) :
  owns om m L -> pkt_id <> 0 -> ~ oom_seen om ->
  (forall a c m' tl, Zlen tl = 1008 ->
     owns om m' (response_cells a c (bytes (ack_packet 0x62 pkt_id)) tl ++ L) ->
     Q (MQTTERR_NOERROR, response_buf a c) m') ->
  wp (Mqtt_PackPubRelPkt MqttBuffer_Init pkt_id) m Q.
Proof.
  intros Ho Hid Hoom HQ. unfold Mqtt_PackPubRelPkt. destruct (Z.eqb_spec pkt_id 0); [done|].
  wp_bind. eapply wp_alloc_init; [exact Ho|done|by intros|].
  intros a c m' d tl Hd Htl Ho'. change (ext_cap 4) with 4 in *. change (12 + 4) with 16 in *.
  change (Z.lor (Z.shiftl MQTT_PKT_PUBREL 4) 2) with 0x62.
  eapply (wp_fill_response _ _ a c d tl _ _ L); [|done|done|].
  - eapply owns_perm; [|exact Ho']. unfold response_cells. by rewrite <-!(assoc_L (++)).
  - intros m2 Ho2. apply (HQ a c m2 tl); [lia|exact Ho2].
Qed.

Context (cb : list event -> event -> Z) (fuel : nat).
Hypothesis fuel_ok : (2 <= fuel)%nat.

(** A callback, and the reply when it succeeds. *)
Definition ack_spec (e : event) (data : list memval) (io : list event) (r : Z) (io' : list event)
    : Prop :=
  if 0 <=? cb io e then reply_spec om cb data (io ++ [e]) r io'
  else r = cb io e /\ io' = io ++ [e].

Lemma wp_call_reply m io e head pkt_id pack L (Q : Z -> world -> Prop) :
  owns om m L -> 0 <= head < 256 ->
  (forall m1 (Q' : Z * MqttBuffer -> mem -> Prop), owns om m1 L ->
    (forall m' buf', oom_seen om -> wp (MqttBuffer_Destroy buf') m' (fun _ m'' => owns om m'' L) ->
       Q' (MQTTERR_OUTOFMEMORY, buf') m') ->
    (forall a c m' tl, Zlen tl = 1008 ->
       owns om m' (response_cells a c (bytes (ack_packet head pkt_id)) tl ++ L) ->
       Q' (MQTTERR_NOERROR, response_buf a c) m') -> wp pack m1 Q') ->
  (forall m' r io', owns om m' L -> ack_spec e (bytes (ack_packet head pkt_id)) io r io' ->
     Q r (World m' io')) ->
  wp (err ← call cb e;
      if 0 <=? err then
        '(err, response) ← lift pack;
        err ← Mqtt_respond cb fuel err response;
        _ ← lift (MqttBuffer_Destroy response);
        mret err
      else mret err) (World m io) Q.
Proof using fuel_ok.
  intros Ho Hh Hpack HQ. wp_bind. apply wp_call. cbn [w_mem w_io]. unfold ack_spec in HQ.
  destruct (0 <=? cb io e); [|wp_ret; by apply HQ].
  wp_lift. eapply Hpack; [exact Ho| |].
  - intros m' buf' Hoom Hd. unfold Mqtt_respond.
    change (MQTTERR_OUTOFMEMORY =? MQTTERR_NOERROR) with false. cbn [negb]. wp_pure.
    apply wp_lift. cbn [w_mem w_io]. eapply wp_mono; [exact Hd|]. intros [] m2 Ho2. wp_pure.
    apply HQ; [done|]. by left.
  - intros a c m' tl Htl Ho'. eapply wp_respond_destroy; [exact fuel_ok|exact Ho'|done|done|].
    intros m2 r io' Ho2 Hr. by apply HQ.
Qed.

Lemma wp_HandlePubRec m io p l flags L (Q : Z -> world -> Prop) :
  owns om m (p ↦ bytes l :: L) -> ~ oom_seen om ->
  (match only_id 0 flags l with
   | None => Q MQTTERR_ILLEGAL_PKT (World m io)
   | Some id => forall m' r io', owns om m' (p ↦ bytes l :: L) ->
       ack_spec (EvPubRec id) (bytes (ack_packet 0x62 id)) io r io' -> Q r (World m' io')
   end) -> wp (Mqtt_HandlePubRec cb fuel flags p (Zlen l)) (World m io) Q.
Proof using fuel_ok.
  intros Ho Hoom HQ. unfold Mqtt_HandlePubRec. wp_lift. eapply wp_only_id; [exact Ho|].
  destruct (only_id 0 flags l) as [id|] eqn:Hid; [|by wp_ret].
  assert (id <> 0) by (unfold only_id in Hid; repeat case_match; simplify_eq; lia).
  eapply wp_call_reply; [exact Ho| | |exact HQ]; [done|].
  intros m1 Q' Ho1 _ HQ'. by eapply wp_PackPubRel_response.
Qed.

Lemma wp_HandlePubRel m io p l flags L (Q : Z -> world -> Prop) :
  owns om m (p ↦ bytes l :: L) ->
  (match only_id 2 flags l with
   | None => Q MQTTERR_ILLEGAL_PKT (World m io)
   | Some id => forall m' r io', owns om m' (p ↦ bytes l :: L) ->
       ack_spec (EvPubRel id) (bytes (ack_packet 0x70 id)) io r io' -> Q r (World m' io')
   end) -> wp (Mqtt_HandlePubRel cb fuel flags p (Zlen l)) (World m io) Q.
Proof using fuel_ok.
  intros Ho HQ. unfold Mqtt_HandlePubRel. wp_lift. eapply wp_only_id; [exact Ho|].
  destruct (only_id 2 flags l) as [id|] eqn:Hid; [|by wp_ret].
  assert (id <> 0) by (unfold only_id in Hid; repeat case_match; simplify_eq; lia).
  eapply wp_call_reply; [exact Ho| | |exact HQ]; [done|].
  intros m1 Q' Ho1 Hf HQ'. unfold Mqtt_PackPubCompPkt. destruct (Z.eqb_spec id 0); [done|].
  by eapply wp_pack_response.
Qed.
End handlers.

Section dispatch.
Context (om : nat -> bool) (cb : list event -> event -> Z).

Lemma ack_spec_extends e data io r io' : ack_spec om cb e data io r io' -> exists es, io' = io ++ es.
Proof.
  unfold ack_spec. destruct (0 <=? cb io e).
  - intros [es ->]%reply_spec_extends. eexists. by rewrite <-(assoc_L (++)).
  - intros [_ ->]. by eexists.
Qed.

Lemma safe_call m io p l L e : owns om m (p ↦ bytes l :: L) -> Forall is_byte l ->
  safe_after om p (Zlen l) io L (World m (io ++ [e])).
Proof. intros Ho Hl. split; [by exists l|]. by exists [e]. Qed.

(** The handlers that only look at the identifier. *)
Lemma wp_id_handler m io p l want flags mk L (Q : Z -> world -> Prop) :
  owns om m (p ↦ bytes l :: L) -> Forall is_byte l ->
  (forall r w, safe_after om p (Zlen l) io L w -> Q r w) ->
  wp (id ← lift (Mqtt_only_id want flags p (Zlen l));
      match id with None => mret MQTTERR_ILLEGAL_PKT | Some pkt_id => call cb (mk pkt_id) end)
     (World m io) Q.
Proof.
  intros Ho Hl HQ. wp_lift. eapply wp_only_id; [exact Ho|].
  destruct (only_id want flags l) as [id|]; [|wp_ret; apply HQ; by apply safe_here].
  apply wp_call. apply HQ. by apply safe_call.
Qed.

Lemma wp_HandleConnAck_safe m io p l flags L (Q : Z -> world -> Prop) :
  owns om m (p ↦ bytes l :: L) -> Forall is_byte l -> (forall r w, safe_after om p (Zlen l) io L w -> Q r w) ->
  wp (Mqtt_HandleConnAck cb flags p (Zlen l)) (World m io) Q.
Proof.
  intros Ho Hl HQ. pose proof (safe_here om m io p l L Ho Hl) as Hs. unfold Mqtt_HandleConnAck.
  destruct (Z.eqb_spec (Zlen l) 2) as [Hl2|Hl2]; [|rewrite orb_true_r; wp_ret; by apply HQ].
  destruct (Zlen_two l Hl2) as (a & b & ->).
  destruct (flags =? 0); cbn [negb orb]; [|wp_ret; by apply HQ].
  wp_lift. eapply (wp_load_at _ _ _ p (bytes [a; b]) 0 [a; b] 0);
    [exact Ho|reflexivity|done|by apply has_bytes_drop|done|done|by rewrite padd_0|].
  wp_lift. eapply (wp_load_at _ _ _ p (bytes [a; b]) 0 [a; b] 1);
    [exact Ho|reflexivity|done|by apply has_bytes_drop|done|done|done|].
  destruct (_ || _); [wp_ret; by apply HQ|]. apply wp_call. apply HQ. by apply safe_call.
Qed.

Lemma wp_HandleSubAck_safe m io p l flags L (Q : Z -> world -> Prop) :
  owns om m (p ↦ bytes l :: L) -> Forall is_byte l -> (forall r w, safe_after om p (Zlen l) io L w -> Q r w) ->
  wp (Mqtt_HandleSubAck cb flags p (Zlen l)) (World m io) Q.
Proof.
  intros Ho Hl HQ. pose proof (safe_here om m io p l L Ho Hl) as Hs. unfold Mqtt_HandleSubAck.
  destruct (Z.ltb_spec (Zlen l) 2) as [Hl2|Hl2]; [rewrite orb_true_r; wp_ret; by apply HQ|].
  destruct (negb (flags =? 0)); cbn [orb]; [wp_ret; by apply HQ|].
  destruct l as [|hi [|lo l]]; try (unfold Zlen in Hl2; simpl in Hl2; lia).
  wp_lift. eapply (wp_RB16 _ _ _ p (bytes (hi :: lo :: l)) 0 hi lo l);
    [exact Ho|reflexivity|done|by apply has_bytes_drop|by rewrite padd_0|].
  destruct (_ =? 0); [wp_ret; by apply HQ|]. pose proof (Zlen_nonneg l).
  rewrite !Zlen_cons in *. replace (1 + (1 + Zlen l) - 2) with (Zlen l) in * by lia.
  wp_lift. eapply (wp_codes_illegal _ _ _ p (hi :: lo :: l) 2);
    [exact Ho|done|rewrite !Zlen_cons; unfold Zlen in *; lia|].
  destruct (existsb _ _); [wp_ret; by apply HQ|]. wp_lift.
  eapply (wp_readn _ _ _ p (bytes (hi :: lo :: l)) 2); [exact Ho|reflexivity|done|done|done| |].
  { rewrite Zlen_bytes, !Zlen_cons. lia. }
  apply wp_call. apply HQ. split; [|by eexists]. exists (hi :: lo :: l). by rewrite !Zlen_cons.
Qed.

Context (fuel : nat).
Hypothesis fuel_ok : (2 <= fuel)%nat.

Lemma wp_Dispatch_safe m io p l fh L (Q : Z -> world -> Prop) :
  owns om m (p ↦ bytes l :: L) -> Forall is_byte l -> 0 <= fh < 256 -> ~ oom_seen om ->
  (forall r w, safe_after om p (Zlen l) io L w -> Q r w) ->
  wp (Mqtt_Dispatch cb fuel fh p (Zlen l)) (World m io) Q.
Proof using fuel_ok.
  intros Ho Hl Hf Hoom HQ. pose proof (safe_here om m io p l L Ho Hl) as Hs. unfold Mqtt_Dispatch.
  assert (forall e data r io' m', ack_spec om cb e data io r io' -> owns om m' (p ↦ bytes l :: L) ->
    Q r (World m' io')) as Hack.
  { intros e data r io' m' Ha Ho'. apply HQ. split; [by exists l|]. by eapply ack_spec_extends. }
  destruct (_ =? MQTT_PKT_PINGRESP).
  { unfold Mqtt_HandlePingResp. destruct (_ || _); [wp_ret; by apply HQ|].
    apply wp_call. apply HQ. by apply safe_call. }
  destruct (_ =? MQTT_PKT_CONNACK); [by eapply wp_HandleConnAck_safe|].
  destruct (_ =? MQTT_PKT_PUBLISH).
  { eapply wp_HandlePublish_safe; [exact fuel_ok|exact Ho|done| |exact HQ].
    pose proof (Z.land_ones fh 4 ltac:(lia)) as Hlo. change (Z.ones 4) with 15 in Hlo.
    rewrite Hlo. apply Z.mod_pos_bound. lia. }
  destruct (_ =? MQTT_PKT_PUBACK); [by eapply wp_id_handler|].
  destruct (_ =? MQTT_PKT_PUBREC).
  { eapply wp_HandlePubRec; [exact fuel_ok|exact Ho|done|].
    destruct (only_id _ _ _); [|by apply HQ]. intros m' r io' Ho' Ha. by eapply Hack. }
  destruct (_ =? MQTT_PKT_PUBREL).
  { eapply wp_HandlePubRel; [exact fuel_ok|exact Ho|].
    destruct (only_id _ _ _); [|by apply HQ]. intros m' r io' Ho' Ha. by eapply Hack. }
  destruct (_ =? MQTT_PKT_PUBCOMP); [by eapply wp_id_handler|].
  destruct (_ =? MQTT_PKT_SUBACK); [by eapply wp_HandleSubAck_safe|].
  destruct (_ =? MQTT_PKT_UNSUBACK); [by eapply wp_id_handler|]. wp_ret. by apply HQ.
Qed.
End dispatch.

(** ** Receiving *)

Lemma read_length_range l i len mult : 0 <= len ->
  let r := read_length l i len mult in
  (r.1 = -1 \/ r.1 = -2 \/ i < r.1 <= i + Zlen l) /\ 0 <= r.2.
Proof.
  revert i len mult. induction l as [|b l IH]; intros i len mult Hlen; simpl.
  { split; [by left|done]. }
  pose proof (u32_range (len + Z.land b 127 * mult)) as Hu. pose proof (Zlen_nonneg l).
  rewrite Zlen_cons. destruct (_ =? 0); simpl; [split; [right; right; lia|lia]|].
  destruct (_ <=? _); simpl; [split; [right; by left|lia]|].
  destruct (IH (i + 1) (u32 (len + Z.land b 127 * mult)) (u32 (mult * 128))) as [Hr Hp]; [lia|].
  split; [|done]. destruct Hr as [?|[?|?]]; [by left|right; by left|right; right; lia].
Qed.

Lemma pdiff_padd b o x y : pdiff (padd (Ptr b o) x) (padd (Ptr b o) y) = x - y.
Proof. simpl. lia. Qed.

(** The bytes kept after [c] of them have been consumed: the move copies [c]
    bytes, whatever the number that remains. *)
Definition kept (c : nat) (rest : list Z) : list Z := take c rest ++ take (length rest - c) rest.

Lemma kept_length c rest : Zlen (kept c rest) = Zlen rest.
Proof. unfold kept, Zlen. rewrite length_app, !length_take. lia. Qed.

Lemma kept_byte c rest : Forall is_byte rest -> Forall is_byte (kept c rest).
Proof. intros. by apply Forall_app; split; apply Forall_take. Qed.

(** Moving the consumed count down the buffer. *)
Lemma moved_bytes dn rest room : let d := bytes (dn ++ rest) ++ room in
  2 * Zlen dn <= Zlen d ->
  exists room', splice d 0 (take (length dn) (drop (length dn) d)) =
    bytes (kept (length dn) rest) ++ room' /\
      Zlen (kept (length dn) rest) + Zlen room' = Zlen d.
Proof.
  intros d Hd. set (c := length dn) in *. set (e := bytes rest ++ room).
  assert (drop c d = e) as He.
  { unfold d, c, bytes. rewrite map_app, <-(assoc_L (++)). apply drop_app_length'.
    by rewrite length_map. }
  exists (drop (length rest) (take c e ++ e)). rewrite He. unfold splice. simpl.
  assert (length (take c e) = c) as Hc.
  { apply (f_equal length) in He. rewrite length_drop in He. rewrite length_take.
    unfold Zlen in *. lia. }
  split; [rewrite Hc, He, <-(take_drop (length rest) (take c e ++ e)) at 1; f_equal|].
  2:{ rewrite kept_length. apply (f_equal length) in He. rewrite length_drop in He.
      unfold Zlen in *. rewrite length_drop, length_app, Hc. unfold e in *. rewrite length_app in *.
      unfold bytes in *. rewrite length_map in *. lia. }
  unfold kept, e, bytes. rewrite map_app, <-!firstn_map, take_app, length_take, length_app, length_map.
  destruct (decide (length rest <= c)%nat).
  - replace (length rest - c)%nat with 0%nat by lia.
    replace (length rest - _)%nat with 0%nat by lia. rewrite !app_nil_r.
    rewrite take_take, (take_ge _ c) by (rewrite length_map; lia).
    rewrite Nat.min_l by lia. apply take_app_length'. by rewrite length_map.
  - rewrite take_take, Nat.min_r, Nat.min_l by lia.
    rewrite !take_app_le by (rewrite length_map; lia). done.
Qed.

Lemma pdiff_padd_l b o x : pdiff (padd (Ptr b o) x) (Ptr b o) = x.
Proof. simpl. lia. Qed.

Section recv.
Context (om : nat -> bool) (cb : list event -> event -> Z) (fuel : nat).
Hypothesis fuel_ok : (2 <= fuel)%nat.
Hypothesis no_oom : ~ oom_seen om.

Lemma recv_split m bgn dn hd body rest room L :
  owns om m (bgn ↦ (bytes (dn ++ hd ++ body ++ rest) ++ room) :: L) <->
  owns om m (padd bgn (Zlen dn + Zlen hd) ↦ bytes body :: bgn ↦ bytes (dn ++ hd) ::
             padd bgn (Zlen dn + Zlen hd + Zlen body) ↦ (bytes rest ++ room) :: L).
Proof.
  rewrite !bytes_app, <-!(assoc_L (++)), (assoc_L (++) (bytes dn)), owns_split.
  rewrite Permutation_swap, owns_split, Zlen_app, !Zlen_bytes, padd_padd.
  split; intros Ho; (eapply owns_perm; [|exact Ho]); solve_Permutation.
Qed.


Lemma wp_recv_loop n m io b o rest dn room L e (Q : Z + ptr -> world -> Prop) :
  let bgn := Ptr b o in
  owns om m (bgn ↦ (bytes (dn ++ rest) ++ room) :: L) -> Forall is_byte dn -> Forall is_byte rest ->
  (length rest < n)%nat ->
  (forall m' io' r dn' rest', owns om m' (bgn ↦ (bytes (dn' ++ rest') ++ room) :: L) ->
     Forall is_byte (dn' ++ rest') -> Zlen dn' + Zlen rest' = Zlen dn + Zlen rest -> (exists es, io' = io ++ es) ->
     (match r with inl err => err < 0 | inr c => c = padd bgn (Zlen dn') end) ->
     Q r (World m' io')) ->
  wp (Mqtt_recv_loop cb fuel n (mk_MqttContext bgn e (padd bgn (Zlen dn + Zlen rest)))
        (padd bgn (Zlen dn))) (World m io) Q.
Proof using fuel_ok no_oom.
  intros bgn. revert m io rest dn. induction n as [|n IH]; intros m io rest dn Ho Hdb Hb Hn HQ; [lia|].
  assert (forall r, (match r with inl err => err < 0 | inr c => c = padd bgn (Zlen dn) end) ->
    Q r (World m io)) as Hstop.
  { intros r Hr. eapply (HQ m io r dn rest); [done|by apply Forall_app|done|by exists []; rewrite app_nil_r|done]. }
  cbn [Mqtt_recv_loop ctx_pos].
  assert (pdiff (padd bgn (Zlen dn + Zlen rest)) (padd bgn (Zlen dn)) = Zlen rest) as Hpd
    by (unfold bgn; rewrite pdiff_padd; lia). rewrite Hpd. clear Hpd.
  destruct (Z.ltb_spec (Zlen rest) 2); [wp_ret; by apply Hstop|].
  destruct rest as [|fh rest]; [unfold Zlen in *; simpl in *; lia|].
  apply Forall_cons in Hb as [Hfh Hb]. rewrite Zlen_cons in *.
  pose proof (Zlen_nonneg dn). pose proof (Zlen_nonneg rest).
  assert (has_bytes (bytes (dn ++ fh :: rest) ++ room) (Zlen dn) (fh :: rest)) as Hhb.
  { exists room. rewrite bytes_app, <-(assoc_L (++)). apply drop_app_length'.
    unfold bytes, Zlen. rewrite length_map. lia. }
  wp_lift. eapply (wp_ReadLength _ rest _ _ bgn _ (Zlen dn + 1));
    [exact Ho|reflexivity|lia| |lia|left; lia|by rewrite padd_padd|].
  { by apply has_bytes_cons in Hhb as [_ Hhb]; [|lia]. }
  destruct (read_length_range rest 0 0 1) as [Hr Hpos]; [lia|].
  destruct (read_length rest 0 0 1) as [hl len]. cbn [fst snd] in *.
  destruct (Z.eqb_spec hl (-1)); [wp_ret; by apply Hstop|].
  destruct (Z.eqb_spec hl (-2)); [wp_ret; by apply Hstop|].
  replace (1 + Zlen rest <? len + hl + 1) with (Zlen rest <? len + hl) by lia.
  destruct (Z.ltb_spec (Zlen rest) (len + hl)) as [|Hfit]; [wp_ret; by apply Hstop|].
  wp_lift. eapply (wp_load_at _ _ _ bgn _ (Zlen dn) (fh :: rest) 0);
    [exact Ho|reflexivity|lia|exact Hhb|done|done|by rewrite Z.add_0_r|].
  destruct (list_split_at rest hl) as (h & r' & -> & Hh & Hr'); [lia|].
  destruct (list_split_at r' len) as (body & rest2 & -> & Hbody & Hrest2); [lia|].
  apply Forall_app in Hb as [Hbh [Hbb Hbr]%Forall_app].
  change (dn ++ fh :: h ++ body ++ rest2) with (dn ++ (fh :: h) ++ body ++ rest2) in Ho.
  rewrite recv_split, Zlen_cons in Ho. wp_bind. rewrite padd_padd, <-Hbody.
  replace (Zlen dn + (hl + 1)) with (Zlen dn + (1 + Zlen h)) by lia.
  eapply wp_Dispatch_safe; [exact fuel_ok|exact Ho|done|done|done|].
  clear m Ho Hhb Hstop. intros err [m io'] [(body' & Hbl & Hbb' & Ho) [es Hio]]. cbn [w_mem w_io] in *. subst io'.
  rewrite <-Hbl in Ho. replace (1 + Zlen h) with (Zlen (fh :: h)) in Ho by apply Zlen_cons.
  rewrite <-recv_split in Ho. rewrite !Zlen_app in *.
  destruct (Z.ltb_spec err 0).
  { wp_ret. eapply (HQ m _ (inl err) dn ((fh :: h) ++ body' ++ rest2));
      [exact Ho|by repeat apply Forall_app_2; try constructor| |by eexists|done].
    rewrite !Zlen_app, Zlen_cons. lia. }
  rewrite padd_padd. set (dn2 := dn ++ (fh :: h) ++ body').
  assert (Zlen dn2 = Zlen dn + (1 + Zlen h + Zlen body)) as Hdn2
    by (unfold dn2; rewrite !Zlen_app, Zlen_cons; lia).
  match goal with |- wp (Mqtt_recv_loop _ _ _ (mk_MqttContext _ _ (padd bgn ?x)) (padd bgn ?y)) _ _ =>
    replace x with (Zlen dn2 + Zlen rest2) by lia; replace y with (Zlen dn2) by lia end.
  apply IH; [unfold dn2; by rewrite <-!(assoc_L (++))
    |by unfold dn2; repeat apply Forall_app_2; try constructor|done| |].
  - rewrite length_cons, !length_app in Hn. lia.
  - intros m' io' r dn' rest' Ho' Hb' Hz [es' ->] Hm. apply (HQ m' _ r dn' rest'); [done|done| | |done].
    + rewrite Hz, Hdn2. lia.
    + eexists. by rewrite <-(assoc_L (++)).
Qed.

(** From the beginning of the buffer. *)
Lemma wp_recv_loop_start n m io b o l room L e (Q : Z + ptr -> world -> Prop) :
  let bgn := Ptr b o in
  owns om m (bgn ↦ (bytes l ++ room) :: L) -> Forall is_byte l -> (length l < n)%nat ->
  (forall m' io' r dn' rest', owns om m' (bgn ↦ (bytes (dn' ++ rest') ++ room) :: L) ->
     Forall is_byte (dn' ++ rest') -> Zlen dn' + Zlen rest' = Zlen l -> (exists es, io' = io ++ es) ->
     (match r with inl err => err < 0 | inr c => c = padd bgn (Zlen dn') end) ->
     Q r (World m' io')) ->
  wp (Mqtt_recv_loop cb fuel n (mk_MqttContext bgn e (padd bgn (Zlen l))) bgn) (World m io) Q.
Proof using fuel_ok no_oom.
  intros bgn Ho Hb Hn HQ.
  pose proof (wp_recv_loop n m io b o l [] room L e Q Ho (Forall_nil_2 _) Hb Hn HQ) as H.
  rewrite Zlen_nil, padd_0 in H. exact H.
Qed.
End recv.


(** The context and its buffer between two calls: the bytes [l] received and
    not consumed, then room, [cap] bytes in all. *)
Definition recv_inv (om : nat -> bool) (cap : Z) (L : list cell) (ctx : MqttContext) (m : mem)
    (l : list Z) : Prop :=
  exists b o room, ctx = mk_MqttContext (Ptr b o) (padd (Ptr b o) cap) (padd (Ptr b o) (Zlen l)) /\
    owns om m (Ptr b o ↦ (bytes l ++ room) :: L) /\ Forall is_byte l /\ Zlen l + Zlen room = cap.

(** What the read callback may do: store what it says it read, in the room it
    was given. *)
Definition read_contract (cap : Z) (l : list Z) (rd : Z * list Z) : Prop :=
  Forall is_byte rd.2 /\ Zlen rd.2 = Z.max 0 rd.1 /\ Zlen l + Zlen rd.2 <= cap.

Lemma recv_inv_intro om cap L b o m l room e pos :
  owns om m (Ptr b o ↦ (bytes l ++ room) :: L) -> Forall is_byte l -> Zlen l + Zlen room = cap ->
  e = padd (Ptr b o) cap -> pos = padd (Ptr b o) (Zlen l) ->
  recv_inv om cap L (mk_MqttContext (Ptr b o) e pos) m l.
Proof. intros ???->->. by exists b, o, room. Qed.

(** What the read callback stores extends the received bytes. *)
Lemma splice_received l room data : Zlen data <= Zlen room ->
  splice (bytes l ++ room) (Zlen l) (bytes data) = bytes (l ++ data) ++ drop (length data) room.
Proof.
  intros Hd. unfold splice, bytes, Zlen in *. rewrite Nat2Z.id, length_map.
  rewrite take_app_length' by (by rewrite length_map). rewrite map_app, <-(assoc_L (++)).
  rewrite drop_app, (drop_ge (map _ l)) by (rewrite length_map; lia).
  rewrite length_map. do 2 f_equal. rewrite app_nil_l. f_equal. lia.
Qed.

Lemma wp_recv_move om cap m b o dn rest room L (Q : unit -> mem -> Prop) :
  owns om m (Ptr b o ↦ (bytes (dn ++ rest) ++ room) :: L) -> Forall is_byte rest ->
  2 * Zlen dn <= cap -> Zlen dn + Zlen rest + Zlen room = cap ->
  (forall m', recv_inv om cap L (mk_MqttContext (Ptr b o) (padd (Ptr b o) cap)
       (padd (padd (Ptr b o) (Zlen dn + Zlen rest)) (- Zlen dn))) m' (kept (length dn) rest) -> Q tt m') ->
  wp (memmove (Ptr b o) (padd (Ptr b o) (Zlen dn)) (Zlen dn)) m Q.
Proof.
  intros Ho Hb Hhalf Hcap HQ. pose proof (Zlen_nonneg dn).
  assert (Zlen (bytes (dn ++ rest) ++ room) = cap) as Hlen by (zlen; rewrite Zlen_bytes; zlen; lia).
  eapply (wp_memmove_in _ _ _ (Ptr b o) _ 0 (Zlen dn) (Zlen dn));
    [exact Ho|reflexivity|lia..|by rewrite padd_0|done|].
  clear m Ho. intros m Ho. destruct (moved_bytes dn rest room) as (room2 & Hmv & Hl2); [lia|].
  unfold Zlen in Ho at 1 2. rewrite Nat2Z.id, Hmv in Ho. apply HQ.
  eapply recv_inv_intro; [exact Ho|by apply kept_byte|lia|done|].
  rewrite padd_padd, kept_length. f_equal. lia.
Qed.

Lemma wp_RecvPkt om cb fuel cap L ctx m io l rd (Q : Z * MqttContext -> world -> Prop) :
  (2 <= fuel)%nat -> ~ oom_seen om -> recv_inv om cap L ctx m l -> read_contract cap l rd ->
  2 * (Zlen l + Zlen rd.2) <= cap ->
  (forall r ctx' w' l', recv_inv om cap L ctx' (w_mem w') l' -> (exists es, w_io w' = io ++ es) ->
     (r = MQTTERR_NOERROR \/ r < 0) -> Q (r, ctx') w') ->
  wp (Mqtt_RecvPkt cb fuel ctx rd) (World m io) Q.
Proof.
  intros Hf Hoom (b & o & room & -> & Ho & Hb & Hcap) (Hdb & Hdl & Hfit) Htwice HQ.
  destruct rd as [n data]. cbn [fst snd] in *. unfold Mqtt_RecvPkt. cbn [ctx_pos ctx_bgn ctx_end].
  wp_lift. eapply (wp_writen _ _ _ (Ptr b o) _ (Zlen l));
    [exact Ho|reflexivity|done|apply Zlen_nonneg|rewrite Zlen_app, !Zlen_bytes; lia|].
  clear m Ho. intros m Ho. rewrite splice_received in Ho by lia.
  set (room' := drop (length data) room) in *.
  assert (Zlen room' = Zlen room - Zlen data) as Hroom'
    by (unfold room', Zlen in *; rewrite length_drop; lia).
  assert (exists es, io = io ++ es) as Hnil by (exists []; by rewrite app_nil_r).
  pose proof (Forall_app_2 _ _ _ Hb Hdb) as Hall. pose proof (Zlen_app l data) as Hz.
  destruct (Z.eqb_spec n 0); [wp_ret; eapply (HQ _ _ _ []); [|done|right; done]|].
  { eapply (recv_inv_intro _ _ _ _ _ _ [] (bytes (l ++ data) ++ room'));
      [done|by apply Forall_nil|zlen; rewrite ?Zlen_bytes; zlen; lia|done|by rewrite Zlen_nil, padd_0]. }
  destruct (Z.ltb_spec n 0); [wp_ret; eapply (HQ _ _ _ l); [|done|right; done]|].
  { assert (data = []) as -> by (apply length_zero_iff_nil; unfold Zlen in *; lia).
    rewrite app_nil_r in *. eapply recv_inv_intro; [done|done|zlen; lia|done..]. }
  rewrite Z.max_r in Hdl by lia. subst n. rewrite padd_padd, pdiff_padd, pdiff_padd_l, <-Hz.
  destruct (Z.ltb_spec 0 (Zlen (l ++ data) - cap)); [lia|].
  wp_bind. eapply (wp_recv_loop_start _ _ _ Hf Hoom _ _ _ b o (l ++ data) room' L);
    [exact Ho|done|unfold Zlen; lia|].
  intros m' io' r dn rest Ho' Hb' Hzz Hes Hr.
  destruct r as [err|c]; [wp_ret; eapply (HQ _ _ _ (dn ++ rest)); [|done|by right]|].
  { eapply recv_inv_intro; [done|done|zlen; lia|done|f_equal; zlen; lia]. }
  subst c. rewrite pdiff_padd_l. destruct (Z.ltb_spec 0 (Zlen dn)).
  - pose proof (Zlen_nonneg rest). wp_lift. eapply (wp_recv_move _ cap); [exact Ho'|by apply Forall_app in Hb' as [_ ?]|lia..|].
    intros m2 Hinv. wp_ret. replace (Zlen (l ++ data)) with (Zlen dn + Zlen rest) by lia.
    by eapply HQ; [exact Hinv| |left].
  - wp_ret. eapply (HQ _ _ _ (dn ++ rest)); [|done|by left].
    eapply recv_inv_intro; [done|done|zlen; lia|done|f_equal; zlen; lia].
Qed.

(** ** Properties *)

(** Dispatching a received packet is memory-safe whatever its bytes are:
    for every first byte and every body, every access stays inside the packet
    or inside memory the handler allocated itself, the packet keeps its
    length, everything the handler allocated is given back, and callbacks are
    only ever added to the history.  (Memory must not
    run out, because a PUBREL is packed without testing the allocation.) *)
Theorem Dispatch_safe om cb fuel m io p l fh L :
  (2 <= fuel)%nat -> owns om m (p ↦ bytes l :: L) -> Forall is_byte l -> 0 <= fh < 256 ->
  ~ oom_seen om ->
  wp (Mqtt_Dispatch cb fuel fh p (Zlen l)) (World m io) (fun _ w' =>
    (exists l', Zlen l' = Zlen l /\ Forall is_byte l' /\ owns om (w_mem w') (p ↦ bytes l' :: L)) /\
    exists es, w_io w' = io ++ es).
Proof.
  intros Hf Ho Hl Hfh Hoom. eapply wp_Dispatch_safe; [exact Hf|exact Ho|done..|].
  intros r w Hs. exact Hs.
Qed.

Lemma Dispatch_safe_witness :
  wp (Mqtt_Dispatch (fun _ _ => 0) 2 0x32 (Ptr 0 0) (Zlen [0; 1; 97; 0; 7; 1; 2]))
     (World (mem_one never_oom (bytes [0; 1; 97; 0; 7; 1; 2])) []) (fun _ w' =>
    (exists l', Zlen l' = Zlen [0; 1; 97; 0; 7; 1; 2] /\
       Forall is_byte l' /\ owns never_oom (w_mem w') [Ptr 0 0 ↦ bytes l']) /\
    exists es, w_io w' = [] ++ es).
Proof.
  apply (Dispatch_safe never_oom (fun _ _ => 0) 2 _ [] (Ptr 0 0) [0; 1; 97; 0; 7; 1; 2] 0x32 []).
  - lia.
  - apply owns_one.
  - repeat constructor; unfold is_byte; lia.
  - done.
  - by intros [n Hn].
Defined.

(** C39: a well-formed publish packet on an ordinary topic reaches the
    application exactly once, with its packet identifier, topic, payload,
    duplicate flag and QoS.  Then, if the callback accepts it: at QoS 0
    nothing is sent; at QoS 1 a PUBACK and at QoS 2 a PUBREC with the same
    identifier is handed to writev, and a short write is reported. *)
Theorem HandlePublish_delivers om cb fuel m io p flags t pl qos pkt_id L :
  (2 <= fuel)%nat -> owns om m (p ↦ bytes (publish_body qos pkt_id t pl) :: L) ->
  ascii_string t -> topic_name t = true -> default 0 (head t) <> 36 -> Forall is_byte pl ->
  Zlen t < 65536 -> Z.land flags 1 = 0 -> Z.shiftr (Z.land flags 6) 1 = qos -> 0 <= qos <= 2 ->
  (if qos =? 0 then pkt_id = 0 /\ Z.land flags 8 = 0 else 0 < pkt_id < 65536) ->
  wp (Mqtt_HandlePublish cb fuel flags p (Zlen (publish_body qos pkt_id t pl))) (World m io)
    (fun r w' =>
      let e := EvPublish pkt_id t (bytes pl) (Z.land flags 8) qos in
      if 0 <=? cb io e then
        if qos =? 0 then r = cb io e /\ w_io w' = io ++ [e]
        else let ack := bytes (ack_packet (if qos =? 2 then 0x50 else 0x40) pkt_id) in
          (oom_seen om /\ w_io w' = io ++ [e] /\ r < 0) \/
          (w_io w' = (io ++ [e]) ++ [EvWritev ack] /\
           r = if u32 (cb (io ++ [e]) (EvWritev ack)) =? 4 then MQTTERR_NOERROR
               else MQTTERR_FAILED_SEND_RESPONSE)
      else r = cb io e /\ w_io w' = io ++ [e]).
Proof.
  intros Hf Ho Ha Hn Hsys Hpl Htl Hret Hqos Hq Hid.
  assert (Forall (fun c => 0 < c < 256) t) as Hnz by (eapply Forall_impl; [exact Ha|simpl; lia]).
  assert (Forall is_byte t) as Htb by (eapply Forall_impl; [exact Ha|unfold is_byte; simpl; lia]).
  eapply wp_HandlePublish_body; [exact Hf|exact Ho|done..|].
  pose proof (check_utf8_ascii t Ha) as Hu. split.
  { intros m' l' _ _ _ [Hne|Hne]; [done|]. rewrite until0_nonzero in Hne by done. congruence. }
  intros _ _ cmdid _. rewrite until0_nonzero by done. unfold publish_event.
  destruct (Z.eqb_spec (default 0 (head t)) 36); [done|].
  intros m' l' r io' _ _ _ Hr. cbn [w_io]. destruct (0 <=? cb io _); [|exact Hr].
  unfold publish_reply_spec in Hr. destruct (qos =? 0); exact Hr.
Qed.

Lemma HandlePublish_delivers_witness :
  wp (Mqtt_HandlePublish (fun _ _ => 4) 2 2 (Ptr 0 0) (Zlen (publish_body 1 7 [97] [1; 2])))
     (World (mem_one never_oom (bytes (publish_body 1 7 [97] [1; 2]))) []) (fun r w' =>
      let e := EvPublish 7 [97] (bytes [1; 2]) (Z.land 2 8) 1 in
      if 0 <=? 4 then
        if 1 =? 0 then r = 4 /\ w_io w' = [] ++ [e]
        else let ack := bytes (ack_packet (if 1 =? 2 then 0x50 else 0x40) 7) in
          (oom_seen never_oom /\ w_io w' = [] ++ [e] /\ r < 0) \/
          (w_io w' = ([] ++ [e]) ++ [EvWritev ack] /\
           r = if u32 4 =? 4 then MQTTERR_NOERROR else MQTTERR_FAILED_SEND_RESPONSE)
      else r = 4 /\ w_io w' = [] ++ [e]).
Proof.
  apply (HandlePublish_delivers never_oom (fun _ _ => 4) 2 _ [] (Ptr 0 0) 2 [97] [1; 2] 1 7 []).
  - lia.
  - apply owns_one.
  - repeat constructor; lia.
  - done.
  - done.
  - repeat constructor; unfold is_byte; lia.
  - done.
  - done.
  - done.
  - done.
  - done.
Defined.

(** A publish packet on the topic "$creq/" followed by a command
    identifier is a command: the command callback gets the identifier and the
    payload as its argument, and no other callback is called for it. *)
Theorem HandlePublish_command om cb fuel m io p flags id pl qos pkt_id L :
  let t := CMD_TOPIC_PREFIX ++ 47 :: id in
  (2 <= fuel)%nat -> owns om m (p ↦ bytes (publish_body qos pkt_id t pl) :: L) ->
  ascii_string id -> topic_name id = true -> Forall is_byte pl -> Zlen t < 65536 ->
  Z.land flags 1 = 0 -> Z.shiftr (Z.land flags 6) 1 = qos -> 0 <= qos <= 2 ->
  (if qos =? 0 then pkt_id = 0 /\ Z.land flags 8 = 0 else 0 < pkt_id < 65536) ->
  wp (Mqtt_HandlePublish cb fuel flags p (Zlen (publish_body qos pkt_id t pl))) (World m io)
    (fun r w' =>
      let e := EvCmd pkt_id (Some id) 0 [] (bytes pl) (Z.land flags 8) qos in
      (if 0 <=? cb io e then publish_reply_spec om cb (cb io e) qos pkt_id (io ++ [e]) r (w_io w')
       else r = cb io e /\ w_io w' = io ++ [e])).
Proof.
  intros t Hf Ho Ha Hn Hpl Htl Hret Hqos Hq Hid.
  assert (ascii_string t) as Hat.
  { apply Forall_app_2; [repeat constructor; lia|]. constructor; [lia|done]. }
  assert (Forall (fun c => 0 < c < 256) t) as Hnz by (eapply Forall_impl; [exact Hat|simpl; lia]).
  assert (Forall is_byte t) as Htb by (eapply Forall_impl; [exact Hat|unfold is_byte; simpl; lia]).
  assert (topic_name t = true) as Hnt by exact Hn.
  eapply wp_HandlePublish_body; [exact Hf|exact Ho|done..|].
  pose proof (check_utf8_ascii t Hat) as Hu. split.
  { intros m' l' _ _ _ [Hne|Hne]; [done|]. rewrite until0_nonzero in Hne by done. congruence. }
  intros _ _ cmdid Hcmd. rewrite until0_nonzero in * by done.
  assert (drop 6 t = id) as Hd by done. rewrite Hd in Hcmd.
  rewrite Hcmd by (unfold t; simpl; lia). change (publish_event (Some id) t (bytes pl) pkt_id _ qos)
    with (Some (EvCmd pkt_id (Some id) 0 [] (bytes pl) (Z.land flags 8) qos)).
  intros m' l' r io' _ _ _ Hr. exact Hr.
Qed.

Lemma HandlePublish_command_witness :
  wp (Mqtt_HandlePublish (fun _ _ => 4) 2 0 (Ptr 0 0)
        (Zlen (publish_body 0 0 (CMD_TOPIC_PREFIX ++ 47 :: [97]) [1])))
     (World (mem_one never_oom (bytes (publish_body 0 0 (CMD_TOPIC_PREFIX ++ 47 :: [97]) [1]))) [])
    (fun r w' =>
      let e := EvCmd 0 (Some [97]) 0 [] (bytes [1]) (Z.land 0 8) 0 in
      (if 0 <=? 4 then publish_reply_spec never_oom (fun _ _ => 4) 4 0 0 ([] ++ [e]) r (w_io w')
       else r = 4 /\ w_io w' = [] ++ [e])).
Proof.
  apply (HandlePublish_command never_oom (fun _ _ => 4) 2 _ [] (Ptr 0 0) 0 [97] [1] 0 0 []).
  - lia.
  - apply owns_one.
  - repeat constructor; lia.
  - done.
  - repeat constructor; unfold is_byte; lia.
  - done.
  - done.
  - done.
  - done.
  - done.
Defined.

(** The second half of a QoS 2 exchange.  A PUBREC is reported to the
    application and, if it accepts, answered with a PUBREL of the same
    identifier; a PUBREL is reported and answered with a PUBCOMP.  A packet of
    another length, with other flags or with identifier 0 is refused without
    any callback. *)
Theorem Qos2_exchange om cb fuel m io p l flags L :
  (2 <= fuel)%nat -> owns om m (p ↦ bytes l :: L) -> ~ oom_seen om ->
  wp (Mqtt_HandlePubRec cb fuel flags p (Zlen l)) (World m io) (fun r w' =>
    match only_id 0 flags l with
    | None => r = MQTTERR_ILLEGAL_PKT /\ w_io w' = io
    | Some id => ack_spec om cb (EvPubRec id) (bytes [0x62; 2; u8 (Z.shiftr id 8); u8 id]) io r (w_io w')
    end) /\
  wp (Mqtt_HandlePubRel cb fuel flags p (Zlen l)) (World m io) (fun r w' =>
    match only_id 2 flags l with
    | None => r = MQTTERR_ILLEGAL_PKT /\ w_io w' = io
    | Some id => ack_spec om cb (EvPubRel id) (bytes [0x70; 2; u8 (Z.shiftr id 8); u8 id]) io r (w_io w')
    end).
Proof.
  intros Hf Ho Hoom. split.
  - eapply wp_HandlePubRec; [exact Hf|exact Ho|done|]. by destruct (only_id 0 flags l).
  - eapply wp_HandlePubRel; [exact Hf|exact Ho|]. by destruct (only_id 2 flags l).
Qed.

Lemma Qos2_exchange_witness :
  wp (Mqtt_HandlePubRec (fun _ _ => 4) 2 0 (Ptr 0 0) (Zlen [0; 7]))
     (World (mem_one never_oom (bytes [0; 7])) []) (fun r w' =>
    match only_id 0 0 [0; 7] with
    | None => r = MQTTERR_ILLEGAL_PKT /\ w_io w' = []
    | Some id => ack_spec never_oom (fun _ _ => 4) (EvPubRec id)
                   (bytes [0x62; 2; u8 (Z.shiftr id 8); u8 id]) [] r (w_io w')
    end) /\
  wp (Mqtt_HandlePubRel (fun _ _ => 4) 2 0 (Ptr 0 0) (Zlen [0; 7]))
     (World (mem_one never_oom (bytes [0; 7])) []) (fun r w' =>
    match only_id 2 0 [0; 7] with
    | None => r = MQTTERR_ILLEGAL_PKT /\ w_io w' = []
    | Some id => ack_spec never_oom (fun _ _ => 4) (EvPubRel id)
                   (bytes [0x70; 2; u8 (Z.shiftr id 8); u8 id]) [] r (w_io w')
    end).
Proof.
  apply (Qos2_exchange never_oom (fun _ _ => 4) 2 _ [] (Ptr 0 0) [0; 7] 0 []).
  - lia.
  - apply owns_one.
  - by intros [n Hn].
Defined.

(** C40: receiving is memory-safe and keeps the context consistent, whatever
    bytes arrive and wherever packets are cut, as long as at most half of the
    buffer is in use: every access stays inside the buffer or inside memory
    the handlers own, the loop terminates, afterwards the position again
    delimits received bytes, nothing leaks, and the result is 0 or an error.
    (The bound on the use of the buffer is needed, see below.) *)
Theorem RecvPkt_safe om cb fuel cap L ctx m io l rd :
  (2 <= fuel)%nat -> ~ oom_seen om -> recv_inv om cap L ctx m l -> read_contract cap l rd ->
  2 * (Zlen l + Zlen rd.2) <= cap ->
  wp (Mqtt_RecvPkt cb fuel ctx rd) (World m io) (fun res w' =>
    (exists l', recv_inv om cap L res.2 (w_mem w') l') /\ (exists es, w_io w' = io ++ es) /\
    (res.1 = MQTTERR_NOERROR \/ res.1 < 0)).
Proof.
  intros Hf Hoom Hinv Hrd Htwice. eapply wp_RecvPkt; [exact Hf|exact Hoom|exact Hinv|exact Hrd|done|].
  intros r ctx' w' l' Hinv' Hes Hr. split_and!; [by exists l'|done|done].
Qed.

Lemma RecvPkt_safe_witness :
  wp (Mqtt_RecvPkt (fun _ _ => 0) 2 (mk_MqttContext (Ptr 0 0) (Ptr 0 8) (Ptr 0 1)) (3, [0; 0x40; 2]))
     (World (mem_one never_oom (bytes [0xD0] ++ replicate 7 Undef)) []) (fun res w' =>
    (exists l', recv_inv never_oom 8 [] res.2 (w_mem w') l') /\ (exists es, w_io w' = [] ++ es) /\
    (res.1 = MQTTERR_NOERROR \/ res.1 < 0)).
Proof.
  apply (RecvPkt_safe never_oom (fun _ _ => 0) 2 8 [] _ _ [] [0xD0] (3, [0; 0x40; 2])).
  - lia.
  - by intros [n Hn].
  - exists 0%nat, 0, (replicate 7 Undef). split_and!; [done|apply owns_one| |done].
    by apply Forall_singleton.
  - split_and!; [|done|done]. repeat constructor; unfold is_byte; lia.
  - done.
Defined.

(** A receive buffer of [n] bytes, empty, and the context on it. *)
Definition empty_buffer (n : Z) : mem := mem_one never_oom (replicate (Z.to_nat n) Undef).
Definition empty_context (n : Z) : MqttContext := mk_MqttContext (Ptr 0 0) (Ptr 0 n) (Ptr 0 0).

(** [Mqtt_RecvPkt] moves as many bytes as were consumed instead of as
    many as remain.  Three ping responses that arrive together in a buffer of
    8 bytes are enough to make the move read behind the buffer. *)
Theorem RecvPkt_move_overruns :
  Mqtt_RecvPkt (fun _ _ => 0) 2 (empty_context 8) (6, [0xD0; 0; 0xD0; 0; 0xD0; 0])
    (World (empty_buffer 8) []) = None.
Proof. vm_compute. reflexivity. Qed.

(** For the same reason a partial packet behind a complete shorter one is
    corrupted: after a ping response and the first three bytes of a PUBACK for
    identifier 7, the arrival of the last byte acknowledges identifier 16391. *)
Theorem RecvPkt_corrupts_partial :
  option_map (fun x => w_io x.2)
    (('(_, ctx) ← Mqtt_RecvPkt (fun _ _ => 0) 2 (empty_context 16) (5, [0xD0; 0; 0x40; 2; 0]);
      Mqtt_RecvPkt (fun _ _ => 0) 2 ctx (1, [7])) (World (empty_buffer 16) []))
  = Some [EvPingResp; EvPubAck 0x4007].
Proof. vm_compute. reflexivity. Qed.
