(* ===== verification/RingBuffer.v ===== *)
(** * Ring buffer (components/drivers/src/ringbuffer.c)

    The buffer is a record with the pool it points to.  The mirror bits are
    booleans, the indices 15-bit numbers.  An operation is [None] when an
    access is outside the pool or outside the caller's array.

    The abstract specification is a bounded queue with the position of its
    first byte in the pool; every sequence of operations, from initialisation
    on, behaves like it.  The position matters only when
    [rt_ringbuffer_put_force] overflows. *)

From S2P Require Import Prelude.

Open Scope Z_scope.

Record rt_ringbuffer := mk_rt_ringbuffer {
  buffer_ptr : list Z;
  read_mirror : bool;
  read_index : Z;
  write_mirror : bool;
  write_index : Z;
  buffer_size : Z;
}.

Inductive rt_ringbuffer_state := RT_RINGBUFFER_EMPTY | RT_RINGBUFFER_FULL | RT_RINGBUFFER_HALFFULL.

(** The indices are 15-bit fields. *)
Definition u15 (z : Z) : Z := z mod 2 ^ 15.

Definition set_read (rb : rt_ringbuffer) (mirror : bool) (index : Z) : rt_ringbuffer :=
  mk_rt_ringbuffer (buffer_ptr rb) mirror (u15 index) (write_mirror rb) (write_index rb) (buffer_size rb).

Definition set_write (rb : rt_ringbuffer) (pool : list Z) (mirror : bool) (index : Z) : rt_ringbuffer :=
  mk_rt_ringbuffer pool (read_mirror rb) (read_index rb) mirror (u15 index) (buffer_size rb).

Definition rt_ringbuffer_status (rb : rt_ringbuffer) : rt_ringbuffer_state :=
  if read_index rb =? write_index rb then
    if Bool.eqb (read_mirror rb) (write_mirror rb) then RT_RINGBUFFER_EMPTY else RT_RINGBUFFER_FULL
  else RT_RINGBUFFER_HALFFULL.

Definition RT_ALIGN_SIZE : Z := 4.
Definition RT_ALIGN_DOWN (size align : Z) : Z := Z.land size (Z.lnot (align - 1)).

Definition rt_ringbuffer_init (pool : list Z) (size : Z) : rt_ringbuffer :=
  mk_rt_ringbuffer pool false 0 false 0 (s16 (RT_ALIGN_DOWN size RT_ALIGN_SIZE)).

Definition rt_ringbuffer_data_len (rb : rt_ringbuffer) : Z :=
  match rt_ringbuffer_status rb with
  | RT_RINGBUFFER_EMPTY => 0
  | RT_RINGBUFFER_FULL => u32 (buffer_size rb)
  | RT_RINGBUFFER_HALFFULL =>
      if read_index rb <? write_index rb then u32 (write_index rb - read_index rb)
      else u32 (buffer_size rb - (read_index rb - write_index rb))
  end.

Definition rt_ringbuffer_space_len (rb : rt_ringbuffer) : Z :=
  u32 (buffer_size rb - rt_ringbuffer_data_len rb).

(** [ptr] is the caller's array; the result is the return value and the
    buffer afterwards. *)
Definition rt_ringbuffer_put (rb : rt_ringbuffer) (ptr : list Z) (length : Z)
    : option (Z * rt_ringbuffer) :=
  let size := u16 (rt_ringbuffer_space_len rb) in
  if size =? 0 then Some (0, rb) else
  let length := if size <? length then size else length in
  let first := buffer_size rb - write_index rb in
  if length <? first then
    src ← read_at ptr 0 length;
    pool ← write_at (buffer_ptr rb) (write_index rb) src;
    Some (length, set_write rb pool (write_mirror rb) (write_index rb + length))
  else
    src ← read_at ptr 0 first;
    pool ← write_at (buffer_ptr rb) (write_index rb) src;
    src ← read_at ptr first (length - first);
    pool ← write_at pool 0 src;
    Some (length, set_write rb pool (negb (write_mirror rb)) (length - first)).

Definition rt_ringbuffer_put_force (rb : rt_ringbuffer) (ptr : list Z) (length : Z)
    : option (Z * rt_ringbuffer) :=
  let space_length := u16 (rt_ringbuffer_space_len rb) in
  let length := if space_length <? length then u16 (buffer_size rb) else length in
  let first := buffer_size rb - write_index rb in
  if length <? first then
    src ← read_at ptr 0 length;
    pool ← write_at (buffer_ptr rb) (write_index rb) src;
    let rb := set_write rb pool (write_mirror rb) (write_index rb + length) in
    Some (length, if space_length <? length then set_read rb (read_mirror rb) (write_index rb) else rb)
  else
    src ← read_at ptr 0 first;
    pool ← write_at (buffer_ptr rb) (write_index rb) src;
    src ← read_at ptr first (length - first);
    pool ← write_at pool 0 src;
    let rb := set_write rb pool (negb (write_mirror rb)) (length - first) in
    Some (length, if space_length <? length
                  then set_read rb (negb (read_mirror rb)) (write_index rb) else rb).

(** Also returns the bytes stored at the caller's pointer. *)
Definition rt_ringbuffer_get (rb : rt_ringbuffer) (length : Z) : option (Z * list Z * rt_ringbuffer) :=
  let size := rt_ringbuffer_data_len rb in
  if size =? 0 then Some (0, [], rb) else
  let length := if size <? length then u16 size else length in
  let first := buffer_size rb - read_index rb in
  if length <? first then
    out ← read_at (buffer_ptr rb) (read_index rb) length;
    Some (length, out, set_read rb (read_mirror rb) (read_index rb + length))
  else
    out ← read_at (buffer_ptr rb) (read_index rb) first;
    out2 ← read_at (buffer_ptr rb) 0 (length - first);
    Some (length, out ++ out2, set_read rb (negb (read_mirror rb)) (length - first)).

Definition rt_ringbuffer_putchar (rb : rt_ringbuffer) (ch : Z) : option (Z * rt_ringbuffer) :=
  if rt_ringbuffer_space_len rb =? 0 then Some (0, rb) else
  pool ← set_at (buffer_ptr rb) (write_index rb) ch;
  Some (1, if write_index rb =? buffer_size rb - 1
           then set_write rb pool (negb (write_mirror rb)) 0
           else set_write rb pool (write_mirror rb) (write_index rb + 1)).

Definition rt_ringbuffer_putchar_force (rb : rt_ringbuffer) (ch : Z) : option (Z * rt_ringbuffer) :=
  let old_state := rt_ringbuffer_status rb in
  let full := match old_state with RT_RINGBUFFER_FULL => true | _ => false end in
  pool ← set_at (buffer_ptr rb) (write_index rb) ch;
  Some (1, if write_index rb =? buffer_size rb - 1 then
             let rb := set_write rb pool (negb (write_mirror rb)) 0 in
             if full then set_read rb (negb (read_mirror rb)) (write_index rb) else rb
           else
             let rb := set_write rb pool (write_mirror rb) (write_index rb + 1) in
             if full then set_read rb (read_mirror rb) (write_index rb) else rb).

(** The character is [None] when nothing is stored. *)
Definition rt_ringbuffer_getchar (rb : rt_ringbuffer) : option (Z * option Z * rt_ringbuffer) :=
  if rt_ringbuffer_data_len rb =? 0 then Some (0, None, rb) else
  ch ← get_at (buffer_ptr rb) (read_index rb);
  Some (1, Some ch, if read_index rb =? buffer_size rb - 1
                    then set_read rb (negb (read_mirror rb)) 0
                    else set_read rb (read_mirror rb) (read_index rb + 1)).

Definition rt_ringbuffer_reset (rb : rt_ringbuffer) : rt_ringbuffer :=
  mk_rt_ringbuffer (buffer_ptr rb) false 0 false 0 (buffer_size rb).

Definition rt_ringbuffer_get_size (rb : rt_ringbuffer) : Z := u16 (buffer_size rb).

(** The pointer that [rt_ringbuffer_create] returns: to a buffer, null, or to
    a control block it has freed. *)
Inductive created := Created (rb : rt_ringbuffer) | Failed | Dangling.

(** [rb_ok] and [pool] are the results of the two allocations. *)
Definition rt_ringbuffer_create (size : Z) (rb_ok : bool) (pool : option (list Z)) : created :=
  let size := u16 (RT_ALIGN_DOWN size RT_ALIGN_SIZE) in
  if negb rb_ok then Failed else
  match pool with
  | None => Dangling
  | Some pool => Created (rt_ringbuffer_init pool (s16 size))
  end.

(** ** The queue a buffer represents

    Either the data lie between the indices, on one side of the mirror, or
    they wrap around the end of the pool. *)

Inductive rep (rb : rt_ringbuffer) (q : list Z) : Prop :=
  | rep_same (a c : list Z) (mirror : bool) :
      0 < Zlen c -> Zlen a + Zlen q + Zlen c < 2 ^ 15 ->
      rb = mk_rt_ringbuffer (a ++ q ++ c) mirror (Zlen a) mirror (Zlen a + Zlen q)
             (Zlen a + Zlen q + Zlen c) -> rep rb q
  | rep_wrap (q1 q2 b : list Z) (mirror : bool) :
      q = q1 ++ q2 -> 0 < Zlen q1 -> Zlen q2 + Zlen b + Zlen q1 < 2 ^ 15 ->
      rb = mk_rt_ringbuffer (q2 ++ b ++ q1) mirror (Zlen q2 + Zlen b) (negb mirror) (Zlen q2)
             (Zlen q2 + Zlen b + Zlen q1) -> rep rb q.

Lemma u15_small z : 0 <= z < 2 ^ 15 -> u15 z = z.
Proof. intros. by apply Z.mod_small. Qed.

Lemma status_eqb_negb m : Bool.eqb m (negb m) = false.
Proof. by destruct m. Qed.

Ltac nonneg := repeat match goal with
  | l : list Z |- _ => lazymatch goal with
    | _ : 0 <= Zlen l |- _ => fail
    | |- _ => pose proof (Zlen_nonneg l)
    end
  end.

Lemma rep_size rb q : rep rb q -> 0 <= Zlen q <= buffer_size rb /\ 0 < buffer_size rb < 2 ^ 15 /\
  Zlen (buffer_ptr rb) = buffer_size rb.
Proof.
  intros [a c m Hc Hs ->|q1 q2 b m -> Hq1 Hs ->]; cbn [buffer_size buffer_ptr];
    rewrite ?Zlen_app in *; nonneg; lia.
Qed.

Lemma rep_data_len rb q : rep rb q -> rt_ringbuffer_data_len rb = Zlen q.
Proof.
  intros [a c m Hc Hs ->|q1 q2 b m -> Hq1 Hs ->]; nonneg;
    unfold rt_ringbuffer_data_len, rt_ringbuffer_status;
    cbn [read_index write_index read_mirror write_mirror buffer_size].
  - destruct (Z.eqb_spec (Zlen a) (Zlen a + Zlen q)); [rewrite eqb_reflx; lia|].
    destruct (Z.ltb_spec (Zlen a) (Zlen a + Zlen q)); [|lia]. rewrite u32_small; lia.
  - rewrite Zlen_app in *. destruct (Z.eqb_spec (Zlen q2 + Zlen b) (Zlen q2)).
    + rewrite status_eqb_negb, u32_small; lia.
    + destruct (Z.ltb_spec (Zlen q2 + Zlen b) (Zlen q2)); [lia|]. rewrite u32_small; lia.
Qed.

Lemma rep_space_len rb q : rep rb q -> rt_ringbuffer_space_len rb = buffer_size rb - Zlen q.
Proof.
  intros H. pose proof (rep_size _ _ H). unfold rt_ringbuffer_space_len.
  rewrite (rep_data_len _ _ H), u32_small; lia.
Qed.

(** A full buffer is one with no space. *)
Lemma rep_full rb q : rep rb q ->
  match rt_ringbuffer_status rb with RT_RINGBUFFER_FULL => true | _ => false end
  = (Zlen q =? buffer_size rb).
Proof.
  intros [a c m Hc Hs ->|q1 q2 b m -> Hq1 Hs ->]; nonneg; unfold rt_ringbuffer_status;
    cbn [read_index write_index read_mirror write_mirror buffer_size].
  - destruct (Z.eqb_spec (Zlen a) (Zlen a + Zlen q)); rewrite ?eqb_reflx; lia.
  - rewrite Zlen_app in *. destruct (Z.eqb_spec (Zlen q2 + Zlen b) (Zlen q2));
      rewrite ?status_eqb_negb; lia.
Qed.

(** ** Storing *)

(** [l] fits. *)
Lemma put_rep rb q l rest : rep rb q -> 0 < Zlen l <= buffer_size rb - Zlen q ->
  exists rb', rt_ringbuffer_put rb (l ++ rest) (Zlen l) = Some (Zlen l, rb') /\
    rep rb' (q ++ l) /\ buffer_size rb' = buffer_size rb.
Proof.
  intros H Hl. pose proof (rep_size _ _ H) as Hsz. unfold rt_ringbuffer_put.
  rewrite (rep_space_len _ _ H), u16_small by lia.
  destruct (Z.eqb_spec (buffer_size rb - Zlen q) 0); [lia|].
  destruct (Z.ltb_spec (buffer_size rb - Zlen q) (Zlen l)); [lia|].
  destruct H as [a c m Hc Hs ->|q1 q2 b m -> Hq1 Hs ->]; cbn [buffer_size buffer_ptr write_index read_index write_mirror] in *;
    nonneg; rewrite ?Zlen_app in *.
  - destruct (Z.ltb_spec (Zlen l) (Zlen a + Zlen q + Zlen c - (Zlen a + Zlen q))).
    + destruct (cut c (Zlen l)) as (c1 & c2 & -> & Hc1 & Hc2); [lia|].
      rewrite (read_at_0 l rest) by done. simpl.
      rewrite (assoc_L (++) a), (write_at_mid (a ++ q) c1 c2) by (rewrite ?Zlen_app; lia). simpl.
      eexists. split; [done|]. split; [|done].
      apply (rep_same _ _ a c2 m); [lia|rewrite Zlen_app in *; lia|].
      unfold set_write. cbn. rewrite u15_small by lia. rewrite <-!(assoc_L (++)), !Zlen_app.
      f_equal; lia.
    + destruct (cut l (Zlen c)) as (l1 & l2 & -> & Hl1 & Hl2); [lia|].
      destruct (cut a (Zlen l2)) as (a1 & a2 & -> & Ha1 & Ha2); [lia|].
      rewrite ?Zlen_app in *. rewrite <-(assoc_L (++) l1).
      rewrite (read_at_0 l1 (l2 ++ rest)) by lia. simpl.
      rewrite (assoc_L (++) (a1 ++ a2)), (write_at_end ((a1 ++ a2) ++ q) c l1) by (rewrite ?Zlen_app; lia).
      simpl.
      rewrite (read_at_mid l1 l2 rest) by lia. simpl.
      rewrite <-!(assoc_L (++)), (write_at_0 a1) by lia. simpl.
      eexists. split; [done|]. split; [|done].
      apply (rep_wrap _ _ (q ++ l1) l2 a2 m); [by rewrite (assoc_L (++))|rewrite Zlen_app; lia..|].
      unfold set_write. cbn. rewrite u15_small, !Zlen_app by lia. f_equal; lia.
  - destruct (Z.ltb_spec (Zlen l) (Zlen q2 + Zlen b + Zlen q1 - Zlen q2)); [|lia].
    destruct (cut b (Zlen l)) as (b1 & b2 & -> & Hb1 & Hb2); [lia|]. rewrite ?Zlen_app in *.
    rewrite (read_at_0 l rest) by done. simpl.
    rewrite <-(assoc_L (++) b1), (write_at_mid q2 b1) by lia. simpl.
    eexists. split; [done|]. split; [|done].
    apply (rep_wrap _ _ q1 (q2 ++ l) b2 m); [by rewrite (assoc_L (++))|done|rewrite ?Zlen_app; lia|].
    unfold set_write. cbn. rewrite u15_small, <-!(assoc_L (++)), !Zlen_app by lia. f_equal; lia.
Qed.

(** ** Taking out *)

(** [l] is the front of the queue. *)
Lemma get_rep rb l q : rep rb (l ++ q) -> 0 < Zlen l ->
  exists rb', rt_ringbuffer_get rb (Zlen l) = Some (Zlen l, l, rb') /\
    rep rb' q /\ buffer_size rb' = buffer_size rb.
Proof.
  intros H Hl. pose proof (rep_size _ _ H) as Hsz. rewrite Zlen_app in Hsz. nonneg.
  unfold rt_ringbuffer_get. rewrite (rep_data_len _ _ H), Zlen_app.
  destruct (Z.eqb_spec (Zlen l + Zlen q) 0); [lia|].
  destruct (Z.ltb_spec (Zlen l + Zlen q) (Zlen l)); [lia|].
  inversion H as [a c m Hc Hs ->|q1 q2 b m Hq Hq1 Hs ->]; clear H;
    cbn [buffer_size buffer_ptr write_index read_index read_mirror] in *; nonneg; rewrite ?Zlen_app in *.
  - destruct (Z.ltb_spec (Zlen l) (Zlen a + (Zlen l + Zlen q) + Zlen c - Zlen a)); [|lia].
    rewrite <-(assoc_L (++) l), (read_at_mid a l) by done. simpl.
    eexists. split; [done|]. split; [|done].
    apply (rep_same _ _ (a ++ l) c m); [done|rewrite Zlen_app; lia|].
    unfold set_read. cbn. rewrite u15_small, <-!(assoc_L (++)), !Zlen_app by lia. f_equal; lia.
  - destruct (Z.ltb_spec (Zlen l) (Zlen q2 + Zlen b + Zlen q1 - (Zlen q2 + Zlen b))) as [Hlt|Hge].
    + destruct (cut q1 (Zlen l)) as (d1 & d2 & -> & Hd1 & Hd2); [lia|].
      rewrite <-(assoc_L (++)) in Hq. apply app_inj_1 in Hq as [<- ->]; [|unfold Zlen in *; lia].
      rewrite (assoc_L (++) q2), (read_at_mid (q2 ++ b)) by (rewrite ?Zlen_app; lia). simpl.
      eexists. split; [done|]. split; [|done]. rewrite ?Zlen_app in *.
      apply (rep_wrap _ _ d2 q2 (b ++ l) m); [done|lia|rewrite ?Zlen_app; lia|].
      unfold set_read. cbn. rewrite u15_small, <-!(assoc_L (++)), !Zlen_app by lia. f_equal; lia.
    + destruct (app_eq_longer _ _ _ _ Hq) as (d & -> & ->); [lia|]. rewrite ?Zlen_app in *.
      rewrite (assoc_L (++) (d ++ q)), (read_at_end ((d ++ q) ++ b) q1 (Zlen d + Zlen q + Zlen b)) by (rewrite ?Zlen_app; lia).
      simpl. rewrite <-!(assoc_L (++)), (read_at_0 d) by lia. simpl.
      eexists. split; [done|]. split; [|done]. nonneg.
      apply (rep_same _ _ d (b ++ q1) (negb m)); [rewrite ?Zlen_app; lia..|].
      unfold set_read. cbn. rewrite u15_small, !Zlen_app by lia. f_equal; lia.
Qed.

(** ** Single characters *)

Lemma putchar_rep rb q ch : rep rb q -> Zlen q < buffer_size rb ->
  exists rb', rt_ringbuffer_putchar rb ch = Some (1, rb') /\
    rep rb' (q ++ [ch]) /\ buffer_size rb' = buffer_size rb.
Proof.
  intros H Hl. unfold rt_ringbuffer_putchar. rewrite (rep_space_len _ _ H).
  destruct (Z.eqb_spec (buffer_size rb - Zlen q) 0); [lia|].
  destruct H as [a c m Hc Hs ->|q1 q2 b m -> Hq1 Hs ->];
    cbn [buffer_size buffer_ptr write_index write_mirror] in *; nonneg; rewrite ?Zlen_app in *.
  - destruct (Zlen_pos c Hc) as (x & c' & ->). rewrite (assoc_L (++) a), Zlen_cons in *. nonneg.
    rewrite (set_at_mid (a ++ q)) by (rewrite Zlen_app; lia). simpl.
    eexists. split; [done|]. split; [|by destruct (_ =? _)]. destruct (Z.eqb_spec (Zlen a + Zlen q)
      (Zlen a + Zlen q + (1 + Zlen c') - 1)) as [He|He].
    + assert (c' = []) as -> by (apply length_zero_iff_nil; unfold Zlen in *; lia).
      apply (rep_wrap _ _ (q ++ [ch]) [] a m); [by rewrite app_nil_r|rewrite Zlen_app; zlen; lia..|].
      unfold set_write. cbn. rewrite u15_small, <-!(assoc_L (++)), Zlen_app by lia.
      f_equal; zlen; lia.
    + apply (rep_same _ _ a c' m); [lia|rewrite Zlen_app; zlen; lia|].
      unfold set_write. cbn. rewrite u15_small, <-!(assoc_L (++)), Zlen_app by lia. f_equal; zlen; lia.
  - destruct (Zlen_pos b) as (x & b' & ->); [lia|]. rewrite Zlen_cons in *. nonneg.
    rewrite <-app_comm_cons, (set_at_mid q2) by lia. simpl.
    destruct (Z.eqb_spec (Zlen q2) (Zlen q2 + (1 + Zlen b') + Zlen q1 - 1)); [lia|].
    eexists. split; [done|]. split; [|done].
    apply (rep_wrap _ _ q1 (q2 ++ [ch]) b' m); [by rewrite (assoc_L (++))|done|rewrite Zlen_app; zlen; lia|].
    unfold set_write. cbn. rewrite u15_small, <-!(assoc_L (++)), Zlen_app by lia. f_equal; zlen; lia.
Qed.

Lemma putchar_force_not_full rb q ch : rep rb q -> Zlen q < buffer_size rb ->
  rt_ringbuffer_putchar_force rb ch = rt_ringbuffer_putchar rb ch.
Proof.
  intros H Hl. unfold rt_ringbuffer_putchar_force, rt_ringbuffer_putchar.
  rewrite (rep_space_len _ _ H). pose proof (rep_full _ _ H) as Hf.
  destruct (Z.eqb_spec (Zlen q) (buffer_size rb)); [lia|]. rewrite Hf.
  by destruct (Z.eqb_spec (buffer_size rb - Zlen q) 0); [lia|].
Qed.

(** On a full buffer the oldest character is dropped. *)
Lemma putchar_force_full rb q ch : rep rb q -> Zlen q = buffer_size rb ->
  exists rb', rt_ringbuffer_putchar_force rb ch = Some (1, rb') /\
    rep rb' (tail q ++ [ch]) /\ buffer_size rb' = buffer_size rb.
Proof.
  intros H Hl. unfold rt_ringbuffer_putchar_force. rewrite (rep_full _ _ H), Hl, Z.eqb_refl.
  destruct H as [a c m Hc Hs ->|q1 q2 b m -> Hq1 Hs ->];
    cbn [buffer_size buffer_ptr write_index write_mirror] in *; nonneg; rewrite ?Zlen_app in *; [lia|].
  assert (b = []) as -> by (apply length_zero_iff_nil; unfold Zlen in *; lia).
  destruct (Zlen_pos q1 Hq1) as (x & q1' & ->). zlen. nonneg. simpl app.
  rewrite (set_at_mid q2) by done. simpl. eexists. split; [done|].
  destruct (Z.eqb_spec (Zlen q2) (Zlen q2 + 0 + (1 + Zlen q1') - 1)); (split; [|done]).
  - assert (q1' = []) as -> by (apply length_zero_iff_nil; unfold Zlen in *; lia).
    apply (rep_wrap _ _ (q2 ++ [ch]) [] [] (negb m)); [by rewrite app_nil_r|zlen; lia..|].
    unfold set_write, set_read. cbn. change (u15 (u15 0)) with 0; change (u15 0) with 0. f_equal; zlen; lia.
  - apply (rep_wrap _ _ q1' (q2 ++ [ch]) [] m); [by rewrite (assoc_L (++))|lia|zlen; lia|].
    unfold set_write, set_read. cbn. rewrite (u15_small (Zlen q2 + 1)), u15_small by lia.
    rewrite <-(assoc_L (++)). f_equal; zlen; lia.
Qed.

Lemma getchar_rep rb x q : rep rb (x :: q) ->
  exists rb', rt_ringbuffer_getchar rb = Some (1, Some x, rb') /\
    rep rb' q /\ buffer_size rb' = buffer_size rb.
Proof.
  intros H. unfold rt_ringbuffer_getchar. rewrite (rep_data_len _ _ H), Zlen_cons. nonneg.
  destruct (Z.eqb_spec (1 + Zlen q) 0); [lia|].
  inversion H as [a c m Hc Hs ->|q1 q2 b m Hq Hq1 Hs ->]; clear H;
    cbn [buffer_size buffer_ptr read_index read_mirror] in *; nonneg; zlen.
  - cbn [app]. rewrite (get_at_mid a) by done. simpl. eexists. split; [done|].
    destruct (Z.eqb_spec (Zlen a) (Zlen a + (1 + Zlen q) + Zlen c - 1)); [lia|]. split; [|done].
    apply (rep_same _ _ (a ++ [x]) c m); [done|zlen; lia|].
    unfold set_read. cbn. rewrite u15_small, <-(assoc_L (++)) by lia. f_equal; zlen; lia.
  - destruct q1 as [|x' q1']; [zlen; lia|]. injection Hq as <- ->. zlen. nonneg.
    rewrite (assoc_L (++) q2), (get_at_mid (q2 ++ b)) by (zlen; lia). simpl. eexists. split; [done|].
    destruct (Z.eqb_spec (Zlen q2 + Zlen b) (Zlen q2 + Zlen b + (1 + Zlen q1') - 1)); (split; [|done]).
    + assert (q1' = []) as -> by (apply length_zero_iff_nil; unfold Zlen in *; lia).
      apply (rep_same _ _ [] (b ++ [x]) (negb m)); [zlen; lia..|].
      unfold set_read. cbn. rewrite u15_small, <-!(assoc_L (++)) by lia. f_equal; zlen; lia.
    + apply (rep_wrap _ _ q1' q2 (b ++ [x]) m); [done|lia|zlen; lia|].
      unfold set_read. cbn. rewrite u15_small, <-!(assoc_L (++)) by lia. f_equal; zlen; lia.
Qed.

(** ** Operations and the abstract queue *)

(** [Put l] stores the array [l]; [Get n] asks for [n] bytes. *)
Inductive rb_op :=
  | Put (l : list Z) | PutForce (l : list Z) | Get (n : Z) | PutChar (ch : Z) | PutCharForce (ch : Z) | GetChar | Reset.

(** The result value, the bytes handed out and the buffer afterwards. *)
Definition rb_exec (op : rb_op) (rb : rt_ringbuffer) : option (Z * list Z * rt_ringbuffer) :=
  match op with
  | Put l => '(n, rb) ← rt_ringbuffer_put rb l (Zlen l); Some (n, [], rb)
  | PutForce l => '(n, rb) ← rt_ringbuffer_put_force rb l (Zlen l); Some (n, [], rb)
  | Get n => rt_ringbuffer_get rb n
  | PutChar ch => '(n, rb) ← rt_ringbuffer_putchar rb ch; Some (n, [], rb)
  | PutCharForce ch => '(n, rb) ← rt_ringbuffer_putchar_force rb ch; Some (n, [], rb)
  | GetChar => '(n, ch, rb) ← rt_ringbuffer_getchar rb; Some (n, option_list ch, rb)
  | Reset => Some (0, [], rt_ringbuffer_reset rb)
  end.

(** A queue of at most [cap] bytes, whose first byte is at [r] of the pool: what
    does not fit is refused, and only the forced operations make room.
    [PutForce] stores what fits.  When it overflows, it takes [cap] bytes of the
    array, which is undefined for a shorter one, and drops the data before; if
    there were data that did not reach around the end of the pool, the new ones
    are lost, too. *)
Definition queue_step (cap : Z) (op : rb_op) (s : Z * list Z) : option (Z * list Z * (Z * list Z)) :=
  let '(r, q) := s in
  match op with
  | Put l => let n := Z.min (Zlen l) (cap - Zlen q) in Some (n, [], (r, q ++ take (Z.to_nat n) l))
  | PutForce l =>
      if Zlen l <=? cap - Zlen q then Some (Zlen l, [], (r, q ++ l)) else
      if Zlen l <? cap then None else
      Some (cap, [], ((r + Zlen q) mod cap, if (Zlen q =? 0) || (cap <=? r + Zlen q) then take (Z.to_nat cap) l else []))
  | Get n => let n := Z.min n (Zlen q) in Some (n, take (Z.to_nat n) q, ((r + n) mod cap, drop (Z.to_nat n) q))
  | PutChar ch => Some (if Zlen q <? cap then (1, [], (r, q ++ [ch])) else (0, [], (r, q)))
  | PutCharForce ch => Some (1, [], if Zlen q <? cap then (r, q ++ [ch]) else ((r + 1) mod cap, tail q ++ [ch]))
  | GetChar => Some (match q with [] => (0, [], (r, [])) | x :: q => (1, [x], ((r + 1) mod cap, q)) end)
  | Reset => Some (0, [], (0, []))
  end.

Fixpoint rb_run (ops : list rb_op) (rb : rt_ringbuffer) : option (list (Z * list Z) * rt_ringbuffer) :=
  match ops with
  | [] => Some ([], rb)
  | op :: ops =>
      '(n, out, rb) ← rb_exec op rb;
      '(outs, rb) ← rb_run ops rb;
      Some ((n, out) :: outs, rb)
  end.

Fixpoint queue_run (cap : Z) (ops : list rb_op) (s : Z * list Z) : option (list (Z * list Z) * (Z * list Z)) :=
  match ops with
  | [] => Some ([], s)
  | op :: ops =>
      '(n, out, s) ← queue_step cap op s;
      '(outs, s) ← queue_run cap ops s;
      Some ((n, out) :: outs, s)
  end.

(** [rb] is the queue [s]. *)
Definition is_queue (rb : rt_ringbuffer) (cap : Z) (s : Z * list Z) : Prop :=
  rep rb s.2 /\ read_index rb = s.1 /\ buffer_size rb = cap.

(** Lengths are 16-bit arguments. *)
Definition op_ok (op : rb_op) : Prop :=
  match op with Put l | PutForce l => Zlen l < 2 ^ 16 | Get n => 0 <= n < 2 ^ 16 | _ => True end.

(** A request for more than there is room for, or for nothing. *)
Lemma put_clamp rb q l n : rep rb q -> buffer_size rb - Zlen q <= n ->
  rt_ringbuffer_put rb l n = rt_ringbuffer_put rb l (buffer_size rb - Zlen q).
Proof.
  intros H Hn. pose proof (rep_size _ _ H). unfold rt_ringbuffer_put.
  rewrite (rep_space_len _ _ H), u16_small by lia.
  destruct (buffer_size rb - Zlen q =? 0); [done|]. rewrite Z.ltb_irrefl.
  destruct (Z.ltb_spec (buffer_size rb - Zlen q) n); [done|].
  by replace n with (buffer_size rb - Zlen q) by lia.
Qed.

Lemma rep_index rb q : rep rb q ->
  0 <= read_index rb < buffer_size rb /\ 0 <= write_index rb < buffer_size rb.
Proof.
  intros [a c m Hc Hs ->|q1 q2 b m -> Hq1 Hs ->]; cbn [read_index write_index buffer_size]; nonneg; lia.
Qed.

Lemma put_zero rb q l : rep rb q -> rt_ringbuffer_put rb l 0 = Some (0, rb).
Proof.
  intros H. pose proof (rep_size _ _ H) as (Hq & Hsz & Hpool). pose proof (rep_index _ _ H).
  unfold rt_ringbuffer_put. rewrite (rep_space_len _ _ H), u16_small by lia.
  destruct (Z.eqb_spec (buffer_size rb - Zlen q) 0); [done|].
  destruct (Z.ltb_spec (buffer_size rb - Zlen q) 0); [lia|].
  destruct (Z.ltb_spec 0 (buffer_size rb - write_index rb)); [|lia].
  change l with ([] ++ l). rewrite (read_at_0 [] l) by done. simpl. unfold write_at. zlen.
  destruct (Z.leb_spec 0 (write_index rb)), (Z.leb_spec (write_index rb + 0) (Zlen (buffer_ptr rb))); try lia.
  simpl. rewrite !Z.add_0_r, take_drop. do 2 f_equal. destruct rb. unfold set_write. cbn in *.
  by rewrite u15_small by lia.
Qed.

Lemma get_zero rb q : rep rb q -> rt_ringbuffer_get rb 0 = Some (0, [], rb).
Proof.
  intros H. pose proof (rep_size _ _ H) as (Hq & Hsz & Hpool). pose proof (rep_index _ _ H).
  unfold rt_ringbuffer_get. rewrite (rep_data_len _ _ H). destruct (Zlen q =? 0); [done|].
  destruct (Z.ltb_spec (Zlen q) 0); [lia|].
  destruct (Z.ltb_spec 0 (buffer_size rb - read_index rb)); [|lia]. unfold read_at.
  destruct (Z.leb_spec 0 (read_index rb)), (Z.leb_spec (read_index rb + 0) (Zlen (buffer_ptr rb))); try lia.
  simpl. do 2 f_equal. destruct rb. unfold set_read. cbn in *. by rewrite Z.add_0_r, u15_small by lia.
Qed.

(** The position of the first byte. *)
Lemma next_index cap r k : 0 <= r < cap -> 0 <= k <= cap -> cap < 2 ^ 15 ->
  (if k <? cap - r then u15 (r + k) else u15 (k - (cap - r))) = (r + k) mod cap.
Proof.
  intros Hr Hk Hc. destruct (Z.ltb_spec k (cap - r)); rewrite u15_small by lia.
  - symmetry. apply Z.mod_small. lia.
  - apply (Z.mod_unique_pos _ _ 1); lia.
Qed.

Lemma next_char cap r : 0 <= r < cap -> cap < 2 ^ 15 ->
  (if r =? cap - 1 then u15 0 else u15 (r + 1)) = (r + 1) mod cap.
Proof.
  intros Hr Hc. rewrite <-(next_index cap r 1) by lia.
  destruct (Z.eqb_spec r (cap - 1)), (Z.ltb_spec 1 (cap - r)); try lia; f_equal; lia.
Qed.

Lemma put_keeps_read rb l n k rb' : rt_ringbuffer_put rb l n = Some (k, rb') -> read_index rb' = read_index rb.
Proof.
  unfold rt_ringbuffer_put. destruct (_ =? 0); [by intros [= <- <-]|]. destruct (_ <? buffer_size rb - _).
  - destruct (read_at l 0 _); [|done]. cbn [mbind option_bind]. destruct (write_at _ _ _); [|done]. by intros [= <- <-].
  - destruct (read_at l 0 _); [|done]. cbn [mbind option_bind]. destruct (write_at _ _ _); [|done]. cbn [mbind option_bind].
    destruct (read_at l _ _); [|done]. cbn [mbind option_bind]. destruct (write_at _ 0 _); [|done]. by intros [= <- <-].
Qed.

Lemma putchar_keeps_read rb ch k rb' : rt_ringbuffer_putchar rb ch = Some (k, rb') -> read_index rb' = read_index rb.
Proof.
  unfold rt_ringbuffer_putchar. destruct (_ =? 0); [by intros [= <- <-]|].
  destruct (set_at _ _ _); [|done]. cbn [mbind option_bind]. intros [= <- <-]. by destruct (_ =? _).
Qed.

Lemma put_step rb r q l : is_queue rb (buffer_size rb) (r, q) -> exists rb',
  let n := Z.min (Zlen l) (buffer_size rb - Zlen q) in
  rt_ringbuffer_put rb l (Zlen l) = Some (n, rb') /\ is_queue rb' (buffer_size rb) (r, q ++ take (Z.to_nat n) l).
Proof.
  intros (H & Hr & _). cbn [fst snd] in *. pose proof (rep_size _ _ H) as Hsz. nonneg.
  set (n := Z.min (Zlen l) (buffer_size rb - Zlen q)). cbv zeta.
  assert (rt_ringbuffer_put rb l (Zlen l) = rt_ringbuffer_put rb l n) as ->.
  { unfold n. destruct (Z.leb_spec (buffer_size rb - Zlen q) (Zlen l)).
    - rewrite Z.min_r by done. by apply (put_clamp _ q).
    - by rewrite Z.min_l by lia. }
  assert (0 <= n <= Zlen l /\ n <= buffer_size rb - Zlen q) as Hn by lia. clearbody n.
  destruct (Z.eqb_spec n 0) as [->|].
  - exists rb. rewrite (put_zero _ q) by done. split; [done|]. unfold is_queue. cbn. by rewrite app_nil_r.
  - destruct (cut l n) as (l1 & l2 & -> & Hl1 & Hl2); [lia|]. rewrite <-Hl1.
    rewrite take_Zlen. destruct (put_rep rb q l1 l2 H) as (rb' & Hp & Hrep & Hs); [lia|].
    exists rb'. split; [done|]. split_and!; [done| |done]. cbn. rewrite <-Hr. by eapply put_keeps_read.
Qed.

Lemma write_nothing (d : list Z) i : 0 <= i <= Zlen d -> write_at d i [] = Some d.
Proof.
  intros Hi. unfold write_at. change (Zlen (@nil Z)) with 0. rewrite Z.add_0_r.
  rewrite (proj2 (Z.leb_le 0 i)), (proj2 (Z.leb_le i _)) by lia. cbn. by rewrite take_drop.
Qed.

(** A forced write that fits. *)
Lemma put_force_fits rb q l : rep rb q -> Zlen l <= buffer_size rb - Zlen q ->
  rt_ringbuffer_put_force rb l (Zlen l) = rt_ringbuffer_put rb l (Zlen l).
Proof.
  intros H Hl. pose proof (rep_size _ _ H) as Hsz. pose proof (rep_index _ _ H). nonneg.
  destruct (Z.eqb_spec (buffer_size rb - Zlen q) 0) as [Hz|Hz].
  - assert (l = []) as -> by (apply length_zero_iff_nil; unfold Zlen in *; lia).
    change (Zlen (@nil Z)) with 0. rewrite (put_zero _ _ _ H). unfold rt_ringbuffer_put_force.
    rewrite (rep_space_len _ _ H), u16_small by lia. destruct (Z.ltb_spec (buffer_size rb - Zlen q) 0); [lia|].
    destruct (Z.ltb_spec 0 (buffer_size rb - write_index rb)); [|lia]. change (read_at [] 0 0) with (Some (@nil Z)). cbn [mbind option_bind].
    rewrite write_nothing by lia. cbn [mbind option_bind]. rewrite (proj2 (Z.ltb_ge (buffer_size rb - Zlen q) 0)) by lia.
    do 2 f_equal. destruct rb. unfold set_write. cbn in *. by rewrite Z.add_0_r, u15_small by lia.
  - unfold rt_ringbuffer_put_force, rt_ringbuffer_put. rewrite (rep_space_len _ _ H), u16_small by lia.
    assert (buffer_size rb - Zlen q <? Zlen l = false) as Hf by lia. rewrite !Hf, (proj2 (Z.eqb_neq _ 0)) by done. done.
Qed.

(** A forced write that overflows. *)
Lemma put_force_overflows rb r q l : is_queue rb (buffer_size rb) (r, q) -> buffer_size rb - Zlen q < Zlen l ->
  let cap := buffer_size rb in
  if Zlen l <? cap then rt_ringbuffer_put_force rb l (Zlen l) = None else
  exists rb', rt_ringbuffer_put_force rb l (Zlen l) = Some (cap, rb') /\
    is_queue rb' cap ((r + Zlen q) mod cap, if (Zlen q =? 0) || (cap <=? r + Zlen q) then take (Z.to_nat cap) l else []).
Proof.
  intros (H & Hr & _) Hl. cbn [fst snd] in *. cbv zeta. pose proof (rep_size _ _ H) as Hsz. pose proof (rep_index _ _ H) as [Hri Hwi].
  unfold rt_ringbuffer_put_force. rewrite (rep_space_len _ _ H), u16_small by lia.
  rewrite (proj2 (Z.ltb_lt _ (Zlen l))), u16_small by lia. rewrite (proj2 (Z.ltb_ge (buffer_size rb) _)) by lia.
  set (first := buffer_size rb - write_index rb) in *.
  destruct (Z.ltb_spec (Zlen l) (buffer_size rb)).
  - destruct (read_at l 0 first) as [src|] eqn:Hs; [|done]. cbn [mbind option_bind].
    destruct (write_at _ _ src); [|done]. cbn [mbind option_bind].
    assert (read_at l first (buffer_size rb - first) = None) as ->; [|done].
    unfold read_at. rewrite (proj2 (Z.leb_gt (first + _) _)) by lia. by rewrite andb_false_r.
  - destruct (cut l (buffer_size rb)) as (l' & rest & -> & Hl' & _); [lia|].
    assert (take (Z.to_nat (buffer_size rb)) (l' ++ rest) = l') as -> by (rewrite <-Hl'; apply take_Zlen).
    destruct (cut l' first) as (l1 & l2 & -> & Hl1 & Hl2); [lia|].
    rewrite <-(assoc_L (++)), (read_at_0 l1) by lia. cbn [mbind option_bind].
    rewrite Zlen_app in Hl'. rewrite (read_at_mid l1 l2 rest) by lia.
    destruct (cut (buffer_ptr rb) (write_index rb)) as (m1 & m2 & Hm & Hm1 & Hm2); [lia|]. rewrite Hm.
    rewrite (write_at_end m1 m2 l1) by lia. cbn [mbind option_bind]. rewrite (write_at_0 m1 l1 l2) by lia.
    cbn [mbind option_bind]. replace (buffer_size rb - first) with (write_index rb) by lia.
    eexists. split; [reflexivity|].
    assert (Zlen l1 = buffer_size rb - write_index rb) as Hfirst by done. clearbody first.
    unfold set_write, set_read. cbn [write_index read_mirror write_mirror buffer_ptr buffer_size].
    rewrite !(u15_small (write_index rb)) by lia. destruct H as [a c m Hc Hs Hrb|q1 q2 b m Hq Hq1 Hs Hrb];
      rewrite Hrb in *; cbn [read_index write_index buffer_size read_mirror write_mirror] in *; subst r; nonneg.
    + destruct (Z.eqb_spec (Zlen q) 0) as [Hz|Hz].
      * rewrite (proj2 (Z.ltb_ge _ _)), Z.mod_small by lia. split_and!; cbn [fst snd read_index buffer_size orb]; [|lia|done].
        apply (rep_wrap _ _ l1 l2 [] m); [done|lia|change (Zlen (@nil Z)) with 0; lia|].
        change (Zlen (@nil Z)) with 0. f_equal; lia.
      * rewrite (proj2 (Z.ltb_lt _ _)), (proj2 (Z.leb_gt _ _)), Z.mod_small by lia.
        split_and!; cbn [fst snd read_index buffer_size orb]; [|done..].
        apply (rep_same _ _ l2 l1 (negb m)); [lia|change (Zlen (@nil Z)) with 0; lia|].
        change (Zlen (@nil Z)) with 0. f_equal; lia.
    + subst q. rewrite Zlen_app in *. rewrite (proj2 (Z.ltb_lt _ _)), (proj2 (Z.leb_le _ _)), orb_true_r by lia.
      assert ((Zlen q2 + Zlen b + (Zlen q1 + Zlen q2)) mod (Zlen q2 + Zlen b + Zlen q1) = Zlen q2) as ->
        by (symmetry; apply (Z.mod_unique_pos _ _ 1); lia).
      split_and!; cbn [fst snd read_index buffer_size]; [|done..].
      apply (rep_wrap _ _ l1 l2 [] (negb m)); [done|lia|change (Zlen (@nil Z)) with 0; lia|].
      change (Zlen (@nil Z)) with 0. f_equal; lia.
Qed.

Lemma get_step rb r q n : is_queue rb (buffer_size rb) (r, q) -> 0 <= n -> exists rb',
  let k := Z.min n (Zlen q) in
  rt_ringbuffer_get rb n = Some (k, take (Z.to_nat k) q, rb') /\
  is_queue rb' (buffer_size rb) ((r + k) mod buffer_size rb, drop (Z.to_nat k) q).
Proof.
  intros (H & Hr & _) Hn. cbn [fst snd] in *. pose proof (rep_size _ _ H) as Hsz. pose proof (rep_index _ _ H) as [Hri _]. nonneg.
  set (k := Z.min n (Zlen q)). cbv zeta.
  assert (rt_ringbuffer_get rb n = rt_ringbuffer_get rb k) as ->.
  { unfold k, rt_ringbuffer_get. rewrite (rep_data_len _ _ H).
    destruct (Zlen q =? 0); [done|]. rewrite (proj2 (Z.ltb_ge (Zlen q) (Z.min n (Zlen q)))) by lia.
    destruct (Z.ltb_spec (Zlen q) n); [|by rewrite Z.min_l by lia].
    by rewrite u16_small, Z.min_r by lia. }
  assert (0 <= k <= Zlen q) as Hk by lia. clearbody k.
  destruct (Z.eqb_spec k 0) as [->|].
  - exists rb. rewrite (get_zero _ q) by done. split; [done|]. unfold is_queue. cbn. rewrite drop_0.
    split_and!; [done| |done]. rewrite Z.add_0_r, Z.mod_small by lia. done.
  - destruct (cut q k) as (l1 & l2 & -> & Hl1 & Hl2); [lia|]. rewrite <-Hl1.
    rewrite take_Zlen, drop_Zlen. destruct (get_rep rb l1 l2 H) as (rb' & Hg & Hrep & Hs); [lia|].
    exists rb'. split; [done|]. split_and!; [done| |done]. cbn [fst]. subst r.
    revert Hg. unfold rt_ringbuffer_get. rewrite (rep_data_len _ _ H), Hl1.
    destruct (_ =? 0) eqn:Hz; [apply Z.eqb_eq in Hz; lia|]. rewrite (proj2 (Z.ltb_ge _ k)) by lia.
    rewrite <-next_index by lia. destruct (k <? _).
    + destruct (read_at _ _ _); [|done]. cbn [mbind option_bind]. by intros [= _ <-].
    + destruct (read_at (buffer_ptr rb) (read_index rb) _); cbn [mbind option_bind]; [|done]. destruct (read_at _ _ _); cbn [mbind option_bind]; [|done]. by intros [= _ <-].
Qed.

Lemma rep_step op rb s : is_queue rb (buffer_size rb) s -> op_ok op ->
  match queue_step (buffer_size rb) op s with
  | Some (n, out, s') => exists rb', rb_exec op rb = Some (n, out, rb') /\ is_queue rb' (buffer_size rb) s'
  | None => rb_exec op rb = None
  end.
Proof.
  intros Hs Hop. destruct s as [r q]. pose proof Hs as (H & Hr & _). cbn [fst snd] in H, Hr.
  pose proof (rep_size _ _ H) as Hsz. pose proof (rep_index _ _ H) as [Hri _].
  destruct op as [l|l|n|ch|ch| |]; simpl in *.
  - destruct (put_step _ _ _ l Hs) as (rb' & -> & ?). by exists rb'.
  - destruct (Z.leb_spec (Zlen l) (buffer_size rb - Zlen q)) as [Hle|Hlt].
    + rewrite (put_force_fits _ _ _ H Hle). destruct (put_step _ _ _ l Hs) as (rb' & Hp & Hq). cbv zeta in Hp, Hq.
      rewrite Z.min_l in Hp, Hq by done. rewrite Hp. rewrite firstn_all2 in Hq by (unfold Zlen; lia). by exists rb'.
    + pose proof (put_force_overflows _ _ _ l Hs Hlt) as Ho. cbv zeta in Ho. destruct (Zlen l <? buffer_size rb); [by rewrite Ho|].
      destruct Ho as (rb' & -> & ?). by exists rb'.
  - destruct (get_step _ _ _ n Hs) as (rb' & -> & ?); [lia|]. by exists rb'.
  - destruct (Z.ltb_spec (Zlen q) (buffer_size rb)).
    + destruct (putchar_rep _ _ ch H) as (rb' & Hp & ? & ?); [done|]. rewrite Hp. exists rb'. split; [done|].
      split_and!; [done| |done]. cbn. rewrite <-Hr. by eapply putchar_keeps_read.
    + exists rb. unfold rt_ringbuffer_putchar. rewrite (rep_space_len _ _ H).
      by destruct (Z.eqb_spec (buffer_size rb - Zlen q) 0); [|lia].
  - destruct (Z.ltb_spec (Zlen q) (buffer_size rb)).
    + rewrite (putchar_force_not_full _ _ _ H) by done.
      destruct (putchar_rep _ _ ch H) as (rb' & Hp & ? & ?); [done|]. rewrite Hp. exists rb'. split; [done|].
      split_and!; [done| |done]. cbn. rewrite <-Hr. by eapply putchar_keeps_read.
    + destruct (putchar_force_full _ _ ch H) as (rb' & Hp & ? & ?); [lia|]. rewrite Hp. exists rb'. split; [done|].
      split_and!; [done| |done]. cbn [fst]. revert Hp. unfold rt_ringbuffer_putchar_force.
      rewrite (rep_full _ _ H), (proj2 (Z.eqb_eq (Zlen q) (buffer_size rb))) by lia. destruct (set_at _ _ _); [|done]. cbn [mbind option_bind].
      assert (write_index rb = read_index rb) as Hw.
      { destruct H as [a c m Hc Hs' ->|q1 q2 b m -> Hq1 Hs' ->]; cbn [buffer_size write_index read_index] in *; nonneg; rewrite ?Zlen_app in *; lia. }
      intros [= <-]. subst r. rewrite <-next_char, Hw by lia. destruct (read_index rb =? buffer_size rb - 1); cbn [read_index set_read write_index set_write]; [done|].
      rewrite (u15_small (u15 _)); [done|]. by apply Z.mod_pos_bound.
  - destruct q as [|x q].
    + exists rb. unfold rt_ringbuffer_getchar. by rewrite (rep_data_len _ _ H).
    + destruct (getchar_rep _ _ _ H) as (rb' & Hp & ? & ?). rewrite Hp. exists rb'. split; [done|].
      split_and!; [done| |done]. cbn [fst]. revert Hp. unfold rt_ringbuffer_getchar. destruct (_ =? 0); [done|].
      destruct (get_at _ _); [|done]. cbn [mbind option_bind]. intros [= _ <-]. subst r.
      rewrite <-next_char by lia. by destruct (_ =? _).
  - exists (rt_ringbuffer_reset rb). split; [done|]. split_and!; [|done..].
    cbn [snd]. apply (rep_same _ _ [] (buffer_ptr rb) false); [lia|zlen; lia|].
    unfold rt_ringbuffer_reset. f_equal; zlen; lia.
Qed.

Lemma rep_run ops cap rb s : is_queue rb cap s -> Forall op_ok ops ->
  match queue_run cap ops s with
  | Some (outs, s') => exists rb', rb_run ops rb = Some (outs, rb') /\ is_queue rb' cap s'
  | None => rb_run ops rb = None
  end.
Proof.
  revert rb s. induction ops as [|op ops IH]; intros rb s H Hops; [by exists rb|].
  apply Forall_cons in Hops as [Hop Hops]. pose proof H as (_ & _ & <-). pose proof (rep_step op rb s H Hop) as Hs. simpl.
  destruct (queue_step (buffer_size rb) op s) as [[[n out] s1]|]; cbn [mbind option_bind]; [|by rewrite Hs].
  destruct Hs as (rb1 & -> & H1). cbn [mbind option_bind]. specialize (IH rb1 s1 H1 Hops).
  destruct (queue_run (buffer_size rb) ops s1) as [[outs s2]|]; cbn [mbind option_bind]; [|by rewrite IH].
  destruct IH as (rb' & -> & H'). by exists rb'.
Qed.

Lemma rep_init pool size : 0 < size < 2 ^ 15 -> size mod 4 = 0 -> Zlen pool = size ->
  rep (rt_ringbuffer_init pool size) [] /\ buffer_size (rt_ringbuffer_init pool size) = size.
Proof.
  intros Hsz Hmod Hl. unfold rt_ringbuffer_init.
  assert (s16 (RT_ALIGN_DOWN size RT_ALIGN_SIZE) = size) as ->; [|split; [|done]].
  - unfold RT_ALIGN_DOWN, RT_ALIGN_SIZE. change (4 - 1) with (Z.ones 2).
    rewrite <-Z.ldiff_land, Z.ldiff_ones_r by done. rewrite Z.shiftl_mul_pow2, Z.shiftr_div_pow2 by done.
    unfold s16. change (2 ^ 2) with 4. rewrite Z.mod_small; Z.div_mod_to_equations; lia.
  - apply (rep_same _ _ [] pool false); [lia|zlen; lia|]. f_equal; zlen; lia.
Qed.

(** ** Properties *)

(** C35: from initialisation on, every sequence of operations, with arguments
    of any 16-bit length, is exactly the sequence on the bounded queue: the same
    results and bytes, inside the pool and the caller's arrays, however the
    indices wrap.  Nothing is lost, repeated or reordered, with one exception,
    which the queue has, too: a put_force that overflows drops the data before
    it, keeps its own only if there were no data or they reached around the end
    of the pool, and is undefined for an array that is shorter than the pool. *)
Theorem ringbuffer_refines_queue pool size ops :
  0 < size < 2 ^ 15 -> size mod 4 = 0 -> Zlen pool = size -> Forall op_ok ops ->
  match queue_run size ops (0, []) with
  | Some (outs, s) => exists rb, rb_run ops (rt_ringbuffer_init pool size) = Some (outs, rb) /\ is_queue rb size s
  | None => rb_run ops (rt_ringbuffer_init pool size) = None
  end.
Proof.
  intros Hsz Hmod Hl Hops. destruct (rep_init pool size) as [H Hb]; [done..|].
  by apply rep_run; [split_and!|].
Qed.

Lemma ringbuffer_refines_queue_witness :
  let ops := [Put [1; 2; 3]; GetChar; PutChar 4; Get 2; Put [5; 6; 7; 8]; PutCharForce 9; PutForce [1; 2; 3; 4; 5]; Get 9] in
  exists rb, rb_run ops (rt_ringbuffer_init [0; 0; 0; 0] 4) =
    Some ([(3, []); (1, [1]); (1, []); (2, [2; 3]); (3, []); (1, []); (4, []); (4, [1; 2; 3; 4])], rb) /\ is_queue rb 4 (0, []).
Proof.
  apply (ringbuffer_refines_queue [0; 0; 0; 0] 4
    [Put [1; 2; 3]; GetChar; PutChar 4; Get 2; Put [5; 6; 7; 8]; PutCharForce 9; PutForce [1; 2; 3; 4; 5]; Get 9]).
  - lia.
  - reflexivity.
  - reflexivity.
  - repeat constructor; try (unfold op_ok, Zlen; simpl; lia).
Defined.

(** [rt_ringbuffer_put_force] does not keep the newest data when it
    overflows: with one byte in a buffer of four, a request for four bytes
    reports four stored bytes and leaves the buffer empty, because the read
    mirror is flipped although the reader had not wrapped; and a request that
    is larger than the space but smaller than the buffer reads behind the
    caller's array, because the length is raised to the size of the buffer. *)
Theorem put_force_overflow :
  let rb := rt_ringbuffer_init [0; 0; 0; 0] 4 in
  ('(_, rb) ← rt_ringbuffer_putchar rb 1;
   '(n, rb) ← rt_ringbuffer_put_force rb [2; 3; 4; 5] 4;
   Some (n, rt_ringbuffer_data_len rb)) = Some (4, 0) /\
  ('(_, rb) ← rt_ringbuffer_put rb [1; 2; 3] 3;
   rt_ringbuffer_put_force rb [4; 5] 2) = None.
Proof. split; vm_compute; reflexivity. Qed.
