(* ===== verification/NetUtils.v ===== *)
(** * Byte utilities (components/net/Utils/utils.c)

    The table-driven CRC-16 of MODBUS is proved equal to the bitwise
    definition of the polynomial; the hexadecimal dump is a function to the
    text it prints.  The busy-wait loops [mDelay] and [uDelay] have no result
    and are not modelled. *)

From S2P Require Import Prelude.

Open Scope Z_scope.

Definition prvucMBBIN2CHAR (ucByte : Z) : Z :=
  if ucByte <=? 0x09 then u8 (48 + ucByte)
  else if (0x0A <=? ucByte) && (ucByte <=? 0x0F) then u8 (ucByte - 0x0A + 65)
  else 48.

(** printf's "%02X" of a byte. *)
Definition hex_digit (v : Z) : Z := if v <? 10 then 48 + v else 55 + v.
Definition hex2 (b : Z) : list Z := [hex_digit (b / 16); hex_digit (b mod 16)].

(** What the loop of [hexdump] prints from index [i] on. *)
Fixpoint hexdump_loop (buf : list Z) (i : Z) : list Z :=
  match buf with
  | [] => []
  | b :: buf =>
      hex2 b ++ [32] ++ (if (i + 1) mod 8 =? 0 then [13; 10] else []) ++ hexdump_loop buf (i + 1)
  end.

Definition hexdump (buf : list Z) (num : Z) : option (list Z) :=
  l ← read_at buf 0 num; Some (hexdump_loop l 0 ++ [13; 10]).

Definition aucCRCHi : list Z := [
  0x00; 0xC1; 0x81; 0x40; 0x01; 0xC0; 0x80; 0x41; 0x01; 0xC0; 0x80; 0x41; 0x00; 0xC1; 0x81; 0x40;
  0x01; 0xC0; 0x80; 0x41; 0x00; 0xC1; 0x81; 0x40; 0x00; 0xC1; 0x81; 0x40; 0x01; 0xC0; 0x80; 0x41;
  0x01; 0xC0; 0x80; 0x41; 0x00; 0xC1; 0x81; 0x40; 0x00; 0xC1; 0x81; 0x40; 0x01; 0xC0; 0x80; 0x41;
  0x00; 0xC1; 0x81; 0x40; 0x01; 0xC0; 0x80; 0x41; 0x01; 0xC0; 0x80; 0x41; 0x00; 0xC1; 0x81; 0x40;
  0x01; 0xC0; 0x80; 0x41; 0x00; 0xC1; 0x81; 0x40; 0x00; 0xC1; 0x81; 0x40; 0x01; 0xC0; 0x80; 0x41;
  0x00; 0xC1; 0x81; 0x40; 0x01; 0xC0; 0x80; 0x41; 0x01; 0xC0; 0x80; 0x41; 0x00; 0xC1; 0x81; 0x40;
  0x00; 0xC1; 0x81; 0x40; 0x01; 0xC0; 0x80; 0x41; 0x01; 0xC0; 0x80; 0x41; 0x00; 0xC1; 0x81; 0x40;
  0x01; 0xC0; 0x80; 0x41; 0x00; 0xC1; 0x81; 0x40; 0x00; 0xC1; 0x81; 0x40; 0x01; 0xC0; 0x80; 0x41;
  0x01; 0xC0; 0x80; 0x41; 0x00; 0xC1; 0x81; 0x40; 0x00; 0xC1; 0x81; 0x40; 0x01; 0xC0; 0x80; 0x41;
  0x00; 0xC1; 0x81; 0x40; 0x01; 0xC0; 0x80; 0x41; 0x01; 0xC0; 0x80; 0x41; 0x00; 0xC1; 0x81; 0x40;
  0x00; 0xC1; 0x81; 0x40; 0x01; 0xC0; 0x80; 0x41; 0x01; 0xC0; 0x80; 0x41; 0x00; 0xC1; 0x81; 0x40;
  0x01; 0xC0; 0x80; 0x41; 0x00; 0xC1; 0x81; 0x40; 0x00; 0xC1; 0x81; 0x40; 0x01; 0xC0; 0x80; 0x41;
  0x00; 0xC1; 0x81; 0x40; 0x01; 0xC0; 0x80; 0x41; 0x01; 0xC0; 0x80; 0x41; 0x00; 0xC1; 0x81; 0x40;
  0x01; 0xC0; 0x80; 0x41; 0x00; 0xC1; 0x81; 0x40; 0x00; 0xC1; 0x81; 0x40; 0x01; 0xC0; 0x80; 0x41;
  0x01; 0xC0; 0x80; 0x41; 0x00; 0xC1; 0x81; 0x40; 0x00; 0xC1; 0x81; 0x40; 0x01; 0xC0; 0x80; 0x41;
  0x00; 0xC1; 0x81; 0x40; 0x01; 0xC0; 0x80; 0x41; 0x01; 0xC0; 0x80; 0x41; 0x00; 0xC1; 0x81; 0x40].

Definition aucCRCLo : list Z := [
  0x00; 0xC0; 0xC1; 0x01; 0xC3; 0x03; 0x02; 0xC2; 0xC6; 0x06; 0x07; 0xC7; 0x05; 0xC5; 0xC4; 0x04;
  0xCC; 0x0C; 0x0D; 0xCD; 0x0F; 0xCF; 0xCE; 0x0E; 0x0A; 0xCA; 0xCB; 0x0B; 0xC9; 0x09; 0x08; 0xC8;
  0xD8; 0x18; 0x19; 0xD9; 0x1B; 0xDB; 0xDA; 0x1A; 0x1E; 0xDE; 0xDF; 0x1F; 0xDD; 0x1D; 0x1C; 0xDC;
  0x14; 0xD4; 0xD5; 0x15; 0xD7; 0x17; 0x16; 0xD6; 0xD2; 0x12; 0x13; 0xD3; 0x11; 0xD1; 0xD0; 0x10;
  0xF0; 0x30; 0x31; 0xF1; 0x33; 0xF3; 0xF2; 0x32; 0x36; 0xF6; 0xF7; 0x37; 0xF5; 0x35; 0x34; 0xF4;
  0x3C; 0xFC; 0xFD; 0x3D; 0xFF; 0x3F; 0x3E; 0xFE; 0xFA; 0x3A; 0x3B; 0xFB; 0x39; 0xF9; 0xF8; 0x38;
  0x28; 0xE8; 0xE9; 0x29; 0xEB; 0x2B; 0x2A; 0xEA; 0xEE; 0x2E; 0x2F; 0xEF; 0x2D; 0xED; 0xEC; 0x2C;
  0xE4; 0x24; 0x25; 0xE5; 0x27; 0xE7; 0xE6; 0x26; 0x22; 0xE2; 0xE3; 0x23; 0xE1; 0x21; 0x20; 0xE0;
  0xA0; 0x60; 0x61; 0xA1; 0x63; 0xA3; 0xA2; 0x62; 0x66; 0xA6; 0xA7; 0x67; 0xA5; 0x65; 0x64; 0xA4;
  0x6C; 0xAC; 0xAD; 0x6D; 0xAF; 0x6F; 0x6E; 0xAE; 0xAA; 0x6A; 0x6B; 0xAB; 0x69; 0xA9; 0xA8; 0x68;
  0x78; 0xB8; 0xB9; 0x79; 0xBB; 0x7B; 0x7A; 0xBA; 0xBE; 0x7E; 0x7F; 0xBF; 0x7D; 0xBD; 0xBC; 0x7C;
  0xB4; 0x74; 0x75; 0xB5; 0x77; 0xB7; 0xB6; 0x76; 0x72; 0xB2; 0xB3; 0x73; 0xB1; 0x71; 0x70; 0xB0;
  0x50; 0x90; 0x91; 0x51; 0x93; 0x53; 0x52; 0x92; 0x96; 0x56; 0x57; 0x97; 0x55; 0x95; 0x94; 0x54;
  0x9C; 0x5C; 0x5D; 0x9D; 0x5F; 0x9F; 0x9E; 0x5E; 0x5A; 0x9A; 0x9B; 0x5B; 0x99; 0x59; 0x58; 0x98;
  0x88; 0x48; 0x49; 0x89; 0x4B; 0x8B; 0x8A; 0x4A; 0x4E; 0x8E; 0x8F; 0x4F; 0x8D; 0x4D; 0x4C; 0x8C;
  0x44; 0x84; 0x85; 0x45; 0x87; 0x47; 0x46; 0x86; 0x82; 0x42; 0x43; 0x83; 0x41; 0x81; 0x80; 0x40].

(** The loop, from a given pair of check bytes. *)
Fixpoint usMBCRC16_loop (pucFrame : list Z) (ucCRCHi ucCRCLo : Z) : option (Z * Z) :=
  match pucFrame with
  | [] => Some (ucCRCHi, ucCRCLo)
  | b :: pucFrame =>
      let iIndex := Z.lxor ucCRCLo b in
      hi ← get_at aucCRCHi iIndex;
      lo ← get_at aucCRCLo iIndex;
      usMBCRC16_loop pucFrame lo (u8 (Z.lxor ucCRCHi hi))
  end.

Definition usMBCRC16 (pucFrame : list Z) (usLen : Z) : option Z :=
  l ← read_at pucFrame 0 usLen;
  '(ucCRCHi, ucCRCLo) ← usMBCRC16_loop l 0xFF 0xFF;
  Some (u16 (Z.lor (Z.shiftl ucCRCHi 8) ucCRCLo)).

(** ** The bitwise definition

    Polynomial 0x8005, reflected: 0xA001; initial value 0xFFFF. *)

Definition crc_bit (x : Z) : Z := Z.lxor (Z.shiftr x 1) (if Z.odd x then 0xA001 else 0).

Definition crc_byte (x : Z) : Z := Nat.iter 8 crc_bit x.

Definition crc_step (crc b : Z) : Z := crc_byte (Z.lxor crc b).

Definition crc16 (l : list Z) : Z := fold_left crc_step l 0xFFFF.

(** One bit is linear, hence one byte. *)
Lemma crc_bit_lxor x y : crc_bit (Z.lxor x y) = Z.lxor (crc_bit x) (crc_bit y).
Proof.
  unfold crc_bit. rewrite Z.shiftr_lxor, <-!Z.bit0_odd, Z.lxor_spec, !Z.bit0_odd.
  assert (forall a b c d, Z.lxor (Z.lxor a b) (Z.lxor c d) = Z.lxor (Z.lxor a c) (Z.lxor b d)) as Hac.
  { intros. rewrite !Z.lxor_assoc. f_equal. rewrite <-!Z.lxor_assoc. f_equal. apply Z.lxor_comm. }
  rewrite Hac. f_equal. by destruct (Z.odd x), (Z.odd y).
Qed.

Lemma crc_byte_lxor x y : crc_byte (Z.lxor x y) = Z.lxor (crc_byte x) (crc_byte y).
Proof. unfold crc_byte. generalize 8%nat. intros n. induction n as [|n IH]; [done|]. simpl. by rewrite IH, crc_bit_lxor. Qed.

Lemma crc_bit_even z : crc_bit (2 * z) = z.
Proof.
  unfold crc_bit. rewrite Z.odd_mul. simpl. rewrite Z.lxor_0_r, Z.shiftr_div_pow2 by done.
  rewrite Z.mul_comm. by apply Z.div_mul.
Qed.

(** The high byte is only shifted down. *)
Lemma crc_byte_high h : crc_byte (Z.shiftl h 8) = h.
Proof.
  rewrite Z.shiftl_mul_pow2 by done. replace (h * 2 ^ 8) with (2 * (2 * (2 * (2 * (2 * (2 * (2 * (2 * h))))))))
    by lia. unfold crc_byte. simpl Nat.iter. by rewrite !crc_bit_even.
Qed.

(** The tables hold the check bytes of every byte. *)
Lemma crc_tables i : 0 <= i < 256 -> exists hi lo, get_at aucCRCHi i = Some hi /\
  get_at aucCRCLo i = Some lo /\ 0 <= hi < 256 /\ 0 <= lo < 256 /\
  crc_byte i = Z.lor (Z.shiftl lo 8) hi.
Proof.
  intros Hi.
  assert (match get_at aucCRCHi i, get_at aucCRCLo i with
    | Some hi, Some lo => (0 <=? hi) && (hi <? 256) && (0 <=? lo) && (lo <? 256) &&
        (crc_byte i =? Z.lor (Z.shiftl lo 8) hi)
    | _, _ => false end = true) as H.
  { revert i Hi. by apply byte_forall. }
  destruct (get_at aucCRCHi i) as [hi|]; [|done]. destruct (get_at aucCRCLo i) as [lo|]; [|done].
  exists hi, lo. split_and!; try done; lia.
Qed.

Lemma crc_loop_cons b l hi lo th tl :
  get_at aucCRCHi (Z.lxor lo b) = Some th -> get_at aucCRCLo (Z.lxor lo b) = Some tl ->
  usMBCRC16_loop (b :: l) hi lo = usMBCRC16_loop l tl (u8 (Z.lxor hi th)).
Proof. intros Hh Hl. cbn [usMBCRC16_loop]. by rewrite Hh, Hl. Qed.

(** One byte on the pair of check bytes. *)
Lemma crc_byte_pair hi lo b th tl : 0 <= hi < 256 -> 0 <= lo < 256 -> 0 <= b < 256 ->
  0 <= th < 256 -> 0 <= tl < 256 -> crc_byte (Z.lxor lo b) = Z.lor (Z.shiftl tl 8) th ->
  crc_step (Z.lor (Z.shiftl hi 8) lo) b = Z.lor (Z.shiftl tl 8) (Z.lxor hi th).
Proof.
  intros Hhi Hlo Hb Hth Htl Ht. unfold crc_step. pose proof (lxor_byte hi th Hhi Hth).
  rewrite <-(lxor_shiftl_lor hi), Z.lxor_assoc, crc_byte_lxor, crc_byte_high, Ht by lia.
  rewrite <-!lxor_shiftl_lor by lia. rewrite <-!Z.lxor_assoc. f_equal. apply Z.lxor_comm.
Qed.

Lemma fold_left_cons {A B} (f : A -> B -> A) b l a : fold_left f (b :: l) a = fold_left f l (f a b).
Proof. done. Qed.

Lemma crc_loop l hi lo : Forall (fun b => 0 <= b < 256) l -> 0 <= hi < 256 -> 0 <= lo < 256 ->
  exists hi' lo', usMBCRC16_loop l hi lo = Some (hi', lo') /\ 0 <= hi' < 256 /\ 0 <= lo' < 256 /\
  fold_left crc_step l (Z.lor (Z.shiftl hi 8) lo) = Z.lor (Z.shiftl hi' 8) lo'.
Proof.
  revert hi lo. induction l as [|b l IH]; intros hi lo Hl Hhi Hlo; [by exists hi, lo|].
  apply Forall_cons in Hl as [Hb Hl]. pose proof (lxor_byte lo b Hlo Hb) as Hi.
  destruct (crc_tables _ Hi) as (th & tl & Hgh & Hgl & Hth & Htl & Ht).
  pose proof (lxor_byte hi th Hhi Hth) as Hx.
  rewrite (crc_loop_cons _ _ _ _ _ _ Hgh Hgl), u8_small by lia.
  rewrite fold_left_cons, (crc_byte_pair _ _ _ _ _ Hhi Hlo Hb Hth Htl Ht).
  exact (IH _ _ Hl Htl Hx).
Qed.

(** ** Properties *)

(** For every frame of at most 65535 bytes the table-driven checksum is
    the bitwise CRC-16 of MODBUS: no table entry is wrong, and the two bytes
    are combined in the right order. *)
Theorem usMBCRC16_crc16 frame rest usLen :
  Forall (fun b => 0 <= b < 256) frame -> usLen = Zlen frame -> usLen < 2 ^ 16 ->
  usMBCRC16 (frame ++ rest) usLen = Some (crc16 frame).
Proof.
  intros Hl -> Hlen. unfold usMBCRC16. rewrite read_at_0 by done. cbn [mbind option_bind].
  destruct (crc_loop frame 0xFF 0xFF) as (hi & lo & -> & Hhi & Hlo & Hf); [done|lia|lia|]. cbn [mbind option_bind].
  unfold crc16. change 0xFFFF with (Z.lor (Z.shiftl 0xFF 8) 0xFF). rewrite Hf. f_equal.
  rewrite lor_shiftl_add by lia. apply u16_small. lia.
Qed.

(** The request of the MODBUS specification's example: check bytes C5 CD. *)
Lemma usMBCRC16_crc16_witness :
  usMBCRC16 ([1; 3; 0; 0; 0; 0x0A] ++ [0; 0]) 6 = Some (crc16 [1; 3; 0; 0; 0; 0x0A]) /\
  crc16 [1; 3; 0; 0; 0; 0x0A] = 0xCDC5.
Proof.
  split; [|reflexivity]. apply (usMBCRC16_crc16 [1; 3; 0; 0; 0; 0x0A] [0; 0] 6).
  - repeat constructor; lia.
  - reflexivity.
  - reflexivity.
Defined.
