(* ===== verification/Cstr.v ===== *)
(** * Strings and substrings on lists of bytes

    What the string functions of the C library compute, for the components
    whose buffers are lists of bytes: the string in front of the first NUL,
    prefixes and first occurrences. *)

From S2P Require Import Prelude.

Open Scope Z_scope.

(** The string at the start of an array; [None] when no NUL ends it. *)
Fixpoint cstr_list (l : list Z) : option (list Z) :=
  match l with
  | [] => None
  | c :: l => if c =? 0 then Some [] else cons c <$> cstr_list l
  end.

(** The string at an offset. *)
Definition cstr_from (l : list Z) (off : Z) : option (list Z) :=
  if (0 <=? off) && (off <=? Zlen l) then cstr_list (drop (Z.to_nat off) l) else None.

Definition nonzero (l : list Z) : Prop := Forall (fun c => c <> 0) l.

Fixpoint is_prefix (p l : list Z) : bool :=
  match p, l with
  | [], _ => true
  | x :: p, y :: l => (x =? y) && is_prefix p l
  | _ :: _, [] => false
  end.

(** strstr: the index of the first occurrence. *)
Fixpoint find_sub (needle hay : list Z) : option Z :=
  if is_prefix needle hay then Some 0 else
  match hay with
  | [] => None
  | _ :: hay => Z.succ <$> find_sub needle hay
  end.

(** [strncmp(a, b, n) == 0], stopping at a NUL in both; [None] when an
    array ends before the comparison does. *)
Fixpoint strncmp_eq (a b : list Z) (n : nat) {struct n} : option bool :=
  match n with
  | O => Some true
  | S n =>
      match a, b with
      | x :: a, y :: b =>
          if x =? y then (if x =? 0 then Some true else strncmp_eq a b n) else Some false
      | _, _ => None
      end
  end.

Lemma cstr_list_app s rest : nonzero s -> cstr_list (s ++ 0 :: rest) = Some s.
Proof.
  induction 1 as [|c s Hc _ IH]; [done|]. simpl. destruct (Z.eqb_spec c 0); [done|]. by rewrite IH.
Qed.

Lemma cstr_list_inv l s : cstr_list l = Some s -> exists rest, l = s ++ 0 :: rest /\ nonzero s.
Proof.
  revert s. induction l as [|c l IH]; intros s; simpl; [done|]. destruct (Z.eqb_spec c 0) as [->|Hc].
  - intros [= <-]. exists l. split; [done|constructor].
  - intros (s' & Hs & ->)%fmap_Some. destruct (IH _ Hs) as (rest & -> & Hn).
    exists rest. split; [done|by constructor].
Qed.

Lemma cstr_from_mid a s rest off : off = Zlen a -> nonzero s ->
  cstr_from (a ++ s ++ 0 :: rest) off = Some s.
Proof.
  intros -> Hs. unfold cstr_from. rewrite Zlen_app. pose proof (Zlen_nonneg a).
  pose proof (Zlen_nonneg (s ++ 0 :: rest)).
  destruct (Z.leb_spec 0 (Zlen a)), (Z.leb_spec (Zlen a) (Zlen a + Zlen (s ++ 0 :: rest))); try lia.
  simpl. rewrite drop_Zlen. by apply cstr_list_app.
Qed.

Lemma is_prefix_spec p l : is_prefix p l = true <-> exists rest, l = p ++ rest.
Proof.
  revert l. induction p as [|x p IH]; intros l; simpl.
  - split; [intros _; by exists l|done].
  - destruct l as [|y l]; [split; [done|by intros [? ?]]|]. rewrite andb_true_iff, IH, Z.eqb_eq.
    split; [intros [-> [rest ->]]; by exists rest|intros [rest [= -> ->]]; split; [done|by exists rest]].
Qed.

Lemma is_prefix_nul p a b : nonzero p -> is_prefix p (a ++ 0 :: b) = is_prefix p a.
Proof.
  intros Hp. revert a. induction Hp as [|x p Hx _ IH]; intros [|y a]; simpl; [done..| |by rewrite IH].
  by destruct (Z.eqb_spec x 0).
Qed.

(** A comparison of as many bytes as the constant has. *)
Lemma is_prefix_take p l : Zlen p <= Zlen l ->
  bool_decide (take (Z.to_nat (Zlen p)) l = p) = is_prefix p l.
Proof.
  intros Hl. apply eq_bool_prop_intro. rewrite bool_decide_spec, Is_true_true, is_prefix_spec.
  unfold Zlen in *. rewrite Nat2Z.id. split.
  - intros <-. exists (drop (length p) l). by rewrite take_drop.
  - intros [rest ->]. apply take_app_length.
Qed.

(** The first occurrence: nothing before it matches. *)
Lemma find_sub_spec needle hay i : find_sub needle hay = Some i ->
  exists a b, hay = a ++ needle ++ b /\ Zlen a = i /\
    forall a' b', hay = a' ++ needle ++ b' -> i <= Zlen a'.
Proof.
  revert i. induction hay as [|c hay IH]; intros i; simpl; destruct (is_prefix needle _) eqn:Hp.
  1,3: intros [= <-]; apply is_prefix_spec in Hp as [b Hb]; exists [], b; split_and!;
    [done|done|intros; apply Zlen_nonneg].
  - done.
  - intros (j & Hj & ->)%fmap_Some. destruct (IH j Hj) as (a & b & -> & Ha & Hmin).
    exists (c :: a), b. split_and!; [done|rewrite Zlen_cons; lia|]. intros [|c' a'] b' Heq.
    + assert (is_prefix needle (c :: a ++ needle ++ b) = true) as Hp2
        by (apply is_prefix_spec; by exists b'). congruence.
    + injection Heq as <- Heq. apply Hmin in Heq. rewrite Zlen_cons. lia.
Qed.

Lemma find_sub_none needle hay : find_sub needle hay = None <->
  forall a b, hay <> a ++ needle ++ b.
Proof.
  split.
  - induction hay as [|c hay IH]; simpl; destruct (is_prefix needle _) eqn:Hp; try done.
    + intros _ a b Heq. symmetry in Heq. apply app_nil in Heq as [_ [-> _]%app_nil]. done.
    + intros Hn%fmap_None a b Heq. destruct a as [|c' a].
      * assert (is_prefix needle (c :: hay) = true) as Hp2 by (apply is_prefix_spec; by exists b).
        congruence.
      * injection Heq as <- Heq. by apply (IH Hn a b).
  - intros Hno. destruct (find_sub needle hay) as [i|] eqn:Hf; [|done].
    apply find_sub_spec in Hf as (a & b & -> & _). by destruct (Hno a b).
Qed.

Lemma strncmp_eq_prefix p l n : nonzero p -> n = length p -> (n <= length l)%nat ->
  strncmp_eq l (p ++ [0]) n = Some (is_prefix p l).
Proof.
  intros Hp -> Hl. revert l Hl. induction Hp as [|x p Hx _ IH]; intros l Hl; [done|].
  destruct l as [|y l]; [simpl in Hl; lia|]. simpl. rewrite (Z.eqb_sym x y).
  destruct (Z.eqb_spec y x) as [->|]; [|done]. destruct (Z.eqb_spec x 0); [done|]. simpl.
  apply IH. simpl in Hl. lia.
Qed.
