(* ===== verification/AtClient.v ===== *)
(** * AT client (components/net/at/src/at_client.c, at_utils.c)

    A response object is shared between the caller of [at_obj_exec_cmd] and
    the parser thread: both hold its address, so responses live in a store.
    The device is the list of characters that are still to be read and the
    list of those written.  An operation is [None] on undefined behaviour: an
    access outside an array, or through a null or dangling pointer. *)

From S2P Require Import Prelude Cstr.

Open Scope Z_scope.

Definition RT_EOK : Z := 0.
Definition RT_ERROR : Z := 1.
Definition RT_ETIMEOUT : Z := 2.
Definition RT_EFULL : Z := 3.
Definition RT_ENOMEM : Z := 5.

Definition AT_RESP_END_OK : list Z := [79; 75].
Definition AT_RESP_END_ERROR : list Z := [69; 82; 82; 79; 82].
Definition AT_RESP_END_FAIL : list Z := [70; 65; 73; 76].
Definition AT_CMD_MAX_LEN : Z := 128.

Inductive at_resp_status_t := AT_RESP_OK | AT_RESP_ERROR | AT_RESP_TIMEOUT | AT_RESP_BUFF_FULL.
Inductive at_status_t := AT_STATUS_UNINITIALIZED | AT_STATUS_INITIALIZED | AT_STATUS_BUSY.

#[export] Instance at_resp_status_eq_dec : EqDecision at_resp_status_t.
Proof. solve_decision. Defined.

(** [resp_buf] is [None] for a null pointer. *)
Record at_response := mk_at_response {
  resp_buf : option (list Z);
  buf_size : Z;
  resp_line_num : Z;
  line_counts : Z;
  resp_timeout : Z;
}.

(** [urc_func] tells whether the function pointer is not null. *)
Record at_urc := mk_at_urc { cmd_prefix : list Z; cmd_suffix : list Z; urc_func : bool }.

(** The kernel objects of the client ([rx_notice], [lock], [parser]) are in
    the initialisation part below; [resp] is an address in the store. *)
Record at_client := mk_at_client {
  end_sign : Z;
  recv_buffer : list Z;
  recv_bufsz : Z;
  cur_recv_len : Z;
  resp : option nat;
  resp_status : at_resp_status_t;
  urc_table : option (list at_urc);
}.

Definition set_recv (c : at_client) (buf : list Z) (len : Z) : at_client :=
  mk_at_client (end_sign c) buf (recv_bufsz c) len (resp c) (resp_status c) (urc_table c).
Definition set_resp (c : at_client) (r : option nat) : at_client :=
  mk_at_client (end_sign c) (recv_buffer c) (recv_bufsz c) (cur_recv_len c) r (resp_status c) (urc_table c).
Definition set_status (c : at_client) (s : at_resp_status_t) : at_client :=
  mk_at_client (end_sign c) (recv_buffer c) (recv_bufsz c) (cur_recv_len c) (resp c) s (urc_table c).

(** ** Response objects *)

Definition set_buf (r : at_response) (b : option (list Z)) : at_response :=
  mk_at_response b (buf_size r) (resp_line_num r) (line_counts r) (resp_timeout r).
Definition set_line_counts (r : at_response) (n : Z) : at_response :=
  mk_at_response (resp_buf r) (buf_size r) (resp_line_num r) n (resp_timeout r).

(** The booleans are the results of the two calls of rt_calloc. *)
Definition at_create_resp (buf_size line_num timeout : Z) (obj_ok buf_ok : bool) : option at_response :=
  if negb obj_ok then None else
  if negb buf_ok then None else
  Some (mk_at_response (Some (replicate (Z.to_nat buf_size) 0)) buf_size line_num 0 timeout).

(** [grown] is what rt_realloc returns. *)
Definition at_resp_set_info (r : at_response) (size line_num timeout : Z) (grown : option (list Z))
    : bool * at_response :=
  if negb (buf_size r =? size) then
    match grown with
    | None => (false, mk_at_response None size (resp_line_num r) (line_counts r) (resp_timeout r))
    | Some b => (true, mk_at_response (Some b) size line_num (line_counts r) timeout)
    end
  else (true, mk_at_response (resp_buf r) (buf_size r) line_num (line_counts r) timeout).

(** The offset of a line in the buffer; [Some None] is a null result.  The
    loop counts up to the requested line and skips a string per line. *)
Fixpoint at_resp_get_line_loop (n : nat) (buf : list Z) (resp_line line_num off : Z)
    : option (option Z) :=
  match n with
  | O => Some None
  | S n =>
      if resp_line =? line_num then Some (Some off) else
      s ← cstr_from buf off;
      at_resp_get_line_loop n buf resp_line (line_num + 1) (off + (Zlen s + 1))
  end.

Definition at_resp_get_line (r : at_response) (resp_line : Z) : option (option Z) :=
  if (line_counts r <? resp_line) || (resp_line <=? 0) then Some None else
  match resp_buf r with
  | None => if resp_line =? 1 then Some None else None
  | Some buf => at_resp_get_line_loop (Z.to_nat (line_counts r)) buf resp_line 1 0
  end.

Fixpoint at_resp_get_line_by_kw_loop (n : nat) (buf keyword : list Z) (off : Z) : option (option Z) :=
  match n with
  | O => Some None
  | S n =>
      s ← cstr_from buf off;
      if bool_decide (is_Some (find_sub keyword s)) then Some (Some off) else
      at_resp_get_line_by_kw_loop n buf keyword (off + (Zlen s + 1))
  end.

Definition at_resp_get_line_by_kw (r : at_response) (keyword : list Z) : option (option Z) :=
  if line_counts r =? 0 then Some None else
  buf ← resp_buf r;
  at_resp_get_line_by_kw_loop (Z.to_nat (line_counts r)) buf keyword 0.

Section sscanf.
(** vsscanf: the number of arguments that the text yields for the format. *)
Context (vsscanf : list Z -> list Z -> Z).

Definition at_resp_parse_line_args (r : at_response) (resp_line : Z) (resp_expr : list Z) : option Z :=
  line ← at_resp_get_line r resp_line;
  match line with
  | None => Some (-1)
  | Some off => buf ← resp_buf r; s ← cstr_from buf off; Some (vsscanf s resp_expr)
  end.

Definition at_resp_parse_line_args_by_kw (r : at_response) (keyword resp_expr : list Z) : option Z :=
  line ← at_resp_get_line_by_kw r keyword;
  match line with
  | None => Some (-1)
  | Some off => buf ← resp_buf r; s ← cstr_from buf off; Some (vsscanf s resp_expr)
  end.
End sscanf.

(** ** Unsolicited result codes *)

(** The loop over the table, from index [i] on; [Some None] is no match. *)
Fixpoint get_urc_obj_loop (table : list at_urc) (i : nat) (buffer : list Z) (buf_sz : Z)
    : option (option nat) :=
  match table with
  | [] => Some None
  | u :: table =>
      let prefix_len := Zlen (cmd_prefix u) in
      let suffix_len := Zlen (cmd_suffix u) in
      if buf_sz <? prefix_len + suffix_len then get_urc_obj_loop table (S i) buffer buf_sz else
      p ← strncmp_eq buffer (cmd_prefix u ++ [0]) (Z.to_nat prefix_len);
      if negb p then get_urc_obj_loop table (S i) buffer buf_sz else
      q ← strncmp_eq (drop (Z.to_nat (buf_sz - suffix_len)) buffer) (cmd_suffix u ++ [0])
            (Z.to_nat suffix_len);
      if (q : bool) then Some (Some i) else get_urc_obj_loop table (S i) buffer buf_sz
  end.

Definition get_urc_obj (c : at_client) : option (option nat) :=
  match urc_table c with
  | None => Some None
  | Some table => get_urc_obj_loop table 0 (recv_buffer c) (cur_recv_len c)
  end.

(** ** Reading a line *)

(** [Line r c rest]: the line is complete, with the return value, the client
    and the characters behind the line.  [Blocked]: the device has no more
    characters, the thread waits. *)
Inductive read_result := Line (r : Z) (c : at_client) (rest : list Z) | Blocked.

Fixpoint at_recv_readline_loop (input : list Z) (c : at_client) (read_len last_ch : Z) (is_full : bool)
    : option read_result :=
  match input with
  | [] => Some Blocked
  | ch :: input =>
      '(c, read_len, is_full) ←
        (if read_len <? recv_bufsz c then
           buf ← set_at (recv_buffer c) read_len ch;
           Some (set_recv c buf (read_len + 1), read_len + 1, is_full)
         else Some (c, read_len, true));
      stop ←
        (if ((ch =? 10) && (last_ch =? 13)) || (negb (end_sign c =? 0) && (ch =? end_sign c))
         then Some true
         else u ← get_urc_obj c; Some (bool_decide (is_Some u)));
      if (stop : bool) then
        if (is_full : bool) then
          Some (Line (- RT_EFULL) (set_recv c (replicate (Z.to_nat (recv_bufsz c)) 0) 0) input)
        else Some (Line read_len c input)
      else at_recv_readline_loop input c read_len ch is_full
  end.

Definition at_recv_readline (input : list Z) (c : at_client) : option read_result :=
  at_recv_readline_loop input (set_recv c (replicate (Z.to_nat (recv_bufsz c)) 0) 0) 0 0 false.

(** ** The parser thread *)

(** What the threads share: the client, the response objects, the count of
    the semaphore [resp_notice] and the calls of the URC functions, each with
    the index in the table and the data. *)
Record at_world := mk_at_world {
  client : at_client;
  store : gmap nat at_response;
  resp_notice : Z;
  urc_calls : list (nat * list Z);
}.

Definition with_client (w : at_world) (c : at_client) : at_world :=
  mk_at_world c (store w) (resp_notice w) (urc_calls w).
Definition with_response (w : at_world) (id : nat) (r : at_response) : at_world :=
  mk_at_world (client w) (<[id := r]> (store w)) (resp_notice w) (urc_calls w).

(** The local variables of the thread that survive a line. *)
Record parser_locals := mk_locals { resp_buf_len : Z; parser_line_counts : Z }.

(** memcmp with a string constant. *)
Definition memcmp_eq (buf s : list Z) : option bool :=
  l ← read_at buf 0 (Zlen s); Some (bool_decide (l = s)).

(** Storing the received line in the response. *)
Definition client_parser_store (c : at_client) (r : at_response) (l : parser_locals)
    : option (at_client * at_response * parser_locals) :=
  if resp_buf_len l + cur_recv_len c <? buf_size r then
    buf ← resp_buf r;
    line ← read_at (recv_buffer c) 0 (cur_recv_len c);
    buf ← write_at buf (resp_buf_len l) line;
    Some (c, set_buf r (Some buf), mk_locals (resp_buf_len l + cur_recv_len c) (parser_line_counts l + 1))
  else Some (set_status c AT_RESP_BUFF_FULL, r, l).

(** Does the line end the response, and with which status? *)
Definition client_parser_end (c : at_client) (r : at_response) (l : parser_locals)
    : option (option at_resp_status_t) :=
  ok ← memcmp_eq (recv_buffer c) AT_RESP_END_OK;
  if (ok : bool) && (resp_line_num r =? 0) then Some (Some AT_RESP_OK) else
  text ← cstr_from (recv_buffer c) 0;
  fail ← (if bool_decide (is_Some (find_sub AT_RESP_END_ERROR text)) then Some true
          else memcmp_eq (recv_buffer c) AT_RESP_END_FAIL);
  if (fail : bool) then Some (Some AT_RESP_ERROR) else
  if (parser_line_counts l =? resp_line_num r) && negb (resp_line_num r =? 0)
  then Some (Some AT_RESP_OK) else Some None.

Definition client_parser_response (w : at_world) (l : parser_locals) (id : nat)
    : option (at_world * parser_locals) :=
  r ← store w !! id;
  let c := client w in
  buf ← set_at (recv_buffer c) (cur_recv_len c - 1) 0;
  '(c, r, l) ← client_parser_store (set_recv c buf (cur_recv_len c)) r l;
  fin ← client_parser_end c r l;
  match fin with
  | None => Some (with_response (with_client w c) id r, l)
  | Some status =>
      let r := set_line_counts r (parser_line_counts l) in
      let c := set_resp (set_status c status) None in
      let w := with_response (with_client w c) id r in
      Some (mk_at_world (client w) (store w) (resp_notice w + 1) (urc_calls w), mk_locals 0 0)
  end.

(** The body of the loop after a line was read. *)
Definition client_parser_line (w : at_world) (l : parser_locals) : option (at_world * parser_locals) :=
  let c := client w in
  u ← get_urc_obj c;
  match u with
  | Some i =>
      table ← urc_table c;
      entry ← table !! i;
      if urc_func entry then
        data ← read_at (recv_buffer c) 0 (cur_recv_len c);
        Some (mk_at_world c (store w) (resp_notice w) (urc_calls w ++ [(i, data)]), l)
      else Some (w, l)
  | None =>
      match resp c with
      | Some id => client_parser_response w l id
      | None => Some (w, l)
      end
  end.

(** The thread until the device has no more characters: the state and the
    characters of the unfinished line, which is read again from its start
    when more arrive.  Each line takes a character, so one iteration more than
    the length of the input is enough. *)
Fixpoint client_parser_run (n : nat) (input : list Z) (w : at_world) (l : parser_locals)
    : option (at_world * parser_locals * list Z) :=
  match n with
  | O => Some (w, l, input)
  | S n =>
      res ← at_recv_readline input (client w);
      match res with
      | Blocked => Some (w, l, input)
      | Line r c rest =>
          let w := with_client w c in
          '(w, l) ← (if 0 <? r then client_parser_line w l else Some (w, l));
          client_parser_run n rest w l
      end
  end.

(** [AT_COMPonet_Station] 0 puts the thread to sleep. *)
Definition client_parser (station : Z) (input : list Z) (w : at_world) (l : parser_locals)
    : option (at_world * parser_locals * list Z) :=
  if station =? 0 then Some (w, l, input) else client_parser_run (S (length input)) input w l.

(** ** Sending (at_utils.c) *)

(** [text] is the text that vsnprintf produces for the format and arguments.
    It is truncated to the send buffer, but the length that is remembered and
    written is that of the whole text: the result is the bytes written. *)
Definition at_vprintf (send_buf text : list Z) : option (list Z * Z) :=
  let kept := take (Z.to_nat (AT_CMD_MAX_LEN - 1)) text ++ [0] in
  send_buf ← write_at send_buf 0 kept;
  let last_cmd_len := Zlen text in
  out ← read_at send_buf 0 last_cmd_len;
  Some (out, last_cmd_len).

Definition at_vprintfln (send_buf text : list Z) : option (list Z * Z) :=
  '(out, len) ← at_vprintf send_buf text;
  Some (out ++ [13; 10], len + 2).

(** ** Executing a command

    The caller's thread between the points where the parser can run. *)

Definition exec_begin (w : at_world) (r : option nat) : at_world :=
  with_client w (set_resp (set_status (client w) AT_RESP_OK) r).

(** [resp->line_counts = 0], after the command was written. *)
Definition exec_clear (w : at_world) (id : nat) : option at_world :=
  r ← store w !! id; Some (with_response w id (set_line_counts r 0)).

Definition exec_take (w : at_world) : option (Z * at_world) :=
  if 0 <? resp_notice w then
    let w := mk_at_world (client w) (store w) (resp_notice w - 1) (urc_calls w) in
    Some (if decide (resp_status (client w) = AT_RESP_OK) then RT_EOK else - RT_ERROR, w)
  else None.

Definition exec_timeout (w : at_world) : Z * at_world :=
  (- RT_ETIMEOUT, with_client w (set_status (client w) AT_RESP_TIMEOUT)).

Definition exec_end (w : at_world) : at_world := with_client w (set_resp (client w) None).

(** The whole call when the parser runs, while the caller waits, on the
    characters [input] and no more arrive before the timeout: the result, the
    bytes written and the state of both threads. *)
Definition at_obj_exec_cmd (w : at_world) (l : parser_locals) (send_buf : list Z) (r : option nat)
    (text input : list Z) : option (Z * list Z * at_world * parser_locals) :=
  let w := exec_begin w r in
  '(out, _) ← at_vprintfln send_buf text;
  match r with
  | None => Some (RT_EOK, out, exec_end w, l)
  | Some id =>
      w ← exec_clear w id;
      '(w, l, _) ← client_parser 1 input w l;
      '(result, w) ← (if 0 <? resp_notice w then exec_take w else Some (exec_timeout w));
      Some (result, out, exec_end w, l)
  end.

Definition at_client_obj_send (buf : list Z) (size : Z) : option (list Z * Z) :=
  out ← read_at buf 0 size; Some (out, size).

(** [None] also when the device has not enough characters: the call waits. *)
Definition at_client_obj_recv (input : list Z) (size : Z) : option (list Z * Z * list Z) :=
  buf ← read_at input 0 size; Some (buf, size, drop (Z.to_nat size) input).

Definition at_obj_set_end_sign (c : at_client) (ch : Z) : at_client :=
  mk_at_client ch (recv_buffer c) (recv_bufsz c) (cur_recv_len c) (resp c) (resp_status c) (urc_table c).

Definition at_obj_set_urc_table (c : at_client) (table : list at_urc) : at_client :=
  mk_at_client (end_sign c) (recv_buffer c) (recv_bufsz c) (cur_recv_len c) (resp c) (resp_status c)
    (Some table).

(** ** Waiting for the connection

    [clock k] is the tick count when the loop reads it in iteration [k], and
    [answered k] tells whether the semaphore is released in time then.  The
    result comes with the number of times "AT" was written. *)
Fixpoint at_wait_connect_loop (fuel k : nat) (clock : nat -> Z) (answered : nat -> bool)
    (start_time timeout : Z) (sent : nat) : option (Z * nat) :=
  match fuel with
  | O => None
  | S fuel =>
      if timeout <? u32 (clock k - start_time) then Some (- RT_ETIMEOUT, sent) else
      if answered k then Some (RT_EOK, S sent)
      else at_wait_connect_loop fuel (S k) clock answered start_time timeout (S sent)
  end.

(** The state around the loop: the response the call creates at a fresh
    address [id] is attached to the client, and deleted before it is detached. *)
Definition wait_begin (w : at_world) (id : nat) (r : at_response) : at_world :=
  with_client (with_response w id r) (set_resp (client w) (Some id)).
Definition at_delete_resp (w : at_world) (id : nat) : at_world :=
  mk_at_world (client w) (delete id (store w)) (resp_notice w) (urc_calls w).

Definition at_client_obj_wait_connect (fuel : nat) (w : at_world) (id : nat) (r : option at_response)
    (clock : nat -> Z) (answered : nat -> bool) (start_time timeout : Z)
    : option (Z * nat * at_world) :=
  match r with
  | None => Some (- RT_ENOMEM, O, w)
  | Some r =>
      let w := wait_begin w id r in
      '(result, sent) ← at_wait_connect_loop fuel 0 clock answered start_time timeout 0;
      Some (result, sent, exec_end (at_delete_resp w id))
  end.

(** ** Reading a line: what the loop does *)

Definition zeros (n : Z) : list Z := replicate (Z.to_nat n) 0.

Lemma Zlen_zeros n : 0 <= n -> Zlen (zeros n) = n.
Proof. intros. unfold zeros, Zlen. rewrite length_replicate. lia. Qed.

Lemma zeros_S n : 0 < n -> zeros n = 0 :: zeros (n - 1).
Proof. intros. unfold zeros. by replace (Z.to_nat n) with (S (Z.to_nat (n - 1))) by lia. Qed.

(** The client after the characters [p] of a line. *)
Definition received (c : at_client) (p : list Z) : at_client :=
  set_recv c (p ++ zeros (recv_bufsz c - Zlen p)) (Zlen p).

(** Nothing in the table matches what has been received. *)
Definition no_urc (c : at_client) (p : list Z) : Prop := get_urc_obj (received c p) = Some None.

(** The last two characters, with the initial value of [last_ch] in front. *)
Definition last_ch (p : list Z) : Z := default 0 (last p).

Definition line_end (c : at_client) (p : list Z) (ch : Z) : bool :=
  ((ch =? 10) && (last_ch p =? 13)) || (negb (end_sign c =? 0) && (ch =? end_sign c)).

(** No proper prefix of the line ends it. *)
Definition open_line (c : at_client) (line : list Z) : Prop :=
  forall p ch rest, line = p ++ ch :: rest -> rest <> [] ->
    line_end c p ch = false /\ (Zlen p < recv_bufsz c -> no_urc c (p ++ [ch])).

Lemma received_step c p ch : Zlen p < recv_bufsz c ->
  set_at (recv_buffer (received c p)) (Zlen p) ch = Some (p ++ ch :: zeros (recv_bufsz c - Zlen p - 1)).
Proof.
  intros Hp. unfold received. cbn [recv_buffer set_recv].
  rewrite zeros_S by lia. by apply set_at_mid.
Qed.

Lemma received_snoc c p ch :
  set_recv (received c p) (p ++ ch :: zeros (recv_bufsz c - Zlen p - 1)) (Zlen p + 1) =
  received c (p ++ [ch]).
Proof.
  unfold received, set_recv. cbn. rewrite <-(assoc_L (++)), Zlen_app. zlen. simpl.
  f_equal. by replace (recv_bufsz c - (Zlen p + (1 + 0))) with (recv_bufsz c - Zlen p - 1) by lia.
Qed.

Lemma last_ch_snoc p ch : last_ch (p ++ [ch]) = ch.
Proof. unfold last_ch. by rewrite last_snoc. Qed.

(** A line that fits is read up to its end. *)
Lemma readline_fits c p line rest : open_line c (p ++ line) -> line <> [] ->
  Zlen (p ++ line) <= recv_bufsz c ->
  (forall q ch, p ++ line = q ++ [ch] -> line_end c q ch = true) ->
  at_recv_readline_loop (line ++ rest) (received c p) (Zlen p) (last_ch p) false =
    Some (Line (Zlen (p ++ line)) (received c (p ++ line)) rest).
Proof.
  revert p. induction line as [|ch line IH]; intros p Hopen Hne Hfit Hend; [done|].
  rewrite Zlen_app, Zlen_cons in Hfit. pose proof (Zlen_nonneg line).
  cbn [app at_recv_readline_loop]. change (recv_bufsz (received c p)) with (recv_bufsz c).
  destruct (Z.ltb_spec (Zlen p) (recv_bufsz c)); [|lia].
  rewrite received_step by lia. cbn [mbind option_bind]. rewrite received_snoc.
  change (end_sign (received c (p ++ [ch]))) with (end_sign c). fold (line_end c p ch).
  destruct line as [|ch2 line].
  - rewrite (Hend p ch) by done. cbn [mbind option_bind]. by rewrite Zlen_app.
  - destruct (Hopen p ch (ch2 :: line)) as [-> Hu]; [done|done|].
    unfold no_urc in Hu. rewrite Hu by lia.
    cbn [mbind option_bind]. rewrite bool_decide_false by (by intros [? ?]).
    replace (Zlen p + 1) with (Zlen (p ++ [ch])) by (by rewrite Zlen_app).
    rewrite <-(last_ch_snoc p ch) at 3. rewrite (IH (p ++ [ch])); rewrite <-?(assoc_L (++)); try done.
    rewrite !Zlen_app, Zlen_cons in *. zlen. lia.
Qed.

(** The client after a line that was too long. *)
Definition cleared (c : at_client) : at_client := set_recv c (zeros (recv_bufsz c)) 0.

(** Once the buffer is full the rest of the line is skipped. *)
Lemma readline_skips c p0 p line rest full : no_urc c p0 -> Zlen p0 = recv_bufsz c ->
  open_line c (p ++ line) -> line <> [] -> recv_bufsz c <= Zlen p ->
  (forall q ch, p ++ line = q ++ [ch] -> line_end c q ch = true) ->
  at_recv_readline_loop (line ++ rest) (received c p0) (recv_bufsz c) (last_ch p) full =
    Some (Line (- RT_EFULL) (cleared c) rest).
Proof.
  intros Hu0 Hp0. revert p full. induction line as [|ch line IH]; intros p full Hopen Hne Hp Hend; [done|].
  cbn [app at_recv_readline_loop]. change (recv_bufsz (received c p0)) with (recv_bufsz c).
  rewrite Z.ltb_irrefl. cbn [mbind option_bind].
  change (end_sign (received c p0)) with (end_sign c). fold (line_end c p ch).
  destruct line as [|ch2 line].
  - by rewrite (Hend p ch).
  - destruct (Hopen p ch (ch2 :: line)) as [-> _]; [done|done|].
    unfold no_urc in Hu0. rewrite Hu0. cbn [mbind option_bind].
    rewrite bool_decide_false by (by intros [? ?]).
    rewrite <-(last_ch_snoc p ch). apply IH; rewrite <-?(assoc_L (++)); try done.
    rewrite Zlen_app. zlen. lia.
Qed.

(** A line that does not fit is read to its end and discarded. *)
Lemma readline_long c p line rest :
  open_line c (p ++ line) -> (Zlen p = recv_bufsz c -> no_urc c p) -> line <> [] ->
  recv_bufsz c < Zlen (p ++ line) -> Zlen p <= recv_bufsz c ->
  (forall q ch, p ++ line = q ++ [ch] -> line_end c q ch = true) ->
  at_recv_readline_loop (line ++ rest) (received c p) (Zlen p) (last_ch p) false =
    Some (Line (- RT_EFULL) (cleared c) rest).
Proof.
  revert p. induction line as [|ch line IH]; intros p Hopen Hu Hne Hlong Hp Hend; [done|].
  destruct (Z.eqb_spec (Zlen p) (recv_bufsz c)) as [He|].
  - rewrite He. apply readline_skips; [by apply Hu|done..|lia|done].
  - rewrite Zlen_app, Zlen_cons in Hlong. pose proof (Zlen_nonneg line).
    cbn [app at_recv_readline_loop]. change (recv_bufsz (received c p)) with (recv_bufsz c).
    destruct (Z.ltb_spec (Zlen p) (recv_bufsz c)); [|lia].
    rewrite received_step by lia. cbn [mbind option_bind]. rewrite received_snoc.
    change (end_sign (received c (p ++ [ch]))) with (end_sign c). fold (line_end c p ch).
    destruct line as [|ch2 line]; [zlen; lia|].
    destruct (Hopen p ch (ch2 :: line)) as [-> Hu']; [done|done|].
    unfold no_urc in Hu'. rewrite Hu' by lia.
    cbn [mbind option_bind]. rewrite bool_decide_false by (by intros [? ?]).
    replace (Zlen p + 1) with (Zlen (p ++ [ch])) by (by rewrite Zlen_app).
    rewrite <-(last_ch_snoc p ch) at 3. apply IH; rewrite <-?(assoc_L (++)); try done;
      [intros _; apply Hu'; lia|rewrite !Zlen_app in *; zlen; lia..].
Qed.

Lemma received_nil c : 0 <= recv_bufsz c ->
  received c [] = set_recv c (replicate (Z.to_nat (recv_bufsz c)) 0) 0.
Proof. intros. unfold received, zeros. change (Zlen []) with 0. by rewrite Z.sub_0_r. Qed.

Lemma wp_readline c line rest : 0 < recv_bufsz c -> open_line c line -> line <> [] ->
  (forall q ch, line = q ++ [ch] -> line_end c q ch = true) ->
  at_recv_readline (line ++ rest) c = Some
    (if Zlen line <=? recv_bufsz c then Line (Zlen line) (received c line) rest
     else Line (- RT_EFULL) (cleared c) rest).
Proof.
  intros Hb Hopen Hne Hend. unfold at_recv_readline. rewrite <-received_nil by lia.
  change 0 with (Zlen (@nil Z)) at 1. change 0 with (last_ch []) at 1.
  destruct (Z.leb_spec (Zlen line) (recv_bufsz c)).
  - by apply (readline_fits c [] line rest).
  - apply (readline_long c [] line rest); try done; zlen; lia.
Qed.

(** ** What the parser does with one line of a response *)

(** The fields that reading a line depends on. *)
Definition config (c : at_client) := (end_sign c, recv_bufsz c, urc_table c).

Lemma config_no_urc c c' p : config c = config c' -> no_urc c p -> no_urc c' p.
Proof. destruct c, c'. unfold config, no_urc, get_urc_obj. cbn. by intros [= -> -> ->]. Qed.

Lemma config_open c c' line : config c = config c' -> open_line c line -> open_line c' line.
Proof.
  intros Hc Ho p ch rest Hl Hr. destruct (Ho p ch rest Hl Hr) as [He Hu].
  assert (recv_bufsz c = recv_bufsz c') as Hb by (unfold config in Hc; congruence). split.
  - unfold line_end in *. assert (end_sign c = end_sign c') as <- by (unfold config in Hc; congruence). done.
  - rewrite <-Hb. intros Hp. by eapply config_no_urc; [exact Hc|apply Hu].
Qed.

(** A text that the parser takes for an inner line of a response. *)
Record text_line (c : at_client) (t : list Z) : Prop := {
  tl_open : open_line c (t ++ [13; 10]);
  tl_urc : no_urc c (t ++ [13; 10]);
  tl_fits : Zlen t + 2 <= recv_bufsz c;
  tl_nonzero : nonzero t;
}.

(** How a line with this text ends the response, as the [count]-th line of a
    response that expects [line_num] of them. *)
Definition text_end (t : list Z) (line_num count : Z) : option at_resp_status_t :=
  if is_prefix AT_RESP_END_OK (t ++ [13]) && (line_num =? 0) then Some AT_RESP_OK
  else if bool_decide (is_Some (find_sub AT_RESP_END_ERROR (t ++ [13])))
          || is_prefix AT_RESP_END_FAIL (t ++ [13]) then Some AT_RESP_ERROR
  else if (count =? line_num) && negb (line_num =? 0) then Some AT_RESP_OK
  else None.

Lemma config_text c c' t : config c = config c' -> text_line c t -> text_line c' t.
Proof.
  intros Hc [Ho Hu Hf Hn]. split; [by eapply config_open|by eapply config_no_urc| |done].
  unfold config in Hc. by replace (recv_bufsz c') with (recv_bufsz c) by congruence.
Qed.

(** The receive buffer after the last character was overwritten. *)
Definition ended (c : at_client) (t : list Z) : at_client :=
  set_recv c (t ++ 13 :: 0 :: zeros (recv_bufsz c - (Zlen t + 2))) (Zlen t + 2).

Lemma set_last c t : Zlen t + 2 <= recv_bufsz c ->
  set_at (recv_buffer (received c (t ++ [13; 10]))) (Zlen (t ++ [13; 10]) - 1) 0 =
    Some (recv_buffer (ended c t)).
Proof.
  intros Hf. unfold received, ended. cbn [recv_buffer set_recv]. rewrite Zlen_app.
  change (Zlen [13; 10]) with 2. replace (t ++ [13; 10]) with ((t ++ [13]) ++ [10])
    by (by rewrite <-(assoc_L (++))). rewrite <-(assoc_L (++)). cbn [app].
  rewrite (set_at_mid (t ++ [13])) by (rewrite Zlen_app; zlen; lia). by rewrite <-(assoc_L (++)).
Qed.

Lemma readline_text c t rest : text_line c t ->
  at_recv_readline (t ++ 13 :: 10 :: rest) c =
    Some (Line (Zlen t + 2) (received c (t ++ [13; 10])) rest).
Proof.
  intros [Ho Hu Hf Hn]. pose proof (Zlen_nonneg t).
  replace (t ++ 13 :: 10 :: rest) with ((t ++ [13; 10]) ++ rest) by (by rewrite <-(assoc_L (++))).
  rewrite wp_readline; [|lia|done|by destruct t|].
  - rewrite Zlen_app. change (Zlen [13; 10]) with 2.
    by destruct (Z.leb_spec (Zlen t + 2) (recv_bufsz c)); [|lia].
  - intros q ch Heq. replace (t ++ [13; 10]) with ((t ++ [13]) ++ [10]) in Heq
      by (by rewrite <-(assoc_L (++))). apply app_inj_tail in Heq as [<- <-].
    unfold line_end. by rewrite last_ch_snoc.
Qed.

(** Storing a line behind those stored before. *)
Lemma store_line c t r l stored tail : Zlen t + 2 <= recv_bufsz c ->
  resp_buf r = Some (stored ++ tail) -> buf_size r = Zlen stored + Zlen tail ->
  resp_buf_len l = Zlen stored -> Zlen t + 2 < Zlen tail ->
  exists tail2, client_parser_store (ended c t) r l =
    Some (ended c t, set_buf r (Some ((stored ++ t ++ [13; 0]) ++ tail2)),
          mk_locals (Zlen (stored ++ t ++ [13; 0])) (parser_line_counts l + 1)) /\
    Zlen tail2 = Zlen tail - (Zlen t + 2).
Proof.
  intros Hf Hb Hs Hl Ht. unfold client_parser_store.
  change (cur_recv_len (ended c t)) with (Zlen t + 2). rewrite Hl, Hs, Hb.
  destruct (Z.ltb_spec (Zlen stored + (Zlen t + 2)) (Zlen stored + Zlen tail)); [|lia].
  destruct (cut tail (Zlen t + 2)) as (tail1 & tail2 & -> & H1 & H2); [pose proof (Zlen_nonneg t); lia|].
  exists tail2. split; [|lia]. cbn [mbind option_bind].
  assert (recv_buffer (ended c t) = (t ++ [13; 0]) ++ zeros (recv_bufsz c - (Zlen t + 2))) as ->
    by (unfold ended; cbn; by rewrite <-(assoc_L (++))).
  rewrite read_at_0 by (by rewrite Zlen_app). cbn [mbind option_bind].
  rewrite write_at_mid by (rewrite ?Zlen_app; zlen; lia). cbn [mbind option_bind].
  rewrite <-!(assoc_L (++)). do 3 f_equal. rewrite !Zlen_app. zlen. lia.
Qed.

Lemma memcmp_eq_prefix buf s : Zlen s <= Zlen buf -> memcmp_eq buf s = Some (is_prefix s buf).
Proof.
  intros Hl. unfold memcmp_eq, read_at. pose proof (Zlen_nonneg s).
  destruct (Z.leb_spec 0 (Zlen s)), (Z.leb_spec (0 + Zlen s) (Zlen buf)); try lia.
  cbn. by rewrite is_prefix_take.
Qed.

Lemma ended_buffer c t : Zlen t + 2 <= recv_bufsz c -> Zlen (recv_buffer (ended c t)) = recv_bufsz c.
Proof.
  intros. unfold ended. cbn. rewrite Zlen_app, !Zlen_cons, Zlen_zeros; lia.
Qed.

(** Whether a stored line ends the response depends on its text alone. *)
Lemma parser_end_text c r l t : Zlen t + 2 <= recv_bufsz c -> 4 <= recv_bufsz c -> nonzero t ->
  client_parser_end (ended c t) r l = Some (text_end t (resp_line_num r) (parser_line_counts l)).
Proof.
  intros Hf Hb Hn. unfold client_parser_end, text_end.
  assert (nonzero (t ++ [13])) as Hn' by (apply Forall_app; split; [done|by repeat constructor]).
  rewrite !memcmp_eq_prefix by (rewrite ended_buffer by done; unfold Zlen; simpl; lia).
  assert (recv_buffer (ended c t) = (t ++ [13]) ++ 0 :: zeros (recv_bufsz c - (Zlen t + 2))) as ->
    by (unfold ended; cbn; by rewrite <-(assoc_L (++))).
  rewrite !is_prefix_nul by (by repeat constructor).
  pose proof (cstr_from_mid [] (t ++ [13]) (zeros (recv_bufsz c - (Zlen t + 2))) 0) as Hstr.
  cbn [app] in Hstr. rewrite Hstr by done. cbn [mbind option_bind].
  destruct (is_prefix AT_RESP_END_OK (t ++ [13]) && (resp_line_num r =? 0)); [done|].
  destruct (bool_decide _); cbn [orb mbind option_bind]; [done|].
  destruct (is_prefix AT_RESP_END_FAIL (t ++ [13])); [done|].
  by destruct ((parser_line_counts l =? resp_line_num r) && negb (resp_line_num r =? 0)).
Qed.

(** The state while a response is being collected: [stored] is what the
    parser has copied, [n] the number of lines. *)
Record collecting (w : at_world) (l : parser_locals) (id : nat) (line_num : Z) (stored : list Z)
    (n room : Z) : Prop := {
  co_resp : resp (client w) = Some id;
  co_buf : exists r tail, store w !! id = Some r /\ resp_buf r = Some (stored ++ tail) /\
    buf_size r = Zlen stored + Zlen tail /\ Zlen tail = room /\ resp_line_num r = line_num;
  co_len : resp_buf_len l = Zlen stored;
  co_count : parser_line_counts l = n;
}.

(** The state after a line: the text is copied, and if it ends the response
    the waiting thread is notified. *)
Definition parsed (w : at_world) (id : nat) (r : at_response) (n : Z) (fin : option at_resp_status_t)
    : at_world :=
  match fin with
  | None => with_response w id r
  | Some status =>
      mk_at_world (set_resp (set_status (client w) status) None)
        (<[id := set_line_counts r n]> (store w)) (resp_notice w + 1) (urc_calls w)
  end.

Lemma run_text_line fuel w l id line_num stored n room t rest :
  collecting w l id line_num stored n room -> text_line (client w) t ->
  4 <= recv_bufsz (client w) -> Zlen t + 2 < room ->
  exists r tail, let fin := text_end t line_num (n + 1) in
    client_parser_run (S fuel) (t ++ 13 :: 10 :: rest) w l =
      client_parser_run fuel rest (parsed (with_client w (ended (client w) t)) id r (n + 1) fin)
        match fin with Some _ => mk_locals 0 0 | None => mk_locals (Zlen (stored ++ t ++ [13; 0])) (n + 1) end /\
    resp_buf r = Some ((stored ++ t ++ [13; 0]) ++ tail) /\ Zlen tail = room - (Zlen t + 2) /\
    buf_size r = Zlen (stored ++ t ++ [13; 0]) + Zlen tail /\ resp_line_num r = line_num.
Proof.
  intros [Hr (r & tail & Hs & Hb & Hsz & Htl & Hnum) Hlen Hn] Ht H4 Hroom.
  destruct Ht as [Ho Hu Hf Hnz] eqn:Heq. clear Heq. pose proof (Zlen_nonneg t).
  destruct (store_line (client w) t r l stored tail) as (tail2 & Hst & Ht2); [done..|lia|].
  exists (set_buf r (Some ((stored ++ t ++ [13; 0]) ++ tail2))), tail2. split.
  2:{ cbn. split_and!; [done|lia| |done]. rewrite Hsz, !Zlen_app. zlen. lia. }
  cbn [client_parser_run]. rewrite readline_text by done. cbn [mbind option_bind].
  destruct (Z.ltb_spec 0 (Zlen t + 2)); [|lia]. unfold client_parser_line. cbn [client with_client].
  unfold no_urc in Hu. rewrite Hu. cbn [mbind option_bind].
  change (resp (received (client w) (t ++ [13; 10]))) with (resp (client w)). rewrite Hr.
  unfold client_parser_response. cbn [store with_client client]. rewrite Hs. cbn [mbind option_bind].
  change (cur_recv_len (received (client w) (t ++ [13; 10]))) with (Zlen (t ++ [13; 10])).
  rewrite set_last by done. cbn [mbind option_bind].
  replace (set_recv (received (client w) (t ++ [13; 10])) (recv_buffer (ended (client w) t))
    (Zlen (t ++ [13; 10]))) with (ended (client w) t) by (unfold ended, received; cbn; by rewrite Zlen_app).
  rewrite Hst. cbn [mbind option_bind]. rewrite parser_end_text by done.
  cbn [resp_line_num set_buf mbind option_bind parser_line_counts]. rewrite Hnum, Hn.
  by destruct (text_end t line_num (n + 1)).
Qed.

Lemma run_nil fuel w l : client_parser_run fuel [] w l = Some (w, l, []).
Proof. by destruct fuel. Qed.

(** The characters of the lines on the device, and in the response. *)
Definition device_lines (ts : list (list Z)) : list Z := concat ((fun t => t ++ [13; 10]) <$> ts).
Definition stored_lines (ts : list (list Z)) : list Z := concat ((fun t => t ++ [13; 0]) <$> ts).

(** The lines in front of the last one, from the [n]-th on. *)
Fixpoint inner_lines (ts : list (list Z)) (line_num n : Z) : Prop :=
  match ts with
  | [] => True
  | t :: ts => text_end t line_num n = None /\ inner_lines ts line_num (n + 1)
  end.

Lemma collecting_step w l id line_num stored n room t r tail :
  collecting w l id line_num stored n room ->
  resp_buf r = Some ((stored ++ t ++ [13; 0]) ++ tail) -> Zlen tail = room - (Zlen t + 2) ->
  buf_size r = Zlen (stored ++ t ++ [13; 0]) + Zlen tail -> resp_line_num r = line_num ->
  collecting (parsed (with_client w (ended (client w) t)) id r (n + 1) None)
    (mk_locals (Zlen (stored ++ t ++ [13; 0])) (n + 1)) id line_num (stored ++ t ++ [13; 0]) (n + 1)
    (room - (Zlen t + 2)).
Proof.
  intros [Hr _ _ _] Hb Ht Hs Hn. split; [done| |done|done].
  exists r, tail. cbn. by rewrite lookup_insert_eq.
Qed.

(** A whole response. *)
Lemma run_response fuel w l id line_num stored n room ts t status :
  collecting w l id line_num stored n room ->
  Forall (text_line (client w)) (ts ++ [t]) -> 4 <= recv_bufsz (client w) ->
  Zlen (stored_lines (ts ++ [t])) < room ->
  inner_lines ts line_num (n + 1) -> text_end t line_num (n + 1 + Zlen ts) = Some status ->
  exists w' r tail,
    client_parser_run (length ts + S fuel) (device_lines (ts ++ [t])) w l = Some (w', mk_locals 0 0, []) /\
    client w' = set_resp (set_status (ended (client w) t) status) None /\
    resp_notice w' = resp_notice w + 1 /\ urc_calls w' = urc_calls w /\
    store w' = <[id := r]> (store w) /\ line_counts r = n + Zlen ts + 1 /\
    resp_buf r = Some ((stored ++ stored_lines (ts ++ [t])) ++ tail).
Proof.
  revert w l stored n room. induction ts as [|t0 ts IH]; intros w l stored n room Hco Hts H4 Hroom Hin Hend.
  - unfold device_lines, stored_lines in *. cbn [app fmap list_fmap concat] in *.
    rewrite app_nil_r in *. apply Forall_cons in Hts as [Hts _]. rewrite Zlen_app in Hroom.
    destruct (run_text_line fuel w l id line_num stored n room t [] Hco Hts H4)
      as (r & tail & Hrun & Hb & _ & _ & _); [change (Zlen [13; 0]) with 2 in Hroom; lia|].
    change (Zlen (@nil (list Z))) with 0 in *. rewrite Z.add_0_r in *. rewrite Hend in Hrun.
    change (length [] + S fuel)%nat with (S fuel). rewrite Hrun, run_nil.
    eexists _, _, tail. split; [reflexivity|]. cbn. split_and!; try done. by rewrite app_nil_r.
  - cbn [app] in *. apply Forall_cons in Hts as [Ht0 Hts]. destruct Hin as [Hin0 Hin].
    change (stored_lines (t0 :: ts ++ [t])) with ((t0 ++ [13; 0]) ++ stored_lines (ts ++ [t])) in *.
    change (device_lines (t0 :: ts ++ [t])) with ((t0 ++ [13; 10]) ++ device_lines (ts ++ [t])).
    rewrite <-!(assoc_L (++)). cbn [app]. rewrite !Zlen_app in Hroom. change (Zlen [13; 0]) with 2 in Hroom.
    pose proof (Zlen_nonneg (stored_lines (ts ++ [t]))).
    destruct (run_text_line (length ts + S fuel) w l id line_num stored n room t0
      (device_lines (ts ++ [t])) Hco Ht0 H4) as (r & tail & Hrun & Hb & Htl & Hsz & Hnum); [lia|].
    rewrite Hin0 in Hrun. change (length (t0 :: ts) + S fuel)%nat with (S (length ts + S fuel)).
    rewrite Hrun.
    destruct (IH (parsed (with_client w (ended (client w) t0)) id r (n + 1) None) _ _ _ _
      (collecting_step _ _ _ _ _ _ _ _ _ _ Hco Hb Htl Hsz Hnum))
      as (w' & r' & tail' & Hrun' & Hc & Hno & Hu & Hst & Hcnt & Hb').
    + eapply Forall_impl; [exact Hts|]. intros t'. by apply config_text.
    + done.
    + lia.
    + done.
    + rewrite Zlen_cons in Hend. by replace (n + 1 + 1 + Zlen ts) with (n + 1 + (1 + Zlen ts)) by lia.
    + exists w', r', tail'. split; [exact Hrun'|]. split_and!; try done.
      * rewrite Hst. cbn. by rewrite insert_insert_eq.
      * rewrite Hcnt, Zlen_cons. lia.
      * rewrite Hb'. by rewrite <-!(assoc_L (++)).
Qed.

(** ** Reading the collected lines *)

Lemma stored_lines_cons t ts : stored_lines (t :: ts) = t ++ 13 :: 0 :: stored_lines ts.
Proof. unfold stored_lines. cbn. by rewrite <-(assoc_L (++)). Qed.

Lemma cstr_line pre t rest off : off = Zlen pre -> nonzero t ->
  cstr_from (pre ++ t ++ 13 :: 0 :: rest) off = Some (t ++ [13]).
Proof.
  intros -> Hn. replace (t ++ 13 :: 0 :: rest) with ((t ++ [13]) ++ 0 :: rest)
    by (by rewrite <-(assoc_L (++))).
  apply cstr_from_mid; [done|]. apply Forall_app. split; [done|]. by repeat constructor.
Qed.

(** The loop arrives at line [i + 1] after the [i] lines before it. *)
Lemma get_line_loop_stored pre ts tail n k i t : Forall nonzero ts -> ts !! i = Some t ->
  (i < n)%nat ->
  at_resp_get_line_loop n (pre ++ stored_lines ts ++ tail) (k + Z.of_nat i) k (Zlen pre) =
    Some (Some (Zlen (pre ++ stored_lines (take i ts)))).
Proof.
  revert pre n k i. induction ts as [|t0 ts IH]; intros pre n k i Hn Hi Hlt; [done|].
  destruct n as [|n]; [lia|]. cbn [at_resp_get_line_loop]. apply Forall_cons in Hn as [Hn0 Hn].
  destruct i as [|i].
  - destruct (Z.eqb_spec (k + Z.of_nat 0) k); [|lia]. change (stored_lines (take 0 (t0 :: ts))) with (@nil Z).
    by rewrite app_nil_r.
  - destruct (Z.eqb_spec (k + Z.of_nat (S i)) k); [lia|]. rewrite stored_lines_cons. cbn [take].
    rewrite <-(assoc_L (++)). cbn [app]. rewrite cstr_line by done. cbn [mbind option_bind].
    replace (Zlen pre + (Zlen (t0 ++ [13]) + 1)) with (Zlen (pre ++ t0 ++ [13; 0]))
      by (rewrite !Zlen_app; zlen; change (Zlen [13; 0]) with 2; change (Zlen [13]) with 1; lia).
    replace (k + Z.of_nat (S i)) with (k + 1 + Z.of_nat i) by lia.
    replace (pre ++ t0 ++ 13 :: 0 :: stored_lines ts ++ tail)
      with ((pre ++ t0 ++ [13; 0]) ++ stored_lines ts ++ tail) by (by rewrite <-!(assoc_L (++))).
    rewrite IH by (done || lia). rewrite stored_lines_cons. by rewrite <-!(assoc_L (++)).
Qed.

Lemma stored_lines_split ts i t : ts !! i = Some t ->
  stored_lines ts = stored_lines (take i ts) ++ t ++ 13 :: 0 :: stored_lines (drop (S i) ts).
Proof.
  intros Hi. rewrite <-(take_drop_middle ts i t) at 1 by done. unfold stored_lines.
  rewrite fmap_app, concat_app. cbn. by rewrite <-!(assoc_L (++)).
Qed.

(** A response that holds these lines. *)
Definition holds_lines (r : at_response) (ts : list (list Z)) : Prop :=
  line_counts r = Zlen ts /\
  exists buf, resp_buf r = Some buf /\
    forall i t, ts !! i = Some t -> exists off,
      at_resp_get_line r (Z.of_nat i + 1) = Some (Some off) /\ cstr_from buf off = Some (t ++ [13]).

Lemma stored_holds_lines r ts tail : Forall nonzero ts -> line_counts r = Zlen ts ->
  resp_buf r = Some (stored_lines ts ++ tail) -> holds_lines r ts.
Proof.
  intros Hn Hc Hb. split; [done|]. exists (stored_lines ts ++ tail). split; [done|]. intros i t Hi.
  exists (Zlen (stored_lines (take i ts))). pose proof (lookup_lt_Some _ _ _ Hi). split.
  - unfold at_resp_get_line. rewrite Hc, Hb. change (Zlen ts) with (Z.of_nat (length ts)).
    destruct (Z.ltb_spec (Z.of_nat (length ts)) (Z.of_nat i + 1)); [lia|].
    destruct (Z.leb_spec (Z.of_nat i + 1) 0); [lia|]. cbn [orb].
    rewrite (Z.add_comm (Z.of_nat i)).
    exact (get_line_loop_stored [] ts tail (Z.to_nat (Z.of_nat (length ts))) 1 i t Hn Hi ltac:(lia)).
  - rewrite (stored_lines_split ts i t Hi), <-!(assoc_L (++)). cbn [app].
    apply cstr_line; [done|]. by eapply Forall_lookup_1.
Qed.

(** ** A whole command *)

(** The state in which a command starts: nobody else is executing one, and
    the parser is between two responses. *)
Record ready (w : at_world) (l : parser_locals) : Prop := {
  rd_notice : resp_notice w = 0;
  rd_locals : l = mk_locals 0 0;
}.

Lemma vprintfln_writes send_buf text : Zlen text < AT_CMD_MAX_LEN -> AT_CMD_MAX_LEN <= Zlen send_buf ->
  at_vprintfln send_buf text = Some (text ++ [13; 10], Zlen text + 2).
Proof.
  intros Ht Hs. unfold at_vprintfln, at_vprintf. unfold AT_CMD_MAX_LEN in *.
  rewrite take_ge by (unfold Zlen in Ht; lia).
  destruct (cut send_buf (Zlen text + 1)) as (s1 & s2 & -> & H1 & _); [pose proof (Zlen_nonneg text); lia|].
  rewrite (write_at_0 s1) by (rewrite Zlen_app; zlen; lia). cbn [mbind option_bind].
  rewrite <-(assoc_L (++)). by rewrite read_at_0.
Qed.

(** What a command does whose answer ends with the line [t]. *)
Lemma exec_collects w l id r buf send_buf text ts t status :
  ready w l -> store w !! id = Some r -> resp_buf r = Some buf -> buf_size r = Zlen buf ->
  Zlen text < AT_CMD_MAX_LEN -> AT_CMD_MAX_LEN <= Zlen send_buf -> 4 <= recv_bufsz (client w) ->
  Forall (text_line (client w)) (ts ++ [t]) -> Zlen (stored_lines (ts ++ [t])) < buf_size r ->
  inner_lines ts (resp_line_num r) 1 -> text_end t (resp_line_num r) (1 + Zlen ts) = Some status ->
  exists w' r' tail,
    at_obj_exec_cmd w l send_buf (Some id) text (device_lines (ts ++ [t])) =
      Some (if decide (status = AT_RESP_OK) then RT_EOK else - RT_ERROR, text ++ [13; 10], w', l) /\
    ready w' l /\ resp (client w') = None /\ config (client w') = config (client w) /\
    urc_calls w' = urc_calls w /\ store w' = <[id := r']> (store w) /\
    line_counts r' = Zlen (ts ++ [t]) /\ resp_buf r' = Some (stored_lines (ts ++ [t]) ++ tail).
Proof.
  intros [Hno ->] Hr Hb Hs Ht Hsb H4 Hts Hroom Hin Hend.
  unfold at_obj_exec_cmd. rewrite vprintfln_writes by done. cbn [mbind option_bind].
  unfold exec_clear. change (store (exec_begin w (Some id))) with (store w). rewrite Hr.
  cbn [mbind option_bind]. unfold client_parser. cbn [Z.eqb].
  set (w0 := with_response (exec_begin w (Some id)) id (set_line_counts r 0)).
  assert (collecting w0 (mk_locals 0 0) id (resp_line_num r) [] 0 (Zlen buf)) as Hco.
  { split; try done. exists (set_line_counts r 0), buf. unfold w0. cbn. rewrite lookup_insert_eq.
    by split_and!. }
  assert (length ts <= length (device_lines (ts ++ [t])))%nat as Hfuel.
  { unfold device_lines. clear. induction ts as [|t0 ts IH]; [simpl; lia|].
    cbn [app fmap list_fmap concat length]. rewrite !length_app. simpl in *. lia. }
  replace (S (length (device_lines (ts ++ [t])))) with
    (length ts + S (length (device_lines (ts ++ [t])) - length ts))%nat by lia.
  destruct (run_response (length (device_lines (ts ++ [t])) - length ts) w0 (mk_locals 0 0) id
    (resp_line_num r) [] 0 (Zlen buf) ts t status Hco)
    as (w' & r' & tail & -> & Hc & Hn' & Hu & Hst & Hcnt & Hb'); [|done|by rewrite <-Hs|done|done|].
  { eapply Forall_impl; [exact Hts|]. intros t'. by apply config_text. }
  cbn [mbind option_bind]. rewrite Hn'. change (resp_notice w0) with (resp_notice w). rewrite Hno.
  unfold exec_take. rewrite Hn'. change (resp_notice w0) with (resp_notice w). rewrite Hno.
  cbn [Z.add Z.ltb Z.compare mbind option_bind]. rewrite Hc. eexists _, r', tail. split; [reflexivity|].
  cbn. split_and!; try done.
  - by rewrite Hst; cbn; rewrite insert_insert_eq.
  - rewrite Hcnt, Zlen_app. change (Zlen [t]) with 1. lia.
Qed.

(** C19: when the device answers a command with the lines [ts] and a last
    line that ends the response, [at_obj_exec_cmd] writes the command and
    CRLF, returns RT_EOK or -RT_ERROR by the last line, and leaves every line
    in the response object, where [at_resp_get_line] finds it; no response is
    attached and the semaphore is back to 0 afterwards. *)
Theorem exec_collects_response w l id r buf send_buf text ts t status :
  ready w l -> store w !! id = Some r -> resp_buf r = Some buf -> buf_size r = Zlen buf ->
  Zlen text < AT_CMD_MAX_LEN -> AT_CMD_MAX_LEN <= Zlen send_buf -> 4 <= recv_bufsz (client w) ->
  Forall (text_line (client w)) (ts ++ [t]) -> Zlen (stored_lines (ts ++ [t])) < buf_size r ->
  inner_lines ts (resp_line_num r) 1 -> text_end t (resp_line_num r) (1 + Zlen ts) = Some status ->
  exists w' r',
    at_obj_exec_cmd w l send_buf (Some id) text (device_lines (ts ++ [t])) =
      Some (if decide (status = AT_RESP_OK) then RT_EOK else - RT_ERROR, text ++ [13; 10], w', l) /\
    ready w' l /\ resp (client w') = None /\ config (client w') = config (client w) /\
    urc_calls w' = urc_calls w /\ store w' = <[id := r']> (store w) /\ holds_lines r' (ts ++ [t]).
Proof.
  intros Hrd Hr Hb Hs Ht Hsb H4 Hts Hroom Hin Hend.
  destruct (exec_collects w l id r buf send_buf text ts t status) as (w' & r' & tail & Hrun & Hrd' & Hno & Hc & Hu & Hst & Hcnt & Hb'); [done..|].
  exists w', r'. split_and!; try done. apply (stored_holds_lines r' (ts ++ [t]) tail); [|done..].
  eapply Forall_impl; [exact Hts|]. intros t' Htl. apply Htl.
Qed.

(** A sufficient condition for text lines: no URC table, no end sign. *)
Lemma text_line_plain c t : urc_table c = None -> end_sign c = 0 ->
  Forall (fun ch => ch <> 0 /\ ch <> 10) t -> Zlen t + 2 <= recv_bufsz c -> text_line c t.
Proof.
  intros Hu He Ht Hf.
  assert (forall p, no_urc c p) as Hno by (intros p; unfold no_urc, get_urc_obj; cbn; by rewrite Hu).
  split; [|done|done|eapply Forall_impl; [exact Ht|by intros ? []]].
  intros p ch rest Heq Hrest. split; [|done]. unfold line_end. rewrite He. cbn. rewrite orb_false_r.
  destruct (Z.eqb_spec ch 10) as [->|]; [|done]. exfalso.
  replace (t ++ [13; 10]) with ((t ++ [13]) ++ [10]) in Heq by (by rewrite <-(assoc_L (++))).
  destruct rest as [|y rest _] using rev_ind; [done|].
  change (p ++ 10 :: rest ++ [y]) with (p ++ (10 :: rest) ++ [y]) in Heq.
  rewrite (assoc_L (++)) in Heq. apply app_inj_tail in Heq as [Heq _].
  assert (10 ∈ t ++ [13]) as [Hin|Hin]%elem_of_app by (rewrite Heq; set_solver).
  - rewrite Forall_forall in Ht. by destruct (Ht 10 Hin).
  - by apply list_elem_of_singleton in Hin.
Qed.

Definition example_client : at_client :=
  mk_at_client 0 (replicate 16 0) 16 0 None AT_RESP_OK None.
Definition example_response : at_response := mk_at_response (Some (replicate 20 0)) 20 0 0 100.
Definition example_world : at_world := mk_at_world example_client {[7%nat := example_response]} 0 [].
Definition example_send_buf : list Z := replicate 128 0.

(** The device answers "v1" and "OK". *)
Lemma exec_collects_response_witness : exists w' r',
  at_obj_exec_cmd example_world (mk_locals 0 0) example_send_buf (Some 7%nat) [65; 84]
    (device_lines ([[118; 49]] ++ [AT_RESP_END_OK])) =
    Some (RT_EOK, [65; 84; 13; 10], w', mk_locals 0 0) /\
  ready w' (mk_locals 0 0) /\ resp (client w') = None /\
  config (client w') = config example_client /\ urc_calls w' = [] /\
  store w' = <[7%nat := r']> (store example_world) /\ holds_lines r' ([[118; 49]] ++ [AT_RESP_END_OK]).
Proof.
  apply (exec_collects_response example_world (mk_locals 0 0) 7%nat example_response (replicate 20 0)
    example_send_buf [65; 84] [[118; 49]] AT_RESP_END_OK AT_RESP_OK); try reflexivity.
  - done.
  - done.
  - repeat apply Forall_cons_2; [..|apply Forall_nil_2]; apply text_line_plain;
      try reflexivity; try done; repeat apply Forall_cons_2; try apply Forall_nil_2; done.
  - done.
Defined.

(** ** Memory safety of the parser, for any input *)

Record wf_client (c : at_client) : Prop := {
  wc_size : 4 <= recv_bufsz c;
  wc_buffer : Zlen (recv_buffer c) = recv_bufsz c;
  wc_len : 0 <= cur_recv_len c <= recv_bufsz c;
}.

Definition wf_response (r : at_response) : Prop :=
  exists buf, resp_buf r = Some buf /\ Zlen buf = buf_size r.

(** The attached response exists, and every response has its buffer. *)
Record wf_world (w : at_world) (l : parser_locals) : Prop := {
  ww_client : wf_client (client w);
  ww_resp : forall id, resp (client w) = Some id -> is_Some (store w !! id);
  ww_store : map_Forall (fun _ => wf_response) (store w);
  ww_len : 0 <= resp_buf_len l;
}.

Lemma strncmp_eq_defined a b n : (n <= length a)%nat -> (n <= length b)%nat ->
  is_Some (strncmp_eq a b n).
Proof.
  revert a b. induction n as [|n IH]; intros a b Ha Hb; [by eexists|].
  destruct a as [|x a], b as [|y b]; simpl in *; try lia.
  destruct (x =? y); [|by eexists]. destruct (x =? 0); [by eexists|]. apply IH; lia.
Qed.

Lemma get_urc_obj_loop_defined table i buffer n : 0 <= n <= Zlen buffer ->
  exists u, get_urc_obj_loop table i buffer n = Some u /\
    forall j, u = Some j -> (i <= j)%nat /\ is_Some (table !! (j - i)%nat).
Proof.
  intros Hn. revert i. induction table as [|e table IH]; intros i; [by eexists|].
  assert (exists u, get_urc_obj_loop table (S i) buffer n = Some u /\
    forall j, u = Some j -> (i <= j)%nat /\ is_Some ((e :: table) !! (j - i)%nat)) as Hrec.
  { destruct (IH (S i)) as (u & Hu & Hj). exists u. split; [done|]. intros j Hj'.
    destruct (Hj j Hj') as [Hle Hs]. split; [lia|].
    by replace (j - i)%nat with (S (j - S i)) by lia. }
  cbn [get_urc_obj_loop]. set (pl := Zlen (cmd_prefix e)). set (sl := Zlen (cmd_suffix e)).
  assert (0 <= pl /\ 0 <= sl) as [Hpl Hsl] by (split; apply Zlen_nonneg).
  destruct (Z.ltb_spec n (pl + sl)); [done|].
  destruct (strncmp_eq_defined buffer (cmd_prefix e ++ [0]) (Z.to_nat pl)) as [p ->];
    [unfold Zlen in *; lia|rewrite length_app; unfold pl, Zlen; lia|].
  cbn [mbind option_bind]. destruct p; cbn [negb]; [|done].
  destruct (strncmp_eq_defined (drop (Z.to_nat (n - sl)) buffer) (cmd_suffix e ++ [0]) (Z.to_nat sl))
    as [q ->]; [rewrite length_drop; unfold Zlen in *; lia|rewrite length_app; unfold sl, Zlen; lia|].
  cbn [mbind option_bind]. destruct q; [|done].
  exists (Some i). split; [done|]. intros j [= <-]. split; [lia|]. rewrite Nat.sub_diag. by eexists.
Qed.

Lemma get_urc_obj_defined c : wf_client c ->
  exists u, get_urc_obj c = Some u /\
    forall i, u = Some i -> exists table entry, urc_table c = Some table /\ table !! i = Some entry.
Proof.
  intros [? Hb Hn]. unfold get_urc_obj. destruct (urc_table c) as [table|]; [|by eexists].
  destruct (get_urc_obj_loop_defined table 0 (recv_buffer c) (cur_recv_len c)) as (u & -> & Hu); [lia|].
  exists u. split; [done|]. intros i Hi. destruct (Hu i Hi) as [_ [entry He]].
  rewrite Nat.sub_0_r in He. by eexists _, _.
Qed.

(** What a line read leaves alone. *)
Definition same_but_recv (c c' : at_client) : Prop :=
  config c = config c' /\ resp c = resp c' /\ resp_status c = resp_status c'.

Lemma readline_loop_defined input c read_len last_ch full :
  wf_client c -> cur_recv_len c = read_len -> exists res,
  at_recv_readline_loop input c read_len last_ch full = Some res /\
  match res with
  | Blocked => True
  | Line r c' rest => wf_client c' /\ same_but_recv c c' /\ (0 < r -> cur_recv_len c' = r) /\
      (length rest < length input)%nat
  end.
Proof.
  revert c read_len last_ch full. induction input as [|ch input IH]; intros c read_len lst full Hwf Hlen;
    [by exists Blocked|].
  cbn [at_recv_readline_loop].
  assert (exists c1 n1 full1, (if read_len <? recv_bufsz c
    then buf ← set_at (recv_buffer c) read_len ch;
         Some (set_recv c buf (read_len + 1), read_len + 1, full)
    else Some (c, read_len, true)) = Some (c1, n1, full1) /\
    wf_client c1 /\ cur_recv_len c1 = n1 /\ same_but_recv c c1) as (c1 & n1 & full1 & -> & Hwf1 & Hn1 & Hs1).
  { destruct (Z.ltb_spec read_len (recv_bufsz c)); [|by eexists _, _, _].
    destruct Hwf as [H4 Hb Hl]. destruct (set_at_Some (recv_buffer c) read_len ch) as (buf & -> & Hz); [lia|].
    eexists _, _, _. split; [reflexivity|]. split; [split; cbn; lia|]. by split. }
  cbn [mbind option_bind].
  assert (exists stop : bool, (if (ch =? 10) && (lst =? 13) || negb (end_sign c1 =? 0) && (ch =? end_sign c1)
    then Some true else u ← get_urc_obj c1; Some (bool_decide (is_Some u))) = Some stop) as [stop ->].
  { destruct (_ || _); [by eexists|]. destruct (get_urc_obj_defined c1 Hwf1) as (u & -> & _). by eexists. }
  cbn [mbind option_bind]. destruct stop.
  - destruct full1; eexists; (split; [reflexivity|]).
    + destruct Hwf1 as [H4 Hb Hl]. split_and!; [split; cbn; [lia|by apply Zlen_zeros; lia|lia]|done| |simpl; lia].
      unfold RT_EFULL. lia.
    + split_and!; [done..|simpl; lia].
  - destruct (IH c1 n1 ch full1 Hwf1 Hn1) as (res & -> & Hres). exists res. split; [done|].
    destruct res as [r c' rest|]; [|done]. destruct Hres as (Hw & Hs & Hr & Hl).
    split_and!; [done| |done|simpl; lia]. destruct Hs1 as (? & ? & ?), Hs as (? & ? & ?).
    split_and!; congruence.
Qed.

Lemma parser_store_defined c r l : wf_client c -> wf_response r -> 0 <= resp_buf_len l ->
  exists c' r' l', client_parser_store c r l = Some (c', r', l') /\
    wf_client c' /\ wf_response r' /\ 0 <= resp_buf_len l' /\
    recv_buffer c' = recv_buffer c /\ config c' = config c /\ resp c' = resp c.
Proof.
  intros Hc (buf & Hb & Hz) Hl. pose proof Hc as [H4 Hrb Hn]. unfold client_parser_store.
  destruct (Z.ltb_spec (resp_buf_len l + cur_recv_len c) (buf_size r)).
  - rewrite Hb. cbn [mbind option_bind].
    destruct (read_at_Some (recv_buffer c) 0 (cur_recv_len c)) as (line & -> & Hline); [lia..|].
    cbn [mbind option_bind].
    destruct (write_at_Some buf line (resp_buf_len l)) as (buf' & -> & Hbuf'); [lia..|].
    cbn [mbind option_bind]. eexists _, _, _. split; [reflexivity|]. split_and!; try done.
    + exists buf'. cbn. split; [done|lia].
    + cbn. lia.
  - eexists _, _, _. split; [reflexivity|]. split_and!; try done. by exists buf.
Qed.

(** The line ends in a NUL, so the searches stay inside the buffer. *)
Lemma parser_end_defined c r l b k : 4 <= Zlen b -> 0 <= k < Zlen b ->
  set_at b k 0 = Some (recv_buffer c) -> exists fin, client_parser_end c r l = Some fin.
Proof.
  intros H4 Hk Hset. unfold client_parser_end.
  assert (exists p q, recv_buffer c = p ++ 0 :: q /\ Zlen (recv_buffer c) = Zlen b) as (p & q & Heq & Hz).
  { destruct (cut b k) as (p & q & -> & Hp & Hq); [lia|].
    destruct q as [|x q]; [change (Zlen (@nil Z)) with 0 in Hq; lia|].
    rewrite set_at_mid in Hset by done. injection Hset as <-. exists p, q. split; [done|].
    rewrite !Zlen_app, !Zlen_cons. lia. }
  rewrite !memcmp_eq_prefix by (rewrite Hz; unfold Zlen in *; simpl; lia). cbn [mbind option_bind].
  assert (exists s, cstr_from (recv_buffer c) 0 = Some s) as [s ->].
  { rewrite Heq. unfold cstr_from. pose proof (Zlen_nonneg (p ++ 0 :: q)).
    destruct (Z.leb_spec 0 (Zlen (p ++ 0 :: q))); [|lia]. cbn [andb Z.leb Z.compare].
    change (drop (Z.to_nat 0) (p ++ 0 :: q)) with (p ++ 0 :: q). clear.
    induction p as [|x p [s Hs]]; simpl; [by eexists|]. destruct (x =? 0); [by eexists|].
    rewrite Hs. by eexists. }
  destruct (_ && _); [by eexists|]. cbn [mbind option_bind].
  destruct (bool_decide _); cbn [mbind option_bind]; [by eexists|].
  destruct (is_prefix AT_RESP_END_FAIL _); [by eexists|]. destruct (_ && _); by eexists.
Qed.

Lemma wf_with_response w l l' c id r : wf_world w l -> wf_client c -> wf_response r ->
  0 <= resp_buf_len l' -> (forall i, resp c = Some i -> i = id) ->
  wf_world (with_response (with_client w c) id r) l'.
Proof.
  intros [_ _ Hs _] Hc Hr Hl Hid. split; [done| |by apply map_Forall_insert_2|done].
  intros i Hi. rewrite (Hid i Hi). cbn. rewrite lookup_insert_eq. by eexists.
Qed.

Lemma parser_response_defined w l id : wf_world w l -> resp (client w) = Some id ->
  0 < cur_recv_len (client w) -> exists w' l', client_parser_response w l id = Some (w', l') /\
    wf_world w' l' /\ config (client w') = config (client w).
Proof.
  intros Hw Hid Hpos. pose proof Hw as [Hc Hresp Hst Hl]. pose proof Hc as [H4 Hb Hn].
  destruct (Hresp id Hid) as [r Hr]. unfold client_parser_response. rewrite Hr.
  pose proof (map_Forall_lookup_1 _ _ _ _ Hst Hr) as Hwr. cbn [mbind option_bind].
  destruct (set_at_Some (recv_buffer (client w)) (cur_recv_len (client w) - 1) 0)
    as (buf & Hset & Hz); [lia|]. rewrite Hset. cbn [mbind option_bind].
  assert (wf_client (set_recv (client w) buf (cur_recv_len (client w)))) as Hc0 by (split; cbn; lia).
  destruct (parser_store_defined _ r l Hc0 Hwr Hl) as (c1 & r1 & l1 & -> & Hc1 & Hr1 & Hl1 & Hb1 & Hcfg & Hrs).
  cbn [mbind option_bind]. cbn in Hb1, Hrs. rewrite <-Hb1 in Hset.
  destruct (parser_end_defined c1 r1 l1 (recv_buffer (client w)) (cur_recv_len (client w) - 1)
    ltac:(lia) ltac:(lia) Hset) as [[status|] ->];
    cbn [mbind option_bind]; eexists _, _; (split; [reflexivity|]).
  - split; [|done]. pose proof (wf_with_response w l (mk_locals 0 0) (set_resp (set_status c1 status) None) id
      (set_line_counts r1 (parser_line_counts l1)) Hw) as [? ? ? ?]; [by destruct Hc1|done|done|done|].
    by split.
  - split; [|done]. apply wf_with_response with l; try done. congruence.
Qed.

Lemma parser_line_defined w l : wf_world w l -> 0 < cur_recv_len (client w) ->
  exists w' l', client_parser_line w l = Some (w', l') /\ wf_world w' l' /\
    config (client w') = config (client w).
Proof.
  intros Hw Hpos. pose proof Hw as [Hc Hresp Hst Hl]. pose proof Hc as [H4 Hb Hn].
  unfold client_parser_line. destruct (get_urc_obj_defined _ Hc) as (u & -> & Hu). cbn [mbind option_bind].
  destruct u as [i|].
  - destruct (Hu i eq_refl) as (table & entry & -> & He). cbn [mbind option_bind]. rewrite He.
    cbn [mbind option_bind]. destruct (urc_func entry); [|by eexists _, _].
    destruct (read_at_Some (recv_buffer (client w)) 0 (cur_recv_len (client w))) as (data & -> & _); [lia..|].
    cbn [mbind option_bind]. eexists _, _. split; [reflexivity|]. split; [by split|done].
  - destruct (resp (client w)) as [id|] eqn:Hid; [by apply parser_response_defined|by eexists _, _].
Qed.

(** C20: for any characters from the device, whatever the commands executed
    before have left in the parser's variables, the parser thread stays inside
    its buffers, keeps them well-formed, and reads on until the line that is
    not complete yet. *)
Theorem client_parser_safe w l station input : wf_world w l ->
  exists w' l' rest, client_parser station input w l = Some (w', l', rest) /\ wf_world w' l' /\
    (station <> 0 -> at_recv_readline rest (client w') = Some Blocked).
Proof.
  intros Hw. unfold client_parser. destruct (Z.eqb_spec station 0); [by eexists _, _, _|].
  pose proof (Nat.lt_succ_diag_r (length input)) as Hlt. revert Hlt.
  generalize (S (length input)) as fuel. intros fuel. revert w l input Hw. induction fuel as [|fuel IH]; intros w l input Hw Hlt; [lia|].
  cbn [client_parser_run]. unfold at_recv_readline.
  destruct Hw as [Hc Hresp Hst Hl]. pose proof Hc as [H4 Hb Hn].
  destruct (readline_loop_defined input (set_recv (client w) (replicate (Z.to_nat (recv_bufsz (client w))) 0) 0)
    0 0 false) as (res & Hres & Hok); [split; cbn; [lia|by apply Zlen_zeros; lia|lia]|done|].
  rewrite Hres. cbn [mbind option_bind].
  destruct res as [r c' rest|].
  2:{ exists w, l, input. split; [done|]. split; [by split|]. intros _. exact Hres. }
  destruct Hok as (Hc' & (_ & Hrs & _) & Hr & Hrest). cbn in Hrs.
  assert (wf_world (with_client w c') l) as Hw'.
  { split; try done. intros id Hid. apply Hresp. cbn in Hid. congruence. }
  destruct (Z.ltb_spec 0 r).
  - destruct (parser_line_defined (with_client w c') l Hw') as (w2 & l2 & -> & Hw2 & _);
      [cbn; rewrite Hr; lia|]. cbn [mbind option_bind]. apply IH; [done|lia].
  - cbn [mbind option_bind]. apply IH; [done|lia].
Qed.

Lemma example_world_wf : wf_world example_world (mk_locals 0 0).
Proof.
  split; [by split|done| |done]. apply map_Forall_singleton. by exists (replicate 20 0).
Qed.

Lemma client_parser_safe_witness : exists w' l' rest,
  client_parser 1 [82; 73; 78; 71; 13; 10; 79] example_world (mk_locals 0 0) = Some (w', l', rest) /\
  wf_world w' l' /\ (1 <> 0 -> at_recv_readline rest (client w') = Some Blocked).
Proof. apply client_parser_safe, example_world_wf. Defined.

(** ** The handshake between the caller and the parser

    The semaphore [resp_notice] is released by the parser and taken by the
    caller.  A step of the system is one of the caller's steps between two
    points where the parser can run, or one line read by the parser, in any
    phase of the caller.  The label of a step says whether the parser has
    completed an answer between the timeout of the caller and the moment where
    the caller detaches its response. *)
Inductive phase :=
  | Idle
  | Begun (r : option nat)
  | Waiting (id : nat)
  | Leaving (result : Z).

Record system := mk_system { sys_phase : phase; sys_world : at_world; sys_locals : parser_locals }.

#[export] Instance phase_eq_dec : EqDecision phase.
Proof. solve_decision. Defined.

Definition late_answer (p : phase) (w w' : at_world) : bool :=
  bool_decide (p = Leaving (- RT_ETIMEOUT)) && (resp_notice w <? resp_notice w').

Inductive sys_step : bool -> system -> system -> Prop :=
  | step_begin w l r :
      sys_step false (mk_system Idle w l) (mk_system (Begun r) (exec_begin w r) l)
  | step_no_response w l :
      sys_step false (mk_system (Begun None) w l) (mk_system (Leaving RT_EOK) w l)
  | step_clear w l id w' : exec_clear w id = Some w' ->
      sys_step false (mk_system (Begun (Some id)) w l) (mk_system (Waiting id) w' l)
  | step_take w l id result w' : exec_take w = Some (result, w') ->
      sys_step false (mk_system (Waiting id) w l) (mk_system (Leaving result) w' l)
  | step_timeout w l id : resp_notice w = 0 ->
      sys_step false (mk_system (Waiting id) w l)
        (mk_system (Leaving (fst (exec_timeout w))) (snd (exec_timeout w)) l)
  | step_end w l result :
      sys_step false (mk_system (Leaving result) w l) (mk_system Idle (exec_end w) l)
  | step_parse p w l input r c rest w' l' :
      at_recv_readline input (client w) = Some (Line r c rest) -> 0 < r ->
      client_parser_line (with_client w c) l = Some (w', l') ->
      sys_step (late_answer p w w') (mk_system p w l) (mk_system p w' l').

(** [sys_run n s s']: from [s] the system comes to [s'], with [n] late answers
    on the way. *)
Inductive sys_run : Z -> system -> system -> Prop :=
  | sys_run_nil s : sys_run 0 s s
  | sys_run_step late n s1 s2 s3 : sys_step late s1 s2 -> sys_run n s2 s3 ->
      sys_run (Z.b2z late + n) s1 s3.

(** What each phase says about the semaphore and the attached response, when
    [n] answers have come late so far. *)
Definition pending (n : Z) (w : at_world) (r : option nat) : Prop :=
  resp (client w) = r /\ 0 <= resp_notice w <= n.
Definition notified (n : Z) (w : at_world) : Prop :=
  resp (client w) = None /\ 1 <= resp_notice w <= n + 1 /\
  (resp_status (client w) = AT_RESP_OK \/ resp_status (client w) = AT_RESP_ERROR).

Definition handshake (n : Z) (s : system) : Prop :=
  let w := sys_world s in
  match sys_phase s with
  | Idle => pending n w None
  | Begun r => pending n w r \/ (r <> None /\ notified n w)
  | Waiting id => pending n w (Some id) \/ notified n w
  | Leaving result =>
      pending n w None \/
      exists id, if decide (result = - RT_ETIMEOUT) then pending n w (Some id) /\ resp_notice w = 0
                 else pending (n - 1) w (Some id)
  end.

(** A line leaves the semaphore and the attachment alone, or it detaches the
    response and notifies the caller. *)
Definition parser_effect (w w' : at_world) : Prop :=
  (resp (client w') = resp (client w) /\ resp_notice w' = resp_notice w /\
   (resp (client w) = None -> resp_status (client w') = resp_status (client w))) \/
  (resp (client w) <> None /\ resp (client w') = None /\ resp_notice w' = resp_notice w + 1 /\
   (resp_status (client w') = AT_RESP_OK \/ resp_status (client w') = AT_RESP_ERROR)).

Lemma parser_end_status c r l status : client_parser_end c r l = Some (Some status) ->
  status = AT_RESP_OK \/ status = AT_RESP_ERROR.
Proof.
  unfold client_parser_end. intros Hfin.
  destruct (memcmp_eq (recv_buffer c) AT_RESP_END_OK) as [ok|]; [|done]. cbn [mbind option_bind] in Hfin.
  destruct (ok && _); [injection Hfin as <-; by left|].
  destruct (cstr_from (recv_buffer c) 0) as [s|]; [|done]. cbn [mbind option_bind] in Hfin.
  destruct (if bool_decide _ then _ else _) as [f|]; [|done]. cbn [mbind option_bind] in Hfin.
  destruct f; [injection Hfin as <-; by right|].
  destruct (_ && _); [injection Hfin as <-; by left|done].
Qed.

Lemma parser_line_effect w l w' l' : client_parser_line w l = Some (w', l') -> parser_effect w w'.
Proof.
  unfold client_parser_line. intros Hp.
  destruct (get_urc_obj (client w)) as [[i|]|]; [| |done]; cbn [mbind option_bind] in Hp.
  - left. destruct (urc_table (client w)) as [table|]; [|done]. cbn [mbind option_bind] in Hp.
    destruct (table !! i) as [entry|]; [|done]. cbn [mbind option_bind] in Hp.
    destruct (urc_func entry); [|by simplify_eq].
    destruct (read_at _ _ _) as [data|]; [|done]. by simplify_eq/=.
  - destruct (resp (client w)) as [id|] eqn:Hid; [|left; by simplify_eq].
    unfold client_parser_response in Hp. destruct (store w !! id) as [r|]; [|done].
    cbn [mbind option_bind] in Hp. destruct (set_at _ _ 0) as [buf|]; [|done]. cbn [mbind option_bind] in Hp.
    destruct (client_parser_store _ r l) as [[[c r'] l2]|] eqn:Hst; [|done]. cbn [mbind option_bind] in Hp.
    assert (resp c = resp (client w)) as Hc.
    { unfold client_parser_store in Hst. destruct (_ <? _); [|by simplify_eq].
      destruct (resp_buf r); [|done]. cbn [mbind option_bind] in Hst.
      destruct (read_at _ _ _); [|done]. cbn [mbind option_bind] in Hst.
      destruct (write_at _ _ _); [|done]. by simplify_eq/=. }
    destruct (client_parser_end c r' l2) as [[status|]|] eqn:Hfin; [| |done]; cbn [mbind option_bind] in Hp.
    + injection Hp as <- <-. right. rewrite Hid. split_and!; try done. by eapply parser_end_status.
    + injection Hp as <- <-. left. split_and!; try done. congruence.
Qed.

Lemma readline_same input c r c' rest : at_recv_readline input c = Some (Line r c' rest) ->
  same_but_recv c c'.
Proof.
  unfold at_recv_readline. generalize (replicate (Z.to_nat (recv_bufsz c)) 0) as b. intros b.
  assert (same_but_recv c (set_recv c b 0)) as Hs by done. revert Hs.
  generalize (set_recv c b 0) as c0. generalize 0 at 1. generalize 0. generalize false.
  induction input as [|ch input IH]; intros full lst n c0 Hs Hl; [done|]. cbn [at_recv_readline_loop] in Hl.
  destruct (if n <? recv_bufsz c0 then _ else _) as [[[c1 n1] full1]|] eqn:Hst; [|done].
  assert (same_but_recv c c1) as Hs1.
  { destruct (n <? recv_bufsz c0); [|by simplify_eq].
    destruct (set_at _ _ _); [|done]. by simplify_eq/=. }
  cbn [mbind option_bind] in Hl.
  destruct (if (_ || _) then _ else _) as [stop|]; [|done]. cbn [mbind option_bind] in Hl.
  destruct stop; [|by eapply IH].
  destruct full1; by simplify_eq/=.
Qed.

Lemma reads_effect w l input r c rest w' l' :
  at_recv_readline input (client w) = Some (Line r c rest) ->
  client_parser_line (with_client w c) l = Some (w', l') -> parser_effect w w'.
Proof.
  intros (_ & Hrs & Hst)%readline_same Hl%parser_line_effect. unfold parser_effect in *.
  cbn [client with_client resp_notice] in Hl. by rewrite Hrs, Hst.
Qed.

Lemma effect_pending n w w' r : parser_effect w w' -> pending n w r ->
  (pending n w' r /\ resp_notice w' = resp_notice w) \/
  (r <> None /\ notified n w' /\ resp_notice w' = resp_notice w + 1).
Proof.
  unfold pending, notified. intros [(-> & -> & _)|(Hne & -> & -> & Hst)] [<- Hn]; [by left|right].
  split_and!; try done; lia.
Qed.

Lemma effect_notified n w w' : parser_effect w w' -> notified n w ->
  notified n w' /\ resp_notice w' = resp_notice w.
Proof. unfold notified. intros [(-> & -> & Hs)|[? _]] (Hr & Hn & Hst); [|done]. by rewrite (Hs Hr). Qed.

Lemma notified_detached n w : notified n w -> pending (n + 1) w None.
Proof. intros (? & ? & _). split; [done|lia]. Qed.

Lemma late_leaving p w w' : p <> Leaving (- RT_ETIMEOUT) -> late_answer p w w' = false.
Proof. intros Hp. unfold late_answer. by rewrite bool_decide_eq_false_2. Qed.

Lemma parse_handshake n p w l l' w' : parser_effect w w' -> handshake n (mk_system p w l) ->
  handshake (Z.b2z (late_answer p w w') + n) (mk_system p w' l').
Proof.
  intros He. unfold handshake. cbn [sys_phase sys_world]. destruct p as [|r0|id|result].
  - rewrite late_leaving by done. intros H. by destruct (effect_pending _ _ _ _ He H) as [[]|[? _]].
  - rewrite late_leaving by done. intros [H|[? H]]; [|right; split; [done|by eapply effect_notified]].
    destruct (effect_pending _ _ _ _ He H) as [[]|(? & ? & _)]; [by left|by right].
  - rewrite late_leaving by done. intros [H|H]; [|right; by eapply effect_notified].
    destruct (effect_pending _ _ _ _ He H) as [[]|(_ & ? & _)]; [by left|by right].
  - assert (0 <= Z.b2z (late_answer (Leaving result) w w')) as Hb by (destruct late_answer; cbn; lia).
    intros [H|[id H]].
    { destruct (effect_pending _ _ _ _ He H) as [[[] _]|[? _]]; [left; split; [done|lia]|done]. }
    case_decide as Hres.
    + destruct H as [H Hz]. destruct (effect_pending _ _ _ _ He H) as [[[] ?]|(_ & (Hn & ? & _) & Heq)].
      * right. exists id. split; [split; [done|lia]|lia].
      * left. unfold late_answer. rewrite bool_decide_eq_true_2 by congruence.
        destruct (Z.ltb_spec (resp_notice w) (resp_notice w')); [|lia]. split; cbn; [done|lia].
    + rewrite late_leaving by congruence. destruct (effect_pending _ _ _ _ He H) as [[[] ?]|(_ & (Hn & ? & _) & _)].
      * right. exists id. split; [done|cbn; lia].
      * left. split; [done|cbn; lia].
Qed.

Lemma sys_step_handshake late n s s' : sys_step late s s' -> handshake n s ->
  handshake (Z.b2z late + n) s'.
Proof.
  intros Hstep. destruct Hstep as [w l r|w l|w l id w' Hc|w l id result w' Ht|w l id Hn|w l result|
    p w l input r c rest w' l' Hr Hpos Hl]; [..|by apply parse_handshake; eapply reads_effect];
    unfold handshake; cbn [sys_phase sys_world Z.b2z Z.add].
  - intros [_ Hn]. by left.
  - intros [H|[? _]]; [by left|done].
  - unfold exec_clear in Hc. destruct (store w !! id) as [r|]; [|done]. injection Hc as <-.
    intros [H|[_ H]]; [by left|by right].
  - unfold exec_take in Ht. destruct (Z.ltb_spec 0 (resp_notice w)); [|done]. injection Ht as <- <-.
    intros [[? ?]|(? & ? & _)]; [right; exists id|left; split; cbn; [done|lia]].
    rewrite decide_False by (by case_decide). split; cbn; [done|lia].
  - intros [[Hrs ?]|(_ & ? & _)]; [|lia]. right. exists id. rewrite decide_True by done.
    by split.
  - intros H. assert (0 <= resp_notice w <= n) as Hn; [|by split].
    destruct H as [[]|[id H]]; [done|]. case_decide; [by destruct H as [[] _]|destruct H as [_ ?]; lia].
Qed.

Lemma sys_run_handshake m n s s' : sys_run n s s' -> handshake m s -> handshake (n + m) s'.
Proof.
  intros Hr. revert m. induction Hr as [s|late n s1 s2 s3 Hstep _ IH]; intros m Hs; [done|].
  replace (Z.b2z late + n + m) with (n + (Z.b2z late + m)) by lia.
  by apply IH, (sys_step_handshake _ _ s1).
Qed.

(** C21: whatever lines arrive at whatever moment, and whatever commands time
    out: a completed answer is counted by the semaphore, with the response
    detached and the status OK or ERROR, and beyond it the semaphore counts at
    most the answers that were completed between a timeout of the caller and
    its detaching the response; between two commands no response is attached,
    and without such a late answer none is left over.  A line of the parser is
    one step. *)
Theorem exec_handshake n s s' : handshake 0 s -> sys_run n s s' -> handshake n s'.
Proof.
  intros Hs Hr. rewrite <-(Z.add_0_r n). by apply sys_run_handshake with s.
Qed.

(** A step of the parser by computation. *)
Definition parse_line (w : at_world) (l : parser_locals) (input : list Z)
    : option (at_world * parser_locals) :=
  res ← at_recv_readline input (client w);
  match res with
  | Line r c rest => if 0 <? r then client_parser_line (with_client w c) l else None
  | Blocked => None
  end.

Lemma parse_line_step p w l input w' l' : parse_line w l input = Some (w', l') ->
  sys_step (late_answer p w w') (mk_system p w l) (mk_system p w' l').
Proof.
  unfold parse_line. intros Hl. destruct (at_recv_readline input (client w)) as [[r c rest|]|] eqn:Hr;
    cbn [mbind option_bind] in Hl; try done.
  destruct (Z.ltb_spec 0 r); [|done]. by eapply step_parse.
Qed.

(** The command of the examples, up to the wait of the caller. *)
Definition example_waiting : at_world :=
  with_response (exec_begin example_world (Some 7%nat)) 7 (set_line_counts example_response 0).
Definition ok_answer : list Z := [79; 75; 13; 10].

(** The state after the parser has read "OK". *)
Definition answered_ok (w : at_world) : at_world :=
  (default (w, mk_locals 0 0) (parse_line w (mk_locals 0 0) ok_answer)).1.

Lemma some_by_snd {A B} (o : option (A * B)) d b : snd <$> o = Some b -> o = Some ((default d o).1, b).
Proof. by destruct o as [[a b']|]; intros [= <-]. Qed.

Lemma example_steps n s : sys_run n (mk_system (Waiting 7) example_waiting (mk_locals 0 0)) s ->
  sys_run n (mk_system Idle example_world (mk_locals 0 0)) s.
Proof.
  intros Hr. apply (sys_run_step false n _ _ _ (step_begin _ _ (Some 7%nat))).
  eapply (sys_run_step false n _ _ _); [|exact Hr]. apply step_clear. reflexivity.
Qed.

(** The answer that comes after the timeout is late, and the one before is not. *)
Lemma example_late : sys_run 1 (mk_system Idle example_world (mk_locals 0 0))
  (mk_system Idle (exec_end (answered_ok (snd (exec_timeout example_waiting)))) (mk_locals 0 0)).
Proof.
  apply example_steps. eapply (sys_run_step false 1); [by apply (step_timeout _ _ 7)|].
  eapply (sys_run_step true 0 _ (mk_system (Leaving (- RT_ETIMEOUT)) _ _));
    [|eapply (sys_run_step false 0); [apply step_end|apply sys_run_nil]].
  assert (late_answer (Leaving (- RT_ETIMEOUT)) (snd (exec_timeout example_waiting))
    (answered_ok (snd (exec_timeout example_waiting))) = true) as <- by (vm_compute; reflexivity).
  apply parse_line_step with ok_answer. apply some_by_snd. vm_compute. reflexivity.
Qed.

(** "OK" arrives between the timeout and the detaching. *)
Lemma exec_handshake_witness :
  handshake 1 (mk_system Idle (exec_end (answered_ok (snd (exec_timeout example_waiting)))) (mk_locals 0 0)).
Proof.
  apply (exec_handshake 1 (mk_system Idle example_world (mk_locals 0 0))); [by split|].
  apply example_late.
Defined.

(** What a call returns and leaves in a response. *)
Definition observe (id : nat) (res : option (Z * list Z * at_world * parser_locals))
    : option (Z * list Z * option at_response * parser_locals) :=
  '(result, out, w, l) ← res; Some (result, out, store w !! id, l).

(** When the answer of a command that timed out is read before the
    caller has detached its response, the semaphore stays at 1, and the next
    command returns success with no line received. *)
Theorem late_answer_completes_next : exists w,
  sys_run 1 (mk_system Idle example_world (mk_locals 0 0)) (mk_system Idle w (mk_locals 0 0)) /\
  resp_notice w = 1 /\
  observe 7 (at_obj_exec_cmd w (mk_locals 0 0) example_send_buf (Some 7%nat) [65; 84] []) =
    Some (RT_EOK, [65; 84; 13; 10],
      Some (mk_at_response (Some ([79; 75; 13] ++ replicate 17 0)) 20 0 0 100), mk_locals 0 0).
Proof.
  exists (exec_end (answered_ok (snd (exec_timeout example_waiting)))). split_and!.
  - apply example_late.
  - vm_compute. reflexivity.
  - vm_compute. reflexivity.
Qed.

(** A command that receives the line "v1" and times out, then one with a new
    response that receives "v2" and "OK": the parser's variables in between,
    and the result and the response of the second. *)
Definition two_commands : option (parser_locals * Z * at_response) :=
  '(_, _, w, l) ← at_obj_exec_cmd example_world (mk_locals 0 0) example_send_buf (Some 7%nat) [65; 84]
    (device_lines [[118; 49]]);
  '(result, _, w, _) ← at_obj_exec_cmd (with_response w 8 example_response) l example_send_buf (Some 8%nat)
    [65; 84] (device_lines [[118; 50]; AT_RESP_END_OK]);
  r ← store w !! 8%nat;
  Some (l, result, r).

(** The parser keeps its position and line count when a command times
    out: the next command gets its lines behind those of the one before, and
    [at_resp_get_line] finds empty strings instead. *)
Theorem timeout_shifts_next_response :
  let r := mk_at_response (Some (replicate 4 0 ++ [118; 50; 13; 0; 79; 75; 13; 0] ++ replicate 8 0))
    20 0 3 100 in
  two_commands = Some (mk_locals 4 1, RT_EOK, r) /\
  at_resp_get_line r 1 = Some (Some 0) /\ cstr_from (default [] (resp_buf r)) 0 = Some [] /\
  at_resp_get_line r 2 = Some (Some 1) /\ cstr_from (default [] (resp_buf r)) 1 = Some [].
Proof. split; [vm_compute; reflexivity|by split_and!]. Qed.

(** A command longer than the send buffer makes [at_vprintf] send
    what is behind the end of the buffer: vsnprintf returns the length of the text
    before it was truncated. *)
Theorem at_vprintf_overreads send_buf text : Zlen send_buf = AT_CMD_MAX_LEN ->
  AT_CMD_MAX_LEN < Zlen text -> at_vprintf send_buf text = None.
Proof.
  intros Hs Ht. unfold at_vprintf, AT_CMD_MAX_LEN in *.
  destruct (write_at_Some send_buf (take (Z.to_nat (128 - 1)) text ++ [0]) 0) as (b & -> & Hb);
    [lia|unfold Zlen in *; rewrite length_app, length_take; change (length [0]) with 1%nat; lia|]. cbn [mbind option_bind].
  unfold read_at. destruct (Z.leb_spec (0 + Zlen text) (Zlen b)); [lia|]. by rewrite andb_false_r.
Qed.

Lemma at_vprintf_overreads_witness : at_vprintf example_send_buf (replicate 129 65) = None.
Proof. by apply at_vprintf_overreads. Defined.

(** A response that does not fit is reported as complete: the final "OK"
    overwrites the status AT_RESP_BUFF_FULL. *)
Theorem buffer_full_lost :
  observe 7 (at_obj_exec_cmd example_world (mk_locals 0 0) example_send_buf (Some 7%nat) [65; 84]
    (device_lines [replicate 14 65; replicate 14 66; AT_RESP_END_OK])) =
  Some (RT_EOK, [65; 84; 13; 10],
    Some (mk_at_response (Some (replicate 14 65 ++ [13; 0] ++ replicate 4 0)) 20 0 1 100), mk_locals 0 0).
Proof. vm_compute. reflexivity. Qed.

(** The answer of the device reaches the parser between the two
    statements that end [at_client_obj_wait_connect]: it uses the response
    that was just freed. *)
Theorem wait_connect_use_after_free :
  parse_line (at_delete_resp (wait_begin example_world 8 example_response) 8) (mk_locals 0 0)
    [79; 75; 13; 10] = None /\
  is_Some (parse_line (wait_begin example_world 8 example_response) (mk_locals 0 0) [79; 75; 13; 10]).
Proof. split; [reflexivity|]. by eexists. Qed.

(** ** Termination of the wait for the connection *)

(** [elapsed k] is the time since the start when iteration [k] reads the
    clock: a failed wait takes at least [d] and at most [D] ticks. *)
Record clock_advances (elapsed : nat -> Z) (d D : Z) : Prop := {
  ca_start : 0 <= elapsed 0%nat <= D;
  ca_step : forall k, elapsed k + d <= elapsed (S k) <= elapsed k + D;
}.

Lemma elapsed_lower elapsed d D k : clock_advances elapsed d D -> d * Z.of_nat k <= elapsed k.
Proof. intros [H0 Hs]. induction k as [|k IH]; [lia|]. pose proof (Hs k). lia. Qed.

Lemma wait_loop_returns elapsed d D start_time timeout answered fuel k :
  clock_advances elapsed d D -> 0 < d -> 0 <= timeout -> timeout + D < 2 ^ 32 ->
  timeout / d + 2 <= Z.of_nat (fuel + k) -> elapsed k <= timeout + D -> d * Z.of_nat k <= timeout + d ->
  (forall j, (j < k)%nat -> answered j = false) ->
  exists result sent,
    at_wait_connect_loop fuel k (fun k => u32 (start_time + elapsed k)) answered start_time timeout k =
      Some (result, sent) /\
    ((result = RT_EOK /\ exists j, sent = S j /\ answered j = true /\ elapsed j <= timeout) \/
     (result = - RT_ETIMEOUT /\ timeout < elapsed sent /\ forall j, (j < sent)%nat -> answered j = false)) /\
    (Z.of_nat sent <= timeout / d + 1).
Proof.
  intros Hc Hd Ht Hmax. revert k. induction fuel as [|fuel IH]; intros k Hfuel He Hk Hno.
  { pose proof (Z.div_mod timeout d). pose proof (Z.mod_pos_bound timeout d). nia. }
  cbn [at_wait_connect_loop].
  assert (0 <= elapsed k) as He0 by (pose proof (elapsed_lower _ _ _ k Hc); lia).
  replace (u32 (u32 (start_time + elapsed k) - start_time)) with (elapsed k).
  2:{ unfold u32. rewrite Zminus_mod_idemp_l. replace (start_time + elapsed k - start_time) with (elapsed k)
        by lia. rewrite Z.mod_small; lia. }
  assert (Z.of_nat k <= timeout / d + 1) as Hkd.
  { pose proof (Z.div_le_mono (d * Z.of_nat k) (timeout + d) d Hd Hk) as H.
    rewrite Z.mul_comm, Z.div_mul in H by lia. replace (timeout + d) with (timeout + 1 * d) in H by lia.
    rewrite Z.div_add in H by lia. lia. }
  destruct (Z.ltb_spec timeout (elapsed k)).
  - eexists _, _. split; [reflexivity|]. split; [by right|done].
  - assert (Z.of_nat k <= timeout / d).
    { apply Z.div_le_lower_bound; [lia|]. pose proof (elapsed_lower _ _ _ k Hc). lia. }
    destruct (answered k) eqn:Ha.
    + eexists _, _. split; [reflexivity|]. split; [left; split; [done|by exists k]|lia].
    + pose proof (ca_step _ _ _ Hc k). apply IH; [lia|lia|pose proof (elapsed_lower _ _ _ k Hc); lia|].
      intros j Hj. destruct (decide (j = k)) as [->|]; [done|]. apply Hno. lia.
Qed.

(** When every unanswered attempt takes at least [d] ticks and the clock
    does not wrap around past the timeout in one attempt,
    [at_client_obj_wait_connect] returns after at most timeout / d + 1
    attempts, across a wrap-around of the tick counter: RT_EOK when an attempt
    that began in time was answered, -RT_ETIMEOUT when none was.  Its response
    is freed and detached. *)
Theorem wait_connect_returns w id r elapsed d D start_time timeout answered fuel :
  clock_advances elapsed d D -> 0 < d -> 0 <= timeout -> timeout + D < 2 ^ 32 ->
  timeout / d + 2 <= Z.of_nat fuel ->
  exists result sent w',
    at_client_obj_wait_connect fuel w id (Some r) (fun k => u32 (start_time + elapsed k)) answered
      start_time timeout = Some (result, sent, w') /\
    ((result = RT_EOK /\ exists j, sent = S j /\ answered j = true /\ elapsed j <= timeout) \/
     (result = - RT_ETIMEOUT /\ timeout < elapsed sent /\ forall j, (j < sent)%nat -> answered j = false)) /\
    Z.of_nat sent <= timeout / d + 1 /\
    resp (client w') = None /\ store w' = delete id (store w).
Proof.
  intros Hc Hd Ht Hmax Hfuel. unfold at_client_obj_wait_connect.
  destruct (wait_loop_returns elapsed d D start_time timeout answered fuel 0 Hc Hd Ht Hmax)
    as (result & sent & -> & Hres & Hsent); [lia|destruct Hc; lia|lia|lia|].
  cbn [mbind option_bind]. eexists _, _, _. split; [reflexivity|]. split_and!; try done.
  cbn. by rewrite delete_insert_eq.
Qed.

(** Nobody answers for 2 seconds; the tick counter wraps around meanwhile. *)
Lemma wait_connect_returns_witness : exists result sent w',
  at_client_obj_wait_connect 6 example_world 8 (Some example_response)
    (fun k => u32 (2 ^ 32 - 60 + 51 * Z.of_nat k)) (fun _ => false) (2 ^ 32 - 60) 200 =
    Some (result, sent, w') /\
  ((result = RT_EOK /\ exists j, sent = S j /\ false = true /\ 51 * Z.of_nat j <= 200) \/
   (result = - RT_ETIMEOUT /\ 200 < 51 * Z.of_nat sent /\ forall j, (j < sent)%nat -> false = false)) /\
  Z.of_nat sent <= 200 / 50 + 1 /\ resp (client w') = None /\ store w' = delete 8%nat (store example_world).
Proof.
  apply (wait_connect_returns example_world 8%nat example_response (fun k => 51 * Z.of_nat k) 50 60
    (2 ^ 32 - 60) 200 (fun _ => false) 6); [|lia|lia|lia|done].
  split; lia.
Defined.
