(* ===== verification/AtSetup.v ===== *)
(** * AT client: initialisation and waiting for characters
    (components/net/at/src/at_client.c)

    The kernel objects that [at_client_para_init] creates are handles from a
    counter, and the world keeps the set of those that exist; an operation is
    [None] when it deletes one that does not.  [at_client_getchar] and the
    receive interrupt are a step relation on the characters of the device and
    the count of the semaphore [rx_notice]. *)

From S2P Require Import Prelude AtClient.

Open Scope Z_scope.

(** ** Kernel objects *)

Record kernel := mk_kernel { next_handle : nat; live : gset nat; at_client_num : Z; device_open : bool }.

(** [ok] is whether there is memory for the object. *)
Definition k_create (k : kernel) (ok : bool) : option nat * kernel :=
  if ok then (Some (next_handle k), mk_kernel (S (next_handle k)) ({[next_handle k]} ∪ live k)
                (at_client_num k) (device_open k))
  else (None, k).

Definition k_delete (k : kernel) (h : nat) : option kernel :=
  if decide (h ∈ live k)
  then Some (mk_kernel (next_handle k) (live k ∖ {[h]}) (at_client_num k) (device_open k)) else None.

(** [if (p) delete(p);] *)
Definition k_delete_opt (k : kernel) (p : option nat) : option kernel :=
  match p with None => Some k | Some h => k_delete k h end.

(** The pointers of the client; [None] is RT_NULL. *)
Record client_init := mk_client_init {
  ci_device : bool;
  ci_status : at_status_t;
  ci_recv_buffer : option nat;
  ci_recv_bufsz : Z;
  ci_lock : option nat;
  ci_rx_notice : option nat;
  ci_resp_notice : option nat;
  ci_parser : option nat;
}.

Definition ci_zero : client_init :=
  mk_client_init false AT_STATUS_UNINITIALIZED None 0 None None None None.

(** Which of the five allocations succeed. *)
Record supply := mk_supply { s_buffer : bool; s_lock : bool; s_rx : bool; s_resp : bool; s_parser : bool }.

(** The allocations in their order; each is made when those before succeeded.
    The boolean tells whether all did. *)
Definition para_init_alloc (k : kernel) (c : client_init) (s : supply) : bool * client_init * kernel :=
  let set b l r p t := mk_client_init (ci_device c) AT_STATUS_UNINITIALIZED b (ci_recv_bufsz c) l r p t in
  let '(b, k) := k_create k (s_buffer s) in
  match b with None => (false, set b (ci_lock c) (ci_rx_notice c) (ci_resp_notice c) (ci_parser c), k) | _ =>
  let '(l, k) := k_create k (s_lock s) in
  match l with None => (false, set b l (ci_rx_notice c) (ci_resp_notice c) (ci_parser c), k) | _ =>
  let '(r, k) := k_create k (s_rx s) in
  match r with None => (false, set b l r (ci_resp_notice c) (ci_parser c), k) | _ =>
  let '(p, k) := k_create k (s_resp s) in
  match p with None => (false, set b l r p (ci_parser c), k) | _ =>
  let '(t, k) := k_create k (s_parser s) in
  match t with None => (false, set b l r p t, k) | _ => (true, set b l r p t, k)
  end end end end end.

Definition at_client_para_init (k : kernel) (c : client_init) (s : supply)
    : option (Z * client_init * kernel) :=
  let '(ok, c, k) := para_init_alloc k c s in
  if (ok : bool) then
    Some (RT_EOK, c, mk_kernel (next_handle k) (live k) (at_client_num k + 1) (device_open k))
  else
    k ← k_delete_opt k (ci_lock c);
    k ← k_delete_opt k (ci_rx_notice c);
    k ← k_delete_opt k (ci_resp_notice c);
    let k := if ci_device c then mk_kernel (next_handle k) (live k) (at_client_num k) false else k in
    k ← k_delete_opt k (ci_recv_buffer c);
    Some (- RT_ENOMEM, ci_zero, k).

(** The table has AT_CLIENT_NUM_MAX entries; [found] tells whether the device
    exists.  A failed assertion is [None]. *)
Fixpoint free_entry (table : list client_init) (idx : nat) : nat :=
  match table with
  | [] => idx
  | c :: table => if ci_device c then free_entry table (S idx) else idx
  end.

Definition at_client_init (k : kernel) (table : list client_init) (found : bool) (recv_bufsz : Z) (s : supply)
    : option (Z * list client_init * kernel) :=
  if recv_bufsz <=? 0 then None else
  let idx := free_entry table 0 in
  match table !! idx with
  | None => Some (- RT_EFULL, table, k)
  | Some c =>
      let c := mk_client_init found (ci_status c) (ci_recv_buffer c) recv_bufsz (ci_lock c) (ci_rx_notice c)
                 (ci_resp_notice c) (ci_parser c) in
      if negb found then Some (- RT_ERROR, <[idx := c]> table, k) else
      let k := mk_kernel (next_handle k) (live k) (at_client_num k) true in
      '(result, c, k) ← at_client_para_init k c s;
      let c := if result =? RT_EOK
               then mk_client_init (ci_device c) AT_STATUS_INITIALIZED (ci_recv_buffer c) (ci_recv_bufsz c)
                      (ci_lock c) (ci_rx_notice c) (ci_resp_notice c) (ci_parser c)
               else c in
      Some (result, <[idx := c]> table, k)
  end.

(** ** Initialisation *)

(** An entry that is not in use, as the static initialisation and every
    failure leave it. *)
Definition unused (c : client_init) : Prop :=
  ci_device c = false /\ ci_recv_buffer c = None /\ ci_lock c = None /\ ci_rx_notice c = None /\
  ci_resp_notice c = None /\ ci_parser c = None.

Definition fresh_handles (k : kernel) : Prop := forall h, h ∈ live k -> (h < next_handle k)%nat.

(** The objects of a client. *)
Definition owned (c : client_init) : list (option nat) :=
  [ci_recv_buffer c; ci_lock c; ci_rx_notice c; ci_resp_notice c; ci_parser c].

(** Sets of handles in front of the counter and behind it. *)
Ltac handles Hf :=
  apply set_eq; let x := fresh "x" in intros x; specialize (Hf x); set_unfold; intuition lia.

(** The result of the initialisation, by whether all allocations succeed. *)
Lemma para_init_result k c s : fresh_handles k -> ci_device c = true -> ci_lock c = None ->
  ci_rx_notice c = None -> ci_resp_notice c = None -> ci_parser c = None ->
  let h := next_handle k in
  let new := ({[(h + 4)%nat]} ∪ ({[(h + 3)%nat]} ∪ ({[(h + 2)%nat]} ∪ ({[(h + 1)%nat]} ∪ ({[h]} ∪ live k))))) in
  exists n, at_client_para_init k c s = Some
    (if s_buffer s && s_lock s && s_rx s && s_resp s && s_parser s
     then (RT_EOK,
       mk_client_init true AT_STATUS_UNINITIALIZED (Some h) (ci_recv_bufsz c) (Some (h + 1)%nat)
         (Some (h + 2)%nat) (Some (h + 3)%nat) (Some (h + 4)%nat),
       mk_kernel (h + 5) new (at_client_num k + 1) (device_open k))
     else (- RT_ENOMEM, ci_zero, mk_kernel n (live k) (at_client_num k) false)) /\ (h <= n)%nat.
Proof.
  intros Hf Hd Hl Hrx Hrs Hp h new.
  assert (forall i, (h <= i)%nat -> i ∉ live k) as Hnew.
  { intros i Hi Hin. specialize (Hf i Hin). unfold h in Hi. lia. }
  unfold new. replace (h + 1)%nat with (S h) by lia. replace (h + 2)%nat with (S (S h)) by lia.
  replace (h + 3)%nat with (S (S (S h))) by lia. replace (h + 4)%nat with (S (S (S (S h)))) by lia.
  replace (h + 5)%nat with (S (S (S (S (S h))))) by lia. clear new.
  destruct s as [[] [] [] [] []]; unfold at_client_para_init, para_init_alloc;
    rewrite ?Hd, ?Hl, ?Hrx, ?Hrs, ?Hp;
    cbn [k_create s_buffer s_lock s_rx s_resp s_parser andb next_handle live at_client_num device_open
         ci_lock ci_rx_notice ci_resp_notice ci_device ci_recv_buffer k_delete_opt mbind option_bind];
    fold h; unfold k_delete;
    repeat (rewrite decide_True by (cbn [live]; set_solver by lia);
            cbn [next_handle live at_client_num device_open mbind option_bind]).
  all: first [by exists h|eexists; split; [reflexivity|lia]|
    eexists; split; [do 3 f_equal; handles Hf|lia]].
Qed.

(** Success: five new objects, all of them the client's. *)
Definition initialised (k : kernel) (c : client_init) (k' : kernel) : Prop :=
  device_open k' = true /\ ci_status c = AT_STATUS_INITIALIZED /\ at_client_num k' = at_client_num k + 1 /\
  exists h, owned c = [Some h; Some (h + 1)%nat; Some (h + 2)%nat; Some (h + 3)%nat; Some (h + 4)%nat] /\
    live k' = list_to_set (omap id (owned c)) ∪ live k /\ forall i, (h <= i)%nat -> i ∉ live k.

(** Failure: everything is as before. *)
Definition rolled_back (k : kernel) (c : client_init) (k' : kernel) : Prop :=
  device_open k' = false /\ unused c /\ live k' = live k /\ at_client_num k' = at_client_num k.

(** [at_client_init] on a free entry either sets up a client with five new
    kernel objects, or returns an error, deletes every object it created, each
    once, closes the device and leaves the entry unused. *)
Theorem at_client_init_no_leak k c found recv_bufsz s :
  fresh_handles k -> unused c -> device_open k = false -> 0 < recv_bufsz ->
  exists result c' k', at_client_init k [c] found recv_bufsz s = Some (result, [c'], k') /\
    fresh_handles k' /\
    if result =? RT_EOK then initialised k c' k' else rolled_back k c' k'.
Proof.
  intros Hf (Hd & Hb & Hl & Hrx & Hrs & Hp) Ho Hsz. unfold at_client_init.
  destruct (Z.leb_spec recv_bufsz 0); [lia|]. cbn [free_entry]. rewrite Hd. cbn [lookup list_lookup].
  destruct found; cbn [negb].
  2:{ eexists _, _, _. split; [reflexivity|]. by split. }
  set (k1 := mk_kernel (next_handle k) (live k) (at_client_num k) true).
  set (c1 := mk_client_init true _ _ _ _ _ _ _).
  destruct (para_init_result k1 c1 s Hf eq_refl Hl Hrx Hrs Hp) as (n & -> & Hn). cbn in Hn.
  destruct (s_buffer s && s_lock s && s_rx s && s_resp s && s_parser s); cbn [mbind option_bind].
  - eexists _, _, _. split; [reflexivity|]. split.
    { intros h. cbn. specialize (Hf h). set_unfold. intuition lia. }
    cbn. split_and!; [done..|]. exists (next_handle k). split_and!; [done|set_solver|].
    intros i Hi Hin. specialize (Hf i Hin). lia.
  - eexists _, _, _. split; [reflexivity|]. split; [|done].
    intros h Hh. cbn in *. specialize (Hf h Hh). lia.
Qed.

(** The second semaphore cannot be created. *)
Definition short_supply : supply := mk_supply true true true false true.
Definition example_kernel : kernel := mk_kernel 3 {[1%nat]} 0 false.

Lemma at_client_init_no_leak_witness : exists result c' k',
  at_client_init example_kernel [ci_zero] true 512 short_supply = Some (result, [c'], k') /\
  fresh_handles k' /\
  if result =? RT_EOK then initialised example_kernel c' k' else rolled_back example_kernel c' k'.
Proof.
  apply at_client_init_no_leak; [|done|done|lia]. intros h Hh. cbn in *.
  apply elem_of_singleton in Hh as ->. lia.
Defined.

(** ** Waiting for a character *)

(** [at_client_getchar] between its calls, with the characters that the device
    holds and the count of [rx_notice]. *)
Inductive getchar_phase := GcRead | GcReset | GcTake | GcDone (ch : Z).

Record getchar_state := mk_gc { gc_phase : getchar_phase; gc_fifo : list Z; gc_notice : Z }.

(** The receive interrupt: the driver stores the character and calls
    [at_client_rx_ind], which releases the semaphore of every client of the
    device.  [rx_ind] gives the clients' counts afterwards. *)
Definition at_client_rx_ind (notices : list (bool * Z)) (size : Z) : list (bool * Z) :=
  (fun '(same_device, n) => (same_device, if same_device && (0 <? size) then n + 1 else n)) <$> notices.

Definition rx_interrupt (s : getchar_state) (ch : Z) : getchar_state :=
  mk_gc (gc_phase s) (gc_fifo s ++ [ch])
    (match at_client_rx_ind [(true, gc_notice s)] 1 with (_, n) :: _ => n | [] => gc_notice s end).

(** With [race] the interrupt may come between the read that finds no
    character and the reset of the semaphore. *)
Inductive gc_step (race : bool) : getchar_state -> getchar_state -> Prop :=
  | gc_read_some ch fifo n : gc_step race (mk_gc GcRead (ch :: fifo) n) (mk_gc (GcDone ch) fifo n)
  | gc_read_none n : gc_step race (mk_gc GcRead [] n) (mk_gc GcReset [] n)
  | gc_reset fifo n : gc_step race (mk_gc GcReset fifo n) (mk_gc GcTake fifo 0)
  | gc_take fifo n : 0 < n -> gc_step race (mk_gc GcTake fifo n) (mk_gc GcRead fifo (n - 1))
  | gc_interrupt s ch : (race = false -> gc_phase s <> GcReset) -> gc_step race s (rx_interrupt s ch).

(** Waiting although a character is there. *)
Definition stuck (s : getchar_state) : Prop :=
  gc_phase s = GcTake /\ gc_fifo s <> [] /\ gc_notice s = 0.

Definition gc_inv (s : getchar_state) : Prop :=
  0 <= gc_notice s /\
  match gc_phase s with
  | GcReset => gc_fifo s = []
  | GcTake => gc_fifo s = [] \/ 0 < gc_notice s
  | _ => True
  end.

Lemma gc_step_inv s s' : gc_step false s s' -> gc_inv s -> gc_inv s'.
Proof.
  intros Hs [Hn Hp]. destruct Hs as [ch fifo n|n|fifo n|fifo n Ht|s ch Hr]; unfold gc_inv; cbn in *.
  - done.
  - done.
  - split; [lia|by left].
  - split; [lia|done].
  - split; [lia|]. specialize (Hr eq_refl). destruct (gc_phase s); try done. right. lia.
Qed.

(** If no interrupt comes between the read that finds the device empty and
    the reset of the semaphore, the parser never waits while a character is
    there; with such an interrupt it can, until the next character arrives. *)
Theorem getchar_wakeup n : 0 <= n ->
  (forall s, rtc (gc_step false) (mk_gc GcRead [] n) s -> ~ stuck s) /\
  (exists s, rtc (gc_step true) (mk_gc GcRead [] n) s /\ stuck s).
Proof.
  intros Hn. split.
  - intros s Hr (Hp & Hf & H0). assert (gc_inv s) as [_ Hi].
    { assert (gc_inv (mk_gc GcRead [] n)) as Hinit by done. clear Hp Hf H0. revert Hinit.
      induction Hr as [|s1 s2 s3 Hstep _ IH]; intros Hinit; [done|]. by apply IH, (gc_step_inv s1). }
    rewrite Hp in Hi. destruct Hi; [done|lia].
  - exists (mk_gc GcTake [65] 0). split; [|done]. eapply rtc_l; [apply gc_read_none|].
    eapply rtc_l; [apply (gc_interrupt true _ 65); discriminate|]. apply rtc_once, gc_reset.
Qed.

Lemma getchar_wakeup_witness :
  (forall s, rtc (gc_step false) (mk_gc GcRead [] 0) s -> ~ stuck s) /\
  (exists s, rtc (gc_step true) (mk_gc GcRead [] 0) s /\ stuck s).
Proof. by apply getchar_wakeup. Defined.
