(* ===== verification/KString.v ===== *)
(** * Memory and strings (src/kservice.c)

    The functions that write take the whole memory, a list of bytes indexed by
    address, so that areas may overlap and alignment means the address modulo
    4; RT_USING_TINY_SIZE is not defined.  The functions that only read take
    what lies behind each pointer.  An operation is [None] when it accesses
    memory outside the list. *)

From S2P Require Import Prelude Cstr.

Open Scope Z_scope.

Definition aligned4 (a : Z) : bool := Z.land a 3 =? 0.

(** A 32-bit word in memory, little-endian. *)
Definition word_bytes (w : Z) : list Z :=
  [u8 w; u8 (Z.shiftr w 8); u8 (Z.shiftr w 16); u8 (Z.shiftr w 24)].

(** ** rt_memset *)

(** [k] words stored one behind the other. *)
Fixpoint store_words (k : nat) (m : list Z) (a buffer : Z) : option (list Z) :=
  match k with
  | O => Some m
  | S k => m ← write_at m a (word_bytes buffer); store_words k m (a + 4) buffer
  end.

(** [while (count >= k * 4)], storing [k] words in each iteration. *)
Fixpoint memset_words (fuel k : nat) (m : list Z) (a buffer count : Z) : option (list Z * Z * Z) :=
  match fuel with
  | O => None
  | S fuel =>
      if count <? 4 * Z.of_nat k then Some (m, a, count) else
      m ← store_words k m a buffer;
      memset_words fuel k m (a + 4 * Z.of_nat k) buffer (count - 4 * Z.of_nat k)
  end.

(** [while (count--)] *)
Fixpoint memset_bytes (count : nat) (m : list Z) (a d : Z) : option (list Z) :=
  match count with
  | O => Some m
  | S count => m ← set_at m a d; memset_bytes count m (a + 1) d
  end.

Definition rt_memset (m : list Z) (s c count : Z) : option (list Z) :=
  let d := Z.land c 0xff in
  '(m, a, count) ←
    (if negb (count <? 4) && aligned4 s then
       let buffer := Z.lor (u32 (Z.shiftl d 8)) d in
       let buffer := Z.lor buffer (u32 (Z.shiftl buffer 16)) in
       '(m, a, count) ← memset_words (S (Z.to_nat count)) 4 m s buffer count;
       memset_words (S (Z.to_nat count)) 1 m a buffer count
     else Some (m, s, count));
  memset_bytes (Z.to_nat count) m a d.

(** ** rt_memcpy and rt_memmove *)

(** A load and a store of [n] bytes. *)
Definition copy (m : list Z) (dst src n : Z) : option (list Z) :=
  l ← read_at m src n; write_at m dst l.

Fixpoint copy_words (k : nat) (m : list Z) (dst src : Z) : option (list Z) :=
  match k with
  | O => Some m
  | S k => m ← copy m dst src 4; copy_words k m (dst + 4) (src + 4)
  end.

Fixpoint memcpy_words (fuel k : nat) (m : list Z) (dst src len : Z) : option (list Z * Z * Z * Z) :=
  match fuel with
  | O => None
  | S fuel =>
      if len <? 4 * Z.of_nat k then Some (m, dst, src, len) else
      m ← copy_words k m dst src;
      memcpy_words fuel k m (dst + 4 * Z.of_nat k) (src + 4 * Z.of_nat k) (len - 4 * Z.of_nat k)
  end.

Fixpoint copy_bytes (n : nat) (m : list Z) (dst src : Z) : option (list Z) :=
  match n with
  | O => Some m
  | S n => m ← copy m dst src 1; copy_bytes n m (dst + 1) (src + 1)
  end.

Definition rt_memcpy (m : list Z) (dst src count : Z) : option (list Z) :=
  '(m, dst, src, len) ←
    (if negb (count <? 16) && (aligned4 src && aligned4 dst) then
       '(m, dst, src, len) ← memcpy_words (S (Z.to_nat count)) 4 m dst src count;
       memcpy_words (S (Z.to_nat len)) 1 m dst src len
     else Some (m, dst, src, count));
  copy_bytes (Z.to_nat len) m dst src.

(** [while (n--) *(--tmp) = *(--s);] *)
Fixpoint copy_bytes_down (n : nat) (m : list Z) (tmp s : Z) : option (list Z) :=
  match n with
  | O => Some m
  | S n => m ← copy m (tmp - 1) (s - 1) 1; copy_bytes_down n m (tmp - 1) (s - 1)
  end.

Definition rt_memmove (m : list Z) (dest src n : Z) : option (list Z) :=
  if (src <? dest) && (dest <? src + n) then copy_bytes_down (Z.to_nat n) m (dest + n) (src + n)
  else copy_bytes (Z.to_nat n) m dest src.

(** ** Comparing *)

Fixpoint rt_memcmp (cs ct : list Z) (count : nat) : option Z :=
  match count with
  | O => Some 0
  | S count =>
      match cs, ct with
      | a :: cs, b :: ct => if negb (a - b =? 0) then Some (a - b) else rt_memcmp cs ct count
      | _, _ => None
      end
  end.

Fixpoint rt_strcmp (cs ct : list Z) : option Z :=
  match cs, ct with
  | a :: cs, b :: ct => if negb (a =? 0) && (a =? b) then rt_strcmp cs ct else Some (a - b)
  | _, _ => None
  end.

(** The difference is kept in a signed char. *)
Definition s8 (z : Z) : Z := (z + 2 ^ 7) mod 2 ^ 8 - 2 ^ 7.

Fixpoint rt_strncmp (cs ct : list Z) (count : nat) : option Z :=
  match count with
  | O => Some 0
  | S count =>
      match cs, ct with
      | a :: cs, b :: ct =>
          let res := s8 (a - b) in
          if negb (res =? 0) || (a =? 0) then Some res else rt_strncmp cs ct count
      | _, _ => None
      end
  end.

Definition to_lower (c : Z) : Z := if (65 <=? c) && (c <=? 90) then c + 32 else c.

Fixpoint rt_strcasecmp (a b : list Z) : option Z :=
  match a, b with
  | x :: a, y :: b =>
      let ca := to_lower (Z.land x 0xff) in
      let cb := to_lower (Z.land y 0xff) in
      if (ca =? cb) && negb (ca =? 0) then rt_strcasecmp a b else Some (u32 (ca - cb))
  | _, _ => None
  end.

(** ** Lengths, searching and copying *)

Fixpoint rt_strlen_loop (s : list Z) (n : Z) : option Z :=
  match s with
  | [] => None
  | c :: s => if c =? 0 then Some n else rt_strlen_loop s (n + 1)
  end.

Definition rt_strlen (s : list Z) : option Z := rt_strlen_loop s 0.

(** The character is read before the bound is tested. *)
Fixpoint rt_strnlen_loop (s : list Z) (n maxlen : Z) : option Z :=
  match s with
  | [] => None
  | c :: s => if negb (c =? 0) && (n <? maxlen) then rt_strnlen_loop s (n + 1) maxlen else Some n
  end.

Definition rt_strnlen (s : list Z) (maxlen : Z) : option Z := rt_strnlen_loop s 0 maxlen.

Fixpoint rt_strstr_loop (fuel : nat) (s1 s2 : list Z) (l1 l2 i : Z) : option (option Z) :=
  match fuel with
  | O => None
  | S fuel =>
      if l1 <? l2 then Some None else
      r ← rt_memcmp s1 s2 (Z.to_nat l2);
      if r =? 0 then Some (Some i) else rt_strstr_loop fuel (drop 1 s1) s2 (l1 - 1) l2 (i + 1)
  end.

(** The result is the index of the occurrence; [Some None] is RT_NULL. *)
Definition rt_strstr (s1 s2 : list Z) : option (option Z) :=
  l2 ← rt_strlen s2;
  if l2 =? 0 then Some (Some 0) else
  l1 ← rt_strlen s1;
  rt_strstr_loop (S (Z.to_nat l1)) s1 s2 l1 l2 0.

(** The two areas are apart: [src] lies behind the source pointer, [i] is the
    index of the next character of [dst]. *)
Fixpoint rt_strncpy_loop (n : nat) (dst src : list Z) (i : Z) : option (list Z) :=
  match n with
  | O => Some dst
  | S n =>
      match src with
      | [] => None
      | c :: src =>
          dst ← set_at dst i c;
          if c =? 0 then memset_bytes n dst (i + 1) 0 else rt_strncpy_loop n dst src (i + 1)
      end
  end.

Definition rt_strncpy (dst src : list Z) (n : Z) : option (list Z) :=
  rt_strncpy_loop (Z.to_nat n) dst src 0.

(** [fresh] is the area that rt_malloc returns for the length. *)
Definition rt_strdup (s : list Z) (fresh : Z -> option (list Z)) : option (option (list Z)) :=
  len ← rt_strlen s;
  match fresh (len + 1) with
  | None => Some None
  | Some tmp => l ← read_at s 0 (len + 1); tmp ← write_at tmp 0 l; Some (Some tmp)
  end.

(** ** Stores and copies as a whole *)

Lemma write_at_lookup {A} (m l m' : list A) a : write_at m a l = Some m' ->
  0 <= a /\ a + Zlen l <= Zlen m /\ Zlen m' = Zlen m /\
  forall i : nat, m' !! i = if decide (a <= Z.of_nat i < a + Zlen l) then l !! Z.to_nat (Z.of_nat i - a)
                      else m !! i.
Proof.
  unfold write_at. destruct (Z.leb_spec 0 a), (Z.leb_spec (a + Zlen l) (Zlen m)); try done.
  cbn [andb]. intros [= <-]. unfold Zlen in *. split_and!; [done|done| |].
  - rewrite !length_app, length_take, length_drop. lia.
  - intros i. assert (length (take (Z.to_nat a) m) = Z.to_nat a) as Hl by (rewrite length_take; lia).
    case_decide.
    + rewrite lookup_app_r, lookup_app_l by lia. rewrite Hl. f_equal. lia.
    + destruct (decide (Z.of_nat i < a)).
      * rewrite lookup_app_l by lia. rewrite lookup_take_lt by lia. done.
      * rewrite lookup_app_r, lookup_app_r by lia. rewrite Hl, lookup_drop. f_equal. lia.
Qed.

Lemma read_at_lookup {A} (m l : list A) a n : read_at m a n = Some l ->
  Zlen l = n /\ forall i : nat, Z.of_nat i < n -> l !! i = m !! (Z.to_nat a + i)%nat.
Proof.
  unfold read_at. destruct (Z.leb_spec 0 a), (Z.leb_spec 0 n), (Z.leb_spec (a + n) (Zlen m)); try done.
  cbn [andb]. intros [= <-]. unfold Zlen in *. split; [rewrite length_take, length_drop; lia|].
  intros i Hi. rewrite lookup_take_lt by lia. apply lookup_drop.
Qed.

(** A store in two parts. *)
Lemma write_at_app {A} (m l1 l2 : list A) a : 0 <= a -> a + Zlen (l1 ++ l2) <= Zlen m ->
  (m1 ← write_at m a l1; write_at m1 (a + Zlen l1) l2) = write_at m a (l1 ++ l2).
Proof.
  intros Ha Hl. rewrite Zlen_app in Hl. pose proof (Zlen_nonneg l1). pose proof (Zlen_nonneg l2).
  destruct (cut m a) as (m1 & m2 & -> & H1 & H2); [lia|].
  destruct (cut m2 (Zlen l1)) as (m3 & m4 & -> & H3 & H4); [lia|].
  destruct (cut m4 (Zlen l2)) as (m5 & m6 & -> & H5 & H6); [lia|].
  rewrite (write_at_mid m1 m3 (m5 ++ m6)) by lia. cbn [mbind option_bind].
  rewrite (assoc_L (++) m1), (write_at_mid (m1 ++ l1) m5 m6) by (rewrite ?Zlen_app; lia).
  rewrite (assoc_L (++) m3), (write_at_mid m1 (m3 ++ m5) m6) by (rewrite ?Zlen_app; lia).
  by rewrite <-!(assoc_L (++)).
Qed.

Definition fill (m : list Z) (a d n : Z) : option (list Z) := write_at m a (replicate (Z.to_nat n) d).

Lemma Zlen_replicate {A} n (x : A) : 0 <= n -> Zlen (replicate (Z.to_nat n) x) = n.
Proof. intros. unfold Zlen. rewrite length_replicate. lia. Qed.

Lemma fill_split m a d k n : 0 <= a -> 0 <= k <= n -> a + n <= Zlen m ->
  (m1 ← fill m a d k; fill m1 (a + k) d (n - k)) = fill m a d n.
Proof.
  intros Ha Hk Hn. unfold fill.
  pose proof (write_at_app m (replicate (Z.to_nat k) d) (replicate (Z.to_nat (n - k)) d) a Ha) as H.
  rewrite Zlen_app, !Zlen_replicate in H by lia. rewrite H by lia. rewrite <-replicate_add. do 2 f_equal. lia.
Qed.

Lemma fill_Some m a d n : 0 <= a -> 0 <= n -> a + n <= Zlen m ->
  exists m', fill m a d n = Some m' /\ Zlen m' = Zlen m.
Proof. intros. apply write_at_Some; [done|]. rewrite Zlen_replicate; lia. Qed.

Lemma fill_zero m a d : 0 <= a <= Zlen m -> fill m a d 0 = Some m.
Proof.
  intros Ha. unfold fill. destruct (cut m a) as (m1 & m2 & -> & H1 & _); [done|].
  exact (write_at_mid m1 [] m2 [] a (eq_sym H1) eq_refl).
Qed.

Lemma copy_Some m dst src n : 0 <= dst -> 0 <= src -> 0 <= n -> dst + n <= Zlen m -> src + n <= Zlen m ->
  exists m', copy m dst src n = Some m' /\ Zlen m' = Zlen m.
Proof.
  intros. unfold copy. destruct (read_at_Some m src n) as (l & -> & Hl); [done..|]. cbn [mbind option_bind].
  apply write_at_Some; lia.
Qed.

Lemma copy_lookup m dst src n m' : copy m dst src n = Some m' -> 0 <= src ->
  forall i : nat, m' !! i = if decide (dst <= Z.of_nat i < dst + n)
    then m !! Z.to_nat (src + (Z.of_nat i - dst)) else m !! i.
Proof.
  unfold copy. destruct (read_at m src n) as [l|] eqn:Hr; [|done]. cbn [mbind option_bind].
  intros Hw Hsrc i. apply read_at_lookup in Hr as [Hl Hr].
  apply write_at_lookup in Hw as (Ha & _ & _ & Hw). rewrite Hw, Hl.
  case_decide; [|done]. rewrite Hr by lia. f_equal. lia.
Qed.

(** A copy upwards in two parts, when the source is not overtaken. *)
Lemma copy_split m dst src k n : 0 <= dst -> 0 <= src -> 0 <= k <= n ->
  dst + n <= Zlen m -> src + n <= Zlen m -> (dst <= src \/ src + n <= dst) ->
  (m1 ← copy m dst src k; copy m1 (dst + k) (src + k) (n - k)) = copy m dst src n.
Proof.
  intros Hd Hs Hk Hdn Hsn Hover.
  destruct (copy_Some m dst src k) as (m1 & H1 & Hz1); [lia..|]. rewrite H1. cbn [mbind option_bind].
  destruct (copy_Some m1 (dst + k) (src + k) (n - k)) as (m2 & H2 & Hz2); [lia..|].
  destruct (copy_Some m dst src n) as (m3 & H3 & Hz3); [lia..|]. rewrite H2, H3. f_equal.
  apply list_eq. intros i. rewrite (copy_lookup _ _ _ _ _ H2), (copy_lookup _ _ _ _ _ H3) by lia.
  rewrite !(copy_lookup _ _ _ _ _ H1) by lia. repeat case_decide; try lia; try done; f_equal; lia.
Qed.

(** A copy downwards in two parts. *)
Lemma copy_split_down m dst src k n : 0 <= dst -> 0 <= src -> 0 <= k <= n ->
  dst + n <= Zlen m -> src + n <= Zlen m -> (src <= dst \/ dst + n <= src) ->
  (m1 ← copy m (dst + (n - k)) (src + (n - k)) k; copy m1 dst src (n - k)) = copy m dst src n.
Proof.
  intros Hd Hs Hk Hdn Hsn Hover.
  destruct (copy_Some m (dst + (n - k)) (src + (n - k)) k) as (m1 & H1 & Hz1); [lia..|].
  rewrite H1. cbn [mbind option_bind].
  destruct (copy_Some m1 dst src (n - k)) as (m2 & H2 & Hz2); [lia..|].
  destruct (copy_Some m dst src n) as (m3 & H3 & Hz3); [lia..|]. rewrite H2, H3. f_equal.
  apply list_eq. intros i. rewrite (copy_lookup _ _ _ _ _ H2), (copy_lookup _ _ _ _ _ H3) by lia.
  rewrite !(copy_lookup _ _ _ _ _ H1) by lia. repeat case_decide; try lia; try done; f_equal; lia.
Qed.

(** ** The loops *)

Lemma fill_step m a d k n m1 : 0 <= a -> 0 <= k <= n -> a + n <= Zlen m -> fill m a d k = Some m1 ->
  fill m1 (a + k) d (n - k) = fill m a d n.
Proof. intros Ha Hk Hn H1. rewrite <-(fill_split m a d k n) by lia. by rewrite H1. Qed.

Lemma copy_step m dst src k n m1 : 0 <= dst -> 0 <= src -> 0 <= k <= n ->
  dst + n <= Zlen m -> src + n <= Zlen m -> (dst <= src \/ src + n <= dst) -> copy m dst src k = Some m1 ->
  copy m1 (dst + k) (src + k) (n - k) = copy m dst src n.
Proof. intros ? ? ? ? ? ? H1. rewrite <-(copy_split m dst src k n) by lia. by rewrite H1. Qed.

Lemma memset_bytes_fill n m a d : 0 <= a -> a + Z.of_nat n <= Zlen m ->
  memset_bytes n m a d = fill m a d (Z.of_nat n).
Proof.
  revert m a. induction n as [|n IH]; intros m a Ha Hn; [by rewrite fill_zero by lia|].
  cbn [memset_bytes]. destruct (fill_Some m a d 1) as (m1 & H1 & Hz); [lia..|].
  change (set_at m a d) with (fill m a d 1). rewrite H1. cbn [mbind option_bind].
  rewrite IH by lia. rewrite <-(fill_step m a d 1 (Z.of_nat (S n)) m1) by (done || lia). f_equal. lia.
Qed.

Lemma store_words_fill k m a buffer d : word_bytes buffer = replicate 4 d -> 0 <= a ->
  a + 4 * Z.of_nat k <= Zlen m -> store_words k m a buffer = fill m a d (4 * Z.of_nat k).
Proof.
  intros Hw. revert m a. induction k as [|k IH]; intros m a Ha Hn; [by rewrite fill_zero by lia|].
  cbn [store_words]. rewrite Hw. destruct (fill_Some m a d 4) as (m1 & H1 & Hz); [lia..|].
  change (write_at m a (replicate 4 d)) with (fill m a d 4). rewrite H1. cbn [mbind option_bind].
  rewrite IH by lia. rewrite <-(fill_step m a d 4 (4 * Z.of_nat (S k)) m1) by (done || lia). f_equal. lia.
Qed.

Lemma memset_words_fill fuel k m a buffer d count : (0 < k)%nat -> word_bytes buffer = replicate 4 d ->
  0 <= a -> 0 <= count -> a + count <= Zlen m -> count < Z.of_nat fuel ->
  exists m' left, memset_words fuel k m a buffer count = Some (m', a + (count - left), left) /\
    0 <= left <= count /\ fill m a d (count - left) = Some m' /\ Zlen m' = Zlen m.
Proof.
  intros Hk Hw. revert m a count. induction fuel as [|fuel IH]; intros m a count Ha Hc Hn Hf; [lia|].
  cbn [memset_words]. destruct (Z.ltb_spec count (4 * Z.of_nat k)).
  - exists m, count. rewrite Z.sub_diag, Z.add_0_r. by rewrite fill_zero by lia.
  - rewrite (store_words_fill k m a buffer d) by (done || lia).
    destruct (fill_Some m a d (4 * Z.of_nat k)) as (m1 & H1 & Hz); [lia..|]. rewrite H1. cbn [mbind option_bind].
    destruct (IH m1 (a + 4 * Z.of_nat k) (count - 4 * Z.of_nat k)) as (m2 & left & -> & Hl & H2 & Hz2); [lia..|].
    exists m2, left. split_and!; [do 3 f_equal; lia|lia|lia| |lia].
    rewrite <-(fill_step m a d (4 * Z.of_nat k) (count - left) m1) by (done || lia). rewrite <-H2. f_equal. lia.
Qed.

(** The word that is stored has the byte four times. *)
Lemma memset_word d : 0 <= d < 256 ->
  let b := Z.lor (u32 (Z.shiftl d 8)) d in
  word_bytes (Z.lor b (u32 (Z.shiftl b 16))) = replicate 4 d.
Proof.
  intros Hd.
  assert (forallb (fun d => bool_decide
    (word_bytes (Z.lor (Z.lor (u32 (Z.shiftl d 8)) d) (u32 (Z.shiftl (Z.lor (u32 (Z.shiftl d 8)) d) 16)))
      = replicate 4 d)) (Z.of_nat <$> seq 0 256) = true) as Hall by (vm_compute; reflexivity).
  rewrite forallb_forall in Hall. apply (bool_decide_unpack _), Is_true_true, Hall.
  apply list_elem_of_In, list_elem_of_fmap. exists (Z.to_nat d). split; [lia|]. apply elem_of_seq. lia.
Qed.

(** [rt_memset] sets exactly the bytes of the area, whatever its
    alignment and size. *)
Theorem rt_memset_fill m s c count : 0 <= s -> 0 <= count -> s + count <= Zlen m ->
  rt_memset m s c count = write_at m s (replicate (Z.to_nat count) (u8 c)).
Proof.
  intros Hs Hc Hn. unfold rt_memset. change 255 with (Z.ones 8). rewrite Z.land_ones by lia.
  fold (u8 c). fold (fill m s (u8 c) count). destruct (negb (count <? 4) && aligned4 s).
  - pose proof (memset_word (u8 c) (u8_range c)) as Hw. cbv zeta in Hw.
    destruct (memset_words_fill (S (Z.to_nat count)) 4 m s _ (u8 c) count ltac:(lia) Hw)
      as (m1 & l1 & -> & Hl1 & H1 & Hz1); [lia..|]. cbn [mbind option_bind].
    destruct (memset_words_fill (S (Z.to_nat l1)) 1 m1 (s + (count - l1)) _ (u8 c) l1 ltac:(lia) Hw)
      as (m2 & l2 & -> & Hl2 & H2 & Hz2); [lia..|]. cbn [mbind option_bind].
    rewrite memset_bytes_fill by lia.
    rewrite <-(fill_step m s (u8 c) (count - l1) count m1) by (done || lia).
    rewrite <-(fill_step m1 (s + (count - l1)) (u8 c) (l1 - l2) (count - (count - l1)) m2)
      by (try lia; rewrite <-H2; f_equal; lia).
    f_equal; lia.
  - cbn [mbind option_bind]. rewrite memset_bytes_fill by lia. f_equal. lia.
Qed.

Lemma rt_memset_fill_witness :
  rt_memset (replicate 28 7) 4 0x1ff 23 = write_at (replicate 28 7) 4 (replicate 23 (u8 0x1ff)).
Proof. apply rt_memset_fill; by vm_compute. Defined.

Lemma copy_zero m dst src : 0 <= dst <= Zlen m -> 0 <= src <= Zlen m -> copy m dst src 0 = Some m.
Proof.
  intros Hd Hs. destruct (copy_Some m dst src 0) as (m' & H & Hz); [lia..|]. rewrite H. f_equal.
  apply list_eq. intros i. rewrite (copy_lookup _ _ _ _ _ H) by lia. case_decide; [lia|done].
Qed.

(** The areas of a copy: inside the memory, and the source is not overtaken. *)
Record upward (m : list Z) (dst src n : Z) : Prop := {
  up_dst : 0 <= dst /\ dst + n <= Zlen m;
  up_src : 0 <= src /\ src + n <= Zlen m;
  up_over : dst <= src \/ src + n <= dst;
}.

Lemma upward_step m dst src k n : upward m dst src n -> 0 <= k <= n ->
  exists m1, copy m dst src k = Some m1 /\ Zlen m1 = Zlen m /\
    upward m1 (dst + k) (src + k) (n - k) /\
    copy m1 (dst + k) (src + k) (n - k) = copy m dst src n.
Proof.
  intros [Hd Hs Ho] Hk. destruct (copy_Some m dst src k) as (m1 & H1 & Hz); [lia..|].
  exists m1. split_and!; [done|done|split; lia|]. apply copy_step; (done || lia).
Qed.

Lemma copy_bytes_copy n m dst src : upward m dst src (Z.of_nat n) ->
  copy_bytes n m dst src = copy m dst src (Z.of_nat n).
Proof.
  revert m dst src. induction n as [|n IH]; intros m dst src Hu.
  - destruct Hu. by rewrite copy_zero by lia.
  - cbn [copy_bytes]. destruct (upward_step m dst src 1 _ Hu) as (m1 & -> & _ & Hu1 & Hc); [lia|].
    cbn [mbind option_bind]. replace (Z.of_nat (S n) - 1) with (Z.of_nat n) in * by lia. by rewrite IH.
Qed.

Lemma copy_words_copy k m dst src : upward m dst src (4 * Z.of_nat k) ->
  copy_words k m dst src = copy m dst src (4 * Z.of_nat k).
Proof.
  revert m dst src. induction k as [|k IH]; intros m dst src Hu.
  - destruct Hu. by rewrite copy_zero by lia.
  - cbn [copy_words]. destruct (upward_step m dst src 4 _ Hu) as (m1 & -> & _ & Hu1 & Hc); [lia|].
    cbn [mbind option_bind]. replace (4 * Z.of_nat (S k) - 4) with (4 * Z.of_nat k) in * by lia. by rewrite IH.
Qed.

Lemma upward_less m dst src k n : upward m dst src n -> 0 <= k <= n -> upward m dst src k.
Proof. intros [? ? ?] ?. split; lia. Qed.

Lemma memcpy_words_copy fuel k m dst src len : (0 < k)%nat -> upward m dst src len -> 0 <= len ->
  len < Z.of_nat fuel ->
  exists m' left, memcpy_words fuel k m dst src len =
      Some (m', dst + (len - left), src + (len - left), left) /\ 0 <= left <= len /\
    upward m' (dst + (len - left)) (src + (len - left)) left /\
    copy m' (dst + (len - left)) (src + (len - left)) left = copy m dst src len.
Proof.
  intros Hk. revert m dst src len. induction fuel as [|fuel IH]; intros m dst src len Hu Hl Hf; [lia|].
  cbn [memcpy_words]. destruct (Z.ltb_spec len (4 * Z.of_nat k)).
  - exists m, len. by rewrite Z.sub_diag, !Z.add_0_r.
  - rewrite copy_words_copy by (eapply upward_less; [done|lia]).
    destruct (upward_step m dst src (4 * Z.of_nat k) len Hu) as (m1 & -> & _ & Hu1 & Hc); [lia|].
    cbn [mbind option_bind].
    destruct (IH m1 _ _ _ Hu1 ltac:(lia) ltac:(lia)) as (m2 & left & -> & Hleft & Hu2 & Hc2).
    exists m2, left. rewrite <-Hc, <-Hc2.
    replace (dst + 4 * Z.of_nat k + (len - 4 * Z.of_nat k - left)) with (dst + (len - left)) in * by lia.
    replace (src + 4 * Z.of_nat k + (len - 4 * Z.of_nat k - left)) with (src + (len - left)) in * by lia.
    split_and!; try done; lia.
Qed.

(** [rt_memcpy] copies the whole area in its words and bytes, for every
    alignment, when the areas do not overlap or the target lies in front. *)
Theorem rt_memcpy_copies m dst src count : 0 <= count ->
  0 <= dst /\ dst + count <= Zlen m -> 0 <= src /\ src + count <= Zlen m ->
  dst <= src \/ src + count <= dst ->
  rt_memcpy m dst src count = (l ← read_at m src count; write_at m dst l).
Proof.
  intros Hc Hd Hs Ho. fold (copy m dst src count). assert (upward m dst src count) as Hu by done.
  unfold rt_memcpy. destruct (negb (count <? 16) && (aligned4 src && aligned4 dst)).
  - destruct (memcpy_words_copy (S (Z.to_nat count)) 4 m dst src count ltac:(lia) Hu Hc)
      as (m1 & l1 & -> & Hl1 & Hu1 & <-); [lia|]. cbn [mbind option_bind].
    destruct (memcpy_words_copy (S (Z.to_nat l1)) 1 m1 _ _ l1 ltac:(lia) Hu1)
      as (m2 & l2 & -> & Hl2 & Hu2 & <-); [lia..|]. cbn [mbind option_bind].
    rewrite copy_bytes_copy; rewrite Z2Nat.id by lia; done.
  - cbn [mbind option_bind]. rewrite copy_bytes_copy; rewrite Z2Nat.id by lia; done.
Qed.

Lemma rt_memcpy_copies_witness :
  rt_memcpy (Z.of_nat <$> seq 0 64) 36 4 23 =
    (l ← read_at (Z.of_nat <$> seq 0 64) 4 23; write_at (Z.of_nat <$> seq 0 64) 36 l).
Proof. apply rt_memcpy_copies; [done|by split|by split|by right]. Defined.

Lemma copy_bytes_down_copy n m dst src : 0 <= dst -> 0 <= src ->
  dst + Z.of_nat n <= Zlen m -> src + Z.of_nat n <= Zlen m -> src <= dst ->
  copy_bytes_down n m (dst + Z.of_nat n) (src + Z.of_nat n) = copy m dst src (Z.of_nat n).
Proof.
  revert m. induction n as [|n IH]; intros m Hd Hs Hdn Hsn Hle; [by rewrite copy_zero by lia|].
  cbn [copy_bytes_down]. rewrite <-(copy_split_down m dst src 1 (Z.of_nat (S n))) by lia.
  replace (Z.of_nat (S n) - 1) with (Z.of_nat n) by lia.
  replace (dst + Z.of_nat (S n) - 1) with (dst + Z.of_nat n) by lia.
  replace (src + Z.of_nat (S n) - 1) with (src + Z.of_nat n) by lia.
  destruct (copy_Some m (dst + Z.of_nat n) (src + Z.of_nat n) 1) as (m1 & -> & Hz); [lia..|].
  cbn [mbind option_bind]. apply IH; lia.
Qed.

(** C34: [rt_memmove] copies the area as it was before the call, however the
    two areas overlap. *)
Theorem rt_memmove_moves m dest src n : 0 <= n -> 0 <= dest /\ dest + n <= Zlen m ->
  0 <= src /\ src + n <= Zlen m ->
  rt_memmove m dest src n = (l ← read_at m src n; write_at m dest l).
Proof.
  intros Hn Hd Hs. fold (copy m dest src n). unfold rt_memmove.
  destruct (Z.ltb_spec src dest), (Z.ltb_spec dest (src + n)); cbn [andb].
  1: replace (dest + n) with (dest + Z.of_nat (Z.to_nat n)) by lia;
     replace (src + n) with (src + Z.of_nat (Z.to_nat n)) by lia;
     rewrite copy_bytes_down_copy by lia; f_equal; lia.
  all: rewrite copy_bytes_copy; rewrite Z2Nat.id by lia; [done|split; lia].
Qed.

Lemma rt_memmove_moves_witness :
  rt_memmove [1; 2; 3; 4; 5; 6] 1 0 4 = (l ← read_at [1; 2; 3; 4; 5; 6] 0 4; write_at [1; 2; 3; 4; 5; 6] 1 l).
Proof. by apply rt_memmove_moves. Defined.

(** ** Reading strings *)

Lemma rt_strlen_loop_spec s k n : rt_strlen_loop s k = Some n <->
  exists t, cstr_list s = Some t /\ n = k + Zlen t.
Proof.
  revert k. induction s as [|c s IH]; intros k; simpl; [by split; [|intros (? & ? & _)]|].
  destruct (c =? 0).
  - split; [intros [= <-]; exists []; split; [done|zlen; lia]|intros (t & [= <-] & ->); f_equal; zlen; lia].
  - rewrite IH. split.
    + intros (t & Ht & ->). exists (c :: t). rewrite Ht, Zlen_cons. split; [done|lia].
    + intros (t & (t' & Ht & ->)%fmap_Some & ->). exists t'. rewrite Zlen_cons. split; [done|lia].
Qed.

Lemma rt_strlen_nul s rest : nonzero s -> rt_strlen (s ++ 0 :: rest) = Some (Zlen s).
Proof. intros Hs. apply rt_strlen_loop_spec. exists s. split; [by apply cstr_list_app|lia]. Qed.

Lemma memcmp_prefix b l rest : (length b <= length l)%nat ->
  exists r, rt_memcmp l (b ++ rest) (length b) = Some r /\ (r =? 0) = is_prefix b l.
Proof.
  revert l. induction b as [|x b IH]; intros l Hl; [exists 0; split; by destruct l|].
  destruct l as [|y l]; simpl in Hl; [lia|]. cbn [length rt_memcmp app is_prefix].
  destruct (Z.eqb_spec (y - x) 0); cbn [negb].
  - destruct (Z.eqb_spec x y); [|lia]. apply IH. lia.
  - exists (y - x). destruct (Z.eqb_spec x y); [lia|]. split; [done|]. by apply Z.eqb_neq.
Qed.

Lemma find_sub_short needle hay : Zlen hay < Zlen needle -> find_sub needle hay = None.
Proof.
  intros Hl. apply find_sub_none. intros a b ->. rewrite !Zlen_app in Hl.
  pose proof (Zlen_nonneg a). pose proof (Zlen_nonneg b). lia.
Qed.

Lemma strstr_loop_find fuel a x b y i : nonzero b -> b <> [] -> (length a < fuel)%nat ->
  rt_strstr_loop fuel (a ++ 0 :: x) (b ++ 0 :: y) (Zlen a) (Zlen b) i =
    Some ((fun j => i + j) <$> find_sub b a).
Proof.
  intros Hb Hne. revert a i. induction fuel as [|fuel IH]; intros a i Hf; [lia|]. cbn [rt_strstr_loop].
  destruct (Z.ltb_spec (Zlen a) (Zlen b)); [by rewrite find_sub_short|].
  replace (Z.to_nat (Zlen b)) with (length b) by (unfold Zlen; lia).
  destruct (memcmp_prefix b (a ++ 0 :: x) (0 :: y)) as (r & -> & Hr).
  { rewrite length_app. unfold Zlen in *. lia. }
  cbn [mbind option_bind]. rewrite Hr, is_prefix_nul by done. destruct a as [|c a].
  - destruct b; [done|]. change (Zlen (@nil Z)) with 0 in *. rewrite Zlen_cons in *.
    pose proof (Zlen_nonneg b). lia.
  - cbn [find_sub]. destruct (is_prefix b (c :: a)); [cbn; by rewrite Z.add_0_r|].
    cbn [app drop]. rewrite Zlen_cons. replace (1 + Zlen a - 1) with (Zlen a) by lia.
    rewrite drop_0, IH by (simpl in Hf; lia). destruct (find_sub b a); cbn; [|done]. do 2 f_equal. lia.
Qed.

(** [rt_strstr] finds the first occurrence of one string in another. *)
Theorem rt_strstr_find a x b y : nonzero a -> nonzero b ->
  rt_strstr (a ++ 0 :: x) (b ++ 0 :: y) = Some (find_sub b a).
Proof.
  intros Ha Hb. unfold rt_strstr. rewrite !rt_strlen_nul by done. cbn [mbind option_bind].
  destruct b as [|c b]; [by destruct a|]. rewrite Zlen_cons. pose proof (Zlen_nonneg b).
  destruct (Z.eqb_spec (1 + Zlen b) 0); [lia|]. rewrite <-Zlen_cons with (x := c).
  rewrite strstr_loop_find; [|done|done|unfold Zlen; lia].
  by destruct (find_sub (c :: b) a).
Qed.

Lemma rt_strstr_find_witness :
  rt_strstr ([97; 98; 97; 98; 99] ++ 0 :: [99]) ([97; 98; 99] ++ 0 :: []) = Some (find_sub [97; 98; 99] [97; 98; 97; 98; 99]).
Proof. by apply rt_strstr_find; repeat constructor. Defined.

(** Equal exactly when the strings are, and otherwise the difference of the
    first characters that differ. *)
Lemma rt_strcmp_equal a x b y : nonzero a -> nonzero b ->
  exists r, rt_strcmp (a ++ 0 :: x) (b ++ 0 :: y) = Some r /\ (r = 0 <-> a = b).
Proof.
  intros Ha. revert b. induction Ha as [|c a Hc Ha IH]; intros b Hb.
  - destruct Hb as [|d b Hd Hb]; simpl; eexists; (split; [done|]); split; try done. lia.
  - destruct Hb as [|d b Hd Hb]; simpl.
    + destruct (Z.eqb_spec c 0); [done|]. cbn [negb andb].
      eexists. split; [done|]. split; [lia|done].
    + destruct (Z.eqb_spec c 0); [done|]. cbn [negb andb]. destruct (Z.eqb_spec c d) as [->|].
      * destruct (IH b Hb) as (r & -> & Hr). exists r. split; [done|]. rewrite Hr. split; congruence.
      * eexists. split; [done|]. split; [lia|congruence].
Qed.

(** The comparison ignores the case of ASCII letters. *)
Lemma rt_strcasecmp_equal a x b y : Forall (fun c => 0 < c < 256) a -> Forall (fun c => 0 < c < 256) b ->
  exists r, rt_strcasecmp (a ++ 0 :: x) (b ++ 0 :: y) = Some r /\
    (r = 0 <-> to_lower <$> a = to_lower <$> b).
Proof.
  assert (forall c, 0 < c < 256 -> Z.land c 255 = c /\ 0 < to_lower c < 512) as Hlow.
  { intros c Hc. change 255 with (Z.ones 8). rewrite Z.land_ones, Z.mod_small by lia. split; [done|].
    unfold to_lower. destruct ((65 <=? c) && (c <=? 90)); lia. }
  assert (forall p q, 0 <= p < 512 -> 0 <= q < 512 -> u32 (p - q) = 0 -> p = q) as Hdiff.
  { unfold u32. intros p q ? ? ?. Z.div_mod_to_equations. lia. }
  intros Ha. revert b. induction Ha as [|c a Hc Ha IH]; intros b Hb; destruct Hb as [|d b Hd Hb];
    cbn [app rt_strcasecmp].
  - eexists. split; [done|]. by split.
  - destruct (Hlow d Hd) as [-> Hd']. change (to_lower (Z.land 0 255)) with 0.
    destruct (Z.eqb_spec 0 (to_lower d)); [lia|]. cbn [andb]. eexists. split; [done|].
    split; [|done]. intros H. apply Hdiff in H; lia.
  - destruct (Hlow c Hc) as [-> Hc']. change (to_lower (Z.land 0 255)) with 0.
    destruct (Z.eqb_spec (to_lower c) 0); [lia|]. cbn [andb]. eexists. split; [done|].
    split; [|done]. intros H. apply Hdiff in H; lia.
  - destruct (Hlow c Hc) as [-> Hc'], (Hlow d Hd) as [-> Hd'].
    destruct (Z.eqb_spec (to_lower c) (to_lower d)) as [He|Hne]; cbn [andb].
    + destruct (Z.eqb_spec (to_lower c) 0); [lia|]. cbn [negb]. destruct (IH b Hb) as (r & -> & Hr).
      exists r. split; [done|]. rewrite Hr. cbn. split; [by intros ->; rewrite He|by intros [= _ ->]].
    + eexists. split; [done|]. split; [intros H; apply Hdiff in H; lia|by intros [= ? _]].
Qed.

(** [rt_strncpy] stores the first [n] characters, padded with NULs. *)
Definition strncpy_text (s : list Z) (n : Z) : list Z :=
  take (Z.to_nat n) s ++ replicate (Z.to_nat n - length s) 0.

Lemma strncpy_loop_text n dst s rest i : nonzero s -> 0 <= i -> i + Z.of_nat n <= Zlen dst ->
  rt_strncpy_loop n dst (s ++ 0 :: rest) i = write_at dst i (strncpy_text s (Z.of_nat n)).
Proof.
  unfold strncpy_text. rewrite Nat2Z.id. intros Hs. revert dst i s Hs.
  induction n as [|n IH]; intros dst i s Hs Hi Hn.
  - cbn [rt_strncpy_loop]. rewrite take_0. cbn [replicate app Nat.sub]. symmetry.
    apply (fill_zero dst i 0). lia.
  - destruct Hs as [|c s Hc Hs]; cbn [app rt_strncpy_loop].
    + destruct (set_at_Some dst i 0) as (d & Hd & Hz); [lia|]. rewrite Hd. cbn [mbind option_bind Z.eqb].
      rewrite memset_bytes_fill by lia. rewrite take_nil. cbn [app length Nat.sub].
      change (set_at dst i 0) with (fill dst i 0 1) in Hd.
      replace (Z.of_nat n) with (Z.of_nat (S n) - 1) by lia.
      rewrite (fill_step dst i 0 1 (Z.of_nat (S n)) d) by (done || lia). unfold fill. do 2 f_equal. lia.
    + destruct (Z.eqb_spec c 0); [done|].
      cbn [take length Nat.sub app].
      pose proof (write_at_app dst [c] (take n s ++ replicate (n - length s) 0) i Hi) as Happ.
      cbn [app] in Happ. rewrite <-Happ.
      2:{ rewrite Zlen_cons, Zlen_app. unfold Zlen. rewrite length_take, length_replicate. unfold Zlen in Hn. lia. }
      unfold set_at. destruct (write_at_Some dst [c] i) as (d & -> & Hz); [done|change (Zlen [c]) with 1; lia|].
      cbn [mbind option_bind]. change (Zlen [c]) with 1. apply IH; [done|lia|lia].
Qed.

Lemma rt_strncpy_writes dst s rest n : nonzero s -> 0 <= n <= Zlen dst ->
  rt_strncpy dst (s ++ 0 :: rest) n = write_at dst 0 (strncpy_text s n).
Proof.
  intros Hs Hn. unfold rt_strncpy. rewrite strncpy_loop_text by (done || lia). by rewrite Z2Nat.id by lia.
Qed.

Lemma rt_strdup_copies s rest fresh tmp : nonzero s -> fresh (Zlen s + 1) = Some tmp ->
  Zlen tmp = Zlen s + 1 -> rt_strdup (s ++ 0 :: rest) fresh = Some (Some (s ++ [0])).
Proof.
  intros Hs Hf Ht. unfold rt_strdup. rewrite rt_strlen_nul by done. cbn [mbind option_bind]. rewrite Hf.
  replace (s ++ 0 :: rest) with ((s ++ [0]) ++ rest) by (by rewrite <-(assoc_L (++))).
  rewrite read_at_0 by (rewrite Zlen_app; done). cbn [mbind option_bind].
  rewrite <-(app_nil_r tmp), write_at_0 by (rewrite Zlen_app, Ht; done). by rewrite app_nil_r.
Qed.

(** ** Where the functions differ from their descriptions *)

(** [rt_strnlen] reads the character behind the first [maxlen], which may
    belong to something else. *)
Lemma rt_strnlen_overreads s : nonzero s -> rt_strnlen s (Zlen s) = None.
Proof.
  intros Hs. unfold rt_strnlen.
  assert (forall n, n + Zlen s <= Zlen s + n -> rt_strnlen_loop s n (n + Zlen s) = None) as H.
  { induction Hs as [|c s Hc _ IH]; intros n _; [done|]. cbn [rt_strnlen_loop]. rewrite Zlen_cons.
    pose proof (Zlen_nonneg s). destruct (Z.eqb_spec c 0); [done|].
    destruct (Z.ltb_spec n (n + (1 + Zlen s))); [|lia]. cbn [negb andb].
    replace (n + (1 + Zlen s)) with (n + 1 + Zlen s) by lia. apply IH. lia. }
  apply (H 0). lia.
Qed.

(** The result of [rt_strncmp] is negative for 200 against 10. *)
Example rt_strncmp_wrong_sign : rt_strncmp [200; 0] [10; 0] 1 = Some (-66).
Proof. reflexivity. Qed.
