(* ===== verification/Printf.v ===== *)
(** * What a format means

    The conversions of printf as the C standard describes them (C11 7.21.6.1), on
    the syntax of a format rather than on its characters, and independent of the
    code that prints: [text_of] is the text of a format for its arguments,
    [format_bytes] the format as it is written.  The flag "#", the conversions of
    floating point numbers and "%n" are not described; a pointer is printed as the
    standard leaves it to the implementation: here eight hexadecimal digits. *)

From S2P Require Import Prelude.

Open Scope Z_scope.

(** ** Syntax *)

Inductive pf_flag := Minus | Plus | Blank | Zero.

Inductive pf_amount := Lit (n : Z) | Star.

Inductive pf_modifier := Short | Long.

Inductive pf_conversion := Cd | Ci | Cu | Co | Cx | CX | Cc | Cs | Cp.

#[export] Instance pf_flag_eq_dec : EqDecision pf_flag.
Proof. solve_decision. Defined.

#[export] Instance pf_conversion_eq_dec : EqDecision pf_conversion.
Proof. solve_decision. Defined.

Record directive := mk_directive {
  d_flags : list pf_flag;
  d_width : option pf_amount;
  d_precision : option pf_amount;
  d_modifier : option pf_modifier;
  d_conversion : pf_conversion;
}.

Inductive item := Plain (c : Z) | Percent | Conv (d : directive).

(** A word, or a string without its NUL. *)
Inductive pf_arg := Word (z : Z) | Text (s : list Z).

(** ** Numerals *)

Definition digit (upper : bool) (d : Z) : Z := if d <? 10 then 48 + d else (if upper then 65 else 97) + (d - 10).

(** The most significant digit first. *)
Fixpoint numeral_in (fuel : nat) (base : Z) (upper : bool) (n : Z) : list Z :=
  match fuel with
  | O => []
  | S fuel => if n <? base then [digit upper n] else numeral_in fuel base upper (n / base) ++ [digit upper (n mod base)]
  end.

Definition numeral (base : Z) (upper : bool) (n : Z) : list Z := numeral_in (S (Z.to_nat (Z.log2 n))) base upper n.

Definition digit_value (c : Z) : Z := if c <=? 57 then c - 48 else if c <=? 90 then c - 55 else c - 87.

Definition value (base : Z) (cs : list Z) : Z := foldl (fun v c => v * base + digit_value c) 0 cs.

Lemma digit_value_of upper d : 0 <= d < 16 -> digit_value (digit upper d) = d.
Proof. intros Hd. unfold digit, digit_value. destruct (Z.ltb_spec d 10), upper; repeat (case_match; [|]); lia. Qed.

Lemma numeral_in_value fuel base upper n : 1 < base <= 16 -> 0 <= n < base ^ Z.of_nat fuel ->
  value base (numeral_in fuel base upper n) = n.
Proof.
  intros Hb. revert n. induction fuel as [|fuel IH]; intros n Hn; [change (base ^ Z.of_nat 0) with 1 in Hn; cbn; lia|].
  cbn [numeral_in]. destruct (Z.ltb_spec n base).
  - unfold value. cbn [foldl]. rewrite digit_value_of by lia. lia.
  - rewrite Nat2Z.inj_succ, Z.pow_succ_r in Hn by lia. unfold value. rewrite foldl_snoc. fold (value base (numeral_in fuel base upper (n / base))).
    rewrite IH; [rewrite digit_value_of|split; [apply Z.div_pos; lia|apply Z.div_lt_upper_bound; lia]];
      pose proof (Z.mod_pos_bound n base ltac:(lia)); [pose proof (Z.div_mod n base)|]; lia.
Qed.

Lemma fuel_enough base n : 1 < base -> 0 <= n -> n < base ^ Z.of_nat (S (Z.to_nat (Z.log2 n))).
Proof.
  intros Hb Hn. rewrite Nat2Z.inj_succ, Z2Nat.id by apply Z.log2_nonneg. destruct (Z.eq_dec n 0) as [->|]; [apply Z.pow_pos_nonneg; cbn; lia|].
  destruct (Z.log2_spec n) as [_ Hlt]; [lia|]. eapply Z.lt_le_trans; [exact Hlt|]. apply Z.pow_le_mono_l. lia.
Qed.

(** A numeral stands for its number. *)
Lemma numeral_value base upper n : 1 < base <= 16 -> 0 <= n -> value base (numeral base upper n) = n.
Proof. intros Hb Hn. apply numeral_in_value; [done|]. split; [done|]. apply fuel_enough; lia. Qed.

(** ** The written format *)

Definition flag_byte (f : pf_flag) : Z := match f with Minus => 45 | Plus => 43 | Blank => 32 | Zero => 48 end.

Definition amount_bytes (a : pf_amount) : list Z := match a with Lit n => numeral 10 false n | Star => [42] end.

Definition modifier_byte (m : pf_modifier) : Z := match m with Short => 104 | Long => 108 end.

Definition conversion_byte (c : pf_conversion) : Z :=
  match c with Cd => 100 | Ci => 105 | Cu => 117 | Co => 111 | Cx => 120 | CX => 88 | Cc => 99 | Cs => 115 | Cp => 112 end.

Definition directive_bytes (d : directive) : list Z :=
  37 :: map flag_byte (d_flags d) ++ from_option amount_bytes [] (d_width d) ++
  from_option (fun a => 46 :: amount_bytes a) [] (d_precision d) ++
  from_option (fun m => [modifier_byte m]) [] (d_modifier d) ++ [conversion_byte (d_conversion d)].

Definition item_bytes (i : item) : list Z := match i with Plain c => [c] | Percent => [37; 37] | Conv d => directive_bytes d end.

Definition format_bytes (its : list item) : list Z := concat (map item_bytes its).

(** Plain characters are neither NUL nor "%"; a width does not start with the flag
    "0", and the numbers are ints. *)
Definition written (i : item) : Prop :=
  match i with
  | Plain c => c <> 0 /\ c <> 37
  | Percent => True
  | Conv d => (forall n, d_width d = Some (Lit n) -> 0 < n < 2 ^ 31) /\ (forall n, d_precision d = Some (Lit n) -> 0 <= n < 2 ^ 31)
  end.

(** ** The text *)

Definition blanks (n : Z) : list Z := replicate (Z.to_nat n) 32.
Definition zeros (n : Z) : list Z := replicate (Z.to_nat n) 48.

(** The int that a width or precision is. *)
Definition amount_of (a : option pf_amount) (args : list pf_arg) : option (option Z * list pf_arg) :=
  match a with
  | None => Some (None, args)
  | Some (Lit n) => Some (Some n, args)
  | Some Star => match args with Word z :: args => Some (Some (s32 z), args) | _ => None end
  end.

(** A negative width is the flag "-" and a width; a negative precision is none. *)
Record layout := mk_layout { left_ : bool; plus : bool; blank : bool; zero : bool; width : Z; precision : option Z }.

Definition layout_of (flags : list pf_flag) (w p : option Z) : layout :=
  let w := default 0 w in
  mk_layout (bool_decide (Minus ∈ flags) || (w <? 0)) (bool_decide (Plus ∈ flags)) (bool_decide (Blank ∈ flags)) (bool_decide (Zero ∈ flags))
    (Z.abs w) (match p with Some p => if p <? 0 then None else Some p | None => None end).

(** A text in its field. *)
Definition in_field (lay : layout) (t : list Z) : list Z :=
  let fill := blanks (width lay - Zlen t) in if left_ lay then t ++ fill else fill ++ t.

(** A number of at least as many digits as the precision says, one when it says
    nothing; "0" fills the field with zeros behind the sign, unless "-" or a
    precision is given. *)
Definition number_field (lay : layout) (sign : list Z) (base : Z) (upper : bool) (n : Z) : list Z :=
  let digits := if (n =? 0) && bool_decide (precision lay = Some 0) then [] else numeral base upper n in
  let body := zeros (default 1 (precision lay) - Zlen digits) ++ digits in
  if zero lay && negb (left_ lay) && bool_decide (precision lay = None)
  then sign ++ zeros (width lay - Zlen sign - Zlen body) ++ body
  else in_field lay (sign ++ body).

Definition sign_of (lay : layout) (v : Z) : list Z :=
  if v <? 0 then [45] else if plus lay then [43] else if blank lay then [32] else [].

Definition signed_value (m : option pf_modifier) (z : Z) : Z := match m with Some Short => s16 z | _ => s32 z end.
Definition unsigned_value (m : option pf_modifier) (z : Z) : Z := match m with Some Short => u16 z | _ => u32 z end.

Definition conversion_of (c : pf_conversion) (m : option pf_modifier) (lay : layout) (args : list pf_arg) : option (list Z * list pf_arg) :=
  match args with
  | [] => None
  | a :: args =>
      t ← match c, a with
          | (Cd | Ci), Word z => Some (number_field lay (sign_of lay (signed_value m z)) 10 false (Z.abs (signed_value m z)))
          | Cu, Word z => Some (number_field lay [] 10 false (unsigned_value m z))
          | Co, Word z => Some (number_field lay [] 8 false (unsigned_value m z))
          | Cx, Word z => Some (number_field lay [] 16 false (unsigned_value m z))
          | CX, Word z => Some (number_field lay [] 16 true (unsigned_value m z))
          | Cc, Word z => Some (in_field lay [u8 z])
          | Cs, Text s => Some (in_field lay (match precision lay with Some p => take (Z.to_nat p) s | None => s end))
          | Cp, Word z => Some (let ds := numeral 16 false (u32 z) in zeros (8 - Zlen ds) ++ ds)
          | _, _ => None
          end;
      Some (t, args)
  end.

Definition resolve (d : directive) (args : list pf_arg) : option (layout * list pf_arg) :=
  '(w, args) ← amount_of (d_width d) args; '(p, args) ← amount_of (d_precision d) args;
  Some (layout_of (d_flags d) w p, args).

Definition directive_text (d : directive) (args : list pf_arg) : option (list Z * list pf_arg) :=
  '(lay, args) ← resolve d args; conversion_of (d_conversion d) (d_modifier d) lay args.

Fixpoint text_of (its : list item) (args : list pf_arg) : option (list Z) :=
  match its with
  | [] => Some []
  | Plain c :: its => cons c <$> text_of its args
  | Percent :: its => cons 37 <$> text_of its args
  | Conv d :: its => '(t, args) ← directive_text d args; app t <$> text_of its args
  end.

(** "%+06d|%-4X|%.2s|%%" *)
Example text_of_example :
  text_of [Conv (mk_directive [Plus; Zero] (Some (Lit 6)) None None Cd); Plain 124; Conv (mk_directive [Minus] (Some Star) None None CX);
           Plain 124; Conv (mk_directive [] None (Some (Lit 2)) None Cs); Plain 124; Percent]
    [Word 42; Word 4; Word 171; Text [97; 98; 99]] =
  Some [43; 48; 48; 48; 52; 50; 124; 65; 66; 32; 32; 124; 97; 98; 124; 37].
Proof. reflexivity. Qed.
