(* ===== verification/Kprintf.v ===== *)
(** * Formatted output (src/kservice.c)

    [rt_vsnprintf] and its callers, in the configuration of the repository:
    RT_PRINTF_PRECISION is defined, RT_PRINTF_SPECIAL and RT_PRINTF_LONGLONG
    are not.  The output area is a list of characters with the offset [str] of
    the next one; characters behind [end_] are counted and not stored.  An
    operation is [None] on undefined behaviour: a store outside the area, a
    missing argument, a string without its NUL. *)

From S2P Require Import Prelude Cstr Printf.

Open Scope Z_scope.

Definition RT_CONSOLEBUF_SIZE : Z := 128.

Definition ZEROPAD : Z := 1.
Definition SIGN : Z := 2.
Definition PLUS : Z := 4.
Definition SPACE : Z := 8.
Definition LEFT : Z := 16.
Definition SPECIAL : Z := 32.
Definition LARGE : Z := 64.

Definition has (type flag : Z) : bool := negb (Z.land type flag =? 0).

(** ** Arguments

    A word, or a pointer to characters: its address and what lies there. *)
Inductive va := VWord (z : Z) | VStr (address : Z) (text : list Z).

Definition va_word (v : va) : Z := match v with VWord z => u32 z | VStr a _ => u32 a end.

Definition va_arg (args : list va) : option (va * list va) :=
  match args with [] => None | v :: args => Some (v, args) end.

(** "(NULL)" *)
Definition null_text : list Z := [40; 78; 85; 76; 76; 41].

(** The string of an argument. *)
Definition va_text (v : va) : option (list Z) :=
  match v with
  | VStr _ mem => cstr_list mem
  | VWord z => if u32 z =? 0 then Some null_text else None
  end.

(** ** Storing characters *)

Notation pstate := (list Z * Z)%type.

(** [if (str <= end) *str = c; ++str;] *)
Definition emit (end_ : Z) (st : pstate) (c : Z) : option pstate :=
  let '(buf, str) := st in
  if str <=? end_ then buf ← set_at buf str c; Some (buf, str + 1) else Some (buf, str + 1).

Fixpoint emit_list (end_ : Z) (st : pstate) (cs : list Z) : option pstate :=
  match cs with
  | [] => Some st
  | c :: cs => st ← emit end_ st c; emit_list end_ st cs
  end.

(** A loop that stores the same character [n] times. *)
Definition pad (end_ : Z) (st : pstate) (n c : Z) : option pstate :=
  emit_list end_ st (replicate (Z.to_nat n) c).

(** ** Numbers *)

Definition divide (n base : Z) : Z * Z :=
  if base =? 10 then (u32 n mod 10, s32 (u32 n / 10)) else (u32 n mod 16, s32 (u32 n / 16)).

Definition isdigit (c : Z) : bool := u32 (c - 48) <? 10.

Fixpoint skip_atoi_loop (s : list Z) (i : Z) : option (Z * list Z) :=
  match s with
  | [] => None
  | c :: s' => if isdigit c then skip_atoi_loop s' (s32 (i * 10 + c - 48)) else Some (i, s)
  end.

Definition skip_atoi (s : list Z) : option (Z * list Z) := skip_atoi_loop s 0.

Definition digit_char (type d : Z) : Z :=
  if d <? 10 then 48 + d else if has type LARGE then 55 + d else 87 + d.

(** The digits of the number, the least significant first, as in [tmp]. *)
Fixpoint number_loop (fuel : nat) (num base type : Z) (tmp : list Z) : option (list Z) :=
  match fuel with
  | O => None
  | S fuel =>
      if num =? 0 then Some tmp else
      if 16 <=? Zlen tmp then None else
      let '(d, num) := divide num base in
      number_loop fuel num base type (tmp ++ [digit_char type d])
  end.

(** The value of [size] after [while (size-- > 0)]. *)
Definition run_down (size : Z) : Z := Z.min size 0 - 1.

Definition print_number (end_ : Z) (st : pstate) (num base s precision type : Z) : option pstate :=
  let size := s in
  let type := if has type LEFT then Z.land type (Z.lnot ZEROPAD) else type in
  let c := if has type ZEROPAD then 48 else 32 in
  let '(sign, num) :=
    if has type SIGN then
      if num <? 0 then (45, s32 (- num))
      else if has type PLUS then (43, num)
      else if has type SPACE then (32, num) else (0, num)
    else (0, num) in
  tmp ← (if num =? 0 then Some [48] else number_loop 17 num base type []);
  let i := Zlen tmp in
  let precision := if precision <? i then i else precision in
  let size := size - precision in
  '(st, size) ←
    (if negb (has type ZEROPAD || has type LEFT) then
       let size := if negb (sign =? 0) && (0 <? size) then size - 1 else size in
       st ← pad end_ st size 32; Some (st, run_down size)
     else Some (st, size));
  '(st, size) ←
    (if negb (sign =? 0) then
       let size := if snd st <=? end_ then size - 1 else size in
       st ← emit end_ st sign; Some (st, size)
     else Some (st, size));
  '(st, size) ←
    (if negb (has type LEFT) then st ← pad end_ st size c; Some (st, run_down size) else Some (st, size));
  st ← pad end_ st (precision - i) 48;
  st ← emit_list end_ st (rev tmp);
  pad end_ st size 32.

(** ** The conversion specification *)

Fixpoint parse_flags (flags : Z) (fmt : list Z) : option (Z * list Z) :=
  match fmt with
  | [] => None
  | c :: fmt' =>
      if c =? 45 then parse_flags (Z.lor flags LEFT) fmt'
      else if c =? 43 then parse_flags (Z.lor flags PLUS) fmt'
      else if c =? 32 then parse_flags (Z.lor flags SPACE) fmt'
      else if c =? 35 then parse_flags (Z.lor flags SPECIAL) fmt'
      else if c =? 48 then parse_flags (Z.lor flags ZEROPAD) fmt'
      else Some (flags, fmt)
  end.

Definition parse_width (flags : Z) (fmt : list Z) (args : list va) : option (Z * Z * list Z * list va) :=
  match fmt with
  | [] => None
  | c :: fmt' =>
      if isdigit c then '(w, fmt) ← skip_atoi fmt; Some (w, flags, fmt, args)
      else if c =? 42 then
        '(v, args) ← va_arg args;
        let w := s32 (va_word v) in
        if w <? 0 then Some (s32 (- w), Z.lor flags LEFT, fmt', args) else Some (w, flags, fmt', args)
      else Some (-1, flags, fmt, args)
  end.

Definition parse_precision (fmt : list Z) (args : list va) : option (Z * list Z * list va) :=
  match fmt with
  | [] => None
  | c :: fmt' =>
      if c =? 46 then
        '(p, fmt, args) ←
          match fmt' with
          | [] => None
          | c :: fmt'' =>
              if isdigit c then '(p, fmt) ← skip_atoi fmt'; Some (p, fmt, args)
              else if c =? 42 then '(v, args) ← va_arg args; Some (s32 (va_word v), fmt'', args)
              else Some (-1, fmt', args)
          end;
        Some (if p <? 0 then 0 else p, fmt, args)
      else Some (-1, fmt, args)
  end.

Definition parse_qualifier (fmt : list Z) : option (Z * list Z) :=
  match fmt with
  | [] => None
  | c :: fmt' => if (c =? 104) || (c =? 108) then Some (c, fmt') else Some (0, fmt)
  end.

(** ** Conversions *)

(** [while (--field_width > 0)]: the spaces stored and the width afterwards. *)
Definition pre_spaces (w : Z) : Z := w - 1.
Definition pre_after (w : Z) : Z := Z.min (w - 1) 0.

Definition convert_char (end_ : Z) (st : pstate) (flags field_width : Z) (args : list va)
    : option (pstate * list va) :=
  '(st, field_width) ←
    (if negb (has flags LEFT) then
       st ← pad end_ st (pre_spaces field_width) 32; Some (st, pre_after field_width)
     else Some (st, field_width));
  '(v, args) ← va_arg args;
  st ← emit end_ st (u8 (va_word v));
  st ← pad end_ st (pre_spaces field_width) 32;
  Some (st, args).

Definition convert_string (end_ : Z) (st : pstate) (flags field_width precision : Z) (args : list va)
    : option (pstate * list va) :=
  '(v, args) ← va_arg args;
  s ← va_text v;
  let len := Zlen s in
  let len := if (0 <? precision) && (precision <? len) then precision else len in
  '(st, field_width) ←
    (if negb (has flags LEFT) then
       st ← pad end_ st (field_width - len) 32; Some (st, Z.min field_width len - 1)
     else Some (st, field_width));
  st ← emit_list end_ st (take (Z.to_nat len) s);
  st ← pad end_ st (field_width - len) 32;
  Some (st, args).

Definition convert_pointer (end_ : Z) (st : pstate) (flags field_width precision : Z) (args : list va)
    : option (pstate * list va) :=
  let '(field_width, flags) :=
    if field_width =? -1 then (8, Z.lor flags ZEROPAD) else (field_width, flags) in
  '(v, args) ← va_arg args;
  st ← print_number end_ st (s32 (va_word v)) 16 field_width precision flags;
  Some (st, args).

(** The argument as the number of type long that is printed. *)
Definition number_arg (flags qualifier : Z) (v : va) : Z :=
  s32 (if qualifier =? 104 then
         let num := u16 (va_word v) in if has flags SIGN then u32 (s16 num) else num
       else va_word v).

Definition convert_number (end_ : Z) (st : pstate) (base flags field_width precision qualifier : Z)
    (args : list va) : option (pstate * list va) :=
  '(v, args) ← va_arg args;
  st ← print_number end_ st (number_arg flags qualifier v) base field_width precision flags;
  Some (st, args).

(** The switch: the rest of the format, the arguments and the output. *)
Definition convert (end_ : Z) (fmt : list Z) (args : list va) (st : pstate)
    (flags field_width precision qualifier : Z) : option (list Z * list va * pstate) :=
  match fmt with
  | [] => None
  | c :: fmt' =>
      let number base flags :=
        '(st, args) ← convert_number end_ st base flags field_width precision qualifier args;
        Some (fmt', args, st) in
      if c =? 99 then '(st, args) ← convert_char end_ st flags field_width args; Some (fmt', args, st)
      else if c =? 115 then
        '(st, args) ← convert_string end_ st flags field_width precision args; Some (fmt', args, st)
      else if c =? 112 then
        '(st, args) ← convert_pointer end_ st flags field_width precision args; Some (fmt', args, st)
      else if c =? 37 then st ← emit end_ st 37; Some (fmt', args, st)
      else if c =? 111 then number 8 flags
      else if c =? 88 then number 16 (Z.lor flags LARGE)
      else if c =? 120 then number 16 flags
      else if (c =? 100) || (c =? 105) then number 10 (Z.lor flags SIGN)
      else if c =? 117 then number 10 flags
      else
        st ← emit end_ st 37;
        if negb (c =? 0) then st ← emit end_ st c; Some (fmt', args, st) else Some (fmt, args, st)
  end.

Fixpoint vsnprintf_loop (fuel : nat) (end_ : Z) (fmt : list Z) (args : list va) (st : pstate)
    : option pstate :=
  match fuel with
  | O => None
  | S fuel =>
      match fmt with
      | [] => None
      | c :: fmt' =>
          if c =? 0 then Some st else
          if negb (c =? 37) then st ← emit end_ st c; vsnprintf_loop fuel end_ fmt' args st else
          '(flags, fmt) ← parse_flags 0 fmt';
          '(field_width, flags, fmt, args) ← parse_width flags fmt args;
          '(precision, fmt, args) ← parse_precision fmt args;
          '(qualifier, fmt) ← parse_qualifier fmt;
          '(fmt, args, st) ← convert end_ fmt args st flags field_width precision qualifier;
          vsnprintf_loop fuel end_ fmt args st
      end
  end.

(** The offset of [end] for the area at this address: the last address when
    [buf + size - 1] is in front of [buf]. *)
Definition end_offset (address size : Z) : Z :=
  let end_ := u32 (address + size - 1) in
  if end_ <? address then 2 ^ 32 - 1 - address else end_ - address.

(** Each iteration takes a character of the format. *)
Definition rt_vsnprintf (address : Z) (buf : list Z) (size : Z) (fmt : list Z) (args : list va)
    : option (Z * list Z) :=
  let end_ := end_offset address size in
  '(buf, str) ← vsnprintf_loop (S (length fmt)) end_ fmt args (buf, 0);
  buf ← (if str <=? end_ then set_at buf str 0 else set_at buf end_ 0);
  Some (s32 str, buf).

Definition rt_snprintf (address : Z) (buf : list Z) (size : Z) (fmt : list Z) (args : list va)
    : option (Z * list Z) := rt_vsnprintf address buf size fmt args.

Definition rt_vsprintf (address : Z) (buf fmt : list Z) (args : list va) : option (Z * list Z) :=
  rt_vsnprintf address buf (2 ^ 32 - 1) fmt args.

Definition rt_sprintf (address : Z) (buf fmt : list Z) (args : list va) : option (Z * list Z) :=
  rt_vsprintf address buf fmt args.

(** The bytes written to the console device and the log buffer. *)
Definition rt_kprintf (address : Z) (rt_log_buf fmt : list Z) (args : list va)
    : option (list Z * list Z) :=
  '(length, rt_log_buf) ← rt_vsnprintf address rt_log_buf (RT_CONSOLEBUF_SIZE - 1) fmt args;
  let length := u32 length in
  let length := if RT_CONSOLEBUF_SIZE - 1 <? length then RT_CONSOLEBUF_SIZE - 1 else length in
  out ← read_at rt_log_buf 0 length;
  Some (out, rt_log_buf).

Definition rt_kputs (str : list Z) : option (list Z) := cstr_list str.
(** ** The texts of the code

    The texts that the functions would store in an unbounded area: the code's own
    reading of the format, with its treatment of the bases, as one function.  It
    stands between the code and the standard; what the texts should be is in
    [Printf]. *)

Definition spaces (n : Z) : list Z := replicate (Z.to_nat n) 32.

(** [divide] knows two bases. *)
Definition radix (base : Z) : Z := if base =? 10 then 10 else 16.

Fixpoint digits_rev (fuel : nat) (b type n : Z) : list Z :=
  match fuel with
  | O => []
  | S fuel => if n =? 0 then [] else digit_char type (n mod b) :: digits_rev fuel b type (n / b)
  end.

Definition digits_text (base type n : Z) : list Z :=
  if n =? 0 then [48] else rev (digits_rev 16 (radix base) type n).

Definition sign_text (type num : Z) : list Z :=
  if has type SIGN then
    if num <? 0 then [45] else if has type PLUS then [43] else if has type SPACE then [32] else []
  else [].

Definition magnitude (type num : Z) : Z := if has type SIGN && (num <? 0) then - num else u32 num.

(** Sign and digits in a field of [s] characters, at least [precision] digits. *)
Definition number_text (num base s precision type : Z) : list Z :=
  let sign := sign_text type num in
  let digits := digits_text base type (magnitude type num) in
  let body := replicate (Z.to_nat (precision - Zlen digits)) 48 ++ digits in
  let room := Z.to_nat (s - Zlen sign - Zlen body) in
  if has type LEFT then sign ++ body ++ replicate room 32
  else if has type ZEROPAD then sign ++ replicate room 48 ++ body
  else replicate room 32 ++ sign ++ body.

Definition char_text (flags field_width : Z) (v : va) : list Z :=
  let c := [u8 (va_word v)] in
  if has flags LEFT then c ++ spaces (field_width - 1) else spaces (field_width - 1) ++ c.

Definition string_text (flags field_width precision : Z) (s : list Z) : list Z :=
  let t := if 0 <? precision then take (Z.to_nat precision) s else s in
  if has flags LEFT then t ++ spaces (field_width - Zlen t) else spaces (field_width - Zlen t) ++ t.

(** What follows the conversion, the remaining arguments and the text. *)
Definition conversion_text (fmt : list Z) (args : list va) (flags field_width precision qualifier : Z)
    : option (list Z * list va * list Z) :=
  match fmt with
  | [] => None
  | c :: fmt' =>
      let number base flags :=
        '(v, args) ← va_arg args;
        Some (fmt', args, number_text (number_arg flags qualifier v) base field_width precision flags) in
      if c =? 99 then '(v, args) ← va_arg args; Some (fmt', args, char_text flags field_width v)
      else if c =? 115 then
        '(v, args) ← va_arg args; s ← va_text v;
        Some (fmt', args, string_text flags field_width precision s)
      else if c =? 112 then
        '(v, args) ← va_arg args;
        Some (fmt', args, if field_width =? -1
          then number_text (s32 (va_word v)) 16 8 precision (Z.lor flags ZEROPAD)
          else number_text (s32 (va_word v)) 16 field_width precision flags)
      else if c =? 37 then Some (fmt', args, [37])
      else if c =? 111 then number 8 flags
      else if c =? 88 then number 16 (Z.lor flags LARGE)
      else if c =? 120 then number 16 flags
      else if (c =? 100) || (c =? 105) then number 10 (Z.lor flags SIGN)
      else if c =? 117 then number 10 flags
      else if c =? 0 then Some (fmt, args, [37]) else Some (fmt', args, [37; c])
  end.

Fixpoint format_loop (fuel : nat) (fmt : list Z) (args : list va) : option (list Z) :=
  match fuel with
  | O => None
  | S fuel =>
      match fmt with
      | [] => None
      | c :: fmt' =>
          if c =? 0 then Some [] else
          if negb (c =? 37) then cons c <$> format_loop fuel fmt' args else
          '(flags, fmt) ← parse_flags 0 fmt';
          '(field_width, flags, fmt, args) ← parse_width flags fmt args;
          '(precision, fmt, args) ← parse_precision fmt args;
          '(qualifier, fmt) ← parse_qualifier fmt;
          '(fmt, args, text) ← conversion_text fmt args flags field_width precision qualifier;
          app text <$> format_loop fuel fmt args
      end
  end.

Definition format_text (fmt : list Z) (args : list va) : option (list Z) :=
  format_loop (S (length fmt)) fmt args.

(** ** Stores that show a text

    [shows buf0 end_ text st]: what has been stored is the part of the text
    up to [end_], and the count is the length of the text unless the text is
    longer than the area. *)

Section shows.
Context (buf0 : list Z) (end_ : Z).

Definition kept (text : list Z) : list Z := take (Z.to_nat (end_ + 1)) text.

Record shows (text : list Z) (st : pstate) : Prop := {
  sh_buf : fst st = kept text ++ drop (length (kept text)) buf0;
  sh_len : Zlen text <= snd st;
  sh_exact : Zlen text <= end_ + 1 -> snd st = Zlen text;
}.

Hypothesis (Hend : 0 <= end_) (Hbuf : end_ + 1 <= Zlen buf0).

Lemma shows_emit text st c : shows text st ->
  exists st', emit end_ st c = Some st' /\ shows (text ++ [c]) st'.
Proof using Hend Hbuf.
  destruct st as [buf str]. intros [Hb Hl He]. cbn in *. pose proof (Zlen_nonneg text) as H0.
  destruct (Z.leb_spec str end_).
  - assert (kept text = text) as Hk by (apply take_ge; unfold Zlen in *; lia). rewrite Hk in Hb.
    specialize (He ltac:(lia)). subst str buf.
    destruct (drop (length text) buf0) as [|x rest] eqn:Hd.
    { apply (f_equal length) in Hd. rewrite length_drop in Hd. unfold Zlen in *. simpl in Hd. lia. }
    rewrite set_at_mid by done. cbn. eexists. split; [reflexivity|].
    assert (kept (text ++ [c]) = text ++ [c]) as Hk'
      by (apply take_ge; rewrite length_app; change (length [c]) with 1%nat; unfold Zlen in *; lia).
    split; cbn; rewrite ?Hk', ?Zlen_app; change (Zlen [c]) with 1; try lia.
    rewrite length_app. change (length [c]) with 1%nat.
    rewrite Nat.add_1_r, <-(assoc_L (++)). cbn [app]. f_equal. f_equal.
    apply (f_equal (drop 1)) in Hd. rewrite drop_drop in Hd. cbn [drop] in Hd.
    by rewrite Nat.add_1_r in Hd.
  - eexists. split; [reflexivity|].
    assert (end_ < Zlen text) as Hlong by (destruct (Z.leb_spec (Zlen text) (end_ + 1)); lia).
    assert (kept (text ++ [c]) = kept text) as Hk
      by (apply take_app_le; unfold Zlen in *; lia).
    split; cbn; rewrite ?Hk, ?Zlen_app; change (Zlen [c]) with 1; [done|lia|].
    intros. rewrite He by lia. done.
Qed.

Lemma shows_emit_list text st cs : shows text st ->
  exists st', emit_list end_ st cs = Some st' /\ shows (text ++ cs) st'.
Proof using Hend Hbuf.
  revert text st. induction cs as [|c cs IH]; intros text st Hs.
  - exists st. by rewrite app_nil_r.
  - destruct (shows_emit text st c Hs) as (st1 & He & Hs1). cbn [emit_list]. rewrite He. cbn.
    destruct (IH _ _ Hs1) as (st' & -> & Hs'). exists st'. by rewrite <-(assoc_L (++)) in Hs'.
Qed.

Lemma shows_pad text st n c : shows text st ->
  exists st', pad end_ st n c = Some st' /\ shows (text ++ replicate (Z.to_nat n) c) st'.
Proof using Hend Hbuf. apply shows_emit_list. Qed.

(** Behind the area it does not matter how many characters follow. *)
Lemma shows_longer text cs st : end_ + 1 < Zlen text -> shows (text ++ cs) st -> shows text st.
Proof using Hend.
  intros Hlong [Hb Hl He]. pose proof (Zlen_nonneg cs). rewrite Zlen_app in *.
  assert (kept (text ++ cs) = kept text) as Hk by (apply take_app_le; unfold Zlen in *; lia).
  rewrite Hk in Hb. split; [done|lia|lia].
Qed.

Lemma shows_pad_more text st n n' c : shows text st -> end_ + 1 < Zlen text -> n' <= n ->
  exists st', pad end_ st n c = Some st' /\ shows (text ++ replicate (Z.to_nat n') c) st'.
Proof using Hend Hbuf.
  intros Hs Hlong Hn. destruct (shows_pad text st n c Hs) as (st' & He & Hs'). exists st'. split; [done|].
  replace (Z.to_nat n) with (Z.to_nat n' + (Z.to_nat n - Z.to_nat n'))%nat in Hs' by lia.
  rewrite replicate_add, (assoc_L (++)) in Hs'. apply shows_longer in Hs'; [done|].
  rewrite Zlen_app. pose proof (Zlen_nonneg (replicate (Z.to_nat n') c)). lia.
Qed.
End shows.

(** ** Numbers *)

Lemma has_left_mask type flag : Z.land (Z.lnot ZEROPAD) flag = flag ->
  has (Z.land type (Z.lnot ZEROPAD)) flag = has type flag.
Proof. intros Hf. unfold has. by rewrite <-Z.land_assoc, Hf. Qed.

Lemma digits_rev_mask fuel b type n :
  digits_rev fuel b (Z.land type (Z.lnot ZEROPAD)) n = digits_rev fuel b type n.
Proof.
  revert n. induction fuel as [|fuel IH]; intros n; [done|]. cbn [digits_rev]. rewrite IH.
  unfold digit_char. by rewrite has_left_mask.
Qed.

Lemma number_loop_digits fuel num base type tmp :
  Zlen tmp + Z.of_nat fuel <= 16 -> u32 num < radix base ^ Z.of_nat fuel -> - 2 ^ 31 <= num < 2 ^ 31 ->
  number_loop (S fuel) num base type tmp = Some (tmp ++ digits_rev fuel (radix base) type (u32 num)).
Proof.
  assert (radix base = 10 \/ radix base = 16) as Hradix by (unfold radix; destruct (base =? 10); lia).
  revert num tmp. induction fuel as [|fuel IH]; intros num tmp Hlen Hmax Hnum.
  - pose proof (u32_range num). change (radix base ^ Z.of_nat 0) with 1 in Hmax.
    assert (num = 0) as -> by (unfold u32 in *; Z.div_mod_to_equations; lia).
    cbn. by rewrite app_nil_r.
  - cbn [digits_rev]. change (number_loop (S (S fuel)) num base type tmp) with
      (if num =? 0 then Some tmp else if 16 <=? Zlen tmp then None else
       let '(d, num) := divide num base in number_loop (S fuel) num base type (tmp ++ [digit_char type d])).
    assert ((u32 num =? 0) = (num =? 0)) as ->.
    { unfold u32 in *. destruct (Z.eqb_spec num 0) as [->|]; [done|]. apply Z.eqb_neq.
      Z.div_mod_to_equations. lia. }
    destruct (num =? 0); [by rewrite app_nil_r|]. destruct (Z.leb_spec 16 (Zlen tmp)); [lia|].
    assert (divide num base = (u32 num mod radix base, u32 num / radix base)) as ->.
    { pose proof (u32_range num). unfold divide, radix.
      destruct (base =? 10); rewrite s32_small by (Z.div_mod_to_equations; lia); done. }
    pose proof (u32_range num) as Hr.
    assert (0 <= u32 num / radix base < 2 ^ 31) as Hq by (destruct Hradix as [-> | ->]; Z.div_mod_to_equations; lia).
    rewrite IH, (u32_small (_ / _)), <-(assoc_L (++)); [done|lia| | |lia].
    + rewrite Zlen_app. change (Zlen [digit_char type (u32 num mod radix base)]) with 1. lia.
    + rewrite u32_small by lia. apply Z.div_lt_upper_bound; [lia|].
      by rewrite Nat2Z.inj_succ, Z.pow_succ_r in Hmax by lia.
Qed.

Lemma number_digits num base type : - 2 ^ 31 <= num < 2 ^ 31 ->
  exists tmp, (if num =? 0 then Some [48] else number_loop 17 num base type []) = Some tmp /\
    rev tmp = digits_text base type (u32 num).
Proof.
  intros Hnum. unfold digits_text.
  assert ((u32 num =? 0) = (num =? 0)) as ->.
  { unfold u32 in *. destruct (Z.eqb_spec num 0) as [->|]; [done|]. apply Z.eqb_neq.
    Z.div_mod_to_equations. lia. }
  destruct (num =? 0); [by exists [48]|]. eexists. split; [|reflexivity].
  rewrite number_loop_digits; [done|done| |done]. pose proof (u32_range num). unfold radix.
  destruct (base =? 10); change (Z.of_nat 16) with 16; lia.
Qed.

(** A hypothesis up to the association of [++]. *)
Ltac app_exact H := rewrite <-?app_assoc in H; rewrite <-?app_assoc; exact H.

Section print_number.
Context (buf0 : list Z) (end_ : Z) (Hend : 0 <= end_) (Hbuf : end_ + 1 <= Zlen buf0).

(** The count of remaining spaces is off by one when the sign was not stored. *)
Definition close (text : list Z) (n n' : Z) : Prop := n = n' \/ (n' <= n /\ end_ + 1 < Zlen text).

Lemma close_app text cs n n' : close text n n' -> close (text ++ cs) n n'.
Proof. intros [->|[? ?]]; [by left|right]. rewrite Zlen_app. pose proof (Zlen_nonneg cs). lia. Qed.

Lemma close_mono text n n' m m' : close text n n' -> m - m' = n - n' -> close text m m'.
Proof. intros [->|[? ?]] ?; [left|right]; lia. Qed.

Lemma shows_pad_close text st n n' c : shows buf0 end_ text st -> close text n n' ->
  exists st', pad end_ st n c = Some st' /\ shows buf0 end_ (text ++ replicate (Z.to_nat n') c) st'.
Proof using Hend Hbuf.
  intros Hs [->|[Hle Hlong]]; [by apply shows_pad|by apply shows_pad_more].
Qed.

Lemma shows_sign text st sign size : shows buf0 end_ text st ->
  let sg := if sign =? 0 then [] else [sign] in
  exists st' size',
    (if negb (sign =? 0)
     then emit end_ st sign ≫= fun st1 => Some (st1, if snd st <=? end_ then size - 1 else size)
     else Some (st, size)) = Some (st', size') /\
    shows buf0 end_ (text ++ sg) st' /\ close (text ++ sg) size' (size - Zlen sg) /\ size' <= size.
Proof using Hend Hbuf.
  intros Hs sg. unfold sg. destruct (sign =? 0); cbn [negb].
  - eexists _, _. split; [reflexivity|]. rewrite app_nil_r. split_and!; [done|left; change (Zlen (@nil Z)) with 0; lia|lia].
  - destruct (shows_emit buf0 end_ Hend Hbuf text st sign Hs) as (st' & -> & Hs').
    eexists _, _. split; [reflexivity|]. change (Zlen [sign]) with 1.
    split_and!; [done| |destruct (snd st <=? end_); lia].
    destruct (Z.leb_spec (snd st) end_); [by left|right].
    rewrite Zlen_app. change (Zlen [sign]) with 1. destruct Hs as [_ Hl He]. split; [lia|].
    destruct (Z.leb_spec (Zlen text) (end_ + 1)); lia.
Qed.

Lemma sign_cases num type : - 2 ^ 31 <= num < 2 ^ 31 -> exists sign num',
  (if has type SIGN then
     if num <? 0 then (45, s32 (- num))
     else if has type PLUS then (43, num) else if has type SPACE then (32, num) else (0, num)
   else (0, num)) = (sign, num') /\
  sign_text type num = (if sign =? 0 then [] else [sign]) /\
  u32 num' = magnitude type num /\ - 2 ^ 31 <= num' < 2 ^ 31.
Proof.
  intros Hnum. unfold sign_text, magnitude. destruct (has type SIGN); [|by eexists _, _].
  destruct (Z.ltb_spec num 0).
  - eexists _, _. split; [reflexivity|]. split; [done|]. cbn [andb]. unfold s32, u32.
    Z.div_mod_to_equations. lia.
  - destruct (has type PLUS); [by eexists _, _|]. destruct (has type SPACE); by eexists _, _.
Qed.

Lemma digits_text_mask base type n :
  digits_text base (Z.land type (Z.lnot ZEROPAD)) n = digits_text base type n.
Proof. unfold digits_text. by rewrite digits_rev_mask. Qed.

Lemma replicate_nonpos {A} n (x : A) : n <= 0 -> replicate (Z.to_nat n) x = [].
Proof. intros. by replace (Z.to_nat n) with O by lia. Qed.

Lemma pad_nonpos st n c : n <= 0 -> pad end_ st n c = Some st.
Proof. intros. unfold pad. by rewrite replicate_nonpos. Qed.

Lemma print_number_shows text st num base s precision type :
  - 2 ^ 31 <= num < 2 ^ 31 -> shows buf0 end_ text st ->
  exists st', print_number end_ st num base s precision type = Some st' /\
    shows buf0 end_ (text ++ number_text num base s precision type) st'.
Proof using Hend Hbuf.
  intros Hnum Hs. unfold print_number, number_text.
  set (type' := if has type LEFT then Z.land type (Z.lnot ZEROPAD) else type).
  assert (forall flag, Z.land (Z.lnot ZEROPAD) flag = flag -> has type' flag = has type flag) as Hmask.
  { intros flag Hf. unfold type'. destruct (has type LEFT); [by apply has_left_mask|done]. }
  assert (has type' ZEROPAD = has type ZEROPAD && negb (has type LEFT)) as Hzero.
  { unfold type'. destruct (has type LEFT); [|by rewrite andb_true_r].
    rewrite andb_false_r. unfold has. rewrite <-Z.land_assoc.
    change (Z.land (Z.lnot ZEROPAD) ZEROPAD) with 0. by rewrite Z.land_0_r. }
  assert (forall n, digits_text base type' n = digits_text base type n) as Hdigits.
  { intros n. unfold type'. destruct (has type LEFT); [apply digits_text_mask|done]. }
  rewrite !Hmask by done. rewrite Hzero.
  destruct (sign_cases num type Hnum) as (sign & num' & -> & -> & Hmag & Hnum').
  destruct (number_digits num' base type' Hnum') as (tmp & -> & Hrev). rewrite Hdigits, Hmag in Hrev.
  cbn [mbind option_bind]. rewrite <-Hrev.
  assert (Zlen (rev tmp) = Zlen tmp) as Hlen by (unfold Zlen; by rewrite length_rev).
  set (sg := if sign =? 0 then [] else [sign]). set (p := if precision <? Zlen tmp then Zlen tmp else precision).
  set (zs := replicate (Z.to_nat (precision - Zlen (rev tmp))) 48).
  assert (Zlen (zs ++ rev tmp) = p) as Hp.
  { unfold zs, p. rewrite Zlen_app, Hlen. unfold Zlen at 1. rewrite length_replicate.
    destruct (Z.ltb_spec precision (Zlen tmp)); pose proof (Zlen_nonneg tmp); lia. }
  assert (zs = replicate (Z.to_nat (p - Zlen tmp)) 48) as Hzs.
  { unfold zs, p. rewrite Hlen. destruct (Z.ltb_spec precision (Zlen tmp)); [|done].
    by rewrite !replicate_nonpos by lia. }
  rewrite Hp.
  assert (Zlen sg = if negb (sign =? 0) then 1 else 0) as Hsg by (unfold sg; by destruct (sign =? 0)).
  assert (0 <= Zlen sg <= 1) as Hsg1 by (rewrite Hsg; clear; destruct (sign =? 0); cbn; lia).
  (* the digits, then spaces up to the width *)
  assert (forall text st size n, shows buf0 end_ text st -> close text size n ->
    exists st', (st ← pad end_ st (p - Zlen tmp) 48; st ← emit_list end_ st (rev tmp); pad end_ st size 32) =
      Some st' /\ shows buf0 end_ (text ++ (zs ++ rev tmp) ++ replicate (Z.to_nat n) 32) st') as Htail.
  { clear st text Hs. intros text st size n Hs Hc.
    destruct (shows_pad buf0 end_ Hend Hbuf text st (p - Zlen tmp) 48 Hs) as (st1 & -> & Hs1).
    rewrite <-Hzs in Hs1. cbn [mbind option_bind].
    destruct (shows_emit_list buf0 end_ Hend Hbuf _ st1 (rev tmp) Hs1) as (st2 & -> & Hs2).
    cbn [mbind option_bind].
    destruct (shows_pad_close _ st2 size n 32 Hs2) as (st3 & -> & Hs3); [by do 2 apply close_app|].
    exists st3. split; [done|]. app_exact Hs3. }
  destruct (has type LEFT) eqn:HL.
  - rewrite andb_false_r. cbn [orb negb mbind option_bind].
    destruct (shows_sign text st sign (s - p) Hs) as (st1 & size1 & Heq & Hs1 & Hc1 & Hle). fold sg in Hs1, Hc1.
      cbn [mbind option_bind] in Heq. rewrite Heq.
    cbn [mbind option_bind]. destruct (Htail _ _ _ _ Hs1 Hc1) as (st2 & -> & Hs2). exists st2. split; [done|].
    replace (s - p - Zlen sg) with (s - Zlen sg - p) in Hs2 by lia. app_exact Hs2.
  - rewrite andb_true_r, orb_false_r. destruct (has type ZEROPAD).
    + cbn [negb mbind option_bind].
      destruct (shows_sign text st sign (s - p) Hs) as (st1 & size1 & Heq & Hs1 & Hc1 & Hle). fold sg in Hs1, Hc1.
      cbn [mbind option_bind] in Heq. rewrite Heq.
      cbn [mbind option_bind].
      destruct (shows_pad_close _ st1 size1 (s - p - Zlen sg) 48 Hs1 Hc1) as (st2 & -> & Hs2).
      cbn [mbind option_bind].
      destruct (Htail _ st2 (run_down size1) (run_down size1) Hs2) as (st3 & -> & Hs3); [by left|].
      exists st3. split; [done|]. rewrite (replicate_nonpos (run_down size1)), app_nil_r in Hs3
        by (unfold run_down; lia).
      replace (s - p - Zlen sg) with (s - Zlen sg - p) in Hs3 by lia. app_exact Hs3.
    + cbn [negb]. set (size := if negb (sign =? 0) && (0 <? s - p) then s - p - 1 else s - p).
      assert (Z.to_nat size = Z.to_nat (s - Zlen sg - p)) as Hsize.
      { unfold size. rewrite Hsg. destruct (negb (sign =? 0)); cbn [andb]; [|lia].
        destruct (Z.ltb_spec 0 (s - p)); lia. }
      destruct (shows_pad buf0 end_ Hend Hbuf text st size 32 Hs) as (st0 & -> & Hs0).
      rewrite Hsize in Hs0. cbn [mbind option_bind].
      destruct (shows_sign _ st0 sign (run_down size) Hs0) as (st1 & size1 & Heq & Hs1 & Hc1 & Hle). fold sg in Hs1, Hc1.
      cbn [mbind option_bind] in Heq. rewrite Heq.
      cbn [mbind option_bind]. rewrite (pad_nonpos st1) by (unfold run_down in Hle; lia).
      cbn [mbind option_bind].
      destruct (Htail _ st1 (run_down size1) (run_down size1) Hs1) as (st3 & -> & Hs3); [by left|].
      exists st3. split; [done|]. rewrite (replicate_nonpos (run_down size1)), app_nil_r in Hs3
        by (unfold run_down; lia). app_exact Hs3.
Qed.

Lemma number_arg_range flags qualifier v : - 2 ^ 31 <= number_arg flags qualifier v < 2 ^ 31.
Proof. unfold number_arg, s32. Z.div_mod_to_equations. lia. Qed.

Lemma s32_range z : - 2 ^ 31 <= s32 z < 2 ^ 31.
Proof. unfold s32. Z.div_mod_to_equations. lia. Qed.

Lemma convert_char_shows text st flags w args v args' : shows buf0 end_ text st ->
  va_arg args = Some (v, args') ->
  exists st', convert_char end_ st flags w args = Some (st', args') /\
    shows buf0 end_ (text ++ char_text flags w v) st'.
Proof using Hend Hbuf.
  intros Hs Ha. unfold convert_char, char_text, spaces, pre_spaces, pre_after. rewrite Ha.
  destruct (has flags LEFT); cbn [negb mbind option_bind].
  - destruct (shows_emit buf0 end_ Hend Hbuf text st (u8 (va_word v)) Hs) as (st1 & -> & Hs1).
    cbn [mbind option_bind].
    destruct (shows_pad buf0 end_ Hend Hbuf _ st1 (w - 1) 32 Hs1) as (st2 & -> & Hs2).
    exists st2. split; [done|]. app_exact Hs2.
  - destruct (shows_pad buf0 end_ Hend Hbuf text st (w - 1) 32 Hs) as (st1 & -> & Hs1).
    cbn [mbind option_bind].
    destruct (shows_emit buf0 end_ Hend Hbuf _ st1 (u8 (va_word v)) Hs1) as (st2 & -> & Hs2).
    cbn [mbind option_bind]. rewrite pad_nonpos by lia. exists st2. split; [done|]. app_exact Hs2.
Qed.

Lemma convert_string_shows text st flags w precision args v args' s : shows buf0 end_ text st ->
  va_arg args = Some (v, args') -> va_text v = Some s ->
  exists st', convert_string end_ st flags w precision args = Some (st', args') /\
    shows buf0 end_ (text ++ string_text flags w precision s) st'.
Proof using Hend Hbuf.
  intros Hs Ha Hv. unfold convert_string, string_text, spaces. rewrite Ha. cbn [mbind option_bind].
  rewrite Hv. cbn [mbind option_bind].
  set (len := if (0 <? precision) && (precision <? Zlen s) then precision else Zlen s).
  assert ((if 0 <? precision then take (Z.to_nat precision) s else s) = take (Z.to_nat len) s /\
    Zlen (take (Z.to_nat len) s) = len) as [-> Hl].
  { unfold len, Zlen. rewrite length_take. destruct (Z.ltb_spec 0 precision); cbn [andb].
    - destruct (Z.ltb_spec precision (Z.of_nat (length s))); [split; [done|lia]|].
      rewrite !take_ge by lia. split; [done|lia].
    - rewrite take_ge by lia. split; [done|lia]. }
  rewrite Hl. destruct (has flags LEFT); cbn [negb mbind option_bind].
  - destruct (shows_emit_list buf0 end_ Hend Hbuf text st (take (Z.to_nat len) s) Hs) as (st1 & -> & Hs1).
    cbn [mbind option_bind].
    destruct (shows_pad buf0 end_ Hend Hbuf _ st1 (w - len) 32 Hs1) as (st2 & -> & Hs2).
    exists st2. split; [done|]. app_exact Hs2.
  - destruct (shows_pad buf0 end_ Hend Hbuf text st (w - len) 32 Hs) as (st1 & -> & Hs1).
    cbn [mbind option_bind].
    destruct (shows_emit_list buf0 end_ Hend Hbuf _ st1 (take (Z.to_nat len) s) Hs1) as (st2 & -> & Hs2).
    cbn [mbind option_bind]. rewrite pad_nonpos by lia. exists st2. split; [done|]. app_exact Hs2.
Qed.

Lemma convert_shows text st fmt args flags w precision qualifier fmt' args' t : shows buf0 end_ text st ->
  conversion_text fmt args flags w precision qualifier = Some (fmt', args', t) ->
  exists st', convert end_ fmt args st flags w precision qualifier = Some (fmt', args', st') /\
    shows buf0 end_ (text ++ t) st'.
Proof using Hend Hbuf.
  intros Hs Ht. unfold conversion_text in Ht. unfold convert. destruct fmt as [|c fmt]; [done|].
  assert (forall base fl, (
      '(v, args) ← va_arg args;
      Some (fmt, args, number_text (number_arg fl qualifier v) base w precision fl)) = Some (fmt', args', t) ->
    exists st', ('(st, args) ← convert_number end_ st base fl w precision qualifier args;
                 Some (fmt, args, st)) = Some (fmt', args', st') /\ shows buf0 end_ (text ++ t) st') as Hnum.
  { intros base fl Hn. unfold convert_number. destruct (va_arg args) as [[v args2]|]; [|done].
    cbn [mbind option_bind] in *. injection Hn as <- <- <-.
    destruct (print_number_shows text st (number_arg fl qualifier v) base w precision fl
      (number_arg_range _ _ _) Hs) as (st' & -> & Hs'). by exists st'. }
  destruct (c =? 99).
  { destruct (va_arg args) as [[v args2]|] eqn:Ha; [|done]. injection Ht as <- <- <-.
    destruct (convert_char_shows text st flags w args v args2 Hs Ha) as (st' & -> & Hs'). by exists st'. }
  destruct (c =? 115).
  { destruct (va_arg args) as [[v args2]|] eqn:Ha; [|done]. cbn [mbind option_bind] in Ht.
    destruct (va_text v) as [s|] eqn:Hv; [|done]. injection Ht as <- <- <-.
    destruct (convert_string_shows text st flags w precision args v args2 s Hs Ha Hv) as (st' & -> & Hs').
    by exists st'. }
  destruct (c =? 112).
  { unfold convert_pointer. destruct (w =? -1); (destruct (va_arg args) as [[v args2]|]; [|done]);
      cbn [mbind option_bind] in *; injection Ht as <- <- <-.
    - destruct (print_number_shows text st (s32 (va_word v)) 16 8 precision (Z.lor flags ZEROPAD)
        (s32_range _) Hs) as (st' & -> & Hs'). by exists st'.
    - destruct (print_number_shows text st (s32 (va_word v)) 16 w precision flags
        (s32_range _) Hs) as (st' & -> & Hs'). by exists st'. }
  destruct (c =? 37).
  { injection Ht as <- <- <-. destruct (shows_emit buf0 end_ Hend Hbuf text st 37 Hs) as (st' & -> & Hs').
    by exists st'. }
  destruct (c =? 111); [by apply Hnum|]. destruct (c =? 88); [by apply Hnum|].
  destruct (c =? 120); [by apply Hnum|]. destruct ((c =? 100) || (c =? 105)); [by apply Hnum|].
  destruct (c =? 117); [by apply Hnum|].
  destruct (shows_emit buf0 end_ Hend Hbuf text st 37 Hs) as (st1 & -> & Hs1). cbn [mbind option_bind].
  destruct (c =? 0); cbn [negb]; [injection Ht as <- <- <-; by exists st1|].
  destruct (shows_emit buf0 end_ Hend Hbuf _ st1 c Hs1) as (st2 & -> & Hs2). injection Ht as <- <- <-.
  exists st2. split; [done|]. app_exact Hs2.
Qed.

Lemma vsnprintf_loop_shows fuel text st fmt args t : shows buf0 end_ text st ->
  format_loop fuel fmt args = Some t ->
  exists st', vsnprintf_loop fuel end_ fmt args st = Some st' /\ shows buf0 end_ (text ++ t) st'.
Proof using Hend Hbuf.
  revert text st fmt args t. induction fuel as [|fuel IH]; intros text st fmt args t Hs Ht; [done|].
  cbn [format_loop vsnprintf_loop] in *. destruct fmt as [|c fmt]; [done|].
  destruct (c =? 0); [injection Ht as <-; exists st; by rewrite app_nil_r|].
  destruct (negb (c =? 37)).
  - apply fmap_Some in Ht as (t' & Ht & ->).
    destruct (shows_emit buf0 end_ Hend Hbuf text st c Hs) as (st1 & -> & Hs1). cbn [mbind option_bind].
    destruct (IH _ _ _ _ _ Hs1 Ht) as (st2 & -> & Hs2). exists st2. split; [done|]. app_exact Hs2.
  - destruct (parse_flags 0 fmt) as [[flags fmt1]|]; [|done]. cbn [mbind option_bind] in *.
    destruct (parse_width flags fmt1 args) as [[[[w flags2] fmt2] args2]|]; [|done]. cbn [mbind option_bind] in *.
    destruct (parse_precision fmt2 args2) as [[[p fmt3] args3]|]; [|done]. cbn [mbind option_bind] in *.
    destruct (parse_qualifier fmt3) as [[q fmt4]|]; [|done]. cbn [mbind option_bind] in *.
    destruct (conversion_text fmt4 args3 flags2 w p q) as [[[fmt5 args5] t1]|] eqn:Hc; [|done].
    cbn [mbind option_bind] in *. apply fmap_Some in Ht as (t' & Ht & ->).
    destruct (convert_shows text st _ _ _ _ _ _ _ _ _ Hs Hc) as (st1 & -> & Hs1). cbn [mbind option_bind].
    destruct (IH _ _ _ _ _ Hs1 Ht) as (st2 & -> & Hs2). exists st2. split; [done|]. app_exact Hs2.
Qed.
End print_number.

(** ** The buffer after a call *)

(** A text cut to a buffer of [size] characters, with its NUL. *)
Definition cut_text (buf text : list Z) (size : Z) : list Z :=
  let t := take (Z.to_nat (size - 1)) text in t ++ 0 :: drop (length t + 1) buf.

Lemma end_offset_inside address size : 0 < size -> 0 <= address -> address + size <= 2 ^ 32 ->
  end_offset address size = size - 1.
Proof.
  intros. unfold end_offset. rewrite u32_small by lia.
  destruct (Z.ltb_spec (address + size - 1) address); lia.
Qed.

Lemma set_nul buf0 t rest : Zlen t + 1 <= Zlen buf0 -> rest = drop (length t) buf0 ->
  set_at (t ++ rest) (Zlen t) 0 = Some (t ++ 0 :: drop (length t + 1) buf0).
Proof.
  intros Hl ->. destruct (drop (length t) buf0) as [|x rest] eqn:Hd.
  { apply (f_equal length) in Hd. rewrite length_drop in Hd. unfold Zlen in *. simpl in Hd. lia. }
  rewrite set_at_mid by done. do 3 f_equal.
  apply (f_equal (drop 1)) in Hd. by rewrite drop_drop in Hd.
Qed.

Lemma vsnprintf_text address buf size fmt args text :
  0 < size <= Zlen buf -> 0 <= address -> address + size <= 2 ^ 32 -> format_text fmt args = Some text ->
  exists n, rt_vsnprintf address buf size fmt args = Some (s32 n, cut_text buf text size) /\
    Zlen text <= n /\ (Zlen text <= size -> n = Zlen text).
Proof.
  intros Hsize Ha Hmax Ht. unfold rt_vsnprintf. rewrite end_offset_inside by lia.
  assert (shows buf (size - 1) [] (buf, 0)) as Hs by (split; unfold kept; rewrite ?take_nil; done).
  destruct (vsnprintf_loop_shows buf (size - 1) ltac:(lia) ltac:(lia) _ _ _ _ _ _ Hs Ht)
    as ([b n] & -> & [Hb Hl He]). cbn [app fst snd mbind option_bind] in *.
  exists n. unfold cut_text. unfold kept in Hb. replace (size - 1 + 1) with size in * by lia.
  destruct (Z.leb_spec n (size - 1)).
  - rewrite (take_ge text (Z.to_nat size)) in Hb by (unfold Zlen in *; lia).
    rewrite (take_ge text (Z.to_nat (size - 1))) by (unfold Zlen in *; lia).
    specialize (He ltac:(lia)). subst n b. rewrite (set_nul buf) by (done || lia).
    cbn [mbind option_bind]. by split_and!.
  - assert (size <= Zlen text) as Hlong by (destruct (Z.leb_spec (Zlen text) size); lia).
    destruct (cut text (size - 1)) as (t & rest & -> & Ht1 & Ht2); [lia|].
    destruct rest as [|x rest]; [change (Zlen (@nil Z)) with 0 in Ht2; lia|].
    assert (length t = Z.to_nat (size - 1)) as Hlt by (unfold Zlen in Ht1; lia).
    assert (take (Z.to_nat size) (t ++ x :: rest) = t ++ [x]) as Hkept.
    { replace (Z.to_nat size) with (length t + 1)%nat by lia. by rewrite take_app_add'. }
    rewrite Hkept, <-(assoc_L (++)), length_app in Hb. cbn [app length] in Hb. subst b.
    rewrite set_at_mid by lia. cbn [mbind option_bind]. rewrite <-Hlt, take_app_length. by split_and!.
Qed.

(** ** Every call returns

    A format with its NUL, and at least as many arguments as it has
    characters; when the format has an "s", each of them is a string or null. *)

Record budget (fmt : list Z) (args : list va) : Prop := {
  bu_nul : 0 ∈ fmt;
  bu_args : 115 ∈ fmt -> Forall (fun v => is_Some (va_text v)) args;
  bu_count : (length fmt <= length args)%nat;
}.

(** The format and the arguments left after a step. *)
Definition within (fmt fmt' : list Z) (args' : list va) : Prop :=
  budget fmt' args' /\ (length fmt' <= length fmt)%nat.

Lemma budget_tail c fmt args : budget (c :: fmt) args -> c <> 0 -> within (c :: fmt) fmt args.
Proof.
  intros [Hn Ha Hc] Hne. simpl in Hc. apply elem_of_cons in Hn as [?|Hn]; [done|].
  split; [split; [done| |lia]|simpl; lia]. intros Hs. apply Ha. by apply list_elem_of_further.
Qed.

Lemma budget_arg c fmt args : budget (c :: fmt) args -> c <> 0 ->
  exists v args', va_arg args = Some (v, args') /\ (c = 115 -> is_Some (va_text v)) /\
    within (c :: fmt) fmt args'.
Proof.
  intros [Hn Ha Hc] Hne. destruct args as [|v args]; simpl in Hc; [lia|].
  apply elem_of_cons in Hn as [?|Hn]; [done|]. exists v, args. split; [done|]. split.
  - intros ->. by destruct (proj1 (Forall_cons _ _ _) (Ha (list_elem_of_here _ _))).
  - split; [split; [done| |lia]|simpl; lia]. intros Hs.
    by assert (Forall (fun v => is_Some (va_text v)) (v :: args)) as [_ ?]%Forall_cons
      by (apply Ha, list_elem_of_further, Hs).
Qed.

Lemma within_trans fmt fmt1 fmt2 args1 args2 : within fmt fmt1 args1 -> within fmt1 fmt2 args2 ->
  within fmt fmt2 args2.
Proof. intros [_ ?] [? ?]. split; [done|lia]. Qed.

Lemma within_refl fmt args : budget fmt args -> within fmt fmt args.
Proof. by split. Qed.

Lemma budget_cons fmt args : budget fmt args -> exists c fmt', fmt = c :: fmt'.
Proof. intros [Hn _ _]. destruct fmt as [|c fmt]; [by apply elem_of_nil in Hn|by eexists _, _]. Qed.

Lemma parse_flags_total flags fmt args : budget fmt args ->
  exists f fmt', parse_flags flags fmt = Some (f, fmt') /\ within fmt fmt' args.
Proof.
  revert flags. induction fmt as [|c fmt IH]; intros flags Hb; [by destruct (budget_cons _ _ Hb) as (? & ? & ?)|].
  cbn [parse_flags].
  assert (forall f, c <> 0 -> exists f' fmt', parse_flags f fmt = Some (f', fmt') /\ within (c :: fmt) fmt' args)
    as Hrec.
  { intros f Hc. pose proof (budget_tail _ _ _ Hb Hc) as Ht. destruct (IH f (proj1 Ht)) as (f' & fmt' & -> & Hw).
    eexists _, _. split; [done|]. by eapply within_trans. }
  destruct (Z.eqb_spec c 45) as [->|]; [by apply Hrec|]. destruct (Z.eqb_spec c 43) as [->|]; [by apply Hrec|].
  destruct (Z.eqb_spec c 32) as [->|]; [by apply Hrec|]. destruct (Z.eqb_spec c 35) as [->|]; [by apply Hrec|].
  destruct (Z.eqb_spec c 48) as [->|]; [by apply Hrec|]. eexists _, _. split; [done|]. by apply within_refl.
Qed.

Lemma skip_atoi_total i fmt args : budget fmt args ->
  exists n fmt', skip_atoi_loop fmt i = Some (n, fmt') /\ within fmt fmt' args.
Proof.
  revert i. induction fmt as [|c fmt IH]; intros i Hb; [by destruct (budget_cons _ _ Hb) as (? & ? & ?)|].
  cbn [skip_atoi_loop]. destruct (isdigit c) eqn:Hd; [|eexists _, _; split; [done|by apply within_refl]].
  assert (c <> 0) as Hc by (by intros ->). pose proof (budget_tail _ _ _ Hb Hc) as Ht.
  destruct (IH (s32 (i * 10 + c - 48)) (proj1 Ht)) as (n & fmt' & -> & Hw).
  eexists _, _. split; [done|]. by eapply within_trans.
Qed.

Lemma parse_width_total flags fmt args : budget fmt args ->
  exists w f fmt' args', parse_width flags fmt args = Some (w, f, fmt', args') /\ within fmt fmt' args'.
Proof.
  intros Hb. destruct (budget_cons _ _ Hb) as (c & fmt' & ->). unfold parse_width. destruct (isdigit c).
  - destruct (skip_atoi_total 0 _ _ Hb) as (n & fmt2 & Heq & Hw). unfold skip_atoi. rewrite Heq.
    by eexists _, _, _, _.
  - destruct (Z.eqb_spec c 42) as [->|]; [|eexists _, _, _, _; split; [done|by apply within_refl]].
    destruct (budget_arg _ _ _ Hb) as (v & args' & -> & _ & Hw); [done|]. cbn [mbind option_bind].
    destruct (_ <? 0); by eexists _, _, _, _.
Qed.

Lemma parse_precision_total fmt args : budget fmt args ->
  exists p fmt' args', parse_precision fmt args = Some (p, fmt', args') /\ within fmt fmt' args'.
Proof.
  intros Hb. destruct (budget_cons _ _ Hb) as (c & fmt' & ->). unfold parse_precision.
  destruct (Z.eqb_spec c 46) as [->|]; [|eexists _, _, _; split; [done|by apply within_refl]].
  pose proof (budget_tail _ _ _ Hb ltac:(done)) as Ht.
  destruct (budget_cons _ _ (proj1 Ht)) as (c & fmt2 & ->). destruct (isdigit c).
  - destruct (skip_atoi_total 0 _ _ (proj1 Ht)) as (n & fmt3 & Heq & Hw). unfold skip_atoi. rewrite Heq.
    eexists _, _, _. split; [done|]. by eapply within_trans.
  - destruct (Z.eqb_spec c 42) as [->|].
    + destruct (budget_arg _ _ _ (proj1 Ht)) as (v & args' & -> & _ & Hw); [done|].
      eexists _, _, _. split; [done|]. by eapply within_trans.
    + by eexists _, _, _.
Qed.

Lemma parse_qualifier_total fmt args : budget fmt args ->
  exists q fmt', parse_qualifier fmt = Some (q, fmt') /\ within fmt fmt' args.
Proof.
  intros Hb. destruct (budget_cons _ _ Hb) as (c & fmt' & ->). unfold parse_qualifier.
  destruct ((c =? 104) || (c =? 108)) eqn:Hc; [|eexists _, _; split; [done|by apply within_refl]].
  eexists _, _. split; [done|]. apply budget_tail; [done|]. by intros ->.
Qed.

Lemma conversion_text_total fmt args flags w p q : budget fmt args ->
  exists fmt' args' t, conversion_text fmt args flags w p q = Some (fmt', args', t) /\ within fmt fmt' args'.
Proof.
  intros Hb. destruct (budget_cons _ _ Hb) as (c & fmt' & ->). unfold conversion_text.
  assert (c <> 0 -> forall base f, exists fmt1 args1 t,
    ('(v, args) ← va_arg args; Some (fmt', args, number_text (number_arg f q v) base w p f)) =
      Some (fmt1, args1, t) /\ within (c :: fmt') fmt1 args1) as Hnum.
  { intros Hc base f. destruct (budget_arg _ _ _ Hb Hc) as (v & args' & -> & _ & Hw). by eexists _, _, _. }
  destruct (Z.eqb_spec c 99) as [->|].
  { destruct (budget_arg _ _ _ Hb ltac:(done)) as (v & args' & -> & _ & Hw). by eexists _, _, _. }
  destruct (Z.eqb_spec c 115) as [->|].
  { destruct (budget_arg _ _ _ Hb ltac:(done)) as (v & args' & -> & Hs & Hw). cbn [mbind option_bind].
    destruct (Hs eq_refl) as [s ->]. by eexists _, _, _. }
  destruct (Z.eqb_spec c 112) as [->|].
  { destruct (budget_arg _ _ _ Hb ltac:(done)) as (v & args' & -> & _ & Hw). by eexists _, _, _. }
  destruct (Z.eqb_spec c 37) as [->|]; [eexists _, _, _; split; [done|by apply budget_tail]|].
  destruct (Z.eqb_spec c 111); [apply Hnum; lia|]. destruct (Z.eqb_spec c 88); [apply Hnum; lia|].
  destruct (Z.eqb_spec c 120); [apply Hnum; lia|].
  destruct ((c =? 100) || (c =? 105)) eqn:Hc; [apply Hnum; by intros ->|].
  destruct (Z.eqb_spec c 117); [apply Hnum; lia|].
  destruct (Z.eqb_spec c 0) as [->|]; eexists _, _, _; (split; [done|]); [by apply within_refl|by apply budget_tail].
Qed.

Lemma format_loop_total fuel fmt args : budget fmt args -> (length fmt < fuel)%nat ->
  is_Some (format_loop fuel fmt args).
Proof.
  revert fmt args. induction fuel as [|fuel IH]; intros fmt args Hb Hlt; [lia|].
  destruct (budget_cons _ _ Hb) as (c & fmt' & ->). cbn [format_loop].
  destruct (Z.eqb_spec c 0) as [->|Hc]; [by eexists|].
  pose proof (budget_tail _ _ _ Hb Hc) as [Hb' _]. simpl in Hlt. destruct (negb (c =? 37)).
  { destruct (IH fmt' args Hb') as [t ->]; [lia|]. by eexists. }
  destruct (parse_flags_total 0 _ _ Hb') as (f & fmt1 & -> & [Hb1 Hl1]). cbn [mbind option_bind].
  destruct (parse_width_total f _ _ Hb1) as (w & f2 & fmt2 & args2 & -> & [Hb2 Hl2]). cbn [mbind option_bind].
  destruct (parse_precision_total _ _ Hb2) as (p & fmt3 & args3 & -> & [Hb3 Hl3]). cbn [mbind option_bind].
  destruct (parse_qualifier_total _ _ Hb3) as (q & fmt4 & -> & [Hb4 Hl4]). cbn [mbind option_bind].
  destruct (conversion_text_total _ _ f2 w p q Hb4) as (fmt5 & args5 & t & -> & [Hb5 Hl5]).
  cbn [mbind option_bind]. destruct (IH fmt5 args5 Hb5) as [t' ->]; [lia|]. by eexists.
Qed.

(** ** The standard

    [format_text] follows the code; here it is compared with [text_of], the
    meaning of a format in the C standard. *)









Lemma skip_atoi_digit d tail i : 0 <= d < 10 -> 0 <= i -> i * 10 + d < 2 ^ 31 ->
  skip_atoi_loop (48 + d :: tail) i = skip_atoi_loop tail (i * 10 + d).
Proof.
  intros. cbn [skip_atoi_loop]. unfold isdigit. rewrite u32_small by lia.
  destruct (Z.ltb_spec (48 + d - 48) 10); [|lia]. rewrite s32_small by lia. f_equal. lia.
Qed.



















(** *** Fields *)









(** *** Numbers *)





(** *** Directives *)










(** [rt_snprintf] returns for every format with its NUL, well-formed or
    not, when there are as many arguments as the format has characters and the
    string conversions get strings. *)
Theorem rt_snprintf_returns address buf size fmt args :
  0 < size <= Zlen buf -> 0 <= address -> address + size <= 2 ^ 32 -> budget fmt args ->
  exists n text, rt_snprintf address buf size fmt args = Some (n, cut_text buf text size).
Proof.
  intros Hsize Ha Hmax Hb. destruct (format_loop_total (S (length fmt)) fmt args Hb) as [text Ht]; [lia|].
  destruct (vsnprintf_text address buf size fmt args text Hsize Ha Hmax Ht) as (n & Hn & _). by eexists _, _.
Qed.

(** "%-%*.q%" is no conversion of the manual. *)
Lemma rt_snprintf_returns_witness : exists n text,
  rt_snprintf 536870912 (replicate 8 0) 8 [37; 45; 37; 42; 46; 113; 37; 0] (replicate 8 (VWord 5)) =
    Some (n, cut_text (replicate 8 0) text 8).
Proof.
  apply rt_snprintf_returns; [by split|lia|lia|]. split; [apply list_elem_of_In; simpl; tauto| |simpl; lia].
  intros H. apply list_elem_of_In in H. simpl in H. exfalso. lia.
Defined.

(** ** Printing and reading a number *)

Lemma skip_atoi_digits fuel type n tail : 0 <= n < 2 ^ 31 -> n < 10 ^ Z.of_nat fuel ->
  skip_atoi_loop (rev (digits_rev fuel 10 type n) ++ tail) 0 = skip_atoi_loop tail n.
Proof.
  revert n tail. induction fuel as [|fuel IH]; intros n tail Hn Hmax.
  { change (10 ^ Z.of_nat 0) with 1 in Hmax. by replace n with 0 by lia. }
  cbn [digits_rev]. destruct (Z.eqb_spec n 0) as [->|]; [done|]. cbn [rev]. rewrite <-app_assoc. cbn [app].
  rewrite Nat2Z.inj_succ, Z.pow_succ_r in Hmax by lia.
  assert (0 <= n / 10 /\ n / 10 * 10 + n mod 10 = n /\ 0 <= n mod 10 < 10) as (? & ? & ?)
    by (Z.div_mod_to_equations; lia).
  rewrite IH; [|Z.div_mod_to_equations; lia|apply Z.div_lt_upper_bound; lia].
  unfold digit_char. destruct (Z.ltb_spec (n mod 10) 10); [|lia].
  rewrite skip_atoi_digit by lia. f_equal. lia.
Qed.

Lemma digits_rev_length fuel b type n k : 1 < b -> 0 <= n < b ^ Z.of_nat k ->
  (length (digits_rev fuel b type n) <= k)%nat.
Proof.
  intros Hb. revert n k. induction fuel as [|fuel IH]; intros n k Hn; [simpl; lia|].
  cbn [digits_rev]. destruct (Z.eqb_spec n 0); [simpl; lia|]. cbn [length]. destruct k as [|k].
  - change (b ^ Z.of_nat 0) with 1 in Hn. lia.
  - rewrite Nat2Z.inj_succ, Z.pow_succ_r in Hn by lia.
    pose proof (IH (n / b) k ltac:(split; [apply Z.div_pos; lia|apply Z.div_lt_upper_bound; lia])). lia.
Qed.

(** "%d" *)
Definition decimal_fmt : list Z := [37; 100; 0].

Lemma decimal_text n : 0 <= n < 2 ^ 31 ->
  format_text decimal_fmt [VWord n] = Some (digits_text 10 SIGN n).
Proof.
  intros Hn. unfold format_text, decimal_fmt. cbn [length format_loop Z.eqb negb].
  change (parse_flags 0 [100; 0]) with (Some (0, [100; 0])). cbn [mbind option_bind].
  change (parse_width 0 [100; 0] [VWord n]) with (Some (-1, 0, [100; 0], [VWord n])). cbn [mbind option_bind].
  change (parse_precision [100; 0] [VWord n]) with (Some (-1, [100; 0], [VWord n])). cbn [mbind option_bind].
  change (parse_qualifier [100; 0]) with (Some (0, [100; 0])). cbn [mbind option_bind].
  unfold conversion_text. cbn [Z.eqb Pos.eqb orb va_arg mbind option_bind].
  change (Z.lor 0 SIGN) with SIGN. cbn [fmap option_fmap option_map]. rewrite app_nil_r. f_equal.
  unfold number_text, number_arg. cbn [Z.eqb Pos.eqb va_word]. rewrite u32_small, s32_small by lia.
  unfold sign_text, magnitude. change (has SIGN SIGN) with true. change (has SIGN LEFT) with false.
  change (has SIGN ZEROPAD) with false. change (has SIGN PLUS) with false. change (has SIGN SPACE) with false.
  cbn [andb]. destruct (Z.ltb_spec n 0); [lia|]. rewrite u32_small by lia.
  set (ds := digits_text 10 SIGN n). pose proof (Zlen_nonneg ds).
  rewrite (replicate_nonpos (-1 - Zlen ds)) by lia. cbn [app]. rewrite replicate_nonpos; [done|].
  change (Zlen (@nil Z)) with 0. lia.
Qed.

(** A non-negative number printed with "%d" into a buffer of at least 11
    characters is read back by [skip_atoi], which stops at the NUL. *)
Theorem print_number_roundtrip address buf size n :
  11 <= size <= Zlen buf -> 0 <= address -> address + size <= 2 ^ 32 -> 0 <= n < 2 ^ 31 ->
  exists len buf' rest, rt_snprintf address buf size decimal_fmt [VWord n] = Some (len, buf') /\
    1 <= len <= 10 /\ skip_atoi buf' = Some (n, 0 :: rest).
Proof.
  intros Hsize Ha Hmax Hn.
  destruct (vsnprintf_text address buf size _ _ _ ltac:(lia) Ha Hmax (decimal_text n Hn))
    as (len & Hp & Hl & He).
  assert (1 <= Zlen (digits_text 10 SIGN n) <= 10) as Hlen.
  { unfold digits_text. destruct (Z.eqb_spec n 0); [by split|]. unfold Zlen. rewrite length_rev.
    pose proof (digits_rev_length 16 10 SIGN n 10 ltac:(lia)) as H.
    change (10 ^ Z.of_nat 10) with 10000000000 in H. change (radix 10) with 10.
    cbn [digits_rev]. destruct (Z.eqb_spec n 0); [done|]. cbn [digits_rev] in H.
    destruct (Z.eqb_spec n 0); [done|]. cbn [length] in *. lia. }
  specialize (He ltac:(lia)). subst len.
  eexists _, _, (drop (length (digits_text 10 SIGN n) + 1) buf).
  split; [exact Hp|]. split; [rewrite s32_small by lia; done|].
  unfold cut_text. rewrite take_ge by (unfold Zlen in *; lia).
  unfold skip_atoi, digits_text. destruct (Z.eqb_spec n 0) as [->|].
  - reflexivity.
  - change (radix 10) with 10. rewrite skip_atoi_digits; [reflexivity|lia|].
    change (10 ^ Z.of_nat 16) with (10 ^ 16). lia.
Qed.

Lemma print_number_roundtrip_witness : exists len buf' rest,
  rt_snprintf 536870912 (replicate 12 7) 12 decimal_fmt [VWord 2147483647] = Some (len, buf') /\
  1 <= len <= 10 /\ skip_atoi buf' = Some (2147483647, 0 :: rest).
Proof. apply print_number_roundtrip; [by split|lia|lia|lia]. Defined.

(** ** The console *)

(** [rt_kprintf] writes to the console the whole text when it has less
    than RT_CONSOLEBUF_SIZE - 1 characters; a text of just that length is
    written without its last character, with the NUL in its place. *)
Theorem rt_kprintf_writes address log_buf fmt args text :
  Zlen log_buf = RT_CONSOLEBUF_SIZE -> 0 <= address -> address + RT_CONSOLEBUF_SIZE <= 2 ^ 32 ->
  format_text fmt args = Some text -> Zlen text <= RT_CONSOLEBUF_SIZE - 1 ->
  exists log_buf', rt_kprintf address log_buf fmt args =
    Some (if Zlen text <? RT_CONSOLEBUF_SIZE - 1 then text else take 126 text ++ [0], log_buf').
Proof.
  unfold RT_CONSOLEBUF_SIZE. intros Hbuf Ha Hmax Ht Hlen. unfold rt_kprintf, RT_CONSOLEBUF_SIZE.
  destruct (vsnprintf_text address log_buf (128 - 1) fmt args text ltac:(lia) Ha ltac:(lia) Ht)
    as (n & -> & _ & Hn). specialize (Hn Hlen). subst n. cbn [mbind option_bind].
  pose proof (Zlen_nonneg text). rewrite s32_small, u32_small by lia.
  destruct (Z.ltb_spec (128 - 1) (Zlen text)); [lia|]. unfold cut_text.
  destruct (Z.ltb_spec (Zlen text) (128 - 1)).
  - rewrite take_ge by (unfold Zlen in *; lia). rewrite read_at_0 by done. cbn [mbind option_bind].
    by eexists.
  - change (Z.to_nat (128 - 1 - 1)) with 126%nat.
    assert (length (take 126 text) = 126%nat) as Hk by (rewrite length_take; unfold Zlen in *; lia).
    rewrite Hk. change (0 :: drop (126 + 1) log_buf) with ([0] ++ drop (126 + 1) log_buf).
    rewrite (assoc_L (++)), read_at_0; [by eexists|]. rewrite Zlen_app. unfold Zlen in *. rewrite Hk. simpl. lia.
Qed.

Lemma rt_kprintf_writes_witness : exists log_buf',
  rt_kprintf 536870912 (replicate 128 0) decimal_fmt [VWord 7] = Some ([55], log_buf').
Proof.
  destruct (rt_kprintf_writes 536870912 (replicate 128 0) decimal_fmt [VWord 7] [55]) as [b Hb];
    [done|lia|done|reflexivity|done|]. by exists b.
Defined.

(** ** What the conversions do not do *)

(** "%o" prints hexadecimal digits: [divide] takes every base but 10 for 16. *)
Example octal_is_hexadecimal : format_text [37; 111; 0] [VWord 10] = Some [97] /\
  text_of [Conv (mk_directive [] None None None Co)] [Word 10] = Some [49; 50].
Proof. by split. Qed.

(** The length that is returned depends on the size of the buffer: "abcd%-5d|"
    has 10 characters, and 11 are reported when the sign does not fit. *)
Example length_depends_on_buffer :
  let fmt := [97; 98; 99; 100; 37; 45; 53; 100; 124; 0] in
  fst <$> rt_snprintf 536870912 (replicate 16 0) 16 fmt [VWord (-3)] = Some 10 /\
  fst <$> rt_snprintf 536870912 (replicate 16 0) 4 fmt [VWord (-3)] = Some 11.
Proof. by split. Qed.

(** The flag "0" is not ignored when a precision is given: "%05.3d" of 7. *)
Example zero_with_precision : format_text [37; 48; 53; 46; 51; 100; 0] [VWord 7] = Some [48; 48; 48; 48; 55] /\
  text_of [Conv (mk_directive [Zero] (Some (Lit 5)) (Some (Lit 3)) None Cd)] [Word 7] = Some [32; 32; 48; 48; 55].
Proof. by split. Qed.

(** "%.0d" of 0 prints a digit, where the standard prints none. *)
Example precision_zero_number : format_text [37; 46; 48; 100; 0] [VWord 0] = Some [48] /\
  text_of [Conv (mk_directive [] None (Some (Lit 0)) None Cd)] [Word 0] = Some [].
Proof. by split. Qed.

(** "%.0s" prints the whole string, where the precision is its maximal length. *)
Example precision_zero_string : format_text [37; 46; 48; 115; 0] [VStr 0 [111; 107; 0]] = Some [111; 107] /\
  text_of [Conv (mk_directive [] None (Some (Lit 0)) None Cs)] [Text [111; 107]] = Some [].
Proof. by split. Qed.

(** A size of 0 means an unbounded buffer. *)
Example size_zero : rt_snprintf 536870912 (replicate 4 7) 0 decimal_fmt [VWord 42] = Some (2, [52; 50; 0; 7]).
Proof. reflexivity. Qed.
