(* ===== verification/Kservice.v ===== *)
(** * Kernel service helpers (src/kservice.c)

    Aligned allocation and the search for the first bit set, the version for
    processors without an instruction for it (RT_USING_CPU_FFS not defined). *)

From S2P Require Import Prelude.

Open Scope Z_scope.

(** ** Aligned allocation

    [ptr] is the address that rt_malloc returns for the size it is given, 0
    for RT_NULL.  The result comes with the word that is stored in front of
    the aligned block: its address and its value. *)

Definition align_up4 (size : Z) : Z := Z.land (u32 (size + 3)) (u32 (Z.lnot 3)).

(** The size that is requested from rt_malloc. *)
Definition malloc_align_size (size align : Z) : Z := u32 (align_up4 size + align_up4 align).

Definition rt_malloc_align (align ptr : Z) : Z * option (Z * Z) :=
  let align := align_up4 align in
  if ptr =? 0 then (ptr, None) else
  let align_ptr :=
    if Z.land ptr (u32 (align - 1)) =? 0 then u32 (ptr + align)
    else Z.land (u32 (ptr + u32 (align - 1))) (u32 (Z.lnot (align - 1))) in
  (align_ptr, Some (u32 (align_ptr - 4), ptr)).

(** [words] is the memory; the result is the argument of rt_free. *)
Definition rt_free_align (words : gmap Z Z) (ptr : Z) : option Z := words !! u32 (ptr - 4).

(** ** First bit set *)

Definition __lowest_bit_bitmap : list Z :=
  [0; 0; 1; 0; 2; 0; 1; 0; 3; 0; 1; 0; 2; 0; 1; 0;
   4; 0; 1; 0; 2; 0; 1; 0; 3; 0; 1; 0; 2; 0; 1; 0;
   5; 0; 1; 0; 2; 0; 1; 0; 3; 0; 1; 0; 2; 0; 1; 0;
   4; 0; 1; 0; 2; 0; 1; 0; 3; 0; 1; 0; 2; 0; 1; 0;
   6; 0; 1; 0; 2; 0; 1; 0; 3; 0; 1; 0; 2; 0; 1; 0;
   4; 0; 1; 0; 2; 0; 1; 0; 3; 0; 1; 0; 2; 0; 1; 0;
   5; 0; 1; 0; 2; 0; 1; 0; 3; 0; 1; 0; 2; 0; 1; 0;
   4; 0; 1; 0; 2; 0; 1; 0; 3; 0; 1; 0; 2; 0; 1; 0;
   7; 0; 1; 0; 2; 0; 1; 0; 3; 0; 1; 0; 2; 0; 1; 0;
   4; 0; 1; 0; 2; 0; 1; 0; 3; 0; 1; 0; 2; 0; 1; 0;
   5; 0; 1; 0; 2; 0; 1; 0; 3; 0; 1; 0; 2; 0; 1; 0;
   4; 0; 1; 0; 2; 0; 1; 0; 3; 0; 1; 0; 2; 0; 1; 0;
   6; 0; 1; 0; 2; 0; 1; 0; 3; 0; 1; 0; 2; 0; 1; 0;
   4; 0; 1; 0; 2; 0; 1; 0; 3; 0; 1; 0; 2; 0; 1; 0;
   5; 0; 1; 0; 2; 0; 1; 0; 3; 0; 1; 0; 2; 0; 1; 0;
   4; 0; 1; 0; 2; 0; 1; 0; 3; 0; 1; 0; 2; 0; 1; 0].

(** The argument as the 32 bits of the int. *)
Definition __rt_ffs (value : Z) : option Z :=
  if value =? 0 then Some 0 else
  if negb (Z.land value 0xff =? 0) then
    b ← get_at __lowest_bit_bitmap (Z.land value 0xff); Some (b + 1)
  else if negb (Z.land value 0xff00 =? 0) then
    b ← get_at __lowest_bit_bitmap (Z.shiftr (Z.land value 0xff00) 8); Some (b + 9)
  else if negb (Z.land value 0xff0000 =? 0) then
    b ← get_at __lowest_bit_bitmap (Z.shiftr (Z.land value 0xff0000) 16); Some (b + 17)
  else b ← get_at __lowest_bit_bitmap (Z.shiftr (Z.land value 0xff000000) 24); Some (b + 25).

(** ** The table *)

(** [k] is the lowest bit that is set in [b]. *)
Definition lowest_bit (b k : Z) : Prop :=
  0 <= k /\ Z.testbit b k = true /\ forall j, 0 <= j < k -> Z.testbit b j = false.

Definition is_lowest_bit (b k : Z) : bool :=
  (0 <=? k) && Z.testbit b k && (Z.land b (Z.ones k) =? 0).

Lemma is_lowest_bit_spec b k : is_lowest_bit b k = true -> lowest_bit b k.
Proof.
  unfold is_lowest_bit. rewrite !andb_true_iff, Z.eqb_eq. intros [[Hk%Z.leb_le Hb] Hl]. split_and!; [done..|].
  intros j Hj. apply (f_equal (fun z => Z.testbit z j)) in Hl.
  rewrite Z.land_spec, Z.ones_spec_low, andb_true_r, Z.bits_0 in Hl by lia. done.
Qed.

Lemma lowest_bit_table b : 0 < b < 256 ->
  exists k, get_at __lowest_bit_bitmap b = Some k /\ 0 <= k < 8 /\ lowest_bit b k.
Proof.
  intros Hb.
  assert (forallb (fun b => match get_at __lowest_bit_bitmap b with
    | Some k => (k <? 8) && is_lowest_bit b k | None => false end) (Z.of_nat <$> seq 1 255) = true) as Hall
    by (vm_compute; reflexivity).
  rewrite forallb_forall in Hall. specialize (Hall b).
  destruct (get_at __lowest_bit_bitmap b) as [k|].
  - apply andb_true_iff in Hall as [Hk Hl%is_lowest_bit_spec].
    + exists k. destruct Hl as (? & ? & ?). apply Z.ltb_lt in Hk. by split_and!.
    + apply list_elem_of_In, list_elem_of_fmap. exists (Z.to_nat b). split; [lia|]. apply elem_of_seq. lia.
  - discriminate Hall. apply list_elem_of_In, list_elem_of_fmap. exists (Z.to_nat b). split; [lia|].
    apply elem_of_seq. lia.
Qed.

(** A byte of the value whose lower bytes are zero. *)
Lemma lowest_bit_byte v s k : 0 <= s -> Z.land v (Z.ones s) = 0 ->
  lowest_bit (Z.land (Z.shiftr v s) 0xff) k -> k < 8 -> lowest_bit v (k + s).
Proof.
  intros Hs Hlow (Hk & Hb & Hl) H8. change 0xff with (Z.ones 8) in *.
  assert (forall j, 0 <= j < 8 -> Z.testbit (Z.land (Z.shiftr v s) (Z.ones 8)) j = Z.testbit v (j + s)) as Hbit.
  { intros j Hj. by rewrite Z.land_spec, Z.ones_spec_low, andb_true_r, Z.shiftr_spec by lia. }
  split; [lia|]. split; [by rewrite <-Hbit by lia|]. intros j Hj.
  destruct (decide (j < s)).
  - apply (f_equal (fun z => Z.testbit z j)) in Hlow.
    rewrite Z.land_spec, Z.ones_spec_low, andb_true_r, Z.bits_0 in Hlow by lia. done.
  - replace j with (j - s + s) by lia. rewrite <-Hbit by lia. apply Hl. lia.
Qed.

(** A byte that is not zero, looked up in the table. *)
Lemma ffs_byte v s : 0 <= s -> Z.land v (Z.ones s) = 0 -> Z.land (Z.shiftr v s) 0xff <> 0 ->
  exists k, get_at __lowest_bit_bitmap (Z.land (Z.shiftr v s) 0xff) = Some k /\ lowest_bit v (k + s).
Proof.
  intros Hs Hlow Hne. change 0xff with (Z.ones 8) in *.
  assert (0 < Z.land (Z.shiftr v s) (Z.ones 8) < 256) as Hb.
  { rewrite Z.land_ones in * by lia. pose proof (Z.mod_pos_bound (Z.shiftr v s) (2 ^ 8)). lia. }
  destruct (lowest_bit_table _ Hb) as (k & Hk & Hr & Hl). exists k. split; [done|].
  apply lowest_bit_byte; [done|done|exact Hl|lia].
Qed.

Lemma land_mask v s : 0 <= s -> Z.land v (Z.shiftl 0xff s) = Z.shiftl (Z.land (Z.shiftr v s) 0xff) s.
Proof.
  intros Hs. apply Z.bits_inj'. intros j Hj. rewrite Z.land_spec, !Z.shiftl_spec by lia.
  destruct (decide (j < s)).
  - by rewrite !(Z.testbit_neg_r _ (j - s)), andb_false_r by lia.
  - rewrite Z.land_spec, Z.shiftr_spec by lia. by replace (j - s + s) with j by lia.
Qed.

Lemma land_ones_add v s : 0 <= s -> Z.land v (Z.ones s) = 0 -> Z.land (Z.shiftr v s) 0xff = 0 ->
  Z.land v (Z.ones (s + 8)) = 0.
Proof.
  intros Hs Hlow Hb. apply Z.bits_inj'. intros j Hj. rewrite Z.bits_0.
  destruct (decide (j < s + 8)).
  - rewrite Z.land_spec, Z.ones_spec_low, andb_true_r by lia. destruct (decide (j < s)).
    + apply (f_equal (fun z => Z.testbit z j)) in Hlow.
      by rewrite Z.land_spec, Z.ones_spec_low, andb_true_r, Z.bits_0 in Hlow by lia.
    + apply (f_equal (fun z => Z.testbit z (j - s))) in Hb. change 0xff with (Z.ones 8) in Hb.
      rewrite Z.land_spec, Z.ones_spec_low, andb_true_r, Z.bits_0, Z.shiftr_spec in Hb by lia.
      by replace (j - s + s) with j in Hb by lia.
  - by rewrite Z.land_spec, Z.ones_spec_high, andb_false_r by lia.
Qed.

(** [__rt_ffs] returns the position, counted from 1, of the lowest bit
    that is set, and 0 for 0. *)
Lemma rt_ffs_lowest value : 0 <= value < 2 ^ 32 ->
  exists r, __rt_ffs value = Some r /\ (value = 0 /\ r = 0 \/ value <> 0 /\ lowest_bit value (r - 1)).
Proof.
  intros Hv. unfold __rt_ffs. destruct (Z.eqb_spec value 0); [exists 0; split; [done|by left]|].
  assert (Z.land value (Z.ones 0) = 0) as H0 by apply Z.land_0_r.
  change 0xff with (Z.shiftl 0xff 0) at 1 2. change 0xff00 with (Z.shiftl 0xff 8).
  change 0xff0000 with (Z.shiftl 0xff 16). change 0xff000000 with (Z.shiftl 0xff 24).
  rewrite !land_mask by lia. rewrite !Z.shiftr_shiftl_l, !Z.sub_diag, !Z.shiftl_0_r by lia.
  assert (forall s, 0 <= s -> (Z.shiftl (Z.land (Z.shiftr value s) 0xff) s =? 0) =
    (Z.land (Z.shiftr value s) 0xff =? 0)) as Hshift.
  { intros s Hs. apply eq_bool_prop_intro. rewrite !Is_true_true, !Z.eqb_eq. apply Z.shiftl_eq_0_iff, Hs. }
  rewrite !Hshift by lia.
  assert (forall s, 0 <= s -> Z.land value (Z.ones s) = 0 -> Z.land (Z.shiftr value s) 0xff <> 0 ->
    exists r, (b ← get_at __lowest_bit_bitmap (Z.land (Z.shiftr value s) 0xff); Some (b + (s + 1))) = Some r /\
      (value = 0 /\ r = 0 \/ value <> 0 /\ lowest_bit value (r - 1))) as Hbyte.
  { intros s Hs Hlow Hne. destruct (ffs_byte value s Hs Hlow Hne) as (k & -> & Hl).
    eexists. split; [reflexivity|]. right. split; [done|]. by replace (k + (s + 1) - 1) with (k + s) by lia. }
  destruct (Z.eqb_spec (Z.land (Z.shiftr value 0) 0xff) 0) as [E0|]; cbn [negb]; [|by apply (Hbyte 0)].
  pose proof (land_ones_add value 0 ltac:(lia) H0 E0) as H8.
  destruct (Z.eqb_spec (Z.land (Z.shiftr value 8) 0xff) 0) as [E1|]; cbn [negb]; [|by apply (Hbyte 8)].
  pose proof (land_ones_add value 8 ltac:(lia) H8 E1) as H16.
  destruct (Z.eqb_spec (Z.land (Z.shiftr value 16) 0xff) 0) as [E2|]; cbn [negb]; [|by apply (Hbyte 16)].
  pose proof (land_ones_add value 16 ltac:(lia) H16 E2) as H24. apply (Hbyte 24); [lia|done|].
  intros E3. pose proof (land_ones_add value 24 ltac:(lia) H24 E3) as H32.
  rewrite Z.land_ones, Z.mod_small in H32 by lia. done.
Qed.

(** ** Aligned allocation *)

(** Clearing the low bits. *)
Lemma land_lnot_ones x k : 0 <= x < 2 ^ 32 -> 0 <= k <= 32 ->
  Z.land x (u32 (Z.lnot (2 ^ k - 1))) = x - x mod 2 ^ k.
Proof.
  intros Hx Hk. replace (2 ^ k - 1) with (Z.ones k) by (rewrite Z.ones_equiv; lia).
  unfold u32. rewrite <-Z.land_ones by lia.
  assert (Z.land x (Z.land (Z.lnot (Z.ones k)) (Z.ones 32)) = Z.ldiff x (Z.ones k)) as ->.
  { rewrite (Z.land_comm (Z.lnot _)), Z.land_assoc, (Z.land_ones x 32), Z.mod_small by lia.
    symmetry. apply Z.ldiff_land. }
  rewrite Z.ldiff_ones_r, Z.shiftl_mul_pow2, Z.shiftr_div_pow2 by lia.
  pose proof (Z.div_mod x (2 ^ k)). lia.
Qed.

Lemma align_up4_spec size : 0 <= size -> size + 3 < 2 ^ 32 ->
  align_up4 size mod 4 = 0 /\ size <= align_up4 size <= size + 3.
Proof.
  intros Hs Hm. unfold align_up4. rewrite u32_small by lia. change (Z.lnot 3) with (Z.lnot (2 ^ 2 - 1)).
  rewrite land_lnot_ones by lia. change (2 ^ 2) with 4. Z.div_mod_to_equations. lia.
Qed.

(** The next multiple of [A] behind a word-aligned address that is none. *)
Lemma round_up ptr q : 0 < q -> ptr mod 4 = 0 -> ptr mod (4 * q) <> 0 -> let x := ptr + (4 * q - 1) in
  (x - x mod (4 * q)) mod (4 * q) = 0 /\ ptr + 4 <= x - x mod (4 * q) <= ptr + 4 * q.
Proof.
  intros Hq H4 Hne x. set (A := 4 * q) in *. set (c := ptr / A). set (r := ptr mod A) in *.
  assert (ptr = A * c + r) as Hptr by (apply Z.div_mod; lia).
  assert (0 <= r < A) as Hr by (apply Z.mod_pos_bound; lia).
  assert (r mod 4 = 0) as Hr4.
  { rewrite Hptr in H4. unfold A in H4. replace (4 * q * c + r) with (r + q * c * 4) in H4 by lia.
    by rewrite Z.mod_add in H4 by lia. }
  assert (x mod A = r - 1) as ->.
  { symmetry. apply (Z.mod_unique x A (c + 1) (r - 1)); [lia|]. unfold x. lia. }
  unfold x. split; [|Z.div_mod_to_equations; lia].
  replace (ptr + (A - 1) - (r - 1)) with (0 + (c + 1) * A) by lia. by rewrite Z.mod_add, Z.mod_0_l by lia.
Qed.

(** For an alignment that is a power of two, [rt_malloc_align] returns an
    aligned address with the requested size inside the block from rt_malloc,
    leaves room for the saved pointer in front of it, and [rt_free_align] then
    frees the block. *)
Theorem rt_malloc_align_block size k ptr words :
  0 < size -> 2 <= k <= 30 -> size + 3 + 2 ^ k < 2 ^ 32 -> 0 < ptr -> ptr mod 4 = 0 ->
  ptr + malloc_align_size size (2 ^ k) <= 2 ^ 32 ->
  exists align_ptr slot, rt_malloc_align (2 ^ k) ptr = (align_ptr, Some (slot, ptr)) /\
    align_ptr mod 2 ^ k = 0 /\ slot = align_ptr - 4 /\ ptr <= slot /\
    align_ptr + size <= ptr + malloc_align_size size (2 ^ k) /\
    rt_free_align (<[slot := ptr]> words) align_ptr = Some ptr.
Proof.
  intros Hs Hk Hmax Hp Hp4 Hend.
  assert (2 ^ k = 4 * 2 ^ (k - 2)) as H4 by (rewrite <-Z.pow_add_r with (a := 2) (b := 2); [f_equal; lia|lia..]).
  assert (0 < 2 ^ (k - 2)) by lia.
  assert (align_up4 (2 ^ k) = 2 ^ k) as Ha.
  { destruct (align_up4_spec (2 ^ k)) as [Hm Hr]; [lia..|]. Z.div_mod_to_equations. lia. }
  assert (malloc_align_size size (2 ^ k) = align_up4 size + 2 ^ k) as Hsize.
  { unfold malloc_align_size. rewrite Ha. destruct (align_up4_spec size); [lia..|]. apply u32_small. lia. }
  rewrite Hsize in *. destruct (align_up4_spec size) as [_ Hup]; [lia..|].
  unfold rt_malloc_align. rewrite Ha. destruct (Z.eqb_spec ptr 0); [lia|].
  rewrite (u32_small (2 ^ k - 1)) by lia.
  assert (Z.land ptr (2 ^ k - 1) = ptr mod 2 ^ k) as ->.
  { replace (2 ^ k - 1) with (Z.ones k) by (rewrite Z.ones_equiv; lia). apply Z.land_ones. lia. }
  set (align_ptr := if ptr mod 2 ^ k =? 0 then u32 (ptr + 2 ^ k)
    else Z.land (u32 (ptr + (2 ^ k - 1))) (u32 (Z.lnot (2 ^ k - 1)))).
  assert (align_ptr mod 2 ^ k = 0 /\ ptr + 4 <= align_ptr <= ptr + 2 ^ k) as [Hm Hr].
  { unfold align_ptr. destruct (Z.eqb_spec (ptr mod 2 ^ k) 0) as [H0|H0].
    - rewrite u32_small by lia. split; [|lia]. rewrite <-(Z.mul_1_l (2 ^ k)) at 1.
      by rewrite Z.mod_add by lia.
    - rewrite u32_small, land_lnot_ones by lia. rewrite H4 in H0 |- *. by apply round_up. }
  eexists _, _. split; [reflexivity|]. rewrite (u32_small (align_ptr - 4)) by lia.
  split_and!; [done|done|lia|lia|]. unfold rt_free_align. rewrite u32_small by lia. apply lookup_insert_eq.
Qed.

Lemma rt_malloc_align_block_witness : exists align_ptr slot,
  rt_malloc_align (2 ^ 5) 536870924 = (align_ptr, Some (slot, 536870924)) /\
  align_ptr mod 2 ^ 5 = 0 /\ slot = align_ptr - 4 /\ 536870924 <= slot /\
  align_ptr + 10 <= 536870924 + malloc_align_size 10 (2 ^ 5) /\
  rt_free_align (<[slot := 536870924]> ∅) align_ptr = Some 536870924.
Proof. apply rt_malloc_align_block; by vm_compute. Defined.
