(* ===== verification/Heap.v ===== *)
(** * Small memory heap (src/mem.c)

    RT_USING_SMALL_MEM with RT_MEM_STATS, without RT_USING_MEMTRACE.  The heap
    is a finite map from the offset of a header (from [heap_ptr]) to its
    contents; what the users store between the headers is not in the map, and
    a header that is merged away stays there until it is overwritten.  The
    pointers that the functions take and return are offsets from [heap_ptr];
    RT_NULL is [None].  The semaphore [heap_sem] makes each function one step.
    An operation is [None] when an assertion fails or a header is read where
    there is none. *)

From S2P Require Import Prelude.

Open Scope Z_scope.

Definition RT_ALIGN_SIZE : Z := 4.
Definition RT_ALIGN (size align : Z) : Z := Z.land (u32 (size + align - 1)) (u32 (Z.lnot (align - 1))).
Definition RT_ALIGN_DOWN (size align : Z) : Z := Z.land size (u32 (Z.lnot (align - 1))).

Definition HEAP_MAGIC : Z := 0x1ea0.

Record heap_mem := mk_heap_mem { magic : Z; used : Z; next : Z; prev : Z }.

(** sizeof(struct heap_mem) is 12. *)
Definition SIZEOF_STRUCT_MEM : Z := RT_ALIGN 12 RT_ALIGN_SIZE.
Definition MIN_SIZE : Z := 12.
Definition MIN_SIZE_ALIGNED : Z := RT_ALIGN MIN_SIZE RT_ALIGN_SIZE.

Record heap := mk_heap {
  headers : gmap Z heap_mem;
  mem_size_aligned : Z;
  lfree : Z;
  used_mem : Z;
  max_mem : Z;
}.

Definition heap_end (h : heap) : Z := mem_size_aligned h + SIZEOF_STRUCT_MEM.

Definition set_header (h : heap) (o : Z) (m : heap_mem) : heap :=
  mk_heap (<[o := m]> (headers h)) (mem_size_aligned h) (lfree h) (used_mem h) (max_mem h).
Definition set_lfree (h : heap) (o : Z) : heap :=
  mk_heap (headers h) (mem_size_aligned h) o (used_mem h) (max_mem h).

Definition set_next (m : heap_mem) (n : Z) : heap_mem := mk_heap_mem (magic m) (used m) n (prev m).
Definition set_prev (m : heap_mem) (p : Z) : heap_mem := mk_heap_mem (magic m) (used m) (next m) p.
Definition set_used (m : heap_mem) (u : Z) : heap_mem := mk_heap_mem HEAP_MAGIC u (next m) (prev m).

(** Storing into one field of the header at an offset. *)
Definition store_prev (h : heap) (o p : Z) : option heap :=
  m ← headers h !! o; Some (set_header h o (set_prev m p)).
Definition store_next (h : heap) (o n : Z) : option heap :=
  m ← headers h !! o; Some (set_header h o (set_next m n)).

Definition plug_forward (h : heap) (mem : Z) : option heap :=
  m ← headers h !! mem;
  let nmem := next m in
  n ← headers h !! nmem;
  if negb (mem =? nmem) && (used n =? 0) && negb (nmem =? heap_end h) then
    let h := if lfree h =? nmem then set_lfree h mem else h in
    h ← store_next h mem (next n);
    store_prev h (next n) mem
  else Some h.

Definition plug_backward (h : heap) (mem : Z) : option heap :=
  m ← headers h !! mem;
  let pmem := prev m in
  p ← headers h !! pmem;
  if negb (pmem =? mem) && (used p =? 0) then
    let h := if lfree h =? mem then set_lfree h pmem else h in
    h ← store_next h pmem (next m);
    store_prev h (next m) pmem
  else Some h.

Definition plug_holes (h : heap) (mem : Z) : option heap :=
  m ← headers h !! mem;
  if (mem <? 0) || (heap_end h <=? mem) || negb (used m =? 0) then None else
  h ← plug_forward h mem;
  plug_backward h mem.

(** The addresses are those of the memory; [None] when there is too little. *)
Definition rt_system_heap_init (begin_addr end_addr : Z) : option heap :=
  let begin_align := RT_ALIGN begin_addr RT_ALIGN_SIZE in
  let end_align := RT_ALIGN_DOWN end_addr RT_ALIGN_SIZE in
  if (2 * SIZEOF_STRUCT_MEM <? end_align) && (begin_align <=? end_align - 2 * SIZEOF_STRUCT_MEM) then
    let size := u32 (end_align - begin_align - 2 * SIZEOF_STRUCT_MEM) in
    let fin := u32 (size + SIZEOF_STRUCT_MEM) in
    Some (mk_heap (<[fin := mk_heap_mem HEAP_MAGIC 1 fin fin]> {[0 := mk_heap_mem HEAP_MAGIC 0 fin 0]})
            size 0 0 0)
  else None.

(** [while (lfree->used && lfree != heap_end) lfree = lfree->next;] *)
Fixpoint next_free (fuel : nat) (h : heap) (o : Z) : option Z :=
  match fuel with
  | O => None
  | S fuel =>
      m ← headers h !! o;
      if negb (used m =? 0) && negb (o =? heap_end h) then next_free fuel h (next m) else Some o
  end.

Definition add_used (h : heap) (n : Z) : heap :=
  let used := u32 (used_mem h + n) in
  mk_heap (headers h) (mem_size_aligned h) (lfree h) used (if max_mem h <? used then used else max_mem h).

(** A remainder behind [size] bytes of the block at [ptr]. *)
Definition split_block (h : heap) (ptr size : Z) (mem : heap_mem) (new_used : Z) : option heap :=
  let ptr2 := ptr + SIZEOF_STRUCT_MEM + size in
  let h := set_header h ptr2 (mk_heap_mem HEAP_MAGIC 0 (next mem) ptr) in
  let h := set_header h ptr (mk_heap_mem (magic mem) new_used ptr2 (prev mem)) in
  if negb (next mem =? mem_size_aligned h + SIZEOF_STRUCT_MEM) then store_prev h (next mem) ptr2 else Some h.

(** The block at [ptr] is taken. *)
Definition malloc_take (h : heap) (ptr size : Z) (mem : heap_mem) : option (option Z * heap) :=
  h ← (if size + SIZEOF_STRUCT_MEM + MIN_SIZE_ALIGNED <=? u32 (next mem - (ptr + SIZEOF_STRUCT_MEM)) then
         h ← split_block h ptr size mem 1;
         Some (add_used h (size + SIZEOF_STRUCT_MEM))
       else Some (add_used (set_header h ptr (mk_heap_mem (magic mem) 1 (next mem) (prev mem)))
                   (next mem - ptr)));
  mem ← headers h !! ptr;
  let h := set_header h ptr (set_used mem (used mem)) in
  h ← (if ptr =? lfree h then
         o ← next_free (S (Z.to_nat (heap_end h))) h (lfree h); Some (set_lfree h o)
       else Some h);
  if heap_end h <? ptr + SIZEOF_STRUCT_MEM + size then None else
  Some (Some (ptr + SIZEOF_STRUCT_MEM), h).

Fixpoint malloc_loop (fuel : nat) (h : heap) (size ptr : Z) : option (option Z * heap) :=
  match fuel with
  | O => None
  | S fuel =>
      if ptr <? u32 (mem_size_aligned h - size) then
        mem ← headers h !! ptr;
        if (used mem =? 0) && (size <=? u32 (next mem - (ptr + SIZEOF_STRUCT_MEM)))
        then malloc_take h ptr size mem
        else malloc_loop fuel h size (next mem)
      else Some (None, h)
  end.

Definition rt_malloc (h : heap) (size : Z) : option (option Z * heap) :=
  if size =? 0 then Some (None, h) else
  let size := RT_ALIGN size RT_ALIGN_SIZE in
  if mem_size_aligned h <? size then Some (None, h) else
  let size := if size <? MIN_SIZE_ALIGNED then MIN_SIZE_ALIGNED else size in
  malloc_loop (S (Z.to_nat (heap_end h))) h size (lfree h).

Definition rt_free (h : heap) (rmem : option Z) : option heap :=
  match rmem with
  | None => Some h
  | Some rmem =>
      if negb (Z.land rmem (RT_ALIGN_SIZE - 1) =? 0) || (rmem <? 0) || (heap_end h <=? rmem) then None else
      let mem := rmem - SIZEOF_STRUCT_MEM in
      m ← headers h !! mem;
      if (used m =? 0) || negb (magic m =? HEAP_MAGIC) then None else
      let h := set_header h mem (set_used m 0) in
      let h := if mem <? lfree h then set_lfree h mem else h in
      let h := mk_heap (headers h) (mem_size_aligned h) (lfree h) (u32 (used_mem h - (next m - mem))) (max_mem h) in
      plug_holes h mem
  end.

(** The result of a reallocation, with the copy that moves the contents:
    from, to and the number of bytes. *)
Definition rt_realloc (h : heap) (rmem : option Z) (newsize : Z)
    : option (option Z * heap * option (Z * Z * Z)) :=
  let newsize := RT_ALIGN newsize RT_ALIGN_SIZE in
  if mem_size_aligned h <? newsize then Some (None, h, None) else
  if newsize =? 0 then h ← rt_free h rmem; Some (None, h, None) else
  match rmem with
  | None => '(p, h) ← rt_malloc h newsize; Some (p, h, None)
  | Some rmem =>
      if (rmem <? 0) || (heap_end h <=? rmem) then Some (Some rmem, h, None) else
      let ptr := rmem - SIZEOF_STRUCT_MEM in
      mem ← headers h !! ptr;
      let size := u32 (next mem - ptr - SIZEOF_STRUCT_MEM) in
      if size =? newsize then Some (Some rmem, h, None) else
      if newsize + SIZEOF_STRUCT_MEM + MIN_SIZE <? size then
        let h := mk_heap (headers h) (mem_size_aligned h) (lfree h) (u32 (used_mem h - (size - newsize)))
                   (max_mem h) in
        h ← split_block h ptr newsize mem (used mem);
        h ← plug_holes h (ptr + SIZEOF_STRUCT_MEM + newsize);
        Some (Some rmem, h, None)
      else
        '(nmem, h) ← rt_malloc h newsize;
        match nmem with
        | None => Some (None, h, None)
        | Some p =>
            let n := if size <? newsize then size else newsize in
            h ← rt_free h (Some rmem); Some (Some p, h, Some (rmem, p, n))
        end
  end.

(** The result comes with the number of bytes that are set to zero. *)
Definition rt_calloc (h : heap) (count size : Z) : option (option Z * heap * Z) :=
  '(p, h) ← rt_malloc h (u32 (count * size)); Some (p, h, u32 (count * size)).

Definition rt_memory_info (h : heap) : Z * Z * Z := (mem_size_aligned h, used_mem h, max_mem h).

(** ** The chain of blocks

    A heap is a list of blocks, each with its length (header included, so at
    least one word more) and whether it is in use; the positions follow from
    the lengths. *)

Notation blocks := (list (Z * bool)).

Definition flag (u : bool) : Z := if u then 1 else 0.

Fixpoint total (bs : blocks) : Z := match bs with [] => 0 | (len, _) :: bs => len + total bs end.

(** The position of the last block. *)
Fixpoint last_pos (before o : Z) (bs : blocks) : Z :=
  match bs with [] => before | (len, _) :: bs => last_pos o (o + len) bs end.

Fixpoint chain (hd : gmap Z heap_mem) (before o : Z) (bs : blocks) : Prop :=
  match bs with
  | [] => True
  | (len, u) :: bs =>
      16 <= len /\ len mod 4 = 0 /\
      hd !! o = Some (mk_heap_mem HEAP_MAGIC (flag u) (o + len) before) /\
      chain hd o (o + len) bs
  end.

Lemma total_app bs1 bs2 : total (bs1 ++ bs2) = total bs1 + total bs2.
Proof. induction bs1 as [|[len u] bs1 IH]; cbn; [lia|]. rewrite IH. lia. Qed.

Lemma chain_total hd before o bs : chain hd before o bs -> 0 <= total bs /\ total bs mod 4 = 0.
Proof.
  revert before o. induction bs as [|[len u] bs IH]; intros before o; cbn; [done|].
  intros (Hl & Hm & _ & Hc). destruct (IH _ _ Hc). split; [lia|]. Z.div_mod_to_equations. lia.
Qed.

Lemma chain_app hd before o bs1 bs2 : chain hd before o (bs1 ++ bs2) <->
  chain hd before o bs1 /\ chain hd (last_pos before o bs1) (o + total bs1) bs2.
Proof.
  revert before o. induction bs1 as [|[len u] bs1 IH]; intros before o; cbn.
  - rewrite Z.add_0_r. tauto.
  - rewrite IH. replace (o + (len + total bs1)) with (o + len + total bs1) by lia. tauto.
Qed.

(** Headers outside the range of the blocks do not matter. *)
Lemma chain_ext hd hd' before o bs : chain hd before o bs ->
  (forall x, o <= x < o + total bs -> hd' !! x = hd !! x) -> chain hd' before o bs.
Proof.
  revert before o. induction bs as [|[len u] bs IH]; intros before o; cbn; [done|].
  intros (Hl & Hm & Ho & Hc) Heq. destruct (chain_total _ _ _ _ Hc). split_and!; [done|done| |].
  - rewrite Heq by lia. done.
  - apply IH; [done|]. intros x Hx. apply Heq. lia.
Qed.

Lemma chain_insert hd before o bs x m : chain hd before o bs -> (x < o \/ o + total bs <= x) ->
  chain (<[x := m]> hd) before o bs.
Proof. intros Hc Hx. eapply chain_ext; [exact Hc|]. intros y Hy. apply lookup_insert_ne. lia. Qed.

(** The first header knows what lies in front of it. *)
Definition relink (hd : gmap Z heap_mem) (o before : Z) (bs : blocks) : gmap Z heap_mem :=
  match bs with
  | [] => hd
  | (len, u) :: _ => <[o := mk_heap_mem HEAP_MAGIC (flag u) (o + len) before]> hd
  end.

Lemma chain_relink hd before before' o bs : chain hd before o bs ->
  chain (relink hd o before' bs) before' o bs.
Proof.
  destruct bs as [|[len u] bs]; cbn; [done|]. intros (Hl & Hm & Ho & Hc). split_and!; [done|done| |].
  - by rewrite lookup_insert_eq.
  - apply chain_insert; [done|lia].
Qed.

Lemma last_pos_snoc before o bs len u : last_pos before o (bs ++ [(len, u)]) = o + total bs.
Proof.
  revert before o. induction bs as [|[l v] bs IH]; intros before o; cbn; [lia|]. rewrite IH. lia.
Qed.

(** ** The invariant *)

(** No two free blocks in a row. *)
Fixpoint no_holes (bs : blocks) : Prop :=
  match bs with
  | (_, u) :: (((_, v) :: _) as bs') => u || v = true /\ no_holes bs'
  | _ => True
  end.

Fixpoint used_total (bs : blocks) : Z :=
  match bs with [] => 0 | (len, u) :: bs => (if u : bool then len else 0) + used_total bs end.

(** A position where a free block starts, or the end of the heap. *)
Definition free_start (bs : blocks) (o : Z) : Prop :=
  o = total bs \/ exists pre len post, bs = pre ++ (len, false) :: post /\ o = total pre.

(** The headers agree with the blocks. *)
Record heap_shape (h : heap) (bs : blocks) : Prop := {
  hs_chain : chain (headers h) 0 0 bs;
  hs_total : total bs = heap_end h;
  hs_size : 12 <= mem_size_aligned h < 2 ^ 31 /\ mem_size_aligned h mod 4 = 0;
  hs_end : exists p, headers h !! heap_end h = Some (mk_heap_mem HEAP_MAGIC 1 (heap_end h) p);
}.

Record heap_inv (h : heap) (bs : blocks) : Prop := {
  hi_shape : heap_shape h bs;
  hi_holes : no_holes bs;
  hi_lfree : free_start bs (lfree h);
  hi_used : used_mem h = used_total bs;
}.

Lemma heap_end_eq h : heap_end h = mem_size_aligned h + 12.
Proof. reflexivity. Qed.

(** The header of a block and the blocks around it. *)
Lemma chain_at hd pre len u post : chain hd 0 0 (pre ++ (len, u) :: post) ->
  16 <= len /\ len mod 4 = 0 /\
  hd !! total pre = Some (mk_heap_mem HEAP_MAGIC (flag u) (total pre + len) (last_pos 0 0 pre)) /\
  chain hd 0 0 pre /\ chain hd (total pre) (total pre + len) post.
Proof.
  intros [Hpre Hpost]%chain_app. cbn in Hpost. destruct Hpost as (? & ? & ? & ?). by split_and!.
Qed.

Lemma chain_intro hd pre len u post : chain hd 0 0 pre -> 16 <= len -> len mod 4 = 0 ->
  hd !! total pre = Some (mk_heap_mem HEAP_MAGIC (flag u) (total pre + len) (last_pos 0 0 pre)) ->
  chain hd (total pre) (total pre + len) post -> chain hd 0 0 (pre ++ (len, u) :: post).
Proof. intros. apply chain_app. split; [done|]. cbn. by split_and!. Qed.

(** Setting the back link behind a block, in the next block or in the end. *)
Lemma store_prev_link h before o p post : chain (headers h) before o post ->
  o + total post = heap_end h ->
  (exists q, headers h !! heap_end h = Some (mk_heap_mem HEAP_MAGIC 1 (heap_end h) q)) ->
  exists m, store_prev h o p = Some (set_header h o m) /\ chain (<[o := m]> (headers h)) p o post /\
    exists q, <[o := m]> (headers h) !! heap_end h = Some (mk_heap_mem HEAP_MAGIC 1 (heap_end h) q).
Proof.
  intros Hc Ht [q Hq]. unfold store_prev. destruct post as [|[len u] post]; cbn in Hc, Ht.
  - replace o with (heap_end h) by lia. rewrite Hq. eexists. split; [reflexivity|]. split; [done|].
    exists p. apply lookup_insert_eq.
  - destruct Hc as (Hl & Hm & Ho & Hc). rewrite Ho. eexists. split; [reflexivity|]. split.
    + cbn. split_and!; [done|done|by rewrite lookup_insert_eq|]. apply chain_insert; [done|lia].
    + exists q. rewrite lookup_insert_ne; [done|]. destruct (chain_total _ _ _ _ Hc). lia.
Qed.

(** ** Merging free blocks *)

Definition merge_forward (len : Z) (post : blocks) : blocks :=
  match post with (l, false) :: post => (len + l, false) :: post | _ => (len, false) :: post end.

(** What the two parts of [plug_holes] leave alone; [lfree] only moves down. *)
Definition same_account (h h' : heap) : Prop :=
  mem_size_aligned h' = mem_size_aligned h /\ used_mem h' = used_mem h /\ max_mem h' = max_mem h /\
  lfree h' <= lfree h.

Lemma free_start_here pre len post : free_start (pre ++ (len, false) :: post) (total pre).
Proof. right. by eexists _, _, _. Qed.

(** A free start in front of, at, or behind a block. *)
Lemma free_start_split pre len u post o : free_start (pre ++ (len, u) :: post) o ->
  (exists p l q, pre = p ++ (l, false) :: q /\ o = total p) \/ (u = false /\ o = total pre) \/
  (exists o', o = total pre + len + o' /\ free_start post o').
Proof.
  intros [->|(p & l & q & Heq & ->)].
  - right. right. exists (total post). rewrite total_app. cbn. split; [lia|by left].
  - apply app_eq_inv in Heq as [(k & -> & Hk)|(k & -> & Hk)].
    + destruct k as [|[l' v] k]; injection Hk as -> -> ->.
      * right. left. split; [done|]. by rewrite app_nil_r.
      * left. by eexists _, _, _.
    + destruct k as [|[l' v] k]; injection Hk as -> -> ->.
      * right. left. split; [done|]. by rewrite app_nil_r.
      * right. right. exists (total k). rewrite total_app. cbn. split; [lia|]. apply free_start_here.
Qed.

Lemma free_start_before p l q rest : free_start ((p ++ (l, false) :: q) ++ rest) (total p).
Proof. rewrite <-(assoc_L (++)). apply free_start_here. Qed.

Lemma free_start_behind pre post o : free_start post o -> free_start (pre ++ post) (total pre + o).
Proof.
  intros [->|(p & l & q & -> & ->)]; [left; by rewrite total_app|].
  right. exists (pre ++ p), l, q. rewrite total_app. by rewrite (assoc_L (++)).
Qed.

Lemma plug_forward_merges h pre len post : heap_shape h (pre ++ (len, false) :: post) ->
  free_start (pre ++ (len, false) :: post) (lfree h) ->
  exists h', plug_forward h (total pre) = Some h' /\ same_account h h' /\
    heap_shape h' (pre ++ merge_forward len post) /\ free_start (pre ++ merge_forward len post) (lfree h').
Proof.
  intros Hshape Hf. pose proof Hshape as [Hc Ht Hs He]. destruct (chain_at _ _ _ _ _ Hc) as (Hl & Hm & Ho & Hpre & Hpost).
  unfold plug_forward. rewrite Ho. cbn [mbind option_bind next]. rewrite total_app in Ht. cbn [total] in Ht.
  assert (forall n, headers h !! (total pre + len) = Some n -> used n <> 0 \/ total pre + len = heap_end h ->
    merge_forward len post = (len, false) :: post ->
    exists h', (n ← headers h !! (total pre + len);
      if negb (total pre =? total pre + len) && (used n =? 0) && negb (total pre + len =? heap_end h) then
        let h := if lfree h =? total pre + len then set_lfree h (total pre) else h in
        h ← store_next h (total pre) (next n); store_prev h (next n) (total pre)
      else Some h) = Some h' /\ same_account h h' /\
    heap_shape h' (pre ++ merge_forward len post) /\
    free_start (pre ++ merge_forward len post) (lfree h')) as Hskip.
  { intros n Hn Hu Hmerge. rewrite Hn, Hmerge. cbn [mbind option_bind].
    assert (negb (total pre =? total pre + len) && (used n =? 0) && negb (total pre + len =? heap_end h) = false)
      as ->.
    { destruct Hu as [Hu| ->]; [rewrite (proj2 (Z.eqb_neq _ _) Hu), andb_false_r; done|].
      by rewrite Z.eqb_refl, andb_false_r. }
    exists h. unfold same_account. split_and!; done || lia. }
  destruct post as [|[l [|]] post].
  - destruct He as [q He]. apply (Hskip (mk_heap_mem HEAP_MAGIC 1 (heap_end h) q)); [|by left|done].
    cbn [total] in Ht. by replace (total pre + len) with (heap_end h) by lia.
  - cbn in Hpost. destruct Hpost as (_ & _ & Hn & _). eapply Hskip; [exact Hn|by left|done].
  - cbn in Hpost. destruct Hpost as (Hl2 & Hm2 & Hn & Hpost2). rewrite Hn. cbn [mbind option_bind used next flag].
    destruct (chain_total _ _ _ _ Hpost2) as [Hp0 _]. cbn [total] in Ht.
    destruct (Z.eqb_spec (total pre) (total pre + len)); [lia|].
    destruct (Z.eqb_spec (total pre + len) (heap_end h)); [lia|]. cbn [negb andb Z.eqb].
    set (h1 := if lfree h =? total pre + len then set_lfree h (total pre) else h).
    assert (headers h1 = headers h /\ heap_end h1 = heap_end h /\ same_account h h1) as (Hh1 & He1 & Ha1)
      by (unfold h1, same_account; destruct (Z.eqb_spec (lfree h) (total pre + len)); split_and!; cbn; done || lia).
    unfold store_next. rewrite Hh1, Ho. cbn [mbind option_bind].
    set (m := set_next _ _). set (h2 := set_header h1 (total pre) m).
    destruct (store_prev_link h2 (total pre + len) (total pre + len + l) (total pre) post) as (m' & -> & Hc2 & He2).
    + unfold h2. cbn [headers set_header]. rewrite Hh1. apply chain_insert; [done|lia].
    + unfold h2. change (heap_end (set_header h1 (total pre) m)) with (heap_end h1). lia.
    + unfold h2. change (heap_end (set_header h1 (total pre) m)) with (heap_end h1). rewrite He1.
      destruct He as [q He]. exists q. cbn [headers set_header]. rewrite Hh1, lookup_insert_ne by lia. done.
    + exists (set_header h2 (total pre + len + l) m'). split; [done|]. split; [done|]. cbn [merge_forward].
      change (heap_end h2) with (heap_end h1) in He2. split; [split|].
      * apply chain_intro; [|lia|Z.div_mod_to_equations; lia| |].
        -- unfold h2. cbn [headers set_header]. rewrite Hh1. do 2 (apply chain_insert; [|lia]). done.
        -- unfold h2. cbn [headers set_header]. rewrite lookup_insert_ne, lookup_insert_eq by lia.
           unfold m, set_next. cbn. do 2 f_equal. lia.
        -- cbn [headers set_header]. by replace (total pre + (len + l)) with (total pre + len + l) by lia.
      * rewrite total_app. cbn [total]. change (heap_end (set_header h2 (total pre + len + l) m')) with (heap_end h1).
        lia.
      * change (mem_size_aligned (set_header h2 (total pre + len + l) m')) with (mem_size_aligned h1).
        by destruct Ha1 as [-> _].
      * exact He2.
      * change (lfree (set_header h2 (total pre + len + l) m')) with (lfree h1). unfold h1.
        destruct (Z.eqb_spec (lfree h) (total pre + len)) as [Hlf|Hne]; [apply free_start_here|].
        apply free_start_split in Hf as [(p & l' & q & -> & Hlf)|[[_ Hlf]|(o & Hlf & Hf)]]; rewrite Hlf.
        -- apply free_start_before.
        -- apply free_start_here.
        -- apply (free_start_split []) in Hf as [(p & ? & ? & Hp & _)|[[_ ->]|(o' & -> & Hf)]].
           ++ by destruct p.
           ++ cbn in Hlf. lia.
           ++ cbn [total]. replace (total pre + len + (0 + l + o')) with (total (pre ++ [(len + l, false)]) + o')
                by (rewrite total_app; cbn; lia).
              replace (pre ++ (len + l, false) :: post) with ((pre ++ [(len + l, false)]) ++ post)
                by (by rewrite <-(assoc_L (++))).
              by apply free_start_behind.
Qed.

(** The free block joins a free block in front of it. *)
Fixpoint merge_back (pre : blocks) (len : Z) (post : blocks) : blocks :=
  match pre with
  | [] => (len, false) :: post
  | (l, u) :: pre =>
      match pre, u with
      | [], false => (l + len, false) :: post
      | _, _ => (l, u) :: merge_back pre len post
      end
  end.

Lemma merge_back_snoc pre l u len post : merge_back (pre ++ [(l, u)]) len post =
  pre ++ (if u then (l, true) :: (len, false) :: post else (l + len, false) :: post).
Proof.
  induction pre as [|[l0 u0] pre IH]; [by destruct u|]. cbn [app merge_back]. rewrite IH.
  destruct (pre ++ [(l, u)]) eqn:He; [by destruct pre|done].
Qed.

Lemma plug_backward_merges h pre len post : heap_shape h (pre ++ (len, false) :: post) ->
  free_start (pre ++ (len, false) :: post) (lfree h) ->
  exists h', plug_backward h (total pre) = Some h' /\ same_account h h' /\
    heap_shape h' (merge_back pre len post) /\ free_start (merge_back pre len post) (lfree h').
Proof.
  intros Hshape Hf. pose proof Hshape as [Hc Ht Hs He].
  destruct (chain_at _ _ _ _ _ Hc) as (Hl & Hm & Ho & Hpre & Hpost).
  unfold plug_backward. rewrite Ho. cbn [mbind option_bind prev next].
  destruct pre as [|[l u] pre _] using rev_ind.
  - change (headers h !! last_pos 0 0 []) with (headers h !! total []). rewrite Ho. cbn [mbind option_bind].
    change (last_pos 0 0 [] =? total []) with true. cbn [negb andb]. exists h. unfold same_account. split_and!; done || lia.
  - rewrite last_pos_snoc, Z.add_0_l, merge_back_snoc in *.
    destruct (chain_at _ _ _ _ _ Hpre) as (Hl2 & Hm2 & Ho2 & Hpre2 & _). rewrite Ho2. cbn [mbind option_bind used].
    rewrite total_app in *. cbn [total] in *. rewrite Z.add_0_r in *.
    destruct (Z.eqb_spec (total pre) (total pre + l)); [lia|]. cbn [negb].
    destruct u; cbn [flag Z.eqb andb].
    { exists h. rewrite <-(assoc_L (++)) in Hshape, Hf. unfold same_account. split_and!; done || lia. }
    set (h1 := if lfree h =? total pre + l then set_lfree h (total pre) else h).
    assert (headers h1 = headers h /\ heap_end h1 = heap_end h /\ same_account h h1) as (Hh1 & He1 & Ha1)
      by (unfold h1, same_account; destruct (Z.eqb_spec (lfree h) (total pre + l)); split_and!; cbn; done || lia).
    unfold store_next. rewrite Hh1, Ho2. cbn [mbind option_bind].
    set (m := set_next _ _). set (h2 := set_header h1 (total pre) m).
    assert (heap_end h2 = heap_end h) as He2 by exact He1.
    rewrite total_app in Ht. cbn [total] in Ht.
    destruct (chain_total _ _ _ _ Hpost) as [Hp0 _].
    destruct (store_prev_link h2 (total pre + l) (total pre + l + len) (total pre) post) as (m' & -> & Hc2 & Hend).
    + unfold h2. cbn [headers set_header]. rewrite Hh1. apply chain_insert; [done|lia].
    + rewrite He2. lia.
    + rewrite He2. destruct He as [q He]. exists q. unfold h2. cbn [headers set_header].
      rewrite Hh1, lookup_insert_ne by lia. done.
    + exists (set_header h2 (total pre + l + len) m'). split; [done|]. split; [done|]. split; [split|].
      * apply chain_intro; [|lia|Z.div_mod_to_equations; lia| |].
        -- unfold h2. cbn [headers set_header]. rewrite Hh1. do 2 (apply chain_insert; [|lia]). done.
        -- unfold h2. cbn [headers set_header]. rewrite lookup_insert_ne, lookup_insert_eq by lia.
           unfold m, set_next. cbn. do 2 f_equal. lia.
        -- cbn [headers set_header]. by replace (total pre + (l + len)) with (total pre + l + len) by lia.
      * rewrite total_app. cbn [total]. change (heap_end (set_header h2 (total pre + l + len) m')) with (heap_end h2).
        lia.
      * change (mem_size_aligned (set_header h2 (total pre + l + len) m')) with (mem_size_aligned h1).
        by destruct Ha1 as [-> _].
      * change (heap_end (set_header h2 (total pre + l + len) m')) with (heap_end h2). exact Hend.
      * change (lfree (set_header h2 (total pre + l + len) m')) with (lfree h1). unfold h1.
        destruct (Z.eqb_spec (lfree h) (total pre + l)) as [Hlf|Hne]; [apply free_start_here|].
        apply free_start_split in Hf as [(p & l' & q & Hp & Hlf)|[[_ Hlf]|(o & Hlf & Hf)]]; rewrite Hlf.
        -- destruct q as [|b q _] using rev_ind.
           ++ apply app_inj_tail in Hp as [-> _]. apply free_start_here.
           ++ change ((l', false) :: q ++ [b]) with (((l', false) :: q) ++ [b]) in Hp.
              rewrite (assoc_L (++)) in Hp. apply app_inj_tail in Hp as [-> _]. apply free_start_before.
        -- rewrite total_app in Hlf. cbn in Hlf. lia.
        -- rewrite total_app. cbn [total].
           replace (total pre + (l + 0) + len + o) with (total (pre ++ [(l + len, false)]) + o)
             by (rewrite total_app; cbn; lia).
           replace (pre ++ (l + len, false) :: post) with ((pre ++ [(l + len, false)]) ++ post)
             by (by rewrite <-(assoc_L (++))).
           by apply free_start_behind.
Qed.

Definition merge (pre : blocks) (len : Z) (post : blocks) : blocks :=
  match merge_forward len post with
  | [] => pre
  | (l, _) :: post => merge_back pre l post
  end.

Lemma plug_holes_merges h pre len post : heap_shape h (pre ++ (len, false) :: post) ->
  free_start (pre ++ (len, false) :: post) (lfree h) ->
  exists h', plug_holes h (total pre) = Some h' /\ same_account h h' /\
    heap_shape h' (merge pre len post) /\ free_start (merge pre len post) (lfree h').
Proof.
  intros Hshape Hf. pose proof Hshape as [Hc Ht _ _].
  destruct (chain_at _ _ _ _ _ Hc) as (Hl & _ & Ho & Hpre & Hpost).
  destruct (chain_total _ _ _ _ Hpre) as [? _], (chain_total _ _ _ _ Hpost) as [? _].
  rewrite total_app in Ht. cbn [total] in Ht.
  unfold plug_holes. rewrite Ho. cbn [mbind option_bind used flag].
  destruct (Z.ltb_spec (total pre) 0); [lia|]. destruct (Z.leb_spec (heap_end h) (total pre)); [lia|].
  cbn [orb negb Z.eqb].
  destruct (plug_forward_merges h pre len post Hshape Hf) as (h1 & -> & Ha1 & Hs1 & Hf1).
  cbn [mbind option_bind]. unfold merge.
  assert (exists l post1, merge_forward len post = (l, false) :: post1) as (l & post1 & Hm)
    by (destruct post as [|[l [|]] post]; by eexists _, _).
  rewrite Hm in *. destruct (plug_backward_merges h1 pre l post1 Hs1 Hf1) as (h2 & -> & Ha2 & Hs2 & Hf2).
  exists h2. split; [done|]. split; [|done]. destruct Ha1 as (? & ? & ? & ?), Ha2 as (? & ? & ? & ?).
  split_and!; congruence || lia.
Qed.

(** ** What is allocated

    The positions and lengths of the blocks in use. *)
Fixpoint allocated (o : Z) (bs : blocks) : list (Z * Z) :=
  match bs with
  | [] => []
  | (len, u) :: bs => (if u : bool then [(o, len)] else []) ++ allocated (o + len) bs
  end.

Lemma allocated_app o a b : allocated o (a ++ b) = allocated o a ++ allocated (o + total a) b.
Proof.
  revert o. induction a as [|[len u] a IH]; intros o; cbn; [by rewrite Z.add_0_r|].
  rewrite IH, <-(assoc_L (++)). do 3 f_equal. lia.
Qed.

Lemma used_total_app a b : used_total (a ++ b) = used_total a + used_total b.
Proof. induction a as [|[len u] a IH]; cbn; [done|]. rewrite IH. lia. Qed.

Lemma merge_back_keeps pre len post :
  allocated 0 (merge_back pre len post) = allocated 0 (pre ++ (len, false) :: post) /\
  used_total (merge_back pre len post) = used_total (pre ++ (len, false) :: post).
Proof.
  destruct pre as [|[l u] pre _] using rev_ind; [done|]. rewrite merge_back_snoc.
  rewrite <-(assoc_L (++)). cbn [app]. destruct u; [done|]. rewrite !allocated_app, !used_total_app. cbn.
  split; [|lia]. do 2 f_equal. lia.
Qed.

Lemma merge_keeps pre len post :
  allocated 0 (merge pre len post) = allocated 0 (pre ++ (len, false) :: post) /\
  used_total (merge pre len post) = used_total (pre ++ (len, false) :: post).
Proof.
  unfold merge. destruct post as [|[l [|]] post]; cbn [merge_forward]; [apply merge_back_keeps..|].
  destruct (merge_back_keeps pre (len + l) post) as [-> ->].
  rewrite !allocated_app, !used_total_app. cbn. split; [|lia]. do 2 f_equal. lia.
Qed.

(** The positions of the free blocks. *)
Fixpoint free_positions (o : Z) (bs : blocks) : list Z :=
  match bs with
  | [] => []
  | (len, u) :: bs => (if u : bool then [] else [o]) ++ free_positions (o + len) bs
  end.

Lemma free_positions_app o a b : free_positions o (a ++ b) = free_positions o a ++ free_positions (o + total a) b.
Proof.
  revert o. induction a as [|[len u] a IH]; intros o; cbn; [by rewrite Z.add_0_r|].
  rewrite IH, <-(assoc_L (++)). do 3 f_equal. lia.
Qed.

Lemma merge_back_free P pre len post : Forall P (free_positions 0 (pre ++ (len, false) :: post)) ->
  Forall P (free_positions 0 (merge_back pre len post)).
Proof.
  destruct pre as [|[l u] pre _] using rev_ind; [done|]. rewrite merge_back_snoc, <-(assoc_L (++)). cbn [app].
  destruct u; [done|]. rewrite !free_positions_app. cbn. rewrite !Forall_app, !Forall_cons.
  intros (? & ? & _ & ?). split_and!; [done..|]. by rewrite Z.add_assoc.
Qed.

Lemma merge_free P pre len post : Forall P (free_positions 0 (pre ++ (len, false) :: post)) ->
  Forall P (free_positions 0 (merge pre len post)).
Proof.
  unfold merge. destruct post as [|[l [|]] post]; cbn [merge_forward]; try apply merge_back_free.
  intros H. apply merge_back_free. rewrite !free_positions_app in *. cbn in *.
  rewrite !Forall_app, !Forall_cons in *. destruct H as (? & ? & _ & ?). split_and!; [done..|].
  by rewrite <-Z.add_assoc in *.
Qed.

(** Two free blocks do not meet. *)
Definition seam (a b : blocks) : Prop :=
  match last a, b with Some (_, false), (_, false) :: _ => False | _, _ => True end.

Lemma no_holes_app a b : no_holes (a ++ b) <-> no_holes a /\ no_holes b /\ seam a b.
Proof.
  induction a as [|[len u] a IH]; [by unfold seam; cbn; tauto|]. destruct a as [|[l v] a].
  - cbn [app]. destruct b as [|[l v] b]; [by destruct u|]. unfold seam. cbn. destruct u, v; cbn; intuition done.
  - cbn [app] in *. cbn [no_holes]. rewrite IH. unfold seam. change (last ((len, u) :: (l, v) :: a)) with (last ((l, v) :: a)).
    tauto.
Qed.

Lemma merge_no_holes pre len post : no_holes pre -> no_holes post -> no_holes (merge pre len post).
Proof.
  intros Hpre Hpost.
  assert (forall l post, no_holes post -> seam [(l, false)] post -> no_holes (merge_back pre l post)) as Hback.
  { clear len post Hpost. intros len post Hpost Hseam.
    assert (no_holes ((len, false) :: post)) as Hp by (by apply (no_holes_app [_]); split_and!).
    destruct pre as [|[l u] pre _] using rev_ind; [done|]. rewrite merge_back_snoc.
    apply no_holes_app in Hpre as (Hpre & _ & Hs). unfold seam in Hs. destruct u.
    - apply no_holes_app. split_and!; [done|by cbn; split|]. unfold seam. by destruct (last pre) as [[? []]|].
    - apply no_holes_app. split_and!; [done| |].
      + apply (no_holes_app [_]). split_and!; [done|done|exact Hseam].
      + unfold seam. by destruct (last pre) as [[? []]|]. }
  unfold merge. destruct post as [|[l [|]] post]; cbn [merge_forward].
  - by apply Hback.
  - by apply Hback.
  - apply (no_holes_app [_]) in Hpost as (_ & Hpost & Hs). by apply Hback.
Qed.

Lemma allocated_positions o bs x len : (x, len) ∈ allocated o bs ->
  exists pre post, bs = pre ++ (len, true) :: post /\ x = o + total pre.
Proof.
  revert o. induction bs as [|[l u] bs IH]; intros o; cbn; [by intros ?%elem_of_nil|].
  intros [Hin|Hin]%elem_of_app.
  - destruct u; [|by apply elem_of_nil in Hin]. apply list_elem_of_singleton in Hin as [= -> ->].
    exists [], bs. split; [done|cbn; lia].
  - destruct (IH _ Hin) as (pre & post & -> & ->). exists ((l, u) :: pre), post. split; [done|cbn; lia].
Qed.

(** ** Freeing *)

Lemma set_header_same h o m : headers h !! o = Some m -> set_header h o m = h.
Proof. destruct h. unfold set_header. cbn. intros Ho. by rewrite insert_id. Qed.

(** Blocks change their state when their header does. *)
Lemma shape_set_used h pre len u v post m : heap_shape h (pre ++ (len, u) :: post) ->
  m = mk_heap_mem HEAP_MAGIC (flag v) (total pre + len) (last_pos 0 0 pre) ->
  heap_shape (set_header h (total pre) m) (pre ++ (len, v) :: post).
Proof.
  intros [Hc Ht Hs [q He]] ->. destruct (chain_at _ _ _ _ _ Hc) as (Hl & Hm & Ho & Hpre & Hpost).
  destruct (chain_total _ _ _ _ Hpost) as [? _]. rewrite total_app in Ht. cbn [total] in Ht. split.
  - apply chain_intro; [|done|done| |].
    + apply chain_insert; [done|lia].
    + apply lookup_insert_eq.
    + apply chain_insert; [done|lia].
  - rewrite total_app. exact Ht.
  - exact Hs.
  - exists q. cbn [headers set_header]. rewrite lookup_insert_ne; [done|].
    change (heap_end (set_header h _ _)) with (heap_end h). lia.
Qed.

Lemma free_start_set_free pre len u post o : free_start (pre ++ (len, u) :: post) o ->
  free_start (pre ++ (len, false) :: post) o.
Proof.
  intros [(p & l & q & -> & ->)|[[_ ->]|(o' & -> & Hf)]]%free_start_split.
  - apply free_start_before.
  - apply free_start_here.
  - replace (total pre + len + o') with (total (pre ++ [(len, false)]) + o') by (rewrite total_app; cbn; lia).
    replace (pre ++ (len, false) :: post) with ((pre ++ [(len, false)]) ++ post) by (by rewrite <-(assoc_L (++))).
    by apply free_start_behind.
Qed.

(** [lfree] is the lowest free block. *)
Definition lowest (h : heap) (bs : blocks) : Prop := Forall (fun x => lfree h <= x) (free_positions 0 bs).

Lemma used_total_bound hd b o bs : chain hd b o bs -> 0 <= used_total bs <= total bs.
Proof.
  revert b o. induction bs as [|[l u] bs IH]; intros b o; cbn; [lia|]. intros (? & _ & _ & Hc).
  specialize (IH _ _ Hc). destruct u; lia.
Qed.

(** Freeing one block. *)
Lemma free_block h pre len post : heap_inv h (pre ++ (len, true) :: post) ->
  exists h', rt_free h (Some (total pre + 12)) = Some h' /\ heap_inv h' (merge pre len post) /\
    mem_size_aligned h' = mem_size_aligned h /\ max_mem h' = max_mem h /\
    (lowest h (pre ++ (len, true) :: post) -> lowest h' (merge pre len post)).
Proof.
  intros [Hshape Hholes Hf Hu]. pose proof Hshape as [Hc Ht [Hs Hs4] _].
  destruct (chain_at _ _ _ _ _ Hc) as (Hl & Hm & Ho & Hpre & Hpost).
  destruct (chain_total _ _ _ _ Hpre) as [Hp0 Hp4], (chain_total _ _ _ _ Hpost) as [? _].
  pose proof (used_total_bound _ _ _ _ Hpre) as Hub1. pose proof (used_total_bound _ _ _ _ Hpost) as Hub2.
  rewrite used_total_app, total_app in *. cbn [total used_total] in *. rewrite heap_end_eq in Ht.
  unfold rt_free. change (RT_ALIGN_SIZE - 1) with (Z.ones 2). rewrite Z.land_ones by lia. change (2 ^ 2) with 4.
  replace ((total pre + 12) mod 4) with 0 by (Z.div_mod_to_equations; lia).
  destruct (Z.ltb_spec (total pre + 12) 0); [lia|].
  destruct (Z.leb_spec (heap_end h) (total pre + 12)) as [Hle|_]; [rewrite heap_end_eq in Hle; lia|].
  change (total pre + 12 - SIZEOF_STRUCT_MEM) with (total pre + 12 - 12).
  replace (total pre + 12 - 12) with (total pre) by lia. rewrite Ho.
  cbn [orb negb Z.eqb mbind option_bind used magic flag next HEAP_MAGIC Pos.eqb].
  set (h1 := set_header h (total pre) _).
  assert (heap_shape h1 (pre ++ (len, false) :: post)) as Hs1 by (by eapply shape_set_used).
  set (h2 := if total pre <? lfree h1 then set_lfree h1 (total pre) else h1).
  assert (heap_shape h2 (pre ++ (len, false) :: post) /\ free_start (pre ++ (len, false) :: post) (lfree h2) /\
    lfree h2 <= lfree h /\ lfree h2 <= total pre /\ mem_size_aligned h2 = mem_size_aligned h /\
    used_mem h2 = used_mem h /\ max_mem h2 = max_mem h) as (Hs2 & Hf2 & Hl1 & Hl2 & Hsz2 & Hus2 & Hmx2).
  { unfold h2. change (lfree h1) with (lfree h). destruct (Z.ltb_spec (total pre) (lfree h)).
    - split_and!; [by destruct Hs1; split|apply free_start_here|cbn; lia|cbn; lia|done..].
    - change (lfree h1) with (lfree h).
      split_and!; [done|by eapply free_start_set_free|lia|lia|done..]. }
  set (h3 := mk_heap (headers h2) _ _ _ _).
  assert (heap_shape h3 (pre ++ (len, false) :: post)) as Hs3 by (by destruct Hs2; split).
  destruct (plug_holes_merges h3 pre len post Hs3 Hf2) as (h4 & -> & (Hsz & Hus & Hmx & Hlf) & Hs4' & Hf4).
  destruct (merge_keeps pre len post) as [_ Hkeep]. rewrite used_total_app in Hkeep. cbn [used_total] in Hkeep.
  exists h4. split; [done|]. split_and!.
  - split; [done| |done|].
    + apply no_holes_app in Hholes as (? & Hh & _). apply merge_no_holes; [done|].
      by apply (no_holes_app [_]) in Hh as (_ & ? & _).
    + rewrite Hus, Hkeep. unfold h3. cbn [used_mem]. rewrite Hus2, Hu, u32_small; lia.
  - by rewrite Hsz.
  - by rewrite Hmx.
  - intros Hlow. apply merge_free. unfold lowest in Hlow. rewrite free_positions_app in *. cbn in *.
    apply Forall_app in Hlow as [Hlow1 Hlow2]. apply Forall_app. split_and!; [|apply Forall_cons; split].
    all: try (eapply Forall_impl; [eassumption|]; intros x Hx; cbn in Hx).
    all: unfold h3 in Hlf; cbn [lfree] in Hlf; lia.
Qed.

(** ** Allocating *)

Lemma chain_length hd b o bs : chain hd b o bs -> 16 * Z.of_nat (length bs) <= total bs.
Proof.
  revert b o. induction bs as [|[l u] bs IH]; intros b o; cbn -[Z.mul]; [lia|].
  intros (? & _ & _ & Hc). specialize (IH _ _ Hc). lia.
Qed.

Lemma free_positions_from hd b o bs lo : lo <= o -> chain hd b o bs ->
  Forall (fun x => lo <= x) (free_positions o bs).
Proof.
  revert b o. induction bs as [|[l u] bs IH]; intros b o Hlo; cbn; [constructor|].
  intros (? & _ & _ & Hc). apply Forall_app. split; [destruct u; by constructor|].
  apply (IH o (o + l)); [lia|done].
Qed.

Lemma next_free_finds fuel h pre post : heap_shape h (pre ++ post) -> (length post < fuel)%nat ->
  exists o, next_free fuel h (total pre) = Some o /\ free_start (pre ++ post) o /\
    Forall (fun x => o <= x) (free_positions (total pre) post).
Proof.
  revert fuel pre. induction post as [|[l u] post IH]; intros fuel pre Hs Hf; (destruct fuel as [|fuel]; [simpl in Hf; lia|]).
  - rewrite app_nil_r in *. destruct Hs as [_ Ht _ [q He]]. cbn [next_free]. rewrite Ht, He.
    cbn [mbind option_bind used]. rewrite Z.eqb_refl, andb_false_r. exists (heap_end h).
    split_and!; [done|by left|constructor].
  - pose proof Hs as [Hc Ht _ _]. destruct (chain_at _ _ _ _ _ Hc) as (Hl & _ & Ho & Hpre & Hpost).
    destruct (chain_total _ _ _ _ Hpost) as [? _]. rewrite total_app in Ht. cbn [total] in Ht.
    cbn [next_free]. rewrite Ho. cbn [mbind option_bind used next]. destruct u; cbn [flag Z.eqb negb andb].
    + destruct (Z.eqb_spec (total pre) (heap_end h)); [lia|]. cbn [negb].
      destruct (IH fuel (pre ++ [(l, true)])) as (o & Hn & Hfs & Hlow);
        [by rewrite <-(assoc_L (++))|simpl in Hf; lia|].
      rewrite total_app in Hn, Hlow. cbn [total] in Hn, Hlow. rewrite Z.add_0_r in Hn, Hlow.
      rewrite <-(assoc_L (++)) in Hfs. by exists o.
    + exists (total pre). split; [done|]. split; [apply free_start_here|]. cbn [free_positions].
      apply Forall_cons. split; [lia|]. by apply (free_positions_from (headers h) (total pre)); [lia|].
Qed.

(** A block of [size] bytes and the free remainder behind it. *)
Lemma split_block_shape h pre len u v post size mem : heap_shape h (pre ++ (len, u) :: post) ->
  headers h !! total pre = Some mem -> 4 <= size -> size mod 4 = 0 -> size + 28 <= len ->
  exists h', split_block h (total pre) size mem (flag v) = Some h' /\
    heap_shape h' (pre ++ (size + 12, v) :: (len - (size + 12), false) :: post) /\
    headers h' !! total pre = Some (mk_heap_mem HEAP_MAGIC (flag v) (total pre + (size + 12)) (last_pos 0 0 pre)) /\
    mem_size_aligned h' = mem_size_aligned h /\ lfree h' = lfree h /\ used_mem h' = used_mem h /\
    max_mem h' = max_mem h.
Proof.
  intros [Hc Ht Hs He] Hmem Hsize Hsize4 Hlen.
  destruct (chain_at _ _ _ _ _ Hc) as (Hl & Hm & Ho & Hpre & Hpost).
  rewrite Ho in Hmem. injection Hmem as <-.
  destruct (chain_total _ _ _ _ Hpre) as [? _], (chain_total _ _ _ _ Hpost) as [? _].
  rewrite total_app in Ht. cbn [total] in Ht. unfold split_block. cbn [next magic prev].
  change (total pre + SIZEOF_STRUCT_MEM + size) with (total pre + 12 + size).
  set (h1 := set_header (set_header h (total pre + 12 + size) _) (total pre) _).
  change (mem_size_aligned h1 + SIZEOF_STRUCT_MEM) with (heap_end h).
  assert (chain (headers h1) (total pre) (total pre + len) post) as Hpost1.
  { unfold h1. cbn [headers set_header]. do 2 (apply chain_insert; [|lia]). done. }
  assert (exists q, headers h1 !! heap_end h = Some (mk_heap_mem HEAP_MAGIC 1 (heap_end h) q)) as He1.
  { destruct He as [q He]. exists q. unfold h1. cbn [headers set_header]. by rewrite !lookup_insert_ne by lia. }
  assert (exists h', (if negb (total pre + len =? heap_end h)
      then store_prev h1 (total pre + len) (total pre + 12 + size) else Some h1) = Some h' /\
    chain (headers h') (total pre + 12 + size) (total pre + len) post /\
    (exists q, headers h' !! heap_end h = Some (mk_heap_mem HEAP_MAGIC 1 (heap_end h) q)) /\
    (forall x, x < total pre + len -> headers h' !! x = headers h1 !! x) /\
    mem_size_aligned h' = mem_size_aligned h /\ lfree h' = lfree h /\ used_mem h' = used_mem h /\
    max_mem h' = max_mem h) as (h' & -> & Hpost' & He' & Hsame & Hfields).
  { destruct (Z.eqb_spec (total pre + len) (heap_end h)) as [Hend|Hne]; cbn [negb].
    - exists h1. split_and!; try done. destruct post as [|[l' u'] post]; [done|].
      cbn in Hpost. destruct Hpost as (? & _ & _ & Hp2). destruct (chain_total _ _ _ _ Hp2). cbn [total] in Ht. lia.
    - destruct (store_prev_link h1 (total pre) (total pre + len) (total pre + 12 + size) post Hpost1)
        as (m & -> & Hc2 & He2); [change (heap_end h1) with (heap_end h); lia|exact He1|].
      eexists. split; [reflexivity|]. split_and!; [exact Hc2|exact He2| |done..].
      intros x Hx. cbn [headers set_header]. by rewrite lookup_insert_ne by lia. }
  exists h'. split; [done|].
  assert (headers h' !! total pre = Some (mk_heap_mem HEAP_MAGIC (flag v) (total pre + (size + 12)) (last_pos 0 0 pre)))
    as Hhdr.
  { rewrite Hsame by lia. unfold h1. cbn [headers set_header]. rewrite lookup_insert_eq. do 2 f_equal. lia. }
  split_and!; [|done|apply Hfields..]. destruct Hfields as (Hms & _). split.
  - apply chain_intro; [|lia|Z.div_mod_to_equations; lia|done|].
    + eapply chain_ext; [exact Hpre|]. intros x Hx. rewrite Hsame by lia. unfold h1. cbn [headers set_header].
      by rewrite !lookup_insert_ne by lia.
    + cbn. replace (total pre + (size + 12)) with (total pre + 12 + size) by lia. split_and!; [lia| | |].
      * Z.div_mod_to_equations. lia.
      * rewrite Hsame by lia. unfold h1. cbn [headers set_header]. rewrite lookup_insert_ne, lookup_insert_eq by lia.
        cbn. do 2 f_equal. lia.
      * by replace (total pre + 12 + size + (len - (size + 12))) with (total pre + len) by lia.
  - rewrite total_app. cbn [total]. unfold heap_end in *. rewrite Hms. lia.
  - by rewrite Hms.
  - unfold heap_end in *. by rewrite Hms.
Qed.

(** The blocks that replace a free block of [len] bytes. *)
Definition taken (len size : Z) : blocks :=
  if size + 24 <=? len - 12 then [(size + 12, true); (len - (size + 12), false)] else [(len, true)].

Lemma taken_total len size : total (taken len size) = len.
Proof. unfold taken. destruct (size + 24 <=? len - 12); cbn; lia. Qed.

Lemma free_start_taken pre len post size o : free_start (pre ++ (len, false) :: post) o -> o <> total pre ->
  free_start (pre ++ taken len size ++ post) o.
Proof.
  intros [(p & l & q & -> & ->)|[[_ ->]|(o' & -> & Hf)]]%free_start_split Hne; [by apply free_start_before|done|].
  replace (total pre + len + o') with (total (pre ++ taken len size) + o') by (rewrite total_app, taken_total; lia).
  rewrite (assoc_L (++)). by apply free_start_behind.
Qed.

Lemma no_holes_taken pre len post size : no_holes (pre ++ (len, false) :: post) ->
  no_holes (pre ++ taken len size ++ post).
Proof.
  intros (Hpre & Hpost & _)%no_holes_app. apply (no_holes_app [_]) in Hpost as (_ & Hpost & Hseam).
  apply no_holes_app. split_and!; [done| |unfold seam, taken; destruct (last pre) as [[? []]|]; try done; by destruct (size + 24 <=? len - 12)].
  unfold taken. destruct (size + 24 <=? len - 12); cbn [app].
  - apply (no_holes_app [_; _]). split_and!; [done|done|exact Hseam].
  - apply (no_holes_app [_]). split_and!; [done|done|]. unfold seam. by destruct post as [|[? []] ?].
Qed.

(** The state after a block was taken, before [lfree] is updated. *)
Lemma take_shape h pre len post size mem : heap_shape h (pre ++ (len, false) :: post) ->
  headers h !! total pre = Some mem -> 4 <= size -> size mod 4 = 0 -> size <= len - 12 ->
  exists h' n, (if size + SIZEOF_STRUCT_MEM + MIN_SIZE_ALIGNED <=? u32 (next mem - (total pre + SIZEOF_STRUCT_MEM)) then
         h ← split_block h (total pre) size mem 1;
         Some (add_used h (size + SIZEOF_STRUCT_MEM))
       else Some (add_used (set_header h (total pre) (mk_heap_mem (magic mem) 1 (next mem) (prev mem)))
                   (next mem - total pre))) = Some h' /\
    heap_shape h' (pre ++ taken len size ++ post) /\
    headers h' !! total pre = Some (mk_heap_mem HEAP_MAGIC 1 n (last_pos 0 0 pre)) /\
    mem_size_aligned h' = mem_size_aligned h /\ lfree h' = lfree h /\
    used_mem h' = u32 (used_mem h + used_total (taken len size)).
Proof.
  intros Hs Hmem Hsize Hsize4 Hfit. pose proof Hs as [Hc Ht [Hms _] _].
  destruct (chain_at _ _ _ _ _ Hc) as (Hl & Hm & Ho & Hpre & Hpost).
  destruct (chain_total _ _ _ _ Hpre) as [? _], (chain_total _ _ _ _ Hpost) as [? _].
  rewrite total_app in Ht. cbn [total] in Ht. rewrite heap_end_eq in Ht.
  pose proof Hmem as Hmem2. rewrite Ho in Hmem2. injection Hmem2 as <-. cbn [next magic prev].
  change SIZEOF_STRUCT_MEM with 12. change MIN_SIZE_ALIGNED with 12.
  replace (total pre + len - (total pre + 12)) with (len - 12) by lia. rewrite u32_small by lia.
  unfold taken. replace (size + 12 + 12) with (size + 24) by lia. destruct (Z.leb_spec (size + 24) (len - 12)).
  - destruct (split_block_shape h pre len false true post size _ Hs Ho Hsize Hsize4) as
      (h1 & Hsp & Hs1 & Ho1 & Hm1 & Hl1 & Hu1 & _); [lia|]. change (split_block h (total pre) size _ 1) with (split_block h (total pre) size (mk_heap_mem HEAP_MAGIC (flag false) (total pre + len) (last_pos 0 0 pre)) (flag true)).
    rewrite Hsp.
    cbn [mbind option_bind]. eexists _, _. split; [reflexivity|].
    split_and!; [by destruct Hs1; split|exact Ho1|done|done|cbn; rewrite Hu1; f_equal; lia].
  - eexists _, _. split; [reflexivity|]. split_and!; try done.
    + assert (heap_shape (set_header h (total pre) (mk_heap_mem HEAP_MAGIC 1 (total pre + len) (last_pos 0 0 pre)))
        (pre ++ (len, true) :: post)) as Hs1 by (by eapply shape_set_used). by destruct Hs1; split.
    + apply lookup_insert_eq.
    + cbn. f_equal. lia.
Qed.

Lemma taken_allocated len size o : 12 <= size <= len - 12 -> exists l, size + 12 <= l <= len /\
  allocated o (taken len size) = [(o, l)] /\ used_total (taken len size) = l.
Proof.
  intros Hfit. unfold taken. destruct (Z.leb_spec (size + 24) (len - 12)).
  - exists (size + 12). split_and!; [lia|lia|done|cbn; lia].
  - exists len. split_and!; [lia|lia|done|cbn; lia].
Qed.

Lemma taken_free_positions lo o len size : lo <= o -> 0 <= size ->
  Forall (fun x => lo <= x) (free_positions o (taken len size)).
Proof.
  intros Hlo Hs. unfold taken. destruct (size + 24 <=? len - 12); cbn; [|constructor].
  apply Forall_cons. split; [lia|constructor].
Qed.

Lemma free_positions_below hd b o bs : chain hd b o bs ->
  Forall (fun x => x < o + total bs) (free_positions o bs).
Proof.
  revert b o. induction bs as [|[l u] bs IH]; intros b o; cbn; [constructor|].
  intros (? & _ & _ & Hc). destruct (chain_total _ _ _ _ Hc). apply Forall_app. split.
  - destruct u; constructor; [lia|constructor].
  - eapply Forall_impl; [apply (IH _ _ Hc)|]. cbn. lia.
Qed.

Lemma malloc_take_ok h pre len post size mem : heap_inv h (pre ++ (len, false) :: post) ->
  headers h !! total pre = Some mem -> 12 <= size -> size mod 4 = 0 -> size <= len - 12 ->
  exists h', malloc_take h (total pre) size mem = Some (Some (total pre + 12), h') /\
    heap_inv h' (pre ++ taken len size ++ post) /\ mem_size_aligned h' = mem_size_aligned h /\
    (lowest h (pre ++ (len, false) :: post) -> lowest h' (pre ++ taken len size ++ post)).
Proof.
  intros [Hs Hholes Hf Hu] Hmem Hsize Hsize4 Hfit. pose proof Hs as [Hc Ht [Hms _] _].
  destruct (chain_at _ _ _ _ _ Hc) as (Hl & Hm & Ho & Hpre & Hpost).
  destruct (chain_total _ _ _ _ Hpost) as [? _].
  pose proof (used_total_bound _ _ _ _ Hpre) as Hub1. pose proof (used_total_bound _ _ _ _ Hpost) as Hub2.
  rewrite total_app in Ht. cbn [total] in Ht. rewrite heap_end_eq in Ht.
  rewrite used_total_app in Hu. cbn [used_total] in Hu.
  destruct (taken_allocated len size 0 ltac:(lia)) as (l & Hlen & _ & Htu).
  unfold malloc_take.
  destruct (take_shape h pre len post size mem Hs Hmem ltac:(lia) Hsize4 Hfit)
    as (h1 & n & -> & Hs1 & Ho1 & Hm1 & Hl1 & Hu1). cbn [mbind option_bind]. rewrite Ho1. cbn [mbind option_bind].
  rewrite set_header_same by exact Ho1.
  assert (heap_end h1 = heap_end h) as He1 by (unfold heap_end; by rewrite Hm1).
  pose proof (hs_total _ _ Hs1) as Ht1. pose proof (hs_chain _ _ Hs1) as Hc1.
  apply chain_app in Hc1 as [Hpre1 Hpost1]. rewrite Z.add_0_l in Hpost1.
  assert (exists h2, (if total pre =? lfree h1
      then o ← next_free (S (Z.to_nat (heap_end h1))) h1 (lfree h1); Some (set_lfree h1 o) else Some h1) = Some h2 /\
    free_start (pre ++ taken len size ++ post) (lfree h2) /\
    (lowest h (pre ++ (len, false) :: post) -> lowest h2 (pre ++ taken len size ++ post)) /\
    headers h2 = headers h1 /\ mem_size_aligned h2 = mem_size_aligned h1 /\ used_mem h2 = used_mem h1)
    as (h2 & -> & Hf2 & Hlow2 & Hh2 & Hms2 & Hus2).
  { rewrite Hl1. destruct (Z.eqb_spec (total pre) (lfree h)) as [Hlf|Hne].
    - rewrite <-Hlf. destruct (next_free_finds (S (Z.to_nat (heap_end h1))) h1 pre (taken len size ++ post) Hs1)
        as (o & -> & Hfs & Hlow).
      { pose proof (chain_length _ _ _ _ Hpost1). rewrite total_app in Ht1.
        destruct (chain_total _ _ _ _ Hpre1). lia. }
      cbn [mbind option_bind]. eexists. split; [reflexivity|]. split_and!; try done.
      unfold lowest. rewrite !free_positions_app, !Z.add_0_l, !Forall_app. intros [Hlp _].
      rewrite free_positions_app, Forall_app in Hlow. split; [|exact Hlow].
      pose proof (free_positions_below _ _ _ _ Hpre) as Hbelow. cbn in Hbelow. rewrite <-Hlf in Hlp.
      apply Forall_forall. intros x Hx. rewrite Forall_forall in Hlp, Hbelow.
      specialize (Hlp x Hx). specialize (Hbelow x Hx). lia.
    - exists h1. rewrite Hl1. split_and!; try done; [by apply free_start_taken|].
      unfold lowest. rewrite Hl1, !free_positions_app, !Z.add_0_l, taken_total. cbn [free_positions app].
      rewrite !Forall_app, Forall_cons. intros (Hlp & Hlo & Hlq). split; [done|]. split; [|done].
      apply taken_free_positions; lia. }
  cbn [mbind option_bind]. change SIZEOF_STRUCT_MEM with 12.
  assert (heap_end h2 = heap_end h) as He2 by (unfold heap_end; by rewrite Hms2, Hm1).
  rewrite He2. rewrite heap_end_eq. destruct (Z.ltb_spec (mem_size_aligned h + 12) (total pre + 12 + size)); [lia|].
  exists h2. split; [done|]. split_and!.
  - split.
    + destruct Hs1 as [Ha Hb Hd He]. unfold heap_end in *. split; unfold heap_end; rewrite ?Hh2, ?Hms2; done.
    + by apply no_holes_taken.
    + done.
    + rewrite Hus2, Hu1, Hu, !used_total_app, Htu. rewrite u32_small; lia.
  - by rewrite Hms2.
  - done.
Qed.

(** ** First fit

    The reference: the first free block from [from] on that holds [size]
    bytes and starts below [limit] is replaced by what it becomes. *)
Fixpoint place (from limit size o : Z) (bs : blocks) : option (Z * blocks) :=
  match bs with
  | [] => None
  | (len, u) :: bs =>
      if limit <=? o then None else
      if (from <=? o) && negb u && (size + 12 <=? len) then Some (o, taken len size ++ bs) else
      '(p, bs') ← place from limit size (o + len) bs; Some (p, (len, u) :: bs')
  end.

Lemma place_spec from limit size o bs p bs' : place from limit size o bs = Some (p, bs') ->
  exists pre len post, bs = pre ++ (len, false) :: post /\ bs' = pre ++ taken len size ++ post /\
    p = o + total pre /\ size + 12 <= len.
Proof.
  revert o bs'. induction bs as [|[len u] bs IH]; intros o bs'; cbn [place]; [done|].
  destruct (limit <=? o); [done|]. destruct ((from <=? o) && negb u && (size + 12 <=? len)) eqn:Hfit.
  - intros [= <- <-]. apply andb_prop in Hfit as [[_ Hu]%andb_prop Hlen%Z.leb_le].
    destruct u; [done|]. exists [], len, bs. split_and!; [done|done|cbn; lia|done].
  - destruct (place from limit size (o + len) bs) as [[q b]|] eqn:Hp; [|done]. intros [= <- <-].
    destruct (IH _ _ Hp) as (pre & l & post & -> & -> & -> & Hl).
    exists ((len, u) :: pre), l, post. split_and!; [done|done|cbn; lia|done].
Qed.

Lemma place_skip hd b from limit size o pre post : chain hd b o pre -> o + total pre <= from ->
  place from limit size o (pre ++ post) =
    '(p, bs') ← place from limit size (o + total pre) post; Some (p, pre ++ bs').
Proof.
  revert b o. induction pre as [|[len u] pre IH]; intros b o; cbn [app total].
  - intros _ _. rewrite Z.add_0_r. by destruct (place _ _ _ _ _) as [[]|].
  - intros Hc Hfrom. pose proof (chain_total _ _ _ _ Hc) as [Ht _]. cbn [chain] in Hc.
    destruct Hc as (? & _ & _ & Hc). destruct (chain_total _ _ _ _ Hc) as [? _]. cbn [total] in Ht. cbn [place].
    destruct (Z.leb_spec limit o).
    + destruct post as [|[l v] post]; [done|]. cbn [place]. by rewrite (proj2 (Z.leb_le limit _)) by lia.
    + rewrite (proj2 (Z.leb_gt from o)) by lia. cbn [andb]. rewrite (IH _ _ Hc) by lia.
      rewrite Z.add_assoc. by destruct (place _ _ _ _ _) as [[]|].
Qed.

Lemma malloc_loop_places fuel h from pre post size : heap_shape h (pre ++ post) -> from <= total pre ->
  (length post < fuel)%nat -> 0 <= size <= mem_size_aligned h ->
  malloc_loop fuel h size (total pre) =
    match place from (mem_size_aligned h - size) size (total pre) post with
    | None => Some (None, h)
    | Some (p, _) => m ← headers h !! p; malloc_take h p size m
    end.
Proof.
  revert fuel pre. induction post as [|[l u] post IH]; intros fuel pre Hs Hfrom Hf Hsize;
    (destruct fuel as [|fuel]; [simpl in Hf; lia|]); cbn [malloc_loop place].
  - rewrite app_nil_r in Hs. pose proof Hs as [_ Ht [? _] _]. rewrite heap_end_eq in Ht.
    rewrite u32_small by lia. by rewrite (proj2 (Z.ltb_ge _ _)) by lia.
  - pose proof Hs as [Hc Ht [Hms _] _]. destruct (chain_at _ _ _ _ _ Hc) as (Hl & _ & Ho & Hpre & Hpost).
    destruct (chain_total _ _ _ _ Hpre) as [? _], (chain_total _ _ _ _ Hpost) as [? _].
    rewrite total_app, heap_end_eq in Ht. cbn [total] in Ht. rewrite (u32_small (mem_size_aligned h - size)) by lia.
    destruct (Z.ltb_spec (total pre) (mem_size_aligned h - size)) as [Hlt|Hge].
    + rewrite (proj2 (Z.leb_gt _ _)) by lia. rewrite Ho. cbn [mbind option_bind used next].
      change SIZEOF_STRUCT_MEM with 12. replace (total pre + l - (total pre + 12)) with (l - 12) by lia.
      rewrite u32_small by lia. rewrite (proj2 (Z.leb_le from _)) by lia.
      replace (size + 12 <=? l) with (size <=? l - 12) by (destruct (Z.leb_spec (size + 12) l); lia).
      replace (flag u =? 0) with (negb u) by (by destruct u). cbn [andb].
      destruct (negb u && (size <=? l - 12)); [by rewrite Ho|].
      change (pre ++ (l, u) :: post) with (pre ++ [(l, u)] ++ post) in Hs. rewrite (assoc_L (++)) in Hs.
      specialize (IH fuel (pre ++ [(l, u)]) Hs). rewrite total_app in IH. cbn [total] in IH.
      rewrite Z.add_0_r in IH. simpl in Hf. rewrite IH by lia.
      by destruct (place _ _ _ _ _) as [[]|].
    + by rewrite (proj2 (Z.leb_le _ _)) by lia.
Qed.

Lemma RT_ALIGN_eq n : 0 <= n <= 2 ^ 32 - 4 -> RT_ALIGN n RT_ALIGN_SIZE = (n + 3) / 4 * 4.
Proof.
  intros Hn. unfold RT_ALIGN, RT_ALIGN_SIZE. replace (n + 4 - 1) with (n + 3) by lia. rewrite u32_small by lia.
  transitivity (Z.land (Z.land (n + 3) (Z.ones 32)) (Z.lnot (Z.ones 2))).
  - rewrite <-Z.land_assoc. done.
  - rewrite Z.land_ones by lia. rewrite Z.mod_small by lia.
    rewrite <-Z.ldiff_land, Z.ldiff_ones_r, Z.shiftl_mul_pow2, Z.shiftr_div_pow2 by lia. done.
Qed.

(** ** The allocated regions are apart *)

Definition in_heap (lo hi : Z) (r : Z * Z) : Prop := lo <= r.1 /\ 16 <= r.2 /\ r.1 + r.2 <= hi /\ r.1 mod 4 = 0.

Definition apart (r s : Z * Z) : Prop := r.1 + r.2 <= s.1 \/ s.1 + s.2 <= r.1.

Lemma allocated_in_heap hd b o bs : chain hd b o bs -> o mod 4 = 0 ->
  Forall (in_heap o (o + total bs)) (allocated o bs).
Proof.
  revert b o. induction bs as [|[l u] bs IH]; intros b o; cbn; [constructor|].
  intros (Hl & Hl4 & _ & Hc) Ho. destruct (chain_total _ _ _ _ Hc). apply Forall_app. split.
  - destruct u; [|constructor]. apply Forall_singleton. unfold in_heap. cbn. lia.
  - eapply Forall_impl; [apply (IH _ _ Hc); Z.div_mod_to_equations; lia|]. unfold in_heap. cbn. lia.
Qed.

Lemma allocated_apart hd b o bs r s : chain hd b o bs -> o mod 4 = 0 -> r ∈ allocated o bs ->
  s ∈ allocated o bs -> r = s \/ apart r s.
Proof.
  revert b o. induction bs as [|[l u] bs IH]; intros b o; cbn; [by intros _ _ ?%elem_of_nil|].
  intros (Hl & Hl4 & _ & Hc) Ho. assert ((o + l) mod 4 = 0) as Ho2 by (Z.div_mod_to_equations; lia).
  pose proof (allocated_in_heap _ _ _ _ Hc Ho2) as Hin. rewrite Forall_forall in Hin.
  rewrite !elem_of_app. unfold apart. destruct u; [|by intros [?%elem_of_nil|?] [?%elem_of_nil|?]; eapply IH].
  intros [->%list_elem_of_singleton|Hr] [->%list_elem_of_singleton|Hs]; [by left| | |by eapply IH].
  all: match goal with H : _ ∈ _ |- _ => specialize (Hin _ H) end; unfold in_heap in Hin; cbn; lia.
Qed.

Lemma allocated_nodup hd b o bs : chain hd b o bs -> o mod 4 = 0 -> NoDup (allocated o bs).*1.
Proof.
  revert b o. induction bs as [|[l u] bs IH]; intros b o; cbn; [constructor|].
  intros (Hl & Hl4 & _ & Hc) Ho. assert ((o + l) mod 4 = 0) as Ho2 by (Z.div_mod_to_equations; lia).
  specialize (IH _ _ Hc Ho2). destruct u; cbn; [|done]. constructor; [|done].
  intros ([x k] & -> & Hx)%list_elem_of_fmap. pose proof (allocated_in_heap _ _ _ _ Hc Ho2) as Hin.
  rewrite Forall_forall in Hin. specialize (Hin _ Hx). unfold in_heap in Hin. cbn in Hin. lia.
Qed.

(** The length that a request is rounded to. *)
Definition request (size : Z) : Z := Z.max 12 (RT_ALIGN size RT_ALIGN_SIZE).

Lemma RT_ALIGN_range n : 0 <= n < 2 ^ 32 ->
  0 <= RT_ALIGN n RT_ALIGN_SIZE < 2 ^ 32 /\ RT_ALIGN n RT_ALIGN_SIZE mod 4 = 0.
Proof.
  intros Hn. destruct (Z.le_gt_cases n (2 ^ 32 - 4)) as [Hle|Hgt].
  - rewrite RT_ALIGN_eq by lia. Z.div_mod_to_equations. lia.
  - assert (n = 2 ^ 32 - 3 \/ n = 2 ^ 32 - 2 \/ n = 2 ^ 32 - 1) as [->|[->| ->]] by lia; by vm_compute.
Qed.

Lemma free_start_split_at bs o : free_start bs o -> exists pre post, bs = pre ++ post /\ o = total pre.
Proof.
  intros [->|(pre & len & post & -> & ->)]; [exists bs, []; by rewrite app_nil_r|]. by eexists _, _.
Qed.

Lemma malloc_places h bs size : heap_inv h bs -> 0 < size < 2 ^ 32 ->
  match place (lfree h) (mem_size_aligned h - request size) (request size) 0 bs with
  | Some (p, bs') => exists h', rt_malloc h size = Some (Some (p + 12), h') /\ heap_inv h' bs' /\
      mem_size_aligned h' = mem_size_aligned h /\ (lowest h bs -> lowest h' bs')
  | None => rt_malloc h size = Some (None, h)
  end.
Proof.
  intros Hinv Hsize. pose proof Hinv as [Hs _ Hf _]. pose proof Hs as [Hc Ht [Hms _] _].
  unfold rt_malloc. rewrite (proj2 (Z.eqb_neq size 0)) by lia.
  destruct (RT_ALIGN_range size ltac:(lia)) as [Hr Hr4]. change MIN_SIZE_ALIGNED with 12.
  assert ((if RT_ALIGN size RT_ALIGN_SIZE <? 12 then 12 else RT_ALIGN size RT_ALIGN_SIZE) = request size) as Hreq
    by (unfold request; destruct (Z.ltb_spec (RT_ALIGN size RT_ALIGN_SIZE) 12); lia).
  assert (request size mod 4 = 0 /\ 12 <= request size) as [Hreq4 Hreq12].
  { unfold request. destruct (Z.max_spec 12 (RT_ALIGN size RT_ALIGN_SIZE)) as [[? ->]|[? ->]]; done || lia. }
  destruct (Z.ltb_spec (mem_size_aligned h) (RT_ALIGN size RT_ALIGN_SIZE)) as [Hbig|Hsmall].
  - destruct bs as [|[l u] bs]; [done|]. cbn [place]. unfold request at 1. rewrite (proj2 (Z.leb_le _ _)) by lia. done.
  - cbn zeta. rewrite Hreq. destruct (free_start_split_at _ _ Hf) as (pre & post & -> & Hlf). rewrite Hlf.
    destruct (proj1 (chain_app _ _ _ _ _) Hc) as [Hpre Hpost].
    destruct (chain_total _ _ _ _ Hpre) as [? _], (chain_total _ _ _ _ Hpost) as [? _].
    pose proof (chain_length _ _ _ _ Hpost) as Hlen. rewrite total_app in Ht.
    rewrite (place_skip (headers h) 0 (total pre) _ _ 0 pre post Hpre) by lia. rewrite Z.add_0_l.
    rewrite (malloc_loop_places _ h (total pre) pre post _ Hs) by (unfold request in *; lia).
    destruct (place (total pre) _ (request size) (total pre) post) as [[p b]|] eqn:Hp; [|done]. cbn [mbind option_bind].
    destruct (place_spec _ _ _ _ _ _ _ Hp) as (p1 & len & p2 & -> & -> & -> & Hfit).
    rewrite (assoc_L (++)) in Hinv, Hc. destruct (chain_at _ _ _ _ _ Hc) as (_ & _ & Ho & _).
    destruct (malloc_take_ok h (pre ++ p1) len p2 (request size) _ Hinv Ho) as (h' & Htake & Hinv' & Hms' & Hlow); try lia.
    rewrite total_app in Ho, Htake. rewrite Ho. cbn [mbind option_bind]. rewrite !(assoc_L (++)) in *. by exists h'.
Qed.

(** ** What the operations do to the allocated regions *)

Lemma place_allocated from limit size bs p bs' : place from limit size 0 bs = Some (p, bs') -> 12 <= size ->
  exists l, size + 12 <= l < size + 36 /\ allocated 0 bs' ≡ₚ (p, l) :: allocated 0 bs.
Proof.
  intros (pre & len & post & -> & -> & -> & Hfit)%place_spec Hsize.
  assert (exists l, size + 12 <= l < size + 36 /\ forall o, allocated o (taken len size) = [(o, l)]) as (l & Hl & Ha).
  { unfold taken. destruct (Z.leb_spec (size + 24) (len - 12)); eexists; (split; [|done]); lia. }
  exists l. split; [done|]. rewrite !allocated_app. cbn [allocated app]. rewrite Ha, taken_total, !Z.add_0_l. cbn [app].
  symmetry. apply Permutation_middle.
Qed.

Lemma malloc_allocates h bs size : heap_inv h bs -> 0 < size < 2 ^ 32 ->
  rt_malloc h size = Some (None, h) \/
  exists p l h' bs', rt_malloc h size = Some (Some (p + 12), h') /\ heap_inv h' bs' /\
    request size + 12 <= l < request size + 36 /\ allocated 0 bs' ≡ₚ (p, l) :: allocated 0 bs /\
    mem_size_aligned h' = mem_size_aligned h.
Proof.
  intros Hinv Hsize. pose proof (malloc_places h bs size Hinv Hsize) as Hm.
  destruct (place _ _ _ _ _) as [[p bs']|] eqn:Hp; [|by left]. right.
  destruct Hm as (h' & Hm & Hinv' & Hms & _). destruct (place_allocated _ _ _ _ _ _ Hp) as (l & Hl & Hperm);
    [unfold request; lia|]. by exists p, l, h', bs'.
Qed.

(** The bytes of regions. *)
Definition region_total (rs : list (Z * Z)) : Z := foldr (fun r n => r.2 + n) 0 rs.

#[export] Instance region_total_proper : Proper ((≡ₚ) ==> (=)) region_total.
Proof. intros rs rs' H. unfold region_total. induction H; simpl; lia. Qed.

Lemma allocated_used o bs : region_total (allocated o bs) = used_total bs.
Proof. revert o. induction bs as [|[l u] bs IH]; intros o; [done|]. destruct u; cbn; by rewrite IH. Qed.

Lemma allocated_mid pre len post : allocated 0 (pre ++ (len, true) :: post) ≡ₚ
  (total pre, len) :: allocated 0 (pre ++ (len, false) :: post).
Proof. rewrite !allocated_app. cbn. rewrite Z.add_0_l. symmetry. apply Permutation_middle. Qed.

Lemma free_releases h bs p len : heap_inv h bs -> (p, len) ∈ allocated 0 bs ->
  exists h' bs', rt_free h (Some (p + 12)) = Some h' /\ heap_inv h' bs' /\
    allocated 0 bs ≡ₚ (p, len) :: allocated 0 bs' /\
    mem_size_aligned h' = mem_size_aligned h /\ (lowest h bs -> lowest h' bs').
Proof.
  intros Hinv (pre & post & -> & ->)%allocated_positions. rewrite Z.add_0_l.
  destruct (free_block h pre len post Hinv) as (h' & Hfree & Hinv' & Hms & _ & Hlow).
  exists h', (merge pre len post). rewrite (proj1 (merge_keeps pre len post)).
  split_and!; [done|done|apply allocated_mid|done|done].
Qed.

(** A block of [newsize] bytes and the free remainder merged with what follows. *)
Lemma shrink_block h pre len post newsize : heap_inv h (pre ++ (len, true) :: post) ->
  4 <= newsize -> newsize mod 4 = 0 -> newsize + 24 < len - 12 ->
  exists m h1 h2, headers h !! total pre = Some m /\ used m = 1 /\ next m = total pre + len /\
    split_block (mk_heap (headers h) (mem_size_aligned h) (lfree h) (u32 (used_mem h - (len - 12 - newsize))) (max_mem h))
      (total pre) newsize m 1 = Some h1 /\
    plug_holes h1 (total pre + 12 + newsize) = Some h2 /\
    heap_inv h2 (merge (pre ++ [(newsize + 12, true)]) (len - (newsize + 12)) post) /\
    mem_size_aligned h2 = mem_size_aligned h.
Proof.
  intros [Hs Hholes Hf Hu] Hn Hn4 Hfit. pose proof Hs as [Hc Ht [Hms _] _].
  destruct (chain_at _ _ _ _ _ Hc) as (Hl & Hm & Ho & Hpre & Hpost).
  destruct (chain_total _ _ _ _ Hpre) as [? _], (chain_total _ _ _ _ Hpost) as [? _].
  pose proof (used_total_bound _ _ _ _ Hpre). pose proof (used_total_bound _ _ _ _ Hpost).
  rewrite total_app in Ht. rewrite used_total_app in Hu. cbn [total used_total] in Ht, Hu. rewrite heap_end_eq in Ht.
  set (h0 := mk_heap _ _ _ _ _).
  assert (heap_shape h0 (pre ++ (len, true) :: post)) as Hs0 by (by destruct Hs; split).
  destruct (split_block_shape h0 pre len true true post newsize _ Hs0 Ho) as
    (h1 & Hsp & Hs1 & _ & Hm1 & Hl1 & Hu1 & Hx1); try lia.
  set (pre2 := pre ++ [(newsize + 12, true)]). set (r := len - (newsize + 12)).
  assert (pre ++ (newsize + 12, true) :: (r, false) :: post = pre2 ++ (r, false) :: post) as Heq
    by (unfold pre2; by rewrite <-(assoc_L (++))).
  assert (total pre2 = total pre + 12 + newsize) as Htp by (unfold pre2; rewrite total_app; cbn; lia).
  fold r in Hs1. rewrite Heq in Hs1.
  destruct (plug_holes_merges h1 pre2 r post Hs1) as (h2 & Hplug & (Hm2 & Hu2 & Hx2 & Hl2) & Hs2 & Hf2).
  { rewrite <-Heq, Hl1. unfold h0. cbn [lfree]. apply free_start_split in Hf as [(p & l & q & -> & ->)|[[? _]|(o' & -> & Hf)]].
    - apply free_start_before.
    - done.
    - replace (total pre + len + o') with (total (pre ++ [(newsize + 12, true); (r, false)]) + o')
        by (rewrite total_app; unfold r; cbn; lia).
      change (pre ++ (newsize + 12, true) :: (r, false) :: post)
        with (pre ++ [(newsize + 12, true); (r, false)] ++ post). rewrite (assoc_L (++)). by apply free_start_behind. }
  eexists _, h1, h2. split; [exact Ho|]. split_and!; [done|done|exact Hsp|by rewrite <-Htp| |by rewrite Hm2, Hm1].
  apply no_holes_app in Hholes as (Hh1 & Hh2 & _). apply (no_holes_app [_]) in Hh2 as (_ & Hh2 & _).
  split; [done| |done|].
  - apply merge_no_holes; [|done]. apply no_holes_app. split_and!; [done|done|].
    unfold seam. by destruct (last pre) as [[? []]|].
  - rewrite Hu2, Hu1. unfold h0. cbn [used_mem]. rewrite (proj2 (merge_keeps _ _ _)).
    unfold pre2. rewrite !used_total_app. cbn [used_total]. rewrite Hu, u32_small by lia. lia.
Qed.

Lemma shrunk_allocated pre len n post : allocated 0 (merge (pre ++ [(n + 12, true)]) (len - (n + 12)) post) ≡ₚ
  (total pre, n + 12) :: allocated 0 (pre ++ (len, false) :: post).
Proof.
  rewrite (proj1 (merge_keeps _ _ _)), !allocated_app, total_app, <-(assoc_L (++)). cbn. rewrite Z.add_0_l.
  replace (0 + (total pre + (n + 12 + 0)) + (len - (n + 12))) with (total pre + len) by lia.
  symmetry. apply Permutation_middle.
Qed.

Definition realloc_result (p len n : Z) (rest : list (Z * Z)) (h : heap) (bs : blocks)
    (r : option Z * heap * option (Z * Z * Z)) : Prop :=
  match r with
  | (None, h', copy) => copy = None /\
      if n =? 0 then exists bs', heap_inv h' bs' /\ allocated 0 bs' ≡ₚ rest else h' = h
  | (Some q, h', copy) => exists l bs', heap_inv h' bs' /\ n + 12 <= l /\
      allocated 0 bs' ≡ₚ (q - 12, l) :: rest /\
      if q =? p + 12 then copy = None else copy = Some (p + 12, q, Z.min (len - 12) n)
  end.

Lemma realloc_resizes h bs p len size : heap_inv h bs -> (p, len) ∈ allocated 0 bs -> 0 <= size < 2 ^ 32 ->
  exists rest r, allocated 0 bs ≡ₚ (p, len) :: rest /\ rt_realloc h (Some (p + 12)) size = Some r /\
    realloc_result p len (RT_ALIGN size RT_ALIGN_SIZE) rest h bs r /\
    mem_size_aligned r.1.2 = mem_size_aligned h.
Proof.
  intros Hinv (pre & post & -> & ->)%allocated_positions Hsize. rewrite Z.add_0_l.
  exists (allocated 0 (pre ++ (len, false) :: post)).
  destruct (RT_ALIGN_range size Hsize) as [Hr Hr4]. unfold rt_realloc. set (n := RT_ALIGN size RT_ALIGN_SIZE) in *.
  cbn zeta. pose proof (allocated_mid pre len post) as Hrest.
  assert ((total pre, len) ∈ allocated 0 (pre ++ (len, true) :: post)) as Hin by (rewrite Hrest; left).
  pose proof (hi_shape _ _ Hinv) as [Hc Ht [Hms _] _]. destruct (chain_at _ _ _ _ _ Hc) as (Hl & Hl4 & Ho & Hpre & Hpost).
  destruct (chain_total _ _ _ _ Hpre) as [? _], (chain_total _ _ _ _ Hpost) as [? _].
  rewrite total_app, heap_end_eq in Ht. cbn [total] in Ht.
  destruct (Z.ltb_spec (mem_size_aligned h) n) as [Hbig|Hsmall].
  { eexists. split; [done|]. split; [reflexivity|]. cbn. rewrite (proj2 (Z.eqb_neq n 0)) by lia. done. }
  destruct (Z.eqb_spec n 0) as [Hn0|Hn0].
  { destruct (free_releases _ _ _ _ Hinv Hin) as (h' & bs' & -> & Hinv' & Hperm & Hms' & _). cbn [mbind option_bind].
    eexists. split; [done|]. split; [reflexivity|]. cbn. rewrite Hn0. cbn. split; [|done]. split; [done|].
    exists bs'. split; [done|]. rewrite Hrest in Hperm. by apply Permutation_cons_inv in Hperm. }
  rewrite (proj2 (Z.ltb_ge _ 0)) by lia. rewrite heap_end_eq, (proj2 (Z.leb_gt _ _)) by lia. cbn [orb].
  change SIZEOF_STRUCT_MEM with 12. change MIN_SIZE with 12. replace (total pre + 12 - 12) with (total pre) by lia.
  rewrite Ho. cbn [mbind option_bind next used].
  replace (total pre + len - total pre - 12) with (len - 12) by lia. rewrite (u32_small (len - 12)) by lia.
  destruct (Z.eqb_spec (len - 12) n) as [Heq|Hne].
  { eexists. split; [done|]. split; [reflexivity|]. split; [|done]. cbn.
    exists len, (pre ++ (len, true) :: post). rewrite Z.eqb_refl. split_and!; [done|lia| |done].
    by replace (total pre + 12 - 12) with (total pre) by lia. }
  destruct (Z.ltb_spec (n + 12 + 12) (len - 12)) as [Hshrink|Hgrow].
  { destruct (shrink_block h pre len post n Hinv) as (m & h1 & h2 & Ho2 & _ & _ & Hsp & Hplug & Hinv' & Hms');
      [Z.div_mod_to_equations; lia|done|lia|].
    rewrite Ho in Ho2. injection Ho2 as <-. change (flag true) with 1. cbn zeta. rewrite Hsp. cbn [mbind option_bind].
    rewrite Hplug. cbn [mbind option_bind]. eexists. split; [done|]. split; [reflexivity|]. split; [|done]. cbn.
    eexists (n + 12), _. rewrite Z.eqb_refl. split_and!; [done|lia| |done].
    replace (total pre + 12 - 12) with (total pre) by lia. apply shrunk_allocated. }
  destruct (malloc_allocates h _ n Hinv) as [->|(q & l & h1 & bs1 & -> & Hinv1 & Hl1 & Hperm1 & Hms1)]; [lia| |]; cbn [mbind option_bind].
  { eexists. split; [done|]. split; [reflexivity|]. cbn. by rewrite (proj2 (Z.eqb_neq n 0)) by lia. }
  assert ((total pre, len) ∈ allocated 0 bs1) as Hin1 by (rewrite Hperm1; by right).
  destruct (free_releases _ _ _ _ Hinv1 Hin1) as (h2 & bs2 & -> & Hinv2 & Hperm2 & Hms2 & _). cbn [mbind option_bind].
  eexists. split; [done|]. split; [reflexivity|]. split; [|cbn; by rewrite Hms2]. cbn.
  eexists l, _. split; [done|]. unfold request in Hl1. fold n in Hl1. split; [|split].
  - by rewrite RT_ALIGN_eq in Hl1 by lia; Z.div_mod_to_equations; lia.
  - replace (q + 12 - 12) with q by lia. rewrite Hperm1, Hrest in Hperm2.
    rewrite (Permutation_swap (total pre, len) (q, l)) in Hperm2. apply Permutation_cons_inv in Hperm2. by symmetry.
  - pose proof (allocated_nodup _ _ _ _ (hs_chain _ _ (hi_shape _ _ Hinv1)) ltac:(done)) as Hnd.
    rewrite Hperm1, Hrest in Hnd. cbn in Hnd. apply NoDup_cons in Hnd as [Hnd _].
    rewrite (proj2 (Z.eqb_neq _ _)); [|intros Heq; apply Hnd; replace q with (total pre) by lia; left].
    do 3 f_equal. destruct (Z.ltb_spec (len - 12) n); lia.
Qed.

(** ** The heap from its initialisation on *)

Lemma RT_ALIGN_DOWN_mod n : RT_ALIGN_DOWN n RT_ALIGN_SIZE mod 4 = 0.
Proof.
  unfold RT_ALIGN_DOWN, RT_ALIGN_SIZE. change 4 with (2 ^ 2) at 2. rewrite <-Z.land_ones by lia.
  rewrite <-Z.land_assoc. change (Z.land (u32 (Z.lnot (4 - 1))) (Z.ones 2)) with 0. apply Z.land_0_r.
Qed.

Lemma init_inv b e h : rt_system_heap_init b e = Some h -> 0 <= b < 2 ^ 32 ->
  12 <= mem_size_aligned h < 2 ^ 31 ->
  heap_inv h [(heap_end h, false)] /\ lowest h [(heap_end h, false)].
Proof.
  unfold rt_system_heap_init. intros Hi Hb. destruct (RT_ALIGN_range b Hb) as [Hr Hr4].
  pose proof (RT_ALIGN_DOWN_mod e) as He4. revert Hi. set (ba := RT_ALIGN b _) in *. set (ea := RT_ALIGN_DOWN e _) in *.
  change SIZEOF_STRUCT_MEM with 12. destruct (_ && _); [|done]. intros [= <-]. cbn [mem_size_aligned].
  set (size := u32 (ea - ba - 2 * 12)). intros Hsize.
  assert (size mod 4 = 0) as Hs4.
  { unfold size, u32. change (2 ^ 32) with (4 * 1073741824). Z.div_mod_to_equations. lia. }
  rewrite (u32_small (size + 12)) by lia. split; [|by apply Forall_cons; cbn].
  change (heap_end _) with (size + 12). split.
  - split.
    + cbn -[Z.add]. rewrite lookup_insert_ne, lookup_singleton_eq by lia. split_and!; [lia| |done|done].
      Z.div_mod_to_equations; lia.
    + cbn -[Z.add]. change (heap_end _) with (size + 12). lia.
    + done.
    + exists (size + 12). change (heap_end _) with (size + 12). apply lookup_insert_eq.
  - done.
  - right. by exists [], (size + 12), [].
  - done.
Qed.

(** The programs call the operations with sizes of type rt_size_t and free or
    resize what they hold; [live] are the pointers that they hold. *)
Inductive heap_step : heap * list Z -> heap * list Z -> Prop :=
  | step_malloc h live size r h' : 0 <= size < 2 ^ 32 -> rt_malloc h size = Some (r, h') ->
      heap_step (h, live) (h', option_list r ++ live)
  | step_calloc h live count size r h' n : rt_calloc h count size = Some (r, h', n) ->
      heap_step (h, live) (h', option_list r ++ live)
  | step_free_null h live h' : rt_free h None = Some h' -> heap_step (h, live) (h', live)
  | step_free h live p live' h' : live ≡ₚ p :: live' -> rt_free h (Some p) = Some h' ->
      heap_step (h, live) (h', live')
  | step_realloc_null h live size r h' copy : 0 <= size < 2 ^ 32 ->
      rt_realloc h None size = Some (r, h', copy) -> heap_step (h, live) (h', option_list r ++ live)
  | step_realloc h live p live' size q h' copy : live ≡ₚ p :: live' -> 0 <= size < 2 ^ 32 ->
      rt_realloc h (Some p) size = Some (Some q, h', copy) -> heap_step (h, live) (h', q :: live')
  | step_realloc_freed h live p live' size h' copy : live ≡ₚ p :: live' -> 0 <= size < 2 ^ 32 ->
      RT_ALIGN size RT_ALIGN_SIZE = 0 -> rt_realloc h (Some p) size = Some (None, h', copy) ->
      heap_step (h, live) (h', live')
  | step_realloc_kept h live p live' size h' copy : live ≡ₚ p :: live' -> 0 <= size < 2 ^ 32 ->
      RT_ALIGN size RT_ALIGN_SIZE <> 0 -> rt_realloc h (Some p) size = Some (None, h', copy) ->
      heap_step (h, live) (h', live).

Inductive heap_reachable : heap * list Z -> Prop :=
  | reach_init b e h : 0 <= b < 2 ^ 32 -> rt_system_heap_init b e = Some h ->
      12 <= mem_size_aligned h < 2 ^ 31 -> heap_reachable (h, [])
  | reach_step s s' : heap_reachable s -> heap_step s s' -> heap_reachable s'.

Definition live_inv (s : heap * list Z) : Prop :=
  exists bs, heap_inv s.1 bs /\ s.2 ≡ₚ (fun r => r.1 + 12) <$> allocated 0 bs.

Lemma live_allocated h live bs p live' : heap_inv h bs -> live ≡ₚ (fun r => r.1 + 12) <$> allocated 0 bs ->
  live ≡ₚ p :: live' ->
  exists o len, p = o + 12 /\ (o, len) ∈ allocated 0 bs /\
    forall rest, allocated 0 bs ≡ₚ (o, len) :: rest -> live' ≡ₚ (fun r => r.1 + 12) <$> rest.
Proof.
  intros Hinv Hlive Hp. assert (p ∈ (fun r => r.1 + 12) <$> allocated 0 bs) as Hin
    by (rewrite <-Hlive, Hp; left). apply list_elem_of_fmap in Hin as ([o len] & -> & Hin).
  exists o, len. split_and!; [done|done|]. intros rest Hrest. rewrite Hlive, Hrest in Hp. cbn in Hp.
  by apply Permutation_cons_inv in Hp.
Qed.

Lemma malloc_live h live bs size r h' : heap_inv h bs -> live ≡ₚ (fun r => r.1 + 12) <$> allocated 0 bs ->
  0 <= size < 2 ^ 32 -> rt_malloc h size = Some (r, h') -> live_inv (h', option_list r ++ live).
Proof.
  intros Hinv Hlive Hsize Hm. destruct (Z.eq_dec size 0) as [->|Hne].
  - injection Hm as <- <-. by exists bs.
  - destruct (malloc_allocates h bs size Hinv) as [Hn|(p & l & h1 & bs1 & Hs & Hinv1 & _ & Hperm & _)]; [lia| |].
    + rewrite Hn in Hm. injection Hm as <- <-. by exists bs.
    + rewrite Hs in Hm. injection Hm as <- <-. exists bs1. split; [done|]. cbn. by rewrite Hperm, Hlive.
Qed.

Lemma step_live_inv s s' : live_inv s -> heap_step s s' -> live_inv s'.
Proof.
  intros (bs & Hinv & Hlive) Hstep. destruct Hstep as [h live size r h' Hsize Hm|h live count size r h' n Hm|
    h live h' Hf|h live p live' h' Hp Hf|h live size r h' copy Hsize Hr|h live p live' size q h' copy Hp Hsize Hr|
    h live p live' size h' copy Hp Hsize Hn Hr|h live p live' size h' copy Hp Hsize Hn Hr]; cbn [fst snd] in *.
  - by eapply malloc_live.
  - unfold rt_calloc in Hm. destruct (rt_malloc h _) as [[r1 h1]|] eqn:Hm1; [|done]. injection Hm as <- <- _.
    refine (malloc_live _ _ _ _ _ _ Hinv Hlive _ Hm1). apply u32_range.
  - injection Hf as <-. by exists bs.
  - destruct (live_allocated h live bs p live' Hinv Hlive Hp) as (o & len & -> & Hin & Hrest).
    destruct (free_releases _ _ _ _ Hinv Hin) as (h1 & bs1 & Hf1 & Hinv1 & Hperm & _).
    rewrite Hf1 in Hf. injection Hf as <-. exists bs1. split; [done|]. by apply Hrest.
  - revert Hr. unfold rt_realloc. cbn zeta. destruct (RT_ALIGN_range size Hsize) as [Hrange _]. destruct (_ <? _).
    { intros [= <- <- _]. by exists bs. }
    destruct (_ =? 0). { cbn. intros [= <- <- _]. by exists bs. }
    destruct (rt_malloc h _) as [[r1 h1]|] eqn:Hm1; [|done]. intros [= <- <- _]. by eapply malloc_live.
  - destruct (live_allocated h live bs p live' Hinv Hlive Hp) as (o & len & -> & Hin & Hrest).
    destruct (realloc_resizes _ _ _ _ size Hinv Hin Hsize) as (rest & r & Hperm & Hr1 & Hres & _).
    rewrite Hr1 in Hr. injection Hr as ->. destruct Hres as (l & bs1 & Hinv1 & _ & Hperm1 & _).
    exists bs1. split; [done|]. cbn [snd]. rewrite Hperm1, (Hrest _ Hperm). cbn. by replace (q - 12 + 12) with q by lia.
  - destruct (live_allocated h live bs p live' Hinv Hlive Hp) as (o & len & -> & Hin & Hrest).
    destruct (realloc_resizes _ _ _ _ size Hinv Hin Hsize) as (rest & r & Hperm & Hr1 & Hres & _).
    rewrite Hr1 in Hr. injection Hr as ->. destruct Hres as [_ Hres]. rewrite Hn in Hres. cbn in Hres.
    destruct Hres as (bs1 & Hinv1 & Hperm1). exists bs1. split; [done|]. cbn [snd]. by rewrite Hperm1, (Hrest _ Hperm).
  - destruct (live_allocated h live bs p live' Hinv Hlive Hp) as (o & len & -> & Hin & Hrest).
    destruct (realloc_resizes _ _ _ _ size Hinv Hin Hsize) as (rest & r & Hperm & Hr1 & Hres & _).
    rewrite Hr1 in Hr. injection Hr as ->. destruct Hres as [_ Hres]. rewrite (proj2 (Z.eqb_neq _ _) Hn) in Hres.
    subst h'. by exists bs.
Qed.

Lemma reachable_live_inv s : heap_reachable s -> live_inv s.
Proof.
  induction 1 as [b e h Hb Hi Hs|s s' _ IH Hstep].
  - exists [(heap_end h, false)]. split; [by eapply init_inv|done].
  - by eapply step_live_inv.
Qed.

(** ** The properties *)

Definition demo_heap : heap :=
  mk_heap (<[1012 := mk_heap_mem HEAP_MAGIC 1 1012 1012]> {[0 := mk_heap_mem HEAP_MAGIC 0 1012 0]}) 1000 0 0 0.

Lemma demo_init : rt_system_heap_init 0x20000000 0x20000400 = Some demo_heap.
Proof. vm_compute. reflexivity. Defined.

Lemma demo_inv : heap_inv demo_heap [(1012, false)].
Proof. exact (proj1 (init_inv 0x20000000 0x20000400 demo_heap demo_init ltac:(lia) ltac:(cbn; lia))). Defined.

(** C16: rt_malloc is first fit.  In a heap whose headers describe the blocks
    [bs], a request takes the first free block from [lfree] on that holds it
    and starts below the limit, splits off a free remainder when that is worth
    a block, and leaves a consistent heap in which the allocated regions are
    those of before and the new one, which is at least as long as requested;
    when no block fits the result is RT_NULL and the heap is the same.  [lfree]
    stays the lowest free block. *)
Theorem rt_malloc_first_fit h bs size : heap_inv h bs -> 0 < size < 2 ^ 32 ->
  match place (lfree h) (mem_size_aligned h - request size) (request size) 0 bs with
  | Some (p, bs') => exists l h', rt_malloc h size = Some (Some (p + SIZEOF_STRUCT_MEM), h') /\
      heap_inv h' bs' /\ allocated 0 bs' ≡ₚ (p, l) :: allocated 0 bs /\
      request size + 12 <= l < request size + 36 /\ (lowest h bs -> lowest h' bs')
  | None => rt_malloc h size = Some (None, h)
  end.
Proof.
  intros Hinv Hsize. pose proof (malloc_places h bs size Hinv Hsize) as Hm.
  destruct (place _ _ _ _ _) as [[p bs']|] eqn:Hp; [|done]. destruct Hm as (h' & Hm & Hinv' & _ & Hlow).
  destruct (place_allocated _ _ _ _ _ _ Hp) as (l & Hl & Hperm); [unfold request; lia|]. by exists l, h'.
Qed.

Lemma rt_malloc_first_fit_witness : exists l h', rt_malloc demo_heap 100 = Some (Some 12, h') /\
  heap_inv h' [(112, true); (900, false)] /\ allocated 0 [(112, true); (900, false)] ≡ₚ [(0, l)] /\
  112 <= l < 136 /\ (lowest demo_heap [(1012, false)] -> lowest h' [(112, true); (900, false)]).
Proof. exact (rt_malloc_first_fit demo_heap [(1012, false)] 100 demo_inv ltac:(lia)). Defined.

(** C17: rt_free gives back exactly the region that was allocated: the other
    allocated regions are the same, the headers are consistent, the freed block
    is merged with its free neighbours (no two free blocks meet), [used_mem]
    drops by the length of the block and [lfree] stays the lowest free block. *)
Theorem rt_free_releases h bs p len : heap_inv h bs -> (p, len) ∈ allocated 0 bs ->
  exists h' bs', rt_free h (Some (p + SIZEOF_STRUCT_MEM)) = Some h' /\ heap_inv h' bs' /\
    allocated 0 bs ≡ₚ (p, len) :: allocated 0 bs' /\ used_mem h' = used_mem h - len /\
    (lowest h bs -> lowest h' bs').
Proof.
  intros Hinv Hin. destruct (free_releases h bs p len Hinv Hin) as (h' & bs' & Hf & Hinv' & Hperm & _ & Hlow).
  exists h', bs'. split_and!; try done. rewrite (hi_used _ _ Hinv), (hi_used _ _ Hinv'), <-!(allocated_used 0), Hperm.
  change (region_total ((p, len) :: allocated 0 bs')) with (len + region_total (allocated 0 bs')). lia.
Qed.

Definition demo_blocks : blocks := [(112, true); (36, true); (64, true); (800, false)].

Definition demo_used : heap :=
  default demo_heap ('(_, h) ← rt_malloc demo_heap 100; '(_, h) ← rt_malloc h 24; '(_, h) ← rt_malloc h 50; Some h).

Lemma demo_used_inv : heap_inv demo_used demo_blocks.
Proof.
  split; [split| | |].
  - cbn [chain demo_blocks]. split_and!; lazymatch goal with
      | |- _ !! _ = _ => vm_compute; reflexivity | |- True => exact I | |- _ <= _ => lia | |- _ = _ => reflexivity end.
  - vm_compute. reflexivity.
  - change (mem_size_aligned demo_used) with 1000. split; [lia|reflexivity].
  - exists 1012. vm_compute. reflexivity.
  - cbn. tauto.
  - right. exists [(112, true); (36, true); (64, true)], 800, []. split; [reflexivity|vm_compute; reflexivity].
  - vm_compute. reflexivity.
Defined.

Lemma rt_free_releases_witness : exists h' bs', rt_free demo_used (Some 124) = Some h' /\ heap_inv h' bs' /\
  allocated 0 demo_blocks ≡ₚ (112, 36) :: allocated 0 bs' /\ used_mem h' = used_mem demo_used - 36 /\
  (lowest demo_used demo_blocks -> lowest h' bs').
Proof. apply (rt_free_releases demo_used demo_blocks 112 36 demo_used_inv). right. left. Defined.

(** Rt_realloc on an allocated region keeps every other region, and either
    gives a region of at least the new size - the same one, or another one to
    which the smaller of the two sizes is copied before the old one is freed -
    or, when the size does not fit, RT_NULL with the heap as it was; the size
    zero frees the region.  The headers stay consistent. *)
Theorem rt_realloc_resizes h bs p len size : heap_inv h bs -> (p, len) ∈ allocated 0 bs -> 0 <= size < 2 ^ 32 ->
  exists rest r, allocated 0 bs ≡ₚ (p, len) :: rest /\ rt_realloc h (Some (p + SIZEOF_STRUCT_MEM)) size = Some r /\
    realloc_result p len (RT_ALIGN size RT_ALIGN_SIZE) rest h bs r.
Proof.
  intros Hinv Hin Hsize. destruct (realloc_resizes h bs p len size Hinv Hin Hsize) as (rest & r & ? & ? & ? & _).
  by exists rest, r.
Qed.

Lemma rt_realloc_resizes_witness : exists rest r, allocated 0 demo_blocks ≡ₚ (112, 36) :: rest /\
  rt_realloc demo_used (Some 124) 200 = Some r /\ realloc_result 112 36 200 rest demo_used demo_blocks r.
Proof. apply (rt_realloc_resizes demo_used demo_blocks 112 36 200 demo_used_inv); [right; left|lia]. Defined.

(** C15: in every state that the programs reach from the initialisation by
    allocating, resizing and freeing what they hold, the regions that they hold
    are aligned, lie inside the heap, each behind its header, and do not
    overlap; [used_mem] is the number of their bytes and is within the heap. *)
Theorem heap_regions_apart h live : heap_reachable (h, live) ->
  exists regions, live ≡ₚ (fun r => r.1 + SIZEOF_STRUCT_MEM) <$> regions /\
    Forall (in_heap 0 (heap_end h)) regions /\ NoDup regions.*1 /\
    (forall r s, r ∈ regions -> s ∈ regions -> r = s \/ apart r s) /\
    used_mem h = region_total regions /\ 0 <= used_mem h <= heap_end h.
Proof.
  intros (bs & Hinv & Hlive)%reachable_live_inv. cbn [fst snd] in *. exists (allocated 0 bs).
  pose proof (hi_shape _ _ Hinv) as [Hc Ht _ _]. split_and!.
  - done.
  - rewrite <-Ht. by eapply (allocated_in_heap _ 0 0).
  - by eapply allocated_nodup.
  - intros r s. by eapply allocated_apart.
  - by rewrite (hi_used _ _ Hinv), allocated_used.
  - rewrite (hi_used _ _ Hinv). by apply (used_total_bound _ _ _ _ Hc).
  - rewrite (hi_used _ _ Hinv), <-Ht. by apply (used_total_bound _ _ _ _ Hc).
Qed.

Lemma reach_malloc h live size r h' : heap_reachable (h, live) -> 0 <= size < 2 ^ 32 ->
  rt_malloc h size = Some (r, h') -> heap_reachable (h', option_list r ++ live).
Proof. intros. eapply reach_step; [eassumption|]. by eapply step_malloc. Defined.

Definition malloced (h : heap) (size : Z) : heap := from_option snd h (rt_malloc h size).

Definition demo_two : heap := malloced (malloced demo_heap 100) 24.

Lemma demo_reachable : heap_reachable (demo_two, [124; 12]).
Proof.
  apply (reach_malloc (malloced demo_heap 100) [12] 24 (Some 124)); [|lia|vm_compute; reflexivity].
  apply (reach_malloc demo_heap [] 100 (Some 12)); [|lia|vm_compute; reflexivity].
  apply (reach_init 0x20000000 0x20000400); [lia|exact demo_init|cbn; lia].
Defined.

Lemma heap_regions_apart_witness : exists regions, [124; 12] ≡ₚ (fun r => r.1 + SIZEOF_STRUCT_MEM) <$> regions /\
  Forall (in_heap 0 (heap_end demo_two)) regions /\ NoDup regions.*1 /\
  (forall r s, r ∈ regions -> s ∈ regions -> r = s \/ apart r s) /\
  used_mem demo_two = region_total regions /\ 0 <= used_mem demo_two <= heap_end demo_two.
Proof. exact (heap_regions_apart demo_two [124; 12] demo_reachable). Defined.

(** C18: in every reachable state the operations are defined: no assertion of
    mem.c fails, every header that is read exists and the loops end, for every
    size and for every pointer that a program holds. *)
Theorem heap_ops_defined h live : heap_reachable (h, live) ->
  (forall size, 0 <= size < 2 ^ 32 -> is_Some (rt_malloc h size) /\ is_Some (rt_realloc h None size)) /\
  (forall count size, is_Some (rt_calloc h count size)) /\
  (forall p, p ∈ live -> is_Some (rt_free h (Some p)) /\
     forall size, 0 <= size < 2 ^ 32 -> is_Some (rt_realloc h (Some p) size)).
Proof.
  intros (bs & Hinv & Hlive)%reachable_live_inv. cbn [fst snd] in *.
  assert (forall size, 0 <= size < 2 ^ 32 -> is_Some (rt_malloc h size)) as Hm.
  { intros size Hsize. destruct (Z.eq_dec size 0) as [->|Hne]; [by eexists|].
    destruct (malloc_allocates h bs size Hinv) as [->|(p & l & h1 & bs1 & -> & _)]; [lia|by eexists..]. }
  split_and!.
  - intros size Hsize. split; [by apply Hm|]. unfold rt_realloc. cbn zeta.
    destruct (RT_ALIGN_range size Hsize) as [Hr _]. destruct (Hm _ Hr) as [[r h1] E]. rewrite E.
    destruct (_ <? _); [by eexists|]. by destruct (_ =? 0); eexists.
  - intros count size. unfold rt_calloc. destruct (Hm (u32 (count * size)) (u32_range _)) as [[r h1] E].
    rewrite E. by eexists.
  - intros p Hp. rewrite Hlive in Hp. apply list_elem_of_fmap in Hp as ([o len] & -> & Hin). split.
    + destruct (free_releases _ _ _ _ Hinv Hin) as (h' & _ & Hf & _). by exists h'.
    + intros size Hsize. destruct (realloc_resizes _ _ _ _ size Hinv Hin Hsize) as (_ & r & _ & Hr & _). by exists r.
Qed.

Lemma heap_ops_defined_witness :
  (forall size, 0 <= size < 2 ^ 32 -> is_Some (rt_malloc demo_two size) /\ is_Some (rt_realloc demo_two None size)) /\
  (forall count size, is_Some (rt_calloc demo_two count size)) /\
  (forall p, p ∈ [124; 12] -> is_Some (rt_free demo_two (Some p)) /\
     forall size, 0 <= size < 2 ^ 32 -> is_Some (rt_realloc demo_two (Some p) size)).
Proof. exact (heap_ops_defined demo_two [124; 12] demo_reachable). Defined.

(** ** Where the code does less than it says *)

(** A hole that rt_realloc makes in front of [lfree] is not found again: with
    all of the heap in use, a block of 800 bytes is cut down to 100, and the
    700 bytes behind it are free, but no request can be served. *)
Lemma rt_realloc_loses_hole :
  match rt_realloc (malloced (malloced (malloced demo_heap 800) 152) 12) (Some 12) 100 with
  | Some (r, h, _) => r = Some 12 /\ headers h !! 112 = Some (mk_heap_mem HEAP_MAGIC 0 812 0) /\
      lfree h = heap_end h /\ fst <$> rt_malloc h 100 = Some None
  | None => False
  end.
Proof. vm_compute. repeat split. Qed.

(** The product in rt_calloc wraps: 2^30 + 1 objects of 4 bytes get 4 bytes. *)
Lemma rt_calloc_wraps :
  match rt_calloc demo_heap (2 ^ 30 + 1) 4 with Some (r, _, n) => r = Some 12 /\ n = 4 | None => False end.
Proof. vm_compute. repeat split. Qed.

(** The rounding in rt_malloc wraps: a request of 2^32 - 1 bytes gets 12. *)
Lemma rt_malloc_wraps :
  match rt_malloc demo_heap (2 ^ 32 - 1) with
  | Some (r, h) => r = Some 12 /\ headers h !! 0 = Some (mk_heap_mem HEAP_MAGIC 1 24 0)
  | None => False
  end.
Proof. vm_compute. repeat split. Qed.

(** A request for all of the 1000 bytes of a fresh heap is refused. *)
Lemma rt_malloc_refuses_all : rt_malloc demo_heap 1000 = Some (None, demo_heap).
Proof. vm_compute. reflexivity. Qed.
