(* ===== verification/Klist.v ===== *)
(** * The intrusive lists of the kernel (include/rtservice.h)

    rt_list_t is a node of a circular doubly linked list; heads and members are
    nodes alike, and an unlinked node is a list of its own.  The nodes of the
    program are a finite map from node names to their links; an operation is
    [None] when a node that it reads or writes does not exist.  [linked] relates
    the links to a map from heads to the sequences of their members. *)

From S2P Require Import Prelude.

(** struct rt_list_node *)
Record rt_list_node (K : Type) := mk_node { next : K; prev : K }.
Arguments mk_node {K} _ _.
Arguments next {K} _.
Arguments prev {K} _.

Section klist.
Context {K : Type} {eq_K : EqDecision K} {countable_K : Countable K}.

Notation links := (gmap K (rt_list_node K)).

Implicit Types (lk : links) (a b h l n p q x y : K) (xs ys : list K).

Definition nx lk a : option K := next <$> lk !! a.
Definition pv lk a : option K := prev <$> lk !! a.

(** Assigning one field of a node. *)
Definition set_next lk a v : option links := m ← lk !! a; Some (<[a := mk_node v (prev m)]> lk).
Definition set_prev lk a v : option links := m ← lk !! a; Some (<[a := mk_node (next m) v]> lk).

Definition rt_list_init lk l : links := <[l := mk_node l l]> lk.

Definition rt_list_insert_after lk l n : option links :=
  f ← nx lk l; lk ← set_prev lk f n;
  f ← nx lk l; lk ← set_next lk n f;
  lk ← set_next lk l n;
  set_prev lk n l.

Definition rt_list_insert_before lk l n : option links :=
  f ← pv lk l; lk ← set_next lk f n;
  f ← pv lk l; lk ← set_prev lk n f;
  lk ← set_prev lk l n;
  set_next lk n l.

Definition rt_list_remove lk n : option links :=
  f ← nx lk n; b ← pv lk n; lk ← set_prev lk f b;
  b ← pv lk n; f ← nx lk n; lk ← set_next lk b f;
  lk ← set_prev lk n n; set_next lk n n.

Definition rt_list_isempty lk l : option bool := f ← nx lk l; Some (bool_decide (f = l)).

Fixpoint rt_list_len_loop (fuel : nat) lk l p (len : Z) : option Z :=
  match fuel with
  | O => None
  | S fuel => f ← nx lk p; if decide (f = l) then Some len else rt_list_len_loop fuel lk l f (u32 (len + 1))
  end.

Definition rt_list_len lk l : option Z := rt_list_len_loop (S (size lk)) lk l l 0.

(** ** One field *)

Lemma set_next_spec lk a v : is_Some (lk !! a) -> exists lk', set_next lk a v = Some lk' /\
  (forall y, nx lk' y = if decide (y = a) then Some v else nx lk y) /\ (forall y, pv lk' y = pv lk y) /\
  dom lk' = dom lk.
Proof.
  intros [m Hm]. unfold set_next. rewrite Hm. eexists. split; [reflexivity|]. unfold nx, pv. split_and!.
  - intros y. destruct (decide (y = a)) as [->|Hne]; [by rewrite lookup_insert_eq|by rewrite lookup_insert_ne].
  - intros y. destruct (decide (y = a)) as [->|Hne]; [by rewrite lookup_insert_eq, Hm|by rewrite lookup_insert_ne].
  - rewrite dom_insert_lookup_L; [done|by exists m].
Qed.

Lemma set_prev_spec lk a v : is_Some (lk !! a) -> exists lk', set_prev lk a v = Some lk' /\
  (forall y, pv lk' y = if decide (y = a) then Some v else pv lk y) /\ (forall y, nx lk' y = nx lk y) /\
  dom lk' = dom lk.
Proof.
  intros [m Hm]. unfold set_prev. rewrite Hm. eexists. split; [reflexivity|]. unfold nx, pv. split_and!.
  - intros y. destruct (decide (y = a)) as [->|Hne]; [by rewrite lookup_insert_eq|by rewrite lookup_insert_ne].
  - intros y. destruct (decide (y = a)) as [->|Hne]; [by rewrite lookup_insert_eq, Hm|by rewrite lookup_insert_ne].
  - rewrite dom_insert_lookup_L; [done|by exists m].
Qed.

Lemma nx_node lk a b : nx lk a = Some b -> is_Some (lk !! a).
Proof. unfold nx. destruct (lk !! a); [by eexists|done]. Qed.

Lemma pv_node lk a b : pv lk a = Some b -> is_Some (lk !! a).
Proof. unfold pv. destruct (lk !! a); [by eexists|done]. Qed.

Lemma node_dom lk lk' a : dom lk' = dom lk -> is_Some (lk !! a) -> is_Some (lk' !! a).
Proof. intros Hd Ha. apply elem_of_dom. rewrite Hd. by apply elem_of_dom. Qed.

(** What a chain of assignments did is read off the specifications of each. *)
Ltac field_step :=
  match goal with
  | |- context [set_next ?lk ?a ?v] =>
      let lk' := fresh "lk" in let E := fresh "E" in let Hn := fresh "Hn" in let Hp := fresh "Hp" in
      let Hd := fresh "Hd" in
      destruct (set_next_spec lk a v) as (lk' & E & Hn & Hp & Hd);
      [repeat (eapply node_dom; [eassumption|]); by eauto using nx_node, pv_node|rewrite E; cbn [mbind option_bind]]
  | |- context [set_prev ?lk ?a ?v] =>
      let lk' := fresh "lk" in let E := fresh "E" in let Hn := fresh "Hn" in let Hp := fresh "Hp" in
      let Hd := fresh "Hd" in
      destruct (set_prev_spec lk a v) as (lk' & E & Hp & Hn & Hd);
      [repeat (eapply node_dom; [eassumption|]); by eauto using nx_node, pv_node|rewrite E; cbn [mbind option_bind]]
  end.

Ltac fields :=
  intros; repeat match goal with
  | Hf : forall y, nx ?lk y = _ |- context [nx ?lk _] => rewrite Hf
  | Hf : forall y, pv ?lk y = _ |- context [pv ?lk _] => rewrite Hf
  end; repeat case_decide; intuition congruence.

(** ** The operations on nodes

    Between two neighbours [p] and [q], and out of them. *)
Definition spliced lk lk' p n q : Prop :=
  (forall y, nx lk' y = if decide (y = p) then Some n else if decide (y = n) then Some q else nx lk y) /\
  (forall y, pv lk' y = if decide (y = q) then Some n else if decide (y = n) then Some p else pv lk y) /\
  dom lk' = dom lk.

Definition unspliced lk lk' p n q : Prop :=
  (forall y, nx lk' y = if decide (y = n) then Some n else if decide (y = p) then Some q else nx lk y) /\
  (forall y, pv lk' y = if decide (y = n) then Some n else if decide (y = q) then Some p else pv lk y) /\
  dom lk' = dom lk.

Lemma insert_after_splices lk p n q : nx lk p = Some q -> pv lk q = Some p -> is_Some (lk !! n) ->
  n <> p -> n <> q -> exists lk', rt_list_insert_after lk p n = Some lk' /\ spliced lk lk' p n q.
Proof.
  intros Hpq Hqp Hn Hnp Hnq. unfold rt_list_insert_after. rewrite Hpq. cbn [mbind option_bind]. field_step.
  rewrite Hn0, Hpq. cbn [mbind option_bind]. do 2 field_step. field_step.
  eexists. split; [reflexivity|]. split_and!; [| |congruence].
  - fields.
  - fields.
Qed.

Lemma insert_before_splices lk p n q : nx lk p = Some q -> pv lk q = Some p -> is_Some (lk !! n) ->
  n <> p -> n <> q -> exists lk', rt_list_insert_before lk q n = Some lk' /\ spliced lk lk' p n q.
Proof.
  intros Hpq Hqp Hn Hnp Hnq. unfold rt_list_insert_before. rewrite Hqp. cbn [mbind option_bind]. field_step.
  rewrite Hp, Hqp. cbn [mbind option_bind]. do 2 field_step. field_step.
  eexists. split; [reflexivity|]. split_and!; [| |congruence].
  - fields.
  - fields.
Qed.

Lemma remove_unsplices lk p n q : nx lk n = Some q -> pv lk n = Some p -> is_Some (lk !! p) -> is_Some (lk !! q) ->
  (n = p <-> n = q) -> exists lk', rt_list_remove lk n = Some lk' /\ unspliced lk lk' p n q.
Proof.
  intros Hnq Hnp Hp Hq Hself. unfold rt_list_remove. rewrite Hnq, Hnp. cbn [mbind option_bind]. field_step.
  assert (pv lk0 n = Some p) as E1 by (rewrite Hp0; case_decide; intuition congruence).
  rewrite E1, Hn, Hnq. cbn [mbind option_bind]. do 2 field_step. field_step.
  eexists. split; [reflexivity|]. split_and!; [| |congruence].
  - fields.
  - fields.
Qed.

(** ** Chains of nodes *)

Fixpoint path lk a xs b : Prop :=
  match xs with
  | [] => nx lk a = Some b /\ pv lk b = Some a
  | x :: xs => nx lk a = Some x /\ pv lk x = Some a /\ path lk x xs b
  end.

Lemma path_app lk a xs x ys b : path lk a (xs ++ x :: ys) b <-> path lk a xs x /\ path lk x ys b.
Proof. revert a. induction xs as [|y xs IH]; intros a; cbn; [tauto|]. rewrite IH. tauto. Qed.

Lemma path_frame lk lk' a xs b : path lk a xs b ->
  (forall y, y ∈ a :: xs -> nx lk' y = nx lk y) -> (forall y, y ∈ b :: xs -> pv lk' y = pv lk y) ->
  path lk' a xs b.
Proof.
  revert a. induction xs as [|x xs IH]; intros a; cbn.
  - intros [Hn Hp] Hnx Hpv. rewrite Hnx, Hpv; [done|left..].
  - intros (Hn & Hp & Hpath) Hnx Hpv. rewrite Hnx, Hpv by set_solver. split_and!; [done..|].
    apply IH; [done|set_solver..].
Qed.

(** The last node before [b], and the first node behind [a]. *)
Lemma path_last lk a xs b : path lk a xs b -> let p := default a (last xs) in
  nx lk p = Some b /\ pv lk b = Some p.
Proof.
  revert a. induction xs as [|x xs IH]; intros a; cbn [path]; [done|]. intros (_ & _ & Hp).
  specialize (IH _ Hp). rewrite last_cons. by destruct (last xs).
Qed.

Lemma path_first lk a xs b : path lk a xs b -> let q := default b (head xs) in
  nx lk a = Some q /\ pv lk q = Some a.
Proof. destruct xs as [|x xs]; cbn; [done|tauto]. Qed.

(** A chain gets another last edge, or another first one. *)
Lemma path_end lk lk' a xs q n : path lk a xs q -> let p := default a (last xs) in
  nx lk' p = Some n -> pv lk' n = Some p -> NoDup (a :: xs) ->
  (forall y, y ∈ a :: xs -> y <> p -> nx lk' y = nx lk y) -> (forall y, y ∈ xs -> pv lk' y = pv lk y) ->
  path lk' a xs n.
Proof.
  destruct xs as [|p xs _] using rev_ind; [done|].
  rewrite last_snoc. cbn. rewrite !path_app. intros [Hp _] Hnx Hpv Hnd Hn Hv. split; [|done].
  rewrite NoDup_cons, elem_of_app, NoDup_app in Hnd. destruct Hnd as (Ha & Hxs & Hd & _).
  apply (path_frame lk); [done| |].
  - intros y Hy. apply Hn; [set_solver|]. intros ->. apply elem_of_cons in Hy as [->|Hy]; [set_solver|].
    by apply (Hd p Hy); left.
  - intros y Hy. apply Hv. set_solver.
Qed.

Lemma path_start lk lk' p n ys b : path lk p ys b -> let q := default b (head ys) in
  nx lk' n = Some q -> pv lk' q = Some n -> (b ∉ ys) -> NoDup ys ->
  (forall y, y ∈ ys -> nx lk' y = nx lk y) -> (forall y, y ∈ b :: ys -> y <> q -> pv lk' y = pv lk y) ->
  path lk' n ys b.
Proof.
  destruct ys as [|y ys]; cbn; [done|]. intros (_ & _ & Hp) Hnx Hpv Hb Hnd Hn Hv. split_and!; [done..|].
  apply NoDup_cons in Hnd as [Hy _]. apply (path_frame lk); [done| |].
  - intros z Hz. apply Hn. set_solver.
  - intros z Hz. apply Hv; [set_solver|]. intros ->. set_solver.
Qed.

Lemma path_split lk a xs ys b : path lk a (xs ++ ys) b ->
  path lk a xs (default b (head ys)) /\ path lk (default a (last xs)) ys b.
Proof.
  destruct ys as [|y ys]; cbn.
  - rewrite app_nil_r. intros Hp. split; [done|]. by apply path_last in Hp.
  - intros [H1 H2]%path_app. split; [done|]. apply path_last in H1 as [? ?]. by split_and!.
Qed.

(** The nodes around a gap are not among the others. *)
Lemma gap_nodes h xs ys : NoDup (h :: xs ++ ys) ->
  let p := default h (last xs) in let q := default h (head ys) in
  p ∈ h :: xs /\ q ∈ h :: ys /\ (forall y, y ∈ xs -> y <> q) /\ (forall y, y ∈ ys -> y <> p) /\
  NoDup (h :: xs) /\ NoDup ys /\ h ∉ ys.
Proof.
  intros Hnd p q. rewrite NoDup_cons, NoDup_app, not_elem_of_app in Hnd.
  destruct Hnd as ([Hhx Hhy] & Hxs & Hd & Hys).
  assert (p ∈ h :: xs) as Hp by (unfold p; destruct (last xs) eqn:E; cbn; [right; by apply last_Some_elem_of|left]).
  assert (q ∈ h :: ys) as Hq by (unfold q; destruct ys; cbn; [left|right; left]).
  clearbody p q. apply elem_of_cons in Hp, Hq. split_and!; rewrite ?elem_of_cons, ?NoDup_cons; try done.
  - intros y Hy ->. destruct Hq as [->|Hq]; [done|by apply (Hd q)].
  - intros y Hy ->. destruct Hp as [->|Hp]; [done|by apply (Hd p)].
Qed.

(** Case analysis on the equalities that decide a lookup. *)
Ltac looks Hlk := rewrite Hlk; repeat first [rewrite decide_True by done|rewrite decide_False by auto]; try done.

(** A node between two parts of a chain. *)
Lemma path_splice lk lk' h xs ys n : path lk h (xs ++ ys) h -> NoDup (h :: xs ++ ys) -> n ∉ h :: xs ++ ys ->
  spliced lk lk' (default h (last xs)) n (default h (head ys)) -> path lk' h (xs ++ n :: ys) h.
Proof.
  intros [H1 H2]%path_split Hnd Hn (Hnx & Hpv & _). rewrite path_app.
  destruct (gap_nodes h xs ys Hnd) as (Hp & Hq & Hxq & Hyp & Hndx & Hndy & Hhy).
  assert (forall y, y ∈ h :: xs ++ ys -> y <> n) as Hne by (by intros y Hy ->).
  assert (forall y, y ∈ h :: xs -> y <> n) as Hne1
    by (intros y Hy; apply Hne; rewrite elem_of_cons, elem_of_app in *; tauto).
  assert (forall y, y ∈ h :: ys -> y <> n) as Hne2
    by (intros y Hy; apply Hne; rewrite elem_of_cons, elem_of_app in *; tauto).
  pose proof (Hne1 _ Hp). pose proof (Hne2 _ Hq). split.
  - apply (path_end lk _ _ _ (default h (head ys))); try done.
    + looks Hnx.
    + looks Hpv.
    + intros y Hy Hyp2. pose proof (Hne1 _ Hy). looks Hnx.
    + intros y Hy. pose proof (Hxq _ Hy). pose proof (Hne1 y ltac:(by right)). looks Hpv.
  - apply (path_start lk _ (default h (last xs))); try done.
    + looks Hnx.
    + looks Hpv.
    + intros y Hy. pose proof (Hyp _ Hy). pose proof (Hne2 y ltac:(by right)). looks Hnx.
    + intros y Hy Hyq. pose proof (Hne2 _ Hy). looks Hpv.
Qed.

(** A node leaves a chain. *)
Lemma path_unsplice lk lk' h xs ys n : path lk h (xs ++ n :: ys) h -> NoDup (h :: xs ++ ys) -> n ∉ h :: xs ++ ys ->
  unspliced lk lk' (default h (last xs)) n (default h (head ys)) -> path lk' h (xs ++ ys) h.
Proof.
  intros [H1 H2]%path_app Hnd Hn (Hnx & Hpv & _).
  destruct (gap_nodes h xs ys Hnd) as (Hp & Hq & Hxq & Hyp & Hndx & Hndy & Hhy).
  assert (forall y, y ∈ h :: xs ++ ys -> y <> n) as Hne by (by intros y Hy ->).
  assert (forall y, y ∈ h :: xs -> y <> n) as Hne1
    by (intros y Hy; apply Hne; rewrite elem_of_cons, elem_of_app in *; tauto).
  assert (forall y, y ∈ h :: ys -> y <> n) as Hne2
    by (intros y Hy; apply Hne; rewrite elem_of_cons, elem_of_app in *; tauto).
  pose proof (Hne1 _ Hp). pose proof (Hne2 _ Hq).
  assert (nx lk' (default h (last xs)) = Some (default h (head ys))) as Hpq by looks Hnx.
  assert (pv lk' (default h (head ys)) = Some (default h (last xs))) as Hqp by looks Hpv.
  assert (path lk' h xs (default h (head ys))) as H3.
  { apply (path_end lk _ _ _ n); try done.
    - intros y Hy Hyp2. pose proof (Hne1 _ Hy). looks Hnx.
    - intros y Hy. pose proof (Hxq _ Hy). pose proof (Hne1 y ltac:(by right)). looks Hpv. }
  assert (path lk' (default h (last xs)) ys h) as H4.
  { apply (path_start lk _ n); try done.
    - intros y Hy. pose proof (Hyp _ Hy). pose proof (Hne2 y ltac:(by right)). looks Hnx.
    - intros y Hy Hyq. pose proof (Hne2 _ Hy). looks Hpv. }
  destruct ys as [|y ys]; [by rewrite app_nil_r|]. apply path_app. split; [exact H3|]. by destruct H4 as (_ & _ & ?).
Qed.
(** ** All lists of the program

    [L] maps every head, and every unlinked node, to the members of its list. *)
Record linked lk (L : gmap K (list K)) : Prop := {
  linked_path : forall h xs, L !! h = Some xs -> path lk h xs h;
  linked_nodup : forall h xs, L !! h = Some xs -> NoDup (h :: xs);
  linked_apart : forall h1 xs1 h2 xs2 y, L !! h1 = Some xs1 -> L !! h2 = Some xs2 ->
    y ∈ h1 :: xs1 -> y ∈ h2 :: xs2 -> h1 = h2;
}.

Implicit Types L : gmap K (list K).

Lemma path_node lk a xs b y : path lk a xs b -> y ∈ a :: xs -> is_Some (lk !! y).
Proof.
  revert a. induction xs as [|x xs IH]; intros a; cbn [path].
  - intros [Ha _] ->%list_elem_of_singleton. by eapply nx_node.
  - intros (Ha & _ & Hp) [->|Hy]%elem_of_cons; [by eapply nx_node|by eapply IH].
Qed.

Lemma linked_node lk L h xs y : linked lk L -> L !! h = Some xs -> y ∈ h :: xs -> is_Some (lk !! y).
Proof. intros [Hp _ _] Hh. by eapply path_node, Hp. Qed.

Lemma linked_init lk L l : linked lk L -> (forall h xs, L !! h = Some xs -> l ∉ h :: xs) ->
  linked (rt_list_init lk l) (<[l := []]> L).
Proof.
  intros [Hp Hnd Ha] Hl.
  assert (nx (rt_list_init lk l) l = Some l /\ pv (rt_list_init lk l) l = Some l) as Hself
    by (unfold nx, pv, rt_list_init; by rewrite lookup_insert_eq).
  assert (forall y, y <> l -> nx (rt_list_init lk l) y = nx lk y /\ pv (rt_list_init lk l) y = pv lk y) as Hother
    by (intros y Hy; unfold nx, pv, rt_list_init; by rewrite lookup_insert_ne by done).
  split.
  - intros h xs [[<- <-]|[Hne Hh]]%lookup_insert_Some; [done|]. apply (path_frame lk); [by apply Hp| |].
    all: intros y Hy; apply Hother; intros ->; by apply (Hl _ _ Hh).
  - intros h xs [[<- <-]|[Hne Hh]]%lookup_insert_Some; [|by apply Hnd].
    apply NoDup_cons. split; [apply not_elem_of_nil|constructor].
  - intros h1 xs1 h2 xs2 y [[<- <-]|[Hne1 Hh1]]%lookup_insert_Some [[<- <-]|[Hne2 Hh2]]%lookup_insert_Some H1 H2.
    + done.
    + apply list_elem_of_singleton in H1 as ->. by destruct (Hl _ _ Hh2).
    + apply list_elem_of_singleton in H2 as ->. by destruct (Hl _ _ Hh1).
    + by eapply Ha.
Qed.

Lemma ring_middle l xs n ys : l :: xs ++ n :: ys ≡ₚ n :: l :: xs ++ ys.
Proof. rewrite <-(Permutation_middle xs ys n). apply Permutation_swap. Qed.

(** A node that is in no list: it is unlinked, or its links mean nothing yet. *)
Definition free L n : Prop := forall h xs, L !! h = Some xs -> n ∈ h :: xs -> h = n /\ xs = [].

Lemma unlinked_free lk L n : linked lk L -> L !! n = Some [] -> free L n.
Proof.
  intros [_ _ Ha] Hn h xs Hh Hin. assert (h = n) as -> by (by eapply (Ha h xs n []); [..|left]).
  rewrite Hn in Hh. by injection Hh as <-.
Qed.

Lemma unknown_free L n : (forall h xs, L !! h = Some xs -> n ∉ h :: xs) -> free L n.
Proof. intros Hn h xs Hh Hin. by destruct (Hn _ _ Hh). Qed.

(** A free node goes into a list. *)
Lemma linked_splice lk lk' L l xs ys n : linked lk L -> L !! l = Some (xs ++ ys) -> free L n -> n <> l ->
  spliced lk lk' (default l (last xs)) n (default l (head ys)) ->
  linked lk' (<[l := xs ++ n :: ys]> (delete n L)).
Proof.
  intros [Hp Hnd Ha] Hl Hn Hne Hsp.
  assert (n ∉ l :: xs ++ ys) as Hnl by (intros Hin; apply Hne; symmetry; by apply (Hn _ _ Hl)).
  pose proof (Hnd _ _ Hl) as Hndl. destruct (gap_nodes l xs ys Hndl) as (Hpin & Hqin & _).
  assert (forall y, y ∈ l :: xs ++ n :: ys -> y = n \/ y ∈ l :: xs ++ ys) as Hmem
    by (intros y; rewrite !elem_of_cons, !elem_of_app, elem_of_cons; tauto).
  split.
  - intros h zs [[<- <-]|[Hh Hz]]%lookup_insert_Some; [by apply (path_splice lk); auto|].
    apply lookup_delete_Some in Hz as [Hhn Hz]. apply (path_frame lk); [by apply Hp| |].
    all: intros y Hy; destruct Hsp as (Hnx & Hpv & _).
    all: assert (forall w, w ∈ l :: xs ++ ys -> y <> w) as Hyl by (intros w Hw ->; apply Hh; by eapply Ha).
    all: assert (y <> n) as Hyn by (intros ->; apply Hhn; symmetry; by apply (Hn _ _ Hz)).
    + assert (y <> default l (last xs)) by (apply Hyl; rewrite elem_of_cons, elem_of_app in *; tauto). looks Hnx.
    + assert (y <> default l (head ys)) by (apply Hyl; rewrite elem_of_cons, elem_of_app in *; tauto). looks Hpv.
  - intros h zs [[<- <-]|[Hh Hz]]%lookup_insert_Some; [|apply lookup_delete_Some in Hz as [_ Hz]; by apply Hnd].
    rewrite ring_middle. apply NoDup_cons. by split.
  - intros h1 xs1 h2 xs2 y [[<- <-]|[Hh1 Hz1]]%lookup_insert_Some [[<- <-]|[Hh2 Hz2]]%lookup_insert_Some H1 H2.
    + done.
    + apply lookup_delete_Some in Hz2 as [Hn2 Hz2]. destruct (Hmem _ H1) as [->|Hin]; [|by eapply Ha].
      destruct Hn2. symmetry. by apply (Hn _ _ Hz2).
    + apply lookup_delete_Some in Hz1 as [Hn1 Hz1]. destruct (Hmem _ H2) as [->|Hin]; [|by eapply Ha].
      destruct Hn1. symmetry. by apply (Hn _ _ Hz1).
    + apply lookup_delete_Some in Hz1 as [Hn1 Hz1], Hz2 as [Hn2 Hz2]. by eapply Ha.
Qed.

(** A member leaves its list. *)
Lemma linked_unsplice lk lk' L l xs ys n : linked lk L -> L !! l = Some (xs ++ n :: ys) ->
  unspliced lk lk' (default l (last xs)) n (default l (head ys)) ->
  linked lk' (<[n := []]> (<[l := xs ++ ys]> L)).
Proof.
  intros [Hp Hnd Ha] Hl Hsp. pose proof (Hnd _ _ Hl) as Hndl.
  rewrite ring_middle, NoDup_cons in Hndl.
  destruct Hndl as [Hnl Hndl]. destruct (gap_nodes l xs ys Hndl) as (Hpin & Hqin & _).
  assert (n ∈ l :: xs ++ n :: ys) as Hin by (rewrite elem_of_cons, elem_of_app, elem_of_cons; tauto).
  assert (forall y, y ∈ l :: xs ++ ys -> y ∈ l :: xs ++ n :: ys) as Hmem
    by (intros y; rewrite !elem_of_cons, !elem_of_app, elem_of_cons; tauto).
  assert (n <> l) as Hne by (intros ->; apply Hnl; left).
  split.
  - intros h zs [[<- <-]|[Hhn [[<- <-]|[Hh Hz]]%lookup_insert_Some]]%lookup_insert_Some.
    + destruct Hsp as (Hnx & Hpv & _). cbn. split; [looks Hnx|looks Hpv].
    + apply (path_unsplice lk _ _ _ _ n); [by apply Hp|done|done|done].
    + apply (path_frame lk); [by apply Hp| |]; intros y Hy; destruct Hsp as (Hnx & Hpv & _).
      all: assert (forall w, w ∈ l :: xs ++ n :: ys -> y <> w) as Hyl by (intros w Hw ->; apply Hh; by eapply Ha).
      all: pose proof (Hyl n Hin).
      * assert (y <> default l (last xs)) by (apply Hyl, Hmem; rewrite elem_of_cons, elem_of_app in *; tauto). looks Hnx.
      * assert (y <> default l (head ys)) by (apply Hyl, Hmem; rewrite elem_of_cons, elem_of_app in *; tauto). looks Hpv.
  - intros h zs [[<- <-]|[Hhn [[<- <-]|[Hh Hz]]%lookup_insert_Some]]%lookup_insert_Some; [|done|by apply Hnd].
    apply NoDup_cons. split; [apply not_elem_of_nil|constructor].
  - assert (forall h zs y, h <> l -> L !! h = Some zs -> y ∈ h :: zs -> y <> n) as Hother.
    { intros h zs y Hh Hz Hy ->. apply Hh. by eapply Ha. }
    intros h1 xs1 h2 xs2 y [[<- <-]|[Hhn1 [[<- <-]|[Hh1 Hz1]]%lookup_insert_Some]]%lookup_insert_Some
      [[<- <-]|[Hhn2 [[<- <-]|[Hh2 Hz2]]%lookup_insert_Some]]%lookup_insert_Some H1 H2; try done.
    + by apply list_elem_of_singleton in H1 as ->.
    + apply list_elem_of_singleton in H1 as ->. by destruct (Hother h2 xs2 n).
    + by apply list_elem_of_singleton in H2 as ->.
    + exact (Ha l _ h2 xs2 y Hl Hz2 (Hmem _ H1) H2).
    + apply list_elem_of_singleton in H2 as ->. by destruct (Hother h1 xs1 n).
    + exact (Ha h1 xs1 l _ y Hz1 Hl H1 (Hmem _ H2)).
    + by eapply Ha.
Qed.

Lemma linked_first lk L l xs : linked lk L -> L !! l = Some xs -> nx lk l = Some (default l (head xs)).
Proof. intros [Hp _ _] Hl. specialize (Hp _ _ Hl). by apply path_first in Hp as [? _]. Qed.

Lemma linked_last lk L l xs : linked lk L -> L !! l = Some xs -> pv lk l = Some (default l (last xs)).
Proof. intros [Hp _ _] Hl. specialize (Hp _ _ Hl). by apply path_last in Hp as [_ ?]. Qed.

(** The neighbours of a member. *)
Lemma linked_around lk L l xs y ys : linked lk L -> L !! l = Some (xs ++ y :: ys) ->
  nx lk y = Some (default l (head ys)) /\ pv lk y = Some (default l (last xs)).
Proof.
  intros [Hp _ _] Hl. specialize (Hp _ _ Hl). apply path_app in Hp as [H1 H2].
  apply path_last in H1 as [_ ?]. by apply path_first in H2 as [? _].
Qed.

Lemma isempty_spec lk L l xs : linked lk L -> L !! l = Some xs ->
  rt_list_isempty lk l = Some (bool_decide (xs = [])).
Proof.
  intros Hlk Hl. unfold rt_list_isempty. rewrite (linked_first _ _ _ _ Hlk Hl). cbn [mbind option_bind].
  f_equal. apply bool_decide_ext. destruct xs as [|x xs]; cbn; [done|]. split; [|done].
  intros ->. pose proof (linked_nodup _ _ Hlk _ _ Hl) as [Hn _]%NoDup_cons. destruct Hn. left.
Qed.

(** Around a gap in a list. *)
Lemma linked_gap lk L l xs ys : linked lk L -> L !! l = Some (xs ++ ys) ->
  nx lk (default l (last xs)) = Some (default l (head ys)) /\
  pv lk (default l (head ys)) = Some (default l (last xs)).
Proof.
  intros [Hp _ _] Hl. specialize (Hp _ _ Hl). apply path_split in Hp as [H1 H2].
  apply path_last in H1 as [_ ?]. by apply path_first in H2 as [? _].
Qed.

Lemma linked_outside L l xs n : L !! l = Some xs -> free L n -> n <> l -> forall y, y ∈ l :: xs -> n <> y.
Proof. intros Hl Hn Hne y Hy ->. apply Hne. symmetry. by apply (Hn _ _ Hl). Qed.

Lemma default_in_head l xs : default l (head xs) ∈ l :: xs.
Proof. destruct xs; cbn; [left|right; left]. Qed.

Lemma default_in_last l xs : default l (last xs) ∈ l :: xs.
Proof. destruct (last xs) eqn:E; cbn; [right; by apply last_Some_elem_of|left]. Qed.

(** Insertion into a gap, whichever of the two operations does it. *)
Lemma insert_after_free lk L l xs ys n : linked lk L -> L !! l = Some (xs ++ ys) -> free L n -> is_Some (lk !! n) ->
  n <> l -> exists lk', rt_list_insert_after lk (default l (last xs)) n = Some lk' /\
    linked lk' (<[l := xs ++ n :: ys]> (delete n L)) /\ dom lk' = dom lk.
Proof.
  intros Hlk Hl Hn Hnode Hne. destruct (linked_gap _ _ _ _ _ Hlk Hl) as [Hnx Hpv].
  pose proof (linked_outside _ _ _ _ Hl Hn Hne) as Hout.
  destruct (insert_after_splices lk (default l (last xs)) n (default l (head ys))) as (lk' & Hins & Hsp); try done.
  - apply Hout. pose proof (default_in_last l xs) as Hin. rewrite elem_of_cons, elem_of_app in *. tauto.
  - apply Hout. pose proof (default_in_head l ys) as Hin. rewrite elem_of_cons, elem_of_app in *. tauto.
  - exists lk'. split_and!; [done|by eapply linked_splice|apply Hsp].
Qed.

Lemma insert_before_free lk L l xs ys n : linked lk L -> L !! l = Some (xs ++ ys) -> free L n -> is_Some (lk !! n) ->
  n <> l -> exists lk', rt_list_insert_before lk (default l (head ys)) n = Some lk' /\
    linked lk' (<[l := xs ++ n :: ys]> (delete n L)).
Proof.
  intros Hlk Hl Hn Hnode Hne. destruct (linked_gap _ _ _ _ _ Hlk Hl) as [Hnx Hpv].
  pose proof (linked_outside _ _ _ _ Hl Hn Hne) as Hout.
  destruct (insert_before_splices lk (default l (last xs)) n (default l (head ys))) as (lk' & Hins & Hsp); try done.
  - apply Hout. pose proof (default_in_last l xs) as Hin. rewrite elem_of_cons, elem_of_app in *. tauto.
  - apply Hout. pose proof (default_in_head l ys) as Hin. rewrite elem_of_cons, elem_of_app in *. tauto.
  - exists lk'. split; [done|]. by eapply linked_splice.
Qed.

Lemma insert_after_linked lk L l xs ys n : linked lk L -> L !! l = Some (xs ++ ys) -> L !! n = Some [] -> n <> l ->
  exists lk', rt_list_insert_after lk (default l (last xs)) n = Some lk' /\
    linked lk' (<[l := xs ++ n :: ys]> (delete n L)).
Proof.
  intros Hlk Hl Hn Hne. destruct (insert_after_free lk L l xs ys n) as (lk' & ? & ? & _); try done; [by eapply unlinked_free| |by exists lk'].
  eapply linked_node; [done|exact Hn|left].
Qed.

Lemma insert_before_linked lk L l xs ys n : linked lk L -> L !! l = Some (xs ++ ys) -> L !! n = Some [] -> n <> l ->
  exists lk', rt_list_insert_before lk (default l (head ys)) n = Some lk' /\
    linked lk' (<[l := xs ++ n :: ys]> (delete n L)).
Proof.
  intros Hlk Hl Hn Hne. apply insert_before_free; try done; [by eapply unlinked_free|].
  eapply linked_node; [done|exact Hn|left].
Qed.

(** Removal of a member, and of a node that is in no list. *)
Lemma remove_linked lk L l xs n ys : linked lk L -> L !! l = Some (xs ++ n :: ys) ->
  exists lk', rt_list_remove lk n = Some lk' /\ linked lk' (<[n := []]> (<[l := xs ++ ys]> L)).
Proof.
  intros Hlk Hl. destruct (linked_around _ _ _ _ _ _ Hlk Hl) as [Hnx Hpv].
  pose proof (linked_nodup _ _ Hlk _ _ Hl) as Hnd. rewrite ring_middle, NoDup_cons in Hnd. destruct Hnd as [Hn _].
  pose proof (default_in_last l xs) as Hin1. pose proof (default_in_head l ys) as Hin2.
  destruct (remove_unsplices lk (default l (last xs)) n (default l (head ys))) as (lk' & Hrm & Hsp); [done|done| | | |].
  - eapply linked_node; [done|exact Hl|]. rewrite elem_of_cons, elem_of_app in *. tauto.
  - eapply linked_node; [done|exact Hl|]. rewrite elem_of_cons, elem_of_app, elem_of_cons in *. tauto.
  - split; intros Heq; destruct Hn.
    + rewrite Heq at 1. rewrite elem_of_cons, elem_of_app in *. tauto.
    + rewrite Heq at 1. rewrite elem_of_cons, elem_of_app in *. tauto.
  - exists lk'. split; [done|]. by eapply linked_unsplice.
Qed.

Lemma linked_ext lk lk' L : linked lk L -> (forall y, nx lk' y = nx lk y) -> (forall y, pv lk' y = pv lk y) ->
  linked lk' L.
Proof. intros [Hp Hnd Ha] Hn Hv. split; [|done|done]. intros h xs Hh. apply (path_frame lk); auto. Qed.

Lemma remove_unlinked lk L n : linked lk L -> L !! n = Some [] ->
  exists lk', rt_list_remove lk n = Some lk' /\ linked lk' L.
Proof.
  intros Hlk Hn. pose proof (linked_path _ _ Hlk _ _ Hn) as [Hnx Hpv].
  destruct (remove_unsplices lk n n n) as (lk' & Hrm & Hx & Hv & _); [done|done|by eapply nx_node..|done|].
  exists lk'. split; [done|]. apply (linked_ext lk); [done| |]; intros y.
  - rewrite Hx. by destruct (decide (y = n)) as [->|].
  - rewrite Hv. by destruct (decide (y = n)) as [->|].
Qed.

Lemma len_loop_spec lk L l xs ys fuel : linked lk L -> L !! l = Some (xs ++ ys) -> (length ys < fuel)%nat ->
  rt_list_len_loop fuel lk l (default l (last xs)) (u32 (Z.of_nat (length xs))) =
    Some (u32 (Z.of_nat (length (xs ++ ys)))).
Proof.
  intros Hlk. revert fuel xs. induction ys as [|y ys IH]; intros fuel xs Hl Hf;
    (destruct fuel as [|fuel]; [simpl in Hf; lia|]); cbn [rt_list_len_loop];
    destruct (linked_gap _ _ _ _ _ Hlk Hl) as [Hnx _]; rewrite Hnx; cbn [mbind option_bind head].
  - rewrite decide_True by done. by rewrite app_nil_r.
  - cbn [default from_option option_map]. unfold id. rewrite decide_False.
    + replace (u32 (u32 (Z.of_nat (length xs)) + 1)) with (u32 (Z.of_nat (length (xs ++ [y])))).
      * specialize (IH fuel (xs ++ [y])). rewrite last_snoc, <-(assoc_L (++)) in IH. apply IH; [done|simpl in Hf; lia].
      * unfold u32. rewrite length_app, Zplus_mod_idemp_l. cbn. f_equal. lia.
    + intros ->. pose proof (linked_nodup _ _ Hlk _ _ Hl) as [Hn _]%NoDup_cons. apply Hn.
      rewrite elem_of_app, elem_of_cons. tauto.
Qed.

Lemma linked_size lk L l xs : linked lk L -> L !! l = Some xs -> (length xs < size lk)%nat.
Proof.
  intros Hlk Hl. pose proof (linked_nodup _ _ Hlk _ _ Hl) as Hnd.
  assert (list_to_set (l :: xs) ⊆ dom lk) as Hsub.
  { intros y Hy%elem_of_list_to_set. apply elem_of_dom. by eapply linked_node. }
  apply subseteq_size in Hsub. rewrite size_list_to_set, size_dom in Hsub by done. simpl in Hsub. lia.
Qed.

Lemma len_spec lk L l xs : linked lk L -> L !! l = Some xs -> rt_list_len lk l = Some (u32 (Z.of_nat (length xs))).
Proof.
  intros Hlk Hl. pose proof (linked_size _ _ _ _ Hlk Hl).
  apply (len_loop_spec lk L l [] xs); [done|done|lia].
Qed.

(** ** Sequences of operations *)

Inductive list_op := op_init (l : K) | op_insert_after (l n : K) | op_insert_before (l n : K) | op_remove (n : K).

Definition run_op lk (op : list_op) : option links :=
  match op with
  | op_init l => Some (rt_list_init lk l)
  | op_insert_after l n => rt_list_insert_after lk l n
  | op_insert_before l n => rt_list_insert_before lk l n
  | op_remove n => rt_list_remove lk n
  end.

Fixpoint run_ops lk (ops : list list_op) : option links :=
  match ops with [] => Some lk | op :: ops => lk ← run_op lk op; run_ops lk ops end.

(** The same on sequences: a node is initialised when it is new, inserted when
    it is in no list - next to a head or a member - and removed from the list
    that it is in, if any. *)
Inductive seq_step L : list_op -> gmap K (list K) -> Prop :=
  | seq_init l : (forall h xs, L !! h = Some xs -> l ∉ h :: xs) -> seq_step L (op_init l) (<[l := []]> L)
  | seq_push l xs n : L !! l = Some xs -> L !! n = Some [] -> n <> l ->
      seq_step L (op_insert_after l n) (<[l := n :: xs]> (delete n L))
  | seq_after l xs y ys n : L !! l = Some (xs ++ y :: ys) -> L !! n = Some [] -> n <> l ->
      seq_step L (op_insert_after y n) (<[l := xs ++ y :: n :: ys]> (delete n L))
  | seq_append l xs n : L !! l = Some xs -> L !! n = Some [] -> n <> l ->
      seq_step L (op_insert_before l n) (<[l := xs ++ [n]]> (delete n L))
  | seq_before l xs y ys n : L !! l = Some (xs ++ y :: ys) -> L !! n = Some [] -> n <> l ->
      seq_step L (op_insert_before y n) (<[l := xs ++ n :: y :: ys]> (delete n L))
  | seq_remove l xs n ys : L !! l = Some (xs ++ n :: ys) ->
      seq_step L (op_remove n) (<[n := []]> (<[l := xs ++ ys]> L))
  | seq_remove_unlinked n : L !! n = Some [] -> seq_step L (op_remove n) L.

Inductive seq_steps : gmap K (list K) -> list list_op -> gmap K (list K) -> Prop :=
  | seq_nil L : seq_steps L [] L
  | seq_cons L L1 L2 op ops : seq_step L op L1 -> seq_steps L1 ops L2 -> seq_steps L (op :: ops) L2.

Lemma run_op_linked lk L op L' : linked lk L -> seq_step L op L' ->
  exists lk', run_op lk op = Some lk' /\ linked lk' L'.
Proof.
  intros Hlk Hstep. destruct Hstep as [l Hnew|l xs n Hl Hn Hne|l xs y ys n Hl Hn Hne|l xs n Hl Hn Hne|
    l xs y ys n Hl Hn Hne|l xs n ys Hl|n Hn]; cbn.
  - eexists. split; [reflexivity|]. by apply linked_init.
  - by apply (insert_after_linked lk L l [] xs n).
  - change (y :: n :: ys) with ([y] ++ n :: ys). rewrite (assoc_L (++)). change (y :: ys) with ([y] ++ ys) in Hl.
    rewrite (assoc_L (++)) in Hl.
    pose proof (insert_after_linked lk L l (xs ++ [y]) ys n Hlk Hl Hn Hne) as Hi. by rewrite last_snoc in Hi.
  - rewrite <-(app_nil_r xs) in Hl. by apply (insert_before_linked lk L l xs [] n).
  - by apply (insert_before_linked lk L l xs (y :: ys) n).
  - by apply remove_linked.
  - by apply remove_unlinked.
Qed.

(** The intrusive lists implement sequences: every run of initialisations,
    insertions and removals - at a head or next to any member, on any number of
    lists - is defined and leaves links that represent the sequences computed on
    the side, in which rt_list_isempty, rt_list_len and the neighbours of the
    head are what the sequence says. *)
Theorem lists_refine_sequences lk L ops L' : linked lk L -> seq_steps L ops L' ->
  exists lk', run_ops lk ops = Some lk' /\ linked lk' L' /\
    forall l xs, L' !! l = Some xs ->
      rt_list_isempty lk' l = Some (bool_decide (xs = [])) /\
      rt_list_len lk' l = Some (u32 (Z.of_nat (length xs))) /\
      next <$> lk' !! l = Some (default l (head xs)) /\ prev <$> lk' !! l = Some (default l (last xs)).
Proof.
  intros Hlk Hsteps. revert lk Hlk. induction Hsteps as [L|L L1 L2 op ops Hstep _ IH]; intros lk Hlk.
  - exists lk. split_and!; [done|done|]. intros l xs Hl.
    split_and!; [by eapply isempty_spec|by eapply len_spec|by eapply linked_first|by eapply linked_last].
  - destruct (run_op_linked _ _ _ _ Hlk Hstep) as (lk1 & Hrun & Hlk1).
    destruct (IH _ Hlk1) as (lk' & Hrun' & ?). exists lk'. cbn. by rewrite Hrun.
Qed.
End klist.

Arguments run_ops {K eq_K countable_K} _ _.

Lemma lists_refine_sequences_witness :
  exists lk', run_ops (∅ : gmap nat (rt_list_node nat)) [op_init 0%nat; op_init 1%nat; op_insert_before 0%nat 1%nat] =
      Some lk' /\ linked lk' (<[0%nat := [1%nat]]> (delete 1%nat (<[1%nat := []]> (<[0%nat := []]> ∅)))) /\
    forall l xs, <[0%nat := [1%nat]]> (delete 1%nat (<[1%nat := []]> (<[0%nat := []]> (∅ : gmap nat (list nat))))) !! l = Some xs ->
      rt_list_isempty lk' l = Some (bool_decide (xs = [])) /\
      rt_list_len lk' l = Some (u32 (Z.of_nat (length xs))) /\
      next <$> lk' !! l = Some (default l (head xs)) /\ prev <$> lk' !! l = Some (default l (last xs)).
Proof.
  apply (lists_refine_sequences (K := nat) ∅ ∅).
  - split; intros *; by rewrite lookup_empty.
  - eapply seq_cons; [apply seq_init; intros h xs; by rewrite lookup_empty|].
    eapply seq_cons; [apply seq_init|].
    + intros h xs [[<- <-]|[_ Hh]]%lookup_insert_Some; [by intros ?%list_elem_of_singleton|by rewrite lookup_empty in Hh].
    + eapply seq_cons; [|apply seq_nil]. apply (seq_append _ 0%nat [] 1%nat); [|by rewrite lookup_insert_eq|done].
      by rewrite lookup_insert_ne, lookup_insert_eq.
Defined.
