(* ===== verification/Kernel.v ===== *)
(** * The data of the kernel (include/rtdef.h)

    The structures of timers, threads and IPC objects, in the configuration of
    bsp/stm32f10x/rtconfig.h: 32 priorities, one skip-list level, hooks that are
    not set, no signals, no modules.  Objects are named by their addresses; the
    list nodes are named by the structure that they are embedded in, so
    rt_list_entry is a match.  Stacks and entry functions are not modelled. *)

From S2P Require Import Prelude Klist.

Open Scope Z_scope.

(** The address of an object, or of the timer inside the thread at an address. *)
Inductive addr :=
  | Obj (a : Z)
  | Thread_timer (thread : Z).

#[export] Instance addr_eq_dec : EqDecision addr.
Proof. solve_decision. Defined.

#[export] Instance addr_countable : Countable addr.
Proof.
  refine (inj_countable' (fun a => match a with Obj a => inl a | Thread_timer t => inr t end)
    (fun s => match s with inl a => Obj a | inr t => Thread_timer t end) _).
  by intros [].
Defined.

(** rt_thread_priority_table[p], rt_thread_defunct, rt_timer_list[0], the object
    lists of the containers, and the nodes inside the structures: tlist of a
    thread, row[0] of a timer, list of an object, suspend_thread and
    suspend_sender_thread of an IPC object. *)
Inductive node :=
  | Ready (priority : Z)
  | Defunct
  | Timers
  | Container (class : Z)
  | Tlist (thread : Z)
  | Row (timer : addr)
  | Olist (object : addr)
  | Suspend (ipc : Z)
  | Suspend_sender (ipc : Z).

#[export] Instance node_eq_dec : EqDecision node.
Proof. solve_decision. Defined.

#[export] Instance node_countable : Countable node.
Proof.
  refine (inj_countable'
    (fun n => match n with
      | Ready p => (0, inl p) | Defunct => (1, inl 0) | Timers => (2, inl 0) | Container c => (3, inl c)
      | Tlist t => (4, inl t) | Row t => (5, inr t) | Olist o => (6, inr o) | Suspend o => (7, inl o)
      | Suspend_sender o => (8, inl o) end)
    (fun s => match s with
      | (0, inl p) => Ready p | (1, _) => Defunct | (2, _) => Timers | (3, inl c) => Container c
      | (4, inl t) => Tlist t | (5, inr t) => Row t | (6, inr o) => Olist o | (7, inl o) => Suspend o
      | (_, inl o) => Suspend_sender o | (_, inr _) => Defunct end) _).
  by intros [].
Defined.

(** ** Constants *)

Definition RT_EOK : Z := 0.
Definition RT_ERROR : Z := 1.
Definition RT_ETIMEOUT : Z := 2.
Definition RT_EFULL : Z := 3.
Definition RT_EEMPTY : Z := 4.
Definition RT_EINTR : Z := 9.

Definition RT_TICK_MAX : Z := 0xffffffff.
Definition RT_THREAD_PRIORITY_MAX : Z := 32.

Definition RT_TIMER_FLAG_ACTIVATED : Z := 0x1.
Definition RT_TIMER_FLAG_ONE_SHOT : Z := 0x0.
Definition RT_TIMER_FLAG_PERIODIC : Z := 0x2.
Definition RT_TIMER_CTRL_SET_TIME : Z := 0x0.
Definition RT_TIMER_CTRL_GET_TIME : Z := 0x1.
Definition RT_TIMER_CTRL_SET_ONESHOT : Z := 0x2.
Definition RT_TIMER_CTRL_SET_PERIODIC : Z := 0x3.

Definition RT_THREAD_INIT : Z := 0x00.
Definition RT_THREAD_READY : Z := 0x01.
Definition RT_THREAD_SUSPEND : Z := 0x02.
Definition RT_THREAD_CLOSE : Z := 0x04.
Definition RT_THREAD_STAT_MASK : Z := 0x0f.

Definition RT_THREAD_CTRL_STARTUP : Z := 0x00.
Definition RT_THREAD_CTRL_CLOSE : Z := 0x01.
Definition RT_THREAD_CTRL_CHANGE_PRIORITY : Z := 0x02.

Definition RT_IPC_FLAG_FIFO : Z := 0x00.
Definition RT_IPC_FLAG_PRIO : Z := 0x01.
Definition RT_IPC_CMD_RESET : Z := 0x01.
Definition RT_WAITING_FOREVER : Z := -1.

Definition RT_EVENT_FLAG_AND : Z := 0x01.
Definition RT_EVENT_FLAG_OR : Z := 0x02.
Definition RT_EVENT_FLAG_CLEAR : Z := 0x04.

(** ** Structures *)

(** struct rt_object: the flag is kept with the structures that use it. *)
Record rt_object := mk_object { obj_name : list Z; obj_type : Z }.

(** A timeout function: the one of the thread timers, or one of the program. *)
Inductive timeout_fn := fn_rt_thread_timeout | fn_user (f : Z).

Record rt_timer := mk_timer {
  flag : Z;
  timeout_func : timeout_fn;
  parameter : Z;
  timer_init_tick : Z;
  timeout_tick : Z;
}.

Record rt_thread := mk_thread {
  error : Z;
  stat : Z;
  current_priority : Z;
  init_priority : Z;
  number_mask : Z;
  event_set : Z;
  event_info : Z;
  init_tick : Z;
  remaining_tick : Z;
  cleanup : bool;
}.

Record rt_semaphore := mk_sem { sem_flag : Z; sem_value : Z }.

Record rt_mutex := mk_mutex {
  mutex_flag : Z; mutex_value : Z; original_priority : Z; hold : Z; owner : option Z }.

Record rt_event := mk_event { event_flag : Z; set : Z }.

Record rt_mailbox := mk_mailbox {
  mb_flag : Z; mb_msg_pool : list Z; mb_size : Z; mb_entry : Z; in_offset : Z; out_offset : Z }.

(** A message in its pool: the link and the bytes. *)
Record rt_mq_message := mk_message { msg_next : option Z; msg_data : list Z }.

Record rt_messagequeue := mk_mq {
  mq_flag : Z; mq_msg_pool : gmap Z rt_mq_message; mq_msg_size : Z; mq_max_msgs : Z; mq_entry : Z;
  msg_queue_head : option Z; msg_queue_tail : option Z; msg_queue_free : option Z }.

(** The word in front of a block of a memory pool: the next free block, or, in a
    block that is in use, the address of the pool itself. *)
Inductive mp_word := Next_block (p : option Z) | In_use.

Record rt_mempool := mk_mempool {
  mp_memory : gmap Z mp_word; mp_size : Z; mp_block_size : Z; block_list : option Z;
  block_total_count : Z; block_free_count : Z; suspend_thread_count : Z }.

(** ** The state *)

Record clock := mk_clock {
  rt_tick : Z;
  random_nr : Z;
  timers : gmap addr rt_timer;
}.

Record scheduler := mk_scheduler {
  threads : gmap Z rt_thread;
  rt_current_thread : option Z;
  rt_current_priority : Z;
  rt_thread_ready_priority_group : Z;
  rt_scheduler_lock_nest : Z;
  rt_interrupt_nest : Z;
}.

Record ipc_objects := mk_ipc {
  semaphores : gmap Z rt_semaphore;
  mutexes : gmap Z rt_mutex;
  events : gmap Z rt_event;
  mailboxes : gmap Z rt_mailbox;
  queues : gmap Z rt_messagequeue;
  pools : gmap Z rt_mempool;
}.

Record kernel := mk_kernel {
  lists : gmap node (rt_list_node node);
  objects : gmap addr rt_object;
  clk : clock;
  sch : scheduler;
  ipc : ipc_objects;
}.

Definition put_semaphores (i : ipc_objects) x m := mk_ipc (<[x := m]> (semaphores i)) (mutexes i) (events i) (mailboxes i) (queues i) (pools i).
Definition put_mutexes (i : ipc_objects) x m := mk_ipc (semaphores i) (<[x := m]> (mutexes i)) (events i) (mailboxes i) (queues i) (pools i).
Definition put_events (i : ipc_objects) x m := mk_ipc (semaphores i) (mutexes i) (<[x := m]> (events i)) (mailboxes i) (queues i) (pools i).
Definition put_mailboxes (i : ipc_objects) x m := mk_ipc (semaphores i) (mutexes i) (events i) (<[x := m]> (mailboxes i)) (queues i) (pools i).
Definition put_queues (i : ipc_objects) x m := mk_ipc (semaphores i) (mutexes i) (events i) (mailboxes i) (<[x := m]> (queues i)) (pools i).
Definition put_pools (i : ipc_objects) x m := mk_ipc (semaphores i) (mutexes i) (events i) (mailboxes i) (queues i) (<[x := m]> (pools i)).

Definition with_lists (k : kernel) l : kernel := mk_kernel l (objects k) (clk k) (sch k) (ipc k).
Definition with_objects (k : kernel) o : kernel := mk_kernel (lists k) o (clk k) (sch k) (ipc k).
Definition with_clk (k : kernel) c : kernel := mk_kernel (lists k) (objects k) c (sch k) (ipc k).
Definition with_sch (k : kernel) s : kernel := mk_kernel (lists k) (objects k) (clk k) s (ipc k).
Definition with_ipc (k : kernel) i : kernel := mk_kernel (lists k) (objects k) (clk k) (sch k) i.

(** ** The operations of the lists on the state *)

Notation K := (M kernel).

Definition modify_lists (f : gmap node (rt_list_node node) -> option (gmap node (rt_list_node node))) : K unit :=
  k ← get; l ← of_opt (f (lists k)); put (with_lists k l).

Definition list_init (l : node) : K unit := modify_lists (fun lk => Some (rt_list_init lk l)).
Definition list_insert_after (l n : node) : K unit := modify_lists (fun lk => rt_list_insert_after lk l n).
Definition list_insert_before (l n : node) : K unit := modify_lists (fun lk => rt_list_insert_before lk l n).
Definition list_remove (n : node) : K unit := modify_lists (fun lk => rt_list_remove lk n).
Definition list_isempty (l : node) : K bool := k ← get; of_opt (rt_list_isempty (lists k) l).
Definition list_next (l : node) : K node := k ← get; of_opt (nx (lists k) l).
Definition list_prev (l : node) : K node := k ← get; of_opt (pv (lists k) l).

(** RT_ASSERT *)
Definition RT_ASSERT (b : bool) : K unit := if b then mret tt else ub.

(** rt_list_entry(n, struct rt_thread, tlist) and (n, struct rt_timer, row[0]) *)
Definition thread_entry (n : node) : K Z := match n with Tlist t => mret t | _ => ub end.
Definition timer_entry (n : node) : K addr := match n with Row t => mret t | _ => ub end.

(** The fields of the structures. *)
Definition get_timer (t : addr) : K rt_timer := k ← get; of_opt (timers (clk k) !! t).
Definition put_timer (t : addr) (m : rt_timer) : K unit :=
  k ← get; put (with_clk k (mk_clock (rt_tick (clk k)) (random_nr (clk k)) (<[t := m]> (timers (clk k))))).
Definition get_thread (t : Z) : K rt_thread := k ← get; of_opt (threads (sch k) !! t).
Definition put_thread (t : Z) (m : rt_thread) : K unit :=
  k ← get; let s := sch k in
  put (with_sch k (mk_scheduler (<[t := m]> (threads s)) (rt_current_thread s) (rt_current_priority s)
    (rt_thread_ready_priority_group s) (rt_scheduler_lock_nest s) (rt_interrupt_nest s))).

Definition set_flag (m : rt_timer) f := mk_timer f (timeout_func m) (parameter m) (timer_init_tick m) (timeout_tick m).
Definition set_timer_init_tick (m : rt_timer) n := mk_timer (flag m) (timeout_func m) (parameter m) n (timeout_tick m).
Definition set_timeout_tick (m : rt_timer) n := mk_timer (flag m) (timeout_func m) (parameter m) (timer_init_tick m) n.

(** [x &= ~mask] on an rt_uint8_t. *)
Definition clear8 (x mask : Z) : Z := Z.land x (u8 (Z.lnot mask)).

(** ** Weakest preconditions of the list operations *)

Section wp_lists.
Implicit Types (k : kernel) (L : gmap node (list node)) (l n : node) (xs ys : list node).

Lemma wp_modify_lists f lk' k Q : f (lists k) = Some lk' -> Q tt (with_lists k lk') -> wp (modify_lists f) k Q.
Proof. intros Hf HQ. unfold wp, modify_lists, mbind, M_bind, get, of_opt, put. by rewrite Hf. Qed.

Lemma wp_insert_before k L l xs ys n Q : linked (lists k) L -> L !! l = Some (xs ++ ys) -> L !! n = Some [] ->
  n <> l -> (forall lk', linked lk' (<[l := xs ++ n :: ys]> (delete n L)) -> Q tt (with_lists k lk')) ->
  wp (list_insert_before (default l (head ys)) n) k Q.
Proof.
  intros Hlk Hl Hn Hne HQ. destruct (insert_before_linked _ _ _ _ _ _ Hlk Hl Hn Hne) as (lk' & Hi & Hlk').
  eapply wp_modify_lists; [exact Hi|by apply HQ].
Qed.

Lemma wp_insert_after k L l xs ys n Q : linked (lists k) L -> L !! l = Some (xs ++ ys) -> L !! n = Some [] ->
  n <> l -> (forall lk', linked lk' (<[l := xs ++ n :: ys]> (delete n L)) -> Q tt (with_lists k lk')) ->
  wp (list_insert_after (default l (last xs)) n) k Q.
Proof.
  intros Hlk Hl Hn Hne HQ. destruct (insert_after_linked _ _ _ _ _ _ Hlk Hl Hn Hne) as (lk' & Hi & Hlk').
  eapply wp_modify_lists; [exact Hi|by apply HQ].
Qed.

Lemma wp_remove k L l xs n ys Q : linked (lists k) L -> L !! l = Some (xs ++ n :: ys) ->
  (forall lk', linked lk' (<[n := []]> (<[l := xs ++ ys]> L)) -> Q tt (with_lists k lk')) ->
  wp (list_remove n) k Q.
Proof.
  intros Hlk Hl HQ. destruct (remove_linked _ _ _ _ _ _ Hlk Hl) as (lk' & Hi & Hlk').
  eapply wp_modify_lists; [exact Hi|by apply HQ].
Qed.

Lemma wp_remove_unlinked k L n Q : linked (lists k) L -> L !! n = Some [] ->
  (forall lk', linked lk' L -> Q tt (with_lists k lk')) -> wp (list_remove n) k Q.
Proof.
  intros Hlk Hn HQ. destruct (remove_unlinked _ _ _ Hlk Hn) as (lk' & Hi & Hlk').
  eapply wp_modify_lists; [exact Hi|by apply HQ].
Qed.

Lemma wp_isempty k L l xs Q : linked (lists k) L -> L !! l = Some xs -> Q (bool_decide (xs = [])) k ->
  wp (list_isempty l) k Q.
Proof. intros Hlk Hl HQ. eapply wp_run; [|exact HQ]. unfold list_isempty, mbind, M_bind, get, of_opt. by rewrite (isempty_spec _ _ _ _ Hlk Hl). Qed.

Lemma wp_next k l n Q : nx (lists k) l = Some n -> Q n k -> wp (list_next l) k Q.
Proof. intros Hn HQ. eapply wp_run; [|exact HQ]. unfold list_next, mbind, M_bind, get, of_opt. by rewrite Hn. Qed.

Lemma wp_prev k l n Q : pv (lists k) l = Some n -> Q n k -> wp (list_prev l) k Q.
Proof. intros Hn HQ. eapply wp_run; [|exact HQ]. unfold list_prev, mbind, M_bind, get, of_opt. by rewrite Hn. Qed.

Lemma wp_get_timer k t m Q : timers (clk k) !! t = Some m -> Q m k -> wp (get_timer t) k Q.
Proof. intros Hm HQ. eapply wp_run; [|exact HQ]. unfold get_timer, mbind, M_bind, get, of_opt. by rewrite Hm. Qed.

Lemma wp_get_thread k t m Q : threads (sch k) !! t = Some m -> Q m k -> wp (get_thread t) k Q.
Proof. intros Hm HQ. eapply wp_run; [|exact HQ]. unfold get_thread, mbind, M_bind, get, of_opt. by rewrite Hm. Qed.

Lemma wp_assert k (b : bool) Q : b = true -> Q tt k -> wp (RT_ASSERT b) k Q.
Proof. by intros ->. Qed.

Lemma wp_get k Q : Q k k -> wp get k Q.
Proof. done. Qed.

Lemma wp_put k k' Q : Q tt k' -> wp (put k') k Q.
Proof. done. Qed.
End wp_lists.
