(* ===== verification/Object.v ===== *)
(** * Kernel objects (src/object.c)

    Registration of objects: the class, the name and the list of the class.
    Without modules and hooks.  The memory for dynamic objects is taken from and
    given back to the heap, whose functions are arguments here. *)

From S2P Require Import Prelude Klist Kernel.

Open Scope Z_scope.

Definition RT_NAME_MAX : nat := 8.

Definition RT_Object_Class_Thread : Z := 0.
Definition RT_Object_Class_Semaphore : Z := 1.
Definition RT_Object_Class_Mutex : Z := 2.
Definition RT_Object_Class_Event : Z := 3.
Definition RT_Object_Class_MailBox : Z := 4.
Definition RT_Object_Class_MessageQueue : Z := 5.
Definition RT_Object_Class_MemPool : Z := 7.
Definition RT_Object_Class_Device : Z := 8.
Definition RT_Object_Class_Timer : Z := 9.
Definition RT_Object_Class_Unknown : Z := 11.
Definition RT_Object_Class_Static : Z := 0x80.

(** The classes that have a container. *)
Definition rt_object_container : list Z :=
  [RT_Object_Class_Thread; RT_Object_Class_Semaphore; RT_Object_Class_Mutex; RT_Object_Class_Event;
   RT_Object_Class_MailBox; RT_Object_Class_MessageQueue; RT_Object_Class_MemPool; RT_Object_Class_Device;
   RT_Object_Class_Timer].

Definition rt_object_get_information (type : Z) : option node :=
  if bool_decide (type ∈ rt_object_container) then Some (Container type) else None.

(** rt_strncpy(object->name, name, RT_NAME_MAX), for a string without its NUL. *)
Definition object_name (name : list Z) : list Z := take RT_NAME_MAX (name ++ repeat 0 RT_NAME_MAX).

(** rt_strncmp(object->name, name, RT_NAME_MAX) == 0 *)
Fixpoint same_name (n : nat) (a b : list Z) : bool :=
  match n with
  | O => true
  | S n =>
      let x := default 0 (head a) in let y := default 0 (head b) in
      (x =? y) && ((x =? 0) || same_name n (tail a) (tail b))
  end.

Definition put_object (o : addr) (m : rt_object) : K unit := k ← get; put (with_objects k (<[o := m]> (objects k))).
Definition get_object (o : addr) : K rt_object := k ← get; of_opt (objects k !! o).

Definition rt_object_init (object : addr) (type : Z) (name : list Z) : K unit :=
  information ← of_opt (rt_object_get_information type);
  put_object object (mk_object (object_name name) (Z.lor type RT_Object_Class_Static)) ;;
  list_insert_after information (Olist object).

Definition rt_object_detach (object : addr) : K unit := list_remove (Olist object).

Definition rt_object_is_systemobject (object : addr) : K bool :=
  m ← get_object object; mret (negb (Z.land (obj_type m) RT_Object_Class_Static =? 0)).

Section heap.
Context (object_size : Z -> Z) (malloc : Z -> K (option addr)) (free : addr -> K unit).

Definition rt_object_allocate (type : Z) (name : list Z) : K (option addr) :=
  information ← of_opt (rt_object_get_information type);
  object ← malloc (object_size type);
  match object with
  | None => mret None
  | Some object =>
      put_object object (mk_object (object_name name) type) ;;
      list_insert_after information (Olist object) ;;
      mret (Some object)
  end.

Definition rt_object_delete (object : addr) : K unit :=
  m ← get_object object;
  RT_ASSERT (Z.land (obj_type m) RT_Object_Class_Static =? 0) ;;
  list_remove (Olist object) ;;
  free object.
End heap.

(** ** Their effect on the lists *)

Lemma wp_insert_free k L l xs n Q : linked (lists k) L -> L !! l = Some xs -> free L n -> is_Some (lists k !! n) ->
  n <> l -> (forall lk', linked lk' (<[l := n :: xs]> (delete n L)) -> dom lk' = dom (lists k) -> Q tt (with_lists k lk')) ->
  wp (list_insert_after l n) k Q.
Proof.
  intros Hlk Hl Hn Hnode Hne HQ. destruct (insert_after_free _ _ _ [] _ _ Hlk Hl Hn Hnode Hne) as (lk' & Hi & Hlk' & Hdom).
  eapply wp_modify_lists; [exact Hi|by apply HQ].
Qed.

Lemma wp_object_init k L o c xs name Q : linked (lists k) L -> c ∈ rt_object_container ->
  L !! Container c = Some xs -> free L (Olist o) -> is_Some (lists k !! Olist o) ->
  (forall lk', linked lk' (<[Container c := Olist o :: xs]> (delete (Olist o) L)) -> dom lk' = dom (lists k) ->
     Q tt (with_lists (with_objects k (<[o := mk_object (object_name name) (Z.lor c RT_Object_Class_Static)]> (objects k))) lk')) ->
  wp (rt_object_init o c name) k Q.
Proof.
  intros Hlk Hc Hl Hn Hnode HQ. unfold rt_object_init. apply wp_bind. eapply wp_of_opt.
  { unfold rt_object_get_information. by rewrite bool_decide_true. }
  apply wp_bind. unfold put_object. apply wp_bind, wp_get, wp_put.
  by eapply (wp_insert_free (with_objects k _)).
Qed.

Lemma wp_object_detach k L o c xs ys Q : linked (lists k) L -> L !! Container c = Some (xs ++ Olist o :: ys) ->
  (forall lk', linked lk' (<[Olist o := []]> (<[Container c := xs ++ ys]> L)) -> Q tt (with_lists k lk')) ->
  wp (rt_object_detach o) k Q.
Proof. intros Hlk Hl HQ. by eapply wp_remove. Qed.

(** Names are compared like C strings of at most eight characters. *)
Lemma same_name_spec n a b : same_name n a b = true <->
  forall i, (i < n)%nat -> (forall j, (j < i)%nat -> nth j a 0 <> 0) -> nth i a 0 = nth i b 0.
Proof.
  revert a b. induction n as [|n IH]; intros a b; cbn [same_name]; [split; [intros _ i Hi; lia|done]|].
  assert (forall l : list Z, default 0 (head l) = nth 0 l 0) as Hh by (by intros []).
  assert (forall (l : list Z) i, nth i (tail l) 0 = nth (S i) l 0) as Ht by (intros [] []; done).
  rewrite andb_true_iff, orb_true_iff, IH, Z.eqb_eq, Z.eqb_eq, !Hh. split.
  - intros [H0 Hrest] [|i] Hi Hj; [done|]. destruct Hrest as [Hz|Hrest]; [by destruct (Hj 0%nat ltac:(lia))|].
    rewrite <-!Ht. apply Hrest; [lia|]. intros j Hji. rewrite Ht. apply Hj. lia.
  - intros Hall. assert (nth 0 a 0 = nth 0 b 0) as H0 by (apply Hall; [lia|lia]). split; [done|].
    destruct (decide (nth 0 a 0 = 0)) as [|Hne]; [by left|]. right. intros i Hi Hj. rewrite !Ht. apply Hall; [lia|].
    intros [|j] Hji; [done|]. rewrite <-Ht. apply Hj. lia.
Qed.
