(* ===== verification/Timer.v ===== *)
(** * Timers (src/timer.c, src/clock.c)

    The hard timers with one skip-list level: rt_timer_list is one list, ordered
    by the tick at which the timers expire.  The soft timers are not configured.
    Ticks are kept modulo 2^32; the specification gives every timer in the list
    a due time in Z and says that the list is ordered as if ticks never wrapped. *)

From stdpp Require Import sorting.
From S2P Require Import Prelude Klist Kernel Object.

Open Scope Z_scope.

(** ** The operations *)

Definition rt_tick_get : K Z := k ← get; mret (rt_tick (clk k)).
Definition rt_tick_set (tick : Z) : K unit :=
  k ← get; put (with_clk k (mk_clock tick (random_nr (clk k)) (timers (clk k)))).

Definition RT_TICK_PER_SECOND : Z := 100.

(** [None]: the int arithmetic overflows. *)
Definition rt_tick_from_millisecond (ms : Z) : option Z :=
  if ms <? 0 then Some RT_WAITING_FOREVER else
  if (2 ^ 31 <=? RT_TICK_PER_SECOND * ms + 999) then None else
  Some (Z.quot (RT_TICK_PER_SECOND * ms + 999) 1000).

Definition _rt_timer_init (timer : addr) (timeout : timeout_fn) (parameter time flag : Z) : K unit :=
  put_timer timer (mk_timer (clear8 flag RT_TIMER_FLAG_ACTIVATED) timeout parameter time 0) ;;
  list_init (Row timer).

Definition rt_timer_init (timer : addr) (name : list Z) (timeout : timeout_fn) (parameter time flag : Z) : K unit :=
  rt_object_init timer RT_Object_Class_Timer name ;;
  _rt_timer_init timer timeout parameter time flag.

Definition rt_timer_list_next_timeout : K Z :=
  e ← list_isempty Timers;
  if e : bool then mret RT_TICK_MAX else
  n ← list_next Timers; t ← timer_entry n; m ← get_timer t; mret (timeout_tick m).

Definition _rt_timer_remove (timer : addr) : K unit := list_remove (Row timer).

Definition rt_timer_detach (timer : addr) : K Z :=
  _rt_timer_remove timer ;; rt_object_detach timer ;; mret (- RT_EOK).

Section heap.
Context (object_size : Z -> Z) (malloc : Z -> K (option addr)) (free : addr -> K unit).

Definition rt_timer_create (name : list Z) (timeout : timeout_fn) (parameter time flag : Z) : K (option addr) :=
  timer ← rt_object_allocate object_size malloc RT_Object_Class_Timer name;
  match timer with
  | None => mret None
  | Some timer => _rt_timer_init timer timeout parameter time flag ;; mret (Some timer)
  end.

Definition rt_timer_delete (timer : addr) : K Z :=
  _rt_timer_remove timer ;; rt_object_delete free timer ;; mret (- RT_EOK).
End heap.

(** The search for the place of a timer in its row. *)
Fixpoint row_search (fuel : nat) (row_head : node) (timer : addr) : K node :=
  match fuel with
  | O => ub
  | S fuel =>
      last ← list_prev Timers;
      if decide (row_head = last) then mret row_head else
      p ← list_next row_head;
      t ← timer_entry p; mt ← get_timer t; m ← get_timer timer;
      if u32 (timeout_tick mt - timeout_tick m) =? 0 then row_search fuel p timer else
      if u32 (timeout_tick mt - timeout_tick m) <? RT_TICK_MAX / 2 then mret row_head else
      row_search fuel p timer
  end.

Definition count_random : K unit :=
  k ← get; put (with_clk k (mk_clock (rt_tick (clk k)) (u32 (random_nr (clk k) + 1)) (timers (clk k)))).

Definition rt_timer_start (timer : addr) : K Z :=
  _rt_timer_remove timer ;;
  m ← get_timer timer;
  put_timer timer (set_flag m (clear8 (flag m) RT_TIMER_FLAG_ACTIVATED)) ;;
  m ← get_timer timer;
  RT_ASSERT (timer_init_tick m <? RT_TICK_MAX / 2) ;;
  tick ← rt_tick_get;
  put_timer timer (set_timeout_tick m (u32 (tick + timer_init_tick m))) ;;
  k ← get;
  row_head ← row_search (S (size (lists k))) Timers timer;
  count_random ;;
  list_insert_after row_head (Row timer) ;;
  m ← get_timer timer;
  put_timer timer (set_flag m (Z.lor (flag m) RT_TIMER_FLAG_ACTIVATED)) ;;
  mret (- RT_EOK).

Definition rt_timer_stop (timer : addr) : K Z :=
  m ← get_timer timer;
  if Z.land (flag m) RT_TIMER_FLAG_ACTIVATED =? 0 then mret (- RT_ERROR) else
  _rt_timer_remove timer ;;
  m ← get_timer timer;
  put_timer timer (set_flag m (clear8 (flag m) RT_TIMER_FLAG_ACTIVATED)) ;;
  mret RT_EOK.

(** [arg] is the tick that the argument points to; the result comes with the
    tick that is there afterwards. *)
Definition rt_timer_control (timer : addr) (cmd arg : Z) : K (Z * Z) :=
  m ← get_timer timer;
  if cmd =? RT_TIMER_CTRL_GET_TIME then mret (RT_EOK, timer_init_tick m) else
  if cmd =? RT_TIMER_CTRL_SET_TIME then put_timer timer (set_timer_init_tick m arg) ;; mret (RT_EOK, arg) else
  if cmd =? RT_TIMER_CTRL_SET_ONESHOT then
    put_timer timer (set_flag m (clear8 (flag m) RT_TIMER_FLAG_PERIODIC)) ;; mret (RT_EOK, arg) else
  if cmd =? RT_TIMER_CTRL_SET_PERIODIC then
    put_timer timer (set_flag m (Z.lor (flag m) RT_TIMER_FLAG_PERIODIC)) ;; mret (RT_EOK, arg) else
  mret (RT_EOK, arg).

(** The timeout functions are those of the kernel and of the program; the
    result lists the timers whose functions were called, in this order. *)
Section check.
Context (call : timeout_fn -> Z -> K unit).

(** A timer that has expired. *)
Definition timer_expire (t : addr) : K unit :=
  _rt_timer_remove t ;;
  m ← get_timer t;
  call (timeout_func m) (parameter m) ;;
  m ← get_timer t;
  if negb (Z.land (flag m) RT_TIMER_FLAG_PERIODIC =? 0) && negb (Z.land (flag m) RT_TIMER_FLAG_ACTIVATED =? 0) then
    put_timer t (set_flag m (clear8 (flag m) RT_TIMER_FLAG_ACTIVATED)) ;; rt_timer_start t ;; mret tt
  else put_timer t (set_flag m (clear8 (flag m) RT_TIMER_FLAG_ACTIVATED)).

Fixpoint timer_check_loop (fuel : nat) (current_tick : Z) : K (list addr) :=
  match fuel with
  | O => ub
  | S fuel =>
      e ← list_isempty Timers;
      if e : bool then mret [] else
      n ← list_next Timers; t ← timer_entry n; m ← get_timer t;
      if u32 (current_tick - timeout_tick m) <? RT_TICK_MAX / 2 then
        timer_expire t ;;
        current_tick ← rt_tick_get;
        fired ← timer_check_loop fuel current_tick; mret (t :: fired)
      else mret []
  end.

Definition rt_timer_check (fuel : nat) : K (list addr) :=
  current_tick ← rt_tick_get; timer_check_loop fuel current_tick.
End check.

Definition rt_timer_next_timeout_tick : K Z := rt_timer_list_next_timeout.

Definition rt_system_timer_init : K unit := list_init Timers.

(** ** The list as a sequence of timers with due times *)

Notation due_list := (list (addr * Z)).

Definition row_of (x : addr * Z) : node := Row x.1.

(** Behind all timers that are not due later. *)
Fixpoint insert_due (t : addr) (d : Z) (ts : due_list) : due_list :=
  match ts with
  | [] => [(t, d)]
  | x :: ts => if x.2 <=? d then x :: insert_due t d ts else (t, d) :: x :: ts
  end.

Definition without (t : addr) (ts : due_list) : due_list := filter (fun x => x.1 <> t) ts.

Definition not_after (x y : addr * Z) : Prop := x.2 <= y.2.

(** The list at time [T]: the due times of the timers in it lie within half of the
    range of ticks from [B] on, and those that are not in it are not linked.  A
    timer that is due before [T] is late. *)
Record late_view (k : kernel) (L : gmap node (list node)) (B T : Z) (ts : due_list) : Prop := {
  tv_linked : linked (lists k) L;
  tv_list : L !! Timers = Some (row_of <$> ts);
  tv_tick : rt_tick (clk k) = u32 T;
  tv_due : forall t d, (t, d) ∈ ts -> B <= d <= B + 2 ^ 31 - 2 /\
    exists m, timers (clk k) !! t = Some m /\ timeout_tick m = u32 d;
  tv_sorted : StronglySorted not_after ts;
  tv_rows : forall t m, timers (clk k) !! t = Some m -> t ∈ ts.*1 \/ L !! Row t = Some [];
}.
Arguments tv_linked k L {B} T ts _.
Arguments tv_list k L {B} T ts _.
Arguments tv_tick k L {B} T ts _.
Arguments tv_due k L {B} T ts _ t d _.
Arguments tv_sorted k L {B} T ts _.
Arguments tv_rows k L {B} T ts _ t m _.

(** No timer is late: what holds between two checks of the timers. *)
Notation timers_view k L T ts := (late_view k L T T ts).

Lemma tv_nodup k L {B} T ts : late_view k L B T ts -> NoDup ts.*1.
Proof.
  intros [Hlk Hl _ _ _ _]. pose proof (linked_nodup _ _ Hlk _ _ Hl) as [_ Hnd]%NoDup_cons.
  replace (row_of <$> ts) with (Row <$> ts.*1) in Hnd by (rewrite <-list_fmap_compose; done).
  by apply NoDup_fmap_1 in Hnd.
Qed.

Lemma insert_due_at t d pre post : Forall (fun x => x.2 <= d) pre ->
  match post with [] => True | x :: _ => d < x.2 end -> insert_due t d (pre ++ post) = pre ++ (t, d) :: post.
Proof.
  intros Hpre Hpost. induction Hpre as [|x pre Hx _ IH]; cbn [app insert_due].
  - destruct post as [|x post]; [done|]. cbn. by rewrite (proj2 (Z.leb_gt _ _)).
  - rewrite (proj2 (Z.leb_le _ _)) by done. by rewrite IH.
Qed.

Lemma insert_due_perm t d ts : insert_due t d ts ≡ₚ (t, d) :: ts.
Proof.
  induction ts as [|x ts IH]; cbn; [done|]. destruct (x.2 <=? d); [|done]. rewrite IH. apply Permutation_swap.
Qed.

Lemma insert_due_sorted t d ts : StronglySorted not_after ts -> StronglySorted not_after (insert_due t d ts).
Proof.
  induction 1 as [|x ts Hs IH Hx]; cbn; [by repeat constructor|]. destruct (Z.leb_spec x.2 d) as [Hle|Hgt].
  - constructor; [done|]. rewrite insert_due_perm. constructor; [exact Hle|done].
  - constructor; [by constructor|]. constructor; [unfold not_after; cbn; lia|].
    eapply Forall_impl; [exact Hx|]. unfold not_after. cbn. lia.
Qed.

Lemma without_notin t ts : t ∉ ts.*1 -> without t ts = ts.
Proof.
  induction ts as [|x ts IH]; [done|]. cbn [fmap list_fmap]. rewrite not_elem_of_cons. intros [Hx Hn].
  unfold without in *. rewrite filter_cons_True by done. by rewrite IH.
Qed.

Lemma without_app t pre d post : t ∉ pre.*1 -> t ∉ post.*1 -> without t (pre ++ (t, d) :: post) = pre ++ post.
Proof.
  intros Hpre Hpost. unfold without. rewrite filter_app, filter_cons_False by (cbn; tauto).
  change (without t pre ++ without t post = pre ++ post). by rewrite !(without_notin t).
Qed.

Lemma sorted_without t ts : StronglySorted not_after ts -> StronglySorted not_after (without t ts).
Proof.
  induction 1 as [|x ts Hs IH Hx]; [constructor|]. unfold without in *. rewrite filter_cons.
  case_decide; [|done]. constructor; [done|]. apply Forall_forall. intros y [_ Hy]%list_elem_of_filter.
  rewrite Forall_forall in Hx. by apply Hx.
Qed.

(** ** The clock part of the state *)

(** Everything but the clock and the rows is the same. *)
Record same_rest (k k' : kernel) (L L' : gmap node (list node)) : Prop := {
  sr_objects : objects k' = objects k;
  sr_sch : sch k' = sch k;
  sr_ipc : ipc k' = ipc k;
  sr_lists : forall n, n <> Timers -> (forall t, n <> Row t) -> L' !! n = L !! n;
}.

Lemma same_rest_refl k L : same_rest k k L L.
Proof. by split. Qed.

Lemma same_rest_trans k1 k2 k3 L1 L2 L3 : same_rest k1 k2 L1 L2 -> same_rest k2 k3 L2 L3 -> same_rest k1 k3 L1 L3.
Proof.
  intros [? ? ? H1] [? ? ? H2]. split; [congruence..|]. intros n Hn Hr. rewrite H2, H1 by done. done.
Qed.

(** A timer leaves the list, or is not in it. *)
Lemma wp_timer_remove k L {B} T ts t m Q : late_view k L B T ts -> timers (clk k) !! t = Some m ->
  (forall lk' L', late_view (with_lists k lk') L' B T (without t ts) -> L' !! Row t = Some [] ->
     same_rest k (with_lists k lk') L L' -> Q tt (with_lists k lk')) -> wp (_rt_timer_remove t) k Q.
Proof.
  intros Htv Hm HQ. pose proof (tv_nodup _ _ _ _ Htv) as Hnd. pose proof Htv as [Hlk Hl Ht Hd Hs Hr].
  destruct (decide (t ∈ ts.*1)) as [Hin|Hout].
  - apply list_elem_of_fmap in Hin as ([t' d] & -> & Hin). cbn [fst].
    apply list_elem_of_split in Hin as (pre & post & ->). cbn [fst] in *.
    rewrite fmap_app, fmap_cons in Hl. rewrite fmap_app, fmap_cons in Hnd. cbn [fst] in Hnd. apply NoDup_app in Hnd as (Hn1 & Hn2 & [Hn3 Hn4]%NoDup_cons).
    assert (t' ∉ pre.*1) as Hpre by (intros Hx; apply (Hn2 _ Hx); left).
    eapply wp_remove; [exact Hlk|exact Hl|]. intros lk' Hlk'. eapply HQ; [|by rewrite lookup_insert_eq|].
    + rewrite without_app by done. split; cbn [lists with_lists clk].
      * exact Hlk'.
      * rewrite lookup_insert_ne, lookup_insert_eq by done. by rewrite fmap_app.
      * done.
      * intros t d' Hin. apply Hd. set_solver.
      * rewrite <-(without_app t' pre d post) by done. by apply sorted_without.
      * intros t m' Hm'. destruct (decide (t = t')) as [->|Hne]; [right; by rewrite lookup_insert_eq|].
        destruct (Hr t m' Hm') as [Hin|Hfree].
        -- left. rewrite fmap_app, fmap_cons in Hin. rewrite fmap_app. cbn in Hin. set_solver.
        -- right. rewrite !lookup_insert_ne by congruence. done.
    + split; [done..|]. intros n Hn1' Hn2'. rewrite !lookup_insert_ne; [done| |]; [done|]. intros <-. by apply (Hn2' t').
  - destruct (Hr _ _ Hm) as [|Hfree]; [done|].
    eapply wp_remove_unlinked; [exact Hlk|exact Hfree|]. intros lk' Hlk'. apply (HQ lk' L); [|done|by split].
    rewrite (without_notin t ts Hout). by split.
Qed.

(** ** Starting a timer *)

Lemma tick_after d d' B : B <= d <= B + 2 ^ 31 - 2 -> B <= d' <= B + 2 ^ 31 - 2 ->
  (u32 (u32 d' - u32 d) =? 0) = (d' =? d) /\ (u32 (u32 d' - u32 d) <? RT_TICK_MAX / 2) = (d <=? d').
Proof.
  intros Hd Hd'. unfold u32. rewrite <-Zminus_mod. change (RT_TICK_MAX / 2) with 2147483647.
  destruct (Z.le_gt_cases d d').
  - rewrite Z.mod_small by lia. rewrite (proj2 (Z.leb_le d d')) by lia.
    split; [|apply Z.ltb_lt; lia]. destruct (Z.eqb_spec d' d); [by subst; rewrite Z.sub_diag|apply Z.eqb_neq; lia].
  - replace ((d' - d) mod 2 ^ 32) with (d' - d + 2 ^ 32)
      by (rewrite <-(Z.mod_add _ 1) by lia; rewrite Z.mod_small; lia).
    rewrite (proj2 (Z.leb_gt d d')), (proj2 (Z.eqb_neq d' d)) by lia. split; [apply Z.eqb_neq; lia|apply Z.ltb_ge; lia].
Qed.

Lemma row_search_finds k L {B} T ts t m d pre post fuel Q : late_view k L B T ts -> ts = pre ++ post ->
  timers (clk k) !! t = Some m -> timeout_tick m = u32 d -> B <= d <= B + 2 ^ 31 - 2 ->
  Forall (fun x => x.2 <= d) pre -> (length post < fuel)%nat ->
  (forall pre' post', ts = pre' ++ post' -> insert_due t d ts = pre' ++ (t, d) :: post' ->
     Q (default Timers (last (row_of <$> pre'))) k) ->
  wp (row_search fuel (default Timers (last (row_of <$> pre))) t) k Q.
Proof.
  intros Htv Hts Hm Hmd Hd Hpre Hf HQ. revert fuel pre Hts Hpre Hf. pose proof Htv as [Hlk Hl _ Hdue _ _].
  induction post as [|[t' d'] post IH]; intros fuel pre Hts Hpre Hf; (destruct fuel as [|fuel]; [simpl in Hf; lia|]);
    cbn [row_search]; apply wp_bind; (eapply wp_prev; [by eapply linked_last|]).
  - rewrite app_nil_r in Hts. subst pre. rewrite decide_True by done. apply (HQ ts []); [by rewrite app_nil_r|].
    rewrite <-(app_nil_r ts) at 1. by apply insert_due_at.
  - pose proof Hl as Hl2. rewrite Hts, fmap_app, fmap_cons in Hl2.
    destruct (linked_gap _ _ _ _ _ Hlk Hl2) as [Hnx _]. cbn [head] in Hnx. rewrite decide_False.
    + apply wp_bind. eapply wp_next; [exact Hnx|]. cbn [default from_option option_map row_of fst timer_entry id].
      wp_step. destruct (Hdue t' d') as (Hd' & m' & Hm' & Hmd'); [rewrite Hts; set_solver|].
      apply wp_bind. eapply wp_get_timer; [exact Hm'|]. apply wp_bind. eapply wp_get_timer; [exact Hm|].
      rewrite Hmd, Hmd'. destruct (tick_after d d' B Hd Hd') as [-> ->].
      assert (d' <= d -> wp (row_search fuel (Row t') t) k Q) as Hnext.
      { intros Hle. specialize (IH fuel (pre ++ [(t', d')])). rewrite fmap_app in IH.
        change (row_of <$> [(t', d')]) with [Row t'] in IH. rewrite last_snoc in IH.
        apply IH; [by rewrite <-(assoc_L (++))| |simpl in Hf; lia].
        apply Forall_app. split; [done|]. by apply Forall_singleton. }
      destruct (Z.eqb_spec d' d); [apply Hnext; lia|]. destruct (Z.leb_spec d d'); [|apply Hnext; lia].
      apply (HQ pre ((t', d') :: post)); [done|]. rewrite Hts. apply insert_due_at; [done|cbn; lia].
    + rewrite Hts, fmap_app, fmap_cons. change (row_of (t', d')) with (Row t').
      rewrite (last_app_cons (row_of <$> pre)), last_cons.
      pose proof (linked_nodup _ _ Hlk _ _ Hl2) as Hnd. rewrite ring_middle in Hnd. apply NoDup_cons in Hnd as [Hn Hnd].
      destruct (gap_nodes Timers _ _ Hnd) as (Hin & _ & _ & Hpost & _).
      destruct (last (row_of <$> post)) as [y|] eqn:Hy; cbn.
      * intros Heq. apply (Hpost y); [by apply last_Some_elem_of|done].
      * intros Heq. apply Hn. rewrite Heq in Hin. clear -Hin. rewrite elem_of_cons, elem_of_app in *. tauto.
Qed.

Definition upd_timer (k : kernel) (t : addr) (m : rt_timer) : kernel :=
  with_clk k (mk_clock (rt_tick (clk k)) (random_nr (clk k)) (<[t := m]> (timers (clk k)))).

Lemma wp_put_timer k t m Q : Q tt (upd_timer k t m) -> wp (put_timer t m) k Q.
Proof. done. Qed.

Lemma same_rest_upd k t m L : same_rest k (upd_timer k t m) L L.
Proof. by split. Qed.

(** A timer changes while it is not in the list, or keeps its timeout. *)
Lemma tv_upd k L {B} T ts t m m0 : late_view k L B T ts -> timers (clk k) !! t = Some m0 ->
  t ∉ ts.*1 \/ timeout_tick m = timeout_tick m0 -> late_view (upd_timer k t m) L B T ts.
Proof.
  intros [Hlk Hl Ht Hd Hs Hr] Hm Hcase. split; [done..| |done|].
  - intros t' d Hin. destruct (Hd _ _ Hin) as (Hrange & m' & Hm' & Hmd). split; [done|]. cbn.
    destruct (decide (t' = t)) as [->|Hne]; [|rewrite lookup_insert_ne by done; by exists m'].
    rewrite lookup_insert_eq. exists m. split; [done|]. rewrite Hm in Hm'. injection Hm' as <-.
    destruct Hcase as [Hnot| ->]; [|done]. destruct Hnot. by apply (list_elem_of_fmap_2 fst _ _ Hin).
  - intros t' m'. change (timers (clk (upd_timer k t m))) with (<[t := m]> (timers (clk k))).
    intros [[<- _]|[_ Hm']]%lookup_insert_Some; eauto.
Qed.

Lemma insert_due_mem t d ts x : x ∈ insert_due t d ts <-> x = (t, d) \/ x ∈ ts.
Proof. by rewrite insert_due_perm, elem_of_cons. Qed.

(** The node of an unlinked timer goes into the list. *)
Lemma tv_insert k L {B} T ts t m d pre post lk' : late_view k L B T ts -> t ∉ ts.*1 ->
  timers (clk k) !! t = Some m -> timeout_tick m = u32 d -> B <= d <= B + 2 ^ 31 - 2 ->
  insert_due t d ts = pre ++ (t, d) :: post ->
  linked lk' (<[Timers := (row_of <$> pre) ++ Row t :: (row_of <$> post)]> (delete (Row t) L)) ->
  late_view (with_lists k lk') (<[Timers := (row_of <$> pre) ++ Row t :: (row_of <$> post)]> (delete (Row t) L))
    B T (insert_due t d ts).
Proof.
  intros [Hlk Hl Ht Hd Hs Hr] Hnot Hm Hmd Hrange Hins Hlk'. split; cbn [lists with_lists clk].
  - done.
  - rewrite lookup_insert_eq, Hins, fmap_app. done.
  - done.
  - intros t' d' [[= -> ->]|Hin]%insert_due_mem; [|by apply Hd]. split; [done|]. by exists m.
  - by apply insert_due_sorted.
  - intros t' m' Hm'. destruct (decide (t' = t)) as [->|Hne].
    + left. apply (list_elem_of_fmap_2 fst _ (t, d)), insert_due_mem. by left.
    + destruct (Hr _ _ Hm') as [Hin|Hfree].
      * left. apply list_elem_of_fmap in Hin as ([t2 d2] & -> & Hin).
        apply (list_elem_of_fmap_2 fst _ (t2, d2)), insert_due_mem. by right.
      * right. rewrite lookup_insert_ne, lookup_delete_ne by congruence. done.
Qed.

(** What starting makes of a timer. *)
Definition started (m : rt_timer) (tick : Z) : rt_timer :=
  mk_timer (Z.lor (clear8 (flag m) RT_TIMER_FLAG_ACTIVATED) RT_TIMER_FLAG_ACTIVATED) (timeout_func m) (parameter m)
    (timer_init_tick m) (u32 (tick + timer_init_tick m)).

Lemma without_not_in t ts : t ∉ (without t ts).*1.
Proof. intros ([t' d] & -> & [Hn _]%list_elem_of_filter)%list_elem_of_fmap. by apply Hn. Qed.

Lemma tv_size k L {B} T ts : late_view k L B T ts -> (length ts < size (lists k))%nat.
Proof.
  intros [Hlk Hl _ _ _ _]. pose proof (linked_size _ _ _ _ Hlk Hl) as Hs. by rewrite length_fmap in Hs.
Qed.

Lemma wp_timer_start_late k L B T ts t m Q : late_view k L B T ts -> timers (clk k) !! t = Some m ->
  0 <= timer_init_tick m < RT_TICK_MAX / 2 -> B <= T + timer_init_tick m <= B + 2 ^ 31 - 2 ->
  (forall k' L', late_view k' L' B T (insert_due t (T + timer_init_tick m) (without t ts)) ->
     timers (clk k') = <[t := started m (rt_tick (clk k))]> (timers (clk k)) ->
     same_rest k k' L L' -> Q (- RT_EOK) k') ->
  wp (rt_timer_start t) k Q.
Proof.
  intros Htv Hm Hinit HB HQ. unfold rt_timer_start. change (RT_TICK_MAX / 2) with 2147483647 in *.
  apply wp_bind. eapply wp_timer_remove; [done|done|]. intros lk1 L1 Htv1 Hfree1 Hrest1.
  set (ts1 := without t ts) in *. pose proof (without_not_in t ts) as Hnot. fold ts1 in Hnot.
  assert (timers (clk (with_lists k lk1)) !! t = Some m) as Hm1 by done.
  set (k1 := with_lists k lk1) in *. apply wp_bind. eapply wp_get_timer; [exact Hm1|].
  apply wp_bind, wp_put_timer. set (m1 := set_flag m _). set (k2 := upd_timer k1 t m1).
  apply wp_bind. eapply wp_get_timer; [apply lookup_insert_eq|]. apply wp_bind, wp_assert; [by apply Z.ltb_lt; cbn; lia|].
  apply wp_bind. unfold rt_tick_get. apply wp_bind, wp_get, wp_ret. apply wp_bind, wp_put_timer.
  set (m2 := set_timeout_tick m1 _). set (k3 := upd_timer k2 t m2). apply wp_bind, wp_get. apply wp_bind.
  pose proof (tv_tick _ _ _ _ Htv) as Htick.
  assert (late_view k2 L1 B T ts1) as Htv2 by (apply (tv_upd _ _ _ _ _ _ m); auto).
  assert (late_view k3 L1 B T ts1) as Htv3 by (apply (tv_upd _ _ _ _ _ _ m1); [done|apply lookup_insert_eq|auto]).
  assert (timeout_tick m2 = u32 (T + timer_init_tick m)) as Hm2.
  { cbn. rewrite Htick. unfold u32. by rewrite Zplus_mod_idemp_l. }
  pose proof (tv_size _ _ _ _ Htv3) as Hsize.
  apply (row_search_finds (B := B) k3 L1 T ts1 t m2 (T + timer_init_tick m) [] ts1); try done; [apply lookup_insert_eq|lia|].
  intros pre post Hts Hins. unfold count_random. apply wp_bind, wp_bind, wp_get, wp_put. set (k4 := with_clk _ _).
  apply wp_bind. eapply (wp_insert_after k4 L1 Timers (row_of <$> pre) (row_of <$> post)).
  - exact (tv_linked _ _ _ _ Htv3).
  - rewrite <-fmap_app, <-Hts. apply Htv3.
  - exact Hfree1.
  - done.
  - intros lk' Hlk'. apply wp_bind. eapply wp_get_timer; [apply lookup_insert_eq|]. apply wp_bind, wp_put_timer, wp_ret.
    set (k5 := with_lists k4 lk').
    assert (late_view k4 L1 B T ts1) as Htv4 by (destruct Htv3; by split).
    assert (timers (clk k4) !! t = Some m2) as Hm4 by apply lookup_insert_eq.
    eapply (HQ _ (<[Timers := (row_of <$> pre) ++ Row t :: (row_of <$> post)]> (delete (Row t) L1))).
    + apply (tv_upd k5 _ _ _ t _ m2); [|exact Hm4|by right].
      by apply (tv_insert (B := B) k4 L1 T ts1 t m2 _ pre post).
    + cbn. by rewrite !insert_insert_eq.
    + apply (same_rest_trans _ k1 _ _ L1); [done|]. split; [done..|]. intros n Hn Hr.
      rewrite lookup_insert_ne, lookup_delete_ne by auto. done.
Qed.

Lemma wp_timer_start k L T ts t m Q : timers_view k L T ts -> timers (clk k) !! t = Some m ->
  0 <= timer_init_tick m < RT_TICK_MAX / 2 ->
  (forall k' L', timers_view k' L' T (insert_due t (T + timer_init_tick m) (without t ts)) ->
     timers (clk k') = <[t := started m (rt_tick (clk k))]> (timers (clk k)) ->
     same_rest k k' L L' -> Q (- RT_EOK) k') ->
  wp (rt_timer_start t) k Q.
Proof.
  intros Htv Hm Hinit. apply (wp_timer_start_late k L T T ts t m); [done..|]. change (RT_TICK_MAX / 2) with 2147483647 in Hinit. lia.
Qed.

(** ** Stopping *)

Definition activated (m : rt_timer) : bool := negb (Z.land (flag m) RT_TIMER_FLAG_ACTIVATED =? 0).
Definition periodic (m : rt_timer) : bool := negb (Z.land (flag m) RT_TIMER_FLAG_PERIODIC =? 0).
Definition deactivate (m : rt_timer) : rt_timer := set_flag m (clear8 (flag m) RT_TIMER_FLAG_ACTIVATED).

Lemma wp_timer_stop k L {B} T ts t m Q : late_view k L B T ts -> timers (clk k) !! t = Some m ->
  (activated m = false -> Q (- RT_ERROR) k) ->
  (activated m = true -> forall k' L', late_view k' L' B T (without t ts) -> L' !! Row t = Some [] ->
     timers (clk k') = <[t := deactivate m]> (timers (clk k)) -> same_rest k k' L L' -> Q RT_EOK k') ->
  wp (rt_timer_stop t) k Q.
Proof.
  intros Htv Hm Hno Hyes. unfold rt_timer_stop. apply wp_bind. eapply wp_get_timer; [exact Hm|].
  unfold activated in *. destruct (_ =? 0); [by apply wp_ret, Hno|]. apply wp_bind.
  eapply wp_timer_remove; [done|done|]. intros lk' L' Htv' Hfree Hrest. apply wp_bind.
  eapply wp_get_timer; [exact Hm|]. apply wp_bind, wp_put_timer, wp_ret. eapply (Hyes eq_refl _ L').
  - apply (tv_upd _ _ _ _ _ _ m); auto.
  - done.
  - done.
  - by destruct Hrest; split.
Qed.

(** ** The check of the expired timers *)

Definition expired (T : Z) (ts : due_list) : due_list := filter (fun x => x.2 <= T) ts.


(** The head of the list decides: it is due first. *)
Lemma expired_nil T t d ts : StronglySorted not_after ((t, d) :: ts) -> T < d ->
  Forall (fun x => T < x.2) ((t, d) :: ts).
Proof.
  intros [_ Hall]%StronglySorted_inv Hd. constructor; [done|]. eapply Forall_impl; [exact Hall|].
  unfold not_after. cbn. lia.
Qed.

Lemma expired_head B d T : B <= T <= B + 2 ^ 31 - 2 -> B <= d <= B + 2 ^ 31 - 2 ->
  (u32 (u32 T - u32 d) <? RT_TICK_MAX / 2) = (d <=? T).
Proof. intros HT Hd. by apply (tick_after d T B). Qed.

Section check_rule.
Context (call : timeout_fn -> Z -> K unit) (B T : Z) (in_range : B <= T <= B + 2 ^ 31 - 2).
Context (Inv : list addr -> kernel -> gmap node (list node) -> due_list -> Prop).
Hypothesis inv_view : forall fired k L ts, Inv fired k L ts -> late_view k L B T ts.
Hypothesis inv_step : forall fired k L t d ts, Inv fired k L ((t, d) :: ts) -> d <= T ->
  wp (timer_expire call t) k (fun _ k' => exists L' ts', Inv (fired ++ [t]) k' L' ts' /\
    (length (expired T ts') <= length (expired T ts))%nat).

Lemma late_check_rule fuel fired k L ts Q : Inv fired k L ts -> (length (expired T ts) < fuel)%nat ->
  (forall fired' k' L' ts', Inv (fired ++ fired') k' L' ts' -> Forall (fun x => T < x.2) ts' -> Q fired' k') ->
  wp (timer_check_loop call fuel (u32 T)) k Q.
Proof using in_range inv_view inv_step.
  revert fired k L ts Q. induction fuel as [|fuel IH]; intros fired k L ts Q Hinv Hf HQ; [lia|].
  pose proof (inv_view _ _ _ _ Hinv) as [Hlk Hl Ht Hd Hs _]. cbn [timer_check_loop].
  apply wp_bind. eapply wp_isempty; [done|done|]. destruct ts as [|[t d] ts].
  - rewrite bool_decide_true by done. apply wp_ret. apply (HQ [] k L []); [by rewrite app_nil_r|constructor].
  - rewrite bool_decide_false by done. apply wp_bind. eapply wp_next; [by eapply linked_first|].
    cbn [fmap list_fmap head default from_option row_of fst timer_entry option_map id]. wp_step.
    destruct (Hd t d) as (Hrange & m & Hm & Hmd); [left|].
    apply wp_bind. eapply wp_get_timer; [exact Hm|]. rewrite Hmd, (expired_head B) by done.
    destruct (Z.leb_spec d T) as [Hle|Hgt].
    + apply wp_bind. eapply wp_mono; [by eapply inv_step|]. cbn. intros _ k' (L' & ts' & Hinv' & Hlen).
      apply wp_bind. unfold rt_tick_get. apply wp_bind, wp_get, wp_ret.
      rewrite (tv_tick _ _ _ _ (inv_view _ _ _ _ Hinv')). apply wp_bind.
      apply (IH (fired ++ [t]) k' L' ts'); [done| |].
      * unfold expired in *. rewrite filter_cons_True in Hf by done. simpl in Hf. lia.
      * intros fired' k2 L2 ts2 Hinv2 Hall. apply wp_ret. apply (HQ (t :: fired') k2 L2 ts2); [|done].
        by rewrite <-(assoc_L (++)) in Hinv2.
    + apply wp_ret. apply (HQ [] k L ((t, d) :: ts)); [by rewrite app_nil_r|]. by apply expired_nil.
Qed.
End check_rule.

Lemma check_loop_rule (call : timeout_fn -> Z -> K unit) T (Inv : list addr -> kernel -> gmap node (list node) -> due_list -> Prop) fuel fired k L ts Q :
  (forall fired k L ts, Inv fired k L ts -> timers_view k L T ts) ->
  (forall fired k L t d ts, Inv fired k L ((t, d) :: ts) -> d <= T ->
     wp (timer_expire call t) k (fun _ k' => exists L' ts', Inv (fired ++ [t]) k' L' ts' /\
       (length (expired T ts') <= length (expired T ts))%nat)) ->
  Inv fired k L ts -> (length (expired T ts) < fuel)%nat ->
  (forall fired' k' L' ts', Inv (fired ++ fired') k' L' ts' -> Forall (fun x => T < x.2) ts' -> Q fired' k') ->
  wp (timer_check_loop call fuel (u32 T)) k Q.
Proof. intros Hview Hstep. apply (late_check_rule call T T ltac:(lia) Inv Hview Hstep). Qed.

(** Timeout functions that leave the timers alone, in the states in which they are
    called: [P] is what the functions of the due timers rely on, given those that
    have been called.  [P] cannot depend on the timers or on their list. *)
Record leaves_timers (call : timeout_fn -> Z -> K unit) (P : list addr -> kernel -> gmap node (list node) -> Prop)
    (tm : gmap addr rt_timer) (due : list addr) : Prop := {
  lt_rest : forall fired k k' L L', same_rest k k' L L' -> P fired k L -> P fired k' L';
  lt_call : forall fired t rest m k L, due = fired ++ t :: rest -> tm !! t = Some m -> linked (lists k) L -> P fired k L ->
    wp (call (timeout_func m) (parameter m)) k (fun _ k' => clk k' = clk k /\
      exists L', linked (lists k') L' /\ L' !! Timers = L !! Timers /\ (forall t, L' !! Row t = L !! Row t) /\
        P (fired ++ [t]) k' L');
}.

(** Functions that leave the timers alone in every state. *)
Definition quiet (call : timeout_fn -> Z -> K unit) : Prop :=
  forall f p k L, linked (lists k) L -> wp (call f p) k (fun _ k' => clk k' = clk k /\
    exists L', linked (lists k') L' /\ L' !! Timers = L !! Timers /\ forall t, L' !! Row t = L !! Row t).

Lemma quiet_leaves call tm due : quiet call -> leaves_timers call (fun _ _ _ => True) tm due.
Proof.
  intros Hq. split; [done|]. intros fired t rest m k L _ _ Hlk _. eapply wp_mono; [by apply Hq|].
  cbv beta. intros _ k' (? & L' & ? & ? & ?). split; [done|]. by exists L'.
Qed.

(** What an expiry makes of a timer. *)
Definition fire (T : Z) (m : rt_timer) : rt_timer :=
  if periodic m && activated m then started m (u32 T) else deactivate m.

Definition rearm (T : Z) (tm : gmap addr rt_timer) (ts : due_list) (t : addr) : due_list :=
  match tm !! t with
  | Some m => if periodic m && activated m then insert_due t (T + timer_init_tick m) ts else ts
  | None => ts
  end.

Lemma clear8_idem x c : clear8 (clear8 x c) c = clear8 x c.
Proof. unfold clear8. by rewrite <-Z.land_assoc, Z.land_diag. Qed.

Lemma started_deactivate m tick : started (deactivate m) tick = started m tick.
Proof. unfold started, deactivate. cbn. by rewrite clear8_idem. Qed.

Lemma sorted_split T ts : StronglySorted not_after ts ->
  ts = expired T ts ++ filter (fun x => T < x.2) ts.
Proof.
  induction 1 as [|x ts Hs IH Hx]; [done|]. unfold expired in *. destruct (Z.le_gt_cases x.2 T) as [Hle|Hgt].
  - rewrite filter_cons_True, (filter_cons_False (fun x => T < x.2)) by lia. cbn. by rewrite <-IH.
  - assert (forall y, y ∈ x :: ts -> T < y.2) as Hall.
    { intros y [->|Hy]%elem_of_cons; [lia|]. rewrite Forall_forall in Hx. specialize (Hx _ Hy). unfold not_after in Hx. lia. }
    assert (forall l : due_list, (forall y, y ∈ l -> T < y.2) -> filter (fun x => x.2 <= T) l = [] /\ filter (fun x => T < x.2) l = l) as Hl.
    { induction l as [|y l IHl]; intros Hy; [done|]. destruct IHl as [E1 E2]; [intros z Hz; apply Hy; by right|].
      pose proof (Hy y ltac:(left)). rewrite filter_cons_False, filter_cons_True by lia. by rewrite E1, E2. }
    destruct (Hl _ Hall) as [-> ->]. done.
Qed.

Section fires.
Context (call : timeout_fn -> Z -> K unit) (B T : Z) (in_range : B <= T <= B + 2 ^ 31 - 2).
Context (R : kernel -> gmap node (list node) -> Prop).
Hypothesis R_rest : forall k k' L L', same_rest k k' L L' -> R k L -> R k' L'.

Lemma wp_timer_expire k L t d ts m Q : late_view k L B T ((t, d) :: ts) -> timers (clk k) !! t = Some m ->
  (periodic m && activated m = true -> 0 <= timer_init_tick m /\ T + timer_init_tick m <= B + 2 ^ 31 - 2) ->
  (forall k1 L1, linked (lists k1) L1 -> same_rest k k1 L L1 ->
     wp (call (timeout_func m) (parameter m)) k1 (fun _ k' => clk k' = clk k1 /\
       exists L', linked (lists k') L' /\ L' !! Timers = L1 !! Timers /\ (forall t, L' !! Row t = L1 !! Row t) /\ R k' L')) ->
  (forall k' L' ts', late_view k' L' B T ts' ->
     ts' = (if periodic m && activated m then insert_due t (T + timer_init_tick m) ts else ts) ->
     timers (clk k') = <[t := fire T m]> (timers (clk k)) -> R k' L' -> Q tt k') ->
  wp (timer_expire call t) k Q.
Proof using in_range R_rest.
  intros Htv Hm Hinit Hcall HQ. unfold timer_expire. pose proof (tv_nodup _ _ _ _ Htv) as [Hnot _]%NoDup_cons.
  assert (without t ((t, d) :: ts) = ts) as Hwithout by (apply (without_app t [] d ts); [apply not_elem_of_nil|done]).
  apply wp_bind. eapply wp_timer_remove; [done|done|]. intros lk1 L1 Htv1 Hfree1 Hrest1. rewrite Hwithout in Htv1.
  apply wp_bind. eapply wp_get_timer; [exact Hm|]. apply wp_bind.
  eapply wp_mono; [apply (Hcall _ _ (tv_linked _ _ _ _ Htv1) Hrest1)|]. cbn.
  intros _ k2 (Hclk & L2 & Hlk2 & HT2 & HR2 & Hk2).
  assert (late_view k2 L2 B T ts) as Htv2.
  { destruct Htv1 as [_ Hl Ht Hd Hs Hr]. split; rewrite ?Hclk; try done; [by rewrite HT2|].
    intros t' m' Hm'. rewrite HR2. by eapply Hr. }
  assert (timers (clk k2) !! t = Some m) as Hm2 by (by rewrite Hclk).
  assert (rt_tick (clk k2) = u32 T) as Htick by apply Htv2.
  apply wp_bind. eapply wp_get_timer; [exact Hm2|]. unfold fire in HQ. unfold activated, periodic in *.
  destruct (negb _ && negb _) eqn:Hpa.
  - apply wp_bind, wp_put_timer. change (set_flag m _) with (deactivate m). destruct (Hinit eq_refl) as [H0 H1].
    apply wp_bind. eapply (wp_timer_start_late _ L2 B T ts t (deactivate m)).
    + by apply (tv_upd _ _ _ _ _ _ m); auto.
    + apply lookup_insert_eq.
    + change (RT_TICK_MAX / 2) with 2147483647. cbn. lia.
    + cbn. lia.
    + intros k' L' Htv' Htm' Hrest'. apply wp_ret. eapply HQ; [exact Htv'| | |].
      * by rewrite (without_notin t ts Hnot).
      * rewrite Htm'. cbn [clk upd_timer with_clk timers rt_tick]. rewrite insert_insert_eq, started_deactivate, Htick. by rewrite Hclk.
      * eapply R_rest; [|exact Hk2]. eapply same_rest_trans; [apply same_rest_upd|exact Hrest'].
  - apply wp_put_timer. eapply HQ; [by apply (tv_upd _ _ _ _ _ _ m); auto|done| |eapply R_rest; [apply same_rest_upd|exact Hk2]].
    cbn. by rewrite Hclk.
Qed.
End fires.

(** The timers that are due, and what the list becomes when they have fired. *)
Definition after_check (T : Z) (tm : gmap addr rt_timer) (ts : due_list) : due_list :=
  foldl (rearm T tm) (filter (fun x => T < x.2) ts) (expired T ts).*1.

Lemma rearm_later T tm ts t : Forall (fun x => T < x.2) ts ->
  (forall m, tm !! t = Some m -> periodic m && activated m = true -> 1 <= timer_init_tick m) ->
  Forall (fun x => T < x.2) (rearm T tm ts t).
Proof.
  intros Hts Hm. unfold rearm. destruct (tm !! t) as [m|]; [|done].
  destruct (periodic m && activated m) eqn:Hpa; [|done]. rewrite insert_due_perm. constructor; [|done].
  specialize (Hm m eq_refl Hpa). cbn. lia.
Qed.

Lemma insert_due_behind t d rest acc : Forall (fun x => x.2 <= d) rest ->
  insert_due t d (rest ++ acc) = rest ++ insert_due t d acc.
Proof. induction 1 as [|x rest Hx _ IH]; cbn; [done|]. rewrite (proj2 (Z.leb_le _ _)) by done. by rewrite IH. Qed.

Lemma expired_app_later T a b : Forall (fun x => T < x.2) b -> expired T (a ++ b) = expired T a.
Proof.
  intros Hb. unfold expired. rewrite filter_app.
  replace (filter (fun x => x.2 <= T) b) with (@nil (addr * Z)); [by rewrite app_nil_r|].
  induction Hb as [|x b Hx _ IH]; [done|]. rewrite filter_cons_False by lia. done.
Qed.

(** When every timer is due later than now, none is late. *)
Lemma on_time k L B T ts : late_view k L B T ts -> B <= T -> Forall (fun x => T < x.2) ts -> timers_view k L T ts.
Proof.
  intros [Hlk Hl Ht Hd Hs Hr] HB Hall. split; try done. intros t d Hin. destruct (Hd _ _ Hin) as [Hrange Hm]. split; [|done].
  pose proof (proj1 (Forall_forall _ _) Hall _ Hin) as Hlt. cbn in Hlt. lia.
Qed.

Section check_fires.
Context (call : timeout_fn -> Z -> K unit) (B T : Z) (in_range : B <= T <= B + 2 ^ 31 - 2).
Context (P : list addr -> kernel -> gmap node (list node) -> Prop) (tm0 : gmap addr rt_timer) (ts0 : due_list).
Hypothesis call_leaves : leaves_timers call P tm0 (expired T ts0).*1.
Hypothesis rearmed_later : forall t d m, (t, d) ∈ expired T ts0 -> tm0 !! t = Some m -> periodic m && activated m = true ->
  1 <= timer_init_tick m /\ T + timer_init_tick m <= B + 2 ^ 31 - 2.
Hypothesis listed : forall t d, (t, d) ∈ ts0 -> is_Some (tm0 !! t).

Definition check_inv (fired : list addr) (k : kernel) (L : gmap node (list node)) (ts : due_list) : Prop :=
  exists done rest acc, expired T ts0 = done ++ rest /\ fired = done.*1 /\ ts = rest ++ acc /\
    acc = foldl (rearm T tm0) (filter (fun x => T < x.2) ts0) fired /\ Forall (fun x => T < x.2) acc /\
    NoDup (expired T ts0).*1 /\ late_view k L B T ts /\ P fired k L /\
    forall t, timers (clk k) !! t = if decide (t ∈ fired) then fire T <$> tm0 !! t else tm0 !! t.

Lemma check_inv_step fired k L t d ts : check_inv fired k L ((t, d) :: ts) -> d <= T ->
  wp (timer_expire call t) k (fun _ k' => exists L' ts', check_inv (fired ++ [t]) k' L' ts' /\
    (length (expired T ts') <= length (expired T ts))%nat).
Proof using in_range call_leaves rearmed_later listed.
  intros (dn & rest & acc & Hexp & Hfired & Hts & Hacc & Hlater & Hnd & Htv & HP & Htm) Hd.
  destruct rest as [|x rest].
  { cbn [app] in Hts. rewrite <-Hts in Hlater. apply Forall_cons in Hlater as [Hlt _]. cbn in Hlt. lia. }
  injection Hts as <- ->. rewrite Hexp, fmap_app, fmap_cons in Hnd. cbn [fst] in Hnd.
  pose proof Hnd as (_ & Hdisj & [Hrest _]%NoDup_cons)%NoDup_app.
  assert (t ∉ fired) as Hnot by (rewrite Hfired; intros Hin; apply (Hdisj _ Hin); left).
  assert ((t, d) ∈ expired T ts0) as Hdue by (rewrite Hexp, elem_of_app, elem_of_cons; tauto).
  pose proof Hdue as [_ Hin]%list_elem_of_filter.
  destruct (listed _ _ Hin) as [m Hm0].
  assert (timers (clk k) !! t = Some m) as Hm by (by rewrite Htm, decide_False).
  assert (Forall (fun x => x.2 <= T) (dn ++ (t, d) :: rest)) as Hle.
  { rewrite <-Hexp. apply Forall_forall. by intros x [Hx _]%list_elem_of_filter. }
  apply Forall_app in Hle as [_ [_ Hle]%Forall_cons].
  assert (periodic m && activated m = true -> 1 <= timer_init_tick m /\ T + timer_init_tick m <= B + 2 ^ 31 - 2) as Hinit by (by eapply rearmed_later).
  eapply (wp_timer_expire call B T in_range (P (fired ++ [t])) (lt_rest _ _ _ _ call_leaves _) k L t d (rest ++ acc) m); [done|done|intros E; specialize (Hinit E); lia| |].
  { intros k1 L1 Hlk1 Hrest1. apply (lt_call _ _ _ _ call_leaves fired t rest.*1 m k1 L1); [|done|done|].
    - by rewrite Hexp, fmap_app, Hfired.
    - by eapply (lt_rest _ _ _ _ call_leaves). }
  intros k' L' ts' Htv' Hts' Htm' HP'.
  assert (ts' = rest ++ rearm T tm0 acc t) as Hts2.
  { rewrite Hts'. unfold rearm. rewrite Hm0. destruct (periodic m && activated m) eqn:Hpa; [|done].
    apply insert_due_behind. eapply Forall_impl; [exact Hle|]. specialize (Hinit eq_refl). cbn. lia. }
  assert (Forall (fun x => T < x.2) (rearm T tm0 acc t)) as Hlater'.
  { apply rearm_later; [done|]. intros m' Hm' Hpa. rewrite Hm0 in Hm'. injection Hm' as <-. specialize (Hinit Hpa). lia. }
  exists L', ts'. split.
  - exists (dn ++ [(t, d)]), rest, (rearm T tm0 acc t). split_and!.
    + by rewrite <-(assoc_L (++)).
    + by rewrite fmap_app, Hfired.
    + done.
    + by rewrite foldl_snoc, <-Hacc.
    + done.
    + by rewrite Hexp, fmap_app, fmap_cons.
    + done.
    + done.
    + intros t'. rewrite Htm'. destruct (decide (t' = t)) as [->|Hne].
      * rewrite lookup_insert_eq, decide_True by (rewrite elem_of_app, list_elem_of_singleton; tauto). by rewrite Hm0.
      * rewrite lookup_insert_ne by done. rewrite Htm. destruct (decide (t' ∈ fired)) as [Hf|Hf].
        -- by rewrite decide_True by (rewrite elem_of_app; tauto).
        -- rewrite decide_False; [done|]. rewrite elem_of_app, list_elem_of_singleton. tauto.
  - rewrite Hts2, !expired_app_later by done. done.
Qed.
End check_fires.

(** ** The properties *)

(** C12: rt_timer_start keeps the timer list ordered by due time, as if ticks did
    not wrap: the timer leaves the place it had, and goes behind all timers that
    are not due later than now plus its time; it is marked as activated, and
    nothing but the timer and the list changes. *)
Theorem rt_timer_start_ordered k L T ts t m : timers_view k L T ts -> timers (clk k) !! t = Some m ->
  0 <= timer_init_tick m < RT_TICK_MAX / 2 ->
  exists k' L', rt_timer_start t k = Some (RT_EOK, k') /\
    timers_view k' L' T (insert_due t (T + timer_init_tick m) (without t ts)) /\
    timers (clk k') = <[t := started m (rt_tick (clk k))]> (timers (clk k)) /\ same_rest k k' L L'.
Proof.
  intros Htv Hm Hinit.
  assert (wp (rt_timer_start t) k (fun r k' => r = RT_EOK /\ exists L',
    timers_view k' L' T (insert_due t (T + timer_init_tick m) (without t ts)) /\
    timers (clk k') = <[t := started m (rt_tick (clk k))]> (timers (clk k)) /\ same_rest k k' L L')) as Hwp.
  { eapply wp_timer_start; [done|done|done|]. intros k' L' ???. split; [done|]. by exists L'. }
  apply wp_elim in Hwp as (r & k' & Hrun & -> & L' & ?). by exists k', L'.
Qed.

(** Timers 1 and 2 of the program, on a kernel that has just been initialised;
    the tick counter is about to wrap. *)
Definition empty_kernel : kernel :=
  mk_kernel ∅ ∅ (mk_clock (2 ^ 32 - 5) 0 ∅) (mk_scheduler ∅ None 31 0 0 0) (mk_ipc ∅ ∅ ∅ ∅ ∅ ∅).

Definition demo_setup : K unit :=
  rt_system_timer_init ;;
  _rt_timer_init (Obj 1) (fn_user 1) 0 10 RT_TIMER_FLAG_PERIODIC ;;
  _rt_timer_init (Obj 2) (fn_user 2) 0 3 RT_TIMER_FLAG_ONE_SHOT.

Definition demo_kernel : kernel := from_option snd empty_kernel (demo_setup empty_kernel).

Definition demo_lists : gmap node (list node) := <[Row (Obj 2) := []]> (<[Row (Obj 1) := []]> {[Timers := []]}).

Lemma linked_empty : linked (∅ : gmap node (rt_list_node node)) ∅.
Proof. split; intros *; by rewrite lookup_empty. Qed.

Lemma demo_view : timers_view demo_kernel demo_lists (2 ^ 32 - 5) [].
Proof.
  split; try done.
  - change (lists demo_kernel) with (rt_list_init (rt_list_init (rt_list_init ∅ Timers) (Row (Obj 1))) (Row (Obj 2))).
    assert (linked (rt_list_init ∅ Timers) {[Timers := []]}) as H1
      by (apply linked_init; [exact linked_empty|intros h xs; by rewrite lookup_empty]).
    assert (linked (rt_list_init (rt_list_init ∅ Timers) (Row (Obj 1))) (<[Row (Obj 1) := []]> {[Timers := []]})) as H2.
    { apply linked_init; [exact H1|]. intros h xs [<- <-]%lookup_singleton_Some. by intros ?%list_elem_of_singleton. }
    apply linked_init; [exact H2|]. intros h xs [[<- <-]|[_ [<- <-]%lookup_singleton_Some]]%lookup_insert_Some;
      by intros ?%list_elem_of_singleton.
  - intros t d Hin. by apply elem_of_nil in Hin.
  - constructor.
  - intros t m Ht. right. change (timers (clk demo_kernel)) with
      (<[Obj 2 := mk_timer 0 (fn_user 2) 0 3 0]> (<[Obj 1 := mk_timer 2 (fn_user 1) 0 10 0]> (∅ : gmap addr rt_timer))) in Ht.
    apply lookup_insert_Some in Ht as [[<- _]|[_ Ht]]; [done|].
    apply lookup_insert_Some in Ht as [[<- _]|[_ Ht]]; [done|]. by rewrite lookup_empty in Ht.
Qed.

Lemma rt_timer_start_ordered_witness : exists k' L', rt_timer_start (Obj 1) demo_kernel = Some (RT_EOK, k') /\
  timers_view k' L' (2 ^ 32 - 5) [(Obj 1, 2 ^ 32 + 5)] /\
  timers (clk k') = <[Obj 1 := started (mk_timer 2 (fn_user 1) 0 10 0) (2 ^ 32 - 5)]> (timers (clk demo_kernel)) /\
  same_rest demo_kernel k' demo_lists L'.
Proof.
  exact (rt_timer_start_ordered demo_kernel demo_lists (2 ^ 32 - 5) [] (Obj 1) (mk_timer 2 (fn_user 1) 0 10 0)
    demo_view ltac:(vm_compute; reflexivity) ltac:(vm_compute; split; [discriminate|reflexivity])).
Defined.

(** C13: rt_timer_check calls the functions of exactly the timers that are due, the
    late ones included, in the order of their due times, and ends: a periodic timer
    goes back into the list at now plus its time, a one-shot timer is deactivated,
    every other timer is as before and no timer that is due stays in the list.  The
    due times lie within half of the range of ticks from [B] on, and so do now and
    the next due times of the periodic timers, whose time is at least one tick; the
    timeout functions may change everything but the clock, the timers and their
    list, and rely on what they find ([P]). *)
Theorem rt_timer_check_fires call P k L B T ts fuel : late_view k L B T ts -> B <= T <= B + 2 ^ 31 - 2 ->
  leaves_timers call P (timers (clk k)) (expired T ts).*1 -> P [] k L ->
  (forall t d m, (t, d) ∈ expired T ts -> timers (clk k) !! t = Some m -> periodic m && activated m = true ->
     1 <= timer_init_tick m /\ T + timer_init_tick m <= B + 2 ^ 31 - 2) ->
  (length ts < fuel)%nat ->
  exists k' L', rt_timer_check call fuel k = Some ((expired T ts).*1, k') /\
    timers_view k' L' T (after_check T (timers (clk k)) ts) /\
    Forall (fun x => T < x.2) (after_check T (timers (clk k)) ts) /\ P (expired T ts).*1 k' L' /\
    forall t, timers (clk k') !! t =
      if decide (t ∈ (expired T ts).*1) then fire T <$> timers (clk k) !! t else timers (clk k) !! t.
Proof.
  intros Htv HBT Hleaves HP0 Hperiod Hfuel. set (tm := timers (clk k)) in *.
  assert (forall t d, (t, d) ∈ ts -> is_Some (tm !! t)) as Hlisted.
  { intros t d Hin. destruct (tv_due _ _ _ _ Htv _ _ Hin) as (_ & m & Hm & _). by exists m. }
  assert (Forall (fun x => T < x.2) (filter (fun x => T < x.2) ts)) as Hpending
    by (apply Forall_forall; by intros x [Hx _]%list_elem_of_filter).
  assert (NoDup (expired T ts).*1) as Hnd.
  { pose proof (tv_nodup _ _ _ _ Htv) as Hnd. rewrite (sorted_split T ts (tv_sorted _ _ _ _ Htv)), fmap_app in Hnd.
    by apply NoDup_app in Hnd as [? _]. }
  assert (check_inv B T P tm ts [] k L ts) as Hinv0.
  { exists [], (expired T ts), (filter (fun x => T < x.2) ts). split_and!; try done.
    apply sorted_split, Htv. }
  assert (wp (rt_timer_check call fuel) k (fun fired k' => fired = (expired T ts).*1 /\ exists L',
    timers_view k' L' T (after_check T tm ts) /\ Forall (fun x => T < x.2) (after_check T tm ts) /\ P (expired T ts).*1 k' L' /\
    forall t, timers (clk k') !! t = if decide (t ∈ (expired T ts).*1) then fire T <$> tm !! t else tm !! t)) as Hwp.
  { unfold rt_timer_check, rt_tick_get. apply wp_bind, wp_bind, wp_get, wp_ret. rewrite (tv_tick _ _ _ _ Htv).
    eapply (late_check_rule call B T HBT (check_inv B T P tm ts)); [by intros ???? (?&?&?&?&?&?&?&?&?&?&?)| |exact Hinv0| |].
    - exact (check_inv_step call B T HBT P tm ts Hleaves Hperiod Hlisted).
    - unfold expired. pose proof (length_filter (fun x : addr * Z => x.2 <= T) ts). lia.
    - cbn. intros fired k' L' ts' (dn & rest & acc & Hexp & -> & Hts' & Hacc & Hlater & _ & Htv' & HP' & Htm') Hall.
      assert (rest = []) as ->.
      { destruct rest as [|x rest]; [done|]. assert (x ∈ expired T ts) as [Hx _]%list_elem_of_filter
          by (rewrite Hexp, elem_of_app, elem_of_cons; tauto).
        rewrite Hts' in Hall. apply Forall_cons in Hall as [Hx2 _]. lia. }
      rewrite app_nil_r in Hexp. cbn in Hts'. unfold after_check. rewrite Hexp, <-Hacc, <-Hts'. split; [done|]. exists L'.
      split_and!; [apply (on_time k' L' B T ts' Htv'); [lia|done]|done..]. }
  apply wp_elim in Hwp as (fired & k' & Hrun & -> & L' & ?). by exists k', L'.
Qed.

Lemma tv_tick_set k L T T' ts : timers_view k L T ts -> (forall t d, (t, d) ∈ ts -> T' <= d <= T' + 2 ^ 31 - 2) ->
  timers_view (with_clk k (mk_clock (u32 T') (random_nr (clk k)) (timers (clk k)))) L T' ts.
Proof.
  intros [Hlk Hl Ht Hd Hs Hr] Hrange. split; try done. intros t d Hin. split; [exact (Hrange _ _ Hin)|].
  by destruct (Hd t d Hin) as [_ ?].
Qed.

Definition no_call (_ : timeout_fn) (_ : Z) : K unit := mret tt.

Lemma no_call_quiet : quiet no_call.
Proof. intros f p k L Hlk. apply wp_ret. split; [done|]. by exists L. Qed.

(** The check comes two ticks after the first timer was due: it is late, and the
    second one is due now. *)
Definition late_now : Z := 2 ^ 32 + 7.

Definition late_due : due_list := [(Obj 1, 2 ^ 32 + 5); (Obj 2, 2 ^ 32 + 7)].

Lemma rt_timer_check_fires_witness : exists k L, late_view k L (2 ^ 32 + 5) late_now late_due /\
  exists k' L', rt_timer_check no_call 3 k = Some ([Obj 1; Obj 2], k') /\
    timers_view k' L' late_now (after_check late_now (timers (clk k)) late_due) /\
    Forall (fun x => late_now < x.2) (after_check late_now (timers (clk k)) late_due) /\ True /\
    forall t, timers (clk k') !! t =
      if decide (t ∈ [Obj 1; Obj 2]) then fire late_now <$> timers (clk k) !! t else timers (clk k) !! t.
Proof.
  set (T1 := 2 ^ 32 - 5). set (T2 := 2 ^ 32 + 4). set (m1 := mk_timer 2 (fn_user 1) 0 10 0). set (m2 := mk_timer 0 (fn_user 2) 0 3 0).
  assert (wp (rt_timer_start (Obj 1)) demo_kernel (fun _ k => exists L, timers_view k L T1 [(Obj 1, 2 ^ 32 + 5)] /\
    timers (clk k) = <[Obj 1 := started m1 T1]> (timers (clk demo_kernel)))) as Hwp.
  { apply (wp_timer_start _ _ _ _ _ m1 _ demo_view); [vm_compute; reflexivity|vm_compute; split; [discriminate|reflexivity]|].
    intros k L Hk Htm _. exists L. split; [exact Hk|exact Htm]. }
  apply wp_elim in Hwp as (r & k & _ & L & Hk & Htm).
  set (k1 := with_clk k (mk_clock (u32 T2) (random_nr (clk k)) (timers (clk k)))).
  assert (timers_view k1 L T2 [(Obj 1, 2 ^ 32 + 5)]) as Hk1.
  { apply (tv_tick_set k L T1); [exact Hk|]. intros t d [= -> ->]%list_elem_of_singleton. unfold T2. lia. }
  assert (timers (clk k1) !! Obj 2 = Some m2) as Hm2 by (change (timers (clk k1)) with (timers (clk k)); rewrite Htm, lookup_insert_ne by done; vm_compute; reflexivity).
  assert (wp (rt_timer_start (Obj 2)) k1 (fun _ k => exists L, timers_view k L T2 late_due /\
    timers (clk k) = <[Obj 2 := started m2 (u32 T2)]> (timers (clk k1)))) as Hwp.
  { apply (wp_timer_start _ _ _ _ _ m2 _ Hk1 Hm2); [vm_compute; split; [discriminate|reflexivity]|].
    intros k' L' Hk' Htm' _. exists L'. split; [exact Hk'|exact Htm']. }
  apply wp_elim in Hwp as (r2 & k2 & _ & L2 & Hk2 & Htm2).
  set (k3 := with_clk k2 (mk_clock (u32 late_now) (random_nr (clk k2)) (timers (clk k2)))).
  assert (late_view k3 L2 (2 ^ 32 + 5) late_now late_due) as Hk3.
  { destruct Hk2 as [Hlk Hl Ht Hd Hs Hr]. split; try done. intros t d Hin. destruct (Hd t d Hin) as [_ Hm]. split; [|exact Hm].
    apply elem_of_cons in Hin as [[= -> ->]|[= -> ->]%list_elem_of_singleton]; lia. }
  exists k3, L2. split; [exact Hk3|].
  apply (rt_timer_check_fires no_call (fun _ _ _ => True) k3 L2 (2 ^ 32 + 5) late_now late_due 3 Hk3).
  - unfold late_now. lia.
  - apply quiet_leaves, no_call_quiet.
  - exact I.
  - intros t d m [_ Hin]%list_elem_of_filter Hm Hpa. change (timers (clk k3)) with (timers (clk k2)) in Hm. rewrite Htm2 in Hm.
    apply elem_of_cons in Hin as [[= -> ->]|[= -> ->]%list_elem_of_singleton].
    + rewrite lookup_insert_ne in Hm by done. change (timers (clk k1)) with (timers (clk k)) in Hm. rewrite Htm, lookup_insert_eq in Hm.
      injection Hm as <-. cbn. unfold late_now. lia.
    + rewrite lookup_insert_eq in Hm. injection Hm as <-. by vm_compute in Hpa.
  - cbn. lia.
Defined.

(** C14: rt_tick_from_millisecond rounds up to whole ticks; it is undefined (the
    int multiplication overflows) above 21474826 ms, although the comment allows
    every positive int. *)
Theorem rt_tick_from_millisecond_rounds ms : - 2 ^ 31 <= ms < 2 ^ 31 ->
  if ms <? 0 then rt_tick_from_millisecond ms = Some RT_WAITING_FOREVER else
  if ms <=? 21474826 then exists tick, rt_tick_from_millisecond ms = Some tick /\ 10 * (tick - 1) < ms <= 10 * tick
  else rt_tick_from_millisecond ms = None.
Proof.
  intros Hms. unfold rt_tick_from_millisecond, RT_TICK_PER_SECOND. destruct (Z.ltb_spec ms 0); [done|].
  destruct (Z.leb_spec ms 21474826).
  - rewrite (proj2 (Z.leb_gt _ _)) by lia. eexists. split; [done|]. rewrite Z.quot_div_nonneg by lia.
    Z.div_mod_to_equations. lia.
  - by rewrite (proj2 (Z.leb_le _ _)) by lia.
Qed.

Lemma rt_tick_from_millisecond_rounds_witness :
  exists tick, rt_tick_from_millisecond 1001 = Some tick /\ 10 * (tick - 1) < 1001 <= 10 * tick.
Proof. exact (rt_tick_from_millisecond_rounds 1001 ltac:(lia)). Defined.

(** ** Where the code does less than it says *)

(** A one-shot timer whose function starts it again stays in the list, marked
    as not activated: rt_timer_stop refuses it. *)
Lemma restart_in_callback_lost :
  match (rt_timer_start (Obj 2) ;; rt_tick_set 2 ;; rt_timer_check (fun _ _ => rt_timer_start (Obj 2) ;; mret tt) 10 ;;
         e ← list_isempty Timers; r ← rt_timer_stop (Obj 2); mret (e, r)) demo_kernel with
  | Some (r, _) => r = (false, - RT_ERROR)
  | None => False
  end.
Proof. vm_compute. reflexivity. Qed.

(** A periodic timer with a time of zero ticks is due again at once: the check
    never ends. *)
Lemma zero_period_loops fuel k L T t m : timers_view k L T [(t, T)] -> timers (clk k) !! t = Some m ->
  periodic m = true -> activated m = true -> timer_init_tick m = 0 -> timer_check_loop no_call fuel (u32 T) k = None.
Proof.
  revert k L m. induction fuel as [|fuel IH]; intros k L m Htv Hm Hp Ha Hz; [done|].
  assert (wp (timer_expire no_call t) k (fun _ k' => exists L' m', timers_view k' L' T [(t, T)] /\
    timers (clk k') !! t = Some m' /\ periodic m' = true /\ activated m' = true /\ timer_init_tick m' = 0)) as Hwp.
  { apply (wp_timer_expire no_call T T ltac:(lia) (fun _ _ => True) ltac:(done) k L t T [] m); [done|done|intros _; rewrite Hz; lia| |].
    { intros k1 L1 Hlk1 _. apply wp_ret. split; [done|]. by exists L1. }
    rewrite Hp, Ha. cbn [andb insert_due]. rewrite Hz, Z.add_0_r. intros k' L' ts' Htv' -> Htm _.
    exists L', (fire T m). split_and!; [done|by rewrite Htm, lookup_insert_eq|..]; unfold fire; rewrite Hp, Ha; cbn.
    - unfold periodic, started, flag, RT_TIMER_FLAG_PERIODIC, RT_TIMER_FLAG_ACTIVATED, clear8 in *. rewrite Z.land_lor_distr_l.
      rewrite <-Z.land_assoc. change (Z.land (u8 (Z.lnot 1)) 2) with 2. change (Z.land 1 2) with 0. by rewrite Z.lor_0_r.
    - unfold activated, started, flag, RT_TIMER_FLAG_ACTIVATED, clear8. rewrite Z.land_lor_distr_l, <-Z.land_assoc.
      change (Z.land (u8 (Z.lnot 1)) 1) with 0. by rewrite Z.land_0_r.
    - done. }
  apply wp_elim in Hwp as ([] & k' & Hexp & L' & m' & Htv' & Hm' & Hp' & Ha' & Hz').
  pose proof Htv as [Hlk Hl Ht Hd _ _]. cbn [timer_check_loop].
  destruct (Hd t T) as (_ & m2 & Hm2 & Htick); [left|]. rewrite Hm in Hm2. injection Hm2 as <-.
  unfold mbind, M_bind. unfold list_isempty, list_next, get_timer, mbind, M_bind, get, of_opt.
  rewrite (isempty_spec _ _ _ _ Hlk Hl). cbn. rewrite (linked_first _ _ _ _ Hlk Hl). cbn. rewrite Hm, Htick, Z.sub_diag.
  change (u32 0 <? RT_TICK_MAX / 2) with true. cbn.
  rewrite Hexp. unfold rt_tick_get, mbind, M_bind, get. cbn. rewrite (tv_tick _ _ _ _ Htv').
  by rewrite (IH k' L' m' Htv' Hm' Hp' Ha' Hz').
Qed.
