(* ===== verification/Sched.v ===== *)
(** * The scheduler (src/scheduler.c)

    RT_THREAD_PRIORITY_MAX is 32: one ready list per priority and one word with
    a bit for every list that is not empty.  A context switch changes which
    thread is current; the registers and stacks that it saves are not in the
    model, and neither is the check of the stacks. *)

From S2P Require Import Prelude Klist Kernel Timer Kservice.

Open Scope Z_scope.

(** ** The operations *)

Definition set_sched (cur : option Z) (prio group nest : Z) : K unit :=
  k ← get; put (with_sch k (mk_scheduler (threads (sch k)) cur prio group nest (rt_interrupt_nest (sch k)))).

Definition put_group (group : Z) : K unit :=
  k ← get; let s := sch k in
  set_sched (rt_current_thread s) (rt_current_priority s) group (rt_scheduler_lock_nest s).
Definition put_nest (nest : Z) : K unit :=
  k ← get; let s := sch k in
  set_sched (rt_current_thread s) (rt_current_priority s) (rt_thread_ready_priority_group s) nest.
Definition put_current (t : Z) : K unit :=
  k ← get; let s := sch k in
  set_sched (Some t) (rt_current_priority s) (rt_thread_ready_priority_group s) (rt_scheduler_lock_nest s).
Definition put_current_priority (p : Z) : K unit :=
  k ← get; let s := sch k in
  set_sched (rt_current_thread s) p (rt_thread_ready_priority_group s) (rt_scheduler_lock_nest s).

Fixpoint init_priority_table (n : nat) (offset : Z) : K unit :=
  match n with
  | O => mret tt
  | S n => list_init (Ready offset) ;; init_priority_table n (offset + 1)
  end.

Definition rt_system_scheduler_init : K unit :=
  put_nest 0 ;;
  init_priority_table (Z.to_nat RT_THREAD_PRIORITY_MAX) 0 ;;
  set_sched None (RT_THREAD_PRIORITY_MAX - 1) 0 0 ;;
  list_init Defunct.

(** The first thread of the highest priority that is ready, and the priority. *)
Definition highest_ready : K (Z * Z) :=
  k ← get;
  f ← of_opt (__rt_ffs (rt_thread_ready_priority_group (sch k)));
  n ← list_next (Ready (f - 1)); to_thread ← thread_entry n;
  mret (to_thread, f - 1).

Definition rt_system_scheduler_start : K unit := '(to_thread, _) ← highest_ready; put_current to_thread.

Definition rt_schedule : K unit :=
  k ← get;
  if rt_scheduler_lock_nest (sch k) =? 0 then
    '(to_thread, highest_ready_priority) ← highest_ready;
    if decide (Some to_thread = rt_current_thread (sch k)) then mret tt else
    put_current_priority (u8 highest_ready_priority) ;;
    put_current to_thread
  else mret tt.

Definition set_stat (m : rt_thread) s := mk_thread (error m) s (current_priority m) (init_priority m) (number_mask m)
  (event_set m) (event_info m) (init_tick m) (remaining_tick m) (cleanup m).

Definition rt_schedule_insert_thread (thread : Z) : K unit :=
  m ← get_thread thread;
  put_thread thread (set_stat m (Z.lor RT_THREAD_READY (clear8 (stat m) RT_THREAD_STAT_MASK))) ;;
  m ← get_thread thread;
  list_insert_before (Ready (current_priority m)) (Tlist thread) ;;
  k ← get; put_group (Z.lor (rt_thread_ready_priority_group (sch k)) (number_mask m)).

Definition rt_schedule_remove_thread (thread : Z) : K unit :=
  m ← get_thread thread;
  list_remove (Tlist thread) ;;
  e ← list_isempty (Ready (current_priority m));
  if e : bool then
    k ← get; put_group (Z.land (rt_thread_ready_priority_group (sch k)) (u32 (Z.lnot (number_mask m))))
  else mret tt.

(** A signed 16-bit counter. *)
Definition rt_enter_critical : K unit := k ← get; put_nest (s16 (rt_scheduler_lock_nest (sch k) + 1)).

Definition rt_exit_critical : K unit :=
  k ← get; put_nest (s16 (rt_scheduler_lock_nest (sch k) - 1)) ;;
  k ← get;
  if rt_scheduler_lock_nest (sch k) <=? 0 then put_nest 0 ;; rt_schedule else mret tt.

Definition rt_critical_level : K Z := k ← get; mret (u16 (rt_scheduler_lock_nest (sch k))).

(** ** The ready lists as sequences of threads *)

Definition is_stat (s : Z) (m : rt_thread) : bool := Z.land (stat m) RT_THREAD_STAT_MASK =? s.

Definition priority_ok (p : Z) : Prop := 0 <= p < RT_THREAD_PRIORITY_MAX.

(** [rd p] are the ready threads of priority [p], in the order in which they
    will run: the links, and the bits of the group. *)
Record ready_view (k : kernel) (L : gmap node (list node)) (rd : Z -> list Z) : Prop := {
  rv_linked : linked (lists k) L;
  rv_ready : forall p, priority_ok p -> L !! Ready p = Some (Tlist <$> rd p);
  rv_out : forall p, ~ priority_ok p -> rd p = [];
  rv_group : 0 <= rt_thread_ready_priority_group (sch k) < 2 ^ 32;
  rv_bits : forall p, priority_ok p ->
    Z.testbit (rt_thread_ready_priority_group (sch k)) p = negb (bool_decide (rd p = []));
}.

(** The threads agree: those in the lists are READY, and no others. *)
Record threads_view (tm : gmap Z rt_thread) (rd : Z -> list Z) : Prop := {
  tw_listed : forall p t, t ∈ rd p ->
    exists m, tm !! t = Some m /\ current_priority m = p /\ is_stat RT_THREAD_READY m = true;
  tw_only : forall t m, tm !! t = Some m -> is_stat RT_THREAD_READY m = true -> t ∈ rd (current_priority m);
  tw_prio : forall t m, tm !! t = Some m -> priority_ok (current_priority m) /\
    (is_stat RT_THREAD_INIT m = false -> number_mask m = 2 ^ current_priority m);
}.

Definition with_thread (k : kernel) (t : Z) (m : rt_thread) : kernel :=
  let s := sch k in
  with_sch k (mk_scheduler (<[t := m]> (threads s)) (rt_current_thread s) (rt_current_priority s)
    (rt_thread_ready_priority_group s) (rt_scheduler_lock_nest s) (rt_interrupt_nest s)).

Definition with_group (k : kernel) (g : Z) : kernel :=
  let s := sch k in
  with_sch k (mk_scheduler (threads s) (rt_current_thread s) (rt_current_priority s) g (rt_scheduler_lock_nest s)
    (rt_interrupt_nest s)).

Lemma wp_put_thread k t m Q : Q tt (with_thread k t m) -> wp (put_thread t m) k Q.
Proof. done. Qed.

Lemma wp_put_group k g Q : Q tt (with_group k g) -> wp (put_group g) k Q.
Proof. done. Qed.

(** The threads of one priority change. *)
Definition upd (rd : Z -> list Z) (p : Z) (ts : list Z) : Z -> list Z := fun q => if decide (q = p) then ts else rd q.

Lemma upd_eq rd p ts : upd rd p ts p = ts.
Proof. unfold upd. by rewrite decide_True. Qed.

Lemma upd_ne rd p ts q : q <> p -> upd rd p ts q = rd q.
Proof. intros Hq. unfold upd. by rewrite decide_False. Qed.

(** A member of a ready list is in no other place of it, and in no other list. *)
Lemma rv_ok k L rd p t : ready_view k L rd -> t ∈ rd p -> priority_ok p.
Proof.
  intros [_ _ Hout _ _] Hin. unfold priority_ok in *. destruct (decide (0 <= p < RT_THREAD_PRIORITY_MAX)) as [|Hno]; [done|].
  rewrite (Hout p Hno) in Hin. by apply elem_of_nil in Hin.
Qed.

Lemma rv_nodup k L rd p : ready_view k L rd -> NoDup (rd p).
Proof.
  intros Hrv. destruct (rd p) as [|t ts] eqn:E; [constructor|]. rewrite <-E.
  assert (priority_ok p) as Hp by (apply (rv_ok _ _ _ _ t Hrv); rewrite E; left).
  pose proof (linked_nodup _ _ (rv_linked _ _ _ Hrv) _ _ (rv_ready _ _ _ Hrv p Hp)) as [_ Hnd]%NoDup_cons.
  by apply NoDup_fmap_1 in Hnd.
Qed.

Lemma rv_apart k L rd p q t : ready_view k L rd -> t ∈ rd p -> t ∈ rd q -> p = q.
Proof.
  intros Hrv Hp Hq. pose proof (rv_ok _ _ _ _ _ Hrv Hp) as Hop. pose proof (rv_ok _ _ _ _ _ Hrv Hq) as Hoq.
  assert (Ready p = Ready q) as Heq; [|by injection Heq].
  eapply (linked_apart _ _ (rv_linked _ _ _ Hrv)); [by apply (rv_ready _ _ _ Hrv)..| |].
  - right. by apply (list_elem_of_fmap_2 Tlist).
  - right. by apply (list_elem_of_fmap_2 Tlist).
Qed.

(** The bits of the group when one list changes. *)
Lemma pow2_u32 p : priority_ok p -> 0 <= 2 ^ p < 2 ^ 32.
Proof. unfold priority_ok, RT_THREAD_PRIORITY_MAX. intros Hp. split; [lia|]. apply Z.pow_lt_mono_r; lia. Qed.

Lemma lor_range a b n : 0 <= n -> 0 <= a < 2 ^ n -> 0 <= b < 2 ^ n -> 0 <= Z.lor a b < 2 ^ n.
Proof.
  intros Hn Ha Hb. split; [apply Z.lor_nonneg; lia|].
  assert (Z.lor a b = (Z.lor a b) mod 2 ^ n) as ->; [|apply Z.mod_pos_bound; lia].
  rewrite <-Z.land_ones by done. rewrite Z.land_lor_distr_l, !Z.land_ones by done. by rewrite !Z.mod_small.
Qed.

Lemma land_range a b n : 0 <= n -> 0 <= a < 2 ^ n -> 0 <= Z.land a b < 2 ^ n.
Proof.
  intros Hn Ha. assert (Z.land a b = (Z.land a b) mod 2 ^ n) as ->; [|apply Z.mod_pos_bound; lia].
  rewrite <-Z.land_ones by done. rewrite <-Z.land_assoc, (Z.land_comm b), Z.land_assoc, Z.land_ones by done.
  by rewrite (Z.mod_small a).
Qed.

Lemma testbit_set g p q : priority_ok p -> priority_ok q -> Z.testbit (Z.lor g (2 ^ p)) q = Z.testbit g q || (p =? q).
Proof. unfold priority_ok. intros Hp Hq. by rewrite Z.lor_spec, Z.pow2_bits_eqb by lia. Qed.

Lemma testbit_clear g p q : priority_ok p -> priority_ok q ->
  Z.testbit (Z.land g (u32 (Z.lnot (2 ^ p)))) q = Z.testbit g q && negb (p =? q).
Proof.
  unfold priority_ok, RT_THREAD_PRIORITY_MAX. intros Hp Hq. rewrite Z.land_spec. unfold u32.
  rewrite Z.mod_pow2_bits_low by lia. by rewrite Z.lnot_spec, Z.pow2_bits_eqb by lia.
Qed.

Definition with_group_lists (k : kernel) lk (g : Z) : kernel := with_group (with_lists k lk) g.

(** A thread that is in no list goes to the end of the ready list [p]. *)
Lemma rv_append k L rd p t lk' : ready_view k L rd -> priority_ok p ->
  linked lk' (<[Ready p := (Tlist <$> rd p) ++ [Tlist t]]> (delete (Tlist t) L)) ->
  ready_view (with_group_lists k lk' (Z.lor (rt_thread_ready_priority_group (sch k)) (2 ^ p)))
    (<[Ready p := (Tlist <$> rd p) ++ [Tlist t]]> (delete (Tlist t) L)) (upd rd p (rd p ++ [t])).
Proof.
  intros [Hlk Hr Hout Hg Hb] Hp Hlk'. split; cbn [lists sch with_group_lists with_group with_lists with_sch rt_thread_ready_priority_group].
  - done.
  - intros q Hq. unfold upd. case_decide as Hqp.
    + subst q. by rewrite lookup_insert_eq, fmap_app.
    + rewrite lookup_insert_ne, lookup_delete_ne by congruence. by apply Hr.
  - intros q Hq. rewrite upd_ne by (by intros ->). by apply Hout.
  - apply lor_range; [lia|done|by apply pow2_u32].
  - intros q Hq. rewrite testbit_set, Hb by done. unfold upd. destruct (Z.eqb_spec p q) as [->|Hne].
    + rewrite decide_True by done. rewrite orb_true_r. rewrite bool_decide_false; [done|]. by destruct (rd q).
    + rewrite decide_False by congruence. by rewrite orb_false_r.
Qed.

(** A thread leaves the ready list [p]; the bit is cleared with the last one. *)
Lemma rv_remove k L rd p pre t post lk' g : ready_view k L rd -> priority_ok p -> rd p = pre ++ t :: post ->
  linked lk' (<[Tlist t := []]> (<[Ready p := (Tlist <$> pre) ++ (Tlist <$> post)]> L)) ->
  g = (if bool_decide (pre ++ post = []) then Z.land (rt_thread_ready_priority_group (sch k)) (u32 (Z.lnot (2 ^ p)))
       else rt_thread_ready_priority_group (sch k)) ->
  ready_view (with_group_lists k lk' g) (<[Tlist t := []]> (<[Ready p := (Tlist <$> pre) ++ (Tlist <$> post)]> L))
    (upd rd p (pre ++ post)).
Proof.
  intros [Hlk Hr Hout Hg Hb] Hp Hrd Hlk' ->. split; cbn [lists sch with_group_lists with_group with_lists with_sch rt_thread_ready_priority_group].
  - done.
  - intros q Hq. rewrite lookup_insert_ne by done. unfold upd. case_decide as Hqp.
    + subst q. by rewrite lookup_insert_eq, fmap_app.
    + rewrite lookup_insert_ne by congruence. by apply Hr.
  - intros q Hq. rewrite upd_ne by (by intros ->). by apply Hout.
  - case_bool_decide; [|done]. apply land_range; [lia|done].
  - intros q Hq. unfold upd. destruct (decide (q = p)) as [->|Hne].
    + case_bool_decide as He.
      * rewrite testbit_clear by done. rewrite Z.eqb_refl, andb_false_r. done.
      * rewrite Hb by done. rewrite Hrd. by destruct pre.
    + case_bool_decide; [|by apply Hb]. rewrite testbit_clear, Hb by done.
      rewrite (proj2 (Z.eqb_neq p q)) by congruence. by rewrite andb_true_r.
Qed.

Definition ready_stat (m : rt_thread) : rt_thread :=
  set_stat m (Z.lor RT_THREAD_READY (clear8 (stat m) RT_THREAD_STAT_MASK)).

Lemma wp_insert_thread k L rd p t m Q : ready_view k L rd -> threads (sch k) !! t = Some m ->
  current_priority m = p -> priority_ok p -> number_mask m = 2 ^ p -> L !! Tlist t = Some [] ->
  (forall k' L', ready_view k' L' (upd rd p (rd p ++ [t])) ->
     L' = <[Ready p := (Tlist <$> rd p) ++ [Tlist t]]> (delete (Tlist t) L) ->
     (exists lk' g, k' = with_group_lists (with_thread k t (ready_stat m)) lk' g) -> Q tt k') ->
  wp (rt_schedule_insert_thread t) k Q.
Proof.
  intros Hrv Hm Hcp Hp Hmask Hfree HQ. unfold rt_schedule_insert_thread.
  apply wp_bind. eapply wp_get_thread; [exact Hm|]. apply wp_bind, wp_put_thread. fold (ready_stat m).
  set (k1 := with_thread k t (ready_stat m)).
  assert (ready_view k1 L rd) as Hrv1 by (destruct Hrv; by split).
  apply wp_bind. eapply wp_get_thread; [apply lookup_insert_eq|]. apply wp_bind.
  change (current_priority (ready_stat m)) with (current_priority m). rewrite Hcp.
  eapply (wp_insert_before k1 L (Ready p) (Tlist <$> rd p) []).
  - apply Hrv1.
  - rewrite app_nil_r. by apply Hrv1.
  - done.
  - done.
  - intros lk' Hlk'. apply wp_bind, wp_get, wp_put_group. change (number_mask (ready_stat m)) with (number_mask m).
    rewrite Hmask. eapply HQ; [|done|].
    + by apply (rv_append k1).
    + by eexists _, _.
Qed.

Lemma wp_remove_thread k L rd p pre t post m Q : ready_view k L rd -> rd p = pre ++ t :: post ->
  threads (sch k) !! t = Some m -> current_priority m = p -> number_mask m = 2 ^ p ->
  (forall k' L', ready_view k' L' (upd rd p (pre ++ post)) ->
     L' = <[Tlist t := []]> (<[Ready p := (Tlist <$> pre) ++ (Tlist <$> post)]> L) ->
     (exists lk' g, k' = with_group_lists k lk' g) -> Q tt k') ->
  wp (rt_schedule_remove_thread t) k Q.
Proof.
  intros Hrv Hrd Hm Hcp Hmask HQ. unfold rt_schedule_remove_thread.
  assert (priority_ok p) as Hp by (apply (rv_ok _ _ _ _ t Hrv); rewrite Hrd, elem_of_app, elem_of_cons; tauto).
  pose proof (rv_ready _ _ _ Hrv p Hp) as Hl. rewrite Hrd, fmap_app, fmap_cons in Hl.
  apply wp_bind. eapply wp_get_thread; [exact Hm|]. apply wp_bind.
  eapply wp_remove; [apply Hrv|exact Hl|]. intros lk' Hlk'. apply wp_bind. rewrite Hcp.
  eapply wp_isempty; [exact Hlk'|by rewrite lookup_insert_ne, lookup_insert_eq by done|].
  rewrite <-fmap_app, (bool_decide_ext _ (pre ++ post = [])) by (split; [by intros ?%fmap_nil_inv|by intros ->]).
  rewrite Hmask. case_bool_decide as He.
  - apply wp_bind, wp_get, wp_put_group. eapply HQ; [|done|by eexists _, _].
    apply (rv_remove k L rd p pre t post); try done. by rewrite bool_decide_true.
  - apply wp_ret.
    assert (with_lists k lk' = with_group_lists k lk' (rt_thread_ready_priority_group (sch k))) as ->
      by (destruct k as [? ? ? [] ?]; reflexivity).
    eapply HQ; [|done|by eexists _, _]. apply (rv_remove k L rd p pre t post); try done. by rewrite bool_decide_false.
Qed.

(** ** Scheduling *)

Lemma highest_bit_first k L rd : ready_view k L rd -> rt_thread_ready_priority_group (sch k) <> 0 ->
  exists p t ts, __rt_ffs (rt_thread_ready_priority_group (sch k)) = Some (p + 1) /\ priority_ok p /\
    rd p = t :: ts /\ forall q, q < p -> rd q = [].
Proof.
  intros Hrv Hg. destruct (rt_ffs_lowest _ (rv_group _ _ _ Hrv)) as (r & Hffs & [[? _]|(_ & Hlow)]); [done|].
  destruct Hlow as (Hr & Hbit & Hlow). set (p := r - 1) in *.
  assert (priority_ok p) as Hp.
  { split; [done|]. unfold RT_THREAD_PRIORITY_MAX. pose proof (rv_group _ _ _ Hrv) as Hrange.
    destruct (Z.lt_ge_cases p 32) as [|Hge]; [done|]. rewrite (Z.bits_above_log2 _ p) in Hbit; [done|lia|].
    apply Z.log2_lt_pow2; [lia|]. eapply Z.lt_le_trans; [apply Hrange|]. apply Z.pow_le_mono_r; lia. }
  pose proof (rv_bits _ _ _ Hrv p Hp) as Hb. rewrite Hbit in Hb. destruct (rd p) as [|t ts] eqn:E; [by rewrite bool_decide_true in Hb|].
  exists p, t, ts. split_and!; [by replace (p + 1) with r by (unfold p; lia)|done|done|].
  intros q Hq. destruct (decide (priority_ok q)) as [Hqp|Hqp]; [|by apply (rv_out _ _ _ Hrv)].
  pose proof (rv_bits _ _ _ Hrv q Hqp) as Hbq. rewrite Hlow in Hbq by (unfold priority_ok in *; lia).
  destruct (rd q); [done|]. by rewrite bool_decide_false in Hbq.
Qed.

Definition switch_to (k : kernel) (t p : Z) : kernel :=
  let s := sch k in
  with_sch k (mk_scheduler (threads s) (Some t) p (rt_thread_ready_priority_group s) (rt_scheduler_lock_nest s)
    (rt_interrupt_nest s)).

(** What rt_schedule leaves: the state itself, or the state with another current
    thread. *)
Definition after_schedule (k : kernel) (t p : Z) : kernel :=
  if decide (Some t = rt_current_thread (sch k)) then k else switch_to k t p.

Lemma wp_highest_ready k L rd Q : ready_view k L rd -> rt_thread_ready_priority_group (sch k) <> 0 ->
  (forall p t ts, priority_ok p -> rd p = t :: ts -> (forall q, q < p -> rd q = []) -> Q (t, p) k) ->
  wp highest_ready k Q.
Proof.
  intros Hrv Hg HQ. destruct (highest_bit_first _ _ _ Hrv Hg) as (p & t & ts & Hffs & Hp & Hrd & Hlow).
  unfold highest_ready. apply wp_bind, wp_get, wp_bind. eapply wp_of_opt; [exact Hffs|].
  replace (p + 1 - 1) with p by lia. apply wp_bind. eapply wp_next.
  - eapply linked_first; [apply Hrv|by apply (rv_ready _ _ _ Hrv)].
  - rewrite Hrd. cbn. wp_pure. by eapply HQ.
Qed.

Lemma wp_schedule k L rd Q : ready_view k L rd ->
  (rt_scheduler_lock_nest (sch k) = 0 -> rt_thread_ready_priority_group (sch k) <> 0) ->
  (rt_scheduler_lock_nest (sch k) <> 0 -> Q tt k) ->
  (rt_scheduler_lock_nest (sch k) = 0 -> forall p t ts, priority_ok p -> rd p = t :: ts ->
     (forall q, q < p -> rd q = []) -> Q tt (after_schedule k t p)) ->
  wp rt_schedule k Q.
Proof.
  intros Hrv Hg Hlocked HQ. unfold rt_schedule. apply wp_bind, wp_get.
  destruct (Z.eqb_spec (rt_scheduler_lock_nest (sch k)) 0) as [Hn|Hn]; [|by apply wp_ret, Hlocked].
  apply wp_bind. eapply wp_highest_ready; [exact Hrv|by apply Hg|]. intros p t ts Hp Hrd Hlow.
  specialize (HQ Hn p t ts Hp Hrd Hlow). unfold after_schedule in HQ. case_decide; [by apply wp_ret|].
  unfold u8. rewrite Z.mod_small by (unfold priority_ok, RT_THREAD_PRIORITY_MAX in Hp; lia). exact HQ.
Qed.

(** The schedule changes only which thread is current. *)
Lemma after_schedule_same k t p : lists (after_schedule k t p) = lists k /\ clk (after_schedule k t p) = clk k /\
  ipc (after_schedule k t p) = ipc k /\ objects (after_schedule k t p) = objects k /\
  threads (sch (after_schedule k t p)) = threads (sch k) /\
  rt_thread_ready_priority_group (sch (after_schedule k t p)) = rt_thread_ready_priority_group (sch k) /\
  rt_scheduler_lock_nest (sch (after_schedule k t p)) = rt_scheduler_lock_nest (sch k) /\
  rt_current_thread (sch (after_schedule k t p)) = Some t.
Proof. unfold after_schedule. case_decide as Hc; cbn; by split_and!. Qed.
