(* ===== verification/Thread.v ===== *)
(** * Threads (src/thread.c, src/clock.c)

    The states of threads: a READY thread is in the ready list of its priority,
    a SUSPEND thread is in the waiting list of an IPC object or in none, with
    its timer running if it waits for a limited time.  A function that blocks is
    split where the thread loses the processor: the first part ends with
    rt_schedule, the second one is what the thread does when it runs again. *)

From S2P Require Import Prelude Klist Kernel Object Timer Sched.

Open Scope Z_scope.

(** ** The operations *)

Definition set_error (m : rt_thread) e := mk_thread e (stat m) (current_priority m) (init_priority m) (number_mask m)
  (event_set m) (event_info m) (init_tick m) (remaining_tick m) (cleanup m).
Definition set_priority (m : rt_thread) p := mk_thread (error m) (stat m) p (init_priority m) (u32 (Z.shiftl 1 p))
  (event_set m) (event_info m) (init_tick m) (remaining_tick m) (cleanup m).
Definition set_remaining_tick (m : rt_thread) n := mk_thread (error m) (stat m) (current_priority m) (init_priority m)
  (number_mask m) (event_set m) (event_info m) (init_tick m) n (cleanup m).

Definition rt_thread_self : K (option Z) := k ← get; mret (rt_current_thread (sch k)).

(** [event_set] and [event_info] keep what was in the memory. *)
Definition _rt_thread_init (thread : Z) (name : list Z) (set info : Z) (priority tick : Z) : K Z :=
  list_init (Tlist thread) ;;
  RT_ASSERT (priority <? RT_THREAD_PRIORITY_MAX) ;;
  put_thread thread (mk_thread RT_EOK RT_THREAD_INIT priority priority 0 set info tick tick false) ;;
  rt_timer_init (Thread_timer thread) name fn_rt_thread_timeout thread 0 RT_TIMER_FLAG_ONE_SHOT ;;
  mret RT_EOK.

Definition rt_thread_init (thread : Z) (name : list Z) (set info : Z) (priority tick : Z) : K Z :=
  rt_object_init (Obj thread) RT_Object_Class_Thread name ;;
  _rt_thread_init thread name set info priority tick.

Section heap.
Context (object_size : Z -> Z) (malloc : Z -> K (option addr)) (free : addr -> K unit).

(** The stack is an object of the heap like the thread. *)
Definition rt_thread_create (name : list Z) (set info : Z) (stack_size priority tick : Z) : K (option Z) :=
  thread ← rt_object_allocate object_size malloc RT_Object_Class_Thread name;
  match thread with
  | None => mret None
  | Some (Thread_timer _) => ub
  | Some (Obj thread) =>
      stack_start ← malloc stack_size;
      match stack_start with
      | None => rt_object_delete free (Obj thread) ;; mret None
      | Some _ => _rt_thread_init thread name set info priority tick ;; mret (Some thread)
      end
  end.
End heap.

Definition rt_thread_suspend (thread : Z) : K Z :=
  m ← get_thread thread;
  if negb (Z.land (stat m) RT_THREAD_STAT_MASK =? RT_THREAD_READY) then mret (- RT_ERROR) else
  put_thread thread (set_stat m (Z.lor RT_THREAD_SUSPEND (clear8 (stat m) RT_THREAD_STAT_MASK))) ;;
  rt_schedule_remove_thread thread ;;
  rt_timer_stop (Thread_timer thread) ;;
  mret RT_EOK.

Definition rt_thread_resume (thread : Z) : K Z :=
  m ← get_thread thread;
  if negb (Z.land (stat m) RT_THREAD_STAT_MASK =? RT_THREAD_SUSPEND) then mret (- RT_ERROR) else
  list_remove (Tlist thread) ;;
  rt_timer_stop (Thread_timer thread) ;;
  rt_schedule_insert_thread thread ;;
  mret RT_EOK.

Definition rt_thread_startup (thread : Z) : K Z :=
  m ← get_thread thread;
  RT_ASSERT (Z.land (stat m) RT_THREAD_STAT_MASK =? RT_THREAD_INIT) ;;
  put_thread thread (set_priority m (init_priority m)) ;;
  m ← get_thread thread;
  put_thread thread (set_stat m RT_THREAD_SUSPEND) ;;
  rt_thread_resume thread ;;
  self ← rt_thread_self;
  (match self with Some _ => rt_schedule | None => mret tt end) ;;
  mret RT_EOK.

Definition rt_thread_exit : K unit :=
  self ← rt_thread_self; thread ← of_opt self;
  rt_schedule_remove_thread thread ;;
  m ← get_thread thread; put_thread thread (set_stat m RT_THREAD_CLOSE) ;;
  rt_timer_detach (Thread_timer thread) ;;
  sys ← rt_object_is_systemobject (Obj thread); m ← get_thread thread;
  (if (sys : bool) && negb (cleanup m) then rt_object_detach (Obj thread)
   else list_insert_after Defunct (Tlist thread)) ;;
  rt_schedule.

Definition rt_thread_detach (thread : Z) : K Z :=
  m ← get_thread thread;
  (if negb (Z.land (stat m) RT_THREAD_STAT_MASK =? RT_THREAD_INIT) then rt_schedule_remove_thread thread else mret tt) ;;
  rt_timer_detach (Thread_timer thread) ;;
  m ← get_thread thread; put_thread thread (set_stat m RT_THREAD_CLOSE) ;;
  rt_object_detach (Obj thread) ;;
  (if cleanup m then list_insert_after Defunct (Tlist thread) else mret tt) ;;
  mret RT_EOK.

Definition rt_thread_delete (thread : Z) : K Z :=
  m ← get_thread thread;
  (if negb (Z.land (stat m) RT_THREAD_STAT_MASK =? RT_THREAD_INIT) then rt_schedule_remove_thread thread else mret tt) ;;
  rt_timer_detach (Thread_timer thread) ;;
  m ← get_thread thread; put_thread thread (set_stat m RT_THREAD_CLOSE) ;;
  list_insert_after Defunct (Tlist thread) ;;
  mret RT_EOK.

Definition rt_thread_yield : K Z :=
  self ← rt_thread_self; thread ← of_opt self; m ← get_thread thread;
  n ← list_next (Tlist thread); p ← list_prev (Tlist thread);
  if (Z.land (stat m) RT_THREAD_STAT_MASK =? RT_THREAD_READY) && negb (bool_decide (n = p)) then
    list_remove (Tlist thread) ;;
    list_insert_before (Ready (current_priority m)) (Tlist thread) ;;
    rt_schedule ;; mret RT_EOK
  else mret RT_EOK.

(** rt_thread_sleep up to the loss of the processor, and after it. *)
Definition rt_thread_sleep_begin (tick : Z) : K Z :=
  self ← rt_thread_self; thread ← of_opt self;
  rt_thread_suspend thread ;;
  rt_timer_control (Thread_timer thread) RT_TIMER_CTRL_SET_TIME tick ;;
  rt_timer_start (Thread_timer thread) ;;
  rt_schedule ;; mret thread.

Definition rt_thread_sleep_end (thread : Z) : K Z :=
  m ← get_thread thread;
  (if error m =? - RT_ETIMEOUT then put_thread thread (set_error m RT_EOK) else mret tt) ;;
  mret RT_EOK.

Definition change_priority (thread prio : Z) : K unit :=
  m ← get_thread thread;
  if Z.land (stat m) RT_THREAD_STAT_MASK =? RT_THREAD_READY then
    rt_schedule_remove_thread thread ;;
    m ← get_thread thread; put_thread thread (set_priority m prio) ;;
    rt_schedule_insert_thread thread
  else put_thread thread (set_priority m prio).

(** [arg] is the priority that the argument points to. *)
Definition rt_thread_control (thread cmd arg : Z) : K Z :=
  if cmd =? RT_THREAD_CTRL_CHANGE_PRIORITY then change_priority thread arg ;; mret RT_EOK else
  if cmd =? RT_THREAD_CTRL_STARTUP then rt_thread_startup thread else
  if cmd =? RT_THREAD_CTRL_CLOSE then rt_thread_delete thread else
  mret RT_EOK.

Definition rt_thread_timeout (thread : Z) : K unit :=
  m ← get_thread thread;
  RT_ASSERT (Z.land (stat m) RT_THREAD_STAT_MASK =? RT_THREAD_SUSPEND) ;;
  put_thread thread (set_error m (- RT_ETIMEOUT)) ;;
  list_remove (Tlist thread) ;;
  rt_schedule_insert_thread thread ;;
  rt_schedule.

(** rt_list_entry(node, struct rt_object, list) *)
Definition object_entry (n : node) : K addr := match n with Olist o => mret o | _ => ub end.

Fixpoint find_loop (fuel : nat) (information n : node) (name : list Z) : K (option addr) :=
  match fuel with
  | O => ub
  | S fuel =>
      if decide (n = information) then mret None else
      object ← object_entry n; m ← get_object object;
      if same_name RT_NAME_MAX (obj_name m) name then mret (Some object) else
      n ← list_next n; find_loop fuel information n name
  end.

(** Without modules; the name is not RT_NULL. *)
Definition rt_object_find (name : list Z) (type : Z) : K (option addr) :=
  if RT_Object_Class_Unknown <? type then mret None else
  rt_enter_critical ;;
  information ← of_opt (rt_object_get_information type);
  n ← list_next information; k ← get;
  r ← find_loop (S (size (lists k))) information n name;
  rt_exit_critical ;; mret r.

Definition rt_thread_find (name : list Z) : K (option addr) :=
  self ← rt_thread_self;
  (match self with Some _ => rt_enter_critical | None => mret tt end) ;;
  information ← of_opt (rt_object_get_information RT_Object_Class_Thread);
  n ← list_next information; k ← get;
  r ← find_loop (S (size (lists k))) information n name;
  self ← rt_thread_self;
  (match self with Some _ => rt_exit_critical | None => mret tt end) ;;
  mret r.

(** ** The invariant of the kernel *)

(** The abstract state: the time, the timers that run, the ready threads of
    every priority and the threads that wait in the list of an IPC object. *)
Record abs := mk_abs {
  a_time : Z;
  a_timers : due_list;
  a_ready : Z -> list Z;
  a_waits : gmap node (list Z);
}.

Definition wait_head (n : node) : Prop := match n with Suspend _ | Suspend_sender _ => True | _ => False end.

(** The timer of every thread. *)
Definition thread_timer_ok (t : Z) (m : rt_timer) : Prop :=
  timeout_func m = fn_rt_thread_timeout /\ parameter m = t /\ periodic m = false.

Record kinv_at (k : kernel) (L : gmap node (list node)) (A : abs) : Prop := {
  ki_timers : timers_view k L (a_time A) (a_timers A);
  ki_ready : ready_view k L (a_ready A);
  ki_threads : threads_view (threads (sch k)) (a_ready A);
  ki_waits : forall h ws, a_waits A !! h = Some ws -> wait_head h /\ L !! h = Some (Tlist <$> ws);
  ki_waiting : forall h ws t, a_waits A !! h = Some ws -> t ∈ ws ->
    exists m, threads (sch k) !! t = Some m /\ is_stat RT_THREAD_SUSPEND m = true;
  ki_free : forall t m, threads (sch k) !! t = Some m -> is_stat RT_THREAD_READY m = false ->
    (exists h ws, a_waits A !! h = Some ws /\ t ∈ ws) \/ L !! Tlist t = Some [];
  ki_thread_timer : forall t m, threads (sch k) !! t = Some m ->
    exists tm, timers (clk k) !! Thread_timer t = Some tm /\ thread_timer_ok t tm;
  ki_running : forall t d, (Thread_timer t, d) ∈ a_timers A ->
    (exists m, threads (sch k) !! t = Some m /\ is_stat RT_THREAD_SUSPEND m = true) /\
    exists tm, timers (clk k) !! Thread_timer t = Some tm /\ activated tm = true;
  ki_periods : forall x tm, timers (clk k) !! x = Some tm -> periodic tm = true ->
    1 <= timer_init_tick tm < RT_TICK_MAX / 2;
  ki_user : forall a tm, timers (clk k) !! Obj a = Some tm -> exists f, timeout_func tm = fn_user f;
}.

Definition kinv (k : kernel) (A : abs) : Prop := exists L, kinv_at k L A.

(** ** States of threads *)

Lemma stat_set m s : 0 <= s < 16 -> forall s', is_stat s' (set_stat m (Z.lor s (clear8 (stat m) RT_THREAD_STAT_MASK))) = (s' =? s).
Proof.
  intros Hs s'. unfold is_stat, set_stat, clear8, RT_THREAD_STAT_MASK. cbn [stat].
  rewrite Z.land_lor_distr_l, <-Z.land_assoc. change (Z.land (u8 (Z.lnot 15)) 15) with 0.
  rewrite Z.land_0_r, Z.lor_0_r. change 15 with (Z.ones 4). rewrite Z.land_ones, Z.mod_small by lia. apply Z.eqb_sym.
Qed.

Lemma ready_is m s : is_stat s (ready_stat m) = (s =? RT_THREAD_READY).
Proof. by apply stat_set. Qed.

Definition suspend_stat (m : rt_thread) : rt_thread :=
  set_stat m (Z.lor RT_THREAD_SUSPEND (clear8 (stat m) RT_THREAD_STAT_MASK)).

Lemma suspend_is m s : is_stat s (suspend_stat m) = (s =? RT_THREAD_SUSPEND).
Proof. by apply stat_set. Qed.

Lemma stat_unique m s s' : is_stat s m = true -> is_stat s' m = true -> s = s'.
Proof. unfold is_stat. rewrite !Z.eqb_eq. congruence. Qed.

(** ** Taking a thread out of the ready lists, and putting it there *)

Definition drop_from (t : Z) (ts : list Z) : list Z := filter (fun x => x <> t) ts.

Lemma drop_from_notin t ts : t ∉ ts -> drop_from t ts = ts.
Proof.
  induction ts as [|x ts IH]; [done|]. rewrite not_elem_of_cons. intros [Hx Hn]. unfold drop_from in *.
  rewrite filter_cons_True by done. by rewrite IH.
Qed.

Lemma drop_from_mid t pre post : t ∉ pre -> t ∉ post -> drop_from t (pre ++ t :: post) = pre ++ post.
Proof.
  intros Hpre Hpost. unfold drop_from. rewrite filter_app, filter_cons_False by tauto.
  change (drop_from t pre ++ drop_from t post = pre ++ post). by rewrite !drop_from_notin.
Qed.

Lemma elem_of_drop t x ts : x ∈ drop_from t ts <-> x ∈ ts /\ x <> t.
Proof. unfold drop_from. rewrite list_elem_of_filter. tauto. Qed.

(** The suspended thread, and the resumed one, in the abstract state. *)
Definition unready (t : Z) (A : abs) : abs :=
  mk_abs (a_time A) (a_timers A) (fun p => drop_from t (a_ready A p)) (a_waits A).

Definition make_ready (t p : Z) (A : abs) : abs :=
  mk_abs (a_time A) (without (Thread_timer t) (a_timers A)) (upd (a_ready A) p (a_ready A p ++ [t]))
    (drop_from t <$> a_waits A).

(** The parts of the state that the thread operations leave alone. *)
Record same_misc (k k' : kernel) : Prop := {
  sm_ipc : ipc k' = ipc k;
  sm_objects : objects k' = objects k;
  sm_current : rt_current_thread (sch k') = rt_current_thread (sch k);
  sm_nest : rt_scheduler_lock_nest (sch k') = rt_scheduler_lock_nest (sch k);
  sm_irq : rt_interrupt_nest (sch k') = rt_interrupt_nest (sch k);
}.

Lemma same_misc_refl k : same_misc k k.
Proof. by split. Qed.

Lemma same_misc_trans k1 k2 k3 : same_misc k1 k2 -> same_misc k2 k3 -> same_misc k1 k3.
Proof. intros [? ? ? ? ?] [? ? ? ? ?]. split; congruence. Qed.

Lemma same_rest_misc k k' L L' : same_rest k k' L L' -> same_misc k k'.
Proof. intros [Ho Hs Hi _]. split; by rewrite ?Hs. Qed.

Lemma ready_view_ext k L rd rd' : (forall p, rd p = rd' p) -> ready_view k L rd -> ready_view k L rd'.
Proof.
  intros He [Hlk Hr Hout Hg Hb]. split; try done; intros p Hp; rewrite <-He; auto.
Qed.

(** The ready lists do not look at the timers. *)
Lemma ready_view_rest k k' L L' rd : ready_view k L rd -> same_rest k k' L L' -> linked (lists k') L' ->
  ready_view k' L' rd.
Proof.
  intros [Hlk Hr Hout Hg Hb] [_ Hs _ Hl] Hlk'. split; rewrite ?Hs; try done.
  intros p Hp. rewrite Hl; [by apply Hr|done|done].
Qed.

(** The timers do not look at the threads and their lists. *)
Lemma timers_view_rest k k' L L' T ts : timers_view k L T ts -> clk k' = clk k -> linked (lists k') L' ->
  L' !! Timers = L !! Timers -> (forall t, L' !! Row t = L !! Row t) -> timers_view k' L' T ts.
Proof.
  intros [Hlk Hl Ht Hd Hs Hr] Hc Hlk' HT HR. split; rewrite ?Hc; try done; [by rewrite HT|].
  intros t m Hm. rewrite HR. by eapply Hr.
Qed.

Section ops.
Implicit Types (k : kernel) (L : gmap node (list node)) (A : abs) (t p : Z) (m : rt_thread).

(** Where a thread is. *)
Lemma ki_ready_split k L A t m : kinv_at k L A -> threads (sch k) !! t = Some m ->
  is_stat RT_THREAD_READY m = true -> exists pre post, a_ready A (current_priority m) = pre ++ t :: post /\
    t ∉ pre /\ t ∉ post /\ number_mask m = 2 ^ current_priority m /\ priority_ok (current_priority m).
Proof.
  intros HI Hm Hr. pose proof (tw_only _ _ (ki_threads _ _ _ HI) t m Hm Hr) as Hin.
  pose proof (rv_nodup _ _ _ (current_priority m) (ki_ready _ _ _ HI)) as Hnd.
  apply list_elem_of_split in Hin as (pre & post & Heq). exists pre, post. rewrite Heq in Hnd.
  apply NoDup_app in Hnd as (_ & Hdisj & [Hpost _]%NoDup_cons).
  destruct (tw_prio _ _ (ki_threads _ _ _ HI) t m Hm) as [Hp Hmask]. split_and!; [done| |done| |done].
  - intros Hx. apply (Hdisj _ Hx). left.
  - apply Hmask. unfold is_stat in *. apply Z.eqb_eq in Hr. rewrite Hr. done.
Qed.

Lemma ki_not_ready k L A t m p : kinv_at k L A -> threads (sch k) !! t = Some m ->
  is_stat RT_THREAD_READY m = false -> t ∉ a_ready A p.
Proof.
  intros HI Hm Hr Hin. destruct (tw_listed _ _ (ki_threads _ _ _ HI) p t Hin) as (m' & Hm' & _ & Hr').
  rewrite Hm in Hm'. injection Hm' as <-. congruence.
Qed.

Lemma tlist_fmap_middle pre t post : Tlist <$> (pre ++ t :: post) = (Tlist <$> pre) ++ Tlist t :: (Tlist <$> post).
Proof. by rewrite fmap_app, fmap_cons. Qed.

(** The invariant after a change of one thread [t], its place in the lists and
    its timer: what has to be shown about [t], and that the rest is the same. *)
Record thread_moved k L A k' L' A' t m' : Prop := {
  mv_timers : timers_view k' L' (a_time A') (a_timers A');
  mv_ready : ready_view k' L' (a_ready A');
  mv_threads : threads (sch k') = <[t := m']> (threads (sch k));
  mv_listed : forall q t', t' <> t -> t' ∈ a_ready A' q <-> t' ∈ a_ready A q;
  mv_self : forall q, t ∈ a_ready A' q <-> current_priority m' = q /\ is_stat RT_THREAD_READY m' = true;
  mv_prio : priority_ok (current_priority m') /\
    (is_stat RT_THREAD_INIT m' = false -> number_mask m' = 2 ^ current_priority m');
  mv_waits : forall h ws, a_waits A' !! h = Some ws -> wait_head h /\ L' !! h = Some (Tlist <$> ws);
  mv_waiting : forall t', t' <> t -> (exists h ws, a_waits A' !! h = Some ws /\ t' ∈ ws) <->
    (exists h ws, a_waits A !! h = Some ws /\ t' ∈ ws);
  mv_self_waiting : forall h ws, a_waits A' !! h = Some ws -> t ∈ ws -> is_stat RT_THREAD_SUSPEND m' = true;
  mv_free : forall t', t' <> t -> L' !! Tlist t' = L !! Tlist t';
  mv_self_free : is_stat RT_THREAD_READY m' = false ->
    (exists h ws, a_waits A' !! h = Some ws /\ t ∈ ws) \/ L' !! Tlist t = Some [];
  mv_timer : forall x, x <> Thread_timer t -> timers (clk k') !! x = timers (clk k) !! x;
  mv_self_timer : exists tm, timers (clk k') !! Thread_timer t = Some tm /\ thread_timer_ok t tm;
  mv_running : forall t' d, t' <> t -> (Thread_timer t', d) ∈ a_timers A' -> (Thread_timer t', d) ∈ a_timers A;
  mv_self_running : forall d, (Thread_timer t, d) ∈ a_timers A' -> is_stat RT_THREAD_SUSPEND m' = true /\
    exists tm, timers (clk k') !! Thread_timer t = Some tm /\ activated tm = true;
}.

Lemma kinv_moved k L A k' L' A' t m m' : kinv_at k L A -> threads (sch k) !! t = Some m ->
  thread_moved k L A k' L' A' t m' -> kinv_at k' L' A'.
Proof.
  intros [Htv Hrv Htw Hw Hwt Hfree Htt Hrun Hper Huser] Hm [Htv' Hrv' Hth Hlisted Hself Hprio Hwaits Hwaiting Hswait Hfr Hsfree Htm Hstm Hrn Hsrun].
  split; try done; rewrite ?Hth.
  - split.
    + intros q t' Hin. destruct (decide (t' = t)) as [->|Hne].
      * rewrite lookup_insert_eq. exists m'. split; [done|]. by apply Hself.
      * rewrite lookup_insert_ne by done. apply (tw_listed _ _ Htw). by apply Hlisted.
    + intros t' m2 [[<- <-]|[Hne Hm2]]%lookup_insert_Some Hr; [by apply Hself|].
      apply Hlisted; [done|]. by apply (tw_only _ _ Htw).
    + intros t' m2 [[<- <-]|[Hne Hm2]]%lookup_insert_Some; [done|by eapply (tw_prio _ _ Htw)].
  - intros h ws t' Hh Hin. destruct (decide (t' = t)) as [->|Hne].
    + rewrite lookup_insert_eq. exists m'. split; [done|by eapply Hswait].
    + rewrite lookup_insert_ne by done. destruct (proj1 (Hwaiting t' Hne)) as (h0 & ws0 & ? & ?); [by exists h, ws|].
      by eapply Hwt.
  - intros t' m2 [[<- <-]|[Hne Hm2]]%lookup_insert_Some Hr; [by apply Hsfree|].
    rewrite Hfr by done. destruct (Hfree t' m2 Hm2 Hr) as [Hx|]; [left|by right]. by apply Hwaiting.
  - intros t' m2 [[<- <-]|[Hne Hm2]]%lookup_insert_Some; [done|]. rewrite Htm by congruence. by eapply Htt.
  - intros t' d Hin. destruct (decide (t' = t)) as [->|Hne].
    + rewrite lookup_insert_eq. destruct (Hsrun _ Hin) as [? ?]. split; [by exists m'|done].
    + rewrite lookup_insert_ne, Htm by congruence. eapply Hrun. by apply Hrn.
  - intros x tm Hx Hp. destruct (decide (x = Thread_timer t)) as [->|Hne]; [|by rewrite Htm in Hx by done; eauto].
    destruct Hstm as (tm' & Hx' & _ & _ & Hp'). rewrite Hx in Hx'. injection Hx' as <-. congruence.
  - intros a tm Ha. rewrite Htm in Ha by done. by eapply Huser.
Qed.

Lemma ready_not_running k L A t m : kinv_at k L A -> threads (sch k) !! t = Some m ->
  is_stat RT_THREAD_SUSPEND m = false -> Thread_timer t ∉ (a_timers A).*1.
Proof.
  intros HI Hm Hs ([t' d] & Ht' & Hin)%list_elem_of_fmap. cbn in Ht'. subst t'.
  destruct (ki_running _ _ _ HI _ _ Hin) as ((m' & Hm' & Hs') & _). congruence.
Qed.

Lemma deactivate_ok t tm : thread_timer_ok t tm -> thread_timer_ok t (deactivate tm).
Proof.
  intros (? & ? & Hper). split_and!; [done|done|]. unfold periodic, deactivate, clear8 in *. cbn.
  rewrite <-Z.land_assoc. exact Hper.
Qed.

(** Stopping the timer of a thread: the timer is out of the list afterwards. *)
Lemma wp_stop_thread_timer k L T ts t tm Q : timers_view k L T ts ->
  timers (clk k) !! Thread_timer t = Some tm -> thread_timer_ok t tm ->
  (forall d, (Thread_timer t, d) ∈ ts -> activated tm = true) ->
  (forall r k' L' tm', timers_view k' L' T (without (Thread_timer t) ts) -> same_rest k k' L L' ->
     timers (clk k') = <[Thread_timer t := tm']> (timers (clk k)) -> thread_timer_ok t tm' -> Q r k') ->
  wp (rt_timer_stop (Thread_timer t)) k Q.
Proof.
  intros Htv Htm Hok Hact HQ. eapply (wp_timer_stop k L T ts (Thread_timer t) tm); [done|done| |].
  - intros Hno. eapply (HQ _ k L tm); [|apply same_rest_refl|by rewrite insert_id|done].
    rewrite without_notin; [done|]. intros ([t' d] & Ht' & Hin)%list_elem_of_fmap. cbn in Ht'. subst t'.
    by rewrite (Hact d) in Hno.
  - intros _ k' L' Htv' _ Htm' Hrest. eapply HQ; [done|done|exact Htm'|by apply deactivate_ok].
Qed.

Lemma drop_upd rd p t pre post : rd p = pre ++ t :: post -> t ∉ pre -> t ∉ post -> (forall q, t ∈ rd q -> q = p) ->
  forall q, upd rd p (pre ++ post) q = drop_from t (rd q).
Proof.
  intros Hrd Hpre Hpost Honly q. unfold upd. case_decide as Hq; [subst q; by rewrite Hrd, drop_from_mid|].
  symmetry. apply drop_from_notin. intros Hin. by apply Hq, Honly.
Qed.

Lemma wp_suspend k L A t m Q : kinv_at k L A -> threads (sch k) !! t = Some m -> is_stat RT_THREAD_READY m = true ->
  (forall k' L', kinv_at k' L' (unready t A) -> L' !! Tlist t = Some [] ->
     threads (sch k') = <[t := suspend_stat m]> (threads (sch k)) -> same_misc k k' -> Q RT_EOK k') ->
  wp (rt_thread_suspend t) k Q.
Proof.
  intros HI Hm Hr HQ. destruct (ki_ready_split _ _ _ _ _ HI Hm Hr) as (pre & post & Hrd & Hpre & Hpost & Hmask & Hp).
  destruct (ki_thread_timer _ _ _ HI t m Hm) as (tm & Htm & Htmok).
  assert (Thread_timer t ∉ (a_timers A).*1) as Hnt.
  { eapply ready_not_running; [done|done|]. unfold is_stat in *. apply Z.eqb_eq in Hr. by rewrite Hr. }
  pose proof (ki_ready _ _ _ HI) as Hrv. pose proof (ki_timers _ _ _ HI) as Htv.
  unfold rt_thread_suspend. apply wp_bind. eapply wp_get_thread; [exact Hm|].
  unfold is_stat in Hr. rewrite Hr. cbn [negb].
  apply wp_bind, wp_put_thread. fold (suspend_stat m). set (k1 := with_thread k t (suspend_stat m)).
  assert (ready_view k1 L (a_ready A)) as Hrv1 by (destruct Hrv; by split).
  apply wp_bind. eapply (wp_remove_thread k1 L (a_ready A)); [exact Hrv1|exact Hrd|apply lookup_insert_eq|done|done|].
  intros k2 L2 Hrv2 HL2 (lk2 & g2 & ->). set (k2 := with_group_lists k1 lk2 g2) in *.
  assert (timers_view k2 L2 (a_time A) (a_timers A)) as Htv2.
  { apply (timers_view_rest k k2 L); [done|done|apply Hrv2|by rewrite HL2, !lookup_insert_ne by done|].
    intros t'. by rewrite HL2, !lookup_insert_ne by done. }
  apply wp_bind. eapply (wp_stop_thread_timer k2 L2 _ _ t tm); [exact Htv2|exact Htm|done| |].
  { intros d Hin. destruct Hnt. by apply (list_elem_of_fmap_2 fst _ _ Hin). }
  intros r k3 L3 tm' Htv3 Hrest Htm3 Hok3. apply wp_ret. rewrite without_notin in Htv3 by done.
  assert (forall n, n <> Timers -> (forall x : addr, n <> Row x) -> L3 !! n = L2 !! n) as HL3 by exact (sr_lists _ _ _ _ Hrest).
  assert (threads (sch k3) = <[t := suspend_stat m]> (threads (sch k))) as Hth3 by (by rewrite (sr_sch _ _ _ _ Hrest)).
  apply (HQ k3 L3); [|by rewrite HL3, HL2, lookup_insert_eq by done|done|].
  2: { apply (same_misc_trans _ k2); [done|by eapply same_rest_misc]. }
  apply (kinv_moved k L A _ _ _ t m (suspend_stat m) HI Hm).
  split; cbn [unready a_time a_timers a_ready a_waits]; rewrite ?suspend_is; try done.
  - apply (ready_view_ext _ _ (upd (a_ready A) (current_priority m) (pre ++ post))).
    + apply drop_upd; [done|done|done|]. intros q Hin. eapply (rv_apart _ _ _ _ _ t Hrv Hin).
      rewrite Hrd, elem_of_app, elem_of_cons. tauto.
    + apply (ready_view_rest k2 k3 L2); [done|done|apply Htv3].
  - intros q t' Hne. rewrite elem_of_drop. tauto.
  - intros q. rewrite elem_of_drop. naive_solver.
  - intros h ws Hh. destruct (ki_waits _ _ _ HI _ _ Hh) as [Hwh Hl]. split; [done|].
    rewrite HL3, HL2, !lookup_insert_ne by (by destruct h). done.
  - intros t' Hne. by rewrite HL3, HL2, !lookup_insert_ne by congruence.
  - intros _. right. by rewrite HL3, HL2, lookup_insert_eq by done.
  - intros x Hne. by rewrite Htm3, lookup_insert_ne by congruence.
  - exists tm'. by rewrite Htm3, lookup_insert_eq.
  - intros d Hin. destruct Hnt. by apply (list_elem_of_fmap_2 fst _ _ Hin).
Qed.

(** A thread that is not ready leaves the list in which it waits, if any. *)
Lemma wp_leave_wait k L A t m Q : kinv_at k L A -> threads (sch k) !! t = Some m ->
  is_stat RT_THREAD_READY m = false ->
  (forall lk' L', linked lk' L' -> L' !! Tlist t = Some [] ->
     (forall h ws, a_waits A !! h = Some ws -> L' !! h = Some (Tlist <$> drop_from t ws)) ->
     (forall n, ~ wait_head n -> n <> Tlist t -> L' !! n = L !! n) -> Q tt (with_lists k lk')) ->
  wp (list_remove (Tlist t)) k Q.
Proof.
  intros HI Hm Hr HQ. pose proof (tv_linked _ _ _ _ (ki_timers _ _ _ HI)) as Hlk.
  destruct (ki_free _ _ _ HI t m Hm Hr) as [(h & ws & Hh & Hin)|Hfree].
  - apply list_elem_of_split in Hin as (pre & post & ->).
    destruct (ki_waits _ _ _ HI _ _ Hh) as [Hwh Hl]. rewrite tlist_fmap_middle in Hl.
    pose proof (linked_nodup _ _ Hlk _ _ Hl) as Hnd. rewrite ring_middle in Hnd. apply NoDup_cons in Hnd as [Hnot _].
    assert (t ∉ pre /\ t ∉ post) as [Hpre Hpost].
    { split; intros Hin; apply Hnot; right; apply elem_of_app; [left|right]; by apply (list_elem_of_fmap_2 Tlist). }
    eapply wp_remove; [exact Hlk|exact Hl|]. intros lk' Hlk'. eapply (HQ lk' _ Hlk').
    + apply lookup_insert_eq.
    + intros h' ws Hh'. rewrite lookup_insert_ne by (by destruct (ki_waits _ _ _ HI _ _ Hh'), h').
      destruct (decide (h' = h)) as [->|Hne].
      * rewrite lookup_insert_eq. rewrite Hh in Hh'. injection Hh' as <-. by rewrite drop_from_mid, fmap_app by done.
      * rewrite lookup_insert_ne by done. destruct (ki_waits _ _ _ HI _ _ Hh') as [_ Hl']. rewrite Hl'.
        rewrite drop_from_notin; [done|]. intros Hin. apply Hne.
        eapply (linked_apart _ _ Hlk _ _ _ _ (Tlist t) Hl' Hl); right; [by apply (list_elem_of_fmap_2 Tlist)|].
        rewrite elem_of_app, elem_of_cons. tauto.
    + intros n Hn Hnt. rewrite !lookup_insert_ne; [done| |done]. intros <-. by apply Hn.
  - eapply wp_remove_unlinked; [exact Hlk|exact Hfree|]. intros lk' Hlk'. apply (HQ lk' L Hlk' Hfree); [|done].
    intros h ws Hh. destruct (ki_waits _ _ _ HI _ _ Hh) as [Hwh Hl]. rewrite Hl, drop_from_notin; [done|].
    intros Hin. assert (Tlist t = h) as <-; [|done].
    eapply (linked_apart _ _ Hlk _ _ _ _ (Tlist t) Hfree Hl); [left|right; by apply (list_elem_of_fmap_2 Tlist)].
Qed.

Lemma drop_waits_member A t t' : t' <> t ->
  (exists h ws, (drop_from t <$> a_waits A) !! h = Some ws /\ t' ∈ ws) <->
  (exists h ws, a_waits A !! h = Some ws /\ t' ∈ ws).
Proof.
  intros Hne. split.
  - intros (h & ws & Hh & Hin). rewrite lookup_fmap in Hh. apply fmap_Some in Hh as (ws0 & Hh & ->).
    exists h, ws0. split; [done|]. by apply elem_of_drop in Hin as [? _].
  - intros (h & ws & Hh & Hin). exists h, (drop_from t ws). rewrite lookup_fmap, Hh. split; [done|].
    by apply elem_of_drop.
Qed.

(** The last part of resuming: a thread that is in no list, with its timer
    stopped, becomes ready; [m'] is the thread with its state updated. *)
Lemma kinv_made_ready k L A t m k' L' m' : kinv_at k L A -> threads (sch k) !! t = Some m ->
  is_stat RT_THREAD_READY m = false -> is_stat RT_THREAD_READY m' = true -> current_priority m' = current_priority m ->
  number_mask m' = 2 ^ current_priority m ->
  timers_view k' L' (a_time A) (without (Thread_timer t) (a_timers A)) ->
  ready_view k' L' (upd (a_ready A) (current_priority m) (a_ready A (current_priority m) ++ [t])) ->
  threads (sch k') = <[t := m']> (threads (sch k)) ->
  (forall h ws, a_waits A !! h = Some ws -> L' !! h = Some (Tlist <$> drop_from t ws)) ->
  (forall t', t' <> t -> L' !! Tlist t' = L !! Tlist t') ->
  (exists tm, thread_timer_ok t tm /\ timers (clk k') = <[Thread_timer t := tm]> (timers (clk k))) ->
  kinv_at k' L' (make_ready t (current_priority m) A).
Proof.
  intros HI Hm Hr Hr' Hcp Hmask Htv Hrv Hth Hw Hfr (tm & Hok & Htm).
  destruct (tw_prio _ _ (ki_threads _ _ _ HI) t m Hm) as [Hp _].
  assert (forall q, t ∉ a_ready A q) as Hnr by (intros q; by eapply ki_not_ready).
  apply (kinv_moved k L A k' L' _ t m m' HI Hm). split; cbn [make_ready a_time a_timers a_ready a_waits]; try done.
  - intros q t' Hne. unfold upd. case_decide as Hq; [subst q|done]. rewrite elem_of_app, list_elem_of_singleton. tauto.
  - intros q. unfold upd. rewrite Hcp. case_decide as Hq.
    + subst q. rewrite elem_of_app, list_elem_of_singleton. tauto.
    + split; [by intros ?%Hnr|]. intros [<- _]. done.
  - by rewrite Hcp.
  - intros h ws Hh. rewrite lookup_fmap in Hh. apply fmap_Some in Hh as (ws0 & Hh & ->). split; [|by apply Hw].
    by apply (ki_waits _ _ _ HI _ _ Hh).
  - intros t' Hne. by apply drop_waits_member.
  - intros h ws Hh Hin. rewrite lookup_fmap in Hh. apply fmap_Some in Hh as (ws0 & _ & ->). by apply elem_of_drop in Hin as [_ ?].
  - congruence.
  - intros x Hne. by rewrite Htm, lookup_insert_ne by congruence.
  - exists tm. by rewrite Htm, lookup_insert_eq.
  - intros t' d Hne Hin. by apply list_elem_of_filter in Hin as [_ ?].
  - intros d Hin. destruct (without_not_in (Thread_timer t) (a_timers A)). by apply (list_elem_of_fmap_2 fst _ _ Hin).
Qed.

Lemma wp_resume k L A t m Q : kinv_at k L A -> threads (sch k) !! t = Some m -> is_stat RT_THREAD_SUSPEND m = true ->
  (forall k' L', kinv_at k' L' (make_ready t (current_priority m) A) ->
     threads (sch k') = <[t := ready_stat m]> (threads (sch k)) -> same_misc k k' -> Q RT_EOK k') ->
  wp (rt_thread_resume t) k Q.
Proof.
  intros HI Hm Hs HQ. assert (is_stat RT_THREAD_READY m = false) as Hr.
  { unfold is_stat in *. apply Z.eqb_eq in Hs. by rewrite Hs. }
  destruct (ki_thread_timer _ _ _ HI t m Hm) as (tm & Htm & Htmok).
  destruct (tw_prio _ _ (ki_threads _ _ _ HI) t m Hm) as [Hp Hmask].
  assert (number_mask m = 2 ^ current_priority m) as Hmask2.
  { apply Hmask. unfold is_stat in *. apply Z.eqb_eq in Hs. by rewrite Hs. }
  unfold rt_thread_resume. apply wp_bind. eapply wp_get_thread; [exact Hm|].
  pose proof Hs as Hs2. unfold is_stat in Hs2. rewrite Hs2. cbn [negb]. apply wp_bind.
  eapply (wp_leave_wait k L A t m); [done|done|done|]. intros lk1 L1 Hlk1 Hfree1 Hw1 Hother1.
  assert (timers_view (with_lists k lk1) L1 (a_time A) (a_timers A)) as Htv1.
  { apply (timers_view_rest k _ L); [apply HI|done|done|by apply Hother1; [intros []|]|intros x; by apply Hother1; [intros []|]]. }
  apply wp_bind. eapply (wp_stop_thread_timer _ L1 _ _ t tm); [exact Htv1|exact Htm|done| |].
  { intros d Hin. destruct (ki_running _ _ _ HI _ _ Hin) as (_ & tm' & Htm' & Hact). rewrite Htm in Htm'. by injection Htm' as <-. }
  intros r k2 L2 tm' Htv2 Hrest2 Htm2 Hok2.
  assert (forall n, n <> Timers -> (forall x : addr, n <> Row x) -> L2 !! n = L1 !! n) as HL2 by exact (sr_lists _ _ _ _ Hrest2).
  assert (ready_view k2 L2 (a_ready A)) as Hrv2.
  { apply (ready_view_rest (with_lists k lk1) k2 L1); [|done|apply Htv2].
    destruct (ki_ready _ _ _ HI) as [_ Hrd Hout Hg Hb]. split; try done.
    intros p0 Hp0. rewrite Hother1; [by apply Hrd|intros []|done]. }
  apply wp_bind. eapply (wp_insert_thread k2 L2 (a_ready A) (current_priority m) t m); try done.
  - by rewrite (sr_sch _ _ _ _ Hrest2).
  - by rewrite HL2.
  - intros k3 L3 Hrv3 HL3 (lk3 & g3 & ->). set (k3 := with_group_lists _ lk3 g3) in *. apply wp_ret.
    assert (forall n, n <> Ready (current_priority m) -> n <> Tlist t -> L3 !! n = L2 !! n) as HL3'.
    { intros n Hn1 Hn2. by rewrite HL3, lookup_insert_ne, lookup_delete_ne by done. }
    assert (threads (sch k3) = <[t := ready_stat m]> (threads (sch k))) as Hth3.
    { change (threads (sch k3)) with (<[t := ready_stat m]> (threads (sch k2))). by rewrite (sr_sch _ _ _ _ Hrest2). }
    apply (HQ k3 L3); [|done|].
    + apply (kinv_made_ready k L A t m k3 L3 (ready_stat m)); try done.
      * by rewrite ready_is.
      * apply (timers_view_rest k2 k3 L2); [done|done|apply Hrv3|by apply HL3'|intros x; by apply HL3'].
      * intros h ws Hh. destruct (ki_waits _ _ _ HI _ _ Hh) as [Hwh _]. rewrite HL3', HL2, (Hw1 _ _ Hh) by (by destruct h). done.
      * intros t' Hne. rewrite HL3', HL2 by congruence. apply Hother1; [intros []|congruence].
      * exists tm'. split; [done|]. exact Htm2.
    + destruct (same_rest_misc _ _ _ _ Hrest2) as [? ? ? ? ?]. by split.
Qed.

(** ** Changes that the invariant does not see *)

Lemma kinv_same k k' L A : kinv_at k L A -> lists k' = lists k -> clk k' = clk k -> threads (sch k') = threads (sch k) ->
  rt_thread_ready_priority_group (sch k') = rt_thread_ready_priority_group (sch k) -> kinv_at k' L A.
Proof.
  intros [Htv Hrv Htw Hw Hwt Hfree Htt Hrun Hper Huser] Hl Hc Ht Hg. split; rewrite ?Ht, ?Hc; try done.
  - destruct Htv. split; by rewrite ?Hl, ?Hc.
  - destruct Hrv. split; by rewrite ?Hl, ?Hg.
Qed.

(** Fields of a thread other than its state and its priority. *)
Lemma kinv_fields k L A t m m' : kinv_at k L A -> threads (sch k) !! t = Some m -> stat m' = stat m ->
  current_priority m' = current_priority m -> number_mask m' = number_mask m -> kinv_at (with_thread k t m') L A.
Proof.
  intros [Htv Hrv [Htl Hto Htp] Hw Hwt Hfree Htt Hrun Hper Huser] Hm Hs Hp Hk.
  assert (forall s, is_stat s m' = is_stat s m) as Hst by (intros s; unfold is_stat; by rewrite Hs).
  assert (forall t2 m2, <[t := m']> (threads (sch k)) !! t2 = Some m2 -> exists m1, threads (sch k) !! t2 = Some m1 /\
    (forall s, is_stat s m2 = is_stat s m1) /\ current_priority m2 = current_priority m1 /\ number_mask m2 = number_mask m1) as Hback.
  { intros t2 m2 [[<- <-]|[_ Hm2]]%lookup_insert_Some; [by exists m|by exists m2]. }
  assert (forall t2 m1, threads (sch k) !! t2 = Some m1 -> exists m2, <[t := m']> (threads (sch k)) !! t2 = Some m2 /\
    (forall s, is_stat s m2 = is_stat s m1) /\ current_priority m2 = current_priority m1) as Hforth.
  { intros t2 m1 Hm1. destruct (decide (t2 = t)) as [->|Hne]; [|by exists m1; rewrite lookup_insert_ne by done].
    rewrite lookup_insert_eq. rewrite Hm in Hm1. injection Hm1 as <-. by exists m'. }
  split; cbn [sch with_thread with_sch threads]; try done.
  - destruct Htv. by split.
  - destruct Hrv. by split.
  - split.
    + intros p t2 Hin. destruct (Htl p t2 Hin) as (m1 & Hm1 & Hp1 & Hs1). destruct (Hforth _ _ Hm1) as (m2 & ? & Hs2 & Hp2).
      exists m2. split_and!; [done|congruence|by rewrite Hs2].
    + intros t2 m2 Hm2 Hr. destruct (Hback _ _ Hm2) as (m1 & Hm1 & Hs1 & Hp1 & _). rewrite Hp1. apply Hto; [done|by rewrite <-Hs1].
    + intros t2 m2 Hm2. destruct (Hback _ _ Hm2) as (m1 & Hm1 & Hs1 & Hp1 & Hk1). rewrite Hp1, Hs1, Hk1. by eapply Htp.
  - intros h ws t2 Hh Hin. destruct (Hwt _ _ _ Hh Hin) as (m1 & Hm1 & Hs1). destruct (Hforth _ _ Hm1) as (m2 & ? & Hs2 & _).
    exists m2. by rewrite Hs2.
  - intros t2 m2 Hm2 Hr. destruct (Hback _ _ Hm2) as (m1 & Hm1 & Hs1 & _). eapply Hfree; [done|by rewrite <-Hs1].
  - intros t2 m2 Hm2. destruct (Hback _ _ Hm2) as (m1 & Hm1 & _). by eapply Htt.
  - intros t2 d Hin. destruct (Hrun _ _ Hin) as ((m1 & Hm1 & Hs1) & ?). destruct (Hforth _ _ Hm1) as (m2 & ? & Hs2 & _).
    split; [|done]. exists m2. by rewrite Hs2.
Qed.

(** Which thread runs after a schedule. *)
Definition runs_highest (A : abs) (k k' : kernel) : Prop :=
  if decide (rt_scheduler_lock_nest (sch k) = 0) then
    exists p t ts, priority_ok p /\ a_ready A p = t :: ts /\ (forall q, q < p -> a_ready A q = []) /\
      rt_current_thread (sch k') = Some t
  else rt_current_thread (sch k') = rt_current_thread (sch k).

Lemma group_nonzero k L A p t : kinv_at k L A -> t ∈ a_ready A p -> rt_thread_ready_priority_group (sch k) <> 0.
Proof.
  intros HI Hin Hz. pose proof (rv_ok _ _ _ _ _ (ki_ready _ _ _ HI) Hin) as Hp.
  pose proof (rv_bits _ _ _ (ki_ready _ _ _ HI) p Hp) as Hb. rewrite Hz, Z.bits_0, bool_decide_false in Hb; [done|].
  intros He. rewrite He in Hin. by apply elem_of_nil in Hin.
Qed.

Lemma wp_kschedule k L A p t Q : kinv_at k L A -> t ∈ a_ready A p ->
  (forall k', kinv_at k' L A -> threads (sch k') = threads (sch k) -> lists k' = lists k -> clk k' = clk k ->
     ipc k' = ipc k -> objects k' = objects k -> rt_scheduler_lock_nest (sch k') = rt_scheduler_lock_nest (sch k) ->
     runs_highest A k k' -> Q tt k') ->
  wp rt_schedule k Q.
Proof.
  intros HI Hin HQ. eapply wp_schedule; [apply HI|by intros _; eapply group_nonzero| |].
  - intros Hn. apply HQ; try done. unfold runs_highest. by rewrite decide_False.
  - intros Hn q t' ts Hq Hrd Hlow. destruct (after_schedule_same k t' q) as (? & ? & ? & ? & ? & ? & ? & ?).
    apply HQ; try done; [by eapply kinv_same|]. unfold runs_highest. rewrite decide_True by done. by exists q, t', ts.
Qed.

(** ** The timeout of a thread *)

Lemma kinv_put_error k L A t m e : kinv_at k L A -> threads (sch k) !! t = Some m ->
  kinv_at (with_thread k t (set_error m e)) L A.
Proof. intros HI Hm. by eapply kinv_fields. Qed.

Lemma wp_thread_timeout k L A t m Q : kinv_at k L A -> threads (sch k) !! t = Some m ->
  is_stat RT_THREAD_SUSPEND m = true -> Thread_timer t ∉ (a_timers A).*1 ->
  (forall k' L', kinv_at k' L' (make_ready t (current_priority m) A) ->
     threads (sch k') = <[t := ready_stat (set_error m (- RT_ETIMEOUT))]> (threads (sch k)) -> clk k' = clk k ->
     ipc k' = ipc k -> rt_scheduler_lock_nest (sch k') = rt_scheduler_lock_nest (sch k) ->
     runs_highest (make_ready t (current_priority m) A) k k' -> Q tt k') ->
  wp (rt_thread_timeout t) k Q.
Proof.
  intros HI Hm Hs Hnt HQ. assert (is_stat RT_THREAD_READY m = false) as Hr.
  { unfold is_stat in *. apply Z.eqb_eq in Hs. by rewrite Hs. }
  destruct (ki_thread_timer _ _ _ HI t m Hm) as (tm & Htm & Htmok).
  destruct (tw_prio _ _ (ki_threads _ _ _ HI) t m Hm) as [Hp Hmask].
  assert (number_mask m = 2 ^ current_priority m) as Hmask2.
  { apply Hmask. unfold is_stat in *. apply Z.eqb_eq in Hs. by rewrite Hs. }
  unfold rt_thread_timeout. apply wp_bind. eapply wp_get_thread; [exact Hm|]. apply wp_bind, wp_assert; [exact Hs|].
  apply wp_bind, wp_put_thread. set (m1 := set_error m _). set (k1 := with_thread k t m1).
  assert (kinv_at k1 L A) as HI1 by by apply kinv_put_error.
  assert (threads (sch k1) !! t = Some m1) as Hm1 by apply lookup_insert_eq.
  apply wp_bind. eapply (wp_leave_wait k1 L A t m1); [done|done|done|]. intros lk2 L2 Hlk2 Hfree2 Hw2 Hother2.
  set (k2 := with_lists k1 lk2).
  assert (ready_view k2 L2 (a_ready A)) as Hrv2.
  { destruct (ki_ready _ _ _ HI1) as [_ Hrd Hout Hg Hb]. split; try done.
    intros p0 Hp0. rewrite Hother2; [by apply Hrd|intros []|done]. }
  apply wp_bind. eapply (wp_insert_thread k2 L2 (a_ready A) (current_priority m) t m1); try done.
  intros k3 L3 Hrv3 HL3 (lk3 & g3 & ->). set (k3 := with_group_lists _ lk3 g3) in *.
  assert (forall n, n <> Ready (current_priority m) -> n <> Tlist t -> L3 !! n = L2 !! n) as HL3'.
  { intros n Hn1 Hn2. by rewrite HL3, lookup_insert_ne, lookup_delete_ne by done. }
  assert (threads (sch k3) = <[t := ready_stat m1]> (threads (sch k1))) as Hth3 by done.
  assert (kinv_at k3 L3 (make_ready t (current_priority m) A)) as HI3.
  { apply (kinv_made_ready k1 L A t m1 k3 L3 (ready_stat m1)); try done.
    - by rewrite ready_is.
    - rewrite without_notin by done. apply (timers_view_rest k1 k3 L); [apply HI1|done|apply Hrv3| |].
      + rewrite HL3' by done. apply Hother2; [intros []|done].
      + intros x. rewrite HL3' by done. apply Hother2; [intros []|done].
    - intros h ws Hh. destruct (ki_waits _ _ _ HI _ _ Hh) as [Hwh _]. rewrite HL3', (Hw2 _ _ Hh) by (by destruct h). done.
    - intros t' Hne. rewrite HL3' by congruence. apply Hother2; [intros []|congruence].
    - exists tm. split; [done|]. by rewrite insert_id. }
  eapply (wp_kschedule k3 L3 _ (current_priority m) t); [exact HI3| |].
  { cbn. rewrite upd_eq, elem_of_app, list_elem_of_singleton. tauto. }
  intros k4 HI4 Hth4 _ Hclk4 Hipc4 _ Hnest4 Hruns. apply (HQ k4 L3); try done.
  rewrite Hth4, Hth3. cbn. by rewrite insert_insert_eq.
Qed.

(** ** Yielding *)

Definition rotate (t p : Z) (A : abs) : abs :=
  mk_abs (a_time A) (a_timers A) (upd (a_ready A) p (drop_from t (a_ready A p) ++ [t])) (a_waits A).

Lemma kinv_rotate k L A t m lk' : kinv_at k L A -> threads (sch k) !! t = Some m -> is_stat RT_THREAD_READY m = true ->
  let p := current_priority m in
  linked lk' (<[Ready p := (Tlist <$> drop_from t (a_ready A p)) ++ [Tlist t]]> (delete (Tlist t)
    (<[Tlist t := []]> (<[Ready p := Tlist <$> drop_from t (a_ready A p)]> L)))) ->
  kinv_at (with_lists k lk') (<[Ready p := (Tlist <$> drop_from t (a_ready A p)) ++ [Tlist t]]> (delete (Tlist t)
    (<[Tlist t := []]> (<[Ready p := Tlist <$> drop_from t (a_ready A p)]> L)))) (rotate t p A).
Proof.
  intros HI Hm Hr p. set (L' := <[Ready p := _]> _). intros Hlk'.
  assert (forall n, n <> Ready p -> n <> Tlist t -> L' !! n = L !! n) as HL'.
  { intros n H1 H2. unfold L'. by rewrite lookup_insert_ne, lookup_delete_ne, !lookup_insert_ne by done. }
  destruct (ki_thread_timer _ _ _ HI t m Hm) as (tm & Htm & Htmok). pose proof (ki_ready _ _ _ HI) as Hrv.
  pose proof (tw_only _ _ (ki_threads _ _ _ HI) t m Hm Hr) as Hin. fold p in Hin.
  pose proof (rv_ok _ _ _ _ _ Hrv Hin) as Hp.
  assert (forall q t', t' ∈ upd (a_ready A) p (drop_from t (a_ready A p) ++ [t]) q <-> t' ∈ a_ready A q) as Hmem.
  { intros q t'. unfold upd. case_decide as Hq; [subst q|done].
    rewrite elem_of_app, elem_of_drop, list_elem_of_singleton. destruct (decide (t' = t)) as [->|]; tauto. }
  apply (kinv_moved k L A _ _ _ t m m HI Hm). split; cbn [rotate a_time a_timers a_ready a_waits]; try done.
  - apply (timers_view_rest k _ L); [apply HI|done|done|by apply HL'|intros x; by apply HL'].
  - destruct Hrv as [_ Hrd Hout Hg Hb]. split; try done.
    + intros q Hq. unfold upd. case_decide as Hqp; [subst q; unfold L'; by rewrite lookup_insert_eq, fmap_app|].
      rewrite HL' by congruence. by apply Hrd.
    + intros q Hq. rewrite upd_ne by (by intros ->). by apply Hout.
    + intros q Hq. cbn. rewrite Hb by done. unfold upd. case_decide as Hqp; [subst q|done]. rewrite !bool_decide_false; [done| |].
      * by destruct (drop_from t (a_ready A p)).
      * intros He. rewrite He in Hin. by apply elem_of_nil in Hin.
  - cbn. by rewrite insert_id.
  - intros q. rewrite Hmem. split.
    + intros Hq. destruct (tw_listed _ _ (ki_threads _ _ _ HI) q t Hq) as (m' & Hm' & ?). rewrite Hm in Hm'. by injection Hm' as <-.
    + intros [<- _]. exact Hin.
  - by apply (tw_prio _ _ (ki_threads _ _ _ HI) t m Hm).
  - intros h ws Hh. destruct (ki_waits _ _ _ HI _ _ Hh) as [Hwh Hl]. split; [done|]. rewrite HL' by (by destruct h). done.
  - intros h ws Hh Hinw. destruct (ki_waiting _ _ _ HI _ _ _ Hh Hinw) as (m' & Hm' & Hs'). rewrite Hm in Hm'. by injection Hm' as <-.
  - intros t' Hne. apply HL'; congruence.
  - congruence.
  - by exists tm.
  - intros d Hd. destruct (ki_running _ _ _ HI _ _ Hd) as ((m' & Hm' & Hs') & ?). rewrite Hm in Hm'. injection Hm' as <-. done.
Qed.

(** A thread is alone in its list when its two neighbours are the same. *)
Lemma alone_ring t p pre post : t ∉ pre -> t ∉ post -> NoDup (pre ++ t :: post) ->
  pre ++ t :: post = [t] <-> default (Ready p) (head (Tlist <$> post)) = default (Ready p) (last (Tlist <$> pre)).
Proof.
  intros Hpre Hpost Hnd. split.
  - intros Heq. destruct pre as [|x pre]; [by destruct post|]. by destruct pre, post.
  - intros Heq. destruct post as [|y post].
    + destruct pre as [|x pre _] using rev_ind; [done|].
      rewrite fmap_app in Heq. change (Tlist <$> [x]) with [Tlist x] in Heq. by rewrite last_snoc in Heq.
    + cbn in Heq. destruct pre as [|x pre _] using rev_ind; [done|]. rewrite fmap_app in Heq.
      change (Tlist <$> [x]) with [Tlist x] in Heq. rewrite last_snoc in Heq. injection Heq as <-.
      rewrite <-(assoc_L (++)) in Hnd. apply NoDup_app in Hnd as (_ & _ & Hnd). apply NoDup_cons in Hnd as [Hn _].
      destruct Hn. right. left.
Qed.

(** A yield rotates the list of the current thread when it is ready and not
    alone; otherwise nothing changes. *)
Lemma wp_yield k L A t m Q : kinv_at k L A -> rt_current_thread (sch k) = Some t -> threads (sch k) !! t = Some m ->
  ((is_stat RT_THREAD_READY m = true -> a_ready A (current_priority m) = [t]) -> Q RT_EOK k) ->
  (is_stat RT_THREAD_READY m = true -> a_ready A (current_priority m) <> [t] ->
   forall k' L', kinv_at k' L' (rotate t (current_priority m) A) -> threads (sch k') = threads (sch k) -> clk k' = clk k ->
     ipc k' = ipc k -> rt_scheduler_lock_nest (sch k') = rt_scheduler_lock_nest (sch k) ->
     runs_highest (rotate t (current_priority m) A) k k' -> Q RT_EOK k') ->
  wp rt_thread_yield k Q.
Proof.
  intros HI Hcur Hm Hno Hyes. set (p := current_priority m) in *.
  pose proof (tv_linked _ _ _ _ (ki_timers _ _ _ HI)) as Hlk.
  assert (exists n1 n2, nx (lists k) (Tlist t) = Some n1 /\ pv (lists k) (Tlist t) = Some n2 /\
    (is_stat RT_THREAD_READY m = true -> a_ready A p = [t] <-> n1 = n2)) as (n1 & n2 & Hn1 & Hn2 & Halone).
  { destruct (is_stat RT_THREAD_READY m) eqn:Hr.
    - destruct (ki_ready_split _ _ _ _ _ HI Hm Hr) as (pre & post & Hrd & Hpre & Hpost & _ & Hp). fold p in Hrd, Hp.
      pose proof (rv_ready _ _ _ (ki_ready _ _ _ HI) p Hp) as Hl. rewrite Hrd, tlist_fmap_middle in Hl.
      destruct (linked_around _ _ _ _ _ _ Hlk Hl) as [H1 H2]. eexists _, _. split_and!; [exact H1|exact H2|].
      intros _. rewrite Hrd. apply alone_ring; [done|done|]. rewrite <-Hrd. exact (rv_nodup _ _ _ p (ki_ready _ _ _ HI)).
    - destruct (ki_free _ _ _ HI t m Hm Hr) as [(h & ws & Hh & Hin)|Hfree].
      + apply list_elem_of_split in Hin as (pre & post & ->). destruct (ki_waits _ _ _ HI _ _ Hh) as [_ Hl].
        rewrite tlist_fmap_middle in Hl. destruct (linked_around _ _ _ _ _ _ Hlk Hl) as [H1 H2]. by eexists _, _.
      + exists (Tlist t), (Tlist t). split_and!; [exact (linked_first _ _ _ _ Hlk Hfree)|exact (linked_last _ _ _ _ Hlk Hfree)|done]. }
  unfold rt_thread_yield, rt_thread_self. apply wp_bind, wp_bind, wp_get, wp_ret. apply wp_bind.
  eapply wp_of_opt; [exact Hcur|]. apply wp_bind. eapply wp_get_thread; [exact Hm|].
  apply wp_bind. eapply wp_next; [exact Hn1|]. apply wp_bind. eapply wp_prev; [exact Hn2|].
  change (Z.land (stat m) RT_THREAD_STAT_MASK =? RT_THREAD_READY) with (is_stat RT_THREAD_READY m).
  destruct (is_stat RT_THREAD_READY m) eqn:Hr; cbn [andb]; [|by apply wp_ret, Hno].
  case_bool_decide as Heq; cbn [negb]; [by apply wp_ret, Hno; intros _; apply Halone|].
  destruct (ki_ready_split _ _ _ _ _ HI Hm Hr) as (pre & post & Hrd & Hpre & Hpost & _ & Hp). fold p in Hrd, Hp.
  pose proof (rv_ready _ _ _ (ki_ready _ _ _ HI) p Hp) as Hl. pose proof Hl as Hl2. rewrite Hrd, tlist_fmap_middle in Hl2.
  apply wp_bind. eapply wp_remove; [exact Hlk|exact Hl2|]. intros lk1 Hlk1.
  rewrite <-fmap_app, <-(drop_from_mid t pre post Hpre Hpost), <-Hrd in Hlk1.
  apply wp_bind. fold p. eapply (wp_insert_before _ _ (Ready p) (Tlist <$> drop_from t (a_ready A p)) []).
  - exact Hlk1.
  - by rewrite app_nil_r, lookup_insert_ne, lookup_insert_eq by done.
  - by rewrite lookup_insert_eq.
  - done.
  - intros lk2 Hlk2. apply wp_bind.
    assert (with_lists (with_lists k lk1) lk2 = with_lists k lk2) as -> by done.
    pose proof (kinv_rotate k L A t m lk2 HI Hm Hr Hlk2) as HI2. fold p in HI2.
    eapply (wp_kschedule _ _ _ p t); [exact HI2| |].
    + cbn. rewrite upd_eq, elem_of_app, list_elem_of_singleton. tauto.
    + intros k3 HI3 Hth3 Hl3 Hc3 Hi3 _ Hn3 Hruns. apply wp_ret. eapply Hyes; try done. intros Hone. by apply Heq, Halone.
Qed.

(** ** Waiting for a limited time *)

Definition run_timer (t tick : Z) (A : abs) : abs :=
  mk_abs (a_time A) (insert_due (Thread_timer t) (a_time A + tick) (without (Thread_timer t) (a_timers A)))
    (a_ready A) (a_waits A).

Lemma kinv_timers k k' L L' A t m ts : kinv_at k L A -> threads (sch k) !! t = Some m ->
  timers_view k' L' (a_time A) ts -> same_rest k k' L L' ->
  (exists tm, thread_timer_ok t tm /\ timers (clk k') = <[Thread_timer t := tm]> (timers (clk k)) /\
     (forall d, (Thread_timer t, d) ∈ ts -> is_stat RT_THREAD_SUSPEND m = true /\ activated tm = true)) ->
  (forall t' d, t' <> t -> (Thread_timer t', d) ∈ ts -> (Thread_timer t', d) ∈ a_timers A) ->
  kinv_at k' L' (mk_abs (a_time A) ts (a_ready A) (a_waits A)).
Proof.
  intros HI Hm Htv Hrest (tm & Hok & Htm & Hrun) Hother.
  pose proof (sr_lists _ _ _ _ Hrest) as HL. pose proof (sr_sch _ _ _ _ Hrest) as Hs.
  apply (kinv_moved k L A k' L' _ t m m HI Hm). split; cbn [a_time a_timers a_ready a_waits]; try done.
  - apply (ready_view_rest k k' L); [apply HI|done|apply Htv].
  - rewrite Hs. by rewrite insert_id.
  - intros q. split.
    + intros Hq. destruct (tw_listed _ _ (ki_threads _ _ _ HI) q t Hq) as (m' & Hm' & ?). rewrite Hm in Hm'. by injection Hm' as <-.
    + intros [<- Hr]. by apply (tw_only _ _ (ki_threads _ _ _ HI)).
  - by apply (tw_prio _ _ (ki_threads _ _ _ HI) t m Hm).
  - intros h ws Hh. destruct (ki_waits _ _ _ HI _ _ Hh) as [Hwh Hl]. split; [done|].
    rewrite HL; [done|by destruct h|by destruct h].
  - intros h ws Hh Hin. destruct (ki_waiting _ _ _ HI _ _ _ Hh Hin) as (m' & Hm' & ?). rewrite Hm in Hm'. by injection Hm' as <-.
  - intros t' Hne. by apply HL.
  - intros Hr. rewrite HL by done. by apply (ki_free _ _ _ HI t m).
  - intros x Hne. by rewrite Htm, lookup_insert_ne by congruence.
  - exists tm. by rewrite Htm, lookup_insert_eq.
  - intros d Hin. destruct (Hrun d Hin). split; [done|]. exists tm. by rewrite Htm, lookup_insert_eq.
Qed.

Lemma started_activated (tm : rt_timer) tick : activated (started tm tick) = true.
Proof.
  unfold activated, started, flag, RT_TIMER_FLAG_ACTIVATED, clear8. rewrite Z.land_lor_distr_l, <-Z.land_assoc.
  change (Z.land (u8 (Z.lnot 1)) 1) with 0. by rewrite Z.land_0_r.
Qed.

Lemma started_periodic (tm : rt_timer) tick : periodic (started tm tick) = periodic tm.
Proof.
  unfold periodic, started, flag, RT_TIMER_FLAG_ACTIVATED, RT_TIMER_FLAG_PERIODIC, clear8.
  rewrite Z.land_lor_distr_l, <-Z.land_assoc. change (Z.land (u8 (Z.lnot 1)) 2) with 2. change (Z.land 1 2) with 0.
  by rewrite Z.lor_0_r.
Qed.

(** rt_timer_control with RT_TIMER_CTRL_SET_TIME, then rt_timer_start. *)
Lemma wp_run_timer k L A t m tick Q : kinv_at k L A -> threads (sch k) !! t = Some m ->
  is_stat RT_THREAD_SUSPEND m = true -> 0 <= tick < RT_TICK_MAX / 2 ->
  (forall k' L', kinv_at k' L' (run_timer t tick A) -> threads (sch k') = threads (sch k) -> same_misc k k' ->
     (forall n, n <> Timers -> (forall x : addr, n <> Row x) -> L' !! n = L !! n) -> Q (- RT_EOK) k') ->
  wp (rt_timer_control (Thread_timer t) RT_TIMER_CTRL_SET_TIME tick) k (fun _ k1 => wp (rt_timer_start (Thread_timer t)) k1 Q).
Proof.
  intros HI Hm Hs Htick HQ. destruct (ki_thread_timer _ _ _ HI t m Hm) as (tm & Htm & Hfn & Hpar & Hper).
  unfold rt_timer_control. apply wp_bind. eapply wp_get_timer; [exact Htm|].
  change (RT_TIMER_CTRL_SET_TIME =? RT_TIMER_CTRL_GET_TIME) with false.
  change (RT_TIMER_CTRL_SET_TIME =? RT_TIMER_CTRL_SET_TIME) with true. cbn [andb].
  apply wp_bind, wp_put_timer, wp_ret. set (tm1 := set_timer_init_tick tm tick).
  eapply (wp_timer_start _ L (a_time A) (a_timers A) _ tm1).
  - apply (tv_upd k L _ _ _ tm1 tm); [apply HI|done|by right].
  - apply lookup_insert_eq.
  - exact Htick.
  - intros k' L' Htv' Htm' Hrest. change (timer_init_tick tm1) with tick in Htv'.
    assert (same_rest k k' L L') as Hrest'.
    { apply (same_rest_trans _ (upd_timer k (Thread_timer t) tm1) _ _ L); [apply same_rest_upd|done]. }
    apply (HQ k' L'); [|by rewrite (sr_sch _ _ _ _ Hrest')|by eapply same_rest_misc|exact (sr_lists _ _ _ _ Hrest')].
    apply (kinv_timers k k' L L' A t m _ HI Hm Htv' Hrest').
    + exists (started tm1 (rt_tick (clk k))). split_and!.
      * split_and!; [done|done|]. by rewrite started_periodic.
      * rewrite Htm'. cbn. by rewrite insert_insert_eq.
      * intros d _. split; [done|apply started_activated].
    + intros t' d Hne [Heq|Hin]%insert_due_mem; [by injection Heq|]. by apply list_elem_of_filter in Hin as [_ ?].
Qed.

(** rt_thread_sleep: the current thread waits in no list, with its timer set. *)
Lemma wp_sleep_begin k L A t m tick p t0 Q : kinv_at k L A -> rt_current_thread (sch k) = Some t ->
  threads (sch k) !! t = Some m -> is_stat RT_THREAD_READY m = true -> 0 <= tick < RT_TICK_MAX / 2 ->
  t0 ∈ a_ready A p -> t0 <> t ->
  (forall k' L', kinv_at k' L' (run_timer t tick (unready t A)) ->
     threads (sch k') = <[t := suspend_stat m]> (threads (sch k)) -> ipc k' = ipc k ->
     rt_scheduler_lock_nest (sch k') = rt_scheduler_lock_nest (sch k) ->
     runs_highest (run_timer t tick (unready t A)) k k' -> Q t k') ->
  wp (rt_thread_sleep_begin tick) k Q.
Proof.
  intros HI Hcur Hm Hr Htick Hother Hne HQ. unfold rt_thread_sleep_begin, rt_thread_self.
  apply wp_bind, wp_bind, wp_get, wp_ret. apply wp_bind. eapply wp_of_opt; [exact Hcur|]. apply wp_bind.
  eapply wp_suspend; [exact HI|exact Hm|exact Hr|]. intros k1 L1 HI1 _ Hth1 Hmisc1. apply wp_bind.
  assert (threads (sch k1) !! t = Some (suspend_stat m)) as Hm1 by (by rewrite Hth1, lookup_insert_eq).
  eapply wp_mono; [eapply (wp_run_timer k1 L1 _ t (suspend_stat m) tick); [exact HI1|exact Hm1|by rewrite suspend_is|done|]|].
  { intros k2 L2 HI2 Hth2 Hmisc2 _. instantiate (1 := fun _ k2 => exists L2, kinv_at k2 L2 (run_timer t tick (unready t A)) /\
      threads (sch k2) = threads (sch k1) /\ same_misc k1 k2). by exists L2. }
  cbv beta. intros _ k1' Hstart. apply wp_bind. eapply wp_mono; [exact Hstart|]. cbv beta. intros _ k2 (L2 & HI2 & Hth2 & Hmisc2).
  pose proof (same_misc_trans _ _ _ Hmisc1 Hmisc2) as Hmisc. apply wp_bind.
  eapply (wp_kschedule k2 L2 _ p t0); [exact HI2|cbn; by apply elem_of_drop|].
  intros k3 HI3 Hth3 _ _ Hi3 _ Hn3 Hruns. apply wp_ret. apply (HQ k3 L2); [done| | | |].
  - by rewrite Hth3, Hth2.
  - by rewrite Hi3, (sm_ipc _ _ Hmisc).
  - by rewrite Hn3, (sm_nest _ _ Hmisc).
  - unfold runs_highest in *. by rewrite (sm_nest _ _ Hmisc), (sm_current _ _ Hmisc) in Hruns.
Qed.

(** ** Changing the priority *)

Definition reprioritised (t p : Z) (A : abs) : abs :=
  let rd := fun q => drop_from t (a_ready A q) in
  mk_abs (a_time A) (a_timers A) (upd rd p (rd p ++ [t])) (a_waits A).

Lemma mask_pow p : priority_ok p -> u32 (Z.shiftl 1 p) = 2 ^ p.
Proof.
  intros Hp. pose proof (pow2_u32 p Hp). rewrite Z.shiftl_1_l. by apply u32_small.
Qed.

Lemma set_priority_stat m p s : is_stat s (set_priority m p) = is_stat s m.
Proof. done. Qed.

Lemma kinv_set_priority k L A t m p : kinv_at k L A -> threads (sch k) !! t = Some m ->
  is_stat RT_THREAD_READY m = false -> priority_ok p -> kinv_at (with_thread k t (set_priority m p)) L A.
Proof.
  intros HI Hm Hr Hp. destruct (ki_thread_timer _ _ _ HI t m Hm) as (tm & Htm & Htmok).
  apply (kinv_moved k L A _ _ _ t m (set_priority m p) HI Hm). split; rewrite ?set_priority_stat; try done.
  - apply (timers_view_rest k _ L); [apply HI|done|apply HI|done|done].
  - destruct (ki_ready _ _ _ HI). by split.
  - intros q. split; [by intros ?%(ki_not_ready k L A t m q HI Hm Hr)|intros [_ Hr']; congruence].
  - split; [done|]. intros _. cbn. by apply mask_pow.
  - intros h ws Hh. by apply (ki_waits _ _ _ HI).
  - intros h ws Hh Hin. destruct (ki_waiting _ _ _ HI _ _ _ Hh Hin) as (m' & Hm' & ?). rewrite Hm in Hm'. by injection Hm' as <-.
  - intros _. by apply (ki_free _ _ _ HI t m).
  - by exists tm.
  - intros d Hin. destruct (ki_running _ _ _ HI _ _ Hin) as ((m' & Hm' & ?) & ?). rewrite Hm in Hm'. by injection Hm' as <-.
Qed.

Lemma wp_change_priority k L A t m p Q : kinv_at k L A -> threads (sch k) !! t = Some m -> priority_ok p ->
  (is_stat RT_THREAD_READY m = false -> Q tt (with_thread k t (set_priority m p))) ->
  (is_stat RT_THREAD_READY m = true -> forall k' L', kinv_at k' L' (reprioritised t p A) ->
     threads (sch k') = <[t := ready_stat (set_priority m p)]> (threads (sch k)) -> clk k' = clk k ->
     same_misc k k' -> Q tt k') ->
  wp (change_priority t p) k Q.
Proof.
  intros HI Hm Hp Hno Hyes. unfold change_priority. apply wp_bind. eapply wp_get_thread; [exact Hm|].
  change (Z.land (stat m) RT_THREAD_STAT_MASK =? RT_THREAD_READY) with (is_stat RT_THREAD_READY m).
  destruct (is_stat RT_THREAD_READY m) eqn:Hr; [|by apply wp_put_thread, Hno].
  destruct (ki_ready_split _ _ _ _ _ HI Hm Hr) as (pre & post & Hrd & Hpre & Hpost & Hmask & Hop).
  destruct (ki_thread_timer _ _ _ HI t m Hm) as (tm & Htm & Htmok). pose proof (ki_ready _ _ _ HI) as Hrv.
  apply wp_bind. eapply (wp_remove_thread k L (a_ready A)); [exact Hrv|exact Hrd|exact Hm|done|done|].
  intros k1 L1 Hrv1 HL1 (lk1 & g1 & ->). set (k1 := with_group_lists k lk1 g1) in *.
  apply wp_bind. eapply wp_get_thread; [exact Hm|]. apply wp_bind, wp_put_thread. set (m1 := set_priority m p).
  set (rd := fun q => drop_from t (a_ready A q)).
  assert (ready_view (with_thread k1 t m1) L1 rd) as Hrv2.
  { assert (ready_view k1 L1 rd) as [? ? ? ? ?]; [|by split]. eapply ready_view_ext; [|exact Hrv1].
    apply drop_upd; [done|done|done|]. intros q Hin. eapply (rv_apart _ _ _ _ _ t Hrv Hin).
    rewrite Hrd, elem_of_app, elem_of_cons. tauto. }
  eapply (wp_insert_thread _ L1 rd p t m1); [exact Hrv2|apply lookup_insert_eq|done|done|by apply mask_pow|by rewrite HL1, lookup_insert_eq|].
  intros k3 L3 Hrv3 HL3 (lk3 & g3 & ->). set (k3 := with_group_lists _ lk3 g3) in *.
  assert (forall n, (forall q, n <> Ready q) -> n <> Tlist t -> L3 !! n = L !! n) as HL3'.
  { intros n Hn1 Hn2. rewrite HL3, lookup_insert_ne, lookup_delete_ne by auto.
    by rewrite HL1, !lookup_insert_ne by auto. }
  assert (threads (sch k3) = <[t := ready_stat m1]> (threads (sch k))) as Hth3 by (cbn; by rewrite insert_insert_eq).
  apply (Hyes eq_refl k3 L3); [|done|done|by split].
  apply (kinv_moved k L A _ _ _ t m (ready_stat m1) HI Hm).
  split; cbn [reprioritised a_time a_timers a_ready a_waits]; rewrite ?ready_is; try done.
  - apply (timers_view_rest k k3 L); [apply HI|done|apply Hrv3|by apply HL3'|intros x; by apply HL3'].
  - intros q t' Hne. unfold upd. case_decide as Hq; [subst q|]; unfold rd; rewrite ?elem_of_app, elem_of_drop, ?list_elem_of_singleton; tauto.
  - intros q. unfold upd. change (current_priority (ready_stat m1)) with p. case_decide as Hq.
    + subst q. rewrite elem_of_app, list_elem_of_singleton. tauto.
    + rewrite elem_of_drop. naive_solver.
  - split; [done|]. intros _. by apply mask_pow.
  - intros h ws Hh. destruct (ki_waits _ _ _ HI _ _ Hh) as [Hwh Hl]. split; [done|]. by rewrite HL3' by (by destruct h).
  - intros h ws Hh Hin. destruct (ki_waiting _ _ _ HI _ _ _ Hh Hin) as (m' & Hm' & Hs'). rewrite Hm in Hm'. injection Hm' as <-.
    pose proof (stat_unique _ _ _ Hr Hs'). done.
  - intros t' Hne. by apply HL3'; congruence.
  - by exists tm.
  - intros d Hin. destruct (ki_running _ _ _ HI _ _ Hin) as ((m' & Hm' & Hs') & _). rewrite Hm in Hm'. injection Hm' as <-.
    pose proof (stat_unique _ _ _ Hr Hs'). done.
Qed.

End ops.
