(* ===== verification/Boot.v ===== *)
(** * Starting the kernel and its threads

    The initialisation functions of the timers, the scheduler and the threads
    establish the invariant of the kernel: memory that is not in any list before
    becomes the lists and the nodes of the structures. *)

From S2P Require Import Prelude Klist Kernel Object Timer Sched Thread.

Open Scope Z_scope.

(** The node is in no list, neither as a head nor as a member. *)
Definition unknown (L : gmap node (list node)) (n : node) : Prop := forall h xs, L !! h = Some xs -> n ∉ h :: xs.

Lemma unknown_none L n : unknown L n -> L !! n = None.
Proof. intros Hn. destruct (L !! n) as [xs|] eqn:E; [|done]. destruct (Hn n xs E). left. Qed.

Lemma unknown_insert L l n : unknown L n -> n <> l -> unknown (<[l := []]> L) n.
Proof.
  intros Hn Hne h xs [[<- <-]|[_ Hh]]%lookup_insert_Some; [|by eapply Hn]. by intros ?%list_elem_of_singleton.
Qed.

Lemma unknown_extend L l x xs n : unknown L n -> L !! l = Some xs -> n <> x -> unknown (<[l := x :: xs]> (delete x L)) n.
Proof.
  intros Hn Hl Hne h ys [[<- <-]|[_ [_ Hh]%lookup_delete_Some]]%lookup_insert_Some; [|by eapply Hn].
  pose proof (Hn _ _ Hl) as Hnl. rewrite !not_elem_of_cons in *. tauto.
Qed.

Section ops.
Implicit Types (k : kernel) (L : gmap node (list node)) (A : abs) (t p : Z) (m : rt_thread).

Lemma wp_list_init k L n Q : linked (lists k) L -> unknown L n ->
  (forall lk', linked lk' (<[n := []]> L) -> (forall x, is_Some (lists k !! x) -> is_Some (lk' !! x)) ->
     Q tt (with_lists k lk')) -> wp (list_init n) k Q.
Proof.
  intros Hlk Hn HQ. eapply wp_modify_lists; [done|]. apply HQ; [by apply linked_init|].
  intros x Hx. unfold rt_list_init. apply lookup_insert_is_Some. destruct (decide (n = x)); tauto.
Qed.

(** ** The scheduler *)

Lemma wp_init_table n off k L Q : linked (lists k) L -> (forall p, off <= p -> unknown L (Ready p)) ->
  (forall lk' L', linked lk' L' ->
     (forall p, off <= p < off + Z.of_nat n -> L' !! Ready p = Some []) ->
     (forall x, (forall p, x <> Ready p) -> L' !! x = L !! x /\ (unknown L x -> unknown L' x)) ->
     (forall p, p < off -> L' !! Ready p = L !! Ready p) -> (forall x, is_Some (lists k !! x) -> is_Some (lk' !! x)) ->
     Q tt (with_lists k lk')) ->
  wp (init_priority_table n off) k Q.
Proof.
  revert off k L Q. induction n as [|n IH]; intros off k L Q Hlk Hun HQ; cbn [init_priority_table].
  - apply wp_ret. assert (k = with_lists k (lists k)) as -> by (by destruct k). by apply (HQ _ L); try done; intros p Hp; lia.
  - apply wp_bind. eapply wp_list_init; [done|by apply Hun|]. intros lk1 Hlk1 Hd1.
    apply (IH (off + 1) (with_lists k lk1) (<[Ready off := []]> L)); [done| |].
    + intros p Hp. apply unknown_insert; [apply Hun; lia|intros [= ->]; lia].
    + intros lk2 L2 Hlk2 Hr Hx Hlow Hd2. apply (HQ lk2 L2); [done| | | |auto].
      * intros p Hp. destruct (decide (p = off)) as [->|Hne]; [|apply Hr; lia]. rewrite Hlow by lia. apply lookup_insert_eq.
      * intros x Hnx. destruct (Hx x Hnx) as [Hx1 Hx2]. rewrite Hx1, lookup_insert_ne by congruence.
        split; [done|]. intros Hu. apply Hx2. by apply unknown_insert.
      * intros p Hp. rewrite Hlow by lia. rewrite lookup_insert_ne; [done|]. intros [= ->]. lia.
Qed.

(** The abstract state without timers, ready threads and IPC objects. *)
Definition idle_abs (T : Z) : abs := mk_abs T [] (fun _ => []) ∅.

Lemma wp_system_init k L T Q : linked (lists k) L -> unknown L Timers -> unknown L Defunct ->
  (forall p, unknown L (Ready p)) -> rt_tick (clk k) = u32 T -> timers (clk k) = ∅ -> threads (sch k) = ∅ ->
  (forall k' L', kinv_at k' L' (idle_abs T) -> rt_current_thread (sch k') = None ->
     rt_scheduler_lock_nest (sch k') = 0 ->
     (forall x, (forall p, x <> Ready p) -> x <> Timers -> x <> Defunct ->
        L' !! x = L !! x /\ (unknown L x -> unknown L' x)) ->
     (forall x, is_Some (lists k !! x) -> is_Some (lists k' !! x)) ->
     threads (sch k') = ∅ -> timers (clk k') = ∅ -> ipc k' = ipc k -> Q tt k') ->
  wp (rt_system_timer_init ;; rt_system_scheduler_init) k Q.
Proof.
  intros Hlk HuT HuD HuR Htick Htm Hth HQ. unfold rt_system_timer_init, rt_system_scheduler_init, put_nest, set_sched.
  apply wp_bind. eapply wp_list_init; [done|done|]. intros lk1 Hlk1 Hd1. wp_bind. apply wp_get. wp_bind. apply wp_get, wp_put.
  wp_bind. eapply (wp_init_table _ _ _ (<[Timers := []]> L)); [exact Hlk1|intros p _; by apply unknown_insert|].
  intros lk2 L2 Hlk2 Hready Hother _ Hd2. wp_bind. apply wp_get, wp_put. destruct (Hother Defunct) as [_ Hdef]; [done|].
  eapply (wp_list_init _ L2); [exact Hlk2|by apply Hdef, unknown_insert|]. intros lk3 Hlk3 Hd3.
  eapply (HQ _ (<[Defunct := []]> L2)); [|done|done| |auto|done|done|done].
  - split; cbn [a_time a_timers a_ready a_waits idle_abs clk sch with_lists with_sch with_group threads timers]; rewrite ?Hth, ?Htm; try done.
    + split; cbn [clk sch with_lists with_sch]; try done.
      * rewrite lookup_insert_ne by done. destruct (Hother Timers) as [-> _]; [done|]. apply lookup_insert_eq.
      * intros x d Hin. by apply elem_of_nil in Hin.
      * constructor.
      * intros x tm. by rewrite Htm, lookup_empty.
    + split; cbn [sch with_lists with_sch rt_thread_ready_priority_group]; try done.
      * intros p Hp. rewrite lookup_insert_ne by done. apply Hready. unfold priority_ok, RT_THREAD_PRIORITY_MAX in *. lia.
      * intros p _. by rewrite Z.bits_0, bool_decide_true.
    + split.
      * intros p t Hin. by apply elem_of_nil in Hin.
      * intros t m. by rewrite lookup_empty.
      * intros t m. by rewrite lookup_empty.
    + intros t d Hin. by apply elem_of_nil in Hin.
  - intros x Hr HT HD. rewrite lookup_insert_ne by congruence. destruct (Hother x Hr) as [-> Hu].
    rewrite lookup_insert_ne by congruence. split; [done|]. intros Hx. apply unknown_insert; [|done].
    by apply Hu, unknown_insert.
Qed.

(** ** Threads *)

(** The parts of the lists that the invariant speaks of, apart from thread [t]. *)
Definition same_for (t : Z) (L L' : gmap node (list node)) : Prop :=
  forall x, (forall c, x <> Container c) -> (forall o, x <> Olist o) -> x <> Tlist t -> x <> Row (Thread_timer t) -> L' !! x = L !! x.

Lemma kinv_new_thread k L A t m tm k' L' : kinv_at k L A -> threads (sch k) !! t = None ->
  timers (clk k) !! Thread_timer t = None -> is_stat RT_THREAD_INIT m = true -> priority_ok (current_priority m) ->
  thread_timer_ok t tm -> linked (lists k') L' -> same_for t L L' -> L' !! Tlist t = Some [] ->
  L' !! Row (Thread_timer t) = Some [] -> clk k' = mk_clock (rt_tick (clk k)) (random_nr (clk k)) (<[Thread_timer t := tm]> (timers (clk k))) ->
  sch k' = sch (with_thread k t m) -> kinv_at k' L' A.
Proof.
  intros HI Hth Htt Hinit Hprio Hok Hlk HL Htl Hrow Hclk Hsch.
  assert (forall s, s <> RT_THREAD_INIT -> is_stat s m = false) as Hns.
  { intros s Hs. destruct (is_stat s m) eqn:E; [|done]. destruct Hs. by eapply stat_unique. }
  destruct HI as [[Hl1 Hl2 Hl3 Hl4 Hl5 Hl6] [Hr1 Hr2 Hr3 Hr4 Hr5] [Hw1 Hw2 Hw3] Hw Hwt Hfree Htts Hrun Hper Huser].
  split; rewrite ?Hclk, ?Hsch; cbn [sch with_thread with_sch threads timers clk].
  - split; rewrite ?Hclk; try done.
    + by rewrite HL.
    + intros x d Hin. destruct (Hl4 _ _ Hin) as (? & m' & Hm' & ?). split; [done|]. exists m'. cbn.
      rewrite lookup_insert_ne; [done|]. intros <-. congruence.
    + intros x tm'. cbn [timers]. intros [[<- <-]|[Hne Hx]]%lookup_insert_Some; [by right|].
      destruct (Hl6 _ _ Hx) as [|Hf]; [by left|right]. rewrite HL by congruence. done.
  - split; rewrite ?Hsch; try done. intros p Hp. rewrite HL by done. by apply Hr2.
  - split.
    + intros p t' Hin. destruct (Hw1 _ _ Hin) as (m' & Hm' & ?). exists m'. rewrite lookup_insert_ne; [done|]. intros <-. congruence.
    + intros t' m' [[<- <-]|[Hne Hm']]%lookup_insert_Some; [by rewrite Hns|by apply Hw2].
    + intros t' m' [[<- <-]|[Hne Hm']]%lookup_insert_Some; [split; [done|by rewrite Hinit]|by eapply Hw3].
  - intros h ws Hh. destruct (Hw _ _ Hh) as [Hwh Hl]. split; [done|]. rewrite HL by (by destruct h). done.
  - intros h ws t' Hh Hin. destruct (Hwt _ _ _ Hh Hin) as (m' & Hm' & ?). exists m'. rewrite lookup_insert_ne; [done|]. intros <-. congruence.
  - intros t' m' [[<- <-]|[Hne Hm']]%lookup_insert_Some Hr; [by right|].
    destruct (Hfree _ _ Hm' Hr) as [|Hf]; [by left|right]. rewrite HL by congruence. done.
  - intros t' m' [[<- <-]|[Hne Hm']]%lookup_insert_Some; [exists tm; by rewrite lookup_insert_eq|].
    rewrite lookup_insert_ne by congruence. by eapply Htts.
  - intros t' d Hin. destruct (Hrun _ _ Hin) as ((m' & Hm' & ?) & tm' & Htm' & ?). split.
    + exists m'. rewrite lookup_insert_ne; [done|]. intros <-. congruence.
    + exists tm'. rewrite lookup_insert_ne; [done|]. intros [= <-]. congruence.
  - intros x tm' [[<- <-]|[Hne Hx]]%lookup_insert_Some Hp; [by destruct Hok as (_ & _ & ?); congruence|by eapply Hper].
  - intros a tm' [[Ha _]|[_ Ha]]%lookup_insert_Some; [done|by eapply Huser].
Qed.

(** Memory for a thread that is not yet one of the kernel's. *)
Record fresh_thread k L t : Prop := {
  ft_thread : threads (sch k) !! t = None;
  ft_timer : timers (clk k) !! Thread_timer t = None;
  ft_tlist : unknown L (Tlist t);
  ft_row : unknown L (Row (Thread_timer t));
  ft_object : unknown L (Olist (Obj t)) /\ is_Some (lists k !! Olist (Obj t));
  ft_timer_object : unknown L (Olist (Thread_timer t)) /\ is_Some (lists k !! Olist (Thread_timer t));
}.

Lemma thread_class : RT_Object_Class_Thread ∈ rt_object_container.
Proof. left. Qed.

Lemma timer_class : RT_Object_Class_Timer ∈ rt_object_container.
Proof. do 8 right. left. Qed.

Definition new_thread (set info priority tick : Z) : rt_thread :=
  mk_thread RT_EOK RT_THREAD_INIT priority priority 0 set info tick tick false.

Definition containers k L (cs cs' : list node) : Prop :=
  L !! Container RT_Object_Class_Thread = Some cs /\ L !! Container RT_Object_Class_Timer = Some cs'.

Lemma node_in (lk lk' : gmap node (rt_list_node node)) x : dom lk' = dom lk -> is_Some (lk !! x) -> is_Some (lk' !! x).
Proof. intros Hd Hx. apply elem_of_dom. rewrite Hd. by apply elem_of_dom. Qed.

Lemma wp_thread_init k L A t name set info priority tick cs cs' Q : kinv_at k L A -> fresh_thread k L t ->
  containers k L cs cs' -> priority_ok priority ->
  (forall k' L', kinv_at k' L' A -> sch k' = sch (with_thread k t (new_thread set info priority tick)) ->
     containers k' L' (Olist (Obj t) :: cs) (Olist (Thread_timer t) :: cs') ->
     objects k' = <[Thread_timer t := mk_object (object_name name) 137]> (<[Obj t := mk_object (object_name name) 128]> (objects k)) ->
     (forall x, unknown L x -> x <> Tlist t -> x <> Row (Thread_timer t) -> x <> Olist (Obj t) ->
        x <> Olist (Thread_timer t) -> unknown L' x) ->
     (forall x, is_Some (lists k !! x) -> is_Some (lists k' !! x)) ->
     (forall x, x <> Thread_timer t -> timers (clk k') !! x = timers (clk k) !! x) ->
     (forall c, c <> RT_Object_Class_Thread -> c <> RT_Object_Class_Timer -> L' !! Container c = L !! Container c) ->
     ipc k' = ipc k -> Q RT_EOK k') ->
  wp (rt_thread_init t name set info priority tick) k Q.
Proof.
  intros HI [Hth Htm Htl Hrow [Ho Hom] [Hto Htom]] [Hc Hc'] Hprio HQ.
  pose proof (tv_linked _ _ _ _ (ki_timers _ _ _ HI)) as Hlk.
  unfold rt_thread_init, _rt_thread_init, rt_timer_init, _rt_timer_init. apply wp_bind.
  eapply (wp_object_init k L (Obj t) RT_Object_Class_Thread); [exact Hlk|exact thread_class|exact Hc|by apply unknown_free|exact Hom|].
  intros lk1 Hlk1 Hd1. set (L1 := <[Container _ := _]> _) in Hlk1.
  assert (forall x, unknown L x -> x <> Olist (Obj t) -> unknown L1 x) as Hu1 by (intros; by apply unknown_extend).
  wp_bind. eapply (wp_list_init _ L1); [exact Hlk1|by apply Hu1|]. intros lk2 Hlk2 Hd2.
  set (L2 := <[Tlist t := []]> L1) in Hlk2. wp_bind. apply wp_assert; [by apply Z.ltb_lt, Hprio|]. wp_bind. apply wp_put_thread.
  fold (new_thread set info priority tick). set (k3 := with_thread _ t _).
  assert (forall x, unknown L x -> x <> Olist (Obj t) -> x <> Tlist t -> unknown L2 x) as Hu2 by (intros; by apply unknown_insert; [apply Hu1|]).
  assert (L2 !! Container RT_Object_Class_Timer = Some cs') as Hc2.
  { unfold L2, L1. rewrite lookup_insert_ne, lookup_insert_ne, lookup_delete_ne by done. exact Hc'. }
  wp_bind. eapply (wp_object_init k3 L2 (Thread_timer t) RT_Object_Class_Timer); [exact Hlk2|exact timer_class|exact Hc2|by apply unknown_free, Hu2| |].
  { apply Hd2. by apply (node_in _ _ _ Hd1). }
  intros lk4 Hlk4 Hd4. set (L4 := <[Container RT_Object_Class_Timer := _]> _) in Hlk4.
  assert (forall x, unknown L x -> x <> Olist (Obj t) -> x <> Tlist t -> x <> Olist (Thread_timer t) -> unknown L4 x) as Hu4
    by (intros; apply unknown_extend; auto).
  wp_bind. apply wp_put_timer. eapply (wp_list_init _ L4); [exact Hlk4|by apply Hu4|]. intros lk5 Hlk5 Hd5. wp_ret.
  set (L5 := <[Row (Thread_timer t) := []]> L4) in Hlk5.
  assert (forall x, x <> Tlist t -> x <> Row (Thread_timer t) -> x <> Olist (Obj t) -> x <> Olist (Thread_timer t) ->
    x <> Container RT_Object_Class_Thread -> x <> Container RT_Object_Class_Timer -> L5 !! x = L !! x) as Hsame.
  { intros x ? ? ? ? ? ?. unfold L5, L4, L2, L1.
    by rewrite lookup_insert_ne, lookup_insert_ne, lookup_delete_ne, lookup_insert_ne, lookup_insert_ne, lookup_delete_ne by done. }
  apply (HQ _ L5).
  - eapply (kinv_new_thread k L A t (new_thread set info priority tick)
      (mk_timer (clear8 RT_TIMER_FLAG_ONE_SHOT RT_TIMER_FLAG_ACTIVATED) fn_rt_thread_timeout t 0 0)); try done.
    + intros x Hxc Hxo ? ?. apply Hsame; auto.
    + unfold L5, L4, L2. rewrite lookup_insert_ne, lookup_insert_ne, lookup_delete_ne by done. apply lookup_insert_eq.
    + apply lookup_insert_eq.
  - done.
  - split.
    + unfold L5, L4, L2, L1. rewrite lookup_insert_ne, lookup_insert_ne, lookup_delete_ne, lookup_insert_ne by done. apply lookup_insert_eq.
    + unfold L5, L4. rewrite lookup_insert_ne by done. apply lookup_insert_eq.
  - done.
  - intros x Hx H1 H2 H3 H4. by apply unknown_insert; [apply Hu4|].
  - intros x Hm. by apply Hd5, (node_in _ _ _ Hd4), Hd2, (node_in _ _ _ Hd1).
  - intros x Hx. cbn. by rewrite lookup_insert_ne.
  - intros c H1 H2. apply Hsame; congruence.
  - done.
Qed.

(** What stays available: nodes in no list, and memory. *)
Definition available k L (n : node) : Prop := unknown L n /\ is_Some (lists k !! n).

(** Nodes and containers that belong to other objects than threads. *)
Definition other_node (n : node) : Prop :=
  match n with Suspend _ | Suspend_sender _ => True | Olist (Obj o) => 3 < o | _ => False end.

Definition kept k L k' L' : Prop :=
  (forall n, other_node n -> (unknown L n -> unknown L' n) /\ (is_Some (lists k !! n) -> is_Some (lists k' !! n))) /\
  (forall c, c <> RT_Object_Class_Thread -> c <> RT_Object_Class_Timer -> L' !! Container c = L !! Container c).

Lemma kept_trans k1 L1 k2 L2 k3 L3 : kept k1 L1 k2 L2 -> kept k2 L2 k3 L3 -> kept k1 L1 k3 L3.
Proof.
  intros [H1 H2] [H3 H4]. split.
  - intros n Hn. destruct (H1 n Hn), (H3 n Hn). tauto.
  - intros c Hc Hc'. by rewrite H4, H2.
Qed.

Lemma wp_thread_init_next k L A t name set info priority tick cs cs' Q : kinv_at k L A -> fresh_thread k L t ->
  containers k L cs cs' -> priority_ok priority -> t <= 3 ->
  (forall k' L', kinv_at k' L' A -> sch k' = sch (with_thread k t (new_thread set info priority tick)) ->
     containers k' L' (Olist (Obj t) :: cs) (Olist (Thread_timer t) :: cs') ->
     (forall t', t' <> t -> fresh_thread k L t' -> fresh_thread k' L' t') -> kept k L k' L' -> ipc k' = ipc k -> Q RT_EOK k') ->
  wp (rt_thread_init t name set info priority tick) k Q.
Proof.
  intros HI Hf Hc Hp Ht HQ. eapply wp_thread_init; [done..|]. intros k' L' HI' Hsch Hc' _ Hun Hmem Htm Hcont Hipc.
  assert (kept k L k' L') as Hkept.
  { split; [|done]. intros n Hn.
    assert (n <> Tlist t /\ n <> Row (Thread_timer t) /\ n <> Olist (Obj t) /\ n <> Olist (Thread_timer t)) as (? & ? & ? & ?).
    { split_and!; intros ->; try done. cbn in Hn. lia. }
    split; [intros Hu; by apply Hun|apply Hmem]. }
  apply (HQ k' L'); try done.
  intros t' Hne [H1 H2 H3 H4 [H5 H6] [H7 H8]]. split.
  - rewrite Hsch. cbn. by rewrite lookup_insert_ne.
  - rewrite Htm by congruence. done.
  - apply Hun; [done|congruence..].
  - apply Hun; [done|congruence..].
  - split; [by apply Hun; [done|congruence..]|by apply Hmem].
  - split; [by apply Hun; [done|congruence..]|by apply Hmem].
Qed.

(** ** The start of a thread *)

Lemma init_nowhere k L A t m : kinv_at k L A -> threads (sch k) !! t = Some m -> is_stat RT_THREAD_INIT m = true ->
  (forall p, t ∉ a_ready A p) /\ (forall h ws, a_waits A !! h = Some ws -> t ∉ ws) /\ Thread_timer t ∉ (a_timers A).*1.
Proof.
  intros HI Hm Hi.
  assert (forall s, s <> RT_THREAD_INIT -> is_stat s m = false) as Hns.
  { intros s Hs. destruct (is_stat s m) eqn:E; [|done]. destruct Hs. by eapply stat_unique. }
  split_and!.
  - intros p. eapply ki_not_ready; [done|done|by apply Hns].
  - intros h ws Hh Hin. destruct (ki_waiting _ _ _ HI _ _ _ Hh Hin) as (m' & Hm' & Hs). rewrite Hm in Hm'. injection Hm' as <-.
    by rewrite Hns in Hs.
  - eapply ready_not_running; [done|done|by apply Hns].
Qed.

(** A thread in no ready list stays in none when its state changes. *)
Lemma kinv_stat k L A t m m' : kinv_at k L A -> threads (sch k) !! t = Some m -> is_stat RT_THREAD_INIT m = true ->
  is_stat RT_THREAD_READY m' = false -> priority_ok (current_priority m') ->
  (is_stat RT_THREAD_INIT m' = false -> number_mask m' = 2 ^ current_priority m') -> kinv_at (with_thread k t m') L A.
Proof.
  intros HI Hm Hi Hr Hp Hmask. destruct (init_nowhere _ _ _ _ _ HI Hm Hi) as (Hnr & Hnw & Hnt).
  destruct (ki_thread_timer _ _ _ HI t m Hm) as (tm & Htm & Htmok).
  assert (is_stat RT_THREAD_READY m = false) as Hr0.
  { unfold is_stat in *. apply Z.eqb_eq in Hi. by rewrite Hi. }
  apply (kinv_moved k L A _ _ _ t m m' HI Hm). split; try done.
  - apply (timers_view_rest k _ L); [apply HI|done|apply HI|done|done].
  - destruct (ki_ready _ _ _ HI). by split.
  - intros q. split; [by intros ?%Hnr|intros [_ ?]; congruence].
  - apply (ki_waits _ _ _ HI).
  - intros h ws Hh Hin. by destruct (Hnw _ _ Hh).
  - intros _. by apply (ki_free _ _ _ HI t m).
  - by exists tm.
  - intros d Hin. destruct Hnt. by apply (list_elem_of_fmap_2 fst _ _ Hin).
Qed.

Lemma wp_startup k L A t m Q : kinv_at k L A -> threads (sch k) !! t = Some m -> is_stat RT_THREAD_INIT m = true ->
  priority_ok (init_priority m) ->
  (forall k' L', kinv_at k' L' (make_ready t (init_priority m) A) ->
     threads (sch k') = <[t := ready_stat (set_stat (set_priority m (init_priority m)) RT_THREAD_SUSPEND)]> (threads (sch k)) ->
     ipc k' = ipc k -> objects k' = objects k -> rt_scheduler_lock_nest (sch k') = rt_scheduler_lock_nest (sch k) ->
     (if decide (rt_current_thread (sch k) = None) then rt_current_thread (sch k') = None
      else runs_highest (make_ready t (init_priority m) A) k k') -> Q RT_EOK k') ->
  wp (rt_thread_startup t) k Q.
Proof.
  intros HI Hm Hi Hp HQ. unfold rt_thread_startup. wp_bind. eapply wp_get_thread; [exact Hm|]. wp_bind.
  apply wp_assert; [exact Hi|]. wp_bind. apply wp_put_thread. set (m1 := set_priority m _). set (k1 := with_thread k t m1).
  wp_bind. eapply wp_get_thread; [apply lookup_insert_eq|]. wp_bind. apply wp_put_thread.
  set (m2 := set_stat m1 _).
  assert (with_thread k1 t m2 = with_thread k t m2) as -> by (unfold k1, with_thread; cbn; by rewrite insert_insert_eq).
  set (k2 := with_thread k t m2).
  assert (kinv_at k2 L A) as HI2 by (apply (kinv_stat k L A t m m2 HI Hm Hi); [done|exact Hp|intros _; by apply mask_pow]).
  wp_bind. eapply (wp_resume k2 L A t m2); [exact HI2|apply lookup_insert_eq|done|].
  intros k3 L3 HI3 Hth3 [Hipc3 Hobj3 Hcur3 Hnest3 _]. change (current_priority m2) with (init_priority m) in HI3.
  unfold rt_thread_self. wp_bind. apply wp_get, wp_ret. wp_bind.
  assert (threads (sch k3) = <[t := ready_stat m2]> (threads (sch k))) as Hth by (rewrite Hth3; cbn; by rewrite insert_insert_eq).
  rewrite Hcur3. change (rt_current_thread (sch k2)) with (rt_current_thread (sch k)).
  destruct (rt_current_thread (sch k)) as [c|] eqn:Hc.
  - eapply (wp_kschedule k3 L3 _ (init_priority m) t); [exact HI3| |].
    + cbn. rewrite upd_eq, elem_of_app, list_elem_of_singleton. tauto.
    + intros k4 HI4 Hth4 _ _ Hipc4 Hobj4 Hn4 Hruns. wp_ret. apply (HQ k4 L3); [exact HI4|by rewrite Hth4|by rewrite Hipc4|by rewrite Hobj4|by rewrite Hn4|].
      rewrite decide_False by congruence. unfold runs_highest in *. rewrite Hnest3, Hcur3 in Hruns. exact Hruns.
  - wp_ret. apply (HQ k3 L3); try done. rewrite decide_True by congruence. rewrite Hcur3. exact Hc.
Qed.

Lemma wp_scheduler_start k L A p t Q : kinv_at k L A -> t ∈ a_ready A p ->
  (forall k' q t' ts, kinv_at k' L A -> priority_ok q -> a_ready A q = t' :: ts -> (forall r, r < q -> a_ready A r = []) ->
     threads (sch k') = threads (sch k) -> lists k' = lists k -> clk k' = clk k -> ipc k' = ipc k -> objects k' = objects k ->
     rt_scheduler_lock_nest (sch k') = rt_scheduler_lock_nest (sch k) ->
     rt_current_thread (sch k') = Some t' -> Q tt k') ->
  wp rt_system_scheduler_start k Q.
Proof.
  intros HI Hin HQ. unfold rt_system_scheduler_start. wp_bind.
  eapply wp_highest_ready; [apply HI|by eapply group_nonzero|]. intros q t' ts Hq Hrd Hlow.
  unfold put_current, set_sched. wp_bind. apply wp_get. wp_bind. apply wp_get, wp_put.
  eapply (HQ _ q t' ts); try done. by eapply kinv_same.
Qed.
End ops.

(** ** A small system *)

(** The static memory: the containers of the objects, and the objects of three
    threads and of three IPC objects with arbitrary contents. *)
Definition base_nodes : list node :=
  (Container <$> rt_object_container) ++
  [Olist (Obj 1); Olist (Thread_timer 1); Olist (Obj 2); Olist (Thread_timer 2); Olist (Obj 3); Olist (Thread_timer 3);
   Olist (Obj 4); Olist (Obj 5); Olist (Obj 6)].

Definition base_kernel : kernel :=
  mk_kernel (foldr (fun n lk => rt_list_init lk n) ∅ base_nodes) ∅ (mk_clock 0 0 ∅)
    (mk_scheduler ∅ None 31 0 0 0) (mk_ipc ∅ ∅ ∅ ∅ ∅ ∅).

Definition base_lists : gmap node (list node) := foldr (fun c L => <[Container c := []]> L) ∅ rt_object_container.

Lemma base_lists_inv h xs : base_lists !! h = Some xs -> (exists c, h = Container c /\ c ∈ rt_object_container) /\ xs = [].
Proof.
  unfold base_lists. induction rt_object_container as [|c cs IH]; cbn; [by rewrite lookup_empty|].
  intros [[<- <-]|[_ Hh]]%lookup_insert_Some.
  - split; [|done]. exists c. split; [done|left].
  - destruct (IH Hh) as [(c' & -> & Hc') ->]. split; [|done]. exists c'. split; [done|by right].
Qed.

Lemma base_linked : linked (lists base_kernel) base_lists.
Proof.
  split.
  - intros h xs [(c & -> & Hc) ->]%base_lists_inv.
    repeat (apply elem_of_cons in Hc as [->|Hc]; [vm_compute; split; reflexivity|]). by apply elem_of_nil in Hc.
  - intros h xs [_ ->]%base_lists_inv. by repeat constructor; intros ?%elem_of_nil.
  - intros h1 xs1 h2 xs2 y [_ ->]%base_lists_inv [_ ->]%base_lists_inv ->%list_elem_of_singleton ->%list_elem_of_singleton. done.
Qed.

Lemma base_unknown n : (forall c, n <> Container c) -> unknown base_lists n.
Proof. intros Hn h xs [(c & -> & _) ->]%base_lists_inv ->%list_elem_of_singleton. by eapply Hn. Qed.

(** Three threads: two of priority 10 and the idle thread; [extra] creates the
    IPC objects. *)
Definition demo_threads : K Z :=
  rt_thread_init 1 [109] 0 0 10 20 ;;
  rt_thread_init 2 [110] 0 0 10 20 ;;
  rt_thread_init 3 [105] 0 0 31 32.

Definition boot_with (extra : K unit) : K unit :=
  (rt_system_timer_init ;; rt_system_scheduler_init) ;;
  demo_threads ;;
  extra ;;
  rt_thread_startup 1 ;; rt_thread_startup 2 ;; rt_thread_startup 3 ;;
  rt_system_scheduler_start.

Definition demo_thread (p tick : Z) : rt_thread := mk_thread RT_EOK RT_THREAD_READY p p (2 ^ p) 0 0 tick tick false.

(** What [extra] has to do. *)
Definition creates (extra : K unit) (W : gmap node (list Z)) (I : ipc_objects) : Prop := forall k L,
  kinv_at k L (idle_abs 0) -> ipc k = ipc base_kernel ->
  (forall n, other_node n -> unknown L n /\ (is_Some (lists base_kernel !! n) -> is_Some (lists k !! n))) ->
  (forall c, c <> RT_Object_Class_Thread -> c <> RT_Object_Class_Timer -> L !! Container c = base_lists !! Container c) ->
  wp extra k (fun _ k' => exists L', kinv_at k' L' (mk_abs 0 [] (fun _ => []) W) /\ sch k' = sch k /\ ipc k' = I).

Record booted (k : kernel) (A : abs) (W : gmap node (list Z)) (I : ipc_objects) : Prop := {
  bt_time : a_time A = 0;
  bt_timers : a_timers A = [];
  bt_waits : forall h, W !! h = Some [] -> a_waits A !! h = Some [];
  bt_ready_10 : a_ready A 10 = [1; 2];
  bt_ready_31 : a_ready A 31 = [3];
  bt_ready : forall q, q <> 10 -> q <> 31 -> a_ready A q = [];
  bt_current : rt_current_thread (sch k) = Some 1;
  bt_nest : rt_scheduler_lock_nest (sch k) = 0;
  bt_threads : threads (sch k) = <[3 := demo_thread 31 32]> (<[2 := demo_thread 10 20]> (<[1 := demo_thread 10 20]> ∅));
  bt_ipc : ipc k = I;
}.

(** The threads are initialised, and are the current state of the scheduler. *)
Lemma wp_demo_threads k L Q : kinv_at k L (idle_abs 0) -> threads (sch k) = ∅ ->
  rt_current_thread (sch k) = None -> rt_scheduler_lock_nest (sch k) = 0 -> containers k L [] [] ->
  (forall t, t = 1 \/ t = 2 \/ t = 3 -> fresh_thread k L t) ->
  (forall k' L', kinv_at k' L' (idle_abs 0) -> kept k L k' L' -> ipc k' = ipc k ->
     rt_current_thread (sch k') = None -> rt_scheduler_lock_nest (sch k') = 0 ->
     threads (sch k') = <[3 := new_thread 0 0 31 32]> (<[2 := new_thread 0 0 10 20]> (<[1 := new_thread 0 0 10 20]> ∅)) ->
     Q RT_EOK k') ->
  wp demo_threads k Q.
Proof.
  intros HI0 Hth0 Hcur0 Hn0 Hcs0 Hfresh0 HQ.
  assert (forall p, p = 10 \/ p = 31 -> priority_ok p) as Hp by (unfold priority_ok, RT_THREAD_PRIORITY_MAX; lia).
  unfold demo_threads. wp_bind. eapply wp_thread_init_next; [exact HI0|by apply Hfresh0; auto|exact Hcs0|by apply Hp; auto|lia|].
  intros k1 L1 HI1 Hs1 Hcs1 Hf1 Hk1 Hi1.
  wp_bind. eapply wp_thread_init_next; [exact HI1|by apply Hf1, Hfresh0; auto|exact Hcs1|by apply Hp; auto|lia|].
  intros k2 L2 HI2 Hs2 Hcs2 Hf2 Hk2 Hi2.
  eapply wp_thread_init_next; [exact HI2|by apply Hf2, Hf1, Hfresh0; auto|exact Hcs2|by apply Hp; auto|lia|].
  intros k3 L3 HI3 Hs3 _ _ Hk3 Hi3. apply (HQ k3 L3); [done|by eauto using kept_trans|congruence|..].
  - rewrite Hs3. cbn. rewrite Hs2. cbn. by rewrite Hs1.
  - rewrite Hs3. cbn. rewrite Hs2. cbn. by rewrite Hs1.
  - rewrite Hs3. cbn. rewrite Hs2. cbn. rewrite Hs1. cbn. by rewrite Hth0.
Qed.

Lemma make_ready_empty_waits t p A h : a_waits A !! h = Some [] -> a_waits (make_ready t p A) !! h = Some [].
Proof. intros Hh. cbn. by rewrite lookup_fmap, Hh. Qed.

(** They are started. *)
Lemma wp_demo_start k L W Q : kinv_at k L (mk_abs 0 [] (fun _ => []) W) ->
  rt_current_thread (sch k) = None -> rt_scheduler_lock_nest (sch k) = 0 ->
  threads (sch k) = <[3 := new_thread 0 0 31 32]> (<[2 := new_thread 0 0 10 20]> (<[1 := new_thread 0 0 10 20]> ∅)) ->
  (forall k' L' A, kinv_at k' L' A -> booted k' A W (ipc k) -> Q tt k') ->
  wp (rt_thread_startup 1 ;; rt_thread_startup 2 ;; rt_thread_startup 3 ;; rt_system_scheduler_start) k Q.
Proof.
  intros HI3 Hcur3 Hn3 Hth3 HQ.
  assert (forall p, p = 10 \/ p = 31 -> priority_ok p) as Hp by (unfold priority_ok, RT_THREAD_PRIORITY_MAX; lia).
  wp_bind. eapply (wp_startup k L _ 1); [exact HI3|by rewrite Hth3|done|by apply Hp; auto|].
  intros k4 L4 HI4 Hth4 Hi4 _ Hn4 Hcur4. rewrite decide_True in Hcur4 by done. rewrite Hth3 in Hth4.
  wp_bind. eapply (wp_startup k4 L4 _ 2); [exact HI4|by rewrite Hth4|done|by apply Hp; auto|].
  intros k5 L5 HI5 Hth5 Hi5 _ Hn5 Hcur5. rewrite decide_True in Hcur5 by done. rewrite Hth4 in Hth5.
  wp_bind. eapply (wp_startup k5 L5 _ 3); [exact HI5|by rewrite Hth5|done|by apply Hp; auto|].
  intros k6 L6 HI6 Hth6 Hi6 _ Hn6 Hcur6. rewrite decide_True in Hcur6 by done. rewrite Hth5 in Hth6.
  eapply (wp_scheduler_start k6 L6 _ 10 1); [exact HI6|left|].
  intros k7 q t ts HI7 Hq Hrd Hlow Hth7 _ _ Hi7 _ Hn7 Hcur7. set (A := make_ready 3 _ _) in *.
  assert (a_ready A 10 = [1; 2] /\ a_ready A 31 = [3]) as [H10 H31] by (unfold A; cbn; done).
  assert (forall r, r <> 10 -> r <> 31 -> a_ready A r = []) as Hrest.
  { intros r ? ?. unfold A, make_ready. cbn [a_ready]. by rewrite !upd_ne by done. }
  assert (t = 1) as ->.
  { destruct (decide (q = 10)) as [->|]; [congruence|]. destruct (decide (q = 31)) as [->|]; [|by rewrite Hrest in Hrd].
    rewrite Hlow in H10; done. }
  apply (HQ k7 L6 A HI7). split; [done|done| |done|done|exact Hrest|done|congruence| |congruence].
  - intros h Hh. unfold A. by do 3 apply make_ready_empty_waits.
  - rewrite Hth7, Hth6. vm_compute. reflexivity.
Qed.

Lemma boots extra W I : creates extra W I ->
  exists k L A, boot_with extra base_kernel = Some (tt, k) /\ kinv_at k L A /\ booted k A W I.
Proof.
  intros Hextra.
  assert (wp (boot_with extra) base_kernel (fun _ k => exists L A, kinv_at k L A /\ booted k A W I)) as Hwp.
  2: { apply wp_elim in Hwp as ([] & k & Hrun & L & A & HP). exists k, L, A. split; [exact Hrun|exact HP]. }
  unfold boot_with. apply wp_bind.
  eapply (wp_system_init base_kernel base_lists 0); [exact base_linked|by apply base_unknown|by apply base_unknown|
    intros p; by apply base_unknown|done|done|done|].
  intros k0 L0 HI0 Hcur0 Hn0 Hun0 Hd0 Hth0 Htm0 Hi0.
  assert (forall n, (forall c, n <> Container c) -> (forall p, n <> Ready p) -> n <> Timers -> n <> Defunct -> unknown L0 n) as Hu0.
  { intros n Hc Hr HT HD. by apply Hun0, base_unknown. }
  assert (forall t, t = 1 \/ t = 2 \/ t = 3 -> fresh_thread k0 L0 t) as Hfresh0.
  { intros t Ht. assert (is_Some (lists base_kernel !! Olist (Obj t)) /\ is_Some (lists base_kernel !! Olist (Thread_timer t))) as [? ?].
    { destruct Ht as [->|[->| ->]]; vm_compute; by split; eexists. }
    split; [by rewrite Hth0|by rewrite Htm0|by apply Hu0|by apply Hu0| |]; (split; [by apply Hu0|by apply Hd0]). }
  assert (containers k0 L0 [] []) as Hcs0.
  { split; (etransitivity; [by apply Hun0|done]). }
  apply wp_bind. eapply (wp_demo_threads k0 L0); [done..|]. intros k3 L3 HI3 Hkept Hi3 Hcur3 Hn3 Hth3.
  wp_bind. eapply wp_mono.
  - apply (Hextra k3 L3 HI3).
    + by rewrite Hi3, Hi0.
    + intros n Hn. destruct (proj1 Hkept n Hn) as [H1 H2]. split.
      * apply H1, Hu0; intros; by intros ->.
      * intros Hm. by apply H2, Hd0.
    + intros c Hc Hc'. rewrite (proj2 Hkept) by done. by apply Hun0.
  - cbv beta. intros _ k4 (L4 & HI4 & Hs4 & Hi4). eapply (wp_demo_start k4 L4 W); [done|by rewrite Hs4..|].
    intros k5 L5 A HI5 Hb. exists L5, A. split; [done|]. by rewrite <-Hi4.
Qed.

(** Without IPC objects. *)
Definition demo_boot : K unit := boot_with (mret tt).

Lemma demo_boots : exists k L A, demo_boot base_kernel = Some (tt, k) /\ kinv_at k L A /\ booted k A ∅ (mk_ipc ∅ ∅ ∅ ∅ ∅ ∅).
Proof. apply boots. intros k L HI Hi _ _. apply wp_ret. exists L. by split_and!. Qed.
