(* ===== verification/Tick.v ===== *)
(** * The tick (src/clock.c, src/timer.c, src/thread.c together)

    rt_tick_increase: the tick counter, the time slice of the current thread,
    and the timers, whose functions make threads ready or are those of the
    program.  The functions of the program are an argument; what is assumed of
    them is stated as a property of it. *)

From S2P Require Import Prelude Klist Kernel Object Timer Sched Thread Boot.

Open Scope Z_scope.

(** ** The operation *)

(** The timeout functions: that of the threads, and those of the program. *)
Definition call_timeout (user : Z -> Z -> K unit) (f : timeout_fn) (parameter : Z) : K unit :=
  match f with
  | fn_rt_thread_timeout => rt_thread_timeout parameter
  | fn_user f => user f parameter
  end.

Definition rt_tick_increase (user : Z -> Z -> K unit) (fuel : nat) : K (list addr) :=
  tick ← rt_tick_get; rt_tick_set (u32 (tick + 1)) ;;
  self ← rt_thread_self; thread ← of_opt self; m ← get_thread thread;
  put_thread thread (set_remaining_tick m (u32 (remaining_tick m - 1))) ;;
  m ← get_thread thread;
  (if remaining_tick m =? 0 then
     put_thread thread (set_remaining_tick m (init_tick m)) ;; rt_thread_yield ;; mret tt
   else mret tt) ;;
  rt_timer_check (call_timeout user) fuel.

Section ops.
Implicit Types (k : kernel) (L : gmap node (list node)) (A : abs) (t p : Z) (m : rt_thread).

(** ** The timer check *)

Definition set_timers (ts : due_list) (A : abs) : abs := mk_abs (a_time A) ts (a_ready A) (a_waits A).

(** The invariant after a change of the timer list and of one timer of the
    program. *)
Lemma kinv_user_timer k k' L L' A ts tms : kinv_at k L A -> timers_view k' L' (a_time A) ts -> same_rest k k' L L' ->
  timers (clk k') = tms ->
  (tms = timers (clk k) \/ exists a tm f, tms = <[Obj a := tm]> (timers (clk k)) /\ timeout_func tm = fn_user f /\
     (periodic tm = true -> 1 <= timer_init_tick tm < RT_TICK_MAX / 2)) ->
  (forall t d, (Thread_timer t, d) ∈ ts -> (Thread_timer t, d) ∈ a_timers A) -> kinv_at k' L' (set_timers ts A).
Proof.
  intros [Htv Hrv Htw Hw Hwt Hfree Htt Hrun Hper Huser] Htv' Hrest <- Htms Hts.
  assert (forall t, timers (clk k') !! Thread_timer t = timers (clk k) !! Thread_timer t) as Hthr.
  { intros t. destruct Htms as [->|(a & tm & f & -> & _)]; [done|]. by rewrite lookup_insert_ne. }
  assert (forall x tm, timers (clk k') !! x = Some tm -> timers (clk k) !! x = Some tm \/
    (periodic tm = true -> 1 <= timer_init_tick tm < RT_TICK_MAX / 2) /\ exists f, timeout_func tm = fn_user f) as Hcase.
  { intros x tm Hx. destruct Htms as [Heq|(a & tm' & f & Heq & Hf & Hp)]; rewrite Heq in Hx; [by left|].
    apply lookup_insert_Some in Hx as [[<- <-]|[_ Hx]]; [right; eauto|by left]. }
  pose proof (sr_sch _ _ _ _ Hrest) as Hs. pose proof (sr_lists _ _ _ _ Hrest) as HL.
  split; cbn [set_timers a_time a_timers a_ready a_waits]; rewrite ?Hs; try done.
  - by apply (ready_view_rest k k' L); [done|done|apply Htv'].
  - intros h ws Hh. destruct (Hw _ _ Hh) as [Hwh Hl]. split; [done|]. rewrite HL; [done|by destruct h|by destruct h].
  - intros t m Hm Hr. rewrite HL by done. by eapply Hfree.
  - intros t m Hm. rewrite Hthr. by eapply Htt.
  - intros t d Hin. rewrite Hthr. by eapply Hrun, Hts.
  - intros x tm Hx Hp. destruct (Hcase _ _ Hx) as [Hx'|[? _]]; [by eapply Hper|auto].
  - intros a tm Ha. destruct (Hcase _ _ Ha) as [Ha'|[_ ?]]; [by eapply Huser|done].
Qed.

Lemma expired_insert T (x : addr) d ts : T < d -> length (expired T (insert_due x d ts)) = length (expired T ts).
Proof.
  intros Hd. unfold expired. transitivity (length (filter (fun y => y.2 <= T) ((x, d) :: ts))).
  - apply Permutation_length. by rewrite insert_due_perm.
  - by rewrite filter_cons_False by (cbn; lia).
Qed.

Lemma expired_without T (x : addr) ts : (length (expired T (without x ts)) <= length (expired T ts))%nat.
Proof.
  unfold expired, without. induction ts as [|y ts IH]; [done|]. rewrite (filter_cons (fun z => z.1 <> x)).
  case_decide; rewrite !(filter_cons (fun z => z.2 <= T)); case_decide; cbn; lia.
Qed.

(** The current thread is one of the threads. *)
Definition current_ok (k : kernel) : Prop :=
  exists t m, rt_current_thread (sch k) = Some t /\ threads (sch k) !! t = Some m.

Lemma runs_highest_ok k k' L A : kinv_at k' L A -> runs_highest A k k' ->
  (rt_scheduler_lock_nest (sch k) <> 0 -> current_ok k') -> current_ok k'.
Proof.
  intros HI Hruns Hlocked. unfold runs_highest in Hruns. case_decide as Hn; [|by apply Hlocked].
  destruct Hruns as (p & t & ts & Hp & Hrd & _ & Hcur). destruct (tw_listed _ _ (ki_threads _ _ _ HI) p t) as (m & Hm & _).
  - rewrite Hrd. left.
  - by exists t, m.
Qed.

Lemma current_insert k t m : current_ok k -> current_ok (with_thread k t m).
Proof.
  intros (t' & m' & Hc & Hm'). destruct (decide (t' = t)) as [->|Hne].
  - exists t, m. split; [done|]. apply lookup_insert_eq.
  - exists t', m'. split; [done|]. cbn. by rewrite lookup_insert_ne.
Qed.

(** What the functions of the program may do when they are called by a timer:
    whatever keeps the invariant, the tick and the timer objects, and starts no
    timer that is due at once; [P] is what else they keep of the state. *)
Definition user_ok (P : kernel -> abs -> Prop) (user : Z -> Z -> K unit) : Prop := forall f p k L A, kinv_at k L A -> current_ok k -> P k A ->
  wp (user f p) k (fun _ k' => exists L' A', kinv_at k' L' A' /\ current_ok k' /\ P k' A' /\ a_time A' = a_time A /\
    (length (expired (a_time A) (a_timers A')) <= length (expired (a_time A) (a_timers A)))%nat /\
    (forall x, is_Some (timers (clk k) !! x) -> is_Some (timers (clk k') !! x))).

Definition at_time (T : Z) (A : abs) : abs := mk_abs T (a_timers A) (a_ready A) (a_waits A).

Definition same_sleepers (ts ts' : due_list) : Prop :=
  forall t d, (Thread_timer t, d) ∈ ts <-> (Thread_timer t, d) ∈ ts'.

(** The steps of the check of the timers keep [P]: the timers of the program come
    and go, and a thread timer makes its thread ready. *)
Record check_closed (P : kernel -> abs -> Prop) : Prop := {
  cc_timers : forall k k' A ts, P k A -> sch k' = sch k -> ipc k' = ipc k -> same_sleepers (a_timers A) ts -> P k' (set_timers ts A);
  cc_fire : forall k k' A t m d ts, P k A -> a_timers A = (Thread_timer t, d) :: ts -> d <= a_time A ->
    threads (sch k) !! t = Some m -> threads (sch k') = <[t := ready_stat (set_error m (- RT_ETIMEOUT))]> (threads (sch k)) ->
    ipc k' = ipc k -> rt_scheduler_lock_nest (sch k') = rt_scheduler_lock_nest (sch k) ->
    runs_highest (make_ready t (current_priority m) (set_timers ts A)) k k' ->
    P k' (set_timers ts (make_ready t (current_priority m) (set_timers ts A)));
}.

(** The steps of a tick keep [P]. *)
Record tick_closed (P : kernel -> abs -> Prop) : Prop := {
  tc_check : check_closed P;
  tc_rotate : forall k k' A t p, P k A -> threads (sch k') = threads (sch k) -> ipc k' = ipc k ->
    rt_scheduler_lock_nest (sch k') = rt_scheduler_lock_nest (sch k) -> runs_highest (rotate t p A) k k' -> P k' (rotate t p A);
  tc_time : forall k k' A, P k A -> sch k' = sch k -> ipc k' = ipc k -> P k' (at_time (a_time A + 1) A);
  tc_slice : forall k A t m n, P k A -> threads (sch k) !! t = Some m -> P (with_thread k t (set_remaining_tick m n)) A;
}.

Section kernel_check.
Context (P : kernel -> abs -> Prop) (user : Z -> Z -> K unit) (Huser : user_ok P user) (T : Z) (HP : check_closed P).

Definition check_kinv (fired : list addr) k L (ts : due_list) : Prop :=
  exists A, kinv_at k L A /\ current_ok k /\ P k A /\ a_time A = T /\ a_timers A = ts.

(** A thread timer makes its thread ready. *)
Lemma wp_expire_thread k L A t d ts : kinv_at k L A -> current_ok k -> P k A -> a_time A = T ->
  a_timers A = (Thread_timer t, d) :: ts -> d <= T ->
  wp (timer_expire (call_timeout user) (Thread_timer t)) k (fun _ k' => exists L', check_kinv [] k' L' ts).
Proof using HP.
  intros HI Hcur HPA HT Hts Hd. destruct (ki_running _ _ _ HI t d) as ((m & Hm & Hs) & tm & Htm & _); [rewrite Hts; left|].
  destruct (ki_thread_timer _ _ _ HI t m Hm) as (tm' & Htm' & Hok). rewrite Htm in Htm'. injection Htm' as <-.
  pose proof Hok as (Hfn & Hpar & Hper).
  pose proof (tv_nodup _ _ _ _ (ki_timers _ _ _ HI)) as Hnd. rewrite Hts in Hnd. apply NoDup_cons in Hnd as [Hnot _].
  assert (without (Thread_timer t) (a_timers A) = ts) as Hw by (rewrite Hts; apply (without_app _ [] d ts); [apply not_elem_of_nil|done]).
  unfold timer_expire. apply wp_bind. eapply wp_timer_remove; [apply HI|exact Htm|].
  intros lk1 L1 Htv1 Hfree1 Hrest1. rewrite Hw in Htv1. apply wp_bind. eapply wp_get_timer; [exact Htm|].
  assert (kinv_at (with_lists k lk1) L1 (set_timers ts A)) as HI1.
  { eapply (kinv_user_timer k _ L); [done|exact Htv1|done|done|by left|]. intros t' d' Hin. rewrite Hts. by right. }
  rewrite Hfn, Hpar. cbn [call_timeout]. apply wp_bind.
  eapply (wp_thread_timeout _ L1 _ t m); [exact HI1|exact Hm|exact Hs|exact Hnot|].
  intros k2 L2 HI2 Hth2 Hclk2 Hi2 Hn2 Hruns. apply wp_bind. eapply wp_get_timer; [by rewrite Hclk2|].
  unfold periodic in Hper. rewrite Hper. cbn [andb]. apply wp_put_timer. fold (deactivate tm).
  assert (current_ok k2) as Hcur2.
  { apply (runs_highest_ok (with_lists k lk1) k2 L2 _ HI2 Hruns). intros Hn. unfold runs_highest in Hruns.
    rewrite decide_False in Hruns by exact Hn.
    destruct (current_insert (with_lists k lk1) t (ready_stat (set_error m (- RT_ETIMEOUT))) Hcur) as (t2 & m2 & ? & Hm2).
    exists t2, m2. rewrite Hruns, Hth2. done. }
  exists L2, (set_timers ts (make_ready t (current_priority m) (set_timers ts A))). split; [|split; [done|split; [|done]]].
  2: { eapply (cc_timers P HP k2) with (A := set_timers ts (make_ready t (current_priority m) (set_timers ts A))) (ts := ts); [|done..].
       eapply (cc_fire P HP k k2 A t m d ts); try done. by rewrite HT. }
  assert (threads (sch k2) !! t = Some (ready_stat (set_error m (- RT_ETIMEOUT)))) as Hm2 by (rewrite Hth2; apply lookup_insert_eq).
  pose proof (ki_timers _ _ _ HI2) as Htv2. cbn [a_time a_timers make_ready set_timers] in Htv2. rewrite (without_notin _ ts) in Htv2 by done.
  eapply (kinv_timers k2 _ L2 L2 _ t _ ts HI2 Hm2).
  - apply (tv_upd _ _ _ _ _ _ tm); [done|by rewrite Hclk2|by left].
  - apply same_rest_upd.
  - exists (deactivate tm). split_and!; [by apply deactivate_ok|done|]. intros d' Hin. destruct Hnot.
    by apply (list_elem_of_fmap_2 fst _ _ Hin).
  - intros t' d' _ Hin. cbn [a_timers make_ready set_timers]. by rewrite (without_notin _ ts).
Qed.

(** A timer of the program calls its function. *)
Lemma wp_expire_user k L A a d ts : kinv_at k L A -> current_ok k -> P k A -> a_time A = T -> a_timers A = (Obj a, d) :: ts ->
  wp (timer_expire (call_timeout user) (Obj a)) k (fun _ k' => exists L' ts', check_kinv [] k' L' ts' /\
    (length (expired T ts') <= length (expired T ts))%nat).
Proof using Huser HP.
  intros HI Hcur HPA HT Hts. destruct (tv_due _ _ _ _ (ki_timers _ _ _ HI) (Obj a) d) as (_ & tm & Htm & _); [rewrite Hts; left|].
  destruct (ki_user _ _ _ HI a tm Htm) as [f Hf].
  pose proof (tv_nodup _ _ _ _ (ki_timers _ _ _ HI)) as Hnd. rewrite Hts in Hnd. apply NoDup_cons in Hnd as [Hnot _].
  assert (without (Obj a) (a_timers A) = ts) as Hw by (rewrite Hts; apply (without_app _ [] d ts); [apply not_elem_of_nil|done]).
  unfold timer_expire. apply wp_bind. eapply wp_timer_remove; [apply HI|exact Htm|].
  intros lk1 L1 Htv1 Hfree1 Hrest1. rewrite Hw in Htv1. apply wp_bind. eapply wp_get_timer; [exact Htm|].
  assert (kinv_at (with_lists k lk1) L1 (set_timers ts A)) as HI1.
  { eapply (kinv_user_timer k _ L); [done|exact Htv1|done|done|by left|]. intros t' d' Hin. rewrite Hts. by right. }
  assert (P (with_lists k lk1) (set_timers ts A)) as HP1.
  { eapply (cc_timers P HP k); [done..|]. intros t' d'. rewrite Hts, elem_of_cons. split; [by intros [|]|by right]. }
  rewrite Hf. cbn [call_timeout]. apply wp_bind. eapply wp_mono; [exact (Huser f _ _ _ _ HI1 Hcur HP1)|]. cbn [set_timers a_time a_timers].
  rewrite HT. intros _ k2 (L2 & A2 & HI2 & Hcur2 & HP2 & HT2 & Hexp & Hkeep). destruct (Hkeep (Obj a)) as [tm2 Htm2]; [by exists tm|].
  destruct (ki_user _ _ _ HI2 a tm2 Htm2) as [f2 Hf2]. apply wp_bind. eapply wp_get_timer; [exact Htm2|].
  pose proof (ki_timers _ _ _ HI2) as Htv2. rewrite HT2 in Htv2. fold (deactivate tm2).
  assert (timers_view (upd_timer k2 (Obj a) (deactivate tm2)) L2 T (a_timers A2)) as Htv3 by (apply (tv_upd _ _ _ _ _ _ tm2); auto).
  assert (periodic (deactivate tm2) = periodic tm2) as Hpd.
  { unfold periodic, deactivate, clear8. cbn. by rewrite <-Z.land_assoc. }
  destruct (negb _ && negb _) eqn:Hpa.
  - apply andb_prop in Hpa as [Hper _]. pose proof (ki_periods _ _ _ HI2 _ _ Htm2 Hper) as Hrange.
    apply wp_bind, wp_put_timer. apply wp_bind.
    eapply (wp_timer_start _ L2 T (a_timers A2) _ (deactivate tm2)); [done|apply lookup_insert_eq|cbn; lia|].
    intros k4 L4 Htv4 Htm4 Hrest4. apply wp_ret. cbn [timer_init_tick deactivate set_flag] in Htv4.
    set (ts4 := insert_due _ _ _) in Htv4. exists L4, ts4.
    assert (same_sleepers (a_timers A2) ts4) as Hsame.
    { intros t' d'. unfold ts4. rewrite insert_due_mem. unfold without. rewrite list_elem_of_filter. cbn.
      split; [intros ?; right; by split|intros [?|[_ ?]]; done]. }
    split.
    + exists (set_timers ts4 A2). split_and!; [|by unfold current_ok; rewrite (sr_sch _ _ _ _ Hrest4)|by eapply (cc_timers P HP k2); [done|apply (sr_sch _ _ _ _ Hrest4)|apply (sr_ipc _ _ _ _ Hrest4)|]|done|done].
      eapply (kinv_user_timer k2 k4 L2); [done|by rewrite HT2| | |right; exists a, (started (deactivate tm2) (rt_tick (clk k2))), f2|].
      * apply (same_rest_trans _ (upd_timer k2 (Obj a) (deactivate tm2)) _ _ L2); [apply same_rest_upd|done].
      * exact Htm4.
      * split_and!; [cbn; by rewrite insert_insert_eq|done|]. rewrite started_periodic, Hpd. intros _. exact Hrange.
      * intros t' d' Hin. by apply Hsame.
    + unfold ts4. rewrite expired_insert by lia. etransitivity; [apply expired_without|exact Hexp].
  - apply wp_put_timer. exists L2, (a_timers A2). split; [|exact Hexp]. exists (set_timers (a_timers A2) A2).
    split_and!; [|done|by eapply (cc_timers P HP k2)|done|done].
    eapply (kinv_user_timer k2 _ L2); [done|by rewrite HT2|apply same_rest_upd|done|right; exists a, (deactivate tm2), f2|done].
    split_and!; [done|done|]. rewrite Hpd. exact (ki_periods _ _ _ HI2 _ _ Htm2).
Qed.

Lemma wp_kernel_check k L A fuel Q : kinv_at k L A -> current_ok k -> P k A -> a_time A = T ->
  (length (a_timers A) < fuel)%nat ->
  (forall fired k' L' A', kinv_at k' L' A' -> current_ok k' -> P k' A' -> a_time A' = T ->
     Forall (fun x => T < x.2) (a_timers A') -> Q fired k') ->
  wp (rt_timer_check (call_timeout user) fuel) k Q.
Proof using Huser HP.
  intros HI Hcur HPA HT Hf HQ. unfold rt_timer_check, rt_tick_get. apply wp_bind, wp_bind, wp_get, wp_ret.
  rewrite (tv_tick _ _ _ _ (ki_timers _ _ _ HI)), HT.
  eapply (check_loop_rule _ T check_kinv) with (fired := []).
  - intros fired k0 L0 ts (A0 & HI0 & _ & _ & <- & <-). apply HI0.
  - intros fired k0 L0 x d ts (A0 & HI0 & Hcur0 & HP0 & HT0 & Hts0) Hd. destruct x as [a|t].
    + by eapply wp_expire_user.
    + eapply wp_mono; [by eapply wp_expire_thread|]. cbv beta. intros _ k' [L' Hk']. by exists L', ts.
  - by exists A.
  - unfold expired. pose proof (length_filter (fun x : addr * Z => x.2 <= T) (a_timers A)). lia.
  - intros fired k' L' ts' (A' & HI' & Hcur' & HP' & HT' & <-) Hall. by eapply HQ.
Qed.
End kernel_check.

(** ** One tick *)

Lemma kinv_tick k L A T : kinv_at k L A ->
  (forall x d, (x, d) ∈ a_timers A -> T <= d <= T + 2 ^ 31 - 2) ->
  kinv_at (with_clk k (mk_clock (u32 T) (random_nr (clk k)) (timers (clk k)))) L (at_time T A).
Proof.
  intros [Htv [? ? ? ? ?] [? ? ?] Hw Hwt Hfree Htt Hrun Hper Huser] HT. split; try done.
  by apply (tv_tick_set _ _ (a_time A)).
Qed.

(** The loop of the check needs no more fuel than there are timers. *)
Lemma timers_size k L T ts : timers_view k L T ts -> (length ts <= size (timers (clk k)))%nat.
Proof.
  intros Htv. pose proof (tv_nodup _ _ _ _ Htv) as Hnd. rewrite <-size_dom.
  rewrite <-(length_fmap fst ts), <-(size_list_to_set (C := gset addr)) by done. apply subseteq_size.
  intros x. rewrite elem_of_list_to_set, elem_of_dom. intros ([x' d] & -> & Hin)%list_elem_of_fmap.
  destruct (tv_due _ _ _ _ Htv _ _ Hin) as (_ & m & Hm & _). by exists m.
Qed.

(** No timer in the list is due. *)
Definition none_due (A : abs) : Prop := Forall (fun x => a_time A < x.2) (a_timers A).

Section tick.
Context (P : kernel -> abs -> Prop) (user : Z -> Z -> K unit) (Huser : user_ok P user) (HP : tick_closed P).

Lemma wp_tick_increase k L A fuel Q : kinv_at k L A -> current_ok k -> none_due A -> P k A ->
  (length (a_timers A) < fuel)%nat ->
  (forall fired k' L' A', kinv_at k' L' A' -> current_ok k' -> none_due A' -> P k' A' -> a_time A' = a_time A + 1 ->
     Q fired k') ->
  wp (rt_tick_increase user fuel) k Q.
Proof using Huser HP.
  intros HI (t & m & Hcur & Hm) Hnone HPA Hf HQ. set (T := a_time A + 1).
  unfold rt_tick_increase, rt_tick_get, rt_tick_set, rt_thread_self. wp_bind. apply wp_get, wp_ret. wp_bind. apply wp_get, wp_put.
  pose proof (ki_timers _ _ _ HI) as Htv. rewrite (tv_tick _ _ _ _ Htv).
  assert (u32 (u32 (a_time A) + 1) = u32 T) as -> by (unfold u32; by rewrite Zplus_mod_idemp_l).
  set (k1 := with_clk k _).
  assert (kinv_at k1 L (at_time T A)) as HI1.
  { apply kinv_tick; [done|]. intros x d Hin. destruct (tv_due _ _ _ _ Htv _ _ Hin) as [Hd _].
    pose proof (proj1 (Forall_forall _ _) Hnone _ Hin) as Hlt. cbn in Hlt. unfold T. lia. }
  wp_bind. apply wp_get, wp_ret. wp_bind. eapply wp_of_opt; [exact Hcur|]. apply wp_bind. eapply wp_get_thread; [exact Hm|].
  apply wp_bind, wp_put_thread. set (m1 := set_remaining_tick m _). set (k2 := with_thread k1 t m1).
  assert (kinv_at k2 L (at_time T A)) as HI2 by by eapply kinv_fields.
  apply wp_bind. eapply wp_get_thread; [apply lookup_insert_eq|].
  assert (forall k3 L3 A3, kinv_at k3 L3 A3 -> current_ok k3 -> P k3 A3 -> a_time A3 = T -> a_timers A3 = a_timers A ->
    wp (rt_timer_check (call_timeout user) fuel) k3 Q) as Hrest.
  { intros k3 L3 A3 HI3 Hcur3 HP3 HT3 Hts3. eapply (wp_kernel_check P user Huser T (tc_check P HP)); [done..|by rewrite Hts3|].
    intros fired k' L' A' HI' Hcur' HP' HT' Hall. eapply HQ; [done|done| |done|done]. unfold none_due. by rewrite HT'. }
  assert (P k1 (at_time T A)) as HP1 by by apply (tc_time P HP k).
  assert (P k2 (at_time T A)) as HP2 by by apply (tc_slice P HP).
  apply wp_bind. destruct (_ =? 0); [|apply wp_ret; eapply Hrest; [exact HI2| |exact HP2|done..]; by apply current_insert; exists t, m].
  apply wp_bind, wp_put_thread. set (m3 := set_remaining_tick m1 _). set (k3 := with_thread k2 t m3).
  assert (kinv_at k3 L (at_time T A)) as HI3 by (eapply kinv_fields; [exact HI2|apply lookup_insert_eq|done..]).
  assert (P k3 (at_time T A)) as HP3 by (apply (tc_slice P HP); [done|apply lookup_insert_eq]).
  assert (current_ok k3) as Hcur3 by (apply current_insert, current_insert; by exists t, m).
  apply wp_bind. eapply (wp_yield k3 L (at_time T A) t m3); [exact HI3|exact Hcur|apply lookup_insert_eq| |].
  - intros _. wp_ret. by eapply Hrest.
  - intros Hr _ k4 L4 HI4 Hth4 _ Hi4 Hn4 Hruns. apply wp_ret. eapply Hrest; [exact HI4| |by apply (tc_rotate P HP k3)|done..].
    apply (runs_highest_ok k3 _ _ _ HI4 Hruns). intros Hn. unfold runs_highest in Hruns. rewrite decide_False in Hruns by done.
    unfold current_ok. by rewrite Hruns, Hth4.
Qed.
End tick.

(** Ticks, with the fuel that each of them needs. *)
Fixpoint ticks (user : Z -> Z -> K unit) (n : nat) : K unit :=
  match n with
  | O => mret tt
  | S n => k ← get; rt_tick_increase user (S (size (timers (clk k)))) ;; ticks user n
  end.

Lemma wp_ticks P user n k L A Q : user_ok P user ->
  tick_closed P ->
  kinv_at k L A -> current_ok k -> none_due A -> P k A ->
  (forall k' L' A', kinv_at k' L' A' -> current_ok k' -> none_due A' -> P k' A' -> a_time A' = a_time A + Z.of_nat n -> Q tt k') ->
  wp (ticks user n) k Q.
Proof.
  intros Hu HP. revert k L A. induction n as [|n IH]; intros k L A HI Hcur Hnone HPA HQ; cbn [ticks].
  - apply wp_ret. eapply HQ; [done..|lia].
  - wp_bind. apply wp_get. wp_bind. pose proof (timers_size _ _ _ _ (ki_timers _ _ _ HI)) as Hsize.
    eapply (wp_tick_increase P user Hu HP k L A); [done..|lia|].
    intros fired k1 L1 A1 HI1 Hcur1 Hnone1 HP1 HT1. eapply IH; [done..|].
    intros k' L' A' ? ? ? ? ?. eapply HQ; [done..|]. lia.
Qed.

(** Thread [t] sleeps until [d], or has been woken at [d]. *)
Definition asleep (t d : Z) (A : abs) : Prop :=
  (Thread_timer t, d) ∈ a_timers A \/ d <= a_time A /\ exists p, t ∈ a_ready A p.

Lemma asleep_timers t d A ts : asleep t d A -> same_sleepers (a_timers A) ts -> asleep t d (set_timers ts A).
Proof. intros [Hin|?] Hs; [left; by apply Hs|by right]. Qed.

Lemma asleep_ready t d A t' p : asleep t d A -> asleep t d (make_ready t' p A) \/ t' = t.
Proof.
  intros [Hin|(Hd & q & Hin)]; [destruct (decide (t' = t)) as [->|Hne]; [by right|left; left]|left; right; split; [done|exists q]].
  - cbn. unfold without. apply list_elem_of_filter. split; [cbn; congruence|done].
  - cbn. unfold upd. case_decide as Hq; [subst q|done]. rewrite elem_of_app. by left.
Qed.

Lemma asleep_fire t d A t' p d' ts : asleep t d A -> a_timers A = (Thread_timer t', d') :: ts -> d' <= a_time A ->
  asleep t d (set_timers ts (make_ready t' p (set_timers ts A))).
Proof.
  intros [Hin|(Hd & q & Hin)] Hts Hd'.
  - rewrite Hts in Hin. apply elem_of_cons in Hin as [[= <- <-]|Hin]; [|by left].
    right. split; [done|]. exists p. cbn. rewrite upd_eq, elem_of_app, list_elem_of_singleton. tauto.
  - right. split; [done|]. exists q. cbn. unfold upd. case_decide as Hq; [subst q|done]. rewrite elem_of_app. by left.
Qed.

Lemma asleep_rotate t d A t' p : asleep t d A -> asleep t d (rotate t' p A).
Proof.
  intros [?|(Hd & q & Hin)]; [by left|right]. split; [done|]. exists q. cbn. unfold upd. case_decide as Hq; [subst q|done].
  rewrite elem_of_app, elem_of_drop, list_elem_of_singleton. destruct (decide (t = t')); tauto.
Qed.

Lemma asleep_time t d A : asleep t d A -> asleep t d (at_time (a_time A + 1) A).
Proof. intros [?|(? & ?)]; [by left|right]. split; [cbn; lia|done]. Qed.

Lemma asleep_closed t d : tick_closed (fun _ => asleep t d).
Proof.
  split; [split|..]; intros; [by apply asleep_timers|by eapply asleep_fire|by apply asleep_rotate|by apply asleep_time|done].
Qed.

(** The state of a thread between its sleep and the tick that wakes it. *)
Lemma asleep_stat k L A t d : kinv_at k L A -> none_due A -> asleep t d A -> a_time A <= d ->
  exists m, threads (sch k) !! t = Some m /\ is_stat (if a_time A <? d then RT_THREAD_SUSPEND else RT_THREAD_READY) m = true.
Proof.
  intros HI Hnone Has Hd. destruct (Z.ltb_spec (a_time A) d) as [Hlt|Hge].
  - destruct Has as [Hin|[? _]]; [|lia]. by destruct (ki_running _ _ _ HI _ _ Hin) as [? _].
  - destruct Has as [Hin|(_ & p & Hin)].
    + pose proof (proj1 (Forall_forall _ _) Hnone _ Hin) as Hlt. cbn in Hlt. lia.
    + destruct (tw_listed _ _ (ki_threads _ _ _ HI) _ _ Hin) as (m & ? & _ & ?). by exists m.
Qed.

(** *** Round robin *)

Fixpoint yields (n : nat) : K unit := match n with O => mret tt | S n => rt_thread_yield ;; yields n end.

Lemma wp_yields k L A p pre post t n Q : kinv_at k L A -> rt_current_thread (sch k) = Some t ->
  rt_scheduler_lock_nest (sch k) = 0 -> a_ready A p = t :: post ++ pre -> (forall q, q < p -> a_ready A q = []) ->
  (n <= length post)%nat ->
  (forall k' L' A', kinv_at k' L' A' -> a_ready A' p = drop n (t :: post) ++ pre ++ take n (t :: post) ->
     rt_current_thread (sch k') = head (drop n (t :: post)) -> threads (sch k') = threads (sch k) -> Q tt k') ->
  wp (yields n) k Q.
Proof.
  revert k L A pre post t Q. induction n as [|n IH]; intros k L A pre post t Q HI Hcur Hnest Hrd Hlow Hn HQ; cbn [yields].
  - apply wp_ret. apply (HQ k L A HI); [by rewrite Hrd, take_0, app_nil_r|done|done].
  - destruct post as [|u post]; [cbn in Hn; lia|].
    destruct (tw_listed _ _ (ki_threads _ _ _ HI) p t) as (m & Hm & Hp & Hr); [rewrite Hrd; left|].
    wp_bind. eapply (wp_yield k L A t m); [done|done|done| |].
    + intros Hone. specialize (Hone Hr). rewrite Hp, Hrd in Hone. done.
    + intros _ _ k1 L1 HI1 Hth1 _ _ Hn1 Hruns. rewrite Hp in HI1, Hruns.
      pose proof (rv_nodup _ _ _ p (ki_ready _ _ _ HI)) as Hnd. rewrite Hrd in Hnd. apply NoDup_cons in Hnd as [Hnot _].
      assert (a_ready (rotate t p A) p = u :: post ++ (pre ++ [t])) as Hrd1.
      { cbn [rotate a_ready]. rewrite upd_eq, Hrd.
        change (t :: (u :: post) ++ pre) with ([] ++ t :: ((u :: post) ++ pre)).
        rewrite drop_from_mid by (done || apply not_elem_of_nil). cbn. by rewrite <-(assoc_L (++)). }
      assert (forall q, q < p -> a_ready (rotate t p A) q = []) as Hlow1.
      { intros q Hq. cbn. rewrite upd_ne by lia. by apply Hlow. }
      assert (rt_current_thread (sch k1) = Some u) as Hcur1.
      { unfold runs_highest in Hruns. rewrite decide_True in Hruns by done. destruct Hruns as (q & x & xs & Hq & Hx & Hxlow & ->).
        destruct (Z.lt_trichotomy q p) as [Hlt|[->|Hgt]]; [by rewrite Hlow1 in Hx| |by rewrite Hxlow in Hrd1].
        rewrite Hrd1 in Hx. by injection Hx as <-. }
      cbn in Hn. eapply (IH k1 L1 _ (pre ++ [t]) post u); [exact HI1|done|congruence|exact Hrd1|exact Hlow1|lia|].
      intros k' L' A' HI' Hrd' Hcur' Hth'. apply (HQ k' L' A' HI'); [|done|congruence].
      rewrite Hrd'. cbn [drop take]. by rewrite <-(assoc_L (++)).
Qed.

(** Functions of the program that do nothing. *)
Definition quiet_user (_ _ : Z) : K unit := mret tt.

Lemma quiet_ok P : user_ok P quiet_user.
Proof. intros f p k L A HI Hcur HP. apply wp_ret. exists L, A. by split_and!. Qed.

Lemma empty_none_due A : a_timers A = [] -> none_due A.
Proof. unfold none_due. intros ->. constructor. Qed.

(** ** The properties *)

(** C1: A tick (rt_tick_increase) is defined and ends, with as much fuel as there
    are timers: it keeps the invariant of the kernel, the time is one later, no
    timer that is due stays in the list, and the current thread is one of the
    threads.  This is for functions of the program that keep the invariant and
    start no timer that is due at once. *)
Theorem rt_tick_increase_safe user k L A fuel : kinv_at k L A -> current_ok k -> none_due A ->
  user_ok (fun _ _ => True) user -> (length (a_timers A) < fuel)%nat ->
  exists fired k' L' A', rt_tick_increase user fuel k = Some (fired, k') /\ kinv_at k' L' A' /\ current_ok k' /\
    none_due A' /\ a_time A' = a_time A + 1.
Proof.
  intros HI Hcur Hnone Hu Hf.
  assert (wp (rt_tick_increase user fuel) k (fun _ k' => exists L' A', kinv_at k' L' A' /\ current_ok k' /\
    none_due A' /\ a_time A' = a_time A + 1)) as Hwp.
  { eapply (wp_tick_increase (fun _ _ => True) user Hu); try done. intros fired k' L' A' ? ? ? _ ?. by exists L', A'. }
  apply wp_elim in Hwp as (fired & k' & Hrun & L' & A' & ?). by exists fired, k', L', A'.
Qed.

Lemma rt_tick_increase_safe_witness : exists k L A, kinv_at k L A /\ a_time A = 0 /\ exists fired k' L' A',
  rt_tick_increase quiet_user 1 k = Some (fired, k') /\ kinv_at k' L' A' /\ current_ok k' /\ none_due A' /\
  a_time A' = a_time A + 1.
Proof.
  destruct demo_boots as (k & L & A & _ & HI & [HT Hts _ _ _ _ Hcur _ Hth _]).
  exists k, L, A. split; [exact HI|]. split; [exact HT|].
  apply (rt_tick_increase_safe quiet_user k L A 1 HI); [|exact (empty_none_due A Hts)|exact (quiet_ok _)|rewrite Hts; cbn; lia].
  exists 1, (demo_thread 10 20). split; [exact Hcur|]. rewrite Hth. vm_compute. reflexivity.
Defined.

(** C2: A sleep wakes up at its tick: when the current thread sleeps for [tick]
    ticks (rt_thread_sleep up to rt_schedule), it is suspended after every number
    of ticks below [tick], and ready after [tick] of them.  Another thread is
    ready, and the functions of the program do not wake the sleeper. *)
Theorem rt_thread_sleep_wakes user k L A t m tick p t0 n : kinv_at k L A -> none_due A ->
  rt_current_thread (sch k) = Some t -> threads (sch k) !! t = Some m -> is_stat RT_THREAD_READY m = true ->
  1 <= tick < RT_TICK_MAX / 2 -> t0 ∈ a_ready A p -> t0 <> t -> user_ok (fun _ => asleep t (a_time A + tick)) user ->
  Z.of_nat n <= tick ->
  exists k' A' m', (rt_thread_sleep_begin tick ;; ticks user n) k = Some (tt, k') /\ kinv k' A' /\
    a_time A' = a_time A + Z.of_nat n /\ threads (sch k') !! t = Some m' /\
    is_stat (if Z.of_nat n <? tick then RT_THREAD_SUSPEND else RT_THREAD_READY) m' = true.
Proof.
  intros HI Hnone Hcur Hm Hr Htick Hother Hne Hu Hn. set (d := a_time A + tick) in *.
  assert (wp (rt_thread_sleep_begin tick ;; ticks user n) k (fun _ k' => exists A' m', kinv k' A' /\
    a_time A' = a_time A + Z.of_nat n /\ threads (sch k') !! t = Some m' /\
    is_stat (if Z.of_nat n <? tick then RT_THREAD_SUSPEND else RT_THREAD_READY) m' = true)) as Hwp.
  { wp_bind. eapply (wp_sleep_begin k L A t m tick p t0); [done..|lia|done|done|].
    intros k1 L1 HI1 Hth1 _ _ Hruns. set (A1 := run_timer t tick (unready t A)) in *.
    eapply (wp_ticks (fun _ => asleep t d) user n k1 L1 A1 _ Hu (asleep_closed t d)).
    - exact HI1.
    - apply (runs_highest_ok k k1 L1 A1 HI1 Hruns). intros Hl. unfold runs_highest in Hruns. rewrite decide_False in Hruns by done.
      exists t, (suspend_stat m). rewrite Hruns, Hth1, lookup_insert_eq. done.
    - apply Forall_forall. intros x. cbn. intros [->|[_ Hx]%list_elem_of_filter]%insert_due_mem; [cbn; lia|].
      exact (proj1 (Forall_forall _ _) Hnone _ Hx).
    - left. apply insert_due_mem. by left.
    - intros k' L' A' HI' _ Hnone' Has HT'. change (a_time A1) with (a_time A) in HT'.
      destruct (asleep_stat k' L' A' t d HI' Hnone' Has) as (m' & Hm' & Hs'); [unfold d; lia|].
      exists A', m'. split_and!; [by exists L'|done|done|]. rewrite HT' in Hs'. unfold d in Hs'.
      by replace (a_time A + Z.of_nat n <? a_time A + tick) with (Z.of_nat n <? tick) in Hs'
        by (destruct (Z.ltb_spec (Z.of_nat n) tick), (Z.ltb_spec (a_time A + Z.of_nat n) (a_time A + tick)); lia). }
  apply wp_elim in Hwp as ([] & k' & Hrun & A' & m' & ?). by exists k', A', m'.
Qed.

Lemma rt_thread_sleep_wakes_witness : exists k A, kinv k A /\ exists k' A' m',
  (rt_thread_sleep_begin 3 ;; ticks quiet_user 3) k = Some (tt, k') /\ kinv k' A' /\
  a_time A' = a_time A + Z.of_nat 3 /\ threads (sch k') !! 1 = Some m' /\
  is_stat (if Z.of_nat 3 <? 3 then RT_THREAD_SUSPEND else RT_THREAD_READY) m' = true.
Proof.
  destruct demo_boots as (k & L & A & _ & HI & [HT Hts _ H10 _ _ Hcur _ Hth _]).
  exists k, A. split; [by exists L|].
  apply (rt_thread_sleep_wakes quiet_user k L A 1 (demo_thread 10 20) 3 10 2 3 HI (empty_none_due A Hts) Hcur).
  - rewrite Hth. vm_compute. reflexivity.
  - vm_compute. reflexivity.
  - vm_compute. split; [discriminate|reflexivity].
  - rewrite H10. right. left.
  - lia.
  - exact (quiet_ok _).
  - lia.
Defined.

(** Round robin: when the current thread is the first of the highest ready
    priority, [n] yields give the processor to the [n]-th thread behind it, and
    leave the list of the priority rotated by [n]; every thread of the priority
    runs within one round. *)
Theorem rt_thread_yield_round_robin k L A p t ts n : kinv_at k L A -> rt_current_thread (sch k) = Some t ->
  rt_scheduler_lock_nest (sch k) = 0 -> a_ready A p = t :: ts -> (forall q, q < p -> a_ready A q = []) ->
  (n <= length ts)%nat ->
  exists k' L' A', yields n k = Some (tt, k') /\ kinv_at k' L' A' /\
    a_ready A' p = drop n (t :: ts) ++ take n (t :: ts) /\ rt_current_thread (sch k') = (t :: ts) !! n.
Proof.
  intros HI Hcur Hnest Hrd Hlow Hn.
  assert (wp (yields n) k (fun _ k' => exists L' A', kinv_at k' L' A' /\
    a_ready A' p = drop n (t :: ts) ++ take n (t :: ts) /\ rt_current_thread (sch k') = (t :: ts) !! n)) as Hwp.
  { eapply (wp_yields k L A p [] ts t n); [done..|by rewrite app_nil_r|done|done|].
    intros k' L' A' HI' Hrd' Hcur' _. exists L', A'. split_and!; [done|by rewrite Hrd'|].
    by rewrite Hcur', head_lookup, lookup_drop, Nat.add_0_r. }
  apply wp_elim in Hwp as ([] & k' & Hrun & L' & A' & ?). by exists k', L', A'.
Qed.

Lemma rt_thread_yield_round_robin_witness : exists k, rt_current_thread (sch k) = Some 1 /\ exists k' L' A',
  yields 1 k = Some (tt, k') /\ kinv_at k' L' A' /\ a_ready A' 10 = [2; 1] /\ rt_current_thread (sch k') = Some 2.
Proof.
  destruct demo_boots as (k & L & A & _ & HI & [HT Hts _ H10 _ Hrest Hcur Hn _ _]).
  exists k. split; [exact Hcur|].
  apply (rt_thread_yield_round_robin k L A 10 1 [2] 1 HI Hcur Hn H10); [|cbn; lia].
  intros q Hq. apply Hrest; lia.
Defined.
End ops.
