(* ===== verification/Ipc.v ===== *)
(** * Waiting lists and semaphores (src/ipc.c)

    A function that blocks is split where the thread loses the processor: the
    first part returns [None] when the thread waits, the second part is what the
    thread does when it runs again.  The statements that every such function has
    in common (suspending, the timer, rt_schedule) are one definition. *)

From S2P Require Import Prelude Klist Kernel Object Timer Sched Thread Boot Tick.

Open Scope Z_scope.

(** ** The waiting lists *)

Definition rt_ipc_object_init (ipc : Z) : K Z := list_init (Suspend ipc) ;; mret RT_EOK.

(** The node in front of which the thread goes: [list] itself when no thread in
    the list has a lower priority. *)
Fixpoint prio_search (fuel : nat) (list n : node) (prio : Z) : K node :=
  match fuel with
  | O => ub
  | S fuel =>
      if decide (n = list) then mret list else
      sthread ← thread_entry n; sm ← get_thread sthread;
      if prio <? current_priority sm then mret n else
      n ← list_next n; prio_search fuel list n prio
  end.

Definition rt_ipc_list_suspend (list : node) (thread : Z) (flag : Z) : K Z :=
  rt_thread_suspend thread ;;
  if flag =? RT_IPC_FLAG_FIFO then list_insert_before list (Tlist thread) ;; mret RT_EOK else
  if flag =? RT_IPC_FLAG_PRIO then
    m ← get_thread thread; n ← list_next list; k ← get;
    n ← prio_search (S (size (lists k))) list n (current_priority m);
    list_insert_before n (Tlist thread) ;; mret RT_EOK
  else mret RT_EOK.

Definition rt_ipc_list_resume (list : node) : K Z :=
  n ← list_next list; thread ← thread_entry n;
  rt_thread_resume thread ;; mret RT_EOK.

Fixpoint resume_all_loop (fuel : nat) (list : node) : K unit :=
  match fuel with
  | O => ub
  | S fuel =>
      e ← list_isempty list;
      if e : bool then mret tt else
      n ← list_next list; thread ← thread_entry n;
      m ← get_thread thread; put_thread thread (set_error m (- RT_ERROR)) ;;
      rt_thread_resume thread ;;
      resume_all_loop fuel list
  end.

Definition rt_ipc_list_resume_all (list : node) : K Z :=
  k ← get; resume_all_loop (S (size (lists k))) list ;; mret RT_EOK.

(** The thread waits, for [time] ticks or (if negative) forever: it is suspended,
    its timer starts, and other threads run; what is read before the timer starts
    is the result. *)
Definition wait_after {X Y} (suspend : K Y) (default : X) (read : K X) (thread time : Z) : K X :=
  suspend ;;
  x ← (if 0 <? time then
     x ← read;
     rt_timer_control (Thread_timer thread) RT_TIMER_CTRL_SET_TIME time ;; rt_timer_start (Thread_timer thread) ;; mret x
   else mret default);
  rt_schedule ;; mret x.

(** It waits in [list]. *)
Definition start_waiting_with {X} (default : X) (read : K X) (list : node) (thread : Z) (flag time : Z) : K X :=
  wait_after (rt_ipc_list_suspend list thread flag) default read thread time.

Definition start_waiting (list : node) (thread : Z) (flag time : Z) : K unit :=
  start_waiting_with tt (mret tt) list thread flag time.

Definition put_error (thread e : Z) : K unit := m ← get_thread thread; put_thread thread (set_error m e).

(** ** Semaphores *)

Definition get_sem (sem : Z) : K rt_semaphore := k ← get; of_opt (semaphores (ipc k) !! sem).
Definition put_sem (sem : Z) (m : rt_semaphore) : K unit :=
  k ← get; put (with_ipc k (put_semaphores (ipc k) sem m)).

Definition rt_sem_init (sem : Z) (name : list Z) (value flag : Z) : K Z :=
  rt_object_init (Obj sem) RT_Object_Class_Semaphore name ;;
  rt_ipc_object_init sem ;;
  put_sem sem (mk_sem flag (u16 value)) ;;
  mret RT_EOK.

Definition rt_sem_detach (sem : Z) : K Z :=
  rt_ipc_list_resume_all (Suspend sem) ;; rt_object_detach (Obj sem) ;; mret RT_EOK.

Section heap.
Context (object_size : Z -> Z) (malloc : Z -> K (option addr)) (free : addr -> K unit).

Definition rt_sem_create (name : list Z) (value flag : Z) : K (option Z) :=
  sem ← rt_object_allocate object_size malloc RT_Object_Class_Semaphore name;
  match sem with
  | None => mret None
  | Some (Thread_timer _) => ub
  | Some (Obj sem) => rt_ipc_object_init sem ;; put_sem sem (mk_sem flag (u16 value)) ;; mret (Some sem)
  end.

Definition rt_sem_delete (sem : Z) : K Z :=
  rt_ipc_list_resume_all (Suspend sem) ;; rt_object_delete free (Obj sem) ;; mret RT_EOK.
End heap.

Definition rt_sem_take_begin (sem time : Z) : K (option Z) :=
  m ← get_sem sem;
  if 0 <? sem_value m then put_sem sem (mk_sem (sem_flag m) (u16 (sem_value m - 1))) ;; mret (Some RT_EOK) else
  if time =? 0 then mret (Some (- RT_ETIMEOUT)) else
  self ← rt_thread_self; thread ← of_opt self;
  put_error thread RT_EOK ;;
  start_waiting (Suspend sem) thread (sem_flag m) time ;; mret None.

Definition rt_sem_take_end (thread : Z) : K Z :=
  m ← get_thread thread; if negb (error m =? RT_EOK) then mret (error m) else mret RT_EOK.

(** It never waits. *)
Definition rt_sem_trytake (sem : Z) : K (option Z) := rt_sem_take_begin sem 0.

Definition rt_sem_release (sem : Z) : K Z :=
  e ← list_isempty (Suspend sem);
  need_schedule ← (if negb e then rt_ipc_list_resume (Suspend sem) ;; mret true else
    m ← get_sem sem; put_sem sem (mk_sem (sem_flag m) (u16 (sem_value m + 1))) ;; mret false);
  (if need_schedule : bool then rt_schedule else mret tt) ;;
  mret RT_EOK.

Definition rt_sem_control (sem cmd arg : Z) : K Z :=
  if cmd =? RT_IPC_CMD_RESET then
    rt_ipc_list_resume_all (Suspend sem) ;;
    m ← get_sem sem; put_sem sem (mk_sem (sem_flag m) (u16 arg)) ;;
    rt_schedule ;; mret RT_EOK
  else mret (- RT_ERROR).

(** ** Waiting *)

(** The place of a thread in a list ordered by priority: behind those of the
    same priority. *)
Fixpoint insert_prio (prio : Z -> Z) (t : Z) (ws : list Z) : list Z :=
  match ws with
  | [] => [t]
  | x :: ws => if prio t <? prio x then t :: x :: ws else x :: insert_prio prio t ws
  end.

Definition place (flag : Z) (prio : Z -> Z) (t : Z) (ws : list Z) : list Z :=
  if flag =? RT_IPC_FLAG_FIFO then ws ++ [t] else insert_prio prio t ws.

Definition prio_of (k : kernel) (t : Z) : Z := from_option current_priority 0 (threads (sch k) !! t).

Definition set_wait (h : node) (ws : list Z) (A : abs) : abs :=
  mk_abs (a_time A) (a_timers A) (a_ready A) (<[h := ws]> (a_waits A)).

Definition flag_ok (flag : Z) : Prop := flag = RT_IPC_FLAG_FIFO \/ flag = RT_IPC_FLAG_PRIO.

Lemma place_ext flag prio prio' t ws : (forall i, prio i = prio' i) -> place flag prio t ws = place flag prio' t ws.
Proof. intros Hp. unfold place. case_match; [done|]. induction ws as [|x ws IH]; [done|]. cbn. by rewrite !Hp, IH. Qed.

Lemma insert_prio_split prio t ws : exists pre post, ws = pre ++ post /\ insert_prio prio t ws = pre ++ t :: post /\
  Forall (fun x => prio x <= prio t) pre /\ match post with [] => True | x :: _ => prio t < prio x end.
Proof.
  induction ws as [|x ws (pre & post & -> & Hi & Hpre & Hpost)]; cbn.
  - exists [], []. by split_and!.
  - destruct (Z.ltb_spec (prio t) (prio x)) as [Hlt|Hge].
    + exists [], (x :: pre ++ post). by split_and!.
    + exists (x :: pre), post. split_and!; [done|by rewrite Hi|by constructor|done].
Qed.

Lemma insert_prio_perm prio t ws : insert_prio prio t ws ≡ₚ t :: ws.
Proof.
  destruct (insert_prio_split prio t ws) as (pre & post & -> & -> & _). by rewrite Permutation_middle.
Qed.

Lemma place_perm flag prio t ws : place flag prio t ws ≡ₚ t :: ws.
Proof. unfold place. case_match; [by rewrite Permutation_app_comm|apply insert_prio_perm]. Qed.

(** Initialising the object and its waiting list comes first. *)
Ltac ipc_object_first := intros k; unfold mbind, M_bind;
  destruct (rt_object_init _ _ _ k) as [[? k1]|]; [|done]; by destruct (rt_ipc_object_init _ k1) as [[? k2]|].

Section ops.
Implicit Types (k : kernel) (L : gmap node (list node)) (A : abs) (t p : Z) (m : rt_thread).

(** A suspended thread that is in no list starts to wait in one. *)
Lemma kinv_wait k L A t m h pre post lk' : kinv_at k L A -> threads (sch k) !! t = Some m ->
  is_stat RT_THREAD_SUSPEND m = true -> a_waits A !! h = Some (pre ++ post) ->
  linked lk' (<[h := (Tlist <$> pre) ++ Tlist t :: (Tlist <$> post)]> (delete (Tlist t) L)) ->
  kinv_at (with_lists k lk') (<[h := (Tlist <$> pre) ++ Tlist t :: (Tlist <$> post)]> (delete (Tlist t) L))
    (set_wait h (pre ++ t :: post) A).
Proof.
  intros HI Hm Hs Hh Hlk'. set (L' := <[h := _]> _) in *.
  destruct (ki_waits _ _ _ HI _ _ Hh) as [Hwh Hl].
  assert (is_stat RT_THREAD_READY m = false) as Hr by (unfold is_stat in *; apply Z.eqb_eq in Hs; by rewrite Hs).
  assert (forall n, n <> h -> n <> Tlist t -> L' !! n = L !! n) as HL'.
  { intros n H1 H2. unfold L'. by rewrite lookup_insert_ne, lookup_delete_ne by done. }
  destruct (ki_thread_timer _ _ _ HI t m Hm) as (tm & Htm & Htmok).
  assert (h <> Timers /\ (forall p, h <> Ready p) /\ (forall t', h <> Tlist t') /\ (forall x : addr, h <> Row x)) as (H1 & H2 & H3 & H4)
    by (by destruct h).
  apply (kinv_moved k L A _ L' _ t m m HI Hm). split; cbn [set_wait a_time a_timers a_ready a_waits]; try done.
  - apply (timers_view_rest k _ L); [apply HI|done|done|by apply HL'|intros x; by apply HL'].
  - destruct (ki_ready _ _ _ HI) as [_ Hrd Hout Hg Hb]. split; try done. intros p Hp. rewrite HL' by done. by apply Hrd.
  - cbn. by rewrite insert_id.
  - intros q. split; [by intros ?%(ki_not_ready k L A t m q HI Hm Hr)|intros [_ ?]; congruence].
  - by apply (tw_prio _ _ (ki_threads _ _ _ HI) t m Hm).
  - intros h' ws [[<- <-]|[Hne Hh']]%lookup_insert_Some.
    + split; [done|]. unfold L'. by rewrite lookup_insert_eq, tlist_fmap_middle.
    + destruct (ki_waits _ _ _ HI _ _ Hh') as [Hwh' Hl']. split; [done|]. rewrite HL'; [done|congruence|by destruct h'].
  - intros t' Hne. split.
    + intros (h' & ws & [[<- <-]|[Hneh Hh']]%lookup_insert_Some & Hin); [|by exists h', ws].
      exists h, (pre ++ post). split; [done|]. rewrite elem_of_app, elem_of_cons in *. tauto.
    + intros (h' & ws & Hh' & Hin). destruct (decide (h' = h)) as [->|Hneh].
      * rewrite Hh in Hh'. injection Hh' as <-. exists h, (pre ++ t :: post). rewrite lookup_insert_eq. split; [done|].
        rewrite elem_of_app, elem_of_cons in *. tauto.
      * exists h', ws. by rewrite lookup_insert_ne.
  - intros t' Hne. apply HL'; congruence.
  - intros _. left. exists h, (pre ++ t :: post). rewrite lookup_insert_eq. split; [done|]. rewrite elem_of_app, elem_of_cons. tauto.
  - by exists tm.
  - intros d Hd. destruct (ki_running _ _ _ HI _ _ Hd) as ((m' & Hm' & Hs') & ?). rewrite Hm in Hm'. injection Hm' as <-. done.
Qed.

Lemma insert_prio_at prio t pre post : Forall (fun x => prio x <= prio t) pre ->
  match post with [] => True | x :: _ => prio t < prio x end -> insert_prio prio t (pre ++ post) = pre ++ t :: post.
Proof.
  intros Hpre Hpost. induction Hpre as [|x pre Hx _ IH]; cbn [app insert_prio].
  - destruct post as [|x post]; [done|]. cbn. by rewrite (proj2 (Z.ltb_lt _ _)).
  - rewrite (proj2 (Z.ltb_ge _ _)) by done. by rewrite IH.
Qed.

Lemma prio_search_finds k L h ws t pre post fuel Q : linked (lists k) L -> L !! h = Some (Tlist <$> ws) ->
  (forall t', h <> Tlist t') ->
  (forall x, x ∈ ws -> is_Some (threads (sch k) !! x)) -> ws = pre ++ post ->
  Forall (fun x => prio_of k x <= prio_of k t) pre -> (length post < fuel)%nat ->
  (forall pre' post', ws = pre' ++ post' -> insert_prio (prio_of k) t ws = pre' ++ t :: post' ->
     Q (default h (head (Tlist <$> post'))) k) ->
  wp (prio_search fuel h (default h (head (Tlist <$> post))) (prio_of k t)) k Q.
Proof.
  intros Hlk Hl Hht Hth Hws Hpre Hf HQ. revert fuel pre Hws Hpre Hf.
  induction post as [|x post IH]; intros fuel pre Hws Hpre Hf; (destruct fuel as [|fuel]; [cbn in Hf; lia|]); cbn [prio_search].
  - change (default h (head (Tlist <$> []))) with h. rewrite decide_True by done. wp_ret. apply (HQ pre []); [done|].
    rewrite Hws. by apply insert_prio_at.
  - change (default h (head (Tlist <$> x :: post))) with (Tlist x). rewrite decide_False by (intros Heq; by destruct (Hht x)).
    destruct (Hth x) as [m Hm]; [rewrite Hws, elem_of_app, elem_of_cons; tauto|].
    assert (prio_of k x = current_priority m) as Hpx by (unfold prio_of; by rewrite Hm).
    cbn [thread_entry]. wp_pure. eapply wp_get_thread; [exact Hm|]. rewrite <-Hpx.
    destruct (Z.ltb_spec (prio_of k t) (prio_of k x)) as [Hlt|Hge].
    + wp_ret. apply (HQ pre (x :: post)); [done|]. rewrite Hws. by apply insert_prio_at.
    + rewrite Hws, tlist_fmap_middle in Hl. destruct (linked_around _ _ _ _ _ _ Hlk Hl) as [Hnx _].
      wp_bind. eapply wp_next; [exact Hnx|]. apply (IH fuel (pre ++ [x])).
      * by rewrite <-(assoc_L (++)).
      * apply Forall_app. split; [done|]. by apply Forall_singleton.
      * cbn in Hf. lia.
Qed.

Lemma wait_size k L A h ws : kinv_at k L A -> a_waits A !! h = Some ws -> (length ws < size (lists k))%nat.
Proof.
  intros HI Hh. destruct (ki_waits _ _ _ HI _ _ Hh) as [_ Hl].
  pose proof (linked_size _ _ _ _ (tv_linked _ _ _ _ (ki_timers _ _ _ HI)) Hl) as Hs. by rewrite length_fmap in Hs.
Qed.

(** The thread [t] is no longer ready and waits in [h]. *)
Definition wait_on (t : Z) (h : node) (ws : list Z) (A : abs) : abs := set_wait h ws (unready t A).

Lemma wp_ipc_suspend k L A t m h ws flag Q : kinv_at k L A -> threads (sch k) !! t = Some m ->
  is_stat RT_THREAD_READY m = true -> a_waits A !! h = Some ws -> flag_ok flag ->
  (forall k' L', kinv_at k' L' (wait_on t h (place flag (prio_of k) t ws) A) ->
     threads (sch k') = <[t := suspend_stat m]> (threads (sch k)) -> same_misc k k' -> Q RT_EOK k') ->
  wp (rt_ipc_list_suspend h t flag) k Q.
Proof.
  intros HI Hm Hr Hh Hflag HQ. unfold rt_ipc_list_suspend. wp_bind.
  eapply wp_suspend; [done|done|done|]. intros k1 L1 HI1 Hfree1 Hth1 Hmisc1.
  assert (a_waits (unready t A) !! h = Some ws) as Hh1 by done.
  destruct (ki_waits _ _ _ HI1 _ _ Hh1) as [Hwh Hl]. pose proof (tv_linked _ _ _ _ (ki_timers _ _ _ HI1)) as Hlk1.
  assert (threads (sch k1) !! t = Some (suspend_stat m)) as Hm1 by (by rewrite Hth1, lookup_insert_eq).
  assert (forall t', h <> Tlist t') as Hht by (by destruct h).
  assert (forall pre post, ws = pre ++ post -> place flag (prio_of k) t ws = pre ++ t :: post ->
    wp (list_insert_before (default h (head (Tlist <$> post))) (Tlist t)) k1 (fun _ s => Q RT_EOK s)) as Hins.
  { intros pre post -> Hplace. eapply (wp_insert_before k1 L1 h (Tlist <$> pre) (Tlist <$> post)); [done|by rewrite Hl, fmap_app|done|by auto|].
    intros lk2 Hlk2.
    apply (HQ _ (<[h := (Tlist <$> pre) ++ Tlist t :: (Tlist <$> post)]> (delete (Tlist t) L1))).
    - rewrite Hplace. by eapply kinv_wait; [done|done|by rewrite suspend_is|done|].
    - done.
    - by destruct Hmisc1. }
  destruct Hflag as [->| ->].
  - rewrite Z.eqb_refl. wp_bind. eapply wp_mono; [apply (Hins ws []); [by rewrite app_nil_r|done]|].
    cbv beta. intros _ s Hs. by wp_ret.
  - change (RT_IPC_FLAG_PRIO =? RT_IPC_FLAG_FIFO) with false. rewrite Z.eqb_refl. wp_bind. eapply wp_get_thread; [exact Hm1|].
    wp_bind. eapply wp_next; [by eapply linked_first|]. wp_bind. apply wp_get. wp_bind.
    assert (forall x, prio_of k1 x = prio_of k x) as Hprio.
    { intros x. unfold prio_of. rewrite Hth1. destruct (decide (x = t)) as [->|]; [by rewrite lookup_insert_eq, Hm|by rewrite lookup_insert_ne]. }
    assert (current_priority (suspend_stat m) = prio_of k1 t) as -> by (unfold prio_of; by rewrite Hm1).
    pose proof (wait_size _ _ _ _ _ HI1 Hh1) as Hsize.
    eapply (prio_search_finds k1 L1 h ws t [] ws); [done|done|done| |done|constructor|lia|].
    + intros x Hx. destruct (ki_waiting _ _ _ HI1 _ _ _ Hh1 Hx) as (mx & Hmx & _). by exists mx.
    + intros pre post Hws Hi. wp_bind. eapply wp_mono; [apply (Hins pre post Hws)|].
      * change (place RT_IPC_FLAG_PRIO (prio_of k) t ws) with (insert_prio (prio_of k) t ws). rewrite <-Hi.
        clear -Hprio. induction ws as [|x ws IH]; [done|]. cbn. by rewrite !Hprio, IH.
      * cbv beta. intros _ s Hs. by wp_ret.
Qed.

(** Another thread can run while [t] waits. *)
Definition others_ready (t : Z) (A : abs) : Prop := exists p t0, t0 ∈ a_ready A p /\ t0 <> t.

Definition waiting (t : Z) (h : node) (ws : list Z) (time : Z) (A : abs) : abs :=
  if 0 <? time then run_timer t time (wait_on t h ws A) else wait_on t h ws A.

(** [i] are the IPC objects after the first step. *)
Definition suspends {Y} (suspend : K Y) k A t (m : rt_thread) h ws' i : Prop := forall R : Y -> kernel -> Prop,
  (forall y k1 L1, kinv_at k1 L1 (wait_on t h ws' A) -> threads (sch k1) = <[t := suspend_stat m]> (threads (sch k)) ->
     same_misc (with_ipc k i) k1 -> R y k1) -> wp suspend k R.

Lemma wp_wait_after {X Y} (suspend : K Y) (dflt x : X) (read : K X) k L A t m h ws' i time Q : kinv_at k L A ->
  suspends suspend k A t m h ws' i -> time < RT_TICK_MAX / 2 ->
  others_ready t A -> (forall k1, rt_tick (clk k1) = rt_tick (clk k) -> read k1 = Some (x, k1)) ->
  (forall k' L', let A' := waiting t h ws' time A in kinv_at k' L' A' ->
     threads (sch k') = <[t := suspend_stat m]> (threads (sch k)) -> ipc k' = i -> objects k' = objects k ->
     rt_scheduler_lock_nest (sch k') = rt_scheduler_lock_nest (sch k) -> runs_highest A' k k' ->
     Q (if 0 <? time then x else dflt) k') ->
  wp (wait_after suspend dflt read t time) k Q.
Proof.
  intros HI Hsus Htime (p & t0 & Ht0 & Hne) Hread HQ. unfold wait_after. wp_bind.
  apply Hsus. intros y k1 L1 HI1 Hth1 Hmisc1. set (A1 := wait_on _ _ _ _) in HI1.
  assert (threads (sch k1) !! t = Some (suspend_stat m)) as Hm1 by (by rewrite Hth1, lookup_insert_eq).
  assert (forall k2 L2 r, let A' := waiting t h ws' time A in kinv_at k2 L2 A' ->
    threads (sch k2) = threads (sch k1) -> same_misc k1 k2 -> r = (if 0 <? time then x else dflt) -> wp (rt_schedule ;; mret r) k2 Q) as Hsched.
  { intros k2 L2 r A' HI2 Hth2 Hmisc2 ->. pose proof (same_misc_trans _ _ _ Hmisc1 Hmisc2) as [Hi2 Ho2 Hc2 Hn2 _]. cbn in Hi2, Ho2, Hc2, Hn2.
    wp_bind. eapply (wp_kschedule k2 L2 A' p t0); [done| |].
    - unfold A', waiting. destruct (0 <? time); cbn; by apply elem_of_drop.
    - intros k3 HI3 Hth3 _ _ Hi3 Ho3 Hn3 Hruns. wp_ret. apply (HQ k3 L2 HI3); [by rewrite Hth3, Hth2|congruence|congruence|congruence|].
      unfold runs_highest in *. by rewrite <-Hc2, <-Hn2. }
  unfold waiting in Hsched. wp_bind. destruct (Z.ltb_spec 0 time) as [Ht|Ht].
  - wp_bind. eapply wp_run; [apply Hread|].
    { by rewrite (tv_tick _ _ _ _ (ki_timers _ _ _ HI)), (tv_tick _ _ _ _ (ki_timers _ _ _ HI1)). }
    wp_bind. eapply wp_mono; [eapply (wp_run_timer k1 L1 _ t (suspend_stat m) time); [exact HI1|exact Hm1|by rewrite suspend_is|lia|]|].
    { intros k2 L2 HI2 Hth2 Hmisc2 _. instantiate (1 := fun _ k2 => wp (rt_schedule ;; mret x) k2 Q). by eapply Hsched. }
    cbv beta. intros _ k1' Hstart. wp_bind. eapply wp_mono; [exact Hstart|]. cbv beta. intros _ k2 Hk2. by wp_ret.
  - wp_ret. eapply Hsched; [exact HI1|done|apply same_misc_refl|done].
Qed.

Lemma with_ipc_same k : with_ipc k (ipc k) = k.
Proof. by destruct k. Qed.

Lemma wp_start_waiting_with {X} (dflt x : X) (read : K X) k L A t m h ws flag time Q : kinv_at k L A -> threads (sch k) !! t = Some m ->
  is_stat RT_THREAD_READY m = true -> a_waits A !! h = Some ws -> flag_ok flag -> time < RT_TICK_MAX / 2 ->
  others_ready t A -> (forall k1, rt_tick (clk k1) = rt_tick (clk k) -> read k1 = Some (x, k1)) ->
  (forall k' L', let A' := waiting t h (place flag (prio_of k) t ws) time A in kinv_at k' L' A' ->
     threads (sch k') = <[t := suspend_stat m]> (threads (sch k)) -> ipc k' = ipc k -> objects k' = objects k ->
     rt_scheduler_lock_nest (sch k') = rt_scheduler_lock_nest (sch k) -> runs_highest A' k k' ->
     Q (if 0 <? time then x else dflt) k') ->
  wp (start_waiting_with dflt read h t flag time) k Q.
Proof.
  intros HI Hm Hr Hh Hflag Htime Hothers Hread HQ. eapply (wp_wait_after _ dflt x read k L A t m h _ (ipc k)); [done| |done..].
  intros R HR. eapply wp_ipc_suspend; [done..|]. intros k1 L1 HI1 Hth1 Hmisc1. apply (HR _ k1 L1); [done|done|by rewrite with_ipc_same].
Qed.

Lemma wp_start_waiting k L A t m h ws flag time Q : kinv_at k L A -> threads (sch k) !! t = Some m ->
  is_stat RT_THREAD_READY m = true -> a_waits A !! h = Some ws -> flag_ok flag -> time < RT_TICK_MAX / 2 ->
  others_ready t A ->
  (forall k' L', let A' := waiting t h (place flag (prio_of k) t ws) time A in kinv_at k' L' A' ->
     threads (sch k') = <[t := suspend_stat m]> (threads (sch k)) -> ipc k' = ipc k -> objects k' = objects k ->
     rt_scheduler_lock_nest (sch k') = rt_scheduler_lock_nest (sch k) -> runs_highest A' k k' -> Q tt k') ->
  wp (start_waiting h t flag time) k Q.
Proof.
  intros. eapply (wp_start_waiting_with tt tt (mret tt)); [done..|]. intros k' L' A'. destruct (0 <? time); eauto.
Qed.

(** ** Waking *)

(** A thread is in one waiting list at most. *)
Lemma waits_apart k L A h h' ws ws' t : kinv_at k L A -> a_waits A !! h = Some ws -> a_waits A !! h' = Some ws' ->
  t ∈ ws -> t ∈ ws' -> h = h'.
Proof.
  intros HI Hh Hh' Hin Hin'. destruct (ki_waits _ _ _ HI _ _ Hh) as [_ Hl], (ki_waits _ _ _ HI _ _ Hh') as [_ Hl'].
  eapply (linked_apart _ _ (tv_linked _ _ _ _ (ki_timers _ _ _ HI)) _ _ _ _ (Tlist t) Hl Hl'); right; by apply (list_elem_of_fmap_2 Tlist).
Qed.

Lemma waits_nodup k L A h ws : kinv_at k L A -> a_waits A !! h = Some ws -> NoDup ws.
Proof.
  intros HI Hh. destruct (ki_waits _ _ _ HI _ _ Hh) as [_ Hl].
  pose proof (linked_nodup _ _ (tv_linked _ _ _ _ (ki_timers _ _ _ HI)) _ _ Hl) as [_ Hnd]%NoDup_cons.
  by apply NoDup_fmap_1 in Hnd.
Qed.

(** The waiting lists when a thread that waits in [h] becomes ready. *)
Lemma waits_resumed k L A h pre t post p : kinv_at k L A -> a_waits A !! h = Some (pre ++ t :: post) ->
  a_waits (make_ready t p A) = <[h := pre ++ post]> (a_waits A).
Proof.
  intros HI Hh. cbn. apply map_eq. intros h'. rewrite lookup_fmap. destruct (decide (h' = h)) as [->|Hne].
  - rewrite lookup_insert_eq, Hh. cbn. pose proof (waits_nodup _ _ _ _ _ HI Hh) as Hnd.
    apply NoDup_app in Hnd as (_ & Hdisj & [Hpost _]%NoDup_cons). rewrite drop_from_mid; [done| |done].
    intros Hin. apply (Hdisj _ Hin). left.
  - rewrite lookup_insert_ne by done. destruct (a_waits A !! h') as [ws|] eqn:Hh'; [|done]. cbn. f_equal.
    apply drop_from_notin. intros Hin. apply Hne. eapply (waits_apart _ _ _ _ _ _ _ t HI Hh' Hh Hin).
    rewrite elem_of_app, elem_of_cons. tauto.
Qed.

Lemma waiting_suspended k L A h ws t : kinv_at k L A -> a_waits A !! h = Some ws -> t ∈ ws ->
  exists m, threads (sch k) !! t = Some m /\ is_stat RT_THREAD_SUSPEND m = true.
Proof. intros HI. apply (ki_waiting _ _ _ HI). Qed.

Lemma wp_ipc_resume k L A h t m ws Q : kinv_at k L A -> a_waits A !! h = Some (t :: ws) ->
  threads (sch k) !! t = Some m ->
  (forall k' L', kinv_at k' L' (make_ready t (current_priority m) A) ->
     a_waits (make_ready t (current_priority m) A) = <[h := ws]> (a_waits A) ->
     threads (sch k') = <[t := ready_stat m]> (threads (sch k)) -> same_misc k k' -> Q RT_EOK k') ->
  wp (rt_ipc_list_resume h) k Q.
Proof.
  intros HI Hh Hm HQ. destruct (waiting_suspended _ _ _ _ _ t HI Hh) as (m' & Hm' & Hs); [left|].
  rewrite Hm in Hm'. injection Hm' as <-. destruct (ki_waits _ _ _ HI _ _ Hh) as [_ Hl].
  unfold rt_ipc_list_resume. wp_bind. eapply wp_next.
  - eapply linked_first; [apply HI|exact Hl].
  - cbn [fmap list_fmap head default from_option thread_entry id]. wp_pure. eapply wp_resume; [done|done|done|].
    intros k' L' HI' Hth' Hmisc. wp_ret. eapply HQ; [exact HI'| |done|done]. exact (waits_resumed k L A h [] t ws _ HI Hh).
Qed.

(** All threads of a waiting list become ready, in its order, with an error. *)
Definition woken (m : rt_thread) : rt_thread := ready_stat (set_error m (- RT_ERROR)).

Definition wake_all (prio : Z -> Z) (ws : list Z) (A : abs) : abs := foldl (fun A t => make_ready t (prio t) A) A ws.

Lemma make_ready_prio k k' t m : threads (sch k') = <[t := m]> (threads (sch k)) ->
  (forall m0, threads (sch k) !! t = Some m0 -> current_priority m = current_priority m0) -> is_Some (threads (sch k) !! t) ->
  forall x, prio_of k' x = prio_of k x.
Proof.
  intros Hth Hp [m0 Hm0] x. unfold prio_of. rewrite Hth. destruct (decide (x = t)) as [->|Hne].
  - rewrite lookup_insert_eq, Hm0. by apply Hp.
  - by rewrite lookup_insert_ne.
Qed.

Lemma wake_all_ext prio prio' ws A : (forall x, prio x = prio' x) -> wake_all prio ws A = wake_all prio' ws A.
Proof. intros Hp. unfold wake_all. revert A. induction ws as [|x ws IH]; intros A; [done|]. cbn. by rewrite Hp, IH. Qed.

Lemma wp_resume_all_loop fuel k L A h ws Q : kinv_at k L A -> a_waits A !! h = Some ws -> (length ws < fuel)%nat ->
  (forall k' L', kinv_at k' L' (wake_all (prio_of k) ws A) ->
     a_waits (wake_all (prio_of k) ws A) = <[h := []]> (a_waits A) ->
     (forall t, threads (sch k') !! t = if decide (t ∈ ws) then woken <$> threads (sch k) !! t else threads (sch k) !! t) ->
     same_misc k k' -> Q tt k') ->
  wp (resume_all_loop fuel h) k Q.
Proof.
  revert fuel k L A. induction ws as [|t ws IH]; intros fuel k L A HI Hh Hf HQ; (destruct fuel as [|fuel]; [cbn in Hf; lia|]);
    cbn [resume_all_loop]; destruct (ki_waits _ _ _ HI _ _ Hh) as [_ Hl]; wp_bind; (eapply wp_isempty; [apply HI|exact Hl|]).
  - rewrite bool_decide_true by done. wp_ret. apply (HQ k L HI); [by rewrite insert_id|done|apply same_misc_refl].
  - rewrite bool_decide_false by done. wp_bind. eapply wp_next; [eapply linked_first; [apply HI|exact Hl]|].
    cbn [fmap list_fmap head default from_option thread_entry id]. wp_pure.
    destruct (waiting_suspended _ _ _ _ _ t HI Hh) as (m & Hm & Hs); [left|].
    eapply wp_get_thread; [exact Hm|]. wp_bind. apply wp_put_thread. set (m1 := set_error m _). set (k1 := with_thread k t m1).
    assert (kinv_at k1 L A) as HI1 by by apply kinv_put_error.
    wp_bind. eapply (wp_resume k1 L A t m1); [done|apply lookup_insert_eq|done|].
    intros k2 L2 HI2 Hth2 Hmisc2. change (current_priority m1) with (current_priority m) in HI2.
    assert (threads (sch k2) = <[t := woken m]> (threads (sch k))) as Hth by (rewrite Hth2; cbn; by rewrite insert_insert_eq).
    pose proof (waits_resumed k L A h [] t ws (current_priority m) HI Hh) as Hw2. cbn [app] in Hw2.
    assert (prio_of k t = current_priority m) as Hpt by (unfold prio_of; by rewrite Hm).
    assert (forall x, prio_of k2 x = prio_of k x) as Hprio.
    { apply (make_ready_prio k k2 t (woken m) Hth); [|by exists m]. intros m0 Hm0. rewrite Hm in Hm0. by injection Hm0 as <-. }
    pose proof (waits_nodup _ _ _ _ _ HI Hh) as [Hnot _]%NoDup_cons.
    eapply (IH fuel k2 L2 _ HI2); [rewrite Hw2; apply lookup_insert_eq|cbn in Hf; lia|].
    intros k3 L3 HI3 Hw3 Hth3 Hmisc3. rewrite (wake_all_ext _ (prio_of k)) in HI3, Hw3 by done.
    assert (wake_all (prio_of k) (t :: ws) A = wake_all (prio_of k) ws (make_ready t (current_priority m) A)) as Hall
      by (cbn; by rewrite Hpt).
    apply (HQ k3 L3); rewrite ?Hall; [done| | |].
    + by rewrite Hw3, Hw2, insert_insert_eq.
    + intros x. rewrite Hth3, Hth. destruct (decide (x = t)) as [->|Hne].
      * rewrite lookup_insert_eq, (decide_True (P := t ∈ t :: ws)) by left. by rewrite decide_False, Hm.
      * rewrite lookup_insert_ne by done. by rewrite (decide_ext (x ∈ t :: ws) (x ∈ ws)) by (rewrite elem_of_cons; tauto).
    + eapply same_misc_trans; [|exact Hmisc3]. by destruct Hmisc2.
Qed.

Lemma wp_resume_all k L A h ws Q : kinv_at k L A -> a_waits A !! h = Some ws ->
  (forall k' L', kinv_at k' L' (wake_all (prio_of k) ws A) ->
     a_waits (wake_all (prio_of k) ws A) = <[h := []]> (a_waits A) ->
     (forall t, threads (sch k') !! t = if decide (t ∈ ws) then woken <$> threads (sch k) !! t else threads (sch k) !! t) ->
     same_misc k k' -> Q RT_EOK k') ->
  wp (rt_ipc_list_resume_all h) k Q.
Proof.
  intros HI Hh HQ. unfold rt_ipc_list_resume_all. wp_bind. apply wp_get. wp_bind.
  pose proof (wait_size _ _ _ _ _ HI Hh) as Hs. eapply wp_resume_all_loop; [done|done|lia|].
  intros k' L' ? ? ? ?. wp_ret. by eapply HQ.
Qed.

(** ** What the IPC objects add to the state *)

Lemma kinv_ipc k L A i : kinv_at k L A -> kinv_at (with_ipc k i) L A.
Proof. intros HI. by apply (kinv_same k). Qed.

Lemma prio_of_same k k' t : threads (sch k') = threads (sch k) -> prio_of k' t = prio_of k t.
Proof. unfold prio_of. by intros ->. Qed.

(** The current thread is ready, and another one as well. *)
Record can_wait (k : kernel) (A : abs) (t : Z) : Prop := {
  cw_current : rt_current_thread (sch k) = Some t;
  cw_ready : exists p, t ∈ a_ready A p;
  cw_others : others_ready t A;
}.

Lemma cw_thread k L A t : kinv_at k L A -> can_wait k A t ->
  exists m, threads (sch k) !! t = Some m /\ is_stat RT_THREAD_READY m = true.
Proof.
  intros HI [_ [p Hp] _]. destruct (tw_listed _ _ (ki_threads _ _ _ HI) _ _ Hp) as (m & ? & _ & ?). by exists m.
Qed.

Definition is_ready (A : abs) (t : Z) : Prop := exists p, t ∈ a_ready A p.

Lemma make_ready_is A t p : is_ready (make_ready t p A) t.
Proof. exists p. cbn. rewrite upd_eq, elem_of_app, list_elem_of_singleton. tauto. Qed.

Lemma make_ready_keeps A t p x : is_ready A x -> is_ready (make_ready t p A) x.
Proof. intros [q Hq]. exists q. cbn. unfold upd. case_decide; [subst; rewrite elem_of_app; tauto|done]. Qed.

Lemma wake_all_ready prio ws A x : x ∈ ws \/ is_ready A x -> is_ready (wake_all prio ws A) x.
Proof.
  unfold wake_all. revert A. induction ws as [|w ws IH]; intros A; cbn.
  - rewrite elem_of_nil. tauto.
  - rewrite elem_of_cons. intros [[->|Hx]|Hx]; apply IH; [right; apply make_ready_is|by left|right; by apply make_ready_keeps].
Qed.

Lemma wake_all_time prio ws A : a_time (wake_all prio ws A) = a_time A.
Proof. unfold wake_all. revert A. induction ws as [|w ws IH]; intros A; [done|]. cbn. by rewrite IH. Qed.

(** rt_schedule where the invariant has a ready thread. *)
Lemma wp_reschedule k L A x Q : kinv_at k L A -> is_ready A x ->
  (forall k', kinv_at k' L A -> threads (sch k') = threads (sch k) -> ipc k' = ipc k -> objects k' = objects k ->
     rt_scheduler_lock_nest (sch k') = rt_scheduler_lock_nest (sch k) -> runs_highest A k k' -> Q tt k') ->
  wp rt_schedule k Q.
Proof. intros HI [p Hp] HQ. eapply wp_kschedule; [done|exact Hp|]. intros k' ? ? _ _ ? ? ? ?. by apply HQ. Qed.

Lemma waiting_waits t h ws time A : a_waits (waiting t h ws time A) = <[h := ws]> (a_waits A).
Proof. unfold waiting. by destruct (0 <? time). Qed.

Lemma waiting_time t h ws time A : a_time (waiting t h ws time A) = a_time A.
Proof. unfold waiting. by destruct (0 <? time). Qed.

(** *** What an operation leaves alone *)

(** What a thread waits for in an event: the bits and the way. *)
Definition want_of (k : kernel) (t : Z) : Z * Z := from_option (fun m => (event_set m, event_info m)) (0, 0) (threads (sch k) !! t).

Definition want_same (k k' : kernel) : Prop := forall i, want_of k' i = want_of k i.

(** The operations of the thread [t] take no other thread out of the ready ones,
    delete none, and start no timer that is due. *)
Record undisturbed (t : Z) (k : kernel) (A : abs) (k' : kernel) (A' : abs) : Prop := {
  ud_time : a_time A' = a_time A;
  ud_due : none_due A -> none_due A';
  ud_ready : forall i, i <> t -> is_ready A i -> is_ready A' i;
  ud_threads : forall i, is_Some (threads (sch k) !! i) -> is_Some (threads (sch k') !! i);
  ud_nest : rt_scheduler_lock_nest (sch k') = rt_scheduler_lock_nest (sch k);
}.

(** If the scheduler is not locked, the current thread is ready. *)
Definition running (k : kernel) (A : abs) : Prop :=
  rt_scheduler_lock_nest (sch k) = 0 -> exists c, rt_current_thread (sch k) = Some c /\ is_ready A c.

Lemma undisturbed_sch t k A k' : sch k' = sch k -> undisturbed t k A k' A.
Proof. intros Hs. split; try done; by rewrite Hs. Qed.

Lemma undisturbed_trans t k1 A1 k2 A2 k3 A3 : undisturbed t k1 A1 k2 A2 -> undisturbed t k2 A2 k3 A3 -> undisturbed t k1 A1 k3 A3.
Proof. intros [? ? ? ? ?] [? ? ? ? ?]. split; try congruence; eauto. Qed.

Lemma undisturbed_thread t k A x m : undisturbed t k A (with_thread k x m) A.
Proof. split; try done. intros i Hi. apply lookup_insert_is_Some. destruct (decide (x = i)); tauto. Qed.

Lemma none_due_make_ready x p A : none_due A -> none_due (make_ready x p A).
Proof. unfold none_due. cbn. rewrite !Forall_forall. intros H y Hy. apply list_elem_of_filter in Hy as [_ Hy]. by apply H. Qed.

Lemma undisturbed_make_ready t k A x p m k' : threads (sch k') = <[x := m]> (threads (sch k)) ->
  rt_scheduler_lock_nest (sch k') = rt_scheduler_lock_nest (sch k) -> undisturbed t k A k' (make_ready x p A).
Proof.
  intros Hth Hn. split; try done.
  - apply none_due_make_ready.
  - intros i _. apply make_ready_keeps.
  - intros i Hi. rewrite Hth. apply lookup_insert_is_Some. destruct (decide (x = i)); tauto.
Qed.

Lemma undisturbed_wake_all t k A prio ws k' : (forall i, is_Some (threads (sch k) !! i) -> is_Some (threads (sch k') !! i)) ->
  rt_scheduler_lock_nest (sch k') = rt_scheduler_lock_nest (sch k) -> undisturbed t k A k' (wake_all prio ws A).
Proof.
  intros Hth Hn. split; [apply wake_all_time| | |done|done].
  - unfold wake_all. clear Hth. revert A. induction ws as [|w ws IH]; intros A HA; [done|]. apply IH.
    by apply none_due_make_ready.
  - intros i _ Hi. apply wake_all_ready. by right.
Qed.

Lemma undisturbed_waiting t k A h ws time m k' : threads (sch k') = <[t := m]> (threads (sch k)) ->
  rt_scheduler_lock_nest (sch k') = rt_scheduler_lock_nest (sch k) -> undisturbed t k A k' (waiting t h ws time A).
Proof.
  intros Hth Hn. split; try done.
  - unfold waiting. by destruct (0 <? time).
  - unfold waiting, none_due. destruct (Z.ltb_spec 0 time) as [Ht|Ht]; [|done]. cbn. rewrite !Forall_forall.
    intros H y [->|[_ Hy]%list_elem_of_filter]%insert_due_mem; [cbn; lia|by apply H].
  - intros i Hi [p Hp]. exists p. unfold waiting. destruct (0 <? time); cbn; by apply elem_of_drop.
  - intros i Hi. rewrite Hth. apply lookup_insert_is_Some. destruct (decide (t = i)); tauto.
Qed.

Lemma runs_highest_running A k k' : runs_highest A k k' -> rt_scheduler_lock_nest (sch k') = rt_scheduler_lock_nest (sch k) -> running k' A.
Proof.
  unfold runs_highest, running. intros Hr -> Hn. rewrite decide_True in Hr by done.
  destruct Hr as (p & c & cs & _ & Hrd & _ & Hc). exists c. split; [done|]. exists p. rewrite Hrd. left.
Qed.

Lemma running_sch k k' A : sch k' = sch k -> running k A -> running k' A.
Proof. unfold running. by intros ->. Qed.

Lemma want_of_thread k t m : threads (sch k) !! t = Some m -> want_of k t = (event_set m, event_info m).
Proof. unfold want_of. by intros ->. Qed.

Lemma want_same_threads k k' : threads (sch k') = threads (sch k) -> want_same k k'.
Proof. intros Hth i. unfold want_of. by rewrite Hth. Qed.

Lemma want_same_insert k k' t m m' : threads (sch k) !! t = Some m -> threads (sch k') = <[t := m']> (threads (sch k)) ->
  event_set m' = event_set m -> event_info m' = event_info m -> want_same k k'.
Proof.
  intros Hm Hth Hs Hi i. unfold want_of. rewrite Hth. destruct (decide (i = t)) as [->|Hne].
  - rewrite lookup_insert_eq, Hm. cbn. by rewrite Hs, Hi.
  - by rewrite lookup_insert_ne.
Qed.

Lemma want_same_trans k1 k2 k3 : want_same k1 k2 -> want_same k2 k3 -> want_same k1 k3.
Proof. intros H1 H2 i. by rewrite H2, H1. Qed.

Lemma can_wait_running k A t : can_wait k A t -> running k A.
Proof. intros [Hc Hr _] _. by exists t. Qed.

(** rt_schedule leaves all of this alone. *)
Lemma wp_switch k L A x Q : kinv_at k L A -> is_ready A x ->
  (forall k', kinv_at k' L A -> ipc k' = ipc k -> (forall t, undisturbed t k A k' A) -> want_same k k' -> running k' A ->
     threads (sch k') = threads (sch k) -> Q tt k') ->
  wp rt_schedule k Q.
Proof.
  intros HI Hx HQ. eapply wp_reschedule; [done|exact Hx|]. intros k' HI' Hth' Hi' _ Hn' Hr'.
  apply HQ; [done|done| |by apply want_same_threads|by eapply runs_highest_running|done]. intros t. split; try done. by rewrite Hth'.
Qed.

(** So does waking all threads of a list. *)
Lemma woken_kept t k k' A ws :
  (forall i, threads (sch k') !! i = if decide (i ∈ ws) then woken <$> threads (sch k) !! i else threads (sch k) !! i) ->
  same_misc k k' -> undisturbed t k A k' (wake_all (prio_of k) ws A) /\ want_same k k'.
Proof.
  intros Hth Hmisc. split.
  - apply undisturbed_wake_all; [|apply Hmisc]. intros i [m Hm]. rewrite Hth, Hm. case_decide; by eexists.
  - intros i. unfold want_of. rewrite Hth. case_decide; [|done]. by destruct (threads (sch k) !! i).
Qed.

Lemma prio_put_error k t m e : threads (sch k) !! t = Some m -> forall i, prio_of (with_thread k t (set_error m e)) i = prio_of k i.
Proof.
  intros Hm. apply (make_ready_prio k _ t (set_error m e)); [done| |by exists m].
  intros m0 Hm0. rewrite Hm in Hm0. by injection Hm0 as <-.
Qed.

(** The current thread resets its error and waits. *)
Lemma wp_wait {X} (dflt x : X) (read : K X) k L A t m h ws flag time Q : kinv_at k L A -> threads (sch k) !! t = Some m ->
  is_stat RT_THREAD_READY m = true -> others_ready t A -> a_waits A !! h = Some ws -> flag_ok flag -> time < RT_TICK_MAX / 2 ->
  (forall k1, rt_tick (clk k1) = rt_tick (clk k) -> read k1 = Some (x, k1)) ->
  (forall k' L' A', kinv_at k' L' A' -> undisturbed t k A k' A' -> running k' A' -> want_same k k' -> ipc k' = ipc k ->
     a_waits A' = <[h := place flag (prio_of k) t ws]> (a_waits A) -> Q (if 0 <? time then x else dflt) k') ->
  wp (start_waiting_with dflt read h t flag time) (with_thread k t (set_error m RT_EOK)) Q.
Proof.
  intros HI Hm Hr Hothers Hh Hf Htime Hread HQ. set (k1 := with_thread k t (set_error m RT_EOK)).
  pose proof (prio_put_error k t m RT_EOK Hm) as Hp1. fold k1 in Hp1.
  eapply (wp_start_waiting_with dflt x read k1 L A t (set_error m RT_EOK) h ws flag time);
    [by apply kinv_put_error|apply lookup_insert_eq|done..|].
  intros k2 L2 A2 HI2 Hth2 Hi2 _ Hn2 Hruns. apply (HQ k2 L2 A2 HI2).
  - eapply (undisturbed_trans t k A k1 A); [apply undisturbed_thread|by eapply undisturbed_waiting].
  - by apply (runs_highest_running _ k1).
  - apply (want_same_insert k k2 t m (suspend_stat (set_error m RT_EOK))); [done| |done|done]. rewrite Hth2. cbn. by rewrite insert_insert_eq.
  - by rewrite Hi2.
  - unfold A2. by rewrite waiting_waits, (place_ext flag _ _ t ws Hp1).
Qed.

(** *** Semaphores as a counter and a queue *)

Record sem_state (k : kernel) (A : abs) (sem flag v : Z) (ws : list Z) : Prop := {
  ss_sem : semaphores (ipc k) !! sem = Some (mk_sem flag v);
  ss_waits : a_waits A !! Suspend sem = Some ws;
  ss_value : 0 <= v < 65536;
  ss_flag : flag_ok flag;
  ss_free : 0 < v -> ws = [];
}.

Inductive sem_op := Take (time : Z) | Release | Reset (value : Z).

Definition run_sem (sem : Z) (op : sem_op) : K (option Z) :=
  match op with
  | Take time => rt_sem_take_begin sem time
  | Release => r ← rt_sem_release sem; mret (Some r)
  | Reset value => r ← rt_sem_control sem RT_IPC_CMD_RESET value; mret (Some r)
  end.

(** The result for thread [t] ([None]: it waits), the new value and queue, and
    the threads that are woken. *)
Definition sem_next (flag : Z) (prio : Z -> Z) (t : Z) (op : sem_op) (v : Z) (ws : list Z) : option Z * Z * list Z * list Z :=
  match op with
  | Take time =>
      if 0 <? v then (Some RT_EOK, v - 1, ws, []) else
      if time =? 0 then (Some (- RT_ETIMEOUT), v, ws, []) else (None, v, place flag prio t ws, [])
  | Release => match ws with [] => (Some RT_EOK, u16 (v + 1), [], []) | w :: ws => (Some RT_EOK, v, ws, [w]) end
  | Reset value => (Some RT_EOK, u16 value, [], ws)
  end.

Definition sem_op_ok (op : sem_op) : Prop := match op with Take time => time < RT_TICK_MAX / 2 | _ => True end.

Lemma wp_get_sem k sem (m : rt_semaphore) Q : semaphores (ipc k) !! sem = Some m -> Q m k -> wp (get_sem sem) k Q.
Proof. intros Hm HQ. eapply wp_run; [|exact HQ]. unfold get_sem, mbind, M_bind, get, of_opt. by rewrite Hm. Qed.

Definition with_sem (k : kernel) (sem : Z) (m : rt_semaphore) : kernel :=
  with_ipc k (put_semaphores (ipc k) sem m).

Lemma wp_put_sem k sem (m : rt_semaphore) Q : Q tt (with_sem k sem m) -> wp (put_sem sem m) k Q.
Proof. done. Qed.

Lemma with_sem_kinv k L A sem (m : rt_semaphore) : kinv_at k L A -> kinv_at (with_sem k sem m) L A.
Proof. apply kinv_ipc. Qed.

(** What one operation of thread [t] does. *)
Record sem_effect (t : Z) (k : kernel) (A : abs) (sem flag v : Z) (ws woke : list Z) (k' : kernel) (A' : abs) : Prop := {
  se_kept : undisturbed t k A k' A';
  se_running : running k' A';
  se_want : want_same k k';
  se_state : sem_state k' A' sem flag v ws;
  se_waits : a_waits A' = <[Suspend sem := ws]> (a_waits A);
  se_ipc : ipc k' = put_semaphores (ipc k) sem (mk_sem flag v);
  se_woke : Forall (is_ready A') woke;
}.

Lemma sem_effect_intro t k A sem flag v ws woke k' A' : undisturbed t k A k' A' -> running k' A' -> want_same k k' ->
  ipc k' = put_semaphores (ipc k) sem (mk_sem flag v) -> a_waits A' = <[Suspend sem := ws]> (a_waits A) ->
  0 <= v < 65536 -> flag_ok flag -> (0 < v -> ws = []) -> Forall (is_ready A') woke -> sem_effect t k A sem flag v ws woke k' A'.
Proof.
  intros Hu Hr Hwa Hi Hw Hv Hf Hfree Hwo. split; try done.
  split; [by rewrite Hi; apply lookup_insert_eq|by rewrite Hw, lookup_insert_eq|done..].
Qed.

Lemma put_semaphores_same i x (m : rt_semaphore) : semaphores i !! x = Some m -> put_semaphores i x m = i.
Proof. intros Hx. unfold put_semaphores. rewrite insert_id by done. by destruct i. Qed.

Lemma wp_sem_take k L A t sem flag v ws time : kinv_at k L A -> can_wait k A t -> sem_state k A sem flag v ws ->
  time < RT_TICK_MAX / 2 ->
  wp (rt_sem_take_begin sem time) k (fun r k' => exists L' A', kinv_at k' L' A' /\
    let '(r0, v', ws', woke) := sem_next flag (prio_of k) t (Take time) v ws in
    r = r0 /\ sem_effect t k A sem flag v' ws' woke k' A').
Proof.
  intros HI Hcw [Hs Hw Hv Hf Hfree] Htime. cbn [sem_next]. destruct (cw_thread _ _ _ _ HI Hcw) as (m & Hm & Hr).
  unfold rt_sem_take_begin. wp_bind. eapply wp_get_sem; [exact Hs|]. cbn [sem_value sem_flag].
  destruct (Z.ltb_spec 0 v) as [Hpos|Hzero].
  - wp_bind. apply wp_put_sem. wp_ret. rewrite u16_small by lia. exists L, A. split; [by apply with_sem_kinv|]. split; [done|].
    apply sem_effect_intro; [by apply undisturbed_sch|by apply (running_sch k), (can_wait_running _ _ t)|done|done|by rewrite insert_id|lia|done|by intros _; apply Hfree|done].
  - destruct (Z.eqb_spec time 0) as [Ht|Ht].
    + wp_ret. exists L, A. split; [done|]. split; [done|].
      apply sem_effect_intro; [by apply undisturbed_sch|by apply (can_wait_running _ _ t)|done|by rewrite put_semaphores_same|by rewrite insert_id|done|done|done|done].
    + unfold rt_thread_self, put_error. wp_bind. apply wp_get, wp_ret. wp_bind. eapply wp_of_opt; [apply Hcw|].
      wp_bind. eapply wp_get_thread; [exact Hm|]. apply wp_put_thread.
      wp_bind. eapply (wp_wait tt tt (mret tt) k L A t m (Suspend sem) ws flag time); [done|done|done|apply Hcw|done|done|done|done|].
      intros k2 L2 A2 HI2 Hu2 Hr2 Hwa2 Hi2 Hw2. wp_ret. exists L2, A2. split; [done|]. split; [done|].
      apply sem_effect_intro; try done; [by rewrite Hi2, put_semaphores_same|lia].
Qed.

Lemma wp_sem_release k L A t sem flag v ws : kinv_at k L A -> can_wait k A t -> sem_state k A sem flag v ws ->
  wp (rt_sem_release sem) k (fun r k' => exists L' A', kinv_at k' L' A' /\
    let '(r0, v', ws', woke) := sem_next flag (prio_of k) t Release v ws in
    Some r = r0 /\ sem_effect t k A sem flag v' ws' woke k' A').
Proof.
  intros HI Hcw [Hs Hw Hv Hf Hfree]. destruct (ki_waits _ _ _ HI _ _ Hw) as [_ Hl]. unfold rt_sem_release. wp_bind.
  eapply wp_isempty; [apply HI|exact Hl|]. destruct ws as [|w ws].
  - rewrite bool_decide_true by done. cbn [negb sem_next]. wp_bind. eapply wp_get_sem; [exact Hs|]. wp_bind. apply wp_put_sem. wp_ret. wp_bind. wp_ret.
    exists L, A. split; [by apply with_sem_kinv|]. split; [done|].
    apply sem_effect_intro; [by apply undisturbed_sch|by apply (running_sch k), (can_wait_running _ _ t)|done|done|by rewrite insert_id|apply u16_range|done|done|done].
  - rewrite bool_decide_false by done. cbn [negb sem_next]. wp_bind.
    destruct (waiting_suspended _ _ _ _ _ w HI Hw) as (m & Hm & _); [left|].
    eapply wp_ipc_resume; [done|done|exact Hm|]. intros k1 L1 HI1 Hw1 Hth1 Hmisc1. wp_ret. wp_bind.
    eapply (wp_switch k1 L1 _ w); [done|apply make_ready_is|]. intros k2 HI2 Hi2 Hu2 Hwa2 Hr2 _. wp_ret. eexists L1, _. split; [exact HI2|]. split; [done|].
    apply sem_effect_intro; try done.
    + eapply undisturbed_trans; [by eapply undisturbed_make_ready; [exact Hth1|apply Hmisc1]|apply Hu2].
    + eapply want_same_trans; [|exact Hwa2]. by apply (want_same_insert k k1 w m (ready_stat m)).
    + by rewrite Hi2, (sm_ipc _ _ Hmisc1), put_semaphores_same.
    + intros Hpos. by specialize (Hfree Hpos).
    + repeat constructor. apply make_ready_is.
Qed.

Lemma wp_sem_reset k L A t sem flag v ws value : kinv_at k L A -> can_wait k A t -> sem_state k A sem flag v ws ->
  wp (rt_sem_control sem RT_IPC_CMD_RESET value) k (fun r k' => exists L' A', kinv_at k' L' A' /\
    let '(r0, v', ws', woke) := sem_next flag (prio_of k) t (Reset value) v ws in
    Some r = r0 /\ sem_effect t k A sem flag v' ws' woke k' A').
Proof.
  intros HI Hcw [Hs Hw Hv Hf Hfree]. unfold rt_sem_control. rewrite Z.eqb_refl. wp_bind.
  eapply wp_resume_all; [done|done|]. intros k1 L1 HI1 Hw1 Hth1 Hmisc1. wp_bind.
  eapply wp_get_sem; [by rewrite (sm_ipc _ _ Hmisc1)|]. wp_bind. apply wp_put_sem. wp_bind.
  eapply (wp_switch _ L1 _ t); [by apply with_sem_kinv|apply wake_all_ready; right; apply Hcw|].
  intros k2 HI2 Hi2 Hu2 Hwa2 Hr2 _. wp_ret. eexists L1, _. split; [exact HI2|]. split; [done|]. cbn [sem_flag] in *.
  destruct (woken_kept t k k1 A ws Hth1 Hmisc1) as [Hu1 Hwa1].
  apply sem_effect_intro; try done.
  - eapply undisturbed_trans; [exact Hu1|]. eapply undisturbed_trans; [|exact (Hu2 t)]. by apply undisturbed_sch.
  - eapply want_same_trans; [exact Hwa1|exact Hwa2].
  - rewrite Hi2. cbn. by rewrite (sm_ipc _ _ Hmisc1).
  - apply u16_range.
  - apply Forall_forall. intros x Hx. apply wake_all_ready. by left.
Qed.

Lemma wp_sem_op k L A t sem flag v ws op : kinv_at k L A -> can_wait k A t -> sem_state k A sem flag v ws -> sem_op_ok op ->
  wp (run_sem sem op) k (fun r k' => exists L' A', kinv_at k' L' A' /\
    let '(r0, v', ws', woke) := sem_next flag (prio_of k) t op v ws in r = r0 /\ sem_effect t k A sem flag v' ws' woke k' A').
Proof.
  intros HI Hcw Hst Hop. destruct op as [time| |value]; cbn [run_sem].
  - by apply (wp_sem_take k L).
  - wp_bind. eapply wp_mono; [by apply (wp_sem_release k L A t sem flag v ws)|]. intros r k' H. wp_ret. exact H.
  - wp_bind. eapply wp_mono; [by apply (wp_sem_reset k L A t sem flag v ws value)|]. intros r k' H. wp_ret. exact H.
Qed.

(** ** Creating the objects *)

(** A new object in the container of its class. *)
Lemma wp_new_object k L A o c name cs Q : kinv_at k L A -> c ∈ rt_object_container -> c <> RT_Object_Class_Thread ->
  c <> RT_Object_Class_Timer -> L !! Container c = Some cs -> available k L (Olist (Obj o)) ->
  (forall k' L', kinv_at k' L' A -> sch k' = sch k -> ipc k' = ipc k -> clk k' = clk k ->
     L' !! Container c = Some (Olist (Obj o) :: cs) -> (forall c', c' <> c -> L' !! Container c' = L !! Container c') ->
     (forall n, unknown L n -> n <> Olist (Obj o) -> unknown L' n) -> dom (lists k') = dom (lists k) -> Q tt k') ->
  wp (rt_object_init (Obj o) c name) k Q.
Proof.
  intros HI Hc Hct Hcm Hcs [Hu Hmem] HQ. pose proof (tv_linked _ _ _ _ (ki_timers _ _ _ HI)) as Hlk.
  eapply (wp_object_init k L (Obj o) c); [done|done|done|by apply unknown_free|done|].
  intros lk1 Hlk1 Hd1. set (L1 := <[Container c := _]> _) in Hlk1.
  assert (forall n, n <> Container c -> n <> Olist (Obj o) -> L1 !! n = L !! n) as HL
    by (intros n ? ?; unfold L1; by rewrite lookup_insert_ne, lookup_delete_ne).
  apply (HQ _ L1); try done.
  - destruct HI as [[Hl1 Hl2 Hl3 Hl4 Hl5 Hl6] [Hr1 Hr2 Hr3 Hr4 Hr5] Htw Hw Hwt Hfree Htts Hrun Hper Huser]. split; try done.
    + split; try done; [by rewrite HL|]. intros x m Hx. destruct (Hl6 _ _ Hx) as [|Hf]; [by left|right]. by rewrite HL.
    + split; try done. intros p Hp. rewrite HL by done. by apply Hr2.
    + intros h ws Hh. destruct (Hw _ _ Hh) as [Hwh Hl]. split; [done|]. rewrite HL; [done|by destruct h..].
    + intros t m Hm Hr. destruct (Hfree _ _ Hm Hr) as [|Hf]; [by left|right]. by rewrite HL.
  - apply lookup_insert_eq.
  - intros c' Hc'. apply HL; congruence.
  - intros n Hn ?. by apply unknown_extend.
Qed.

(** A new waiting list. *)
Lemma wp_new_wait k L A h Q : kinv_at k L A -> wait_head h -> unknown L h ->
  (forall k' L', kinv_at k' L' (set_wait h [] A) -> sch k' = sch k -> ipc k' = ipc k -> clk k' = clk k ->
     (forall n, n <> h -> L' !! n = L !! n) -> (forall n, unknown L n -> n <> h -> unknown L' n) ->
     (forall n, is_Some (lists k !! n) -> is_Some (lists k' !! n)) -> Q tt k') ->
  wp (list_init h) k Q.
Proof.
  intros HI Hh HuS HQ. pose proof (tv_linked _ _ _ _ (ki_timers _ _ _ HI)) as Hlk.
  eapply (wp_list_init _ L); [done|done|]. intros lk2 Hlk2 Hd2. set (L2 := <[h := []]> L) in *.
  assert (forall n, n <> h -> L2 !! n = L !! n) as HL by (intros; unfold L2; by rewrite lookup_insert_ne).
  assert (forall n, ~ wait_head n -> L2 !! n = L !! n) as HLn by (intros n Hn; apply HL; congruence).
  apply (HQ _ L2); try done.
  - destruct HI as [[Hl1 Hl2 Hl3 Hl4 Hl5 Hl6] [Hr1 Hr2 Hr3 Hr4 Hr5] Htw Hw Hwt Hfree Htts Hrun Hper Huser].
    assert (a_waits A !! h = None) as Hnew.
    { destruct (a_waits A !! h) as [ws|] eqn:Ha; [|done]. destruct (Hw _ _ Ha) as [_ Hl]. destruct (HuS _ _ Hl). left. }
    split; cbn [set_wait a_time a_timers a_ready a_waits]; try done.
    + split; try done; [by rewrite HLn by intros []|]. intros x m Hx. destruct (Hl6 _ _ Hx) as [|Hf]; [by left|right]. by rewrite HLn by intros [].
    + split; try done. intros p Hp. rewrite HLn by intros []. by apply Hr2.
    + intros h' ws [[<- <-]|[Hne Ha]]%lookup_insert_Some; [split; [done|]; unfold L2; by rewrite lookup_insert_eq|].
      destruct (Hw _ _ Ha) as [Hwh Hl]. split; [done|]. rewrite HL; [done|congruence].
    + intros h' ws t [[_ <-]|[_ Ha]]%lookup_insert_Some Hin; [by apply elem_of_nil in Hin|by eapply Hwt].
    + intros t m Hm Hr. destruct (Hfree _ _ Hm Hr) as [(h' & ws & Ha & Hin)|Hf].
      * left. exists h', ws. rewrite lookup_insert_ne; [done|]. congruence.
      * right. by rewrite HLn by intros [].
  - intros n Hn ?. by apply unknown_insert.
Qed.

Lemma base_container c : c ∈ rt_object_container -> base_lists !! Container c = Some [].
Proof.
  intros Hc. repeat (apply elem_of_cons in Hc as [->|Hc]; [vm_compute; reflexivity|]). by apply elem_of_nil in Hc.
Qed.

(** An IPC object of the small system: [fin] does what is left. *)
Lemma ipc_creates_with o c name (fin : K unit) (extra : K unit) W I : (o = 4 \/ o = 5 \/ o = 6) ->
  c ∈ rt_object_container -> c <> RT_Object_Class_Thread -> c <> RT_Object_Class_Timer ->
  (forall k, extra k = (rt_object_init (Obj o) c name ;; rt_ipc_object_init o ;; fin) k) ->
  (forall k L, kinv_at k L (mk_abs 0 [] (fun _ => []) {[Suspend o := []]}) -> ipc k = ipc base_kernel -> unknown L (Suspend_sender o) ->
     wp fin k (fun _ k' => exists L', kinv_at k' L' (mk_abs 0 [] (fun _ => []) W) /\ sch k' = sch k /\ ipc k' = I)) ->
  creates extra W I.
Proof.
  intros Ho Hc Hct Hcm Hextra Hfin k L HI Hi Hn Hcs. destruct (Hn (Olist (Obj o)) ltac:(cbn; lia)) as [Hu Hmem].
  unfold wp. rewrite Hextra. fold (wp (rt_object_init (Obj o) c name ;; rt_ipc_object_init o ;; fin) k
    (fun _ k' => exists L', kinv_at k' L' (mk_abs 0 [] (fun _ => []) W) /\ sch k' = sch k /\ ipc k' = I)).
  wp_bind. eapply (wp_new_object k L); [done|done|done|done|rewrite Hcs by done; by apply base_container|split; [done|]|].
  - apply Hmem. destruct Ho as [->|[->| ->]]; by eexists.
  - intros k1 L1 HI1 Hs1 Hi1 _ _ _ Hu1 _. unfold rt_ipc_object_init. wp_bind.
    eapply (wp_new_wait k1 L1); [done|done|by apply Hu1; [apply Hn|]|]. intros k2 L2 HI2 Hs2 Hi2 _ _ Hu2 _. wp_ret.
    eapply wp_mono; [apply (Hfin k2 L2); [exact HI2|congruence|]|].
    + by apply Hu2; [apply Hu1; [apply Hn|]|].
    + cbv beta. intros _ k3 (L3 & HI3 & Hs3 & Hi3). exists L3. split_and!; [done|congruence|done].
Qed.

Lemma ipc_creates o c name (fin : K unit) (extra : K unit) I : (o = 4 \/ o = 5 \/ o = 6) ->
  c ∈ rt_object_container -> c <> RT_Object_Class_Thread -> c <> RT_Object_Class_Timer ->
  (forall k, extra k = (rt_object_init (Obj o) c name ;; rt_ipc_object_init o ;; fin) k) ->
  (forall k, ipc k = ipc base_kernel -> fin k = Some (tt, with_ipc k I)) -> creates extra {[Suspend o := []]} I.
Proof.
  intros Ho Hc Hct Hcm Hextra Hfin. apply (ipc_creates_with o c name fin); [done..|]. intros k L HI Hi _.
  eapply wp_run; [by apply Hfin|]. exists L. split_and!; [by apply kinv_ipc|done|done].
Qed.

(** The semaphore 4 of the small system. *)
Definition demo_semaphore (value : Z) : K unit := rt_sem_init 4 [115] value RT_IPC_FLAG_PRIO ;; mret tt.

Lemma demo_semaphore_creates value : creates (demo_semaphore value) {[Suspend 4 := []]}
  (mk_ipc {[4 := mk_sem RT_IPC_FLAG_PRIO (u16 value)]} ∅ ∅ ∅ ∅ ∅).
Proof.
  apply (ipc_creates 4 RT_Object_Class_Semaphore [115] (put_sem 4 (mk_sem RT_IPC_FLAG_PRIO (u16 value))));
    [by left|right; left|done|done|unfold demo_semaphore, rt_sem_init; ipc_object_first|].
  intros k Hi. unfold put_sem, get, mbind, M_bind, put. by rewrite Hi.
Qed.

Lemma demo_semaphore_boots value : 0 <= value < 65536 -> exists k L A, boot_with (demo_semaphore value) base_kernel = Some (tt, k) /\
  kinv_at k L A /\ can_wait k A 1 /\ sem_state k A 4 RT_IPC_FLAG_PRIO value [] /\ a_time A = 0.
Proof.
  intros Hv. destruct (boots _ _ _ (demo_semaphore_creates value)) as (k & L & A & Hrun & HI & [HT _ Hw H10 _ _ Hcur _ _ Hi]).
  exists k, L, A. split_and!; [exact Hrun|exact HI| | |exact HT].
  - split; [exact Hcur|exists 10; rewrite H10; left|]. exists 10, 2. rewrite H10. split; [right; left|done].
  - split; [|by apply Hw, lookup_singleton_eq|done|by right|done]. rewrite Hi. cbn. rewrite u16_small by lia. apply lookup_singleton_eq.
Qed.
(** The release at the largest value loses all of it. *)
Lemma sem_release_wraps : exists k L A k', kinv_at k L A /\ sem_state k A 4 RT_IPC_FLAG_PRIO 65535 [] /\
  rt_sem_release 4 k = Some (RT_EOK, k') /\ semaphores (ipc k') !! 4 = Some (mk_sem RT_IPC_FLAG_PRIO 0).
Proof.
  destruct (demo_semaphore_boots 65535) as (k & L & A & _ & HI & Hcw & Hst & _); [lia|].
  destruct (wp_elim _ _ _ (wp_sem_release k L A 1 4 _ _ _ HI Hcw Hst)) as (r & k' & Hrun & L' & A' & _ & [= ->] & Heff).
  exists k, L, A, k'. split_and!; [done|done|done|]. apply (ss_sem _ _ _ _ _ _ (se_state _ _ _ _ _ _ _ _ _ _ Heff)).
Qed.

(** ** The property *)

(** C6: A semaphore refines a counter with a queue of threads: taking, releasing
    and resetting by the current thread have the result of [sem_next], which is
    the counter if it is positive, and else the queue in the order of its flag;
    a release with waiting threads gives the semaphore to the first of them.
    The invariant of the kernel holds afterwards, a ready thread runs, and the
    other objects and waiting lists are as they were. *)
Theorem semaphore_refines k L A t sem flag v ws op : kinv_at k L A -> can_wait k A t -> sem_state k A sem flag v ws ->
  sem_op_ok op ->
  let '(r, v', ws', woke) := sem_next flag (prio_of k) t op v ws in
  exists k' L' A', run_sem sem op k = Some (r, k') /\ kinv_at k' L' A' /\ sem_effect t k A sem flag v' ws' woke k' A'.
Proof.
  intros HI Hcw Hst Hop. pose proof (wp_sem_op k L A t sem flag v ws op HI Hcw Hst Hop) as Hwp.
  apply wp_elim in Hwp as (r' & k' & Hrun & L' & A' & HI' & Heff). destruct (sem_next _ _ _ _ _ _) as [[[r v'] ws'] woke].
  destruct Heff as [-> Heff]. by exists k', L', A'.
Qed.

Lemma semaphore_refines_witness : exists k L A, kinv_at k L A /\ a_time A = 0 /\
  exists k' L' A', run_sem 4 (Take 5) k = Some (None, k') /\ kinv_at k' L' A' /\
    sem_effect 1 k A 4 RT_IPC_FLAG_PRIO 0 [1] [] k' A'.
Proof.
  destruct (demo_semaphore_boots 0) as (k & L & A & _ & HI & Hcw & Hst & HT); [lia|]. exists k, L, A.
  split; [exact HI|]. split; [exact HT|].
  exact (semaphore_refines k L A 1 4 RT_IPC_FLAG_PRIO 0 [] (Take 5) HI Hcw Hst ltac:(vm_compute; reflexivity)).
Defined.
End ops.
