(* ===== verification/Mutex.v ===== *)
(** * Mutexes (src/ipc.c)

    The owner, the depth of its nested takes, and the priority that the owner
    inherits from the threads that wait. *)

From S2P Require Import Prelude Klist Kernel Object Timer Sched Thread Boot Tick Ipc.

Open Scope Z_scope.

(** ** The operations *)

Definition get_mutex (mutex : Z) : K rt_mutex := k ← get; of_opt (mutexes (ipc k) !! mutex).
Definition put_mutex (mutex : Z) (m : rt_mutex) : K unit :=
  k ← get; put (with_ipc k (put_mutexes (ipc k) mutex m)).

Definition new_mutex (flag : Z) : rt_mutex := mk_mutex flag 1 0xFF 0 None.

Definition rt_mutex_init (mutex : Z) (name : list Z) (flag : Z) : K Z :=
  rt_object_init (Obj mutex) RT_Object_Class_Mutex name ;;
  rt_ipc_object_init mutex ;;
  put_mutex mutex (new_mutex flag) ;;
  mret RT_EOK.

Definition rt_mutex_detach (mutex : Z) : K Z :=
  rt_ipc_list_resume_all (Suspend mutex) ;; rt_object_detach (Obj mutex) ;; mret RT_EOK.

Section heap.
Context (object_size : Z -> Z) (malloc : Z -> K (option addr)) (free : addr -> K unit).

Definition rt_mutex_create (name : list Z) (flag : Z) : K (option Z) :=
  mutex ← rt_object_allocate object_size malloc RT_Object_Class_Mutex name;
  match mutex with
  | None => mret None
  | Some (Thread_timer _) => ub
  | Some (Obj mutex) => rt_ipc_object_init mutex ;; put_mutex mutex (new_mutex flag) ;; mret (Some mutex)
  end.

Definition rt_mutex_delete (mutex : Z) : K Z :=
  rt_ipc_list_resume_all (Suspend mutex) ;; rt_object_delete free (Obj mutex) ;; mret RT_EOK.
End heap.

(** From the label [__again]. *)
Definition mutex_again (mutex thread time : Z) : K (option Z) :=
  x ← get_mutex mutex;
  if 0 <? mutex_value x then
    m ← get_thread thread;
    put_mutex mutex (mk_mutex (mutex_flag x) (u16 (mutex_value x - 1)) (current_priority m) (u8 (hold x + 1)) (Some thread)) ;;
    mret (Some RT_EOK)
  else if time =? 0 then put_error thread (- RT_ETIMEOUT) ;; mret (Some (- RT_ETIMEOUT))
  else
    o ← of_opt (owner x); m ← get_thread thread; mo ← get_thread o;
    (if current_priority m <? current_priority mo then
       rt_thread_control o RT_THREAD_CTRL_CHANGE_PRIORITY (current_priority m) ;; mret tt
     else mret tt) ;;
    start_waiting (Suspend mutex) thread (mutex_flag x) time ;; mret None.

Definition rt_mutex_take_begin (mutex time : Z) : K (option Z) :=
  self ← rt_thread_self; thread ← of_opt self;
  put_error thread RT_EOK ;;
  x ← get_mutex mutex;
  if decide (owner x = Some thread) then
    put_mutex mutex (mk_mutex (mutex_flag x) (mutex_value x) (original_priority x) (u8 (hold x + 1)) (owner x)) ;;
    mret (Some RT_EOK)
  else mutex_again mutex thread time.

Definition rt_mutex_take_end (mutex thread time : Z) : K (option Z) :=
  m ← get_thread thread;
  if negb (error m =? RT_EOK) then
    if error m =? - RT_EINTR then mutex_again mutex thread time else mret (Some (error m))
  else mret (Some RT_EOK).

(** The mutex is given to the first thread that waits, or becomes free. *)
Definition mutex_handover (mutex : Z) : K bool :=
  x ← get_mutex mutex;
  e ← list_isempty (Suspend mutex);
  if negb e then
    n ← list_next (Suspend mutex); thread ← thread_entry n; m ← get_thread thread;
    put_mutex mutex (mk_mutex (mutex_flag x) (mutex_value x) (current_priority m) (u8 (hold x + 1)) (Some thread)) ;;
    rt_ipc_list_resume (Suspend mutex) ;; mret true
  else
    put_mutex mutex (mk_mutex (mutex_flag x) (u16 (mutex_value x + 1)) 0xff (hold x) None) ;; mret false.

Definition rt_mutex_release (mutex : Z) : K Z :=
  self ← rt_thread_self; thread ← of_opt self;
  x ← get_mutex mutex;
  if negb (bool_decide (Some thread = owner x)) then put_error thread (- RT_ERROR) ;; mret (- RT_ERROR) else
  put_mutex mutex (mk_mutex (mutex_flag x) (mutex_value x) (original_priority x) (u8 (hold x - 1)) (owner x)) ;;
  x ← get_mutex mutex;
  need_schedule ← (if hold x =? 0 then
      m ← get_thread thread;
      (if negb (original_priority x =? current_priority m) then
         rt_thread_control thread RT_THREAD_CTRL_CHANGE_PRIORITY (original_priority x) ;; mret tt
       else mret tt) ;;
      mutex_handover mutex
    else mret false);
  (if need_schedule : bool then rt_schedule else mret tt) ;;
  mret RT_EOK.

Definition rt_mutex_control (mutex cmd arg : Z) : K Z := mret (- RT_ERROR).

(** ** Changing the priority of a thread *)

Section ops.
Implicit Types (k : kernel) (L : gmap node (list node)) (A : abs) (t p : Z) (m : rt_thread).

Lemma reprioritised_ready t p A x : is_ready A t -> is_ready (reprioritised t p A) x <-> is_ready A x.
Proof.
  intros Ht. unfold is_ready. cbn. split; intros [q Hq].
  - unfold upd in Hq. case_decide as Hqp.
    + apply elem_of_app in Hq as [Hq|Hq%list_elem_of_singleton]; [|by subst]. exists p. by apply elem_of_drop in Hq as [? _].
    + exists q. by apply elem_of_drop in Hq as [? _].
  - destruct (decide (x = t)) as [->|Hne].
    + exists p. rewrite upd_eq, elem_of_app, list_elem_of_singleton. tauto.
    + exists q. unfold upd. case_decide; [subst; rewrite elem_of_app; left|]; by apply elem_of_drop.
Qed.

Record same_but_priority (k : kernel) A t p k' A' : Prop := {
  sp_time : a_time A' = a_time A;
  sp_timers : a_timers A' = a_timers A;
  sp_waits : a_waits A' = a_waits A;
  sp_ready : forall x, is_ready A' x <-> is_ready A x;
  sp_threads : exists m m', threads (sch k) !! t = Some m /\ threads (sch k') = <[t := m']> (threads (sch k)) /\
    current_priority m' = p /\ (forall s, is_stat s m' = is_stat s m) /\ event_set m' = event_set m /\ event_info m' = event_info m;
  sp_misc : same_misc k k';
}.

Lemma wp_set_priority k L A t m p Q : kinv_at k L A -> threads (sch k) !! t = Some m -> priority_ok p ->
  (forall k' L' A', kinv_at k' L' A' -> same_but_priority k A t p k' A' -> Q RT_EOK k') ->
  wp (rt_thread_control t RT_THREAD_CTRL_CHANGE_PRIORITY p) k Q.
Proof.
  intros HI Hm Hp HQ. unfold rt_thread_control. rewrite Z.eqb_refl. wp_bind. eapply wp_change_priority; [done|done|done| |].
  - intros Hr. wp_ret. apply (HQ _ L A); [by apply kinv_set_priority|]. split; try done.
    exists m, (set_priority m p). by split_and!.
  - intros Hr k' L' HI' Hth' _ Hmisc. wp_ret. apply (HQ k' L' _ HI'). split; try done.
    + intros x. apply reprioritised_ready. exists (current_priority m). by apply (tw_only _ _ (ki_threads _ _ _ HI)).
    + exists m, (ready_stat (set_priority m p)). split_and!; [done|done|done| |done|done]. intros s. rewrite ready_is.
      unfold is_stat in *. apply Z.eqb_eq in Hr. rewrite Hr. apply Z.eqb_sym.
Qed.

Lemma priority_kept k A t p k' A' t0 : same_but_priority k A t p k' A' -> undisturbed t0 k A k' A' /\ want_same k k'.
Proof.
  intros [HT Hts _ Hr (m & m' & Hm & Hth & _ & _ & Hes & Hei) Hmisc]. split; [split|].
  - done.
  - unfold none_due. by rewrite HT, Hts.
  - intros i _. apply Hr.
  - intros i Hi. rewrite Hth. apply lookup_insert_is_Some. destruct (decide (t = i)); tauto.
  - apply Hmisc.
  - by apply (want_same_insert k k' t m m').
Qed.

(** The priorities afterwards. *)
Definition pupd (prio : Z -> Z) (t p : Z) : Z -> Z := fun x => if decide (x = t) then p else prio x.

Lemma prio_changed k A t p k' A' : same_but_priority k A t p k' A' -> forall x, prio_of k' x = pupd (prio_of k) t p x.
Proof.
  intros [_ _ _ _ (m & m' & Hm & Hth & <- & _) _] x. unfold prio_of, pupd. rewrite Hth. case_decide as Hx.
  - subst. by rewrite lookup_insert_eq.
  - by rewrite lookup_insert_ne.
Qed.

(** ** A mutex as its owner and its queue *)

Inductive mutex_abs := Free | Held (o h orig : Z) (ws : list Z).

Definition mutex_state (k : kernel) (A : abs) (x flag : Z) (st : mutex_abs) : Prop :=
  flag_ok flag /\
  match st with
  | Free => mutexes (ipc k) !! x = Some (new_mutex flag) /\ a_waits A !! Suspend x = Some []
  | Held o h orig ws =>
      mutexes (ipc k) !! x = Some (mk_mutex flag 0 orig h (Some o)) /\ a_waits A !! Suspend x = Some ws /\
      1 <= h < 256 /\ priority_ok orig /\ is_Some (threads (sch k) !! o) /\ o ∉ ws
  end.

Inductive mutex_op := Mutex_take (time : Z) | Mutex_release.

Definition run_mutex (x : Z) (op : mutex_op) : K (option Z) :=
  match op with
  | Mutex_take time => rt_mutex_take_begin x time
  | Mutex_release => r ← rt_mutex_release x; mret (Some r)
  end.

(** The result for thread [t] ([None]: it waits), the new state, the priorities
    of all threads afterwards and the threads that are woken. *)
Definition mutex_next (flag : Z) (prio : Z -> Z) (t : Z) (op : mutex_op) (st : mutex_abs) :
    option Z * mutex_abs * (Z -> Z) * list Z :=
  match op, st with
  | Mutex_take _, Free => (Some RT_EOK, Held t 1 (prio t) [], prio, [])
  | Mutex_take time, Held o h orig ws =>
      if decide (o = t) then (Some RT_EOK, Held t (h + 1) orig ws, prio, []) else
      if time =? 0 then (Some (- RT_ETIMEOUT), st, prio, []) else
      let prio' := pupd prio o (Z.min (prio o) (prio t)) in
      (None, Held o h orig (place flag prio' t ws), prio', [])
  | Mutex_release, Free => (Some (- RT_ERROR), st, prio, [])
  | Mutex_release, Held o h orig ws =>
      if decide (o = t) then
        if h =? 1 then
          let prio' := pupd prio t orig in
          match ws with
          | [] => (Some RT_EOK, Free, prio', [])
          | w :: ws => (Some RT_EOK, Held w 1 (prio' w) ws, prio', [w])
          end
        else (Some RT_EOK, Held t (h - 1) orig ws, prio, [])
      else (Some (- RT_ERROR), st, prio, [])
  end.

(** The depth is a byte, and the timer takes less than half of the ticks. *)
Definition mutex_op_ok (t : Z) (op : mutex_op) (st : mutex_abs) : Prop :=
  match op, st with
  | Mutex_take time, Held o h _ _ => time < RT_TICK_MAX / 2 /\ (o = t -> h < 255)
  | _, _ => True
  end.

Record mutex_effect (t : Z) (k : kernel) (A : abs) (x flag : Z) (st' : mutex_abs) (prio' : Z -> Z) (woke : list Z) (k' : kernel) (A' : abs) : Prop := {
  me_kept : undisturbed t k A k' A';
  me_running : running k' A';
  me_want : want_same k k';
  me_state : mutex_state k' A' x flag st';
  me_prio : forall i, prio_of k' i = prio' i;
  me_waits : exists ws, a_waits A' = <[Suspend x := ws]> (a_waits A);
  me_ipc : exists m : rt_mutex, ipc k' = put_mutexes (ipc k) x m;
  me_woke : Forall (is_ready A') woke;
}.

Definition with_mutex (k : kernel) (x : Z) (m : rt_mutex) : kernel :=
  with_ipc k (put_mutexes (ipc k) x m).

Lemma wp_get_mutex k x (m : rt_mutex) Q : mutexes (ipc k) !! x = Some m -> Q m k -> wp (get_mutex x) k Q.
Proof. intros Hm HQ. eapply wp_run; [|exact HQ]. unfold get_mutex, mbind, M_bind, get, of_opt. by rewrite Hm. Qed.

Lemma wp_put_mutex k x (m : rt_mutex) Q : Q tt (with_mutex k x m) -> wp (put_mutex x m) k Q.
Proof. done. Qed.

Lemma with_mutex_kinv k L A x (m : rt_mutex) : kinv_at k L A -> kinv_at (with_mutex k x m) L A.
Proof. apply kinv_ipc. Qed.

Lemma put_mutexes_same i x (m : rt_mutex) : mutexes i !! x = Some m -> put_mutexes i x m = i.
Proof. intros Hx. unfold put_mutexes. rewrite insert_id by done. by destruct i. Qed.

Lemma mutex_effect_intro t k k' A A' x flag (m : rt_mutex) ws st' prio' woke : ipc k' = put_mutexes (ipc k) x m ->
  a_waits A' = <[Suspend x := ws]> (a_waits A) -> undisturbed t k A k' A' -> running k' A' -> want_same k k' ->
  (mutexes (ipc k') !! x = Some m -> a_waits A' !! Suspend x = Some ws -> mutex_state k' A' x flag st') ->
  (forall i, prio_of k' i = prio' i) -> Forall (is_ready A') woke -> mutex_effect t k A x flag st' prio' woke k' A'.
Proof.
  intros Hi Hw Hu Hr Hwa Hst Hp Hwo. split; try done; [|by exists ws|by exists m].
  apply Hst; [rewrite Hi; apply lookup_insert_eq|by rewrite Hw, lookup_insert_eq].
Qed.

Lemma threads_insert_some (tm : gmap Z rt_thread) t m i : is_Some (tm !! i) -> is_Some (<[t := m]> tm !! i).
Proof. intros Hi. apply lookup_insert_is_Some. destruct (decide (t = i)); tauto. Qed.

Lemma others_ready_same t A A' : (forall x, is_ready A' x <-> is_ready A x) -> others_ready t A -> others_ready t A'.
Proof. intros Hr (p & t0 & Hp & Hne). destruct (proj2 (Hr t0)) as [q Hq]; [by exists p|]. by exists q, t0. Qed.

Lemma held_intro k A x flag o h orig ws : flag_ok flag -> mutexes (ipc k) !! x = Some (mk_mutex flag 0 orig h (Some o)) ->
  a_waits A !! Suspend x = Some ws -> 1 <= h < 256 -> priority_ok orig -> is_Some (threads (sch k) !! o) -> o ∉ ws ->
  mutex_state k A x flag (Held o h orig ws).
Proof. intros. split; [done|]. do 5 (split; [done|]). done. Qed.

Lemma mutex_state_same k k' A A' x f st : mutexes (ipc k') !! x = mutexes (ipc k) !! x -> a_waits A' = a_waits A ->
  (forall i, is_Some (threads (sch k) !! i) -> is_Some (threads (sch k') !! i)) -> mutex_state k A x f st -> mutex_state k' A' x f st.
Proof.
  intros Hi Hw Hth [Hf Hst]. destruct st as [|o h orig ws]; [split; [done|by rewrite Hi, Hw]|].
  destruct Hst as (? & ? & ? & ? & ? & ?). apply held_intro; try done; [by rewrite Hi|by rewrite Hw|by apply Hth].
Qed.

(** Steps that prepare the one that changes the mutex. *)
Lemma mutex_effect_before t k A k1 A1 x flag st' prio1 prio' woke k' A' : undisturbed t k A k1 A1 -> want_same k k1 ->
  a_waits A1 = a_waits A -> (exists m : rt_mutex, ipc k1 = put_mutexes (ipc k) x m) -> (forall i, prio1 i = prio' i) ->
  mutex_effect t k1 A1 x flag st' prio1 woke k' A' -> mutex_effect t k A x flag st' prio' woke k' A'.
Proof.
  intros Hu Hwa Hw [m1 Hi1] Hp [H1 H2 H3 H4 H5 [ws H6] [m H7] H8]. split; try done.
  - by eapply undisturbed_trans.
  - by eapply want_same_trans.
  - intros i. by rewrite H5.
  - exists ws. by rewrite H6, Hw.
  - exists m. rewrite H7, Hi1. unfold put_mutexes. cbn. by rewrite insert_insert_eq.
Qed.

(** The part from [__again] when the mutex belongs to another thread. *)
Lemma wp_mutex_wait k L A t m x flag o h orig ws time Q : kinv_at k L A -> threads (sch k) !! t = Some m ->
  is_stat RT_THREAD_READY m = true -> others_ready t A -> mutex_state k A x flag (Held o h orig ws) -> o <> t ->
  time <> 0 -> time < RT_TICK_MAX / 2 ->
  (let prio' := pupd (prio_of k) o (Z.min (prio_of k o) (prio_of k t)) in
   forall k' L' A', kinv_at k' L' A' ->
     mutex_effect t k A x flag (Held o h orig (place flag prio' t ws)) prio' [] k' A' -> Q None k') ->
  wp (mutex_again x t time) k Q.
Proof.
  intros HI Hm Hr Hothers (Hf & Hx & Hw & Hh & Horig & [mo Hmo] & Ho) Hne Ht0 Htime HQ. cbv zeta in HQ.
  set (prio' := pupd _ _ _) in HQ. unfold mutex_again. wp_bind. eapply wp_get_mutex; [exact Hx|]. cbn [mutex_value].
  change (0 <? 0) with false. cbn iota. rewrite (proj2 (Z.eqb_neq time 0)) by done. cbn [owner]. wp_bind.
  eapply wp_of_opt; [done|]. wp_bind. eapply wp_get_thread; [exact Hm|]. wp_bind. eapply wp_get_thread; [exact Hmo|].
  assert (prio_of k t = current_priority m) as Hpt by (unfold prio_of; by rewrite Hm).
  assert (prio_of k o = current_priority mo) as Hpo by (unfold prio_of; by rewrite Hmo).
  assert (forall k1 L1 A1 m1, kinv_at k1 L1 A1 -> threads (sch k1) !! t = Some m1 -> is_stat RT_THREAD_READY m1 = true ->
    others_ready t A1 -> a_waits A1 = a_waits A -> ipc k1 = ipc k -> undisturbed t k A k1 A1 -> want_same k k1 ->
    (forall i, prio_of k1 i = prio' i) ->
    wp (start_waiting (Suspend x) t flag time ;; mret None) k1 Q) as Hwait.
  { intros k1 L1 A1 m1 HI1 Hm1 Hr1 Ho1 Hw1 Hi1 Hu1 Hwa1 Hp1. wp_bind.
    eapply (wp_start_waiting k1 L1 A1 t m1 (Suspend x) ws flag time); [done|done|done|by rewrite Hw1|done|done|done|].
    intros k2 L2 A2 HI2 Hth2 Hi2 _ Hn2 Hruns. wp_ret. apply (HQ k2 L2 A2 HI2).
    assert (undisturbed t k A k2 A2) as Hu2 by (eapply undisturbed_trans; [exact Hu1|by eapply undisturbed_waiting]).
    apply (mutex_effect_intro t k k2 A A2 x flag (mk_mutex flag 0 orig h (Some o)) (place flag prio' t ws)).
    - by rewrite Hi2, Hi1, put_mutexes_same.
    - unfold A2. by rewrite waiting_waits, Hw1, (place_ext flag (prio_of k1) prio').
    - done.
    - by apply (runs_highest_running _ k1).
    - eapply want_same_trans; [exact Hwa1|]. by apply (want_same_insert k1 k2 t m1 (suspend_stat m1)).
    - intros Hx2 Hw2. apply held_intro; [done|done|done|done|done| |by rewrite place_perm, not_elem_of_cons].
      apply (ud_threads _ _ _ _ _ Hu2). by exists mo.
    - intros i. rewrite <-Hp1. apply (make_ready_prio k1 k2 t (suspend_stat m1)); [done| |by exists m1].
      intros m0 Hm0. rewrite Hm1 in Hm0. by injection Hm0 as <-.
    - done. }
  wp_bind. destruct (Z.ltb_spec (current_priority m) (current_priority mo)) as [Hlt|Hge].
  - wp_bind. eapply (wp_set_priority k L A o mo); [done|done|by apply (tw_prio _ _ (ki_threads _ _ _ HI) t m)|].
    intros k1 L1 A1 HI1 Hsame. wp_ret. pose proof (prio_changed _ _ _ _ _ _ Hsame) as Hp1.
    destruct (priority_kept _ _ _ _ _ _ t Hsame) as [Hu1 Hwa1]. destruct Hsame as [_ _ Hw1 Hr1 (_ & mo' & _ & Hth1 & _) Hmisc1].
    eapply (Hwait k1 L1 A1 m); try done; [by rewrite Hth1, lookup_insert_ne|by eapply others_ready_same|apply Hmisc1|].
    intros i. rewrite Hp1. unfold prio'. by rewrite Hpt, Hpo, Z.min_r by lia.
  - wp_ret. eapply (Hwait k L A m); try done. intros i. unfold prio', pupd. case_decide as Hio; [|done].
    subst i. by rewrite Hpt, Hpo, Z.min_l by lia.
Qed.

Lemma wp_mutex_take k L A t x flag st time : kinv_at k L A -> can_wait k A t -> mutex_state k A x flag st ->
  mutex_op_ok t (Mutex_take time) st ->
  wp (rt_mutex_take_begin x time) k (fun r k' => exists L' A', kinv_at k' L' A' /\
    let '(r0, st', prio', woke) := mutex_next flag (prio_of k) t (Mutex_take time) st in
    r = r0 /\ mutex_effect t k A x flag st' prio' woke k' A').
Proof.
  intros HI Hcw Hst Hop. destruct (cw_thread _ _ _ _ HI Hcw) as (m & Hm & Hr).
  unfold rt_mutex_take_begin, rt_thread_self, put_error. wp_bind. apply wp_get, wp_ret. wp_bind.
  eapply wp_of_opt; [apply Hcw|]. wp_bind. eapply wp_get_thread; [exact Hm|]. apply wp_put_thread.
  set (m1 := set_error m RT_EOK). set (k1 := with_thread k t m1).
  assert (kinv_at k1 L A) as HI1 by by apply kinv_put_error.
  pose proof (prio_put_error k t m RT_EOK Hm) as Hp1. fold m1 k1 in Hp1.
  assert (threads (sch k1) !! t = Some m1) as Hm1 by apply lookup_insert_eq.
  assert (undisturbed t k A k1 A) as Hu1 by apply undisturbed_thread.
  assert (want_same k k1) as Hwa1 by by apply (want_same_insert k k1 t m m1).
  assert (prio_of k t = current_priority m) as Hpt by (unfold prio_of; by rewrite Hm).
  assert (running k1 A) as Hr1 by (intros _; exists t; split; apply Hcw).
  assert (forall st0 prio0 woke k2 A2, mutex_effect t k1 A x flag st0 prio0 woke k2 A2 ->
    (exists m0 : rt_mutex, mutexes (ipc k) !! x = Some m0) -> mutex_effect t k A x flag st0 prio0 woke k2 A2) as Hbefore.
  { intros st0 prio0 woke k2 A2 Heff [m0 Hm0]. eapply (mutex_effect_before t k A k1 A); [done..| |done|exact Heff].
    exists m0. by rewrite put_mutexes_same. }
  destruct st as [|o h orig ws].
  - destruct Hst as (Hf & Hx & Hw). wp_bind. eapply wp_get_mutex; [exact Hx|]. rewrite decide_False by done.
    unfold mutex_again. wp_bind. eapply wp_get_mutex; [exact Hx|]. cbn [new_mutex mutex_value mutex_flag hold].
    change (0 <? 1) with true. cbn iota. wp_bind. eapply wp_get_thread; [exact Hm1|]. wp_bind. apply wp_put_mutex. wp_ret.
    exists L, A. split; [by apply with_mutex_kinv|]. cbn [mutex_next]. split; [done|]. apply Hbefore; [|by eexists].
    apply (mutex_effect_intro t k1 _ A A x flag (mk_mutex flag 0 (current_priority m) 1 (Some t)) []);
      [done|by rewrite insert_id|by apply undisturbed_sch|by apply (running_sch k1)|by apply want_same_threads| |done|done].
    intros Hx' Hw'. rewrite Hpt. apply held_intro; [done|done|done|done|by apply (tw_prio _ _ (ki_threads _ _ _ HI) t m)|by exists m1|apply not_elem_of_nil].
  - pose proof Hst as (Hf & Hx & Hw & Hh & Horig & Ho & Hno). cbn in Hop. destruct Hop as [Htime Hdepth].
    assert (is_Some (threads (sch k1) !! o)) as Ho1 by by apply (ud_threads _ _ _ _ _ Hu1).
    wp_bind. eapply wp_get_mutex; [exact Hx|]. cbn [owner mutex_next]. destruct (decide (o = t)) as [->|Hne].
    + rewrite decide_True by done. wp_bind. apply wp_put_mutex. wp_ret. exists L, A. split; [by apply with_mutex_kinv|]. split; [done|].
      cbn [hold mutex_flag mutex_value original_priority]. rewrite u8_small by lia. apply Hbefore; [|by eexists].
      apply (mutex_effect_intro t k1 _ A A x flag (mk_mutex flag 0 orig (h + 1) (Some t)) ws);
        [done|by rewrite insert_id|by apply undisturbed_sch|by apply (running_sch k1)|by apply want_same_threads| |done|done].
      intros Hx' Hw'. apply held_intro; [done|done|done|specialize (Hdepth eq_refl); lia|done|done|done].
    + rewrite decide_False by congruence. destruct (Z.eqb_spec time 0) as [->|Ht0].
      * unfold mutex_again. wp_bind. eapply wp_get_mutex; [exact Hx|]. cbn [mutex_value]. change (0 <? 0) with false. cbn iota.
        rewrite Z.eqb_refl. unfold put_error. wp_bind. eapply wp_get_thread; [exact Hm1|]. apply wp_put_thread. wp_ret.
        set (k2 := with_thread k1 t _). assert (kinv_at k2 L A) as HI2 by by apply kinv_put_error.
        exists L, A. split; [done|]. split; [done|]. apply Hbefore; [|by eexists].
        apply (mutex_effect_intro t k1 k2 A A x flag (mk_mutex flag 0 orig h (Some o)) ws);
          [by rewrite put_mutexes_same|by rewrite insert_id|apply undisturbed_thread| |by apply (want_same_insert k1 k2 t m1 (set_error m1 (- RT_ETIMEOUT)))| | |done].
        -- intros _. exists t. split; apply Hcw.
        -- intros Hx' Hw'. apply held_intro; [done|done|done|done|done|by apply threads_insert_some|done].
        -- intros i. unfold k2. by rewrite (prio_put_error k1 t m1).
      * eapply (wp_mutex_wait k1 L A t m1 x flag o h orig ws time); try done; [apply Hcw|].
        intros prio1 k2 L2 A2 HI2 Heff. unfold prio1 in Heff. exists L2, A2. split; [done|]. split; [done|].
        assert (forall i, pupd (prio_of k1) o (Z.min (prio_of k1 o) (prio_of k1 t)) i =
          pupd (prio_of k) o (Z.min (prio_of k o) (prio_of k t)) i) as Hpp by (intros i; unfold pupd; by rewrite !Hp1).
        rewrite (place_ext flag _ _ t ws Hpp) in Heff. apply Hbefore; [|by eexists].
        destruct Heff as [H1 H2 H3 H4 H5 H6 H7 H8]. split; try done. intros i. by rewrite H5.
Qed.

(** The mutex goes to the first thread that waits. *)
Definition given (prio : Z -> Z) (ws : list Z) : mutex_abs * list Z :=
  match ws with [] => (Free, []) | w :: ws => (Held w 1 (prio w) ws, [w]) end.

Lemma wp_mutex_handover k L A x t flag orig ws Q : kinv_at k L A -> mutexes (ipc k) !! x = Some (mk_mutex flag 0 orig 0 (Some t)) ->
  a_waits A !! Suspend x = Some ws -> flag_ok flag -> running k A ->
  (forall k' L' A', kinv_at k' L' A' ->
     (let '(st', woke) := given (prio_of k) ws in
      mutex_effect t k A x flag st' (prio_of k) woke k' A') -> Q RT_EOK k') ->
  wp (mutex_handover x) k (fun need k' => wp ((if need : bool then rt_schedule else mret tt) ;; mret RT_EOK) k' Q).
Proof.
  intros HI Hx Hw Hf Hrun HQ. destruct (ki_waits _ _ _ HI _ _ Hw) as [_ Hl]. unfold mutex_handover. wp_bind.
  eapply wp_get_mutex; [exact Hx|]. wp_bind. eapply wp_isempty; [apply HI|exact Hl|]. destruct ws as [|w ws].
  - rewrite bool_decide_true by done. cbn [negb mutex_flag mutex_value hold]. wp_bind. apply wp_put_mutex. wp_ret. wp_bind. wp_ret. wp_ret.
    apply (HQ _ L A); [by apply with_mutex_kinv|].
    apply (mutex_effect_intro t k _ A A x flag (new_mutex flag) []);
      [done|by rewrite insert_id|by apply undisturbed_sch|by apply (running_sch k)|by apply want_same_threads|done..].
  - rewrite bool_decide_false by done. cbn [negb]. wp_bind. eapply wp_next; [eapply linked_first; [apply HI|exact Hl]|].
    destruct (waiting_suspended _ _ _ _ _ w HI Hw) as (m & Hm & _); [left|].
    assert (prio_of k w = current_priority m) as Hpw by (unfold prio_of; by rewrite Hm).
    cbn [fmap list_fmap head default from_option thread_entry id]. wp_pure. eapply wp_get_thread; [exact Hm|]. wp_bind. apply wp_put_mutex.
    cbn [mutex_flag mutex_value hold]. change (u8 (0 + 1)) with 1. wp_bind. set (k0 := with_mutex k x _).
    eapply (wp_ipc_resume k0 L A (Suspend x) w m ws); [by apply with_mutex_kinv|done|done|].
    intros k1 L1 HI1 Hw1 Hth1 Hmisc1. wp_ret. wp_bind. eapply (wp_switch k1 L1 _ w); [done|apply make_ready_is|].
    intros k2 HI2 Hi2 Hu2 Hwa2 Hr2 Hth2. wp_ret. apply (HQ k2 L1 _ HI2).
    apply (mutex_effect_intro t k k2 A _ x flag (mk_mutex flag 0 (current_priority m) 1 (Some w)) ws); try done.
    + by rewrite Hi2, (sm_ipc _ _ Hmisc1).
    + eapply undisturbed_trans; [|exact (Hu2 t)]. eapply (undisturbed_trans t k A k0 A); [by apply undisturbed_sch|].
      by eapply undisturbed_make_ready; [exact Hth1|apply Hmisc1].
    + eapply want_same_trans; [|exact Hwa2]. by apply (want_same_insert k k1 w m (ready_stat m)).
    + intros Hx2 Hw2. rewrite Hpw. apply held_intro; [done|done|done|done| | |].
      * by apply (tw_prio _ _ (ki_threads _ _ _ HI) w m).
      * rewrite Hth2, Hth1, lookup_insert_eq. by eexists.
      * by apply NoDup_cons, (waits_nodup _ _ _ _ _ HI Hw).
    + intros i. rewrite (prio_of_same k1 k2) by done. apply (make_ready_prio k k1 w (ready_stat m)); [done| |by exists m].
      intros m0 Hm0. rewrite Hm in Hm0. by injection Hm0 as <-.
    + repeat constructor. apply make_ready_is.
Qed.

(** The last release also gives the owner its own priority back. *)
Lemma wp_mutex_give_up k L A x t m flag orig ws Q : kinv_at k L A -> mutexes (ipc k) !! x = Some (mk_mutex flag 0 orig 0 (Some t)) ->
  a_waits A !! Suspend x = Some ws -> flag_ok flag -> priority_ok orig -> running k A -> threads (sch k) !! t = Some m ->
  (let prio' := pupd (prio_of k) t orig in
   forall k' L' A', kinv_at k' L' A' ->
     (let '(st', woke) := given prio' ws in mutex_effect t k A x flag st' prio' woke k' A') -> Q RT_EOK k') ->
  wp (m ← get_thread t;
      (if negb (orig =? current_priority m) then rt_thread_control t RT_THREAD_CTRL_CHANGE_PRIORITY orig ;; mret tt else mret tt) ;;
      mutex_handover x) k (fun need k' => wp ((if need : bool then rt_schedule else mret tt) ;; mret RT_EOK) k' Q).
Proof.
  intros HI Hx Hw Hf Horig Hrun Hm. set (prio' := pupd (prio_of k) t orig). intros HQ. cbv zeta in HQ. wp_bind. eapply wp_get_thread; [exact Hm|].
  assert (prio_of k t = current_priority m) as Hpt by (unfold prio_of; by rewrite Hm).
  assert (forall k1 L1 A1, kinv_at k1 L1 A1 -> ipc k1 = ipc k -> a_waits A1 = a_waits A -> running k1 A1 ->
    undisturbed t k A k1 A1 -> want_same k k1 -> (forall i, prio_of k1 i = prio' i) ->
    wp (mutex_handover x) k1 (fun need k' => wp ((if need : bool then rt_schedule else mret tt) ;; mret RT_EOK) k' Q)) as Hrest.
  { intros k1 L1 A1 HI1 Hi1 Hw1 Hr1 Hu1 Hwa1 Hp1.
    eapply (wp_mutex_handover k1 L1 A1 x t flag orig ws); [done|by rewrite Hi1|by rewrite Hw1|done|done|].
    intros k' L' A' HI' Heff. apply (HQ k' L' A' HI').
    destruct ws as [|w ws]; cbn [given] in *; rewrite ?Hp1 in Heff;
      (eapply (mutex_effect_before t k A k1 A1); [done|done|done|eexists; by rewrite Hi1, put_mutexes_same|exact Hp1|exact Heff]). }
  wp_bind. destruct (Z.eqb_spec orig (current_priority m)) as [Heq|Hneq]; cbn [negb].
  - wp_ret. apply (Hrest k L A); try done. intros i. unfold prio', pupd. case_decide as Hi; [|done]. subst i. by rewrite Hpt.
  - wp_bind. eapply (wp_set_priority k L A t m orig); [done..|]. intros k1 L1 A1 HI1 Hsame. wp_ret.
    pose proof (prio_changed _ _ _ _ _ _ Hsame) as Hp1. destruct (priority_kept _ _ _ _ _ _ t Hsame) as [Hu1 Hwa1].
    destruct Hsame as [_ _ Hw1 Hr1 _ Hmisc1]. apply (Hrest k1 L1 A1); [done|apply Hmisc1|done| |done|done|done].
    intros Hn. rewrite (sm_nest _ _ Hmisc1) in Hn. destruct (Hrun Hn) as (c & Hc & Hrc). exists c.
    split; [by rewrite (sm_current _ _ Hmisc1)|by apply Hr1].
Qed.

(** Not the owner: the error of the thread is all that changes. *)
Lemma wp_mutex_refused k L A t m x flag st : kinv_at k L A -> threads (sch k) !! t = Some m -> mutex_state k A x flag st -> running k A ->
  wp (put_error t (- RT_ERROR)) k (fun _ k' => kinv_at k' L A /\ mutex_effect t k A x flag st (prio_of k) [] k' A).
Proof.
  intros HI Hm Hst Hrun. unfold put_error. wp_bind. eapply wp_get_thread; [exact Hm|]. apply wp_put_thread. split; [by apply kinv_put_error|].
  set (k1 := with_thread k t _). assert (undisturbed t k A k1 A) as Hu by apply undisturbed_thread.
  split; try done.
  - by apply (want_same_insert k k1 t m (set_error m (- RT_ERROR))).
  - apply (mutex_state_same k _ A A); [done|done|apply (ud_threads _ _ _ _ _ Hu)|done].
  - by apply prio_put_error.
  - destruct Hst as [_ Hst]. destruct st as [|o h orig ws].
    + exists []. symmetry. by apply insert_id, Hst.
    + exists ws. symmetry. by apply insert_id, Hst.
  - destruct Hst as [_ Hst]. destruct st as [|o h orig ws]; destruct Hst as [Hx _]; (eexists; by rewrite put_mutexes_same).
Qed.

Lemma wp_mutex_release k L A t x flag st : kinv_at k L A -> rt_current_thread (sch k) = Some t -> is_ready A t ->
  mutex_state k A x flag st ->
  wp (rt_mutex_release x) k (fun r k' => exists L' A', kinv_at k' L' A' /\
    let '(r0, st', prio', woke) := mutex_next flag (prio_of k) t Mutex_release st in
    Some r = r0 /\ mutex_effect t k A x flag st' prio' woke k' A').
Proof.
  intros HI Hcur Ht Hst. assert (running k A) as Hrun by (intros _; by exists t).
  destruct Ht as [p Hp]. destruct (tw_listed _ _ (ki_threads _ _ _ HI) _ _ Hp) as (m & Hm & _ & _).
  unfold rt_mutex_release, rt_thread_self. wp_bind. apply wp_get, wp_ret. wp_bind. eapply wp_of_opt; [exact Hcur|].
  assert (wp (put_error t (- RT_ERROR) ;; mret (- RT_ERROR)) k (fun r k' => exists L' A', kinv_at k' L' A' /\
    Some r = Some (- RT_ERROR) /\ mutex_effect t k A x flag st (prio_of k) [] k' A')) as Hrefused.
  { wp_bind. eapply wp_mono; [by eapply wp_mutex_refused|]. intros _ k' [HI' Heff]. wp_ret. by exists L, A. }
  destruct st as [|o h orig ws].
  - pose proof Hst as (_ & Hx & _). wp_bind. eapply wp_get_mutex; [exact Hx|]. rewrite bool_decide_false by done. exact Hrefused.
  - pose proof Hst as (Hf & Hx & Hw & Hh & Horig & _ & Hno). wp_bind. eapply wp_get_mutex; [exact Hx|]. cbn [owner mutex_next].
    destruct (decide (o = t)) as [->|Hne]; [|rewrite bool_decide_false by congruence; exact Hrefused].
    rewrite bool_decide_true by done. cbn [negb mutex_flag mutex_value original_priority hold]. wp_bind. apply wp_put_mutex.
    rewrite u8_small by lia. set (m0 := mk_mutex _ _ _ _ _). set (k0 := with_mutex k x m0).
    assert (kinv_at k0 L A) as HI0 by by apply with_mutex_kinv.
    assert (mutexes (ipc k0) !! x = Some m0) as Hx0 by apply lookup_insert_eq.
    assert (undisturbed t k A k0 A) as Hu0 by by apply undisturbed_sch.
    assert (running k0 A) as Hr0 by by apply (running_sch k).
    wp_bind. eapply wp_get_mutex; [exact Hx0|]. cbn [m0 hold owner original_priority].
    destruct (Z.eqb_spec h 1) as [->|Hh1].
    + change (1 - 1 =? 0) with true. cbn iota. apply wp_bind.
      eapply (wp_mutex_give_up k0 L A x t m flag orig ws); [done..|]. intros prio' k' L' A' HI' Heff. exists L', A'. split; [done|].
      destruct ws as [|w ws]; cbn [given] in Heff; (split; [done|]);
        (eapply (mutex_effect_before t k A k0 A); [done|by apply want_same_threads|done|by exists m0|by intros i|exact Heff]).
    + rewrite (proj2 (Z.eqb_neq (h - 1) 0)) by lia. wp_bind. wp_ret. wp_bind. wp_ret. wp_ret. exists L, A. split; [done|]. split; [done|].
      apply (mutex_effect_intro t k k0 A A x flag m0 ws);
        [done|by rewrite insert_id|done|done|by apply want_same_threads| |done|done].
      intros _ _. apply held_intro; [done|done|done|lia|done|by exists m|done].
Qed.

Lemma wp_mutex_op k L A t x flag st op : kinv_at k L A -> can_wait k A t -> mutex_state k A x flag st -> mutex_op_ok t op st ->
  wp (run_mutex x op) k (fun r k' => exists L' A', kinv_at k' L' A' /\
    let '(r0, st', prio', woke) := mutex_next flag (prio_of k) t op st in r = r0 /\ mutex_effect t k A x flag st' prio' woke k' A').
Proof.
  intros HI Hcw Hst Hop. destruct op as [time|]; cbn [run_mutex]; [by apply (wp_mutex_take k L)|]. wp_bind.
  eapply wp_mono; [apply (wp_mutex_release k L A t x flag st HI); [apply Hcw|apply Hcw|done]|]. intros r k' H. wp_ret. exact H.
Qed.

(** The mutex 5 of the small system, which thread 3, of the lowest priority,
    has taken once. *)
Definition demo_held : rt_mutex := mk_mutex RT_IPC_FLAG_PRIO 0 31 1 (Some 3).
Definition demo_mutex : K unit := rt_mutex_init 5 [109] RT_IPC_FLAG_PRIO ;; put_mutex 5 demo_held.

Lemma demo_mutex_creates : creates demo_mutex {[Suspend 5 := []]} (mk_ipc ∅ {[5 := demo_held]} ∅ ∅ ∅ ∅).
Proof.
  apply (ipc_creates 5 RT_Object_Class_Mutex [109] (put_mutex 5 (new_mutex RT_IPC_FLAG_PRIO) ;; put_mutex 5 demo_held));
    [by right; left|right; right; left|done|done|unfold demo_mutex, rt_mutex_init; ipc_object_first|].
  intros k Hi. unfold put_mutex, get, mbind, M_bind, put. cbn. rewrite Hi. unfold put_mutexes. cbn. by rewrite insert_insert_eq.
Qed.

Lemma demo_mutex_boots : exists k L A, boot_with demo_mutex base_kernel = Some (tt, k) /\
  kinv_at k L A /\ can_wait k A 1 /\ mutex_state k A 5 RT_IPC_FLAG_PRIO (Held 3 1 31 []) /\ prio_of k 3 = 31 /\ prio_of k 1 = 10.
Proof.
  destruct (boots _ _ _ demo_mutex_creates) as (k & L & A & Hrun & HI & [HT _ Hw H10 _ _ Hcur _ Hth Hi]).
  exists k, L, A. split; [exact Hrun|]. split; [exact HI|]. split_and!.
  - split; [exact Hcur|exists 10; rewrite H10; left|]. exists 10, 2. rewrite H10. split; [right; left|done].
  - apply held_intro; [by right|rewrite Hi; cbn [mutexes]; apply lookup_singleton_eq|apply Hw, lookup_singleton_eq|lia|unfold priority_ok, RT_THREAD_PRIORITY_MAX; lia| |apply not_elem_of_nil].
    rewrite Hth, lookup_insert_eq. by eexists.
  - unfold prio_of. by rewrite Hth, lookup_insert_eq.
  - unfold prio_of. by rewrite Hth, lookup_insert_ne, lookup_insert_ne, lookup_insert_eq by lia.
Qed.

(** The depth is a byte: the 256th nested take makes it zero. *)
Lemma mutex_depth_wraps k x t m flag orig time : rt_current_thread (sch k) = Some t -> threads (sch k) !! t = Some m ->
  mutexes (ipc k) !! x = Some (mk_mutex flag 0 orig 255 (Some t)) ->
  exists k', rt_mutex_take_begin x time k = Some (Some RT_EOK, k') /\ mutexes (ipc k') !! x = Some (mk_mutex flag 0 orig 0 (Some t)).
Proof.
  intros Hcur Hm Hx.
  assert (wp (rt_mutex_take_begin x time) k (fun r k' => r = Some RT_EOK /\ mutexes (ipc k') !! x = Some (mk_mutex flag 0 orig 0 (Some t)))) as Hwp.
  { unfold rt_mutex_take_begin, rt_thread_self, put_error. wp_bind. apply wp_get, wp_ret. wp_bind. eapply wp_of_opt; [exact Hcur|].
    wp_bind. eapply wp_get_thread; [exact Hm|]. apply wp_put_thread. wp_bind. eapply wp_get_mutex; [exact Hx|]. rewrite decide_True by done.
    wp_bind. apply wp_put_mutex. wp_ret. split; [done|]. apply lookup_insert_eq. }
  apply wp_elim in Hwp as (r & k' & Hrun & -> & Hx'). by exists k'.
Qed.

(** ** The property *)

(** C7: A mutex refines an owner with a depth and a queue of threads: taking and
    releasing by the current thread have the result of [mutex_next].  A thread
    that waits lends the owner its priority if that is higher; only the owner
    releases; its last release gives it its own priority back and the mutex to
    the first thread that waits.  The invariant of the kernel holds afterwards, a
    ready thread runs, and the other objects and waiting lists are as they were. *)
Theorem mutex_refines k L A t x flag st op : kinv_at k L A -> can_wait k A t -> mutex_state k A x flag st -> mutex_op_ok t op st ->
  let '(r, st', prio', woke) := mutex_next flag (prio_of k) t op st in
  exists k' L' A', run_mutex x op k = Some (r, k') /\ kinv_at k' L' A' /\ mutex_effect t k A x flag st' prio' woke k' A'.
Proof.
  intros HI Hcw Hst Hop.
  pose proof (wp_mutex_op k L A t x flag st op HI Hcw Hst Hop) as Hwp.
  apply wp_elim in Hwp as (r' & k' & Hrun & L' & A' & HI' & Heff). destruct (mutex_next _ _ _ _ _) as [[[r st'] prio'] woke].
  destruct Heff as [-> Heff]. by exists k', L', A'.
Qed.

Lemma mutex_refines_witness : exists k L A, kinv_at k L A /\ prio_of k 3 = 31 /\
  exists k' L' A', run_mutex 5 (Mutex_take 50) k = Some (None, k') /\ kinv_at k' L' A' /\
    mutex_effect 1 k A 5 RT_IPC_FLAG_PRIO (Held 3 1 31 [1]) (pupd (prio_of k) 3 (Z.min (prio_of k 3) (prio_of k 1))) [] k' A'.
Proof.
  destruct demo_mutex_boots as (k & L & A & _ & HI & Hcw & Hst & Hp3 & Hp1). exists k, L, A.
  split; [exact HI|]. split; [exact Hp3|].
  assert (mutex_op_ok 1 (Mutex_take 50) (Held 3 1 31 [])) as Hop by (split; [vm_compute; reflexivity|intros _; lia]).
  exact (mutex_refines k L A 1 5 RT_IPC_FLAG_PRIO (Held 3 1 31 []) (Mutex_take 50) HI Hcw Hst Hop).
Defined.
End ops.
