(* ===== verification/Event.v ===== *)
(** * Events (src/ipc.c)

    A set of bits and the threads that wait for some of them: what a thread
    waits for is kept in the thread itself, and the sender decides whom it
    wakes. *)

From S2P Require Import Prelude Klist Kernel Object Timer Sched Thread Boot Tick Ipc.

Open Scope Z_scope.

(** ** The operations *)

Definition has_flag (info flag : Z) : bool := negb (Z.land info flag =? 0).

Definition get_event (event : Z) : K rt_event := k ← get; of_opt (events (ipc k) !! event).
Definition put_event (event : Z) (m : rt_event) : K unit :=
  k ← get; put (with_ipc k (put_events (ipc k) event m)).

Definition set_event_fields (m : rt_thread) (es info : Z) := mk_thread (error m) (stat m) (current_priority m) (init_priority m)
  (number_mask m) es info (init_tick m) (remaining_tick m) (cleanup m).

Definition rt_event_init (event : Z) (name : list Z) (flag : Z) : K Z :=
  rt_object_init (Obj event) RT_Object_Class_Event name ;;
  rt_ipc_object_init event ;;
  put_event event (mk_event flag 0) ;;
  mret RT_EOK.

Definition rt_event_detach (event : Z) : K Z :=
  rt_ipc_list_resume_all (Suspend event) ;; rt_object_detach (Obj event) ;; mret RT_EOK.

Section heap.
Context (object_size : Z -> Z) (malloc : Z -> K (option addr)) (free : addr -> K unit).

Definition rt_event_create (name : list Z) (flag : Z) : K (option Z) :=
  event ← rt_object_allocate object_size malloc RT_Object_Class_Event name;
  match event with
  | None => mret None
  | Some (Thread_timer _) => ub
  | Some (Obj event) => rt_ipc_object_init event ;; put_event event (mk_event flag 0) ;; mret (Some event)
  end.

Definition rt_event_delete (event : Z) : K Z :=
  rt_ipc_list_resume_all (Suspend event) ;; rt_object_delete free (Obj event) ;; mret RT_EOK.
End heap.

(** The thread has what it waits for; for an OR, what it gets is noted in it. *)
Definition check_waiter (event thread : Z) : K bool :=
  m ← get_thread thread; e ← get_event event;
  if has_flag (event_info m) RT_EVENT_FLAG_AND then mret (Z.land (event_set m) (set e) =? event_set m)
  else if has_flag (event_info m) RT_EVENT_FLAG_OR then
    if negb (Z.land (event_set m) (set e) =? 0) then
      put_thread thread (set_event_fields m (Z.land (event_set m) (set e)) (event_info m)) ;; mret true
    else mret false
  else mret false.

Definition clear_event (event mask : Z) : K unit :=
  e ← get_event event; put_event event (mk_event (event_flag e) (Z.land (set e) (u32 (Z.lnot mask)))).

Definition wake_waiter (event thread : Z) : K unit :=
  m ← get_thread thread;
  (if has_flag (event_info m) RT_EVENT_FLAG_CLEAR then clear_event event (event_set m) else mret tt) ;;
  rt_thread_resume thread ;; mret tt.

Fixpoint send_loop (fuel : nat) (event : Z) (n : node) (need_schedule : bool) : K bool :=
  match fuel with
  | O => ub
  | S fuel =>
      if decide (n = Suspend event) then mret need_schedule else
      thread ← thread_entry n;
      status ← check_waiter event thread;
      n ← list_next n;
      if status : bool then
        wake_waiter event thread ;; send_loop fuel event n true
      else send_loop fuel event n need_schedule
  end.

Definition rt_event_send (event set : Z) : K Z :=
  if set =? 0 then mret (- RT_ERROR) else
  e ← get_event event; put_event event (mk_event (event_flag e) (Z.lor (Kernel.set e) set)) ;;
  empty ← list_isempty (Suspend event);
  need_schedule ← (if negb empty then
      n ← list_next (Suspend event); k ← get; send_loop (S (size (lists k))) event n false
    else mret false);
  (if need_schedule : bool then rt_schedule else mret tt) ;;
  mret RT_EOK.

(** The result and what is written to [*recved]; [None]: the thread waits. *)
Definition rt_event_recv_begin (event set opt timeout : Z) : K (option (Z * option Z)) :=
  if set =? 0 then mret (Some (- RT_ERROR, None)) else
  self ← rt_thread_self; thread ← of_opt self;
  put_error thread RT_EOK ;;
  e ← get_event event;
  status ← (if has_flag opt RT_EVENT_FLAG_AND then mret (Z.land (Kernel.set e) set =? set)
    else if has_flag opt RT_EVENT_FLAG_OR then mret (negb (Z.land (Kernel.set e) set =? 0))
    else RT_ASSERT false ;; mret false);
  if status : bool then
    (if has_flag opt RT_EVENT_FLAG_CLEAR then clear_event event set else mret tt) ;;
    m ← get_thread thread; mret (Some (error m, Some (Z.land (Kernel.set e) set)))
  else if timeout =? 0 then
    put_error thread (- RT_ETIMEOUT) ;; m ← get_thread thread; mret (Some (error m, None))
  else
    m ← get_thread thread; put_thread thread (set_event_fields m set opt) ;;
    start_waiting (Suspend event) thread (event_flag e) timeout ;; mret None.

Definition rt_event_recv_end (thread : Z) : K (Z * option Z) :=
  m ← get_thread thread;
  if negb (error m =? RT_EOK) then mret (error m, None) else mret (error m, Some (event_set m)).

Definition rt_event_control (event cmd arg : Z) : K Z :=
  if cmd =? RT_IPC_CMD_RESET then
    rt_ipc_list_resume_all (Suspend event) ;;
    e ← get_event event; put_event event (mk_event (event_flag e) 0) ;;
    rt_schedule ;; mret RT_EOK
  else mret (- RT_ERROR).

(** ** Delivery *)

(** What a thread that waits for [es] in the way [info] gets of the set [s]. *)
Definition received (info es s : Z) : option Z :=
  if has_flag info RT_EVENT_FLAG_AND then if Z.land es s =? es then Some es else None
  else if has_flag info RT_EVENT_FLAG_OR then if Z.land es s =? 0 then None else Some (Z.land es s)
  else None.

Definition consume (info got s : Z) : Z := if has_flag info RT_EVENT_FLAG_CLEAR then Z.land s (u32 (Z.lnot got)) else s.

(** The set afterwards, the threads that still wait, and the threads that are
    woken with what they get, in the order of the queue. *)
Fixpoint deliver (want : Z -> Z * Z) (s : Z) (ws : list Z) : Z * list Z * list (Z * Z) :=
  match ws with
  | [] => (s, [], [])
  | t :: ws =>
      match received (want t).2 (want t).1 s with
      | Some got => let '(s', rest, woke) := deliver want (consume (want t).2 got s) ws in (s', rest, (t, got) :: woke)
      | None => let '(s', rest, woke) := deliver want s ws in (s', t :: rest, woke)
      end
  end.

(** ** Facts on delivery *)

Lemma received_smaller info es s s' : Z.land s s' = s' -> received info es s = None -> received info es s' = None.
Proof.
  intros Hs. unfold received. destruct (has_flag info RT_EVENT_FLAG_AND).
  - destruct (Z.eqb_spec (Z.land es s) es) as [|Hne]; [done|]. intros _. rewrite (proj2 (Z.eqb_neq _ _)); [done|].
    intros Hes. apply Hne. rewrite <-Hes at 1. rewrite <-Z.land_assoc, (Z.land_comm s'), Hs. done.
  - destruct (has_flag info RT_EVENT_FLAG_OR); [|done]. destruct (Z.eqb_spec (Z.land es s) 0) as [He|]; [|done]. intros _.
    by rewrite <-Hs, Z.land_assoc, He.
Qed.

Lemma consume_smaller info got s : Z.land s (consume info got s) = consume info got s.
Proof. unfold consume. case_match; [by rewrite Z.land_assoc, Z.land_diag|by rewrite Z.land_diag]. Qed.

Lemma smaller_trans s1 s2 s3 : Z.land s1 s2 = s2 -> Z.land s2 s3 = s3 -> Z.land s1 s3 = s3.
Proof. intros H1 H2. by rewrite <-H2, Z.land_assoc, H1. Qed.

Lemma deliver_ext want want' s ws : (forall t, t ∈ ws -> want t = want' t) -> deliver want s ws = deliver want' s ws.
Proof.
  revert s. induction ws as [|t ws IH]; intros s Hw; [done|]. cbn. rewrite <-(Hw t) by left.
  assert (forall x, x ∈ ws -> want x = want' x) as Hw' by (intros; apply Hw; by right).
  destruct (received _ _ _); by rewrite IH.
Qed.

Lemma deliver_smaller want s ws : let '(s', _, _) := deliver want s ws in Z.land s s' = s'.
Proof.
  revert s. induction ws as [|t ws IH]; intros s; cbn; [apply Z.land_diag|]. destruct (received _ _ _) as [got|].
  - specialize (IH (consume (want t).2 got s)). destruct (deliver _ _ _) as [[s' rest] woke].
    eapply smaller_trans; [apply consume_smaller|exact IH].
  - specialize (IH s). by destruct (deliver _ _ _) as [[s' rest] woke].
Qed.

(** Nobody who still waits could be woken. *)
Lemma deliver_quiet want s ws :
  let '(s', rest, _) := deliver want s ws in Forall (fun t => received (want t).2 (want t).1 s' = None) rest.
Proof.
  revert s. induction ws as [|t ws IH]; intros s; cbn; [done|]. destruct (received _ _ s) as [got|] eqn:Hr.
  - specialize (IH (consume (want t).2 got s)). by destruct (deliver _ _ _) as [[s' rest] woke].
  - pose proof (deliver_smaller want s ws) as Hs. specialize (IH s). destruct (deliver _ _ _) as [[s' rest] woke].
    constructor; [by eapply received_smaller|done].
Qed.

Lemma deliver_split want s ws : let '(_, rest, woke) := deliver want s ws in ws ≡ₚ rest ++ woke.*1.
Proof.
  revert s. induction ws as [|t ws IH]; intros s; cbn; [done|]. destruct (received _ _ s) as [got|].
  - specialize (IH (consume (want t).2 got s)). destruct (deliver _ _ _) as [[s' rest] woke]. cbn.
    by rewrite IH, Permutation_middle.
  - specialize (IH s). destruct (deliver _ _ _) as [[s' rest] woke]. by rewrite IH.
Qed.

(** Clearing all bits that are asked for, or those that are received. *)
Lemma consume_received opt set s got : received opt set s = Some got ->
  got = Z.land s set /\ consume opt got s = consume opt set s.
Proof.
  intros Hr. assert (got = Z.land s set) as ->.
  { unfold received in Hr. repeat case_match; simplify_eq; [|by rewrite Z.land_comm].
    apply Z.eqb_eq in H0. by rewrite Z.land_comm. }
  split; [done|]. unfold consume. case_match; [|done]. apply Z.bits_inj'. intros i Hi. unfold u32.
  change 4294967296 with (2 ^ 32). rewrite <-!Z.land_ones, !Z.land_spec, !Z.lnot_spec, Z.land_spec by lia.
  by destruct (Z.testbit s i), (Z.testbit set i).
Qed.

(** ** The loop of the sender *)

Definition wupd (want : Z -> Z * Z) (t : Z) (w : Z * Z) : Z -> Z * Z := fun x => if decide (x = t) then w else want x.

(** The threads that are woken know what they got. *)
Definition got_all (woke : list (Z * Z)) (want : Z -> Z * Z) : Z -> Z * Z :=
  foldl (fun w '(t, got) => wupd w t (got, (w t).2)) want woke.

Lemma got_all_ext woke want want' : (forall i, want i = want' i) -> forall i, got_all woke want i = got_all woke want' i.
Proof.
  unfold got_all. revert want want'. induction woke as [|[t got] woke IH]; intros want want' Hw; [done|]. cbn. apply IH.
  intros i. unfold wupd. by rewrite !Hw.
Qed.

Definition with_event (k : kernel) (x : Z) (m : rt_event) : kernel :=
  with_ipc k (put_events (ipc k) x m).

Section ops.
Implicit Types (k : kernel) (L : gmap node (list node)) (A : abs) (t : Z) (m : rt_thread).

Lemma put_events_same i x (m : rt_event) : events i !! x = Some m -> put_events i x m = i.
Proof. intros Hx. unfold put_events. rewrite insert_id by done. by destruct i. Qed.

Lemma wp_get_event k x (m : rt_event) Q : events (ipc k) !! x = Some m -> Q m k -> wp (get_event x) k Q.
Proof. intros Hm HQ. eapply wp_run; [|exact HQ]. unfold get_event, mbind, M_bind, get, of_opt. by rewrite Hm. Qed.

Lemma wp_put_event k x (m : rt_event) Q : Q tt (with_event k x m) -> wp (put_event x m) k Q.
Proof. done. Qed.

Lemma wp_clear_event k x flag s mask Q : events (ipc k) !! x = Some (mk_event flag s) ->
  Q tt (with_event k x (mk_event flag (Z.land s (u32 (Z.lnot mask))))) -> wp (clear_event x mask) k Q.
Proof. intros Hx HQ. unfold clear_event. wp_bind. eapply wp_get_event; [exact Hx|]. by apply wp_put_event. Qed.

Lemma with_thread_same k t m : threads (sch k) !! t = Some m -> with_thread k t m = k.
Proof. intros Hm. unfold with_thread. rewrite insert_id by done. by destruct k as [? ? ? [] ?]. Qed.

Lemma wp_check_waiter k x flag s t m Q : threads (sch k) !! t = Some m -> events (ipc k) !! x = Some (mk_event flag s) ->
  match received (event_info m) (event_set m) s with
  | Some got => Q true (with_thread k t (set_event_fields m got (event_info m)))
  | None => Q false k
  end -> wp (check_waiter x t) k Q.
Proof.
  intros Hm Hx HQ. unfold check_waiter. wp_bind. eapply wp_get_thread; [exact Hm|]. wp_bind. eapply wp_get_event; [exact Hx|].
  cbn [set]. unfold received in HQ. destruct (has_flag (event_info m) RT_EVENT_FLAG_AND).
  - destruct (Z.land (event_set m) s =? event_set m); [|by wp_ret]. wp_ret.
    rewrite with_thread_same in HQ; [done|]. rewrite Hm. by destruct m.
  - destruct (has_flag (event_info m) RT_EVENT_FLAG_OR); [|by wp_ret].
    destruct (Z.land (event_set m) s =? 0); cbn [negb]; [by wp_ret|]. wp_bind. apply wp_put_thread. by wp_ret.
Qed.

(** The clearing of the sender, for a thread that got [got]. *)
Lemma wp_consume k x flag s info got Q : events (ipc k) !! x = Some (mk_event flag s) ->
  Q tt (with_event k x (mk_event flag (consume info got s))) ->
  wp (if has_flag info RT_EVENT_FLAG_CLEAR then clear_event x got else mret tt) k Q.
Proof.
  intros Hx HQ. unfold consume in HQ. case_match; [by eapply wp_clear_event|]. wp_ret.
  unfold with_event in HQ. rewrite put_events_same in HQ by done. by destruct k.
Qed.

Lemma got_all_other woke want i : i ∉ woke.*1 -> got_all woke want i = want i.
Proof.
  unfold got_all. revert want. induction woke as [|[t got] woke IH]; intros want Hi; [done|]. cbn in *.
  rewrite not_elem_of_cons in Hi. destruct Hi as [Hne Hi]. rewrite IH by done. unfold wupd. by rewrite decide_False.
Qed.

Lemma want_of_insert k k' t m : threads (sch k') = <[t := m]> (threads (sch k)) ->
  forall i, want_of k' i = wupd (want_of k) t (event_set m, event_info m) i.
Proof.
  intros Hth i. unfold want_of, wupd. rewrite Hth. case_decide as Hi; [subst; by rewrite lookup_insert_eq|by rewrite lookup_insert_ne].
Qed.

(** What the loop leaves behind. *)
Record sent (k : kernel) A (x flag s : Z) (ws : list Z) (woke : list (Z * Z)) (k' : kernel) A' : Prop := {
  sn_kept : forall t, undisturbed t k A k' A';
  sn_waits : a_waits A' = <[Suspend x := ws]> (a_waits A);
  sn_ipc : ipc k' = put_events (ipc k) x (mk_event flag s);
  sn_want : forall i, want_of k' i = got_all woke (want_of k) i;
  sn_woke : Forall (is_ready A') woke.*1;
  sn_ready : forall i, is_ready A i -> is_ready A' i;
  sn_current : rt_current_thread (sch k') = rt_current_thread (sch k);
}.

(** One thread is woken. *)
Lemma wp_wake_waiter k L A x flag s pre t post m got Q : kinv_at k L A -> a_waits A !! Suspend x = Some (pre ++ t :: post) ->
  events (ipc k) !! x = Some (mk_event flag s) -> threads (sch k) !! t = Some m ->
  (forall k' L' A', kinv_at k' L' A' -> sent k A x flag (consume (event_info m) got s) (pre ++ post) [(t, got)] k' A' -> Q tt k') ->
  wp (wake_waiter x t) (with_thread k t (set_event_fields m got (event_info m))) Q.
Proof.
  intros HI Hw Hx Hm HQ. set (m1 := set_event_fields _ _ _). set (k1 := with_thread k t m1).
  destruct (waiting_suspended _ _ _ _ _ t HI Hw) as (m' & Hm' & Hs); [rewrite elem_of_app, elem_of_cons; tauto|].
  rewrite Hm in Hm'. injection Hm' as <-.
  assert (kinv_at k1 L A) as HI1 by by apply (kinv_fields k L A t m).
  assert (threads (sch k1) !! t = Some m1) as Hm1 by apply lookup_insert_eq.
  unfold wake_waiter. wp_bind. eapply wp_get_thread; [exact Hm1|]. wp_bind. eapply wp_consume; [exact Hx|]. set (k2 := with_event k1 x _).
  wp_bind. eapply (wp_resume k2 L A t m1); [by apply kinv_ipc|exact Hm1|done|]. intros k3 L3 HI3 Hth3 Hmisc3. wp_ret.
  apply (HQ k3 L3 _ HI3). split; try done.
  - intros t0. eapply (undisturbed_trans t0 k A k2 A); [eapply (undisturbed_trans t0 k A k1 A); [apply undisturbed_thread|by apply undisturbed_sch]|].
    by eapply undisturbed_make_ready; [exact Hth3|apply Hmisc3].
  - exact (waits_resumed k L A (Suspend x) pre t post _ HI Hw).
  - apply (sm_ipc _ _ Hmisc3).
  - assert (threads (sch k3) = <[t := ready_stat m1]> (threads (sch k))) as Hth by (rewrite Hth3; cbn; by rewrite insert_insert_eq).
    intros i. rewrite (want_of_insert k k3 t _ Hth). cbn [got_all foldl]. by rewrite (want_of_thread k t m Hm).
  - repeat constructor. apply make_ready_is.
  - intros i. apply make_ready_keeps.
  - apply (sm_current _ _ Hmisc3).
Qed.

Lemma sent_trans k1 A1 x flag s1 ws1 woke1 k2 A2 s2 ws2 woke2 k3 A3 :
  sent k1 A1 x flag s1 ws1 woke1 k2 A2 -> sent k2 A2 x flag s2 ws2 woke2 k3 A3 ->
  sent k1 A1 x flag s2 ws2 (woke1 ++ woke2) k3 A3.
Proof.
  intros [HT1 Hw1 Hi1 Hwa1 Hwo1 Hr1 Hc1] [HT2 Hw2 Hi2 Hwa2 Hwo2 Hr2 Hc2]. split.
  - intros t. by eapply undisturbed_trans.
  - by rewrite Hw2, Hw1, insert_insert_eq.
  - rewrite Hi2, Hi1. unfold put_events. cbn. by rewrite insert_insert_eq.
  - intros i. rewrite Hwa2, (got_all_ext _ _ _ Hwa1). unfold got_all. by rewrite foldl_app.
  - rewrite fmap_app. apply Forall_app. split; [|done]. eapply Forall_impl; [exact Hwo1|]. auto.
  - auto.
  - congruence.
Qed.

Lemma sent_refl k A x flag s ws : events (ipc k) !! x = Some (mk_event flag s) -> a_waits A !! Suspend x = Some ws ->
  sent k A x flag s ws [] k A.
Proof.
  intros Hx Hw. split; try done; [by rewrite insert_id|by rewrite put_events_same].
Qed.

Lemma wp_send_loop fuel k L A x flag s pre post need Q : kinv_at k L A -> a_waits A !! Suspend x = Some (pre ++ post) ->
  events (ipc k) !! x = Some (mk_event flag s) -> (length post < fuel)%nat ->
  (let '(s', rest, woke) := deliver (want_of k) s post in
   forall k' L' A', kinv_at k' L' A' -> sent k A x flag s' (pre ++ rest) woke k' A' ->
     Q (need || negb (bool_decide (woke = []))) k') ->
  wp (send_loop fuel x (default (Suspend x) (head (Tlist <$> post))) need) k Q.
Proof.
  revert fuel k L A s pre need. induction post as [|t post IH]; intros fuel k L A s pre need HI Hw Hx Hf HQ;
    (destruct fuel as [|fuel]; [cbn in Hf; lia|]); cbn [send_loop].
  - cbn in HQ. rewrite decide_True by done. wp_ret. rewrite <-(orb_false_r need). apply (HQ k L A HI). by apply sent_refl.
  - change (default _ _) with (Tlist t). rewrite decide_False by done. cbn [thread_entry]. wp_pure.
    destruct (waiting_suspended _ _ _ _ _ t HI Hw) as (m & Hm & _); [rewrite elem_of_app, elem_of_cons; tauto|].
    destruct (ki_waits _ _ _ HI _ _ Hw) as [_ Hl]. rewrite tlist_fmap_middle in Hl.
    destruct (linked_around _ _ _ _ _ _ (tv_linked _ _ _ _ (ki_timers _ _ _ HI)) Hl) as [Hnx _].
    cbn [deliver] in HQ. rewrite (want_of_thread k t m Hm) in HQ. cbn [fst snd] in HQ.
    wp_bind. eapply wp_check_waiter; [exact Hm|exact Hx|]. destruct (received (event_info m) (event_set m) s) as [got|] eqn:Hr.
    + wp_bind. eapply wp_next; [exact Hnx|]. wp_bind. eapply (wp_wake_waiter k L A x flag s pre t post m got); [done..|].
      intros k1 L1 A1 HI1 Hsent1. assert (forall i, i ∈ post -> want_of k i = want_of k1 i) as Hsame.
      { intros i Hi. rewrite (sn_want _ _ _ _ _ _ _ _ _ Hsent1). cbn. unfold wupd. rewrite decide_False; [done|]. intros ->.
        pose proof (waits_nodup _ _ _ _ _ HI Hw) as Hnd. apply NoDup_app in Hnd as (_ & _ & [Hnot _]%NoDup_cons). done. }
      eapply (IH fuel k1 L1 A1 (consume (event_info m) got s) pre true); [done| | |cbn in Hf; lia|].
      * by rewrite (sn_waits _ _ _ _ _ _ _ _ _ Hsent1), lookup_insert_eq.
      * rewrite (sn_ipc _ _ _ _ _ _ _ _ _ Hsent1). apply lookup_insert_eq.
      * rewrite <-(deliver_ext _ _ _ _ Hsame). destruct (deliver (want_of k) _ post) as [[s' rest] woke].
        intros k2 L2 A2 HI2 Hsent2. cbn [orb]. rewrite bool_decide_false in HQ by done. rewrite orb_true_r in HQ.
        apply (HQ k2 L2 A2 HI2). exact (sent_trans _ _ _ _ _ _ [(t, got)] _ _ _ _ _ _ _ Hsent1 Hsent2).
    + wp_bind. eapply wp_next; [exact Hnx|].
      eapply (IH fuel k L A s (pre ++ [t]) need); [done|by rewrite <-(assoc_L (++))|done|cbn in Hf; lia|].
      destruct (deliver (want_of k) s post) as [[s' rest] woke]. intros k' L' A' HI' Hsent. apply (HQ k' L' A' HI').
      by rewrite <-(assoc_L (++)) in Hsent.
Qed.

(** ** An event as its bits and its queue *)

(** No thread that waits could go on. *)
Definition quiet (want : Z -> Z * Z) (s : Z) (ws : list Z) : Prop := Forall (fun t => received (want t).2 (want t).1 s = None) ws.

Record event_state (k : kernel) A (x flag s : Z) (ws : list Z) : Prop := {
  es_event : events (ipc k) !! x = Some (mk_event flag s);
  es_waits : a_waits A !! Suspend x = Some ws;
  es_flag : flag_ok flag;
  es_quiet : quiet (want_of k) s ws;
}.

Inductive event_op := Send (bits : Z) | Recv (bits opt timeout : Z) | Event_reset.

Definition run_event (x : Z) (op : event_op) : K (option (Z * option Z)) :=
  match op with
  | Send bits => r ← rt_event_send x bits; mret (Some (r, None))
  | Recv bits opt timeout => rt_event_recv_begin x bits opt timeout
  | Event_reset => r ← rt_event_control x RT_IPC_CMD_RESET 0; mret (Some (r, None))
  end.

(** The result for thread [t] with the bits it gets ([None]: it waits), the new
    bits and queue, what every thread waits for or got, and who is woken. *)
Definition event_next (flag : Z) (prio : Z -> Z) (want : Z -> Z * Z) (t : Z) (op : event_op) (s : Z) (ws : list Z) :
    option (Z * option Z) * Z * list Z * (Z -> Z * Z) * list Z :=
  match op with
  | Send bits =>
      if bits =? 0 then (Some (- RT_ERROR, None), s, ws, want, []) else
      let '(s', rest, woke) := deliver want (Z.lor s bits) ws in (Some (RT_EOK, None), s', rest, got_all woke want, woke.*1)
  | Recv bits opt timeout =>
      if bits =? 0 then (Some (- RT_ERROR, None), s, ws, want, []) else
      match received opt bits s with
      | Some got => (Some (RT_EOK, Some got), consume opt got s, ws, want, [])
      | None =>
          if timeout =? 0 then (Some (- RT_ETIMEOUT, None), s, ws, want, [])
          else (None, s, place flag prio t ws, wupd want t (bits, opt), [])
      end
  | Event_reset => (Some (RT_EOK, None), 0, [], want, ws)
  end.

(** One of the two ways to wait is chosen. *)
Definition event_op_ok (op : event_op) : Prop :=
  match op with
  | Recv _ opt timeout => has_flag opt RT_EVENT_FLAG_AND || has_flag opt RT_EVENT_FLAG_OR = true /\ timeout < RT_TICK_MAX / 2
  | _ => True
  end.

Record event_effect (t : Z) (k : kernel) A (x flag s : Z) (ws : list Z) (want : Z -> Z * Z) (woke : list Z) (k' : kernel) A' : Prop := {
  ee_kept : undisturbed t k A k' A';
  ee_running : running k' A';
  ee_want : forall i, want_of k' i = want i;
  ee_state : event_state k' A' x flag s ws;
  ee_waits : a_waits A' = <[Suspend x := ws]> (a_waits A);
  ee_ipc : ipc k' = put_events (ipc k) x (mk_event flag s);
  ee_woke : Forall (is_ready A') woke;
}.

Lemma event_effect_intro t k A x flag s ws want woke k' A' : undisturbed t k A k' A' -> running k' A' ->
  (forall i, want_of k' i = want i) -> a_waits A' = <[Suspend x := ws]> (a_waits A) ->
  ipc k' = put_events (ipc k) x (mk_event flag s) ->
  Forall (is_ready A') woke -> flag_ok flag -> quiet want s ws -> event_effect t k A x flag s ws want woke k' A'.
Proof.
  intros Hu Hr Hwa Hw Hi Hwo Hf Hq. split; try done. split; [by rewrite Hi; apply lookup_insert_eq|by rewrite Hw, lookup_insert_eq|done|].
  eapply Forall_impl; [exact Hq|]. intros i Ht. by rewrite Hwa.
Qed.

Lemma want_of_same k k' : threads (sch k') = threads (sch k) -> forall i, want_of k' i = want_of k i.
Proof. intros Hth i. unfold want_of. by rewrite Hth. Qed.

Lemma wp_event_send k L A t x flag s ws bits : kinv_at k L A -> can_wait k A t -> event_state k A x flag s ws ->
  wp (rt_event_send x bits) k (fun r k' => exists L' A', kinv_at k' L' A' /\
    let '(r0, s', ws', want', woke) := event_next flag (prio_of k) (want_of k) t (Send bits) s ws in
    Some (r, None) = r0 /\ event_effect t k A x flag s' ws' want' woke k' A').
Proof.
  intros HI Hcw [Hx Hw Hf Hq]. unfold rt_event_send. cbn [event_next]. destruct (Z.eqb_spec bits 0) as [->|Hb].
  - wp_ret. exists L, A. split; [done|]. split; [done|].
    apply event_effect_intro; try done; [by apply (can_wait_running _ _ t)|by rewrite insert_id|by rewrite put_events_same].
  - wp_bind. eapply wp_get_event; [exact Hx|]. cbn [event_flag set]. wp_bind. apply wp_put_event.
    set (s1 := Z.lor s bits). set (k1 := with_event k x (mk_event flag s1)). assert (kinv_at k1 L A) as HI1 by by apply kinv_ipc.
    destruct (ki_waits _ _ _ HI1 _ _ Hw) as [_ Hl]. wp_bind. eapply wp_isempty; [apply HI1|exact Hl|].
    assert (events (ipc k1) !! x = Some (mk_event flag s1)) as Hx1 by apply lookup_insert_eq.
    destruct (deliver (want_of k) s1 ws) as [[s' rest] woke] eqn:Hd.
    assert (quiet (got_all woke (want_of k)) s' rest) as Hquiet.
    { pose proof (deliver_quiet (want_of k) s1 ws) as Hqu. pose proof (deliver_split (want_of k) s1 ws) as Hsp. rewrite Hd in Hqu, Hsp.
      pose proof (waits_nodup _ _ _ _ _ HI Hw) as Hnd. rewrite Hsp in Hnd. apply NoDup_app in Hnd as (_ & Hdisj & _).
      apply Forall_forall. intros i Hi. rewrite Forall_forall in Hqu. specialize (Hqu i Hi).
      rewrite (got_all_other woke (want_of k) i); [done|]. by apply Hdisj. }
    assert (forall k2 L2 A2 k', sent k1 A x flag s' rest woke k2 A2 -> kinv_at k' L2 A2 -> running k' A2 ->
      undisturbed t k2 A2 k' A2 -> want_same k2 k' -> ipc k' = ipc k2 -> exists L' A', kinv_at k' L' A' /\
      Some (RT_EOK, @None Z) = Some (RT_EOK, None) /\ event_effect t k A x flag s' rest (got_all woke (want_of k)) woke.*1 k' A') as Hfin.
    { intros k2 L2 A2 k' [Hu1 Hw1 Hi1 Hwa1 Hwo1 _ _] HI' Hr' Hu' Hwa' Hi'. exists L2, A2. split; [done|]. split; [done|].
      apply event_effect_intro; try done.
      - eapply (undisturbed_trans t k A k1 A); [by apply undisturbed_sch|]. by eapply undisturbed_trans.
      - intros i. by rewrite Hwa', Hwa1.
      - rewrite Hi', Hi1. unfold put_events. cbn. by rewrite insert_insert_eq. }
    destruct ws as [|w ws].
    + rewrite bool_decide_true by done. cbn [negb]. injection Hd as <- <- <-. wp_ret. wp_bind. wp_ret.
      apply (Hfin k1 L A k1); try done; [by apply sent_refl|by apply (running_sch k), (can_wait_running _ _ t)].
    + rewrite bool_decide_false by done. cbn [negb]. wp_bind. eapply wp_next; [eapply linked_first; [apply HI1|exact Hl]|].
      wp_bind. apply wp_get. pose proof (wait_size _ _ _ _ _ HI1 Hw) as Hsz.
      eapply (wp_send_loop _ k1 L A x flag s1 [] (w :: ws)); [done|done|done|lia|].
      change (want_of k1) with (want_of k). rewrite Hd. intros k2 L2 A2 HI2 Hsent. cbn [orb]. wp_bind.
      assert (is_ready A2 t) as Ht2 by (apply (sn_ready _ _ _ _ _ _ _ _ _ Hsent), Hcw).
      destruct (decide (woke = [])) as [Hwk|Hwk]; [rewrite bool_decide_true by done|rewrite bool_decide_false by done]; cbn [negb].
      * wp_ret. eapply (Hfin k2 L2 A2 k2); try done. intros _. exists t. split; [|done]. rewrite (sn_current _ _ _ _ _ _ _ _ _ Hsent). apply Hcw.
      * eapply (wp_switch k2 L2 A2 t); [done|done|].
        intros k3 HI3 Hi3 Hu3 Hwa3 Hr3 _. wp_ret. by apply (Hfin k2 L2 A2 k3).
Qed.

(** Whether the thread goes on at once. *)
Lemma wp_recv_status opt bits s k Q : has_flag opt RT_EVENT_FLAG_AND || has_flag opt RT_EVENT_FLAG_OR = true ->
  Q (match received opt bits s with Some _ => true | None => false end) k ->
  wp (if has_flag opt RT_EVENT_FLAG_AND then mret (Z.land s bits =? bits)
      else if has_flag opt RT_EVENT_FLAG_OR then mret (negb (Z.land s bits =? 0)) else RT_ASSERT false ;; mret false) k Q.
Proof.
  intros Hopt HQ. unfold received in HQ. rewrite (Z.land_comm s bits). destruct (has_flag opt RT_EVENT_FLAG_AND).
  - wp_ret. by destruct (Z.land bits s =? bits).
  - destruct (has_flag opt RT_EVENT_FLAG_OR); [|done]. wp_ret. by destruct (Z.land bits s =? 0).
Qed.

(** The thread starts to wait. *)
Lemma wp_event_wait k L A t m x flag s ws bits opt timeout Q : kinv_at k L A -> threads (sch k) !! t = Some m ->
  is_stat RT_THREAD_READY m = true -> others_ready t A -> event_state k A x flag s ws ->
  received opt bits s = None -> timeout < RT_TICK_MAX / 2 ->
  (forall k' L' A', kinv_at k' L' A' ->
     event_effect t k A x flag s (place flag (prio_of k) t ws) (wupd (want_of k) t (bits, opt)) [] k' A' -> Q tt k') ->
  wp (start_waiting (Suspend x) t flag timeout) (with_thread k t (set_event_fields m bits opt)) Q.
Proof.
  intros HI Hm Hr Hothers [Hx Hw Hf Hq] Hrec Htime HQ. set (m1 := set_event_fields _ _ _). set (k1 := with_thread k t m1).
  assert (kinv_at k1 L A) as HI1 by by apply (kinv_fields k L A t m).
  assert (forall i, prio_of k1 i = prio_of k i) as Hp1.
  { apply (make_ready_prio k k1 t m1); [done| |by exists m]. intros m0 Hm0. rewrite Hm in Hm0. by injection Hm0 as <-. }
  eapply (wp_start_waiting k1 L A t m1 (Suspend x) ws flag timeout); [done|apply lookup_insert_eq|done..|].
  intros k2 L2 A2 HI2 Hth2 Hi2 _ Hn2 Hruns. apply (HQ k2 L2 A2 HI2).
  assert (t ∉ ws) as Hnot.
  { intros Hin. destruct (waiting_suspended _ _ _ _ _ t HI Hw Hin) as (m' & Hm' & Hs'). rewrite Hm in Hm'. injection Hm' as <-.
    unfold is_stat in *. apply Z.eqb_eq in Hr. rewrite Hr in Hs'. done. }
  apply event_effect_intro; try done.
  - eapply (undisturbed_trans t k A k1 A); [apply undisturbed_thread|by eapply undisturbed_waiting].
  - by apply (runs_highest_running _ k1).
  - intros i. rewrite (want_of_insert k k2 t (suspend_stat m1)); [done|]. rewrite Hth2. cbn. by rewrite insert_insert_eq.
  - unfold A2. by rewrite waiting_waits, (place_ext flag _ _ t ws Hp1).
  - by rewrite Hi2, put_events_same.
  - unfold quiet. rewrite place_perm. constructor; [unfold wupd; by rewrite decide_True|].
    apply Forall_forall. intros i Hi. unfold quiet in Hq. rewrite Forall_forall in Hq. unfold wupd. rewrite decide_False by congruence. by apply Hq.
Qed.

Lemma wp_event_recv k L A t x flag s ws bits opt timeout : kinv_at k L A -> can_wait k A t -> event_state k A x flag s ws ->
  event_op_ok (Recv bits opt timeout) ->
  wp (rt_event_recv_begin x bits opt timeout) k (fun r k' => exists L' A', kinv_at k' L' A' /\
    let '(r0, s', ws', want', woke) := event_next flag (prio_of k) (want_of k) t (Recv bits opt timeout) s ws in
    r = r0 /\ event_effect t k A x flag s' ws' want' woke k' A').
Proof.
  intros HI Hcw Hst [Hopt Htime]. destruct (cw_thread _ _ _ _ HI Hcw) as (m & Hm & Hr). pose proof Hst as [Hx Hw Hf Hq].
  unfold rt_event_recv_begin. cbn [event_next].
  assert (forall k' s', sch k' = sch k \/ (exists m', threads (sch k') = <[t := m']> (threads (sch k)) /\
      event_set m' = event_set m /\ event_info m' = event_info m /\ rt_current_thread (sch k') = rt_current_thread (sch k) /\
      rt_scheduler_lock_nest (sch k') = rt_scheduler_lock_nest (sch k)) ->
    ipc k' = put_events (ipc k) x (mk_event flag s') -> quiet (want_of k) s' ws ->
    event_effect t k A x flag s' ws (want_of k) [] k' A) as Hstay.
  { intros k' s' Hsch Hi Hqs. apply event_effect_intro; try done; [| | |by rewrite insert_id].
    - destruct Hsch as [Hsch|(m' & Hth & _ & _ & _ & Hn)]; [by apply undisturbed_sch|]. split; try done.
      intros i Hi0. rewrite Hth. by apply lookup_insert_is_Some'; right.
    - intros _. exists t. destruct Hcw as [Hc Hrd _]. split; [|done]. destruct Hsch as [->|(m' & _ & _ & _ & -> & _)]; done.
    - destruct Hsch as [Hsch|(m' & Hth & Hes & Hei & _)]; [apply want_same_threads; by rewrite Hsch|].
      by apply (want_same_insert k k' t m m'). }
  destruct (Z.eqb_spec bits 0) as [->|Hb].
  { wp_ret. exists L, A. split; [done|]. split; [done|]. apply Hstay; [by left|by rewrite put_events_same|done]. }
  unfold rt_thread_self, put_error. wp_bind. apply wp_get, wp_ret. wp_bind. eapply wp_of_opt; [apply Hcw|].
  wp_bind. eapply wp_get_thread; [exact Hm|]. apply wp_put_thread. set (m1 := set_error m RT_EOK). set (k1 := with_thread k t m1).
  assert (kinv_at k1 L A) as HI1 by by apply kinv_put_error.
  assert (threads (sch k1) !! t = Some m1) as Hm1 by apply lookup_insert_eq.
  assert (want_same k k1) as Hwant1 by by apply (want_same_insert k k1 t m m1).
  wp_bind. eapply wp_get_event; [exact Hx|]. cbn [set event_flag]. wp_bind. apply wp_recv_status; [done|].
  destruct (received opt bits s) as [got|] eqn:Hrec.
  - destruct (consume_received _ _ _ _ Hrec) as [-> Hcons]. wp_bind. eapply wp_consume; [exact Hx|]. wp_bind.
    eapply wp_get_thread; [exact Hm1|]. wp_ret. exists L, A. split; [by apply kinv_ipc|]. split; [done|]. rewrite Hcons.
    apply Hstay; [right; by exists m1|done|]. eapply Forall_impl; [exact Hq|]. intros i Hi.
    eapply received_smaller; [apply consume_smaller|exact Hi].
  - destruct (Z.eqb_spec timeout 0) as [->|Ht0].
    + wp_bind. eapply wp_get_thread; [exact Hm1|]. wp_bind. apply wp_put_thread. wp_bind. eapply wp_get_thread; [apply lookup_insert_eq|].
      wp_ret. exists L, A. split; [by apply (kinv_put_error k1)|]. split; [done|].
      apply Hstay; [right; exists (set_error m1 (- RT_ETIMEOUT)); cbn; by rewrite insert_insert_eq|by rewrite put_events_same|done].
    + wp_bind. eapply wp_get_thread; [exact Hm1|]. wp_bind. apply wp_put_thread. wp_bind.
      pose proof (prio_put_error k t m RT_EOK Hm) as Hp1. fold m1 k1 in Hp1.
      eapply (wp_event_wait k1 L A t m1 x flag s ws bits opt timeout); [done|done|done|apply Hcw| |done|done|].
      { split; try done. eapply Forall_impl; [exact Hq|]. intros i Hi. by rewrite Hwant1. }
      intros k2 L2 A2 HI2 [H1 H2 H3 H4 H5 H6 H7]. wp_ret. exists L2, A2. split; [done|]. split; [done|].
      rewrite (place_ext flag _ _ t ws Hp1) in H4, H5. split; try done.
      * eapply (undisturbed_trans t k A k1 A); [apply undisturbed_thread|done].
      * intros i. rewrite H3. unfold wupd. case_decide; [done|apply Hwant1].
Qed.

Lemma wp_event_reset k L A t x flag s ws arg : kinv_at k L A -> can_wait k A t -> event_state k A x flag s ws ->
  wp (rt_event_control x RT_IPC_CMD_RESET arg) k (fun r k' => exists L' A', kinv_at k' L' A' /\
    let '(r0, s', ws', want', woke) := event_next flag (prio_of k) (want_of k) t Event_reset s ws in
    Some (r, None) = r0 /\ event_effect t k A x flag s' ws' want' woke k' A').
Proof.
  intros HI Hcw [Hx Hw Hf Hq]. unfold rt_event_control. rewrite Z.eqb_refl. wp_bind.
  eapply wp_resume_all; [done|done|]. intros k1 L1 HI1 Hw1 Hth1 Hmisc1. wp_bind.
  eapply wp_get_event; [by rewrite (sm_ipc _ _ Hmisc1)|]. wp_bind. apply wp_put_event. wp_bind.
  eapply (wp_switch _ L1 _ t); [by apply kinv_ipc|apply wake_all_ready; right; apply Hcw|].
  intros k2 HI2 Hi2 Hu2 Hwa2 Hr2 _. wp_ret. exists L1, (wake_all (prio_of k) ws A). split; [done|]. cbn [event_next event_flag] in *. split; [done|].
  destruct (woken_kept t k k1 A ws Hth1 Hmisc1) as [Hu1 Hwa1].
  apply event_effect_intro; [|done| |done| | |done|constructor].
  - eapply undisturbed_trans; [exact Hu1|]. eapply undisturbed_trans; [|exact (Hu2 t)]. by apply undisturbed_sch.
  - exact (want_same_trans _ _ _ Hwa1 Hwa2).
  - rewrite Hi2. cbn. by rewrite (sm_ipc _ _ Hmisc1).
  - apply Forall_forall. intros i Hi. apply wake_all_ready. by left.
Qed.

Lemma wp_event_op k L A t x flag s ws op : kinv_at k L A -> can_wait k A t -> event_state k A x flag s ws -> event_op_ok op ->
  wp (run_event x op) k (fun r k' => exists L' A', kinv_at k' L' A' /\
    let '(r0, s', ws', want', woke) := event_next flag (prio_of k) (want_of k) t op s ws in
    r = r0 /\ event_effect t k A x flag s' ws' want' woke k' A').
Proof.
  intros HI Hcw Hst Hop. destruct op as [bits|bits opt timeout|]; cbn [run_event].
  - wp_bind. eapply wp_mono; [by apply (wp_event_send k L A t x flag s ws bits)|]. intros r k' H. wp_ret. exact H.
  - by apply (wp_event_recv k L).
  - wp_bind. eapply wp_mono; [by apply (wp_event_reset k L A t x flag s ws 0)|]. intros r k' H. wp_ret. exact H.
Qed.

(** The event 6 of the small system. *)
Definition demo_event : K unit := rt_event_init 6 [101] RT_IPC_FLAG_FIFO ;; mret tt.

Lemma demo_event_boots : exists k L A, boot_with demo_event base_kernel = Some (tt, k) /\
  kinv_at k L A /\ can_wait k A 1 /\ event_state k A 6 RT_IPC_FLAG_FIFO 0 [].
Proof.
  assert (creates demo_event {[Suspend 6 := []]} (mk_ipc ∅ ∅ {[6 := mk_event RT_IPC_FLAG_FIFO 0]} ∅ ∅ ∅)) as Hcr.
  { apply (ipc_creates 6 RT_Object_Class_Event [101] (put_event 6 (mk_event RT_IPC_FLAG_FIFO 0)));
      [by right; right|right; right; right; left|done|done|unfold demo_event, rt_event_init; ipc_object_first|].
    intros k Hi. unfold put_event, get, mbind, M_bind, put. by rewrite Hi. }
  destruct (boots _ _ _ Hcr) as (k & L & A & Hrun & HI & [HT _ Hw H10 _ _ Hcur _ Hth Hi]).
  exists k, L, A. split; [exact Hrun|]. split; [exact HI|]. split.
  - split; [exact Hcur|exists 10; rewrite H10; left|]. exists 10, 2. rewrite H10. split; [right; left|done].
  - split; [rewrite Hi; apply lookup_singleton_eq|apply Hw, lookup_singleton_eq|by left|constructor].
Qed.

(** ** The property *)

(** C11: An event refines a set of bits with a queue of threads: sending, receiving
    and resetting by the current thread have the result of [event_next].  A
    sender wakes, in the order of the queue, the threads whose bits have come,
    each one seeing what those before it have cleared; and after every operation
    no thread waits for bits that are there.  The invariant of the kernel holds
    afterwards, a ready thread runs, and the other objects and waiting lists are
    as they were. *)
Theorem event_refines k L A t x flag s ws op : kinv_at k L A -> can_wait k A t -> event_state k A x flag s ws -> event_op_ok op ->
  let '(r, s', ws', want', woke) := event_next flag (prio_of k) (want_of k) t op s ws in
  exists k' L' A', run_event x op k = Some (r, k') /\ kinv_at k' L' A' /\ event_effect t k A x flag s' ws' want' woke k' A'.
Proof.
  intros HI Hcw Hst Hop.
  pose proof (wp_event_op k L A t x flag s ws op HI Hcw Hst Hop) as Hwp.
  apply wp_elim in Hwp as (r' & k' & Hrun & L' & A' & HI' & Heff). destruct (event_next _ _ _ _ _ _ _) as [[[[r s'] ws'] want'] woke].
  destruct Heff as [-> Heff]. by exists k', L', A'.
Qed.

Lemma event_refines_witness : exists k L A, kinv_at k L A /\
  exists k' L' A', run_event 6 (Recv 5 6 100) k = Some (None, k') /\ kinv_at k' L' A' /\
    event_effect 1 k A 6 RT_IPC_FLAG_FIFO 0 [1] (wupd (want_of k) 1 (5, 6)) [] k' A'.
Proof.
  destruct demo_event_boots as (k & L & A & _ & HI & Hcw & Hst). exists k, L, A. split; [exact HI|].
  assert (event_op_ok (Recv 5 6 100)) as Hop by (split; vm_compute; reflexivity).
  exact (event_refines k L A 1 6 RT_IPC_FLAG_FIFO 0 [] (Recv 5 6 100) HI Hcw Hst Hop).
Defined.
End ops.
