(* ===== verification/Mailbox.v ===== *)
(** * Mailboxes (src/ipc.c)

    A ring of words, with one waiting list for the receivers and one for the
    senders. *)

From S2P Require Import Prelude Klist Kernel Object Timer Sched Thread Boot Tick Ipc.

Open Scope Z_scope.

(** ** The operations *)

Definition get_mb (mb : Z) : K rt_mailbox := k ← get; of_opt (mailboxes (ipc k) !! mb).
Definition put_mb (mb : Z) (m : rt_mailbox) : K unit :=
  k ← get; put (with_ipc k (put_mailboxes (ipc k) mb m)).

(** [msgpool] is the memory of the caller. *)
Definition rt_mb_init (mb : Z) (name msgpool : list Z) (size flag : Z) : K Z :=
  rt_object_init (Obj mb) RT_Object_Class_MailBox name ;;
  rt_ipc_object_init mb ;;
  put_mb mb (mk_mailbox flag msgpool (u16 size) 0 0 0) ;;
  list_init (Suspend_sender mb) ;;
  mret RT_EOK.

Definition rt_mb_detach (mb : Z) : K Z :=
  rt_ipc_list_resume_all (Suspend mb) ;; rt_ipc_list_resume_all (Suspend_sender mb) ;;
  rt_object_detach (Obj mb) ;; mret RT_EOK.

Section heap.
Context (object_size : Z -> Z) (malloc : Z -> K (option addr)) (free : addr -> K unit).

(** The memory of the pool: its words, if there is enough. *)
Context (malloc_pool : Z -> K (option (list Z))) (free_pool : list Z -> K unit).

Definition rt_mb_create (name : list Z) (size flag : Z) : K (option Z) :=
  mb ← rt_object_allocate object_size malloc RT_Object_Class_MailBox name;
  match mb with
  | None => mret None
  | Some (Thread_timer _) => ub
  | Some (Obj mb) =>
      rt_ipc_object_init mb ;;
      pool ← malloc_pool (u16 size * 4);
      match pool with
      | None => rt_object_delete free (Obj mb) ;; mret None
      | Some pool =>
          put_mb mb (mk_mailbox flag pool (u16 size) 0 0 0) ;;
          list_init (Suspend_sender mb) ;; mret (Some mb)
      end
  end.

Definition rt_mb_delete (mb : Z) : K Z :=
  rt_ipc_list_resume_all (Suspend mb) ;; rt_ipc_list_resume_all (Suspend_sender mb) ;;
  x ← get_mb mb; free_pool (mb_msg_pool x) ;;
  rt_object_delete free (Obj mb) ;; mret RT_EOK.
End heap.

(** What a call returns, or what the thread that waits still needs: the timeout
    and the tick at which it started to wait. *)
Inductive outcome (R : Type) := Done (r : R) | Waits (timeout tick_delta : Z).
#[global] Arguments Done {R} r.
#[global] Arguments Waits {R} timeout tick_delta.

Definition advance (offset size : Z) : Z := let offset := u16 (offset + 1) in if size <=? offset then 0 else offset.

(** After the loops: the message is put into the ring, or taken out of it, and a
    thread of the other side goes on. *)
Definition wake_one (list : node) : K unit :=
  e ← list_isempty list;
  if negb e then rt_ipc_list_resume list ;; rt_schedule else mret tt.

Definition mb_put (mb value : Z) : K Z :=
  x ← get_mb mb;
  (if in_offset x <? Z.of_nat (length (mb_msg_pool x)) then
     put_mb mb (mk_mailbox (mb_flag x) (<[Z.to_nat (in_offset x) := value]> (mb_msg_pool x)) (mb_size x)
       (u16 (mb_entry x + 1)) (advance (in_offset x) (mb_size x)) (out_offset x))
   else ub) ;;
  wake_one (Suspend mb) ;; mret RT_EOK.

Definition mb_take (mb : Z) : K (Z * Z) :=
  x ← get_mb mb;
  value ← of_opt (mb_msg_pool x !! Z.to_nat (out_offset x));
  put_mb mb (mk_mailbox (mb_flag x) (mb_msg_pool x) (mb_size x)
    (u16 (mb_entry x - 1)) (in_offset x) (advance (out_offset x) (mb_size x))) ;;
  wake_one (Suspend_sender mb) ;; mret (RT_EOK, value).

(** The head of the loop of rt_mb_send_wait. *)
Definition mb_send_again (mb : Z) (self : option Z) (value timeout tick_delta : Z) : K (outcome Z) :=
  x ← get_mb mb;
  if mb_entry x =? mb_size x then
    thread ← of_opt self; put_error thread RT_EOK ;;
    if timeout =? 0 then mret (Done (- RT_EFULL)) else
    tick_delta ← start_waiting_with tick_delta rt_tick_get (Suspend_sender mb) thread (mb_flag x) timeout;
    mret (Waits timeout tick_delta)
  else r ← mb_put mb value; mret (Done r).

Definition rt_mb_send_wait_begin (mb value timeout : Z) : K (outcome Z) :=
  self ← rt_thread_self; x ← get_mb mb;
  if (mb_entry x =? mb_size x) && (timeout =? 0) then mret (Done (- RT_EFULL))
  else mb_send_again mb self value timeout 0.

(** The time that is left when the thread runs again. *)
Definition time_left (timeout tick_delta : Z) : K (Z * Z) :=
  if 0 <? timeout then
    tick ← rt_tick_get; let tick_delta := u32 (tick - tick_delta) in
    let timeout := s32 (timeout - tick_delta) in mret (if timeout <? 0 then 0 else timeout, tick_delta)
  else mret (timeout, tick_delta).

Definition rt_mb_send_wait_end (mb thread value timeout tick_delta : Z) : K (outcome Z) :=
  m ← get_thread thread;
  if negb (error m =? RT_EOK) then mret (Done (error m)) else
  left ← time_left timeout tick_delta;
  mb_send_again mb (Some thread) value left.1 left.2.

Definition rt_mb_send (mb value : Z) : K (outcome Z) := rt_mb_send_wait_begin mb value 0.

(** The head of the loop of rt_mb_recv; the result and what is written to [*value]. *)
Definition mb_recv_again (mb : Z) (self : option Z) (timeout tick_delta : Z) : K (outcome (Z * option Z)) :=
  x ← get_mb mb;
  if mb_entry x =? 0 then
    thread ← of_opt self; put_error thread RT_EOK ;;
    if timeout =? 0 then put_error thread (- RT_ETIMEOUT) ;; mret (Done (- RT_ETIMEOUT, None)) else
    tick_delta ← start_waiting_with tick_delta rt_tick_get (Suspend mb) thread (mb_flag x) timeout;
    mret (Waits timeout tick_delta)
  else r ← mb_take mb; mret (Done (r.1, Some r.2)).

Definition rt_mb_recv_begin (mb timeout : Z) : K (outcome (Z * option Z)) :=
  self ← rt_thread_self; x ← get_mb mb;
  if (mb_entry x =? 0) && (timeout =? 0) then mret (Done (- RT_ETIMEOUT, None))
  else mb_recv_again mb self timeout 0.

Definition rt_mb_recv_end (mb thread timeout tick_delta : Z) : K (outcome (Z * option Z)) :=
  m ← get_thread thread;
  if negb (error m =? RT_EOK) then mret (Done (error m, None)) else
  left ← time_left timeout tick_delta;
  mb_recv_again mb (Some thread) left.1 left.2.

Definition rt_mb_control (mb cmd arg : Z) : K Z :=
  if cmd =? RT_IPC_CMD_RESET then
    rt_ipc_list_resume_all (Suspend mb) ;; rt_ipc_list_resume_all (Suspend_sender mb) ;;
    x ← get_mb mb; put_mb mb (mk_mailbox (mb_flag x) (mb_msg_pool x) (mb_size x) 0 0 0) ;;
    rt_schedule ;; mret RT_EOK
  else mret (- RT_ERROR).

(** ** The ring *)

Definition ring (pool : list Z) (size inn out : Z) (q : list Z) : Prop :=
  size <= Z.of_nat (length pool) /\ 0 <= out < size /\ Z.of_nat (length q) <= size /\ inn = (out + Z.of_nat (length q)) mod size /\
  forall i, (i < length q)%nat -> pool !! Z.to_nat ((out + Z.of_nat i) mod size) = q !! i.

Lemma advance_mod o size : 0 <= o < size -> size < 65536 -> advance o size = (o + 1) mod size.
Proof.
  intros Ho Hs. unfold advance. cbv zeta. rewrite u16_small by lia. destruct (Z.leb_spec size (o + 1)) as [Hle|Hlt].
  - replace (o + 1) with size by lia. by rewrite Z.mod_same by lia.
  - by rewrite Z.mod_small by lia.
Qed.

Lemma ring_apart size out i j : 0 <= out < size -> 0 <= i < size -> 0 <= j < size ->
  (out + i) mod size = (out + j) mod size -> i = j.
Proof.
  intros Ho Hi Hj He. assert ((i - j) mod size = 0) as Hd.
  { replace (i - j) with ((out + i) - (out + j)) by lia. rewrite Zminus_mod, He, Z.sub_diag. by apply Z.mod_0_l; lia. }
  apply Z.mod_divide in Hd as [c Hc]; [|lia]. destruct (decide (c = 0)); [subst; lia|]. nia.
Qed.

Lemma ring_put pool size inn out q value : ring pool size inn out q -> Z.of_nat (length q) < size -> size < 65536 ->
  0 <= inn < Z.of_nat (length pool) /\
  ring (<[Z.to_nat inn := value]> pool) size (advance inn size) out (q ++ [value]).
Proof.
  intros (Hp & Ho & Hq & Hin & Hring) Hlt Hs. assert (0 <= inn < size) as Hinn by (rewrite Hin; apply Z.mod_pos_bound; lia).
  split; [lia|]. split; [by rewrite length_insert|]. split; [done|]. rewrite length_app. cbn [length]. split; [lia|]. split.
  - rewrite advance_mod by lia. rewrite Hin, Zplus_mod_idemp_l. f_equal. lia.
  - intros i Hi. destruct (decide (i = length q)) as [->|Hne].
    + rewrite <-Hin, list_lookup_insert_eq by lia. by rewrite lookup_app_r, Nat.sub_diag.
    + rewrite lookup_app_l by lia. rewrite list_lookup_insert_ne; [apply Hring; lia|].
      intros He. assert ((out + Z.of_nat (length q)) mod size = (out + Z.of_nat i) mod size) as He'.
      { rewrite <-Hin. pose proof (Z.mod_pos_bound (out + Z.of_nat i) size ltac:(lia)). lia. }
      apply ring_apart in He'; lia.
Qed.

Lemma ring_take pool size inn out value q : ring pool size inn out (value :: q) -> size < 65536 ->
  pool !! Z.to_nat out = Some value /\ ring pool size inn (advance out size) q.
Proof.
  intros (Hp & Ho & Hq & Hin & Hring) Hs. cbn [length] in *. split.
  - specialize (Hring 0%nat ltac:(lia)). rewrite Z.add_0_r, Z.mod_small in Hring by lia. exact Hring.
  - rewrite advance_mod by lia. split; [done|]. split; [apply Z.mod_pos_bound; lia|]. split; [lia|]. split.
    + rewrite Hin, Zplus_mod_idemp_l. f_equal. lia.
    + intros i Hi. rewrite Zplus_mod_idemp_l. specialize (Hring (S i) ltac:(lia)). change ((value :: q) !! S i) with (q !! i) in Hring.
      etrans; [|exact Hring]. do 3 f_equal. lia.
Qed.

(** ** A mailbox as a bounded queue *)

Record mb_state (k : kernel) (A : abs) (x flag size : Z) (q rs ss : list Z) : Prop := {
  ms_ring : exists pool inn out, mailboxes (ipc k) !! x = Some (mk_mailbox flag pool size (Z.of_nat (length q)) inn out) /\
    ring pool size inn out q;
  ms_receivers : a_waits A !! Suspend x = Some rs;
  ms_senders : a_waits A !! Suspend_sender x = Some ss;
  ms_flag : flag_ok flag;
  ms_size : 0 < size < 65536;
}.

Inductive mb_op :=
  | Mb_send (value timeout : Z)
  | Mb_send_resumed (value timeout tick_delta : Z)
  | Mb_recv (timeout : Z)
  | Mb_recv_resumed (timeout tick_delta : Z)
  | Mb_reset.

Definition no_value (r : outcome Z) : outcome (Z * option Z) :=
  match r with Done r => Done (r, None) | Waits timeout tick_delta => Waits timeout tick_delta end.
Definition sending (m : K (outcome Z)) : K (outcome (Z * option Z)) := r ← m; mret (no_value r).

(** A call of thread [t], or the rest of one when the thread runs again. *)
Definition run_mb (x t : Z) (op : mb_op) : K (outcome (Z * option Z)) :=
  match op with
  | Mb_send value timeout => sending (rt_mb_send_wait_begin x value timeout)
  | Mb_send_resumed value timeout tick_delta => sending (rt_mb_send_wait_end x t value timeout tick_delta)
  | Mb_recv timeout => rt_mb_recv_begin x timeout
  | Mb_recv_resumed timeout tick_delta => rt_mb_recv_end x t timeout tick_delta
  | Mb_reset => r ← rt_mb_control x RT_IPC_CMD_RESET 0; mret (Done (r, None))
  end.

(** The result, the messages, both queues, and the threads that are woken. *)
Definition mb_result : Type := outcome (Z * option Z) * list Z * list Z * list Z * list Z.

Definition send_next (flag size : Z) (prio : Z -> Z) (now t value timeout tick_delta : Z) (q rs ss : list Z) : mb_result :=
  if Z.of_nat (length q) =? size then
    if timeout =? 0 then (Done (- RT_EFULL, None), q, rs, ss, [])
    else (Waits timeout (if 0 <? timeout then now else tick_delta), q, rs, place flag prio t ss, [])
  else (Done (RT_EOK, None), q ++ [value], tail rs, ss, take 1 rs).

Definition recv_next (flag : Z) (prio : Z -> Z) (now t timeout tick_delta : Z) (q rs ss : list Z) : mb_result :=
  match q with
  | [] =>
      if timeout =? 0 then (Done (- RT_ETIMEOUT, None), q, rs, ss, [])
      else (Waits timeout (if 0 <? timeout then now else tick_delta), q, place flag prio t rs, ss, [])
  | value :: q => (Done (RT_EOK, Some value), q, rs, tail ss, take 1 ss)
  end.

(** What is left of a timeout that began at [tick_delta]. *)
Definition left_of (now timeout tick_delta : Z) : Z * Z :=
  if 0 <? timeout then (Z.max 0 (s32 (timeout - u32 (now - tick_delta))), u32 (now - tick_delta)) else (timeout, tick_delta).

Definition mb_next (flag size : Z) (prio : Z -> Z) (now err t : Z) (op : mb_op) (q rs ss : list Z) : mb_result :=
  match op with
  | Mb_send value timeout => send_next flag size prio now t value timeout 0 q rs ss
  | Mb_send_resumed value timeout tick_delta =>
      if err =? RT_EOK then
        let left := left_of now timeout tick_delta in send_next flag size prio now t value left.1 left.2 q rs ss
      else (Done (err, None), q, rs, ss, [])
  | Mb_recv timeout => recv_next flag prio now t timeout 0 q rs ss
  | Mb_recv_resumed timeout tick_delta =>
      if err =? RT_EOK then
        let left := left_of now timeout tick_delta in recv_next flag prio now t left.1 left.2 q rs ss
      else (Done (err, None), q, rs, ss, [])
  | Mb_reset => (Done (RT_EOK, None), [], [], [], rs ++ ss)
  end.

Definition mb_op_ok (now : Z) (op : mb_op) : Prop :=
  match op with
  | Mb_send _ timeout | Mb_recv timeout => timeout < RT_TICK_MAX / 2
  | Mb_send_resumed _ timeout tick_delta | Mb_recv_resumed timeout tick_delta => (left_of now timeout tick_delta).1 < RT_TICK_MAX / 2
  | Mb_reset => True
  end.

(** All else of the state is kept. *)
Record mb_effect (t : Z) (k : kernel) (A : abs) (x flag size : Z) (q rs ss woke : list Z) (k' : kernel) (A' : abs) : Prop := {
  be_kept : undisturbed t k A k' A';
  be_running : running k' A';
  be_want : want_same k k';
  be_state : mb_state k' A' x flag size q rs ss;
  be_waits : a_waits A' = <[Suspend x := rs]> (<[Suspend_sender x := ss]> (a_waits A));
  be_ipc : exists m, ipc k' = put_mailboxes (ipc k) x m;
  be_woke : Forall (is_ready A') woke;
}.

Section ops.
Implicit Types (k : kernel) (L : gmap node (list node)) (A : abs) (t : Z) (m : rt_thread).

Definition with_mb (k : kernel) (x : Z) (m : rt_mailbox) : kernel :=
  with_ipc k (put_mailboxes (ipc k) x m).

Lemma wp_get_mb k x (m : rt_mailbox) Q : mailboxes (ipc k) !! x = Some m -> Q m k -> wp (get_mb x) k Q.
Proof. intros Hm HQ. eapply wp_run; [|exact HQ]. unfold get_mb, mbind, M_bind, get, of_opt. by rewrite Hm. Qed.

Lemma wp_put_mb k x (m : rt_mailbox) Q : Q tt (with_mb k x m) -> wp (put_mb x m) k Q.
Proof. done. Qed.

Lemma wp_wake_one k L A t h ws Q : kinv_at k L A -> a_waits A !! h = Some ws -> running k A ->
  (forall k' L' A', kinv_at k' L' A' -> undisturbed t k A k' A' -> running k' A' -> want_same k k' ->
     a_waits A' = <[h := tail ws]> (a_waits A) -> ipc k' = ipc k -> Forall (is_ready A') (take 1 ws) -> Q tt k') -> wp (wake_one h) k Q.
Proof.
  intros HI Hw Hr HQ. destruct (ki_waits _ _ _ HI _ _ Hw) as [_ Hl]. unfold wake_one. wp_bind.
  eapply wp_isempty; [apply HI|exact Hl|]. destruct ws as [|w ws].
  - rewrite bool_decide_true by done. wp_ret. apply (HQ k L A HI); [by apply undisturbed_sch|done|done|by rewrite insert_id|done|constructor].
  - rewrite bool_decide_false by done. cbn [negb]. wp_bind.
    destruct (waiting_suspended _ _ _ _ _ w HI Hw) as (m & Hm & _); [left|].
    eapply wp_ipc_resume; [done|done|exact Hm|]. intros k1 L1 HI1 Hw1 Hth1 Hmisc1.
    eapply (wp_switch k1 L1 _ w); [done|apply make_ready_is|]. intros k2 HI2 Hi2 Hu2 Hwa2 Hr2 _.
    apply (HQ k2 L1 _ HI2); [|done| |exact Hw1|by rewrite Hi2, (sm_ipc _ _ Hmisc1)|repeat constructor; apply make_ready_is].
    + eapply undisturbed_trans; [|exact (Hu2 t)]. by eapply undisturbed_make_ready; [exact Hth1|apply Hmisc1].
    + eapply want_same_trans; [|exact Hwa2]. by apply (want_same_insert k k1 w m (ready_stat m)).
Qed.

(** The effect from the ring and the waiting lists. *)
Lemma mb_effect_intro t k A x flag size q rs ss woke k' A' pool inn out : undisturbed t k A k' A' -> running k' A' -> want_same k k' ->
  a_waits A' = <[Suspend x := rs]> (<[Suspend_sender x := ss]> (a_waits A)) ->
  ipc k' = put_mailboxes (ipc k) x (mk_mailbox flag pool size (Z.of_nat (length q)) inn out) -> ring pool size inn out q ->
  flag_ok flag -> 0 < size < 65536 -> Forall (is_ready A') woke -> mb_effect t k A x flag size q rs ss woke k' A'.
Proof.
  intros Hu Hrun Hwa Hw Hi Hr Hf Hs Hwo. split; try done.
  - split; [|by rewrite Hw, lookup_insert_eq|by rewrite Hw, lookup_insert_ne, lookup_insert_eq by done|done|done].
    exists pool, inn, out. split; [|done]. rewrite Hi. apply lookup_insert_eq.
  - eexists. exact Hi.
Qed.

Lemma put_mailboxes_same i x (m : rt_mailbox) : mailboxes i !! x = Some m -> put_mailboxes i x m = i.
Proof. intros Hx. unfold put_mailboxes. rewrite insert_id by done. by destruct i. Qed.

Lemma mb_waits_same k A x flag size q rs ss : mb_state k A x flag size q rs ss ->
  a_waits A = <[Suspend x := rs]> (<[Suspend_sender x := ss]> (a_waits A)).
Proof. intros [_ Hr Hs _ _]. rewrite (insert_id (a_waits A) (Suspend_sender x)) by done. by rewrite insert_id. Qed.

(** Only the thread changed, and not in what it waits for. *)
Lemma mb_effect_none t k A x flag size q rs ss k' : mb_state k A x flag size q rs ss -> ipc k' = ipc k ->
  undisturbed t k A k' A -> running k' A -> want_same k k' -> mb_effect t k A x flag size q rs ss [] k' A.
Proof.
  intros Hst Hi Hu Hrun Hwa. pose proof (mb_waits_same _ _ _ _ _ _ _ _ Hst) as Hw. destruct Hst as [(pool & inn & out & Hm & Hr) H1 H2 H3 H4].
  apply (mb_effect_intro _ _ _ _ _ _ _ _ _ _ _ _ pool inn out); try done. by rewrite Hi, put_mailboxes_same.
Qed.

(** The part of an operation after its loop. *)
Lemma wp_mb_put k L A t x flag size q rs ss value : kinv_at k L A -> mb_state k A x flag size q rs ss ->
  Z.of_nat (length q) < size -> running k A ->
  wp (mb_put x value) k (fun r k' => exists L' A', kinv_at k' L' A' /\ r = RT_EOK /\
    mb_effect t k A x flag size (q ++ [value]) (tail rs) ss (take 1 rs) k' A').
Proof.
  intros HI Hst Hlt Hrun. destruct Hst as [(pool & inn & out & Hm & Hr) Hrs Hss Hf Hs]. unfold mb_put. wp_bind. eapply wp_get_mb; [exact Hm|].
  cbn [in_offset mb_msg_pool mb_flag mb_size mb_entry out_offset].
  destruct (ring_put pool size inn out q value Hr Hlt) as [Hin Hr']; [lia|]. rewrite (proj2 (Z.ltb_lt _ _)) by lia.
  wp_bind. apply wp_put_mb. rewrite u16_small by (destruct Hr; lia). set (k0 := with_mb k x _).
  wp_bind. eapply (wp_wake_one k0 L A t (Suspend x) rs); [by apply kinv_ipc|done|by apply (running_sch k)|].
  intros k1 L1 A1 HI1 Hu1 Hr1 Hwa1 Hw1 Hi1 Hwo1. wp_ret. exists L1, A1. split; [done|]. split; [done|].
  eapply mb_effect_intro; [|done| | | |exact Hr'|done|done|done].
  - eapply (undisturbed_trans t k A k0 A); [by apply undisturbed_sch|done].
  - eapply (want_same_trans k k0); [by apply want_same_threads|done].
  - by rewrite Hw1, (insert_id _ (Suspend_sender x)).
  - rewrite Hi1. cbn. do 2 f_equal. rewrite length_app. cbn [length]. lia.
Qed.

Lemma wp_mb_take k L A t x flag size value q rs ss : kinv_at k L A -> mb_state k A x flag size (value :: q) rs ss -> running k A ->
  wp (mb_take x) k (fun r k' => exists L' A', kinv_at k' L' A' /\ r = (RT_EOK, value) /\
    mb_effect t k A x flag size q rs (tail ss) (take 1 ss) k' A').
Proof.
  intros HI Hst Hrun. destruct Hst as [(pool & inn & out & Hm & Hr) Hrs Hss Hf Hs]. unfold mb_take. wp_bind. eapply wp_get_mb; [exact Hm|].
  cbn [in_offset mb_msg_pool mb_flag mb_size mb_entry out_offset].
  destruct (ring_take pool size inn out value q Hr) as [Hv Hr']; [lia|]. wp_bind. eapply wp_of_opt; [exact Hv|].
  wp_bind. apply wp_put_mb. cbn [length]. rewrite u16_small by (destruct Hr as (? & ? & ? & _); cbn [length] in *; lia). set (k0 := with_mb k x _).
  wp_bind. eapply (wp_wake_one k0 L A t (Suspend_sender x) ss); [by apply kinv_ipc|done|by apply (running_sch k)|].
  intros k1 L1 A1 HI1 Hu1 Hr1 Hwa1 Hw1 Hi1 Hwo1. wp_ret. exists L1, A1. split; [done|]. split; [done|].
  eapply mb_effect_intro; [|done| | | |exact Hr'|done|done|done].
  - eapply (undisturbed_trans t k A k0 A); [by apply undisturbed_sch|done].
  - eapply (want_same_trans k k0); [by apply want_same_threads|done].
  - rewrite Hw1. symmetry. apply insert_id. by rewrite lookup_insert_ne.
  - rewrite Hi1. cbn. do 2 f_equal. lia.
Qed.

(** The wait of a sender or a receiver in one of the two lists. *)
Lemma wp_mb_wait k L A t m x flag size q rs ss h rs' ss' ws timeout td Q : kinv_at k L A -> threads (sch k) !! t = Some m ->
  is_stat RT_THREAD_READY m = true -> others_ready t A -> mb_state k A x flag size q rs ss -> a_waits A !! h = Some ws ->
  <[h := place flag (prio_of k) t ws]> (a_waits A) = <[Suspend x := rs']> (<[Suspend_sender x := ss']> (a_waits A)) ->
  timeout < RT_TICK_MAX / 2 ->
  (forall k' L' A', kinv_at k' L' A' -> mb_effect t k A x flag size q rs' ss' [] k' A' ->
     Q (if 0 <? timeout then rt_tick (clk k) else td) k') ->
  wp (start_waiting_with td rt_tick_get h t flag timeout) (with_thread k t (set_error m RT_EOK)) Q.
Proof.
  intros HI Hm Hr Hothers Hst Hh Hw Htime HQ. destruct Hst as [(pool & inn & out & Hmb & Hring) Hrs Hss Hf Hs].
  eapply (wp_wait td (rt_tick (clk k)) rt_tick_get k L A t m h ws flag timeout); [done..| |].
  { intros k1 Hk1. unfold rt_tick_get, mbind, M_bind, get. cbn. by rewrite Hk1. }
  intros k2 L2 A2 HI2 Hu2 Hr2 Hwa2 Hi2 Hw2. apply (HQ k2 L2 A2 HI2).
  apply (mb_effect_intro _ _ _ _ _ _ _ _ _ _ _ _ pool inn out); try done; [by rewrite Hw2|by rewrite Hi2, put_mailboxes_same].
Qed.

Lemma wp_put_error k L A t m x flag size q rs ss e Q : kinv_at k L A -> threads (sch k) !! t = Some m ->
  running k A -> mb_state k A x flag size q rs ss ->
  (kinv_at (with_thread k t (set_error m e)) L A -> mb_effect t k A x flag size q rs ss [] (with_thread k t (set_error m e)) A ->
   Q tt (with_thread k t (set_error m e))) -> wp (put_error t e) k Q.
Proof.
  intros HI Hm Hrun Hst HQ. unfold put_error. wp_bind. eapply wp_get_thread; [exact Hm|]. apply wp_put_thread.
  apply HQ; [by apply kinv_put_error|]. apply mb_effect_none; [done|done|apply undisturbed_thread|done|].
  by apply (want_same_insert k _ t m (set_error m e)).
Qed.

Lemma wp_mb_send_again k L A t m x flag size q rs ss value timeout td : kinv_at k L A -> threads (sch k) !! t = Some m ->
  is_stat RT_THREAD_READY m = true -> others_ready t A -> running k A -> mb_state k A x flag size q rs ss -> timeout < RT_TICK_MAX / 2 ->
  wp (mb_send_again x (Some t) value timeout td) k (fun r k' => exists L' A', kinv_at k' L' A' /\
    let '(r0, q', rs', ss', woke) := send_next flag size (prio_of k) (rt_tick (clk k)) t value timeout td q rs ss in
    no_value r = r0 /\ mb_effect t k A x flag size q' rs' ss' woke k' A').
Proof.
  intros HI Hm Hr Hothers Hrun Hst Htime. pose proof Hst as [(pool & inn & out & Hmb & Hring) Hrs Hss Hf Hs].
  unfold mb_send_again, send_next. wp_bind. eapply wp_get_mb; [exact Hmb|]. cbn [mb_entry mb_size mb_flag].
  destruct (Z.eqb_spec (Z.of_nat (length q)) size) as [Hfull|Hfree].
  - wp_bind. eapply wp_of_opt; [done|]. wp_bind. eapply (wp_put_error k L A); [done|done|done|done|]. intros HI1 Heff1.
    destruct (Z.eqb_spec timeout 0) as [->|Ht0].
    + wp_ret. exists L, A. by split.
    + wp_bind. eapply (wp_mb_wait k L A t m x flag size q rs ss (Suspend_sender x) rs (place flag (prio_of k) t ss) ss); try done.
      * symmetry. apply insert_id. by rewrite lookup_insert_ne.
      * intros k2 L2 A2 HI2 Heff2. wp_ret. by exists L2, A2.
  - wp_bind. eapply wp_mono; [apply (wp_mb_put k L A t x flag size q rs ss value HI Hst)|].
    + destruct Hring as (_ & _ & ? & _). lia.
    + done.
    + cbv beta. intros r k1 (L1 & A1 & HI1 & -> & Heff1). wp_ret. by exists L1, A1.
Qed.

Lemma wp_mb_recv_again k L A t m x flag size q rs ss timeout td : kinv_at k L A -> threads (sch k) !! t = Some m ->
  is_stat RT_THREAD_READY m = true -> others_ready t A -> running k A -> mb_state k A x flag size q rs ss -> timeout < RT_TICK_MAX / 2 ->
  wp (mb_recv_again x (Some t) timeout td) k (fun r k' => exists L' A', kinv_at k' L' A' /\
    let '(r0, q', rs', ss', woke) := recv_next flag (prio_of k) (rt_tick (clk k)) t timeout td q rs ss in
    r = r0 /\ mb_effect t k A x flag size q' rs' ss' woke k' A').
Proof.
  intros HI Hm Hr Hothers Hrun Hst Htime. pose proof Hst as [(pool & inn & out & Hmb & Hring) Hrs Hss Hf Hs].
  unfold mb_recv_again, recv_next. wp_bind. eapply wp_get_mb; [exact Hmb|]. cbn [mb_entry mb_size mb_flag].
  destruct q as [|v q].
  - change (Z.of_nat (length []) =? 0) with true. cbn iota. wp_bind. eapply wp_of_opt; [done|]. wp_bind.
    eapply (wp_put_error k L A); [done|done|done|done|]. intros HI1 Heff1. destruct (Z.eqb_spec timeout 0) as [->|Ht0].
    + wp_bind. unfold put_error. wp_bind. eapply wp_get_thread; [apply lookup_insert_eq|]. apply wp_put_thread. wp_ret.
      exists L, A. split; [apply kinv_put_error; [done|apply lookup_insert_eq]|]. split; [done|]. destruct Heff1 as [Hu1 _ Hwa1 _ _ _ _].
      apply mb_effect_none; [done|done| |done|].
      * eapply undisturbed_trans; [exact Hu1|apply undisturbed_thread].
      * eapply want_same_trans; [exact Hwa1|]. by eapply want_same_insert; [apply lookup_insert_eq|done..].
    + wp_bind. eapply (wp_mb_wait k L A t m x flag size [] rs ss (Suspend x) (place flag (prio_of k) t rs) ss rs); try done.
      * by rewrite (insert_id (a_waits A) (Suspend_sender x)).
      * intros k2 L2 A2 HI2 Heff2. wp_ret. by exists L2, A2.
  - rewrite (proj2 (Z.eqb_neq _ 0)) by (cbn [length]; lia).
    wp_bind. eapply wp_mono; [apply (wp_mb_take k L A t x flag size v q rs ss HI Hst Hrun)|].
    cbv beta. intros r k1 (L1 & A1 & HI1 & -> & Heff1). wp_ret. by exists L1, A1.
Qed.

Lemma wp_time_left k timeout td Q : Q (left_of (rt_tick (clk k)) timeout td) k -> wp (time_left timeout td) k Q.
Proof.
  intros HQ. unfold time_left, left_of, rt_tick_get in *. destruct (0 <? timeout); [|by wp_ret]. wp_bind. apply wp_get. wp_ret.
  destruct (Z.ltb_spec (s32 (timeout - u32 (rt_tick (clk k) - td))) 0) as [Hlt|Hge];
    [by rewrite Z.max_l in HQ by lia|by rewrite Z.max_r in HQ by lia].
Qed.

Lemma wp_mb_reset k L A t x flag size q rs ss arg : kinv_at k L A -> can_wait k A t -> mb_state k A x flag size q rs ss ->
  wp (rt_mb_control x RT_IPC_CMD_RESET arg) k (fun r k' => r = RT_EOK /\ exists L' A', kinv_at k' L' A' /\
    mb_effect t k A x flag size [] [] [] (rs ++ ss) k' A').
Proof.
  intros HI Hcw [(pool & inn & out & Hm & Hr) Hrs Hss Hf Hs]. unfold rt_mb_control. rewrite Z.eqb_refl. wp_bind.
  eapply wp_resume_all; [done|exact Hrs|]. intros k1 L1 HI1 Hw1 Hth1 Hmisc1.
  destruct (woken_kept t k k1 A rs Hth1 Hmisc1) as [Hu1 Hwa1]. set (A1 := wake_all _ rs A) in *. wp_bind.
  eapply wp_resume_all; [done|by rewrite Hw1, lookup_insert_ne|]. intros k2 L2 HI2 Hw2 Hth2 Hmisc2.
  destruct (woken_kept t k1 k2 A1 ss Hth2 Hmisc2) as [Hu2 Hwa2]. set (A2 := wake_all _ ss A1) in *.
  assert (ipc k2 = ipc k) as Hi2 by (by rewrite (sm_ipc _ _ Hmisc2), (sm_ipc _ _ Hmisc1)).
  wp_bind. eapply wp_get_mb; [by rewrite Hi2|]. wp_bind. apply wp_put_mb. cbn [mb_flag mb_msg_pool mb_size]. wp_bind.
  assert (forall i, i ∈ rs ++ ss \/ is_ready A i -> is_ready A2 i) as Hready.
  { intros i Hi. rewrite elem_of_app in Hi. apply wake_all_ready. destruct Hi as [[Hi|Hi]|Hi]; [right|by left|right];
      apply wake_all_ready; [by left|by right]. }
  set (k2' := with_mb k2 x _). eapply (wp_switch k2' L2 _ t); [by apply kinv_ipc|apply Hready; right; apply Hcw|].
  intros k3 HI3 Hi3 Hu3 Hwa3 Hr3 _. wp_ret. split; [done|]. exists L2, A2. split; [done|].
  apply (mb_effect_intro _ _ _ _ _ _ _ _ _ _ _ _ pool 0 0); try done.
  - eapply undisturbed_trans; [exact Hu1|]. eapply undisturbed_trans; [exact Hu2|].
    eapply (undisturbed_trans t k2 A2 k2' A2); [by apply undisturbed_sch|apply Hu3].
  - eapply want_same_trans; [exact Hwa1|]. exact (want_same_trans _ _ _ Hwa2 Hwa3).
  - rewrite Hw2, Hw1. by rewrite insert_insert_ne.
  - by rewrite Hi3; cbn; rewrite Hi2.
  - destruct Hr as (? & _). split; [done|]. split; [lia|]. split; [cbn; lia|]. split; [by rewrite Z.mod_0_l by lia|cbn; lia].
  - apply Forall_forall. intros i Hi. apply Hready. by left.
Qed.

Lemma wp_sending (c : K (outcome Z)) k Q : wp c k (fun r k' => Q (no_value r) k') -> wp (sending c) k Q.
Proof. intros Hc. unfold sending. wp_bind. eapply wp_mono; [exact Hc|]. cbv beta. intros r k' Hr. by wp_ret. Qed.

Lemma wp_mb_op k L A t m x flag size q rs ss op : kinv_at k L A -> can_wait k A t -> threads (sch k) !! t = Some m ->
  mb_state k A x flag size q rs ss -> mb_op_ok (rt_tick (clk k)) op ->
  wp (run_mb x t op) k (fun r k' => exists L' A', kinv_at k' L' A' /\
    let '(r0, q', rs', ss', woke) := mb_next flag size (prio_of k) (rt_tick (clk k)) (error m) t op q rs ss in
    r = r0 /\ mb_effect t k A x flag size q' rs' ss' woke k' A').
Proof.
  intros HI Hcw Hm Hst Hop. pose proof Hcw as [Hcur _ Hothers].
  assert (is_stat RT_THREAD_READY m = true) as Hr.
  { destruct (cw_thread _ _ _ _ HI Hcw) as (m' & Hm' & Hr). rewrite Hm in Hm'. by injection Hm' as <-. }
  pose proof Hst as [(pool & inn & out & Hmb & Hring) _ _ _ Hs].
  assert (forall r : outcome (Z * option Z), exists L' A', kinv_at k L' A' /\ r = r /\ mb_effect t k A x flag size q rs ss [] k A') as Hnone.
  { intros r. exists L, A. split; [done|]. split; [done|]. by apply mb_effect_none; [done|done|apply undisturbed_sch|apply (can_wait_running _ _ t)|]. }
  pose proof (can_wait_running _ _ _ Hcw) as Hrun.
  destruct op as [value timeout|value timeout td|timeout|timeout td|]; cbn [run_mb mb_next mb_op_ok] in *.
  - apply wp_sending. unfold rt_mb_send_wait_begin, rt_thread_self. wp_bind. apply wp_get, wp_ret. wp_bind. eapply wp_get_mb; [exact Hmb|].
    cbn [mb_entry mb_size]. rewrite Hcur.
    destruct (Z.eqb_spec (Z.of_nat (length q)) size) as [Hfull|Hfree], (Z.eqb_spec timeout 0) as [->|Ht0]; cbn [andb];
      try (by eapply wp_mb_send_again). unfold send_next. rewrite (proj2 (Z.eqb_eq _ _)) by done. wp_ret. apply Hnone.
  - apply wp_sending. unfold rt_mb_send_wait_end. wp_bind. eapply wp_get_thread; [exact Hm|].
    destruct (error m =? RT_EOK); cbn [negb]; [|wp_ret; apply Hnone]. wp_bind. apply wp_time_left. by eapply wp_mb_send_again.
  - unfold rt_mb_recv_begin, rt_thread_self. wp_bind. apply wp_get, wp_ret. wp_bind. eapply wp_get_mb; [exact Hmb|].
    cbn [mb_entry mb_size]. rewrite Hcur.
    destruct (Z.eqb_spec (Z.of_nat (length q)) 0) as [Hfull|Hfree], (Z.eqb_spec timeout 0) as [->|Ht0]; cbn [andb];
      try (by eapply wp_mb_recv_again). destruct q; [|cbn in Hfull; lia]. wp_ret. apply Hnone.
  - unfold rt_mb_recv_end. wp_bind. eapply wp_get_thread; [exact Hm|].
    destruct (error m =? RT_EOK); cbn [negb]; [|wp_ret; apply Hnone]. wp_bind. apply wp_time_left. by eapply wp_mb_recv_again.
  - wp_bind. eapply wp_mono; [by eapply wp_mb_reset|]. cbv beta. intros r k' (-> & L' & A' & HI' & Heff). wp_ret. by exists L', A'.
Qed.

(** The mailbox 4 of the small system, for two messages. *)
Definition demo_mailbox : K unit := rt_mb_init 4 [98] [0; 0] 2 RT_IPC_FLAG_FIFO ;; mret tt.

Lemma demo_mailbox_boots : exists k L A, boot_with demo_mailbox base_kernel = Some (tt, k) /\
  kinv_at k L A /\ can_wait k A 1 /\ mb_state k A 4 RT_IPC_FLAG_FIFO 2 [] [] [] /\ exists m, threads (sch k) !! 1 = Some m /\ error m = RT_EOK.
Proof.
  set (x := mk_mailbox RT_IPC_FLAG_FIFO [0; 0] 2 0 0 0).
  assert (creates demo_mailbox (<[Suspend_sender 4 := []]> {[Suspend 4 := []]}) (mk_ipc ∅ ∅ ∅ {[4 := x]} ∅ ∅)) as Hcr.
  { apply (ipc_creates_with 4 RT_Object_Class_MailBox [98] (put_mb 4 x ;; list_init (Suspend_sender 4)));
      [by left|right; right; right; right; left|done|done| |].
    - unfold demo_mailbox, rt_mb_init. intros k. change (u16 2) with 2. fold x. unfold mbind, M_bind.
      destruct (rt_object_init _ _ _ k) as [[? k1]|]; [|done]. destruct (rt_ipc_object_init _ k1) as [[? k2]|]; [|done].
      destruct (put_mb 4 x k2) as [[? k3]|]; [|done]. by destruct (list_init (Suspend_sender 4) k3) as [[[] k4]|].
    - intros k L HI Hi Hu. wp_bind. apply wp_put_mb. eapply (wp_new_wait (with_mb k 4 x) L); [by apply kinv_ipc|done|done|].
      intros k' L' HI' Hs' Hi' _ _ _ _. exists L'. split_and!; [exact HI'|done|]. rewrite Hi'. cbn. by rewrite Hi. }
  destruct (boots _ _ _ Hcr) as (k & L & A & Hrun & HI & [HT _ Hw H10 _ _ Hcur _ Hth Hi]).
  exists k, L, A. split; [exact Hrun|]. split; [exact HI|]. split; [|split].
  - split; [exact Hcur|exists 10; rewrite H10; left|]. exists 10, 2. rewrite H10. split; [right; left|done].
  - split; [|by apply Hw|by apply Hw|by left|lia].
    exists [0; 0], 0, 0. split; [rewrite Hi; apply lookup_singleton_eq|]. split; [cbn; lia|]. split; [lia|]. split; [cbn; lia|].
    split; [reflexivity|]. cbn. lia.
  - exists (demo_thread 10 20). split; [|reflexivity]. rewrite Hth, lookup_insert_ne, lookup_insert_ne by lia. apply lookup_insert_eq.
Qed.

(** ** The property *)

(** C8: A mailbox refines a queue of at most [size] messages with the threads that
    wait to receive or to send: every call of the current thread, and the rest of
    a call when its thread runs again, has the result of [mb_next].  Messages come
    out in the order in which they were put in; a full mailbox refuses or lets
    the sender wait, an empty one the receiver, for what is left of the timeout;
    and each message put in or taken out wakes the first thread that waits on the
    other side.  The invariant of the kernel holds afterwards, a ready thread
    runs, and all other objects and waiting lists are as they were. *)
Theorem mailbox_refines k L A t m x flag size q rs ss op : kinv_at k L A -> can_wait k A t -> threads (sch k) !! t = Some m ->
  mb_state k A x flag size q rs ss -> mb_op_ok (rt_tick (clk k)) op ->
  let '(r, q', rs', ss', woke) := mb_next flag size (prio_of k) (rt_tick (clk k)) (error m) t op q rs ss in
  exists k' L' A', run_mb x t op k = Some (r, k') /\ kinv_at k' L' A' /\ mb_effect t k A x flag size q' rs' ss' woke k' A'.
Proof.
  intros HI Hcw Hm Hst Hop. pose proof (wp_mb_op k L A t m x flag size q rs ss op HI Hcw Hm Hst Hop) as Hwp.
  apply wp_elim in Hwp as (r' & k' & Hrun & L' & A' & HI' & Heff).
  destruct (mb_next _ _ _ _ _ _ _ _ _ _) as [[[[r q'] rs'] ss'] woke]. destruct Heff as [-> Heff]. by exists k', L', A'.
Qed.

Lemma mailbox_refines_witness : exists k L A, kinv_at k L A /\
  exists k' L' A', run_mb 4 1 (Mb_send 77 0) k = Some (Done (RT_EOK, None), k') /\ kinv_at k' L' A' /\
    mb_effect 1 k A 4 RT_IPC_FLAG_FIFO 2 [77] [] [] [] k' A'.
Proof.
  destruct demo_mailbox_boots as (k & L & A & _ & HI & Hcw & Hst & m & Hm & He). exists k, L, A. split; [exact HI|].
  assert (mb_op_ok (rt_tick (clk k)) (Mb_send 77 0)) as Hop by (vm_compute; reflexivity).
  exact (mailbox_refines k L A 1 m 4 RT_IPC_FLAG_FIFO 2 [] [] [] (Mb_send 77 0) HI Hcw Hm Hst Hop).
Defined.
End ops.
