(* ===== verification/MsgQueue.v ===== *)
(** * Message queues (src/ipc.c)

    The messages are blocks of one pool, linked into the queue or into the free
    list: the link and the bytes of a block are an [rt_mq_message], and its
    address is the number of the block.  What a sender and a receiver do with a
    block between their two critical sections concerns that block only, so that
    a function is one step. *)

From S2P Require Import Prelude Klist Kernel Object Timer Sched Thread Boot Tick Ipc Mailbox.

Open Scope Z_scope.

(** ** The operations *)

Definition get_mq (mq : Z) : K rt_messagequeue := k ← get; of_opt (queues (ipc k) !! mq).
Definition put_mq (mq : Z) (x : rt_messagequeue) : K unit := k ← get; put (with_ipc k (put_queues (ipc k) mq x)).
Definition edit_mq (mq : Z) (f : rt_messagequeue -> option rt_messagequeue) : K unit :=
  x ← get_mq mq; x ← of_opt (f x); put_mq mq x.

Definition set_pool (x : rt_messagequeue) pool := mk_mq (mq_flag x) pool (mq_msg_size x) (mq_max_msgs x) (mq_entry x)
  (msg_queue_head x) (msg_queue_tail x) (msg_queue_free x).
Definition set_ends (x : rt_messagequeue) head tail := mk_mq (mq_flag x) (mq_msg_pool x) (mq_msg_size x) (mq_max_msgs x) (mq_entry x)
  head tail (msg_queue_free x).
Definition set_free (x : rt_messagequeue) free := mk_mq (mq_flag x) (mq_msg_pool x) (mq_msg_size x) (mq_max_msgs x) (mq_entry x)
  (msg_queue_head x) (msg_queue_tail x) free.
Definition set_entry (x : rt_messagequeue) n := mk_mq (mq_flag x) (mq_msg_pool x) (mq_msg_size x) (mq_max_msgs x) n
  (msg_queue_head x) (msg_queue_tail x) (msg_queue_free x).

(** msg->next = next, and the copy into the bytes behind the link. *)
Definition set_next (msg : Z) (next : option Z) (x : rt_messagequeue) : option rt_messagequeue :=
  m ← mq_msg_pool x !! msg; Some (set_pool x (<[msg := mk_message next (msg_data m)]> (mq_msg_pool x))).
Definition copy_in (msg : Z) (buffer : list Z) (x : rt_messagequeue) : option rt_messagequeue :=
  m ← mq_msg_pool x !! msg;
  if Nat.leb (length buffer) (length (msg_data m)) then
    Some (set_pool x (<[msg := mk_message (msg_next m) (buffer ++ drop (length buffer) (msg_data m))]> (mq_msg_pool x)))
  else None.

(** RT_ALIGN(size, RT_ALIGN_SIZE) *)
Definition align_size (size : Z) : Z := Z.land (size + 3) (Z.lnot 3).

(** The loop over the blocks: each one becomes the first of the free list. *)
Fixpoint free_blocks (n : nat) (temp : Z) (x : rt_messagequeue) : option rt_messagequeue :=
  match n with
  | O => Some x
  | S n => x ← set_next temp (msg_queue_free x) x; free_blocks n (temp + 1) (set_free x (Some temp))
  end.

(** [blocks] gives the bytes that are in the pool. *)
Definition fresh_queue (blocks : gmap Z rt_mq_message) (flag msg_size max_msgs : Z) : option rt_messagequeue :=
  free_blocks (Z.to_nat max_msgs) 0 (mk_mq flag blocks msg_size max_msgs 0 None None None).

Definition rt_mq_init (mq : Z) (name : list Z) (blocks : gmap Z rt_mq_message) (msg_size pool_size flag : Z) : K Z :=
  rt_object_init (Obj mq) RT_Object_Class_MessageQueue name ;;
  rt_ipc_object_init mq ;;
  let msg_size := u16 (align_size msg_size) in
  x ← of_opt (fresh_queue blocks flag msg_size (u16 (pool_size / (msg_size + 4))));
  put_mq mq x ;; mret RT_EOK.

Definition rt_mq_detach (mq : Z) : K Z :=
  rt_ipc_list_resume_all (Suspend mq) ;; rt_object_detach (Obj mq) ;; mret RT_EOK.

Section heap.
Context (object_size : Z -> Z) (malloc : Z -> K (option addr)) (free : addr -> K unit).

(** The memory of the pool: its blocks, if there is enough. *)
Context (malloc_pool : Z -> K (option (gmap Z rt_mq_message))) (free_pool : gmap Z rt_mq_message -> K unit).

Definition rt_mq_delete (mq : Z) : K Z :=
  rt_ipc_list_resume_all (Suspend mq) ;;
  x ← get_mq mq; free_pool (mq_msg_pool x) ;;
  rt_object_delete free (Obj mq) ;; mret RT_EOK.

Definition rt_mq_create (name : list Z) (msg_size max_msgs flag : Z) : K (option Z) :=
  mq ← rt_object_allocate object_size malloc RT_Object_Class_MessageQueue name;
  match mq with
  | None => mret None
  | Some (Thread_timer _) => ub
  | Some (Obj mq) =>
      rt_ipc_object_init mq ;;
      let msg_size := u16 (align_size msg_size) in let max_msgs := u16 max_msgs in
      pool ← malloc_pool ((msg_size + 4) * max_msgs);
      match pool with
      | None => put_mq mq (mk_mq flag ∅ msg_size max_msgs 0 None None None) ;; rt_mq_delete mq ;; mret None
      | Some blocks => x ← of_opt (fresh_queue blocks flag msg_size max_msgs); put_mq mq x ;; mret (Some mq)
      end
  end.
End heap.

(** The first critical section of a sender: the first free block. *)
Definition take_free (mq : Z) : K (option Z) :=
  x ← get_mq mq;
  match msg_queue_free x with
  | None => mret None
  | Some msg => m ← of_opt (mq_msg_pool x !! msg); put_mq mq (set_free x (msg_next m)) ;; mret (Some msg)
  end.

(** The second one, at the tail and at the head. *)
Definition link_tail (msg : Z) (x : rt_messagequeue) : option rt_messagequeue :=
  x ← (match msg_queue_tail x with Some tail => set_next tail (Some msg) x | None => Some x end);
  let x := set_ends x (msg_queue_head x) (Some msg) in
  let x := match msg_queue_head x with None => set_ends x (Some msg) (msg_queue_tail x) | Some _ => x end in
  Some (set_entry x (u16 (mq_entry x + 1))).

Definition link_head (msg : Z) (x : rt_messagequeue) : option rt_messagequeue :=
  x ← set_next msg (msg_queue_head x) x;
  let x := set_ends x (Some msg) (msg_queue_tail x) in
  let x := match msg_queue_tail x with None => set_ends x (msg_queue_head x) (Some msg) | Some _ => x end in
  Some (set_entry x (u16 (mq_entry x + 1))).

(** [buffer] has [size] bytes. *)
Definition rt_mq_send (mq : Z) (buffer : list Z) : K Z :=
  RT_ASSERT (negb (bool_decide (buffer = []))) ;;
  x ← get_mq mq;
  if mq_msg_size x <? Z.of_nat (length buffer) then mret (- RT_ERROR) else
  msg ← take_free mq;
  match msg with
  | None => mret (- RT_EFULL)
  | Some msg =>
      edit_mq mq (set_next msg None) ;; edit_mq mq (copy_in msg buffer) ;;
      edit_mq mq (link_tail msg) ;; wake_one (Suspend mq) ;; mret RT_EOK
  end.

Definition rt_mq_urgent (mq : Z) (buffer : list Z) : K Z :=
  RT_ASSERT (negb (bool_decide (buffer = []))) ;;
  x ← get_mq mq;
  if mq_msg_size x <? Z.of_nat (length buffer) then mret (- RT_ERROR) else
  msg ← take_free mq;
  match msg with
  | None => mret (- RT_EFULL)
  | Some msg => edit_mq mq (copy_in msg buffer) ;; edit_mq mq (link_head msg) ;; wake_one (Suspend mq) ;; mret RT_EOK
  end.

(** The first message leaves the queue. *)
Definition unlink (x : rt_messagequeue) : option (Z * rt_messagequeue) :=
  msg ← msg_queue_head x; m ← mq_msg_pool x !! msg;
  Some (msg, set_ends x (msg_next m) (if decide (msg_queue_tail x = Some msg) then None else msg_queue_tail x)).

Definition give_back (msg : Z) (x : rt_messagequeue) : option rt_messagequeue :=
  x ← set_next msg (msg_queue_free x) x; Some (set_free x (Some msg)).

(** The part of rt_mq_recv after its loop: what is written to the buffer of [size] bytes. *)
Definition mq_take (mq size : Z) : K (list Z) :=
  x ← get_mq mq; u ← of_opt (unlink x); put_mq mq (set_entry u.2 (u16 (mq_entry u.2 - 1))) ;;
  x ← get_mq mq; m ← of_opt (mq_msg_pool x !! u.1);
  edit_mq mq (give_back u.1) ;;
  mret (take (Z.to_nat (if mq_msg_size x <? size then mq_msg_size x else size)) (msg_data m)).

Definition mq_recv_again (mq : Z) (self : option Z) (size timeout tick_delta : Z) : K (outcome (Z * option (list Z))) :=
  x ← get_mq mq;
  if mq_entry x =? 0 then
    thread ← of_opt self; put_error thread RT_EOK ;;
    if timeout =? 0 then put_error thread (- RT_ETIMEOUT) ;; mret (Done (- RT_ETIMEOUT, None)) else
    tick_delta ← start_waiting_with tick_delta rt_tick_get (Suspend mq) thread (mq_flag x) timeout;
    mret (Waits timeout tick_delta)
  else r ← mq_take mq size; mret (Done (RT_EOK, Some r)).

Definition rt_mq_recv_begin (mq size timeout : Z) : K (outcome (Z * option (list Z))) :=
  RT_ASSERT (negb (size =? 0)) ;;
  self ← rt_thread_self; x ← get_mq mq;
  if (mq_entry x =? 0) && (timeout =? 0) then mret (Done (- RT_ETIMEOUT, None))
  else mq_recv_again mq self size timeout 0.

Definition rt_mq_recv_end (mq thread size timeout tick_delta : Z) : K (outcome (Z * option (list Z))) :=
  m ← get_thread thread;
  if negb (error m =? RT_EOK) then mret (Done (error m, None)) else
  left ← time_left timeout tick_delta;
  mq_recv_again mq (Some thread) size left.1 left.2.

(** The loop of rt_mq_control: every message goes to the free list. *)
Fixpoint free_messages (fuel : nat) (x : rt_messagequeue) : option rt_messagequeue :=
  match msg_queue_head x with
  | None => Some x
  | Some _ =>
      match fuel with
      | O => None
      | S fuel => u ← unlink x; x ← give_back u.1 u.2; free_messages fuel x
      end
  end.

Definition rt_mq_control (mq cmd arg : Z) : K Z :=
  if cmd =? RT_IPC_CMD_RESET then
    rt_ipc_list_resume_all (Suspend mq) ;;
    edit_mq mq (fun x => x ← free_messages (size (mq_msg_pool x)) x; Some (set_entry x 0)) ;;
    rt_schedule ;; mret RT_EOK
  else mret (- RT_ERROR).

(** ** Linked messages *)

Fixpoint chain (pool : gmap Z rt_mq_message) (p : option Z) (ids : list Z) : Prop :=
  match ids with
  | [] => p = None
  | b :: ids => p = Some b /\ exists m, pool !! b = Some m /\ chain pool (msg_next m) ids
  end.

Lemma chain_write pool p ids b m : b ∉ ids -> chain pool p ids -> chain (<[b := m]> pool) p ids.
Proof.
  revert p. induction ids as [|c ids IH]; intros p Hb; [done|]. rewrite not_elem_of_cons in Hb. destruct Hb as [Hne Hb].
  cbn. intros (-> & m' & Hm' & Hc). split; [done|]. exists m'. rewrite lookup_insert_ne by done. auto.
Qed.

Lemma chain_snoc pool p ids t b mt mb : chain pool p ids -> NoDup ids -> b ∉ ids -> last ids = Some t -> pool !! t = Some mt ->
  pool !! b = Some mb -> msg_next mb = None -> chain (<[t := mk_message (Some b) (msg_data mt)]> pool) p (ids ++ [b]).
Proof.
  intros Hc Hnd Hb Hlast Ht Hmb Hnb. revert p Hc Hnd Hb Hlast. induction ids as [|c ids IH]; intros p Hc Hnd Hb Hlast; [done|].
  apply NoDup_cons in Hnd as [Hcn Hnd]. rewrite not_elem_of_cons in Hb. destruct Hb as [Hbc Hb].
  destruct Hc as (-> & m & Hm & Hc). cbn. split; [done|]. destruct ids as [|d ids].
  - injection Hlast as ->. eexists. split; [apply lookup_insert_eq|]. cbn. split; [done|]. exists mb.
    rewrite lookup_insert_ne by done. done.
  - exists m. rewrite lookup_insert_ne; [split; [done|]; by apply IH|].
    intros ->. apply Hcn. apply last_Some_elem_of. exact Hlast.
Qed.

Definition data_of (pool : gmap Z rt_mq_message) (b : Z) : list Z := default [] (msg_data <$> pool !! b).

(** The queue, the free list, and the blocks that are in neither of them. *)
Record linked_ok (x : rt_messagequeue) (q : list (list Z)) (qs fs hs : list Z) : Prop := {
  lo_queue : chain (mq_msg_pool x) (msg_queue_head x) qs;
  lo_tail : msg_queue_tail x = last qs;
  lo_free : chain (mq_msg_pool x) (msg_queue_free x) fs;
  lo_nodup : NoDup (qs ++ fs ++ hs);
  lo_known : Forall (fun b => exists m, mq_msg_pool x !! b = Some m /\ Z.of_nat (length (msg_data m)) = mq_msg_size x) (qs ++ fs ++ hs);
  lo_data : q = data_of (mq_msg_pool x) <$> qs;
}.

Lemma lo_held x q qs fs b hs : linked_ok x q qs fs (b :: hs) ->
  b ∉ qs /\ b ∉ fs /\ b ∉ hs /\ exists m, mq_msg_pool x !! b = Some m /\ Z.of_nat (length (msg_data m)) = mq_msg_size x.
Proof.
  intros [_ _ _ Hnd Hk _]. rewrite Forall_forall in Hk. split_and!; [..|apply Hk; rewrite !elem_of_app, elem_of_cons; tauto];
    rewrite !NoDup_app, NoDup_cons in Hnd; set_solver.
Qed.

(** A write to a block in neither list. *)
Lemma write_held x q qs fs b hs m' : linked_ok x q qs fs (b :: hs) -> Z.of_nat (length (msg_data m')) = mq_msg_size x ->
  linked_ok (set_pool x (<[b := m']> (mq_msg_pool x))) q qs fs (b :: hs).
Proof.
  intros Hlo Hlen. destruct (lo_held _ _ _ _ _ _ Hlo) as (Hq & Hf & Hh & _). destruct Hlo as [H1 H2 H3 H4 H5 H6]. split; try done.
  - by apply chain_write.
  - by apply chain_write.
  - cbn. eapply Forall_impl; [exact H5|]. intros c (m & Hm & Hl). destruct (decide (c = b)) as [->|Hne].
    + exists m'. by rewrite lookup_insert_eq.
    + exists m. by rewrite lookup_insert_ne.
  - rewrite H6. cbn. apply list_fmap_ext. intros i c Hc. unfold data_of. rewrite lookup_insert_ne; [done|]. intros ->.
    by apply list_elem_of_lookup_2 in Hc.
Qed.

Lemma take_free_ok x q qs b fs hs : linked_ok x q qs (b :: fs) hs -> exists m, msg_queue_free x = Some b /\ mq_msg_pool x !! b = Some m /\
  linked_ok (set_free x (msg_next m)) q qs fs (b :: hs).
Proof.
  intros [H1 H2 H3 H4 H5 H6]. destruct H3 as (Hf & m & Hm & Hc). exists m. split_and!; [done|done|]. split; try done.
  - by rewrite <-Permutation_middle.
  - by rewrite <-Permutation_middle.
Qed.

Lemma set_next_ok x q qs fs b hs next : linked_ok x q qs fs (b :: hs) -> exists x', set_next b next x = Some x' /\
  linked_ok x' q qs fs (b :: hs) /\ (exists m, mq_msg_pool x' !! b = Some m /\ msg_next m = next /\ msg_data m = data_of (mq_msg_pool x) b) /\
  mq_entry x' = mq_entry x /\ mq_msg_size x' = mq_msg_size x /\ mq_flag x' = mq_flag x /\
  msg_queue_head x' = msg_queue_head x /\ msg_queue_tail x' = msg_queue_tail x /\ msg_queue_free x' = msg_queue_free x.
Proof.
  intros Hlo. destruct (lo_held _ _ _ _ _ _ Hlo) as (_ & _ & _ & m & Hm & Hl). unfold set_next. rewrite Hm.
  eexists. split; [reflexivity|]. split; [by apply write_held|]. split_and!; try done.
  eexists. split; [apply lookup_insert_eq|]. split; [done|]. unfold data_of. by rewrite Hm.
Qed.

Lemma copy_in_ok x q qs fs b hs buffer : linked_ok x q qs fs (b :: hs) -> Z.of_nat (length buffer) <= mq_msg_size x ->
  exists x', copy_in b buffer x = Some x' /\ linked_ok x' q qs fs (b :: hs) /\
  (exists m m', mq_msg_pool x !! b = Some m /\ mq_msg_pool x' !! b = Some m' /\ msg_next m' = msg_next m /\
     msg_data m' = buffer ++ drop (length buffer) (msg_data m)) /\
  mq_entry x' = mq_entry x /\ mq_msg_size x' = mq_msg_size x /\ mq_flag x' = mq_flag x.
Proof.
  intros Hlo Hbuf. destruct (lo_held _ _ _ _ _ _ Hlo) as (_ & _ & _ & m & Hm & Hl). unfold copy_in. rewrite Hm. cbn.
  rewrite (proj2 (Nat.leb_le _ _)) by lia. eexists. split; [reflexivity|]. split.
  - apply write_held; [done|]. cbn. rewrite length_app, length_drop. lia.
  - split_and!; try done. exists m. eexists. split; [done|]. split; [apply lookup_insert_eq|done].
Qed.

Lemma set_ends_ok x q qs fs hs head tail : linked_ok x q qs fs hs -> chain (mq_msg_pool x) head qs -> tail = last qs ->
  linked_ok (set_ends x head tail) q qs fs hs.
Proof. intros [H1 H2 H3 H4 H5 H6] Hc ->. by split. Qed.

Lemma set_entry_ok x q qs fs hs n : linked_ok x q qs fs hs -> linked_ok (set_entry x n) q qs fs hs.
Proof. intros [H1 H2 H3 H4 H5 H6]. by split. Qed.

(** A held block becomes the last one of the queue. *)
Lemma link_tail_ok x q qs fs b hs m : linked_ok x q qs fs (b :: hs) -> mq_msg_pool x !! b = Some m -> msg_next m = None ->
  exists x', link_tail b x = Some x' /\ linked_ok x' (q ++ [msg_data m]) (qs ++ [b]) fs hs /\
    mq_entry x' = u16 (mq_entry x + 1) /\ mq_msg_size x' = mq_msg_size x /\ mq_flag x' = mq_flag x.
Proof.
  intros Hlo Hm Hn. destruct (lo_held _ _ _ _ _ _ Hlo) as (Hbq & Hbf & Hbh & _). destruct Hlo as [H1 H2 H3 H4 H5 H6].
  assert (qs ++ fs ++ b :: hs ≡ₚ (qs ++ [b]) ++ fs ++ hs) as Hp by (rewrite <-(assoc_L (++)); f_equiv; cbn; by rewrite Permutation_middle).
  assert (NoDup ((qs ++ [b]) ++ fs ++ hs)) as Hnd by by rewrite <-Hp.
  assert (forall P : Z -> Prop, Forall P (qs ++ fs ++ b :: hs) -> Forall P ((qs ++ [b]) ++ fs ++ hs)) as Hperm
    by (intros P HP; by eapply Permutation_Forall).
  unfold link_tail. destruct qs as [|t qs' _] using rev_ind.
  - cbn in H2. rewrite H2. cbn. cbn in H1. rewrite H1. cbn. eexists. split; [reflexivity|]. split_and!; try done. split; try done.
    + cbn. split; [done|]. exists m. by rewrite Hn.
    + by apply Hperm.
    + rewrite H6. cbn. unfold data_of. by rewrite Hm.
  - rewrite last_snoc in H2. rewrite H2. cbn [mbind option_bind].
    assert (t ∈ qs' ++ [t]) as Ht by (rewrite elem_of_app, list_elem_of_singleton; tauto).
    assert (b <> t) as Hbt by congruence.
    rewrite Forall_forall in H5. destruct (H5 t) as (mt & Hmt & Hlt); [rewrite elem_of_app; by left|].
    unfold set_next. rewrite Hmt. cbn. assert (is_Some (msg_queue_head x)) as [hd Hhd] by (destruct qs'; destruct H1 as [-> _]; by eexists).
    rewrite Hhd. cbn. eexists. split; [reflexivity|]. split_and!; try done. split; cbn.
    + rewrite <-Hhd. eapply chain_snoc; [exact H1| |exact Hbq|apply last_snoc|done|done|done]. by apply NoDup_app in H4 as [? _].
    + by rewrite last_snoc.
    + apply chain_write; [|done]. intros Hin. apply NoDup_app in H4 as (_ & Hd & _). apply (Hd t Ht). rewrite elem_of_app. by left.
    + done.
    + apply Hperm, Forall_forall. intros c Hc. destruct (decide (c = t)) as [->|Hne].
      * eexists. rewrite lookup_insert_eq. split; [done|exact Hlt].
      * rewrite lookup_insert_ne by done. by apply H5.
    + rewrite H6, (fmap_app _ (qs' ++ [t]) [b]). f_equal.
      * apply list_fmap_ext. intros i c _. unfold data_of. destruct (decide (c = t)) as [->|Hne]; [by rewrite lookup_insert_eq, Hmt|by rewrite lookup_insert_ne].
      * unfold data_of. cbn. rewrite lookup_insert_ne by done. by rewrite Hm.
Qed.

(** A held block becomes the first one. *)
Lemma link_head_ok x q qs fs b hs m : linked_ok x q qs fs (b :: hs) -> mq_msg_pool x !! b = Some m ->
  exists x', link_head b x = Some x' /\ linked_ok x' (msg_data m :: q) (b :: qs) fs hs /\
    mq_entry x' = u16 (mq_entry x + 1) /\ mq_msg_size x' = mq_msg_size x /\ mq_flag x' = mq_flag x.
Proof.
  intros Hlo Hm. unfold link_head.
  destruct (set_next_ok x q qs fs b hs (msg_queue_head x) Hlo) as (x1 & -> & Hlo1 & (m1 & Hm1 & Hn1 & Hd1) & He & Hs & Hf & Hh & Ht & _).
  cbn. unfold data_of in Hd1. rewrite Hm in Hd1. cbn in Hd1.
  destruct Hlo1 as [H1 H2 H3 H4 H5 H6]. rewrite H2. eexists. split; [reflexivity|].
  assert (chain (mq_msg_pool x1) (Some b) (b :: qs)) as Hc by (split; [done|exists m1; by rewrite Hn1, <-Hh]).
  assert (linked_ok (set_ends x1 (Some b) (last (b :: qs))) (msg_data m :: q) (b :: qs) fs hs) as Hlo2.
  { split; try done; cbn [set_ends mq_msg_pool mq_msg_size].
    - by rewrite (assoc_L (++)), <-Permutation_middle, <-(assoc_L (++)) in H4.
    - cbn [app]. rewrite Forall_cons. rewrite !Forall_app, Forall_cons in *. tauto.
    - cbn. unfold data_of at 1. rewrite Hm1. cbn. by rewrite Hd1, <-H6. }
  destruct (last qs) as [t|] eqn:Hlast.
  - rewrite last_cons, Hlast in Hlo2. cbn. split_and!; [by apply set_entry_ok|cbn; by rewrite He|done|done].
  - rewrite last_cons, Hlast in Hlo2. cbn. split_and!; [by apply set_entry_ok|cbn; by rewrite He|done|done].
Qed.

(** The first block leaves the queue. *)
Lemma unlink_ok x d q b qs fs hs : linked_ok x (d :: q) (b :: qs) fs hs -> exists x', unlink x = Some (b, x') /\
  linked_ok x' q qs fs (b :: hs) /\ data_of (mq_msg_pool x') b = d /\
  mq_entry x' = mq_entry x /\ mq_msg_size x' = mq_msg_size x /\ mq_flag x' = mq_flag x /\ mq_msg_pool x' = mq_msg_pool x.
Proof.
  intros [H1 H2 H3 H4 H5 H6]. destruct H1 as (Hh & m & Hm & Hc). injection H6 as -> ->. unfold unlink. rewrite Hh. cbn. rewrite Hm. cbn.
  eexists. split; [reflexivity|]. split_and!; try done. split; cbn; try done.
  - rewrite H2, last_cons. destruct (last qs) as [t|] eqn:Hl; [|by rewrite decide_True].
    rewrite decide_False; [done|]. intros [= ->]. apply NoDup_cons in H4 as [Hn _]. apply Hn. rewrite elem_of_app. left.
    by apply last_Some_elem_of.
  - by rewrite (assoc_L (++)), <-Permutation_middle, <-(assoc_L (++)).
  - cbn [app] in H5. rewrite Forall_cons in H5. rewrite !Forall_app, Forall_cons in *. tauto.
Qed.

(** A held block becomes free. *)
Lemma give_back_ok x q qs fs b hs : linked_ok x q qs fs (b :: hs) -> exists x', give_back b x = Some x' /\
  linked_ok x' q qs (b :: fs) hs /\ mq_entry x' = mq_entry x /\ mq_msg_size x' = mq_msg_size x /\ mq_flag x' = mq_flag x /\
  dom (mq_msg_pool x') = dom (mq_msg_pool x).
Proof.
  intros Hlo. destruct (lo_held _ _ _ _ _ _ Hlo) as (_ & _ & _ & m0 & Hm0 & _). unfold give_back.
  destruct (set_next_ok x q qs fs b hs (msg_queue_free x) Hlo) as (x1 & Hx1 & Hlo1 & (m1 & Hm1 & Hn1 & Hd1) & He & Hs & Hf & _ & _ & Hfr).
  rewrite Hx1. cbn. eexists. split; [reflexivity|]. destruct Hlo1 as [H1 H2 H3 H4 H5 H6]. split_and!; try done.
  - split; cbn; try done.
    + split; [done|]. exists m1. by rewrite Hn1, <-Hfr.
    + by rewrite <-Permutation_middle in H4.
    + rewrite !Forall_app in *. cbn [app] in *. rewrite !Forall_cons, ?Forall_app in *. tauto.
  - unfold set_next in Hx1. rewrite Hm0 in Hx1. cbn in Hx1. injection Hx1 as <-. cbn. rewrite dom_insert_L.
    apply elem_of_dom_2 in Hm0. set_solver.
Qed.

Lemma free_messages_ok fuel x q qs fs hs : linked_ok x q qs fs hs -> (length qs <= fuel)%nat -> exists x' fs',
  free_messages fuel x = Some x' /\ linked_ok x' [] [] fs' hs /\ length fs' = (length qs + length fs)%nat /\
  mq_msg_size x' = mq_msg_size x /\ mq_flag x' = mq_flag x.
Proof.
  revert fuel x q fs. induction qs as [|b qs IH]; intros fuel x q fs Hlo Hf.
  - pose proof (lo_queue _ _ _ _ _ Hlo) as Hh. pose proof (lo_data _ _ _ _ _ Hlo) as ->. cbn in Hh. exists x, fs.
    split_and!; try done. destruct fuel; cbn; by rewrite Hh.
  - destruct fuel as [|fuel]; [cbn in Hf; lia|]. pose proof (lo_data _ _ _ _ _ Hlo) as ->. cbn [free_messages].
    destruct (lo_queue _ _ _ _ _ Hlo) as [Hh _]. rewrite Hh. cbn [fmap list_fmap] in Hlo.
    destruct (unlink_ok _ _ _ _ _ _ _ Hlo) as (x1 & -> & Hlo1 & _ & _ & Hs1 & Hf1 & _). cbn.
    destruct (give_back_ok _ _ _ _ _ _ Hlo1) as (x2 & -> & Hlo2 & _ & Hs2 & Hf2 & _). cbn.
    destruct (IH fuel x2 _ (b :: fs) Hlo2) as (x' & fs' & Hr & Hlo' & Hl & Hs' & Hf'); [cbn in Hf; lia|].
    exists x', fs'. split_and!; [done|done|cbn in *; lia|congruence|congruence].
Qed.

Lemma free_blocks_ok n temp x fs : linked_ok x [] [] fs (seqZ temp (Z.of_nat n)) -> exists x' fs', free_blocks n temp x = Some x' /\
  linked_ok x' [] [] fs' [] /\ length fs' = (n + length fs)%nat /\
  mq_msg_size x' = mq_msg_size x /\ mq_flag x' = mq_flag x /\ mq_entry x' = mq_entry x.
Proof.
  revert temp x fs. induction n as [|n IH]; intros temp x fs Hlo.
  - by exists x, fs.
  - rewrite seqZ_cons in Hlo by lia. destruct (give_back_ok _ _ _ _ _ _ Hlo) as (x1 & Hx1 & Hlo1 & He1 & Hs1 & Hf1 & _).
    unfold give_back in Hx1. cbn [free_blocks]. destruct (set_next temp (msg_queue_free x) x) as [x0|]; [|done]. cbn in *. injection Hx1 as Hx1.
    rewrite Hx1. replace (Z.pred (Z.of_nat (S n))) with (Z.of_nat n) in Hlo1 by lia.
    destruct (IH (Z.succ temp) x1 (temp :: fs) Hlo1) as (x' & fs' & Hr & Hlo' & Hl & Hs' & Hf' & He').
    exists x', fs'. split_and!; [done|done|cbn in *; lia|congruence|congruence|congruence].
Qed.

(** The blocks of a pool for [max] messages. *)
Definition pool_ok (blocks : gmap Z rt_mq_message) (msize max : Z) : Prop :=
  forall b, 0 <= b < max -> exists m, blocks !! b = Some m /\ Z.of_nat (length (msg_data m)) = msize.

Lemma fresh_queue_ok blocks flag msize max : 0 <= max -> pool_ok blocks msize max -> exists x fs, fresh_queue blocks flag msize max = Some x /\
  linked_ok x [] [] fs [] /\ Z.of_nat (length fs) = max /\ mq_msg_size x = msize /\ mq_flag x = flag /\ mq_entry x = 0.
Proof.
  intros Hmax Hp. unfold fresh_queue. set (x0 := mk_mq _ _ _ _ _ _ _ _).
  destruct (free_blocks_ok (Z.to_nat max) 0 x0 []) as (x & fs & Hr & Hlo & Hl & Hs & Hf & He).
  - rewrite Z2Nat.id by done. split; try done; cbn; [apply NoDup_seqZ|]. apply Forall_forall. intros b Hb. apply elem_of_seqZ in Hb. apply Hp. lia.
  - exists x, fs. split_and!; [done|done|cbn in Hl; lia|done..].
Qed.

(** ** A message queue as a bounded queue of byte strings *)

Record mq_state (k : kernel) (A : abs) (x flag msize max : Z) (q : list (list Z)) (rs : list Z) : Prop := {
  qs_queue : exists m qs fs, queues (ipc k) !! x = Some m /\ mq_flag m = flag /\ mq_msg_size m = msize /\
    mq_entry m = Z.of_nat (length q) /\ linked_ok m q qs fs [] /\ Z.of_nat (length qs + length fs) = max;
  qs_receivers : a_waits A !! Suspend x = Some rs;
  qs_flag : flag_ok flag;
  qs_max : 0 <= max < 65536;
}.

Inductive mq_op :=
  | Mq_send (buffer : list Z)
  | Mq_urgent (buffer : list Z)
  | Mq_recv (size timeout : Z)
  | Mq_recv_resumed (size timeout tick_delta : Z)
  | Mq_reset.

Definition code (m : K Z) : K (outcome (Z * option (list Z))) := r ← m; mret (Done (r, None)).

(** A call of thread [t], or the rest of one when the thread runs again. *)
Definition run_mq (x t : Z) (op : mq_op) : K (outcome (Z * option (list Z))) :=
  match op with
  | Mq_send buffer => code (rt_mq_send x buffer)
  | Mq_urgent buffer => code (rt_mq_urgent x buffer)
  | Mq_recv size timeout => rt_mq_recv_begin x size timeout
  | Mq_recv_resumed size timeout tick_delta => rt_mq_recv_end x t size timeout tick_delta
  | Mq_reset => code (rt_mq_control x RT_IPC_CMD_RESET 0)
  end.

(** The message that a buffer becomes: what is behind it in the block stays. *)
Definition message_of (msize : Z) (buffer d : list Z) : Prop := Z.of_nat (length d) = msize /\ take (length buffer) d = buffer.

Definition mq_result : Type := outcome (Z * option (list Z)) * list (list Z) * list Z * list Z.

Definition mq_recv_next (flag msize : Z) (prio : Z -> Z) (now t size timeout tick_delta : Z) (q : list (list Z)) (rs : list Z) : mq_result :=
  match q with
  | [] =>
      if timeout =? 0 then (Done (- RT_ETIMEOUT, None), q, rs, [])
      else (Waits timeout (if 0 <? timeout then now else tick_delta), q, place flag prio t rs, [])
  | d :: q => (Done (RT_EOK, Some (take (Z.to_nat (Z.min size msize)) d)), q, rs, [])
  end.

(** The result, the messages, the threads that wait, and those that are woken;
    [d] is the message that is sent. *)
Definition mq_next (flag msize max : Z) (prio : Z -> Z) (now err t : Z) (op : mq_op) (d : list Z) (q : list (list Z)) (rs : list Z) : mq_result :=
  let send buffer q' :=
    if msize <? Z.of_nat (length buffer) then (Done (- RT_ERROR, None), q, rs, [])
    else if Z.of_nat (length q) =? max then (Done (- RT_EFULL, None), q, rs, [])
    else (Done (RT_EOK, None), q', tail rs, take 1 rs) in
  match op with
  | Mq_send buffer => send buffer (q ++ [d])
  | Mq_urgent buffer => send buffer (d :: q)
  | Mq_recv size timeout => mq_recv_next flag msize prio now t size timeout 0 q rs
  | Mq_recv_resumed size timeout tick_delta =>
      if err =? RT_EOK then
        let left := left_of now timeout tick_delta in mq_recv_next flag msize prio now t size left.1 left.2 q rs
      else (Done (err, None), q, rs, [])
  | Mq_reset => (Done (RT_EOK, None), [], [], rs)
  end.

Definition mq_op_ok (now : Z) (op : mq_op) : Prop :=
  match op with
  | Mq_send buffer | Mq_urgent buffer => buffer <> []
  | Mq_recv size timeout => size <> 0 /\ timeout < RT_TICK_MAX / 2
  | Mq_recv_resumed _ timeout tick_delta => (left_of now timeout tick_delta).1 < RT_TICK_MAX / 2
  | Mq_reset => True
  end.

(** The message that is sent carries the buffer. *)
Definition sends (msize : Z) (op : mq_op) (d : list Z) : Prop :=
  match op with
  | Mq_send buffer | Mq_urgent buffer => Z.of_nat (length buffer) <= msize -> message_of msize buffer d
  | _ => True
  end.

Record mq_effect (t : Z) (k : kernel) (A : abs) (x flag msize max : Z) (q : list (list Z)) (rs woke : list Z) (k' : kernel) (A' : abs) : Prop := {
  qe_kept : undisturbed t k A k' A';
  qe_running : running k' A';
  qe_want : want_same k k';
  qe_state : mq_state k' A' x flag msize max q rs;
  qe_waits : a_waits A' = <[Suspend x := rs]> (a_waits A);
  qe_ipc : exists m, ipc k' = put_queues (ipc k) x m;
  qe_woke : Forall (is_ready A') woke;
}.

Section ops.
Implicit Types (k : kernel) (L : gmap node (list node)) (A : abs) (t : Z) (m : rt_messagequeue).

Definition with_mq (k : kernel) (x : Z) (m : rt_messagequeue) : kernel := with_ipc k (put_queues (ipc k) x m).

Lemma wp_get_mq k x (m : rt_messagequeue) Q : queues (ipc k) !! x = Some m -> Q m k -> wp (get_mq x) k Q.
Proof. intros Hm HQ. eapply wp_run; [|exact HQ]. unfold get_mq, mbind, M_bind, get, of_opt. by rewrite Hm. Qed.

Lemma wp_put_mq k x (m : rt_messagequeue) Q : Q tt (with_mq k x m) -> wp (put_mq x m) k Q.
Proof. done. Qed.

Lemma wp_edit_mq k x (m m' : rt_messagequeue) f Q : queues (ipc k) !! x = Some m -> f m = Some m' -> Q tt (with_mq k x m') ->
  wp (edit_mq x f) k Q.
Proof.
  intros Hm Hf HQ. unfold edit_mq. wp_bind. eapply wp_get_mq; [exact Hm|]. wp_bind. eapply wp_of_opt; [exact Hf|]. by apply wp_put_mq.
Qed.

Lemma with_mq_twice k x (m1 m2 : rt_messagequeue) : with_mq (with_mq k x m1) x m2 = with_mq k x m2.
Proof. unfold with_mq, with_ipc, put_queues. cbn. by rewrite insert_insert_eq. Qed.

Lemma with_mq_lookup k x (m : rt_messagequeue) : queues (ipc (with_mq k x m)) !! x = Some m.
Proof. apply lookup_insert_eq. Qed.

Lemma put_queues_same i x (m : rt_messagequeue) : queues i !! x = Some m -> put_queues i x m = i.
Proof. intros Hx. unfold put_queues. rewrite insert_id by done. by destruct i. Qed.

(** What a section of the functions needs of the queue. *)
Record mq_record (m : rt_messagequeue) (flag msize max : Z) (q : list (list Z)) (qs fs hs : list Z) : Prop := {
  mr_flag : mq_flag m = flag;
  mr_size : mq_msg_size m = msize;
  mr_entry : mq_entry m = Z.of_nat (length q);
  mr_linked : linked_ok m q qs fs hs;
  mr_max : Z.of_nat (length qs + length fs + length hs) = max;
}.

Lemma mr_length (m : rt_messagequeue) flag msize max q qs fs hs : mq_record m flag msize max q qs fs hs -> length q = length qs.
Proof. intros [_ _ _ Hlo _]. rewrite (lo_data _ _ _ _ _ Hlo). by rewrite length_fmap. Qed.

Lemma mq_state_intro k A x (m : rt_messagequeue) flag msize max q qs fs rs : queues (ipc k) !! x = Some m -> mq_record m flag msize max q qs fs [] ->
  a_waits A !! Suspend x = Some rs -> flag_ok flag -> 0 <= max < 65536 -> mq_state k A x flag msize max q rs.
Proof. intros Hx [H1 H2 H3 H4 H5] Hw Hf Hmax. split; try done. exists m, qs, fs. cbn in H5. rewrite Nat.add_0_r in H5. by split_and!. Qed.

Lemma mq_state_elim k A x flag msize max q rs : mq_state k A x flag msize max q rs ->
  exists m qs fs, queues (ipc k) !! x = Some m /\ mq_record m flag msize max q qs fs [].
Proof.
  intros [(m & qs & fs & Hx & H1 & H2 & H3 & H4 & H5) _ _ _]. exists m, qs, fs. split; [done|]. split; try done. cbn. by rewrite Nat.add_0_r.
Qed.

Lemma mq_effect_intro t k A x flag msize max q rs woke k' A' (m : rt_messagequeue) qs fs : undisturbed t k A k' A' -> running k' A' -> want_same k k' ->
  a_waits A' = <[Suspend x := rs]> (a_waits A) -> ipc k' = put_queues (ipc k) x m -> mq_record m flag msize max q qs fs [] ->
  flag_ok flag -> 0 <= max < 65536 -> Forall (is_ready A') woke -> mq_effect t k A x flag msize max q rs woke k' A'.
Proof.
  intros Hu Hrun Hwa Hw Hi Hr Hf Hmax Hwo. split; try done; [|by exists m].
  eapply mq_state_intro; [by rewrite Hi; apply lookup_insert_eq|exact Hr|by rewrite Hw, lookup_insert_eq|done|done].
Qed.

Lemma mq_effect_none t k A x flag msize max q rs k' : mq_state k A x flag msize max q rs -> ipc k' = ipc k ->
  undisturbed t k A k' A -> running k' A -> want_same k k' -> mq_effect t k A x flag msize max q rs [] k' A.
Proof.
  intros Hst Hi Hu Hrun Hwa. destruct (mq_state_elim _ _ _ _ _ _ _ _ Hst) as (m & qs & fs & Hx & Hr). destruct Hst as [_ Hw Hf Hmax].
  eapply mq_effect_intro; [done|done|done|by rewrite insert_id| |exact Hr|done|done|done]. by rewrite Hi, put_queues_same.
Qed.

(** The free block of a sender; the queue is full when there is none. *)
Lemma wp_take_free k L A x flag msize max q rs Q : kinv_at k L A -> mq_state k A x flag msize max q rs ->
  (Z.of_nat (length q) = max -> Q None k) ->
  (Z.of_nat (length q) < max -> forall msg (m : rt_messagequeue) qs fs, mq_record m flag msize max q qs fs [msg] -> Q (Some msg) (with_mq k x m)) ->
  wp (take_free x) k Q.
Proof.
  intros HI Hst Hfull Hfree. destruct (mq_state_elim _ _ _ _ _ _ _ _ Hst) as (m & qs & fs & Hx & Hr).
  pose proof (mr_length _ _ _ _ _ _ _ _ Hr) as Hlen. destruct Hr as [Hf Hs He Hlo Hmax]. unfold take_free. wp_bind. eapply wp_get_mq; [exact Hx|].
  destruct fs as [|b fs].
  - pose proof (lo_free _ _ _ _ _ Hlo) as Hfr. cbn in Hfr. rewrite Hfr. wp_ret. apply Hfull. cbn in Hmax. lia.
  - destruct (take_free_ok _ _ _ _ _ _ Hlo) as (mb & Hfr & Hb & Hlo'). rewrite Hfr. wp_bind. eapply wp_of_opt; [exact Hb|].
    wp_bind. apply wp_put_mq. wp_ret. apply (Hfree ltac:(cbn in Hmax; lia) b _ qs fs). split; try done. cbn in *. lia.
Qed.

(** A sender that has filled its block [x1] links it and wakes a receiver. *)
Lemma wp_linked k L A t x flag msize max q q' rs (m : rt_messagequeue) qs fs : kinv_at k L A -> mq_state k A x flag msize max q rs -> running k A ->
  mq_record m flag msize max q' qs fs [] ->
  wp (wake_one (Suspend x) ;; mret RT_EOK) (with_mq k x m) (fun r k' => exists L' A', kinv_at k' L' A' /\ r = RT_EOK /\
    mq_effect t k A x flag msize max q' (tail rs) (take 1 rs) k' A').
Proof.
  intros HI [_ Hw Hf Hmax] Hrun Hr. set (k0 := with_mq k x m). wp_bind.
  eapply (wp_wake_one k0 L A t (Suspend x) rs); [by apply kinv_ipc|done|by apply (running_sch k)|].
  intros k1 L1 A1 HI1 Hu1 Hr1 Hwa1 Hw1 Hi1 Hwo1. wp_ret. exists L1, A1. split; [done|]. split; [done|].
  eapply mq_effect_intro; [|done| |done|by rewrite Hi1|exact Hr|done|done|done].
  - eapply (undisturbed_trans t k A k0 A); [by apply undisturbed_sch|done].
  - eapply (want_same_trans k k0); [by apply want_same_threads|done].
Qed.

Lemma message_in_block msize buffer (data : list Z) : Z.of_nat (length data) = msize -> Z.of_nat (length buffer) <= msize ->
  message_of msize buffer (buffer ++ drop (length buffer) data).
Proof. intros Hd Hb. split; [rewrite length_app, length_drop; lia|by rewrite take_app_length]. Qed.

(** What a sender does with its block. *)
Lemma send_sections (m : rt_messagequeue) flag msize max q qs fs msg buffer : mq_record m flag msize max q qs fs [msg] -> max < 65536 ->
  Z.of_nat (length buffer) <= msize -> exists m1 m2 m3 d qs', set_next msg None m = Some m1 /\ copy_in msg buffer m1 = Some m2 /\
    link_tail msg m2 = Some m3 /\ message_of msize buffer d /\ mq_record m3 flag msize max (q ++ [d]) qs' fs [].
Proof.
  intros Hr Hmax Hb. pose proof (mr_length _ _ _ _ _ _ _ _ Hr) as Hlen. destruct Hr as [Hf Hs He Hlo Hm].
  destruct (set_next_ok m q qs fs msg [] None Hlo) as (m1 & H1 & Hlo1 & (b1 & Hb1 & Hn1 & _) & He1 & Hs1 & Hf1 & _).
  destruct (copy_in_ok m1 q qs fs msg [] buffer Hlo1) as (m2 & H2 & Hlo2 & (b1' & b2 & Hb1' & Hb2 & Hn2 & Hd2) & He2 & Hs2 & Hf2); [by rewrite Hs1, Hs|].
  rewrite Hb1 in Hb1'. injection Hb1' as <-.
  destruct (link_tail_ok m2 q qs fs msg [] b2 Hlo2 Hb2) as (m3 & H3 & Hlo3 & He3 & Hs3 & Hf3); [by rewrite Hn2|].
  exists m1, m2, m3, (msg_data b2), (qs ++ [msg]). split_and!; try done.
  - rewrite Hd2. apply message_in_block; [|done]. destruct (lo_held _ _ _ _ _ _ Hlo1) as (_ & _ & _ & b & Hb' & Hl).
    rewrite Hb1 in Hb'. injection Hb' as <-. congruence.
  - split; [congruence|congruence| |done|rewrite length_app; cbn in *; lia].
    rewrite He3, He2, He1, He, length_app. cbn in *. rewrite u16_small; lia.
Qed.

Lemma urgent_sections (m : rt_messagequeue) flag msize max q qs fs msg buffer : mq_record m flag msize max q qs fs [msg] -> max < 65536 ->
  Z.of_nat (length buffer) <= msize -> exists m1 m2 d qs', copy_in msg buffer m = Some m1 /\
    link_head msg m1 = Some m2 /\ message_of msize buffer d /\ mq_record m2 flag msize max (d :: q) qs' fs [].
Proof.
  intros Hr Hmax Hb. pose proof (mr_length _ _ _ _ _ _ _ _ Hr) as Hlen. destruct Hr as [Hf Hs He Hlo Hm].
  destruct (lo_held _ _ _ _ _ _ Hlo) as (_ & _ & _ & b & Hb' & Hl).
  destruct (copy_in_ok m q qs fs msg [] buffer Hlo) as (m1 & H1 & Hlo1 & (b' & b1 & Hbb & Hb1 & _ & Hd1) & He1 & Hs1 & Hf1); [by rewrite Hs|].
  rewrite Hb' in Hbb. injection Hbb as <-.
  destruct (link_head_ok m1 q qs fs msg [] b1 Hlo1 Hb1) as (m2 & H2 & Hlo2 & He2 & Hs2 & Hf2).
  exists m1, m2, (msg_data b1), (msg :: qs). split_and!; try done.
  - rewrite Hd1. apply message_in_block; [congruence|done].
  - split; [congruence|congruence| |done|cbn in *; lia]. rewrite He2, He1, He. cbn in *. rewrite u16_small; lia.
Qed.

(** What a receiver does. *)
Lemma recv_sections (m : rt_messagequeue) flag msize max d q qs fs : mq_record m flag msize max (d :: q) qs fs [] -> max < 65536 ->
  exists msg m1 m2 b qs' fs', unlink m = Some (msg, m1) /\ mq_msg_pool (set_entry m1 (u16 (mq_entry m1 - 1))) !! msg = Some b /\ msg_data b = d /\
    give_back msg (set_entry m1 (u16 (mq_entry m1 - 1))) = Some m2 /\ mq_msg_size m1 = msize /\ mq_record m2 flag msize max q qs' fs' [].
Proof.
  intros Hr Hmax. pose proof (mr_length _ _ _ _ _ _ _ _ Hr) as Hlen. destruct Hr as [Hf Hs He Hlo Hm].
  destruct qs as [|msg qs]; [done|]. destruct (unlink_ok _ _ _ _ _ _ _ Hlo) as (m1 & H1 & Hlo1 & Hd1 & He1 & Hs1 & Hf1 & _).
  destruct (lo_held _ _ _ _ _ _ Hlo1) as (_ & _ & _ & b & Hb & Hl). set (m1' := set_entry m1 (u16 (mq_entry m1 - 1))).
  destruct (give_back_ok m1' q qs fs msg [] (set_entry_ok _ _ _ _ _ _ Hlo1)) as (m2 & H2 & Hlo2 & He2 & Hs2 & Hf2 & _).
  exists msg, m1, m2, b, qs, (msg :: fs). split_and!; try done.
  - unfold data_of in Hd1. by rewrite Hb in Hd1.
  - congruence.
  - split; [cbn in Hf2; congruence|cbn in Hs2; congruence| |done|cbn in *; lia].
    rewrite He2. cbn. rewrite He1, He. cbn [length] in *. rewrite u16_small; lia.
Qed.

Lemma wp_mq_send k L A t x flag msize max q rs buffer : kinv_at k L A -> can_wait k A t -> mq_state k A x flag msize max q rs -> buffer <> [] ->
  wp (code (rt_mq_send x buffer)) k (fun r k' => exists d L' A', kinv_at k' L' A' /\ sends msize (Mq_send buffer) d /\
    let '(r0, q', rs', woke) := mq_next flag msize max (prio_of k) (rt_tick (clk k)) 0 t (Mq_send buffer) d q rs in
    r = r0 /\ mq_effect t k A x flag msize max q' rs' woke k' A').
Proof.
  intros HI Hcw Hst Hb. pose proof (can_wait_running _ _ _ Hcw) as Hrun. destruct (mq_state_elim _ _ _ _ _ _ _ _ Hst) as (m & qs & fs & Hx & Hr).
  pose proof Hst as [_ _ _ Hmax].
  assert (mq_effect t k A x flag msize max q rs [] k A) as Hnone by (by apply mq_effect_none; [done|done|apply undisturbed_sch|done|]).
  unfold code, rt_mq_send. apply wp_bind. wp_bind. apply wp_assert; [by rewrite bool_decide_false|]. wp_bind. eapply wp_get_mq; [exact Hx|].
  rewrite (mr_size _ _ _ _ _ _ _ _ Hr). cbn [mq_next sends]. destruct (Z.ltb_spec msize (Z.of_nat (length buffer))) as [Hlt|Hge].
  - wp_ret. exists [], L, A. split; [done|]. split; [lia|done].
  - wp_bind. assert (message_of msize buffer (buffer ++ replicate (Z.to_nat msize - length buffer) 0)) as Hdummy.
    { split; [rewrite length_app, length_replicate; lia|by rewrite take_app_length]. }
    eapply wp_take_free; [done|exact Hst| |].
    + intros Hfull. wp_ret. eexists _, L, A. split; [done|]. split; [intros _; exact Hdummy|]. by rewrite (proj2 (Z.eqb_eq _ _)).
    + intros Hfree msg m0 qs0 fs0 Hr0. destruct (send_sections _ _ _ _ _ _ _ _ buffer Hr0) as (m1 & m2 & m3 & d & qs1 & H1 & H2 & H3 & Hd & Hr1); [lia|done|].
      wp_bind. eapply wp_edit_mq; [apply with_mq_lookup|exact H1|]. rewrite with_mq_twice.
      wp_bind. eapply wp_edit_mq; [apply with_mq_lookup|exact H2|]. rewrite with_mq_twice.
      wp_bind. eapply wp_edit_mq; [apply with_mq_lookup|exact H3|]. rewrite with_mq_twice.
      eapply wp_mono; [by eapply (wp_linked k L A t x flag msize max q (q ++ [d]) rs m3)|]. cbv beta.
      intros r k' (L' & A' & HI' & -> & Heff). wp_ret. exists d, L', A'. split; [done|]. split; [done|].
      rewrite (proj2 (Z.eqb_neq _ _)) by lia. done.
Qed.

Lemma wp_mq_urgent k L A t x flag msize max q rs buffer : kinv_at k L A -> can_wait k A t -> mq_state k A x flag msize max q rs -> buffer <> [] ->
  wp (code (rt_mq_urgent x buffer)) k (fun r k' => exists d L' A', kinv_at k' L' A' /\ sends msize (Mq_urgent buffer) d /\
    let '(r0, q', rs', woke) := mq_next flag msize max (prio_of k) (rt_tick (clk k)) 0 t (Mq_urgent buffer) d q rs in
    r = r0 /\ mq_effect t k A x flag msize max q' rs' woke k' A').
Proof.
  intros HI Hcw Hst Hb. pose proof (can_wait_running _ _ _ Hcw) as Hrun. destruct (mq_state_elim _ _ _ _ _ _ _ _ Hst) as (m & qs & fs & Hx & Hr).
  pose proof Hst as [_ _ _ Hmax].
  assert (mq_effect t k A x flag msize max q rs [] k A) as Hnone by (by apply mq_effect_none; [done|done|apply undisturbed_sch|done|]).
  unfold code, rt_mq_urgent. apply wp_bind. wp_bind. apply wp_assert; [by rewrite bool_decide_false|]. wp_bind. eapply wp_get_mq; [exact Hx|].
  rewrite (mr_size _ _ _ _ _ _ _ _ Hr). cbn [mq_next sends]. destruct (Z.ltb_spec msize (Z.of_nat (length buffer))) as [Hlt|Hge].
  - wp_ret. exists [], L, A. split; [done|]. split; [lia|done].
  - wp_bind. assert (message_of msize buffer (buffer ++ replicate (Z.to_nat msize - length buffer) 0)) as Hdummy.
    { split; [rewrite length_app, length_replicate; lia|by rewrite take_app_length]. }
    eapply wp_take_free; [done|exact Hst| |].
    + intros Hfull. wp_ret. eexists _, L, A. split; [done|]. split; [intros _; exact Hdummy|]. by rewrite (proj2 (Z.eqb_eq _ _)).
    + intros Hfree msg m0 qs0 fs0 Hr0. destruct (urgent_sections _ _ _ _ _ _ _ _ buffer Hr0) as (m1 & m2 & d & qs1 & H1 & H2 & Hd & Hr1); [lia|done|].
      wp_bind. eapply wp_edit_mq; [apply with_mq_lookup|exact H1|]. rewrite with_mq_twice.
      wp_bind. eapply wp_edit_mq; [apply with_mq_lookup|exact H2|]. rewrite with_mq_twice.
      eapply wp_mono; [by eapply (wp_linked k L A t x flag msize max q (d :: q) rs m2)|]. cbv beta.
      intros r k' (L' & A' & HI' & -> & Heff). wp_ret. exists d, L', A'. split; [done|]. split; [done|].
      rewrite (proj2 (Z.eqb_neq _ _)) by lia. done.
Qed.

(** What the receiver does with its errno. *)
Lemma wp_mq_put_error k L A t (m : rt_thread) x flag msize max q rs e Q : kinv_at k L A -> threads (sch k) !! t = Some m ->
  running k A -> mq_state k A x flag msize max q rs ->
  (kinv_at (with_thread k t (set_error m e)) L A -> mq_effect t k A x flag msize max q rs [] (with_thread k t (set_error m e)) A ->
   Q tt (with_thread k t (set_error m e))) -> wp (put_error t e) k Q.
Proof.
  intros HI Hm Hrun Hst HQ. unfold put_error. wp_bind. eapply wp_get_thread; [exact Hm|]. apply wp_put_thread.
  apply HQ; [by apply kinv_put_error|]. apply mq_effect_none; [done|done|apply undisturbed_thread|done|].
  by apply (want_same_insert k _ t m (set_error m e)).
Qed.

(** The message at the head of the queue is read and its block becomes free. *)
Lemma wp_mq_take k L A t x flag msize max d q rs n : kinv_at k L A -> mq_state k A x flag msize max (d :: q) rs -> running k A ->
  wp (mq_take x n) k (fun r k' => exists L' A', kinv_at k' L' A' /\ r = take (Z.to_nat (Z.min n msize)) d /\
    mq_effect t k A x flag msize max q rs [] k' A').
Proof.
  intros HI Hst Hrun. destruct (mq_state_elim _ _ _ _ _ _ _ _ Hst) as (m & qs & fs & Hx & Hr). destruct Hst as [_ Hw Hf Hmax].
  destruct (recv_sections _ _ _ _ _ _ _ _ Hr) as (msg & m1 & m2 & b & qs' & fs' & H1 & H2 & H3 & H4 & H5 & H6); [lia|].
  unfold mq_take. wp_bind. eapply wp_get_mq; [exact Hx|]. wp_bind. eapply wp_of_opt; [exact H1|]. cbn [fst snd].
  wp_bind. apply wp_put_mq. wp_bind. eapply wp_get_mq; [apply with_mq_lookup|]. wp_bind. eapply wp_of_opt; [exact H2|].
  wp_bind. eapply wp_edit_mq; [apply with_mq_lookup|exact H4|]. rewrite with_mq_twice. wp_ret.
  exists L, A. split; [by apply kinv_ipc|]. split.
  - cbn [mq_msg_size set_entry]. rewrite H3, H5. do 2 f_equal. destruct (Z.ltb_spec msize n); lia.
  - eapply (mq_effect_intro _ _ _ _ _ _ _ _ _ _ _ _ m2 qs' fs'); [by apply undisturbed_sch|by apply (running_sch k)| | |done..].
    + by apply want_same_threads.
    + symmetry. by apply insert_id.
Qed.

Lemma wp_mq_recv_again k L A t (m : rt_thread) x flag msize max q rs n timeout td : kinv_at k L A -> threads (sch k) !! t = Some m ->
  is_stat RT_THREAD_READY m = true -> others_ready t A -> running k A -> mq_state k A x flag msize max q rs -> timeout < RT_TICK_MAX / 2 ->
  wp (mq_recv_again x (Some t) n timeout td) k (fun r k' => exists L' A', kinv_at k' L' A' /\
    let '(r0, q', rs', woke) := mq_recv_next flag msize (prio_of k) (rt_tick (clk k)) t n timeout td q rs in
    r = r0 /\ mq_effect t k A x flag msize max q' rs' woke k' A').
Proof.
  intros HI Hm Hr Hothers Hrun Hst Htime. destruct (mq_state_elim _ _ _ _ _ _ _ _ Hst) as (mq & qs & fs & Hx & Hrec).
  unfold mq_recv_again, mq_recv_next. wp_bind. eapply wp_get_mq; [exact Hx|]. rewrite (mr_entry _ _ _ _ _ _ _ _ Hrec).
  destruct q as [|d q].
  - change (Z.of_nat (length []) =? 0) with true. cbn iota. wp_bind. eapply wp_of_opt; [done|]. wp_bind.
    eapply (wp_mq_put_error k L A); [done|done|done|done|]. intros HI1 Heff1. destruct (Z.eqb_spec timeout 0) as [->|Ht0].
    + wp_bind. unfold put_error. wp_bind. eapply wp_get_thread; [apply lookup_insert_eq|]. apply wp_put_thread. wp_ret.
      exists L, A. split; [apply kinv_put_error; [done|apply lookup_insert_eq]|]. split; [done|]. destruct Heff1 as [Hu1 _ Hwa1 _ _ _ _].
      apply mq_effect_none; [done|done| |done|].
      * eapply undisturbed_trans; [exact Hu1|apply undisturbed_thread].
      * eapply want_same_trans; [exact Hwa1|]. by eapply want_same_insert; [apply lookup_insert_eq|done..].
    + wp_bind. rewrite (mr_flag _ _ _ _ _ _ _ _ Hrec). destruct Hst as [_ Hw Hf Hmax].
      eapply (wp_wait td (rt_tick (clk k)) rt_tick_get k L A t m (Suspend x) rs flag timeout); [done..| |].
      { intros k1 Hk1. unfold rt_tick_get, mbind, M_bind, get. cbn. by rewrite Hk1. }
      intros k2 L2 A2 HI2 Hu2 Hr2 Hwa2 Hi2 Hw2. wp_ret. exists L2, A2. split; [done|]. split; [done|].
      apply (mq_effect_intro _ _ _ _ _ _ _ _ _ _ _ _ mq qs fs); try done. by rewrite Hi2, put_queues_same.
  - rewrite (proj2 (Z.eqb_neq _ 0)) by (cbn [length]; lia). wp_bind.
    eapply wp_mono; [apply (wp_mq_take k L A t x flag msize max d q rs n HI Hst Hrun)|].
    cbv beta. intros r k1 (L1 & A1 & HI1 & -> & Heff1). wp_ret. by exists L1, A1.
Qed.

Lemma queued_fits (m : rt_messagequeue) q qs fs hs : linked_ok m q qs fs hs -> (length qs <= size (mq_msg_pool m))%nat.
Proof.
  intros [_ _ _ Hnd Hk _]. apply NoDup_app in Hnd as (Hnd & _ & _). apply Forall_app in Hk as [Hk _].
  assert (list_to_set qs ⊆@{gset Z} dom (mq_msg_pool m)) as Hsub.
  { intros b Hb. apply elem_of_list_to_set in Hb. rewrite Forall_forall in Hk. destruct (Hk b Hb) as (mb & Hmb & _). by eapply elem_of_dom_2. }
  apply subseteq_size in Hsub. by rewrite size_list_to_set, size_dom in Hsub by done.
Qed.

Lemma wp_mq_reset k L A t x flag msize max q rs arg : kinv_at k L A -> can_wait k A t -> mq_state k A x flag msize max q rs ->
  wp (rt_mq_control x RT_IPC_CMD_RESET arg) k (fun r k' => r = RT_EOK /\ exists L' A', kinv_at k' L' A' /\
    mq_effect t k A x flag msize max [] [] rs k' A').
Proof.
  intros HI Hcw Hst. destruct (mq_state_elim _ _ _ _ _ _ _ _ Hst) as (m & qs & fs & Hx & Hr). destruct Hst as [_ Hw Hf Hmax].
  unfold rt_mq_control. rewrite Z.eqb_refl. wp_bind. eapply wp_resume_all; [done|exact Hw|]. intros k1 L1 HI1 Hw1 Hth1 Hmisc1.
  destruct (woken_kept t k k1 A rs Hth1 Hmisc1) as [Hu1 Hwa1]. set (A1 := wake_all _ rs A) in *.
  assert (forall i, i ∈ rs \/ is_ready A i -> is_ready A1 i) as Hready by (intros i Hi; apply wake_all_ready; tauto).
  destruct Hr as [Hfl Hs He Hlo Hm]. destruct (free_messages_ok (size (mq_msg_pool m)) m q qs fs [] Hlo) as (m2 & fs2 & H2 & Hlo2 & Hl2 & Hs2 & Hf2);
    [by eapply queued_fits|]. wp_bind. eapply (wp_edit_mq k1 x m (set_entry m2 0)); [by rewrite (sm_ipc _ _ Hmisc1)|by rewrite H2|].
  wp_bind. eapply (wp_switch (with_mq k1 x (set_entry m2 0)) L1 _ t); [by apply kinv_ipc|apply Hready; right; apply Hcw|].
  intros k3 HI3 Hi3 Hu3 Hwa3 Hr3 _. wp_ret. split; [done|]. exists L1, A1. split; [done|].
  apply (mq_effect_intro _ _ _ _ _ _ _ _ _ _ _ _ (set_entry m2 0) [] fs2); try done.
  - eapply undisturbed_trans; [exact Hu1|]. eapply (undisturbed_trans t k1 A1 (with_mq k1 x (set_entry m2 0)) A1); [by apply undisturbed_sch|apply Hu3].
  - exact (want_same_trans _ _ _ Hwa1 Hwa3).
  - rewrite Hi3. cbn. by rewrite (sm_ipc _ _ Hmisc1).
  - split; [cbn; congruence|cbn; congruence|done|by apply set_entry_ok|]. cbn [length] in *. lia.
  - apply Forall_forall. intros i Hi. apply Hready. by left.
Qed.

Lemma wp_mq_op k L A t (m : rt_thread) x flag msize max q rs op : kinv_at k L A -> can_wait k A t -> threads (sch k) !! t = Some m ->
  mq_state k A x flag msize max q rs -> mq_op_ok (rt_tick (clk k)) op ->
  wp (run_mq x t op) k (fun r k' => exists d L' A', kinv_at k' L' A' /\ sends msize op d /\
    let '(r0, q', rs', woke) := mq_next flag msize max (prio_of k) (rt_tick (clk k)) (error m) t op d q rs in
    r = r0 /\ mq_effect t k A x flag msize max q' rs' woke k' A').
Proof.
  intros HI Hcw Hm Hst Hop. pose proof Hcw as [Hcur _ Hothers]. pose proof (can_wait_running _ _ _ Hcw) as Hrun.
  assert (is_stat RT_THREAD_READY m = true) as Hr.
  { destruct (cw_thread _ _ _ _ HI Hcw) as (m' & Hm' & Hr). rewrite Hm in Hm'. by injection Hm' as <-. }
  destruct (mq_state_elim _ _ _ _ _ _ _ _ Hst) as (mq & qs & fs & Hx & Hrec).
  assert (forall r : outcome (Z * option (list Z)), exists (d : list Z) L' A', kinv_at k L' A' /\ True /\ r = r /\
    mq_effect t k A x flag msize max q rs [] k A') as Hnone.
  { intros r. exists [], L, A. split; [done|]. split; [done|]. split; [done|]. apply mq_effect_none; [done|done|apply undisturbed_sch; done|done|done]. }
  assert (forall n timeout td, timeout < RT_TICK_MAX / 2 -> wp (mq_recv_again x (Some t) n timeout td) k (fun r k' => exists (d : list Z) L' A',
    kinv_at k' L' A' /\ True /\ let '(r0, q', rs', woke) := mq_recv_next flag msize (prio_of k) (rt_tick (clk k)) t n timeout td q rs in
    r = r0 /\ mq_effect t k A x flag msize max q' rs' woke k' A')) as Hrecv.
  { intros n timeout td Htime. eapply wp_mono; [by apply (wp_mq_recv_again k L A t m x flag msize max q rs)|]. cbv beta.
    intros r k' (L' & A' & HI' & Heff). by exists [], L', A'. }
  destruct op as [buffer|buffer|n timeout|n timeout td|]; cbn [run_mq mq_next mq_op_ok sends] in *.
  - by apply (wp_mq_send k L A t x flag msize max q rs buffer).
  - by apply (wp_mq_urgent k L A t x flag msize max q rs buffer).
  - destruct Hop as [Hn Htime]. unfold rt_mq_recv_begin. wp_bind. apply wp_assert; [by rewrite (proj2 (Z.eqb_neq _ _))|].
    unfold rt_thread_self. wp_bind. apply wp_get, wp_ret. wp_bind. eapply wp_get_mq; [exact Hx|]. rewrite Hcur, (mr_entry _ _ _ _ _ _ _ _ Hrec).
    destruct (Z.eqb_spec (Z.of_nat (length q)) 0) as [Hemp|Hne], (Z.eqb_spec timeout 0) as [->|Ht0]; cbn [andb]; try by apply Hrecv.
    destruct q; [|cbn in Hemp; lia]. wp_ret. apply Hnone.
  - unfold rt_mq_recv_end. wp_bind. eapply wp_get_thread; [exact Hm|].
    destruct (error m =? RT_EOK); cbn [negb]; [|wp_ret; apply Hnone]. wp_bind. apply wp_time_left. by apply Hrecv.
  - unfold code. wp_bind. eapply wp_mono; [by eapply wp_mq_reset|]. cbv beta. intros r k' (-> & L' & A' & HI' & Heff). wp_ret. by exists [], L', A'.
Qed.

(** The message queue 5 of the small system: two messages of four bytes. *)
Definition demo_pool : gmap Z rt_mq_message := {[0 := mk_message None [0; 0; 0; 0]; 1 := mk_message None [0; 0; 0; 0]]}.
Definition demo_mq : K unit := rt_mq_init 5 [113] demo_pool 4 16 RT_IPC_FLAG_FIFO ;; mret tt.

Lemma demo_mq_boots : exists k L A, boot_with demo_mq base_kernel = Some (tt, k) /\
  kinv_at k L A /\ can_wait k A 1 /\ mq_state k A 5 RT_IPC_FLAG_FIFO 4 2 [] [] /\ exists m : rt_thread, threads (sch k) !! 1 = Some m /\ error m = RT_EOK.
Proof.
  destruct (fresh_queue_ok demo_pool RT_IPC_FLAG_FIFO 4 2) as (x & fs & Hx & Hlo & Hl & Hs & Hf & He); [lia| |].
  { intros b Hb. assert (b = 0 \/ b = 1) as [-> | ->] by lia; eexists; (split; [reflexivity|reflexivity]). }
  assert (creates demo_mq {[Suspend 5 := []]} (mk_ipc ∅ ∅ ∅ ∅ {[5 := x]} ∅)) as Hcr.
  { apply (ipc_creates 5 RT_Object_Class_MessageQueue [113] (put_mq 5 x)).
    - by right; left.
    - by do 5 right; left.
    - done.
    - done.
    - unfold demo_mq, rt_mq_init. change (u16 (align_size 4)) with 4. change (u16 (16 / (4 + 4))) with 2. rewrite Hx. ipc_object_first.
    - intros k Hi. unfold put_mq, get, mbind, M_bind, put. by rewrite Hi. }
  destruct (boots _ _ _ Hcr) as (k & L & A & Hrun & HI & [HT _ Hw H10 _ _ Hcur _ Hth Hi]).
  exists k, L, A. split; [exact Hrun|]. split; [exact HI|]. split; [|split].
  - split; [exact Hcur|exists 10; rewrite H10; left|]. exists 10, 2. rewrite H10. split; [right; left|done].
  - split; [|apply Hw, lookup_singleton_eq|by left|lia]. exists x, [], fs. rewrite Hi. split_and!; [apply lookup_singleton_eq|done..|cbn; lia].
  - exists (demo_thread 10 20). split; [|reflexivity]. rewrite Hth, lookup_insert_ne, lookup_insert_ne by lia. apply lookup_insert_eq.
Qed.

(** ** The property *)

(** C9: A message queue refines a queue of at most [max] byte strings and the threads
    that wait for a message: every call of the current thread, and the rest of
    a receiver's call when its thread runs again, has the result of [mq_next].  A
    message that is sent carries the bytes of its buffer in front of the old
    bytes of its block; it enters behind the others, or in front of them when it
    is urgent, and wakes the first receiver; it is refused when it is longer than
    a block or when no block is free.  A receiver gets the first message, at
    most as many bytes as its buffer and a block have, or waits for what is left
    of its timeout, or has the error of its thread; a reset empties the queue and
    wakes all threads.  The linked blocks of the pool are all in the queue or in
    the free list afterwards, the invariant of the kernel holds, a ready thread
    runs, and all other objects and waiting lists are as they were. *)
Theorem message_queue_refines k L A t (m : rt_thread) x flag msize max q rs op : kinv_at k L A -> can_wait k A t -> threads (sch k) !! t = Some m ->
  mq_state k A x flag msize max q rs -> mq_op_ok (rt_tick (clk k)) op ->
  exists d, sends msize op d /\
    let '(r, q', rs', woke) := mq_next flag msize max (prio_of k) (rt_tick (clk k)) (error m) t op d q rs in
    exists k' L' A', run_mq x t op k = Some (r, k') /\ kinv_at k' L' A' /\ mq_effect t k A x flag msize max q' rs' woke k' A'.
Proof.
  intros HI Hcw Hm Hst Hop. pose proof (wp_mq_op k L A t m x flag msize max q rs op HI Hcw Hm Hst Hop) as Hwp.
  apply wp_elim in Hwp as (r' & k' & Hrun & d & L' & A' & HI' & Hd & Heff). exists d. split; [exact Hd|].
  destruct (mq_next _ _ _ _ _ _ _ _ _ _ _) as [[[r q'] rs'] woke]. destruct Heff as [-> Heff]. by exists k', L', A'.
Qed.

Lemma message_queue_refines_witness : exists k L A, kinv_at k L A /\ exists d, message_of 4 [7; 8; 9] d /\
  exists k' L' A', run_mq 5 1 (Mq_send [7; 8; 9]) k = Some (Done (RT_EOK, None), k') /\ kinv_at k' L' A' /\
    mq_effect 1 k A 5 RT_IPC_FLAG_FIFO 4 2 [d] [] [] k' A'.
Proof.
  destruct demo_mq_boots as (k & L & A & _ & HI & Hcw & Hst & m & Hm & He). exists k, L, A. split; [exact HI|].
  assert (mq_op_ok (rt_tick (clk k)) (Mq_send [7; 8; 9])) as Hop by discriminate.
  destruct (message_queue_refines k L A 1 m 5 RT_IPC_FLAG_FIFO 4 2 [] [] (Mq_send [7; 8; 9]) HI Hcw Hm Hst Hop) as (d & Hd & Heff).
  exists d. split; [apply Hd; discriminate|exact Heff].
Defined.
End ops.
