(* ===== verification/MemPool.v ===== *)
(** * Memory pools (src/mempool.c)

    A pool hands out blocks of one size.  The word in front of a block links the
    free blocks; the address of a block is its number in the memory of its pool.
    Threads wait for a block in a list that is served from its front, and enter
    it at the front. *)

From S2P Require Import Prelude Klist Kernel Object Timer Sched Thread Boot Tick Ipc Mailbox MsgQueue.

Open Scope Z_scope.

(** ** The operations *)

Definition get_mp (mp : Z) : K rt_mempool := k ← get; of_opt (pools (ipc k) !! mp).
Definition put_mp (mp : Z) (x : rt_mempool) : K unit := k ← get; put (with_ipc k (put_pools (ipc k) mp x)).

Definition set_blocks (x : rt_mempool) memory list n := mk_mempool memory (mp_size x) (mp_block_size x) list (block_total_count x)
  n (suspend_thread_count x).
Definition set_suspended (x : rt_mempool) n := mk_mempool (mp_memory x) (mp_size x) (mp_block_size x) (block_list x) (block_total_count x)
  (block_free_count x) n.

(** A word of the memory. *)
Definition set_word (b : Z) (w : mp_word) (memory : gmap Z mp_word) : option (gmap Z mp_word) :=
  _ ← memory !! b; Some (<[b := w]> memory).

(** The loop over the blocks, and the end of the list behind it. *)
Fixpoint link_blocks (n : nat) (offset : Z) (memory : gmap Z mp_word) : option (gmap Z mp_word) :=
  match n with
  | O => Some memory
  | S n => memory ← set_word offset (Next_block (Some (offset + 1))) memory; link_blocks n (offset + 1) memory
  end.

Definition free_blocks_list (total : Z) (memory : gmap Z mp_word) : option (gmap Z mp_word) :=
  memory ← link_blocks (Z.to_nat total) 0 memory; set_word (total - 1) (Next_block None) memory.

(** [memory] has the words that are in the memory of the pool; the division by a
    length that has wrapped to zero is undefined. *)
Definition rt_mp_init (mp : Z) (name : list Z) (memory : gmap Z mp_word) (size block_size : Z) : K Z :=
  rt_object_init (Obj mp) RT_Object_Class_MemPool name ;;
  let size := Z.land size (Z.lnot 3) in
  let block_size := u32 (align_size block_size) in
  if u32 (block_size + 4) =? 0 then ub else
  let total := size / u32 (block_size + 4) in
  list_init (Suspend mp) ;;
  memory ← of_opt (free_blocks_list total memory);
  put_mp mp (mk_mempool memory size block_size (Some 0) total total 0) ;; mret RT_EOK.

(** The loop of rt_mp_detach and rt_mp_delete. *)
Fixpoint mp_resume_all (fuel : nat) (mp : Z) : K unit :=
  match fuel with
  | O => ub
  | S fuel =>
      e ← list_isempty (Suspend mp);
      if e : bool then mret tt else
      n ← list_next (Suspend mp); thread ← thread_entry n;
      put_error thread (- RT_ERROR) ;; rt_thread_resume thread ;;
      x ← get_mp mp; put_mp mp (set_suspended x (u32 (suspend_thread_count x - 1))) ;;
      mp_resume_all fuel mp
  end.

Definition rt_mp_detach (mp : Z) : K Z :=
  k ← get; mp_resume_all (S (size (lists k))) mp ;; rt_object_detach (Obj mp) ;; mret RT_EOK.

Section heap.
Context (object_size : Z -> Z) (malloc : Z -> K (option addr)) (free : addr -> K unit).

(** The memory of the pool: its words, if there is enough. *)
Context (malloc_blocks : Z -> K (option (gmap Z mp_word))) (free_blocks : gmap Z mp_word -> K unit).

Definition rt_mp_create (name : list Z) (block_count block_size : Z) : K (option Z) :=
  mp ← rt_object_allocate object_size malloc RT_Object_Class_MemPool name;
  match mp with
  | None => mret None
  | Some (Thread_timer _) => ub
  | Some (Obj mp) =>
      let block_size := u32 (align_size block_size) in
      let size := u32 ((block_size + 4) * block_count) in
      memory ← malloc_blocks size;
      match memory with
      | None => rt_object_delete free (Obj mp) ;; mret None
      | Some memory =>
          list_init (Suspend mp) ;;
          memory ← of_opt (free_blocks_list block_count memory);
          put_mp mp (mk_mempool memory size block_size (Some 0) block_count block_count 0) ;; mret (Some mp)
      end
  end.

Definition rt_mp_delete (mp : Z) : K Z :=
  k ← get; mp_resume_all (S (size (lists k))) mp ;;
  x ← get_mp mp; free_blocks (mp_memory x) ;; rt_object_delete free (Obj mp) ;; mret RT_EOK.
End heap.

(** rt_set_errno: the error of a thread; outside of threads it is in a variable
    that nothing in this library reads. *)
Definition rt_set_errno (error : Z) : K unit :=
  k ← get;
  if negb (rt_interrupt_nest (sch k) =? 0) then mret tt else
  match rt_current_thread (sch k) with None => mret tt | Some tid => put_error tid error end.

(** The thread enters the waiting list of the pool. *)
Definition mp_suspend (mp thread : Z) : K unit :=
  rt_thread_suspend thread ;; list_insert_after (Suspend mp) (Tlist thread) ;;
  x ← get_mp mp; put_mp mp (set_suspended x (u32 (suspend_thread_count x + 1))).

(** The part of rt_mp_alloc behind its loop. *)
Definition take_block (x : rt_mempool) : option (Z * rt_mempool) :=
  b ← block_list x;
  w ← mp_memory x !! b;
  match w with
  | Next_block next => Some (b, set_blocks x (<[b := In_use]> (mp_memory x)) next (u32 (block_free_count x - 1)))
  | In_use => None
  end.

Definition mp_alloc_again (mp : Z) (self : option Z) (time before_sleep : Z) : K (outcome (option Z)) :=
  x ← get_mp mp;
  if block_free_count x =? 0 then
    if time =? 0 then rt_set_errno (- RT_ETIMEOUT) ;; mret (Done None) else
    thread ← of_opt self; put_error thread RT_EOK ;;
    before_sleep ← wait_after (mp_suspend mp thread) before_sleep rt_tick_get thread time;
    mret (Waits time before_sleep)
  else u ← of_opt (take_block x); put_mp mp u.2 ;; mret (Done (Some u.1)).

Definition rt_mp_alloc_begin (mp time : Z) : K (outcome (option Z)) :=
  self ← rt_thread_self; mp_alloc_again mp self time 0.

Definition rt_mp_alloc_end (mp thread time before_sleep : Z) : K (outcome (option Z)) :=
  m ← get_thread thread;
  if negb (error m =? RT_EOK) then mret (Done None) else
  left ← time_left time before_sleep; mp_alloc_again mp (Some thread) left.1 before_sleep.

(** The block [b] of [mp]: the word in front of it must be the pool. *)
Definition give_block (b : Z) (x : rt_mempool) : option rt_mempool :=
  w ← mp_memory x !! b;
  match w with
  | Next_block _ => None
  | In_use => Some (set_blocks x (<[b := Next_block (block_list x)]> (mp_memory x)) (Some b) (u32 (block_free_count x + 1)))
  end.

Definition rt_mp_free (mp b : Z) : K unit :=
  x ← get_mp mp; x ← of_opt (give_block b x); put_mp mp x ;;
  if 0 <? suspend_thread_count x then
    n ← list_next (Suspend mp); thread ← thread_entry n;
    put_error thread RT_EOK ;; rt_thread_resume thread ;;
    x ← get_mp mp; put_mp mp (set_suspended x (u32 (suspend_thread_count x - 1))) ;; rt_schedule
  else mret tt.

(** ** The list of the free blocks *)

Fixpoint free_chain (memory : gmap Z mp_word) (p : option Z) (bs : list Z) : Prop :=
  match bs with
  | [] => p = None
  | b :: bs => p = Some b /\ exists q, memory !! b = Some (Next_block q) /\ free_chain memory q bs
  end.

Lemma free_chain_insert memory p bs b w : b ∉ bs -> free_chain memory p bs -> free_chain (<[b := w]> memory) p bs.
Proof.
  revert p. induction bs as [|c bs IH]; intros p Hb; [done|]. rewrite not_elem_of_cons in Hb. destruct Hb as [Hne Hb].
  cbn. intros (-> & q & Hq & Hc). split; [done|]. exists q. rewrite lookup_insert_ne by done. auto.
Qed.

(** The blocks [fs] are free, [hs] in use, and [n] threads wait. *)
Record mp_ok (x : rt_mempool) (total : Z) (fs hs : list Z) (n : nat) : Prop := {
  po_total : block_total_count x = total;
  po_free : block_free_count x = Z.of_nat (length fs);
  po_chain : free_chain (mp_memory x) (block_list x) fs;
  po_used : Forall (fun b => mp_memory x !! b = Some In_use) hs;
  po_nodup : NoDup (fs ++ hs);
  po_all : forall b, b ∈ fs ++ hs <-> 0 <= b < total;
  po_count : suspend_thread_count x = Z.of_nat n;
  po_bound : total < 2 ^ 32 /\ Z.of_nat n < 2 ^ 32;
}.

Lemma po_length x total fs hs n : mp_ok x total fs hs n -> 0 <= total -> Z.of_nat (length fs + length hs) = total.
Proof.
  intros [_ _ _ _ Hnd Hall _ _] Ht. rewrite <-length_app. assert (fs ++ hs ≡ₚ seqZ 0 total) as ->.
  { apply NoDup_Permutation; [done|apply NoDup_seqZ|]. intros b. rewrite Hall, elem_of_seqZ. lia. }
  rewrite length_seqZ. lia.
Qed.

Lemma take_block_ok x total b fs hs n : mp_ok x total (b :: fs) hs n ->
  exists x', take_block x = Some (b, x') /\ mp_ok x' total fs (b :: hs) n.
Proof.
  intros [H1 H2 (Hl & q & Hq & Hc) H4 H5 H6 H7 H8]. unfold take_block. rewrite Hl. cbn. rewrite Hq. cbn. eexists. split; [reflexivity|].
  cbn [app] in H5. apply NoDup_cons in H5 as [Hb Hnd]. assert (b ∉ fs /\ b ∉ hs) as [Hbf Hbh] by set_solver.
  split; cbn; try done.
  - rewrite H2. cbn [length]. assert (0 <= total) by (pose proof (proj1 (H6 b) ltac:(left)); lia).
    pose proof (po_length x total (b :: fs) hs n ltac:(split; try done; [by split; [|exists q]|by cbn; apply NoDup_cons]) ltac:(done)) as Hlen.
    cbn [length] in Hlen. rewrite u32_small; lia.
  - by apply free_chain_insert.
  - constructor; [apply lookup_insert_eq|]. eapply Forall_impl; [exact H4|]. intros c Hcu. cbn. destruct (decide (c = b)) as [->|Hne];
      [apply lookup_insert_eq|by rewrite lookup_insert_ne].
  - by rewrite <-Permutation_middle, NoDup_cons.
  - intros c. rewrite <-H6, <-Permutation_middle. done.
Qed.

Lemma give_block_ok x total fs hs n b : mp_ok x total fs hs n -> b ∈ hs ->
  exists x', give_block b x = Some x' /\ mp_ok x' total (b :: fs) (drop_from b hs) n.
Proof.
  intros Hok Hb. pose proof Hok as [H1 H2 H3 H4 H5 H6 H7 H8]. unfold give_block. rewrite Forall_forall in H4. rewrite (H4 b Hb). cbn.
  eexists. split; [reflexivity|]. apply NoDup_app in H5 as (Hnf & Hapart & Hnh).
  assert (b ∉ fs) as Hbf by (intros Hin; by apply (Hapart b)).
  assert (0 <= total) as Ht by (pose proof (proj1 (H6 b) ltac:(rewrite elem_of_app; tauto)); lia).
  pose proof (po_length _ _ _ _ _ Hok Ht) as Hlen. assert (length hs <> 0%nat) as Hl0 by (destruct hs; [by apply elem_of_nil in Hb|done]).
  split; cbn; try done.
  - rewrite H2. rewrite u32_small; lia.
  - split; [done|]. exists (block_list x). rewrite lookup_insert_eq. split; [done|]. by apply free_chain_insert.
  - apply Forall_forall. intros c [Hc Hne]%elem_of_drop. rewrite lookup_insert_ne by done. by apply H4.
  - rewrite NoDup_cons, elem_of_app, elem_of_drop. split; [tauto|]. apply NoDup_app. split; [done|]. split; [|by apply NoDup_filter].
    intros c Hc [Hc' _]%elem_of_drop. by apply (Hapart c).
  - intros c. rewrite <-H6, elem_of_cons, !elem_of_app, elem_of_drop. destruct (decide (c = b)) as [->|Hne]; tauto.
Qed.

Lemma set_suspended_ok x total fs hs n n' : mp_ok x total fs hs n -> Z.of_nat n' < 2 ^ 32 ->
  mp_ok (set_suspended x (Z.of_nat n')) total fs hs n'.
Proof. intros [H1 H2 H3 H4 H5 H6 H7 [H8 _]] Hn. by split. Qed.

(** A new pool: all blocks are free, in their order. *)
Lemma link_blocks_ok n off memory : (forall b, off <= b < off + Z.of_nat n -> is_Some (memory !! b)) ->
  exists memory', link_blocks n off memory = Some memory' /\ dom memory' = dom memory /\
    forall b, memory' !! b = if decide (off <= b < off + Z.of_nat n) then Some (Next_block (Some (b + 1))) else memory !! b.
Proof.
  revert off memory. induction n as [|n IH]; intros off memory Hm.
  - exists memory. split_and!; [done|done|]. intros b. rewrite decide_False by lia. done.
  - cbn [link_blocks]. unfold set_word. destruct (Hm off) as [w Hw]; [lia|]. rewrite Hw. cbn.
    destruct (IH (off + 1) (<[off := Next_block (Some (off + 1))]> memory)) as (m' & -> & Hd & Hl).
    { intros b Hb. rewrite lookup_insert_ne by lia. apply Hm. lia. }
    exists m'. split_and!; [done| |].
    + rewrite Hd, dom_insert_L. apply elem_of_dom_2 in Hw. set_solver.
    + intros b. rewrite Hl. destruct (decide (b = off)) as [->|Hne].
      * rewrite decide_False by lia. rewrite lookup_insert_eq, decide_True by lia. done.
      * rewrite lookup_insert_ne by done. apply decide_ext. lia.
Qed.

Lemma free_chain_seq memory n off : (0 < n)%nat -> memory !! (off + Z.of_nat n - 1) = Some (Next_block None) ->
  (forall b, off <= b < off + Z.of_nat n - 1 -> memory !! b = Some (Next_block (Some (b + 1)))) ->
  free_chain memory (Some off) (seqZ off (Z.of_nat n)).
Proof.
  revert off. induction n as [|n IH]; intros off Hn Hlast Hm; [lia|]. rewrite seqZ_cons by lia. cbn. split; [done|].
  destruct n as [|n].
  - exists None. split; [by replace (off + Z.of_nat 1 - 1) with off in Hlast by lia|done].
  - exists (Some (off + 1)). split; [apply Hm; lia|]. replace (Z.pred (Z.of_nat (S (S n)))) with (Z.of_nat (S n)) by lia. apply (IH (off + 1)); [lia| |].
    + by replace (off + 1 + Z.of_nat (S n) - 1) with (off + Z.of_nat (S (S n)) - 1) by lia.
    + intros b Hb. apply Hm. lia.
Qed.

Lemma new_pool_ok memory total size bsize : 0 < total < 2 ^ 32 -> (forall b, 0 <= b < total -> is_Some (memory !! b)) ->
  exists memory', free_blocks_list total memory = Some memory' /\
    mp_ok (mk_mempool memory' size bsize (Some 0) total total 0) total (seqZ 0 total) [] 0.
Proof.
  intros Ht Hm. unfold free_blocks_list. destruct (link_blocks_ok (Z.to_nat total) 0 memory) as (m1 & -> & Hd & Hl); [intros b Hb; apply Hm; lia|].
  cbn. unfold set_word. rewrite Hl, decide_True by lia. cbn. eexists. split; [reflexivity|].
  assert (total = Z.of_nat (Z.to_nat total)) as Heq by lia. split; cbn [block_total_count block_free_count mp_memory block_list suspend_thread_count]; try done.
  - rewrite length_seqZ. lia.
  - rewrite Heq at 2. apply free_chain_seq; [lia| |].
    + rewrite <-Heq, Z.add_0_l. apply lookup_insert_eq.
    + intros b Hb. rewrite lookup_insert_ne, Hl, decide_True by lia. done.
  - rewrite app_nil_r. apply NoDup_seqZ.
  - intros b. rewrite app_nil_r, elem_of_seqZ. lia.
  - split; lia.
Qed.

(** A pool without a block writes in front of its memory. *)
Lemma empty_pool_undefined memory : memory !! (-1) = None -> free_blocks_list 0 memory = None.
Proof. intros Hm. unfold free_blocks_list, set_word. change (link_blocks (Z.to_nat 0) 0 memory) with (Some memory). cbn [mbind option_bind]. change (0 - 1) with (-1). by rewrite Hm. Qed.

(** ** A memory pool as its free blocks, its used blocks and its queue *)

Record mp_state (k : kernel) (A : abs) (x total : Z) (fs hs ws : list Z) : Prop := {
  ps_pool : exists m, pools (ipc k) !! x = Some m /\ mp_ok m total fs hs (length ws);
  ps_waits : a_waits A !! Suspend x = Some ws;
}.

Inductive mp_op := Mp_alloc (time : Z) | Mp_alloc_resumed (time before_sleep : Z) | Mp_free (b : Z).

(** A call of thread [t], or the rest of one when the thread runs again. *)
Definition run_mp (x t : Z) (op : mp_op) : K (outcome (option Z)) :=
  match op with
  | Mp_alloc time => rt_mp_alloc_begin x time
  | Mp_alloc_resumed time before => rt_mp_alloc_end x t time before
  | Mp_free b => rt_mp_free x b ;; mret (Done None)
  end.

Definition mp_result : Type := outcome (option Z) * list Z * list Z * list Z * list Z.

(** The result, the free blocks in their order, the used ones, the threads that
    wait, and those that are woken. *)
Definition mp_alloc_next (now t time before : Z) (fs hs ws : list Z) : mp_result :=
  match fs with
  | [] => if time =? 0 then (Done None, fs, hs, ws, []) else (Waits time (if 0 <? time then now else before), fs, hs, t :: ws, [])
  | b :: fs => (Done (Some b), fs, b :: hs, ws, [])
  end.

Definition mp_next (now err t : Z) (op : mp_op) (fs hs ws : list Z) : mp_result :=
  match op with
  | Mp_alloc time => mp_alloc_next now t time 0 fs hs ws
  | Mp_alloc_resumed time before =>
      if err =? RT_EOK then mp_alloc_next now t (left_of now time before).1 before fs hs ws else (Done None, fs, hs, ws, [])
  | Mp_free b => (Done None, b :: fs, drop_from b hs, tail ws, take 1 ws)
  end.

(** Timeouts are below half of the ticks, fewer than 2^32 threads wait, and only
    blocks that are in use are given back. *)
Definition mp_op_ok (now : Z) (op : mp_op) (hs ws : list Z) : Prop :=
  match op with
  | Mp_alloc time => time < RT_TICK_MAX / 2 /\ Z.of_nat (S (length ws)) < 2 ^ 32
  | Mp_alloc_resumed time before => (left_of now time before).1 < RT_TICK_MAX / 2 /\ Z.of_nat (S (length ws)) < 2 ^ 32
  | Mp_free b => b ∈ hs
  end.

Record mp_effect (t : Z) (k : kernel) (A : abs) (x total : Z) (fs hs ws woke : list Z) (k' : kernel) (A' : abs) : Prop := {
  pe_kept : undisturbed t k A k' A';
  pe_running : running k' A';
  pe_want : want_same k k';
  pe_state : mp_state k' A' x total fs hs ws;
  pe_waits : a_waits A' = <[Suspend x := ws]> (a_waits A);
  pe_ipc : exists m, ipc k' = put_pools (ipc k) x m;
  pe_woke : Forall (is_ready A') woke;
}.

Section ops.
Implicit Types (k : kernel) (L : gmap node (list node)) (A : abs) (t : Z) (m : rt_mempool).

Definition with_mp (k : kernel) (x : Z) (m : rt_mempool) : kernel := with_ipc k (put_pools (ipc k) x m).

Lemma wp_get_mp k x m Q : pools (ipc k) !! x = Some m -> Q m k -> wp (get_mp x) k Q.
Proof. intros Hm HQ. eapply wp_run; [|exact HQ]. unfold get_mp, mbind, M_bind, get, of_opt. by rewrite Hm. Qed.

Lemma wp_put_mp k x m Q : Q tt (with_mp k x m) -> wp (put_mp x m) k Q.
Proof. done. Qed.

Lemma put_pools_same i x m : pools i !! x = Some m -> put_pools i x m = i.
Proof. intros Hx. unfold put_pools. rewrite insert_id by done. by destruct i. Qed.

Lemma put_pools_twice i x m1 m2 : put_pools (put_pools i x m1) x m2 = put_pools i x m2.
Proof. unfold put_pools. cbn. by rewrite insert_insert_eq. Qed.

Lemma mp_effect_intro t k A x total fs hs ws woke k' A' m : undisturbed t k A k' A' -> running k' A' -> want_same k k' ->
  a_waits A' = <[Suspend x := ws]> (a_waits A) -> ipc k' = put_pools (ipc k) x m -> mp_ok m total fs hs (length ws) ->
  Forall (is_ready A') woke -> mp_effect t k A x total fs hs ws woke k' A'.
Proof.
  intros Hu Hrun Hwa Hw Hi Hr Hwo. split; try done; [|by exists m].
  split; [|by rewrite Hw, lookup_insert_eq]. exists m. split; [rewrite Hi; apply lookup_insert_eq|done].
Qed.

Lemma mp_effect_none t k A x total fs hs ws k' : mp_state k A x total fs hs ws -> ipc k' = ipc k ->
  undisturbed t k A k' A -> running k' A -> want_same k k' -> mp_effect t k A x total fs hs ws [] k' A.
Proof.
  intros [(m & Hx & Hok) Hw] Hi Hu Hrun Hwa. eapply mp_effect_intro; [done|done|done|by rewrite insert_id| |exact Hok|done].
  by rewrite Hi, put_pools_same.
Qed.

(** rt_set_errno of the current thread or of nobody. *)
Lemma wp_set_errno k L A t (m : rt_thread) e Q : kinv_at k L A -> rt_current_thread (sch k) = Some t -> threads (sch k) !! t = Some m ->
  (forall k', kinv_at k' L A -> undisturbed t k A k' A -> want_same k k' -> ipc k' = ipc k -> (running k A -> running k' A) -> Q tt k') ->
  wp (rt_set_errno e) k Q.
Proof.
  intros HI Hcur Hm HQ. unfold rt_set_errno. wp_bind. apply wp_get. destruct (negb _).
  - wp_ret. by apply HQ; [done|apply undisturbed_sch|..].
  - rewrite Hcur. unfold put_error. wp_bind. eapply wp_get_thread; [exact Hm|]. apply wp_put_thread.
    apply HQ; [by apply kinv_put_error|apply undisturbed_thread|by apply (want_same_insert k _ t m (set_error m e))|done|done].
Qed.

(** The current thread enters the list in front of the others. *)
Lemma mp_suspends k L A x t (mt : rt_thread) ws m : kinv_at k L A -> threads (sch k) !! t = Some mt -> is_stat RT_THREAD_READY mt = true ->
  a_waits A !! Suspend x = Some ws -> pools (ipc k) !! x = Some m ->
  suspends (mp_suspend x t) k A t mt (Suspend x) (t :: ws) (put_pools (ipc k) x (set_suspended m (u32 (suspend_thread_count m + 1)))).
Proof.
  intros HI Hm Hr Hh Hx R HR. unfold mp_suspend. wp_bind. eapply wp_suspend; [done|done|done|].
  intros k1 L1 HI1 Hfree1 Hth1 Hmisc1. assert (a_waits (unready t A) !! Suspend x = Some ws) as Hh1 by done.
  destruct (ki_waits _ _ _ HI1 _ _ Hh1) as [_ Hl]. pose proof (tv_linked _ _ _ _ (ki_timers _ _ _ HI1)) as Hlk1.
  assert (threads (sch k1) !! t = Some (suspend_stat mt)) as Hm1 by (by rewrite Hth1, lookup_insert_eq).
  wp_bind. eapply (wp_insert_after k1 L1 (Suspend x) [] (Tlist <$> ws)); [done|done|done|done|]. intros lk2 Hlk2.
  pose proof (kinv_wait k1 L1 (unready t A) t (suspend_stat mt) (Suspend x) [] ws lk2 HI1 Hm1 ltac:(by rewrite suspend_is) Hh1 Hlk2) as HI2.
  cbn [app] in HI2. destruct Hmisc1 as [Hi1 Ho1 Hc1 Hn1 Hq1].
  wp_bind. eapply wp_get_mp; [by cbn; rewrite Hi1|]. apply wp_put_mp.
  eapply (HR _ _ _ (kinv_ipc _ _ _ _ HI2)); [done|]. split; try done. cbn. by rewrite Hi1.
Qed.

(** The wait of the current thread, whose error has been reset. *)
Lemma wp_mp_wait k L A t (mt : rt_thread) x total hs ws time before Q : kinv_at k L A -> threads (sch k) !! t = Some mt ->
  is_stat RT_THREAD_READY mt = true -> others_ready t A -> mp_state k A x total [] hs ws -> time < RT_TICK_MAX / 2 ->
  Z.of_nat (S (length ws)) < 2 ^ 32 ->
  (forall k' L' A', kinv_at k' L' A' -> mp_effect t k A x total [] hs (t :: ws) [] k' A' ->
     Q (if 0 <? time then rt_tick (clk k) else before) k') ->
  wp (wait_after (mp_suspend x t) before rt_tick_get t time) (with_thread k t (set_error mt RT_EOK)) Q.
Proof.
  intros HI Hm Hr Hothers [(m & Hx & Hok) Hw] Htime Hlen HQ. set (k1 := with_thread k t (set_error mt RT_EOK)).
  set (m' := set_suspended m (u32 (suspend_thread_count m + 1))).
  assert (mp_ok m' total [] hs (S (length ws))) as Hok'.
  { unfold m'. rewrite (po_count _ _ _ _ _ Hok), u32_small by lia. replace (Z.of_nat (length ws) + 1) with (Z.of_nat (S (length ws))) by lia.
    by eapply set_suspended_ok. }
  eapply (wp_wait_after _ before (rt_tick (clk k)) rt_tick_get k1 L A t (set_error mt RT_EOK) (Suspend x) (t :: ws) (put_pools (ipc k) x m'));
    [by apply kinv_put_error| |done|done| |].
  - eapply (mp_suspends k1 L A x t (set_error mt RT_EOK) ws m); [by apply kinv_put_error|apply lookup_insert_eq|done|done|done].
  - intros k2 Hk2. unfold rt_tick_get, mbind, M_bind, get. cbn. by rewrite Hk2.
  - intros k2 L2 A2 HI2 Hth2 Hi2 _ Hn2 Hruns. apply (HQ k2 L2 A2 HI2).
    eapply (mp_effect_intro _ _ _ _ _ _ _ _ _ _ _ m').
    + eapply (undisturbed_trans t k A k1 A); [apply undisturbed_thread|by eapply undisturbed_waiting].
    + by apply (runs_highest_running _ k1).
    + apply (want_same_insert k k2 t mt (suspend_stat (set_error mt RT_EOK))); [done| |done|done]. rewrite Hth2. cbn. by rewrite insert_insert_eq.
    + unfold A2. by rewrite waiting_waits.
    + by rewrite Hi2.
    + exact Hok'.
    + constructor.
Qed.

Lemma wp_mp_alloc_again k L A t (mt : rt_thread) x total fs hs ws time before : kinv_at k L A -> rt_current_thread (sch k) = Some t ->
  threads (sch k) !! t = Some mt -> is_stat RT_THREAD_READY mt = true -> others_ready t A -> running k A -> mp_state k A x total fs hs ws ->
  time < RT_TICK_MAX / 2 -> Z.of_nat (S (length ws)) < 2 ^ 32 ->
  wp (mp_alloc_again x (Some t) time before) k (fun r k' => exists L' A', kinv_at k' L' A' /\
    let '(r0, fs', hs', ws', woke) := mp_alloc_next (rt_tick (clk k)) t time before fs hs ws in
    r = r0 /\ mp_effect t k A x total fs' hs' ws' woke k' A').
Proof.
  intros HI Hcur Hm Hr Hothers Hrun Hst Htime Hlen. pose proof Hst as [(m & Hx & Hok) Hw].
  unfold mp_alloc_again, mp_alloc_next. wp_bind. eapply wp_get_mp; [exact Hx|]. rewrite (po_free _ _ _ _ _ Hok). destruct fs as [|b fs].
  - change (Z.of_nat (length []) =? 0) with true. cbn iota. destruct (Z.eqb_spec time 0) as [->|Ht0].
    + wp_bind. eapply wp_set_errno; [done..|]. intros k1 HI1 Hu1 Hwa1 Hi1 Hr1. wp_ret. exists L, A. split; [done|]. split; [done|].
      by apply mp_effect_none; [done|done|done|apply Hr1|].
    + wp_bind. eapply wp_of_opt; [done|]. wp_bind. unfold put_error. wp_bind. eapply wp_get_thread; [exact Hm|]. apply wp_put_thread.
      wp_bind. eapply (wp_mp_wait k L A t mt x total hs ws); [done..|]. intros k2 L2 A2 HI2 Heff2. wp_ret. by exists L2, A2.
  - rewrite (proj2 (Z.eqb_neq _ 0)) by (cbn [length]; lia). destruct (take_block_ok _ _ _ _ _ _ Hok) as (m' & Hm' & Hok').
    wp_bind. eapply wp_of_opt; [exact Hm'|]. cbn [fst snd]. wp_bind. apply wp_put_mp. wp_ret.
    exists L, A. split; [by apply kinv_ipc|]. split; [done|].
    eapply (mp_effect_intro _ _ _ _ _ _ _ _ _ _ _ m'); [by apply undisturbed_sch|by apply (running_sch k)|by apply want_same_threads| |done|done|constructor].
    symmetry. by apply insert_id.
Qed.

Lemma wp_mp_free k L A t x total fs hs ws b : kinv_at k L A -> running k A -> mp_state k A x total fs hs ws -> b ∈ hs ->
  wp (rt_mp_free x b) k (fun _ k' => exists L' A', kinv_at k' L' A' /\
    mp_effect t k A x total (b :: fs) (drop_from b hs) (tail ws) (take 1 ws) k' A').
Proof.
  intros HI Hrun [(m & Hx & Hok) Hw] Hb. destruct (give_block_ok _ _ _ _ _ _ Hok Hb) as (m' & Hm' & Hok'). unfold rt_mp_free.
  wp_bind. eapply wp_get_mp; [exact Hx|]. wp_bind. eapply wp_of_opt; [exact Hm'|]. wp_bind. apply wp_put_mp. set (k0 := with_mp k x m').
  assert (kinv_at k0 L A) as HI0 by by apply kinv_ipc. rewrite (po_count _ _ _ _ _ Hok'). destruct ws as [|w ws].
  - change (0 <? Z.of_nat (length [])) with false. wp_ret. exists L, A. split; [done|].
    eapply (mp_effect_intro _ _ _ _ _ _ _ _ _ _ _ m'); [by apply undisturbed_sch|by apply (running_sch k)|by apply want_same_threads| |done|done|constructor].
    symmetry. by apply insert_id.
  - rewrite (proj2 (Z.ltb_lt 0 _)) by (cbn [length]; lia). destruct (ki_waits _ _ _ HI0 _ _ Hw) as [_ Hl].
    destruct (waiting_suspended _ _ _ _ _ w HI0 Hw) as (mw & Hmw & Hs); [left|].
    wp_bind. eapply wp_next; [eapply linked_first; [apply HI0|exact Hl]|]. cbn [fmap list_fmap head default from_option thread_entry id]. wp_pure.
    wp_bind. unfold put_error. wp_bind. eapply wp_get_thread; [exact Hmw|]. apply wp_put_thread.
    set (m1 := set_error mw RT_EOK). set (k1 := with_thread k0 w m1).
    assert (kinv_at k1 L A) as HI1 by by apply kinv_put_error.
    wp_bind. eapply (wp_resume k1 L A w m1); [done|apply lookup_insert_eq|done|]. intros k2 L2 HI2 Hth2 Hmisc2.
    change (current_priority m1) with (current_priority mw) in HI2. set (A2 := make_ready w (current_priority mw) A) in HI2.
    pose proof (waits_resumed k L A (Suspend x) [] w ws (current_priority mw) HI Hw) as Hw2. cbn [app] in Hw2. fold A2 in Hw2.
    wp_bind. eapply wp_get_mp; [rewrite (sm_ipc _ _ Hmisc2); apply lookup_insert_eq|]. wp_bind. apply wp_put_mp.
    set (m2 := set_suspended m' (u32 (suspend_thread_count m' - 1))).
    assert (mp_ok m2 total (b :: fs) (drop_from b hs) (length ws)) as Hok2.
    { pose proof (po_bound _ _ _ _ _ Hok') as [_ Hbn]. cbn [length] in Hbn. unfold m2. rewrite (po_count _ _ _ _ _ Hok').
      rewrite u32_small by (cbn [length]; lia). replace (Z.of_nat (length (w :: ws)) - 1) with (Z.of_nat (length ws)) by (cbn [length]; lia).
      eapply set_suspended_ok; [done|lia]. }
    eapply (wp_switch (with_mp k2 x m2) L2 A2 w); [by apply kinv_ipc|apply make_ready_is|]. intros k3 HI3 Hi3 Hu3 Hwa3 Hr3 _.
    exists L2, A2. split; [done|]. assert (threads (sch k2) = <[w := ready_stat m1]> (threads (sch k))) as Hth by (rewrite Hth2; cbn; by rewrite insert_insert_eq).
    eapply (mp_effect_intro _ _ _ _ _ _ _ _ _ _ _ m2); [|done| |exact Hw2| |exact Hok2|repeat constructor; apply make_ready_is].
    + eapply (undisturbed_trans t k A (with_mp k2 x m2) A2); [|apply Hu3]. eapply undisturbed_make_ready; [exact Hth|]. cbn. by rewrite (sm_nest _ _ Hmisc2).
    + eapply (want_same_trans k (with_mp k2 x m2)); [|exact Hwa3]. by apply (want_same_insert k _ w mw (ready_stat m1)).
    + rewrite Hi3. change (put_pools (ipc k2) x m2 = put_pools (ipc k) x m2). rewrite (sm_ipc _ _ Hmisc2). apply put_pools_twice.
Qed.

Lemma wp_mp_op k L A t (mt : rt_thread) x total fs hs ws op : kinv_at k L A -> can_wait k A t -> threads (sch k) !! t = Some mt ->
  mp_state k A x total fs hs ws -> mp_op_ok (rt_tick (clk k)) op hs ws ->
  wp (run_mp x t op) k (fun r k' => exists L' A', kinv_at k' L' A' /\
    let '(r0, fs', hs', ws', woke) := mp_next (rt_tick (clk k)) (error mt) t op fs hs ws in
    r = r0 /\ mp_effect t k A x total fs' hs' ws' woke k' A').
Proof.
  intros HI Hcw Hm Hst Hop. pose proof Hcw as [Hcur _ Hothers]. pose proof (can_wait_running _ _ _ Hcw) as Hrun.
  assert (is_stat RT_THREAD_READY mt = true) as Hr.
  { destruct (cw_thread _ _ _ _ HI Hcw) as (m' & Hm' & Hr). rewrite Hm in Hm'. by injection Hm' as <-. }
  destruct op as [time|time before|b]; cbn [run_mp mp_next mp_op_ok] in *.
  - destruct Hop. unfold rt_mp_alloc_begin, rt_thread_self. wp_bind. apply wp_get, wp_ret. rewrite Hcur.
    by apply (wp_mp_alloc_again k L A t mt).
  - destruct Hop. unfold rt_mp_alloc_end. wp_bind. eapply wp_get_thread; [exact Hm|].
    destruct (error mt =? RT_EOK); cbn [negb].
    + wp_bind. apply wp_time_left. by apply (wp_mp_alloc_again k L A t mt).
    + wp_ret. exists L, A. split; [done|]. split; [done|]. by apply mp_effect_none; [done|done|apply undisturbed_sch|..].
  - wp_bind. eapply wp_mono; [by apply (wp_mp_free k L A t x total fs hs ws b)|]. cbv beta.
    intros _ k' (L' & A' & HI' & Heff). wp_ret. by exists L', A'.
Qed.

(** A thread that has timed out has left the list, but is still counted: the next
    block that is given back goes to a thread that does not exist. *)
Lemma stale_count_undefined k L A x b m n : kinv_at k L A -> pools (ipc k) !! x = Some m -> suspend_thread_count m = Z.of_nat (S n) ->
  a_waits A !! Suspend x = Some [] -> mp_memory m !! b = Some In_use -> rt_mp_free x b k = None.
Proof.
  intros HI Hx Hn Hw Hb. destruct (ki_waits _ _ _ HI _ _ Hw) as [_ Hl].
  pose proof (linked_first _ _ _ _ (tv_linked _ _ _ _ (ki_timers _ _ _ HI)) Hl) as Hnx. cbn in Hnx.
  unfold rt_mp_free, get_mp, put_mp, list_next, get, put, mbind, M_bind, of_opt. rewrite Hx. unfold give_block. rewrite Hb. cbn.
  rewrite Hn, (proj2 (Z.ltb_lt _ _)) by lia. cbn. by rewrite Hnx.
Qed.

(** So the timeout of the only thread that waits makes it undefined. *)
Lemma timeout_breaks_free k L A x t b total fs hs : kinv_at k L A -> mp_state k A x total fs hs [t] -> b ∈ hs ->
  Thread_timer t ∉ (a_timers A).*1 -> exists k', rt_thread_timeout t k = Some (tt, k') /\ rt_mp_free x b k' = None.
Proof.
  intros HI [(m & Hx & Hok) Hw] Hb Hnt. destruct (waiting_suspended _ _ _ _ _ t HI Hw) as (mt & Hmt & Hs); [left|].
  assert (wp (rt_thread_timeout t) k (fun _ k' => rt_mp_free x b k' = None)) as Hwp.
  { eapply (wp_thread_timeout k L A t mt); [done..|]. intros k' L' HI' _ _ Hi' _ _.
    pose proof (waits_resumed k L A (Suspend x) [] t [] (current_priority mt) HI Hw) as Hw'. cbn [app] in Hw'.
    eapply (stale_count_undefined k' L' _ x b m 0); [exact HI'|by rewrite Hi'|by rewrite (po_count _ _ _ _ _ Hok)|by rewrite Hw', lookup_insert_eq|].
    pose proof (po_used _ _ _ _ _ Hok) as Hu. rewrite Forall_forall in Hu. by apply Hu. }
  apply wp_elim in Hwp as ([] & k' & Hrun & H). by exists k'.
Qed.

(** The pool 6 of the small system: two blocks of four bytes. *)
Definition demo_memory : gmap Z mp_word := {[0 := In_use; 1 := In_use]}.
Definition demo_pool6 : K unit := rt_mp_init 6 [112] demo_memory 16 4 ;; mret tt.

Lemma demo_pool_boots : exists k L A, boot_with demo_pool6 base_kernel = Some (tt, k) /\
  kinv_at k L A /\ can_wait k A 1 /\ mp_state k A 6 2 [0; 1] [] [] /\ exists m : rt_thread, threads (sch k) !! 1 = Some m /\ error m = RT_EOK.
Proof.
  destruct (new_pool_ok demo_memory 2 16 4) as (mem & Hmem & Hok); [lia| |].
  { intros b Hb. assert (b = 0 \/ b = 1) as [-> | ->] by lia; by eexists. }
  set (x := mk_mempool mem 16 4 (Some 0) 2 2 0) in Hok.
  assert (creates demo_pool6 {[Suspend 6 := []]} (mk_ipc ∅ ∅ ∅ ∅ ∅ {[6 := x]})) as Hcr.
  { apply (ipc_creates 6 RT_Object_Class_MemPool [112] (put_mp 6 x)).
    - by right; right.
    - by do 6 right; left.
    - done.
    - done.
    - unfold demo_pool6, rt_mp_init. change (u32 (align_size 4)) with 4. change (Z.land 16 (Z.lnot 3)) with 16.
      change (u32 (4 + 4) =? 0) with false. cbn iota. change (16 / u32 (4 + 4)) with 2. rewrite Hmem. fold x.
      intros k. unfold rt_ipc_object_init, mbind, M_bind. destruct (rt_object_init _ _ _ k) as [[? k1]|]; [|done].
      cbn. by destruct (list_init (Suspend 6) k1) as [[? k2]|].
    - intros k Hi. unfold put_mp, get, mbind, M_bind, put. by rewrite Hi. }
  destruct (boots _ _ _ Hcr) as (k & L & A & Hrun & HI & [HT _ Hw H10 _ _ Hcur _ Hth Hi]).
  exists k, L, A. split; [exact Hrun|]. split; [exact HI|]. split; [|split].
  - split; [exact Hcur|exists 10; rewrite H10; left|]. exists 10, 2. rewrite H10. split; [right; left|done].
  - split; [|apply Hw, lookup_singleton_eq]. exists x. rewrite Hi. split; [apply lookup_singleton_eq|exact Hok].
  - exists (demo_thread 10 20). split; [|reflexivity]. rewrite Hth, lookup_insert_ne, lookup_insert_ne by lia. apply lookup_insert_eq.
Qed.

(** ** The property *)

(** C10: A memory pool refines its free blocks, its used blocks and the threads
    that wait: every call of the current thread, and the rest of a call when its
    thread runs again, has the result of [mp_next].  A block that is handed out
    was free and is then in use, so that no block is handed out twice; blocks are
    reused last in, first out; with no free block the thread waits in front of
    the others for what is left of its timeout, or gets nothing; and a block that
    is given back wakes the thread at the front.  All blocks stay accounted for,
    the invariant of the kernel holds afterwards, a ready thread runs, and all
    other objects and waiting lists are as they were.  The count of the waiting
    threads must be right, which a timeout of a thread in the list spoils. *)
Theorem memory_pool_refines k L A t (m : rt_thread) x total fs hs ws op : kinv_at k L A -> can_wait k A t -> threads (sch k) !! t = Some m ->
  mp_state k A x total fs hs ws -> mp_op_ok (rt_tick (clk k)) op hs ws ->
  let '(r, fs', hs', ws', woke) := mp_next (rt_tick (clk k)) (error m) t op fs hs ws in
  exists k' L' A', run_mp x t op k = Some (r, k') /\ kinv_at k' L' A' /\ mp_effect t k A x total fs' hs' ws' woke k' A'.
Proof.
  intros HI Hcw Hm Hst Hop. pose proof (wp_mp_op k L A t m x total fs hs ws op HI Hcw Hm Hst Hop) as Hwp.
  apply wp_elim in Hwp as (r' & k' & Hrun & L' & A' & HI' & Heff).
  destruct (mp_next _ _ _ _ _ _ _) as [[[[r fs'] hs'] ws'] woke]. destruct Heff as [-> Heff]. by exists k', L', A'.
Qed.

Lemma memory_pool_refines_witness : exists k L A, kinv_at k L A /\
  exists k' L' A', run_mp 6 1 (Mp_alloc 0) k = Some (Done (Some 0), k') /\ kinv_at k' L' A' /\ mp_effect 1 k A 6 2 [1] [0] [] [] k' A'.
Proof.
  destruct demo_pool_boots as (k & L & A & _ & HI & Hcw & Hst & m & Hm & He). exists k, L, A. split; [exact HI|].
  assert (mp_op_ok (rt_tick (clk k)) (Mp_alloc 0) [] []) as Hop by (split; vm_compute; reflexivity).
  exact (memory_pool_refines k L A 1 m 6 2 [0; 1] [] [] (Mp_alloc 0) HI Hcw Hm Hst Hop).
Defined.
End ops.
