(* ===== verification/System.v ===== *)
(** * The system: threads, ticks and IPC objects together

    The current thread calls operations of its objects, sleeps, yields or changes
    a priority, and between two calls a tick may come, with the functions of
    program timers.  The properties hold in all states that are reached in this
    way: the scheduler is not locked, and the idle thread calls nothing. *)

From S2P Require Import Prelude Klist Kernel Object Timer Sched Thread Boot Tick Ipc Mutex Event Mailbox MsgQueue.

Open Scope Z_scope.

(** ** The objects *)

Inductive kind := Is_semaphore | Is_mutex | Is_event | Is_mailbox | Is_queue.

(** Each object is in a state of its specification. *)
Definition object_ok (k : kernel) (A : abs) (x : Z) (c : kind) : Prop :=
  match c with
  | Is_semaphore => exists flag v ws, sem_state k A x flag v ws
  | Is_mutex => exists flag st, mutex_state k A x flag st
  | Is_event => exists flag s ws, event_state k A x flag s ws
  | Is_mailbox => exists flag size q rs ss, mb_state k A x flag size q rs ss
  | Is_queue => exists flag msize max q rs, mq_state k A x flag msize max q rs
  end.

(** The record of an object is as it was. *)
Definition same_record (i i' : ipc_objects) (x : Z) : Prop :=
  semaphores i' !! x = semaphores i !! x /\ mutexes i' !! x = mutexes i !! x /\ events i' !! x = events i !! x /\
  mailboxes i' !! x = mailboxes i !! x /\ queues i' !! x = queues i !! x.

(** Threads may have left the waiting lists of an object [x], and those that
    still wait want what they wanted. *)
Definition waits_shrink (k : kernel) (A : abs) (k' : kernel) (A' : abs) (x : Z) : Prop :=
  forall h, h = Suspend x \/ h = Suspend_sender x -> forall ws, a_waits A !! h = Some ws ->
    exists ws', a_waits A' !! h = Some ws' /\ forall i, i ∈ ws' -> i ∈ ws /\ want_of k' i = want_of k i.


(** ** The calls of a thread *)

Inductive call :=
  | C_semaphore (x : Z) (op : sem_op)
  | C_mutex (x : Z) (op : mutex_op)
  | C_event (x : Z) (op : event_op)
  | C_mailbox (x : Z) (op : mb_op)
  | C_queue (x : Z) (op : mq_op)
  | C_sleep (tick : Z)
  | C_yield
  | C_priority (thread p : Z).

Definition run_call (t : Z) (c : call) : K unit :=
  match c with
  | C_semaphore x op => run_sem x op ;; mret tt
  | C_mutex x op => run_mutex x op ;; mret tt
  | C_event x op => run_event x op ;; mret tt
  | C_mailbox x op => run_mb x t op ;; mret tt
  | C_queue x op => run_mq x t op ;; mret tt
  | C_sleep tick => rt_thread_sleep_begin tick ;; mret tt
  | C_yield => rt_thread_yield ;; mret tt
  | C_priority thread p => rt_thread_control thread RT_THREAD_CTRL_CHANGE_PRIORITY p ;; mret tt
  end.

(** A timeout is below half of the ticks, a sleep lasts one tick or more, and a mutex is not taken more than 255
    times by its owner. *)
Definition mutex_call_ok (k : kernel) (t x : Z) (op : mutex_op) : Prop :=
  match op with
  | Mutex_take time => time < RT_TICK_MAX / 2 /\ forall m, mutexes (ipc k) !! x = Some m -> owner m = Some t -> hold m < 255
  | Mutex_release => True
  end.

Definition call_ok (objs : gmap Z kind) (k : kernel) (t : Z) (c : call) : Prop :=
  match c with
  | C_semaphore x op => objs !! x = Some Is_semaphore /\ sem_op_ok op
  | C_mutex x op => objs !! x = Some Is_mutex /\ mutex_call_ok k t x op
  | C_event x op => objs !! x = Some Is_event /\ event_op_ok op
  | C_mailbox x op => objs !! x = Some Is_mailbox /\ mb_op_ok (rt_tick (clk k)) op
  | C_queue x op => objs !! x = Some Is_queue /\ mq_op_ok (rt_tick (clk k)) op
  | C_sleep tick => 0 < tick < RT_TICK_MAX / 2
  | C_yield => True
  | C_priority thread p => is_Some (threads (sch k) !! thread) /\ priority_ok p
  end.

(** A step is a call of the current thread, which is not the idle one, or a tick,
    in which the timers of the program call [user]. *)
Inductive label := Call (t : Z) (c : call) | Tick.

Inductive step (objs : gmap Z kind) (idle : Z) (user : Z -> Z -> K unit) : label -> kernel -> kernel -> Prop :=
  | step_call k k' t c : rt_current_thread (sch k) = Some t -> t <> idle -> call_ok objs k t c ->
      run_call t c k = Some (tt, k') -> step objs idle user (Call t c) k k'
  | step_tick k k' fired : rt_tick_increase user (S (size (timers (clk k)))) k = Some (fired, k') ->
      step objs idle user Tick k k'.

Inductive steps (objs : gmap Z kind) (idle : Z) (user : Z -> Z -> K unit) : list label -> kernel -> kernel -> Prop :=
  | steps_refl k : steps objs idle user [] k k
  | steps_cons l ls k1 k2 k3 : step objs idle user l k1 k2 -> steps objs idle user ls k2 k3 -> steps objs idle user (l :: ls) k1 k3.

(** How deep a thread [t] that holds the mutex [x] holds it after a step: nobody
    else can change this, and [None] is its last release. *)
Definition depth_step (t x : Z) (l : label) (d : Z) : option Z :=
  match l with
  | Call t0 (C_mutex y op) =>
      if decide (t0 = t /\ y = x) then
        match op with Mutex_take _ => Some (d + 1) | Mutex_release => if d =? 1 then None else Some (d - 1) end
      else Some d
  | _ => Some d
  end.

Fixpoint depth_after (t x : Z) (ls : list label) (d : Z) : option Z :=
  match ls with
  | [] => Some d
  | l :: ls => match depth_step t x l d with Some d => depth_after t x ls d | None => None end
  end.

Definition held_by (k : kernel) (x t d : Z) : Prop :=
  exists m, mutexes (ipc k) !! x = Some m /\ owner m = Some t /\ hold m = d.

Section frame.
Implicit Types (k : kernel) (L : gmap node (list node)) (A : abs) (x t : Z).

Lemma same_record_refl i x : same_record i i x.
Proof. done. Qed.

Lemma shrunk_nil (ws ws' : list Z) : (forall i, i ∈ ws' -> i ∈ ws) -> ws = [] -> ws' = [].
Proof. intros Hs ->. destruct ws' as [|i ws']; [done|]. exfalso. eapply (not_elem_of_nil (A := Z)), (Hs i). left. Qed.

(** What keeps an object in a state of its specification. *)
Lemma object_ok_frame k A k' A' x c : object_ok k A x c -> same_record (ipc k) (ipc k') x ->
  (forall i, is_Some (threads (sch k) !! i) -> is_Some (threads (sch k') !! i)) -> waits_shrink k A k' A' x -> object_ok k' A' x c.
Proof.
  intros Hok (Hs & Hm & He & Hb & Hq) Hth Hw. destruct c; cbn in *.
  - destruct Hok as (flag & v & ws & [H1 H2 H3 H4 H5]). destruct (Hw _ (or_introl eq_refl) _ H2) as (ws' & Hw' & Hin).
    exists flag, v, ws'. split; [congruence|done|done|done|]. intros Hv. eapply shrunk_nil; [|by apply H5]. intros i Hi. by apply Hin.
  - destruct Hok as (flag & [|o h orig ws] & Hf & Hst).
    + destruct Hst as [H1 H2]. destruct (Hw _ (or_introl eq_refl) _ H2) as (ws' & Hw' & Hin). exists flag, Free.
      split; [done|]. split; [congruence|]. rewrite Hw'. f_equal. eapply shrunk_nil; [|done]. intros i Hi. by apply Hin.
    + destruct Hst as (H1 & H2 & H3 & H4 & H5 & H6). destruct (Hw _ (or_introl eq_refl) _ H2) as (ws' & Hw' & Hin).
      exists flag, (Held o h orig ws'). split; [done|]. split_and!; [congruence|done|lia|lia|done|by apply Hth|]. intros Ho. by apply H6, Hin.
  - destruct Hok as (flag & s & ws & [H1 H2 H3 H4]). destruct (Hw _ (or_introl eq_refl) _ H2) as (ws' & Hw' & Hin).
    exists flag, s, ws'. split; [congruence|done|done|]. apply Forall_forall. intros i Hi. destruct (Hin i Hi) as [Hi' ->].
    unfold quiet in H4. rewrite Forall_forall in H4. by apply H4.
  - destruct Hok as (flag & size & q & rs & ss & [(pool & inn & out & H1 & H2) H3 H4 H5 H6]).
    destruct (Hw _ (or_introl eq_refl) _ H3) as (rs' & Hr' & _), (Hw _ (or_intror eq_refl) _ H4) as (ss' & Hs' & _).
    exists flag, size, q, rs', ss'. split; try done. exists pool, inn, out. split; [congruence|done].
  - destruct Hok as (flag & msize & max & q & rs & [(m & qs & fs & H1 & H2) H3 H4 H5]).
    destruct (Hw _ (or_introl eq_refl) _ H3) as (rs' & Hr' & _).
    exists flag, msize, max, q, rs'. split; try done. exists m, qs, fs. split; [congruence|done].
Qed.

(** An operation on one object leaves the others alone. *)
Lemma waits_shrink_other k L A k' A' x x0 W : kinv_at k L A -> x <> x0 ->
  (forall h, h <> Suspend x0 -> h <> Suspend_sender x0 -> a_waits A' !! h = a_waits A !! h) ->
  (forall i, W i -> is_ready A i \/ exists h ws, (h = Suspend x0 \/ h = Suspend_sender x0) /\ a_waits A !! h = Some ws /\ i ∈ ws) ->
  (forall i, ~ W i -> want_of k' i = want_of k i) -> waits_shrink k A k' A' x.
Proof.
  intros HI Hne Hw HW Hwant h Hh ws Hws. exists ws. split; [rewrite Hw; [done|destruct Hh; congruence..]|].
  intros i Hi. split; [done|]. apply Hwant. intros Hi'. destruct (HW i Hi') as [[p Hp]|(h' & ws' & Hh' & Hws' & Hin)].
  - destruct (waiting_suspended _ _ _ _ _ _ HI Hws Hi) as (m & Hm & Hs).
    destruct (tw_listed _ _ (ki_threads _ _ _ HI) _ _ Hp) as (m' & Hm' & _ & Hr). rewrite Hm in Hm'. injection Hm' as <-.
    by pose proof (stat_unique _ _ _ Hr Hs).
  - pose proof (waits_apart _ _ _ _ _ _ _ _ HI Hws Hws' Hi Hin) as ->. destruct Hh, Hh'; congruence.
Qed.
Lemma event_next_want flag prio want t op s ws i : i <> t -> i ∉ ws ->
  let '(_, _, _, want', _) := event_next flag prio want t op s ws in want' i = want i.
Proof.
  intros Hit Hiw. destruct op as [bits|bits opt timeout|]; cbn [event_next].
  - destruct (bits =? 0); [done|]. pose proof (deliver_split want (Z.lor s bits) ws) as Hsplit.
    destruct (deliver _ _ _) as [[s' rest] woke]. apply got_all_other. rewrite Hsplit, elem_of_app in Hiw. tauto.
  - destruct (bits =? 0); [done|]. destruct (received opt bits s); [done|]. destruct (timeout =? 0); [done|].
    unfold wupd. by rewrite decide_False.
  - done.
Qed.
(** What an operation of a thread [t] does for the thread [o] that holds the mutex. *)
Lemma held_next k A k' A' x flag prio t op st o d d' r st' prio' woke : mutex_state k A x flag st -> held_by k x o d ->
  mutex_next flag prio t op st = (r, st', prio', woke) -> mutex_state k' A' x flag st' ->
  depth_step o x (Call t (C_mutex x op)) d = Some d' -> held_by k' x o d'.
Proof.
  intros [Hf Hst] (m & Hm & Ho & Hd) Hnext [_ Hst'] Hdep. destruct st as [|o0 h orig ws]; [destruct Hst as [Hm' _]; by simplify_eq|].
  destruct Hst as (Hm' & _ & Hh & _). simplify_eq/=.
  assert (forall h' orig', mutexes (ipc k') !! x = Some (mk_mutex flag 0 orig' h' (Some o)) -> held_by k' x o h') as Hheld.
  { intros h' orig' Hm1. by eexists. }
  destruct op as [time|]; cbn [mutex_next depth_step] in *.
  - destruct (decide (o = t)) as [->|Hot].
    + simplify_eq. rewrite decide_True in Hdep by done. simplify_eq. by apply (Hheld _ orig), Hst'.
    + rewrite decide_False in Hdep by (intros [? _]; congruence). simplify_eq. destruct (time =? 0); simplify_eq; (by eapply Hheld, Hst').
  - destruct (decide (o = t)) as [->|Hot].
    + rewrite decide_True in Hdep by done. destruct (Z.eqb_spec h 1) as [->|Hne]; [done|]. simplify_eq. by apply (Hheld _ orig), Hst'.
    + rewrite decide_False in Hdep by (intros [? _]; congruence). simplify_eq. by apply (Hheld _ orig), Hst'.
Qed.
End frame.

(** ** The invariant of the system *)

Section system.
Context (objs : gmap Z kind) (idle : Z).
Implicit Types (k : kernel) (L : gmap node (list node)) (A : abs) (x t : Z).

Record stable (k : kernel) (A : abs) : Prop := {
  st_nest : rt_scheduler_lock_nest (sch k) = 0;
  st_running : exists c, rt_current_thread (sch k) = Some c /\ is_ready A c;
  st_idle : is_ready A idle;
  st_objects : forall x c, objs !! x = Some c -> object_ok k A x c;
}.

(** The kernel keeps its invariant, no timer is due, a ready thread runs, the
    idle thread is ready, and every object is in a state of its specification. *)
Definition system (k : kernel) : Prop := exists L A, kinv_at k L A /\ none_due A /\ stable k A.

(** What keeps all of it, as far as the objects are concerned. *)
Lemma stable_frame k A k' A' : stable k A -> rt_scheduler_lock_nest (sch k') = rt_scheduler_lock_nest (sch k) -> running k' A' ->
  is_ready A' idle -> ipc k' = ipc k -> (forall i, is_Some (threads (sch k) !! i) -> is_Some (threads (sch k') !! i)) ->
  (forall x, waits_shrink k A k' A' x) -> stable k' A'.
Proof.
  intros [Hn _ _ Hobj] Hn' Hrun Hidle Hi Hth Hw. split; [congruence|apply Hrun; congruence|done|].
  intros x c Hx. apply (object_ok_frame k A); [by apply Hobj|by rewrite Hi|done|apply Hw].
Qed.

Lemma waits_same k A k' A' x : a_waits A' = a_waits A -> want_same k k' -> waits_shrink k A k' A' x.
Proof. intros Hw Hwa h _ ws Hws. exists ws. rewrite Hw. split; [done|]. intros i Hi. split; [done|apply Hwa]. Qed.

Lemma waits_dropped k A k' A' t x : a_waits A' = drop_from t <$> a_waits A -> want_same k k' -> waits_shrink k A k' A' x.
Proof.
  intros Hw Hwa h _ ws Hws. exists (drop_from t ws). rewrite Hw, lookup_fmap, Hws. split; [done|]. intros i Hi.
  apply elem_of_drop in Hi as [Hi _]. split; [done|apply Hwa].
Qed.

Lemma rotate_ready t p A i : is_ready A i -> is_ready (rotate t p A) i.
Proof.
  intros [q Hq]. exists q. cbn. unfold upd. case_decide as Hp; [|done]. subst. rewrite elem_of_app, list_elem_of_singleton, elem_of_drop.
  destruct (decide (i = t)); tauto.
Qed.

Lemma stable_closed : tick_closed stable.
Proof.
  split; [split|..].
  - intros k k' A ts Hst Hs Hi _. apply (stable_frame k A); [done|by rewrite Hs| |apply Hst|done|by rewrite Hs|].
    + unfold running. rewrite Hs. intros _. apply Hst.
    + intros x. apply waits_same; [done|]. apply want_same_threads. by rewrite Hs.
  - intros k k' A t m d ts Hst _ _ Hm Hth Hi Hn Hruns. apply (stable_frame k A); [done|done| | |done| |].
    + eapply (runs_highest_running _ k) in Hruns; [|done]. intros H0. destruct (Hruns H0) as (c & Hc & Hr). by exists c.
    + destruct (make_ready_keeps (set_timers ts A) t (current_priority m) idle) as [p Hp]; [apply Hst|]. by exists p.
    + intros i Hsome. rewrite Hth. apply lookup_insert_is_Some. destruct (decide (t = i)); tauto.
    + intros x. apply (waits_dropped k A k' _ t); [done|]. by apply (want_same_insert k k' t m (ready_stat (set_error m (- RT_ETIMEOUT)))).
  - intros k k' A t p Hst Hth Hi Hn Hruns. apply (stable_frame k A); [done|done| |by apply rotate_ready, Hst|done|by rewrite Hth|].
    + by eapply (runs_highest_running _ k).
    + intros x. apply waits_same; [done|by apply want_same_threads].
  - intros k k' A Hst Hs Hi. apply (stable_frame k A); [done|by rewrite Hs| |apply Hst|done|by rewrite Hs|].
    + unfold running. rewrite Hs. intros _. apply Hst.
    + intros x. apply waits_same; [done|]. apply want_same_threads. by rewrite Hs.
  - intros k A t m n Hst Hm. apply (stable_frame k A); [done|done| |apply Hst|done| |].
    + intros _. apply Hst.
    + intros i Hsome. apply lookup_insert_is_Some. destruct (decide (t = i)); tauto.
    + intros x. apply waits_same; [done|]. by apply (want_same_insert k _ t m (set_remaining_tick m n)).
Qed.

(** An operation of a thread on the object [x0]. *)
Lemma stable_operation k L A t x0 c0 k' A' W : kinv_at k L A -> none_due A -> stable k A -> t <> idle -> objs !! x0 = Some c0 ->
  undisturbed t k A k' A' -> running k' A' -> object_ok k' A' x0 c0 -> (forall x, x <> x0 -> same_record (ipc k) (ipc k') x) ->
  (forall h, h <> Suspend x0 -> h <> Suspend_sender x0 -> a_waits A' !! h = a_waits A !! h) ->
  (forall i, W i -> is_ready A i \/ exists h ws, (h = Suspend x0 \/ h = Suspend_sender x0) /\ a_waits A !! h = Some ws /\ i ∈ ws) ->
  (forall i, ~ W i -> want_of k' i = want_of k i) -> none_due A' /\ stable k' A'.
Proof.
  intros HI Hdue [Hn _ Hidle Hobj] Ht Hx0 [_ Hd Hr Hth Hn'] Hrun Hok Hrec Hw HW Hwant. split; [by apply Hd|].
  split; [congruence|apply Hrun; congruence|by apply Hr; [apply not_eq_sym|]|].
  intros x c Hx. destruct (decide (x = x0)) as [->|Hne]; [rewrite Hx0 in Hx; by injection Hx as <-|].
  apply (object_ok_frame k A); [by apply Hobj|by apply Hrec|done|]. by eapply waits_shrink_other.
Qed.

Lemma stable_can_wait k A t : stable k A -> rt_current_thread (sch k) = Some t -> t <> idle -> can_wait k A t.
Proof.
  intros [_ (c & Hc & Hr) [p Hp] _] Hcur Ht. rewrite Hcur in Hc. injection Hc as <-. split; [done|done|].
  exists p, idle. split; [done|by apply not_eq_sym].
Qed.

Lemma system_intro k L A : kinv_at k L A -> none_due A /\ stable k A -> system k.
Proof. intros HI [Hd Hst]. by exists L, A. Qed.

(** The want of no thread changes. *)
Lemma stable_quiet_operation k L A t x0 c0 k' L' A' : kinv_at k L A -> none_due A -> stable k A -> t <> idle -> objs !! x0 = Some c0 ->
  kinv_at k' L' A' -> undisturbed t k A k' A' -> running k' A' -> want_same k k' -> object_ok k' A' x0 c0 ->
  (forall x, x <> x0 -> same_record (ipc k) (ipc k') x) ->
  (forall h, h <> Suspend x0 -> h <> Suspend_sender x0 -> a_waits A' !! h = a_waits A !! h) -> system k'.
Proof.
  intros HI Hd Hst Ht Hx HI' Hu Hrun Hwa Hok Hrec Hw. apply (system_intro k' L' A' HI').
  by apply (stable_operation k L A t x0 c0 k' A' (fun _ => False)).
Qed.

(** The thread [t] with its object, before the operation. *)
Record acts (k : kernel) (L : gmap node (list node)) (A : abs) (t x : Z) (c : kind) : Prop := {
  ac_kinv : kinv_at k L A;
  ac_due : none_due A;
  ac_stable : stable k A;
  ac_idle : t <> idle;
  ac_current : rt_current_thread (sch k) = Some t;
  ac_object : objs !! x = Some c;
}.

Lemma acts_can_wait k L A t x c : acts k L A t x c -> can_wait k A t.
Proof. intros [_ _ ? ? ? _]. by apply stable_can_wait. Qed.

Lemma acts_ok k L A t x c : acts k L A t x c -> object_ok k A x c.
Proof. intros [_ _ Hst _ _ Hx]. by apply (st_objects _ _ Hst). Qed.

Lemma sem_call k L A t x op : acts k L A t x Is_semaphore -> sem_op_ok op -> wp (run_sem x op ;; mret tt) k (fun _ k' => system k' /\ mutexes (ipc k') = mutexes (ipc k)).
Proof.
  intros Hac Hop. pose proof Hac as [HI Hd Hst Hidle Hcur Hx]. destruct (acts_ok _ _ _ _ _ _ Hac) as (flag & v & ws & Hs).
  wp_bind. eapply wp_mono; [apply (wp_sem_op k L A t x flag v ws op HI); [by eapply acts_can_wait|done|done]|]. cbv beta.
  intros r k' (L' & A' & HI' & Heff). wp_ret. destruct (sem_next _ _ _ _ _ _) as [[[r0 v'] ws'] woke].
  destruct Heff as [_ [Hu Hrun Hwa Hs' Hw Hi _]].
  split; [|by rewrite Hi].
  apply (stable_quiet_operation k L A t x Is_semaphore k' L' A'); [done..|by exists flag, v', ws'| |].
  - intros y Hy. rewrite Hi. unfold same_record. cbn. by rewrite lookup_insert_ne.
  - intros h Hh _. by rewrite Hw, lookup_insert_ne.
Qed.

Lemma mutex_call k L A t x op : acts k L A t x Is_mutex -> mutex_call_ok k t x op ->
  wp (run_mutex x op) k (fun r k' => system k' /\ (forall y, y <> x -> mutexes (ipc k') !! y = mutexes (ipc k) !! y) /\
    exists flag st A', mutex_state k A x flag st /\
      let '(r0, st', _, _) := mutex_next flag (prio_of k) t op st in r = r0 /\ mutex_state k' A' x flag st').
Proof.
  intros Hac Hop. pose proof Hac as [HI Hd Hst Hidle Hcur Hx]. destruct (acts_ok _ _ _ _ _ _ Hac) as (flag & st & Hs).
  assert (mutex_op_ok t op st) as Hop'.
  { destruct op as [time|], st as [|o h orig ws]; try done. destruct Hop as [Htime Hhold], Hs as [_ [Hm _]]. split; [done|].
    intros ->. by apply (Hhold _ Hm). }
  eapply wp_mono; [apply (wp_mutex_op k L A t x flag st op HI); [by eapply acts_can_wait|done|done]|]. cbv beta.
  intros r k' (L' & A' & HI' & Heff). destruct (mutex_next _ _ _ _ _) as [[[r0 st'] prio'] woke] eqn:Hnext.
  destruct Heff as [-> [Hu Hrun Hwa Hs' _ [ws Hw] [m Hi] _]]. split_and!.
  - apply (stable_quiet_operation k L A t x Is_mutex k' L' A'); [done..|by exists flag, st'| |].
    + intros y Hy. rewrite Hi. unfold same_record. cbn. by rewrite lookup_insert_ne.
    + intros h Hh _. by rewrite Hw, lookup_insert_ne.
  - intros y Hy. rewrite Hi. cbn. by rewrite lookup_insert_ne.
  - exists flag, st, A'. rewrite Hnext. done.
Qed.

Lemma mailbox_call k L A t x op : acts k L A t x Is_mailbox -> mb_op_ok (rt_tick (clk k)) op ->
  wp (run_mb x t op ;; mret tt) k (fun _ k' => system k' /\ mutexes (ipc k') = mutexes (ipc k)).
Proof.
  intros Hac Hop. pose proof Hac as [HI Hd Hst Hidle Hcur Hx]. destruct (acts_ok _ _ _ _ _ _ Hac) as (flag & size & q & rs & ss & Hs).
  pose proof (acts_can_wait _ _ _ _ _ _ Hac) as Hcw. destruct (cw_thread _ _ _ _ HI Hcw) as (m & Hm & _).
  wp_bind. eapply wp_mono; [by apply (wp_mb_op k L A t m x flag size q rs ss op HI)|]. cbv beta.
  intros r k' (L' & A' & HI' & Heff). wp_ret. destruct (mb_next _ _ _ _ _ _ _ _ _ _) as [[[[r0 q'] rs'] ss'] woke].
  destruct Heff as [_ [Hu Hrun Hwa Hs' Hw [m' Hi] _]].
  split; [|by rewrite Hi].
  apply (stable_quiet_operation k L A t x Is_mailbox k' L' A'); [done..|by exists flag, size, q', rs', ss'| |].
  - intros y Hy. rewrite Hi. unfold same_record. cbn. by rewrite lookup_insert_ne.
  - intros h Hh Hh'. by rewrite Hw, !lookup_insert_ne.
Qed.

Lemma queue_call k L A t x op : acts k L A t x Is_queue -> mq_op_ok (rt_tick (clk k)) op ->
  wp (run_mq x t op ;; mret tt) k (fun _ k' => system k' /\ mutexes (ipc k') = mutexes (ipc k)).
Proof.
  intros Hac Hop. pose proof Hac as [HI Hd Hst Hidle Hcur Hx]. destruct (acts_ok _ _ _ _ _ _ Hac) as (flag & msize & max & q & rs & Hs).
  pose proof (acts_can_wait _ _ _ _ _ _ Hac) as Hcw. destruct (cw_thread _ _ _ _ HI Hcw) as (m & Hm & _).
  wp_bind. eapply wp_mono; [by apply (wp_mq_op k L A t m x flag msize max q rs op HI)|]. cbv beta.
  intros r k' (d & L' & A' & HI' & _ & Heff). wp_ret. destruct (mq_next _ _ _ _ _ _ _ _ _ _ _) as [[[r0 q'] rs'] woke].
  destruct Heff as [_ [Hu Hrun Hwa Hs' Hw [m' Hi] _]].
  split; [|by rewrite Hi].
  apply (stable_quiet_operation k L A t x Is_queue k' L' A'); [done..|by exists flag, msize, max, q', rs'| |].
  - intros y Hy. rewrite Hi. unfold same_record. cbn. by rewrite lookup_insert_ne.
  - intros h Hh _. by rewrite Hw, lookup_insert_ne.
Qed.

Lemma event_call k L A t x op : acts k L A t x Is_event -> event_op_ok op -> wp (run_event x op ;; mret tt) k (fun _ k' => system k' /\ mutexes (ipc k') = mutexes (ipc k)).
Proof.
  intros Hac Hop. pose proof Hac as [HI Hd Hst Hidle Hcur Hx]. destruct (acts_ok _ _ _ _ _ _ Hac) as (flag & s & ws & Hs).
  pose proof (acts_can_wait _ _ _ _ _ _ Hac) as Hcw.
  wp_bind. eapply wp_mono; [by apply (wp_event_op k L A t x flag s ws op HI)|]. cbv beta.
  intros r k' (L' & A' & HI' & Heff). wp_ret. pose proof (fun i => event_next_want flag (prio_of k) (want_of k) t op s ws i) as Hwant.
  destruct (event_next _ _ _ _ _ _ _) as [[[[r0 s'] ws'] want'] woke]. destruct Heff as [_ [Hu Hrun Hwa Hs' Hw Hi _]].
  split; [|by rewrite Hi]. apply (system_intro k' L' A' HI'). apply (stable_operation k L A t x Is_event k' A' (fun i => i = t \/ i ∈ ws)); try done.
  - by exists flag, s', ws'.
  - intros y Hy. rewrite Hi. unfold same_record. cbn. by rewrite lookup_insert_ne.
  - intros h Hh _. by rewrite Hw, lookup_insert_ne.
  - intros i [->|Hin]; [left; apply Hcw|right]. exists (Suspend x), ws. split; [by left|]. split; [apply Hs|done].
  - intros i Hi'. rewrite Hwa. apply Hwant; tauto.
Qed.

Lemma sleep_call k L A t tick : kinv_at k L A -> none_due A -> stable k A -> t <> idle -> rt_current_thread (sch k) = Some t ->
  0 < tick < RT_TICK_MAX / 2 -> wp (rt_thread_sleep_begin tick ;; mret tt) k (fun _ k' => system k' /\ mutexes (ipc k') = mutexes (ipc k)).
Proof.
  intros HI Hd Hst Ht Hcur Htick. pose proof (stable_can_wait _ _ _ Hst Hcur Ht) as Hcw.
  destruct (cw_thread _ _ _ _ HI Hcw) as (m & Hm & Hr). destruct (st_idle _ _ Hst) as [p Hp]. wp_bind.
  eapply (wp_sleep_begin k L A t m tick p idle); [done..|lia|done|by apply not_eq_sym|].
  intros k' L' HI' Hth' Hi' Hn' Hruns. wp_ret. split; [|by rewrite Hi']. apply (system_intro k' L' _ HI'). split.
  - unfold none_due, run_timer in *. cbn. rewrite Forall_forall in *. intros y [->|[_ Hy]%list_elem_of_filter]%insert_due_mem; [cbn; lia|by apply Hd].
  - apply (stable_frame k A); [done|done|by eapply (runs_highest_running _ k)| |done| |].
    + exists p. cbn. apply elem_of_drop. split; [done|by apply not_eq_sym].
    + intros i Hsome. rewrite Hth'. apply lookup_insert_is_Some. destruct (decide (t = i)); tauto.
    + intros x. apply waits_same; [done|]. by apply (want_same_insert k k' t m (suspend_stat m)).
Qed.

Lemma yield_call k L A t : kinv_at k L A -> none_due A -> stable k A -> rt_current_thread (sch k) = Some t ->
  wp (rt_thread_yield ;; mret tt) k (fun _ k' => system k' /\ mutexes (ipc k') = mutexes (ipc k)).
Proof.
  intros HI Hd Hst Hcur. destruct (st_running _ _ Hst) as (c & Hc & [p Hp]). rewrite Hcur in Hc. injection Hc as <-.
  destruct (tw_listed _ _ (ki_threads _ _ _ HI) _ _ Hp) as (m & Hm & _). wp_bind. eapply (wp_yield k L A t m); [done..| |].
  - intros _. wp_ret. split; [|done]. by apply (system_intro k L A HI).
  - intros _ _ k' L' HI' Hth _ Hi Hn Hruns. wp_ret. split; [|by rewrite Hi]. apply (system_intro k' L' _ HI'). split; [done|].
    by eapply (tc_rotate _ stable_closed).
Qed.

Lemma priority_call k L A t p : kinv_at k L A -> none_due A -> stable k A -> is_Some (threads (sch k) !! t) -> priority_ok p ->
  wp (rt_thread_control t RT_THREAD_CTRL_CHANGE_PRIORITY p ;; mret tt) k (fun _ k' => system k' /\ mutexes (ipc k') = mutexes (ipc k)).
Proof.
  intros HI Hd Hst [m Hm] Hp. wp_bind. eapply wp_set_priority; [done|done|done|]. intros k' L' A' HI' Hsp. wp_ret.
  destruct (priority_kept _ _ _ _ _ _ t Hsp) as [[_ Hd' _ Hth _] Hwa]. pose proof Hsp as [_ _ Hw Hready _ Hmisc].
  split; [|by rewrite (sm_ipc _ _ Hmisc)]. apply (system_intro k' L' A' HI'). split; [by apply Hd'|]. apply (stable_frame k A); [done|apply Hmisc| |by apply Hready, Hst|apply Hmisc|done|].
  - intros _. destruct (st_running _ _ Hst) as (c & Hc & Hr). exists c. split; [by rewrite (sm_current _ _ Hmisc)|by apply Hready].
  - intros x. by apply waits_same.
Qed.

(** ** A step keeps the invariant and is defined *)

(** A call that is made of the owner of a mutex, or of another thread. *)
Lemma wp_any_call k t c : system k -> rt_current_thread (sch k) = Some t -> t <> idle -> call_ok objs k t c ->
  wp (run_call t c) k (fun _ k' => system k' /\ forall o x d d', objs !! x = Some Is_mutex -> held_by k x o d ->
    depth_step o x (Call t c) d = Some d' -> held_by k' x o d').
Proof.
  intros (L & A & HI & Hd & Hst) Hcur Ht Hok.
  assert (forall x o, objs !! x = Some o -> acts k L A t x o) as Hac by (intros x o Hx; by split).
  assert (forall m : K unit, (forall y op, c <> C_mutex y op) -> wp m k (fun _ k' => system k' /\ mutexes (ipc k') = mutexes (ipc k)) ->
    wp m k (fun _ k' => system k' /\ forall o x d d', objs !! x = Some Is_mutex -> held_by k x o d ->
      depth_step o x (Call t c) d = Some d' -> held_by k' x o d')) as Hframe.
  { intros m Hc Hm. eapply wp_mono; [exact Hm|]. cbv beta. intros _ k' [Hs' Hmx]. split; [done|]. intros o x d d' _ Hheld Hdep.
    assert (d' = d) as -> by (destruct c; cbn in Hdep; try congruence; exfalso; by eapply Hc). unfold held_by. by rewrite Hmx. }
  destruct c as [x op|x op|x op|x op|x op|tick| |thread p]; cbn [run_call call_ok] in *; try (apply Hframe; [done|]).
  - destruct Hok. by apply (sem_call k L A t); [apply Hac|].
  - destruct Hok as [Hx Hop]. clear Hframe. wp_bind. eapply wp_mono; [by apply (mutex_call k L A t x op (Hac _ _ Hx))|]. cbv beta.
    intros r k' (Hs' & Hothers & flag & st & A' & Hms & Hnext). wp_ret. split; [done|].
    intros o y d d' _ (m & Hm & Ho & Hd1) Hdep. destruct (decide (y = x)) as [->|Hne].
    2: { cbn in Hdep. rewrite decide_False in Hdep by (intros [_ ?]; congruence). injection Hdep as <-. exists m. by rewrite Hothers. }
    destruct (mutex_next flag (prio_of k) t op st) as [[[r0 st'] prio'] woke] eqn:Hn. destruct Hnext as [_ Hms'].
    eapply (held_next k A k' A' x flag); [exact Hms|by exists m|exact Hn|exact Hms'|exact Hdep].
  - destruct Hok. by apply (event_call k L A t); [apply Hac|].
  - destruct Hok. by apply (mailbox_call k L A t); [apply Hac|].
  - destruct Hok. by apply (queue_call k L A t); [apply Hac|].
  - by apply (sleep_call k L A t).
  - by apply (yield_call k L A t).
  - destruct Hok. by apply (priority_call k L A).
Qed.

(** The functions of the program's timers keep all this, and they leave the
    mutexes alone, which must not be used in an interrupt. *)
Definition timers_ok (user : Z -> Z -> K unit) : Prop := forall M, user_ok (fun k A => stable k A /\ mutexes (ipc k) = M) user.

Lemma mutexes_closed M : tick_closed (fun k A => stable k A /\ mutexes (ipc k) = M).
Proof.
  destruct stable_closed as [[H1 H2] H3 H4 H5]. split; [split|..].
  - intros k k' A ts [Hst HM] Hs Hi Hts. split; [by eapply H1|congruence].
  - intros k k' A t m d ts [Hst HM] Hts Hd Hm Hth Hi Hn Hruns. split; [by eapply H2|congruence].
  - intros k k' A t p [Hst HM] Hth Hi Hn Hruns. split; [by eapply H3|congruence].
  - intros k k' A [Hst HM] Hs Hi. split; [by eapply H4|congruence].
  - intros k A t m n [Hst HM] Hm. split; [by eapply H5|done].
Qed.

Section user.
Context (user : Z -> Z -> K unit) (Huser : timers_ok user).

Lemma wp_tick k : system k ->
  wp (rt_tick_increase user (S (size (timers (clk k))))) k (fun _ k' => system k' /\ mutexes (ipc k') = mutexes (ipc k)).
Proof using Huser.
  intros (L & A & HI & Hd & Hst).
  assert (current_ok k) as Hcur.
  { destruct (st_running _ _ Hst) as (c & Hc & [p Hp]). destruct (tw_listed _ _ (ki_threads _ _ _ HI) _ _ Hp) as (m & Hm & _). by exists c, m. }
  pose proof (timers_size _ _ _ _ (ki_timers _ _ _ HI)) as Hsize.
  eapply (wp_tick_increase (fun k A => stable k A /\ mutexes (ipc k) = _) user (Huser (mutexes (ipc k))) (mutexes_closed _) k L A); [done..|lia|].
  intros fired k' L' A' HI' _ Hd' [Hst' HM] _. split; [by exists L', A'|done].
Qed.

Lemma step_system l k k' : system k -> step objs idle user l k k' -> system k' /\
  forall o x d d', objs !! x = Some Is_mutex -> held_by k x o d -> depth_step o x l d = Some d' -> held_by k' x o d'.
Proof using Huser.
  intros Hs Hstep. destruct Hstep as [k k' t c Hcur Ht Hok Hrun|k k' fired Hrun].
  - destruct (wp_elim _ _ _ (wp_any_call k t c Hs Hcur Ht Hok)) as (r & k1 & Hrun1 & Hs1). rewrite Hrun in Hrun1. by injection Hrun1 as _ ->.
  - destruct (wp_elim _ _ _ (wp_tick k Hs)) as (r & k1 & Hrun1 & Hs1 & HM). rewrite Hrun in Hrun1. injection Hrun1 as _ ->.
    split; [done|]. intros o x d d' _ Hheld [= <-]. unfold held_by. by rewrite HM.
Qed.

Lemma steps_system ls k k' : system k -> steps objs idle user ls k k' -> system k'.
Proof using Huser. intros Hs Hsteps. induction Hsteps as [|l ls k1 k2 k3 Hstep _ IH]; [done|]. apply IH. by eapply step_system. Qed.

Lemma steps_held ls k k' o x d d' : system k -> steps objs idle user ls k k' -> objs !! x = Some Is_mutex -> held_by k x o d ->
  depth_after o x ls d = Some d' -> held_by k' x o d'.
Proof using Huser.
  intros Hs Hsteps Hx. revert d. induction Hsteps as [k|l ls k1 k2 k3 Hstep _ IH]; intros d Hheld Hdep; cbn in Hdep; [by injection Hdep as <-|].
  destruct (step_system l k1 k2 Hs Hstep) as [Hs2 Hh2]. destruct (depth_step o x l d) as [d2|] eqn:Hd2; [|done].
  by apply (IH Hs2 d2); [eapply Hh2|].
Qed.

(** Every admissible step can be taken. *)
Lemma can_call k t c : system k -> rt_current_thread (sch k) = Some t -> t <> idle -> call_ok objs k t c ->
  exists k', run_call t c k = Some (tt, k').
Proof. intros Hs Hcur Ht Hok. destruct (wp_elim _ _ _ (wp_any_call k t c Hs Hcur Ht Hok)) as ([] & k' & Hrun & _). by exists k'. Qed.

Lemma can_tick k : system k -> exists fired k', rt_tick_increase user (S (size (timers (clk k)))) k = Some (fired, k').
Proof using Huser. intros Hs. destruct (wp_elim _ _ _ (wp_tick k Hs)) as (fired & k' & Hrun & _). by exists fired, k'. Qed.

(** A mutex is not given to a second thread. *)
Lemma take_fails k x o d t time r k' : system k -> objs !! x = Some Is_mutex -> held_by k x o d ->
  rt_current_thread (sch k) = Some t -> t <> idle -> t <> o -> time < RT_TICK_MAX / 2 ->
  run_mutex x (Mutex_take time) k = Some (r, k') -> r <> Some RT_EOK.
Proof.
  intros (L & A & HI & Hd & Hst) Hx (m & Hm & Ho & _) Hcur Ht Hto Htime Hrun.
  assert (acts k L A t x Is_mutex) as Hac by by split.
  assert (mutex_call_ok k t x (Mutex_take time)) as Hok by (split; [done|]; intros m' Hm' Ho'; congruence).
  destruct (wp_elim _ _ _ (mutex_call k L A t x _ Hac Hok)) as (r1 & k1 & Hrun1 & _ & _ & flag & st & A1 & [_ Hms] & Hnext).
  rewrite Hrun in Hrun1. injection Hrun1 as <- <-. destruct st as [|o1 h orig ws]; [destruct Hms as [Hms _]; by simplify_eq|].
  destruct Hms as (Hms & _). rewrite Hm in Hms. injection Hms as ->. cbn in Ho. injection Ho as ->. cbn [mutex_next] in Hnext.
  rewrite decide_False in Hnext by (by apply not_eq_sym). destruct (time =? 0); destruct Hnext as [-> _]; discriminate.
Qed.
End user.
End system.

(** ** The small system *)

Lemma booted_system k L A W I objs idle : idle = 2 \/ idle = 3 -> kinv_at k L A -> booted k A W I ->
  (forall x c, objs !! x = Some c -> object_ok k A x c) -> system objs idle k.
Proof.
  intros Hidle HI [HT Hts _ H10 H31 _ Hcur Hn _ _] Hobj. exists L, A. split; [done|]. split; [by apply empty_none_due|].
  split; [done| | |done].
  - exists 1. split; [done|]. exists 10. rewrite H10. left.
  - destruct Hidle as [-> | ->]; [exists 10; rewrite H10; right; left|exists 31; rewrite H31; left].
Qed.

Lemma quiet_timers objs idle : timers_ok objs idle quiet_user.
Proof. intros M. apply quiet_ok. Qed.

Definition demo_objs (c : kind) : gmap Z kind := {[4 := c]}.

(** It has the semaphore 4, which is 0, and thread 1 runs. *)
Lemma semaphore_system : exists k, system (demo_objs Is_semaphore) 3 k /\ rt_current_thread (sch k) = Some 1.
Proof.
  destruct (boots _ _ _ (demo_semaphore_creates 0)) as (k & L & A & _ & HI & Hb). exists k. split; [|apply Hb].
  apply (booted_system k L A _ _ _ 3 (or_intror eq_refl) HI Hb). intros x c Hx. unfold demo_objs in Hx. apply lookup_singleton_Some in Hx as [<- <-].
  exists RT_IPC_FLAG_PRIO, 0, []. destruct Hb as [_ _ Hw _ _ _ _ _ _ Hi].
  split; [rewrite Hi; apply lookup_singleton_eq|by apply Hw, lookup_singleton_eq|done|by right|done].
Qed.

(** It has the mutex 5, which thread 3 holds; thread 2 is the one that calls nothing. *)
Lemma mutex_system : exists k, system {[5 := Is_mutex]} 2 k /\ rt_current_thread (sch k) = Some 1 /\ held_by k 5 3 1.
Proof.
  destruct (boots _ _ _ demo_mutex_creates) as (k & L & A & _ & HI & Hb). exists k. split.
  - apply (booted_system k L A _ _ _ 2 (or_introl eq_refl) HI Hb). intros x c Hx. apply lookup_singleton_Some in Hx as [<- <-].
    exists RT_IPC_FLAG_PRIO, (Held 3 1 31 []). destruct Hb as [_ _ Hw _ _ _ _ _ Hth Hi]. split; [by right|].
    split_and!; [rewrite Hi; apply lookup_singleton_eq|by apply Hw, lookup_singleton_eq|lia|lia| |rewrite Hth, lookup_insert_eq; by eexists|apply not_elem_of_nil].
    unfold priority_ok, RT_THREAD_PRIORITY_MAX. lia.
  - destruct Hb as [_ _ _ _ _ _ Hcur _ _ Hi]. split; [done|]. exists demo_held. rewrite Hi. split; [apply lookup_singleton_eq|done].
Qed.

Lemma call_and_tick objs idle k c : system objs idle k -> rt_current_thread (sch k) = Some 1 -> 1 <> idle -> call_ok objs k 1 c ->
  exists k', steps objs idle quiet_user [Call 1 c; Tick] k k'.
Proof.
  intros Hs Hcur Hidle Hok. destruct (can_call objs idle k 1 c Hs Hcur Hidle Hok) as (k1 & H1).
  pose proof (step_call objs idle quiet_user k k1 1 c Hcur Hidle Hok H1) as Hstep.
  destruct (step_system objs idle quiet_user (quiet_timers _ _) _ k k1 Hs Hstep) as [Hs1 _].
  destruct (can_tick objs idle quiet_user (quiet_timers _ _) k1 Hs1) as (fired & k2 & H2).
  exists k2. eapply steps_cons; [exact Hstep|]. eapply steps_cons; [by eapply step_tick|]. apply steps_refl.
Qed.

(** ** The properties *)

(** C4: In every state that a system reaches, in whatever order its threads call
    their semaphores, mutexes, events, mailboxes and message queues, sleep, yield
    or change priorities, and wherever ticks come in between: the kernel keeps
    its invariant, no timer is due, a ready thread runs, the idle thread is
    ready, and every object is in a state of its specification.  So nobody waits
    for a semaphore that is positive, for a mutex that is free or for event bits
    that are there, and no owner of a mutex waits for it.  This is for timers of
    the program that keep the invariant and leave mutexes alone. *)
Theorem system_invariant objs idle user ls k0 k : timers_ok objs idle user -> system objs idle k0 -> steps objs idle user ls k0 k ->
  exists L A, kinv_at k L A /\ none_due A /\ (exists t, rt_current_thread (sch k) = Some t /\ is_ready A t) /\ is_ready A idle /\
    forall x c, objs !! x = Some c -> object_ok k A x c.
Proof.
  intros Huser Hs Hsteps. destruct (steps_system objs idle user Huser ls k0 k Hs Hsteps) as (L & A & HI & Hd & [_ Hrun Hidle Hobj]).
  by exists L, A.
Qed.

Lemma system_invariant_witness : exists k0 k, steps (demo_objs Is_semaphore) 3 quiet_user [Call 1 (C_semaphore 4 (Take 5)); Tick] k0 k /\
  exists L A, kinv_at k L A /\ none_due A /\ (exists t, rt_current_thread (sch k) = Some t /\ is_ready A t) /\ is_ready A 3 /\
    forall x c, demo_objs Is_semaphore !! x = Some c -> object_ok k A x c.
Proof.
  destruct semaphore_system as (k0 & Hs & Hcur).
  assert (call_ok (demo_objs Is_semaphore) k0 1 (C_semaphore 4 (Take 5))) as Hok by (split; vm_compute; reflexivity).
  destruct (call_and_tick _ _ k0 _ Hs Hcur ltac:(lia) Hok) as (k & Hsteps). exists k0, k. split; [exact Hsteps|].
  exact (system_invariant _ 3 quiet_user _ k0 k (quiet_timers _ _) Hs Hsteps).
Defined.

(** C3: In every state that a system reaches, every call of the current thread
    with admissible arguments ends without a failed assertion or undefined
    behaviour, up to the point where the thread loses the processor, and so does
    a tick. *)
Theorem system_defined objs idle user ls k0 k : timers_ok objs idle user -> system objs idle k0 -> steps objs idle user ls k0 k ->
  (forall t c, rt_current_thread (sch k) = Some t -> t <> idle -> call_ok objs k t c -> exists k', run_call t c k = Some (tt, k')) /\
  exists fired k', rt_tick_increase user (S (size (timers (clk k)))) k = Some (fired, k').
Proof.
  intros Huser Hs Hsteps. pose proof (steps_system objs idle user Huser ls k0 k Hs Hsteps) as Hs'. split.
  - intros t c. by apply (can_call objs idle).
  - by apply (can_tick objs idle).
Qed.

Lemma system_defined_witness : exists k0 k, steps (demo_objs Is_semaphore) 3 quiet_user [Call 1 (C_semaphore 4 Release); Tick] k0 k /\
  (forall t c, rt_current_thread (sch k) = Some t -> t <> 3 -> call_ok (demo_objs Is_semaphore) k t c -> exists k', run_call t c k = Some (tt, k')) /\
  exists fired k', rt_tick_increase quiet_user (S (size (timers (clk k)))) k = Some (fired, k').
Proof.
  destruct semaphore_system as (k0 & Hs & Hcur).
  assert (call_ok (demo_objs Is_semaphore) k0 1 (C_semaphore 4 Release)) as Hok by (split; [vm_compute; reflexivity|exact I]).
  destruct (call_and_tick _ _ k0 _ Hs Hcur ltac:(lia) Hok) as (k & Hsteps). exists k0, k. split; [exact Hsteps|].
  exact (system_defined _ 3 quiet_user _ k0 k (quiet_timers _ _) Hs Hsteps).
Defined.

(** C5: Mutual exclusion: from a state in which a thread [o] holds a mutex [d]
    times, through any steps of the system in which it does not release it for
    the last time, [o] holds it as often as it took it more than it released it,
    and no other thread takes it.  The timers of the program leave mutexes alone. *)
Theorem mutual_exclusion objs idle user ls k0 k x o d d' : timers_ok objs idle user -> system objs idle k0 -> steps objs idle user ls k0 k ->
  objs !! x = Some Is_mutex -> held_by k0 x o d -> depth_after o x ls d = Some d' ->
  held_by k x o d' /\
  forall t time r k', rt_current_thread (sch k) = Some t -> t <> idle -> t <> o -> time < RT_TICK_MAX / 2 ->
    run_mutex x (Mutex_take time) k = Some (r, k') -> r <> Some RT_EOK.
Proof.
  intros Huser Hs Hsteps Hx Hheld Hdep.
  pose proof (steps_held objs idle user Huser ls k0 k o x d d' Hs Hsteps Hx Hheld Hdep) as Hheld'.
  split; [exact Hheld'|]. intros t time r k' Hcur Ht Hto Htime Hrun.
  eapply (take_fails objs idle k x o d' t time r k'); try done. by eapply steps_system.
Qed.

Lemma mutual_exclusion_witness : exists k0 k, steps {[5 := Is_mutex]} 2 quiet_user [Call 1 (C_mutex 5 (Mutex_take 50)); Tick] k0 k /\
  held_by k 5 3 1 /\
  forall t time r k', rt_current_thread (sch k) = Some t -> t <> 2 -> t <> 3 -> time < RT_TICK_MAX / 2 ->
    run_mutex 5 (Mutex_take time) k = Some (r, k') -> r <> Some RT_EOK.
Proof.
  destruct mutex_system as (k0 & Hs & Hcur & Hheld).
  assert (call_ok {[5 := Is_mutex]} k0 1 (C_mutex 5 (Mutex_take 50))) as Hok.
  { split; [apply lookup_singleton_eq|]. split; [vm_compute; reflexivity|]. intros m Hm Ho.
    destruct Hheld as (m' & Hm' & Ho' & _). rewrite Hm in Hm'. injection Hm' as <-. rewrite Ho in Ho'. discriminate. }
  destruct (call_and_tick _ _ k0 _ Hs Hcur ltac:(lia) Hok) as (k & Hsteps). exists k0, k. split; [exact Hsteps|].
  exact (mutual_exclusion _ 2 quiet_user _ k0 k 5 3 1 1 (quiet_timers _ _) Hs Hsteps (lookup_singleton_eq _ _) Hheld eq_refl).
Defined.
