(* ===== verification/EdpKit.v ===== *)
(** * The EDP protocol (components/net/Protocol/edp/EdpKit.c)

    Packets are built in growing buffers and taken apart with a read position.
    The allocator is a parameter with a state of its own; the contents of new
    memory are whatever it returns.  A C string is the list of its characters.
    my_assert of EdpKit.c has an empty body and is left out. *)

From S2P Require Import Prelude.
From S2P Require MqttCodec.

Open Scope Z_scope.

(** ** Constants (Edpkit.h) *)

Definition BUFFER_SIZE : Z := 128.
Definition PROTOCOL_NAME : list Z := [69; 68; 80].
Definition PROTOCOL_VERSION : Z := 1.

Definition CONNREQ : Z := 0x10.
Definition PUSHDATA : Z := 0x30.
Definition SAVEDATA : Z := 0x80.
Definition CMDRESP : Z := 0xB0.
Definition PINGREQ : Z := 0xC0.
Definition kTypeString : Z := 0x05.

Definition ERR_UNPACK_CONNRESP_REMAIN : Z := -1000.
Definition ERR_UNPACK_CONNRESP_FLAG : Z := -1001.
Definition ERR_UNPACK_CONNRESP_RTN : Z := -1002.
Definition ERR_UNPACK_PUSHD_REMAIN : Z := -1010.
Definition ERR_UNPACK_PUSHD_DEVID : Z := -1011.
Definition ERR_UNPACK_PUSHD_DATA : Z := -1012.
Definition ERR_UNPACK_SAVED_REMAIN : Z := -1020.
Definition ERR_UNPACK_SAVED_TANSFLAG : Z := -1021.
Definition ERR_UNPACK_SAVED_DEVID : Z := -1022.
Definition ERR_UNPACK_SAVED_DATAFLAG : Z := -1023.
Definition ERR_UNPACK_SAVED_JSON : Z := -1024.
Definition ERR_UNPACK_SAVED_BIN_DESC : Z := -1026.
Definition ERR_UNPACK_SAVED_BINLEN : Z := -1028.
Definition ERR_UNPACK_SAVED_BINDATA : Z := -1029.
Definition ERR_UNPACK_PING_REMAIN : Z := -1030.
Definition ERR_UNPACK_CMDREQ : Z := -1031.
Definition ERR_UNPACK_SAVEDATA_ACK : Z := -1033.

Definition MOSQ_MSB (a : Z) : Z := u8 (Z.shiftr (Z.land a 0xFF00) 8).
Definition MOSQ_LSB (a : Z) : Z := u8 (Z.land a 0x00FF).

(** ** Buffers *)

Record Buffer := mk_buffer { _data : list Z; _write_pos : Z; _read_pos : Z; _capacity : Z }.

Definition set_write_pos (b : Buffer) n := mk_buffer (_data b) n (_read_pos b) (_capacity b).
Definition set_read_pos (b : Buffer) n := mk_buffer (_data b) (_write_pos b) n (_capacity b).
Definition set_data (b : Buffer) d := mk_buffer d (_write_pos b) (_read_pos b) (_capacity b).

(** The loop of CheckCapacity, which ends after 33 rounds at the latest. *)
Fixpoint grow (fuel : nat) (write_pos len cap_len flag : Z) : Z * Z :=
  match fuel with
  | O => (cap_len, flag)
  | S fuel =>
      if u32 (cap_len - write_pos) <? len then
        let cap_len := u32 (Z.shiftl cap_len 1) in let flag := flag + 1 in
        if 32 <? flag then (cap_len, flag) else grow fuel write_pos len cap_len flag
      else (cap_len, flag)
  end.

(** The loop of WriteRemainlen, at most five rounds; there is no check of the
    capacity. *)
Fixpoint write_remainlen (n : nat) (remaining_length : Z) (b : Buffer) : option Buffer :=
  match n with
  | O => Some b
  | S n =>
      let byte := remaining_length mod 128 in
      let remaining_length := remaining_length / 128 in
      let byte := if 0 <? remaining_length then Z.lor byte 0x80 else byte in
      d ← set_at (_data b) (_write_pos b) byte;
      let b := set_write_pos (set_data b d) (u32 (_write_pos b + 1)) in
      if 0 <? remaining_length then write_remainlen n remaining_length b else Some b
  end.

(** The loop of IsPkgComplete: the length and the number of its bytes and one, or
    what is returned at once.  [l] is behind [pdigit]. *)
Fixpoint complete_loop (fuel : nat) (l : list Z) (data_len len_len len_val multiplier : Z) : option (Z + Z * Z) :=
  match fuel with
  | O => None
  | S fuel =>
      if 4 <? len_len then Some (inl (-1)) else
      if data_len - 1 <? len_len then Some (inl 0) else
      match l with
      | [] => None
      | digit :: l =>
          let len_len := len_len + 1 in
          let len_val := u32 (len_val + Z.land digit 0x7f * multiplier) in
          if negb (Z.land digit 0x80 =? 0) then complete_loop fuel l data_len len_len len_val (u32 (multiplier * 0x80))
          else Some (inr (len_len, len_val))
      end
  end.

Definition IsPkgComplete (buf : Buffer) : option Z :=
  let data_len := _write_pos buf in
  if data_len <=? 1 then Some 0 else
  match _data buf with
  | [] => None
  | _ :: l =>
      r ← complete_loop 5 l data_len 1 0 1;
      match r with
      | inl rc => Some rc
      | inr (len_len, len_val) =>
          let pkg_total_len := u32 (len_len + len_val) in
          Some (if pkg_total_len <=? data_len then s32 pkg_total_len else 0)
      end
  end.

(** strncpy: the characters up to a NUL, and zeros behind them. *)
Fixpoint strncpy (l : list Z) : list Z :=
  match l with
  | [] => []
  | c :: l => if c =? 0 then replicate (S (length l)) 0 else c :: strncpy l
  end.

(** The characters of a C string in an array. *)
Fixpoint cstring (l : list Z) : list Z :=
  match l with
  | [] => []
  | c :: l => if c =? 0 then [] else c :: cstring l
  end.

Section edp.
Context {S : Type} (malloc : Z -> M S (option (list Z))) (free : list Z -> M S unit).

(** What works on one buffer. *)
Notation W := (M (S * Buffer)).

Definition lift {A} (m : M S A) : W A := fun '(s, b) => match m s with Some (a, s) => Some (a, (s, b)) | None => None end.
Definition buf : W Buffer := fun '(s, b) => Some (b, (s, b)).
Definition set_buf (b : Buffer) : W unit := fun '(s, _) => Some (tt, (s, b)).

(** The operations [w] on the buffer of a packet; a null pointer is undefined. *)
Definition on {A} (pkg : option Buffer) (w : W A) : M S (A * Buffer) := fun s =>
  match pkg with
  | None => None
  | Some b => match w (s, b) with Some (a, (s, b)) => Some ((a, b), s) | None => None end
  end.

(** Without memory for the structure, the message that is printed has no
    argument for its format. *)
Definition NewBuffer : M S (option Buffer) :=
  buf ← malloc 16;
  match buf with
  | None => ub
  | Some m =>
      data ← malloc BUFFER_SIZE;
      match data with
      | None => free m ;; mret None
      | Some data => mret (Some (mk_buffer data 0 0 BUFFER_SIZE))
      end
  end.

(** [m] is the memory of the structure. *)
Definition DeleteBuffer (m : list Z) (b : Buffer) : M S unit := free (_data b) ;; free m.

Definition CheckCapacity (len : Z) : W Z :=
  b ← buf;
  let '(cap_len, flag) := grow 34 (_write_pos b) len (_capacity b) 0 in
  if 32 <? flag then mret (-1) else
  if _capacity b <? cap_len then
    pdata ← lift (malloc cap_len); pdata ← of_opt pdata;
    old ← of_opt (read_at (_data b) 0 (_write_pos b)); pdata ← of_opt (write_at pdata 0 old);
    lift (free (_data b)) ;;
    set_buf (mk_buffer pdata (_write_pos b) (_read_pos b) cap_len) ;; mret 0
  else mret 0.

(** ** Reading

    [None] is the result -1, which leaves the output as it was. *)

Definition ReadByte : W (option Z) :=
  b ← buf;
  if _write_pos b <? u32 (_read_pos b + 1) then mret None else
  v ← of_opt (get_at (_data b) (_read_pos b));
  set_buf (set_read_pos b (u32 (_read_pos b + 1))) ;; mret (Some v).

Definition ReadBytes (count : Z) : W (option (list Z)) :=
  b ← buf;
  if _write_pos b <? u32 (_read_pos b + count) then mret None else
  v ← lift (malloc (u32 (count + 1))); v ← of_opt v;
  v ← of_opt (write_at v 0 (replicate (Z.to_nat (u32 (count + 1))) 0));
  d ← of_opt (read_at (_data b) (_read_pos b) count); v ← of_opt (write_at v 0 d);
  set_buf (set_read_pos b (u32 (_read_pos b + count))) ;; mret (Some v).

Definition ReadUint16 : W (option Z) :=
  b ← buf;
  if _write_pos b <? u32 (_read_pos b + 2) then mret None else
  msb ← of_opt (get_at (_data b) (_read_pos b)); let b := set_read_pos b (u32 (_read_pos b + 1)) in
  lsb ← of_opt (get_at (_data b) (_read_pos b)); let b := set_read_pos b (u32 (_read_pos b + 1)) in
  set_buf b ;; mret (Some (u16 (Z.shiftl msb 8 + lsb))).

Fixpoint read_uint32 (n : nat) (tmpval : Z) (b : Buffer) : option (Z * Buffer) :=
  match n with
  | O => Some (tmpval, b)
  | Datatypes.S n =>
      v ← get_at (_data b) (_read_pos b);
      read_uint32 n (Z.lor (u32 (Z.shiftl tmpval 8)) v) (set_read_pos b (u32 (_read_pos b + 1)))
  end.

Definition ReadUint32 : W (option Z) :=
  b ← buf;
  if _write_pos b <? u32 (_read_pos b + 4) then mret None else
  r ← of_opt (read_uint32 4 0 b); set_buf r.2 ;; mret (Some r.1).

Definition ReadStr : W (option (list Z)) :=
  len ← ReadUint16;
  match len with
  | None => mret None
  | Some len =>
      b ← buf;
      if _write_pos b <? u32 (_read_pos b + len) then mret None else
      v ← lift (malloc (u32 (len + 1))); v ← of_opt v;
      v ← of_opt (write_at v 0 (replicate (Z.to_nat (len + 1)) 0));
      d ← of_opt (read_at (_data b) (_read_pos b) len); v ← of_opt (write_at v 0 (strncpy d));
      set_buf (set_read_pos b (u32 (_read_pos b + len))) ;; mret (Some v)
  end.

(** At most five bytes are read. *)
Fixpoint read_remainlen (fuel : nat) (len_val multiplier len_len : Z) : W (option Z) :=
  match fuel with
  | O => ub
  | Datatypes.S fuel =>
      onebyte ← ReadByte;
      match onebyte with
      | None => mret None
      | Some onebyte =>
          let len_val := u32 (len_val + Z.land onebyte 0x7f * multiplier) in
          let multiplier := u32 (multiplier * 0x80) in
          let len_len := len_len + 1 in
          if 4 <? len_len then mret None else
          if negb (Z.land onebyte 0x80 =? 0) then read_remainlen fuel len_val multiplier len_len else mret (Some len_val)
      end
  end.

Definition ReadRemainlen : W (option Z) := read_remainlen 5 0 1 0.

(** ** Writing *)

Definition WriteByte (byte : Z) : W Z :=
  r ← CheckCapacity 1;
  if negb (r =? 0) then mret (-1) else
  b ← buf; d ← of_opt (set_at (_data b) (_write_pos b) (u8 byte));
  set_buf (set_write_pos (set_data b d) (u32 (_write_pos b + 1))) ;; mret 0.

Definition WriteBytes (bytes : list Z) (count : Z) : W Z :=
  r ← CheckCapacity count;
  if negb (r =? 0) then mret (-1) else
  b ← buf; l ← of_opt (read_at bytes 0 count); d ← of_opt (write_at (_data b) (_write_pos b) l);
  set_buf (set_write_pos (set_data b d) (u32 (_write_pos b + count))) ;; mret 0.

(** C's disjunction of two calls. *)
Definition orElse (a b : W Z) : W Z :=
  r ← a; if negb (r =? 0) then mret 1 else r ← b; mret (if negb (r =? 0) then 1 else 0).

Definition WriteUint16 (val : Z) : W Z := orElse (WriteByte (MOSQ_MSB val)) (WriteByte (MOSQ_LSB val)).

Definition WriteUint32 (val : Z) : W Z :=
  orElse (orElse (orElse (WriteByte (Z.land (Z.shiftr val 24) 0xFF)) (WriteByte (Z.land (Z.shiftr val 16) 0xFF)))
    (WriteByte (Z.land (Z.shiftr val 8) 0xFF))) (WriteByte (Z.land val 0xFF)).

Definition WriteStr (str : list Z) : W Z :=
  let length := u16 (Zlen str) in orElse (WriteUint16 length) (WriteBytes str length).

Definition WriteRemainlen (len_val : Z) : W Z := b ← buf; b ← of_opt (write_remainlen 5 len_val b); set_buf b ;; mret 0.

(** ** Packets

    The results of the writes are ignored; without memory for its buffer a packet
    is written to a null pointer, except by PacketConnect1. *)

Definition packet (w : W unit) : M S (option Buffer) := pkg ← NewBuffer; r ← on pkg w; mret (Some r.2).

Definition PacketConnect1 (devid auth_key : list Z) : M S (option Buffer) :=
  pkg ← NewBuffer;
  match pkg with
  | None => mret None
  | Some _ =>
      r ← on pkg (WriteByte CONNREQ ;;
        WriteRemainlen (u32 ((2 + 3) + 1 + 1 + 2 + (2 + Zlen devid) + (2 + Zlen auth_key))) ;;
        WriteStr PROTOCOL_NAME ;; WriteByte PROTOCOL_VERSION ;; WriteByte 0x40 ;; WriteUint16 0x0080 ;;
        WriteStr devid ;; WriteStr auth_key ;; mret tt);
      mret (Some r.2)
  end.

Definition PacketConnect2 (userid auth_info : list Z) : M S (option Buffer) :=
  packet (WriteByte CONNREQ ;;
    WriteRemainlen (u32 ((2 + 3) + 1 + 1 + 2 + 2 + (2 + Zlen userid) + (2 + Zlen auth_info))) ;;
    WriteStr PROTOCOL_NAME ;; WriteByte PROTOCOL_VERSION ;; WriteByte 0xC0 ;; WriteUint16 0x0080 ;;
    WriteByte 0x00 ;; WriteByte 0x00 ;; WriteStr userid ;; WriteStr auth_info ;; mret tt).

Definition PacketPushdata (dst_devid data : list Z) (data_len : Z) : M S (option Buffer) :=
  packet (WriteByte PUSHDATA ;; WriteRemainlen (u32 ((2 + Zlen dst_devid) + data_len)) ;;
    WriteStr dst_devid ;; WriteBytes data data_len ;; mret tt).

(** The translated address: its flag, and the device if there is one. *)
Definition WriteAddress (dst_devid : option (list Z)) (rest : Z) : W Z :=
  match dst_devid with
  | Some dst_devid => WriteRemainlen (u32 (1 + (2 + Zlen dst_devid) + 1 + rest)) ;; WriteByte 0x80 ;; WriteStr dst_devid
  | None => WriteRemainlen (u32 (1 + 1 + rest)) ;; WriteByte 0x00
  end.

Definition PacketSavedataBinStr (dst_devid : option (list Z)) (desc_str bin_data : list Z) (bin_len : Z) : M S (option Buffer) :=
  let desc_len := Zlen desc_str in
  if (Z.shiftl 1 16 <? desc_len) || (3 * Z.shiftl 1 20 <? bin_len) then mret None else
  packet (WriteByte SAVEDATA ;; WriteAddress dst_devid ((2 + desc_len) + (4 + bin_len)) ;;
    WriteByte 0x02 ;; WriteStr desc_str ;; WriteUint32 bin_len ;; WriteBytes bin_data bin_len ;; mret tt).

Definition PacketSavedataSimpleString (dst_devid : option (list Z)) (input : list Z) : M S (option Buffer) :=
  packet (WriteByte SAVEDATA ;; WriteAddress dst_devid (2 + Zlen input) ;; WriteByte kTypeString ;; WriteStr input ;; mret tt).

Definition PacketCmdResp (cmdid : list Z) (cmdid_len : Z) (resp : list Z) (resp_len : Z) : M S (option Buffer) :=
  packet (WriteByte CMDRESP ;; WriteRemainlen (u32 (cmdid_len + resp_len + (if negb (resp_len =? 0) then 6 else 2))) ;;
    WriteUint16 cmdid_len ;; WriteBytes cmdid cmdid_len ;;
    (if negb (resp_len =? 0) then WriteUint32 resp_len ;; WriteBytes resp resp_len else mret 0) ;; mret tt).

Definition PacketPing : M S (option Buffer) := packet (WriteByte PINGREQ ;; WriteRemainlen 0 ;; mret tt).

(** The first packet of the receive buffer, which moves up. *)
Definition GetEdpPacket (buf : Buffer) : M S (option Buffer * Buffer) :=
  flag ← of_opt (IsPkgComplete buf);
  if flag <=? 0 then mret (None, buf) else
  pkg ← NewBuffer;
  r ← on pkg (WriteBytes (_data buf) flag);
  l ← of_opt (read_at (_data buf) flag (_write_pos buf - flag)); d ← of_opt (write_at (_data buf) 0 l);
  mret (Some r.2, set_write_pos (set_data buf d) (u32 (_write_pos buf - flag))).

(** ** Taking packets apart *)

Definition EdpPacketType : W Z := v ← ReadByte; mret (default 0 v).

(** A read, or the error code [e]. *)
Definition or_error {A B} (e : Z) (r : W (option A)) (f : A -> W (Z + B)) : W (Z + B) :=
  v ← r; match v with None => mret (inl e) | Some v => f v end.

Definition UnpackConnectResp : W Z :=
  r ← or_error ERR_UNPACK_CONNRESP_REMAIN ReadRemainlen (fun _ =>
    or_error ERR_UNPACK_CONNRESP_FLAG ReadByte (fun _ =>
    or_error ERR_UNPACK_CONNRESP_RTN ReadByte (fun rtn => mret (inr rtn))));
  mret (match r with inl e => e | inr rtn => rtn end).

(** The source device and the data, as arrays with a NUL behind them. *)
Definition UnpackPushdata : W (Z + list Z * list Z * Z) :=
  or_error ERR_UNPACK_PUSHD_REMAIN ReadRemainlen (fun remainlen =>
  or_error ERR_UNPACK_PUSHD_DEVID ReadStr (fun src_devid =>
  let remainlen := u32 (remainlen - (2 + Zlen (cstring src_devid))) in
  or_error ERR_UNPACK_PUSHD_DATA (ReadBytes remainlen) (fun data => mret (inr (src_devid, data, remainlen))))).

Definition UnpackSavedata : W (Z + option (list Z) * Z) :=
  or_error ERR_UNPACK_SAVED_REMAIN ReadRemainlen (fun _ =>
  or_error ERR_UNPACK_SAVED_TANSFLAG ReadByte (fun ta_flag =>
  let jb src_devid := or_error ERR_UNPACK_SAVED_DATAFLAG ReadByte (fun jb_flag => mret (inr (src_devid, jb_flag))) in
  if ta_flag =? 0x80 then or_error ERR_UNPACK_SAVED_DEVID ReadStr (fun src_devid => jb (Some src_devid)) else jb None)).

Definition UnpackSavedataBinStr : W (Z + list Z * list Z * Z) :=
  or_error ERR_UNPACK_SAVED_BIN_DESC ReadStr (fun desc_str =>
  or_error ERR_UNPACK_SAVED_BINLEN ReadUint32 (fun bin_len =>
  or_error ERR_UNPACK_SAVED_BINDATA (ReadBytes bin_len) (fun bin_data => mret (inr (desc_str, bin_data, bin_len))))).

Definition UnpackSavedataSimpleString : W (Z + list Z) := or_error ERR_UNPACK_SAVED_JSON ReadStr (fun output => mret (inr output)).

Definition UnpackSavedataAck : W (Z + list Z) :=
  or_error ERR_UNPACK_SAVEDATA_ACK ReadRemainlen (fun _ => or_error ERR_UNPACK_SAVEDATA_ACK ReadByte (fun _ =>
  or_error ERR_UNPACK_SAVEDATA_ACK ReadUint16 (fun json_len =>
  or_error ERR_UNPACK_SAVEDATA_ACK (ReadBytes json_len) (fun json_ack => mret (inr json_ack))))).

Definition UnpackCmdReq : W (Z + list Z * Z * list Z * Z) :=
  or_error ERR_UNPACK_CMDREQ ReadRemainlen (fun _ => or_error (-1) ReadUint16 (fun cmdid_len =>
  or_error ERR_UNPACK_CMDREQ (ReadBytes cmdid_len) (fun cmdid => or_error (-1) ReadUint32 (fun req_len =>
  or_error ERR_UNPACK_CMDREQ (ReadBytes req_len) (fun req => mret (inr (cmdid, cmdid_len, req, req_len))))))).

Definition UnpackPingResp : W Z :=
  r ← or_error ERR_UNPACK_PING_REMAIN ReadRemainlen (fun _ => mret (inr tt)); mret (match r with inl e => e | inr _ => 0 end).
End edp.

(** An allocator that never fails and gives memory of zeros. *)
Definition calloc (n : Z) : M unit (option (list Z)) := mret (Some (replicate (Z.to_nat n) 0)).
Definition free_nothing (l : list Z) : M unit unit := mret tt.
