(* ===== verification/EdpPacket.v ===== *)
(** * EDP packets: their bytes, their framing and their round trips

    A packet is a type, the length of its body and the body.  [holds b bs r] says
    that a buffer has the bytes [bs], [r] of them read; the writing functions
    append ([appends]), the reading functions take from the front ([reads]).  The
    theorems hold for every allocator that does not fail. *)

From S2P Require Import Prelude EdpKit.
From S2P Require MqttCodec.

Open Scope Z_scope.

(** ** Encodings *)

Definition be32 (v : Z) : list Z := [u8 (Z.shiftr v 24); u8 (Z.shiftr v 16); u8 (Z.shiftr v 8); u8 v].
Definition str_bytes (l : list Z) : list Z := be16 (Zlen l) ++ l.

(** The type, the length of the rest (seven bits per byte) and the rest. *)
Definition frame (type : Z) (body : list Z) : list Z := type :: MqttCodec.enc_length 4 (Zlen body) ++ body.

Definition is_byte (b : Z) : Prop := 0 <= b < 256.

Lemma enc_length_stable n len : 0 <= len < 128 ^ Z.of_nat (S n) ->
  MqttCodec.enc_length (S (S n)) len = MqttCodec.enc_length (S n) len.
Proof.
  revert len. induction n as [|n IH]; intros len Hlen.
  - cbn. destruct (Z.ltb_spec 0 (len / 128)) as [Hlt|]; [|done]. rewrite Z.div_small in Hlt by lia. lia.
  - cbn [MqttCodec.enc_length]. destruct (0 <? len / 128) eqn:Hpos; [|done]. f_equal. apply IH.
    split; [apply Z.div_pos; lia|]. apply Z.div_lt_upper_bound; [lia|].
    rewrite Nat2Z.inj_succ, Z.pow_succ_r in Hlen by lia. lia.
Qed.

(** ** Buffers that hold bytes *)

(** [bs] are the bytes written, [r] of them are read; the rest of the memory
    does not matter.  The capacity is a power of two. *)
Definition holds (b : Buffer) (bs : list Z) (r : Z) : Prop :=
  _write_pos b = Zlen bs /\ _read_pos b = r /\ _capacity b = Zlen (_data b) /\
  (exists junk, _data b = bs ++ junk) /\ exists j, 7 <= j <= 31 /\ _capacity b = 2 ^ j.

Lemma holds_bound b bs r : holds b bs r -> Zlen bs <= _capacity b <= 2 ^ 31 /\ 128 <= _capacity b.
Proof.
  intros (_ & _ & Hc & (junk & Hd) & j & Hj & Hcj). rewrite Hd, Zlen_app in Hc. pose proof (Zlen_nonneg junk).
  split; [split; [lia|]|]; rewrite Hcj; [apply Z.pow_le_mono_r; lia|]. change 128 with (2 ^ 7). apply Z.pow_le_mono_r; lia.
Qed.

Lemma grow_enough fuel wpos len j flag : 7 <= j <= 31 -> 0 <= wpos <= 2 ^ j -> 0 <= len -> wpos + len <= 2 ^ 31 ->
  flag + (31 - j) <= 32 -> (31 - j < Z.of_nat fuel) ->
  exists j', j <= j' <= 31 /\ wpos + len <= 2 ^ j' /\ grow fuel wpos len (2 ^ j) flag = (2 ^ j', flag + (j' - j)).
Proof.
  revert j flag. induction fuel as [|fuel IH]; intros j flag Hj Hw Hl Hsum Hflag Hfuel; [lia|]. cbn [grow].
  assert (2 ^ j <= 2 ^ 31) by (apply Z.pow_le_mono_r; lia). rewrite u32_small by lia.
  destruct (Z.ltb_spec (2 ^ j - wpos) len) as [Hlt|Hge].
  - assert (j < 31) as Hj31 by (destruct (decide (j = 31)) as [->|]; lia).
    rewrite Z.shiftl_mul_pow2 by lia. replace (2 ^ j * 2 ^ 1) with (2 ^ (j + 1)) by (rewrite Z.pow_add_r by lia; done).
    assert (2 ^ (j + 1) <= 2 ^ 31) by (apply Z.pow_le_mono_r; lia). rewrite u32_small by lia.
    rewrite (proj2 (Z.ltb_ge _ _)) by lia. assert (2 ^ j <= 2 ^ (j + 1)) by (apply Z.pow_le_mono_r; lia).
    destruct (IH (j + 1) (flag + 1)) as (j' & Hj' & Hle & ->); [lia..|]. exists j'. split; [lia|]. split; [done|]. f_equal. lia.
  - exists j. split; [lia|]. split; [lia|]. f_equal. lia.
Qed.

Section edp.
Context {S : Type} (malloc : Z -> M S (option (list Z))) (free : list Z -> M S unit).

(** There is memory. *)
Context (Hmalloc : forall n s, 0 <= n -> exists l s', malloc n s = Some (Some l, s') /\ Zlen l = n).
Context (Hfree : forall l s, exists s', free l s = Some (tt, s')).
Implicit Types (s : S) (b : Buffer) (bs l : list Z) (r : Z).

Lemma wp_lifted {A} (m : M S A) a s s' b Q : m s = Some (a, s') -> Q a (s', b) -> wp (lift m) (s, b) Q.
Proof. intros Hm HQ. eapply wp_run; [|exact HQ]. unfold lift. by rewrite Hm. Qed.

Lemma wp_buf s b Q : Q b (s, b) -> wp buf (s, b) Q.
Proof. done. Qed.

Lemma wp_set_buf s b b' Q : Q tt (s, b') -> wp (set_buf b') (s, b) Q.
Proof. done. Qed.

Lemma wp_CheckCapacity s b bs r len Q : holds b bs r -> 0 <= len -> Zlen bs + len <= 2 ^ 31 ->
  (forall s' b', holds b' bs r -> Zlen bs + len <= _capacity b' -> _capacity b <= _capacity b' -> Q 0 (s', b')) ->
  wp (CheckCapacity malloc free len) (s, b) Q.
Proof using Hmalloc Hfree.
  intros Hh Hl Hsum HQ. pose proof (holds_bound _ _ _ Hh) as [Hb1 Hb2]. pose proof Hh as (Hw & Hr & Hc & (junk & Hd) & j & Hj & Hcj).
  unfold CheckCapacity. wp_bind. apply wp_buf. rewrite Hw, Hcj. pose proof (Zlen_nonneg bs).
  destruct (grow_enough 34 (Zlen bs) len j 0) as (j' & Hj' & Hle & ->); [lia..|].
  rewrite (proj2 (Z.ltb_ge _ _)) by lia. destruct (Z.ltb_spec (2 ^ j) (2 ^ j')) as [Hlt|Hge].
  - destruct (Hmalloc (2 ^ j') s) as (l & s' & Hm & Hll); [lia|]. wp_bind. eapply wp_lifted; [exact Hm|].
    wp_bind. eapply wp_of_opt; [done|]. wp_bind. eapply wp_of_opt; [rewrite Hd; by apply read_at_0|].
    destruct (Hfree (_data b) s') as (s'' & Hf).
    assert (write_at l 0 bs = Some (bs ++ drop (length bs) l)) as Hw0.
    { rewrite <-(take_drop (length bs) l) at 1. apply write_at_0. unfold Zlen in *. rewrite length_take. lia. }
    wp_bind. eapply wp_of_opt; [exact Hw0|].
    wp_bind. eapply wp_lifted; [exact Hf|]. wp_bind. apply wp_set_buf. wp_ret. apply HQ; cbn; [|done|lia].
    split; [done|]. split; [done|]. split_and!; [|by eexists|exists j'; split; [lia|done]].
    cbn. rewrite Zlen_app. unfold Zlen in *. rewrite length_drop. lia.
  - assert (2 ^ j <= 2 ^ j') by (apply Z.pow_le_mono_r; lia). wp_ret. apply HQ; [done|lia|lia].
Qed.

(** Writing behind the bytes. *)
Lemma holds_write b bs r l d : holds b bs r -> Zlen bs + Zlen l <= _capacity b -> write_at (_data b) (Zlen bs) l = Some d ->
  holds (set_write_pos (set_data b d) (u32 (Zlen bs + Zlen l))) (bs ++ l) r.
Proof.
  intros Hh Hle Hd'. pose proof (holds_bound _ _ _ Hh) as [? _]. destruct Hh as (Hw & Hr & Hc & (junk & Hd) & j & Hj & Hcj).
  pose proof (Zlen_nonneg bs). pose proof (Zlen_nonneg l).
  rewrite Hd, <-(take_drop (length l) junk), write_at_mid in Hd'; [|done|].
  2: { rewrite Hc, Hd, Zlen_app in Hle. unfold Zlen in *. rewrite length_take. lia. }
  injection Hd' as <-. split_and!; cbn.
  - rewrite Zlen_app, u32_small; lia.
  - done.
  - rewrite Hc, Hd, !Zlen_app. rewrite Hc, Hd, Zlen_app in Hle. unfold Zlen in *. rewrite length_drop. lia.
  - exists (drop (length l) junk). by rewrite (assoc_L (++)).
  - by exists j.
Qed.

Lemma can_write b bs r l : holds b bs r -> Zlen bs + Zlen l <= _capacity b -> exists d, write_at (_data b) (Zlen bs) l = Some d.
Proof.
  intros (_ & _ & Hc & _) Hle. unfold write_at. pose proof (Zlen_nonneg bs).
  rewrite (proj2 (Z.leb_le 0 _)), (proj2 (Z.leb_le _ _)) by lia. by eexists.
Qed.

(** What a write does when there is room for it: it appends [l]. *)
Definition appends (w : M (S * Buffer) Z) (l : list Z) : Prop := forall s b bs r Q, holds b bs r -> Zlen bs + Zlen l <= 2 ^ 31 ->
  (forall s' b', holds b' (bs ++ l) r -> _capacity b <= _capacity b' -> Q 0 (s', b')) -> wp w (s, b) Q.

Lemma appends_byte v : is_byte v -> appends (WriteByte malloc free v) [v].
Proof using Hmalloc Hfree.
  intros Hv s b bs r Q Hh Hsum HQ. change (Zlen [v]) with 1 in Hsum. unfold WriteByte. wp_bind.
  eapply wp_CheckCapacity; [exact Hh|lia|lia|]. intros s1 b1 Hh1 Hcap1 Hmono. change (negb (0 =? 0)) with false. cbn iota.
  rewrite (u8_small v) by done. destruct (can_write b1 bs r [v] Hh1) as (d & Hd); [done|].
  wp_bind. apply wp_buf. pose proof Hh1 as (Hw & _). wp_bind. eapply wp_of_opt; [unfold set_at; rewrite Hw; exact Hd|].
  wp_bind. apply wp_set_buf. wp_ret. rewrite Hw. apply HQ; [by apply (holds_write b1 bs r [v])|done].
Qed.

Lemma appends_bytes l rest n : n = Zlen l -> appends (WriteBytes malloc free (l ++ rest) n) l.
Proof using Hmalloc Hfree.
  intros -> s b bs r Q Hh Hsum HQ. pose proof (Zlen_nonneg l). unfold WriteBytes. wp_bind.
  eapply wp_CheckCapacity; [exact Hh|lia|lia|]. intros s1 b1 Hh1 Hcap1 Hmono. change (negb (0 =? 0)) with false. cbn iota.
  destruct (can_write b1 bs r l Hh1) as (d & Hd); [done|].
  wp_bind. apply wp_buf. pose proof Hh1 as (Hw & _). wp_bind. eapply wp_of_opt; [by apply read_at_0|].
  wp_bind. eapply wp_of_opt; [rewrite Hw; exact Hd|].
  wp_bind. apply wp_set_buf. wp_ret. rewrite Hw. apply HQ; [by apply (holds_write b1 bs r l)|done].
Qed.

Lemma appends_orElse w1 w2 l1 l2 : appends w1 l1 -> appends w2 l2 -> appends (orElse w1 w2) (l1 ++ l2).
Proof.
  intros H1 H2 s b bs r Q Hh Hsum HQ. rewrite Zlen_app in Hsum. pose proof (Zlen_nonneg l2). unfold orElse. wp_bind.
  eapply H1; [exact Hh|lia|]. intros s1 b1 Hh1 Hc1. change (negb (0 =? 0)) with false. cbn iota.
  wp_bind. eapply H2; [exact Hh1|rewrite Zlen_app; lia|]. intros s2 b2 Hh2 Hc2. wp_ret.
  apply HQ; [by rewrite (assoc_L (++))|lia].
Qed.

Lemma land_ff v : Z.land v 0xFF = u8 v.
Proof. change 0xFF with (Z.ones 8). by rewrite Z.land_ones. Qed.

Lemma u8_u8 v : u8 (u8 v) = u8 v.
Proof. apply u8_small, u8_range. Qed.

Lemma MOSQ_bytes v : [MOSQ_MSB v; MOSQ_LSB v] = be16 v.
Proof.
  unfold be16, MOSQ_MSB, MOSQ_LSB. rewrite Z.shiftr_land. change (Z.shiftr 0xFF00 8) with 0xFF. change 0x00FF with 0xFF.
  by rewrite !land_ff, !u8_u8.
Qed.

Lemma appends_uint16 v : appends (WriteUint16 malloc free v) (be16 v).
Proof using Hmalloc Hfree.
  rewrite <-(MOSQ_bytes v). apply (appends_orElse _ _ [MOSQ_MSB v] [MOSQ_LSB v]); apply appends_byte, u8_range.
Qed.

Lemma appends_uint32 v : appends (WriteUint32 malloc free v) (be32 v).
Proof using Hmalloc Hfree.
  unfold WriteUint32, be32. rewrite !land_ff. apply (appends_orElse _ _ [_; _; _] [_]); [|apply appends_byte, u8_range].
  apply (appends_orElse _ _ [_; _] [_]); [|apply appends_byte, u8_range].
  apply (appends_orElse _ _ [_] [_]); apply appends_byte, u8_range.
Qed.

Lemma appends_str l : Zlen l < 65536 -> appends (WriteStr malloc free l) (str_bytes l).
Proof using Hmalloc Hfree.
  intros Hl. pose proof (Zlen_nonneg l). unfold WriteStr, str_bytes. rewrite u16_small by lia. apply appends_orElse; [apply appends_uint16|].
  rewrite <-(app_nil_r l) at 1. by apply appends_bytes.
Qed.

(** The remaining length, which needs room for its bytes. *)
Lemma write_remainlen_holds n len b bs r : holds b bs r -> (0 < n)%nat -> 0 <= len < 128 ^ Z.of_nat n ->
  Zlen bs + Z.of_nat n <= _capacity b -> exists b', write_remainlen n len b = Some b' /\
    holds b' (bs ++ MqttCodec.enc_length n len) r /\ _capacity b' = _capacity b.
Proof.
  revert len b bs. induction n as [|n IH]; intros len b bs Hh Hn Hlen Hroom; [lia|]. cbn [write_remainlen MqttCodec.enc_length].
  pose proof Hh as (Hw & _ & Hc & _). rewrite Hw. pose proof (Z.mod_pos_bound len 128 ltac:(lia)).
  assert (exists v, (if 0 <? len / 128 then Z.lor (len mod 128) 128 else len mod 128) = v /\
    v = (if 0 <? len / 128 then len mod 128 + 128 else len mod 128)) as (v & -> & Hv).
  { eexists. split; [reflexivity|]. destruct (0 <? len / 128); [by apply lor_80|done]. }
  destruct (can_write b bs r [v] Hh) as (d & Hd); [unfold Zlen at 2; cbn; lia|]. unfold set_at. rewrite Hd. cbn [mbind option_bind].
  pose proof (holds_write b bs r [v] d Hh ltac:(unfold Zlen at 2; cbn; lia) Hd) as Hh1. change (Zlen [v]) with 1 in Hh1.
  set (b1 := set_write_pos _ _) in *. destruct (0 <? len / 128) eqn:Hpos.
  - destruct n as [|n].
    { exfalso. apply Z.ltb_lt in Hpos. rewrite Z.div_small in Hpos by lia. lia. }
    destruct (IH (len / 128) b1 (bs ++ [v])) as (b' & -> & Hh' & Hc'); [done|lia| |rewrite Zlen_app; change (Zlen [v]) with 1; cbn [b1 _capacity set_write_pos set_data]; lia|].
    { split; [apply Z.div_pos; lia|]. apply Z.div_lt_upper_bound; [lia|]. rewrite Nat2Z.inj_succ, Z.pow_succ_r in Hlen by lia. lia. }
    exists b'. split; [done|]. split; [|by rewrite Hc']. rewrite <-(assoc_L (++)) in Hh'. by rewrite <-Hv.
  - exists b1. split; [done|]. split; [|done]. by rewrite <-Hv.
Qed.

Lemma appends_remainlen len s b bs r Q : holds b bs r -> 0 <= len < 128 ^ 4 -> Zlen bs <= 120 ->
  (forall b', holds b' (bs ++ MqttCodec.enc_length 4 len) r -> Q 0 (s, b')) -> wp (WriteRemainlen len) (s, b) Q.
Proof.
  intros Hh Hlen Hbs HQ. pose proof (holds_bound _ _ _ Hh) as [_ Hb]. unfold WriteRemainlen. wp_bind. apply wp_buf.
  destruct (write_remainlen_holds 5 len b bs r Hh) as (b' & Hw & Hh' & _); [lia|split; [lia|apply (Z.lt_trans _ (128 ^ 4)); [lia|done]]|lia|].
  wp_bind. eapply wp_of_opt; [exact Hw|]. wp_bind. apply wp_set_buf. wp_ret. apply HQ.
  rewrite <-(enc_length_stable 3 len Hlen). exact Hh'.
Qed.

Lemma wp_NewBuffer s Q : (forall s' b, holds b [] 0 -> Q (Some b) s') -> wp (NewBuffer malloc free) s Q.
Proof using Hmalloc.
  intros HQ. unfold NewBuffer. destruct (Hmalloc 16 s) as (l1 & s1 & H1 & _); [lia|]. destruct (Hmalloc BUFFER_SIZE s1) as (l2 & s2 & H2 & Hl2); [done|].
  wp_bind. eapply wp_run; [exact H1|]. cbn beta iota. wp_bind. eapply wp_run; [exact H2|]. cbn beta iota. wp_ret. apply HQ.
  split_and!; [done|done|exact (eq_sym Hl2)|by exists l2|]. exists 7. split; [lia|done].
Qed.

Lemma wp_on {A} s b (w : M (S * Buffer) A) Q : wp w (s, b) (fun a sb => Q (a, sb.2) sb.1) -> wp (on (Some b) w) s Q.
Proof. unfold on, wp. by destruct (w (s, b)) as [[a [s' b']]|]. Qed.

Lemma wp_packet s w Q : (forall s' b, holds b [] 0 -> wp w (s', b) (fun _ sb => Q (Some sb.2) sb.1)) -> wp (packet malloc free w) s Q.
Proof using Hmalloc.
  intros HQ. unfold packet. wp_bind. apply wp_NewBuffer. intros s1 b1 Hh1. wp_bind. apply wp_on. eapply wp_mono; [by apply HQ|].
  cbv beta. intros u sb H. by wp_ret.
Qed.

(** ** The bytes of the packets *)

Lemma wp_then {A} (w : M (S * Buffer) Z) (rest : M (S * Buffer) A) l s b bs r Q : appends w l -> holds b bs r -> Zlen bs + Zlen l <= 2 ^ 31 ->
  (forall s' b', holds b' (bs ++ l) r -> wp rest (s', b') Q) -> wp (w ;; rest) (s, b) Q.
Proof. intros Hw Hh Hsum Hrest. wp_bind. eapply Hw; [done|done|]. intros s' b' Hh' _. by apply Hrest. Qed.

(** The type and the length of a body. *)
Lemma wp_header {A} type len (rest : M (S * Buffer) A) s b Q : is_byte type -> 0 <= len < 128 ^ 4 -> holds b [] 0 ->
  (forall s' b', holds b' (type :: MqttCodec.enc_length 4 len) 0 -> wp rest (s', b') Q) ->
  wp (WriteByte malloc free type ;; WriteRemainlen len ;; rest) (s, b) Q.
Proof using Hmalloc Hfree.
  intros Ht Hlen Hh Hrest. eapply wp_then; [by apply appends_byte|exact Hh|by vm_compute|]. intros s1 b1 Hh1.
  wp_bind. eapply appends_remainlen; [exact Hh1|done|by vm_compute|]. intros b2 Hh2. by apply Hrest.
Qed.

Lemma frame_length type body : Zlen body < 128 ^ 4 -> Zlen (frame type body) <= 5 + Zlen body /\ 2 + Zlen body <= Zlen (frame type body).
Proof.
  intros Hb. pose proof (Zlen_nonneg body). pose proof (MqttCodec.enc_length_bounds (Zlen body) ltac:(lia)).
  unfold frame. rewrite Zlen_cons, Zlen_app. lia.
Qed.

Lemma frame_app type l1 l2 : type :: MqttCodec.enc_length 4 (Zlen (l1 ++ l2)) ++ l1 ++ l2 = frame type (l1 ++ l2).
Proof. done. Qed.

Lemma str_bytes_length l : Zlen (str_bytes l) = 2 + Zlen l.
Proof. unfold str_bytes. rewrite Zlen_app. done. Qed.

Lemma be32_length v : Zlen (be32 v) = 4.
Proof. done. Qed.

(** The pieces of a packet one after the other. *)
Ltac piece := lazymatch goal with
  | |- appends (WriteByte _ _ _) _ => eapply appends_byte; [done..|unfold is_byte; vm_compute; split; congruence]
  | |- appends (WriteStr _ _ _) _ => eapply appends_str; [done..|lia]
  | |- appends (WriteUint16 _ _ _) _ => eapply appends_uint16; done
  | |- appends (WriteUint32 _ _ _) _ => eapply appends_uint32; done
  | |- appends (WriteBytes _ _ ?x _) _ => rewrite <-(app_nil_r x) at 1; eapply appends_bytes; done
  end.
Ltac pieces Hh := repeat (eapply wp_then; [piece|exact Hh| |clear Hh; intros ? ? Hh]).

Lemma wp_PacketPushdata dst data s Q : Zlen dst < 65536 -> 2 + Zlen dst + Zlen data < 128 ^ 4 ->
  (forall s' b, holds b (frame PUSHDATA (str_bytes dst ++ data)) 0 -> Q (Some b) s') ->
  wp (PacketPushdata malloc free dst data (Zlen data)) s Q.
Proof using Hmalloc Hfree.
  intros Hd Hlen HQ. pose proof (Zlen_nonneg dst). pose proof (Zlen_nonneg data). unfold PacketPushdata. apply wp_packet. intros s1 b1 Hh.
  rewrite u32_small by lia. replace (2 + Zlen dst + Zlen data) with (Zlen (str_bytes dst ++ data)) by (rewrite Zlen_app, str_bytes_length; lia).
  pose proof (MqttCodec.enc_length_bounds (Zlen (str_bytes dst ++ data)) ltac:(rewrite Zlen_app, str_bytes_length; lia)) as Hle.
  apply wp_header; [by unfold is_byte, PUSHDATA; lia|rewrite Zlen_app, str_bytes_length; lia|exact Hh|]. clear Hh. intros s2 b2 Hh.
  pieces Hh.
  - rewrite str_bytes_length, Zlen_cons. lia.
  - rewrite Zlen_app, str_bytes_length, Zlen_cons. lia.
  - wp_ret. apply HQ. rewrite <-(assoc_L (++)) in Hh. exact Hh.
Qed.

(** ** Reading back *)

(** The bytes [pre] are read, [post] are not. *)
Definition at_ b (pre post : list Z) : Prop := holds b (pre ++ post) (Zlen pre).

(** [w] reads [l] and has the value [v]. *)
Definition reads {A} (w : M (S * Buffer) (option A)) (v : A) (l : list Z) : Prop := forall s b pre post Q,
  at_ b pre (l ++ post) -> (forall s' b', at_ b' (pre ++ l) post -> Q (Some v) (s', b')) -> wp w (s, b) Q.

Lemma at_bound b pre l post : at_ b pre (l ++ post) -> Zlen pre + Zlen l + Zlen post <= 2 ^ 31.
Proof. intros Hh%holds_bound. rewrite !Zlen_app in Hh. lia. Qed.

Lemma at_read b pre l post n : at_ b pre (l ++ post) -> n = Zlen l -> at_ (set_read_pos b (u32 (_read_pos b + n))) (pre ++ l) post.
Proof.
  intros Hh ->. pose proof (at_bound _ _ _ _ Hh). destruct Hh as (? & Hr & Hrest). unfold at_. rewrite <-(assoc_L (++)).
  pose proof (Zlen_nonneg pre). pose proof (Zlen_nonneg l). pose proof (Zlen_nonneg post).
  split_and!; [done| |apply Hrest..]. cbn. rewrite Hr, Zlen_app, u32_small; lia.
Qed.

Lemma at_data b pre l post : at_ b pre (l ++ post) -> exists junk, _data b = pre ++ l ++ junk.
Proof. intros (_ & _ & _ & (junk & Hd) & _). exists (post ++ junk). by rewrite Hd, <-!(assoc_L (++)). Qed.

(** There are bytes enough. *)
Lemma at_enough b pre l post n : at_ b pre (l ++ post) -> n = Zlen l -> (_write_pos b <? u32 (_read_pos b + n)) = false.
Proof.
  intros Hh ->. pose proof (at_bound _ _ _ _ Hh). destruct Hh as (Hw & Hr & _). apply Z.ltb_ge.
  pose proof (Zlen_nonneg pre). pose proof (Zlen_nonneg l). pose proof (Zlen_nonneg post).
  rewrite Hr, Hw, !Zlen_app, u32_small; lia.
Qed.

(** The next byte. *)
Lemma at_get b pre v post : at_ b pre (v :: post) -> get_at (_data b) (_read_pos b) = Some v.
Proof. intros Hh. destruct (at_data b pre [v] post Hh) as (junk & ->). apply get_at_mid. apply Hh. Qed.

Lemma at_next b pre v post : at_ b pre (v :: post) -> at_ (set_read_pos b (u32 (_read_pos b + 1))) (pre ++ [v]) post.
Proof. intros Hh. by apply (at_read b pre [v] post). Qed.

Lemma reads_byte v : reads ReadByte v [v].
Proof.
  intros s b pre post Q Hh HQ. unfold ReadByte. wp_bind. apply wp_buf. rewrite (at_enough _ _ _ _ 1 Hh) by done.
  wp_bind. eapply wp_of_opt; [by eapply at_get|]. wp_bind. apply wp_set_buf. wp_ret. apply HQ. by apply at_next.
Qed.

Lemma be16_value v : 0 <= v < 65536 -> u16 (Z.shiftl (u8 (Z.shiftr v 8)) 8 + u8 v) = v.
Proof.
  intros Hv. rewrite (Z.shiftl_mul_pow2 _ 8), <-(lor_shiftl_add _ _ 8), be16_join by (done || apply u8_range). by apply u16_small.
Qed.

Lemma reads_uint16 v : 0 <= v < 65536 -> reads ReadUint16 v (be16 v).
Proof.
  intros Hv s b pre post Q Hh HQ. unfold ReadUint16. wp_bind. apply wp_buf. rewrite (at_enough _ _ _ _ 2 Hh) by done.
  unfold be16 in Hh. cbn [app] in Hh.
  wp_bind. eapply wp_of_opt; [by eapply at_get|]. wp_bind. apply at_next in Hh.
  eapply wp_of_opt; [by eapply at_get|]. apply at_next in Hh. rewrite <-(assoc_L (++)) in Hh.
  wp_bind. apply wp_set_buf. wp_ret. rewrite be16_value by done. by apply HQ.
Qed.

(** Four bytes give back the 32 bits. *)
Lemma be32_join v : 0 <= v < 2 ^ 32 ->
  Z.lor (u32 (Z.shiftl (Z.lor (u32 (Z.shiftl (Z.lor (u32 (Z.shiftl (Z.lor (u32 (Z.shiftl 0 8)) (u8 (Z.shiftr v 24))) 8))
    (u8 (Z.shiftr v 16))) 8)) (u8 (Z.shiftr v 8))) 8)) (u8 v) = v.
Proof.
  intros Hv.
  assert (forall a w, 0 <= w < 2 ^ 32 -> a = Z.shiftr w 8 -> Z.lor (u32 (Z.shiftl a 8)) (u8 w) = w) as Hstep.
  { intros a w Hw ->. rewrite shiftr_8. assert (0 <= w / 256 < 2 ^ 24) by (split; [apply Z.div_pos; lia|apply Z.div_lt_upper_bound; lia]).
    rewrite u32_small by (rewrite Z.shiftl_mul_pow2 by done; lia).
    rewrite lor_shiftl_add by (done || apply u8_range). unfold u8. Z.div_mod_to_equations. lia. }
  assert (forall k, 0 <= k -> 0 <= Z.shiftr v k < 2 ^ 32) as Hr.
  { intros k Hk. rewrite Z.shiftr_div_pow2 by done. pose proof (Z.pow_pos_nonneg 2 k ltac:(lia) Hk).
    split; [apply Z.div_pos; lia|]. apply Z.div_lt_upper_bound; nia. }
  assert (forall k, 0 <= k -> Z.shiftr v (k + 8) = Z.shiftr (Z.shiftr v k) 8) as Hs.
  { intros k Hk. by rewrite Z.shiftr_shiftr. }
  apply Hstep; [done|]. apply Hstep; [by apply Hr|]. rewrite <-(Hs 8) by done. change (8 + 8) with 16. apply Hstep; [by apply Hr|]. rewrite <-(Hs 16) by done. change (16 + 8) with 24.
  apply Hstep; [by apply Hr|]. rewrite <-(Hs 24) by done. rewrite Z.shiftr_div_pow2 by done. symmetry. apply Z.div_small. exact Hv.
Qed.

Lemma reads_uint32 v : 0 <= v < 2 ^ 32 -> reads ReadUint32 v (be32 v).
Proof.
  intros Hv s b pre post Q Hh HQ. unfold ReadUint32. wp_bind. apply wp_buf. rewrite (at_enough _ _ _ _ 4 Hh) by done. cbn [read_uint32].
  unfold be32 in Hh. cbn [app] in Hh.
  pose proof (at_next _ _ _ _ Hh) as H1. pose proof (at_next _ _ _ _ H1) as H2. pose proof (at_next _ _ _ _ H2) as H3. pose proof (at_next _ _ _ _ H3) as H4.
  rewrite (at_get _ _ _ _ Hh). cbn [mbind option_bind]. rewrite (at_get _ _ _ _ H1). cbn [mbind option_bind].
  rewrite (at_get _ _ _ _ H2). cbn [mbind option_bind]. rewrite (at_get _ _ _ _ H3). cbn [mbind option_bind].
  wp_bind. eapply wp_of_opt; [reflexivity|]. wp_bind. apply wp_set_buf. wp_ret. cbn [fst snd]. rewrite be32_join by done.
  apply HQ. by rewrite <-!(assoc_L (++)) in H4.
Qed.

(** Zeros, over which [l] is written. *)
Lemma write_zeros l n : n = Zlen l + 1 -> write_at (replicate (Z.to_nat n) 0) 0 l = Some (l ++ [0]).
Proof.
  intros ->. replace (Z.to_nat (Zlen l + 1)) with (length l + 1)%nat by (unfold Zlen; lia). rewrite replicate_add.
  apply write_at_0. unfold Zlen. by rewrite length_replicate.
Qed.

Lemma fill_all (v l : list Z) n : Zlen v = n -> Zlen l = n -> write_at v 0 l = Some l.
Proof. intros Hv Hl. rewrite <-(app_nil_r v). rewrite write_at_0 by lia. by rewrite app_nil_r. Qed.

Lemma zeros_length (x : Z) n : 0 <= n -> Zlen (replicate (Z.to_nat n) x) = n.
Proof. intros. unfold Zlen. rewrite length_replicate. lia. Qed.

Lemma reads_bytes l : reads (ReadBytes malloc (Zlen l)) (l ++ [0]) l.
Proof using Hmalloc.
  intros s b pre post Q Hh HQ. pose proof (at_bound _ _ _ _ Hh) as Hb. pose proof (Zlen_nonneg pre). pose proof (Zlen_nonneg l). pose proof (Zlen_nonneg post).
  unfold ReadBytes. wp_bind. apply wp_buf. rewrite (at_enough _ _ _ _ _ Hh) by done. rewrite (u32_small (Zlen l + 1)) by lia.
  destruct (Hmalloc (Zlen l + 1) s) as (v & s' & Hm & Hv); [lia|]. wp_bind. eapply wp_lifted; [exact Hm|]. wp_bind. eapply wp_of_opt; [done|].
  wp_bind. eapply wp_of_opt; [eapply fill_all; [exact Hv|apply zeros_length; lia]|].
  destruct (at_data _ _ _ _ Hh) as (junk & Hd). wp_bind. eapply wp_of_opt; [rewrite Hd; apply read_at_mid; [apply Hh|done]|].
  wp_bind. eapply wp_of_opt; [by apply write_zeros|]. wp_bind. apply wp_set_buf. wp_ret. apply HQ. by apply at_read.
Qed.

(** A string without NUL is copied, and found again. *)
Definition nonzero (l : list Z) : Prop := Forall (fun c => c <> 0) l.

Lemma strncpy_nonzero l : nonzero l -> strncpy l = l.
Proof. induction 1 as [|c l Hc _ IH]; [done|]. cbn. rewrite (proj2 (Z.eqb_neq _ _) Hc). by rewrite IH. Qed.

Lemma cstring_nonzero l rest : nonzero l -> cstring (l ++ 0 :: rest) = l.
Proof. induction 1 as [|c l Hc _ IH]; [done|]. cbn. rewrite (proj2 (Z.eqb_neq _ _) Hc). by rewrite IH. Qed.

Lemma reads_str l : nonzero l -> Zlen l < 65536 -> reads (ReadStr malloc) (l ++ [0]) (str_bytes l).
Proof using Hmalloc.
  intros Hnz Hl s b pre post Q Hh HQ. pose proof (Zlen_nonneg l). unfold ReadStr. wp_bind. unfold str_bytes in Hh. rewrite <-(assoc_L (++)) in Hh.
  eapply reads_uint16; [|exact Hh|]; [lia|]. clear s b Hh. intros s b Hh. cbn beta iota. wp_bind. apply wp_buf.
  rewrite (at_enough _ _ _ _ _ Hh) by done. rewrite (u32_small (Zlen l + 1)) by lia.
  destruct (Hmalloc (Zlen l + 1) s) as (v & s' & Hm & Hv); [lia|]. wp_bind. eapply wp_lifted; [exact Hm|]. wp_bind. eapply wp_of_opt; [done|].
  wp_bind. eapply wp_of_opt; [eapply fill_all; [exact Hv|apply zeros_length; lia]|].
  destruct (at_data _ _ _ _ Hh) as (junk & Hd). wp_bind. eapply wp_of_opt; [rewrite Hd; apply read_at_mid; [apply Hh|done]|].
  wp_bind. rewrite strncpy_nonzero by done. eapply wp_of_opt; [by apply write_zeros|]. wp_bind. apply wp_set_buf. wp_ret. apply HQ.
  unfold str_bytes. rewrite (assoc_L (++)). by apply at_read.
Qed.

(** The remaining length: seven bits a byte. *)
Lemma reads_remain n : forall fuel len len_val k, (n <= fuel)%nat -> (0 < n)%nat -> 0 <= k -> k + Z.of_nat n <= 4 -> 0 <= len < 128 ^ Z.of_nat n ->
  0 <= len_val -> len_val + len * 128 ^ k < 2 ^ 32 ->
  reads (read_remainlen fuel len_val (128 ^ k) k) (len_val + len * 128 ^ k) (MqttCodec.enc_length n len).
Proof.
  induction n as [|n IH]; intros fuel len len_val k Hfuel Hn Hk Hkn Hlen Hv Hmax s b pre post Q Hh HQ; [lia|].
  destruct fuel as [|fuel]; [lia|]. cbn [read_remainlen MqttCodec.enc_length] in *.
  pose proof (Z.mod_pos_bound len 128 ltac:(lia)). pose proof (Z.div_mod len 128 ltac:(lia)) as Hdm.
  assert (0 <= len / 128) by (apply Z.div_pos; lia).
  assert (0 < 128 ^ k <= 128 ^ 3) by (split; [lia|apply Z.pow_le_mono_r; lia]).
  assert (128 ^ (k + 1) = 128 * 128 ^ k) as Hk1 by (by rewrite Z.pow_add_r, Z.mul_comm by lia).
  destruct (0 <? len / 128) eqn:Hpos.
  - destruct n as [|n]; [apply Z.ltb_lt in Hpos; rewrite Z.div_small in Hpos by (cbn in Hlen; lia); lia|].
    wp_bind. eapply (reads_byte _ _ _ _ (_ ++ post)); [exact Hh|]. clear s b Hh. intros s b Hh. cbn beta iota zeta.
    rewrite land_7f, land_80 by lia. rewrite (proj2 (Z.ltb_ge _ _)) by lia. rewrite (proj2 (Z.ltb_ge (len mod 128 + 128) 128)) by lia.
    replace ((len mod 128 + 128) mod 128) with (len mod 128) by (apply (Z.mod_unique_pos _ _ 1); lia).
    change (negb (128 =? 0)) with true. cbn iota. change 0x80 with 128. rewrite (Z.mul_comm (128 ^ k) 128), <-Hk1.
    rewrite (u32_small (len_val + _)) by nia. rewrite (u32_small (128 ^ (k + 1))) by (rewrite Hk1; nia).
    eapply IH; [lia..| | | |exact Hh|].
    + split; [done|]. apply Z.div_lt_upper_bound; [lia|]. rewrite Nat2Z.inj_succ, Z.pow_succ_r in Hlen by lia. lia.
    + nia.
    + rewrite Hk1. nia.
    + clear s b Hh. intros s b Hh. rewrite <-(assoc_L (++)) in Hh. replace (len_val + len mod 128 * 128 ^ k + len / 128 * 128 ^ (k + 1)) with (len_val + len * 128 ^ k) by (rewrite Hk1; nia). by apply HQ.
  - apply Z.ltb_ge in Hpos. assert (len / 128 = 0) as Hz by lia. rewrite Hz in Hdm.
    wp_bind. eapply reads_byte; [exact Hh|]. clear s b Hh. intros s b Hh. cbn beta iota zeta.
    rewrite land_7f, land_80 by lia. rewrite (proj2 (Z.ltb_ge _ _)) by lia. rewrite (proj2 (Z.ltb_lt (len mod 128) 128)) by lia.
    rewrite Z.mod_mod by lia. change (negb (0 =? 0)) with false. cbn iota. replace (len mod 128) with len in * by lia.
    rewrite u32_small by nia. wp_ret. by apply HQ.
Qed.

Lemma reads_remainlen len : 0 <= len < 128 ^ 4 -> reads ReadRemainlen len (MqttCodec.enc_length 4 len).
Proof.
  intros Hlen. replace len with (0 + len * 128 ^ 0) at 1 by lia. apply (reads_remain 4 5 len 0 0); lia || (cbn in *; lia).
Qed.

Lemma wp_or_error {A B} e (r : M (S * Buffer) (option A)) (f : A -> M (S * Buffer) (Z + B)) v l s b pre post Q :
  reads r v l -> at_ b pre (l ++ post) -> (forall s' b', at_ b' (pre ++ l) post -> wp (f v) (s', b') Q) -> wp (or_error e r f) (s, b) Q.
Proof. intros Hr Hh Hf. unfold or_error. wp_bind. by eapply Hr. Qed.

(** ** Framing *)

Lemma complete_frame n : forall fuel len part junk tail rest k, (n <= fuel)%nat -> (0 < n)%nat -> 1 <= k -> k + Z.of_nat n <= 5 ->
  forall len_val, 0 <= len < 128 ^ Z.of_nat n -> 0 <= len_val -> len_val + len * 128 ^ (k - 1) < 2 ^ 31 ->
  part ++ tail = MqttCodec.enc_length n len ++ rest ->
  complete_loop fuel (part ++ junk) (k + Zlen part) k len_val (128 ^ (k - 1)) =
    Some (if Zlen part <? Zlen (MqttCodec.enc_length n len) then inl 0
          else inr (k + Zlen (MqttCodec.enc_length n len), len_val + len * 128 ^ (k - 1))).
Proof.
  induction n as [|n IH]; intros fuel len part junk tail rest k Hfuel Hn Hk Hkn len_val Hlen Hv Hmax Heq; [lia|].
  destruct fuel as [|fuel]; [lia|]. cbn [complete_loop MqttCodec.enc_length] in *. rewrite (proj2 (Z.ltb_ge _ _)) by lia.
  pose proof (Z.mod_pos_bound len 128 ltac:(lia)). pose proof (Z.div_mod len 128 ltac:(lia)) as Hdm.
  assert (0 <= len / 128) by (apply Z.div_pos; lia).
  assert (0 < 128 ^ (k - 1) <= 128 ^ 3) by (split; [lia|apply Z.pow_le_mono_r; lia]).
  assert (128 ^ (k + 1 - 1) = 128 * 128 ^ (k - 1)) as Hk1 by (rewrite <-Z.pow_succ_r by lia; f_equal; lia).
  pose proof (Zlen_nonneg (MqttCodec.enc_length n (len / 128))).
  destruct part as [|x part].
  { change (Zlen (@nil Z)) with 0. rewrite (proj2 (Z.ltb_lt _ _)) by lia.
    rewrite (proj2 (Z.ltb_lt _ _)); [done|]. destruct (0 <? len / 128); rewrite ?Zlen_cons; change (Zlen (@nil Z)) with 0; lia. }
  pose proof (Zlen_nonneg part). rewrite Zlen_cons, (proj2 (Z.ltb_ge _ _)) by lia. cbn [app].
  destruct (0 <? len / 128) eqn:Hpos.
  - destruct n as [|n]; [apply Z.ltb_lt in Hpos; rewrite Z.div_small in Hpos by (cbn in Hlen; lia); lia|].
    injection Heq as -> Heq. rewrite land_7f, land_80 by lia. rewrite (proj2 (Z.ltb_ge (len mod 128 + 128) 128)) by lia.
    replace ((len mod 128 + 128) mod 128) with (len mod 128) by (apply (Z.mod_unique_pos _ _ 1); lia).
    change (negb (128 =? 0)) with true. cbn iota zeta. change 0x80 with 128. rewrite (Z.mul_comm (128 ^ (k - 1)) 128), <-Hk1.
    rewrite (u32_small (len_val + _)) by nia. rewrite (u32_small (128 ^ (k + 1 - 1))) by (rewrite Hk1; nia).
    replace (k + (1 + Zlen part)) with (k + 1 + Zlen part) by lia. rewrite (IH fuel (len / 128) part junk tail rest (k + 1)); [|lia..| |nia|rewrite Hk1; nia|done].
    2: { split; [done|]. apply Z.div_lt_upper_bound; [lia|]. rewrite Nat2Z.inj_succ, Z.pow_succ_r in Hlen by lia. lia. }
    rewrite Zlen_cons. f_equal. rewrite Hk1. destruct (Z.ltb_spec (Zlen part) (Zlen (MqttCodec.enc_length (Datatypes.S n) (len / 128)))).
    + by rewrite (proj2 (Z.ltb_lt _ _)) by lia.
    + rewrite (proj2 (Z.ltb_ge _ _)) by lia. do 2 f_equal; [lia|]. nia.
  - apply Z.ltb_ge in Hpos. assert (len / 128 = 0) as Hz by lia. rewrite Hz in Hdm.
    injection Heq as -> Heq. rewrite land_7f, land_80 by lia. rewrite (proj2 (Z.ltb_lt (len mod 128) 128)) by lia.
    rewrite Z.mod_mod by lia. change (negb (0 =? 0)) with false. cbn iota zeta. change (Zlen [len mod 128]) with 1.
    rewrite (proj2 (Z.ltb_ge _ _)) by lia. rewrite u32_small by nia. do 3 f_equal. nia.
Qed.

(** A frame, and what may still become one. *)
Definition is_frame (f : list Z) : Prop := exists type body, f = frame type body /\ Zlen body < 128 ^ 4.
Definition partial (p : list Z) : Prop := exists f q, is_frame f /\ f = p ++ q /\ q <> [].

Lemma is_frame_size f : is_frame f -> 2 <= Zlen f < 2 ^ 29.
Proof.
  intros (type & body & -> & Hb). pose proof (frame_length type body Hb). pose proof (Zlen_nonneg body).
  change (128 ^ 4) with (2 ^ 28) in Hb. lia.
Qed.

(** IsPkgComplete on the bytes [c], of which a frame is the first part or the
    other way round. *)
Lemma IsPkgComplete_frame b c f q rest : holds b c 0 -> is_frame f -> f ++ rest = c ++ q ->
  IsPkgComplete b = Some (if Zlen f <=? Zlen c then Zlen f else 0).
Proof.
  intros Hh Hf Heq. pose proof (is_frame_size f Hf) as Hsz. destruct Hf as (type & body & -> & Hb).
  destruct Hh as (Hw & _ & _ & (junk & Hd) & _). unfold IsPkgComplete. rewrite Hw.
  pose proof (Zlen_nonneg body). destruct (Z.leb_spec (Zlen c) 1); [by rewrite (proj2 (Z.leb_gt _ _)) by lia|].
  destruct c as [|x part]; [done|]. unfold frame in Heq. injection Heq as <- Heq. rewrite Hd. cbn [app].
  rewrite Zlen_cons in *. change 1 with (128 ^ (1 - 1)) at 4. rewrite <-(assoc_L (++)) in Heq.
  rewrite (complete_frame 4 5 (Zlen body) part junk q (body ++ rest) 1); [|lia..|exact (conj H Hb)|lia| |done].
  2: { change (128 ^ 4) with (2 ^ 28) in Hb. cbn. lia. }
  change (128 ^ 4) with (2 ^ 28) in Hb. cbn [mbind option_bind].
  pose proof (frame_length type body Hb) as Hfl. unfold frame in *. rewrite Zlen_cons, Zlen_app in *.
  pose proof (Zlen_nonneg (MqttCodec.enc_length 4 (Zlen body))).
  destruct (Z.ltb_spec (Zlen part) (Zlen (MqttCodec.enc_length 4 (Zlen body)))); [by rewrite (proj2 (Z.leb_gt _ _)) by lia|].
  change (128 ^ (1 - 1)) with 1. rewrite u32_small by lia. rewrite s32_small by lia.
  replace (1 + Zlen (MqttCodec.enc_length 4 (Zlen body)) + (0 + Zlen body * 1)) with (1 + (Zlen (MqttCodec.enc_length 4 (Zlen body)) + Zlen body)) by lia.
  done.
Qed.

(** Nothing to take yet: the buffer stays as it is. *)
Lemma wp_GetEdpPacket_none s b c Q : holds b c 0 -> partial c -> Q (None, b) s -> wp (GetEdpPacket malloc free b) s Q.
Proof.
  intros Hh (f & q & Hf & Heq & Hq) HQ. unfold GetEdpPacket.
  assert (IsPkgComplete b = Some 0) as Hc.
  { rewrite (IsPkgComplete_frame b c f q []) by (done || by rewrite app_nil_r).
    destruct q as [|x q]; [done|]. rewrite Heq, Zlen_app, Zlen_cons. pose proof (Zlen_nonneg q). by rewrite (proj2 (Z.leb_gt _ _)) by lia. }
  wp_bind. eapply wp_of_opt; [exact Hc|]. cbn. by wp_ret.
Qed.

(** The first frame is taken, and the rest moves up. *)
Lemma wp_GetEdpPacket_some s b f rest Q : holds b (f ++ rest) 0 -> is_frame f ->
  (forall s' pkg b', holds pkg f 0 -> holds b' rest 0 -> Q (Some pkg, b') s') -> wp (GetEdpPacket malloc free b) s Q.
Proof using Hmalloc Hfree.
  intros Hh Hf HQ. pose proof (is_frame_size f Hf) as Hsz. unfold GetEdpPacket. pose proof (Zlen_nonneg rest).
  wp_bind. eapply wp_of_opt; [apply (IsPkgComplete_frame b (f ++ rest) f [] rest Hh Hf); by rewrite app_nil_r|].
  rewrite (proj2 (Z.leb_le (Zlen f) (Zlen (f ++ rest)))) by (rewrite Zlen_app; lia). rewrite (proj2 (Z.leb_gt _ _)) by lia.
  wp_bind. apply wp_NewBuffer. intros s1 pkg Hp. pose proof (holds_bound _ _ _ Hh) as [Hb _]. rewrite Zlen_app in Hb.
  destruct Hh as (Hw & Hr & Hc & (junk & Hd) & Hj). rewrite <-(assoc_L (++)) in Hd. rewrite Hd.
  wp_bind. apply wp_on. eapply (appends_bytes f (rest ++ junk)); [done|exact Hp|change (Zlen (@nil Z)) with 0; lia|]. intros s2 pkg' Hp' _. cbn [snd fst].
  rewrite Hw, Zlen_app. replace (Zlen f + Zlen rest - Zlen f) with (Zlen rest) by lia.
  wp_bind. eapply wp_of_opt; [by apply read_at_mid|].
  set (d := f ++ rest ++ junk) in *. assert (write_at d 0 rest = Some (rest ++ drop (length rest) d)) as Hwr.
  { rewrite <-(take_drop (length rest) d) at 1. apply write_at_0. unfold d, Zlen. rewrite length_take, !length_app. lia. }
  wp_bind. eapply wp_of_opt; [exact Hwr|]. wp_ret. apply HQ; [done|].
  split_and!; cbn; [by rewrite u32_small by lia|done| |by eexists|done].
  rewrite Hc, Hd, Zlen_app. unfold d, Zlen. rewrite length_drop, !length_app. lia.
Qed.

Lemma frames_fewer fs part : Forall is_frame fs -> Z.of_nat (length fs) <= Zlen (concat fs ++ part).
Proof.
  rewrite Zlen_app. pose proof (Zlen_nonneg part). induction 1 as [|f fs Hf _ IH]; [done|].
  pose proof (is_frame_size f Hf). cbn [concat length]. rewrite Zlen_app. lia.
Qed.

(** ** Packets and what takes them apart *)

Lemma wp_EdpPacketType s b type body Q : holds b (frame type body) 0 ->
  (forall s' b', at_ b' [type] (MqttCodec.enc_length 4 (Zlen body) ++ body) -> Q type (s', b')) -> wp EdpPacketType (s, b) Q.
Proof.
  intros Hh HQ. unfold EdpPacketType. wp_bind. eapply (reads_byte type s b []); [exact Hh|]. intros s1 b1 Hh1. wp_ret. by apply HQ.
Qed.

(** Everything is read: what the assertions at the ends of the functions check. *)
Lemma at_end b pre : at_ b pre [] -> _read_pos b = _write_pos b.
Proof. intros (-> & -> & _). by rewrite app_nil_r. Qed.

Lemma at_all b pre l : at_ b pre l -> at_ b pre (l ++ []).
Proof. by rewrite app_nil_r. Qed.

Lemma wp_UnpackPushdata s b pre src data Q : nonzero src -> Zlen src < 65536 -> 2 + Zlen src + Zlen data < 128 ^ 4 ->
  at_ b pre (MqttCodec.enc_length 4 (Zlen (str_bytes src ++ data)) ++ str_bytes src ++ data) ->
  (forall s' b', _read_pos b' = _write_pos b' -> Q (inr (src ++ [0], data ++ [0], Zlen data)) (s', b')) -> wp (UnpackPushdata malloc) (s, b) Q.
Proof using Hmalloc.
  intros Hnz Hsrc Hlen Hh HQ. pose proof (Zlen_nonneg src). pose proof (Zlen_nonneg data). unfold UnpackPushdata.
  assert (Zlen (str_bytes src ++ data) = 2 + Zlen src + Zlen data) as Hz by (rewrite Zlen_app, str_bytes_length; lia). rewrite Hz in Hh.
  eapply wp_or_error; [apply (reads_remainlen (2 + Zlen src + Zlen data)); lia|exact Hh|]. clear s b Hh. intros s b Hh.
  eapply wp_or_error; [by apply reads_str|exact Hh|]. clear s b Hh. intros s b Hh. cbv zeta. rewrite cstring_nonzero by done.
  change (128 ^ 4) with (2 ^ 28) in Hlen. rewrite u32_small by lia. replace (2 + Zlen src + Zlen data - (2 + Zlen src)) with (Zlen data) by lia.
  apply at_all in Hh. eapply wp_or_error; [apply reads_bytes|exact Hh|]. clear s b Hh. intros s b Hh. wp_ret. apply HQ. by eapply at_end.
Qed.

(** The address of a SAVEDATA packet. *)
Definition address (dst : option (list Z)) : list Z := match dst with Some dst => 0x80 :: str_bytes dst | None => [0] end.

Definition savedata_body (dst : option (list Z)) (desc bin : list Z) : list Z :=
  address dst ++ [2] ++ str_bytes desc ++ be32 (Zlen bin) ++ bin.

Definition small_address (dst : option (list Z)) : Prop := match dst with Some dst => nonzero dst /\ Zlen dst < 65536 | None => True end.

Lemma savedata_length dst desc bin : Zlen (savedata_body dst desc bin) = Zlen (address dst) + 1 + (2 + Zlen desc) + (4 + Zlen bin).
Proof. unfold savedata_body. rewrite !Zlen_app, str_bytes_length, be32_length. change (Zlen [2]) with 1. lia. Qed.

Lemma address_length dst : Zlen (address dst) = match dst with Some dst => 1 + (2 + Zlen dst) | None => 1 end.
Proof. destruct dst; [|done]. unfold address. by rewrite Zlen_cons, str_bytes_length. Qed.

(** WriteAddress writes the length of the rest, too. *)
Lemma wp_WriteAddress {A} dst rest len (k : M (S * Buffer) A) type s b Q : small_address dst -> is_byte type -> 0 <= rest ->
  len = Zlen (address dst) + 1 + rest -> len < 128 ^ 4 -> holds b [] 0 ->
  (forall s' b', holds b' (type :: MqttCodec.enc_length 4 len ++ address dst) 0 -> wp k (s', b') Q) ->
  wp (WriteByte malloc free type ;; WriteAddress malloc free dst rest ;; k) (s, b) Q.
Proof using Hmalloc Hfree.
  intros Hdst Ht Hrest -> Hlen Hh Hk. rewrite address_length in *. change (128 ^ 4) with (2 ^ 28) in Hlen.
  eapply wp_then; [by apply appends_byte|exact Hh|by vm_compute|]. clear s b Hh. intros s b Hh. unfold WriteAddress.
  assert (forall n, Zlen (([] ++ [type]) ++ MqttCodec.enc_length 4 n) = 1 + Zlen (MqttCodec.enc_length 4 n)) as Hn by (intros; by rewrite Zlen_app).
  destruct dst as [dst|].
  - destruct Hdst as [_ Hd]. pose proof (Zlen_nonneg dst). rewrite u32_small by lia. pose proof (MqttCodec.enc_length_bounds (1 + (2 + Zlen dst) + 1 + rest) ltac:(change (128 ^ 4) with (2 ^ 28); lia)).
    wp_bind. eapply appends_remainlen; [exact Hh|change (128 ^ 4) with (2 ^ 28); lia|by vm_compute|]. clear b Hh. intros b Hh.
    eapply wp_then; [by apply (appends_byte 128)|exact Hh|rewrite Hn; change (Zlen [128]) with 1; lia|]. clear s b Hh. intros s b Hh.
    eapply appends_str; [done|exact Hh|rewrite Zlen_app, Hn, str_bytes_length; change (Zlen [128]) with 1; lia|]. intros s2 b2 Hh2 _.
    apply Hk. rewrite <-!(assoc_L (++)) in Hh2. exact Hh2.
  - rewrite u32_small by lia. pose proof (MqttCodec.enc_length_bounds (1 + 1 + rest) ltac:(change (128 ^ 4) with (2 ^ 28); lia)).
    wp_bind. eapply appends_remainlen; [exact Hh|change (128 ^ 4) with (2 ^ 28); lia|by vm_compute|]. clear b Hh. intros b Hh.
    eapply (appends_byte 0); [done|exact Hh|rewrite Hn; change (Zlen [0]) with 1; lia|]. intros s2 b2 Hh2 _. apply Hk. exact Hh2.
Qed.

Lemma wp_PacketSavedataBinStr dst desc bin s Q : small_address dst -> Zlen desc < 65536 -> Zlen bin <= 3 * 2 ^ 20 ->
  (forall s' b, holds b (frame SAVEDATA (savedata_body dst desc bin)) 0 -> Q (Some b) s') ->
  wp (PacketSavedataBinStr malloc free dst desc bin (Zlen bin)) s Q.
Proof using Hmalloc Hfree.
  intros Hdst Hdesc Hbin HQ. pose proof (Zlen_nonneg desc). pose proof (Zlen_nonneg bin). unfold PacketSavedataBinStr.
  change (Z.shiftl 1 16) with 65536. change (3 * Z.shiftl 1 20) with (3 * 2 ^ 20).
  rewrite (proj2 (Z.ltb_ge _ _)), (proj2 (Z.ltb_ge _ _)) by lia. cbn [orb]. apply wp_packet. intros s1 b1 Hh.
  assert (1 <= Zlen (address dst) < 65539) as Ha.
  { rewrite address_length. destruct dst as [dst|]; [|lia]. destruct Hdst. pose proof (Zlen_nonneg dst). lia. }
  pose proof (savedata_length dst desc bin) as Hlen.
  assert (0 <= Zlen (savedata_body dst desc bin) < 128 ^ 4) as Hz by (change (128 ^ 4) with (2 ^ 28); lia).
  pose proof (MqttCodec.enc_length_bounds _ Hz).
  eapply (wp_WriteAddress dst _ (Zlen (savedata_body dst desc bin))); [done|by unfold is_byte, SAVEDATA; lia|lia|lia|lia|exact Hh|]. clear Hh. intros s2 b2 Hh.
  pieces Hh.
  all: try (rewrite ?Zlen_app, ?Zlen_cons, ?Zlen_app, ?str_bytes_length, ?be32_length; change (Zlen (@nil Z)) with 0; lia).
  wp_ret. apply HQ. unfold frame, savedata_body at 2. rewrite <-!(assoc_L (++)) in Hh. cbn [app] in *. rewrite <-!(assoc_L (++)) in Hh. exact Hh.
Qed.

Lemma wp_UnpackSavedata s b pre dst jb rest Q : small_address dst -> is_byte jb -> Zlen (address dst ++ jb :: rest) < 128 ^ 4 ->
  at_ b pre (MqttCodec.enc_length 4 (Zlen (address dst ++ jb :: rest)) ++ address dst ++ jb :: rest) ->
  (forall s' b' pre', at_ b' pre' rest -> Q (inr ((fun d => d ++ [0]) <$> dst, jb)) (s', b')) -> wp (UnpackSavedata malloc) (s, b) Q.
Proof using Hmalloc.
  intros Hdst Hjb Hlen Hh HQ. pose proof (Zlen_nonneg (address dst ++ jb :: rest)). unfold UnpackSavedata.
  eapply wp_or_error; [by apply (reads_remainlen (Zlen (address dst ++ jb :: rest)))|exact Hh|]. clear s b Hh. intros s b Hh. destruct dst as [dst|]; cbn [address] in Hh.
  - destruct Hdst as [Hnz Hd]. eapply (wp_or_error _ _ _ 128 [128]); [apply reads_byte|exact Hh|]. clear s b Hh. intros s b Hh. change (128 =? 0x80) with true. cbn iota zeta.
    eapply wp_or_error; [by apply reads_str|exact Hh|]. clear s b Hh. intros s b Hh.
    eapply (wp_or_error _ _ _ jb [jb]); [apply reads_byte|exact Hh|]. clear s b Hh. intros s b Hh. wp_ret. by eapply HQ.
  - eapply (wp_or_error _ _ _ 0 [0]); [apply reads_byte|exact Hh|]. clear s b Hh. intros s b Hh. change (0 =? 0x80) with false. cbn iota zeta.
    eapply (wp_or_error _ _ _ jb [jb]); [apply reads_byte|exact Hh|]. clear s b Hh. intros s b Hh. wp_ret. by eapply HQ.
Qed.

Lemma wp_UnpackSavedataBinStr s b pre desc bin Q : nonzero desc -> Zlen desc < 65536 -> Zlen bin < 2 ^ 32 ->
  at_ b pre (str_bytes desc ++ be32 (Zlen bin) ++ bin) ->
  (forall s' b', _read_pos b' = _write_pos b' -> Q (inr (desc ++ [0], bin ++ [0], Zlen bin)) (s', b')) -> wp (UnpackSavedataBinStr malloc) (s, b) Q.
Proof using Hmalloc.
  intros Hnz Hd Hlen Hh HQ. pose proof (Zlen_nonneg bin). unfold UnpackSavedataBinStr.
  eapply wp_or_error; [by apply reads_str|exact Hh|]. clear s b Hh. intros s b Hh.
  eapply wp_or_error; [by apply reads_uint32|exact Hh|]. clear s b Hh. intros s b Hh. apply at_all in Hh.
  eapply wp_or_error; [apply reads_bytes|exact Hh|]. clear s b Hh. intros s b Hh. wp_ret. apply HQ. by eapply at_end.
Qed.

(** ** Whatever a packet holds *)

(** [r] bytes of [bs] are read. *)
Definition inside b (bs : list Z) r : Prop := holds b bs r /\ 0 <= r <= Zlen bs.

Lemma inside_bound b bs r : inside b bs r -> Zlen bs <= 2 ^ 31.
Proof. intros [Hh%holds_bound _]. lia. Qed.

Lemma inside_read b bs r n : inside b bs r -> 0 <= n -> r + n <= Zlen bs -> inside (set_read_pos b (u32 (_read_pos b + n))) bs (r + n).
Proof.
  intros Hin Hn Hle. pose proof (inside_bound _ _ _ Hin). destruct Hin as [(? & Hr & Hrest) ?]. rewrite Hr, u32_small by lia.
  split; [|lia]. split_and!; [done|done|apply Hrest..].
Qed.

(** The test of the bounds, which does not wrap. *)
Lemma inside_test b bs r n : inside b bs r -> 0 <= n -> r + n < 2 ^ 32 -> (_write_pos b <? u32 (_read_pos b + n)) = (Zlen bs <? r + n).
Proof. intros [(-> & -> & _) ?] Hn Hlt. by rewrite u32_small by lia. Qed.

Lemma inside_get b bs r n : inside b bs r -> 0 <= n -> r + n <= Zlen bs -> exists l, read_at (_data b) (_read_pos b) n = Some l /\ Zlen l = n.
Proof.
  intros [(_ & -> & _ & (junk & ->) & _) ?] Hn Hle. apply read_at_Some; [lia|done|]. rewrite Zlen_app. pose proof (Zlen_nonneg junk). lia.
Qed.

Lemma inside_byte b bs r : inside b bs r -> r + 1 <= Zlen bs -> exists v, get_at (_data b) (_read_pos b) = Some v.
Proof.
  intros [(_ & -> & _ & (junk & ->) & _) ?] Hle. unfold get_at. rewrite (proj2 (Z.leb_le _ _)) by lia.
  apply lookup_lt_is_Some_2. rewrite length_app. unfold Zlen in *. lia.
Qed.

Lemma any_byte s b bs r Q : inside b bs r -> Q None (s, b) -> (forall s' b' v, inside b' bs (r + 1) -> Q (Some v) (s', b')) -> wp ReadByte (s, b) Q.
Proof.
  intros Hin HN HQ. pose proof (inside_bound _ _ _ Hin). pose proof Hin as [_ ?]. unfold ReadByte. wp_bind. apply wp_buf.
  rewrite (inside_test _ _ _ 1 Hin) by lia. destruct (Z.ltb_spec (Zlen bs) (r + 1)); [by wp_ret|].
  destruct (inside_byte b bs r Hin) as (v & Hv); [lia|]. wp_bind. eapply wp_of_opt; [exact Hv|]. wp_bind. apply wp_set_buf. wp_ret.
  apply HQ. apply inside_read; [done|lia|lia].
Qed.

Lemma any_uint16 s b bs r Q : inside b bs r -> Q None (s, b) ->
  (forall s' b' v, 0 <= v < 65536 -> inside b' bs (r + 2) -> Q (Some v) (s', b')) -> wp ReadUint16 (s, b) Q.
Proof.
  intros Hin HN HQ. pose proof (inside_bound _ _ _ Hin). pose proof Hin as [_ ?]. unfold ReadUint16. wp_bind. apply wp_buf.
  rewrite (inside_test _ _ _ 2 Hin) by lia. destruct (Z.ltb_spec (Zlen bs) (r + 2)); [by wp_ret|].
  destruct (inside_byte b bs r Hin) as (v & Hv); [lia|]. wp_bind. eapply wp_of_opt; [exact Hv|]. wp_bind.
  apply (inside_read _ _ _ 1) in Hin; [|lia..]. destruct (inside_byte _ bs _ Hin) as (w & Hw); [lia|]. eapply wp_of_opt; [exact Hw|].
  apply (inside_read _ _ _ 1) in Hin; [|lia..]. wp_bind. apply wp_set_buf. wp_ret. apply HQ; [apply u16_range|]. by replace (r + 2) with (r + 1 + 1) by lia.
Qed.

(** The memory of [n] bytes and a NUL. *)
Lemma any_copy s b bs r n (f : list Z -> list Z) Q : inside b bs r -> 0 <= n -> r + n <= Zlen bs -> (forall l, Zlen (f l) = Zlen l) ->
  (forall s' b' l, Zlen l = n -> inside b' bs (r + n) -> Q (Some (f l ++ [0])) (s', b')) ->
  wp (v ← lift (malloc (n + 1)); v ← of_opt v; v ← of_opt (write_at v 0 (replicate (Z.to_nat (n + 1)) 0));
      d ← of_opt (read_at (_data b) (_read_pos b) n); v ← of_opt (write_at v 0 (f d));
      set_buf (set_read_pos b (u32 (_read_pos b + n))) ;; mret (Some v)) (s, b) Q.
Proof using Hmalloc.
  intros Hin Hn Hle Hf HQ. destruct (Hmalloc (n + 1) s) as (v & s' & Hm & Hv); [lia|]. wp_bind. eapply wp_lifted; [exact Hm|]. wp_bind.
  eapply wp_of_opt; [done|]. wp_bind. eapply wp_of_opt; [eapply fill_all; [exact Hv|apply zeros_length; lia]|].
  destruct (inside_get b bs r n Hin Hn Hle) as (l & Hl & Hll). wp_bind. eapply wp_of_opt; [exact Hl|].
  wp_bind. eapply wp_of_opt; [apply write_zeros; by rewrite Hf, Hll|]. wp_bind. apply wp_set_buf. wp_ret. apply HQ; [done|]. by apply inside_read.
Qed.

Lemma any_bytes s b bs r n Q : inside b bs r -> 0 <= n -> r + n < 2 ^ 32 -> Q None (s, b) ->
  (forall s' b' l, Zlen l = n -> inside b' bs (r + n) -> Q (Some (l ++ [0])) (s', b')) -> wp (ReadBytes malloc n) (s, b) Q.
Proof using Hmalloc.
  intros Hin Hn Hlt HN HQ. pose proof (inside_bound _ _ _ Hin). pose proof Hin as [_ ?]. unfold ReadBytes. wp_bind. apply wp_buf.
  rewrite (inside_test _ _ _ n Hin) by lia. destruct (Z.ltb_spec (Zlen bs) (r + n)); [by wp_ret|].
  rewrite (u32_small (n + 1)) by lia. by apply (any_copy s b bs r n (fun l => l)).
Qed.

Lemma strncpy_length l : Zlen (strncpy l) = Zlen l.
Proof. induction l as [|c l IH]; [done|]. cbn [strncpy]. destruct (c =? 0); [|by rewrite !Zlen_cons, IH]. unfold Zlen. by rewrite length_replicate. Qed.

Lemma cstring_length l : Zlen (cstring (l ++ [0])) <= Zlen l.
Proof.
  induction l as [|c l IH]; [done|]. cbn [app cstring]. pose proof (Zlen_nonneg l). destruct (c =? 0); rewrite !Zlen_cons; [change (Zlen (@nil Z)) with 0; lia|lia].
Qed.

Lemma any_str s b bs r Q : inside b bs r -> (forall s' b', Q None (s', b')) ->
  (forall s' b' v len, 0 <= len < 65536 -> Zlen (cstring v) <= len -> inside b' bs (r + 2 + len) -> Q (Some v) (s', b')) -> wp (ReadStr malloc) (s, b) Q.
Proof using Hmalloc.
  intros Hin HN HQ. unfold ReadStr. wp_bind. eapply any_uint16; [exact Hin|by wp_ret|]. clear s b Hin. intros s b len Hlen Hin. cbn beta iota.
  pose proof (inside_bound _ _ _ Hin). pose proof Hin as [_ ?]. wp_bind. apply wp_buf. rewrite (inside_test _ _ _ len Hin) by lia.
  destruct (Z.ltb_spec (Zlen bs) (r + 2 + len)); [by wp_ret|]. rewrite (u32_small (len + 1)) by lia.
  apply (any_copy s b bs (r + 2) len strncpy); [done|lia|lia|apply strncpy_length|]. intros s' b' l Hl Hin'. eapply HQ; [exact Hlen| |exact Hin'].
  pose proof (cstring_length (strncpy l)) as Hc. by rewrite strncpy_length, Hl in Hc.
Qed.

Lemma wp_or_error_any {A B} e (r : M (S * Buffer) (option A)) (f : A -> M (S * Buffer) (Z + B)) sb Q :
  wp r sb (fun v sb' => match v with None => Q (inl e) sb' | Some v => wp (f v) sb' Q end) -> wp (or_error e r f) sb Q.
Proof. intros Hr. unfold or_error. wp_bind. eapply wp_mono; [exact Hr|]. by intros [v|] sb'. Qed.

(** The type and the remaining length of a frame, and what follows. *)
Lemma wp_rest {B} e (f : Z -> M (S * Buffer) (Z + B)) s b type body Q : holds b (frame type body) 0 -> Zlen body < 128 ^ 4 ->
  (forall s' b' r, inside b' (frame type body) r -> r + Zlen body = Zlen (frame type body) -> wp (f (Zlen body)) (s', b') Q) ->
  wp (EdpPacketType ;; or_error e ReadRemainlen f) (s, b) Q.
Proof.
  intros Hh Hb Hf. pose proof (Zlen_nonneg body). wp_bind. eapply wp_EdpPacketType; [exact Hh|]. clear s b Hh. intros s b Hh.
  eapply wp_or_error; [by apply (reads_remainlen (Zlen body))|exact Hh|]. clear s b Hh. intros s b Hh.
  assert (Zlen ([type] ++ MqttCodec.enc_length 4 (Zlen body)) + Zlen body = Zlen (frame type body)) as Hz
    by (unfold frame; rewrite Zlen_cons, !Zlen_app; change (Zlen [type]) with 1; lia).
  eapply (Hf _ _ _ _ Hz). Unshelve. split; [exact Hh|]. pose proof (Zlen_nonneg ([type] ++ MqttCodec.enc_length 4 (Zlen body))). lia.
Qed.

Lemma wp_first {A B C} (m : M (S * Buffer) A) (n : M (S * Buffer) B) (k : B -> M (S * Buffer) C) sb Q :
  wp (m ;; n) sb (fun x sb' => wp (k x) sb' Q) -> wp (m ;; (n ≫= k)) sb Q.
Proof. unfold wp, mbind, M_bind. destruct (m sb) as [[? sb']|]; [|done]. by destruct (n sb') as [[]|]. Qed.

Lemma wp_defined {A} (w : M (S * Buffer) A) sb Q : wp w sb Q -> is_Some (w sb).
Proof. unfold wp. destruct (w sb); [by eexists|done]. Qed.

Ltac unpack Hin := apply wp_or_error_any; first
  [ eapply any_byte; [exact Hin|by try wp_ret|clear Hin; intros ? ? ? Hin]
  | eapply any_uint16; [exact Hin|by try wp_ret|clear Hin; intros ? ? ? ? Hin]
  | eapply any_str; [exact Hin|intros; by try wp_ret|clear Hin; intros ? ? ? ? ? ? Hin] ].

Section safe.
Context (s : S) (b : Buffer) (type : Z) (body : list Z) (Hh : holds b (frame type body) 0) (Hbody : Zlen body < 128 ^ 4).
Let fine {A} (x : A) (sb : S * Buffer) : Prop := True.

Lemma safe_ConnectResp : wp (EdpPacketType ;; UnpackConnectResp) (s, b) fine.
Proof using Hh Hbody.
  unfold UnpackConnectResp. apply wp_first. eapply wp_rest; [exact Hh|done|]. intros s1 b1 r Hin Hr. cbv beta.
  do 2 unpack Hin. by repeat wp_ret.
Qed.

Lemma safe_PingResp : wp (EdpPacketType ;; UnpackPingResp) (s, b) fine.
Proof using Hh Hbody. unfold UnpackPingResp. apply wp_first. eapply wp_rest; [exact Hh|done|]. intros s1 b1 r Hin Hr. by repeat wp_ret. Qed.

Lemma safe_SavedataAck : wp (EdpPacketType ;; UnpackSavedataAck malloc) (s, b) fine.
Proof using Hmalloc Hh Hbody.
  unfold UnpackSavedataAck. eapply wp_rest; [exact Hh|done|]. intros s1 b1 r Hin Hr. cbv beta.
  do 2 unpack Hin. pose proof (inside_bound _ _ _ Hin). destruct (Hin) as [_ ?].
  apply wp_or_error_any. eapply any_bytes; [exact Hin|lia|lia|done|]. intros. by wp_ret.
Qed.

(** The data of a packet are taken when the address was. *)
Lemma safe_Savedata : wp (EdpPacketType ;; r ← UnpackSavedata malloc;
  match r with inl e => mret (inl e) | inr _ => UnpackSavedataSimpleString malloc end) (s, b) fine.
Proof using Hmalloc Hh Hbody.
  apply wp_first. unfold UnpackSavedata. eapply wp_rest; [exact Hh|done|]. intros s1 b1 r Hin Hr. cbv beta.
  assert (forall s2 b2 r' d, inside b2 (frame type body) r' -> wp (or_error ERR_UNPACK_SAVED_DATAFLAG ReadByte (fun jb_flag => mret (inr (d : option (list Z), jb_flag)))) (s2, b2)
    (fun x sb' => wp (match x with inl e => mret (inl e) | inr _ => UnpackSavedataSimpleString malloc end) sb' fine)) as Hjb.
  { intros s2 b2 r' d Hin'. unpack Hin'. wp_ret. unfold UnpackSavedataSimpleString. unpack Hin'. by wp_ret. }
  unpack Hin. cbv zeta. destruct (v =? 128); [|by eapply Hjb]. unpack Hin. by eapply Hjb.
Qed.

Lemma safe_Pushdata : wp (EdpPacketType ;; UnpackPushdata malloc) (s, b) fine.
Proof using Hmalloc Hh Hbody.
  unfold UnpackPushdata. eapply wp_rest; [exact Hh|done|]. intros s1 b1 r Hin Hr. cbv beta.
  unpack Hin. cbv zeta. pose proof (inside_bound _ _ _ Hin). pose proof Hin as [_ ?]. pose proof (Zlen_nonneg (cstring v)). pose proof (Zlen_nonneg body).
  rewrite u32_small by lia. apply wp_or_error_any. eapply any_bytes; [exact Hin|lia| |done|]; [lia|]. intros. by wp_ret.
Qed.
End safe.

(** ** The theorems *)

(** The packet that PacketPushdata builds is a frame that UnpackPushdata takes
    apart again: the device, the data and the length come back, with NULs behind
    the arrays, and everything is read, as the assertion at its end says. *)
Theorem edp_pushdata_roundtrip src data s : nonzero src -> Zlen src < 65536 -> 2 + Zlen src + Zlen data < 128 ^ 4 ->
  wp (pkg ← PacketPushdata malloc free src data (Zlen data); on pkg (t ← EdpPacketType; r ← UnpackPushdata malloc; mret (t, r))) s
    (fun x _ => x.1 = (PUSHDATA, inr (src ++ [0], data ++ [0], Zlen data)) /\ _read_pos x.2 = _write_pos x.2).
Proof using Hmalloc Hfree.
  intros Hnz Hsrc Hlen. wp_bind. apply wp_PacketPushdata; [done|done|]. intros s1 b Hh. apply wp_on.
  wp_bind. eapply wp_EdpPacketType; [exact Hh|]. clear b Hh. intros s2 b Hh. wp_bind. eapply wp_UnpackPushdata; [done|done|done|exact Hh|].
  intros s3 b3 Hend. by wp_ret.
Qed.

(** C37: the packet that PacketSavedataBinStr builds, with an address or without, is
    taken apart by UnpackSavedata (the address, the kind of the data) and
    UnpackSavedataBinStr (the description, the binary data and their length). *)
Theorem edp_savedata_roundtrip dst desc bin s : small_address dst -> nonzero desc -> Zlen desc < 65536 -> Zlen bin <= 3 * 2 ^ 20 ->
  wp (pkg ← PacketSavedataBinStr malloc free dst desc bin (Zlen bin);
      on pkg (t ← EdpPacketType; a ← UnpackSavedata malloc; r ← UnpackSavedataBinStr malloc; mret (t, a, r))) s
    (fun x _ => x.1 = (SAVEDATA, inr ((fun d => d ++ [0]) <$> dst, 2), inr (desc ++ [0], bin ++ [0], Zlen bin)) /\ _read_pos x.2 = _write_pos x.2).
Proof using Hmalloc Hfree.
  intros Hdst Hnz Hdesc Hbin. wp_bind. apply wp_PacketSavedataBinStr; [done..|]. intros s1 b Hh. apply wp_on.
  wp_bind. eapply wp_EdpPacketType; [exact Hh|]. clear b Hh. intros s2 b Hh. wp_bind.
  eapply (wp_UnpackSavedata _ _ _ dst 2); [done|by unfold is_byte; lia| |exact Hh|].
  { change (128 ^ 4) with (2 ^ 28). pose proof (savedata_length dst desc bin) as Hl. unfold savedata_body in Hl. cbn [app] in Hl. rewrite Hl, address_length.
    destruct dst as [dst|]; [destruct Hdst|]; lia. }
  clear s2 b Hh. intros s2 b pre Hh. wp_bind. eapply (wp_UnpackSavedataBinStr _ _ _ desc bin); [done|done|lia|exact Hh|]. intros s3 b3 Hend. by wp_ret.
Qed.

(** Whatever the bytes of a complete packet are, the functions that take it
    apart are defined: they stay inside the packet and the memory they ask for,
    also when the lengths inside the packet are wrong. *)
Theorem edp_unpack_safe s b type body : holds b (frame type body) 0 -> Zlen body < 128 ^ 4 ->
  is_Some ((EdpPacketType ;; UnpackConnectResp) (s, b)) /\ is_Some ((EdpPacketType ;; UnpackPingResp) (s, b)) /\
  is_Some ((EdpPacketType ;; UnpackSavedataAck malloc) (s, b)) /\ is_Some ((EdpPacketType ;; UnpackPushdata malloc) (s, b)) /\
  is_Some ((EdpPacketType ;; r ← UnpackSavedata malloc;
    match r with inl e => mret (inl e) | inr _ => UnpackSavedataSimpleString malloc end) (s, b)).
Proof using Hmalloc.
  intros Hh Hb. split_and!; eapply wp_defined;
    [eapply safe_ConnectResp|eapply safe_PingResp|eapply safe_SavedataAck|eapply safe_Pushdata|eapply safe_Savedata]; done.
Qed.
End edp.

(** ** At concrete inputs *)

Lemma calloc_gives n (s : unit) : 0 <= n -> exists l s', calloc n s = Some (Some l, s') /\ Zlen l = n.
Proof. intros Hn. eexists _, _. split; [reflexivity|]. unfold Zlen. rewrite length_replicate. lia. Qed.

Lemma free_nothing_frees l (s : unit) : exists s', free_nothing l s = Some (tt, s').
Proof. by eexists. Qed.

(** A new receive buffer. *)
Definition empty_buffer : Buffer := mk_buffer (replicate 128 0) 0 0 128.

Lemma empty_buffer_holds : holds empty_buffer [] 0.
Proof. split_and!; [done..|by eexists|]. by exists 7. Qed.

Lemma edp_pushdata_roundtrip_witness :
  wp (pkg ← PacketPushdata calloc free_nothing [100] [1; 0; 2] (Zlen [1; 0; 2]); on pkg (t ← EdpPacketType; r ← UnpackPushdata calloc; mret (t, r))) tt
    (fun x _ => x.1 = (PUSHDATA, inr ([100; 0], [1; 0; 2; 0], 3)) /\ _read_pos x.2 = _write_pos x.2).
Proof. apply (edp_pushdata_roundtrip calloc free_nothing calloc_gives free_nothing_frees [100] [1; 0; 2]); [by repeat constructor|done|done]. Defined.

Lemma edp_savedata_roundtrip_witness :
  wp (pkg ← PacketSavedataBinStr calloc free_nothing (Some [100]) [123; 125] [1; 0] (Zlen [1; 0]);
      on pkg (t ← EdpPacketType; a ← UnpackSavedata calloc; r ← UnpackSavedataBinStr calloc; mret (t, a, r))) tt
    (fun x _ => x.1 = (SAVEDATA, inr (Some [100; 0], 2), inr ([123; 125; 0], [1; 0; 0], 2)) /\ _read_pos x.2 = _write_pos x.2).
Proof.
  apply (edp_savedata_roundtrip calloc free_nothing calloc_gives free_nothing_frees (Some [100]) [123; 125] [1; 0]); [|by repeat constructor|done|by vm_compute].
  split; [by repeat constructor|done].
Defined.

Lemma edp_unpack_safe_witness : is_Some ((EdpPacketType ;; UnpackPushdata calloc) (tt, mk_buffer (frame 0x30 [0; 9; 1] ++ replicate 123 0) 5 0 128)).
Proof.
  refine (proj1 (proj2 (proj2 (proj2 (edp_unpack_safe calloc calloc_gives tt _ 0x30 [0; 9; 1] _ _))))); [|done].
  split_and!; [done..|by eexists|]. by exists 7.
Defined.

(** ** Lengths that wrap *)

(** A complete packet whose 32-bit length makes the test of the bounds wrap: the
    copy leaves the packet. *)
Lemma UnpackCmdReq_wraps : exists pkg b,
  GetEdpPacket calloc free_nothing (mk_buffer ([0xA0; 6; 0; 0; 255; 255; 255; 255] ++ replicate 120 0) 8 0 128) tt = Some (Some pkg, b, tt) /\
  on (Some pkg) (EdpPacketType ;; UnpackCmdReq calloc) tt = None.
Proof. eexists _, _. split; [reflexivity|reflexivity]. Qed.

(** The subtraction of UnpackPushdata wraps for a buffer that is not a frame. *)
Lemma UnpackPushdata_wraps : on (Some (mk_buffer ([0x30; 2; 0; 1; 65] ++ replicate 123 0) 5 0 128)) (EdpPacketType ;; UnpackPushdata calloc) tt = None.
Proof. reflexivity. Qed.
