(* ===== verification/EdpDemo.v ===== *)
(** * The receiving of EDP packets (components/net/Protocol/edp/EdpDemo.c)

    What the WiFi module has sent is searched for the data of the server, which
    are cut into packets.  The receive buffer lives as long as one call of
    [Recv_Thread_Func].  The functions of the serial line (USART2_GetRcvData) are
    not in the repository: the array [buffer] is what they have left when their
    loop ends.  What the switch does with a packet, by its type, is an argument:
    it calls the functions of EdpKit.v, prints, and reads JSON. *)

From S2P Require Import Prelude Cstr EdpKit EdpPacket.

Open Scope Z_scope.

(** ** The data of the server *)

Definition is_digit (c : Z) : bool := (48 <=? c) && (c <=? 57).
Definition is_space (c : Z) : bool := (c =? 32) || ((9 <=? c) && (c <=? 13)).

Fixpoint atoi_digits (s : list Z) (v : Z) : Z :=
  match s with
  | c :: s => if is_digit c then atoi_digits s (10 * v + (c - 48)) else v
  | [] => v
  end.

(** The function of the C library; a value that is no int is undefined. *)
Fixpoint atoi (s : list Z) : option Z :=
  match s with
  | c :: s' =>
      if is_space c then atoi s' else
      let v := if c =? 45 then - atoi_digits s' 0 else if c =? 43 then atoi_digits s' 0 else atoi_digits s 0 in
      if (- 2 ^ 31 <=? v) && (v <? 2 ^ 31) then Some v else None
  | [] => Some 0
  end.

(** "+IPD". *)
Definition IPD : list Z := [43; 73; 80; 68].

(** The bytes from the first one of the server to the end of the array, and the
    length; [None] inside is the result NULL.  The other searches only print. *)
Definition uartDataParse (buffer : list Z) : option (option (list Z * Z)) :=
  s ← cstr_from buffer 0;
  match find_sub IPD s with
  | None => Some None
  | Some p =>
      let pnum := p + 5 in
      colon ← find_sub [58] (drop (Z.to_nat p) s);
      let p := p + colon in
      buffer ← set_at buffer p 0;
      let p := p + 1 in
      num ← cstr_from buffer pnum; len ← atoi num;
      Some (Some (drop (Z.to_nat p) buffer, len))
  end.

(** ** The thread *)

Section thread.
Context {S : Type} (malloc : Z -> M S (option (list Z))) (free : list Z -> M S unit).

(** The bytes of a structure as the compiler lays it out, and the switch. *)
Context (layout : Buffer -> list Z) (switch : Z -> M (S * Buffer) unit).

(** The packets that the loop takes from the buffer, with the types that the
    switch sees.  Every packet has bytes, so there are no more packets than
    bytes. *)
Fixpoint drain (fuel : nat) (recv_buf : Buffer) : M S (list (Z * Buffer) * Buffer) :=
  match fuel with
  | O => ub
  | Datatypes.S fuel =>
      r ← GetEdpPacket malloc free recv_buf;
      match r.1 with
      | None => mret ([], r.2)
      | Some pkg =>
          h ← on (Some pkg) (mtype ← EdpPacketType; switch mtype ;; mret mtype);
          DeleteBuffer free (layout h.2) h.2 ;;
          q ← drain fuel r.2; mret ((h.1, pkg) :: q.1, q.2)
      end
  end.

Definition Recv_Thread_Func (buffer : list Z) : M S (list (Z * Buffer)) :=
  recv_buf ← NewBuffer malloc free;
  p ← of_opt (uartDataParse buffer);
  match p with
  | None => b ← of_opt recv_buf; DeleteBuffer free (layout b) b ;; mret []
  | Some (p, rcv_len) =>
      r ← on recv_buf (WriteBytes malloc free p (u32 rcv_len));
      q ← drain (Datatypes.S (Z.to_nat (_write_pos r.2))) r.2;
      DeleteBuffer free (layout q.2) q.2 ;; mret q.1
  end.
End thread.

(** ** The number in front of the data *)










(** ** The packets *)

Section packets.
Context {S : Type} (malloc : Z -> M S (option (list Z))) (free : list Z -> M S unit).
Context (Hmalloc : forall n s, 0 <= n -> exists l s', malloc n s = Some (Some l, s') /\ Zlen l = n).
Context (Hfree : forall l s, exists s', free l s = Some (tt, s')).
Context (layout : Buffer -> list Z) (switch : Z -> M (S * Buffer) unit).



Lemma wp_DeleteBuffer m b s Q : (forall s', Q tt s') -> wp (DeleteBuffer free m b) s Q.
Proof using Hfree.
  intros HQ. unfold DeleteBuffer. destruct (Hfree (_data b) s) as (s1 & H1), (Hfree m s1) as (s2 & H2).
  wp_bind. eapply wp_run; [exact H1|]. eapply wp_run; [exact H2|]. apply HQ.
Qed.



(** Without data of the server nothing is done. *)
Theorem edp_no_data buffer t rest s : buffer = t ++ 0 :: rest -> nonzero t -> (forall a b, t <> a ++ IPD ++ b) ->
  wp (Recv_Thread_Func malloc free layout switch buffer) s (fun pkgs _ => pkgs = []).
Proof using Hmalloc Hfree.
  intros -> Ht Hno%find_sub_none. unfold Recv_Thread_Func. wp_bind. apply wp_NewBuffer; [done..|]. intros s1 b1 Hb1.
  assert (uartDataParse (t ++ 0 :: rest) = Some None) as Hp.
  { unfold uartDataParse. rewrite (cstr_from_mid [] t rest 0 eq_refl Ht : cstr_from (t ++ 0 :: rest) 0 = _).
    cbn [mbind option_bind]. by rewrite Hno. }
  wp_bind. eapply wp_of_opt; [exact Hp|]. cbn beta iota. wp_bind. eapply wp_of_opt; [done|].
  wp_bind. apply wp_DeleteBuffer. intros s2. by wp_ret.
Qed.
End packets.

(** ** At concrete inputs *)

(** A switch that knows PINGRESP and the answer to a connection. *)
Definition example_switch (mtype : Z) : M (unit * Buffer) unit :=
  if mtype =? 0xD0 then UnpackPingResp ;; mret tt else if mtype =? 0x20 then UnpackConnectResp ;; mret tt else mret tt.

Definition example_received (data : list Z) (rest : nat) : list Z :=
  [79; 75; 13; 10] ++ IPD ++ [44] ++ [48 + Zlen data] ++ [58] ++ data ++ replicate rest 0.


(** A packet that arrives in two pieces is lost: each call has a receive buffer
    of its own. *)
Lemma split_packet_lost :
  let call data := fst <$> Recv_Thread_Func calloc free_nothing (fun _ => []) example_switch (example_received data 100) tt in
  call [0xD0] = Some [] /\ call [0] = Some [].
Proof. split; vm_compute; reflexivity. Qed.
