(* ===== verification/Device.v ===== *)
(** * Devices (src/device.c)

    The layer between programs and drivers: initialisation on the first open, the
    count of the opens, and the calls of the driver.  A driver is a record of the
    functions of struct rt_device; the state it works on has the fields of the
    device that this layer uses.  [driver_contract] is what a driver promises to
    this layer, and [session_run] what the layer then
    promises to programs. *)

From S2P Require Import Prelude Klist Kernel Object Sched Thread.

Open Scope Z_scope.

Definition RT_EIO : Z := 8.
Definition RT_EBUSY : Z := 7.
Definition RT_ENOSYS : Z := 6.

Definition RT_DEVICE_FLAG_STANDALONE : Z := 0x008.
Definition RT_DEVICE_FLAG_ACTIVATED : Z := 0x010.
Definition RT_DEVICE_OFLAG_CLOSE : Z := 0x000.
Definition RT_DEVICE_OFLAG_OPEN : Z := 0x008.
Definition RT_DEVICE_OFLAG_MASK : Z := 0xf0f.

(** The callbacks are numbers: what they do is the program's. *)
Record rt_device := mk_device {
  dev_flag : Z; open_flag : Z; ref_count : Z; rx_indicate : option Z; tx_complete : option Z }.

Definition set_dev_flag (d : rt_device) f := mk_device f (open_flag d) (ref_count d) (rx_indicate d) (tx_complete d).
Definition set_open_flag (d : rt_device) f := mk_device (dev_flag d) f (ref_count d) (rx_indicate d) (tx_complete d).
Definition set_ref_count (d : rt_device) n := mk_device (dev_flag d) (open_flag d) n (rx_indicate d) (tx_complete d).
Definition set_rx_indicate (d : rt_device) f := mk_device (dev_flag d) (open_flag d) (ref_count d) f (tx_complete d).
Definition set_tx_complete (d : rt_device) f := mk_device (dev_flag d) (open_flag d) (ref_count d) (rx_indicate d) f.

(** A bit of a word. *)
Definition has (w bit : Z) : bool := negb (Z.land w bit =? 0).

(** A state with a device in it. *)
Class device_state (S : Type) := { dev : S -> rt_device; set_dev : rt_device -> S -> S }.

(** The functions of struct rt_device.  Reading gives the result and the bytes
    that are in the buffer; [A] are the arguments of the control function. *)
Record driver (S A : Type) := mk_driver {
  drv_init : option (M S Z);
  drv_open : option (Z -> M S Z);
  drv_close : option (M S Z);
  drv_read : option (Z -> Z -> M S (Z * list Z));
  drv_write : option (Z -> list Z -> M S Z);
  drv_control : option (Z -> A -> M S Z);
}.
Arguments mk_driver {S A}.
Arguments drv_init {S A}.
Arguments drv_open {S A}.
Arguments drv_close {S A}.
Arguments drv_read {S A}.
Arguments drv_write {S A}.
Arguments drv_control {S A}.

Section device.
Context {S A : Type} {HS : device_state S} (d : driver S A) (set_errno : Z -> M S unit).

Definition get_dev : M S rt_device := s ← get; mret (dev s).
Definition modify_dev (f : rt_device -> rt_device) : M S unit := s ← get; put (set_dev (f (dev s)) s).

Definition rt_device_init : M S Z :=
  x ← get_dev;
  match drv_init d with
  | None => mret RT_EOK
  | Some init =>
      if has (dev_flag x) RT_DEVICE_FLAG_ACTIVATED then mret RT_EOK else
      result ← init;
      if negb (result =? RT_EOK) then mret result else
      modify_dev (fun x => set_dev_flag x (Z.lor (dev_flag x) RT_DEVICE_FLAG_ACTIVATED)) ;; mret result
  end.

(** The initialisation in rt_device_open, and its error. *)
Definition open_init : M S (option Z) :=
  x ← get_dev;
  if has (dev_flag x) RT_DEVICE_FLAG_ACTIVATED then mret None else
  result ← match drv_init d with Some init => init | None => mret RT_EOK end;
  if negb (result =? RT_EOK) then mret (Some result) else
  modify_dev (fun x => set_dev_flag x (Z.lor (dev_flag x) RT_DEVICE_FLAG_ACTIVATED)) ;; mret None.

Definition rt_device_open (oflag : Z) : M S Z :=
  e ← open_init;
  match e with
  | Some result => mret result
  | None =>
      x ← get_dev;
      if has (dev_flag x) RT_DEVICE_FLAG_STANDALONE && has (open_flag x) RT_DEVICE_OFLAG_OPEN then mret (- RT_EBUSY) else
      result ← match drv_open d with
        | Some open => open oflag
        | None => modify_dev (fun x => set_open_flag x (Z.land oflag RT_DEVICE_OFLAG_MASK)) ;; mret RT_EOK
        end;
      if (result =? RT_EOK) || (result =? - RT_ENOSYS) then
        modify_dev (fun x => set_open_flag x (Z.lor (open_flag x) RT_DEVICE_OFLAG_OPEN)) ;;
        modify_dev (fun x => set_ref_count x (u8 (ref_count x + 1))) ;;
        x ← get_dev;
        if ref_count x =? 0 then ub else mret result
      else mret result
  end.

Definition rt_device_close : M S Z :=
  x ← get_dev;
  if ref_count x =? 0 then mret (- RT_ERROR) else
  modify_dev (fun x => set_ref_count x (u8 (ref_count x - 1))) ;;
  x ← get_dev;
  if negb (ref_count x =? 0) then mret RT_EOK else
  result ← match drv_close d with Some close => close | None => mret RT_EOK end;
  if (result =? RT_EOK) || (result =? - RT_ENOSYS) then
    modify_dev (fun x => set_open_flag x RT_DEVICE_OFLAG_CLOSE) ;; mret result
  else mret result.

Definition rt_device_read (pos size : Z) : M S (Z * list Z) :=
  x ← get_dev;
  if ref_count x =? 0 then set_errno (- RT_ERROR) ;; mret (0, []) else
  match drv_read d with Some read => read pos size | None => set_errno (- RT_ENOSYS) ;; mret (0, []) end.

Definition rt_device_write (pos : Z) (buffer : list Z) : M S Z :=
  x ← get_dev;
  if ref_count x =? 0 then set_errno (- RT_ERROR) ;; mret 0 else
  match drv_write d with Some write => write pos buffer | None => set_errno (- RT_ENOSYS) ;; mret 0 end.

Definition rt_device_control (cmd : Z) (arg : A) : M S Z :=
  match drv_control d with Some control => control cmd arg | None => mret (- RT_ENOSYS) end.

Definition rt_device_set_rx_indicate (rx_ind : option Z) : M S Z := modify_dev (fun x => set_rx_indicate x rx_ind) ;; mret RT_EOK.
Definition rt_device_set_tx_complete (tx_done : option Z) : M S Z := modify_dev (fun x => set_tx_complete x tx_done) ;; mret RT_EOK.
End device.

(** ** Registration, in the object lists of the kernel *)

Definition rt_device_find (name : list Z) : K (option addr) :=
  self ← rt_thread_self;
  (match self with Some _ => rt_enter_critical | None => mret tt end) ;;
  information ← of_opt (rt_object_get_information RT_Object_Class_Device);
  n ← list_next information; k ← get;
  r ← find_loop (Datatypes.S (size (lists k))) information n name;
  self ← rt_thread_self;
  (match self with Some _ => rt_exit_critical | None => mret tt end) ;;
  mret r.

(** The object part, and the fields of a device that is registered. *)
Definition rt_device_register (device : addr) (name : list Z) : K Z :=
  r ← rt_device_find name;
  match r with
  | Some _ => mret (- RT_ERROR)
  | None => rt_object_init device RT_Object_Class_Device name ;; mret RT_EOK
  end.

Definition registered (flags : Z) (x : rt_device) : rt_device := mk_device flags 0 0 (rx_indicate x) (tx_complete x).

Definition rt_device_unregister (device : addr) : K Z := rt_object_detach device ;; mret RT_EOK.

(** ** What a driver promises

    [X] is what the driver keeps for an open device, as far as programs see it.
    [closed] and [opened x] do not depend on the fields that only this layer
    writes; reading and what happens in between (an interrupt) are relations. *)

Record session_spec (X Ev : Type) := mk_spec {
  ok_flags : Z -> Prop;
  fresh : X;
  spec_read : X -> Z -> Z * list Z -> X -> Prop;
  spec_event : X -> Ev -> X -> Prop;
}.
Arguments mk_spec {X Ev}.
Arguments ok_flags {X Ev}.
Arguments fresh {X Ev}.
Arguments spec_read {X Ev}.
Arguments spec_event {X Ev}.

Class driver_contract {S A : Type} {HS : device_state S} (d : driver S A) {X Ev : Type} (sp : session_spec X Ev) (event : Ev -> M S unit) := {
  closed : S -> Prop;
  opened : X -> S -> Prop;
  dev_set s x : dev (set_dev x s) = x;
  closed_ref s n : closed s -> closed (set_dev (set_ref_count (dev s) n) s);
  closed_activated s : closed s -> closed (set_dev (set_dev_flag (dev s) (Z.lor (dev_flag (dev s)) RT_DEVICE_FLAG_ACTIVATED)) s);
  opened_ref s n x : opened x s -> opened x (set_dev (set_ref_count (dev s) n) s);
  opened_open s x : opened x s -> opened x (set_dev (set_open_flag (dev s) (Z.lor (open_flag (dev s)) RT_DEVICE_OFLAG_OPEN)) s);
  init_ok s init : drv_init d = Some init -> closed s -> wp init s (fun r s' => r = RT_EOK /\ closed s' /\ dev s' = dev s);
  open_ok s open f o : drv_open d = Some open -> ok_flags sp f -> (match o with None => closed s | Some x => opened x s end) ->
    wp (open f) s (fun r s' => r = RT_EOK /\ opened (default (fresh sp) o) s' /\ dev_flag (dev s') = dev_flag (dev s) /\ ref_count (dev s') = ref_count (dev s));
  close_ok s close x : drv_close d = Some close -> opened x s -> ref_count (dev s) = 0 ->
    wp close s (fun r s' => r = RT_EOK /\ closed (set_dev (set_open_flag (dev s') RT_DEVICE_OFLAG_CLOSE) s') /\
      dev_flag (dev s') = dev_flag (dev s) /\ ref_count (dev s') = ref_count (dev s));
  read_ok s read x pos n : drv_read d = Some read -> opened x s -> 0 <= n ->
    wp (read pos n) s (fun l s' => exists x', spec_read sp x n l x' /\ opened x' s' /\ dev s' = dev s);
  event_ok s x e : opened x s -> wp (event e) s (fun _ s' => exists x', spec_event sp x e x' /\ opened x' s' /\ dev s' = dev s);
}.

(** ** What programs see

    The calls of programs and interrupts, and what comes out of them. *)

(** Calls of programs, and interrupts. *)
Inductive call (Ev : Type) := Open (oflag : Z) | Close | Read (pos n : Z) | Event (e : Ev).
Arguments Open {Ev}.
Arguments Close {Ev}.
Arguments Read {Ev}.
Arguments Event {Ev}.

Section session_spec.
Context {X Ev : Type} (sp : session_spec X Ev).
Notation call := (call Ev).

(** How often the device is open, and what it holds while it is. *)
Definition session : Type := Z * X.

Inductive session_step : session -> call -> Z + Z * list Z -> session -> Prop :=
  | step_first x f : ok_flags sp f -> session_step (0, x) (Open f) (inl RT_EOK) (1, fresh sp)
  | step_open n x f : 0 < n < 255 -> ok_flags sp f -> session_step (n, x) (Open f) (inl RT_EOK) (n + 1, x)
  | step_close n x : 0 < n -> session_step (n, x) Close (inl RT_EOK) (n - 1, x)
  | step_not_open x : session_step (0, x) Close (inl (- RT_ERROR)) (0, x)
  | step_read n x pos k l x' : 0 < n -> 0 <= k -> spec_read sp x k l x' -> session_step (n, x) (Read pos k) (inr l) (n, x')
  | step_read_closed x pos k : session_step (0, x) (Read pos k) (inr (0, [])) (0, x)
  | step_event n x e x' : 0 < n -> spec_event sp x e x' -> session_step (n, x) (Event e) (inl RT_EOK) (n, x').

(** How often the device is open after a call. *)
Definition next_count (n : Z) (c : call) : Z :=
  match c with Open _ => n + 1 | Close => if n =? 0 then 0 else n - 1 | _ => n end.

(** Calls that programs may make: no more than 255 opens, and interrupts only
    while the device is open. *)
Definition allowed (n : Z) (c : call) : Prop :=
  match c with
  | Open f => n < 255 /\ ok_flags sp f
  | Close => True
  | Read _ k => 0 <= k
  | Event _ => 0 < n
  end.

Fixpoint all_allowed (n : Z) (cs : list call) : Prop :=
  match cs with [] => True | c :: cs => allowed n c /\ all_allowed (next_count n c) cs end.

Lemma step_count a c out a' : session_step a c out a' -> a'.1 = next_count a.1 c.
Proof. by destruct 1; cbn; rewrite ?(proj2 (Z.eqb_neq _ _)) by lia. Qed.

(** What the specification allows for the calls, as long as they are allowed. *)
Inductive session_run : session -> list call -> list (Z + Z * list Z) -> session -> Prop :=
  | run_nil a : session_run a [] [] a
  | run_cons a c cs out outs a1 a' : session_step a c out a1 -> session_run a1 cs outs a' -> session_run a (c :: cs) (out :: outs) a'.

End session_spec.

Section sessions.
Context {S A : Type} {HS : device_state S} (d : driver S A) {X Ev : Type} {sp : session_spec X Ev} (event : Ev -> M S unit) {C : driver_contract d sp event}.
Notation call := (call Ev).
Notation session := (session (X := X)).
Context (set_errno : Z -> M S unit).
Context (errno_frame : forall e s, closed s -> wp (set_errno e) s (fun _ s' => closed s' /\ dev s' = dev s)).
Context (Hopen : is_Some (drv_open d)) (Hclose : is_Some (drv_close d)) (Hread : is_Some (drv_read d)).

Definition run_call (c : call) : M S (Z + Z * list Z) :=
  match c with
  | Open f => r ← rt_device_open d f; mret (inl r)
  | Close => r ← rt_device_close d; mret (inl r)
  | Read pos n => l ← rt_device_read d set_errno pos n; mret (inr l)
  | Event e => event e ;; mret (inl RT_EOK)
  end.

Definition in_session (a : session) (s : S) : Prop :=
  0 <= a.1 < 256 /\ ref_count (dev s) = a.1 /\ has (dev_flag (dev s)) RT_DEVICE_FLAG_STANDALONE = false /\
  (if a.1 =? 0 then closed s else has (dev_flag (dev s)) RT_DEVICE_FLAG_ACTIVATED = true /\ opened a.2 s).

Lemma wp_get_dev s Q : Q (dev s) s -> wp get_dev s Q.
Proof. done. Qed.

Lemma wp_modify_dev f s Q : Q tt (set_dev (f (dev s)) s) -> wp (modify_dev f) s Q.
Proof. done. Qed.

Lemma has_lor w bit other : has w other = true -> has (Z.lor w bit) other = true.
Proof.
  unfold has. rewrite !negb_true_iff, !Z.eqb_neq, Z.land_lor_distr_l. intros Hw H0%Z.lor_eq_0_iff. by destruct H0.
Qed.

Lemma has_lor_other w bit other : Z.land bit other = 0 -> has (Z.lor w bit) other = has w other.
Proof. intros Hb. unfold has. by rewrite Z.land_lor_distr_l, Hb, Z.lor_0_r. Qed.

Lemma has_lor_self w bit : bit <> 0 -> has (Z.lor w bit) bit = true.
Proof.
  intros Hb. unfold has. rewrite Z.land_lor_distr_l, Z.land_diag. apply negb_true_iff, Z.eqb_neq. intros H0%Z.lor_eq_0_iff. by destruct H0.
Qed.

(** The initialisation, which happens at most once. *)
Lemma wp_open_init s Q : closed s ->
  (forall s', closed s' -> ref_count (dev s') = ref_count (dev s) -> has (dev_flag (dev s')) RT_DEVICE_FLAG_ACTIVATED = true ->
     has (dev_flag (dev s')) RT_DEVICE_FLAG_STANDALONE = has (dev_flag (dev s)) RT_DEVICE_FLAG_STANDALONE -> Q None s') -> wp (open_init d) s Q.
Proof using C.
  intros Hc HQ. unfold open_init. wp_bind. apply wp_get_dev. destruct (has (dev_flag (dev s)) RT_DEVICE_FLAG_ACTIVATED) eqn:Ha; [wp_ret; by apply HQ|].
  assert (forall s', closed s' -> dev s' = dev s -> wp (modify_dev (fun x => set_dev_flag x (Z.lor (dev_flag x) RT_DEVICE_FLAG_ACTIVATED)) ;; mret None) s' Q) as Hrest.
  { intros s' Hc' Hd. wp_bind. apply wp_modify_dev. wp_ret. apply HQ; [by apply closed_activated|by rewrite dev_set, Hd|rewrite dev_set; by apply has_lor_self|].
    rewrite dev_set, Hd. by apply has_lor_other. }
  wp_bind. destruct (drv_init d) as [init|] eqn:Hi.
  - eapply wp_mono; [by eapply init_ok|]. cbv beta. intros r s' (-> & Hc' & Hd). by apply Hrest.
  - wp_ret. by apply Hrest.
Qed.

(** After the driver has opened the device. *)
Lemma wp_opened s x n Q : opened x s -> ref_count (dev s) = n -> 0 <= n < 255 ->
  (forall s', opened x s' -> ref_count (dev s') = n + 1 -> dev_flag (dev s') = dev_flag (dev s) -> Q RT_EOK s') ->
  wp (modify_dev (fun x => set_open_flag x (Z.lor (open_flag x) RT_DEVICE_OFLAG_OPEN)) ;;
      modify_dev (fun x => set_ref_count x (u8 (ref_count x + 1))) ;;
      x ← get_dev; if ref_count x =? 0 then ub else mret RT_EOK) s Q.
Proof using C.
  intros Ho Hn Hr HQ. wp_bind. apply wp_modify_dev. apply opened_open in Ho. set (s1 := set_dev _ s) in *.
  assert (dev s1 = set_open_flag (dev s) (Z.lor (open_flag (dev s)) RT_DEVICE_OFLAG_OPEN)) as Hd1 by apply dev_set.
  wp_bind. apply wp_modify_dev. apply (opened_ref _ (u8 (ref_count (dev s1) + 1))) in Ho. set (s2 := set_dev _ s1) in *.
  assert (dev s2 = set_ref_count (dev s1) (u8 (ref_count (dev s1) + 1))) as Hd2 by apply dev_set.
  assert (ref_count (dev s2) = n + 1) as Hn2 by (rewrite Hd2, Hd1; cbn; rewrite Hn, u8_small; lia).
  wp_bind. apply wp_get_dev. rewrite Hn2, (proj2 (Z.eqb_neq _ _)) by lia. wp_ret. apply HQ; [done|done|by rewrite Hd2, Hd1].
Qed.

Lemma open_step n x s f : in_session (n, x) s -> n < 255 -> ok_flags sp f ->
  wp (rt_device_open d f) s (fun r s' => exists a', session_step sp (n, x) (Open f) (inl r) a' /\ in_session a' s').
Proof using C Hopen.
  intros (Hn & Href & Hst & Hin) Hlt Hf. cbn [fst snd] in *. destruct Hopen as [open Ho]. unfold rt_device_open. rewrite Ho.
  destruct (Z.eqb_spec n 0) as [->|Hne].
  - wp_bind. apply wp_open_init; [done|]. intros s1 Hc1 Href1 Hact Hst1. cbn iota. wp_bind. apply wp_get_dev. rewrite Hst1, Hst. cbn [andb].
    wp_bind. eapply wp_mono; [by apply (open_ok s1 open f None)|]. cbv beta. intros r s2 (-> & Ho2 & Hf2 & Hr2). cbn [default] in Ho2.
    change ((RT_EOK =? RT_EOK) || (RT_EOK =? - RT_ENOSYS)) with true. cbn iota. eapply (wp_opened _ _ 0); [exact Ho2|congruence|lia|].
    intros s3 Ho3 Hr3 Hf3. exists (1, fresh sp). split; [by constructor|]. split; [cbn; lia|]. cbn [fst snd]. split; [done|]. rewrite Hf3, Hf2.
    split; [by rewrite Hst1|]. by split.
  - destruct Hin as [Hact Hx]. wp_bind. unfold open_init. wp_bind. apply wp_get_dev. rewrite Hact. wp_ret. cbn iota. wp_bind. apply wp_get_dev. rewrite Hst. cbn [andb].
    wp_bind. eapply wp_mono; [by apply (open_ok s open f (Some x))|]. cbv beta. intros r s2 (-> & Ho2 & Hf2 & Hr2). cbn [default] in Ho2.
    change ((RT_EOK =? RT_EOK) || (RT_EOK =? - RT_ENOSYS)) with true. cbn iota. eapply (wp_opened _ _ n); [exact Ho2|congruence|lia|].
    intros s3 Ho3 Hr3 Hf3. exists (n + 1, x). split; [constructor; [lia|done]|]. split; [cbn; lia|]. cbn [fst snd]. split; [done|]. rewrite Hf3, Hf2.
    split; [done|]. rewrite (proj2 (Z.eqb_neq _ _)) by lia. by split.
Qed.

Lemma close_step n x s : in_session (n, x) s ->
  wp (rt_device_close d) s (fun r s' => exists a', session_step sp (n, x) Close (inl r) a' /\ in_session a' s').
Proof using C Hclose.
  intros (Hn & Href & Hst & Hin). cbn [fst snd] in *. unfold rt_device_close. wp_bind. apply wp_get_dev. rewrite Href.
  destruct (Z.eqb_spec n 0) as [->|Hne].
  { wp_ret. exists (0, x). split; [constructor|]. by split_and!. }
  destruct Hin as [Hact Hx]. wp_bind. apply wp_modify_dev. apply (opened_ref _ (u8 (ref_count (dev s) - 1))) in Hx. set (s1 := set_dev _ s) in *.
  assert (dev s1 = set_ref_count (dev s) (u8 (ref_count (dev s) - 1))) as Hd1 by apply dev_set.
  assert (ref_count (dev s1) = n - 1) as Hr1 by (rewrite Hd1; cbn; rewrite Href, u8_small; lia).
  wp_bind. apply wp_get_dev. rewrite Hr1. destruct (Z.eqb_spec (n - 1) 0) as [Hz|Hnz].
  - destruct Hclose as [close Hcl]. rewrite Hcl. cbn [negb]. wp_bind. eapply wp_mono; [eapply close_ok; [exact Hcl|exact Hx|lia]|].
    cbv beta. intros r s2 (-> & Hc2 & Hf2 & Hr2). change ((RT_EOK =? RT_EOK) || (RT_EOK =? - RT_ENOSYS)) with true. cbn iota.
    wp_bind. apply wp_modify_dev. wp_ret. exists (n - 1, x). split; [constructor; lia|]. split; [cbn; lia|]. cbn [fst snd]. rewrite dev_set. cbn [ref_count dev_flag set_open_flag].
    rewrite Hr2, Hf2, Hr1, Hd1. split; [done|]. split; [done|]. by rewrite Hz.
  - cbn [negb]. wp_ret. exists (n - 1, x). split; [constructor; lia|]. split; [cbn; lia|]. cbn [fst snd]. rewrite Hr1, Hd1. split; [done|]. split; [done|].
    rewrite (proj2 (Z.eqb_neq _ _)) by lia. by split.
Qed.

Lemma in_session_event n x x' s s' : 0 < n -> in_session (n, x) s -> opened x' s' -> dev s' = dev s -> in_session (n, x') s'.
Proof.
  intros Hpos (Hn & Href & Hst & Hin) Ho Hd. cbn [fst snd] in *. rewrite (proj2 (Z.eqb_neq _ _)) in Hin by lia. destruct Hin as [Hact _].
  split; [done|]. cbn [fst snd]. rewrite Hd. split_and!; [done|done|]. rewrite (proj2 (Z.eqb_neq _ _)) by lia. by split.
Qed.

Lemma in_session_open n x s : 0 < n -> in_session (n, x) s -> opened x s.
Proof. intros Hpos (_ & _ & _ & Hin). cbn [fst snd] in Hin. rewrite (proj2 (Z.eqb_neq _ _)) in Hin by lia. apply Hin. Qed.

(** Every call of a program behaves like the specification of the sessions. *)
Lemma call_step a s c : in_session a s -> allowed sp a.1 c ->
  wp (run_call c) s (fun out s' => exists a', session_step sp a c out a' /\ in_session a' s').
Proof using C Hopen Hclose Hread errno_frame.
  destruct a as [n x]. intros Hin Hall. pose proof Hin as (Hn & Href & _). cbn [fst snd] in Hn, Href. destruct c as [f| |pos k|e]; cbn [run_call allowed fst snd] in *.
  - wp_bind. eapply wp_mono; [eapply open_step; [done|apply Hall|apply Hall]|]. cbv beta. intros r s' H. by wp_ret.
  - wp_bind. eapply wp_mono; [by eapply close_step|]. cbv beta. intros r s' H. by wp_ret.
  - wp_bind. unfold rt_device_read. wp_bind. apply wp_get_dev. rewrite Href. destruct (Z.eqb_spec n 0) as [->|Hne].
    + destruct Hin as (_ & _ & Hst & Hc). cbn [fst snd] in *. wp_bind. eapply wp_mono; [by apply errno_frame|]. cbv beta. intros u s' [Hc' Hd'].
      wp_ret. exists (0, x). split; [apply step_read_closed|]. split; [cbn; lia|]. rewrite Hd'. by split_and!.
    + destruct Hread as [read Hr]. rewrite Hr. eapply wp_mono; [eapply read_ok; [exact Hr|eapply in_session_open; [|exact Hin]; lia|done]|].
      cbv beta. intros l s' (x' & Hl & Ho & Hd). wp_ret. exists (n, x'). split; [constructor; [lia|done|done]|]. eapply in_session_event; [lia|done|done|done].
  - wp_bind. eapply wp_mono; [eapply event_ok, in_session_open; [exact Hall|exact Hin]|]. cbv beta. intros u s' (x' & He & Ho & Hd). wp_ret.
    exists (n, x'). split; [by constructor|]. by eapply in_session_event.
Qed.

(** Any sequence of them. *)
Fixpoint run_calls (cs : list call) : M S (list (Z + Z * list Z)) :=
  match cs with
  | [] => mret []
  | c :: cs => out ← run_call c; outs ← run_calls cs; mret (out :: outs)
  end.

Lemma calls_run cs : forall a s, in_session a s -> all_allowed sp a.1 cs ->
  wp (run_calls cs) s (fun outs s' => exists a', session_run sp a cs outs a' /\ in_session a' s').
Proof using C Hopen Hclose Hread errno_frame.
  induction cs as [|c cs IH]; intros a s Hin Hok; cbn [run_calls].
  - wp_ret. exists a. split; [constructor|done].
  - destruct Hok as [Hall Hnext]. wp_bind. eapply wp_mono; [by apply call_step|]. cbv beta. intros out s1 (a1 & Hstep & Hin1).
    wp_bind. eapply wp_mono; [apply (IH a1); [done|by rewrite (step_count _ _ _ _ _ Hstep)]|]. cbv beta. intros outs s2 (a' & Hrun & Hin'). wp_ret. exists a'. split; [by econstructor|done].
Qed.
End sessions.
