(* ===== verification/Serial.v ===== *)
(** * Serial devices (components/drivers/serial/serial.c)

    The driver that the AT client and the shell read from and write to: a software
    fifo that the receive interrupt fills and programs empty, the polled and the
    DMA modes, and the functions of the device interface.  The UART hardware with
    its operations (struct rt_uart_ops), the heap, the callbacks, and what the
    transmission waits on are parameters that work on a state [H].  Without
    termios. *)

From S2P Require Import Prelude Klist Kernel Device.

Open Scope Z_scope.

Definition RT_DEVICE_FLAG_SUSPENDED : Z := 0x020.
Definition RT_DEVICE_FLAG_STREAM : Z := 0x040.
Definition RT_DEVICE_FLAG_INT_RX : Z := 0x100.
Definition RT_DEVICE_FLAG_DMA_RX : Z := 0x200.
Definition RT_DEVICE_FLAG_INT_TX : Z := 0x400.
Definition RT_DEVICE_FLAG_DMA_TX : Z := 0x800.

Definition RT_DEVICE_CTRL_RESUME : Z := 0x01.
Definition RT_DEVICE_CTRL_SUSPEND : Z := 0x02.
Definition RT_DEVICE_CTRL_CONFIG : Z := 0x03.
Definition RT_DEVICE_CTRL_SET_INT : Z := 0x10.
Definition RT_DEVICE_CTRL_CLR_INT : Z := 0x11.

Definition RT_SERIAL_EVENT_RX_IND : Z := 0x01.
Definition RT_SERIAL_EVENT_TX_DONE : Z := 0x02.
Definition RT_SERIAL_EVENT_RX_DMADONE : Z := 0x03.
Definition RT_SERIAL_EVENT_TX_DMADONE : Z := 0x04.
Definition RT_SERIAL_DMA_RX : Z := 0x01.
Definition RT_SERIAL_DMA_TX : Z := 0x02.

Record serial_configure := mk_configure {
  baud_rate : Z; data_bits : Z; stop_bits : Z; parity : Z; bit_order : Z; invert : Z; bufsz : Z }.

Record rt_serial_rx_fifo := mk_fifo { buffer : list Z; put_index : Z; get_index : Z; is_full : bool }.

(** What serial_rx and serial_tx point to. *)
Inductive serial_rx_data := Rx_fifo (f : rt_serial_rx_fifo) | Rx_dma (activated : bool).
Inductive serial_tx_data := Tx_fifo | Tx_dma (activated : bool).

(** ** The software fifo *)

(** A character is stored. *)
Definition rx_store (f : rt_serial_rx_fifo) (ch : Z) : option rt_serial_rx_fifo :=
  d ← set_at (buffer f) (put_index f) (u8 ch); Some (mk_fifo d (u16 (put_index f + 1)) (get_index f) (is_full f)).

(** The index wraps, and the oldest character is discarded when it is reached. *)
Definition rx_advance (bufsz : Z) (f : rt_serial_rx_fifo) : rt_serial_rx_fifo :=
  let put := if bufsz <=? put_index f then 0 else put_index f in
  if put =? get_index f then
    let get := u16 (get_index f + 1) in
    mk_fifo (buffer f) put (if bufsz <=? get then 0 else get) true
  else mk_fifo (buffer f) put (get_index f) (is_full f).

(** One round of _serial_int_rx: [None] when there is no data. *)
Definition rx_get (bufsz : Z) (f : rt_serial_rx_fifo) : option (option (Z * rt_serial_rx_fifo)) :=
  if (get_index f =? put_index f) && negb (is_full f) then Some None else
  ch ← get_at (buffer f) (get_index f);
  let get := u16 (get_index f + 1) in
  let get := if bufsz <=? get then 0 else get in
  Some (Some (Z.land ch 0xff, mk_fifo (buffer f) (put_index f) get (if is_full f then false else is_full f))).

(** The number of characters, as the interrupt computes it. *)
Definition rx_length (bufsz : Z) (f : rt_serial_rx_fifo) : Z :=
  if get_index f <=? put_index f then put_index f - get_index f else bufsz - (get_index f - put_index f).

Definition _serial_fifo_calc_recved_len (bufsz : Z) (f : rt_serial_rx_fifo) : Z :=
  if put_index f =? get_index f then (if negb (is_full f) then 0 else bufsz)
  else if get_index f <? put_index f then put_index f - get_index f else bufsz - (get_index f - put_index f).

Definition rt_dma_calc_recved_len := _serial_fifo_calc_recved_len.

Definition rt_dma_recv_update_get_index (bufsz : Z) (f : rt_serial_rx_fifo) (len : Z) : option rt_serial_rx_fifo :=
  if negb (len <=? rt_dma_calc_recved_len bufsz f) then None else
  let full := if is_full f && negb (len =? 0) then false else is_full f in
  let get := u16 (get_index f + len) in
  Some (mk_fifo (buffer f) (put_index f) (if bufsz <? get then get mod bufsz else get) full).

Definition rt_dma_recv_update_put_index (bufsz : Z) (f : rt_serial_rx_fifo) (len : Z) : rt_serial_rx_fifo :=
  let put := u16 (put_index f + len) in
  let f :=
    if get_index f <=? put_index f then
      if bufsz <=? put then
        let put := put mod bufsz in
        if get_index f <=? put then mk_fifo (buffer f) put put true else mk_fifo (buffer f) put (get_index f) (is_full f)
      else mk_fifo (buffer f) put (get_index f) (is_full f)
    else
      if get_index f <=? put then
        let put := if bufsz <=? put then put mod bufsz else put in
        mk_fifo (buffer f) put put true
      else mk_fifo (buffer f) put (get_index f) (is_full f) in
  mk_fifo (buffer f) (put_index f) (if bufsz <=? get_index f then 0 else get_index f) (is_full f).

(** The part of _serial_dma_rx that copies out of the fifo. *)
Definition dma_copy (bufsz : Z) (f : rt_serial_rx_fifo) (recv_len : Z) : option (list Z) :=
  if get_index f + recv_len <? bufsz then read_at (buffer f) (get_index f) recv_len
  else
    a ← read_at (buffer f) (get_index f) (bufsz - get_index f);
    b ← read_at (buffer f) 0 (recv_len + get_index f - bufsz); Some (a ++ b).

(** ** The device *)

Record rt_serial_device (H : Type) := mk_serial {
  parent : rt_device; config : serial_configure; serial_rx : option serial_rx_data; serial_tx : option serial_tx_data; hw : H }.
Arguments mk_serial {H}.
Arguments parent {H}.
Arguments config {H}.
Arguments serial_rx {H}.
Arguments serial_tx {H}.
Arguments hw {H}.

#[export] Instance serial_device_state H : device_state (rt_serial_device H) :=
  {| dev := parent; set_dev d s := mk_serial d (config s) (serial_rx s) (serial_tx s) (hw s) |}.

(** The argument of a control function. *)
Inductive control_arg := Arg_null | Arg_config (c : serial_configure) | Arg_flag (f : Z).

(** struct rt_uart_ops; putc sees the open flags of the device. *)
Record rt_uart_ops (H : Type) := mk_ops {
  configure : option (serial_configure -> M H Z);
  control : Z -> control_arg -> M H Z;
  putc : Z -> Z -> M H Z;
  getc : M H Z;
  dma_transmit : option (Z -> Z -> M H Z);
}.
Arguments mk_ops {H}.
Arguments configure {H}.
Arguments control {H}.
Arguments putc {H}.
Arguments getc {H}.
Arguments dma_transmit {H}.

(** What the driver uses of the rest of the system: the heap, the semaphore-like
    completion and the data queue of the transmission, the callbacks. *)
Record serial_env (H : Type) := mk_env {
  rt_malloc : Z -> M H bool;
  rt_free : M H unit;
  completion_init : M H unit;
  completion_wait : M H Z;
  completion_done : M H unit;
  data_queue_init : M H unit;
  data_queue_push : list Z -> M H Z;
  data_queue_pop : M H (option (list Z));
  data_queue_peak : M H (option (list Z));
  call_rx_indicate : Z -> Z -> M H unit;
  call_tx_complete : Z -> list Z -> M H unit;
  set_errno : Z -> M H unit;
  GSMRXCallBack : Z -> M H unit;
}.
Arguments mk_env {H}.
Arguments rt_malloc {H}.
Arguments rt_free {H}.
Arguments completion_init {H}.
Arguments completion_wait {H}.
Arguments completion_done {H}.
Arguments data_queue_init {H}.
Arguments data_queue_push {H}.
Arguments data_queue_pop {H}.
Arguments data_queue_peak {H}.
Arguments call_rx_indicate {H}.
Arguments call_tx_complete {H}.
Arguments set_errno {H}.
Arguments GSMRXCallBack {H}.

Section serial.
Context {H : Type} (ops : rt_uart_ops H) (env : serial_env H) (is_serial2 : bool).

Notation W := (M (rt_serial_device H)).

Definition with_hw {A} (m : M H A) : W A := fun s =>
  match m (hw s) with Some (a, h) => Some (a, mk_serial (parent s) (config s) (serial_rx s) (serial_tx s) h) | None => None end.

Definition set_rx (x : option serial_rx_data) : W unit := s ← get; put (mk_serial (parent s) (config s) x (serial_tx s) (hw s)).
Definition set_tx (x : option serial_tx_data) : W unit := s ← get; put (mk_serial (parent s) (config s) (serial_rx s) x (hw s)).
Definition set_config (c : serial_configure) : W unit := s ← get; put (mk_serial (parent s) c (serial_rx s) (serial_tx s) (hw s)).

(** serial_rx, taken for a fifo: a null pointer fails the assertion. *)
Definition get_fifo : W rt_serial_rx_fifo := s ← get; match serial_rx s with Some (Rx_fifo f) => mret f | _ => ub end.
Definition set_fifo (f : rt_serial_rx_fifo) : W unit := set_rx (Some (Rx_fifo f)).
Definition get_bufsz : W Z := s ← get; mret (bufsz (config s)).
Definition get_open_flag : W Z := s ← get; mret (open_flag (parent s)).

(** ** Polling *)

Fixpoint _serial_poll_rx (length : nat) : W (list Z) :=
  match length with
  | O => mret []
  | S length =>
      ch ← with_hw (getc ops);
      if ch =? -1 then mret [] else
      if ch =? 10 then mret [u8 ch] else l ← _serial_poll_rx length; mret (u8 ch :: l)
  end.

Fixpoint _serial_poll_tx (data : list Z) : W unit :=
  match data with
  | [] => mret tt
  | ch :: data =>
      f ← get_open_flag;
      (if (ch =? 10) && has f RT_DEVICE_FLAG_STREAM then with_hw (putc ops f 13) ;; mret tt else mret tt) ;;
      with_hw (putc ops f ch) ;; _serial_poll_tx data
  end.

(** ** Interrupts *)

(** [irq] is what interrupts do before the round begins. *)
Fixpoint _serial_int_rx (irq : W unit) (length : nat) : W (list Z) :=
  match length with
  | O => mret []
  | S length =>
      irq ;; n ← get_bufsz; f ← get_fifo; r ← of_opt (rx_get n f);
      match r with
      | None => mret []
      | Some (ch, f) => set_fifo f ;; l ← _serial_int_rx irq length; mret (ch :: l)
      end
  end.

(** The transmission waits when the hardware does not take a character. *)
Fixpoint _serial_int_tx (fuel : nat) (data : list Z) : W unit :=
  match data with
  | [] => mret tt
  | ch :: rest =>
      match fuel with
      | O => ub
      | S fuel =>
          f ← get_open_flag; r ← with_hw (putc ops f ch);
          if r =? -1 then with_hw (completion_wait env) ;; _serial_int_tx fuel data else _serial_int_tx fuel rest
      end
  end.

(** ** DMA *)

Definition _serial_dma_rx (length : Z) : W (Z * list Z) :=
  n ← get_bufsz; s ← get;
  if n =? 0 then
    match serial_rx s with
    | Some (Rx_dma activated) =>
        if negb activated then
          set_rx (Some (Rx_dma true)) ;; t ← of_opt (dma_transmit ops); with_hw (t length RT_SERIAL_DMA_RX) ;; mret (length, [])
        else with_hw (set_errno env (- RT_EBUSY)) ;; mret (0, [])
    | _ => ub
    end
  else
    f ← get_fifo;
    let fifo_recved_len := rt_dma_calc_recved_len n f in
    let recv_len := if length <? fifo_recved_len then length else fifo_recved_len in
    data ← of_opt (dma_copy n f recv_len);
    f ← of_opt (rt_dma_recv_update_get_index n f recv_len); set_fifo f ;; mret (recv_len, data).

Definition get_tx_dma : W bool := s ← get; match serial_tx s with Some (Tx_dma a) => mret a | _ => ub end.

Definition _serial_dma_tx (data : list Z) : W Z :=
  _ ← get_tx_dma;
  result ← with_hw (data_queue_push env data);
  if result =? RT_EOK then
    activated ← get_tx_dma;
    (if negb activated then set_tx (Some (Tx_dma true)) ;; t ← of_opt (dma_transmit ops); with_hw (t (Zlen data) RT_SERIAL_DMA_TX) ;; mret tt else mret tt) ;;
    mret (Zlen data)
  else with_hw (set_errno env result) ;; mret 0.

(** ** The device interface *)

Definition rt_serial_init : W Z :=
  set_rx None ;; set_tx None ;;
  s ← get;
  match configure ops with Some configure => with_hw (configure (config s)) | None => mret RT_EOK end.

Definition new_fifo (n : Z) : rt_serial_rx_fifo := mk_fifo (replicate (Z.to_nat n) 0) 0 0 false.

(** dev->open_flag |= f *)
Definition or_open_flag (f : Z) : W unit := modify_dev (fun d => set_open_flag d (Z.lor (open_flag d) f)).

(** Memory that has to be there. *)
Definition alloc (size : Z) : W unit := ok ← with_hw (rt_malloc env size); if (ok : bool) then mret tt else ub.

(** The receiving half of rt_serial_open.  The sizes of the structures are those
    of the 32-bit target. *)
Definition open_rx (oflag : Z) : W unit :=
  s ← get; n ← get_bufsz;
  match serial_rx s with
  | None =>
      if has oflag RT_DEVICE_FLAG_DMA_RX then
        (if n =? 0 then alloc 4 ;; set_rx (Some (Rx_dma false))
         else
           alloc (12 + n) ;; set_fifo (new_fifo n) ;;
           with_hw (control ops RT_DEVICE_CTRL_CONFIG (Arg_flag RT_DEVICE_FLAG_DMA_RX)) ;; mret tt) ;;
        or_open_flag RT_DEVICE_FLAG_DMA_RX
      else if has oflag RT_DEVICE_FLAG_INT_RX then
        alloc (12 + n) ;; set_fifo (new_fifo n) ;; or_open_flag RT_DEVICE_FLAG_INT_RX ;;
        with_hw (control ops RT_DEVICE_CTRL_SET_INT (Arg_flag RT_DEVICE_FLAG_INT_RX)) ;; mret tt
      else set_rx None
  | Some _ =>
      if has oflag RT_DEVICE_FLAG_DMA_RX then or_open_flag RT_DEVICE_FLAG_DMA_RX
      else if has oflag RT_DEVICE_FLAG_INT_RX then or_open_flag RT_DEVICE_FLAG_INT_RX
      else mret tt
  end.

(** The sending half. *)
Definition open_tx (oflag : Z) : W unit :=
  s ← get;
  match serial_tx s with
  | None =>
      if has oflag RT_DEVICE_FLAG_DMA_TX then
        alloc 40 ;; with_hw (data_queue_init env) ;; set_tx (Some (Tx_dma false)) ;; or_open_flag RT_DEVICE_FLAG_DMA_TX
      else if has oflag RT_DEVICE_FLAG_INT_TX then
        alloc 12 ;; with_hw (completion_init env) ;; set_tx (Some Tx_fifo) ;; or_open_flag RT_DEVICE_FLAG_INT_TX ;;
        with_hw (control ops RT_DEVICE_CTRL_SET_INT (Arg_flag RT_DEVICE_FLAG_INT_TX)) ;; mret tt
      else set_tx None
  | Some _ =>
      if has oflag RT_DEVICE_FLAG_DMA_TX then or_open_flag RT_DEVICE_FLAG_DMA_TX
      else if has oflag RT_DEVICE_FLAG_INT_TX then or_open_flag RT_DEVICE_FLAG_INT_TX
      else mret tt
  end.

(** A mode that is asked for and that the device does not have. *)
Definition mode_missing (oflag flag bit : Z) : bool := has oflag bit && negb (has flag bit).

Definition rt_serial_open (oflag : Z) : W Z :=
  s ← get; let d := parent s in
  if mode_missing oflag (dev_flag d) RT_DEVICE_FLAG_DMA_RX then mret (- RT_EIO) else
  if mode_missing oflag (dev_flag d) RT_DEVICE_FLAG_DMA_TX then mret (- RT_EIO) else
  if mode_missing oflag (dev_flag d) RT_DEVICE_FLAG_INT_RX then mret (- RT_EIO) else
  if mode_missing oflag (dev_flag d) RT_DEVICE_FLAG_INT_TX then mret (- RT_EIO) else
  let stream_flag := if has oflag RT_DEVICE_FLAG_STREAM || has (open_flag d) RT_DEVICE_FLAG_STREAM then RT_DEVICE_FLAG_STREAM else 0 in
  modify_dev (fun d => set_open_flag d (Z.land oflag 0xff)) ;;
  open_rx oflag ;; open_tx oflag ;; or_open_flag stream_flag ;; mret RT_EOK.

(** [x &= ~~mask], as it is written: two complements, which are none. *)
Definition and_not_not (mask : Z) : W unit := modify_dev (fun d => set_open_flag d (Z.land (open_flag d) (Z.lnot (Z.lnot mask)))).

Definition close_rx : W unit :=
  f ← get_open_flag; s ← get; n ← get_bufsz;
  if has f RT_DEVICE_FLAG_INT_RX then
    _ ← get_fifo; with_hw (rt_free env) ;; set_rx None ;; and_not_not RT_DEVICE_FLAG_INT_RX ;;
    with_hw (control ops RT_DEVICE_CTRL_CLR_INT (Arg_flag RT_DEVICE_FLAG_INT_RX)) ;; mret tt
  else if has f RT_DEVICE_FLAG_DMA_RX then
    _ ← of_opt (serial_rx s); with_hw (rt_free env) ;;
    with_hw (control ops RT_DEVICE_CTRL_CLR_INT (Arg_flag RT_DEVICE_FLAG_DMA_RX)) ;; set_rx None ;; and_not_not RT_DEVICE_FLAG_DMA_RX
  else mret tt.

Definition close_tx : W unit :=
  f ← get_open_flag; s ← get;
  if has f RT_DEVICE_FLAG_INT_TX then
    _ ← of_opt (serial_tx s); with_hw (rt_free env) ;; set_tx None ;; and_not_not RT_DEVICE_FLAG_INT_TX ;;
    with_hw (control ops RT_DEVICE_CTRL_CLR_INT (Arg_flag RT_DEVICE_FLAG_INT_TX)) ;; mret tt
  else if has f RT_DEVICE_FLAG_DMA_TX then
    _ ← of_opt (serial_tx s); with_hw (rt_free env) ;; set_tx None ;; and_not_not RT_DEVICE_FLAG_DMA_TX
  else mret tt.

Definition rt_serial_close : W Z :=
  s ← get;
  if 1 <? ref_count (parent s) then mret RT_EOK else close_rx ;; close_tx ;; mret RT_EOK.

(** With what interrupts do while a program reads. *)
Definition rt_serial_read (irq : W unit) (pos size : Z) : W (Z * list Z) :=
  if size =? 0 then mret (0, []) else
  f ← get_open_flag;
  if has f RT_DEVICE_FLAG_INT_RX then _ ← get_fifo; l ← _serial_int_rx irq (Z.to_nat size); mret (Zlen l, l)
  else if has f RT_DEVICE_FLAG_DMA_RX then _serial_dma_rx size
  else l ← _serial_poll_rx (Z.to_nat size); mret (Zlen l, l).

Definition get_tx_fifo : W unit := s ← get; match serial_tx s with Some Tx_fifo => mret tt | _ => ub end.

Definition rt_serial_write (fuel : nat) (pos : Z) (data : list Z) : W Z :=
  if Zlen data =? 0 then mret 0 else
  f ← get_open_flag;
  if has f RT_DEVICE_FLAG_INT_TX then get_tx_fifo ;; _serial_int_tx fuel data ;; mret (Zlen data)
  else if has f RT_DEVICE_FLAG_DMA_TX then _serial_dma_tx data
  else _serial_poll_tx data ;; mret (Zlen data).

Definition rt_serial_control (cmd : Z) (args : control_arg) : W Z :=
  s ← get;
  if cmd =? RT_DEVICE_CTRL_SUSPEND then
    modify_dev (fun d => set_dev_flag d (Z.lor (dev_flag d) RT_DEVICE_FLAG_SUSPENDED)) ;; mret RT_EOK
  else if cmd =? RT_DEVICE_CTRL_RESUME then
    modify_dev (fun d => set_dev_flag d (Z.land (dev_flag d) (Z.lnot (Z.lnot RT_DEVICE_FLAG_SUSPENDED)))) ;; mret RT_EOK
  else if cmd =? RT_DEVICE_CTRL_CONFIG then
    match args with
    | Arg_null => mret RT_EOK
    | Arg_flag _ => ub
    | Arg_config c =>
        if negb (bufsz c =? bufsz (config s)) && negb (ref_count (parent s) =? 0) then mret RT_EBUSY else
        set_config c ;;
        (if negb (ref_count (parent s) =? 0) then f ← of_opt (configure ops); with_hw (f c) ;; mret tt else mret tt) ;; mret RT_EOK
    end
  else with_hw (control ops cmd args).

Definition serial_driver (irq : W unit) (fuel : nat) : driver (rt_serial_device H) control_arg :=
  mk_driver (Some rt_serial_init) (Some rt_serial_open) (Some rt_serial_close) (Some (rt_serial_read irq))
    (Some (rt_serial_write fuel)) (Some rt_serial_control).

(** The device part of rt_hw_serial_register; the functions are [serial_driver]. *)
Definition rt_hw_serial_register (flag : Z) : W unit :=
  s ← get; put (set_dev (registered flag (set_tx_complete (set_rx_indicate (parent s) None) None)) s).

(** ** The interrupt *)

(** All the characters that the hardware has. *)
Fixpoint isr_receive (fuel : nat) : W unit :=
  match fuel with
  | O => ub
  | S fuel =>
      ch ← with_hw (getc ops);
      if ch =? -1 then mret tt else
      f ← get_fifo; f ← of_opt (rx_store f ch); set_fifo f ;;
      (if is_serial2 then with_hw (GSMRXCallBack env (u8 ch)) else mret tt) ;;
      n ← get_bufsz; f ← get_fifo; set_fifo (rx_advance n f) ;; isr_receive fuel
  end.

Definition isr_rx_ind (fuel : nat) : W unit :=
  _ ← get_fifo; isr_receive fuel ;;
  s ← get;
  match rx_indicate (parent s) with
  | None => mret tt
  | Some fn => f ← get_fifo; with_hw (call_rx_indicate env fn (rx_length (bufsz (config s)) f))
  end.

Definition isr_tx_dmadone : W unit :=
  _ ← get_tx_dma; last ← with_hw (data_queue_pop env);
  next ← with_hw (data_queue_peak env);
  match next with
  | Some data => set_tx (Some (Tx_dma true)) ;; t ← of_opt (dma_transmit ops); with_hw (t (Zlen data) RT_SERIAL_DMA_TX) ;; mret tt
  | None => set_tx (Some (Tx_dma false))
  end ;;
  s ← get; match tx_complete (parent s) with None => mret tt | Some fn => last ← of_opt last; with_hw (call_tx_complete env fn last) end.

(** The length is in the upper bits of the event; the mask is written ~~0xff. *)
Definition dma_event_length (event : Z) : Z := Z.shiftr (Z.land event (Z.lnot (Z.lnot 0xff))) 8.

Definition isr_rx_dmadone (event : Z) : W unit :=
  let length := dma_event_length event in
  s ← get; n ← get_bufsz;
  if n =? 0 then
    match serial_rx s with
    | Some (Rx_dma _) => fn ← of_opt (rx_indicate (parent s)); with_hw (call_rx_indicate env fn length) ;; set_rx (Some (Rx_dma false))
    | _ => ub
    end
  else
    f ← get_fifo; let f := rt_dma_recv_update_put_index n f length in set_fifo f ;;
    match rx_indicate (parent s) with None => mret tt | Some fn => with_hw (call_rx_indicate env fn (rt_dma_calc_recved_len n f)) end.

Definition rt_hw_serial_isr (fuel : nat) (event : Z) : W unit :=
  let e := Z.land event 0xff in
  if e =? RT_SERIAL_EVENT_RX_IND then isr_rx_ind fuel
  else if e =? RT_SERIAL_EVENT_TX_DONE then get_tx_fifo ;; with_hw (completion_done env)
  else if e =? RT_SERIAL_EVENT_TX_DMADONE then isr_tx_dmadone
  else if e =? RT_SERIAL_EVENT_RX_DMADONE then isr_rx_dmadone event
  else mret tt.
End serial.

(** ** The fifo is a queue

    Of a buffer of [n] characters at most [n - 1] hold data: when the next one
    arrives the oldest is discarded. *)

Definition enqueue (n : Z) (q : list Z) (c : Z) : list Z := if Zlen q + 1 =? n then tail (q ++ [c]) else q ++ [c].

Definition enqueue_all (n : Z) (q l : list Z) : list Z := fold_left (enqueue n) l q.

Record fifo_holds (n : Z) (f : rt_serial_rx_fifo) (q : list Z) : Prop := {
  fh_size : 2 <= n < 65536;
  fh_buffer : Zlen (buffer f) = n;
  fh_get : 0 <= get_index f < n;
  fh_put : put_index f = (get_index f + Zlen q) mod n;
  fh_room : Zlen q < n;
  fh_bytes : Forall (fun c => 0 <= c < 256) q;
  fh_full : is_full f = true -> q <> [];
  fh_data i c : q !! i = Some c -> buffer f !! Z.to_nat ((get_index f + Z.of_nat i) mod n) = Some c;
}.

Lemma index_next n p : 0 <= p < n -> n < 65536 -> (if n <=? u16 (p + 1) then 0 else u16 (p + 1)) = (p + 1) mod n.
Proof.
  intros Hp Hn. rewrite u16_small by lia. destruct (Z.leb_spec n (p + 1)).
  - replace (p + 1) with (1 * n) by lia. by rewrite Z.mod_mul by lia.
  - by rewrite Z.mod_small by lia.
Qed.

Lemma mod_same n g i j : 0 < n -> 0 <= i < n -> 0 <= j < n -> (g + i) mod n = (g + j) mod n -> i = j.
Proof.
  intros Hn Hi Hj Heq. pose proof (Z.div_mod (g + i) n ltac:(lia)). pose proof (Z.div_mod (g + j) n ltac:(lia)).
  rewrite Heq in H. set (a := (g + i) / n) in *. set (b := (g + j) / n) in *. assert (i - j = n * (a - b)) by lia.
  destruct (Z.lt_trichotomy a b) as [|[|]]; nia.
Qed.

Lemma mod_back n g k : 0 < n -> 0 <= g < n -> 1 <= k <= n -> (g + k) mod n = g <-> k = n.
Proof.
  intros Hn Hg Hk. split; [|intros ->; rewrite <-(Z.mod_small g n) at 2 by done; replace (g + n) with (g + 1 * n) by lia; by rewrite Z.mod_add by lia].
  intros Heq. pose proof (Z.div_mod (g + k) n ltac:(lia)) as H. rewrite Heq in H. set (a := (g + k) / n) in *.
  destruct (Z.lt_trichotomy a 1) as [|[->|]]; nia.
Qed.

Lemma fifo_index n f q i : fifo_holds n f q -> 0 <= (get_index f + i) mod n < n.
Proof. intros Hf. apply Z.mod_pos_bound. destruct Hf. lia. Qed.

Lemma new_fifo_holds n : 2 <= n < 65536 -> fifo_holds n (new_fifo n) [].
Proof.
  intros Hn. split; cbn; try done; try lia.
  - unfold Zlen. rewrite length_replicate. lia.
  - change (Zlen (@nil Z)) with 0. lia.
Qed.

(** A character arrives. *)
Lemma fifo_put n f q c : fifo_holds n f q -> 0 <= c < 256 -> exists f1, rx_store f c = Some f1 /\ fifo_holds n (rx_advance n f1) (enqueue n q c).
Proof.
  intros Hf Hc. pose proof Hf as [Hn Hb Hg Hp Hroom Hby Hfull Hd]. pose proof (Zlen_nonneg q).
  pose proof (fifo_index n f q (Zlen q) Hf) as Hpi. rewrite <-Hp in Hpi. unfold rx_store. rewrite set_at_insert by lia. cbn [mbind option_bind].
  eexists. split; [reflexivity|]. rewrite u8_small by lia. unfold rx_advance. cbn [put_index get_index buffer is_full].
  rewrite index_next by lia. assert ((put_index f + 1) mod n = (get_index f + (Zlen q + 1)) mod n) as Hnext.
  { rewrite Hp, Zplus_mod_idemp_l. f_equal. lia. }
  assert (forall i x, (q ++ [c]) !! i = Some x -> <[Z.to_nat (put_index f) := c]> (buffer f) !! Z.to_nat ((get_index f + Z.of_nat i) mod n) = Some x) as Hd'.
  { intros i x Hix. pose proof (fifo_index n f q (Z.of_nat i) Hf). apply lookup_app_Some in Hix as [Hix|[Hle Hix]].
    - pose proof (lookup_lt_Some _ _ _ Hix). rewrite list_lookup_insert_ne; [by apply Hd|]. intros Heq.
      assert ((get_index f + Zlen q) mod n = (get_index f + Z.of_nat i) mod n) as Hm%mod_same by lia; unfold Zlen in *; lia.
    - apply list_lookup_singleton_Some in Hix as [Hi <-]. replace (Z.of_nat i) with (Zlen q) by (unfold Zlen; lia). rewrite <-Hp.
      apply list_lookup_insert_eq. unfold Zlen in Hb. lia. }
  assert (Forall (fun c => 0 <= c < 256) (q ++ [c])) as Hby' by (apply Forall_app; split; [done|by constructor]).
  unfold enqueue. destruct (Z.eqb_spec (Zlen q + 1) n) as [Hlast|Hmore].
  - rewrite (proj2 (Z.eqb_eq _ _)) by (rewrite Hnext; apply mod_back; lia). rewrite index_next by lia.
    destruct q as [|y q]; [change (Zlen (@nil Z)) with 0 in Hlast; lia|]. cbn [app tail]. rewrite Zlen_cons in *.
    split; cbn [buffer get_index put_index is_full]; [lia| | | | | | |].
    + unfold Zlen in *. by rewrite length_insert.
    + apply Z.mod_pos_bound. lia.
    + rewrite Hnext, Zplus_mod_idemp_l, Zlen_app. f_equal. change (Zlen [c]) with 1. lia.
    + rewrite Zlen_app. change (Zlen [c]) with 1. lia.
    + by inversion Hby'.
    + intros _ Hnil%app_eq_nil. by destruct Hnil.
    + intros i x Hix. rewrite Zplus_mod_idemp_l. replace (get_index f + 1 + Z.of_nat i) with (get_index f + Z.of_nat (Datatypes.S i)) by lia.
      by apply Hd'.
  - rewrite (proj2 (Z.eqb_neq _ _)) by (rewrite Hnext; rewrite mod_back by lia; lia).
    split; cbn [buffer get_index put_index is_full]; [done| |done| | |done| |done].
    + unfold Zlen in *. by rewrite length_insert.
    + rewrite Hnext, Zlen_app. done.
    + rewrite Zlen_app. change (Zlen [c]) with 1. lia.
    + intros _ Hnil%app_eq_nil. by destruct Hnil.
Qed.

(** Taking a character. *)
Lemma fifo_empty n f : fifo_holds n f [] -> rx_get n f = Some None.
Proof.
  intros [Hn Hb Hg Hp _ _ Hfull _]. unfold rx_get. change (Zlen (@nil Z)) with 0 in Hp. rewrite Z.add_0_r, Z.mod_small in Hp by done.
  rewrite Hp, Z.eqb_refl. destruct (is_full f); [by destruct Hfull|done].
Qed.

Lemma fifo_take n f c q : fifo_holds n f (c :: q) -> exists f', rx_get n f = Some (Some (c, f')) /\ fifo_holds n f' q.
Proof.
  intros [Hn Hb Hg Hp Hroom Hby Hfull Hd]. rewrite Zlen_cons in *. pose proof (Zlen_nonneg q). unfold rx_get.
  assert ((get_index f =? put_index f) = false) as ->.
  { apply Z.eqb_neq. intros Heq. rewrite Hp in Heq. symmetry in Heq. apply mod_back in Heq; lia. }
  cbn [andb]. pose proof (Hd 0%nat c eq_refl) as H0. rewrite Z.add_0_r, Z.mod_small in H0 by done.
  unfold get_at. rewrite (proj2 (Z.leb_le 0 (get_index f))) by lia. rewrite H0. cbn [mbind option_bind]. rewrite index_next by lia.
  inversion Hby; subst. eexists. split.
  - replace (Z.land c 0xff) with c; [reflexivity|]. change 0xff with (Z.ones 8). rewrite Z.land_ones by done. by rewrite Z.mod_small.
  - split; cbn [buffer get_index put_index is_full]; [done|done| | |lia|done| |].
    + apply Z.mod_pos_bound. lia.
    + rewrite Hp, Zplus_mod_idemp_l. f_equal. lia.
    + by destruct (is_full f).
    + intros i x Hix. rewrite Zplus_mod_idemp_l. replace (get_index f + 1 + Z.of_nat i) with (get_index f + Z.of_nat (Datatypes.S i)) by lia. by apply Hd.
Qed.

(** The lengths that the interrupt and the DMA functions compute. *)
Lemma fifo_length n f q : fifo_holds n f q -> rx_length n f = Zlen q /\ _serial_fifo_calc_recved_len n f = Zlen q.
Proof.
  intros [Hn Hb Hg Hp Hroom Hby Hfull _]. pose proof (Zlen_nonneg q). unfold rx_length, _serial_fifo_calc_recved_len. rewrite Hp.
  destruct (Z_lt_dec (get_index f + Zlen q) n) as [Hlt|Hge].
  - rewrite Z.mod_small by lia. rewrite (proj2 (Z.leb_le _ _)) by lia. split; [lia|].
    destruct (Z.eqb_spec (get_index f + Zlen q) (get_index f)) as [Heq|Hne].
    + destruct q as [|x q]; [|rewrite Zlen_cons in *; pose proof (Zlen_nonneg q); lia]. destruct (is_full f); [by destruct Hfull|done].
    + rewrite (proj2 (Z.ltb_lt _ _)) by lia. lia.
  - replace (get_index f + Zlen q) with (get_index f + Zlen q - n + 1 * n) by lia. rewrite Z.mod_add, Z.mod_small by lia.
    rewrite (proj2 (Z.leb_gt _ _)), (proj2 (Z.eqb_neq _ _)), (proj2 (Z.ltb_ge _ _)) by lia. lia.
Qed.

(** ** What the interrupts and the reads of a program see *)

(** At most [k] characters of the queue, with arrivals before every round. *)
Inductive serial_reads (n : Z) : list Z -> nat -> list Z -> list Z -> Prop :=
  | reads_done q : serial_reads n q 0 [] q
  | reads_empty q k l : Forall (fun c => 0 <= c < 256) l -> enqueue_all n q l = [] -> serial_reads n q (S k) [] []
  | reads_next q k l c q1 cs q' : Forall (fun c => 0 <= c < 256) l -> enqueue_all n q l = c :: q1 -> serial_reads n q1 k cs q' ->
      serial_reads n q (S k) (c :: cs) q'.

(** Reading with interrupts, polled writing. *)
Definition int_rx_flags (f : Z) : Prop :=
  has f RT_DEVICE_FLAG_INT_RX = true /\ has f RT_DEVICE_FLAG_DMA_RX = false /\
  has f RT_DEVICE_FLAG_INT_TX = false /\ has f RT_DEVICE_FLAG_DMA_TX = false.

(** The sessions of a serial device whose buffer has [n] characters. *)
Definition serial_spec (n : Z) : session_spec (list Z) (list Z) := {|
  ok_flags := int_rx_flags;
  fresh := [];
  spec_read q k r q' := r.1 = Zlen r.2 /\ serial_reads n q (Z.to_nat k) r.2 q';
  spec_event q l q' := q' = enqueue_all n q (map u8 l);
|}.

Section interrupt.
Context {H : Type} (ops : rt_uart_ops H) (env : serial_env H) (is_serial2 : bool) (n : Z) (Hn : 2 <= n < 65536).

(** The characters that the hardware has received and not given yet; [arrive] is
    the line, and [next_arrival] what it brings while a program reads. *)
Context (pending : H -> list Z) (arrive : list Z -> M H unit) (next_arrival : M H (list Z)).

(** An operation that is defined and does not touch what is received. *)
Definition quiet {A} (m : M H A) : Prop := forall h, exists a h', m h = Some (a, h') /\ pending h' = pending h.

Context (Hgetc : forall h, exists h', getc ops h = Some (match pending h with [] => -1 | c :: _ => c end, h') /\ pending h' = tail (pending h)).
Context (Harrive : forall l h, exists h', arrive l h = Some (tt, h') /\ pending h' = pending h ++ l).
Context (Hnext : forall h, exists l h', next_arrival h = Some (l, h') /\ pending h' = pending h /\ Forall (fun c => 0 <= c < 256) l).
Context (Hcallback : forall c, quiet (GSMRXCallBack env c)) (Hindicate : forall fn k, quiet (call_rx_indicate env fn k)).

Implicit Types (s : rt_serial_device H) (q : list Z) (f : rt_serial_rx_fifo).

Lemma wp_with_hw {A} (m : M H A) s Q : quiet m ->
  (forall a h, pending h = pending (hw s) -> Q a (mk_serial (parent s) (config s) (serial_rx s) (serial_tx s) h)) -> wp (with_hw m) s Q.
Proof.
  intros Hm HQ. destruct (Hm (hw s)) as (a & h & Hr & Hp). eapply wp_run; [|by apply HQ]. unfold with_hw. by rewrite Hr.
Qed.

Lemma wp_get_fifo s f Q : serial_rx s = Some (Rx_fifo f) -> Q f s -> wp get_fifo s Q.
Proof. intros Hf HQ. eapply wp_run; [|exact HQ]. unfold get_fifo, mbind, M_bind, get. by rewrite Hf. Qed.

(** The state of an open device whose fifo holds [q]. *)
Definition receiving q s : Prop :=
  bufsz (config s) = n /\ (exists f, serial_rx s = Some (Rx_fifo f) /\ fifo_holds n f q) /\
  has (open_flag (parent s)) RT_DEVICE_FLAG_INT_RX = true /\ has (dev_flag (parent s)) RT_DEVICE_FLAG_INT_RX = true.

Lemma receiving_any s q h : receiving q s -> receiving q (mk_serial (parent s) (config s) (serial_rx s) (serial_tx s) h).
Proof. done. Qed.

Lemma receiving_set s q q' f h : receiving q s -> fifo_holds n f q' ->
  receiving q' (mk_serial (parent s) (config s) (Some (Rx_fifo f)) (serial_tx s) h).
Proof. intros (Hb & _ & Ho & Hd) Hf. split_and!; [done|by exists f|done|done]. Qed.

Lemma wp_isr_receive l : Forall (fun c => 0 <= c < 256) l -> forall fuel s q Q, (length l < fuel)%nat -> receiving q s -> pending (hw s) = l ->
  (forall s', receiving (enqueue_all n q l) s' -> pending (hw s') = [] -> parent s' = parent s -> Q tt s') ->
  wp (isr_receive ops env is_serial2 fuel) s Q.
Proof using Hgetc Hcallback.
  induction 1 as [|c l Hc Hl IH]; intros fuel s q Q Hfuel Hrec Hp HQ; (destruct fuel as [|fuel]; [cbn in Hfuel; lia|]); cbn [isr_receive].
  - destruct (Hgetc (hw s)) as (h' & Hg & Hp'). rewrite Hp in Hg, Hp'. wp_bind. eapply wp_run; [unfold with_hw; rewrite Hg; reflexivity|].
    change (-1 =? -1) with true. cbn iota. wp_ret. apply HQ; [exact (receiving_any s q h' Hrec)|exact Hp'|done].
  - destruct (Hgetc (hw s)) as (h' & Hg & Hp'). rewrite Hp in Hg, Hp'. cbn [tail] in Hp'. wp_bind. eapply wp_run; [unfold with_hw; rewrite Hg; reflexivity|].
    rewrite (proj2 (Z.eqb_neq c (-1))) by lia. pose proof Hrec as (Hb & (f & Hf & Hh) & Hrest).
    destruct (fifo_put n f q c Hh Hc) as (f1 & Hst & Hh1). wp_bind. eapply wp_get_fifo; [exact Hf|]. wp_bind. eapply wp_of_opt; [exact Hst|]. wp_bind.
    eapply (wp_run (set_fifo f1)); [reflexivity|]. cbn [parent config serial_rx serial_tx hw].
    assert (forall h, pending h = l -> wp (n ← get_bufsz; f ← get_fifo; set_fifo (rx_advance n f) ;; isr_receive ops env is_serial2 fuel)
      (mk_serial (parent s) (config s) (Some (Rx_fifo f1)) (serial_tx s) h) Q) as Hgo.
    { intros h Hph. wp_bind. eapply (wp_run get_bufsz); [reflexivity|]. cbn [config]. rewrite Hb. wp_bind. eapply wp_get_fifo; [reflexivity|]. wp_bind.
      eapply (wp_run (set_fifo _)); [reflexivity|]. cbn [parent config serial_rx serial_tx hw]. eapply IH; [cbn in Hfuel; lia| |exact Hph|].
      - by apply (receiving_set s q).
      - intros s' Hr' Hp2 Hpar. by apply HQ. }
    destruct is_serial2.
    + wp_bind. eapply wp_with_hw; [apply Hcallback|]. intros a h Hph. cbn [parent config serial_rx serial_tx hw] in *. apply Hgo. by rewrite Hph.
    + wp_bind. wp_ret. by apply Hgo.
Qed.

Lemma wp_isr_rx_ind fuel s q l Q : Forall (fun c => 0 <= c < 256) l -> (length l < fuel)%nat -> receiving q s -> pending (hw s) = l ->
  (forall s', receiving (enqueue_all n q l) s' -> pending (hw s') = [] -> parent s' = parent s -> Q tt s') ->
  wp (rt_hw_serial_isr ops env is_serial2 fuel RT_SERIAL_EVENT_RX_IND) s Q.
Proof using Hgetc Hcallback Hindicate.
  intros Hl Hfuel Hrec Hp HQ. unfold rt_hw_serial_isr. change (Z.land RT_SERIAL_EVENT_RX_IND 0xff =? RT_SERIAL_EVENT_RX_IND) with true. cbn iota.
  unfold isr_rx_ind. destruct (Hrec) as (Hb & (f & Hf & Hh) & Hrest). wp_bind. eapply wp_get_fifo; [exact Hf|]. wp_bind.
  eapply wp_isr_receive; [exact Hl|exact Hfuel|exact Hrec|exact Hp|]. intros s' Hr' Hp' Hpar. wp_bind. eapply (wp_run get); [reflexivity|].
  destruct (rx_indicate (parent s')) as [fn|]; [|by wp_ret; apply HQ]. destruct (Hr') as (Hb' & (f' & Hf' & Hh') & Hrest').
  wp_bind. eapply wp_get_fifo; [exact Hf'|]. eapply wp_with_hw; [apply Hindicate|]. intros [] h Hph. apply HQ; [|exact (eq_trans Hph Hp')|exact Hpar].
  by apply receiving_any.
Qed.

(** Characters arrive, and their interrupt is served. *)
Definition receive_event (l : list Z) : M (rt_serial_device H) unit :=
  with_hw (arrive l) ;; rt_hw_serial_isr ops env is_serial2 (S (length l)) RT_SERIAL_EVENT_RX_IND.

(** An interrupt during a read. *)
Definition read_irq : M (rt_serial_device H) unit := l ← with_hw next_arrival; receive_event l.

Lemma wp_receive_event s q l Q : Forall (fun c => 0 <= c < 256) l -> receiving q s -> pending (hw s) = [] ->
  (forall s', receiving (enqueue_all n q l) s' -> pending (hw s') = [] -> parent s' = parent s -> Q tt s') -> wp (receive_event l) s Q.
Proof using Hgetc Hcallback Hindicate Harrive.
  intros Hl Hrec Hp HQ. unfold receive_event. destruct (Harrive l (hw s)) as (h & Ha & Hph). rewrite Hp in Hph. wp_bind.
  eapply wp_run; [unfold with_hw; rewrite Ha; reflexivity|]. 
  eapply wp_isr_rx_ind; [exact Hl|lia|by apply receiving_any|exact Hph|exact HQ].
Qed.

Lemma wp_read_irq s q Q : receiving q s -> pending (hw s) = [] ->
  (forall l s', Forall (fun c => 0 <= c < 256) l -> receiving (enqueue_all n q l) s' -> pending (hw s') = [] -> parent s' = parent s -> Q tt s') ->
  wp read_irq s Q.
Proof using Hgetc Hcallback Hindicate Harrive Hnext.
  intros Hrec Hp HQ. unfold read_irq. destruct (Hnext (hw s)) as (l & h & Hl & Hph & Hby). wp_bind.
  eapply wp_run; [unfold with_hw; rewrite Hl; reflexivity|].
  eapply (wp_receive_event _ q); [exact Hby|by apply receiving_any|by rewrite <-Hp|]. intros s1 H1 H2 H3. by eapply HQ.
Qed.

Lemma wp_int_rx k : forall s q Q, receiving q s -> pending (hw s) = [] ->
  (forall l q' s', serial_reads n q k l q' -> receiving q' s' -> pending (hw s') = [] -> parent s' = parent s -> Q l s') ->
  wp (_serial_int_rx read_irq k) s Q.
Proof using Hgetc Hcallback Hindicate Harrive Hnext.
  induction k as [|k IH]; intros s q Q Hrec Hp HQ; cbn [_serial_int_rx]; [wp_ret; apply (HQ [] q); [constructor|done..]|].
  wp_bind. eapply wp_read_irq; [exact Hrec|exact Hp|]. intros l s1 Hby Hrec1 Hp1 Hpar1. pose proof Hrec1 as (Hb1 & (f & Hf & Hh) & Hrest1).
  wp_bind. eapply (wp_run get_bufsz); [reflexivity|]. rewrite Hb1. wp_bind. eapply wp_get_fifo; [exact Hf|]. wp_bind.
  destruct (enqueue_all n q l) as [|c q1] eqn:Hq.
  - eapply wp_of_opt; [by apply fifo_empty|]. wp_ret. apply (HQ [] []); [by eapply reads_empty|done|done|done].
  - destruct (fifo_take n f c q1 Hh) as (f' & Hg & Hh'). eapply wp_of_opt; [exact Hg|]. cbn iota. wp_bind.
    eapply (wp_run (set_fifo f')); [reflexivity|]. cbv beta. wp_bind. eapply (IH _ q1); [by eapply receiving_set|done|].
    intros cs q' s' Hreads Hrec' Hp' Hpar'. wp_ret. apply (HQ (c :: cs) q'); [by eapply reads_next|done|done|by rewrite Hpar'].
Qed.

(** ** Opening and closing *)

Context (Hmemory : forall size h, exists h', rt_malloc env size h = Some (true, h') /\ pending h' = pending h).
Context (Hfree : quiet (rt_free env)) (Hcontrol : forall cmd a, quiet (control ops cmd a)).
Context (Hconfigure : forall apply_config, configure ops = Some apply_config -> forall c h, exists h', apply_config c h = Some (RT_EOK, h') /\ pending h' = pending h).

Definition serial_closed s : Prop :=
  bufsz (config s) = n /\ serial_rx s = None /\ has (dev_flag (parent s)) RT_DEVICE_FLAG_INT_RX = true /\ pending (hw s) = [].

Definition serial_opened q s : Prop := receiving q s /\ pending (hw s) = [].

Lemma mode_there (f : Z) flag bit : has f bit = false \/ has flag bit = true -> mode_missing f flag bit = false.
Proof. unfold mode_missing. intros [-> | ->]; [done|apply andb_false_r]. Qed.

Lemma wp_or_open_flag s (f : Z) Q : Q tt (set_dev (set_open_flag (parent s) (Z.lor (open_flag (parent s)) f)) s) -> wp (or_open_flag f) s Q.
Proof. done. Qed.

Lemma wp_alloc s size Q : (forall h, pending h = pending (hw s) -> Q tt (mk_serial (parent s) (config s) (serial_rx s) (serial_tx s) h)) -> wp (alloc env size) s Q.
Proof using Hmemory.
  intros HQ. unfold alloc. destruct (Hmemory size (hw s)) as (h & Hm & Hp). wp_bind. eapply wp_run; [unfold with_hw; rewrite Hm; reflexivity|].
  cbv beta iota. wp_ret. by apply HQ.
Qed.

(** The receiving half: a fifo that is there stays. *)
Lemma wp_open_rx s (f : Z) o Q : int_rx_flags f -> bufsz (config s) = n -> has (dev_flag (parent s)) RT_DEVICE_FLAG_INT_RX = true ->
  (match o with None => serial_rx s = None | Some q => exists x, serial_rx s = Some (Rx_fifo x) /\ fifo_holds n x q end) ->
  (forall s', receiving (default [] o) s' -> pending (hw s') = pending (hw s) -> dev_flag (parent s') = dev_flag (parent s) ->
     ref_count (parent s') = ref_count (parent s) -> Q tt s') -> wp (open_rx ops env f) s Q.
Proof using Hn Hmemory Hcontrol.
  intros (Hi & Hd & _ & _) Hb Hdev Ho HQ. unfold open_rx. wp_bind. eapply (wp_run get); [reflexivity|]. cbv beta. wp_bind. eapply (wp_run get_bufsz); [reflexivity|].
  cbv beta. rewrite Hd, Hi, Hb. destruct o as [q|]; cbn [default] in *.
  - destruct Ho as (x & Hx & Hh). rewrite Hx. apply wp_or_open_flag. apply HQ; [|done..].
    split; [done|]. split; [by exists x|]. split; [by apply has_lor_self|done].
  - rewrite Ho. wp_bind. apply wp_alloc. intros h Hh. wp_bind. eapply (wp_run (set_fifo _)); [reflexivity|]. cbv beta. wp_bind. apply wp_or_open_flag.
    wp_bind. eapply wp_with_hw; [apply Hcontrol|]. intros a h' Hh'. wp_ret. apply HQ; [|by cbn in *; congruence|done|done].
    split; [done|]. split; [by eexists; split; [reflexivity|apply new_fifo_holds]|]. split; [by apply has_lor_self|done].
Qed.

(** The sending half does not ask for anything. *)
Lemma wp_open_tx s q (f : Z) Q : int_rx_flags f -> receiving q s ->
  (forall s', receiving q s' -> hw s' = hw s -> parent s' = parent s -> Q tt s') -> wp (open_tx ops env f) s Q.
Proof.
  intros (_ & _ & Hi & Hd) Hrec HQ. unfold open_tx. wp_bind. eapply (wp_run get); [reflexivity|]. cbv beta. rewrite Hi, Hd.
  destruct (serial_tx s); [wp_ret; by apply HQ|]. eapply (wp_run (set_tx None)); [reflexivity|]. by apply HQ.
Qed.

Lemma wp_rt_serial_open s (f : Z) o Q : int_rx_flags f -> (match o with None => serial_closed s | Some q => serial_opened q s end) ->
  (forall s', serial_opened (default [] o) s' -> dev_flag (parent s') = dev_flag (parent s) -> ref_count (parent s') = ref_count (parent s) -> Q RT_EOK s') ->
  wp (rt_serial_open ops env f) s Q.
Proof using Hn Hmemory Hcontrol.
  intros Hf Ho HQ. pose proof Hf as (Hi & Hd & Hit & Hdt).
  assert (bufsz (config s) = n /\ has (dev_flag (parent s)) RT_DEVICE_FLAG_INT_RX = true /\ pending (hw s) = []) as (Hb & Hdev & Hp).
  { destruct o as [q|]; [destruct Ho as [(? & _ & _ & ?) ?]|destruct Ho as (? & _ & ? & ?)]; done. }
  unfold rt_serial_open. wp_bind. eapply (wp_run get); [reflexivity|]. cbv beta zeta. rewrite !mode_there by (by (left + right)).
  wp_bind. apply wp_modify_dev. wp_bind. eapply (wp_open_rx _ f o); [done|done|done| |].
  { destruct o as [q|]; [|by destruct Ho as (_ & ? & _)]. destruct Ho as [(_ & ? & _) _]. done. }
  intros s1 Hr1 Hp1 Hf1 Hn1. wp_bind. eapply wp_open_tx; [done|exact Hr1|]. intros s2 Hr2 Hh2 Hpar2. wp_bind. apply wp_or_open_flag. wp_ret.
  apply HQ; [|cbn; by rewrite Hpar2, Hf1|cbn; by rewrite Hpar2, Hn1]. split; [|cbn; by rewrite Hh2, Hp1].
  destruct Hr2 as (? & ? & ? & ?). split; [done|]. split; [done|]. split; [by apply has_lor|done].
Qed.

Lemma wp_rt_serial_close s q Q : serial_opened q s -> ref_count (parent s) = 0 ->
  (forall s', serial_closed s' -> dev_flag (parent s') = dev_flag (parent s) -> ref_count (parent s') = ref_count (parent s) -> Q RT_EOK s') ->
  wp (rt_serial_close ops env) s Q.
Proof using Hfree Hcontrol.
  intros [(Hb & (f & Hf & Hh) & Ho & Hd) Hp] Hr HQ. unfold rt_serial_close. wp_bind. eapply (wp_run get); [reflexivity|]. cbv beta. rewrite Hr.
  change (1 <? 0) with false. cbn iota. wp_bind. unfold close_rx. wp_bind. eapply (wp_run get_open_flag); [reflexivity|]. cbv beta.
  wp_bind. eapply (wp_run get); [reflexivity|]. cbv beta. wp_bind. eapply (wp_run get_bufsz); [reflexivity|]. cbv beta. rewrite Ho.
  wp_bind. eapply wp_get_fifo; [exact Hf|]. wp_bind. eapply wp_with_hw; [exact Hfree|]. intros [] h1 Hp1. wp_bind. eapply (wp_run (set_rx None)); [reflexivity|].
  cbv beta. wp_bind. apply wp_modify_dev. wp_bind. eapply wp_with_hw; [apply Hcontrol|]. intros a h2 Hp2. wp_ret. wp_bind.
  unfold close_tx. wp_bind. eapply (wp_run get_open_flag); [reflexivity|]. cbv beta. wp_bind. eapply (wp_run get); [reflexivity|]. cbv beta. cbn [parent set_dev serial_device_state dev open_flag set_open_flag].
  assert (forall bit, Z.land RT_DEVICE_FLAG_INT_RX bit = 0 -> has (Z.land (open_flag (parent s)) (Z.lnot (Z.lnot RT_DEVICE_FLAG_INT_RX))) bit = false) as Hno.
  { intros bit Hbit. unfold has. rewrite Z.lnot_involutive, <-Z.land_assoc, Hbit, Z.land_0_r. done. }
  rewrite !Hno by done. wp_ret. apply HQ; [|done|done]. split; [done|]. split; [done|]. split; [done|]. cbn in *. congruence.
Qed.

Lemma wp_rt_serial_init s Q : serial_closed s -> (forall s', serial_closed s' -> parent s' = parent s -> Q RT_EOK s') -> wp (rt_serial_init ops) s Q.
Proof using Hconfigure.
  intros (Hb & Hx & Hd & Hp) HQ. unfold rt_serial_init. wp_bind. eapply (wp_run (set_rx None)); [reflexivity|]. cbv beta.
  wp_bind. eapply (wp_run (set_tx None)); [reflexivity|]. cbv beta. wp_bind. eapply (wp_run get); [reflexivity|]. cbv beta.
  destruct (configure ops) as [f|] eqn:Hc; [|wp_ret; by apply HQ]. destruct (Hconfigure f eq_refl (config s) (hw s)) as (h & Hr & Hp').
  eapply wp_run; [unfold with_hw; cbn [hw config]; rewrite Hr; reflexivity|]. apply HQ; [|done]. split; [done|]. split; [done|]. split; [done|]. cbn. congruence.
Qed.

Lemma wp_rt_serial_read s q pos k Q : serial_opened q s -> 0 <= k ->
  (forall l q' s', serial_reads n q (Z.to_nat k) l q' -> serial_opened q' s' -> parent s' = parent s -> Q (Zlen l, l) s') ->
  wp (rt_serial_read ops env read_irq pos k) s Q.
Proof using Hgetc Hcallback Hindicate Harrive Hnext.
  intros [Hrec Hp] Hk HQ. unfold rt_serial_read. destruct (Z.eqb_spec k 0) as [->|Hne].
  { wp_ret. apply (HQ [] q); [constructor|done|done]. }
  pose proof Hrec as (_ & (f & Hf & _) & Ho & _). wp_bind. eapply (wp_run get_open_flag); [reflexivity|]. cbv beta. rewrite Ho.
  wp_bind. eapply wp_get_fifo; [exact Hf|]. wp_bind. eapply wp_int_rx; [exact Hrec|exact Hp|]. intros l q' s' Hl Hrec' Hp' Hpar. wp_ret. by apply (HQ l q').
Qed.

(** Bytes that arrive. *)
Definition bytes_arrive (l : list Z) : M (rt_serial_device H) unit := receive_event (map u8 l).

#[local] Program Instance serial_contract fuel : driver_contract (serial_driver ops env read_irq fuel) (serial_spec n) bytes_arrive := {|
  closed := serial_closed;
  opened := serial_opened;
|}.
Next Obligation. done. Qed.
Next Obligation. intros fuel s k Hc. exact Hc. Qed.
Next Obligation. intros fuel s (? & ? & ? & ?). split; [done|]. split; [done|]. split; [by apply has_lor|done]. Qed.
Next Obligation. intros fuel s k x Ho. exact Ho. Qed.
Next Obligation. intros fuel s x [(? & ? & ? & ?) ?]. split; [|done]. split; [done|]. split; [done|]. split; [by apply has_lor|done]. Qed.
Next Obligation. intros fuel s init Hi Hc. injection Hi as <-. apply wp_rt_serial_init; [done|]. by intros. Qed.
Next Obligation. intros fuel s open f o Hi Hf Ho. injection Hi as <-. eapply wp_rt_serial_open; [done|exact Ho|]. by intros. Qed.
Next Obligation.
  intros fuel s close x Hi Ho Hr. injection Hi as <-. eapply wp_rt_serial_close; [exact Ho|exact Hr|]. intros s' (? & ? & ? & ?) Hf Hn'. split; [done|]. by split_and!.
Qed.
Next Obligation. intros fuel s read x pos k Hi Ho Hk. injection Hi as <-. eapply wp_rt_serial_read; [exact Ho|exact Hk|]. intros l q' s' Hl Ho' Hpar. by exists q'. Qed.
Next Obligation.
  intros fuel s x e [Hrec Hp]. eapply wp_receive_event; [|exact Hrec|exact Hp|].
  - apply Forall_map, Forall_true. intros c. apply u8_range.
  - intros s' Hrec' Hp' Hpar. by eexists.
Qed.

Context (Herrno : forall e, quiet (set_errno env e)).

(** C22: programs that open, read and close a serial device in interrupt mode, with
    characters that arrive in between and during the reads, see the sessions that
    device.c promises over a queue of characters: the first open starts with an
    empty queue, the last close ends it, reads take from the front what has
    arrived, and of more than [n - 1] characters the oldest are lost.  Every call
    is defined and ends. *)
Theorem serial_sessions_refine fuel cs s x : serial_closed s -> ref_count (parent s) = 0 ->
  has (dev_flag (parent s)) RT_DEVICE_FLAG_STANDALONE = false -> all_allowed (serial_spec n) 0 cs ->
  wp (run_calls (serial_driver ops env read_irq fuel) bytes_arrive (fun e => with_hw (set_errno env e)) cs) s
    (fun outs s' => exists a, session_run (serial_spec n) (0, x) cs outs a /\ ref_count (parent s') = a.1).
Proof using All.
  intros Hc Hr Hst Hall. assert (in_session (C := serial_contract fuel) (serial_driver ops env read_irq fuel) bytes_arrive (0, x) s) as Hin by (by split_and!).
  eapply wp_mono; [eapply (@calls_run _ _ _ _ _ _ _ _ (serial_contract fuel) (fun e => with_hw (set_errno env e)));
    [|by eexists..|exact Hin|exact Hall]|].
  - intros e s' (? & ? & ? & ?). eapply wp_with_hw; [apply Herrno|]. intros [] h Hh. split; [|done].
    split; [done|]. split; [done|]. split; [done|]. cbn. by rewrite Hh.
  - cbv beta. intros outs s' (a & Hrun & _ & Hn' & _). by exists a.
Qed.
End interrupt.

(** While there is room nothing is lost. *)
Lemma enqueue_all_room n q l : Zlen q + Zlen l < n -> enqueue_all n q l = q ++ l.
Proof.
  revert q. induction l as [|c l IH]; intros q Hl; [by rewrite app_nil_r|]. rewrite Zlen_cons in Hl. pose proof (Zlen_nonneg l).
  cbn. unfold enqueue at 2. rewrite (proj2 (Z.eqb_neq _ _)) by lia. fold (enqueue_all n (q ++ [c]) l). rewrite IH; [by rewrite <-(assoc_L (++))|].
  rewrite Zlen_app. change (Zlen [c]) with 1. lia.
Qed.

(** ** Sending *)

(** A line feed follows a carriage return in stream mode. *)
Definition line_feeds (stream : bool) (data : list Z) : list Z := concat (map (fun c => if (c =? 10) && stream then [13; c] else [c]) data).

Section sending.
Context {H : Type} (ops : rt_uart_ops H) (env : serial_env H).

(** [sent] is what went out; [ready] says whether the hardware takes a character
    at once, and a wait ends when it does. *)
Context (sent : H -> list Z) (ready : H -> bool).
Context (Hpoll : forall f c h, has f RT_DEVICE_FLAG_INT_TX = false -> exists r h', putc ops f c h = Some (r, h') /\ sent h' = sent h ++ [c]).
Context (Hint : forall f c h, has f RT_DEVICE_FLAG_INT_TX = true -> exists r h', putc ops f c h = Some (r, h') /\
  if ready h then r <> -1 /\ sent h' = sent h ++ [c] else r = -1 /\ sent h' = sent h).
Context (Hwait : forall h, exists r h', completion_wait env h = Some (r, h') /\ ready h' = true /\ sent h' = sent h).
Implicit Types (s : rt_serial_device H).

Lemma wp_poll_tx data : forall s Q, has (open_flag (parent s)) RT_DEVICE_FLAG_INT_TX = false ->
  (forall s', sent (hw s') = sent (hw s) ++ line_feeds (has (open_flag (parent s)) RT_DEVICE_FLAG_STREAM) data -> parent s' = parent s -> Q tt s') ->
  wp (_serial_poll_tx ops data) s Q.
Proof using Hpoll.
  induction data as [|c data IH]; intros s Q Hf HQ; cbn [_serial_poll_tx].
  - wp_ret. apply HQ; [|done]. unfold line_feeds. cbn. by rewrite app_nil_r.
  - wp_bind. eapply (wp_run get_open_flag); [reflexivity|]. cbv beta. set (f := open_flag (parent s)) in *.
    assert (forall s1, parent s1 = parent s -> sent (hw s1) ++ [c] = sent (hw s) ++ (if (c =? 10) && has f RT_DEVICE_FLAG_STREAM then [13; c] else [c]) ->
      wp (with_hw (putc ops f c) ;; _serial_poll_tx ops data) s1 Q) as Hgo.
    { intros s1 Hpar Hs. destruct (Hpoll f c (hw s1) Hf) as (r & h' & Hp & Hs'). wp_bind. eapply wp_run; [unfold with_hw; rewrite Hp; reflexivity|]. cbv beta.
      apply IH; [cbn [parent]; by rewrite Hpar|]. intros s2 Hs2 Hpar2. apply HQ; [|by rewrite Hpar2].
      rewrite Hs2. cbn [hw parent]. rewrite Hs', Hs, Hpar. fold f. unfold line_feeds. cbn [map concat]. by rewrite <-(assoc_L (++)). }
    destruct ((c =? 10) && has f RT_DEVICE_FLAG_STREAM) eqn:Hlf.
    + destruct (Hpoll f 13 (hw s) Hf) as (r & h' & Hp & Hs'). wp_bind. eapply wp_run; [unfold with_hw; rewrite Hp; reflexivity|]. cbv beta. wp_ret.
      apply Hgo; [done|]. cbn [hw]. by rewrite Hs', <-(assoc_L (++)).
    + wp_bind. wp_ret. by apply Hgo.
Qed.

(** Each character takes at most one wait. *)
Lemma wp_int_tx data : forall fuel s Q, (2 * length data <= fuel)%nat -> has (open_flag (parent s)) RT_DEVICE_FLAG_INT_TX = true ->
  (forall s', sent (hw s') = sent (hw s) ++ data -> Q tt s') -> wp (_serial_int_tx ops env fuel data) s Q.
Proof using Hint Hwait.
  induction data as [|c data IH]; intros fuel s Q Hfuel Hf HQ; [destruct fuel; cbn [_serial_int_tx]; wp_ret; apply HQ; by rewrite app_nil_r|].
  cbn [length] in Hfuel. destruct fuel as [|fuel]; [lia|].
  assert (forall fuel s1, (2 * length data <= fuel)%nat -> ready (hw s1) = true -> parent s1 = parent s -> sent (hw s1) = sent (hw s) ->
    wp (_serial_int_tx ops env (Datatypes.S fuel) (c :: data)) s1 Q) as Hgo.
  { intros fuel1 s1 Hfuel1 Hr Hpar Hs. cbn [_serial_int_tx]. wp_bind. eapply (wp_run get_open_flag); [reflexivity|]. cbv beta. rewrite Hpar.
    destruct (Hint (open_flag (parent s)) c (hw s1) Hf) as (r & h' & Hp & Hc). rewrite Hr in Hc. destruct Hc as [Hne Hs']. wp_bind.
    eapply wp_run; [unfold with_hw; rewrite Hp; reflexivity|]. cbv beta. rewrite (proj2 (Z.eqb_neq _ _) Hne).
    apply IH; [done|cbn [parent]; by rewrite Hpar|]. intros s2 Hs2. apply HQ. rewrite Hs2. cbn [hw]. by rewrite Hs', Hs, <-(assoc_L (++)). }
  destruct (ready (hw s)) eqn:Hr; [apply Hgo; [lia|done..]|]. cbn [_serial_int_tx]. wp_bind. eapply (wp_run get_open_flag); [reflexivity|]. cbv beta.
  destruct (Hint (open_flag (parent s)) c (hw s) Hf) as (r & h' & Hp & Hc). rewrite Hr in Hc. destruct Hc as [-> Hs']. wp_bind.
  eapply wp_run; [unfold with_hw; rewrite Hp; reflexivity|]. cbv beta. change (-1 =? -1) with true. cbn iota.
  destruct (Hwait h') as (r & h'' & Hw & Hr' & Hs''). wp_bind. eapply wp_run; [unfold with_hw; cbn [hw]; rewrite Hw; reflexivity|]. cbv beta.
  destruct fuel as [|fuel]; [lia|]. apply Hgo; [lia|done|done|]. cbn [hw]. by rewrite Hs'', Hs'.
Qed.

(** A write without DMA ends, returns the size of the data, and sends exactly the
    data in order, whether each character is polled or waits for the transmission
    interrupt; in stream mode, and only when it polls, a carriage return goes before
    every line feed. *)
Theorem rt_serial_write_sends fuel pos data s : (2 * length data <= fuel)%nat ->
  (if has (open_flag (parent s)) RT_DEVICE_FLAG_INT_TX then serial_tx s = Some Tx_fifo else has (open_flag (parent s)) RT_DEVICE_FLAG_DMA_TX = false) ->
  wp (rt_serial_write ops env fuel pos data) s (fun r s' => r = Zlen data /\ sent (hw s') = sent (hw s) ++
    (if has (open_flag (parent s)) RT_DEVICE_FLAG_INT_TX then data else line_feeds (has (open_flag (parent s)) RT_DEVICE_FLAG_STREAM) data)).
Proof using Hpoll Hint Hwait.
  intros Hfuel Htx. unfold rt_serial_write. destruct (Z.eqb_spec (Zlen data) 0) as [Hz|Hnz].
  { destruct data; [|rewrite Zlen_cons in Hz; pose proof (Zlen_nonneg data); lia]. wp_ret. split; [done|].
    unfold line_feeds. cbn. by rewrite Tauto.if_same, app_nil_r. }
  wp_bind. eapply (wp_run get_open_flag); [reflexivity|]. cbv beta. destruct (has (open_flag (parent s)) RT_DEVICE_FLAG_INT_TX) eqn:Hi.
  - wp_bind. eapply wp_run; [unfold get_tx_fifo, mbind, M_bind, get; rewrite Htx; reflexivity|]. cbv beta. wp_bind.
    apply wp_int_tx; [done|done|]. intros s' Hs'. by wp_ret.
  - rewrite Htx. wp_bind. apply wp_poll_tx; [done|]. intros s' Hs' _. by wp_ret.
Qed.
End sending.

(** ** Double complements

    The masks of close, of RESUME and of the DMA event are complemented twice, which
    is no complement: the bits that were to be cleared are the only ones that stay. *)

Lemma and_not_not_keeps {H} mask (s : rt_serial_device H) :
  and_not_not mask s = Some (tt, set_dev (set_open_flag (parent s) (Z.land (open_flag (parent s)) mask)) s).
Proof. unfold and_not_not, modify_dev, mbind, M_bind, get, put. by rewrite Z.lnot_involutive. Qed.

Lemma resume_stays_suspended {H} ops (s : rt_serial_device H) :
  rt_serial_control (H := H) ops RT_DEVICE_CTRL_RESUME Arg_null s =
  Some (RT_EOK, set_dev (set_dev_flag (parent s) (Z.land (dev_flag (parent s)) RT_DEVICE_FLAG_SUSPENDED)) s).
Proof. unfold rt_serial_control, modify_dev, mbind, M_bind, mret, M_ret, get, put. cbn [Z.eqb RT_DEVICE_CTRL_RESUME RT_DEVICE_CTRL_SUSPEND Pos.eqb]. by rewrite Z.lnot_involutive. Qed.

(** The length of a DMA event is lost with it. *)
Lemma dma_event_length_zero event : dma_event_length event = 0.
Proof.
  unfold dma_event_length. rewrite Z.lnot_involutive. apply Z.bits_inj'. intros i Hi. rewrite Z.shiftr_spec, Z.bits_0, Z.land_spec by done.
  change 0xff with (Z.ones 8). rewrite Z.ones_spec_high by lia. apply andb_false_r.
Qed.

(** ** At a concrete input *)

(** The hardware as the characters that it has received. *)
Definition line_ops : rt_uart_ops (list Z) :=
  mk_ops None (fun _ _ => mret RT_EOK) (fun _ _ => mret 1) (fun h => Some (match h with [] => -1 | c :: _ => c end, tail h)) None.
Definition line_env : serial_env (list Z) :=
  mk_env (fun _ => mret true) (mret tt) (mret tt) (mret 0) (mret tt) (mret tt) (fun _ => mret 0) (mret None) (mret None)
    (fun _ _ => mret tt) (fun _ _ => mret tt) (fun _ => mret tt) (fun _ => mret tt).
Definition line_arrive (l : list Z) : M (list Z) unit := fun h => Some (tt, h ++ l).
Definition line_quiet : M (list Z) (list Z) := mret [].

(** uart2 of the board with a buffer for four characters. *)
Definition line_device : rt_serial_device (list Z) :=
  mk_serial (mk_device 0x703 0 0 None None) (mk_configure 115200 8 0 0 0 0 4) None None [].

Lemma serial_sessions_refine_witness :
  wp (run_calls (serial_driver line_ops line_env (read_irq line_ops line_env false line_arrive line_quiet) 0)
        (bytes_arrive line_ops line_env false line_arrive) (fun e => with_hw (set_errno line_env e))
        [Open 0x102; Event [1; 2; 3; 4]; Read 0 2; Close; Close]) line_device
    (fun outs s' => exists a, session_run (serial_spec 4) (0, []) [Open 0x102; Event [1; 2; 3; 4]; Read 0 2; Close; Close] outs a /\
      ref_count (parent s') = a.1).
Proof.
  apply (serial_sessions_refine line_ops line_env false 4 ltac:(lia) (fun h => h) line_arrive line_quiet); try done.
  - intros h. by eexists.
  - intros l h. by eexists.
  - intros h. exists [], h. done.
  - intros c h. by exists tt, h.
  - intros fn k h. by exists tt, h.
  - intros size h. by exists h.
  - intros h. by exists tt, h.
  - intros cmd a h. by exists RT_EOK, h.
  - intros e h. by exists tt, h.
Defined.

(** Hardware that takes one character and is ready again after a wait. *)
Definition tx_ops : rt_uart_ops (list Z * bool) :=
  mk_ops None (fun _ _ => mret RT_EOK)
    (fun f c '(out, ready) => if has f RT_DEVICE_FLAG_INT_TX && negb ready then Some (-1, (out, ready)) else Some (1, (out ++ [c], false)))
    (mret (-1)) None.
Definition tx_env : serial_env (list Z * bool) :=
  mk_env (fun _ => mret true) (mret tt) (mret tt) (fun '(out, _) => Some (0, (out, true))) (mret tt) (mret tt) (fun _ => mret 0) (mret None) (mret None)
    (fun _ _ => mret tt) (fun _ _ => mret tt) (fun _ => mret tt) (fun _ => mret tt).
Definition tx_device : rt_serial_device (list Z * bool) :=
  mk_serial (mk_device 0x703 0x448 1 None None) (mk_configure 115200 8 0 0 0 0 4) None (Some Tx_fifo) ([], true).

Lemma rt_serial_write_sends_witness :
  wp (rt_serial_write tx_ops tx_env 6 0 [65; 10; 66]) tx_device (fun r s' => r = 3 /\ (hw s').1 = [65; 10; 66]).
Proof.
  apply (rt_serial_write_sends tx_ops tx_env fst snd).
  - intros f c [out r] Hf. cbn. rewrite Hf. cbn. by eexists _, _.
  - intros f c [out []] Hf; cbn; rewrite Hf; cbn; by eexists _, _.
  - intros [out r]. by eexists _, _.
  - done.
  - done.
Defined.
