(* ===== verification/LwMqtt.v ===== *)
(** * The MQTT client of the application (components/net/lwip-2.0.2/src/apps/mqtt/mqtt.c)

    The client that APP_OneNet.c connects and subscribes with: lwIP's client with
    its TCP part taken out and the serial device of the AT module put in.  The state
    is struct mqtt_client_t; callbacks and writes to the device are recorded in a
    trace, and what the device receives is a stream of arrivals.  What a callback
    does is not in the model.  Pointers to requests are indices into the array
    req_list, and an item that is not in use points to itself, as in the code; a string
    is the list of its characters, without the NUL. *)

From S2P Require Import Prelude Cstr.

Open Scope Z_scope.

(** ** Constants *)

Definition MQTT_OUTPUT_RINGBUF_SIZE : Z := 256.
Definition MQTT_VAR_HEADER_BUFFER_LEN : Z := 128.
Definition MQTT_REQ_MAX_IN_FLIGHT : nat := 4.
Definition MQTT_CYCLIC_TIMER_INTERVAL : Z := 5.
Definition MQTT_REQ_TIMEOUT : Z := 30.
Definition MQTT_CONNECT_TIMOUT : Z := 100.

Definition TCP_DISCONNECTED : Z := 0.
Definition TCP_CONNECTING : Z := 1.
Definition MQTT_CONNECTING : Z := 2.
Definition MQTT_CONNECTED : Z := 3.

Definition MQTT_MSG_TYPE_CONNECT : Z := 1.
Definition MQTT_MSG_TYPE_CONNACK : Z := 2.
Definition MQTT_MSG_TYPE_PUBLISH : Z := 3.
Definition MQTT_MSG_TYPE_PUBACK : Z := 4.
Definition MQTT_MSG_TYPE_PUBREC : Z := 5.
Definition MQTT_MSG_TYPE_PUBREL : Z := 6.
Definition MQTT_MSG_TYPE_PUBCOMP : Z := 7.
Definition MQTT_MSG_TYPE_SUBSCRIBE : Z := 8.
Definition MQTT_MSG_TYPE_SUBACK : Z := 9.
Definition MQTT_MSG_TYPE_UNSUBSCRIBE : Z := 10.
Definition MQTT_MSG_TYPE_UNSUBACK : Z := 11.
Definition MQTT_MSG_TYPE_PINGREQ : Z := 12.
Definition MQTT_MSG_TYPE_PINGRESP : Z := 13.

Definition MQTT_CONNECT_FLAG_WILL_RETAIN : Z := 0x20.
Definition MQTT_CONNECT_FLAG_WILL : Z := 0x04.
Definition MQTT_CONNECT_FLAG_CLEAN_SESSION : Z := 0x02.

Definition MQTT_CONNECT_ACCEPTED : Z := 0.
Definition MQTT_CONNECT_DISCONNECTED : Z := 256.
Definition MQTT_CONNECT_TIMEOUT : Z := 257.
Definition MQTT_DATA_FLAG_LAST : Z := 1.

Definition ERR_OK : Z := 0.
Definition ERR_MEM : Z := -1.
Definition ERR_TIMEOUT : Z := -3.
Definition ERR_ISCONN : Z := -10.
Definition ERR_CONN : Z := -11.
Definition ERR_ABRT : Z := -13.

Definition MQTT_CTL_PACKET_TYPE (b : Z) : Z := Z.shiftr (Z.land b 0xf0) 4.
Definition MQTT_CTL_PACKET_QOS (b : Z) : Z := Z.shiftr (Z.land b 0x6) 1.

(** ** Data *)

(** A callback is a number; an argument too. *)
Record mqtt_request_t := mk_request { next : option nat; cb : option Z; arg : Z; pkt_id : Z; timeout_diff : Z }.

Record mqtt_ringbuf_t := mk_ringbuf { put : Z; getp : Z; buf : list Z }.

Record mqtt_connect_client_info_t := mk_info {
  client_id : list Z; client_user : option (list Z); client_pass : option (list Z); info_keep_alive : Z;
  will_topic : option (list Z); will_msg : option (list Z); will_qos : Z; will_retain : Z }.

Record mqtt_client_t := mk_client {
  cyclic_tick : Z; keep_alive : Z; server_watchdog : Z; pkt_id_seq : Z; inpub_pkt_id : Z; conn_state : Z; conn : bool;
  connect_arg : Z; connect_cb : option Z; pend_req_queue : option nat; req_list : list mqtt_request_t;
  inpub_arg : Z; data_cb : option Z; pub_cb : option Z; msg_idx : Z; rx_buffer : list Z; output : mqtt_ringbuf_t }.

Definition set_times (c : mqtt_client_t) tick watchdog :=
  mk_client tick (keep_alive c) watchdog (pkt_id_seq c) (inpub_pkt_id c) (conn_state c) (conn c) (connect_arg c) (connect_cb c)
    (pend_req_queue c) (req_list c) (inpub_arg c) (data_cb c) (pub_cb c) (msg_idx c) (rx_buffer c) (output c).
Definition set_cyclic_tick c tick := set_times c tick (server_watchdog c).
Definition set_server_watchdog c w := set_times c (cyclic_tick c) w.
Definition set_ids (c : mqtt_client_t) seq inpub :=
  mk_client (cyclic_tick c) (keep_alive c) (server_watchdog c) seq inpub (conn_state c) (conn c) (connect_arg c) (connect_cb c)
    (pend_req_queue c) (req_list c) (inpub_arg c) (data_cb c) (pub_cb c) (msg_idx c) (rx_buffer c) (output c).
Definition set_conn_state (c : mqtt_client_t) st :=
  mk_client (cyclic_tick c) (keep_alive c) (server_watchdog c) (pkt_id_seq c) (inpub_pkt_id c) st (conn c) (connect_arg c) (connect_cb c)
    (pend_req_queue c) (req_list c) (inpub_arg c) (data_cb c) (pub_cb c) (msg_idx c) (rx_buffer c) (output c).
Definition set_conn (c : mqtt_client_t) x :=
  mk_client (cyclic_tick c) (keep_alive c) (server_watchdog c) (pkt_id_seq c) (inpub_pkt_id c) (conn_state c) x (connect_arg c) (connect_cb c)
    (pend_req_queue c) (req_list c) (inpub_arg c) (data_cb c) (pub_cb c) (msg_idx c) (rx_buffer c) (output c).
Definition set_requests (c : mqtt_client_t) q l :=
  mk_client (cyclic_tick c) (keep_alive c) (server_watchdog c) (pkt_id_seq c) (inpub_pkt_id c) (conn_state c) (conn c) (connect_arg c) (connect_cb c)
    q l (inpub_arg c) (data_cb c) (pub_cb c) (msg_idx c) (rx_buffer c) (output c).
Definition set_inpub (c : mqtt_client_t) a d p :=
  mk_client (cyclic_tick c) (keep_alive c) (server_watchdog c) (pkt_id_seq c) (inpub_pkt_id c) (conn_state c) (conn c) (connect_arg c) (connect_cb c)
    (pend_req_queue c) (req_list c) a d p (msg_idx c) (rx_buffer c) (output c).
Definition set_rx_buffer (c : mqtt_client_t) b :=
  mk_client (cyclic_tick c) (keep_alive c) (server_watchdog c) (pkt_id_seq c) (inpub_pkt_id c) (conn_state c) (conn c) (connect_arg c) (connect_cb c)
    (pend_req_queue c) (req_list c) (inpub_arg c) (data_cb c) (pub_cb c) (msg_idx c) b (output c).
Definition set_msg_idx (c : mqtt_client_t) i :=
  mk_client (cyclic_tick c) (keep_alive c) (server_watchdog c) (pkt_id_seq c) (inpub_pkt_id c) (conn_state c) (conn c) (connect_arg c) (connect_cb c)
    (pend_req_queue c) (req_list c) (inpub_arg c) (data_cb c) (pub_cb c) i (rx_buffer c) (output c).
Definition set_output (c : mqtt_client_t) o :=
  mk_client (cyclic_tick c) (keep_alive c) (server_watchdog c) (pkt_id_seq c) (inpub_pkt_id c) (conn_state c) (conn c) (connect_arg c) (connect_cb c)
    (pend_req_queue c) (req_list c) (inpub_arg c) (data_cb c) (pub_cb c) (msg_idx c) (rx_buffer c) o.

(** What the rest of the system sees. *)
Inductive client_event :=
  | Connect_callback (fn arg status : Z)
  | Request_callback (fn arg err : Z)
  | Publish_callback (fn arg : Z) (topic : list Z) (tot_len : Z)
  | Data_callback (fn arg : Z) (data : list Z) (len flags : Z)
  | Device_write (data : list Z)
  | Thread_delay (ticks : Z).

(** [fifo] is what the device holds, and [arrivals] what comes in before each of
    the reads that follow. *)
Record world := mk_world { client : mqtt_client_t; trace : list client_event; fifo : list Z; arrivals : list (list Z) }.

Notation W := (M world).

Definition get_client : W mqtt_client_t := w ← get; mret (client w).
Definition put_client (c : mqtt_client_t) : W unit := w ← get; Prelude.put (mk_world c (trace w) (fifo w) (arrivals w)).
Definition modify (f : mqtt_client_t -> mqtt_client_t) : W unit := c ← get_client; put_client (f c).
Definition trace_event (e : client_event) : W unit := w ← get; Prelude.put (mk_world (client w) (trace w ++ [e]) (fifo w) (arrivals w)).

(** The device of the module: a queue of characters, which is what [Serial] shows of
    the driver; what does not fit into the driver's buffer is not in the arrivals. *)
Definition device_write (data : list Z) : W Z := trace_event (Device_write data) ;; mret (Zlen data).

Definition device_read (n : Z) : W (list Z) :=
  w ← get;
  let l := fifo w ++ hd [] (arrivals w) in
  Prelude.put (mk_world (client w) (trace w) (drop (Z.to_nat n) l) (tail (arrivals w))) ;; mret (take (Z.to_nat n) l).

Definition rt_thread_delay (ticks : Z) : W unit := trace_event (Thread_delay ticks).

Definition msg_generate_packet_id : W Z :=
  c ← get_client;
  let seq := u16 (pkt_id_seq c + 1) in
  let seq := if seq =? 0 then u16 (seq + 1) else seq in
  put_client (set_ids c seq (inpub_pkt_id c)) ;; mret seq.

(** ** Output ring buffer *)

Definition mqtt_ringbuf_put (item : Z) : W unit :=
  c ← get_client; let rb := output c in
  b ← of_opt (set_at (buf rb) (Z.land (put rb) (MQTT_OUTPUT_RINGBUF_SIZE - 1)) (u8 item));
  put_client (set_output c (mk_ringbuf (u16 (put rb + 1)) (getp rb) b)).

Definition mqtt_ringbuf_len (rb : mqtt_ringbuf_t) : Z := u16 (put rb - getp rb).
Definition mqtt_ringbuf_free (rb : mqtt_ringbuf_t) : Z := MQTT_OUTPUT_RINGBUF_SIZE - mqtt_ringbuf_len rb.

Definition mqtt_output_send : W unit :=
  c ← get_client; d ← of_opt (read_at (buf (output c)) 0 (mqtt_ringbuf_len (output c))); device_write d ;; mret tt.

(** ** Request queue *)

Definition set_next_request (r : mqtt_request_t) n := mk_request n (cb r) (arg r) (pkt_id r) (timeout_diff r).
Definition set_timeout_diff (r : mqtt_request_t) t := mk_request (next r) (cb r) (arg r) (pkt_id r) t.

Definition get_request (r : nat) : W mqtt_request_t := c ← get_client; of_opt (req_list c !! r).
Definition put_request (r : nat) (x : mqtt_request_t) : W unit := modify (fun c => set_requests c (pend_req_queue c) (<[r := x]> (req_list c))).
Definition get_queue : W (option nat) := c ← get_client; mret (pend_req_queue c).
Definition put_queue (q : option nat) : W unit := modify (fun c => set_requests c q (req_list c)).

(** The first item that points to itself. *)
Fixpoint find_unused (n : nat) (l : list mqtt_request_t) : option nat :=
  match l with
  | [] => None
  | x :: l => if bool_decide (next x = Some n) then Some n else find_unused (S n) l
  end.

Definition mqtt_create_request (id : Z) (f : option Z) (a : Z) : W (option nat) :=
  c ← get_client;
  match find_unused 0 (take MQTT_REQ_MAX_IN_FLIGHT (req_list c)) with
  | None => mret None
  | Some n => x ← get_request n; put_request n (mk_request None f a id (timeout_diff x)) ;; mret (Some n)
  end.

(** The last item, and the time of all. *)
Fixpoint queue_end (fuel : nat) (iter head : option nat) (time_before : Z) : W (option nat * Z) :=
  match iter, fuel with
  | None, _ => mret (head, time_before)
  | Some _, O => ub
  | Some n, S fuel => x ← get_request n; queue_end fuel (next x) iter (s16 (time_before + timeout_diff x))
  end.

Definition mqtt_append_request (r : nat) : W unit :=
  q ← get_queue; '(head, time_before) ← queue_end (S MQTT_REQ_MAX_IN_FLIGHT) q None 0;
  x ← get_request r; put_request r (set_timeout_diff x (u16 (MQTT_REQ_TIMEOUT - time_before))) ;;
  match head with
  | None => put_queue (Some r)
  | Some h => x ← get_request h; put_request h (set_next_request x (Some r))
  end.

Definition mqtt_delete_request (r : nat) : W unit := x ← get_request r; put_request r (set_next_request x (Some r)).

Fixpoint find_request (fuel : nat) (iter prev : option nat) (id : Z) : W (option nat * option nat) :=
  match iter, fuel with
  | None, _ => mret (None, prev)
  | Some _, O => ub
  | Some n, S fuel => x ← get_request n; if pkt_id x =? id then mret (iter, prev) else find_request fuel (next x) iter id
  end.

Definition mqtt_take_request (id : Z) : W (option nat) :=
  q ← get_queue; '(iter, prev) ← find_request (S MQTT_REQ_MAX_IN_FLIGHT) q None id;
  match iter with
  | None => mret None
  | Some n =>
      x ← get_request n;
      match prev with None => put_queue (next x) | Some p => y ← get_request p; put_request p (set_next_request y (next x)) end ;;
      match next x with
      | None => mret tt
      | Some m => y ← get_request m; put_request m (set_timeout_diff y (u16 (timeout_diff y + timeout_diff x)))
      end ;;
      x ← get_request n; put_request n (set_next_request x None) ;; mret iter
  end.

Definition call_request (x : mqtt_request_t) (err : Z) : W unit :=
  match cb x with None => mret tt | Some fn => trace_event (Request_callback fn (arg x) err) end.

Fixpoint time_elapsed_loop (fuel : nat) (r : option nat) (t : Z) : W unit :=
  match r, fuel with
  | None, _ => mret tt
  | Some n, fuel =>
      if negb (0 <? t) then mret tt else
      match fuel with
      | O => ub
      | S fuel =>
          x ← get_request n;
          if timeout_diff x <=? t then
            put_queue (next x) ;; call_request x ERR_TIMEOUT ;; mqtt_delete_request n ;;
            r ← get_queue; time_elapsed_loop fuel r (u8 (t - u8 (timeout_diff x)))
          else put_request n (set_timeout_diff x (u16 (timeout_diff x - t)))
      end
  end.

Definition mqtt_request_time_elapsed (t : Z) : W unit := q ← get_queue; time_elapsed_loop (S MQTT_REQ_MAX_IN_FLIGHT) q t.

Fixpoint clear_loop (fuel : nat) (iter : option nat) : W unit :=
  match iter, fuel with
  | None, _ => mret tt
  | Some _, O => ub
  | Some n, S fuel => x ← get_request n; mqtt_delete_request n ;; clear_loop fuel (next x)
  end.

Definition mqtt_clear_requests : W unit := q ← get_queue; clear_loop (S MQTT_REQ_MAX_IN_FLIGHT) q ;; put_queue None.

(** Item [n] after the initialisation. *)
Definition unused_request (n : nat) (x : mqtt_request_t) : mqtt_request_t := set_next_request x (Some n).

Definition mqtt_init_requests : W unit := modify (fun c => set_requests c (pend_req_queue c) (imap unused_request (req_list c))).

(** ** Output messages *)

Definition mqtt_output_append_u8 (value : Z) : W unit := mqtt_ringbuf_put value.
Definition mqtt_output_append_u16 (value : Z) : W unit := mqtt_ringbuf_put (Z.shiftr value 8) ;; mqtt_ringbuf_put (Z.land value 0xff).

Fixpoint mqtt_output_append_buf (data : list Z) : W unit :=
  match data with [] => mret tt | x :: data => mqtt_ringbuf_put x ;; mqtt_output_append_buf data end.

(** The first [length] characters of the string. *)
Definition mqtt_output_append_string (str : list Z) (length : Z) : W unit :=
  mqtt_ringbuf_put (Z.shiftr length 8) ;; mqtt_ringbuf_put (Z.land length 0xff) ;; mqtt_output_append_buf (take (Z.to_nat length) str).

Fixpoint append_length (fuel : nat) (r_length : Z) : W unit :=
  mqtt_output_append_u8 (Z.lor (Z.land r_length 0x7f) (if 128 <=? r_length then 0x80 else 0)) ;;
  let r_length := Z.shiftr r_length 7 in
  if 0 <? r_length then match fuel with O => ub | S fuel => append_length fuel r_length end else mret tt.

Definition mqtt_output_append_fixed_header (msg_type dup qos retain r_length : Z) : W unit :=
  mqtt_output_append_u8 (Z.lor (Z.lor (Z.lor (Z.shiftl (Z.land msg_type 0x0f) 4) (Z.shiftl (Z.land dup 1) 3)) (Z.shiftl (Z.land qos 3) 1)) (Z.land retain 1)) ;;
  append_length 2 r_length.

(** The bytes that the length takes. *)
Fixpoint length_bytes (fuel : nat) (total_len r_length : Z) : Z :=
  let total_len := u16 (total_len + 1) in
  let r_length := Z.shiftr r_length 7 in
  match fuel with
  | O => total_len
  | S fuel => if 0 <? r_length then length_bytes fuel total_len r_length else total_len
  end.

Definition mqtt_output_check_space (rb : mqtt_ringbuf_t) (r_length : Z) : bool :=
  length_bytes 2 (u16 (1 + r_length)) r_length <=? mqtt_ringbuf_free rb.

(** ** Connection *)

Definition call_connect (status : Z) : W unit :=
  c ← get_client; match connect_cb c with None => mret tt | Some fn => trace_event (Connect_callback fn (connect_arg c) status) end.

(** With a connection the code reads a result that nothing has set. *)
Definition mqtt_close (reason : Z) : W unit :=
  c ← get_client;
  (if conn c then ub else mret tt) ;;
  mqtt_clear_requests ;;
  c ← get_client;
  if negb (conn_state c =? TCP_DISCONNECTED) then modify (fun c => set_conn_state c TCP_DISCONNECTED) ;; call_connect reason else mret tt.

(** The pings of the timer. *)
Definition send_ping : W unit :=
  c ← get_client;
  if keep_alive c <=? cyclic_tick c * MQTT_CYCLIC_TIMER_INTERVAL then
    if mqtt_output_check_space (output c) 0 then
      mqtt_output_append_fixed_header MQTT_MSG_TYPE_PINGREQ 0 0 0 0 ;; modify (fun c => set_cyclic_tick c 0)
    else mret tt
  else modify (fun c => set_cyclic_tick c (u16 (cyclic_tick c + 1))).

Definition mqtt_cyclic_timer : W unit :=
  c ← get_client;
  if conn_state c =? MQTT_CONNECTING then
    modify (fun c => set_cyclic_tick c (u16 (cyclic_tick c + 1))) ;;
    c ← get_client;
    if MQTT_CONNECT_TIMOUT <=? cyclic_tick c * MQTT_CYCLIC_TIMER_INTERVAL then mqtt_close MQTT_CONNECT_TIMEOUT else mret tt
  else if conn_state c =? MQTT_CONNECTED then
    mqtt_request_time_elapsed MQTT_CYCLIC_TIMER_INTERVAL ;;
    c ← get_client;
    if 0 <? keep_alive c then
      modify (fun c => set_server_watchdog c (u16 (server_watchdog c + 1))) ;;
      c ← get_client;
      (if keep_alive c + keep_alive c / 2 <? server_watchdog c * MQTT_CYCLIC_TIMER_INTERVAL then mqtt_close MQTT_CONNECT_TIMEOUT else mret tt) ;;
      send_ping
    else mret tt
  else mret tt.

Definition pub_ack_rec_rel_response (msg id qos : Z) : W Z :=
  c ← get_client;
  if mqtt_output_check_space (output c) 2 then
    mqtt_output_append_fixed_header msg 0 qos 0 2 ;; mqtt_output_append_u16 id ;; mqtt_output_send ;; mret ERR_OK
  else mret ERR_MEM.

Definition mqtt_incomming_suback (x : mqtt_request_t) (result : Z) : W unit := call_request x (if result <? 3 then ERR_OK else ERR_ABRT).

(** ** Messages that arrive *)

(** A byte of rx_buffer. *)
Definition rx (i : Z) : W Z := c ← get_client; of_opt (get_at (rx_buffer c) i).
Definition set_rx (i x : Z) : W unit := c ← get_client; b ← of_opt (set_at (rx_buffer c) i x); put_client (set_rx_buffer c b).
Definition set_inpub_pkt_id (id : Z) : W unit := modify (fun c => set_ids c (pkt_id_seq c) id).

(** The topic with the byte after it as its terminator, for the callback. *)
Definition call_publish (topic topic_len tot_len : Z) : W unit :=
  bkp ← rx (topic + topic_len); set_rx (topic + topic_len) 0 ;;
  c ← get_client;
  match pub_cb c with
  | None => mret tt
  | Some fn => s ← of_opt (cstr_from (rx_buffer c) topic); trace_event (Publish_callback fn (inpub_arg c) s tot_len)
  end ;;
  set_rx (topic + topic_len) bkp.

(** The variable header: the offset of the payload, and [None] when it does not fit. *)
Definition incoming_header (h length remaining_length qos : Z) : W (option Z) :=
  b0 ← rx h; b1 ← rx (h + 1);
  let topic_len := u16 (Z.shiftl b0 8 + b1) in
  let after_topic := u16 (2 + topic_len) in
  if length <? after_topic + (if negb (qos =? 0) then 2 else 1) then mret None else
  (if 0 <? qos then b0 ← rx (h + after_topic); b1 ← rx (h + after_topic + 1); set_inpub_pkt_id (u16 (Z.shiftl b0 8 + b1)) else set_inpub_pkt_id 0) ;;
  let after_topic := if 0 <? qos then u16 (after_topic + 2) else after_topic in
  call_publish (h + 2) topic_len (u32 (remaining_length + u16 (length - after_topic))) ;;
  mret (Some after_topic).

(** The payload, and the answer. *)
Definition publish_payload (h length remaining_length qos offset : Z) : W unit :=
  let payload_length := u16 (length - offset) in
  if (0 <? payload_length) || (remaining_length =? 0) then
    c ← get_client;
    fn ← of_opt (data_cb c); d ← of_opt (read_at (rx_buffer c) (h + offset) payload_length);
    trace_event (Data_callback fn (inpub_arg c) d payload_length (if remaining_length =? 0 then MQTT_DATA_FLAG_LAST else 0)) ;;
    if (remaining_length =? 0) && (0 <? qos) then
      c ← get_client;
      pub_ack_rec_rel_response (if qos =? 1 then MQTT_MSG_TYPE_PUBACK else MQTT_MSG_TYPE_PUBREC) (inpub_pkt_id c) 0 ;; mret tt
    else mret tt
  else mret tt.

Definition publish_received (h length remaining_length : Z) : W Z :=
  b ← rx 0; let qos := MQTT_CTL_PACKET_QOS b in
  c ← get_client;
  if msg_idx c <=? MQTT_VAR_HEADER_BUFFER_LEN then
    r ← incoming_header h length remaining_length qos;
    match r with
    | None => mret MQTT_CONNECT_DISCONNECTED
    | Some offset => publish_payload h length remaining_length qos offset ;; mret MQTT_CONNECT_ACCEPTED
    end
  else publish_payload h length remaining_length qos 0 ;; mret MQTT_CONNECT_ACCEPTED.

Definition connack_received (h : Z) : W Z :=
  c ← get_client;
  if conn_state c =? MQTT_CONNECTING then
    res ← rx (h + 1);
    if res =? MQTT_CONNECT_ACCEPTED then
      modify (fun c => set_conn_state (set_cyclic_tick c 0) MQTT_CONNECTED) ;; call_connect res ;; mret res
    else mret res
  else mret MQTT_CONNECT_ACCEPTED.

(** The answer to a request.  A SUBACK that is too short leaves its item taken. *)
Definition response_received (pkt_type h length id : Z) : W Z :=
  r ← mqtt_take_request id;
  match r with
  | None => mret MQTT_CONNECT_ACCEPTED
  | Some n =>
      x ← get_request n;
      if pkt_type =? MQTT_MSG_TYPE_SUBACK then
        if length <? 3 then mret MQTT_CONNECT_DISCONNECTED else
        b ← rx (h + 2); mqtt_incomming_suback x b ;; mqtt_delete_request n ;; mret MQTT_CONNECT_ACCEPTED
      else call_request x ERR_OK ;; mqtt_delete_request n ;; mret MQTT_CONNECT_ACCEPTED
  end.

Definition answer_received (pkt_type h length : Z) : W Z :=
  b0 ← rx h; b1 ← rx (h + 1); let id := Z.lor (u16 (Z.shiftl b0 8)) b1 in
  if id =? 0 then mret MQTT_CONNECT_DISCONNECTED else
  if pkt_type =? MQTT_MSG_TYPE_PUBREC then pub_ack_rec_rel_response MQTT_MSG_TYPE_PUBREL id 1 ;; mret MQTT_CONNECT_ACCEPTED else
  if pkt_type =? MQTT_MSG_TYPE_PUBREL then mret MQTT_CONNECT_ACCEPTED else
  if (pkt_type =? MQTT_MSG_TYPE_SUBACK) || (pkt_type =? MQTT_MSG_TYPE_UNSUBACK) || (pkt_type =? MQTT_MSG_TYPE_PUBCOMP) || (pkt_type =? MQTT_MSG_TYPE_PUBACK)
  then response_received pkt_type h length id
  else mret MQTT_CONNECT_DISCONNECTED.

Definition mqtt_message_received (fixed_hdr_idx length remaining_length : Z) : W Z :=
  b ← rx 0; let pkt_type := MQTT_CTL_PACKET_TYPE b in
  if pkt_type =? MQTT_MSG_TYPE_CONNACK then connack_received fixed_hdr_idx
  else if pkt_type =? MQTT_MSG_TYPE_PINGRESP then mret MQTT_CONNECT_ACCEPTED
  else if pkt_type =? MQTT_MSG_TYPE_PUBLISH then publish_received fixed_hdr_idx length remaining_length
  else answer_received pkt_type fixed_hdr_idx length.

(** ** Callbacks of the connection, which nothing installs

    [data] says whether there is any; then the result of a parser that is commented
    out is read. *)
Definition mqtt_tcp_recv_cb (data : bool) (err : Z) : W Z :=
  if negb data then mqtt_close MQTT_CONNECT_DISCONNECTED ;; mret ERR_OK
  else if negb (err =? ERR_OK) then mret err else ub.

(** The requests of QoS 0. *)
Fixpoint sent_loop (fuel : nat) : W unit :=
  r ← mqtt_take_request 0;
  match r, fuel with
  | None, _ => mret tt
  | Some _, O => ub
  | Some n, S fuel => x ← get_request n; call_request x ERR_OK ;; mqtt_delete_request n ;; sent_loop fuel
  end.

Definition mqtt_tcp_sent_cb : W Z :=
  c ← get_client;
  if conn_state c =? MQTT_CONNECTED then
    put_client (set_times c 0 0) ;; sent_loop (S MQTT_REQ_MAX_IN_FLIGHT) ;; mqtt_output_send ;; mret ERR_OK
  else mret ERR_OK.

Definition mqtt_tcp_err_cb : W unit := modify (fun c => set_conn c false) ;; mqtt_close MQTT_CONNECT_DISCONNECTED.

Definition mqtt_tcp_poll_cb : W Z :=
  c ← get_client; (if conn_state c =? MQTT_CONNECTED then mqtt_output_send else mret tt) ;; mret ERR_OK.

Definition mqtt_tcp_connect_cb (err : Z) : W Z :=
  if negb (err =? ERR_OK) then mret err else
  modify (fun c => set_conn_state (set_msg_idx c 0) MQTT_CONNECTING) ;; modify (fun c => set_cyclic_tick c 0) ;; mqtt_output_send ;; mret ERR_OK.

(** ** Interface *)

(** The packet. *)
Definition publish_message (topic : list Z) (topic_len : Z) (payload : list Z) (id qos retain remaining_length : Z) : W unit :=
  mqtt_output_append_fixed_header MQTT_MSG_TYPE_PUBLISH 0 qos retain remaining_length ;;
  mqtt_output_append_string topic topic_len ;;
  (if 0 <? qos then mqtt_output_append_u16 id else mret tt) ;;
  mqtt_output_append_buf payload.

Definition mqtt_publish (topic payload : list Z) (qos retain : Z) (f : option Z) (a : Z) : W Z :=
  let topic_len := u16 (Zlen topic) in
  let remaining_length := u16 (2 + topic_len + Zlen payload) in
  let remaining_length := if 0 <? qos then u16 (remaining_length + 2) else remaining_length in
  id ← (if 0 <? qos then msg_generate_packet_id else mret 0);
  r ← mqtt_create_request id f a;
  match r with
  | None => mret ERR_MEM
  | Some r =>
      c ← get_client;
      if negb (mqtt_output_check_space (output c) remaining_length) then mqtt_delete_request r ;; mret ERR_MEM else
      publish_message topic topic_len payload id qos retain remaining_length ;;
      mqtt_append_request r ;; mqtt_output_send ;; mret ERR_OK
  end.

(** A decimal number. *)
Fixpoint decimal_loop (fuel : nat) (v : Z) : list Z :=
  match fuel with O => [] | S fuel => (if v <? 10 then [] else decimal_loop fuel (v / 10)) ++ [48 + v mod 10] end.
Definition decimal (v : Z) : list Z := decimal_loop 10 v.

(** "AT+CIPSEND=" *)
Definition cipsend : list Z := [65; 84; 43; 67; 73; 80; 83; 69; 78; 68; 61].

(** rt_ESP32_write of APP_OneNet.c: of the command 15 characters are sent, whatever
    its length; its array has 20. *)
Definition esp32_command (size : Z) : list Z := cipsend ++ decimal size ++ [13; 10].

Definition rt_ESP32_write (data : list Z) : W Z :=
  let command := esp32_command (Zlen data) in
  if 20 <? Zlen command + 1 then ub else
  device_write (take 15 (command ++ repeat 0 5)) ;; rt_thread_delay 100 ;; device_write data.

(** The packet. *)
Definition subscribe_message (id : Z) (topic : list Z) (topic_len remaining_length : Z) (sub : bool) : W unit :=
  mqtt_output_append_fixed_header (if sub then MQTT_MSG_TYPE_SUBSCRIBE else MQTT_MSG_TYPE_UNSUBSCRIBE) 0 1 0 remaining_length ;;
  mqtt_output_append_u16 id ;; mqtt_output_append_string topic topic_len ;;
  if sub then mqtt_output_append_u8 1 else mret tt.

(** mqtt_sub_unsub tests, and deletes when there is no room, a request that is never
    created: [junk] is what the pointer happens to be, null or not.  Before, 256
    bytes are cleared from the index put on, up to four bytes before the end of buf. *)
Definition mqtt_sub_unsub (junk : bool) (topic : list Z) (qos : Z) (f : option Z) (a : Z) (sub : bool) : W Z :=
  modify (fun c => set_output c (mk_ringbuf 0 0 (repeat 0 252 ++ drop 252 (buf (output c))))) ;;
  let topic_len := u16 (Zlen topic) in
  let remaining_length := u16 (topic_len + 2 + 2 + (if sub then 1 else 0)) in
  c ← get_client;
  if conn_state c =? TCP_DISCONNECTED then mret ERR_CONN else
  id ← msg_generate_packet_id;
  if negb junk then mret ERR_MEM else
  c ← get_client;
  if negb (mqtt_output_check_space (output c) remaining_length) then ub else
  subscribe_message id topic topic_len remaining_length sub ;;
  c ← get_client; d ← of_opt (read_at (buf (output c)) 0 (remaining_length + 2));
  rt_ESP32_write d ;; mret ERR_OK.

Definition mqtt_set_inpub_callback (p d : option Z) (a : Z) : W unit := modify (fun c => set_inpub c a d p).

(** The client after memset. *)
Definition zero_request : mqtt_request_t := mk_request None None 0 0 0.
Definition mqtt_client_zero : mqtt_client_t :=
  mk_client 0 0 0 0 0 0 false 0 None None (repeat zero_request MQTT_REQ_MAX_IN_FLIGHT) 0 None None 0 (repeat 0 128) (mk_ringbuf 0 0 (repeat 0 256)).

Definition mqtt_client_new (memory : bool) : option mqtt_client_t := if memory then Some mqtt_client_zero else None.

(** The flags and the lengths of a connect message: the will, if there is a topic
    and a message. *)
Definition will_of (info : mqtt_connect_client_info_t) : option (list Z * list Z) :=
  match will_topic info, will_msg info with Some t, Some m => Some (t, m) | _, _ => None end.

Definition connect_flags (info : mqtt_connect_client_info_t) : Z :=
  let flags := match will_of info with
    | Some _ =>
        let flags := Z.lor (Z.lor 0xc0 MQTT_CONNECT_FLAG_WILL) (Z.shiftl (Z.land (will_qos info) 3) 3) in
        if negb (will_retain info =? 0) then Z.lor flags MQTT_CONNECT_FLAG_WILL_RETAIN else flags
    | None => 0xc0
    end in
  Z.lor flags MQTT_CONNECT_FLAG_CLEAN_SESSION.

Definition connect_length (info : mqtt_connect_client_info_t) : Z :=
  let n := 2 + 4 + 1 + 1 + 2 in
  let n := match will_of info with Some (t, m) => u16 (n + 2 + u8 (Zlen t) + 2 + u8 (Zlen m)) | None => n end in
  let n := u16 (n + 2 + u16 (Zlen (client_id info))) in
  let n := match client_user info with Some s => u16 (n + u16 (Zlen s) + 2) | None => n end in
  match client_pass info with Some s => u16 (n + u16 (Zlen s) + 2) | None => n end.

Definition append_optional (s : option (list Z)) : W unit :=
  match s with Some s => mqtt_output_append_string s (u16 (Zlen s)) | None => mret tt end.

(** "MQTT" *)
Definition protocol_name : list Z := [77; 81; 84; 84].

Definition connect_message (info : mqtt_connect_client_info_t) : W unit :=
  mqtt_output_append_fixed_header MQTT_MSG_TYPE_CONNECT 0 0 0 (connect_length info) ;;
  mqtt_output_append_string protocol_name 4 ;; mqtt_output_append_u8 4 ;; mqtt_output_append_u8 (connect_flags info) ;;
  mqtt_output_append_u16 (info_keep_alive info) ;;
  mqtt_output_append_string (client_id info) (u16 (Zlen (client_id info))) ;;
  match will_of info with
  | Some (t, m) => mqtt_output_append_string t (u8 (Zlen t)) ;; mqtt_output_append_string m (u8 (Zlen m))
  | None => mret tt
  end ;;
  append_optional (client_user info) ;; append_optional (client_pass info).

Definition mqtt_client_connect (f : option Z) (a : Z) (info : mqtt_connect_client_info_t) : W Z :=
  c ← get_client;
  if negb (conn_state c =? TCP_DISCONNECTED) then mret ERR_ISCONN else
  put_client (mk_client 0 (info_keep_alive info) 0 0 0 0 false a f None (req_list mqtt_client_zero) 0 None None 0 (rx_buffer mqtt_client_zero) (output mqtt_client_zero)) ;;
  mqtt_init_requests ;;
  c ← get_client;
  if negb (mqtt_output_check_space (output c) (connect_length info)) then mret ERR_MEM else
  modify (fun c => set_conn_state c TCP_CONNECTING) ;;
  connect_message info ;;
  modify (fun c => set_cyclic_tick (set_conn_state c MQTT_CONNECTING) 0) ;;
  c ← get_client; d ← of_opt (read_at (buf (output c)) 0 (connect_length info + 2));
  rt_ESP32_write d ;; mret ERR_OK.

Definition mqtt_disconnect : W unit :=
  c ← get_client;
  if negb (conn_state c =? TCP_DISCONNECTED) then modify (fun c => set_conn_state c TCP_DISCONNECTED) ;; mqtt_close 0 else mret tt.

Definition mqtt_client_is_connected : W bool := c ← get_client; mret (conn_state c =? MQTT_CONNECTED).

(** ** The functions of APP_OneNet.c over it

    The client exists; [info] is OneNetParam.Mqtt_Connect_info. *)

Definition read_into_rx (n : Z) : W Z :=
  l ← device_read n; c ← get_client; b ← of_opt (write_at (rx_buffer c) 0 l); put_client (set_rx_buffer c b) ;; mret (Zlen l).

(** What is received in answer: at least one byte is needed. *)
Definition onenet_answer : W Z :=
  lenth ← read_into_rx MQTT_VAR_HEADER_BUFFER_LEN;
  result ← (if 0 <? lenth then mqtt_message_received 2 lenth 0 else mret (-1));
  mret (if result =? MQTT_CONNECT_ACCEPTED then 0 else -1).

Definition OneNet_Connect (info : mqtt_connect_client_info_t) : W Z :=
  modify (fun c => set_conn_state c 0) ;;
  read_into_rx MQTT_VAR_HEADER_BUFFER_LEN ;;
  mqtt_client_connect None 0 info ;; rt_thread_delay 500 ;; onenet_answer.

Definition OneNet_SUBSCRIBE (junk : bool) (topic : list Z) : W Z :=
  read_into_rx MQTT_VAR_HEADER_BUFFER_LEN ;;
  mqtt_sub_unsub junk topic 0 None 0 true ;; rt_thread_delay 500 ;; onenet_answer.
