(* ===== verification/LwRequests.v ===== *)
(** * The pending requests of the MQTT client

    The items of req_list and the queue through them, with times relative to the
    item before, behave like a table of requests with the time that each has left.
    Operations on the queue are described by the table before and after; everything
    else of the client stays as it was. *)

From S2P Require Import Prelude Cstr LwMqtt.

Open Scope Z_scope.

(** ** The table *)

Record pending := mk_pending { p_id : Z; p_cb : option Z; p_arg : Z; p_left : Z }.

Definition due_by (t : Z) (p : pending) : pending := mk_pending (p_id p) (p_cb p) (p_arg p) (p_left p - t).

(** A call that the table makes. *)
Definition calls (err : Z) (p : pending) : list client_event := match p_cb p with None => [] | Some fn => [Request_callback fn (p_arg p) err] end.

(** The request with the identifier, and the table without it. *)
Fixpoint take_pending (id : Z) (q : list pending) : option (pending * list pending) :=
  match q with
  | [] => None
  | p :: q => if p_id p =? id then Some (p, q) else '(x, q) ← take_pending id q; Some (x, p :: q)
  end.

(** What is over after [t] seconds.  Once a request is over at the very end, later
    ones with the same time wait for the next call. *)
Fixpoint expire (before t : Z) (q : list pending) : list pending * list pending :=
  match q with
  | [] => ([], [])
  | p :: q => if (before <? t) && (p_left p <=? t) then let '(over, rest) := expire (p_left p) t q in (p :: over, rest) else ([], map (due_by t) (p :: q))
  end.

(** ** The queue represents a table *)

(** The items of the queue with their requests. *)
Notation queue := (list (nat * pending)).

Fixpoint chain (rl : list mqtt_request_t) (iter : option nat) (before : Z) (q : queue) : Prop :=
  match q with
  | [] => iter = None
  | (n, p) :: q =>
      iter = Some n /\ before <= p_left p <= MQTT_REQ_TIMEOUT /\
      (exists x, rl !! n = Some x /\ cb x = p_cb p /\ arg x = p_arg p /\ pkt_id x = p_id p /\ timeout_diff x = p_left p - before /\
        chain rl (next x) (p_left p) q)
  end.

(** [d] are the items that are taken and not in the queue. *)
Record holds (c : mqtt_client_t) (q : queue) (d : list nat) : Prop := {
  h_size : length (req_list c) = MQTT_REQ_MAX_IN_FLIGHT;
  h_chain : chain (req_list c) (pend_req_queue c) 0 q;
  h_nodup : NoDup (map fst q ++ d);
  h_out n : n ∈ d -> exists x, req_list c !! n = Some x /\ next x = None;
  h_unused n x : n ∉ map fst q ++ d -> req_list c !! n = Some x -> next x = Some n;
}.

Implicit Types (w : world) (c : mqtt_client_t) (q : queue) (d : list nat) (rl : list mqtt_request_t).

(** The world with other requests and more events. *)
Definition with_requests (w : world) (h : option nat) (rl : list mqtt_request_t) (es : list client_event) : world :=
  mk_world (set_requests (client w) h rl) (trace w ++ es) (fifo w) (arrivals w).

Lemma chain_frame rl iter b q n x : n ∉ map fst q -> chain rl iter b q -> chain (<[n := x]> rl) iter b q.
Proof.
  revert iter b. induction q as [|[m p] q IH]; intros iter b Hn; [done|]. cbn in Hn. apply not_elem_of_cons in Hn as [Hne Hn].
  cbn. intros (-> & Hp & y & Hy & Hrest). split; [done|]. split; [done|]. exists y. rewrite list_lookup_insert_ne by done. naive_solver.
Qed.

Lemma chain_slot rl iter b q n : chain rl iter b q -> n ∈ map fst q -> is_Some (rl !! n).
Proof.
  revert iter b. induction q as [|[m p] q IH]; intros iter b; [by intros _ ?%elem_of_nil|]. cbn. intros (_ & _ & x & Hx & _ & _ & _ & _ & Hc) Hin.
  apply elem_of_cons in Hin as [->|Hin]; [done|by eapply IH].
Qed.

(** The head of a queue is not an item that it does not have. *)
Lemma chain_head rl iter b q n : chain rl iter b q -> n ∉ map fst q -> iter <> Some n.
Proof. destruct q as [|[m p] q]; cbn; [by intros -> |]. intros (-> & _) Hn [= ->]. apply Hn. by left. Qed.

(** No item of the queue points to itself. *)
Lemma chain_next rl iter b q n x : chain rl iter b q -> NoDup (map fst q) -> n ∈ map fst q -> rl !! n = Some x -> next x <> Some n.
Proof.
  revert iter b. induction q as [|[m p] q IH]; intros iter b; [by intros _ _ ?%elem_of_nil|]. cbn.
  intros (_ & _ & y & Hy & _ & _ & _ & _ & Hc) [Hm Hnd]%NoDup_cons Hin Hx. apply elem_of_cons in Hin as [->|Hin].
  - simplify_eq. by eapply chain_head.
  - by eapply IH.
Qed.

Lemma holds_nodup c q d : holds c q d -> NoDup (map fst q).
Proof. intros [_ _ H _ _]. by apply NoDup_app in H as (? & _). Qed.

Lemma holds_out_lt c q d n : holds c q d -> n ∈ d -> (n < length (req_list c))%nat.
Proof. intros H Hn. destruct (h_out _ _ _ H n Hn) as (x & Hx & _). by eapply lookup_lt_Some. Qed.

Lemma holds_room c q d : holds c q d -> (length q + length d <= MQTT_REQ_MAX_IN_FLIGHT)%nat.
Proof.
  intros H. rewrite <-(h_size _ _ _ H), <-(length_map fst q), <-length_app, <-(length_seq (length (req_list c)) 0).
  apply submseteq_length, NoDup_submseteq; [apply H|]. intros m [Hm|Hm]%elem_of_app; apply elem_of_seq; [|pose proof (holds_out_lt _ _ _ _ H Hm); lia].
  destruct (chain_slot _ _ _ _ _ (h_chain _ _ _ H) Hm) as [y Hy%lookup_lt_Some]. lia.
Qed.

Lemma holds_fuel c q d : holds c q d -> (length q <= MQTT_REQ_MAX_IN_FLIGHT)%nat.
Proof. intros H%holds_room. lia. Qed.

(** ** Taking an unused item *)

Lemma find_unused_spec (l : list mqtt_request_t) k :
  match find_unused k l with
  | Some n => exists x, (k <= n)%nat /\ l !! (n - k)%nat = Some x /\ next x = Some n
  | None => forall i x, l !! i = Some x -> next x <> Some (k + i)%nat
  end.
Proof.
  revert k. induction l as [|y l IH]; intros k; cbn; [by intros [|i] x|].
  destruct (bool_decide_reflect (next y = Some k)) as [Hy|Hy].
  - exists y. by rewrite Nat.sub_diag.
  - specialize (IH (S k)). destruct (find_unused (S k) l) as [n|].
    + destruct IH as (x & Hle & Hx & Hn). exists x. split; [lia|]. replace (n - k)%nat with (S (n - S k)) by lia. done.
    + intros [|i] x Hi; cbn in Hi; [simplify_eq; by rewrite Nat.add_0_r|]. rewrite <-Nat.add_succ_comm. by apply IH.
Qed.

Lemma wp_get_client w Q : Q (client w) w -> wp get_client w Q.
Proof. done. Qed.

Lemma wp_get_request w n x Q : req_list (client w) !! n = Some x -> Q x w -> wp (get_request n) w Q.
Proof. intros Hx HQ. eapply wp_run; [|exact HQ]. change (of_opt (req_list (client w) !! n) w = Some (x, w)). by rewrite Hx. Qed.

Lemma wp_put_request w n x Q : Q tt (with_requests w (pend_req_queue (client w)) (<[n := x]> (req_list (client w))) []) -> wp (put_request n x) w Q.
Proof. unfold with_requests. rewrite app_nil_r. done. Qed.

Lemma wp_put_queue w h Q : Q tt (with_requests w h (req_list (client w)) []) -> wp (put_queue h) w Q.
Proof. unfold with_requests. rewrite app_nil_r. done. Qed.

Lemma wp_get_queue w Q : Q (pend_req_queue (client w)) w -> wp get_queue w Q.
Proof. done. Qed.

Lemma with_requests_twice w h rl es h' rl' es' : with_requests (with_requests w h rl es) h' rl' es' = with_requests w h' rl' (es ++ es').
Proof. unfold with_requests. cbn. by rewrite (assoc_L (++)). Qed.

Lemma with_requests_same w : with_requests w (pend_req_queue (client w)) (req_list (client w)) [] = w.
Proof. destruct w as [[] ? ? ?]. unfold with_requests. cbn. by rewrite app_nil_r. Qed.

Lemma wp_call_request w x err Q p : cb x = p_cb p -> arg x = p_arg p ->
  Q tt (with_requests w (pend_req_queue (client w)) (req_list (client w)) (calls err p)) -> wp (call_request x err) w Q.
Proof.
  intros Hcb Harg HQ. unfold call_request. unfold calls in HQ. rewrite <-Hcb in HQ. destruct (cb x).
  - eapply wp_run; [|exact HQ]. unfold trace_event, mbind, M_bind, get, Prelude.put, with_requests. rewrite Harg. by destruct w as [[] ? ? ?].
  - wp_ret. by rewrite with_requests_same in HQ.
Qed.

(** An item is taken when one is unused. *)
Lemma wp_create_request w q d id f a Q : holds (client w) q d ->
  (forall n rl, holds (client (with_requests w (pend_req_queue (client w)) rl [])) q (n :: d) ->
     (exists x, rl !! n = Some x /\ cb x = f /\ arg x = a /\ pkt_id x = id) -> Q (Some n) (with_requests w (pend_req_queue (client w)) rl [])) ->
  ((length q + length d = MQTT_REQ_MAX_IN_FLIGHT)%nat -> Q None w) ->
  wp (mqtt_create_request id f a) w Q.
Proof.
  intros H Hsome Hnone. unfold mqtt_create_request. wp_bind. apply wp_get_client. rewrite take_ge by (by rewrite (h_size _ _ _ H)).
  pose proof (find_unused_spec (req_list (client w)) 0) as Hf. destruct (find_unused 0 (req_list (client w))) as [n|].
  - destruct Hf as (x & _ & Hx & Hn). rewrite Nat.sub_0_r in Hx. wp_bind. eapply wp_get_request; [exact Hx|]. wp_bind. apply wp_put_request. wp_ret.
    pose proof (lookup_lt_Some _ _ _ Hx) as Hlt.
    assert (n ∉ map fst q) as Hq by (intros Hin; eapply chain_next; [apply (h_chain _ _ _ H)|by eapply holds_nodup|exact Hin|exact Hx|exact Hn]).
    assert (n ∉ d) as Hd by (intros Hin; destruct (h_out _ _ _ H n Hin) as (y & Hy & Hy'); simplify_eq).
    apply Hsome; [|eexists; rewrite list_lookup_insert_eq by done; by split_and!].
    split; cbn.
    + rewrite length_insert. apply H.
    + apply chain_frame; [done|apply H].
    + rewrite <-Permutation_middle. apply NoDup_cons. split; [|apply H]. apply not_elem_of_app. done.
    + intros m [->|Hm]%elem_of_cons; [eexists; by rewrite list_lookup_insert_eq|]. rewrite list_lookup_insert_ne by (intros ->; done). by apply H.
    + intros m y Hm. rewrite list_lookup_insert_ne; [apply H|]; [|intros ->]; set_solver.
  - wp_ret. apply Hnone. rewrite <-(h_size _ _ _ H), <-(length_map fst q), <-length_app, <-(length_seq (length (req_list (client w))) 0).
    apply Permutation_length, NoDup_Permutation; [apply H|apply NoDup_seq|]. intros n. rewrite elem_of_seq. split.
    + intros [Hin|Hin]%elem_of_app; [|pose proof (holds_out_lt _ _ _ _ H Hin); lia].
      destruct (chain_slot _ _ _ _ _ (h_chain _ _ _ H) Hin) as [x Hx%lookup_lt_Some]. lia.
    + intros Hlt. destruct (lookup_lt_is_Some_2 (req_list (client w)) n ltac:(lia)) as [x Hx].
      destruct (decide (n ∈ map fst q ++ d)) as [|Hn]; [done|]. destruct (Hf n x Hx). by apply (h_unused _ _ _ H).
Qed.

(** ** The end of the queue *)

Definition last_left (b : Z) (q : queue) : Z := default b (p_left ∘ snd <$> last q).

Lemma last_left_cons b np q : last_left b (np :: q) = last_left (p_left np.2) q.
Proof. unfold last_left. rewrite last_cons. by destruct (last q). Qed.

Lemma chain_last_left rl iter b q : chain rl iter b q -> b <= MQTT_REQ_TIMEOUT -> b <= last_left b q <= MQTT_REQ_TIMEOUT.
Proof.
  revert iter b. induction q as [|[n p] q IH]; intros iter b; [cbn; lia|]. cbn [chain]. intros (_ & Hp & x & _ & _ & _ & _ & _ & Hc) Hb.
  rewrite last_left_cons. cbn [snd]. apply IH in Hc; lia.
Qed.

Lemma wp_queue_end fuel iter b q head w Q : chain (req_list (client w)) iter b q -> (length q <= fuel)%nat -> 0 <= b ->
  Q (match last q with Some (n, _) => Some n | None => head end, last_left b q) w -> wp (queue_end fuel iter head b) w Q.
Proof.
  revert fuel iter b head. induction q as [|[n p] q IH]; intros fuel iter b head.
  - cbn. intros -> _ _ HQ. by destruct fuel.
  - rewrite last_left_cons, last_cons. cbn [chain snd]. intros (-> & Hp & x & Hx & _ & _ & _ & Ht & Hc) Hf Hb HQ. destruct fuel as [|fuel]; [cbn in Hf; lia|].
    cbn [queue_end]. wp_bind. eapply wp_get_request; [exact Hx|]. rewrite Ht. unfold MQTT_REQ_TIMEOUT in Hp.
    replace (s16 (b + (p_left p - b))) with (p_left p) by (unfold s16; rewrite Z.mod_small; lia).
    apply IH; [exact Hc|cbn in Hf; lia|lia|]. by destruct (last q) as [[? ?]|].
Qed.

(** The chain with one more item at its end. *)
Lemma chain_append rl iter b q m p x (x' : mqtt_request_t) : chain rl iter b q -> NoDup (map fst q) -> m ∉ map fst q -> b <= MQTT_REQ_TIMEOUT ->
  rl !! m = Some x -> next x = None -> cb x = p_cb p -> arg x = p_arg p -> pkt_id x = p_id p ->
  p_left p = MQTT_REQ_TIMEOUT -> timeout_diff x = MQTT_REQ_TIMEOUT - last_left b q ->
  match last q with
  | None => chain rl (Some m) b (q ++ [(m, p)])
  | Some (h, _) => forall y, rl !! h = Some y -> chain (<[h := set_next_request y (Some m)]> rl) iter b (q ++ [(m, p)])
  end.
Proof.
  revert iter b. induction q as [|[n p0] q IH]; intros iter b.
  - cbn. intros -> _ _ Hb Hx Hn Hcb Harg Hid Hl Ht. rewrite Hl. unfold MQTT_REQ_TIMEOUT in *. split; [done|]. split; [lia|].
    exists x. by split_and!.
  - rewrite last_left_cons, last_cons. cbn [chain snd map fst]. intros (-> & Hp & z & Hz & Hzc & Hza & Hzi & Hzt & Hc) [Hn0 Hnd]%NoDup_cons Hm Hb Hx Hn Hcb Harg Hid Hl Ht.
    apply not_elem_of_cons in Hm as [Hmn Hm]. specialize (IH (next z) (p_left p0) Hc Hnd Hm ltac:(lia) Hx Hn Hcb Harg Hid Hl Ht).
    destruct (last q) as [[h ph]|] eqn:Hlast.
    + intros y Hy. cbn [app chain]. split; [done|]. split; [done|].
      assert (h <> n) by (intros ->; apply Hn0; apply last_Some in Hlast as (l' & ->); rewrite map_app; apply elem_of_app; right; by left).
      exists z. rewrite list_lookup_insert_ne by done. do 5 (split; [done|]). by apply IH.
    + apply last_None in Hlast as ->. intros y Hy. simplify_eq. cbn [app chain]. split; [done|]. split; [done|].
      exists (set_next_request z (Some m)). rewrite list_lookup_insert_eq by (by eapply lookup_lt_Some). do 5 (split; [done|]). cbn [next set_next_request].
      cbn in IH. destruct IH as (_ & Hpm & x1 & Hx1 & Hrest). split; [done|]. split; [done|]. exists x1. by rewrite list_lookup_insert_ne.
Qed.

(** The item goes to the end, with the whole time. *)
Lemma wp_append_request w q d n x p Q : holds (client w) q (n :: d) -> req_list (client w) !! n = Some x ->
  cb x = p_cb p -> arg x = p_arg p -> pkt_id x = p_id p -> p_left p = MQTT_REQ_TIMEOUT ->
  (forall h rl, holds (client (with_requests w h rl [])) (q ++ [(n, p)]) d -> Q tt (with_requests w h rl [])) ->
  wp (mqtt_append_request n) w Q.
Proof.
  intros H Hx Hcb Harg Hid Hl HQ. pose proof H as [Hsz Hc Hnd Hout Hun]. pose proof (holds_nodup _ _ _ H) as Hndq. pose proof (holds_fuel _ _ _ H) as Hfuel.
  assert (n ∉ map fst q) as Hnq by (rewrite <-Permutation_middle in Hnd; apply NoDup_cons in Hnd as [Hn _]; set_solver).
  unfold mqtt_append_request. wp_bind. apply wp_get_queue. wp_bind. eapply wp_queue_end; [exact Hc|lia|done|]. cbn beta iota.
  wp_bind. eapply wp_get_request; [exact Hx|]. wp_bind. apply wp_put_request.
  pose proof (chain_last_left _ _ _ _ Hc ltac:(done)) as Hll. unfold MQTT_REQ_TIMEOUT in Hll.
  set (x' := set_timeout_diff x _). set (rl' := <[n := x']> (req_list (client w))).
  assert (rl' !! n = Some x') as Hx' by (apply list_lookup_insert_eq; by eapply lookup_lt_Some).
  assert (next x' = None) as Hnx by (destruct (Hout n ltac:(by left)) as (y & Hy & Hny); by simplify_eq).
  pose proof (chain_frame _ _ _ _ n x' Hnq Hc) as Hc'. fold rl' in Hc'.
  pose proof (chain_append rl' _ _ q n p x' x' Hc' Hndq Hnq ltac:(done) Hx' Hnx Hcb Harg Hid Hl ltac:(apply u16_small; unfold MQTT_REQ_TIMEOUT; lia)) as Hsnoc.
  assert (forall h rl, length rl = length rl' -> chain rl h 0 (q ++ [(n, p)]) -> (forall m, m ∉ map fst q -> rl !! m = rl' !! m) ->
    holds (client (with_requests w h rl [])) (q ++ [(n, p)]) d) as Hnew.
  { intros h rl Hlen Hch Hsame. split; cbn.
    - unfold rl' in Hlen. by rewrite Hlen, length_insert.
    - done.
    - rewrite map_app. cbn. by rewrite <-(assoc_L (++)).
    - intros m Hm. assert (m ∉ map fst q /\ m <> n) as [Hmq Hmn].
      { rewrite <-Permutation_middle in Hnd. apply NoDup_cons in Hnd as [Hn Hnd]. apply NoDup_app in Hnd as (_ & Hdis & _). set_solver. }
      rewrite Hsame by done. unfold rl'. rewrite list_lookup_insert_ne by done. apply Hout. by right.
    - intros m y Hm. rewrite map_app in Hm. cbn in Hm. assert (m ∉ map fst q /\ m <> n /\ m ∉ d) as (Hmq & Hmn & Hmd) by set_solver.
      rewrite Hsame by done. unfold rl'. rewrite list_lookup_insert_ne by done. apply Hun. set_solver. }
  destruct (last q) as [[h ph]|] eqn:Hlast.
  - assert (h ∈ map fst q) as Hh by (apply last_Some in Hlast as (l' & ->); rewrite map_app; apply elem_of_app; right; by left).
    destruct (chain_slot _ _ _ _ _ Hc' Hh) as [y Hy]. wp_bind. eapply wp_get_request; [exact Hy|]. apply wp_put_request. rewrite with_requests_twice.
    apply HQ, Hnew; [apply length_insert|by apply Hsnoc|]. intros m Hm. cbn. rewrite list_lookup_insert_ne; [done|]. by intros ->.
  - apply wp_put_queue. rewrite with_requests_twice. by apply HQ, Hnew.
Qed.

(** ** Taking a request out of the queue *)

(** Where the request is. *)
Fixpoint find_queued (id : Z) (q : queue) : option (queue * (nat * pending) * queue) :=
  match q with
  | [] => None
  | np :: q => if p_id np.2 =? id then Some ([], np, q) else '(q1, x, q2) ← find_queued id q; Some (np :: q1, x, q2)
  end.

Lemma find_queued_split id q q1 np q2 : find_queued id q = Some (q1, np, q2) -> q = q1 ++ np :: q2.
Proof.
  revert q1. induction q as [|np' q IH]; intros q1; [done|]. cbn. destruct (p_id np'.2 =? id); [by intros [= <- <- <-]|].
  destruct (find_queued id q) as [[[r1 x] r2]|]; [|done]. intros [= <- <- <-]. cbn. f_equal. by apply IH.
Qed.

Lemma find_queued_pending id q : take_pending id (map snd q) = ('(q1, np, q2) ← find_queued id q; Some (np.2, map snd (q1 ++ q2))).
Proof.
  induction q as [|[n p] q IH]; [done|]. cbn. destruct (p_id p =? id); [done|]. rewrite IH. by destruct (find_queued id q) as [[[q1 np] q2]|].
Qed.

Lemma wp_find_request fuel iter b q prev id w Q : chain (req_list (client w)) iter b q -> (length q <= fuel)%nat ->
  Q (match find_queued id q with
     | Some (q1, (n, _), _) => (Some n, match last q1 with Some (h, _) => Some h | None => prev end)
     | None => (None, match last q with Some (h, _) => Some h | None => prev end)
     end) w ->
  wp (find_request fuel iter prev id) w Q.
Proof.
  revert fuel iter b prev. induction q as [|[n p] q IH]; intros fuel iter b prev.
  - cbn. intros -> _ HQ. by destruct fuel.
  - cbn [chain]. intros (-> & _ & x & Hx & _ & _ & Hid & _ & Hc) Hf HQ. destruct fuel as [|fuel]; [cbn in Hf; lia|].
    cbn [find_request]. wp_bind. eapply wp_get_request; [exact Hx|]. rewrite Hid. cbn [find_queued snd] in HQ.
    destruct (p_id p =? id); [by wp_ret|]. eapply IH; [exact Hc|cbn in Hf; lia|].
    destruct (find_queued id q) as [[[q1 [m pm]] q2]|]; cbn [mbind option_bind] in HQ; rewrite last_cons in HQ.
    + by destruct (last q1) as [[? ?]|].
    + by destruct (last q) as [[? ?]|].
Qed.

(** The time of an item that is taken goes to the next one. *)
Definition bump (x : mqtt_request_t) (rl : list mqtt_request_t) : list mqtt_request_t :=
  match next x with
  | None => rl
  | Some m => match rl !! m with Some y => <[m := set_timeout_diff y (u16 (timeout_diff y + timeout_diff x))]> rl | None => rl end
  end.

Lemma bump_ne x rl n : next x <> Some n -> bump x rl !! n = rl !! n.
Proof. unfold bump. intros Hn. destruct (next x) as [m|]; [|done]. destruct (rl !! m); [|done]. apply list_lookup_insert_ne. by intros ->. Qed.

Lemma bump_length x rl : length (bump x rl) = length rl.
Proof. unfold bump. destruct (next x) as [m|]; [|done]. destruct (rl !! m); [|done]. apply length_insert. Qed.

Lemma chain_bump rl b n p q x : chain rl (Some n) b ((n, p) :: q) -> NoDup (map fst q) -> rl !! n = Some x -> 0 <= b -> chain (bump x rl) (next x) b q.
Proof.
  cbn [chain]. intros (_ & Hp & y & Hy & _ & _ & _ & Ht & Hc) Hnd Hx Hb. simplify_eq. unfold bump.
  destruct q as [|[m pm] q]; cbn [chain] in *; [by rewrite Hc|]. destruct Hc as (Hm & Hpm & z & Hz & Hzc & Hza & Hzi & Hzt & Hc). rewrite Hm, Hz.
  cbn in Hnd. apply NoDup_cons in Hnd as [Hmq _]. split; [done|]. split; [lia|].
  eexists. split; [apply list_lookup_insert_eq; by eapply lookup_lt_Some|]. do 3 (split; [done|]). unfold MQTT_REQ_TIMEOUT in *. split.
  - cbn. rewrite u16_small; lia.
  - cbn [next set_timeout_diff]. by apply chain_frame.
Qed.

(** Unlinking the item behind [q1]. *)
Lemma chain_unlink rl iter b q1 n p q2 x : chain rl iter b (q1 ++ (n, p) :: q2) -> NoDup (map fst (q1 ++ (n, p) :: q2)) -> rl !! n = Some x -> 0 <= b ->
  match last q1 with
  | None => chain (bump x rl) (next x) b q2
  | Some (h, _) => exists y, rl !! h = Some y /\ h <> n /\ next x <> Some h /\ chain (bump x (<[h := set_next_request y (next x)]> rl)) iter b (q1 ++ q2)
  end.
Proof.
  revert iter b. induction q1 as [|[h ph] q1 IH]; intros iter b.
  - cbn [app last]. intros Hc [_ Hnd]%NoDup_cons Hx Hb. pose proof Hc as (-> & _). by eapply chain_bump.
  - cbn [app]. intros (-> & Hp & y & Hy & Hcb & Ha & Hi & Ht & Hc) Hnd Hx Hb. cbn [map fst] in Hnd. apply NoDup_cons in Hnd as [Hh Hnd].
    specialize (IH _ _ Hc Hnd Hx ltac:(lia)). rewrite last_cons. rewrite map_app in Hh. cbn in Hh.
    assert (h <> n /\ next x <> Some h) as [Hhn Hnh].
    { split; [set_solver|]. intros Heq. clear IH. revert Hc Hh. generalize (next y) (p_left ph). induction q1 as [|[m pm] q1 IH]; intros it bb.
      - cbn. intros (_ & _ & z & Hz & _ & _ & _ & _ & Hc) Hh. simplify_eq. eapply chain_head; [exact Hc| |exact Heq]. set_solver.
      - cbn. intros (_ & _ & z & _ & _ & _ & _ & _ & Hc) Hh. eapply IH; [|exact Hc|set_solver].
        cbn in Hnd. by apply NoDup_cons in Hnd as [_ ?]. }
    destruct (last q1) as [[g pg]|] eqn:Hlast.
    + destruct IH as (z & Hz & Hgn & Hng & Hch). exists z. split; [done|]. split; [done|]. split; [done|]. cbn [app chain]. split; [done|]. split; [done|].
      assert (h <> g) by (intros ->; apply Hh; apply last_Some in Hlast as (l' & ->); rewrite map_app; cbn; set_solver).
      exists y. rewrite bump_ne, list_lookup_insert_ne by done. by split_and!.
    + apply last_None in Hlast as ->. exists y. split; [done|]. split; [done|]. split; [done|]. cbn [app chain] in *. split; [done|]. split; [done|].
      exists (set_next_request y (next x)). rewrite bump_ne, list_lookup_insert_eq by (done || by eapply lookup_lt_Some). do 5 (split; [done|]).
      cbn [next set_next_request]. assert (bump x (<[h := set_next_request y (next x)]> rl) = <[h := set_next_request y (next x)]> (bump x rl)) as ->.
      { unfold bump. destruct (next x) as [m|]; [|done]. rewrite list_lookup_insert_ne by (by intros ->). destruct (rl !! m); [|done].
        apply list_insert_insert_ne; congruence. }
      apply chain_frame; [|done]. set_solver.
Qed.

(** The item of a request, and where it points. *)
Lemma chain_item rl iter b q1 n p q2 x : chain rl iter b (q1 ++ (n, p) :: q2) -> rl !! n = Some x ->
  cb x = p_cb p /\ arg x = p_arg p /\ next x = fst <$> head q2.
Proof.
  intros Hc Hx. revert iter b Hc. induction q1 as [|[m pm] q1 IH]; intros iter b; cbn; [|naive_solver].
  intros (_ & _ & y & Hy & ? & ? & _ & _ & Hc). simplify_eq. split; [done|]. split; [done|]. destruct q2 as [|[k pk] q2]; [done|]. by destruct Hc.
Qed.

Lemma item_next rl iter b q1 n p q2 x m : chain rl iter b (q1 ++ (n, p) :: q2) -> rl !! n = Some x -> m ∉ map fst (q1 ++ q2) -> next x <> Some m.
Proof.
  intros Hc Hx Hm Heq. destruct (chain_item _ _ _ _ _ _ _ _ Hc Hx) as (_ & _ & Hn). rewrite Hn in Heq. apply Hm. rewrite map_app.
  destruct q2 as [|[k pk] q2]; [done|]. cbn in *. simplify_eq. set_solver.
Qed.

(** The state after the item has left the chain. *)
Lemma holds_taken w q1 n p q2 d x h rl : holds (client w) (q1 ++ (n, p) :: q2) d -> req_list (client w) !! n = Some x ->
  length rl = length (req_list (client w)) -> rl !! n = Some x -> chain (bump x rl) h 0 (q1 ++ q2) ->
  (forall m, m ∉ map fst (q1 ++ (n, p) :: q2) -> rl !! m = req_list (client w) !! m) ->
  holds (client (with_requests w h (<[n := set_next_request x None]> (bump x rl)) [])) (q1 ++ q2) (n :: d).
Proof.
  intros H Hx Hlen Hxn Hch Hsame. pose proof H as [Hsz Hc Hnd Hout Hun]. pose proof (holds_nodup _ _ _ H) as Hndq.
  assert (map fst (q1 ++ (n, p) :: q2) ≡ₚ n :: map fst (q1 ++ q2)) as Hperm by (rewrite !map_app; cbn; by rewrite Permutation_middle).
  rewrite Hperm in Hnd, Hndq. apply NoDup_cons in Hndq as [Hnq Hndq].
  assert (forall m, m <> n -> m ∉ map fst (q1 ++ q2) -> <[n := set_next_request x None]> (bump x rl) !! m = req_list (client w) !! m) as Hother.
  { intros m Hmn Hm. rewrite list_lookup_insert_ne, bump_ne by (done || by eapply item_next). apply Hsame. rewrite Hperm. by apply not_elem_of_cons. }
  assert (forall m, m ∈ d -> m <> n /\ m ∉ map fst (q1 ++ q2)) as Hdis.
  { intros m Hm. apply NoDup_app in Hnd as (_ & Hdis & _). rewrite <-not_elem_of_cons. intros Hin. by eapply Hdis. }
  split; cbn.
  - by rewrite length_insert, bump_length, Hlen.
  - by apply chain_frame.
  - by rewrite <-Permutation_middle.
  - intros m [->|Hm]%elem_of_cons.
    + eexists. split; [apply list_lookup_insert_eq; rewrite bump_length; by eapply lookup_lt_Some|done].
    + destruct (Hdis m Hm). rewrite Hother by done. by apply Hout.
  - intros m y Hm. rewrite <-Permutation_middle in Hm. apply not_elem_of_cons in Hm as [Hmn Hm]. apply not_elem_of_app in Hm as [Hmq Hmd].
    rewrite Hother by done. apply Hun. rewrite Hperm. cbn. set_solver.
Qed.

(** The last steps of mqtt_take_request. *)
Lemma wp_bump w h rl x n Q : rl !! n = Some x -> next x <> Some n -> (forall m, next x = Some m -> is_Some (rl !! m)) ->
  Q (Some n) (with_requests w h (<[n := set_next_request x None]> (bump x rl)) []) ->
  wp (match next x with
      | None => mret tt
      | Some m => y ← get_request m; put_request m (set_timeout_diff y (u16 (timeout_diff y + timeout_diff x)))
      end ;; x0 ← get_request n; put_request n (set_next_request x0 None) ;; mret (Some n)) (with_requests w h rl []) Q.
Proof.
  intros Hx Hn Hnext HQ.
  assert (wp (x0 ← get_request n; put_request n (set_next_request x0 None) ;; mret (Some n)) (with_requests w h (bump x rl) []) Q) as Hend.
  { wp_bind. eapply wp_get_request; [by cbn; rewrite bump_ne|]. wp_bind. apply wp_put_request. wp_ret. by rewrite with_requests_twice. }
  wp_bind. unfold bump in Hend. destruct (next x) as [m|]; [|wp_ret; exact Hend]. destruct (Hnext m eq_refl) as [y Hy]. rewrite Hy in Hend.
  wp_bind. eapply wp_get_request; [exact Hy|]. apply wp_put_request. rewrite with_requests_twice. exact Hend.
Qed.

Lemma wp_take_request w q d id Q : holds (client w) q d ->
  (forall q1 n p q2 h rl x, find_queued id q = Some (q1, (n, p), q2) ->
     holds (client (with_requests w h rl [])) (q1 ++ q2) (n :: d) -> rl !! n = Some x -> cb x = p_cb p -> arg x = p_arg p ->
     Q (Some n) (with_requests w h rl [])) ->
  (find_queued id q = None -> Q None w) ->
  wp (mqtt_take_request id) w Q.
Proof.
  intros H Hsome Hnone. pose proof (h_chain _ _ _ H) as Hc. pose proof (holds_nodup _ _ _ H) as Hndq. pose proof (holds_fuel _ _ _ H) as Hfuel.
  unfold mqtt_take_request. wp_bind. apply wp_get_queue. wp_bind. eapply wp_find_request; [exact Hc|lia|].
  destruct (find_queued id q) as [[[q1 [n p]] q2]|] eqn:Hf; [|cbn beta iota; wp_ret; by apply Hnone].
  specialize (Hsome q1 n p q2). pose proof (find_queued_split _ _ _ _ _ Hf) as ->. clear Hnone. cbn beta iota.
  assert (n ∈ map fst (q1 ++ (n, p) :: q2)) as Hin by (rewrite map_app; cbn; set_solver).
  destruct (chain_slot _ _ _ _ _ Hc Hin) as [x Hx]. pose proof (chain_next _ _ _ _ _ _ Hc Hndq Hin Hx) as Hself.
  destruct (chain_item _ _ _ _ _ _ _ _ Hc Hx) as (Hcb & Ha & Hnx). pose proof (chain_unlink _ _ _ _ _ _ _ _ Hc Hndq Hx ltac:(done)) as Hunl.
  assert (forall m, next x = Some m -> is_Some (req_list (client w) !! m)) as Hnext.
  { intros m Hm. eapply chain_slot; [exact Hc|]. rewrite Hnx in Hm. destruct q2 as [|[k pk] q2]; [done|]. cbn in Hm. simplify_eq. rewrite map_app. cbn. set_solver. }
  wp_bind. eapply wp_get_request; [exact Hx|]. wp_bind. destruct (last q1) as [[g pg]|] eqn:Hlast.
  - destruct Hunl as (y & Hy & Hgn & Hng & Hch). wp_bind. eapply wp_get_request; [exact Hy|]. apply wp_put_request.
    assert (<[g := set_next_request y (next x)]> (req_list (client w)) !! n = Some x) as Hxn by (by rewrite list_lookup_insert_ne).
    apply wp_bump; [exact Hxn|done|intros m Hm; rewrite list_lookup_insert_ne by (intros ->; done); by apply Hnext|].
    eapply (Hsome _ _ (set_next_request x None)); [done|eapply holds_taken; [exact H|exact Hx|apply length_insert|exact Hxn|exact Hch|]| |done|done].
    + intros m Hm. rewrite list_lookup_insert_ne; [done|]. intros ->. apply Hm. apply last_Some in Hlast as (l' & ->). rewrite !map_app. cbn. set_solver.
    + apply list_lookup_insert_eq. rewrite bump_length. by eapply lookup_lt_Some.
  - apply wp_put_queue. apply wp_bump; [exact Hx|done|exact Hnext|]. apply last_None in Hlast as ->.
    eapply (Hsome _ _ (set_next_request x None)); [done|by eapply holds_taken| |done|done]. apply list_lookup_insert_eq. rewrite bump_length. by eapply lookup_lt_Some.
Qed.

(** ** Giving an item back *)

Lemma wp_delete_request w q d n Q : holds (client w) q (n :: d) ->
  (forall rl, holds (client (with_requests w (pend_req_queue (client w)) rl [])) q d -> Q tt (with_requests w (pend_req_queue (client w)) rl [])) ->
  wp (mqtt_delete_request n) w Q.
Proof.
  intros H HQ. pose proof H as [Hsz Hc Hnd Hout Hun]. destruct (Hout n ltac:(by left)) as (x & Hx & Hnx).
  unfold mqtt_delete_request. wp_bind. eapply wp_get_request; [exact Hx|]. apply wp_put_request. apply HQ.
  rewrite <-Permutation_middle in Hnd. apply NoDup_cons in Hnd as [Hn Hnd]. apply not_elem_of_app in Hn as [Hnq Hnd'].
  split; cbn; [by rewrite length_insert|by apply chain_frame|done| |].
  - intros m Hm. rewrite list_lookup_insert_ne by (intros ->; done). apply Hout. by right.
  - intros m y Hm Hy. destruct (decide (m = n)) as [->|Hmn].
    + rewrite list_lookup_insert_eq in Hy by (by eapply lookup_lt_Some). by simplify_eq.
    + rewrite list_lookup_insert_ne in Hy by done. apply Hun; [|done]. rewrite <-Permutation_middle. cbn. set_solver.
Qed.

(** ** Time *)

Lemma chain_shift rl iter b q s : 0 <= s -> chain rl iter b q -> chain rl iter (b - s) (map (prod_map id (due_by s)) q).
Proof.
  intros Hs. revert iter b. induction q as [|[n p] q IH]; intros iter b; [done|]. cbn. intros (-> & Hp & x & Hx & Hcb & Ha & Hi & Ht & Hc).
  split; [done|]. split; [lia|]. exists x. do 4 (split; [done|]). split; [lia|]. by apply IH.
Qed.

Lemma map_fst_due s q : map fst (map (prod_map id (due_by s)) q) = map fst q.
Proof. rewrite map_map. apply map_ext. by intros []. Qed.

Lemma map_snd_due s q : map snd (map (prod_map id (due_by s)) q) = map (due_by s) (map snd q).
Proof. rewrite !map_map. apply map_ext. by intros []. Qed.

Lemma expire_shift s b t (l : list pending) : expire (b - s) (t - s) (map (due_by s) l) = (map (due_by s) (expire b t l).1, (expire b t l).2).
Proof.
  revert b. induction l as [|p l IH]; intros b; [done|]. cbn [map expire]. cbn [p_left due_by].
  replace (b - s <? t - s) with (b <? t) by (destruct (Z.ltb_spec b t), (Z.ltb_spec (b - s) (t - s)); lia).
  replace (p_left p - s <=? t - s) with (p_left p <=? t) by (destruct (Z.leb_spec (p_left p) t), (Z.leb_spec (p_left p - s) (t - s)); lia).
  destruct ((b <? t) && (p_left p <=? t)).
  - rewrite IH. by destruct (expire (p_left p) t l).
  - cbn [fst snd map]. f_equal. f_equal; [unfold due_by; cbn; f_equal; lia|]. rewrite map_map. apply map_ext. intros []. unfold due_by. cbn. f_equal. lia.
Qed.

Lemma expire_le t (l : list pending) : t <= 0 -> expire 0 t l = ([], map (due_by t) l).
Proof. intros Ht. destruct l as [|p l]; [done|]. cbn. by rewrite (proj2 (Z.ltb_ge _ _)) by lia. Qed.

Lemma calls_due err s (l : list pending) : concat (map (calls err) (map (due_by s) l)) = concat (map (calls err) l).
Proof. rewrite map_map. done. Qed.

Lemma holds_due0 c q d : holds c q d -> holds c (map (prod_map id (due_by 0)) q) d.
Proof.
  intros H. replace (map (prod_map id (due_by 0)) q) with q; [done|]. rewrite <-(map_id q) at 1. apply map_ext. intros [n []]. unfold due_by, prod_map. cbn.
  by rewrite Z.sub_0_r.
Qed.

Lemma wp_time_elapsed_loop fuel : forall w q d t Q, holds (client w) q d -> (length q <= fuel)%nat -> 0 <= t < 256 ->
  (forall h rl q', map snd q' = (expire 0 t (map snd q)).2 ->
     holds (client (with_requests w h rl [])) q' d ->
     Q tt (with_requests w h rl (concat (map (calls ERR_TIMEOUT) (expire 0 t (map snd q)).1)))) ->
  wp (time_elapsed_loop fuel (pend_req_queue (client w)) t) w Q.
Proof.
  assert (forall w q d t Q, holds (client w) q d -> t = 0 \/ q = [] ->
    (forall h rl q', map snd q' = (expire 0 t (map snd q)).2 ->
     holds (client (with_requests w h rl [])) q' d ->
     Q tt (with_requests w h rl (concat (map (calls ERR_TIMEOUT) (expire 0 t (map snd q)).1)))) -> Q tt w) as Hstop.
  { intros w q d t Q H Ht HQ.
    assert (expire 0 t (map snd q) = ([], map (due_by 0) (map snd q))) as He by (destruct Ht as [-> | ->]; [by apply expire_le|done]).
    rewrite He in HQ. rewrite <-(with_requests_same w). apply (HQ _ _ (map (prod_map id (due_by 0)) q)); [apply map_snd_due|].
    rewrite with_requests_same. by apply holds_due0. }
  induction fuel as [|fuel IH]; intros w q d t Q H Hf Ht HQ; pose proof H as [Hsz Hc Hnd Hout Hun]; (destruct q as [|[n p] q]; [cbn in Hc; rewrite Hc; cbn [time_elapsed_loop]; wp_ret; eapply Hstop; [exact H|by right|exact HQ]|]).
  { cbn in Hf. lia. }
  cbn [chain] in Hc. destruct Hc as (Hh & Hp & x & Hx & Hcb & Ha & Hi & Hd & Hc). rewrite Hh. cbn [time_elapsed_loop].
  destruct (Z.ltb_spec 0 t) as [Hpos|Hz]; cbn [negb]; [|wp_ret; eapply (Hstop _ _ _ t); [exact H|left; lia|exact HQ]].
  wp_bind. eapply wp_get_request; [exact Hx|]. rewrite Z.sub_0_r in Hd. rewrite Hd. cbn [map snd expire] in HQ. rewrite (proj2 (Z.ltb_lt 0 t) Hpos) in HQ. cbn [andb] in HQ.
  cbn [map fst app] in Hnd. destruct (Z.leb_spec (p_left p) t) as [Hle|Hgt].
  - wp_bind. apply wp_put_queue. wp_bind. eapply wp_call_request; [exact Hcb|exact Ha|]. rewrite with_requests_twice. cbn [client with_requests set_requests req_list pend_req_queue app].
    set (w1 := with_requests w (next x) (req_list (client w)) (calls ERR_TIMEOUT p)).
    assert (next x <> Some n) as Hself by (eapply chain_head; [exact Hc|]; apply NoDup_cons in Hnd as [Hn _]; set_solver).
    wp_bind. unfold mqtt_delete_request. wp_bind. eapply (wp_get_request w1); [exact Hx|]. apply wp_put_request. unfold w1. rewrite with_requests_twice.
    cbn [client with_requests set_requests req_list pend_req_queue]. rewrite app_nil_r. set (rl2 := <[n := set_next_request x (Some n)]> (req_list (client w))).
    set (w2 := with_requests w (next x) rl2 (calls ERR_TIMEOUT p)). wp_bind. apply wp_get_queue.
    assert (n ∉ map fst q) as Hnq by (apply NoDup_cons in Hnd as [Hn _]; set_solver).
    assert (holds (client w2) (map (prod_map id (due_by (p_left p))) q) d) as H2.
    { split; cbn.
      - unfold rl2. by rewrite length_insert.
      - replace 0 with (p_left p - p_left p) by lia. apply chain_shift; [lia|]. by apply chain_frame.
      - rewrite map_fst_due. by apply NoDup_cons in Hnd as [_ ?].
      - intros m Hm. unfold rl2. rewrite list_lookup_insert_ne; [by apply Hout|]. intros ->. apply NoDup_cons in Hnd as [Hn _]. set_solver.
      - intros m y Hm Hy. rewrite map_fst_due in Hm. unfold rl2 in Hy. destruct (decide (m = n)) as [->|Hmn].
        + rewrite list_lookup_insert_eq in Hy by (by eapply lookup_lt_Some). by simplify_eq.
        + rewrite list_lookup_insert_ne in Hy by done. apply Hun; [|done]. cbn. set_solver. }
    replace (u8 (t - u8 (p_left p))) with (t - p_left p) by (rewrite (u8_small (p_left p)), u8_small by lia; done).
    eapply (IH w2); [exact H2|rewrite length_map; cbn in Hf; lia|lia|]. intros h rl q' Hq' H'.
    rewrite map_snd_due in Hq' |- *. replace 0 with (p_left p - p_left p) in Hq' |- * by lia. rewrite expire_shift in Hq' |- *. cbn [fst snd] in *.
    rewrite calls_due. destruct (expire (p_left p) t (map snd q)) as [over rest] eqn:He. cbn [fst snd map concat] in *.
    unfold w2. rewrite with_requests_twice. unfold w2 in H'. rewrite with_requests_twice in H'. by eapply HQ.
  - apply wp_put_request. cbn [snd fst map concat] in HQ. apply (HQ _ _ (map (prod_map id (due_by t)) ((n, p) :: q))); [by rewrite map_snd_due|].
    split; cbn.
    + by rewrite length_insert.
    + split; [done|]. split; [lia|]. eexists. split; [apply list_lookup_insert_eq; by eapply lookup_lt_Some|]. do 3 (split; [done|]).
      split; [unfold MQTT_REQ_TIMEOUT in Hp; cbn; rewrite u16_small; lia|]. apply chain_shift; [lia|]. cbn [next set_timeout_diff]. apply chain_frame; [|done].
      apply NoDup_cons in Hnd as [Hn _]. set_solver.
    + by rewrite map_fst_due.
    + intros m Hm. rewrite list_lookup_insert_ne; [by apply Hout|]. intros ->. apply NoDup_cons in Hnd as [Hn _]. set_solver.
    + intros m y Hm. rewrite map_fst_due in Hm. rewrite list_lookup_insert_ne; [by apply Hun|]. intros ->. set_solver.
Qed.

Lemma wp_request_time_elapsed w q d t Q : holds (client w) q d -> 0 <= t < 256 ->
  (forall h rl q', map snd q' = (expire 0 t (map snd q)).2 -> holds (client (with_requests w h rl [])) q' d ->
     Q tt (with_requests w h rl (concat (map (calls ERR_TIMEOUT) (expire 0 t (map snd q)).1)))) ->
  wp (mqtt_request_time_elapsed t) w Q.
Proof.
  intros H Ht HQ. unfold mqtt_request_time_elapsed. wp_bind. apply wp_get_queue. eapply wp_time_elapsed_loop; [exact H| |done|done].
  pose proof (holds_fuel _ _ _ H). lia.
Qed.

(** ** Clearing and initialising *)

Lemma wp_clear_loop fuel iter b q w Q : chain (req_list (client w)) iter b q -> NoDup (map fst q) -> (length q <= fuel)%nat ->
  (forall rl, length rl = length (req_list (client w)) -> (forall n, n ∈ map fst q -> exists x, rl !! n = Some x /\ next x = Some n) ->
     (forall n, n ∉ map fst q -> rl !! n = req_list (client w) !! n) -> Q tt (with_requests w (pend_req_queue (client w)) rl [])) ->
  wp (clear_loop fuel iter) w Q.
Proof.
  revert fuel iter b w. induction q as [|[n p] q IH]; intros fuel iter b w.
  - cbn. intros -> _ _ HQ. destruct fuel; cbn; rewrite <-(with_requests_same w); (apply HQ; [done|by intros n ?%elem_of_nil|done]).
  - cbn [chain]. intros (-> & _ & x & Hx & _ & _ & _ & _ & Hc) [Hn Hnd]%NoDup_cons Hf HQ. destruct fuel as [|fuel]; [cbn in Hf; lia|].
    cbn [clear_loop]. wp_bind. eapply wp_get_request; [exact Hx|]. wp_bind. unfold mqtt_delete_request. wp_bind. eapply wp_get_request; [exact Hx|].
    apply wp_put_request. eapply IH; [by apply chain_frame|done|cbn in Hf; lia|]. cbn [client with_requests set_requests req_list pend_req_queue].
    intros rl Hlen Hin Hout. rewrite with_requests_twice. pose proof (lookup_lt_Some _ _ _ Hx) as Hlt. apply HQ.
    + by rewrite Hlen, length_insert.
    + intros m [->|Hm]%elem_of_cons; [|by apply Hin]. rewrite Hout, list_lookup_insert_eq by done. by eexists.
    + intros m Hm. cbn in Hm. apply not_elem_of_cons in Hm as [Hmn Hm]. rewrite Hout, list_lookup_insert_ne by done. done.
Qed.

Lemma wp_clear_requests w q d Q : holds (client w) q d ->
  (forall rl, holds (client (with_requests w None rl [])) [] d -> Q tt (with_requests w None rl [])) -> wp mqtt_clear_requests w Q.
Proof.
  intros H HQ. pose proof H as [Hsz Hc Hnd Hout Hun]. pose proof (holds_fuel _ _ _ H) as Hf. unfold mqtt_clear_requests. wp_bind. apply wp_get_queue.
  wp_bind. eapply wp_clear_loop; [exact Hc|by eapply holds_nodup|lia|]. intros rl Hlen Hin Hsame. apply wp_put_queue. rewrite with_requests_twice. apply HQ.
  apply NoDup_app in Hnd as (Hndq & Hdis & Hndd). split; cbn.
  - by rewrite Hlen.
  - done.
  - done.
  - intros n Hn. rewrite Hsame; [by apply Hout|]. intros Hq. by eapply Hdis.
  - intros n x Hn Hx. destruct (decide (n ∈ map fst q)) as [Hq|Hq]; [destruct (Hin n Hq) as (y & Hy & Hny); by simplify_eq|].
    rewrite Hsame in Hx by done. apply Hun; [|done]. set_solver.
Qed.

Lemma wp_init_requests w Q : length (req_list (client w)) = MQTT_REQ_MAX_IN_FLIGHT -> pend_req_queue (client w) = None ->
  (forall rl, holds (client (with_requests w None rl [])) [] [] -> Q tt (with_requests w None rl [])) -> wp mqtt_init_requests w Q.
Proof.
  intros Hsz Hq HQ.
  assert (wp mqtt_init_requests w Q = Q tt (with_requests w (pend_req_queue (client w)) (imap unused_request (req_list (client w))) [])) as ->.
  { unfold with_requests. by rewrite app_nil_r. }
  rewrite Hq. apply HQ. split; cbn; [by rewrite length_imap|done|constructor|by intros n ?%elem_of_nil|].
  intros n x _. rewrite list_lookup_imap. destruct (req_list (client w) !! n); cbn; [by intros [= <-]|done].
Qed.

(** ** The table is what the client implements

    The client sends requests, their answers arrive, and seconds pass. *)
Inductive request_op := Send (id : Z) (f : option Z) (a : Z) | Answer (id err : Z) | Seconds (t : Z).

Definition run_request (o : request_op) : W bool :=
  match o with
  | Send id f a =>
      r ← mqtt_create_request id f a;
      match r with None => mret false | Some n => mqtt_append_request n ;; mret true end
  | Answer id err =>
      r ← mqtt_take_request id;
      match r with None => mret false | Some n => x ← get_request n; call_request x err ;; mqtt_delete_request n ;; mret true end
  | Seconds t => mqtt_request_time_elapsed t ;; mret true
  end.

Fixpoint run_requests (os : list request_op) : W (list bool) :=
  match os with [] => mret [] | o :: os => r ← run_request o; rs ← run_requests os; mret (r :: rs) end.

(** A step of a table for at most [n] requests: the result, the calls, the table. *)
Definition table_step (n : nat) (q : list pending) (o : request_op) : bool * list client_event * list pending :=
  match o with
  | Send id f a => if (length q <? n)%nat then (true, [], q ++ [mk_pending id f a MQTT_REQ_TIMEOUT]) else (false, [], q)
  | Answer id err => match take_pending id q with Some (p, q) => (true, calls err p, q) | None => (false, [], q) end
  | Seconds t => let '(over, rest) := expire 0 t q in (true, concat (map (calls ERR_TIMEOUT) over), rest)
  end.

Fixpoint table_run (n : nat) (q : list pending) (os : list request_op) : list bool * list client_event * list pending :=
  match os with
  | [] => ([], [], q)
  | o :: os => let '(r, es, q) := table_step n q o in let '(rs, es', q) := table_run n q os in (r :: rs, es ++ es', q)
  end.

Definition op_ok (o : request_op) : Prop := match o with Seconds t => 0 <= t < 256 | _ => True end.

Lemma wp_run_request w q d o Q : holds (client w) q d -> op_ok o ->
  (forall r h rl es q', table_step (MQTT_REQ_MAX_IN_FLIGHT - length d) (map snd q) o = (r, es, map snd q') ->
     holds (client (with_requests w h rl [])) q' d -> Q r (with_requests w h rl es)) ->
  wp (run_request o) w Q.
Proof.
  intros H Hok HQ. pose proof (holds_fuel _ _ _ H) as Hfuel. destruct o as [id f a|id err|t]; cbn [run_request table_step] in *.
  - wp_bind. eapply wp_create_request; [exact H| |].
    + intros n rl H' (x & Hx & Hcb & Ha & Hi). cbn beta iota. wp_bind. eapply (wp_append_request _ _ _ _ _ (mk_pending id f a MQTT_REQ_TIMEOUT)); [exact H'|exact Hx|done..|].
      intros h rl' H''. wp_ret. rewrite with_requests_twice in H'' |- *. eapply HQ; [|exact H'']. rewrite length_map.
      pose proof (holds_room _ _ _ H') as Hroom. cbn [length] in Hroom.
      rewrite (proj2 (Nat.ltb_lt _ _)) by lia. by rewrite map_app.
    + intros Hfull. wp_ret. rewrite <-(with_requests_same w). apply (HQ _ _ _ _ q); [|by rewrite with_requests_same].
      rewrite length_map, (proj2 (Nat.ltb_ge _ _)) by lia. done.
  - wp_bind. eapply wp_take_request; [exact H| |].
    + intros q1 n p q2 h rl x Hf H' Hx Hcb Ha. cbn beta iota. wp_bind. eapply wp_get_request; [exact Hx|]. wp_bind. eapply wp_call_request; [exact Hcb|exact Ha|].
      rewrite with_requests_twice. wp_bind. eapply wp_delete_request; [exact H'|]. intros rl' H''. wp_ret. rewrite with_requests_twice in H'' |- *.
      rewrite app_nil_r. eapply HQ; [|exact H'']. by rewrite find_queued_pending, Hf.
    + intros Hf. cbn beta iota. wp_ret. rewrite <-(with_requests_same w). apply (HQ _ _ _ _ q); [|by rewrite with_requests_same]. by rewrite find_queued_pending, Hf.
  - wp_bind. eapply wp_request_time_elapsed; [exact H|exact Hok|]. intros h rl q' Hq' H'. wp_ret. eapply HQ; [|exact H'].
    destruct (expire 0 t (map snd q)) as [over rest]. cbn in Hq' |- *. by rewrite Hq'.
Qed.

(** C23: the queue of pending requests, kept in four items with times relative to the
    item before, behaves like a table of at most four requests: sending adds a request
    with 30 seconds, an answer removes the first request with its identifier and calls
    its callback, and as time passes the requests that are over are removed in order
    and their callbacks get a timeout.  Nothing else of the client changes. *)
Theorem requests_refine w os rs es (q : list pending) : holds (client w) [] [] -> Forall op_ok os -> table_run MQTT_REQ_MAX_IN_FLIGHT [] os = (rs, es, q) ->
  wp (run_requests os) w (fun rs' w' => rs' = rs /\ exists h rl, w' = with_requests w h rl es).
Proof.
  intros H0 Hok. change (@nil pending) with (map snd (@nil (nat * pending))). revert H0.
  generalize (@nil (nat * pending)) as q0. revert w rs es. induction Hok as [|o os Ho Hos IH]; intros w rs es q0 H; cbn [run_requests table_run].
  - intros [= <- <- <-]. wp_ret. split; [done|]. eexists _, _. by rewrite with_requests_same.
  - intros Hrun. wp_bind. eapply wp_run_request; [exact H|done|]. intros r h rl es1 q1 Hstep H1.
    change (MQTT_REQ_MAX_IN_FLIGHT - length (@nil nat))%nat with MQTT_REQ_MAX_IN_FLIGHT in Hstep. rewrite Hstep in Hrun. destruct (table_run MQTT_REQ_MAX_IN_FLIGHT (map snd q1) os) as [[rs2 es2] q2] eqn:Hrun2.
    simplify_eq. wp_bind. assert (holds (client (with_requests w h rl es1)) q1 []) as H1' by (destruct H1; by split).
    eapply wp_mono; [by eapply (IH _ _ _ _ H1')|]. cbv beta. intros rs' w' (-> & h' & rl' & ->). wp_ret. split; [done|]. rewrite with_requests_twice. by eexists _, _.
Qed.

(** The items after mqtt_init_requests. *)
Definition fresh_client : mqtt_client_t := set_requests mqtt_client_zero None (imap unused_request (req_list mqtt_client_zero)).

Lemma fresh_holds : holds fresh_client [] [].
Proof.
  split; [done|done|constructor|by intros n ?%elem_of_nil|]. intros n x _. cbn. destruct n as [|[|[|[|n]]]]; cbn; by intros [= <-].
Qed.

(** Two requests are over after 30 seconds, one of them 10 seconds later than the
    other, and the third is answered. *)
Lemma requests_refine_witness :
  wp (run_requests [Send 1 (Some 7) 100; Seconds 10; Send 2 (Some 8) 200; Send 3 (Some 9) 300; Answer 3 0; Seconds 21; Seconds 20])
    (mk_world fresh_client [] [] [])
    (fun rs w => rs = [true; true; true; true; true; true; true] /\ exists h rl,
       w = with_requests (mk_world fresh_client [] [] []) h rl [Request_callback 9 300 0; Request_callback 7 100 (-3); Request_callback 8 200 (-3)]).
Proof.
  apply (requests_refine _ _ _ _ []); [apply fresh_holds|repeat constructor; cbn; lia|reflexivity].
Defined.
