(* ===== verification/LwClient.v ===== *)
(** * What the MQTT client sends and how it takes what arrives

    The packets that the client builds in its output buffer are those of MQTT 3.1.1;
    a message that arrives is memory-safe to take; APP_OneNet.c's connecting and
    subscribing. *)

From S2P Require Import Prelude Cstr LwMqtt LwRequests.

Open Scope Z_scope.

Implicit Types (w : world) (c : mqtt_client_t) (q : list (nat * pending)) (d : list nat).

(** ** The output buffer

    The index get stays 0, so the buffer holds what was put in from its start. *)
Record ring (rb : mqtt_ringbuf_t) (bs : list Z) : Prop := {
  r_get : getp rb = 0;
  r_put : put rb = Zlen bs;
  r_buf : exists rest, buf rb = bs ++ rest /\ Zlen bs + Zlen rest = MQTT_OUTPUT_RINGBUF_SIZE;
}.

Definition set_out w rb : world := mk_world (set_output (client w) rb) (trace w) (fifo w) (arrivals w).

Lemma set_out_twice w rb rb' : set_out (set_out w rb) rb' = set_out w rb'.
Proof. done. Qed.

Lemma ring_le rb bs : ring rb bs -> Zlen bs <= MQTT_OUTPUT_RINGBUF_SIZE.
Proof. intros [_ _ (rest & _ & H)]. pose proof (Zlen_nonneg rest). lia. Qed.

Lemma ring_len rb bs : ring rb bs -> mqtt_ringbuf_len rb = Zlen bs.
Proof.
  intros H. pose proof (ring_le _ _ H). pose proof (Zlen_nonneg bs). destruct H as [Hg Hp _]. unfold mqtt_ringbuf_len, MQTT_OUTPUT_RINGBUF_SIZE in *.
  rewrite Hg, Hp, Z.sub_0_r, u16_small; lia.
Qed.

Lemma ring_read rb bs n : ring rb bs -> 0 <= n <= Zlen bs -> read_at (buf rb) 0 n = Some (take (Z.to_nat n) bs).
Proof.
  intros [_ _ (rest & -> & Hl)] Hn. destruct (cut bs n Hn) as (a & b & -> & Ha & Hb). rewrite <-(assoc_L (++)).
  rewrite read_at_0 by done. f_equal. by rewrite <-Ha, take_Zlen.
Qed.

(** [m] appends [l] to the output and does nothing else. *)
Definition appends (m : W unit) (l : list Z) : Prop :=
  forall w bs Q, ring (output (client w)) bs -> Zlen bs + Zlen l <= MQTT_OUTPUT_RINGBUF_SIZE ->
    (forall rb, ring rb (bs ++ l) -> Q tt (set_out w rb)) -> wp m w Q.

Lemma appends_put x : appends (mqtt_ringbuf_put x) [u8 x].
Proof.
  intros w bs Q H Hl HQ. destruct H as [Hg Hp (rest & Hb & Hlen)]. change (Zlen [u8 x]) with 1 in Hl. unfold MQTT_OUTPUT_RINGBUF_SIZE in *.
  pose proof (Zlen_nonneg bs). destruct rest as [|y rest]; [change (Zlen (@nil Z)) with 0 in Hlen; lia|].
  unfold mqtt_ringbuf_put. wp_bind. apply wp_get_client. wp_bind. rewrite Hb, Hp. change (MQTT_OUTPUT_RINGBUF_SIZE - 1) with (Z.ones 8).
  eapply wp_of_opt; [apply set_at_mid; rewrite Z.land_ones, Z.mod_small by lia; done|]. rewrite u16_small by lia. apply HQ.
  split; cbn; [done|rewrite Zlen_app; change (Zlen [u8 x]) with 1; lia|]. exists rest. split; [by rewrite <-(assoc_L (++))|].
  rewrite Zlen_app. rewrite Zlen_cons in Hlen. change (Zlen [u8 x]) with 1. unfold MQTT_OUTPUT_RINGBUF_SIZE. lia.
Qed.

Lemma appends_nil : appends (mret tt) [].
Proof. intros w bs Q H _ HQ. wp_ret. specialize (HQ (output (client w))). rewrite app_nil_r in HQ. replace w with (set_out w (output (client w))) by (by destruct w as [[]]). by apply HQ. Qed.

Lemma appends_bind m l m' l' : appends m l -> appends m' l' -> appends (m ;; m') (l ++ l').
Proof.
  intros Hm Hm' w bs Q H Hl HQ. rewrite Zlen_app in Hl. pose proof (Zlen_nonneg l'). wp_bind. apply (Hm _ bs); [done|lia|]. intros rb Hrb.
  apply (Hm' _ (bs ++ l)); [done|rewrite Zlen_app; lia|]. intros rb' Hrb'. rewrite set_out_twice. apply HQ. by rewrite (assoc_L (++)).
Qed.

Lemma appends_eq m l l' : appends m l -> l = l' -> appends m l'.
Proof. by intros ? <-. Qed.

Lemma appends_u8 x : appends (mqtt_output_append_u8 x) [u8 x].
Proof. apply appends_put. Qed.

Lemma u8_land v : u8 (Z.land v 0xff) = u8 v.
Proof. change 0xff with (Z.ones 8). rewrite Z.land_ones by done. unfold u8. by rewrite Z.mod_mod. Qed.

Lemma appends_u16 v : appends (mqtt_output_append_u16 v) (be16 v).
Proof.
  eapply appends_eq; [apply appends_bind; apply appends_put|]. cbn [app]. by rewrite u8_land.
Qed.

Lemma appends_buf l : appends (mqtt_output_append_buf l) (map u8 l).
Proof. induction l as [|x l IH]; [apply appends_nil|]. apply (appends_bind _ [u8 x] _ (map u8 l)); [apply appends_put|done]. Qed.

(** A string with its length in front. *)
Definition mqtt_string (s : list Z) : list Z := be16 (Zlen s) ++ s.

Definition bytes (l : list Z) : Prop := Forall (fun x => 0 <= x < 256) l.

Lemma map_u8 l : bytes l -> map u8 l = l.
Proof. induction 1 as [|x l Hx Hl IH]; [done|]. cbn. by rewrite u8_small, IH. Qed.

Lemma appends_string s n : bytes s -> n = Zlen s -> appends (mqtt_output_append_string s n) (mqtt_string s).
Proof.
  intros Hs ->. unfold mqtt_output_append_string, mqtt_string. eapply appends_eq; [apply appends_bind; [apply appends_put|apply appends_bind; [apply appends_put|apply appends_buf]]|].
  pose proof (take_Zlen s []) as Ht. rewrite app_nil_r in Ht. by rewrite Ht, u8_land, map_u8.
Qed.

(** The remaining length of MQTT: seven bits in a byte, the lowest first. *)
Fixpoint length_field (fuel : nat) (n : Z) : list Z :=
  match fuel with O => [] | S fuel => if n <? 128 then [n] else n mod 128 + 128 :: length_field fuel (n / 128) end.

Definition mqtt_packet (control : Z) (body : list Z) : list Z := control :: length_field 4 (Zlen body) ++ body.

Lemma length_byte n : 0 <= n -> u8 (Z.lor (Z.land n 0x7f) (if 128 <=? n then 0x80 else 0)) = if n <? 128 then n else n mod 128 + 128.
Proof.
  intros Hn. pose proof (Z.mod_pos_bound n 128 ltac:(done)). rewrite land_7f. destruct (Z.leb_spec 128 n), (Z.ltb_spec n 128); try lia.
  - rewrite lor_80, u8_small; lia.
  - rewrite Z.lor_0_r, Z.mod_small, u8_small; lia.
Qed.

Lemma length_field_S fuel n : length_field (S fuel) n = if n <? 128 then [n] else n mod 128 + 128 :: length_field fuel (n / 128).
Proof. done. Qed.

Lemma appends_length fuel n : 0 <= n < 128 ^ Z.of_nat (S fuel) -> appends (append_length fuel n) (length_field (S fuel) n).
Proof.
  revert n. induction fuel as [|fuel IH]; intros n Hn; pose proof (length_byte n ltac:(lia)) as Hb; cbn [append_length]; rewrite length_field_S;
    rewrite Z.shiftr_div_pow2 by done; change (2 ^ 7) with 128; destruct (Z.ltb_spec n 128) as [Hlt|Hge].
  1, 3: rewrite Z.div_small by lia; cbn [Z.ltb Z.compare]; (eapply appends_eq; [apply appends_bind; [apply appends_u8|apply appends_nil]|by rewrite Hb]).
  - change (128 ^ Z.of_nat 1) with 128 in Hn. lia.
  - assert (0 < n / 128) by (apply Z.div_str_pos; lia). rewrite (proj2 (Z.ltb_lt 0 _)) by done. eapply appends_eq; [apply appends_bind; [apply appends_u8|apply IH]|by rewrite Hb].
    split; [lia|]. apply Z.div_lt_upper_bound; [done|]. rewrite (Nat2Z.inj_succ (S fuel)), Z.pow_succ_r in Hn by lia. lia.
Qed.

(** The first byte of a packet. *)
Definition control_byte (msg_type dup qos retain : Z) : Z := msg_type * 16 + dup * 8 + qos * 2 + retain.

Lemma control_byte_bits msg_type dup qos retain : 0 <= msg_type < 16 -> 0 <= dup < 2 -> 0 <= qos < 4 -> 0 <= retain < 2 ->
  u8 (Z.lor (Z.lor (Z.lor (Z.shiftl (Z.land msg_type 0x0f) 4) (Z.shiftl (Z.land dup 1) 3)) (Z.shiftl (Z.land qos 3) 1)) (Z.land retain 1)) = control_byte msg_type dup qos retain.
Proof.
  intros Hm Hd Hq Hr. apply Z.eqb_eq.
  pose (P := fun v => let m := v / 16 in let x := v mod 16 in let dp := x / 8 in let qs := x / 2 mod 4 in let rt := x mod 2 in
    u8 (Z.lor (Z.lor (Z.lor (Z.shiftl (Z.land m 0x0f) 4) (Z.shiftl (Z.land dp 1) 3)) (Z.shiftl (Z.land qs 3) 1)) (Z.land rt 1)) =? control_byte m dp qs rt).
  assert (P (control_byte msg_type dup qos retain) = true) as HP by (apply byte_forall_prop; [unfold control_byte; lia|done]). unfold P, control_byte in HP |- *.
  replace ((msg_type * 16 + dup * 8 + qos * 2 + retain) / 16) with msg_type in HP by (apply Z.div_unique with (dup * 8 + qos * 2 + retain); lia).
  replace ((msg_type * 16 + dup * 8 + qos * 2 + retain) mod 16) with (dup * 8 + qos * 2 + retain) in HP by (apply Z.mod_unique with msg_type; lia).
  cbv zeta in HP. replace ((dup * 8 + qos * 2 + retain) / 8) with dup in HP by (apply Z.div_unique with (qos * 2 + retain); lia).
  replace ((dup * 8 + qos * 2 + retain) / 2) with (dup * 4 + qos) in HP by (apply Z.div_unique with retain; lia).
  replace ((dup * 4 + qos) mod 4) with qos in HP by (apply Z.mod_unique with dup; lia).
  replace ((dup * 8 + qos * 2 + retain) mod 2) with retain in HP by (apply Z.mod_unique with (dup * 4 + qos); lia). exact HP.
Qed.

Lemma appends_fixed_header msg_type dup qos retain n : 0 <= msg_type < 16 -> 0 <= dup < 2 -> 0 <= qos < 4 -> 0 <= retain < 2 -> 0 <= n < 65536 ->
  appends (mqtt_output_append_fixed_header msg_type dup qos retain n) (control_byte msg_type dup qos retain :: length_field 3 n).
Proof.
  intros ? ? ? ? Hn. apply (appends_bind _ [_] _ (length_field 3 n)).
  - eapply appends_eq; [apply appends_u8|]. by rewrite control_byte_bits.
  - apply appends_length. lia.
Qed.

Lemma length_field_more fuel n : 0 <= n < 128 ^ Z.of_nat (S fuel) -> length_field (S (S fuel)) n = length_field (S fuel) n.
Proof.
  revert n. induction fuel as [|fuel IH]; intros n Hn; rewrite (length_field_S (S _)), (length_field_S _ n); destruct (Z.ltb_spec n 128); try done.
  - change (128 ^ Z.of_nat 1) with 128 in Hn. lia.
  - rewrite IH; [done|]. rewrite (Nat2Z.inj_succ (S fuel)), Z.pow_succ_r in Hn by lia. split; [by apply Z.div_pos; lia|]. apply Z.div_lt_upper_bound; lia.
Qed.

(** The length of the length. *)
Lemma length_field_size n : 0 <= n < 65536 -> Zlen (length_field 3 n) = if n <? 128 then 1 else if n <? 16384 then 2 else 3.
Proof.
  intros Hn. rewrite length_field_S. destruct (Z.ltb_spec n 128); [done|]. rewrite length_field_S. replace (n / 128 <? 128) with (n <? 16384).
  - destruct (Z.ltb_spec n 16384); [done|]. rewrite length_field_S, (proj2 (Z.ltb_lt (n / 128 / 128) 128)); [done|].
    rewrite Z.div_div by done. apply Z.div_lt_upper_bound; lia.
  - destruct (Z.ltb_spec n 16384), (Z.ltb_spec (n / 128) 128); try done; Z.div_mod_to_equations; lia.
Qed.

Lemma packet_size control body : Zlen body < 65536 -> Zlen (mqtt_packet control body) = 1 + Zlen (length_field 3 (Zlen body)) + Zlen body.
Proof.
  intros Hb. pose proof (Zlen_nonneg body). unfold mqtt_packet. rewrite (length_field_more 2) by (change (128 ^ Z.of_nat 3) with 2097152; lia).
  rewrite Zlen_cons, Zlen_app. lia.
Qed.

(** There is space exactly when the packet fits. *)
Lemma check_space rb bs n : ring rb bs -> 0 <= n < 65530 ->
  mqtt_output_check_space rb n = (Zlen bs + 1 + Zlen (length_field 3 n) + n <=? MQTT_OUTPUT_RINGBUF_SIZE).
Proof.
  intros H Hn. unfold mqtt_output_check_space, mqtt_ringbuf_free. rewrite (ring_len _ _ H), length_field_size by lia.
  rewrite (u16_small (1 + n)) by lia. cbn [length_bytes]. rewrite !Z.shiftr_div_pow2, Z.div_div by done. change (2 ^ 7 * 2 ^ 7) with 16384. change (2 ^ 7) with 128.
  rewrite (u16_small (1 + n + 1)) by lia. rewrite (u16_small (1 + n + 1 + 1)) by lia. rewrite (u16_small (1 + n + 1 + 1 + 1)) by lia.
  destruct (Z.ltb_spec n 128); [rewrite Z.div_small by lia; cbn [Z.ltb Z.compare]; apply Bool.eq_iff_eq_true; rewrite !Z.leb_le; lia|].
  rewrite (proj2 (Z.ltb_lt 0 (n / 128))) by (apply Z.div_str_pos; lia).
  destruct (Z.ltb_spec n 16384); [rewrite (Z.div_small n 16384) by lia; cbn [Z.ltb Z.compare]; apply Bool.eq_iff_eq_true; rewrite !Z.leb_le; lia|].
  rewrite (proj2 (Z.ltb_lt 0 (n / 16384))) by (apply Z.div_str_pos; lia). apply Bool.eq_iff_eq_true; rewrite !Z.leb_le; lia.
Qed.

(** ** Connecting *)

Definition optional (s : option (list Z)) : list Z := match s with Some s => mqtt_string s | None => [] end.
Definition optional_bytes (s : option (list Z)) : Prop := match s with Some s => bytes s | None => True end.

(** The variable header and the payload of a CONNECT packet: the flags ask for a
    clean session and announce a user and a password. *)
Definition connect_body (info : mqtt_connect_client_info_t) : list Z :=
  mqtt_string protocol_name ++ [4] ++
  [0xc2 + match will_of info with Some _ => 4 + 8 * will_qos info + (if will_retain info =? 0 then 0 else 32) | None => 0 end] ++
  be16 (info_keep_alive info) ++ mqtt_string (client_id info) ++
  match will_of info with Some (t, m) => mqtt_string t ++ mqtt_string m | None => [] end ++
  optional (client_user info) ++ optional (client_pass info).

Definition connect_packet (info : mqtt_connect_client_info_t) : list Z := mqtt_packet 0x10 (connect_body info).

Record info_ok (info : mqtt_connect_client_info_t) : Prop := {
  i_id : bytes (client_id info);
  i_user : optional_bytes (client_user info);
  i_pass : optional_bytes (client_pass info);
  i_will : match will_of info with Some (t, m) => bytes t /\ bytes m /\ Zlen t < 256 /\ Zlen m < 256 | None => True end;
  i_qos : 0 <= will_qos info < 4;
  i_keep : 0 <= info_keep_alive info < 65536;
  i_size : Zlen (connect_body info) < 65530;
}.

(** Drops the wraps, from the inside. *)
Ltac small_words :=
  repeat match goal with
  | |- context [u8 ?x] => lazymatch x with context [u16 _] => fail | context [u8 _] => fail | _ => rewrite (u8_small x) by lia end
  | |- context [u16 ?x] => lazymatch x with context [u16 _] => fail | context [u8 _] => fail | _ => rewrite (u16_small x) by lia end
  end.

Lemma mqtt_string_size s : Zlen (mqtt_string s) = 2 + Zlen s.
Proof. unfold mqtt_string. rewrite Zlen_app. done. Qed.

Lemma optional_size s : Zlen (optional s) = match s with Some s => 2 + Zlen s | None => 0 end.
Proof. destruct s; [apply mqtt_string_size|done]. Qed.

Lemma connect_length_body info : info_ok info -> connect_length info = Zlen (connect_body info).
Proof.
  intros [_ _ _ Hw _ _ Hs]. unfold connect_body in *. revert Hs. rewrite !Zlen_app, !mqtt_string_size, !optional_size. change (Zlen protocol_name) with 4.
  change (Zlen (be16 _)) with 2. change (Zlen [_]) with 1. unfold connect_length.
  assert (forall s : list Z, 0 <= Zlen s) as Hnn by apply Zlen_nonneg. pose proof (Hnn (client_id info)).
  destruct (will_of info) as [[t m]|].
  - destruct Hw as (_ & _ & Ht & Hm). pose proof (Hnn t). pose proof (Hnn m). rewrite Zlen_app, !mqtt_string_size.
    destruct (client_user info) as [u|], (client_pass info) as [p|]; try pose proof (Hnn u); try pose proof (Hnn p); intros Hs;
      small_words; lia.
  - change (Zlen (@nil Z)) with 0.
    destruct (client_user info) as [u|], (client_pass info) as [p|]; try pose proof (Hnn u); try pose proof (Hnn p); intros Hs;
      small_words; lia.
Qed.

Lemma connect_flags_value info : 0 <= will_qos info < 4 ->
  u8 (connect_flags info) = 0xc2 + match will_of info with Some _ => 4 + 8 * will_qos info + (if will_retain info =? 0 then 0 else 32) | None => 0 end.
Proof.
  intros Hq. unfold connect_flags. destruct (will_of info) as [?|]; [|done].
  assert (will_qos info = 0 \/ will_qos info = 1 \/ will_qos info = 2 \/ will_qos info = 3) as [-> | [-> | [-> | ->]]] by lia; by destruct (will_retain info =? 0).
Qed.

Lemma appends_optional s : optional_bytes s -> Zlen (optional s) < 65536 -> appends (append_optional s) (optional s).
Proof.
  destruct s as [s|]; cbn [optional optional_bytes append_optional]; [|intros; apply appends_nil]. intros Hs Hl. rewrite mqtt_string_size in Hl. apply appends_string; [done|].
  pose proof (Zlen_nonneg s). apply u16_small. lia.
Qed.

Lemma appends_connect info : info_ok info -> appends (connect_message info) (connect_packet info).
Proof.
  intros H. pose proof (connect_length_body _ H) as Hlen. pose proof (Zlen_nonneg (connect_body info)). destruct H as [Hid Hu Hp Hw Hq Hk Hs].
  unfold connect_message, connect_packet, mqtt_packet. rewrite Hlen. rewrite (length_field_more 2) by (change (128 ^ Z.of_nat 3) with 2097152; lia).
  assert (forall s : list Z, 0 <= Zlen s) as Hnn by apply Zlen_nonneg.
  assert (Zlen (mqtt_string (client_id info)) < 65536 /\ Zlen (optional (client_user info)) < 65536 /\ Zlen (optional (client_pass info)) < 65536) as (H1 & H2 & H3).
  { unfold connect_body in Hs. rewrite !Zlen_app in Hs. pose proof (Hnn (mqtt_string protocol_name)). pose proof (Hnn (be16 (info_keep_alive info))).
    pose proof (Hnn (mqtt_string (client_id info))). pose proof (Hnn (optional (client_user info))). pose proof (Hnn (optional (client_pass info))).
    pose proof (Hnn (match will_of info with Some (t, m) => mqtt_string t ++ mqtt_string m | None => [] end)). change (Zlen [_]) with 1 in Hs. lia. }
  rewrite mqtt_string_size in H1. pose proof (Hnn (client_id info)).
  eapply appends_eq.
  - apply appends_bind; [apply appends_fixed_header; unfold MQTT_MSG_TYPE_CONNECT; lia|]. apply appends_bind; [apply appends_string; [repeat constructor; lia|done]|].
    apply appends_bind; [apply appends_u8|]. apply appends_bind; [apply appends_u8|]. apply appends_bind; [apply appends_u16|].
    apply appends_bind; [apply appends_string; [done|apply u16_small; lia]|].
    apply appends_bind; [|apply appends_bind; by apply appends_optional].
    instantiate (1 := match will_of info with Some (t, m) => mqtt_string t ++ mqtt_string m | None => [] end).
    destruct (will_of info) as [[t m]|]; [|apply appends_nil]. destruct Hw as (Ht & Hm & Htl & Hml). pose proof (Hnn t). pose proof (Hnn m).
    apply appends_bind; (apply appends_string; [done|apply u8_small; lia]).
  - rewrite connect_flags_value by done. unfold connect_body. by rewrite <-app_comm_cons.
Qed.

(** The events of a write through the module: the command is cut after 15
    characters, and padded when it is shorter. *)
Definition cipsend_write (data : list Z) : list client_event :=
  [Device_write (take 15 (esp32_command (Zlen data) ++ repeat 0 5)); Thread_delay 100; Device_write data].

Definition emits w (es : list client_event) : world := mk_world (client w) (trace w ++ es) (fifo w) (arrivals w).

Lemma decimal_loop_length fuel v k : 0 <= v < 10 ^ Z.of_nat (S k) -> Zlen (decimal_loop fuel v) <= Z.of_nat (S k).
Proof.
  revert v k. induction fuel as [|fuel IH]; intros v k Hv; cbn [decimal_loop]; [change (Zlen (@nil Z)) with 0; lia|]. rewrite Zlen_app. change (Zlen [_]) with 1.
  destruct (Z.ltb_spec v 10); [change (Zlen (@nil Z)) with 0; lia|]. destruct k as [|k]; [change (10 ^ Z.of_nat 1) with 10 in Hv; lia|].
  assert (Zlen (decimal_loop fuel (v / 10)) <= Z.of_nat (S k)); [|lia]. apply IH. rewrite (Nat2Z.inj_succ (S k)), Z.pow_succ_r in Hv by lia.
  split; [apply Z.div_pos; lia|]. apply Z.div_lt_upper_bound; lia.
Qed.

Lemma wp_rt_ESP32_write data w Q : Zlen data < 100000 -> Q (Zlen data) (emits w (cipsend_write data)) -> wp (rt_ESP32_write data) w Q.
Proof.
  intros Hd HQ. pose proof (Zlen_nonneg data). unfold rt_ESP32_write. cbv zeta. rewrite (proj2 (Z.ltb_ge _ _)).
  - eapply wp_run; [|exact HQ]. unfold device_write, rt_thread_delay, trace_event, emits, mbind, M_bind, mret, M_ret, get, Prelude.put. cbn [client trace fifo arrivals]. by rewrite <-!(assoc_L (++)).
  - unfold esp32_command. rewrite !Zlen_app. change (Zlen cipsend) with 11. change (Zlen [13; 10]) with 2.
    assert (Zlen (decimal (Zlen data)) <= Z.of_nat 5); [|lia]. apply decimal_loop_length. split; [lia|]. change (10 ^ Z.of_nat 5) with 100000. lia.
Qed.

Lemma Zlen_take_le {A} (l : list A) n : 0 <= n -> Zlen (take (Z.to_nat n) l) <= n.
Proof. intros Hn. unfold Zlen. rewrite length_take. lia. Qed.

(** The state that the client keeps: [bs] has been put into the output, [q] are the
    requests that wait, [d] the items that are lost. *)
Record client_ok c (bs : list Z) q d : Prop := {
  ok_ring : ring (output c) bs;
  ok_requests : holds c q d;
  ok_rx : Zlen (rx_buffer c) = MQTT_VAR_HEADER_BUFFER_LEN;
  ok_bytes : bytes (rx_buffer c);
  ok_conn : conn c = false;
}.

Lemma wp_modify f w Q : Q tt (mk_world (f (client w)) (trace w) (fifo w) (arrivals w)) -> wp (modify f) w Q.
Proof. done. Qed.

Lemma wp_put_client c w Q : Q tt (mk_world c (trace w) (fifo w) (arrivals w)) -> wp (put_client c) w Q.
Proof. done. Qed.

Lemma ring_zero : ring (output mqtt_client_zero) [].
Proof. split; [done|done|]. by exists (repeat 0 256). Qed.

Lemma bytes_zero n : bytes (repeat 0 n).
Proof. induction n; constructor; [lia|done]. Qed.

Lemma wp_client_connect f a info w : info_ok info ->
  wp (mqtt_client_connect f a info) w (fun r w' =>
    if conn_state (client w) =? TCP_DISCONNECTED then
      exists c es, w' = emits (mk_world c (trace w) (fifo w) (arrivals w)) es /\ keep_alive c = info_keep_alive info /\ connect_cb c = f /\ connect_arg c = a /\ data_cb c = None /\ rx_buffer c = repeat 0 128 /\
      if Zlen (connect_packet info) <=? MQTT_OUTPUT_RINGBUF_SIZE then
        r = ERR_OK /\ conn_state c = MQTT_CONNECTING /\ client_ok c (connect_packet info) [] [] /\
        es = cipsend_write (take (Z.to_nat (Zlen (connect_body info) + 2)) (connect_packet info))
      else r = ERR_MEM /\ conn_state c = TCP_DISCONNECTED /\ client_ok c [] [] [] /\ es = []
    else r = ERR_ISCONN /\ w' = w).
Proof.
  intros Hinfo. pose proof (connect_length_body _ Hinfo) as Hlen. pose proof (Zlen_nonneg (connect_body info)) as Hnn. pose proof (i_size _ Hinfo) as Hs.
  unfold mqtt_client_connect. wp_bind. apply wp_get_client. destruct (conn_state (client w) =? TCP_DISCONNECTED) eqn:Hst; cbn [negb]; [|by wp_ret].
  wp_bind. apply wp_put_client. wp_bind. apply wp_init_requests; [done|done|]. intros rl Hrl. wp_bind. apply wp_get_client. cbn [client with_requests output set_requests].
  rewrite Hlen. rewrite (check_space _ _ _ ring_zero) by lia. change (Zlen (@nil Z) + 1) with 1.
  assert (Zlen (connect_packet info) = 1 + Zlen (length_field 3 (Zlen (connect_body info))) + Zlen (connect_body info)) as Hps by (apply packet_size; lia). rewrite Hps.
  assert (forall c, data_cb c = None -> output c = output mqtt_client_zero -> rx_buffer c = rx_buffer mqtt_client_zero -> conn c = false -> holds c [] [] -> client_ok c [] [] []) as Hok.
  { intros c _ Ho Hr Hc Hh. split; [rewrite Ho; apply ring_zero|done|by rewrite Hr|rewrite Hr; apply bytes_zero|done]. }
  destruct (1 + Zlen (length_field 3 (Zlen (connect_body info))) + Zlen (connect_body info) <=? MQTT_OUTPUT_RINGBUF_SIZE) eqn:Hfit; cbn [negb].
  - apply Z.leb_le in Hfit. wp_bind. apply wp_modify. wp_bind.
    eapply (appends_connect _ Hinfo _ []); [apply ring_zero|change (Zlen (@nil Z)) with 0; lia|].
    intros rb Hrb. cbn [app] in Hrb. wp_bind. apply wp_modify. wp_bind. apply wp_get_client. wp_bind. cbn [client set_cyclic_tick set_times set_conn_state output set_out set_output].
    assert (2 <= MQTT_OUTPUT_RINGBUF_SIZE) by done. assert (1 <= Zlen (length_field 3 (Zlen (connect_body info)))) by (rewrite length_field_size by lia; repeat case_match; lia).
    eapply wp_of_opt; [apply (ring_read _ _ _ Hrb); lia|].
    wp_bind. apply wp_rt_ESP32_write.
    { pose proof (Zlen_take_le (connect_packet info) (Zlen (connect_body info) + 2) ltac:(lia)). lia. }
    match goal with |- wp _ (emits ?w0 ?es0) _ => wp_ret; exists (client w0), es0 end.
    split; [unfold emits, with_requests, set_out; cbn [client trace fifo arrivals]; by rewrite ?app_nil_r|]. cbn [client trace fifo arrivals set_out with_requests emits keep_alive connect_cb connect_arg data_cb rx_buffer]. do 5 (split; [done|]).
    split; [done|]. split; [done|]. split; [|done]. split; [exact Hrb| |done|apply bytes_zero|done].
    destruct Hrl; by split.
  - wp_ret. exists (client (with_requests (mk_world (mk_client 0 (info_keep_alive info) 0 0 0 0 false a f None (req_list mqtt_client_zero) 0 None None 0 (rx_buffer mqtt_client_zero) (output mqtt_client_zero)) (trace w) (fifo w) (arrivals w)) None rl [])), [].
    split; [unfold emits, with_requests; cbn; by rewrite !app_nil_r|]. do 5 (split; [done|]). split; [done|]. split; [done|]. split; [|done]. by apply Hok.
Qed.

(** Mqtt_client_connect refuses a client that is connected and leaves it alone;
    otherwise the client starts anew, and, when the CONNECT packet of MQTT 3.1.1 for
    the client's identifier, will, user and password fits into the output buffer, the
    packet is sent (without what goes beyond two bytes of header) and the client waits
    for the answer; when it does not fit, nothing is sent. *)
Theorem mqtt_client_connect_sends f a info w : info_ok info ->
  wp (mqtt_client_connect f a info) w (fun r w' =>
    if conn_state (client w) =? TCP_DISCONNECTED then
      exists c es, w' = emits (mk_world c (trace w) (fifo w) (arrivals w)) es /\ keep_alive c = info_keep_alive info /\ connect_cb c = f /\ connect_arg c = a /\ data_cb c = None /\ rx_buffer c = repeat 0 128 /\
      if Zlen (connect_packet info) <=? MQTT_OUTPUT_RINGBUF_SIZE then
        r = ERR_OK /\ conn_state c = MQTT_CONNECTING /\ client_ok c (connect_packet info) [] [] /\
        es = cipsend_write (take (Z.to_nat (Zlen (connect_body info) + 2)) (connect_packet info))
      else r = ERR_MEM /\ conn_state c = TCP_DISCONNECTED /\ client_ok c [] [] [] /\ es = []
    else r = ERR_ISCONN /\ w' = w).
Proof. exact (wp_client_connect f a info w). Qed.

(** OneNET's client: the packet takes 33 bytes, the command 16 characters of which 15
    are sent. *)
Definition onenet_info : mqtt_connect_client_info_t := mk_info [49; 50; 51] (Some [49; 57; 54; 55; 50; 52]) (Some [56; 48; 56]) 120 None None 0 0.

Lemma onenet_info_ok : info_ok onenet_info.
Proof. split; cbn; try done; repeat constructor; lia. Qed.

Lemma mqtt_client_connect_sends_witness :
  info_ok onenet_info /\ wp (mqtt_client_connect None 0 onenet_info) (mk_world fresh_client [] [] []) (fun r w =>
    exists c es, w = emits (mk_world c [] [] []) es /\ keep_alive c = 120 /\ connect_cb c = None /\ connect_arg c = 0 /\ data_cb c = None /\ rx_buffer c = repeat 0 128 /\
      r = ERR_OK /\ conn_state c = MQTT_CONNECTING /\ client_ok c (connect_packet onenet_info) [] [] /\
      es = cipsend_write (0x10 :: 28 :: 0 :: 4 :: protocol_name ++ [4; 0xc2; 0; 120; 0; 3; 49; 50; 51; 0; 6; 49; 57; 54; 55; 50; 52; 0; 3; 56; 48; 56])).
Proof. split; [exact onenet_info_ok|]. exact (mqtt_client_connect_sends None 0 onenet_info (mk_world fresh_client [] [] []) onenet_info_ok). Defined.

(** ** Subscribing *)

Definition next_id (seq : Z) : Z := if seq + 1 <? 65536 then seq + 1 else 1.

Lemma wp_generate_packet_id w Q : 0 <= pkt_id_seq (client w) < 65536 ->
  (forall c, c = set_ids (client w) (next_id (pkt_id_seq (client w))) (inpub_pkt_id (client w)) -> Q (next_id (pkt_id_seq (client w))) (mk_world c (trace w) (fifo w) (arrivals w))) ->
  wp msg_generate_packet_id w Q.
Proof.
  intros Hs HQ. unfold msg_generate_packet_id. wp_bind. apply wp_get_client. cbv zeta.
  replace (if u16 (pkt_id_seq (client w) + 1) =? 0 then u16 (u16 (pkt_id_seq (client w) + 1) + 1) else u16 (pkt_id_seq (client w) + 1)) with (next_id (pkt_id_seq (client w))).
  - wp_bind. apply wp_put_client. wp_ret. by apply HQ.
  - unfold next_id. destruct (Z.ltb_spec (pkt_id_seq (client w) + 1) 65536).
    + rewrite u16_small by lia. by rewrite (proj2 (Z.eqb_neq _ _)) by lia.
    + by replace (pkt_id_seq (client w)) with 65535 by lia.
Qed.

(** The body of the packets; QoS 1 is asked for, whatever the caller says. *)
Definition subscribe_body (id : Z) (topic : list Z) (sub : bool) : list Z := be16 id ++ mqtt_string topic ++ if sub then [1] else [].
Definition subscribe_packet (id : Z) (topic : list Z) (sub : bool) : list Z := mqtt_packet (if sub then 0x82 else 0xa2) (subscribe_body id topic sub).

Lemma subscribe_size id topic sub : Zlen (subscribe_body id topic sub) = Zlen topic + 4 + (if sub then 1 else 0).
Proof. unfold subscribe_body. rewrite !Zlen_app, mqtt_string_size. change (Zlen (be16 id)) with 2. destruct sub; [change (Zlen [1]) with 1|change (Zlen (@nil Z)) with 0]; lia. Qed.

Lemma subscribe_packet_size id topic sub : Zlen topic < 65000 ->
  Zlen (subscribe_packet id topic sub) = 1 + Zlen (length_field 3 (Zlen (subscribe_body id topic sub))) + Zlen (subscribe_body id topic sub).
Proof. intros. apply packet_size. rewrite subscribe_size. destruct sub; lia. Qed.

Lemma ring_cleared l : Zlen l = 256 -> ring (mk_ringbuf 0 0 (repeat 0 252 ++ drop 252 l)) [].
Proof. intros Hl. split; [done|done|]. exists (repeat 0 252 ++ drop 252 l). split; [done|]. unfold MQTT_OUTPUT_RINGBUF_SIZE. rewrite Zlen_app. unfold Zlen in *. rewrite length_drop, repeat_length. change (Z.of_nat (length (@nil Z))) with 0. lia. Qed.

Lemma ring_size rb bs : ring rb bs -> Zlen (buf rb) = 256.
Proof. intros [_ _ (rest & -> & H)]. by rewrite Zlen_app. Qed.

Lemma appends_subscribe id topic sub : bytes topic -> Zlen topic < 65000 ->
  appends (subscribe_message id topic (Zlen topic) (Zlen (subscribe_body id topic sub)) sub) (subscribe_packet id topic sub).
Proof.
  intros Ht Hl. pose proof (Zlen_nonneg topic). pose proof (subscribe_size id topic sub) as Hs. unfold subscribe_packet, mqtt_packet. rewrite (length_field_more 2) by (change (128 ^ Z.of_nat 3) with 2097152; destruct sub; lia).
  eapply appends_eq.
  - apply appends_bind; [apply appends_fixed_header; unfold MQTT_MSG_TYPE_SUBSCRIBE, MQTT_MSG_TYPE_UNSUBSCRIBE; destruct sub; lia|]. apply appends_bind; [apply appends_u16|].
    apply appends_bind; [by apply appends_string|].
    instantiate (1 := if sub then [1] else []). destruct sub; [apply appends_u8|apply appends_nil].
  - unfold subscribe_body. rewrite <-app_comm_cons. by destruct sub.
Qed.

Lemma wp_sub_unsub junk topic qos f a sub w bs q d :
  client_ok (client w) bs q d -> bytes topic -> Zlen topic < 65000 -> 0 <= pkt_id_seq (client w) < 65536 ->
  let id := next_id (pkt_id_seq (client w)) in
  Zlen (subscribe_packet id topic sub) <= MQTT_OUTPUT_RINGBUF_SIZE ->
  wp (mqtt_sub_unsub junk topic qos f a sub) w (fun r w' =>
    let connected := negb (conn_state (client w) =? TCP_DISCONNECTED) in
    let sent := connected && junk in
    exists c, w' = emits (mk_world c (trace w) (fifo w) (arrivals w))
        (if sent then cipsend_write (take (Z.to_nat (Zlen (subscribe_body id topic sub) + 2)) (subscribe_packet id topic sub)) else []) /\
      r = (if sent then ERR_OK else if connected then ERR_MEM else ERR_CONN) /\
      client_ok c (if sent then subscribe_packet id topic sub else []) q d /\
      conn_state c = conn_state (client w) /\ pkt_id_seq c = if connected then id else pkt_id_seq (client w)).
Proof.
  intros Hok Ht Hl Hseq id Hfit. pose proof (Zlen_nonneg topic) as Hnn. pose proof (subscribe_size id topic sub) as Hbody.
  rewrite subscribe_packet_size in Hfit by done.
  assert (u16 (u16 (Zlen topic) + 2 + 2 + (if sub then 1 else 0)) = Zlen (subscribe_body id topic sub)) as Hrem by (rewrite (u16_small (Zlen topic)) by lia; rewrite u16_small; destruct sub; lia).
  unfold mqtt_sub_unsub. cbv zeta. wp_bind. apply wp_modify. rewrite Hrem, (u16_small (Zlen topic)) by lia. wp_bind. apply wp_get_client. cbn [client set_output conn_state].
  pose proof (ring_cleared _ (ring_size _ _ (ok_ring _ _ _ _ Hok))) as Hring.
  set (rb0 := mk_ringbuf 0 0 (repeat 0 252 ++ drop 252 (buf (output (client w))))) in *.
  assert (client_ok (set_output (client w) rb0) [] q d) as Hok0 by (destruct Hok as [_ [] ? ? ?]; by split; [| |done..]).
  destruct (conn_state (client w) =? TCP_DISCONNECTED) eqn:Hst; cbn [negb andb].
  { wp_ret. exists (set_output (client w) rb0). split; [unfold emits; cbn; by rewrite app_nil_r|done]. }
  wp_bind. apply wp_generate_packet_id; [done|]. cbn [client set_output pkt_id_seq inpub_pkt_id trace fifo arrivals]. fold id. intros c ->.
  destruct junk; cbn [negb].
  2:{ wp_ret. eexists. split; [unfold emits; cbn; rewrite app_nil_r; reflexivity|]. split; [done|]. split; [|done]. destruct Hok0 as [? [] ? ? ?]; by split. }
  wp_bind. apply wp_get_client. cbn [client set_ids set_output output]. rewrite (check_space _ _ _ Hring) by (destruct sub; lia).
  change (Zlen (@nil Z)) with 0. rewrite (proj2 (Z.leb_le _ _)) by lia. cbn [negb].
  wp_bind. eapply (appends_subscribe id topic sub Ht Hl _ []); [exact Hring|rewrite subscribe_packet_size by done; change (Zlen (@nil Z)) with 0; lia|].
  intros rb Hrb. cbn [app] in Hrb. wp_bind. apply wp_get_client. wp_bind. cbn [client set_out set_output output].
  eapply wp_of_opt; [apply (ring_read _ _ _ Hrb); rewrite subscribe_packet_size by done; rewrite length_field_size by (destruct sub; lia); repeat case_match; lia|].
  wp_bind. apply wp_rt_ESP32_write.
  { eapply Z.le_lt_trans; [apply Zlen_take_le; destruct sub; lia|]. destruct sub; lia. }
  match goal with |- wp _ (emits ?w0 ?es0) _ => wp_ret; exists (client w0) end.
  split; [done|]. split; [done|]. split; [|done]. destruct Hok0 as [? [] ? ? ?]; by split.
Qed.

(** Mqtt_sub_unsub empties the output buffer; while the client is not disconnected
    and the pointer that nothing sets happens not to be null, the SUBSCRIBE (or
    UNSUBSCRIBE) packet of MQTT 3.1.1 with the next identifier is sent, asking for QoS 1,
    and no request is recorded for the answer; with a null pointer nothing is sent.  The
    packet must fit into the output buffer: the code for the other case deletes the
    request that does not exist. *)
Theorem mqtt_sub_unsub_sends junk topic qos f a sub w bs q d :
  client_ok (client w) bs q d -> bytes topic -> Zlen topic < 65000 -> 0 <= pkt_id_seq (client w) < 65536 ->
  let id := next_id (pkt_id_seq (client w)) in
  Zlen (subscribe_packet id topic sub) <= MQTT_OUTPUT_RINGBUF_SIZE ->
  wp (mqtt_sub_unsub junk topic qos f a sub) w (fun r w' =>
    let connected := negb (conn_state (client w) =? TCP_DISCONNECTED) in
    let sent := connected && junk in
    exists c, w' = emits (mk_world c (trace w) (fifo w) (arrivals w))
        (if sent then cipsend_write (take (Z.to_nat (Zlen (subscribe_body id topic sub) + 2)) (subscribe_packet id topic sub)) else []) /\
      r = (if sent then ERR_OK else if connected then ERR_MEM else ERR_CONN) /\
      client_ok c (if sent then subscribe_packet id topic sub else []) q d /\
      conn_state c = conn_state (client w) /\ pkt_id_seq c = if connected then id else pkt_id_seq (client w)).
Proof. exact (wp_sub_unsub junk topic qos f a sub w bs q d). Qed.

Lemma fresh_ok st : client_ok (set_conn_state fresh_client st) [] [] [].
Proof. pose proof fresh_holds as []. split; [apply ring_zero|by split|done|apply bytes_zero|done]. Qed.

Lemma mqtt_sub_unsub_sends_witness :
  wp (mqtt_sub_unsub true [36; 116] 0 None 0 true) (mk_world (set_conn_state fresh_client MQTT_CONNECTED) [] [] []) (fun r w =>
    exists c, w = emits (mk_world c [] [] []) (cipsend_write [0x82; 7; 0; 1; 0; 2; 36; 116; 1]) /\ r = ERR_OK /\
      client_ok c [0x82; 7; 0; 1; 0; 2; 36; 116; 1] [] [] /\ conn_state c = MQTT_CONNECTED /\ pkt_id_seq c = 1).
Proof.
  apply (mqtt_sub_unsub_sends true [36; 116] 0 None 0 true (mk_world (set_conn_state fresh_client MQTT_CONNECTED) [] [] []) [] [] []);
    [apply fresh_ok|repeat constructor; lia|done|done|done].
Defined.

(** ** Answers *)

Definition ack_packet (msg id qos : Z) : list Z := [control_byte msg 0 qos 0; 2; u8 (Z.shiftr id 8); u8 id].

(** The whole buffer is sent, with what was sent before. *)
Lemma wp_pub_ack msg id qos w bs Q : 0 <= msg < 16 -> 0 <= qos < 4 -> ring (output (client w)) bs ->
  (forall rb, Zlen bs + 4 <= MQTT_OUTPUT_RINGBUF_SIZE -> ring rb (bs ++ ack_packet msg id qos) -> Q ERR_OK (emits (set_out w rb) [Device_write (bs ++ ack_packet msg id qos)])) ->
  (MQTT_OUTPUT_RINGBUF_SIZE < Zlen bs + 4 -> Q ERR_MEM w) ->
  wp (pub_ack_rec_rel_response msg id qos) w Q.
Proof.
  intros Hm Hq Hring Hok Hfull. unfold pub_ack_rec_rel_response. wp_bind. apply wp_get_client. rewrite (check_space _ _ _ Hring) by lia.
  change (Zlen (length_field 3 2)) with 1. destruct (Z.leb_spec (Zlen bs + 1 + 1 + 2) MQTT_OUTPUT_RINGBUF_SIZE); [|wp_ret; apply Hfull; lia].
  assert (appends (mqtt_output_append_fixed_header msg 0 qos 0 2) [control_byte msg 0 qos 0; 2]) as Hh by (apply appends_fixed_header; lia).
  wp_bind. eapply (Hh _ bs); [done|change (Zlen [_; _]) with 2; lia|]. intros rb Hrb. wp_bind.
  eapply (appends_u16 id _ (bs ++ [control_byte msg 0 qos 0; 2])); [exact Hrb|rewrite Zlen_app; change (Zlen [_; _]) with 2; change (Zlen (be16 id)) with 2; lia|].
  intros rb' Hrb'. rewrite <-(assoc_L (++)) in Hrb'. unfold mqtt_output_send. wp_bind. apply wp_get_client. wp_bind. cbn [client set_out set_output output].
  eapply wp_of_opt; [apply (ring_read _ _ _ Hrb'); rewrite (ring_len _ _ Hrb'); split; [apply Zlen_nonneg|lia]|]. rewrite (ring_len _ _ Hrb').
  pose proof (take_Zlen (bs ++ ack_packet msg id qos) []) as Ht. rewrite app_nil_r in Ht. change (bs ++ [control_byte msg 0 qos 0; 2] ++ be16 id) with (bs ++ ack_packet msg id qos) in *. rewrite Ht.
  eapply wp_run; [reflexivity|]. cbv beta. wp_ret. apply Hok; [lia|done].
Qed.

(** ** Publications *)

(** A string in a buffer ends before a NUL in it. *)
Definition until_nul (l : list Z) : list Z := default [] (cstr_list (l ++ [0])).

Lemma until_nul_app l b : cstr_list (l ++ 0 :: b) = Some (until_nul l).
Proof.
  unfold until_nul. induction l as [|x l IH]; [done|]. cbn. destruct (x =? 0); [done|]. rewrite IH. destruct (cstr_list (l ++ [0])) as [s|] eqn:Hl; [done|].
  exfalso. clear IH. induction l as [|y l IH']; [done|]. cbn in Hl. destruct (y =? 0); [done|]. apply IH'. by destruct (cstr_list (l ++ [0])).
Qed.

Lemma until_nul_id l : nonzero l -> until_nul l = l.
Proof. intros H. unfold until_nul. by rewrite (cstr_list_app _ [] H). Qed.

Definition publish_event c (topic : list Z) (tot : Z) : list client_event :=
  match pub_cb c with None => [] | Some fn => [Publish_callback fn (inpub_arg c) topic tot] end.

Lemma wp_rx w i x Q : get_at (rx_buffer (client w)) i = Some x -> Q x w -> wp (rx i) w Q.
Proof. intros Hx HQ. unfold rx. wp_bind. apply wp_get_client. by eapply wp_of_opt. Qed.

Lemma wp_set_rx w i x b Q : set_at (rx_buffer (client w)) i x = Some b -> Q tt (mk_world (set_rx_buffer (client w) b) (trace w) (fifo w) (arrivals w)) -> wp (set_rx i x) w Q.
Proof. intros Hx HQ. unfold set_rx. wp_bind. apply wp_get_client. wp_bind. eapply wp_of_opt; [exact Hx|]. by apply wp_put_client. Qed.

(** The byte after the topic is put back. *)
Lemma wp_call_publish w a tp x y t n tot Q : rx_buffer (client w) = a ++ tp ++ x :: y -> Zlen a = t -> Zlen tp = n ->
  Q tt (emits w (publish_event (client w) (until_nul tp) tot)) -> wp (call_publish t n tot) w Q.
Proof.
  intros Hrx Ht Hn HQ. unfold call_publish. wp_bind. eapply wp_rx; [rewrite Hrx, (assoc_L (++)); apply get_at_mid; rewrite Zlen_app; lia|].
  wp_bind. eapply wp_set_rx; [rewrite Hrx, (assoc_L (++)); apply set_at_mid; rewrite Zlen_app; lia|]. wp_bind. apply wp_get_client. cbn [client set_rx_buffer rx_buffer pub_cb inpub_arg].
  wp_bind. eapply (wp_mono _ _ (fun _ w' => w' = emits (mk_world (set_rx_buffer (client w) ((a ++ tp) ++ 0 :: y)) (trace w) (fifo w) (arrivals w)) (publish_event (client w) (until_nul tp) tot))).
  - unfold publish_event. destruct (pub_cb (client w)) as [fn|]; [|wp_ret; unfold emits; cbn; by rewrite app_nil_r]. wp_bind. eapply wp_of_opt.
    + unfold cstr_from. rewrite <-(assoc_L (++)), Zlen_app. pose proof (Zlen_nonneg a). pose proof (Zlen_nonneg (tp ++ 0 :: y)).
      rewrite (proj2 (Z.leb_le 0 t)), (proj2 (Z.leb_le t _)) by lia. rewrite <-Ht, drop_Zlen. apply until_nul_app.
    + eapply wp_run; [reflexivity|]. done.
  - intros [] w' ->. eapply wp_set_rx; [cbn [client set_rx_buffer rx_buffer emits]; apply set_at_mid; rewrite Zlen_app; lia|].
    unfold emits in *. cbn [client trace fifo arrivals]. replace (set_rx_buffer (set_rx_buffer (client w) ((a ++ tp) ++ 0 :: y)) ((a ++ tp) ++ x :: y)) with (client w); [done|].
    replace ((a ++ tp) ++ x :: y) with (rx_buffer (client w)) by (by rewrite Hrx, (assoc_L (++))). by destruct (client w).
Qed.

(** The variable header, when it fits: [y] is what follows the topic. *)
Definition publish_id (qos : Z) (y : list Z) : Z := if 0 <? qos then default 0 (y !! 0%nat) * 256 + default 0 (y !! 1%nat) else 0.

Definition with_inpub w id : world := mk_world (set_ids (client w) (pkt_id_seq (client w)) id) (trace w) (fifo w) (arrivals w).

Lemma wp_publish_fits w a b0 b1 tp y h length rem qos Q : rx_buffer (client w) = a ++ b0 :: b1 :: tp ++ y -> bytes (rx_buffer (client w)) -> Zlen a = h -> Zlen tp = b0 * 256 + b1 ->
  let idn := if 0 <? qos then 2 else 0 in
  0 <= qos < 4 -> 2 + Zlen tp + (if 0 <? qos then 2 else 1) <= length < 65536 -> h + length <= Zlen (rx_buffer (client w)) ->
  let off := 2 + Zlen tp + idn in
  Q (Some off) (emits (with_inpub w (publish_id qos y)) (publish_event (client w) (until_nul tp) (u32 (rem + (length - off))))) ->
  wp (incoming_header h length rem qos) w Q.
Proof.
  intros Hrx Hb Ha Htp idn Hq Hlen Hmax off HQ. rewrite Hrx in Hmax, Hb. rewrite Zlen_app, !Zlen_cons, Zlen_app in Hmax. pose proof (Zlen_nonneg tp).
  apply Forall_app in Hb as [_ Hb]. apply Forall_cons in Hb as [Hb0 Hb]. apply Forall_cons in Hb as [Hb1 Hb]. apply Forall_app in Hb as [_ Hy].
  assert (u16 (Z.shiftl b0 8 + b1) = Zlen tp) as Htl by (rewrite Z.shiftl_mul_pow2 by done; change (2 ^ 8) with 256; rewrite u16_small; lia).
  unfold incoming_header. wp_bind. eapply wp_rx; [rewrite Hrx; by apply get_at_mid|]. wp_bind.
  eapply wp_rx; [rewrite Hrx, (cons_middle b0), (assoc_L (++)); apply get_at_mid; rewrite Zlen_app; change (Zlen [b0]) with 1; lia|]. cbv zeta. rewrite Htl.
  assert (rx_buffer (client w) = (a ++ [b0; b1]) ++ tp ++ y) as Hrx' by (by rewrite Hrx, <-(assoc_L (++))).
  assert (Zlen (a ++ [b0; b1]) = h + 2) as Ha' by (rewrite Zlen_app; change (Zlen [b0; b1]) with 2; lia).
  unfold publish_id in HQ. unfold off, idn in HQ. clear off idn. destruct (Z.ltb_spec 0 qos) as [Hq0|Hq0].
  - rewrite (proj2 (Z.eqb_neq qos 0)) by lia. cbn [negb]. rewrite (u16_small (2 + Zlen tp)) by lia. rewrite (proj2 (Z.ltb_ge _ _)) by lia.
    destruct y as [|i0 [|i1 y]]; [change (Zlen (@nil Z)) with 0 in Hmax; lia|change (Zlen [i0]) with 1 in Hmax; lia|].
    apply Forall_cons in Hy as [Hi0 Hy]. apply Forall_cons in Hy as [Hi1 _].
    wp_bind. eapply wp_rx; [rewrite Hrx', (assoc_L (++)); apply get_at_mid; rewrite Zlen_app; lia|]. wp_bind.
    eapply wp_rx; [rewrite Hrx', (cons_middle i0), !(assoc_L (++)); apply get_at_mid; rewrite !Zlen_app; change (Zlen [i0]) with 1; rewrite <-Zlen_app; lia|].
    unfold set_inpub_pkt_id at 1. apply wp_modify. rewrite Z.shiftl_mul_pow2 by done. change (2 ^ 8) with 256. rewrite (u16_small (i0 * 256 + i1)) by lia.
    wp_bind. rewrite (u16_small (2 + Zlen tp + 2)) by lia. rewrite (u16_small (length - _)) by lia.
    eapply wp_call_publish; [exact Hrx'|lia|done|]. wp_ret. exact HQ.
  - rewrite (proj2 (Z.eqb_eq qos 0)) by lia. cbn [negb]. rewrite (u16_small (2 + Zlen tp)) by lia. rewrite (proj2 (Z.ltb_ge _ _)) by lia.
    destruct y as [|x y]; [change (Zlen (@nil Z)) with 0 in Hmax; lia|].
    wp_bind. unfold set_inpub_pkt_id at 1. apply wp_modify.
    wp_bind. rewrite (u16_small (length - _)) by lia. rewrite Z.add_0_r in HQ.
    eapply wp_call_publish; [exact Hrx'|lia|done|]. wp_ret. exact HQ.
Qed.

Lemma wp_publish_long w b0 b1 h length rem qos Q : get_at (rx_buffer (client w)) h = Some b0 -> get_at (rx_buffer (client w)) (h + 1) = Some b1 ->
  0 <= b0 < 256 -> 0 <= b1 < 256 -> length < u16 (2 + (b0 * 256 + b1)) + (if 0 <? qos then 2 else 1) -> 0 <= qos -> Q None w -> wp (incoming_header h length rem qos) w Q.
Proof.
  intros H0 H1 ? ? Hlong Hq HQ. unfold incoming_header. wp_bind. eapply wp_rx; [exact H0|]. wp_bind. eapply wp_rx; [exact H1|]. cbv zeta.
  rewrite Z.shiftl_mul_pow2 by done. change (2 ^ 8) with 256. rewrite (u16_small (b0 * 256 + b1)) by lia.
  rewrite (proj2 (Z.ltb_lt _ _)); [by wp_ret|]. destruct (Z.ltb_spec 0 qos); [rewrite (proj2 (Z.eqb_neq qos 0)) by lia|rewrite (proj2 (Z.eqb_eq qos 0)) by lia]; cbn [negb]; lia.
Qed.

(** The answer, when there is room for it. *)
Definition acked (bs : list Z) msg id qos w w' : Prop :=
  if Zlen bs + 4 <=? MQTT_OUTPUT_RINGBUF_SIZE
  then exists rb, ring rb (bs ++ ack_packet msg id qos) /\ w' = emits (set_out w rb) [Device_write (bs ++ ack_packet msg id qos)]
  else w' = w.

Lemma wp_acked w bs msg id qos : 0 <= msg < 16 -> 0 <= qos < 4 -> ring (output (client w)) bs ->
  wp (pub_ack_rec_rel_response msg id qos) w (fun _ w' => acked bs msg id qos w w').
Proof.
  intros Hm Hq Hring. unfold acked. eapply (wp_pub_ack _ _ _ _ bs); [done|done|done| |].
  - intros rb Hsp Hrb. rewrite (proj2 (Z.leb_le _ _)) by lia. by exists rb.
  - intros Hsp. by rewrite (proj2 (Z.leb_gt _ _)) by lia.
Qed.

Definition publish_ack (qos : Z) : Z := if qos =? 1 then MQTT_MSG_TYPE_PUBACK else MQTT_MSG_TYPE_PUBREC.

Lemma wp_payload w bs fn data h length rem qos off n : length - off = n -> ring (output (client w)) bs -> data_cb (client w) = Some fn -> 0 <= n < 65536 ->
  read_at (rx_buffer (client w)) (h + off) n = Some data ->
  wp (publish_payload h length rem qos off) w (fun _ w' =>
    if (0 <? n) || (rem =? 0) then
      let w1 := emits w [Data_callback fn (inpub_arg (client w)) data n (if rem =? 0 then MQTT_DATA_FLAG_LAST else 0)] in
      if (rem =? 0) && (0 <? qos) then acked bs (publish_ack qos) (inpub_pkt_id (client w)) 0 w1 w' else w' = w1
    else w' = w).
Proof.
  intros Hn Hring Hfn Hlen Hd. unfold publish_payload. cbv zeta. rewrite Hn, (u16_small n) by lia. destruct ((0 <? n) || (rem =? 0)); [|by wp_ret].
  wp_bind. apply wp_get_client. wp_bind. eapply wp_of_opt; [exact Hfn|]. wp_bind. eapply wp_of_opt; [exact Hd|]. wp_bind. eapply wp_run; [reflexivity|]. cbv beta.
  match goal with |- wp _ ?w1 _ => change w1 with (emits w [Data_callback fn (inpub_arg (client w)) data n (if rem =? 0 then MQTT_DATA_FLAG_LAST else 0)]) end.
  destruct ((rem =? 0) && (0 <? qos)); [|by wp_ret]. wp_bind. apply wp_get_client. wp_bind. cbn [client emits].
  eapply wp_mono; [apply (wp_acked _ bs); [unfold publish_ack, MQTT_MSG_TYPE_PUBACK, MQTT_MSG_TYPE_PUBREC; case_match; lia|done|exact Hring]|]. intros r w' Hw'. by wp_ret.
Qed.

Lemma halves v : 0 <= v < 65536 -> v = u8 (Z.shiftr v 8) * 256 + u8 v.
Proof. intros Hv. unfold u8. rewrite Z.shiftr_div_pow2 by done. change (2 ^ 8) with 256. rewrite (Z.mod_small (v / 256)) by (Z.div_mod_to_equations; lia). pose proof (Z.div_mod v 256). lia. Qed.

Lemma ctl_qos b : 0 <= b < 256 -> 0 <= MQTT_CTL_PACKET_QOS b < 4.
Proof. intros Hb. assert ((0 <=? MQTT_CTL_PACKET_QOS b) && (MQTT_CTL_PACKET_QOS b <? 4) = true) as H%andb_prop by (by apply (byte_forall_prop (fun b => (0 <=? MQTT_CTL_PACKET_QOS b) && (MQTT_CTL_PACKET_QOS b <? 4)))). lia. Qed.

(** The bytes of a PUBLISH packet after its length. *)
Definition publish_body (qos id : Z) (topic payload : list Z) : list Z := mqtt_string topic ++ (if 0 <? qos then be16 id else []) ++ payload.

(** A packet with QoS 0 needs a payload. *)
Lemma wp_publish_delivers w bs fn ctl len id topic payload rest : let qos := MQTT_CTL_PACKET_QOS ctl in
  rx_buffer (client w) = ctl :: len :: publish_body qos id topic payload ++ rest -> bytes (rx_buffer (client w)) -> ring (output (client w)) bs -> data_cb (client w) = Some fn ->
  MQTT_CTL_PACKET_TYPE ctl = MQTT_MSG_TYPE_PUBLISH -> nonzero topic -> 0 <= id < 65536 -> (qos = 0 -> payload <> []) -> Zlen (publish_body qos id topic payload) < 65536 ->
  msg_idx (client w) <= MQTT_VAR_HEADER_BUFFER_LEN ->
  wp (mqtt_message_received 2 (Zlen (publish_body qos id topic payload)) 0) w (fun r w' =>
    let w1 := emits (with_inpub w (if 0 <? qos then id else 0)) (publish_event (client w) topic (Zlen payload) ++ [Data_callback fn (inpub_arg (client w)) payload (Zlen payload) MQTT_DATA_FLAG_LAST]) in
    r = MQTT_CONNECT_ACCEPTED /\ if 0 <? qos then acked bs (publish_ack qos) id 0 w1 w' else w' = w1).
Proof.
  intros qos Hrx Hb Hring Hfn Htype Hnz Hid Hp Hsize Hidx. pose proof (Zlen_nonneg topic) as Hnt. pose proof (Zlen_nonneg payload) as Hnp.
  assert (0 <= qos < 4) as Hq by (apply ctl_qos; rewrite Hrx in Hb; by apply Forall_cons in Hb as [? _]).
  set (y := (if 0 <? qos then be16 id else []) ++ payload ++ rest).
  assert (rx_buffer (client w) = [ctl; len] ++ u8 (Z.shiftr (Zlen topic) 8) :: u8 (Zlen topic) :: topic ++ y) as Hrx'.
  { rewrite Hrx. unfold publish_body, mqtt_string, y. by rewrite <-!(assoc_L (++)). }
  assert (Zlen (publish_body qos id topic payload) = 2 + Zlen topic + (if 0 <? qos then 2 else 0) + Zlen payload) as Hbody.
  { unfold publish_body. rewrite !Zlen_app, mqtt_string_size. destruct (0 <? qos); [change (Zlen (be16 id)) with 2|change (Zlen (@nil Z)) with 0]; lia. }
  assert (Zlen topic = u8 (Z.shiftr (Zlen topic) 8) * 256 + u8 (Zlen topic)) as Htl.
  { apply halves. destruct (0 <? qos); lia. }
  unfold mqtt_message_received. wp_bind. eapply wp_rx; [by rewrite Hrx|]. rewrite Htype. cbn [Z.eqb Pos.eqb MQTT_MSG_TYPE_PUBLISH MQTT_MSG_TYPE_CONNACK MQTT_MSG_TYPE_PINGRESP].
  unfold publish_received. wp_bind. eapply wp_rx; [by rewrite Hrx|]. fold qos. wp_bind. apply wp_get_client. rewrite (proj2 (Z.leb_le _ _)) by done. wp_bind.
  eapply (wp_publish_fits _ _ _ _ _ _ 2 _ _ _ _ Hrx' Hb); [done|exact Htl|exact Hq| | |].
  { rewrite Hbody in Hsize |- *. split; [|lia]. destruct (Z.ltb_spec 0 qos); [lia|]. destruct payload as [|x payload]; [by destruct Hp; [lia|]|]. rewrite Zlen_cons. pose proof (Zlen_nonneg payload). lia. }
  { rewrite Hrx. change (ctl :: len :: ?l) with ([ctl; len] ++ l). rewrite !Zlen_app. change (Zlen [ctl; len]) with 2. pose proof (Zlen_nonneg rest). lia. }
  cbv zeta. replace (publish_id qos y) with (if 0 <? qos then id else 0).
  2:{ unfold publish_id, y. destruct (0 <? qos); [|done]. cbn. by apply halves. }
  rewrite until_nul_id by done. rewrite Hbody. replace (2 + Zlen topic + (if 0 <? qos then 2 else 0) + Zlen payload - (2 + Zlen topic + (if 0 <? qos then 2 else 0))) with (Zlen payload) by lia.
  assert (0 <= (if 0 <? qos then 2 else 0) <= 2) by (by destruct (0 <? qos)). rewrite Hbody in Hsize. rewrite u32_small by lia. cbn beta iota. wp_bind. eapply wp_mono.
  - eapply (wp_payload _ bs fn payload _ _ _ _ _ (Zlen payload)); [lia|exact Hring|exact Hfn|lia|].
    cbn [client with_inpub emits rx_buffer set_ids]. rewrite Hrx. unfold publish_body.
    change (ctl :: len :: ?l) with ([ctl; len] ++ l). replace ([ctl; len] ++ (mqtt_string topic ++ (if 0 <? qos then be16 id else []) ++ payload) ++ rest)
      with (([ctl; len] ++ mqtt_string topic ++ if 0 <? qos then be16 id else []) ++ payload ++ rest) by (by rewrite <-!(assoc_L (++))).
    apply read_at_mid; [|lia]. rewrite !Zlen_app, mqtt_string_size. change (Zlen [ctl; len]) with 2. destruct (0 <? qos); [change (Zlen (be16 id)) with 2|change (Zlen (@nil Z)) with 0]; lia.
  - cbv beta. intros [] w' Hw'. wp_ret. split; [done|]. change (0 =? 0) with true in Hw'. rewrite orb_true_r in Hw'. cbn [andb Z.add] in Hw'. unfold emits in Hw' |- *. cbn [client trace fifo arrivals with_inpub] in Hw' |- *.
    rewrite <-!(assoc_L (++)) in Hw'. by destruct (0 <? qos).
Qed.


(** Without a payload the payload callback is called, too, with the length 0, although
    mqtt.h says that it is not. *)
Theorem empty_publication_calls_data w bs fn ctl len id topic rest : let qos := MQTT_CTL_PACKET_QOS ctl in
  rx_buffer (client w) = ctl :: len :: publish_body qos id topic [] ++ rest -> bytes (rx_buffer (client w)) -> ring (output (client w)) bs -> data_cb (client w) = Some fn ->
  MQTT_CTL_PACKET_TYPE ctl = MQTT_MSG_TYPE_PUBLISH -> 0 < qos -> nonzero topic -> 0 <= id < 65536 -> Zlen (publish_body qos id topic []) < 65536 ->
  msg_idx (client w) <= MQTT_VAR_HEADER_BUFFER_LEN ->
  wp (mqtt_message_received 2 (Zlen (publish_body qos id topic [])) 0) w (fun r w' => r = MQTT_CONNECT_ACCEPTED /\
    exists es, trace w' = trace w ++ publish_event (client w) topic 0 ++ [Data_callback fn (inpub_arg (client w)) [] 0 MQTT_DATA_FLAG_LAST] ++ es).
Proof.
  intros qos Hrx Hb Hring Hfn Htype Hq Hnz Hid Hsize Hidx.
  eapply wp_mono; [apply (wp_publish_delivers w bs fn ctl len id topic [] rest); try done; unfold qos in Hq; lia|].
  cbv beta zeta. fold qos. rewrite (proj2 (Z.ltb_lt 0 qos)) by done. intros r w' [Hr Ha]. split; [done|]. unfold acked in Ha.
  destruct (Zlen bs + 4 <=? MQTT_OUTPUT_RINGBUF_SIZE); [destruct Ha as (rb & _ & ->)|subst w'].
  - eexists. unfold emits, set_out. cbn [trace]. rewrite <-!(assoc_L (++)). reflexivity.
  - exists []. by rewrite app_nil_r.
Qed.

(** The QoS 3, which the standard forbids, is taken for the QoS 2. *)
Theorem reserved_qos_answered w bs fn ctl len id topic payload rest : MQTT_CTL_PACKET_QOS ctl = 3 ->
  rx_buffer (client w) = ctl :: len :: publish_body 3 id topic payload ++ rest -> bytes (rx_buffer (client w)) -> ring (output (client w)) bs -> data_cb (client w) = Some fn ->
  MQTT_CTL_PACKET_TYPE ctl = MQTT_MSG_TYPE_PUBLISH -> nonzero topic -> 0 <= id < 65536 -> Zlen (publish_body 3 id topic payload) < 65536 ->
  msg_idx (client w) <= MQTT_VAR_HEADER_BUFFER_LEN ->
  wp (mqtt_message_received 2 (Zlen (publish_body 3 id topic payload)) 0) w (fun r w' => r = MQTT_CONNECT_ACCEPTED /\
    acked bs MQTT_MSG_TYPE_PUBREC id 0 (emits (with_inpub w id) (publish_event (client w) topic (Zlen payload) ++
      [Data_callback fn (inpub_arg (client w)) payload (Zlen payload) MQTT_DATA_FLAG_LAST])) w').
Proof.
  intros Hq Hrx Hb Hring Hfn Htype Hnz Hid Hsize Hidx. pose proof (wp_publish_delivers w bs fn ctl len id topic payload rest) as H.
  cbv zeta in H. rewrite Hq in H. apply H; try done.
Qed.

(** A publication with QoS 1 to the topic "t", with a second one in front of it in the
    output: both answers are sent. *)
Definition publishing_client : mqtt_client_t :=
  set_rx_buffer (set_output (set_inpub (set_conn_state fresh_client MQTT_CONNECTED) 5 (Some 8) (Some 7)) (mk_ringbuf 4 0 ([64; 2; 0; 8] ++ repeat 0 252)))
    ([0x32; 7; 0; 1; 116; 0; 9; 104; 105] ++ repeat 0 119).


(** ** Answers to requests *)

Lemma take_pending_none id (q : list (nat * pending)) : find_queued id q = None -> take_pending id (map snd q) = None.
Proof. intros H. by rewrite find_queued_pending, H. Qed.

(** The callback's argument. *)
Definition answer_error (pkt_type code : Z) : Z := if pkt_type =? MQTT_MSG_TYPE_SUBACK then if code <? 3 then ERR_OK else ERR_ABRT else ERR_OK.

Lemma wp_response w q d h length id pkt_type code : holds (client w) q d -> get_at (rx_buffer (client w)) (h + 2) = Some code ->
  wp (response_received pkt_type h length id) w (fun r w' =>
    match take_pending id (map snd q) with
    | None => r = MQTT_CONNECT_ACCEPTED /\ w' = w
    | Some (p, rest) =>
        let lost := (pkt_type =? MQTT_MSG_TYPE_SUBACK) && (length <? 3) in
        r = (if lost then MQTT_CONNECT_DISCONNECTED else MQTT_CONNECT_ACCEPTED) /\
        exists hd rl q' n, w' = with_requests w hd rl (if lost then [] else calls (answer_error pkt_type code) p) /\ map snd q' = rest /\ holds (client w') q' (if lost then n :: d else d)
    end).
Proof.
  intros H Hcode. unfold response_received. wp_bind. eapply wp_take_request; [exact H| |].
  - intros q1 n p q2 hd rl x Hf H' Hx Hcb Ha. rewrite find_queued_pending, Hf. cbn [mbind option_bind snd]. wp_bind. eapply wp_get_request; [exact Hx|]. unfold answer_error.
    destruct (pkt_type =? MQTT_MSG_TYPE_SUBACK) eqn:Hs; cbn [andb].
    + destruct (length <? 3); [wp_ret; split; [done|]; by exists hd, rl, (q1 ++ q2), n|].
      wp_bind. eapply wp_rx; [exact Hcode|]. wp_bind. unfold mqtt_incomming_suback. eapply wp_call_request; [exact Hcb|exact Ha|]. rewrite with_requests_twice.
      wp_bind. eapply wp_delete_request; [exact H'|]. intros rl' H''. wp_ret. split; [done|]. rewrite with_requests_twice, app_nil_r in *. eexists _, rl', (q1 ++ q2), n. done.
    + wp_bind. eapply wp_call_request; [exact Hcb|exact Ha|]. rewrite with_requests_twice.
      wp_bind. eapply wp_delete_request; [exact H'|]. intros rl' H''. wp_ret. split; [done|]. rewrite with_requests_twice, app_nil_r in *. eexists _, rl', (q1 ++ q2), n. done.
  - intros Hf. rewrite (take_pending_none _ _ Hf). by wp_ret.
Qed.

Definition connect_event c (status : Z) : list client_event := match connect_cb c with None => [] | Some fn => [Connect_callback fn (connect_arg c) status] end.

(** What the message means: [b0] to [b2] are the bytes after its length. *)
Definition message_answered (bs : list Z) q d (pkt_type b0 b1 b2 length : Z) w (r : Z) w' : Prop :=
  if pkt_type =? MQTT_MSG_TYPE_CONNACK then
    if conn_state (client w) =? MQTT_CONNECTING then
      r = b1 /\ w' = (if b1 =? MQTT_CONNECT_ACCEPTED then emits (mk_world (set_conn_state (set_cyclic_tick (client w) 0) MQTT_CONNECTED) (trace w) (fifo w) (arrivals w)) (connect_event (client w) 0) else w)
    else r = MQTT_CONNECT_ACCEPTED /\ w' = w
  else if pkt_type =? MQTT_MSG_TYPE_PINGRESP then r = MQTT_CONNECT_ACCEPTED /\ w' = w
  else let id := b0 * 256 + b1 in
  if id =? 0 then r = MQTT_CONNECT_DISCONNECTED /\ w' = w
  else if pkt_type =? MQTT_MSG_TYPE_PUBREC then r = MQTT_CONNECT_ACCEPTED /\ acked bs MQTT_MSG_TYPE_PUBREL id 1 w w'
  else if pkt_type =? MQTT_MSG_TYPE_PUBREL then r = MQTT_CONNECT_ACCEPTED /\ w' = w
  else if bool_decide (pkt_type ∈ [MQTT_MSG_TYPE_SUBACK; MQTT_MSG_TYPE_UNSUBACK; MQTT_MSG_TYPE_PUBCOMP; MQTT_MSG_TYPE_PUBACK]) then
    match take_pending id (map snd q) with
    | None => r = MQTT_CONNECT_ACCEPTED /\ w' = w
    | Some (p, rest) =>
        let lost := (pkt_type =? MQTT_MSG_TYPE_SUBACK) && (length <? 3) in
        r = (if lost then MQTT_CONNECT_DISCONNECTED else MQTT_CONNECT_ACCEPTED) /\
        exists hd rl q' n, w' = with_requests w hd rl (if lost then [] else calls (answer_error pkt_type b2) p) /\ map snd q' = rest /\ holds (client w') q' (if lost then n :: d else d)
    end
  else r = MQTT_CONNECT_DISCONNECTED /\ w' = w.

Lemma wp_message_answered w bs q d ctl len b0 b1 b2 rest length : let pkt_type := MQTT_CTL_PACKET_TYPE ctl in
  rx_buffer (client w) = ctl :: len :: b0 :: b1 :: b2 :: rest -> bytes (rx_buffer (client w)) -> ring (output (client w)) bs -> holds (client w) q d ->
  pkt_type <> MQTT_MSG_TYPE_PUBLISH ->
  wp (mqtt_message_received 2 length 0) w (message_answered bs q d pkt_type b0 b1 b2 length w).
Proof.
  intros pkt_type Hrx Hb Hring Hh Hpub. rewrite Hrx in Hb. apply Forall_cons in Hb as [_ Hb]. apply Forall_cons in Hb as [_ Hb].
  apply Forall_cons in Hb as [Hb0 Hb]. apply Forall_cons in Hb as [Hb1 _].
  assert (Z.lor (u16 (Z.shiftl b0 8)) b1 = b0 * 256 + b1) as Hid.
  { rewrite (u16_small (Z.shiftl b0 8)) by (rewrite Z.shiftl_mul_pow2 by done; change (2 ^ 8) with 256; lia). by rewrite lor_shiftl_add by (done || change (2 ^ 8) with 256; lia). }
  unfold mqtt_message_received, message_answered. wp_bind. eapply wp_rx; [by rewrite Hrx|]. fold pkt_type.
  destruct (pkt_type =? MQTT_MSG_TYPE_CONNACK).
  { unfold connack_received. wp_bind. apply wp_get_client. destruct (conn_state (client w) =? MQTT_CONNECTING); [|by wp_ret].
    wp_bind. eapply wp_rx; [by rewrite Hrx|]. destruct (Z.eqb_spec b1 MQTT_CONNECT_ACCEPTED) as [->|]; [|by wp_ret].
    wp_bind. apply wp_modify. wp_bind. unfold call_connect, connect_event, emits. wp_bind. apply wp_get_client. cbn [client set_conn_state set_cyclic_tick set_times connect_cb connect_arg].
    destruct (connect_cb (client w)); [eapply wp_run; [reflexivity|]; cbv beta; by wp_ret|wp_ret; by rewrite app_nil_r]. }
  destruct (pkt_type =? MQTT_MSG_TYPE_PINGRESP); [by wp_ret|]. rewrite (proj2 (Z.eqb_neq pkt_type MQTT_MSG_TYPE_PUBLISH)) by done.
  unfold answer_received. wp_bind. eapply wp_rx; [by rewrite Hrx|]. wp_bind. eapply wp_rx; [by rewrite Hrx|]. rewrite Hid. cbv zeta.
  destruct (b0 * 256 + b1 =? 0); [by wp_ret|].
  destruct (pkt_type =? MQTT_MSG_TYPE_PUBREC); [wp_bind; eapply wp_mono; [by apply (wp_acked _ bs)|]; intros r w' Hw'; by wp_ret|].
  destruct (pkt_type =? MQTT_MSG_TYPE_PUBREL); [by wp_ret|].
  assert ((pkt_type =? MQTT_MSG_TYPE_SUBACK) || (pkt_type =? MQTT_MSG_TYPE_UNSUBACK) || (pkt_type =? MQTT_MSG_TYPE_PUBCOMP) || (pkt_type =? MQTT_MSG_TYPE_PUBACK) =
    bool_decide (pkt_type ∈ [MQTT_MSG_TYPE_SUBACK; MQTT_MSG_TYPE_UNSUBACK; MQTT_MSG_TYPE_PUBCOMP; MQTT_MSG_TYPE_PUBACK])) as ->.
  { apply Bool.eq_iff_eq_true. rewrite !orb_true_iff, !Z.eqb_eq, bool_decide_eq_true. set_solver. }
  case_bool_decide; [|by wp_ret]. apply wp_response; [done|by rewrite Hrx].
Qed.

(** C28: a message that is neither a PUBLISH nor a PUBREL does what it means: an
    accepting CONNACK connects a client that is connecting and calls back, another one is
    the result; an answer without an identifier and a message that a server does not send
    are errors and change nothing; a PUBREC is answered with a PUBREL; the answer to a
    request that is pending removes it and calls its callback with the success, except
    that a SUBACK that is too short is an error after which the item of the request is
    lost.  (A PUBREL is not answered: pubrel_not_answered.) *)
Theorem mqtt_message_received_answers w bs q d ctl len b0 b1 b2 rest length : let pkt_type := MQTT_CTL_PACKET_TYPE ctl in
  rx_buffer (client w) = ctl :: len :: b0 :: b1 :: b2 :: rest -> bytes (rx_buffer (client w)) -> ring (output (client w)) bs -> holds (client w) q d ->
  pkt_type <> MQTT_MSG_TYPE_PUBLISH -> pkt_type <> MQTT_MSG_TYPE_PUBREL ->
  wp (mqtt_message_received 2 length 0) w (message_answered bs q d pkt_type b0 b1 b2 length w).
Proof. intros pkt_type Hrx Hb Hring Hh Hp _. by eapply wp_message_answered. Qed.

(** A PUBREL has no effect: the PUBCOMP that the standard asks for is not sent. *)
Theorem pubrel_not_answered w bs q d ctl len b0 b1 b2 rest length :
  rx_buffer (client w) = ctl :: len :: b0 :: b1 :: b2 :: rest -> bytes (rx_buffer (client w)) -> ring (output (client w)) bs -> holds (client w) q d ->
  MQTT_CTL_PACKET_TYPE ctl = MQTT_MSG_TYPE_PUBREL ->
  wp (mqtt_message_received 2 length 0) w (fun r w' => r = (if b0 * 256 + b1 =? 0 then MQTT_CONNECT_DISCONNECTED else MQTT_CONNECT_ACCEPTED) /\ w' = w).
Proof.
  intros Hrx Hb Hring Hh Htype. eapply wp_mono; [eapply wp_message_answered; [exact Hrx|done..|by rewrite Htype]|].
  rewrite Htype. unfold message_answered. cbv beta. intros r w'.
  cbn [Z.eqb Pos.eqb MQTT_MSG_TYPE_PUBREL MQTT_MSG_TYPE_CONNACK MQTT_MSG_TYPE_PINGRESP MQTT_MSG_TYPE_PUBREC]. by destruct (b0 * 256 + b1 =? 0).
Qed.

(** A SUBACK that refuses the second of two subscriptions. *)
Definition subscribing_client : mqtt_client_t :=
  set_rx_buffer (set_requests fresh_client (Some 0%nat) [mk_request (Some 1%nat) (Some 7) 1 1 20; mk_request None (Some 8) 2 2 10; mk_request (Some 2%nat) None 0 0 0; mk_request (Some 3%nat) None 0 0 0])
    ([0x90; 3; 0; 2; 0x80] ++ repeat 0 123).

Lemma mqtt_message_received_answers_witness :
  wp (mqtt_message_received 2 3 0) (mk_world subscribing_client [] [] [])
    (message_answered [] [(0%nat, mk_pending 1 (Some 7) 1 20); (1%nat, mk_pending 2 (Some 8) 2 30)] [] 9 0 2 0x80 3 (mk_world subscribing_client [] [] [])).
Proof.
  apply (mqtt_message_received_answers (mk_world subscribing_client [] [] []) [] [(0%nat, mk_pending 1 (Some 7) 1 20); (1%nat, mk_pending 2 (Some 8) 2 30)] [] 0x90 3 0 2 0x80 (repeat 0 123)); [done| |apply ring_zero| |done|done].
  - apply Forall_app. split; [repeat constructor; lia|apply bytes_zero].
  - split; [done|..].
    + cbn. split; [done|]. split; [done|]. eexists. do 5 (split; [done|]). cbn. split; [done|]. split; [done|]. eexists. by do 5 (split; [done|]).
    + cbn. repeat constructor; set_solver.
    + by intros n ?%elem_of_nil.
    + intros [|[|[|[|n]]]] x Hn; cbn; intros [= <-]; set_solver.
Defined.

(** ** What arrives is safe to take *)

Lemma acked_ok bs msg id qos w w' q d bs0 : client_ok (client w) bs q d -> acked bs msg id qos w w' -> bs0 = bs -> exists bs', client_ok (client w') bs' q d.
Proof.
  intros H Ha ->. unfold acked in Ha. case_match; [|subst; by exists bs]. destruct Ha as (rb & Hrb & ->). eexists. destruct H as [? [] ? ? ?]. split; [exact Hrb|by split|done..].
Qed.

Lemma message_answered_ok bs q d pkt_type b0 b1 b2 length w r w' : client_ok (client w) bs q d -> 0 <= b1 < 256 -> message_answered bs q d pkt_type b0 b1 b2 length w r w' ->
  0 <= r <= MQTT_CONNECT_DISCONNECTED /\ exists bs' q' d', client_ok (client w') bs' q' d'.
Proof.
  intros H Hb1. unfold message_answered, MQTT_CONNECT_ACCEPTED, MQTT_CONNECT_DISCONNECTED. assert (forall r, 0 <= r <= 256 -> 0 <= r <= 256 /\ exists bs' q' d', client_ok (client w) bs' q' d') as Hsame by eauto.
  destruct (pkt_type =? MQTT_MSG_TYPE_CONNACK).
  { destruct (conn_state (client w) =? MQTT_CONNECTING); intros [-> ->]; [|apply Hsame; lia]. destruct (b1 =? 0); [|apply Hsame; lia]. split; [lia|]. exists bs, q, d. destruct H as [? [] ? ? ?]. by split. }
  destruct (pkt_type =? MQTT_MSG_TYPE_PINGRESP); [intros [-> ->]; apply Hsame; lia|]. cbv zeta.
  destruct (b0 * 256 + b1 =? 0); [intros [-> ->]; apply Hsame; lia|].
  destruct (pkt_type =? MQTT_MSG_TYPE_PUBREC); [intros [-> Ha]; split; [lia|]; destruct (acked_ok _ _ _ _ _ _ _ _ _ H Ha eq_refl); eauto|].
  destruct (pkt_type =? MQTT_MSG_TYPE_PUBREL); [intros [-> ->]; apply Hsame; lia|].
  case_bool_decide; [|intros [-> ->]; apply Hsame; lia].
  destruct (take_pending (b0 * 256 + b1) (map snd q)) as [[p rest]|]; [|intros [-> ->]; apply Hsame; lia].
  intros (-> & hd & rl & q' & n & Hw & _ & Hh). split; [by case_match|]. eexists bs, q', _. destruct H as [? _ ? ? ?]. rewrite Hw in *. split; [done|exact Hh|done..].
Qed.

Lemma payload_ok w bs q d length rem qos off : client_ok (client w) bs q d -> is_Some (data_cb (client w)) -> 0 <= off <= length -> length <= 126 ->
  wp (publish_payload 2 length rem qos off) w (fun _ w' => exists bs' q' d', client_ok (client w') bs' q' d').
Proof.
  intros H [fn Hfn] Hoff Hl. destruct (read_at_Some (rx_buffer (client w)) (2 + off) (length - off)) as (data & Hd & _); [lia..|rewrite (ok_rx _ _ _ _ H); unfold MQTT_VAR_HEADER_BUFFER_LEN; lia|].
  eapply wp_mono; [apply (wp_payload _ bs fn data _ _ _ _ _ (length - off)); [done|apply H|done|lia|done]|]. cbv beta zeta. intros [] w'. repeat case_match; intros Ha.
  all: try (eapply acked_ok in Ha as [bs' Ha]; [by eauto|exact H|done]). all: subst w'; exists bs, q, d; exact H.
Qed.

(** When a PUBLISH packet can be taken: it is refused by the test of the length, or
    the topic and the payload are inside the buffer and the payload callback is set. *)
Definition publish_taken c (qos topic_len length : Z) : bool :=
  if msg_idx c <=? MQTT_VAR_HEADER_BUFFER_LEN then
    (length <? u16 (2 + topic_len) + (if 0 <? qos then 2 else 1)) || (topic_len <? 65534) && bool_decide (is_Some (data_cb c))
  else bool_decide (is_Some (data_cb c)).

Lemma publish_received_ok w bs q d ctl len b0 b1 y length rem : client_ok (client w) bs q d -> rx_buffer (client w) = ctl :: len :: b0 :: b1 :: y ->
  0 <= length <= 126 -> publish_taken (client w) (MQTT_CTL_PACKET_QOS ctl) (b0 * 256 + b1) length = true ->
  wp (publish_received 2 length rem) w (fun r w' => 0 <= r <= MQTT_CONNECT_DISCONNECTED /\ exists bs' q' d', client_ok (client w') bs' q' d').
Proof.
  intros H Hrx Hl Htaken. pose proof (ok_bytes _ _ _ _ H) as Hb. pose proof Hb as Hb'. rewrite Hrx in Hb'. apply Forall_cons in Hb' as [Hctl Hb']. apply Forall_cons in Hb' as [_ Hb'].
  apply Forall_cons in Hb' as [Hb0 Hb']. apply Forall_cons in Hb' as [Hb1 _]. pose proof (ok_rx _ _ _ _ H) as Hsize. unfold publish_taken, MQTT_VAR_HEADER_BUFFER_LEN, MQTT_CONNECT_DISCONNECTED, MQTT_CONNECT_ACCEPTED in *.
  unfold publish_received. wp_bind. eapply wp_rx; [by rewrite Hrx|]. pose proof (ctl_qos _ Hctl) as Hq. generalize dependent (MQTT_CTL_PACKET_QOS ctl). intros qos Htaken Hq.
  wp_bind. apply wp_get_client. unfold MQTT_VAR_HEADER_BUFFER_LEN. destruct (msg_idx (client w) <=? 128).
  - wp_bind. destruct (Z.ltb_spec length (u16 (2 + (b0 * 256 + b1)) + (if 0 <? qos then 2 else 1))) as [Hlong|Hfits].
    + eapply wp_publish_long; [by rewrite Hrx|by rewrite Hrx|lia..|]. wp_ret. split; [done|]. by exists bs, q, d.
    + cbn [orb] in Htaken. apply andb_true_iff in Htaken as [Htl%Z.ltb_lt Hfn%bool_decide_eq_true]. rewrite u16_small in Hfits by lia.
      assert (1 <= (if 0 <? qos then 2 else 1) <= 2) as Hone by (by destruct (0 <? qos)). rewrite Hrx, !Zlen_cons in Hsize.
      destruct (cut y (b0 * 256 + b1)) as (tp & z & -> & Htp & Hz); [lia|].
      eapply (wp_publish_fits w [ctl; len] b0 b1 tp z 2); [done|done|done|exact Htp|done|rewrite Htp; lia|rewrite (ok_rx _ _ _ _ H); unfold MQTT_VAR_HEADER_BUFFER_LEN; lia|].
      cbv zeta beta iota. wp_bind. eapply wp_mono; [apply (payload_ok _ bs q d); [|done|rewrite Htp; destruct (0 <? qos); lia|lia]|].
      * destruct H as [? [] ? ? ?]. by split.
      * cbv beta. intros [] w' Hw'. by wp_ret.
  - apply bool_decide_eq_true in Htaken. wp_bind. eapply wp_mono; [apply (payload_ok _ bs q d); [done|done|lia|lia]|]. cbv beta. intros [] w' Hw'. by wp_ret.
Qed.

(** A computation is undefined when a part of it is. *)
Lemma bind_undefined {A B} (m : W A) (f : A -> W B) w : wp m w (fun a w' => f a w' = None) -> (m ≫= f) w = None.
Proof. unfold wp, mbind, M_bind. by destruct (m w) as [[]|]. Qed.

Lemma none_bind {A B} (m : W A) (f : A -> W B) w : m w = None -> (m ≫= f) w = None.
Proof. unfold mbind, M_bind. by intros ->. Qed.

Lemma rx_outside w i : Zlen (rx_buffer (client w)) <= i -> rx i w = None.
Proof.
  intros Hi. unfold rx. apply bind_undefined, wp_get_client. unfold get_at, of_opt. pose proof (Zlen_nonneg (rx_buffer (client w))).
  rewrite (proj2 (Z.leb_le 0 i)), lookup_ge_None_2 by (unfold Zlen in *; lia). done.
Qed.

Lemma payload_undefined w h length qos off : data_cb (client w) = None -> publish_payload h length 0 qos off w = None.
Proof. intros Hcb. unfold publish_payload. cbv zeta. rewrite orb_true_r. apply bind_undefined, wp_get_client. by rewrite Hcb. Qed.

(** The terminator of a topic of 65534 or 65535 bytes is outside the buffer. *)
Lemma topic_undefined w b0 b1 length qos : get_at (rx_buffer (client w)) 2 = Some b0 -> get_at (rx_buffer (client w)) 3 = Some b1 ->
  is_Some (get_at (rx_buffer (client w)) 4) -> Zlen (rx_buffer (client w)) <= 128 ->
  0 <= b0 < 256 -> 0 <= b1 < 256 -> 65534 <= b0 * 256 + b1 -> u16 (2 + (b0 * 256 + b1)) + (if 0 <? qos then 2 else 1) <= length -> 0 <= qos ->
  incoming_header 2 length 0 qos w = None.
Proof.
  intros H0 H1 [b2 H2] Hsize ? ? Htl Hlen Hq. unfold incoming_header. apply bind_undefined. eapply wp_rx; [exact H0|]. apply bind_undefined. eapply wp_rx; [exact H1|].
  rewrite Z.shiftl_mul_pow2 by done. change (2 ^ 8) with 256. rewrite (u16_small (b0 * 256 + b1)) by lia.
  assert (u16 (2 + (b0 * 256 + b1)) = b0 * 256 + b1 - 65534) as Hat by (unfold u16; symmetry; apply (Z.mod_unique_pos _ _ 1); lia). rewrite Hat in *.
  rewrite (proj2 (Z.ltb_ge _ _)).
  2: { destruct (Z.ltb_spec 0 qos); [rewrite (proj2 (Z.eqb_neq qos 0)) by lia|rewrite (proj2 (Z.eqb_eq qos 0)) by lia]; cbn [negb]; lia. }
  apply bind_undefined. eapply (wp_mono _ _ (fun _ w' => rx_buffer (client w') = rx_buffer (client w))).
  - assert (exists x, get_at (rx_buffer (client w)) (2 + (b0 * 256 + b1 - 65534)) = Some x) as [x Hx].
    { assert (b0 * 256 + b1 - 65534 = 0 \/ b0 * 256 + b1 - 65534 = 1) as [-> | ->] by lia; eauto. }
    assert (exists x, get_at (rx_buffer (client w)) (2 + (b0 * 256 + b1 - 65534) + 1) = Some x) as [x' Hx'].
    { assert (b0 * 256 + b1 - 65534 = 0 \/ b0 * 256 + b1 - 65534 = 1) as [-> | ->] by lia; eauto. }
    destruct (0 <? qos); [|done]. wp_bind. eapply wp_rx; [exact Hx|]. wp_bind. eapply wp_rx; [exact Hx'|]. done.
  - intros [] w' Hw'. apply none_bind. unfold call_publish. apply none_bind. apply rx_outside. rewrite Hw'. lia.
Qed.

Lemma publish_received_undefined w bs q d ctl len b0 b1 b2 y length : client_ok (client w) bs q d -> rx_buffer (client w) = ctl :: len :: b0 :: b1 :: b2 :: y ->
  0 <= length <= 126 -> publish_taken (client w) (MQTT_CTL_PACKET_QOS ctl) (b0 * 256 + b1) length = false ->
  publish_received 2 length 0 w = None.
Proof.
  intros H Hrx Hl Htaken. pose proof (ok_bytes _ _ _ _ H) as Hb. pose proof Hb as Hb'. rewrite Hrx in Hb'. apply Forall_cons in Hb' as [Hctl Hb']. apply Forall_cons in Hb' as [_ Hb'].
  apply Forall_cons in Hb' as [Hb0 Hb']. apply Forall_cons in Hb' as [Hb1 _]. pose proof (ok_rx _ _ _ _ H) as Hsize. unfold publish_taken, MQTT_VAR_HEADER_BUFFER_LEN in *.
  unfold publish_received. apply bind_undefined. eapply wp_rx; [by rewrite Hrx|]. pose proof (ctl_qos _ Hctl) as Hq. generalize dependent (MQTT_CTL_PACKET_QOS ctl). intros qos Htaken Hq.
  assert (bool_decide (is_Some (data_cb (client w))) = false -> data_cb (client w) = None) as Hnone.
  { intros Hn%bool_decide_eq_false. by apply eq_None_not_Some. }
  apply bind_undefined, wp_get_client. unfold MQTT_VAR_HEADER_BUFFER_LEN. destruct (msg_idx (client w) <=? 128).
  - apply orb_false_iff in Htaken as [Hfits%Z.ltb_ge Htaken].
    destruct (Z.ltb_spec (b0 * 256 + b1) 65534) as [Htl|Htl].
    + cbn [andb] in Htaken. rewrite u16_small in Hfits by lia. assert (1 <= (if 0 <? qos then 2 else 1) <= 2) as Hone by (by destruct (0 <? qos)).
      pose proof Hrx as Hrx'. rewrite Hrx, !Zlen_cons in Hsize. destruct (cut (b2 :: y) (b0 * 256 + b1)) as (tp & z & Heq & Htp & Hz); [rewrite Zlen_cons; lia|]. rewrite Heq in Hrx'.
      apply bind_undefined. eapply (wp_publish_fits w [ctl; len] b0 b1 tp z 2); [done|done|done|exact Htp|done|rewrite Htp; lia|rewrite (ok_rx _ _ _ _ H); unfold MQTT_VAR_HEADER_BUFFER_LEN; lia|].
      apply none_bind, payload_undefined. by apply Hnone.
    + apply none_bind, (topic_undefined w b0 b1); [by rewrite Hrx|by rewrite Hrx|rewrite Hrx; by eexists|lia..].
  - apply none_bind, payload_undefined. by apply Hnone.
Qed.

Definition message_taken c (length : Z) : bool :=
  match rx_buffer c with
  | ctl :: _ :: b0 :: b1 :: _ =>
      negb (MQTT_CTL_PACKET_TYPE ctl =? MQTT_MSG_TYPE_PUBLISH) || publish_taken c (MQTT_CTL_PACKET_QOS ctl) (b0 * 256 + b1) length
  | _ => true
  end.

(** C25: taking a message of at most 126 bytes out of the receive buffer, whatever bytes it
    holds, is undefined exactly for a PUBLISH packet that passes the test of its length
    and has a topic length of 65534 or more, beyond which the offsets wrap, or meets
    no payload callback.  For all other contents nothing is read or written outside the
    buffers, the invariant of the client (the output buffer, the queue of requests, the
    receive buffer) is kept and the result is a code of the CONNACK, accepted or
    disconnected. *)
Theorem mqtt_message_received_safe w bs q d length : client_ok (client w) bs q d -> 0 <= length <= 126 ->
  if message_taken (client w) length then
    wp (mqtt_message_received 2 length 0) w (fun r w' => 0 <= r <= MQTT_CONNECT_DISCONNECTED /\ exists bs' q' d', client_ok (client w') bs' q' d')
  else mqtt_message_received 2 length 0 w = None.
Proof.
  intros H Hl. pose proof (ok_rx _ _ _ _ H) as Hsize. unfold message_taken. destruct (rx_buffer (client w)) as [|ctl [|len [|b0 [|b1 [|b2 y]]]]] eqn:Hrx; [done..|].
  assert (MQTT_MSG_TYPE_PUBLISH =? MQTT_MSG_TYPE_CONNACK = false) as Hc by done. assert (MQTT_MSG_TYPE_PUBLISH =? MQTT_MSG_TYPE_PINGRESP = false) as Hp by done.
  destruct (Z.eqb_spec (MQTT_CTL_PACKET_TYPE ctl) MQTT_MSG_TYPE_PUBLISH) as [Hpub|Hpub]; cbn [negb orb].
  - destruct (publish_taken (client w) (MQTT_CTL_PACKET_QOS ctl) (b0 * 256 + b1) length) eqn:Ht.
    + unfold mqtt_message_received. wp_bind. eapply wp_rx; [by rewrite Hrx|]. rewrite Hpub, Hc, Hp, Z.eqb_refl. by eapply publish_received_ok.
    + unfold mqtt_message_received. apply bind_undefined. eapply wp_rx; [by rewrite Hrx|]. rewrite Hpub, Hc, Hp, Z.eqb_refl. by eapply publish_received_undefined.
  - eapply wp_mono; [apply (wp_message_answered w bs q d ctl len b0 b1 b2 y length Hrx (ok_bytes _ _ _ _ H) (ok_ring _ _ _ _ H) (ok_requests _ _ _ _ H) Hpub)|].
    intros r w' Hw'. eapply message_answered_ok; [exact H| |exact Hw']. pose proof (ok_bytes _ _ _ _ H) as Hb. rewrite Hrx in Hb. do 3 (apply Forall_cons in Hb as [_ Hb]). by apply Forall_cons in Hb as [Hb1 _].
Qed.

Lemma publishing_ok : client_ok publishing_client [64; 2; 0; 8] [] [].
Proof.
  pose proof fresh_holds as []. split; [|by split|done| |done].
  - split; [done|done|]. by exists (repeat 0 252).
  - apply Forall_app. split; [repeat constructor; lia|apply bytes_zero].
Qed.

Lemma mqtt_message_received_safe_witness :
  wp (mqtt_message_received 2 126 0) (mk_world publishing_client [] [] []) (fun r w => 0 <= r <= 256 /\ exists bs q d, client_ok (client w) bs q d).
Proof.
  assert (message_taken (client (mk_world publishing_client [] [] [])) 126 = true) as Ht by (vm_compute; reflexivity).
  pose proof (mqtt_message_received_safe (mk_world publishing_client [] [] []) [64; 2; 0; 8] [] [] 126 publishing_ok ltac:(lia)) as H.
  rewrite Ht in H. exact H.
Defined.

(** ** Connecting to OneNET *)

Lemma wp_read_into_rx w n l Q : l = fifo w ++ hd [] (arrivals w) -> 0 <= n <= Zlen (rx_buffer (client w)) ->
  (forall b, b = take (Z.to_nat n) l ++ drop (length (take (Z.to_nat n) l)) (rx_buffer (client w)) ->
    Q (Zlen (take (Z.to_nat n) l)) (mk_world (set_rx_buffer (client w) b) (trace w) (drop (Z.to_nat n) l) (tail (arrivals w)))) ->
  wp (read_into_rx n) w Q.
Proof.
  intros -> Hn HQ. unfold read_into_rx. wp_bind. unfold device_read. eapply wp_run; [reflexivity|]. cbv beta.
  wp_bind. apply wp_get_client. cbn [client]. wp_bind. set (m := take (Z.to_nat n) (fifo w ++ hd [] (arrivals w))) in *.
  assert (length m <= length (rx_buffer (client w)))%nat as Hm.
  { unfold m, Zlen in *. rewrite length_take. lia. }
  eapply wp_of_opt.
  - rewrite <-(take_drop (length m) (rx_buffer (client w))) at 1. apply write_at_0. unfold Zlen. rewrite length_take. lia.
  - wp_bind. apply wp_put_client. wp_ret. by apply HQ.
Qed.

Lemma read_ok c bs q d l : client_ok c bs q d -> bytes l -> Zlen l <= MQTT_VAR_HEADER_BUFFER_LEN ->
  client_ok (set_rx_buffer c (l ++ drop (length l) (rx_buffer c))) bs q d.
Proof.
  intros [Hr [] Hs Hb Hc] Hl Hn. split; [done|by split| | |done]; cbn.
  - rewrite Zlen_app. unfold Zlen in *. rewrite length_drop. lia.
  - apply Forall_app. split; [done|by apply Forall_drop].
Qed.

(** A byte of the answer; behind it the buffer is clear. *)
Definition answer_byte (ans : list Z) (i : nat) : Z := default 0 (ans !! i).
Definition answer_kind (ans : list Z) : Z := MQTT_CTL_PACKET_TYPE (answer_byte ans 0).
Definition answer_id (ans : list Z) : Z := answer_byte ans 2 * 256 + answer_byte ans 3.

(** The answer connects the client. *)
Definition connects (ans : list Z) : bool :=
  (0 <? Zlen ans) && (answer_kind ans =? MQTT_MSG_TYPE_CONNACK) && (answer_byte ans 3 =? 0).

(** The messages of an established connection that are no errors, either. *)
Definition passes (ans : list Z) : bool :=
  (0 <? Zlen ans) && ((answer_kind ans =? MQTT_MSG_TYPE_PINGRESP) || negb (answer_id ans =? 0) && bool_decide (answer_kind ans ∈
    [MQTT_MSG_TYPE_PUBREC; MQTT_MSG_TYPE_PUBREL; MQTT_MSG_TYPE_SUBACK; MQTT_MSG_TYPE_UNSUBACK; MQTT_MSG_TYPE_PUBCOMP; MQTT_MSG_TYPE_PUBACK])).

(** A PUBREC is answered. *)
Definition answered (info : mqtt_connect_client_info_t) (ans : list Z) : list client_event :=
  if (0 <? Zlen ans) && (answer_kind ans =? MQTT_MSG_TYPE_PUBREC) && negb (answer_id ans =? 0) && (Zlen (connect_packet info) + 4 <=? MQTT_OUTPUT_RINGBUF_SIZE)
  then [Device_write (connect_packet info ++ ack_packet MQTT_MSG_TYPE_PUBREL (answer_id ans) 1)] else [].

Lemma drop_zeros n m : drop n (repeat 0 m) = repeat 0 (m - n).
Proof. revert n. induction m as [|m IH]; intros [|n]; cbn; [done..|apply IH]. Qed.

(** The buffer after the reading of the answer [x :: ans]. *)
Lemma answer_in_rx x ans zeros n : zeros = repeat 0 n -> (5 <= length (x :: ans ++ zeros))%nat -> exists len rest,
  x :: ans ++ zeros = answer_byte (x :: ans) 0 :: len :: answer_byte (x :: ans) 2 :: answer_byte (x :: ans) 3 :: answer_byte (x :: ans) 4 :: rest.
Proof.
  intros -> Hlen. unfold answer_byte. destruct ans as [|a1 [|a2 [|a3 [|a4 ans]]]]; cbn in *.
  all: do 4 try (destruct n as [|n]; [cbn in Hlen; lia|]). all: by eexists _, _.
Qed.

(** One message of the server that is taken while the client is connecting. *)
Lemma wp_connecting_answer w bs info x ans rest : client_ok (client w) bs [] [] -> bs = connect_packet info -> conn_state (client w) = MQTT_CONNECTING -> connect_cb (client w) = None ->
  rx_buffer (client w) = (x :: ans) ++ repeat 0 rest -> answer_kind (x :: ans) <> MQTT_MSG_TYPE_PUBLISH ->
  wp (mqtt_message_received 2 (Zlen (x :: ans)) 0) w (fun r w' => bool_decide (r = MQTT_CONNECT_ACCEPTED) = connects (x :: ans) || passes (x :: ans) /\
    conn_state (client w') = (if connects (x :: ans) then MQTT_CONNECTED else MQTT_CONNECTING) /\ trace w' = trace w ++ answered info (x :: ans) /\
    fifo w' = fifo w /\ arrivals w' = arrivals w).
Proof.
  intros Hok -> Hst Hcb Hrx Hpub. pose proof (ok_rx _ _ _ _ Hok) as Hsize. rewrite Hrx in Hsize. unfold Zlen in Hsize. cbn [app] in Hrx, Hsize.
  destruct (answer_in_rx x ans (repeat 0 rest) rest eq_refl) as (len & tl & Hrx'); [unfold MQTT_VAR_HEADER_BUFFER_LEN in Hsize; lia|]. rewrite Hrx' in Hrx.
  eapply wp_mono; [apply (wp_message_answered _ _ _ _ _ _ _ _ _ _ _ Hrx (ok_bytes _ _ _ _ Hok) (ok_ring _ _ _ _ Hok) (ok_requests _ _ _ _ Hok) Hpub)|].
  intros r w'. unfold message_answered, connects, passes, answered. fold (answer_kind (x :: ans)). fold (answer_id (x :: ans)). rewrite Hst, Z.eqb_refl.
  rewrite (proj2 (Z.ltb_lt 0 (Zlen (x :: ans)))) by (rewrite Zlen_cons; pose proof (Zlen_nonneg ans); lia). cbn [andb].
  set (kind := answer_kind (x :: ans)) in *. set (id := answer_id (x :: ans)) in *.
  assert (forall P : Prop, r = MQTT_CONNECT_ACCEPTED /\ P -> bool_decide (r = MQTT_CONNECT_ACCEPTED) = true) as Hyes by (intros P [-> _]; by rewrite bool_decide_true).
  assert (w' = w -> trace w' = trace w ++ [] /\ fifo w' = fifo w /\ arrivals w' = arrivals w /\ conn_state (client w') = MQTT_CONNECTING) as Hsame
    by (intros ->; by rewrite app_nil_r).
  destruct (Z.eqb_spec kind MQTT_MSG_TYPE_CONNACK) as [Hk|Hk].
  { rewrite Hk. cbn [andb Z.eqb Pos.eqb MQTT_MSG_TYPE_CONNACK MQTT_MSG_TYPE_PUBREC MQTT_MSG_TYPE_PINGRESP]. intros [-> ->].
    rewrite (bool_decide_false (MQTT_MSG_TYPE_CONNACK ∈ _)) by (unfold MQTT_MSG_TYPE_CONNACK; set_solver). rewrite andb_false_r, orb_false_r.
    destruct (Z.eqb_spec (answer_byte (x :: ans) 3) MQTT_CONNECT_ACCEPTED) as [->|Hne].
    - rewrite bool_decide_true by done. change (MQTT_CONNECT_ACCEPTED =? 0) with true. cbn. unfold connect_event. rewrite Hcb. by rewrite !app_nil_r.
    - rewrite bool_decide_false by done. rewrite (proj2 (Z.eqb_neq _ 0)) by done. by rewrite app_nil_r. }
  cbn [andb orb]. destruct (Z.eqb_spec kind MQTT_MSG_TYPE_PINGRESP) as [Hk2|Hk2].
  { rewrite Hk2. cbn [andb orb Z.eqb Pos.eqb MQTT_MSG_TYPE_PUBREC MQTT_MSG_TYPE_PINGRESP]. intros [-> Hw]. rewrite bool_decide_true by done. by destruct (Hsame Hw) as (-> & -> & -> & ->). }
  cbn [orb]. destruct (Z.eqb_spec id 0) as [Hid|Hid]; cbn [negb andb].
  { intros [-> Hw]. rewrite andb_false_r. cbn [andb]. by destruct (Hsame Hw) as (-> & -> & -> & ->). }
  rewrite andb_true_r. destruct (Z.eqb_spec kind MQTT_MSG_TYPE_PUBREC) as [Hk3|Hk3]; cbn [andb].
  { intros [-> Ha]. rewrite bool_decide_true by done. rewrite bool_decide_true by (rewrite Hk3; apply list_elem_of_here). split; [done|]. unfold acked in Ha.
    destruct (Zlen (connect_packet info) + 4 <=? MQTT_OUTPUT_RINGBUF_SIZE); [destruct Ha as (rb & _ & ->); done|]. by destruct (Hsame Ha) as (-> & -> & -> & ->). }
  destruct (Z.eqb_spec kind MQTT_MSG_TYPE_PUBREL) as [Hk4|Hk4].
  { intros [-> Hw]. rewrite bool_decide_true by done. rewrite bool_decide_true by (rewrite Hk4; apply list_elem_of_further, list_elem_of_here). by destruct (Hsame Hw) as (-> & -> & -> & ->). }
  destruct (bool_decide_reflect (kind ∈ [MQTT_MSG_TYPE_SUBACK; MQTT_MSG_TYPE_UNSUBACK; MQTT_MSG_TYPE_PUBCOMP; MQTT_MSG_TYPE_PUBACK])) as [Hin|Hin];
    cbn [map take_pending]; intros [-> Hw].
  - rewrite bool_decide_true by done. rewrite bool_decide_true by (by do 2 apply list_elem_of_further). by destruct (Hsame Hw) as (-> & -> & -> & ->).
  - rewrite bool_decide_false by done. rewrite bool_decide_false by (intros [?|[?|?]%elem_of_cons]%elem_of_cons; done). by destruct (Hsame Hw) as (-> & -> & -> & ->).
Qed.

(** C24: OneNet_Connect sends the CONNECT packet (without what goes beyond two bytes of
    header) and, half a second later, reads the answer, which is any message of at most 128
    bytes that is not a PUBLISH, or nothing.  The client is connected exactly when the
    message is a CONNACK with the code 0, and the result is the success then.  It is the
    success, with a client that is still connecting, also for the messages of an
    established connection; a PUBREC among them is answered.  Otherwise the connection
    fails, and the client is still connecting.  What was received before is thrown away. *)
Theorem onenet_connects info w bs q d old ans later : client_ok (client w) bs q d -> info_ok info -> Zlen (connect_packet info) <= MQTT_OUTPUT_RINGBUF_SIZE ->
  arrivals w = old :: ans :: later -> Zlen (fifo w ++ old) <= MQTT_VAR_HEADER_BUFFER_LEN -> Zlen ans <= MQTT_VAR_HEADER_BUFFER_LEN ->
  bytes ans -> answer_kind ans <> MQTT_MSG_TYPE_PUBLISH ->
  wp (OneNet_Connect info) w (fun r w' =>
    r = (if connects ans || passes ans then 0 else -1) /\ conn_state (client w') = (if connects ans then MQTT_CONNECTED else MQTT_CONNECTING) /\
    trace w' = trace w ++ cipsend_write (take (Z.to_nat (Zlen (connect_body info) + 2)) (connect_packet info)) ++ [Thread_delay 500] ++ answered info ans /\
    fifo w' = [] /\ arrivals w' = later).
Proof.
  intros Hok Hinfo Hfit Harr Hold Hans Hbytes Hpub. pose proof (ok_rx _ _ _ _ Hok) as Hrx. unfold MQTT_VAR_HEADER_BUFFER_LEN in *.
  unfold OneNet_Connect. wp_bind. apply wp_modify. wp_bind. eapply wp_read_into_rx; [reflexivity|cbn [client set_conn_state rx_buffer]; rewrite Hrx; unfold MQTT_VAR_HEADER_BUFFER_LEN; lia|].
  intros b _. cbn [client fifo arrivals trace]. rewrite Harr. cbn [hd tail].
  assert (drop (Z.to_nat MQTT_VAR_HEADER_BUFFER_LEN) (fifo w ++ old) = []) as -> by (apply drop_ge; unfold Zlen, MQTT_VAR_HEADER_BUFFER_LEN in *; lia).
  wp_bind. eapply wp_mono; [by apply wp_client_connect|]. cbv beta. cbn [client set_rx_buffer set_conn_state conn_state trace fifo arrivals].
  change (0 =? TCP_DISCONNECTED) with true. cbn beta iota. rewrite (proj2 (Z.leb_le _ _)) by done. intros r1 w1 (c & es & -> & _ & Hcb & _ & _ & Hclear & _ & Hst & Hc & ->).
  wp_bind. eapply wp_run; [reflexivity|]. cbv beta. unfold onenet_answer. wp_bind.
  eapply wp_read_into_rx; [reflexivity|cbn; rewrite (ok_rx _ _ _ _ Hc); unfold MQTT_VAR_HEADER_BUFFER_LEN; lia|].
  unfold emits. cbn [client trace fifo arrivals hd tail]. cbn [app]. rewrite (take_ge ans), (drop_ge ans) by (unfold Zlen, MQTT_VAR_HEADER_BUFFER_LEN in *; lia). intros b' Hb'. wp_bind.
  pose proof (read_ok _ _ _ _ ans Hc Hbytes Hans) as Hc'. rewrite <-Hb' in Hc'.
  destruct ans as [|x ans].
  - change (Zlen (@nil Z)) with 0. cbn [Z.ltb Z.compare]. wp_ret. change (-1 =? MQTT_CONNECT_ACCEPTED) with false. wp_ret. cbn [client conn_state set_rx_buffer trace fifo arrivals].
    change (connects []) with false. change (passes []) with false. change (answered info []) with (@nil client_event). by rewrite <-(assoc_L (++)).
  - rewrite (proj2 (Z.ltb_lt 0 _)) by (rewrite !Zlen_cons; pose proof (Zlen_nonneg ans); lia).
    eapply wp_mono; [eapply (wp_connecting_answer _ _ info x ans (128 - length (x :: ans))); [exact Hc'|done|done|done| |exact Hpub]|].
    { cbn [client set_rx_buffer rx_buffer]. rewrite Hb', Hclear. f_equal. apply drop_zeros. }
    cbv beta. cbn [client set_rx_buffer trace fifo arrivals]. intros r w' (Hr & Hst' & Htr & Hf & Ha). wp_ret.
    rewrite <-Hr, Hst', Htr, Hf, Ha. split; [|by rewrite <-!(assoc_L (++))]. case_bool_decide as Hacc; [by rewrite Hacc|]. by rewrite (proj2 (Z.eqb_neq _ _)).
Qed.

Lemma onenet_connects_witness :
  info_ok onenet_info /\ wp (OneNet_Connect onenet_info) (mk_world (set_conn_state fresh_client MQTT_CONNECTED) [] [13; 10] [[79; 75]; [0x20; 2; 0; 0]]) (fun r w =>
    r = 0 /\ conn_state (client w) = MQTT_CONNECTED /\
    trace w = cipsend_write (0x10 :: 28 :: 0 :: 4 :: protocol_name ++ [4; 0xc2; 0; 120; 0; 3; 49; 50; 51; 0; 6; 49; 57; 54; 55; 50; 52; 0; 3; 56; 48; 56]) ++ [Thread_delay 500] /\
    fifo w = [] /\ arrivals w = []).
Proof.
  split; [exact onenet_info_ok|].
  apply (onenet_connects onenet_info (mk_world (set_conn_state fresh_client MQTT_CONNECTED) [] [13; 10] [[79; 75]; [0x20; 2; 0; 0]]) [] [] [] [79; 75] [0x20; 2; 0; 0] []);
    [apply fresh_ok|exact onenet_info_ok|done|done|done|done| |done]. do 4 (apply Forall_cons; split; [done|]). exact (List.Forall_nil _).
Defined.

(** OneNet_SUBSCRIBE takes every SUBACK for a success, also one that refuses the
    subscription: no request is recorded for the packet that it sends, so that the code of
    the answer is not looked at.  The client stays connected. *)
Theorem onenet_subscribe_any_answer topic w bs d old len id code more later : client_ok (client w) bs [] d -> conn_state (client w) = MQTT_CONNECTED ->
  bytes topic -> Zlen topic < 65000 -> 0 <= pkt_id_seq (client w) < 65536 -> Zlen (subscribe_packet (next_id (pkt_id_seq (client w))) topic true) <= MQTT_OUTPUT_RINGBUF_SIZE ->
  let ans := 0x90 :: len :: be16 id ++ code :: more in
  arrivals w = old :: ans :: later -> Zlen (fifo w ++ old) <= MQTT_VAR_HEADER_BUFFER_LEN -> Zlen ans <= MQTT_VAR_HEADER_BUFFER_LEN -> bytes ans -> bytes (fifo w ++ old) -> 0 < id < 65536 ->
  wp (OneNet_SUBSCRIBE true topic) w (fun r w' => r = 0 /\ conn_state (client w') = MQTT_CONNECTED /\ fifo w' = [] /\ arrivals w' = later).
Proof.
  intros Hok Hst Ht Htl Hseq Hfit ans Harr Hold Hans Hba Hbo Hid. pose proof (ok_rx _ _ _ _ Hok) as Hrx. unfold MQTT_VAR_HEADER_BUFFER_LEN in *.
  unfold OneNet_SUBSCRIBE. wp_bind. eapply wp_read_into_rx; [reflexivity|rewrite Hrx; unfold MQTT_VAR_HEADER_BUFFER_LEN; lia|].
  rewrite Harr. cbn [hd tail]. rewrite (take_ge (fifo w ++ old)), (drop_ge (fifo w ++ old)) by (unfold Zlen, MQTT_VAR_HEADER_BUFFER_LEN in *; lia). intros b Hb.
  cbn [client trace fifo arrivals]. wp_bind. eapply wp_mono.
  { apply (wp_sub_unsub true topic 0 None 0 true _ bs [] d); [subst b; by apply (read_ok _ bs)|done..]. }
  cbv beta zeta. cbn [client set_rx_buffer conn_state pkt_id_seq trace fifo arrivals]. rewrite Hst. intros r1 w1 (c & -> & _ & Hc & Hst' & _).
  wp_bind. eapply wp_run; [reflexivity|]. cbv beta. unfold onenet_answer. wp_bind.
  eapply wp_read_into_rx; [reflexivity|cbn; rewrite (ok_rx _ _ _ _ Hc); unfold MQTT_VAR_HEADER_BUFFER_LEN; lia|].
  unfold emits. cbn [client trace fifo arrivals hd tail]. cbn [app]. rewrite (take_ge ans), (drop_ge ans) by (unfold Zlen, MQTT_VAR_HEADER_BUFFER_LEN in *; lia). intros b' Hb'. wp_bind.
  pose proof (read_ok _ _ _ _ ans Hc Hba Hans) as Hc'. rewrite <-Hb' in Hc'.
  assert (0 < Zlen ans) as Hpos by (unfold ans; rewrite Zlen_cons; pose proof (Zlen_nonneg (len :: be16 id ++ code :: more)); lia). rewrite (proj2 (Z.ltb_lt 0 _)) by done.
  eapply wp_mono.
  { eapply (wp_message_answered _ _ [] d 0x90 len (u8 (Z.shiftr id 8)) (u8 id) code); [by rewrite Hb'|apply Hc'|apply Hc'|apply Hc'|done]. }
  unfold message_answered. cbv beta. change (MQTT_CTL_PACKET_TYPE 0x90) with 9. cbn [Z.eqb Pos.eqb MQTT_MSG_TYPE_CONNACK MQTT_MSG_TYPE_PINGRESP MQTT_MSG_TYPE_PUBREC MQTT_MSG_TYPE_PUBREL].
  rewrite <-halves by lia. rewrite (proj2 (Z.eqb_neq id 0)) by lia. rewrite bool_decide_true by (unfold MQTT_MSG_TYPE_SUBACK; set_solver). cbn [map take_pending]. intros r w' [-> ->]. wp_ret. done.
Qed.

(** The broker refuses the topic "t". *)
Lemma onenet_subscribe_any_answer_witness :
  wp (OneNet_SUBSCRIBE true [116]) (mk_world (set_conn_state fresh_client MQTT_CONNECTED) [] [] [[]; [0x90; 3; 0; 1; 0x80]]) (fun r w =>
    r = 0 /\ conn_state (client w) = MQTT_CONNECTED /\ fifo w = [] /\ arrivals w = []).
Proof.
  apply (onenet_subscribe_any_answer [116] (mk_world (set_conn_state fresh_client MQTT_CONNECTED) [] [] [[]; [0x90; 3; 0; 1; 0x80]]) [] [] [] 3 1 0x80 [] []);
    try done; [apply fresh_ok|by repeat constructor| |exact (List.Forall_nil _)].
  do 5 (apply Forall_cons; split; [done|]). exact (List.Forall_nil _).
Defined.
