(* ===== verification/LwPublish.v ===== *)
(** * Publishing, and the timer of the MQTT client

    mqtt_publish over the output buffer and the table of requests, and the cyclic timer:
    the time that the client waits for the connection, and the pings. *)

From S2P Require Import Prelude Cstr LwMqtt LwRequests LwClient.

Open Scope Z_scope.

Implicit Types (w : world) (c : mqtt_client_t) (q : list (nat * pending)) (d : list nat).

(** ** Publishing *)

Definition publish_packet (qos retain id : Z) (topic payload : list Z) : list Z := mqtt_packet (control_byte MQTT_MSG_TYPE_PUBLISH 0 qos retain) (publish_body qos id topic payload).

Lemma publish_size qos id topic payload : Zlen (publish_body qos id topic payload) = 2 + Zlen topic + Zlen payload + (if 0 <? qos then 2 else 0).
Proof. unfold publish_body. rewrite !Zlen_app, mqtt_string_size. destruct (0 <? qos); [change (Zlen (be16 id)) with 2|change (Zlen (@nil Z)) with 0]; lia. Qed.

Lemma appends_publish topic payload id qos retain : bytes topic -> bytes payload -> Zlen topic + Zlen payload < 65000 -> 0 <= qos < 4 -> 0 <= retain < 2 ->
  appends (publish_message topic (Zlen topic) payload id qos retain (Zlen (publish_body qos id topic payload))) (publish_packet qos retain id topic payload).
Proof.
  intros Ht Hp Hl Hq Hr. pose proof (Zlen_nonneg topic). pose proof (Zlen_nonneg payload). pose proof (publish_size qos id topic payload) as Hs.
  assert (0 <= (if 0 <? qos then 2 else 0) <= 2) by (by destruct (0 <? qos)).
  unfold publish_packet, mqtt_packet. rewrite (length_field_more 2) by (change (128 ^ Z.of_nat 3) with 2097152; lia).
  eapply appends_eq.
  - apply appends_bind; [apply appends_fixed_header; unfold MQTT_MSG_TYPE_PUBLISH; lia|]. apply appends_bind; [by apply appends_string|].
    apply appends_bind; [|apply appends_buf].
    instantiate (1 := if 0 <? qos then be16 id else []). destruct (0 <? qos); [apply appends_u16|apply appends_nil].
  - rewrite map_u8 by done. by rewrite <-app_comm_cons.
Qed.

Lemma client_requests c bs q d q' d' h rl : client_ok c bs q d -> holds (set_requests c h rl) q' d' -> client_ok (set_requests c h rl) bs q' d'.
Proof. intros [] H. by split. Qed.

Lemma wp_publish topic payload qos retain f a w bs q d : client_ok (client w) bs q d -> bytes topic -> bytes payload -> Zlen topic + Zlen payload < 65000 ->
  0 <= qos < 4 -> 0 <= retain < 2 -> 0 <= pkt_id_seq (client w) < 65536 ->
  let id := if 0 <? qos then next_id (pkt_id_seq (client w)) else 0 in
  let sent := bs ++ publish_packet qos retain id topic payload in
  let c0 := set_ids (client w) (if 0 <? qos then id else pkt_id_seq (client w)) (inpub_pkt_id (client w)) in
  wp (mqtt_publish topic payload qos retain f a) w (fun r w' => exists c rl,
    if bool_decide (length q + length d < MQTT_REQ_MAX_IN_FLIGHT)%nat && (Zlen sent <=? MQTT_OUTPUT_RINGBUF_SIZE) then
      r = ERR_OK /\ w' = emits (mk_world c (trace w) (fifo w) (arrivals w)) [Device_write sent] /\
      exists n h rb, c = set_output (set_requests c0 h rl) rb /\ client_ok c sent (q ++ [(n, mk_pending id f a MQTT_REQ_TIMEOUT)]) d
    else r = ERR_MEM /\ w' = mk_world c (trace w) (fifo w) (arrivals w) /\ c = set_requests c0 (pend_req_queue (client w)) rl /\ client_ok c bs q d).
Proof.
  intros Hok Ht Hp Hl Hq Hr Hseq id sent c0. pose proof (Zlen_nonneg topic). pose proof (Zlen_nonneg payload). pose proof (publish_size qos id topic payload) as Hs.
  assert (0 <= (if 0 <? qos then 2 else 0) <= 2) as Hidn by (by destruct (0 <? qos)).
  assert ((if 0 <? qos then u16 (u16 (2 + u16 (Zlen topic) + Zlen payload) + 2) else u16 (2 + u16 (Zlen topic) + Zlen payload)) = Zlen (publish_body qos id topic payload)) as Hrem.
  { rewrite Hs, (u16_small (Zlen topic)), (u16_small (2 + Zlen topic + Zlen payload)) by lia. destruct (0 <? qos); [apply u16_small; lia|lia]. }
  assert (Zlen sent = Zlen bs + 1 + Zlen (length_field 3 (Zlen (publish_body qos id topic payload))) + Zlen (publish_body qos id topic payload)) as Hsent.
  { unfold sent. rewrite Zlen_app. unfold publish_packet. rewrite packet_size by lia. lia. }
  unfold mqtt_publish. cbv zeta. rewrite Hrem, (u16_small (Zlen topic)) by lia.
  wp_bind. eapply (wp_mono _ _ (fun i w' => i = id /\ w' = mk_world c0 (trace w) (fifo w) (arrivals w) /\ client_ok c0 bs q d)).
  { assert (client_ok c0 bs q d) as Hc0 by (destruct Hok as [? [] ? ? ?]; by split). unfold id, c0 in *. destruct (0 <? qos).
    - apply wp_generate_packet_id; [done|]. intros c ->. by split.
    - wp_ret. split; [done|]. split; [|done]. destruct w as [c ? ? ?]. by destruct c. }
  cbv beta. intros i w' (-> & -> & Hc). set (c := c0) in *.
  wp_bind. eapply wp_create_request; [apply Hc| |].
  - intros n rl H' (x & Hx & Hcb & Ha & Hi). cbn [client with_requests trace fifo arrivals] in H' |- *. pose proof (client_requests _ _ _ _ _ _ _ _ Hc H') as Hc1. pose proof (holds_room _ _ _ H') as Hroom. cbn [length] in Hroom.
    rewrite bool_decide_true by lia. cbn [andb].
    wp_bind. apply wp_get_client. rewrite (check_space _ _ _ (ok_ring _ _ _ _ Hc1)), <-Hsent by lia.
    destruct (Z.leb_spec (Zlen sent) MQTT_OUTPUT_RINGBUF_SIZE) as [Hfit|Hfull]; cbn [negb].
    + wp_bind. eapply (appends_publish topic payload id qos retain Ht Hp Hl Hq Hr _ bs); [exact (ok_ring _ _ _ _ Hc1)|unfold sent in Hfit; by rewrite Zlen_app in Hfit|].
      fold sent. intros rb Hrb.
      assert (holds (client (set_out (with_requests (mk_world c (trace w) (fifo w) (arrivals w)) (pend_req_queue c) rl []) rb)) q (n :: d)) as H1 by (destruct H'; by split).
      wp_bind. eapply (wp_append_request _ _ _ _ _ (mk_pending id f a MQTT_REQ_TIMEOUT) _ H1); [exact Hx|done..|].
      intros h rl2 H2. unfold mqtt_output_send. wp_bind. apply wp_get_client. cbn [client with_requests set_out set_requests set_output output]. wp_bind.
      eapply wp_of_opt; [apply (ring_read _ _ _ Hrb); rewrite (ring_len _ _ Hrb); split; [apply Zlen_nonneg|lia]|]. rewrite (ring_len _ _ Hrb).
      pose proof (take_Zlen sent []) as Htk. rewrite app_nil_r in Htk. rewrite Htk. wp_bind. eapply wp_run; [reflexivity|]. cbv beta. wp_ret.
      eexists _, rl2. split; [done|]. split; [unfold emits; cbn [client trace fifo arrivals with_requests set_out]; rewrite !app_nil_r; reflexivity|].
      exists n, h, rb. split; [done|]. destruct Hc1 as [? _ ? ? ?], H2. by split; [|split|..].
    + wp_bind. eapply wp_delete_request; [exact H'|]. intros rl2 H2. wp_ret. eexists _, rl2. split; [done|]. split; [unfold with_requests; cbn [client trace fifo arrivals]; rewrite ?app_nil_r; reflexivity|].
      split; [done|]. eapply (client_requests _ _ _ _ _ _ _ _ Hc1). exact H2.
  - intros Hfull. wp_ret. rewrite bool_decide_false by lia. cbn [andb]. exists c, (req_list c). split; [done|]. split; [done|]. split; [|done]. unfold c, c0. by destruct (client w).
Qed.

(** C27: mqtt_publish of a client that is not disconnected sends the PUBLISH packet of
    MQTT 3.1.1, with the next identifier when the QoS is not 0, and everything that is
    still in the output buffer before it, and records the request with 30 seconds to
    wait, when one of the four items is unused and the packet fits into the output
    buffer; otherwise it returns ERR_MEM and sends nothing.  Of the client only the
    output buffer and the requests change, in the second case only the contents of
    unused items; in both the identifier is used up.  Each packet stays in the buffer. *)
Theorem mqtt_publish_sends topic payload qos retain f a w bs q d : client_ok (client w) bs q d -> bytes topic -> bytes payload -> Zlen topic + Zlen payload < 65000 ->
  0 <= qos < 4 -> 0 <= retain < 2 -> 0 <= pkt_id_seq (client w) < 65536 -> conn_state (client w) <> TCP_DISCONNECTED ->
  let id := if 0 <? qos then next_id (pkt_id_seq (client w)) else 0 in
  let sent := bs ++ publish_packet qos retain id topic payload in
  let c0 := set_ids (client w) (if 0 <? qos then id else pkt_id_seq (client w)) (inpub_pkt_id (client w)) in
  wp (mqtt_publish topic payload qos retain f a) w (fun r w' => exists c rl,
    if bool_decide (length q + length d < MQTT_REQ_MAX_IN_FLIGHT)%nat && (Zlen sent <=? MQTT_OUTPUT_RINGBUF_SIZE) then
      r = ERR_OK /\ w' = emits (mk_world c (trace w) (fifo w) (arrivals w)) [Device_write sent] /\
      exists n h rb, c = set_output (set_requests c0 h rl) rb /\ client_ok c sent (q ++ [(n, mk_pending id f a MQTT_REQ_TIMEOUT)]) d
    else r = ERR_MEM /\ w' = mk_world c (trace w) (fifo w) (arrivals w) /\ c = set_requests c0 (pend_req_queue (client w)) rl /\ client_ok c bs q d).
Proof. intros Hok Ht Hp Hl Hq Hr Hseq _. by apply wp_publish. Qed.

(** The state of the connection is not looked at: also for a client that is disconnected,
    where the documentation promises ERR_CONN, the packet is sent. *)
Theorem publish_disconnected topic payload qos retain f a w bs q d : client_ok (client w) bs q d -> bytes topic -> bytes payload -> Zlen topic + Zlen payload < 65000 ->
  0 <= qos < 4 -> 0 <= retain < 2 -> 0 <= pkt_id_seq (client w) < 65536 -> conn_state (client w) = TCP_DISCONNECTED ->
  let id := if 0 <? qos then next_id (pkt_id_seq (client w)) else 0 in
  let sent := bs ++ publish_packet qos retain id topic payload in
  (length q + length d < MQTT_REQ_MAX_IN_FLIGHT)%nat -> Zlen sent <= MQTT_OUTPUT_RINGBUF_SIZE ->
  wp (mqtt_publish topic payload qos retain f a) w (fun r w' => r = ERR_OK /\ trace w' = trace w ++ [Device_write sent]).
Proof.
  intros Hok Ht Hp Hl Hq Hr Hseq _ id sent Hroom Hfit. eapply wp_mono; [by apply (wp_publish topic payload qos retain f a w bs q d)|].
  cbv beta zeta. fold id sent. intros r w' (c & rl & H). rewrite bool_decide_true, (proj2 (Z.leb_le _ _)) in H by done. by destruct H as (-> & -> & _).
Qed.

(** The answer to the first publication is in the table while the second is made. *)
Lemma mqtt_publish_sends_witness :
  wp (mqtt_publish [116] [104; 105] 1 0 (Some 7) 5) (mk_world publishing_client [] [] []) (fun r w => exists c rl,
    r = ERR_OK /\ w = emits (mk_world c [] [] []) [Device_write [64; 2; 0; 8; 0x32; 7; 0; 1; 116; 0; 1; 104; 105]] /\
    exists n h rb, c = set_output (set_requests (set_ids publishing_client 1 0) h rl) rb /\
      client_ok c [64; 2; 0; 8; 0x32; 7; 0; 1; 116; 0; 1; 104; 105] [(n, mk_pending 1 (Some 7) 5 30)] []).
Proof.
  apply (mqtt_publish_sends [116] [104; 105] 1 0 (Some 7) 5 (mk_world publishing_client [] [] []) [64; 2; 0; 8] [] []);
    [exact publishing_ok|repeat constructor; lia|repeat constructor; lia|done|done|done|done|done].
Defined.

(** ** The timer *)

Fixpoint timer_runs (n : nat) : W unit := match n with O => mret tt | S n => mqtt_cyclic_timer ;; timer_runs n end.

Lemma wp_call_connect w status Q : Q tt (emits w (connect_event (client w) status)) -> wp (call_connect status) w Q.
Proof.
  intros HQ. unfold call_connect. wp_bind. apply wp_get_client. unfold connect_event, emits in HQ. destruct (connect_cb (client w)).
  - by eapply wp_run.
  - wp_ret. rewrite app_nil_r in HQ. by destruct w.
Qed.

(** What the timer leaves alone. *)
Record same_setup c c' : Prop := { same_keep : keep_alive c' = keep_alive c; same_cb : connect_cb c' = connect_cb c; same_arg : connect_arg c' = connect_arg c }.

Lemma same_setup_trans c1 c2 c3 : same_setup c1 c2 -> same_setup c2 c3 -> same_setup c1 c3.
Proof. intros [] []. split; congruence. Qed.

(** Closing: no request is left, and the callback is called unless the client was
    disconnected already. *)
Lemma wp_close w bs q d reason : client_ok (client w) bs q d ->
  wp (mqtt_close reason) w (fun _ w' => trace w' = trace w ++ (if conn_state (client w) =? TCP_DISCONNECTED then [] else connect_event (client w) reason) /\
    conn_state (client w') = TCP_DISCONNECTED /\ same_setup (client w) (client w') /\ cyclic_tick (client w') = cyclic_tick (client w) /\
    server_watchdog (client w') = server_watchdog (client w) /\ client_ok (client w') bs [] d).
Proof.
  intros H. unfold mqtt_close. wp_bind. apply wp_get_client. rewrite (ok_conn _ _ _ _ H). wp_bind. wp_ret. wp_bind. eapply wp_clear_requests; [apply H|].
  intros rl H'. pose proof (client_requests _ _ _ _ _ _ _ _ H H') as Hok. wp_bind. apply wp_get_client. cbn [client with_requests conn_state set_requests].
  destruct (conn_state (client w) =? TCP_DISCONNECTED) eqn:Hst; cbn [negb].
  - wp_ret. cbn [client trace with_requests]. rewrite app_nil_r. apply Z.eqb_eq in Hst. done.
  - wp_bind. apply wp_modify. apply wp_call_connect. cbn [client trace with_requests emits]. rewrite app_nil_r. do 5 (split; [done|]).
    destruct Hok as [? [] ? ? ?]. by split.
Qed.

Lemma client_ok_times c bs q d t v : client_ok c bs q d -> client_ok (set_times c t v) bs q d.
Proof. intros [? [] ? ? ?]. by split. Qed.

(** The ping goes into the output buffer, where it stays. *)
Lemma wp_send_ping w bs q d : client_ok (client w) bs q d ->
  wp send_ping w (fun _ w' => trace w' = trace w /\ conn_state (client w') = conn_state (client w) /\ same_setup (client w) (client w') /\
    server_watchdog (client w') = server_watchdog (client w) /\ exists bs', client_ok (client w') bs' q d).
Proof.
  intros H. unfold send_ping. wp_bind. apply wp_get_client. destruct (keep_alive (client w) <=? cyclic_tick (client w) * MQTT_CYCLIC_TIMER_INTERVAL).
  - rewrite (check_space _ _ _ (ok_ring _ _ _ _ H)) by lia. change (Zlen (length_field 3 0)) with 1. destruct (Z.leb_spec (Zlen bs + 1 + 1 + 0) MQTT_OUTPUT_RINGBUF_SIZE).
    + assert (appends (mqtt_output_append_fixed_header MQTT_MSG_TYPE_PINGREQ 0 0 0 0) [0xc0; 0]) as Ha by (apply (appends_fixed_header MQTT_MSG_TYPE_PINGREQ 0 0 0 0); unfold MQTT_MSG_TYPE_PINGREQ; lia).
      wp_bind. eapply (Ha _ bs); [apply H|change (Zlen [0xc0; 0]) with 2; lia|]. intros rb Hrb. apply wp_modify. do 4 (split; [done|]). exists (bs ++ [0xc0; 0]).
      apply client_ok_times. destruct H as [? [] ? ? ?]. by split.
    + wp_ret. do 4 (split; [done|]). by exists bs.
  - apply wp_modify. do 4 (split; [done|]). exists bs. by apply client_ok_times.
Qed.

(** ** Waiting for the connection *)

Lemma timer_disconnected n w : conn_state (client w) = TCP_DISCONNECTED -> wp (timer_runs n) w (fun _ w' => w' = w).
Proof.
  intros H. induction n as [|n IH]; cbn [timer_runs]; [by wp_ret|]. unfold mqtt_cyclic_timer. wp_bind. apply wp_get_client. rewrite H.
  change (TCP_DISCONNECTED =? MQTT_CONNECTING) with false. change (TCP_DISCONNECTED =? MQTT_CONNECTED) with false. cbn beta iota. by wp_ret.
Qed.

Lemma wp_connecting n : forall w bs q d t, client_ok (client w) bs q d -> conn_state (client w) = MQTT_CONNECTING -> cyclic_tick (client w) = t -> 0 <= t < 20 ->
  wp (timer_runs n) w (fun _ w' =>
    if (t + Z.of_nat n) * MQTT_CYCLIC_TIMER_INTERVAL <? MQTT_CONNECT_TIMOUT then
      trace w' = trace w /\ conn_state (client w') = MQTT_CONNECTING /\ cyclic_tick (client w') = t + Z.of_nat n /\ client_ok (client w') bs q d
    else trace w' = trace w ++ connect_event (client w) MQTT_CONNECT_TIMEOUT /\ conn_state (client w') = TCP_DISCONNECTED /\ client_ok (client w') bs [] d).
Proof.
  unfold MQTT_CYCLIC_TIMER_INTERVAL, MQTT_CONNECT_TIMOUT. induction n as [|n IH]; intros w bs q d t H Hst Ht Hlt; cbn [timer_runs].
  { wp_ret. rewrite Z.add_0_r, (proj2 (Z.ltb_lt _ _)) by lia. done. }
  unfold mqtt_cyclic_timer. wp_bind. apply wp_get_client. rewrite Hst, Z.eqb_refl. wp_bind. apply wp_modify. wp_bind. apply wp_get_client.
  cbn [client set_cyclic_tick set_times cyclic_tick]. rewrite Ht, (u16_small (t + 1)) by lia. unfold MQTT_CYCLIC_TIMER_INTERVAL, MQTT_CONNECT_TIMOUT.
  replace (t + Z.of_nat (S n)) with (t + 1 + Z.of_nat n) by lia. destruct (Z.leb_spec 100 ((t + 1) * 5)) as [Hover|Hmore].
  - rewrite (proj2 (Z.ltb_ge _ _)) by lia. eapply wp_mono; [apply (wp_close _ bs q d); by apply client_ok_times|]. cbn [client trace conn_state set_cyclic_tick set_times]. rewrite Hst.
    change (MQTT_CONNECTING =? TCP_DISCONNECTED) with false. cbn beta iota. intros [] w1 (Htr & Hst1 & _ & _ & _ & H1).
    eapply wp_mono; [by apply timer_disconnected|]. intros [] w' ->. done.
  - wp_ret. eapply wp_mono; [apply (IH _ bs q d (t + 1)); [by apply client_ok_times|done|done|lia]|]. done.
Qed.

(** While nothing comes from the server, the timer of a client that is connecting
    counts for 100 seconds, twenty calls, and does nothing else; the twentieth call gives
    up: the client is disconnected, its callback is called once with the timeout, and no
    request is left; calls after that do nothing. *)
Theorem connecting_times_out n w bs q d : client_ok (client w) bs q d -> conn_state (client w) = MQTT_CONNECTING -> cyclic_tick (client w) = 0 ->
  wp (timer_runs n) w (fun _ w' =>
    if Z.of_nat n * MQTT_CYCLIC_TIMER_INTERVAL <? MQTT_CONNECT_TIMOUT then
      trace w' = trace w /\ conn_state (client w') = MQTT_CONNECTING /\ cyclic_tick (client w') = Z.of_nat n /\ client_ok (client w') bs q d
    else trace w' = trace w ++ connect_event (client w) MQTT_CONNECT_TIMEOUT /\ conn_state (client w') = TCP_DISCONNECTED /\ client_ok (client w') bs [] d).
Proof. intros H Hst Ht. by apply (wp_connecting n w bs q d 0). Qed.

Lemma connecting_times_out_witness :
  wp (timer_runs 25) (mk_world (set_conn_state fresh_client MQTT_CONNECTING) [] [] []) (fun _ w => trace w = [] /\ conn_state (client w) = TCP_DISCONNECTED /\ client_ok (client w) [] [] []).
Proof. apply (connecting_times_out 25 (mk_world (set_conn_state fresh_client MQTT_CONNECTING) [] [] []) [] [] []); [apply fresh_ok|done|done]. Defined.

(** ** A server that is silent *)

(** Only timeouts of requests. *)
Definition timeouts (es : list client_event) : Prop := Forall (fun e => exists fn a, e = Request_callback fn a ERR_TIMEOUT) es.

Lemma timeouts_calls (l : list pending) : timeouts (concat (map (calls ERR_TIMEOUT) l)).
Proof.
  induction l as [|p l IH]; [constructor|]. cbn. apply Forall_app. split; [|done]. unfold calls. destruct (p_cb p) as [fn|]; [|constructor].
  constructor; [by exists fn, (p_arg p)|constructor].
Qed.

Lemma wp_timer_connected w bs q d : client_ok (client w) bs q d -> conn_state (client w) = MQTT_CONNECTED -> 0 < keep_alive (client w) -> 0 <= server_watchdog (client w) < 65535 ->
  let v := server_watchdog (client w) + 1 in
  let dead := keep_alive (client w) + keep_alive (client w) / 2 <? v * MQTT_CYCLIC_TIMER_INTERVAL in
  wp mqtt_cyclic_timer w (fun _ w' => exists es, timeouts es /\ trace w' = trace w ++ es ++ (if dead then connect_event (client w) MQTT_CONNECT_TIMEOUT else []) /\
    conn_state (client w') = (if dead then TCP_DISCONNECTED else MQTT_CONNECTED) /\ same_setup (client w) (client w') /\ server_watchdog (client w') = v /\
    exists bs' q', client_ok (client w') bs' q' d).
Proof.
  intros H Hst Hk Hv v dead. unfold mqtt_cyclic_timer. wp_bind. apply wp_get_client. rewrite Hst. change (MQTT_CONNECTED =? MQTT_CONNECTING) with false. rewrite Z.eqb_refl.
  wp_bind. eapply wp_request_time_elapsed; [apply H|unfold MQTT_CYCLIC_TIMER_INTERVAL; lia|]. intros h rl q1 _ H1. pose proof (client_requests _ _ _ _ _ _ _ _ H H1) as Hok.
  set (es := concat _). assert (timeouts es) as Hes by apply timeouts_calls. clearbody es.
  wp_bind. apply wp_get_client. cbn [client with_requests set_requests keep_alive]. rewrite (proj2 (Z.ltb_lt 0 _)) by done. wp_bind. apply wp_modify. wp_bind. apply wp_get_client.
  cbn [client with_requests set_requests keep_alive set_server_watchdog set_times server_watchdog]. rewrite (u16_small (server_watchdog (client w) + 1)) by lia. fold v. fold dead.
  wp_bind. eapply (wp_mono _ _ (fun _ w1 => trace w1 = trace w ++ es ++ (if dead then connect_event (client w) MQTT_CONNECT_TIMEOUT else []) /\
    conn_state (client w1) = (if dead then TCP_DISCONNECTED else MQTT_CONNECTED) /\ same_setup (client w) (client w1) /\ server_watchdog (client w1) = v /\
    exists q', client_ok (client w1) bs q' d)).
  - destruct dead.
    + eapply wp_mono; [apply (wp_close _ bs q1 d); by apply client_ok_times|]. cbn [client trace conn_state with_requests set_requests set_server_watchdog set_times server_watchdog]. rewrite Hst.
      change (MQTT_CONNECTED =? TCP_DISCONNECTED) with false. cbn beta iota. intros [] w1 (Htr & Hst1 & [] & _ & Hv1 & Hok1). split; [by rewrite Htr, (assoc_L (++))|]. do 3 (split; [done|]). by exists [].
    + wp_ret. cbn. rewrite app_nil_r. do 4 (split; [done|]). exists q1. by apply client_ok_times.
  - cbv beta. intros [] w1 (Htr & Hst1 & Hsame & Hv1 & q' & Hok1). eapply wp_mono; [by eapply wp_send_ping|]. cbv beta. intros [] w' (Htr' & Hst' & Hsame' & Hv' & bs' & Hok').
    exists es. split; [done|]. split; [by rewrite Htr'|]. split; [by rewrite Hst'|]. split; [by eapply same_setup_trans|]. split; [by rewrite Hv'|]. by exists bs', q'.
Qed.

Lemma wp_silent n : forall w bs q d, client_ok (client w) bs q d -> conn_state (client w) = MQTT_CONNECTED -> 0 < keep_alive (client w) < 65536 -> 0 <= server_watchdog (client w) ->
  let limit := keep_alive (client w) + keep_alive (client w) / 2 in
  server_watchdog (client w) * MQTT_CYCLIC_TIMER_INTERVAL <= limit ->
  wp (timer_runs n) w (fun _ w' => exists es, timeouts es /\
    let dead := limit <? (server_watchdog (client w) + Z.of_nat n) * MQTT_CYCLIC_TIMER_INTERVAL in
    trace w' = trace w ++ es ++ (if dead then connect_event (client w) MQTT_CONNECT_TIMEOUT else []) /\
    conn_state (client w') = if dead then TCP_DISCONNECTED else MQTT_CONNECTED).
Proof.
  induction n as [|n IH]; intros w bs q d H Hst Hk Hv limit Hlim; cbn [timer_runs]; change MQTT_CYCLIC_TIMER_INTERVAL with 5 in *.
  { wp_ret. exists []. split; [constructor|]. cbv zeta. rewrite (proj2 (Z.ltb_ge _ _)) by lia. by rewrite !app_nil_r. }
  assert (limit < 98304) as Hmax by (unfold limit; Z.div_mod_to_equations; lia).
  wp_bind. eapply wp_mono; [apply (wp_timer_connected _ bs q d); [done|done|lia|lia]|]. cbv beta zeta. fold limit. change MQTT_CYCLIC_TIMER_INTERVAL with 5.
  intros [] w1 (es & Hes & Htr & Hst1 & [Hk1 Hc1 Ha1] & Hv1 & bs1 & q1 & H1). destruct (Z.ltb_spec limit ((server_watchdog (client w) + 1) * 5)) as [Hdead|Halive].
  - eapply wp_mono; [by apply timer_disconnected|]. cbv beta. intros [] w' ->. exists es. split; [done|]. by rewrite (proj2 (Z.ltb_lt _ _)) by lia.
  - eapply wp_mono; [apply (IH w1 bs1 q1 d); [done|done|lia|lia|change MQTT_CYCLIC_TIMER_INTERVAL with 5; rewrite Hk1; fold limit; lia]|]. cbv beta zeta. rewrite Hk1, Hv1. fold limit.
    intros [] w' (es' & Hes' & Htr' & Hst'). exists (es ++ es'). split; [by apply Forall_app|].
    replace (server_watchdog (client w) + 1 + Z.of_nat n) with (server_watchdog (client w) + Z.of_nat (S n)) in * by lia.
    split; [|done]. rewrite Htr', Htr, app_nil_r, <-!(assoc_L (++)). unfold connect_event. by rewrite Hc1, Ha1.
Qed.

(** A connected client with keep-alive gives up a server that is silent: as long as
    the time that the timer has counted is at most one and a half times the keep-alive
    time, the client stays connected and only the requests that are over are called back;
    the first call of the timer after that disconnects it, and its callback is called
    once with the timeout, however often the timer runs after that. *)
Theorem silent_server_given_up n w bs q d : client_ok (client w) bs q d -> conn_state (client w) = MQTT_CONNECTED -> 0 < keep_alive (client w) < 65536 -> server_watchdog (client w) = 0 ->
  wp (timer_runs n) w (fun _ w' => exists es, timeouts es /\
    let dead := keep_alive (client w) + keep_alive (client w) / 2 <? Z.of_nat n * MQTT_CYCLIC_TIMER_INTERVAL in
    trace w' = trace w ++ es ++ (if dead then connect_event (client w) MQTT_CONNECT_TIMEOUT else []) /\
    conn_state (client w') = if dead then TCP_DISCONNECTED else MQTT_CONNECTED).
Proof.
  intros H Hst Hk Hv. eapply wp_mono; [apply (wp_silent n w bs q d); [done|done|done|lia|]|].
  - rewrite Hv. pose proof (Z.div_pos (keep_alive (client w)) 2). lia.
  - rewrite Hv. done.
Qed.

(** With the keep-alive of 120 seconds, 37 calls are enough. *)
Definition keeping_client : mqtt_client_t :=
  mk_client 0 120 0 0 0 MQTT_CONNECTED false 5 (Some 9) None (req_list fresh_client) 0 None None 0 (rx_buffer mqtt_client_zero) (output mqtt_client_zero).

Lemma silent_server_given_up_witness :
  wp (timer_runs 37) (mk_world keeping_client [] [] []) (fun _ w => exists es, timeouts es /\ trace w = es ++ [Connect_callback 9 5 257] /\ conn_state (client w) = TCP_DISCONNECTED).
Proof.
  apply (silent_server_given_up 37 (mk_world keeping_client [] [] []) [] [] []); [|done|done|done].
  pose proof fresh_holds as []. split; [apply ring_zero|by split|done|apply bytes_zero|done].
Defined.
