(* ===== verification/Voice.v ===== *)
(** * The announcement of payments (bsp/stm32f10x/applications/AppVoice.c)

    Amounts are spoken as a sequence of recorded clips: digits, the units ten, hundred,
    thousand and ten thousand, "point" and "yuan".  The clips are a trace.  Payments wait
    in a queue of MAXVOICENUM places, which the thread of the module fills (gsm_comm.c,
    [Gsm]) and the voice thread empties. *)

From S2P Require Import Prelude.

Open Scope Z_scope.

Definition Voice_10 : Z := 10.
Definition Voice_10000 : Z := 13.
Definition Voice_dian : Z := 14.
Definition Voice_yuan : Z := 15.
Definition MAXVOICENUM : Z := 5.

Record stUserPayParam := mk_pay { Money : Z; MoneyType : Z; PayType : Z; UserID : Z; SellerID : Z }.

Record stVoicePaly := mk_voice { PalyParam : list stUserPayParam; HeardIndex : Z; TailIndex : Z }.

(** The queue and the clips that were played. *)
Record voice_state := mk_voice_state { VoicePlay : stVoicePaly; played : list Z }.

Notation V := (M voice_state).

(** The player takes a byte. *)
Definition Voice_Play (addr : Z) : V unit := s ← get; put (mk_voice_state (VoicePlay s) (played s ++ [u8 addr])).

(** The inner loop: [j] is the place that is spoken and [weight] its weight.  It leaves
    the function when only zeros are left; j is unsigned, and place 0 is the last. *)
Fixpoint low_places (Temp : list Z) (Num : Z) (j : nat) (weight : Z) : V unit :=
  t ← of_opt (Temp !! j);
  (if negb (t =? 0) then
     Voice_Play t ;; if 0 <=? Z.of_nat j - 1 then Voice_Play (Voice_10 + Z.of_nat j - 1) else mret tt
   else if weight =? 0 then ub
   else if negb (Num mod weight =? 0) then
     above ← of_opt (Temp !! S j); if negb (above =? 0) then Voice_Play 0 else mret tt
   else mret tt) ;;
  if weight =? 0 then ub else if Num mod weight =? 0 then mret tt else
  match j with O => ub | S j => low_places Temp Num j (weight / 10) end.

(** The outer loop finds the first place that is not 0. *)
Fixpoint low_first (Temp : list Z) (Num : Z) (i : nat) (weight : Z) : V unit :=
  let weight := weight / 10 in
  t ← of_opt (Temp !! i);
  if negb (t =? 0) then low_places Temp Num i weight else
  match i with O => mret tt | S i => low_first Temp Num i weight end.

Definition VoicePlayerLowNum (Num : Z) : V unit :=
  let Num := Num mod 10000 in
  if Num =? 0 then mret tt else
  low_first [Num mod 10; Num mod 100 / 10; Num mod 1000 / 100; Num / 1000] Num 3 10000.

(** The announcement of an amount. *)
Definition play_amount (money : Z) : V unit :=
  let Num0 := money mod 10 in
  let Num1 := money mod 100 in
  let Num2 := money / 100 mod 10000 in
  let Num3 := money / 1000000 in
  VoicePlayerLowNum Num3 ;;
  (if negb (Num3 mod 10000 =? 0) then Voice_Play Voice_10000 else mret tt) ;;
  VoicePlayerLowNum Num2 ;;
  if (Num0 =? 0) && (Num1 =? 0) then Voice_Play Voice_yuan else
  Voice_Play Voice_dian ;;
  VoicePlayerLowNum Num1 ;;
  (if negb (Num0 =? 0) then VoicePlayerLowNum Num0 else mret tt) ;;
  Voice_Play Voice_yuan.

Definition set_head (v : stVoicePaly) h : stVoicePaly := mk_voice (PalyParam v) h (TailIndex v).

Definition VoicePlayHandle : V unit :=
  s ← get; let v := VoicePlay s in
  if HeardIndex v =? TailIndex v then mret tt else
  p ← of_opt (get_at (PalyParam v) (HeardIndex v));
  let h := u8 (HeardIndex v + 1) in
  put (mk_voice_state (set_head v (if h =? MAXVOICENUM then 0 else h)) (played s)) ;;
  play_amount (Money p).

(** ** Numerals *)

(** How a number is spoken: every digit that is not 0 with its unit, and one zero for
    the zeros between two of them. *)
Definition unit_clip (place : nat) : list Z := match place with O => [] | S n => [Voice_10 + Z.of_nat n] end.

Fixpoint words (started zeros : bool) (digits : list Z) : list Z :=
  match digits with
  | [] => []
  | d :: digits =>
      if d =? 0 then words started started digits
      else (if zeros then [0] else []) ++ d :: unit_clip (length digits) ++ words true false digits
  end.

Definition digits4 (n : Z) : list Z := [n / 1000; n mod 1000 / 100; n mod 100 / 10; n mod 10].
Definition numeral (n : Z) : list Z := words false false (digits4 (n mod 10000)).

(** What a listener hears: [c] is the last digit, [s] the sum since the last ten
    thousand, [t] what is before it. *)
Fixpoint heard (t s c : Z) (clips : list Z) : Z :=
  match clips with
  | [] => t + s + c
  | v :: clips =>
      if v <? 10 then heard t s v clips
      else if v <? Voice_10000 then heard t (s + c * 10 ^ (v - 9)) 0 clips
      else if v =? Voice_10000 then heard ((s + c) * 10000) 0 0 clips
      else t + s + c
  end.

(** Appends [l] to what is played. *)
Definition plays (m : V unit) (l : list Z) : Prop := forall v p Q, Q tt (mk_voice_state v (p ++ l)) -> wp m (mk_voice_state v p) Q.

Lemma plays_nil : plays (mret tt) [].
Proof. intros v p Q HQ. rewrite app_nil_r in HQ. by wp_ret. Qed.

Lemma plays_clip x : 0 <= x < 256 -> plays (Voice_Play x) [x].
Proof. intros Hx v p Q HQ. unfold Voice_Play. eapply wp_run; [reflexivity|]. cbn [VoicePlay played]. by rewrite u8_small. Qed.

Lemma plays_bind m m' l l' : plays m l -> plays m' l' -> plays (m ;; m') (l ++ l').
Proof. intros H H' v p Q HQ. wp_bind. apply H, H'. by rewrite <-(assoc_L (++)). Qed.

Lemma plays_eq m l l' : plays m l -> l = l' -> plays m l'.
Proof. by intros ? <-. Qed.

Lemma digits_value n : 0 <= n < 10000 ->
  exists a b c d, digits4 n = [a; b; c; d] /\ n = a * 1000 + b * 100 + c * 10 + d /\ 0 <= a < 10 /\ 0 <= b < 10 /\ 0 <= c < 10 /\ 0 <= d < 10.
Proof. intros Hn. eexists _, _, _, _. split; [reflexivity|]. Z.div_mod_to_equations. lia. Qed.

Lemma plays_of_opt {A} (o : option A) x (f : A -> V unit) l : o = Some x -> plays (f x) l -> plays (of_opt o ≫= f) l.
Proof. intros Ho H v p Q HQ. wp_bind. eapply wp_of_opt; [exact Ho|]. by apply H. Qed.

(** One place of the inner loop, with the digits below it. *)
Lemma plays_place Temp Num j weight x above l : Temp !! j = Some x -> Temp !! S j = above -> 0 <= x < 10 -> (j <= 3)%nat -> 0 < weight ->
  (x = 0 -> Num mod weight <> 0 -> is_Some above) ->
  (Num mod weight <> 0 -> exists k, j = S k /\ plays (low_places Temp Num k (weight / 10)) l) ->
  plays (low_places Temp Num j weight)
    ((if x =? 0 then (if Num mod weight =? 0 then [] else match above with Some y => if y =? 0 then [] else [0] | None => [] end) else x :: unit_clip j) ++
     (if Num mod weight =? 0 then [] else l)).
Proof.
  intros Hx <- Hr Hj Hw Hab Hrest.
  assert (plays (if Num mod weight =? 0 then mret tt else match j with O => ub | S j => low_places Temp Num j (weight / 10) end) (if Num mod weight =? 0 then [] else l)) as Hnext.
  { destruct (Z.eqb_spec (Num mod weight) 0) as [|Hm]; [apply plays_nil|]. destruct (Hrest Hm) as (k & -> & Hk). exact Hk. }
  destruct j; cbn [low_places]; (eapply plays_of_opt; [exact Hx|]); rewrite (proj2 (Z.eqb_neq weight 0)) by lia; (apply plays_bind; [|exact Hnext]);
    (destruct (Z.eqb_spec x 0) as [->|Hx0]; cbn [negb];
     [destruct (Z.eqb_spec (Num mod weight) 0) as [|Hm]; cbn [negb]; [apply plays_nil|]; destruct (Hab eq_refl Hm) as [y Hy]; rewrite Hy; (eapply plays_of_opt; [reflexivity|]); destruct (y =? 0); cbn [negb]; [apply plays_nil|by apply plays_clip]|]).
  - apply (plays_bind _ _ [x] []); [apply plays_clip; lia|apply plays_nil].
  - apply (plays_bind _ _ [x] (unit_clip (S j))); [apply plays_clip; lia|]. rewrite (proj2 (Z.leb_le 0 _)) by lia. cbn [unit_clip].
    replace (Voice_10 + Z.of_nat (S j) - 1) with (Voice_10 + Z.of_nat j) by lia. apply plays_clip. unfold Voice_10. lia.
Qed.

(** The cases of the digits, with equal clips. *)
Ltac numeral_cases :=
  cbn [words unit_clip length];
  repeat match goal with |- context [?x =? ?y] => destruct (Z.eqb_spec x y); try lia end; done.

Lemma plays_number n : 0 <= n -> plays (VoicePlayerLowNum n) (numeral n).
Proof.
  intros Hn. unfold VoicePlayerLowNum, numeral. cbv zeta. pose proof (Z.mod_pos_bound n 10000 ltac:(done)) as Hr. revert Hr. generalize (n mod 10000). clear n Hn. intros n Hn.
  destruct (Z.eqb_spec n 0) as [->|H0]; [apply plays_nil|]. destruct (digits_value n Hn) as (a & b & c & d & Hd & Hv & Ha & Hb & Hc & Hdd). rewrite Hd. unfold digits4 in Hd. injection Hd as -> -> -> ->.
  assert (n mod 1000 = b * 100 + c * 10 + d) as H3 by (symmetry; apply Z.mod_unique with a; lia).
  assert (n mod 100 = c * 10 + d) as H2 by (symmetry; apply Z.mod_unique with (a * 10 + b); lia).
  assert (n mod 10 = d) as H1 by (symmetry; apply Z.mod_unique with (a * 100 + b * 10 + c); lia).
  set (T := [d; c; b; a]). assert (n mod 1 = 0) as H4 by apply Z.mod_1_r.
  pose proof (plays_place T n 0 1 d (Some c) [] eq_refl eq_refl Hdd ltac:(lia) ltac:(lia) ltac:(by eexists) ltac:(by rewrite H4)) as P0. rewrite H4 in P0.
  pose proof (plays_place T n 1 10 c (Some b) _ eq_refl eq_refl Hc ltac:(lia) ltac:(lia) ltac:(by eexists) ltac:(intros _; by exists 0%nat)) as P1. rewrite H1 in P1.
  pose proof (plays_place T n 2 100 b (Some a) _ eq_refl eq_refl Hb ltac:(lia) ltac:(lia) ltac:(by eexists) ltac:(intros _; by exists 1%nat)) as P2. rewrite H2 in P2.
  assert (a <> 0 -> plays (low_places T n 3 1000) (words false false [a; b; c; d])) as Q3.
  { intros Ha0. pose proof (plays_place T n 3 1000 a None _ eq_refl eq_refl Ha ltac:(lia) ltac:(lia) ltac:(done) ltac:(intros _; by exists 2%nat)) as P3. rewrite H3 in P3.
    eapply plays_eq; [exact P3|]. clear -Ha0 Ha Hb Hc Hdd. numeral_cases. }
  assert (a = 0 -> b <> 0 -> plays (low_places T n 2 100) (words false false [a; b; c; d])) as Q2 by (intros; eapply plays_eq; [exact P2|]; clear P0 P1 P2; numeral_cases).
  assert (a = 0 -> b = 0 -> c <> 0 -> plays (low_places T n 1 10) (words false false [a; b; c; d])) as Q1 by (intros; eapply plays_eq; [exact P1|]; clear P0 P1 P2; numeral_cases).
  assert (a = 0 -> b = 0 -> c = 0 -> plays (low_places T n 0 1) (words false false [a; b; c; d])) as Q0 by (intros; eapply plays_eq; [exact P0|]; clear P0 P1 P2; numeral_cases).
  cbn [low_first]. change (10000 / 10) with 1000. change (1000 / 10) with 100. change (100 / 10) with 10. change (10 / 10) with 1.
  eapply plays_of_opt; [reflexivity|]. destruct (Z.eqb_spec a 0) as [Ha0|Ha0]; cbn [negb]; [|by apply Q3].
  eapply plays_of_opt; [reflexivity|]. destruct (Z.eqb_spec b 0) as [Hb0|Hb0]; cbn [negb]; [|by apply Q2].
  eapply plays_of_opt; [reflexivity|]. destruct (Z.eqb_spec c 0) as [Hc0|Hc0]; cbn [negb]; [|by apply Q1].
  eapply plays_of_opt; [reflexivity|]. rewrite (proj2 (Z.eqb_neq d 0)) by lia. by apply Q0.
Qed.

Lemma heard_numeral n t rest : 0 <= n -> heard t 0 0 (numeral n ++ rest) = heard t (n mod 10000 - n mod 10) (n mod 10) rest.
Proof.
  intros Hn. unfold numeral. pose proof (Z.mod_pos_bound n 10000 ltac:(done)) as Hr. assert (n mod 10 = (n mod 10000) mod 10) as ->.
  { symmetry. apply Z.mod_mod_divide. by exists 1000. }
  generalize dependent (n mod 10000). clear n Hn. intros n Hn. destruct (digits_value n Hn) as (a & b & c & d & Hd & Hv & Ha & Hb & Hc & Hdd). rewrite Hd. unfold digits4 in Hd. injection Hd as Hda Hdb Hdc Hdd'. rewrite Hdd'.
  cbn [words unit_clip length].
  assert (forall x, 0 <= x < 10 -> forall t s c l, heard t s c (x :: l) = heard t s x l) as digit by (intros x Hx *; cbn [heard]; by rewrite (proj2 (Z.ltb_lt x 10)) by lia).
  assert (forall k t s c l, (k < 3)%nat -> heard t s c (Voice_10 + Z.of_nat k :: l) = heard t (s + c * 10 ^ (Z.of_nat k + 1)) 0 l) as unit.
  { intros k t' s c' l Hk. cbn [heard]. unfold Voice_10, Voice_10000. rewrite (proj2 (Z.ltb_ge _ _)), (proj2 (Z.ltb_lt _ _)) by lia. by replace (10 + Z.of_nat k - 9) with (Z.of_nat k + 1) by lia. }
  repeat match goal with |- context [?x =? 0] => destruct (Z.eqb_spec x 0) end;
    cbn [app]; rewrite ?digit, ?unit by lia; repeat (rewrite ?digit, ?unit by lia; cbn [app]); f_equal; lia.
Qed.

(** ** Amounts *)

Definition announcement (money : Z) : list Z :=
  numeral (money / 1000000) ++ (if money / 1000000 =? 0 then [] else [Voice_10000]) ++ numeral (money / 100) ++
  (if money mod 100 =? 0 then [Voice_yuan] else Voice_dian :: numeral (money mod 100) ++ (if money mod 10 =? 0 then [] else numeral (money mod 10)) ++ [Voice_yuan]).

Lemma plays_announcement money : 0 <= money < 2 ^ 32 -> plays (play_amount money) (announcement money).
Proof.
  intros Hm. unfold play_amount, announcement. cbv zeta. assert (0 <= money / 1000000 < 10000) as H3 by (Z.div_mod_to_equations; lia).
  apply plays_bind; [apply plays_number; lia|]. rewrite (Z.mod_small (money / 1000000)) by lia.
  apply plays_bind; [destruct (money / 1000000 =? 0); cbn [negb]; [apply plays_nil|by apply plays_clip]|].
  apply plays_bind.
  { eapply plays_eq; [apply plays_number; Z.div_mod_to_equations; lia|]. unfold numeral. by rewrite Z.mod_mod. }
  replace ((money mod 10 =? 0) && (money mod 100 =? 0)) with (money mod 100 =? 0).
  2:{ destruct (Z.eqb_spec (money mod 100) 0), (Z.eqb_spec (money mod 10) 0); try done. Z.div_mod_to_equations. lia. }
  destruct (money mod 100 =? 0); [by apply plays_clip|]. apply (plays_bind _ _ [Voice_dian]); [by apply plays_clip|].
  apply plays_bind; [apply plays_number; Z.div_mod_to_equations; lia|].
  apply plays_bind; [|by apply plays_clip]. destruct (money mod 10 =? 0); cbn [negb]; [apply plays_nil|apply plays_number; Z.div_mod_to_equations; lia].
Qed.

Lemma heard_announcement money : 0 <= money < 2 ^ 32 -> heard 0 0 0 (announcement money) = money / 100.
Proof.
  intros Hm. unfold announcement. assert (0 <= money / 1000000 < 10000) as H3 by (Z.div_mod_to_equations; lia).
  rewrite heard_numeral by lia. rewrite (Z.mod_small (money / 1000000)) by lia.
  assert (forall t s c l, heard t s c (Voice_yuan :: l) = t + s + c /\ heard t s c (Voice_dian :: l) = t + s + c) as Hend by done.
  assert (heard 0 (money / 1000000 - (money / 1000000) mod 10) ((money / 1000000) mod 10) ((if money / 1000000 =? 0 then [] else [Voice_10000]) ++ numeral (money / 100) ++
    (if money mod 100 =? 0 then [Voice_yuan] else Voice_dian :: numeral (money mod 100) ++ (if money mod 10 =? 0 then [] else numeral (money mod 10)) ++ [Voice_yuan]))
    = heard (money / 1000000 * 10000) 0 0 (numeral (money / 100) ++
    (if money mod 100 =? 0 then [Voice_yuan] else Voice_dian :: numeral (money mod 100) ++ (if money mod 10 =? 0 then [] else numeral (money mod 10)) ++ [Voice_yuan]))) as ->.
  { destruct (Z.eqb_spec (money / 1000000) 0) as [->|Hne]; [done|]. cbn [app heard]. change (Voice_10000 <? 10) with false. change (Voice_10000 <? Voice_10000) with false. rewrite Z.eqb_refl. f_equal. lia. }
  rewrite heard_numeral by (apply Z.div_pos; lia).
  assert (money / 1000000 * 10000 + ((money / 100) mod 10000 - (money / 100) mod 10) + (money / 100) mod 10 = money / 100) as Heq.
  { replace (money / 1000000) with (money / 100 / 10000) by (by rewrite Z.div_div). pose proof (Z.div_mod (money / 100) 10000). lia. }
  destruct (money mod 100 =? 0); [rewrite (proj1 (Hend _ _ _ _))|rewrite (proj2 (Hend _ _ _ _))]; exact Heq.
Qed.

(** ** The queue *)

(** [q] waits: the places from the head on, around the end of the array. *)
Definition queued (v : stVoicePaly) (q : list stUserPayParam) : Prop :=
  Zlen (PalyParam v) = MAXVOICENUM /\ 0 <= HeardIndex v < MAXVOICENUM /\ Zlen q < MAXVOICENUM /\ TailIndex v = (HeardIndex v + Zlen q) mod MAXVOICENUM /\
  forall i p, q !! i = Some p -> PalyParam v !! Z.to_nat ((HeardIndex v + Z.of_nat i) mod MAXVOICENUM) = Some p.

Lemma queued_nil v : queued v [] -> HeardIndex v = TailIndex v.
Proof. intros (_ & Hh & _ & Ht & _). rewrite Ht. change (Zlen []) with 0. rewrite Z.add_0_r, Z.mod_small; [done|exact Hh]. Qed.

Lemma queued_cons v p q : queued v (p :: q) ->
  HeardIndex v <> TailIndex v /\ get_at (PalyParam v) (HeardIndex v) = Some p /\
  queued (set_head v (if u8 (HeardIndex v + 1) =? MAXVOICENUM then 0 else u8 (HeardIndex v + 1))) q.
Proof.
  intros (Hl & Hh & Hq & Ht & Hi). rewrite Zlen_cons in Hq, Ht. pose proof (Zlen_nonneg q). unfold MAXVOICENUM in *.
  assert (forall n, 0 <= n -> (HeardIndex v + (1 + n)) mod 5 = ((if u8 (HeardIndex v + 1) =? 5 then 0 else u8 (HeardIndex v + 1)) + n) mod 5) as Hnext.
  { intros n Hn. rewrite u8_small by lia. destruct (Z.eqb_spec (HeardIndex v + 1) 5); [|f_equal; lia]. replace (HeardIndex v + (1 + n)) with (0 + n + 1 * 5) by lia. by rewrite Z.mod_add. }
  split; [|split].
  - rewrite Ht. intros Heq. assert (HeardIndex v mod 5 = HeardIndex v) as Hm by (apply Z.mod_small; lia). Z.div_mod_to_equations. lia.
  - specialize (Hi 0%nat p eq_refl). rewrite Z.add_0_r, Z.mod_small in Hi by lia. unfold get_at. rewrite (proj2 (Z.leb_le 0 _)) by lia. exact Hi.
  - unfold queued, set_head. cbn [PalyParam HeardIndex TailIndex]. change MAXVOICENUM with 5. split; [done|]. split; [rewrite u8_small by lia; destruct (Z.eqb_spec (HeardIndex v + 1) 5); lia|]. split; [lia|].
    split; [rewrite Ht; apply Hnext; lia|]. intros i p' Hp'. specialize (Hi (S i) p' Hp'). rewrite Nat2Z.inj_succ in Hi. unfold Z.succ in Hi. rewrite (Z.add_comm (Z.of_nat i) 1), Hnext in Hi by lia. exact Hi.
Qed.

Lemma queued_push v q p pl : queued v q -> Zlen q + 1 < MAXVOICENUM -> pl = <[Z.to_nat (TailIndex v) := p]> (PalyParam v) ->
  queued (mk_voice pl (HeardIndex v) ((TailIndex v + 1) mod MAXVOICENUM)) (q ++ [p]).
Proof.
  intros (Hl & Hh & Hq & Ht & Hi) Hroom ->. pose proof (Zlen_nonneg q). unfold MAXVOICENUM in *. unfold queued. cbn [PalyParam HeardIndex TailIndex]. unfold MAXVOICENUM.
  assert (0 <= TailIndex v < 5) as Htb by (rewrite Ht; by apply Z.mod_pos_bound).
  split; [unfold Zlen in *; by rewrite length_insert|]. split; [done|]. rewrite Zlen_app. change (Zlen [p]) with 1. split; [lia|].
  split; [rewrite Ht, Zplus_mod_idemp_l; f_equal; lia|]. intros i p' Hp'. apply lookup_app_Some in Hp' as [Hp'|[Hge Hp']].
  - rewrite list_lookup_insert_ne; [by apply Hi|]. apply lookup_lt_Some in Hp'. rewrite Ht. intros Heq%(f_equal Z.of_nat). rewrite !Z2Nat.id in Heq by (by apply Z.mod_pos_bound).
    unfold Zlen in *. Z.div_mod_to_equations. lia.
  - destruct (i - length q)%nat as [|k] eqn:Hk; [|done]. cbn in Hp'. simplify_eq. replace ((HeardIndex v + Z.of_nat i) mod 5) with (TailIndex v) by (rewrite Ht; unfold Zlen; f_equal; lia).
    apply list_lookup_insert_eq. unfold Zlen in Hl. lia.
Qed.

(** C31: VoicePlayHandle does nothing when no payment waits; otherwise it takes the first
    one and plays its announcement, in which a listener hears the yuan of the amount, and
    after them, when the amount is a whole number of yuan, only the word yuan. *)
Theorem payment_announced v q p : queued v q -> Forall (fun x => 0 <= Money x < 2 ^ 32) q ->
  wp VoicePlayHandle (mk_voice_state v p) (fun _ s =>
    match q with
    | [] => s = mk_voice_state v p
    | x :: q => queued (VoicePlay s) q /\ played s = p ++ announcement (Money x) /\ heard 0 0 0 (announcement (Money x)) = Money x / 100 /\
        (Money x mod 100 = 0 -> announcement (Money x) = numeral (Money x / 1000000) ++ (if Money x / 1000000 =? 0 then [] else [Voice_10000]) ++ numeral (Money x / 100) ++ [Voice_yuan])
    end).
Proof.
  intros Hq Hm. unfold VoicePlayHandle. wp_bind. eapply wp_run; [reflexivity|]. cbv beta. cbn [VoicePlay played]. destruct q as [|x q].
  - rewrite (queued_nil _ Hq), Z.eqb_refl. by wp_ret.
  - apply queued_cons in Hq as (Hne & Hg & Hq). rewrite (proj2 (Z.eqb_neq _ _)) by done. apply Forall_cons in Hm as [Hx _]. cbv beta in Hx.
    wp_bind. eapply wp_of_opt; [exact Hg|]. cbv zeta. wp_bind. eapply wp_run; [reflexivity|]. cbv beta. apply (plays_announcement _ Hx). cbn [VoicePlay played].
    split; [exact Hq|]. split; [done|]. split; [by apply heard_announcement|].
    intros H0. unfold announcement. by rewrite H0.
Qed.

(** 50300.00 yuan: five, ten thousand, three, hundred, yuan. *)
Lemma payment_announced_witness :
  wp VoicePlayHandle (mk_voice_state (mk_voice (repeat (mk_pay 5030000 1 2 3 4) 5) 4 0) []) (fun _ s =>
    queued (VoicePlay s) [] /\ played s = [5; 13; 3; 11; 15] /\ heard 0 0 0 [5; 13; 3; 11; 15] = 50300 /\
    (0 = 0 -> announcement 5030000 = [5] ++ [13] ++ [3; 11] ++ [15])).
Proof.
  apply (payment_announced (mk_voice (repeat (mk_pay 5030000 1 2 3 4) 5) 4 0) [mk_pay 5030000 1 2 3 4] []); [|by repeat constructor].
  unfold queued. cbn [PalyParam HeardIndex TailIndex]. do 4 (split; [done|]). intros [|i] p; [|done]. intros [= <-]. done.
Defined.

(** One cent: point, one, one, yuan. *)
Lemma cents_are_spoken_twice : announcement 1 = [14; 1; 1; 15].
Proof. done. Qed.
