(* ===== verification/Gsm.v ===== *)
(** * Frames of the payment server (bsp/stm32f10x/applications/gsm_comm.c)

    The server sends frames through the module: two header bytes, a length, an order, a
    state, data, a sum and two tail bytes.  A callback receives them byte by byte, the
    thread of the module polls for a frame, tests it and calls the handler of its order:
    the answer to the registration, the heartbeat, or a payment, which is put into the
    queue of the announcements ([Voice]) and acknowledged with an MQTT packet.

    The model leaves out the two buffers that only log the last bytes, the messages on
    the console and the time that calls take. *)

From S2P Require Import Prelude Voice.

Open Scope Z_scope.

(** ** Constants *)

Definition MAXRXNUM : Z := 512.
Definition MAXPROTOCOL : nat := 10.
Definition ReceiveDataHandled : Z := 0.
Definition ReceiveFistHeard : Z := 1.
Definition ReceiveSecondHeard : Z := 2.
Definition ReceiveOnePackedData : Z := 3.
Definition ReceiveOverTime : Z := 100000.
Definition OverTimes : Z := 60.
Definition OneOverTime : Z := 1000.
Definition POWER_REST : Z := 0.

(** ** Data *)

Record stECEIVE := mk_receive {
  pRXBuf : option (list Z); RXBufSize : Z; RX_index : Z; ReceiveStation : Z; ReceiveEnable : Z;
  FirstHeard : Z; SecondHeard : Z; FirstTail : Z; SecondTail : Z; ReceiveStartTime : Z }.

Record stHeartOverTime := mk_heart { HeartBeartWaitTimes : Z; HeartBWTStartMark : Z; LastHeartTick : Z }.

(** The variables of the thread; [tick] is the time of the system, [writes] what the
    device was given. *)
Record gsm := mk_gsm {
  GSM_TransparentRX : stECEIVE; ATRX : stECEIVE; ConnectStation : Z; TryTimes : Z; RegistMark : Z; DeviceID : list Z;
  HeartOverTime : stHeartOverTime; Payments : stVoicePaly; TxBuf : list Z; tick : Z; writes : list (list Z) }.

Notation G := (M gsm).

Definition set_rx_struct (g : gsm) r := mk_gsm r (ATRX g) (ConnectStation g) (TryTimes g) (RegistMark g) (DeviceID g) (HeartOverTime g) (Payments g) (TxBuf g) (tick g) (writes g).
Definition set_connect (g : gsm) st tries := mk_gsm (GSM_TransparentRX g) (ATRX g) st tries (RegistMark g) (DeviceID g) (HeartOverTime g) (Payments g) (TxBuf g) (tick g) (writes g).
Definition set_system (g : gsm) mark id := mk_gsm (GSM_TransparentRX g) (ATRX g) (ConnectStation g) (TryTimes g) mark id (HeartOverTime g) (Payments g) (TxBuf g) (tick g) (writes g).
Definition set_heart (g : gsm) h := mk_gsm (GSM_TransparentRX g) (ATRX g) (ConnectStation g) (TryTimes g) (RegistMark g) (DeviceID g) h (Payments g) (TxBuf g) (tick g) (writes g).
Definition set_payments (g : gsm) v := mk_gsm (GSM_TransparentRX g) (ATRX g) (ConnectStation g) (TryTimes g) (RegistMark g) (DeviceID g) (HeartOverTime g) v (TxBuf g) (tick g) (writes g).
Definition set_sent (g : gsm) b ws := mk_gsm (GSM_TransparentRX g) (ATRX g) (ConnectStation g) (TryTimes g) (RegistMark g) (DeviceID g) (HeartOverTime g) (Payments g) b (tick g) ws.

Definition update (f : gsm -> gsm) : G unit := g ← get; put (f g).
Definition device_send (l : list Z) : G Z := update (fun g => set_sent g (TxBuf g) (writes g ++ [l])) ;; mret (Zlen l).

(** ** Receiving *)

Definition receive_at (r : stECEIVE) (buf : list Z) (index station : Z) : stECEIVE :=
  mk_receive (Some buf) (RXBufSize r) index station (ReceiveEnable r) (FirstHeard r) (SecondHeard r) (FirstTail r) (SecondTail r) (ReceiveStartTime r).

(** The buffer always has MAXRXNUM bytes cleared, whatever its size. *)
Definition RXStructInit (r : stECEIVE) (h1 h2 t1 t2 : Z) (buf : option (list Z)) (len : Z) : option (Z * stECEIVE) :=
  match buf with
  | None => Some (0xff, mk_receive None len (RX_index r) (ReceiveStation r) (ReceiveEnable r) (FirstHeard r) (SecondHeard r) (FirstTail r) (SecondTail r) (ReceiveStartTime r))
  | Some b => b' ← write_at b 0 (repeat 0 (Z.to_nat MAXRXNUM)); Some (0, mk_receive (Some b') len 0 0 1 h1 h2 t1 t2 (ReceiveStartTime r))
  end.

Definition RX_Loop (r : stECEIVE) (x : Z) : option stECEIVE :=
  buf ← pRXBuf r;
  if ReceiveStation r =? ReceiveDataHandled then
    if x =? FirstHeard r then buf ← set_at buf 0 x; Some (receive_at r buf 1 ReceiveFistHeard) else Some r
  else if ReceiveStation r =? ReceiveFistHeard then
    if x =? SecondHeard r then buf ← set_at buf (RX_index r) x; Some (receive_at r buf (u32 (RX_index r + 1)) ReceiveSecondHeard)
    else Some (receive_at r buf 0 ReceiveDataHandled)
  else if ReceiveStation r =? ReceiveSecondHeard then
    if RX_index r <? RXBufSize r then
      buf ← set_at buf (RX_index r) x;
      tail ← (if x =? SecondTail r then y ← get_at buf (RX_index r - 1); Some (y =? FirstTail r) else Some false);
      Some (receive_at r buf (u32 (RX_index r + 1)) (if tail : bool then ReceiveOnePackedData else ReceiveSecondHeard))
    else Some r
  else Some r.

Definition GSMRXCallBack (x : Z) : G unit :=
  g ← get; let r := GSM_TransparentRX g in
  if (ReceiveEnable r =? 1) && bool_decide (is_Some (pRXBuf r)) then r ← of_opt (RX_Loop r x); put (set_rx_struct g r) else mret tt.

(** GSMInit, without the pins. *)
Definition GSMInit (BuffRX CommBuff : list Z) : G unit :=
  g ← get;
  '(_, at_rx) ← of_opt (RXStructInit (ATRX g) 0x0D 0x0A 0x0D 0x0A (Some BuffRX) MAXRXNUM);
  '(_, rx) ← of_opt (RXStructInit (GSM_TransparentRX g) 0x64 0x7A 0x7A 0x64 (Some CommBuff) MAXRXNUM);
  let at_rx := mk_receive (pRXBuf at_rx) (RXBufSize at_rx) (RX_index at_rx) (ReceiveStation at_rx) 0 (FirstHeard at_rx) (SecondHeard at_rx) (FirstTail at_rx) (SecondTail at_rx) (ReceiveStartTime at_rx) in
  put (mk_gsm rx at_rx 0 0 (RegistMark g) (DeviceID g) (HeartOverTime g) (Payments g) (TxBuf g) (tick g) (writes g)).

Definition ReStartReceive : G unit :=
  g ← get; let r := GSM_TransparentRX g in
  b ← (match pRXBuf r with
       | Some b => b ← of_opt (write_at b 0 (repeat 0 (Z.to_nat (RXBufSize r)))); mret (Some b)
       | None => if RXBufSize r =? 0 then mret None else ub
       end);
  put (set_rx_struct g (mk_receive b (RXBufSize r) 0 0 1 (FirstHeard r) (SecondHeard r) (FirstTail r) (SecondTail r) 0)).

Definition CheckSum (l : list Z) : Z := fold_left (fun sum x => u8 (sum + x)) l 0.

(** ** Sending *)

Definition le16_bytes (v : Z) : list Z := [u8 v; u8 (Z.shiftr v 8)].
Definition le32_bytes (v : Z) : list Z := [u8 v; u8 (Z.shiftr v 8); u8 (Z.shiftr v 16); u8 (Z.shiftr v 24)].
Definition le32_at (b : list Z) (i : Z) : option Z :=
  b0 ← get_at b i; b1 ← get_at b (i + 1); b2 ← get_at b (i + 2); b3 ← get_at b (i + 3);
  Some (b0 + b1 * 256 + b2 * 65536 + b3 * 16777216).

Definition TestBuf : list Z := [0x32; 0x10; 0x00; 0x06; 0x53; 0x65; 0x72; 0x76; 0x65; 0x72; 0x00; 0x01; 0xAA; 0xBB; 0xCC; 0xDD; 0xEE; 0xFF].

(** "Server" *)
Definition Server : list Z := [0x53; 0x65; 0x72; 0x76; 0x65; 0x72].

(** The lengths are single bytes; the buffer has 256. *)
Definition MQTT_SUBSCRIBESent (TargetDevice DataBuf : list Z) : G Z :=
  let DataLen := Zlen DataBuf in
  if 230 <? DataLen then mret (-1) else
  let Lenth := u8 (Zlen TargetDevice) in
  if 256 <? 6 + Lenth + DataLen then ub else
  let buf := [0x32; u8 (2 + Lenth + 2 + DataLen); u8 (Z.land (Z.shiftr Lenth 8) 0x00ff); u8 (Z.land Lenth 0x00ff)] ++ take (Z.to_nat Lenth) TargetDevice ++ [0x00; 0x01] ++ DataBuf in
  device_send (take (Z.to_nat (u8 (2 + 2 + Lenth + 2 + DataLen))) (buf ++ repeat 0 250)).

(** ** Handlers *)

Inductive handler := RegisetBack | HeartBeat | GetParam.

(** The table: the places that are not used have the order 0 and no function. *)
Definition ProTocolRegist : list (Z * option handler) :=
  <[8%nat := (8, Some HeartBeat)]> (<[1%nat := (1, Some RegisetBack)]> (<[7%nat := (7, Some GetParam)]> (repeat (0, None) MAXPROTOCOL))).

Definition TLV_RegisetBack : G unit := update (fun g => set_heart (set_system g 1 (DeviceID g)) (mk_heart (HeartBeartWaitTimes (HeartOverTime g)) 1 (tick g))).

(** A frame for the server: the sum covers everything between header and sum. *)
Definition gsm_frame (body : list Z) : list Z := le16_bytes 0x7A64 ++ body ++ [CheckSum body] ++ le16_bytes 0x647A.

Definition TLV_HeartBeat : G unit :=
  g ← get;
  let HeartBeatTX := gsm_frame (le16_bytes 0x0c00 ++ le16_bytes 0x0800 ++ le16_bytes 0x0000 ++ take 8 (DeviceID g)) in
  b ← of_opt (write_at (TxBuf g) 0 HeartBeatTX); put (set_sent g b (writes g)) ;;
  device_send HeartBeatTX ;; mret tt.

(** A payment in the receive buffer, at its offsets in the packed structure. *)
Definition payment_at (b : list Z) : option stUserPayParam :=
  money ← le32_at b 8; mtype ← get_at b 12; ptype ← get_at b 13; user ← le32_at b 14; seller ← le32_at b 18;
  Some (mk_pay money mtype ptype user seller).

Definition payment_bytes (p : stUserPayParam) : list Z := le32_bytes (Money p) ++ [MoneyType p; PayType p] ++ le32_bytes (UserID p) ++ le32_bytes (SellerID p).

(** When the queue is full the pointer to the payment has no value. *)
Definition TLV_GetParam : G unit :=
  g ← get; let v := Payments g in
  let t := u8 (TailIndex v + 1) in
  let t := if t =? MAXVOICENUM then 0 else t in
  if t =? HeardIndex v then ub else
  b ← of_opt (pRXBuf (GSM_TransparentRX g)); p ← of_opt (payment_at b); pl ← of_opt (set_at (PalyParam v) (TailIndex v) p);
  let SentParam := gsm_frame (le16_bytes 0x1A00 ++ le16_bytes 0x0700 ++ le16_bytes 0x0000 ++ take 8 (DeviceID g) ++ payment_bytes p) in
  b ← of_opt (write_at (TxBuf g) 0 SentParam);
  put (set_sent (set_payments g (mk_voice pl (HeardIndex v) t)) b (writes g)) ;;
  device_send TestBuf ;; MQTT_SUBSCRIBESent Server SentParam ;; mret tt.

Definition call_handler (h : handler) : G unit := match h with RegisetBack => TLV_RegisetBack | HeartBeat => TLV_HeartBeat | GetParam => TLV_GetParam end.

Fixpoint find_protocol (table : list (Z * option handler)) (order : Z) : option (option handler) :=
  match table with [] => None | (o, h) :: table => if o =? order then Some h else find_protocol table order end.

Definition protocolHandle (order : Z) : G Z :=
  match find_protocol ProTocolRegist order with
  | None => mret (-1)
  | Some h => match h with Some h => call_handler h | None => mret tt end ;; mret 0
  end.

(** ** Polling *)

(** What is received is tested and handled; a frame that is not complete is thrown away. *)
Definition ReceiveDataHandle : G unit :=
  g ← get; let r := GSM_TransparentRX g in
  if ReceiveStation r =? 0 then ReStartReceive else
  if negb (ReceiveStation r =? 3) && (ReceiveOverTime <? u32 (tick g - ReceiveStartTime r)) then ReStartReceive else
  if RX_index r <? 7 then ReStartReceive else
  b ← of_opt (pRXBuf r); l0 ← of_opt (get_at b 2); l1 ← of_opt (get_at b 3);
  let DataLen := l0 * 255 + l1 in
  if (RX_index r - 7 <? DataLen) || (RXBufSize r - 7 <? DataLen) then ReStartReceive else
  sum ← of_opt (get_at b (RX_index r - 3)); body ← of_opt (read_at b 2 (RX_index r - 5));
  if negb (sum =? CheckSum body) then ReStartReceive else
  o0 ← of_opt (get_at b 4); o1 ← of_opt (get_at b 5);
  protocolHandle (u16 (o0 * 255 + o1)) ;; ReStartReceive.

(** ** The heartbeat of the server *)

(** The two last calls clear from the address of a pointer for the length of a buffer:
    with a buffer they write outside the variable. *)
Definition WaitHeartOvertimeHandle : G unit :=
  update (fun g => set_heart (set_system (set_connect g POWER_REST 0) 0 (repeat 0 8)) (mk_heart 0 0 0)) ;;
  g ← get; if RXBufSize (ATRX g) =? 0 then mret tt else ub.

Definition HeartOverTimeCheck : G unit :=
  g ← get; let h := HeartOverTime g in
  if HeartBWTStartMark h =? 1 then
    let passed := u32 (tick g - LastHeartTick h) in
    if OneOverTime <? passed then
      let waits := u8 (HeartBeartWaitTimes h + passed / OneOverTime) in
      put (set_heart g (mk_heart waits (HeartBWTStartMark h) (tick g))) ;;
      if OverTimes <? waits then WaitHeartOvertimeHandle else mret tt
    else mret tt
  else mret tt.
