(* ===== verification/GsmFrames.v ===== *)
(** * What the frames of the payment server do

    The receiver never leaves its buffer and finds a frame between other bytes; a payment
    that arrives is queued for its announcement and acknowledged with an MQTT packet. *)

From S2P Require Import Prelude Voice LwClient LwPublish Gsm.

Open Scope Z_scope.

(** ** The receiver *)

(** [got] has been received; the marks are those of GSMInit. *)
Record receiving (r : stECEIVE) (station : Z) (got : list Z) : Prop := {
  re_buf : exists rest, pRXBuf r = Some (got ++ rest) /\ Zlen got + Zlen rest = MAXRXNUM;
  re_size : RXBufSize r = MAXRXNUM;
  re_index : RX_index r = Zlen got;
  re_station : ReceiveStation r = station;
  re_enable : ReceiveEnable r = 1;
  re_marks : FirstHeard r = 0x64 /\ SecondHeard r = 0x7A /\ FirstTail r = 0x7A /\ SecondTail r = 0x64;
}.

Fixpoint receive_bytes (l : list Z) : G unit := match l with [] => mret tt | x :: l => GSMRXCallBack x ;; receive_bytes l end.

Lemma wp_callback g st got x Q : receiving (GSM_TransparentRX g) st got -> wp (of_opt (RX_Loop (GSM_TransparentRX g) x)) g (fun r _ => Q tt (set_rx_struct g r)) -> wp (GSMRXCallBack x) g Q.
Proof.
  intros [(rest & Hb & _) _ _ _ He _] HQ. unfold GSMRXCallBack. wp_bind. eapply wp_run; [reflexivity|]. cbv beta. rewrite He, Hb, Z.eqb_refl, bool_decide_true by done. cbn [andb].
  wp_bind. unfold of_opt in *. revert HQ. destruct (RX_Loop (GSM_TransparentRX g) x); unfold wp; done.
Qed.

Lemma wp_receive_app l l' g Q : wp (receive_bytes l) g (fun _ g' => wp (receive_bytes l') g' Q) -> wp (receive_bytes (l ++ l')) g Q.
Proof.
  revert g. induction l as [|x l IH]; intros g H; cbn [receive_bytes app] in *; [exact H|].
  wp_bind. unfold wp in H |- *. unfold mbind, M_bind in H. destruct (GSMRXCallBack x g) as [[[] g']|]; [|done]. by apply IH.
Qed.

(** Bytes that are not the first of a header are skipped. *)
Lemma wp_noise l g Q : receiving (GSM_TransparentRX g) 0 [] -> 0x64 ∉ l -> Q tt g -> wp (receive_bytes l) g Q.
Proof.
  intros Hr. induction l as [|x l IH]; intros Hn HQ; cbn [receive_bytes]; [by wp_ret|]. apply not_elem_of_cons in Hn as [Hx Hn].
  wp_bind. eapply wp_callback; [exact Hr|]. destruct Hr as [(rest & Hb & _) _ _ Hst _ (Hm & _)]. unfold RX_Loop. rewrite Hb, Hst, Hm. cbn [mbind option_bind].
  change (0 =? ReceiveDataHandled) with true. cbn beta iota. rewrite (proj2 (Z.eqb_neq x 0x64)) by done. unfold wp, of_opt.
  replace (set_rx_struct g (GSM_TransparentRX g)) with g by (by destruct g). by apply IH.
Qed.

(** One byte more in the buffer. *)
Lemma received_more r got rest x st st' : receiving r st got -> pRXBuf r = Some (got ++ rest) -> rest <> [] ->
  exists buf, set_at (got ++ rest) (RX_index r) x = Some buf /\ receiving (receive_at r buf (u32 (RX_index r + 1)) st') st' (got ++ [x]) /\
    forall got' y, got = got' ++ [y] -> get_at buf (RX_index r - 1) = Some y.
Proof.
  intros [(rest' & Hb & Hl) Hs Hi Hst He Hm] Hb' Hne. assert (rest' = rest) as -> by (rewrite Hb in Hb'; injection Hb' as Heq; by apply app_inv_head in Heq). destruct rest as [|y rest]; [done|]. rewrite Hi.
  exists (got ++ x :: rest). split; [by apply set_at_mid|]. rewrite Zlen_cons in Hl. pose proof (Zlen_nonneg got). pose proof (Zlen_nonneg rest). unfold MAXRXNUM in Hl.
  split.
  - split; cbn; [exists rest; split; [by rewrite <-(assoc_L (++))|rewrite Zlen_app; change (Zlen [x]) with 1; unfold MAXRXNUM; lia]|done|rewrite Zlen_app; change (Zlen [x]) with 1; apply u32_small; lia|done|done|done].
  - intros got' y' ->. rewrite <-(assoc_L (++)). apply get_at_mid. rewrite Zlen_app. change (Zlen [y']) with 1. lia.
Qed.

(** The tail of a frame does not occur. *)
Definition tail_free (l : list Z) : Prop := forall a b, l <> a ++ 0x7A :: 0x64 :: b.

Fixpoint tail_freeb (l : list Z) : bool :=
  match l with [] => true | x :: l => negb ((x =? 0x7A) && match l with y :: _ => y =? 0x64 | [] => false end) && tail_freeb l end.

Lemma tail_freeb_ok l : tail_freeb l = true -> tail_free l.
Proof. induction l as [|x l IH]; cbn [tail_freeb]; [intros _ [] b; done|]. intros [Hx Hl]%andb_prop [|y a] b [= -> ->]; [done|]. by destruct (IH Hl a b). Qed.

Lemma tail_free_cons x l : tail_free (x :: l) -> tail_free l.
Proof. intros H a b ->. by apply (H (x :: a) b). Qed.

(** The data of a frame. *)
Lemma wp_data l : forall g got y Q, receiving (GSM_TransparentRX g) 2 (got ++ [y]) -> tail_free (y :: l) -> Zlen got + 1 + Zlen l <= MAXRXNUM ->
  (forall r, receiving r 2 (got ++ y :: l) -> Q tt (set_rx_struct g r)) -> wp (receive_bytes l) g Q.
Proof.
  induction l as [|x l IH]; intros g got y Q Hr Htf Hl HQ; cbn [receive_bytes].
  { wp_ret. specialize (HQ _ Hr). by destruct g. }
  rewrite Zlen_cons in Hl. pose proof (Zlen_nonneg l). pose proof (Zlen_nonneg got). wp_bind. eapply wp_callback; [exact Hr|]. pose proof Hr as [(rest & Hb & Hlen) Hs Hi Hst _ (Hm1 & Hm2 & Hm3 & Hm4)].
  rewrite Zlen_app in Hlen, Hi. change (Zlen [y]) with 1 in Hlen, Hi. assert (rest <> []) as Hne by (intros ->; change (Zlen (@nil Z)) with 0 in Hlen; lia).
  destruct (received_more _ _ _ x _ 2 Hr Hb Hne) as (buf & Hset & Hr' & Hlast). unfold RX_Loop. rewrite Hb, Hst, Hs, Hm3, Hm4. cbn [mbind option_bind].
  change (2 =? ReceiveDataHandled) with false. change (2 =? ReceiveFistHeard) with false. change (2 =? ReceiveSecondHeard) with true. cbn beta iota. rewrite (proj2 (Z.ltb_lt _ _)) by lia. rewrite Hset. cbn [mbind option_bind].
  assert (get_at buf (RX_index (GSM_TransparentRX g) - 1) = Some y) as Hy.
  { by apply (Hlast got). }
  assert ((if x =? 0x64 then y0 ← get_at buf (RX_index (GSM_TransparentRX g) - 1); Some (y0 =? 0x7A) else Some false) = Some false) as ->.
  { destruct (Z.eqb_spec x 0x64) as [->|]; [|done]. rewrite Hy. cbn [mbind option_bind]. destruct (Z.eqb_spec y 0x7A) as [->|]; [|done]. by destruct (Htf [] l). }
  cbn [mbind option_bind]. unfold wp, of_opt. cbn beta iota. change ReceiveSecondHeard with 2. eapply (IH _ (got ++ [y]) x).
  - exact Hr'.
  - by eapply tail_free_cons.
  - rewrite Zlen_app. change (Zlen [y]) with 1. lia.
  - intros r Hrr. rewrite <-(assoc_L (++)) in Hrr. by apply HQ.
Qed.

Lemma set_rx_twice g r r' : set_rx_struct (set_rx_struct g r) r' = set_rx_struct g r'.
Proof. done. Qed.

(** The header. *)
Lemma wp_frame_header g Q : receiving (GSM_TransparentRX g) 0 [] -> (forall r, receiving r 2 [0x64; 0x7A] -> Q tt (set_rx_struct g r)) -> wp (receive_bytes [0x64; 0x7A]) g Q.
Proof.
  intros Hr HQ. cbn [receive_bytes]. pose proof Hr as [(rest & Hb & Hlen) Hs Hi Hst _ (Hm1 & Hm2 & Hm3 & Hm4)]. change (Zlen (@nil Z)) with 0 in Hi, Hlen.
  assert (rest <> []) as Hne by (intros ->; done). wp_bind. eapply wp_callback; [exact Hr|].
  destruct (received_more _ _ _ 0x64 _ 1 Hr Hb Hne) as (buf & Hset & Hr1 & _). rewrite Hi in Hset, Hr1. unfold RX_Loop. rewrite Hb, Hst, Hm1. cbn [mbind option_bind]. change (0 =? ReceiveDataHandled) with true. cbn beta iota. rewrite Z.eqb_refl, Hset. cbn [mbind option_bind].
  unfold wp at 1, of_opt. cbn beta iota. change (u32 (0 + 1)) with 1 in Hr1. change ReceiveFistHeard with 1. set (r1 := receive_at _ _ _ _) in *.
  wp_bind. eapply wp_callback; [exact Hr1|]. pose proof Hr1 as [(rest1 & Hb1 & Hlen1) _ _ Hst1 _ (Hn1 & Hn2 & _)].
  assert (rest1 <> []) as Hne1 by (intros ->; done). destruct (received_more _ _ _ 0x7A _ 2 Hr1 Hb1 Hne1) as (buf2 & Hset2 & Hr2 & _).
  cbn [GSM_TransparentRX set_rx_struct]. unfold RX_Loop. rewrite Hb1, Hst1, Hn2. cbn [mbind option_bind]. change (1 =? ReceiveDataHandled) with false. change (1 =? ReceiveFistHeard) with true. cbn beta iota. rewrite Z.eqb_refl, Hset2. cbn [mbind option_bind].
  unfold wp at 1, of_opt. cbn beta iota. wp_ret. rewrite set_rx_twice. apply HQ. exact Hr2.
Qed.

(** A whole frame, after other bytes. *)
Lemma wp_frame g noise data Q : receiving (GSM_TransparentRX g) 0 [] -> 0x64 ∉ noise -> tail_free (0x7A :: data ++ [0x7A]) -> Zlen data + 4 <= MAXRXNUM ->
  (forall r, receiving r 3 ([0x64; 0x7A] ++ data ++ [0x7A; 0x64]) -> Q tt (set_rx_struct g r)) ->
  wp (receive_bytes (noise ++ [0x64; 0x7A] ++ data ++ [0x7A; 0x64])) g Q.
Proof.
  intros Hr Hn Htf Hl HQ. pose proof (Zlen_nonneg data). apply wp_receive_app. apply wp_noise; [done|done|]. apply wp_receive_app. apply wp_frame_header; [done|]. intros r1 Hr1.
  replace (data ++ [0x7A; 0x64]) with ((data ++ [0x7A]) ++ [0x64]) by (by rewrite <-(assoc_L (++))). apply wp_receive_app.
  apply (wp_data _ _ [0x64] 0x7A); [exact Hr1|exact Htf|rewrite Zlen_app; change (Zlen [_]) with 1; lia|]. intros r2 Hr2. rewrite set_rx_twice.
  assert ([0x64] ++ 0x7A :: data ++ [0x7A] = ([0x64; 0x7A] ++ data) ++ [0x7A]) as Heq by done. rewrite Heq in Hr2.
  cbn [receive_bytes]. wp_bind. eapply wp_callback; [exact Hr2|]. pose proof Hr2 as [(rest & Hb & Hlen) Hs Hi Hst _ (Hm1 & Hm2 & Hm3 & Hm4)].
  rewrite !Zlen_app in Hlen. change (Zlen [0x64; 0x7A]) with 2 in Hlen. change (Zlen [0x7A]) with 1 in Hlen.
  assert (rest <> []) as Hne by (intros ->; change (Zlen (@nil Z)) with 0 in Hlen; lia).
  destruct (received_more _ _ _ 0x64 _ 3 Hr2 Hb Hne) as (buf & Hset & Hr3 & Hlast). cbn [GSM_TransparentRX set_rx_struct]. unfold RX_Loop. rewrite Hb, Hst, Hs, Hm3, Hm4. cbn [mbind option_bind].
  change (2 =? ReceiveDataHandled) with false. change (2 =? ReceiveFistHeard) with false. change (2 =? ReceiveSecondHeard) with true. cbn beta iota.
  rewrite (proj2 (Z.ltb_lt _ _)) by (rewrite Hi, !Zlen_app; change (Zlen [0x64; 0x7A]) with 2; change (Zlen [0x7A]) with 1; lia). rewrite Hset. cbn [mbind option_bind]. rewrite Z.eqb_refl.
  assert (get_at buf (RX_index r2 - 1) = Some 0x7A) as ->.
  { by apply (Hlast ([0x64; 0x7A] ++ data)). }
  cbn [mbind option_bind]. unfold wp, of_opt. cbn beta iota. wp_ret. rewrite set_rx_twice. change (0x7A =? 0x7A) with true. cbn beta iota. apply HQ. rewrite <-!(assoc_L (++)) in Hr3. exact Hr3.
Qed.

(** ** Polling *)

Lemma wp_restart g st got Q : receiving (GSM_TransparentRX g) st got -> (forall r, receiving r 0 [] -> Q tt (set_rx_struct g r)) -> wp ReStartReceive g Q.
Proof.
  intros [(rest & Hb & Hl) Hs Hi Hst He Hm] HQ. unfold ReStartReceive. wp_bind. eapply wp_run; [reflexivity|]. cbv beta. rewrite Hb, Hs.
  wp_bind. eapply wp_of_opt; [rewrite <-(app_nil_r (got ++ rest)); apply write_at_0; unfold Zlen in *; rewrite repeat_length, length_app; unfold MAXRXNUM in *; lia|]. wp_ret.
  eapply wp_run; [reflexivity|]. cbv beta. apply HQ. split; cbn; [|done..]. eexists. split; [by rewrite app_nil_r|]. done.
Qed.

Definition frame_length (body : list Z) : option Z := match body with l0 :: l1 :: _ => Some (l0 * 255 + l1) | _ => None end.
Definition frame_order (body : list Z) : option Z := match body with _ :: _ :: o0 :: o1 :: _ => Some (u16 (o0 * 255 + o1)) | _ => None end.

Lemma frame_bytes body : gsm_frame body = [0x64; 0x7A] ++ body ++ [CheckSum body] ++ [0x7A; 0x64].
Proof. done. Qed.

Lemma wp_poll g body len order Q : receiving (GSM_TransparentRX g) 3 (gsm_frame body) -> frame_length body = Some len -> frame_order body = Some order ->
  len <= Zlen body - 2 -> Zlen body <= MAXRXNUM - 5 -> wp (protocolHandle order ;; ReStartReceive) g Q -> wp ReceiveDataHandle g Q.
Proof.
  intros [(rest & Hb & Hl) Hs Hi Hst He Hm] Hlen Hord Hle Hmax HQ. rewrite frame_bytes, !Zlen_app in Hl, Hi. change (Zlen [0x64; 0x7A]) with 2 in *. change (Zlen [0x7A; 0x64]) with 2 in *. change (Zlen [CheckSum body]) with 1 in *.
  destruct body as [|l0 [|l1 [|o0 [|o1 body']]]]; try done. set (body := l0 :: l1 :: o0 :: o1 :: body') in *. cbn in Hlen, Hord. injection Hlen as <-. injection Hord as <-.
  assert (4 <= Zlen body) as Hb4 by (unfold body; rewrite !Zlen_cons; pose proof (Zlen_nonneg body'); lia). unfold MAXRXNUM in *.
  unfold ReceiveDataHandle. wp_bind. eapply wp_run; [reflexivity|]. cbv beta. rewrite Hst, Hi, Hs. change (3 =? 0) with false. change (3 =? 3) with true. cbn [negb andb]. rewrite (proj2 (Z.ltb_ge _ 7)) by lia.
  wp_bind. eapply wp_of_opt; [exact Hb|]. wp_bind. eapply wp_of_opt; [reflexivity|]. wp_bind. eapply wp_of_opt; [reflexivity|].
  rewrite (proj2 (Z.ltb_ge _ _)), (proj2 (Z.ltb_ge (512 - 7) _)) by lia. cbn [orb].
  wp_bind. eapply wp_of_opt; [rewrite frame_bytes; rewrite <-!(assoc_L (++)), (assoc_L (++) _ body); apply get_at_mid; rewrite Zlen_app; change (Zlen [0x64; 0x7A]) with 2; lia|].
  wp_bind. eapply wp_of_opt; [rewrite frame_bytes; rewrite <-!(assoc_L (++)); apply read_at_mid; [done|lia]|]. rewrite Z.eqb_refl. cbn [negb].
  wp_bind. eapply wp_of_opt; [reflexivity|]. wp_bind. eapply wp_of_opt; [reflexivity|]. exact HQ.
Qed.

(** ** MQTT packets *)

(** The packet is a PUBLISH of QoS 1, always with the identifier 1, as long as its length
    fits into one byte. *)
Lemma wp_subscribe_sent target data g Q : 2 + Zlen target + 2 + Zlen data < 128 ->
  Q (Zlen (publish_packet 1 0 1 target data)) (set_sent g (TxBuf g) (writes g ++ [publish_packet 1 0 1 target data])) -> wp (MQTT_SUBSCRIBESent target data) g Q.
Proof.
  intros Hl HQ. pose proof (Zlen_nonneg target). pose proof (Zlen_nonneg data). unfold MQTT_SUBSCRIBESent. rewrite (proj2 (Z.ltb_ge 230 _)) by lia. rewrite (u8_small (Zlen target)) by lia. rewrite (proj2 (Z.ltb_ge 256 _)) by lia.
  rewrite (u8_small (2 + 2 + Zlen target + 2 + Zlen data)), (u8_small (2 + Zlen target + 2 + Zlen data)) by lia.
  assert (publish_packet 1 0 1 target data = [0x32; 2 + Zlen target + 2 + Zlen data] ++ be16 (Zlen target) ++ target ++ [0; 1] ++ data) as Hp.
  { unfold publish_packet, mqtt_packet. rewrite publish_size. change (if 0 <? 1 then 2 else 0) with 2. rewrite length_field_S, (proj2 (Z.ltb_lt _ 128)) by lia. unfold publish_body, mqtt_string.
    change (control_byte LwMqtt.MQTT_MSG_TYPE_PUBLISH 0 1 0) with 0x32. change (0 <? 1) with true. cbn beta iota. replace (2 + Zlen target + Zlen data + 2) with (2 + Zlen target + 2 + Zlen data) by lia.
    cbn [app]. rewrite <-!(assoc_L (++)). done. }
  assert ([0x32; 2 + Zlen target + 2 + Zlen data; u8 (Z.land (Z.shiftr (Zlen target) 8) 0x00ff); u8 (Z.land (Zlen target) 0x00ff)] ++ take (Z.to_nat (Zlen target)) target ++ [0x00; 0x01] ++ data
    = publish_packet 1 0 1 target data) as ->.
  { pose proof (take_Zlen target []) as Ht. rewrite app_nil_r in Ht. rewrite Ht, Hp, !u8_land. done. }
  replace (2 + 2 + Zlen target + 2 + Zlen data) with (Zlen (publish_packet 1 0 1 target data)) by (rewrite Hp, !Zlen_app; change (Zlen [0; 1]) with 2; change (Zlen (be16 _)) with 2; change (Zlen [_; _]) with 2; lia).
  rewrite take_Zlen. unfold device_send. wp_bind. eapply wp_run; [reflexivity|]. cbv beta. by wp_ret.
Qed.

(** ** Payments *)

Definition word32 (v : Z) : Prop := 0 <= v < 2 ^ 32.

Lemma le32_value v : word32 v -> u8 v + u8 (Z.shiftr v 8) * 256 + u8 (Z.shiftr v 16) * 65536 + u8 (Z.shiftr v 24) * 16777216 = v.
Proof.
  intros Hv. unfold word32, u8 in *. rewrite !Z.shiftr_div_pow2 by done. change (2 ^ 8) with 256. change (2 ^ 16) with 65536. change (2 ^ 24) with 16777216. change (2 ^ 32) with 4294967296 in Hv.
  Z.div_mod_to_equations. lia.
Qed.

Definition payment_ok (p : stUserPayParam) : Prop := word32 (Money p) /\ word32 (UserID p) /\ word32 (SellerID p).

Lemma le32_at_mid a v b i : i = Zlen a -> word32 v -> le32_at (a ++ le32_bytes v ++ b) i = Some v.
Proof.
  intros -> Hv. unfold le32_at, le32_bytes. cbn [app]. assert (forall x y z l, get_at (a ++ x :: l) (Zlen a) = Some x /\ get_at (a ++ y :: x :: l) (Zlen a + 1) = Some x /\ get_at (a ++ z :: y :: x :: l) (Zlen a + 2) = Some x) as Hget.
  { intros x y z l. split; [by apply get_at_mid|]. split.
    - rewrite (cons_middle y), (assoc_L (++)). apply get_at_mid. rewrite Zlen_app. done.
    - change (a ++ z :: y :: x :: l) with (a ++ [z; y] ++ x :: l). rewrite (assoc_L (++)). apply get_at_mid. rewrite Zlen_app. done. }
  rewrite (proj1 (Hget _ 0 0 _)), (proj1 (proj2 (Hget _ _ 0 _))), (proj2 (proj2 (Hget _ _ _ _))). cbn [mbind option_bind].
  change (a ++ u8 v :: u8 (Z.shiftr v 8) :: u8 (Z.shiftr v 16) :: u8 (Z.shiftr v 24) :: b) with (a ++ [u8 v; u8 (Z.shiftr v 8); u8 (Z.shiftr v 16)] ++ u8 (Z.shiftr v 24) :: b).
  rewrite (assoc_L (++)), get_at_mid by (rewrite Zlen_app; done). cbn [mbind option_bind]. by rewrite le32_value.
Qed.

Lemma payment_at_bytes got p rest : Zlen got = 8 -> payment_ok p -> payment_at (got ++ payment_bytes p ++ rest) = Some p.
Proof.
  intros Hg (H1 & H2 & H3). unfold payment_at, payment_bytes. set (m := le32_bytes (Money p)). set (u := le32_bytes (UserID p)). set (e := le32_bytes (SellerID p)).
  assert (Zlen m = 4 /\ Zlen u = 4) as [Hm Hu] by done. rewrite <-!(assoc_L (++)). set (l := got ++ _).
  assert (l = got ++ m ++ [MoneyType p; PayType p] ++ u ++ e ++ rest) as E1 by done.
  assert (l = (got ++ m) ++ MoneyType p :: PayType p :: u ++ e ++ rest) as E2 by (by rewrite E1, <-(assoc_L (++))).
  assert (l = (got ++ m ++ [MoneyType p]) ++ PayType p :: u ++ e ++ rest) as E3 by (by rewrite E1, <-!(assoc_L (++))).
  assert (l = (got ++ m ++ [MoneyType p; PayType p]) ++ u ++ e ++ rest) as E4 by (by rewrite E1, <-!(assoc_L (++))).
  assert (l = (got ++ m ++ [MoneyType p; PayType p] ++ u) ++ e ++ rest) as E5 by (by rewrite E1, <-!(assoc_L (++))). clearbody l.
  rewrite E1 at 1. rewrite (le32_at_mid got (Money p)) by (done || lia). cbn [mbind option_bind]. rewrite E2 at 1. rewrite get_at_mid by (rewrite Zlen_app; lia). cbn [mbind option_bind].
  rewrite E3 at 1. rewrite get_at_mid by (rewrite !Zlen_app; change (Zlen [_]) with 1; lia). cbn [mbind option_bind].
  rewrite E4 at 1. rewrite (le32_at_mid _ (UserID p)) by (done || (rewrite !Zlen_app; change (Zlen [_; _]) with 2; lia)). cbn [mbind option_bind].
  rewrite E5. rewrite (le32_at_mid _ (SellerID p)) by (done || (rewrite !Zlen_app; change (Zlen [_; _]) with 2; lia)).
  by destruct p.
Qed.

(** The acknowledgement for the server. *)
Definition acknowledgement (id : list Z) (p : stUserPayParam) : list Z := gsm_frame ([0x00; 0x1A; 0x00; 0x07; 0x00; 0x00] ++ id ++ payment_bytes p).

Lemma frame_size body : Zlen (gsm_frame body) = Zlen body + 5.
Proof. rewrite frame_bytes, !Zlen_app. change (Zlen [0x64; 0x7A]) with 2. change (Zlen [_]) with 1. change (Zlen [0x7A; 0x64]) with 2. lia. Qed.

Lemma wp_get_param g q p buf Q : pRXBuf (GSM_TransparentRX g) = Some buf -> payment_at buf = Some p ->
  queued (Payments g) q -> Zlen q + 1 < MAXVOICENUM -> Zlen (DeviceID g) = 8 -> 33 <= Zlen (TxBuf g) ->
  (forall v b, queued v (q ++ [p]) -> Zlen b = Zlen (TxBuf g) ->
    Q tt (set_sent (set_payments g v) b (writes g ++ [TestBuf; publish_packet 1 0 1 Server (acknowledgement (DeviceID g) p)]))) ->
  wp TLV_GetParam g Q.
Proof.
  intros Hb Hp Hq Hroom Hid Htx HQ. pose proof Hq as (Hl & Hh & _ & Ht & _). pose proof (Zlen_nonneg q). unfold MAXVOICENUM in Hroom, Hl, Hh, Ht.
  assert (0 <= TailIndex (Payments g) < 5) as Htb by (rewrite Ht; by apply Z.mod_pos_bound).
  assert ((if u8 (TailIndex (Payments g) + 1) =? MAXVOICENUM then 0 else u8 (TailIndex (Payments g) + 1)) = (TailIndex (Payments g) + 1) mod MAXVOICENUM) as Hnext.
  { unfold MAXVOICENUM. rewrite u8_small by lia. destruct (Z.eqb_spec (TailIndex (Payments g) + 1) 5) as [->|]; [done|]. by rewrite Z.mod_small by lia. }
  unfold TLV_GetParam. wp_bind. eapply wp_run; [reflexivity|]. cbv beta zeta. rewrite Hnext.
  rewrite (proj2 (Z.eqb_neq _ _)) by (unfold MAXVOICENUM; rewrite Ht, Zplus_mod_idemp_l; Z.div_mod_to_equations; lia).
  wp_bind. eapply wp_of_opt; [exact Hb|]. wp_bind. eapply wp_of_opt; [exact Hp|].
  wp_bind. eapply wp_of_opt; [apply set_at_insert; lia|].
  assert (gsm_frame (le16_bytes 0x1A00 ++ le16_bytes 0x0700 ++ le16_bytes 0x0000 ++ take 8 (DeviceID g) ++ payment_bytes p) = acknowledgement (DeviceID g) p) as ->.
  { unfold acknowledgement. rewrite (take_ge (DeviceID g)) by (unfold Zlen in Hid; lia). done. }
  assert (Zlen (acknowledgement (DeviceID g) p) = 33) as Hack.
  { unfold acknowledgement. rewrite frame_size, !Zlen_app. change (Zlen [_; _; _; _; _; _]) with 6. change (Zlen (payment_bytes p)) with 14. lia. }
  destruct (write_at_Some (TxBuf g) (acknowledgement (DeviceID g) p) 0) as (b & Hw & Hbl); [lia|lia|].
  wp_bind. eapply wp_of_opt; [exact Hw|]. wp_bind. eapply wp_run; [reflexivity|]. cbv beta. wp_bind. unfold device_send at 1. wp_bind. eapply wp_run; [reflexivity|]. cbv beta. wp_ret.
  wp_bind. apply wp_subscribe_sent; [rewrite Hack; done|]. wp_ret. cbn [set_sent set_payments TxBuf writes]. rewrite <-(assoc_L (++)).
  eapply HQ; [|exact Hbl]. by apply queued_push.
Qed.

Definition payment_frame (l0 l1 s0 s1 : Z) (p : stUserPayParam) : list Z := [l0; l1; 0; 7; s0; s1] ++ payment_bytes p.

(** C29: a payment frame that arrives, after bytes that cannot begin a frame, is found by
    the next poll: the payment is put at the end of the queue of the announcements, the
    server gets the acknowledgement with the device's identifier and the payment as an
    MQTT packet, behind a test message, and the receiver waits for the next frame.  The
    queue must have room, and the tail of a frame must not occur in the frame. *)
Theorem payment_acknowledged g q p noise l0 l1 s0 s1 : receiving (GSM_TransparentRX g) 0 [] -> queued (Payments g) q -> Zlen q + 1 < MAXVOICENUM ->
  Zlen (DeviceID g) = 8 -> 33 <= Zlen (TxBuf g) -> payment_ok p -> l0 * 255 + l1 <= 18 -> 0x64 ∉ noise ->
  let body := payment_frame l0 l1 s0 s1 p in
  tail_free (0x7A :: (body ++ [CheckSum body]) ++ [0x7A]) ->
  wp (receive_bytes (noise ++ gsm_frame body) ;; ReceiveDataHandle) g (fun _ g' =>
    queued (Payments g') (q ++ [p]) /\ receiving (GSM_TransparentRX g') 0 [] /\
    writes g' = writes g ++ [TestBuf; publish_packet 1 0 1 Server (acknowledgement (DeviceID g) p)]).
Proof.
  intros Hr Hq Hroom Hid Htx Hp Hlen Hn body Htf. assert (Zlen body = 20) as Hb by done.
  wp_bind. replace (gsm_frame body) with ([0x64; 0x7A] ++ (body ++ [CheckSum body]) ++ [0x7A; 0x64]) by (rewrite frame_bytes; by rewrite <-!(assoc_L (++))).
  apply wp_frame; [done|done|exact Htf|rewrite Zlen_app, Hb; done|]. intros r Hr3. rewrite <-(assoc_L (++)) in Hr3. change ([0x64; 0x7A] ++ body ++ [CheckSum body] ++ [0x7A; 0x64]) with (gsm_frame body) in Hr3.
  eapply (wp_poll _ body _ 7); [exact Hr3|reflexivity|done|rewrite Hb; lia|rewrite Hb; done|].
  wp_bind. unfold protocolHandle. change (find_protocol ProTocolRegist 7) with (Some (Some GetParam)). cbn [call_handler]. wp_bind.
  pose proof Hr3 as [(rest & Hbuf & _) _ _ _ _ _].
  eapply (wp_get_param _ q p); [exact Hbuf| |done|done|done|done|].
  { rewrite frame_bytes. exact (payment_at_bytes [0x64; 0x7A; l0; l1; 0; 7; s0; s1] p ([CheckSum body] ++ [0x7A; 0x64] ++ rest) eq_refl Hp). }
  intros v b Hv _. wp_ret. eapply wp_restart; [exact Hr3|]. intros r0 Hr0. done.
Qed.

(** A payment of 12.00 yuan, after two bytes of noise. *)
Definition fresh_rx : stECEIVE := mk_receive (Some (repeat 0 512)) 512 0 0 1 0x64 0x7A 0x7A 0x64 0.
Definition fresh_link : gsm := mk_gsm fresh_rx fresh_rx 0 0 1 [1; 2; 3; 4; 5; 6; 7; 8] (mk_heart 0 0 0) (mk_voice (repeat (mk_pay 0 0 0 0 0) 5) 4 4) (repeat 0 40) 100 [].

Lemma fresh_receiving : receiving fresh_rx 0 [].
Proof. split; [|done..]. by exists (repeat 0 512). Qed.

Lemma payment_acknowledged_witness : payment_ok (mk_pay 1200 1 2 7 9) /\
  wp (receive_bytes ([0x7A; 0x01] ++ gsm_frame (payment_frame 0 18 0 0 (mk_pay 1200 1 2 7 9))) ;; ReceiveDataHandle) fresh_link (fun _ g' =>
    queued (Payments g') [mk_pay 1200 1 2 7 9] /\ receiving (GSM_TransparentRX g') 0 [] /\
    writes g' = [TestBuf; publish_packet 1 0 1 Server (acknowledgement [1; 2; 3; 4; 5; 6; 7; 8] (mk_pay 1200 1 2 7 9))]).
Proof.
  assert (payment_ok (mk_pay 1200 1 2 7 9)) as Hp by (by repeat split). split; [exact Hp|].
  apply (payment_acknowledged fresh_link [] (mk_pay 1200 1 2 7 9) [0x7A; 0x01] 0 18 0 0); [exact fresh_receiving| |done|done|done|exact Hp|done| |].
  - unfold queued. do 4 (split; [done|]). intros i p Hi. done.
  - rewrite !not_elem_of_cons. repeat split; [done|done|apply not_elem_of_nil].
  - by apply tail_freeb_ok.
Defined.

(** ** The heartbeat *)

(** A heartbeat frame is answered with the device's identifier, but nothing is
    changed in the supervision of the server: its count and its time stay as they were. *)
Lemma heartbeat_answered g l0 l1 s0 s1 noise : receiving (GSM_TransparentRX g) 0 [] -> Zlen (DeviceID g) = 8 -> 19 <= Zlen (TxBuf g) -> l0 * 255 + l1 <= 4 -> 0x64 ∉ noise ->
  let body := [l0; l1; 0; 8; s0; s1] in tail_free (0x7A :: (body ++ [CheckSum body]) ++ [0x7A]) ->
  wp (receive_bytes (noise ++ gsm_frame body) ;; ReceiveDataHandle) g (fun _ g' =>
    HeartOverTime g' = HeartOverTime g /\ receiving (GSM_TransparentRX g') 0 [] /\ writes g' = writes g ++ [gsm_frame ([0x00; 0x0c; 0x00; 0x08; 0x00; 0x00] ++ DeviceID g)]).
Proof.
  intros Hr Hid Htx Hlen Hn body Htf. wp_bind. replace (gsm_frame body) with ([0x64; 0x7A] ++ (body ++ [CheckSum body]) ++ [0x7A; 0x64]) by (rewrite frame_bytes; by rewrite <-!(assoc_L (++))).
  apply wp_frame; [done|done|exact Htf|done|]. intros r Hr3. rewrite <-(assoc_L (++)) in Hr3. change ([0x64; 0x7A] ++ body ++ [CheckSum body] ++ [0x7A; 0x64]) with (gsm_frame body) in Hr3.
  eapply (wp_poll _ body _ 8); [exact Hr3|reflexivity|done|change (Zlen body) with 6; lia|done|].
  wp_bind. unfold protocolHandle. change (find_protocol ProTocolRegist 8) with (Some (Some HeartBeat)). cbn [call_handler]. wp_bind.
  unfold TLV_HeartBeat. wp_bind. eapply wp_run; [reflexivity|]. cbv beta zeta. cbn [DeviceID TxBuf writes set_rx_struct].
  rewrite (take_ge (DeviceID g)) by (unfold Zlen in Hid; lia). change (le16_bytes 0x0c00 ++ le16_bytes 0x0800 ++ le16_bytes 0x0000 ++ DeviceID g) with ([0x00; 0x0c; 0x00; 0x08; 0x00; 0x00] ++ DeviceID g).
  set (ans := [0x00; 0x0c; 0x00; 0x08; 0x00; 0x00] ++ DeviceID g). assert (Zlen (gsm_frame ans) = 19) as Ha by (rewrite frame_size; unfold ans; rewrite Zlen_app, Hid; done).
  destruct (write_at_Some (TxBuf g) (gsm_frame ans) 0) as (b & Hw & _); [lia|lia|]. wp_bind. eapply wp_of_opt; [exact Hw|]. wp_bind. eapply wp_run; [reflexivity|]. cbv beta.
  unfold device_send. wp_bind. eapply wp_run; [reflexivity|]. cbv beta. repeat wp_ret. eapply wp_restart; [exact Hr3|]. intros r0 Hr0. done.
Qed.

(** ** Every input *)

Lemma exists_last_of (l : list Z) : 0 < Zlen l -> exists l' y, l = l' ++ [y].
Proof. intros Hl. destruct (rev l) as [|y t] eqn:Hr; [by apply (f_equal (@rev Z)) in Hr; rewrite rev_involutive in Hr; subst|]. exists (rev t), y. by rewrite <-(rev_involutive l), Hr. Qed.

(** The states of the receiver with what the buffer holds. *)
Definition rx_state (st : Z) (got : list Z) : Prop := st = 0 \/ st = 1 /\ Zlen got = 1 \/ (st = 2 \/ st = 3) /\ 2 <= Zlen got.
Definition rx_ok (r : stECEIVE) : Prop := exists st got, receiving r st got /\ rx_state st got.

Lemma receiving_empty r st got st' : receiving r st got -> receiving (mk_receive (pRXBuf r) (RXBufSize r) 0 st' (ReceiveEnable r) (FirstHeard r) (SecondHeard r) (FirstTail r) (SecondTail r) (ReceiveStartTime r)) st' [].
Proof. intros [(rest & Hb & Hlen) Hs Hi Hst He Hm]. split; cbn; [|done..]. exists (got ++ rest). split; [done|]. rewrite Zlen_app. exact Hlen. Qed.

Lemma RX_Loop_ok r x : rx_ok r -> exists r', RX_Loop r x = Some r' /\ rx_ok r'.
Proof.
  intros (st & got & Hr & Hst). pose proof Hr as [(rest & Hb & Hlen) Hs Hi Hst' He Hm]. pose proof Hm as (Hm1 & Hm2 & Hm3 & Hm4). pose proof (Zlen_nonneg rest). pose proof (Zlen_nonneg got). unfold MAXRXNUM in *.
  assert (Zlen got < 512 -> rest <> []) as Hroom by (intros ? ->; change (Zlen (@nil Z)) with 0 in Hlen; lia).
  destruct Hst as [-> | [[-> H1] | [[-> | ->] H2]]].
  - unfold RX_Loop. rewrite Hb, Hst', Hm1. cbn [mbind option_bind]. change (0 =? ReceiveDataHandled) with true. cbn beta iota. destruct (x =? 0x64); [|exists r; split; [done|]; exists 0, got; split; [done|by left]].
    pose proof (receiving_empty _ _ _ 0 Hr) as Hr0. rewrite Hb in Hr0. set (r0 := mk_receive _ _ _ _ _ _ _ _ _ _) in Hr0.
    destruct (received_more r0 [] (got ++ rest) x 0 1 Hr0 eq_refl) as (buf & Hset & Hr1 & _).
    { intros Hn. apply (f_equal Zlen) in Hn. rewrite Zlen_app in Hn. change (Zlen (@nil Z)) with 0 in Hn. lia. }
    change (RX_index r0) with 0 in Hset. cbn [app] in Hset. rewrite Hset. cbn [mbind option_bind]. eexists. split; [reflexivity|]. exists 1, [x]. split; [exact Hr1|by right; left].
  - assert (rest <> []) as Hne by (apply Hroom; lia). destruct (received_more _ _ _ x _ 2 Hr Hb Hne) as (buf & Hset & Hr1 & _).
    unfold RX_Loop. rewrite Hb, Hst', Hm2. cbn [mbind option_bind]. change (1 =? ReceiveDataHandled) with false. change (1 =? ReceiveFistHeard) with true. cbn beta iota. destruct (x =? 0x7A).
    + rewrite Hset. cbn [mbind option_bind]. eexists. split; [reflexivity|]. exists 2, (got ++ [x]). split; [exact Hr1|]. right; right. split; [by left|]. rewrite Zlen_app. change (Zlen [x]) with 1. lia.
    + eexists. split; [reflexivity|]. exists 0, []. split; [|by left]. pose proof (receiving_empty _ _ _ 0 Hr) as Hr0. rewrite Hb in Hr0. exact Hr0.
  - unfold RX_Loop. rewrite Hb, Hst', Hs, Hm3, Hm4. cbn [mbind option_bind]. change (2 =? ReceiveDataHandled) with false. change (2 =? ReceiveFistHeard) with false. change (2 =? ReceiveSecondHeard) with true. cbn beta iota.
    destruct (Z.ltb_spec (RX_index r) 512) as [Hlt|_]; [|exists r; split; [done|]; exists 2, got; split; [done|by right; right; auto]].
    assert (rest <> []) as Hne by (apply Hroom; lia). destruct (received_more _ _ _ x _ 2 Hr Hb Hne) as (buf & Hset & Hr2 & Hlast). destruct (received_more _ _ _ x _ 3 Hr Hb Hne) as (buf' & Hset' & Hr3 & _).
    rewrite Hset in Hset'. injection Hset' as <-. rewrite Hset. cbn [mbind option_bind]. assert (2 <= Zlen (got ++ [x])) by (rewrite Zlen_app; change (Zlen [x]) with 1; lia).
    destruct (exists_last_of got) as (got' & y & Heq); [lia|]. rewrite (Hlast got' y Heq). cbn [mbind option_bind].
    destruct (x =? 0x64); [destruct (y =? 0x7A)|]; (eexists; split; [reflexivity|]); [exists 3, (got ++ [x])|exists 2, (got ++ [x])..]; (split; [done|]; right; right; auto).
  - exists r. unfold RX_Loop. rewrite Hb, Hst'. split; [done|]. exists 3, got. split; [done|]. right; right; auto.
Qed.

(** The link between two polls: the receiver is in a state it can reach, [q] waits. *)
Record link_ok (g : gsm) (q : list stUserPayParam) : Prop := {
  lk_rx : rx_ok (GSM_TransparentRX g);
  lk_queue : queued (Payments g) q;
  lk_id : Zlen (DeviceID g) = 8;
  lk_tx : 33 <= Zlen (TxBuf g);
}.

Lemma wp_receive_ok l : forall g q, link_ok g q -> wp (receive_bytes l) g (fun _ g' => link_ok g' q).
Proof.
  induction l as [|x l IH]; intros g q [Hrx Hq Hid Htx]; cbn [receive_bytes]; [by wp_ret|]. pose proof Hrx as (st & got & Hr & _). wp_bind. eapply wp_callback; [exact Hr|].
  destruct (RX_Loop_ok _ x Hrx) as (r' & -> & Hr'). unfold wp at 1, of_opt. cbn beta iota. by apply IH.
Qed.

Lemma get_at_inside {A} (d : list A) i : 0 <= i < Zlen d -> exists x, get_at d i = Some x.
Proof. intros Hi. unfold get_at. rewrite (proj2 (Z.leb_le 0 _)) by lia. apply lookup_lt_is_Some_2. unfold Zlen in Hi. lia. Qed.

Lemma le32_inside b i : 0 <= i -> i + 4 <= Zlen b -> exists v, le32_at b i = Some v.
Proof.
  intros Hi Hl. unfold le32_at. destruct (get_at_inside b i) as [? ->]; [lia|]. destruct (get_at_inside b (i + 1)) as [? ->]; [lia|].
  destruct (get_at_inside b (i + 2)) as [? ->]; [lia|]. destruct (get_at_inside b (i + 3)) as [? ->]; [lia|]. by eexists.
Qed.

Lemma payment_inside b : 22 <= Zlen b -> exists p, payment_at b = Some p.
Proof.
  intros Hl. unfold payment_at. destruct (le32_inside b 8) as [? ->]; [lia..|]. destruct (get_at_inside b 12) as [? ->]; [lia|]. destruct (get_at_inside b 13) as [? ->]; [lia|].
  destruct (le32_inside b 14) as [? ->]; [lia..|]. destruct (le32_inside b 18) as [? ->]; [lia..|]. by eexists.
Qed.

(** There is a free place in the queue. *)
Definition has_room (v : stVoicePaly) : bool :=
  negb ((if u8 (TailIndex v + 1) =? MAXVOICENUM then 0 else u8 (TailIndex v + 1)) =? HeardIndex v).

Lemma queued_room v q : queued v q -> has_room v = (Zlen q + 1 <? MAXVOICENUM).
Proof.
  intros (_ & Hh & Hq & Ht & _). pose proof (Zlen_nonneg q). unfold has_room, MAXVOICENUM in *. rewrite Ht.
  rewrite (u8_small ((HeardIndex v + Zlen q) mod 5 + 1)) by (Z.div_mod_to_equations; lia).
  destruct (Z.eqb_spec ((HeardIndex v + Zlen q) mod 5 + 1) 5); (destruct (Z.ltb_spec (Zlen q + 1) 5); [apply negb_true_iff, Z.eqb_neq|apply negb_false_iff, Z.eqb_eq]);
    Z.div_mod_to_equations; lia.
Qed.

(** Defined unless [U] holds, and then with [Q]. *)
Definition wpu {A} (U : Prop) (m : G A) (g : gsm) (Q : A -> gsm -> Prop) : Prop := match m g with Some (a, g') => Q a g' | None => U end.

Lemma wp_wpu {A} U (m : G A) g Q : wp m g Q -> wpu U m g Q.
Proof. unfold wp, wpu. by destruct (m g) as [[]|]. Qed.

Lemma wpu_mono {A} U (m : G A) g (P Q : A -> gsm -> Prop) : wpu U m g P -> (forall a g', P a g' -> Q a g') -> wpu U m g Q.
Proof. unfold wpu. destruct (m g) as [[]|]; eauto. Qed.

Lemma wpu_bind {A B} U (m : G A) (f : A -> G B) g Q : wpu U m g (fun a g' => wpu U (f a) g' Q) -> wpu U (m ≫= f) g Q.
Proof. unfold wpu, mbind, M_bind. by destruct (m g) as [[]|]. Qed.

Lemma wpu_step {A B} U (m : G A) (f : A -> G B) g Q : wp m g (fun a g' => wpu U (f a) g' Q) -> wpu U (m ≫= f) g Q.
Proof. intros H. by apply wpu_bind, wp_wpu. Qed.

(** Whatever order a frame has, its handler keeps the receiver and the queue; it is
    undefined at most for a payment when the queue is full. *)
Lemma wp_protocol_ok g q order : link_ok g q ->
  wpu (has_room (Payments g) = false) (protocolHandle order) g (fun _ g' => exists q', link_ok g' (q ++ q') /\ Zlen q' <= 1 /\ GSM_TransparentRX g' = GSM_TransparentRX g).
Proof.
  intros Hlk. pose proof Hlk as [Hrx Hq Hid Htx]. set (U := has_room (Payments g) = false).
  assert (wpu U (mret (A := Z) 0) g (fun _ g' => exists q', link_ok g' (q ++ q') /\ Zlen q' <= 1 /\ GSM_TransparentRX g' = GSM_TransparentRX g)) as Hsame.
  { unfold wpu. exists []. rewrite app_nil_r. done. }
  unfold protocolHandle. assert (find_protocol ProTocolRegist order = Some None \/ find_protocol ProTocolRegist order = None \/ exists h, find_protocol ProTocolRegist order = Some (Some h)) as Hfind by (destruct (find_protocol ProTocolRegist order) as [[]|]; eauto).
  destruct Hfind as [-> | [-> | [h ->]]]; [exact Hsame|exact Hsame|]. apply wpu_bind. destruct h; cbn [call_handler].
  - apply wp_wpu. unfold TLV_RegisetBack, update. wp_bind. eapply wp_run; [reflexivity|]. cbv beta. eapply wp_run; [reflexivity|]. exists []. rewrite app_nil_r. split; [by split|done].
  - apply wp_wpu. unfold TLV_HeartBeat. wp_bind. eapply wp_run; [reflexivity|]. cbv beta zeta. rewrite (take_ge (DeviceID g)) by (unfold Zlen in Hid; lia).
    set (ans := le16_bytes 0x0c00 ++ _). assert (Zlen (gsm_frame ans) = 19) as Ha by (rewrite frame_size; unfold ans; rewrite !Zlen_app, Hid; done).
    destruct (write_at_Some (TxBuf g) (gsm_frame ans) 0) as (b & Hw & Hl); [lia|lia|]. wp_bind. eapply wp_of_opt; [exact Hw|]. wp_bind. eapply wp_run; [reflexivity|]. cbv beta.
    unfold device_send. wp_bind. eapply wp_run; [reflexivity|]. cbv beta. repeat wp_ret. exists []. rewrite app_nil_r. split; [split; [exact Hrx|exact Hq|exact Hid|cbn; lia]|done].
  - pose proof Hrx as (st & got & [(rest & Hb & Hl) _ _ _ _ _] & _). destruct (payment_inside (got ++ rest)) as [p Hp]; [rewrite Zlen_app; unfold MAXRXNUM in Hl; lia|].
    pose proof (queued_room _ _ Hq) as Hr. destruct (Z.ltb_spec (Zlen q + 1) MAXVOICENUM) as [Hlt|Hge].
    + apply wp_wpu. eapply (wp_get_param _ q p); [exact Hb|exact Hp|done..|]. intros v b Hv Hbl. exists [p]. split; [split; [exact Hrx|exact Hv|exact Hid|cbn; lia]|done].
    + pose proof (Hr : U) as HU. unfold wpu at 1, TLV_GetParam. unfold has_room in Hr. apply negb_false_iff in Hr. unfold mbind at 1, M_bind at 1. cbn [get]. cbv zeta. rewrite Hr. exact HU.
Qed.

Lemma wp_restart_ok g q : link_ok g q -> wp ReStartReceive g (fun _ g' => link_ok g' q).
Proof.
  intros [(st & got & Hr & _) Hq Hid Htx]. eapply wp_restart; [exact Hr|]. intros r Hr'. split; [|exact Hq|exact Hid|exact Htx]. exists 0, []. split; [exact Hr'|by left].
Qed.

Lemma wp_poll_ok g q : link_ok g q -> wpu (has_room (Payments g) = false) ReceiveDataHandle g (fun _ g' => exists q', link_ok g' (q ++ q') /\ Zlen q' <= 1).
Proof.
  intros Hlk. set (U := has_room (Payments g) = false). assert (wpu U ReStartReceive g (fun _ g' => exists q', link_ok g' (q ++ q') /\ Zlen q' <= 1)) as Hre.
  { apply wp_wpu. eapply wp_mono; [by apply wp_restart_ok|]. cbv beta. intros _ g' H. exists []. rewrite app_nil_r. split; [exact H|done]. }
  pose proof (lk_rx _ _ Hlk) as (st & got & [(rest & Hb & Hl) Hs Hi _ _ _] & _). pose proof (Zlen_nonneg rest). unfold MAXRXNUM in *.
  unfold ReceiveDataHandle. apply wpu_step. eapply wp_run; [reflexivity|]. cbv beta. destruct (_ =? 0); [exact Hre|]. destruct (_ && _); [exact Hre|].
  destruct (Z.ltb_spec (RX_index (GSM_TransparentRX g)) 7); [exact Hre|]. rewrite Hb. apply wpu_step. eapply wp_of_opt; [reflexivity|].
  assert (Zlen (got ++ rest) = 512) as Hlen by (by rewrite Zlen_app). set (b := got ++ rest) in *.
  destruct (get_at_inside b 2) as [l0 Hl0]; [lia|]. destruct (get_at_inside b 3) as [l1 Hl1]; [lia|]. apply wpu_step. eapply wp_of_opt; [exact Hl0|]. apply wpu_step. eapply wp_of_opt; [exact Hl1|]. cbv zeta.
  destruct (_ || _); [exact Hre|]. destruct (get_at_inside b (RX_index (GSM_TransparentRX g) - 3)) as [sum Hsum]; [lia|]. destruct (read_at_Some b 2 (RX_index (GSM_TransparentRX g) - 5)) as (body & Hbody & _); [lia..|].
  apply wpu_step. eapply wp_of_opt; [exact Hsum|]. apply wpu_step. eapply wp_of_opt; [exact Hbody|]. destruct (negb _); [exact Hre|].
  destruct (get_at_inside b 4) as [o0 H4]; [lia|]. destruct (get_at_inside b 5) as [o1 H5]; [lia|]. apply wpu_step. eapply wp_of_opt; [exact H4|]. apply wpu_step. eapply wp_of_opt; [exact H5|].
  apply wpu_bind. eapply wpu_mono; [by apply wp_protocol_ok|]. cbv beta. intros _ g' (q' & Hlk' & Hq' & _). apply wp_wpu. eapply wp_mono; [by apply wp_restart_ok|]. cbv beta. intros _ g'' H'. by exists q'.
Qed.

Lemma wp_init g BuffRX CommBuff : Zlen BuffRX = MAXRXNUM -> Zlen CommBuff = MAXRXNUM ->
  wp (GSMInit BuffRX CommBuff) g (fun _ g' => receiving (GSM_TransparentRX g') 0 [] /\ DeviceID g' = DeviceID g /\ Payments g' = Payments g /\ TxBuf g' = TxBuf g /\ pRXBuf (GSM_TransparentRX g') = Some (repeat 0 (Z.to_nat MAXRXNUM))).
Proof.
  intros H1 H2. assert (forall b, Zlen b = MAXRXNUM -> write_at b 0 (repeat 0 (Z.to_nat MAXRXNUM)) = Some (repeat 0 (Z.to_nat MAXRXNUM))) as Hw.
  { intros b Hb. rewrite <-(app_nil_r b). rewrite write_at_0; [by rewrite app_nil_r|]. by rewrite Hb. }
  unfold GSMInit, RXStructInit. wp_bind. eapply wp_run; [reflexivity|]. cbv beta. wp_bind. eapply wp_of_opt; [by rewrite (Hw _ H1)|]. cbv beta iota.
  wp_bind. eapply wp_of_opt; [by rewrite (Hw _ H2)|]. cbv beta iota zeta. eapply wp_run; [reflexivity|]. cbv beta. split; [|done].
  split; [|done..]. by exists (repeat 0 (Z.to_nat MAXRXNUM)).
Qed.

(** ** Events on the link

    A byte that arrives, a poll, or an announcement of the voice thread, which takes
    from the queue. *)
Inductive link_event := Byte (x : Z) | Poll | Announce.

Definition announce : G unit :=
  g ← get; r ← of_opt (VoicePlayHandle (mk_voice_state (Payments g) [])); put (set_payments g (VoicePlay r.2)).

Definition link_exec (e : link_event) : G unit := match e with Byte x => GSMRXCallBack x | Poll => ReceiveDataHandle | Announce => announce end.

Definition link_step (g g' : gsm) : Prop := exists e, match e with Byte x => 0 <= x < 256 | _ => True end /\ link_exec e g = Some (tt, g').

(** Amounts are words: what is in the receive buffer are bytes. *)
Record words_ok (g : gsm) : Prop := {
  wo_buf : forall b, pRXBuf (GSM_TransparentRX g) = Some b -> bytes b;
  wo_money : Forall (fun p => 0 <= Money p < 2 ^ 32) (PalyParam (Payments g));
}.

Lemma set_at_Forall {A} (P : A -> Prop) d i x d' : set_at d i x = Some d' -> P x -> Forall P d -> Forall P d'.
Proof.
  unfold set_at, write_at. destruct (_ && _); [|done]. intros [= <-] Hx Hd. apply Forall_app. split; [by apply Forall_take|].
  apply Forall_cons. split; [done|by apply Forall_drop].
Qed.

Lemma RX_Loop_bytes r x r' : RX_Loop r x = Some r' -> 0 <= x < 256 -> (forall b, pRXBuf r = Some b -> bytes b) -> forall b, pRXBuf r' = Some b -> bytes b.
Proof.
  unfold RX_Loop. destruct (pRXBuf r) as [buf|] eqn:Hb; [|done]. cbn [mbind option_bind]. intros Hr Hx Hall. specialize (Hall buf eq_refl).
  assert (Some r = Some r' -> forall b, pRXBuf r' = Some b -> bytes b) as Hsame by (intros [= <-]; rewrite Hb; by intros b [= <-]).
  assert (forall i b, set_at buf i x = Some b -> bytes b) as Hset by (intros i b Hs; by eapply set_at_Forall).
  destruct (_ =? ReceiveDataHandled).
  { destruct (x =? _); [|by apply Hsame]. destruct (set_at buf 0 x) eqn:Hs; [|done]. simplify_eq/=. intros b [= <-]. by eapply Hset. }
  destruct (_ =? ReceiveFistHeard).
  { destruct (x =? _); [|simplify_eq/=; by intros b [= <-]]. destruct (set_at buf _ x) eqn:Hs; [|done]. simplify_eq/=. intros b [= <-]. by eapply Hset. }
  destruct (_ =? ReceiveSecondHeard); [|by apply Hsame]. destruct (_ <? _); [|by apply Hsame].
  destruct (set_at buf _ x) as [b1|] eqn:Hs; [|done]. cbn [mbind option_bind] in Hr. destruct (if x =? _ then _ else _) as [tl|]; [|done]. simplify_eq/=. intros b' [= <-]. by eapply Hset.
Qed.

Lemma callback_words g x g' : GSMRXCallBack x g = Some (tt, g') -> 0 <= x < 256 -> words_ok g -> words_ok g'.
Proof.
  intros Hc Hx [Hb Hm]. unfold GSMRXCallBack, mbind, M_bind in Hc. unfold get in Hc. destruct (_ && _); [|unfold mret, M_ret in Hc; cbn in Hc; simplify_eq; by split].
  unfold of_opt in Hc. destruct (RX_Loop (GSM_TransparentRX g) x) as [r|] eqn:Hr; [|done]. unfold put in Hc. simplify_eq/=.
  split; [cbn; by eapply RX_Loop_bytes|done].
Qed.

Lemma restart_words g g' : ReStartReceive g = Some (tt, g') -> words_ok g -> words_ok g'.
Proof.
  intros Hr [Hb Hm]. unfold ReStartReceive, mbind, M_bind in Hr. unfold get in Hr. destruct (pRXBuf (GSM_TransparentRX g)) as [b|] eqn:Hbuf.
  - unfold of_opt in Hr. destruct (write_at b 0 _) as [b'|] eqn:Hw; [|done]. unfold put, mret, M_ret in Hr. cbn in Hr. simplify_eq/=. split; [|done]. cbn. intros b1 [= <-].
    unfold write_at in Hw. destruct (_ && _); [|done]. injection Hw as <-. specialize (Hb b eq_refl). repeat (apply Forall_app; split); first [by apply Forall_take|apply bytes_zero|by apply Forall_drop].
  - destruct (_ =? 0); [|done]. unfold put, mret, M_ret in Hr. cbn in Hr. simplify_eq/=. by split.
Qed.

Lemma le32_at_word b i v : bytes b -> le32_at b i = Some v -> 0 <= v < 2 ^ 32.
Proof.
  intros Hb. unfold le32_at. assert (forall j x, get_at b j = Some x -> 0 <= x < 256) as Hat.
  { intros j x Hj. unfold get_at in Hj. destruct (0 <=? j); [|done]. exact (Forall_lookup_1 _ _ _ _ Hb Hj). }
  destruct (get_at b i) as [b0|] eqn:H0; [|done]. cbn [mbind option_bind]. destruct (get_at b (i + 1)) as [b1|] eqn:H1; [|done]. cbn [mbind option_bind].
  destruct (get_at b (i + 2)) as [b2|] eqn:H2; [|done]. cbn [mbind option_bind]. destruct (get_at b (i + 3)) as [b3|] eqn:H3; [|done]. cbn [mbind option_bind].
  apply Hat in H0, H1, H2, H3. intros [= <-]. lia.
Qed.

Lemma payment_at_word b p : bytes b -> payment_at b = Some p -> 0 <= Money p < 2 ^ 32.
Proof.
  intros Hb. unfold payment_at. destruct (le32_at b 8) as [m|] eqn:Hm; [|done]. cbn [mbind option_bind]. destruct (get_at b 12); [|done]. cbn [mbind option_bind].
  destruct (get_at b 13); [|done]. cbn [mbind option_bind]. destruct (le32_at b 14); [|done]. cbn [mbind option_bind]. destruct (le32_at b 18); [|done]. cbn [mbind option_bind].
  intros [= <-]. by apply (le32_at_word b 8).
Qed.

Lemma protocol_words g order r g' : protocolHandle order g = Some (r, g') -> words_ok g -> words_ok g'.
Proof.
  intros Hp [Hb Hm]. unfold protocolHandle in Hp. destruct (find_protocol ProTocolRegist order) as [[h|]|]; [|unfold mbind, M_bind, mret, M_ret in Hp; cbn in Hp; simplify_eq; by split..].
  unfold mbind, M_bind in Hp. destruct (call_handler h g) as [[[] g1]|] eqn:Hc; [|done]. assert (g' = g1) as -> by (unfold mret, M_ret in Hp; cbn in Hp; by simplify_eq). clear Hp.
  destruct h; cbn [call_handler] in Hc.
  - unfold TLV_RegisetBack, update, mbind, M_bind in Hc. unfold mret, M_ret, put in Hc. cbn in Hc. simplify_eq/=. by split.
  - unfold TLV_HeartBeat, device_send, update, mbind, M_bind in Hc. unfold get in Hc. unfold of_opt in Hc. destruct (write_at _ _ _); [|done]. unfold mret, M_ret, put in Hc. cbn in Hc. simplify_eq/=. by split.
  - unfold TLV_GetParam in Hc. unfold mbind at 1, M_bind at 1 in Hc. unfold get in Hc. cbv zeta in Hc. destruct (_ =? HeardIndex _); [done|].
    unfold mbind at 1, M_bind at 1 in Hc. unfold of_opt at 1 in Hc. destruct (pRXBuf (GSM_TransparentRX g)) as [b|] eqn:Hbuf; [|done].
    unfold mbind at 1, M_bind at 1 in Hc. unfold of_opt at 1 in Hc. destruct (payment_at b) as [p|] eqn:Hp; [|done].
    unfold mbind at 1, M_bind at 1 in Hc. unfold of_opt at 1 in Hc. destruct (set_at _ _ p) as [pl|] eqn:Hpl; [|done].
    unfold mbind at 1, M_bind at 1 in Hc. unfold of_opt at 1 in Hc. destruct (write_at _ _ _) as [tx|]; [|done].
    set (g2 := set_sent _ _ _) in Hc. assert (words_ok g2) as Hw.
    { split; cbn; [by rewrite Hbuf|]. eapply set_at_Forall; [exact Hpl| |exact Hm]. eapply payment_at_word; [|exact Hp]. by apply Hb. }
    clearbody g2. clear -Hc Hw. unfold MQTT_SUBSCRIBESent, device_send, update, mbind, M_bind in Hc. unfold get, put in Hc.
    destruct (230 <? _); [unfold mret, M_ret in Hc; cbn in Hc; simplify_eq/=; by destruct Hw|]. destruct (256 <? _); [done|]. unfold mret, M_ret, put in Hc. cbn in Hc. simplify_eq/=. by destruct Hw.
Qed.

Lemma bind_of_opt {A B} (o : option A) (f : A -> G B) g r : (of_opt o ≫= f) g = Some r -> exists x, f x g = Some r.
Proof. unfold mbind, M_bind, of_opt. destruct o as [x|]; [by exists x|done]. Qed.

Lemma poll_words g g' : ReceiveDataHandle g = Some (tt, g') -> words_ok g -> words_ok g'.
Proof.
  intros Hp Hw. unfold ReceiveDataHandle in Hp. unfold mbind at 1, M_bind at 1 in Hp. unfold get in Hp. cbv zeta in Hp.
  repeat match type of Hp with
    | (if ?b then _ else _) _ = _ => destruct b; [by apply (restart_words g)|]
    | (of_opt _ ≫= _) _ = _ => apply bind_of_opt in Hp as (? & Hp); cbv beta zeta in Hp
    end.
  unfold mbind, M_bind in Hp. destruct (protocolHandle _ g) as [[r g1]|] eqn:Hh; [|done]. eapply restart_words; [exact Hp|]. by eapply protocol_words.
Qed.

Lemma announce_ok g q : link_ok g q -> words_ok g -> wp announce g (fun _ g' => link_ok g' (tail q) /\ words_ok g').
Proof.
  intros [Hrx Hq Hid Htx] [Hb Hm]. unfold announce. wp_bind. eapply wp_run; [reflexivity|]. cbv beta. wp_bind.
  assert (wp VoicePlayHandle (mk_voice_state (Payments g) []) (fun _ s => queued (VoicePlay s) (tail q) /\ PalyParam (VoicePlay s) = PalyParam (Payments g))) as Hv.
  { unfold VoicePlayHandle. wp_bind. eapply wp_run; [reflexivity|]. cbv beta. cbn [VoicePlay played]. destruct q as [|p q].
    - rewrite (queued_nil _ Hq), Z.eqb_refl. by wp_ret.
    - apply queued_cons in Hq as (Hne & Hg & Hq). rewrite (proj2 (Z.eqb_neq _ _)) by done. wp_bind. eapply wp_of_opt; [exact Hg|]. cbv zeta. wp_bind. eapply wp_run; [reflexivity|]. cbv beta.
      apply plays_announcement; [|by split]. unfold get_at in Hg. destruct (0 <=? _); [|done]. exact (Forall_lookup_1 _ _ _ _ Hm Hg). }
  apply wp_elim in Hv as ([] & s & Hv & Hq' & Hp). eapply wp_of_opt; [exact Hv|]. eapply wp_run; [reflexivity|]. cbn [snd]. split; [by split|]. split; [exact Hb|]. cbn. by rewrite Hp.
Qed.

(** Every event keeps the link; it is undefined at most for a poll when the queue is full. *)
Lemma link_exec_ok e g q : link_ok g q -> words_ok g -> match e with Byte x => 0 <= x < 256 | _ => True end ->
  wpu (e = Poll /\ has_room (Payments g) = false) (link_exec e) g (fun _ g' => (exists q', link_ok g' q') /\ words_ok g').
Proof.
  intros Hlk Hw He. destruct e as [x| |]; cbn [link_exec].
  - pose proof (wp_receive_ok [x] g q Hlk) as Hr. cbn [receive_bytes] in Hr. unfold wpu. unfold wp, mbind, M_bind in Hr.
    destruct (GSMRXCallBack x g) as [[[] g']|] eqn:Hc; [|done]. split; [by exists q|by eapply callback_words].
  - pose proof (wp_poll_ok g q Hlk) as Hp. unfold wpu in *. destruct (ReceiveDataHandle g) as [[[] g']|] eqn:Hc; [|by split].
    destruct Hp as (q' & Hq' & _). split; [by exists (q ++ q')|by eapply poll_words].
  - apply wp_wpu. eapply wp_mono; [by apply announce_ok|]. intros _ g' [Hq' Hw']. split; [by exists (tail q)|done].
Qed.

(** C30: after GSMInit, in every state that bytes of the server, polls and announcements
    lead to, in any number and order: the next byte and the next announcement are
    defined, and so is the next poll when the queue of the announcements has a free
    place: no access of the receiver, of the poll or of the handlers leaves its buffer.  A
    poll is one step; restart_race shows what the interrupt can do in it. *)
Theorem server_input_safe g0 g q BuffRX CommBuff g1 : Zlen BuffRX = MAXRXNUM -> Zlen CommBuff = MAXRXNUM ->
  queued (Payments g0) q -> Forall (fun p => 0 <= Money p < 2 ^ 32) (PalyParam (Payments g0)) -> Zlen (DeviceID g0) = 8 -> 33 <= Zlen (TxBuf g0) ->
  GSMInit BuffRX CommBuff g0 = Some (tt, g1) -> rtc link_step g1 g ->
  (exists q', link_ok g q') /\ (forall x, 0 <= x < 256 -> is_Some (GSMRXCallBack x g)) /\ is_Some (announce g) /\
  (has_room (Payments g) = true -> is_Some (ReceiveDataHandle g)).
Proof.
  intros H1 H2 Hq Hm Hid Htx Hinit Hreach.
  assert ((exists q', link_ok g q') /\ words_ok g) as [[q' Hlk] Hw].
  { assert ((exists q', link_ok g1 q') /\ words_ok g1) as Hstart.
    { pose proof (wp_init g0 BuffRX CommBuff H1 H2) as Hi. unfold wp in Hi. rewrite Hinit in Hi. destruct Hi as (Hr & Ei & Ep & Et & Hz).
      split; [exists q; split; [exists 0, []; split; [exact Hr|by left]|by rewrite Ep|by rewrite Ei|by rewrite Et]|]. split; [|by rewrite Ep].
      intros b Hb. rewrite Hz in Hb. assert (b = repeat 0 (Z.to_nat MAXRXNUM)) as -> by congruence. apply bytes_zero. }
    clear Hinit. induction Hreach as [|g g2 g3 (e & He & Hex) _ IH]; [done|]. apply IH. destruct Hstart as [[q0 Hlk] Hw].
    pose proof (link_exec_ok e g q0 Hlk Hw He) as Hok. unfold wpu in Hok. by rewrite Hex in Hok. }
  assert (forall e, match e with Byte x => 0 <= x < 256 | _ => True end -> (e = Poll -> has_room (Payments g) = true) -> is_Some (link_exec e g)) as Hdef.
  { intros e He Hr. pose proof (link_exec_ok e g q' Hlk Hw He) as Hok. unfold wpu in Hok. destruct (link_exec e g); [by eexists|].
    destruct Hok as [-> Hfull]. rewrite (Hr eq_refl) in Hfull. done. }
  split; [by exists q'|]. split; [intros x Hx; by apply (Hdef (Byte x))|]. split; [by apply (Hdef Announce)|]. intros Hr. by apply (Hdef Poll).
Qed.

(** A payment arrives, is queued and announced. *)
Definition run_events (es : list link_event) : G unit := fold_right (fun e m => link_exec e ;; m) (mret tt) es.

Lemma run_events_reach es g g' : Forall (fun e => match e with Byte x => 0 <= x < 256 | _ => True end) es -> run_events es g = Some (tt, g') -> rtc link_step g g'.
Proof.
  intros He. revert g. induction He as [|e es He _ IH]; intros g Hr; [injection Hr as <-; constructor|].
  cbn [run_events fold_right] in Hr. unfold mbind, M_bind in Hr. destruct (link_exec e g) as [[[] g1]|] eqn:Hx; [|done].
  eapply rtc_l; [by exists e|]. by apply IH.
Qed.

Definition example_events : list link_event :=
  map Byte ([1; 2; 3] ++ gsm_frame (payment_frame 0 0 0 0 (mk_pay 5 0 0 0 0))) ++ [Poll; Poll; Announce].

Definition fresh_after : gsm := default fresh_link (snd <$> (GSMInit (repeat 7 512) (repeat 9 512) ;; run_events example_events) fresh_link).

Lemma server_input_safe_witness :
  (exists q', link_ok fresh_after q') /\ (forall x, 0 <= x < 256 -> is_Some (GSMRXCallBack x fresh_after)) /\ is_Some (announce fresh_after) /\
  (has_room (Payments fresh_after) = true -> is_Some (ReceiveDataHandle fresh_after)).
Proof.
  destruct (GSMInit (repeat 7 512) (repeat 9 512) fresh_link) as [[[] g1]|] eqn:Hi; [|by vm_compute in Hi].
  assert (run_events example_events g1 = Some (tt, fresh_after)) as Hrun.
  { unfold fresh_after, mbind, M_bind. rewrite Hi. cbn [fmap option_fmap option_map snd default]. injection Hi as <-. vm_compute. reflexivity. }
  apply (server_input_safe fresh_link fresh_after [] (repeat 7 512) (repeat 9 512) g1).
  - reflexivity.
  - reflexivity.
  - unfold queued. cbn [Payments fresh_link PalyParam HeardIndex TailIndex]. do 4 (split; [done|]). by intros i p.
  - by repeat constructor.
  - reflexivity.
  - by vm_compute.
  - exact Hi.
  - apply run_events_reach with example_events; [|exact Hrun]. unfold example_events. apply Forall_app. split; [|by repeat constructor].
    vm_compute. repeat constructor; discriminate.
Defined.

(** ** The interrupt in a poll

    The assignments of ReStartReceive, one by one. *)
Definition restart_with (f : stECEIVE -> stECEIVE) : G unit := update (fun g => set_rx_struct g (f (GSM_TransparentRX g))).
Definition restart_enable : G unit := restart_with (fun r => mk_receive (pRXBuf r) (RXBufSize r) (RX_index r) (ReceiveStation r) 1 (FirstHeard r) (SecondHeard r) (FirstTail r) (SecondTail r) (ReceiveStartTime r)).
Definition restart_time : G unit := restart_with (fun r => mk_receive (pRXBuf r) (RXBufSize r) (RX_index r) (ReceiveStation r) (ReceiveEnable r) (FirstHeard r) (SecondHeard r) (FirstTail r) (SecondTail r) 0).
Definition restart_station : G unit := restart_with (fun r => mk_receive (pRXBuf r) (RXBufSize r) (RX_index r) 0 (ReceiveEnable r) (FirstHeard r) (SecondHeard r) (FirstTail r) (SecondTail r) (ReceiveStartTime r)).
Definition restart_index : G unit := restart_with (fun r => mk_receive (pRXBuf r) (RXBufSize r) 0 (ReceiveStation r) (ReceiveEnable r) (FirstHeard r) (SecondHeard r) (FirstTail r) (SecondTail r) (ReceiveStartTime r)).
Definition restart_clear : G unit :=
  g ← get; let r := GSM_TransparentRX g in
  b ← (match pRXBuf r with
       | Some b => b ← of_opt (write_at b 0 (repeat 0 (Z.to_nat (RXBufSize r)))); mret (Some b)
       | None => if RXBufSize r =? 0 then mret None else ub
       end);
  put (set_rx_struct g (mk_receive b (RXBufSize r) (RX_index r) (ReceiveStation r) (ReceiveEnable r) (FirstHeard r) (SecondHeard r) (FirstTail r) (SecondTail r) (ReceiveStartTime r))).

Lemma restart_steps g : ReStartReceive g = (restart_enable ;; restart_time ;; restart_station ;; restart_index ;; restart_clear) g.
Proof.
  destruct g as [[b sz]]. unfold ReStartReceive, restart_clear, restart_index, restart_station, restart_time, restart_enable, restart_with, update, mbind, M_bind. cbn.
  destruct b; cbn; [by destruct (write_at _ _ _)|by destruct (sz =? 0)].
Qed.

(** Two bytes that arrive between the assignments of the station and of the index leave
    the receiver behind the header with the index 0; the next byte, a tail, is compared
    with the byte before the buffer. *)
Theorem restart_race : receiving fresh_rx 0 [] /\
  (restart_enable ;; restart_time ;; restart_station ;; receive_bytes [0x64; 0x7A] ;; restart_index ;; restart_clear ;; GSMRXCallBack 0x64) fresh_link = None.
Proof. split; [exact fresh_receiving|]. vm_compute. reflexivity. Qed.
