(* ===== verification/Connect.v ===== *)
(** * Connecting the module (bsp/stm32f10x/applications/gsm_comm.c, APP_BLE.c)

    The thread of the module brings the ESP32 onto the network with a sequence of AT
    commands: one call of GSM_ConnectingLoop is one step, a step that fails is repeated,
    and after some failures the sequence starts again.  Each command goes through the AT
    client ([AtClient]): a response is created, the command is executed while the parser
    thread reads what the module answers, and the lines of the response are searched for
    a keyword. *)

From Stdlib Require Import String Ascii.
From S2P Require Import LwMqtt Prelude Cstr AtClient.

Open Scope Z_scope.

Definition text (s : string) : list Z := map (fun c => Z.of_N (N_of_ascii c)) (list_ascii_of_string s).
Definition quoted (s : list Z) : list Z := [34] ++ s ++ [34].

(** ** Constants *)

Definition TEST_AT_COMM : Z := 1.
Definition ColseEcho : Z := 2.
Definition SET_Baudrate : Z := 3.
Definition SetWiFiMode : Z := 4.
Definition ConnectGW : Z := 5.
Definition ReadIPAddr : Z := 6.
Definition ConnectServer : Z := 7.
Definition SetTranMode : Z := 8.
Definition StartSendData : Z := 9.
Definition ConnectServerOK : Z := 10.
Definition MaxTryNum : Z := 5.

Definition AT_Commend : list Z := text "AT".
Definition AT_CloseEcho : list Z := text "ATE0".
Definition AT_BaudRate : list Z := text "AT+UART=115200,8,1,0,0".
Definition AT_SetWiFiMode : list Z := text "AT+CWMODE=3".
Definition AT_ReadIPAddr : list Z := text "AT+CIFSR".
Definition AT_SetTranMode : list Z := text "AT+CIPMODE=1".
Definition AT_StartSendData : list Z := text "AT+CIPSEND".

(** ** State *)

(** What happens to one command: whether the two allocations of the response succeed,
    and the characters that the module sends before the timeout. *)
Record attempt := mk_attempt { obj_ok : bool; buf_ok : bool; chars : list Z }.

(** The parameters that are used here: strings without their NUL, and a port. *)
Record net_param := mk_net { GW_Name : list Z; GW_KEY : list Z; MQTT_ADDR : list Z; MQTT_Port : Z }.

(** [written] are the commands that the device was given. *)
Record app_state := mk_app {
  at_side : at_world; at_locals : parser_locals; AT_COMPonet_Station : Z;
  GSMConnect : Z; TryNum : Z; BLE_Station : Z; BLE_TryNum : Z;
  OneNetParam : net_param; answers : list attempt; written : list (list Z) }.

Notation P := (M app_state).

Definition set_client (a : app_state) w l := mk_app w l (AT_COMPonet_Station a) (GSMConnect a) (TryNum a) (BLE_Station a) (BLE_TryNum a) (OneNetParam a) (answers a) (written a).
Definition set_at_station (a : app_state) n := mk_app (at_side a) (at_locals a) n (GSMConnect a) (TryNum a) (BLE_Station a) (BLE_TryNum a) (OneNetParam a) (answers a) (written a).
Definition set_gsm (a : app_state) st tries := mk_app (at_side a) (at_locals a) (AT_COMPonet_Station a) st tries (BLE_Station a) (BLE_TryNum a) (OneNetParam a) (answers a) (written a).
Definition set_ble (a : app_state) st tries := mk_app (at_side a) (at_locals a) (AT_COMPonet_Station a) (GSMConnect a) (TryNum a) st tries (OneNetParam a) (answers a) (written a).
Definition set_io (a : app_state) l ws := mk_app (at_side a) (at_locals a) (AT_COMPonet_Station a) (GSMConnect a) (TryNum a) (BLE_Station a) (BLE_TryNum a) (OneNetParam a) l ws.

Definition modify (f : app_state -> app_state) : P unit := a ← get; put (f a).

(** ** One command *)

(** sscanf with "%s": the first word of the text. *)
Definition is_space (c : Z) : bool := (c =? 32) || ((9 <=? c) && (c <=? 13)).
Fixpoint word_of (s : list Z) : list Z := match s with [] => [] | c :: s => if is_space c then [] else c :: word_of s end.
Fixpoint sscanf_word (s : list Z) : list Z := match s with [] => [] | c :: s' => if is_space c then sscanf_word s' else word_of s end.
Definition sscanf_s (s fmt : list Z) : Z := match sscanf_word s with [] => -1 | _ => 1 end.

Definition next_attempt : P attempt :=
  a ← get; match answers a with
  | [] => mret (mk_attempt true true [])
  | x :: l => put (set_io a l (written a)) ;; mret x
  end.

(** The word is copied into Temp, which has ten bytes. *)
Definition parse_keyword (r : at_response) (KeyWord : list Z) : option Z :=
  line ← at_resp_get_line_by_kw r KeyWord;
  fits ← (match line with
          | None => Some true
          | Some off => buf ← resp_buf r; s ← cstr_from buf off; Some (Zlen (sscanf_word s) <? 10)
          end);
  if fits : bool then at_resp_parse_line_args_by_kw sscanf_s r KeyWord (text "%s") else None.

(** The command is a format without arguments: a percent sign in it (37) has no
    meaning.  When the parser thread sleeps it reads nothing. *)
Definition ESP32_SendCOM_AT_CMD (AT_CMD KeyWord : list Z) (WaitRespTime ReceiveLineNum : Z) : P Z :=
  x ← next_attempt; a ← get;
  match at_create_resp 512 ReceiveLineNum (u8 WaitRespTime) (obj_ok x) (buf_ok x) with
  | None => mret RT_ERROR
  | Some r =>
      if bool_decide (37 ∈ AT_CMD) then ub else
      let id := fresh (dom (store (at_side a))) in
      '(result, out, w, l) ← of_opt (at_obj_exec_cmd (with_response (at_side a) id r) (at_locals a) (repeat 0 128) (Some id) AT_CMD
                                (if AT_COMPonet_Station a =? 0 then [] else chars x));
      put (set_io (set_client a (at_delete_resp w id) l) (answers a) (written a ++ [out])) ;;
      if negb (result =? RT_EOK) then mret RT_ERROR else
      r ← of_opt (store w !! id);
      n ← of_opt (parse_keyword r KeyWord);
      if 0 <? n then mret RT_EOK else mret (-1)
  end.

(** ** The sequence *)

Definition step_done (station : Z) : P unit := modify (fun a => set_gsm a station 0).

(** One failure more; the result is that of the function, which has none when the step
    is repeated. *)
Definition step_failed (over : Z -> bool) : P (option Z) :=
  a ← get; let n := u8 (TryNum a + 1) in
  if over n then put (set_gsm a 0 0) ;; mret (Some (-1)) else put (set_gsm a (GSMConnect a) n) ;; mret None.

Definition many (n : Z) : bool := MaxTryNum <=? n.

Definition simple_step (cmd : list Z) (wait next : Z) : P (option Z) :=
  result ← ESP32_SendCOM_AT_CMD cmd (text "OK") wait 0;
  if result =? 0 then step_done next ;; mret None else step_failed many.

(** The waits are unsigned char: 1000 is 232. *)
Definition GSM_ConnectingLoop : P (option Z) :=
  a ← get; let st := GSMConnect a in let p := OneNetParam a in
  if st =? 0 then
    modify (fun a => set_at_station a 1) ;;
    ESP32_SendCOM_AT_CMD (text "AT+CIPCLOSE") (text "OK") 5 0 ;;
    modify (fun a => set_gsm a TEST_AT_COMM (TryNum a)) ;; mret None
  else if st =? TEST_AT_COMM then
    result ← ESP32_SendCOM_AT_CMD AT_Commend (text "OK") 100 0;
    if result =? 0 then step_done ColseEcho ;; mret None else step_failed (fun n => MaxTryNum <? n)
  else if st =? ColseEcho then simple_step AT_CloseEcho 5 SET_Baudrate
  else if st =? SET_Baudrate then simple_step AT_BaudRate 5 SetWiFiMode
  else if st =? SetWiFiMode then simple_step AT_SetWiFiMode 5 ConnectGW
  else if st =? ConnectGW then simple_step (text "AT+CWJAP=" ++ quoted (GW_Name p) ++ text "," ++ quoted (GW_KEY p)) 1000 ReadIPAddr
  else if st =? ReadIPAddr then simple_step AT_ReadIPAddr 100 ConnectServer
  else if st =? ConnectServer then
    let cmd := text "AT+CIPSTART=" ++ quoted (text "TCP") ++ text "," ++ quoted (MQTT_ADDR p) ++ text "," ++ decimal (MQTT_Port p) in
    result ← ESP32_SendCOM_AT_CMD cmd (text "OK") 200 0;
    result ← (if result =? 0 then mret 0 else ESP32_SendCOM_AT_CMD cmd (text "CONNECTED") 200 0);
    if result =? 0 then step_done ConnectServerOK ;; modify (fun a => set_at_station a 0) ;; mret None else step_failed many
  else if st =? SetTranMode then simple_step AT_SetTranMode 100 StartSendData
  else if st =? StartSendData then
    result ← ESP32_SendCOM_AT_CMD AT_StartSendData (text "OK") 50 0;
    if result =? 0 then step_done ConnectServerOK ;; modify (fun a => set_at_station a 0) ;; mret None else step_failed many
  else mret None.

(** ** Bluetooth (APP_BLE.c) *)

Definition ble_failed : P (option Z) :=
  a ← get; let n := BLE_TryNum a + 1 in
  if MaxTryNum <? n then put (set_ble a 0 0) ;; mret (Some (-1)) else put (set_ble a (BLE_Station a) n) ;; mret None.

Definition ble_step (cmd : list Z) (next : Z) : P (option Z) :=
  result ← ESP32_SendCOM_AT_CMD cmd (text "OK") 300 0;
  if result =? 0 then modify (fun a => set_ble a next 0) ;; mret None else ble_failed.

(** The reset falls through into the first step. *)
Definition ble_init : P (option Z) :=
  result ← ESP32_SendCOM_AT_CMD (text "AT+BLEINIT?") (text "BLEINIT:2") 300 0;
  result ← (if result =? 0 then mret 0 else ESP32_SendCOM_AT_CMD (text "AT+BLEINIT=2") (text "OK") 300 0);
  if result =? 0 then modify (fun a => set_ble a 2 0) ;; mret None else ble_failed.

Definition APP_ESP32_Config_loop : P (option Z) :=
  a ← get; let st := BLE_Station a in
  if st =? 0 then
    modify (fun a => set_at_station a 1) ;;
    ESP32_SendCOM_AT_CMD (text "AT+BLEINIT=0") (text "BLEINIT:0") 300 0 ;;
    modify (fun a => set_ble a 1 (BLE_TryNum a)) ;; ble_init
  else if st =? 1 then ble_init
  else if st =? 2 then ble_step (text "AT+BLEGATTSSRVCRE") 3
  else if st =? 3 then ble_step (text "AT+BLEGATTSSRVSTART") 4
  else if st =? 4 then ble_step (text "AT+BLEADDR?") 5
  else if st =? 5 then ble_step (text "AT+BLEADVPARAM=32,64,0,0,7") 6
  else if st =? 6 then ble_step (text "AT+BLEADVDATA=" ++ quoted (text "0201060A09457370726573736966030302A0")) 7
  else if st =? 7 then
    result ← ESP32_SendCOM_AT_CMD (text "AT+BLEADVSTART") (text "OK") 300 0;
    if result =? 0 then modify (fun a => set_at_station (set_ble a 8 0) 0) ;; mret None else ble_failed
  else mret None.

(** ** The lines of an answer *)

Definition contains (kw s : list Z) : Prop := is_Some (find_sub kw s).

(** The first line with the keyword is the last one. *)
Lemma line_by_kw kw t tail : forall ts pre, Forall nonzero (ts ++ [t]) -> Forall (fun s => ~ contains kw (s ++ [13])) ts -> contains kw (t ++ [13]) ->
  at_resp_get_line_by_kw_loop (length (ts ++ [t])) (pre ++ stored_lines (ts ++ [t]) ++ tail) kw (Zlen pre) = Some (Some (Zlen (pre ++ stored_lines ts))).
Proof.
  induction ts as [|s ts IH]; intros pre Hn Hno Hkw; cbn [app length at_resp_get_line_by_kw_loop] in *; rewrite stored_lines_cons, <-(assoc_L (++)); apply Forall_cons in Hn as [Hn0 Hn]; cbn [app]; rewrite cstr_line by done; cbn [mbind option_bind].
  - rewrite bool_decide_true by done. change (stored_lines []) with (@nil Z). by rewrite app_nil_r.
  - apply Forall_cons in Hno as [Hs Hno]. rewrite bool_decide_false by done.
    replace (pre ++ s ++ 13 :: 0 :: stored_lines (ts ++ [t]) ++ tail) with ((pre ++ s ++ [13; 0]) ++ stored_lines (ts ++ [t]) ++ tail) by (by rewrite <-!(assoc_L (++))).
    replace (Zlen pre + (Zlen (s ++ [13]) + 1)) with (Zlen (pre ++ s ++ [13; 0])) by (rewrite !Zlen_app; change (Zlen [13; 0]) with 2; change (Zlen [13]) with 1; lia).
    rewrite IH by done. rewrite stored_lines_cons. by rewrite <-!(assoc_L (++)).
Qed.

(** What the module answers when it accepts a command: lines that do not end the response
    and do not contain the keyword, then "OK". *)
Record quiet_line (s : list Z) : Prop := {
  ql_chars : Forall (fun ch => ch <> 0 /\ ch <> 10) s;
  ql_size : Zlen s + 2 <= 512;
  ql_kw : ~ contains (text "OK") (s ++ [13]);
  ql_end : forall n, text_end s 0 n = None;
}.

Lemma parse_ok r ts tail : Forall quiet_line ts -> line_counts r = Zlen (ts ++ [AT_RESP_END_OK]) ->
  resp_buf r = Some (stored_lines (ts ++ [AT_RESP_END_OK]) ++ tail) -> parse_keyword r (text "OK") = Some 1.
Proof.
  intros Hts Hc Hb. assert (Forall nonzero (ts ++ [AT_RESP_END_OK])) as Hn.
  { apply Forall_app. split; [|by repeat constructor]. eapply Forall_impl; [exact Hts|]. intros s Hs. eapply Forall_impl; [exact (ql_chars _ Hs)|]. by intros ? []. }
  assert (Zlen (ts ++ [AT_RESP_END_OK]) = Z.of_nat (length (ts ++ [AT_RESP_END_OK]))) as Hlen by done.
  assert (at_resp_get_line_by_kw r (text "OK") = Some (Some (Zlen (stored_lines ts)))) as Hline.
  { unfold at_resp_get_line_by_kw. rewrite Hc, Hb, Hlen. rewrite (proj2 (Z.eqb_neq _ 0)) by (rewrite length_app; simpl; lia). cbn [mbind option_bind]. rewrite Nat2Z.id.
    apply (line_by_kw _ _ tail ts []); [done| |by vm_compute; eexists]. eapply Forall_impl; [exact Hts|]. intros s Hs. apply ql_kw, Hs. }
  assert (cstr_from (stored_lines (ts ++ [AT_RESP_END_OK]) ++ tail) (Zlen (stored_lines ts)) = Some [79; 75; 13]) as Hstr.
  { unfold stored_lines at 1. rewrite fmap_app, concat_app. cbn [fmap list_fmap concat]. rewrite app_nil_r, <-!(assoc_L (++)). apply (cstr_line (stored_lines ts) AT_RESP_END_OK); [done|]. unfold nonzero, AT_RESP_END_OK. by repeat constructor. }
  unfold parse_keyword. rewrite Hline, Hb. cbn [mbind option_bind]. rewrite Hstr. cbn [mbind option_bind]. change (Zlen (sscanf_word [79; 75; 13]) <? 10) with true. cbn [mbind option_bind].
  unfold at_resp_parse_line_args_by_kw. rewrite Hline. cbn [mbind option_bind]. rewrite Hb. cbn [mbind option_bind]. by rewrite Hstr.
Qed.

(** ** Commands and outcomes *)

(** Between two commands: no response is left, and the client has the buffer of 512 bytes
    and no table of unsolicited answers. *)
Record idle (w : at_world) (l : parser_locals) (station : Z) : Prop := {
  id_ready : ready w l;
  id_store : store w = ∅;
  id_config : config (client w) = (0, 512, None);
  id_awake : station <> 0;
}.

Inductive outcome : attempt -> bool -> Prop :=
  | accepted ts : Forall quiet_line ts -> Zlen (stored_lines (ts ++ [AT_RESP_END_OK])) < 512 -> outcome (mk_attempt true true (device_lines (ts ++ [AT_RESP_END_OK]))) true
  | refused ts t : Forall quiet_line ts -> Forall (fun ch => ch <> 0 /\ ch <> 10) t -> Zlen t + 2 <= 512 -> text_end t 0 (1 + Zlen ts) = Some AT_RESP_ERROR ->
      Zlen (stored_lines (ts ++ [t])) < 512 -> outcome (mk_attempt true true (device_lines (ts ++ [t]))) false
  | silent : outcome (mk_attempt true true []) false
  | no_memory o b l : o && b = false -> outcome (mk_attempt o b l) false.

Definition sent (x : attempt) (cmd : list Z) : list (list Z) := if obj_ok x && buf_ok x then [cmd ++ [13; 10]] else [].

Definition good_command (cmd : list Z) : Prop := 37 ∉ cmd /\ Zlen cmd < AT_CMD_MAX_LEN.

(** The whole execution of a command whose answer ends the response. *)
Lemma idle_exec w l station r cmd ts t status : idle w l station -> resp_buf r = Some (replicate 512 0) -> buf_size r = 512 -> resp_line_num r = 0 -> Zlen cmd < AT_CMD_MAX_LEN ->
  Forall quiet_line ts -> Forall (fun ch => ch <> 0 /\ ch <> 10) t -> Zlen t + 2 <= 512 -> Zlen (stored_lines (ts ++ [t])) < 512 -> text_end t 0 (1 + Zlen ts) = Some status ->
  let id := fresh (dom (store w)) in
  exists w' r' tail,
    at_obj_exec_cmd (with_response w id r) l (repeat 0 128) (Some id) cmd (device_lines (ts ++ [t])) = Some (if decide (status = AT_RESP_OK) then RT_EOK else - RT_ERROR, cmd ++ [13; 10], w', l) /\
    store w' !! id = Some r' /\ idle (at_delete_resp w' id) l station /\ line_counts r' = Zlen (ts ++ [t]) /\ resp_buf r' = Some (stored_lines (ts ++ [t]) ++ tail).
Proof.
  intros [Hrd Hst Hcf Haw] Hb Hs Hn Hc Hts Ht Htl Hfit Hend id. set (w0 := with_response w id r).
  assert (end_sign (client w) = 0 /\ recv_bufsz (client w) = 512 /\ urc_table (client w) = None) as (He & Hz & Hu) by (unfold config in Hcf; by injection Hcf).
  destruct (exec_collects w0 l id r (replicate 512 0) (repeat 0 128) cmd ts t status) as (w' & r' & tail & Hrun & Hrd' & _ & Hcf' & _ & Hst' & Hcnt & Hb').
  - by destruct Hrd.
  - unfold w0. cbn. by rewrite lookup_insert_eq.
  - exact Hb.
  - by rewrite Hs.
  - exact Hc.
  - done.
  - cbn. rewrite Hz. done.
  - apply Forall_app. split; [|apply Forall_singleton; apply text_line_plain; cbn; [done|done|done|by rewrite Hz]].
    eapply Forall_impl; [exact Hts|]. intros s [Hch Hsz _ _]. apply text_line_plain; cbn; [done|done|done|by rewrite Hz].
  - by rewrite Hs.
  - rewrite Hn. clear -Hts. generalize 1. induction Hts as [|s ts Hs _ IH]; intros n; [done|]. split; [apply ql_end, Hs|apply IH].
  - by rewrite Hn.
  - exists w', r', tail. split; [exact Hrun|]. rewrite Hst'. split; [by rewrite lookup_insert_eq|]. split; [|done].
    split; [by destruct Hrd'| | |exact Haw].
    + cbn. rewrite Hst'. unfold w0. cbn. rewrite Hst. rewrite !delete_insert_eq. by rewrite delete_empty.
    + cbn. rewrite Hcf'. exact Hcf.
Qed.

(** A command that nobody answers. *)
Lemma idle_timeout w l station r cmd : idle w l station -> Zlen cmd < AT_CMD_MAX_LEN ->
  let id := fresh (dom (store w)) in
  exists w' r', at_obj_exec_cmd (with_response w id r) l (repeat 0 128) (Some id) cmd [] = Some (- RT_ETIMEOUT, cmd ++ [13; 10], w', l) /\
    store w' !! id = Some r' /\ idle (at_delete_resp w' id) l station.
Proof.
  intros [Hrd Hst Hcf Haw] Hc id. unfold at_obj_exec_cmd. rewrite vprintfln_writes by done. cbn [mbind option_bind]. unfold exec_clear. cbn [store exec_begin with_response with_client]. rewrite lookup_insert_eq. cbn [mbind option_bind].
  change (client_parser 1 [] ?w ?l) with (Some (w, l, @nil Z)). cbn [mbind option_bind]. cbn [resp_notice with_response with_client exec_begin]. rewrite (rd_notice _ _ Hrd). change (0 <? 0) with false. cbn [mbind option_bind exec_timeout].
  eexists _, _. split; [reflexivity|]. cbn. split; [by rewrite lookup_insert_eq|].
  split; [|cbn; by rewrite Hst, !delete_insert_eq, delete_empty|exact Hcf|exact Haw]. split; [cbn; by apply rd_notice in Hrd|by destruct Hrd].
Qed.

Lemma wp_command a cmd wait x rest ok Q : idle (at_side a) (at_locals a) (AT_COMPonet_Station a) -> answers a = x :: rest -> outcome x ok -> good_command cmd ->
  (forall w l r, idle w l (AT_COMPonet_Station a) -> (r =? 0) = ok -> Q r (set_io (set_client a w l) rest (written a ++ sent x cmd))) ->
  wp (ESP32_SendCOM_AT_CMD cmd (text "OK") wait 0) a Q.
Proof.
  intros Hid Hans Hx [Hfmt Hlen] HQ. assert (AT_COMPonet_Station a <> 0) as Haw by apply Hid. apply Z.eqb_neq in Haw.
  unfold ESP32_SendCOM_AT_CMD, next_attempt. wp_bind. wp_bind. eapply wp_run; [reflexivity|]. cbv beta. rewrite Hans. wp_bind. eapply wp_run; [reflexivity|]. cbv beta. wp_ret.
  wp_bind. eapply wp_run; [reflexivity|]. cbv beta. cbn [at_side at_locals AT_COMPonet_Station set_io answers written]. rewrite Haw.
  destruct Hx as [ts Hts Hfit|ts t Hts Ht Htl Hend Hfit| |o b l Hm].
  - cbn [at_create_resp obj_ok buf_ok negb chars]. rewrite bool_decide_false by done.
    edestruct (idle_exec (at_side a) (at_locals a) (AT_COMPonet_Station a) (mk_at_response (Some (replicate (Z.to_nat 512) 0)) 512 0 0 (u8 wait)) cmd ts AT_RESP_END_OK AT_RESP_OK) as (w' & r' & tail & Hrun & Hr' & Hid' & Hcnt & Hb'); [exact Hid|done|done|done|exact Hlen|exact Hts|by repeat constructor|done|exact Hfit|done|].
    wp_bind. eapply wp_of_opt; [exact Hrun|]. cbv beta iota. wp_bind. eapply wp_run; [reflexivity|]. cbv beta. change (negb (_ =? RT_EOK)) with false. cbv iota.
    wp_bind. eapply wp_of_opt; [exact Hr'|]. wp_bind. eapply wp_of_opt; [by eapply parse_ok|]. change (0 <? 1) with true. cbv iota. wp_ret. by apply (HQ _ _ RT_EOK).
  - cbn [at_create_resp obj_ok buf_ok negb chars]. rewrite bool_decide_false by done.
    edestruct (idle_exec (at_side a) (at_locals a) (AT_COMPonet_Station a) (mk_at_response (Some (replicate (Z.to_nat 512) 0)) 512 0 0 (u8 wait)) cmd ts t AT_RESP_ERROR) as (w' & r' & tail & Hrun & _ & Hid' & _); [exact Hid|done|done|done|exact Hlen|exact Hts|exact Ht|exact Htl|exact Hfit|exact Hend|].
    wp_bind. eapply wp_of_opt; [exact Hrun|]. cbv beta iota. wp_bind. eapply wp_run; [reflexivity|]. cbv beta. change (negb (_ =? RT_EOK)) with true. cbv iota. wp_ret. by apply (HQ _ _ RT_ERROR).
  - cbn [at_create_resp obj_ok buf_ok negb chars]. rewrite bool_decide_false by done.
    edestruct (idle_timeout (at_side a) (at_locals a) (AT_COMPonet_Station a) (mk_at_response (Some (replicate (Z.to_nat 512) 0)) 512 0 0 (u8 wait)) cmd) as (w' & r' & Hrun & _ & Hid'); [exact Hid|exact Hlen|].
    wp_bind. eapply wp_of_opt; [exact Hrun|]. cbv beta iota. wp_bind. eapply wp_run; [reflexivity|]. cbv beta. change (negb (_ =? RT_EOK)) with true. cbv iota. wp_ret. by apply (HQ _ _ RT_ERROR).
  - cbn [obj_ok buf_ok]. assert (at_create_resp 512 0 (u8 wait) o b = None) as -> by (by destruct o, b). wp_ret. specialize (HQ (at_side a) (at_locals a) RT_ERROR Hid eq_refl).
    unfold sent in HQ. cbn [obj_ok buf_ok] in HQ. rewrite Hm, app_nil_r in HQ. exact HQ.
Qed.

(** ** The whole sequence *)

(** The command of a station, and the station after it. *)
Definition command_of (p : net_param) (st : Z) : list Z :=
  if st =? 0 then text "AT+CIPCLOSE" else if st =? TEST_AT_COMM then AT_Commend else if st =? ColseEcho then AT_CloseEcho else if st =? SET_Baudrate then AT_BaudRate
  else if st =? SetWiFiMode then AT_SetWiFiMode else if st =? ConnectGW then text "AT+CWJAP=" ++ quoted (GW_Name p) ++ text "," ++ quoted (GW_KEY p)
  else if st =? ReadIPAddr then AT_ReadIPAddr
  else if st =? ConnectServer then text "AT+CIPSTART=" ++ quoted (text "TCP") ++ text "," ++ quoted (MQTT_ADDR p) ++ text "," ++ decimal (MQTT_Port p)
  else if st =? SetTranMode then AT_SetTranMode else AT_StartSendData.
Definition next_station (st : Z) : Z := if st =? ConnectServer then ConnectServerOK else st + 1.

Record good_param (p : net_param) : Prop := {
  gp_name : 37 ∉ GW_Name p /\ Zlen (GW_Name p) < 30;
  gp_key : 37 ∉ GW_KEY p /\ Zlen (GW_KEY p) < 20;
  gp_addr : 37 ∉ MQTT_ADDR p /\ Zlen (MQTT_ADDR p) < 30;
  gp_port : 0 <= MQTT_Port p;
}.

Lemma decimal_chars fuel : forall v, 0 <= v -> 37 ∉ decimal_loop fuel v /\ Zlen (decimal_loop fuel v) <= Z.of_nat fuel.
Proof.
  induction fuel as [|fuel IH]; intros v Hv; [split; [apply not_elem_of_nil|done]|]. cbn [decimal_loop]. assert (0 <= v / 10) as Hd by (by apply Z.div_pos).
  assert (37 ∉ (if v <? 10 then [] else decimal_loop fuel (v / 10)) /\ Zlen (if v <? 10 then [] else decimal_loop fuel (v / 10)) <= Z.of_nat fuel) as [Hn Hl].
  { destruct (v <? 10); [split; [apply not_elem_of_nil|change (Zlen (@nil Z)) with 0; lia]|by apply IH]. }
  split; [|rewrite Zlen_app; change (Zlen [_]) with 1; lia]. apply not_elem_of_app. split; [done|]. rewrite list_elem_of_singleton. pose proof (Z.mod_pos_bound v 10 ltac:(done)). lia.
Qed.

Lemma text_plain s : forallb (fun c => negb (c =? 37)) (text s) = true -> 37 ∉ text s.
Proof. intros H Hin. rewrite forallb_forall in H. apply list_elem_of_In in Hin. by specialize (H _ Hin). Qed.

Lemma quoted_plain s : 37 ∉ s -> 37 ∉ quoted s /\ Zlen (quoted s) = Zlen s + 2.
Proof. intros H. unfold quoted. split; [|rewrite !Zlen_app; change (Zlen [34]) with 1; lia]. rewrite !not_elem_of_app, !list_elem_of_singleton. done. Qed.

Lemma command_good p st : good_param p -> good_command (command_of p st).
Proof.
  intros [[Hn Hnl] [Hk Hkl] [Ha Hal] Hp]. destruct (quoted_plain _ Hn) as [Hn' Hn2], (quoted_plain _ Hk) as [Hk' Hk2], (quoted_plain _ Ha) as [Ha' Ha2], (decimal_chars 10 _ Hp) as [Hd Hdl].
  assert (forall s, forallb (fun c => negb (c =? 37)) (text s) && (Zlen (text s) <? AT_CMD_MAX_LEN) = true -> good_command (text s)) as Htext by (intros s [H1 H2]%andb_prop; split; [by apply text_plain|by apply Z.ltb_lt]).
  unfold command_of. repeat case_match; try (apply Htext; vm_compute; done).
  - split; [rewrite !not_elem_of_app; repeat split; try done; by apply text_plain|]. rewrite !Zlen_app, Hn2, Hk2. change (Zlen (text "AT+CWJAP=")) with 9. change (Zlen (text ",")) with 1. unfold AT_CMD_MAX_LEN. lia.
  - split; [rewrite !not_elem_of_app; repeat split; try done; by (apply text_plain || (apply quoted_plain; by apply text_plain))|]. unfold decimal in *. rewrite !Zlen_app, Ha2. change (Zlen (text "AT+CIPSTART=")) with 12. change (Zlen (quoted (text "TCP"))) with 5. change (Zlen (text ",")) with 1. unfold AT_CMD_MAX_LEN. lia.
Qed.

Definition after_step (a : app_state) (st : Z) : app_state :=
  let a := set_gsm a (next_station st) 0 in if next_station st =? ConnectServerOK then set_at_station a 0 else a.

Definition limit (st n : Z) : bool := if st =? TEST_AT_COMM then MaxTryNum <? n else MaxTryNum <=? n.

(** A step whose command is accepted. *)
Lemma wp_step_ok a x rest Q : idle (at_side a) (at_locals a) (AT_COMPonet_Station a) -> good_param (OneNetParam a) -> 1 <= GSMConnect a <= 9 ->
  answers a = x :: rest -> outcome x true ->
  (forall w l, idle w l (AT_COMPonet_Station a) -> Q None (after_step (set_io (set_client a w l) rest (written a ++ sent x (command_of (OneNetParam a) (GSMConnect a)))) (GSMConnect a))) ->
  wp GSM_ConnectingLoop a Q.
Proof.
  intros Hid Hp Hst Hans Hx HQ. pose proof (command_good _ (GSMConnect a) Hp) as Hcmd.
  assert (GSMConnect a = 1 \/ GSMConnect a = 2 \/ GSMConnect a = 3 \/ GSMConnect a = 4 \/ GSMConnect a = 5 \/ GSMConnect a = 6 \/ GSMConnect a = 7 \/ GSMConnect a = 8 \/ GSMConnect a = 9) as Hcases by lia. clear Hst.
  unfold GSM_ConnectingLoop. wp_bind. eapply wp_run; [reflexivity|]. cbv beta zeta.
  destruct Hcases as [Hst|[Hst|[Hst|[Hst|[Hst|[Hst|[Hst|[Hst|Hst]]]]]]]]; rewrite Hst in *; cbn [Z.eqb Pos.eqb TEST_AT_COMM ColseEcho SET_Baudrate SetWiFiMode ConnectGW ReadIPAddr ConnectServer SetTranMode StartSendData];
    unfold simple_step; wp_bind; (eapply wp_command; [exact Hid|exact Hans|exact Hx|exact Hcmd|]); intros w l r Hid' ->; rewrite ?bind_ret_l; unfold step_done, modify;
    repeat first [wp_bind | wp_ret | (eapply wp_run; [reflexivity|]; cbv beta)]; exact (HQ w l Hid').
Qed.

(** A step whose command is refused. *)
Lemma wp_step_refused a x rest Q : idle (at_side a) (at_locals a) (AT_COMPonet_Station a) -> good_param (OneNetParam a) -> 1 <= GSMConnect a <= 9 -> GSMConnect a <> ConnectServer ->
  answers a = x :: rest -> outcome x false -> 0 <= TryNum a < 255 ->
  (forall w l, idle w l (AT_COMPonet_Station a) ->
    let a' := set_io (set_client a w l) rest (written a ++ sent x (command_of (OneNetParam a) (GSMConnect a))) in
    if limit (GSMConnect a) (TryNum a + 1) then Q (Some (-1)) (set_gsm a' 0 0) else Q None (set_gsm a' (GSMConnect a) (TryNum a + 1))) ->
  wp GSM_ConnectingLoop a Q.
Proof.
  intros Hid Hp Hst H7 Hans Hx Htry HQ. pose proof (command_good _ (GSMConnect a) Hp) as Hcmd.
  assert (GSMConnect a = 1 \/ GSMConnect a = 2 \/ GSMConnect a = 3 \/ GSMConnect a = 4 \/ GSMConnect a = 5 \/ GSMConnect a = 6 \/ GSMConnect a = 8 \/ GSMConnect a = 9) as Hcases by (unfold ConnectServer in H7; lia). clear Hst H7.
  assert (u8 (TryNum a + 1) = TryNum a + 1) as Hu by (apply u8_small; lia).
  unfold GSM_ConnectingLoop. wp_bind. eapply wp_run; [reflexivity|]. cbv beta zeta.
  destruct Hcases as [Hst|[Hst|[Hst|[Hst|[Hst|[Hst|[Hst|Hst]]]]]]]; rewrite Hst in *; cbn [Z.eqb Pos.eqb TEST_AT_COMM ColseEcho SET_Baudrate SetWiFiMode ConnectGW ReadIPAddr ConnectServer SetTranMode StartSendData];
    unfold simple_step; wp_bind; (eapply wp_command; [exact Hid|exact Hans|exact Hx|exact Hcmd|]); intros w l r Hid' ->; unfold step_failed; wp_bind; (eapply wp_run; [reflexivity|]); cbv beta zeta;
    cbn [TryNum GSMConnect set_io set_client]; rewrite Hu; specialize (HQ w l Hid'); cbv zeta in HQ;
    match goal with |- context [if ?b then _ else _] => change (limit _ _) with b in HQ; destruct b end;
    wp_bind; (eapply wp_run; [reflexivity|]); wp_ret; rewrite ?Hst; exact HQ.
Qed.

(** The first step disconnects, whatever the module says. *)
Lemma wp_step_start a x rest ok Q : idle (at_side a) (at_locals a) 1 -> good_param (OneNetParam a) -> GSMConnect a = 0 -> answers a = x :: rest -> outcome x ok ->
  (forall w l, idle w l 1 -> Q None (set_gsm (set_io (set_client (set_at_station a 1) w l) rest (written a ++ sent x (command_of (OneNetParam a) 0))) 1 (TryNum a))) ->
  wp GSM_ConnectingLoop a Q.
Proof.
  intros Hid Hp Hst Hans Hx HQ. pose proof (command_good _ 0 Hp) as Hcmd. unfold GSM_ConnectingLoop. wp_bind. eapply wp_run; [reflexivity|]. cbv beta zeta. rewrite Hst. cbn [Z.eqb].
  unfold modify. wp_bind. do 2 (eapply wp_run; [reflexivity|]; cbv beta; wp_bind). eapply (wp_command (set_at_station a 1)); [exact Hid|exact Hans|exact Hx|exact Hcmd|]. intros w l r Hid' _.
  wp_bind. do 2 (eapply wp_run; [reflexivity|]; cbv beta). wp_ret. exact (HQ w l Hid').
Qed.

(** Calls of the thread. *)
Fixpoint calls (n : nat) : P unit := match n with O => mret tt | S n => GSM_ConnectingLoop ;; calls n end.

(** The stations from [st] to the connection. *)
Definition path (st : Z) : list Z := seqZ st (if st <=? 7 then 8 - st else 10 - st).

Lemma path_cons st : 0 <= st <= 9 -> path st = st :: (if next_station st =? ConnectServerOK then [] else path (next_station st)).
Proof.
  intros Hst. assert (st = 0 \/ st = 1 \/ st = 2 \/ st = 3 \/ st = 4 \/ st = 5 \/ st = 6 \/ st = 7 \/ st = 8 \/ st = 9) as Hcases by lia.
  destruct Hcases as [->|[->|[->|[->|[->|[->|[->|[->|[->| ->]]]]]]]]]; reflexivity.
Qed.

(** Before a call: the parser sleeps at most before the first step, which wakes it. *)
Definition starting (a : app_state) : Prop := idle (at_side a) (at_locals a) 1 /\ (GSMConnect a <> 0 -> AT_COMPonet_Station a <> 0).

Lemma idle_station w l st st' : idle w l st -> st' <> 0 -> idle w l st'.
Proof. intros [H1 H2 H3 _] H4. by split. Qed.

Lemma starting_idle a : starting a -> GSMConnect a <> 0 -> idle (at_side a) (at_locals a) (AT_COMPonet_Station a).
Proof. intros [Hid Haw] Hst. eapply idle_station; [exact Hid|by apply Haw]. Qed.

Lemma sent_accepted x cmd : outcome x true -> sent x cmd = [cmd ++ [13; 10]].
Proof. intros H. inversion H. done. Qed.

Definition crlf (l : list Z) : list Z := l ++ [13; 10].

Definition connected (a : app_state) (ws : list (list Z)) (a' : app_state) : Prop :=
  GSMConnect a' = ConnectServerOK /\ TryNum a' = 0 /\ AT_COMPonet_Station a' = 0 /\ written a' = written a ++ ws /\ OneNetParam a' = OneNetParam a /\ idle (at_side a') (at_locals a') 1.

Lemma wp_connects xs : forall a rest, starting a -> good_param (OneNetParam a) -> 1 <= GSMConnect a <= 9 -> answers a = xs ++ rest -> Forall (fun x => outcome x true) xs ->
  length xs = length (path (GSMConnect a)) ->
  wp (calls (length xs)) a (fun _ a' => connected a (map (fun st => crlf (command_of (OneNetParam a) st)) (path (GSMConnect a))) a' /\ answers a' = rest).
Proof.
  induction xs as [|x xs IH]; intros a rest Hs Hp Hst Hans Hxs Hlen; rewrite path_cons in Hlen |- * by lia; [done|]. cbn [length calls app map] in *. injection Hlen as Hlen. apply Forall_cons in Hxs as [Hx Hxs].
  wp_bind. eapply wp_step_ok; [apply starting_idle; [exact Hs|lia]|exact Hp|exact Hst|exact Hans|exact Hx|]. intros w l Hid. cbv beta. rewrite (sent_accepted _ _ Hx).
  assert (AT_COMPonet_Station a <> 0) as Haw by apply Hid. unfold after_step. destruct (Z.eqb_spec (next_station (GSMConnect a)) ConnectServerOK) as [Hn|Hn].
  - destruct xs; [|done]. wp_ret. split; [|done]. rewrite Hn. split_and!; try done. cbn. eapply idle_station; [exact Hid|done].
  - set (a1 := set_gsm _ _ _). assert (1 <= GSMConnect a1 <= 9) as Hst1 by (unfold a1, next_station, ConnectServer, ConnectServerOK in *; cbn in *; case_match; lia).
    eapply wp_mono; [apply (IH a1 rest)|]; [|exact Hp|exact Hst1|done|exact Hxs|exact Hlen|].
    + split; [cbn; eapply idle_station; [exact Hid|done]|done].
    + cbv beta. intros _ a' [(H1 & H2 & H3 & H4 & H5 & H6) H7]. split; [|exact H7]. split_and!; try done. rewrite H4. cbn [written a1 set_gsm set_io]. by rewrite <-(assoc_L (++)).
Qed.

(** C32: from every station, when the module accepts the commands from there on (the first
    one, that disconnects, need not be accepted), one call of GSM_ConnectingLoop per
    station leads to the connection with the server: exactly the commands of the stations
    are written, the count of failures is 0 and the parser thread is put to sleep. *)
Theorem module_connects a xs rest ok x : starting a -> good_param (OneNetParam a) -> 0 <= GSMConnect a <= 9 -> Forall (fun x => outcome x true) xs ->
  (if GSMConnect a =? 0 then answers a = x :: xs ++ rest /\ outcome x ok /\ length xs = 7%nat else answers a = xs ++ rest /\ length xs = length (path (GSMConnect a))) ->
  wp (calls (length (path (GSMConnect a)))) a (fun _ a' =>
    connected a (if GSMConnect a =? 0 then sent x (command_of (OneNetParam a) 0) ++ map (fun st => crlf (command_of (OneNetParam a) st)) (path 1)
                 else map (fun st => crlf (command_of (OneNetParam a) st)) (path (GSMConnect a))) a' /\ answers a' = rest).
Proof.
  intros Hs Hp Hst Hxs Hans. destruct (Z.eqb_spec (GSMConnect a) 0) as [H0|H0].
  - destruct Hans as (Hans & Hx & Hlen). rewrite H0. change (length (path 0)) with 8%nat. change (calls 8) with (GSM_ConnectingLoop ;; calls 7). wp_bind. eapply wp_step_start; [by destruct Hs|exact Hp|exact H0|exact Hans|exact Hx|].
    intros w l Hid. set (a1 := set_gsm _ _ _). eapply wp_mono; [|].
    { cbv beta. rewrite <-Hlen. apply (wp_connects xs a1 rest); [by split|exact Hp|done|done|exact Hxs|done]. }
    cbv beta. intros _ a' [(H1 & H2 & H3 & H4 & H5 & H6) H7]. split; [|exact H7]. split_and!; try done. rewrite H4. cbn [written a1 set_gsm set_io]. by rewrite <-(assoc_L (++)).
  - destruct Hans as (Hans & Hlen). rewrite <-Hlen. apply wp_connects; [done|done|lia|done..].
Qed.

(** A client as at_client_init leaves it, with the parameters of OneNetParaInit. *)
Definition example_param : net_param := mk_net (text "HMDJ") (text "88888888") (text "183.230.40.33") 80.
Definition example_client_512 : at_client := mk_at_client 0 (repeat 0 512) 512 0 None AT_RESP_OK None.
Definition example_app (st : Z) (xs : list attempt) : app_state := mk_app (mk_at_world example_client_512 ∅ 0 []) (mk_locals 0 0) 1 st 0 0 0 example_param xs [].
Definition plain_ok : attempt := mk_attempt true true (device_lines ([[]] ++ [AT_RESP_END_OK])).

Lemma empty_quiet : quiet_line [].
Proof.
  split; [apply Forall_nil_2|done| |].
  - unfold contains. vm_compute. by intros [? ?].
  - intros n. unfold text_end. cbn. by rewrite andb_false_r.
Qed.

Lemma plain_ok_accepted : outcome plain_ok true.
Proof.
  apply accepted; [|done]. apply Forall_singleton. exact empty_quiet.
Qed.

Lemma example_param_good : good_param example_param.
Proof. split; [split; [by apply text_plain|done]..|done]. Qed.

Lemma example_starting st xs : starting (example_app st xs).
Proof. split; [by split|done]. Qed.

Lemma module_connects_witness :
  wp (calls 8) (example_app 0 (mk_attempt true true [] :: repeat plain_ok 7)) (fun _ a' =>
    connected (example_app 0 (mk_attempt true true [] :: repeat plain_ok 7))
      ([text "AT+CIPCLOSE" ++ [13; 10]] ++ map (fun st => crlf (command_of example_param st)) [1; 2; 3; 4; 5; 6; 7]) a' /\ answers a' = []).
Proof.
  apply (module_connects (example_app 0 (mk_attempt true true [] :: repeat plain_ok 7)) (repeat plain_ok 7) [] false (mk_attempt true true [])).
  - apply example_starting.
  - exact example_param_good.
  - done.
  - repeat (apply Forall_cons_2; [exact plain_ok_accepted|]). constructor.
  - split; [done|]. split; [constructor|done].
Defined.

(** ** Failures *)

Definition tries (st : Z) : Z := if st =? TEST_AT_COMM then 6 else 5.

(** A station whose command is refused (an error line, no answer, or no memory for
    the response) is tried five times, the first one, "AT", six times; then the sequence
    starts again with the disconnection, with the count of failures at 0. *)
Theorem refused_station_restarts xs : forall a rest, starting a -> good_param (OneNetParam a) -> 1 <= GSMConnect a <= 9 -> GSMConnect a <> ConnectServer ->
  answers a = xs ++ rest -> Forall (fun x => outcome x false) xs -> 0 <= TryNum a -> TryNum a + Zlen xs = tries (GSMConnect a) -> xs <> [] ->
  wp (calls (length xs)) a (fun _ a' =>
    GSMConnect a' = 0 /\ TryNum a' = 0 /\ answers a' = rest /\ starting a' /\
    written a' = written a ++ concat (map (fun x => sent x (command_of (OneNetParam a) (GSMConnect a))) xs)).
Proof.
  induction xs as [|x xs IH]; intros a rest Hs Hp Hst H7 Hans Hxs Htry Hlen Hne; [done|]. rewrite Zlen_cons in Hlen. pose proof (Zlen_nonneg xs). apply Forall_cons in Hxs as [Hx Hxs]. cbn [length calls app map concat] in *.
  assert (tries (GSMConnect a) <= 6) as Ht by (unfold tries; case_match; lia).
  wp_bind. eapply wp_step_refused; [apply starting_idle; [exact Hs|lia]|exact Hp|exact Hst|exact H7|exact Hans|exact Hx|lia|]. intros w l Hid. cbv zeta.
  assert (idle w l 1) as Hid1 by (eapply idle_station; [exact Hid|done]).
  assert (limit (GSMConnect a) (TryNum a + 1) = (tries (GSMConnect a) <=? TryNum a + 1)) as -> by (unfold limit, tries, MaxTryNum; case_match; [|done]; destruct (Z.ltb_spec 5 (TryNum a + 1)), (Z.leb_spec 6 (TryNum a + 1)); lia).
  destruct xs as [|x' xs].
  - change (Zlen (@nil attempt)) with 0 in Hlen. rewrite (proj2 (Z.leb_le _ _)) by lia. wp_ret. split_and!; try done. cbn [map concat]. by rewrite app_nil_r.
  - rewrite Zlen_cons in Hlen. pose proof (Zlen_nonneg xs). rewrite (proj2 (Z.leb_gt _ _)) by lia. set (a1 := set_gsm _ _ _).
    eapply wp_mono; [apply (IH a1 rest)|]; [split; [exact Hid1|intros _; apply Hid]|exact Hp|exact Hst|exact H7|done|exact Hxs|cbn; lia|cbn; rewrite Zlen_cons; lia|done|].
    cbv beta. intros _ a' (H1 & H2 & H3 & H4 & H5). split_and!; try done. rewrite H5. cbn [written a1 set_gsm set_io OneNetParam set_client GSMConnect]. by rewrite <-(assoc_L (++)).
Qed.

(** The gateway answers ERROR, then not at all. *)
Definition plain_error : attempt := mk_attempt true true (device_lines ([[]] ++ [AT_RESP_END_ERROR])).

Lemma plain_error_refused : outcome plain_error false.
Proof.
  apply refused; [|by repeat constructor|done|done|done]. apply Forall_singleton. exact empty_quiet.
Qed.

Lemma refused_station_restarts_witness :
  let a := example_app 5 [plain_error; mk_attempt true true []; plain_error; mk_attempt false true []; plain_error] in
  wp (calls 5) a (fun _ a' => GSMConnect a' = 0 /\ TryNum a' = 0 /\ answers a' = [] /\ starting a' /\ written a' = repeat (crlf (command_of example_param 5)) 4).
Proof.
  apply (refused_station_restarts [plain_error; mk_attempt true true []; plain_error; mk_attempt false true []; plain_error] (example_app 5 [plain_error; mk_attempt true true []; plain_error; mk_attempt false true []; plain_error]) []);
    [apply example_starting|exact example_param_good|done|done|done| |done|done|done].
  do 5 (apply Forall_cons_2; [first [exact plain_error_refused|exact silent|by apply no_memory]|]). constructor.
Defined.

(** ** Bluetooth *)

Fixpoint ble_calls (n : nat) : P unit := match n with O => mret tt | S n => APP_ESP32_Config_loop ;; ble_calls n end.

Definition ble_command (st : Z) : list Z :=
  if st =? 2 then text "AT+BLEGATTSSRVCRE" else if st =? 3 then text "AT+BLEGATTSSRVSTART" else if st =? 4 then text "AT+BLEADDR?" else if st =? 5 then text "AT+BLEADVPARAM=32,64,0,0,7"
  else if st =? 6 then text "AT+BLEADVDATA=" ++ quoted (text "0201060A09457370726573736966030302A0") else text "AT+BLEADVSTART".

(** After the module was initialised, one accepted command per station leads to the
    advertisement. *)
Lemma ble_advertises xs : forall a rest, idle (at_side a) (at_locals a) (AT_COMPonet_Station a) -> 2 <= BLE_Station a <= 7 -> Zlen xs = 8 - BLE_Station a ->
  answers a = xs ++ rest -> Forall (fun x => outcome x true) xs ->
  wp (ble_calls (length xs)) a (fun _ a' => BLE_Station a' = 8 /\ BLE_TryNum a' = 0 /\ AT_COMPonet_Station a' = 0 /\ answers a' = rest /\
    written a' = written a ++ map (fun st => crlf (ble_command st)) (seqZ (BLE_Station a) (8 - BLE_Station a))).
Proof.
  induction xs as [|x xs IH]; intros a rest Hid Hst Hlen Hans Hxs; [change (Zlen (@nil attempt)) with 0 in Hlen; lia|].
  rewrite Zlen_cons in Hlen. pose proof (Zlen_nonneg xs). apply Forall_cons in Hxs as [Hx Hxs]. cbn [length ble_calls app] in *. rewrite seqZ_cons by lia. cbn [map].
  assert (forall st, 2 <= st <= 7 -> good_command (ble_command st)) as Hgood.
  { intros st Hs. assert (st = 2 \/ st = 3 \/ st = 4 \/ st = 5 \/ st = 6 \/ st = 7) as [->|[->|[->|[->|[->| ->]]]]] by lia; (split; [|done]); intros Hin; vm_compute in Hin; by repeat (apply list_elem_of_In in Hin; simpl in Hin; intuition discriminate). }
  specialize (Hgood _ Hst). assert (BLE_Station a = 7 \/ 2 <= BLE_Station a <= 6) as [H7|H6] by lia.
  - wp_bind. unfold APP_ESP32_Config_loop. wp_bind. eapply wp_run; [reflexivity|]. cbv beta zeta. rewrite H7 in *. cbn [Z.eqb Pos.eqb]. wp_bind. eapply wp_command; [exact Hid|exact Hans|exact Hx|exact Hgood|]. intros w l r Hid' ->. rewrite (sent_accepted _ _ Hx).
    unfold modify. wp_bind. do 2 (eapply wp_run; [reflexivity|]; cbv beta). wp_ret. destruct xs; [|rewrite Zlen_cons in Hlen; pose proof (Zlen_nonneg xs); lia]. wp_ret. done.
  - set (a1 := fun w l => set_ble (set_io (set_client a w l) (xs ++ rest) (written a ++ sent x (ble_command (BLE_Station a)))) (BLE_Station a + 1) 0).
    assert (forall Q, (forall w l, idle w l (AT_COMPonet_Station a) -> Q None (a1 w l)) -> wp APP_ESP32_Config_loop a Q) as Hstep.
    { intros Q HQ. assert (BLE_Station a = 2 \/ BLE_Station a = 3 \/ BLE_Station a = 4 \/ BLE_Station a = 5 \/ BLE_Station a = 6) as Hcases by lia. unfold a1 in HQ. clear Hst H6 Hlen IH a1.
      unfold APP_ESP32_Config_loop. wp_bind. eapply wp_run; [reflexivity|]. cbv beta zeta.
      destruct Hcases as [Hc|[Hc|[Hc|[Hc|Hc]]]]; rewrite Hc in *; cbn [Z.eqb Pos.eqb]; unfold ble_step, modify; wp_bind; (eapply wp_command; [exact Hid|exact Hans|exact Hx|exact Hgood|]); intros w l r Hid' ->;
        wp_bind; do 2 (eapply wp_run; [reflexivity|]; cbv beta); wp_ret; exact (HQ w l Hid'). }
    wp_bind. apply Hstep. intros w l Hid'. cbv beta. eapply wp_mono; [apply (IH (a1 w l) rest)|]; [exact Hid'|cbn; lia|cbn; lia|done|exact Hxs|]. cbv beta. intros _ a' (H1 & H2 & H3 & H4 & H5). split_and!; try done.
    rewrite H5. cbn [written a1 set_ble set_io BLE_Station]. rewrite (sent_accepted _ _ Hx), <-(assoc_L (++)). cbn [app]. do 3 f_equal. f_equal; lia.
Qed.

(** ** Answers that do harm *)

(** A line with the keyword whose first word has more than nine characters is copied
    past the end of Temp. *)
Lemma long_word_overflows :
  ESP32_SendCOM_AT_CMD AT_ReadIPAddr (text "OK") 100 0 (example_app 6 [mk_attempt true true (device_lines ([text "+CIFSR:LOOKUP_OK"] ++ [AT_RESP_END_OK]))]) = None.
Proof. vm_compute. done. Qed.

(** A percent sign in the key of the gateway is taken for a conversion. *)
Lemma percent_in_key : ESP32_SendCOM_AT_CMD (command_of (mk_net (text "HMDJ") (text "100%s") [] 80) 5) (text "OK") 1000 0 (example_app 5 []) = None.
Proof. vm_compute. done. Qed.
